(* ===== verification/_CoqProject ===== *)
-Q . S2P
Prelude.v
Mktime.v
Vsprintf.v
Libstring.v
Console.v
Task.v
Memory.v
Sched.v
WaitQueue.v
Services.v
Fork.v
Exit.v
Signal.v
Sys.v
Tty.v
Ioctl.v
Fs.v
Blk.v
Progress.v
Buffer.v
Bitmap.v
Inode.v
FileDev.v
View.v
Stored.v
Hold.v
Alloc.v
Volume.v
FileWrite.v
Pipe.v
Namei.v
Lookup.v
Super.v
Open.v
ReadWrite.v
Calls.v
Exec.v
Args.v
Malloc.v
Hd.v
Floppy.v
Disk.v
Start.v
