(* ===== verification/Prelude.v ===== *)
(** * A verified model of the Linux 0.11 kernel

    The sources are under [src/linux-0.11].  They are modelled function by
    function: a C routine is a [Definition] of the same name in the kernel monad of
    this file, with its conditions, early returns and stores in the order of the
    code.  The other directories of the repository are saved copies of
    independent programs and are not modelled.

    ** The monad and the states

    [M S A] is [S -> outcome S A].  A routine ends by [Done], by [Panic] (the
    kernel's [panic]), by [Fault] (an access the C program leaves undefined: an
    index out of range, a null pointer) or by [NoFuel].  [wp m Q s] says that [m]
    run in [s] ends by [Done] with [Q]: it is total correctness, neither fault nor
    panic nor exhausted fuel satisfies it.  [swp] also allows [Panic].  Integers are [Z] in the range
    of their C type, the conversions are [u8], [u16], [u32], [i8], [i16], [i32].

    The states: [Console.console] (the display and its variables),
    [Task.kernel] (tasks, wait queues, timers, terminals; it contains the console), [Memory.mm]
    (physical memory), [Fs.fs] (buffers, inodes, files, requests; it contains the kernel), and
    [Start.machine], which has all of them and the interrupt descriptor table.
    [zoom] runs a routine of a part on the whole.

    ** Files

    - [Prelude]: the monad, its logic, machine integers, record update, automation.
    - [Mktime]: kernel/mktime.c.
    - [Vsprintf]: kernel/vsprintf.c.
    - [Libstring]: include/string.h, over the string instructions of the processor.
    - [Console]: kernel/chr_drv/console.c, and the abstract screen it implements.
    - [Task]: include/linux/sched.h and the state of the kernel.
    - [Memory]: mm/memory.c.
    - [Sched]: kernel/sched.c.
    - [WaitQueue]: tasks that call [sleep_on] of [Sched], cut where they are switched out, one that
      calls [wake_up], and all others, which do anything else, as steps of one system.
    - [Services]: the interface (a class) of what [fork], [exit] and [signal] use of memory and files, with the
      laws of the memory manager and of counting users; of closing files and giving up inodes nothing is assumed.
    - [Fork], [Exit], [Signal], [Sys]: the files of kernel/ of these names, against [Services].
    - [Tty]: include/linux/tty.h, kernel/chr_drv/tty_io.c, lib/ctype.c.
    - [Ioctl]: kernel/chr_drv/tty_ioctl.c, fs/char_dev.c, serial.c (definitions).
    - [Fs]: include/linux/fs.h, the state of the file system and its environment [Env].
    - [Blk]: kernel/blk_drv/ll_rw_blk.c, blk.h, ramdisk.c; the interface [SyncDevice] of a
      device that transfers at once, implemented by the RAM disk.
    - [Progress]: routines that never run for ever, and what the drivers do to their queues.
    - [Buffer]: fs/buffer.c against [SyncDevice], and the loading of the RAM disk.
    - [Bitmap]: fs/bitmap.c and the search of the super blocks in fs/super.c.
    - [Inode]: fs/inode.c, fs/truncate.c and [new_inode]; it supplies the [sync_inodes] of [Buffer].
    - [FileDev]: fs/file_dev.c, fs/block_dev.c, fs/pipe.c.
    - [View]: borrowing a buffer of a device that shows a map of blocks; the bytes of a file.
    - [Stored]: a buffer that is changed and given back; inodes on the disk.
    - [Hold]: several buffers borrowed at once; who uses which, and how many are left.
    - [Alloc]: the blocks that the bitmap says are used, above the cache.
    - [Volume]: a mounted device between two operations, and the blocks of a file as a tree.
    - [FileWrite]: [file_write] on such a device.
    - [Pipe]: the ring of a pipe as a queue of bytes.
    - [Namei]: fs/namei.c; [Lookup]: the search of a directory.
    - [Super]: the rest of fs/super.c; [Open]: fs/open.c, fs/fcntl.c; [ReadWrite]: fs/read_write.c,
      fs/stat.c, fs/ioctl.c; [Calls]: file descriptors and [sys_lseek].
    - [Exec]: fs/exec.c; [Args]: the argument pages of a new program.
    - [Malloc]: lib/malloc.c.
    - [Hd], [Floppy]: kernel/blk_drv/hd.c and floppy.c with their interrupt handlers; [Disk]: the
      two drivers as the [Env] of the file system, and what the disk driver does.
    - [Start]: kernel/traps.c, kernel/math/math_emulate.c, the gates of asm/system.h, and
      [main] of init/main.c up to the change to user mode.

    ** What the theorems show

    - Buffer cache: a read through the cache delivers what the block holds and changes the
      contents of no block ([bread_view], a refinement of a map from block numbers to blocks);
      a pass of [sync_dev] makes the device hold what the cache shows ([sync_buffers_stored]).
    - Files: above that map [file_read] delivers the bytes of the file, through the indirect
      blocks ([file_read_ok]); [file_write] puts the user's bytes into the file and nothing
      else, with blocks added from the bitmap where there were none, until the device is full
      ([file_write_ok]), and a read gets back what was written ([write_read_back]);
      [find_entry] finds the first entry of a directory with the
      name ([find_entry_ok]); an inode written is read back and nothing else changes
      ([inode_roundtrip]), and every field is read from its bytes in the record of the inode
      ([read_inode_layout]); [new_block] and [free_block] implement the set of used blocks
      ([new_block_ok], [free_block_ok]); [sys_lseek] keeps the position in its range
      ([sys_lseek_bounds]); a pipe is a queue ([pipe_fifo]); what is written through the
      block device does not reach the cache ([block_write_lost], a fault of the code).
    - Programs: [copy_strings] lays the arguments out below the top of the pages and
      changes nothing else ([copy_strings_ok]); when they do not fit the code goes wrong
      ([copy_strings_overrun]).
    - Block requests: the queue stays in elevator order ([add_request_elevator]), a block
      written to the RAM disk is the block read back ([write_then_read]); in a read of the
      hard disk every interrupt takes one sector, the last one ends the request, and an error
      has the command sent again or, near the end of a partition, gives the request up ([hd_read_step]);
      the hard disk's and the floppy's queue are gone through in bounded time, and the routines of the floppy
      driver, which call each other, come to an end ([floppy_terminates]).
    - Memory: the page counts equal the number of references to every page, kept by
      [copy_page_tables] and [free_page_tables]; a write fault leaves the page private
      ([write_verify_private]); the kernel's allocator hands out objects that do not
      overlap and takes them back ([malloc_ok], [free_s_ok]).
    - Tasks: [schedule] picks a runnable task of maximal counter; sleeping and waking lose no
      task ([sleep_on_none_lost], [wake_up_reaches_all]), whatever other tasks do, except in
      [interruptible_sleep_on]; fork yields a child that is a
      copy under a fresh number; exit gives the children to task 1 and, once files and inodes are given up,
      which may wait, leaves a zombie and tells the father ([exit_task_zombie]); wait reaps it
      ([waitpid_reaps]); a caught signal gets its frame, or the stack cannot be written and the
      process ends ([do_signal_frame]).
    - Terminals: cooking a line yields the edited line ([copy_to_cooked_line]).
    - Console: every character refines an operation of an abstract screen ([con_char_refines]).
    - Library: [kernel_mktime] is the calendar, [number] prints what reads back, [vsprintf]
      ends; [strtok] gives the tokens in turn ([strtok_ok]), [memmove] copies ranges that
      overlap ([memmove_ok]), [strncat] stores one null too many ([strncat_ok]).
    - Composition: [main] brings the machine into the state in which the theorems on the
      components start: their invariants hold, the gates are set, the clock is read
      ([main_ok]).

    ** Loops and fuel

    Recursion that is not structural uses [loop] with fuel.  Where the C loop is
    bounded by a table the fuel is the size of the table, and the theorems (in [wp]) prove
    that it is enough.  Loops that wait for another task or an interrupt have the
    fuel of the class [Env] (or an argument); what the other tasks do while the caller
    sleeps is the argument [others] of [Env].  [loop_fuel] says that more fuel changes nothing.

    ** Parameters

    [Services] (page tables, files and inodes for fork, exit and signals), [Paging] and [PageSupply] (the
    page tables and free pages that exec uses), [Env] (other tasks, the request routines of
    the drivers, the disk-change line; [Disk] supplies them from [Hd] and [Floppy]), [Ports]
    (what the hardware answers on a port: anything), [Dma] (the addresses that the DMA controller is given),
    [Sync] ([sync_inodes], defined above the buffer cache), the contents of memory at
    boot, the video adapter's type, time ([jiffies] advances by the clock tick).

    ** Not modelled

    Assembly (boot, the entry points of traps and system calls, the keyboard and serial
    interrupts), the output of [printk] and [panic] (what they are given is kept in a log), and
    what the first process does: [init] of init/main.c and the stubs of lib/, which call the
    kernel through int 0x80.  Interrupts are atomic with respect to the routines
    modelled, which hold them off where the code uses cli and sti. *)
From stdpp Require Export base option list list_numbers gmap strings.
From Stdlib Require Export ZArith Lia.
#[global] Open Scope Z_scope.

(** ** Machine integers

    C's integer types are kept as [Z] in the range of the type; the functions
    below are the conversions the compiler inserts. *)
Definition u8 (z : Z) : Z := z mod 2 ^ 8.
Definition u16 (z : Z) : Z := z mod 2 ^ 16.
Definition u32 (z : Z) : Z := z mod 2 ^ 32.
Definition i8 (z : Z) : Z := (z + 2 ^ 7) mod 2 ^ 8 - 2 ^ 7.
Definition i16 (z : Z) : Z := (z + 2 ^ 15) mod 2 ^ 16 - 2 ^ 15.
Definition i32 (z : Z) : Z := (z + 2 ^ 31) mod 2 ^ 32 - 2 ^ 31.

(** C's truth value of an integer. *)
Definition truth (z : Z) : bool := negb (z =? 0).

(** ** Outcomes and the kernel monad

    A kernel routine runs on a state and ends in one of four ways: it returns,
    it calls [panic] (which never returns), it performs an access that the C
    program leaves undefined (an array bound or a null pointer), or it is still
    running when the fuel of a loop of the model is used up. *)
Inductive outcome (S A : Type) : Type :=
  | Done (a : A) (s : S)
  | Panic (msg : string)
  | Fault
  | NoFuel.
Arguments Done {S A} a s.
Arguments Panic {S A} msg.
Arguments Fault {S A}.
Arguments NoFuel {S A}.

Definition M (S A : Type) : Type := S -> outcome S A.

Definition ret {S A} (a : A) : M S A := fun s => Done a s.
Definition bind {S A B} (m : M S A) (k : A -> M S B) : M S B :=
  fun s => match m s with
           | Done a s' => k a s'
           | Panic msg => Panic msg
           | Fault => Fault
           | NoFuel => NoFuel
           end.
Definition panic {S A} (msg : string) : M S A := fun _ => Panic msg.
Definition fault {S A} : M S A := fun _ => Fault.
Definition nofuel {S A} : M S A := fun _ => NoFuel.
Definition get {S} : M S S := fun s => Done s s.
Definition gets {S A} (f : S -> A) : M S A := fun s => Done (f s) s.
Definition put {S} (s : S) : M S unit := fun _ => Done tt s.
Definition modify {S} (f : S -> S) : M S unit := fun s => Done tt (f s).

(** Reading through a possibly invalid pointer or index. *)
Definition deref {S A} (o : option A) : M S A :=
  match o with Some a => ret a | None => fault end.

Declare Scope kernel_scope.
Delimit Scope kernel_scope with kernel.
Notation "x <- m ;; k" := (bind m (fun x => k))
  (at level 100, m at next level, right associativity) : kernel_scope.
Notation "m ;;; k" := (bind m (fun _ => k))
  (at level 100, right associativity) : kernel_scope.
#[global] Open Scope kernel_scope.

Definition when {S} (b : bool) (m : M S unit) : M S unit := if b then m else ret tt.

(** A C loop: the body either goes round again with new locals or leaves the
    loop (by its condition, [break] or [return]) with a result. *)
Fixpoint loop {S A R} (fuel : nat) (body : A -> M S (A + R)) (a : A) : M S R :=
  match fuel with
  | O => nofuel
  | Datatypes.S n => r <- body a ;;
                     match r with inl a' => loop n body a' | inr x => ret x end
  end.

(** A counted loop without early exit. *)
Fixpoint for_each {S A} (l : list A) (f : A -> M S unit) : M S unit :=
  match l with
  | [] => ret tt
  | a :: l' => f a ;;; for_each l' f
  end.

(** Running a component's routine inside a larger state. *)
Definition zoom {S T A} (proj : S -> T) (inj : T -> S -> S) (m : M T A) : M S A :=
  fun s => match m (proj s) with
           | Done a t => Done a (inj t s)
           | Panic msg => Panic msg
           | Fault => Fault
           | NoFuel => NoFuel
           end.

(** ** Record update *)
Class Setter {R T : Type} (proj : R -> T) : Type := upd : (T -> T) -> R -> R.
Arguments upd {R T} proj {_} g r /.
Notation "r <| f := v |>" := (upd f (fun _ => v) r)
  (at level 1, left associativity, format "r  <| f  :=  v |>") : kernel_scope.
Notation "r <| f ::= g |>" := (upd f g r)
  (at level 1, left associativity, format "r  <| f  ::=  g |>") : kernel_scope.

(** ** Program logic

    [wp m Q s]: started in [s], [m] returns (it neither panics, faults nor runs
    out of fuel) and its result and final state satisfy [Q].
    [swp m Q s]: the same, except that [m] may end in [panic], the kernel's own
    way of stopping on a failed internal check. *)
Definition wp {S A} (m : M S A) (Q : A -> S -> Prop) (s : S) : Prop :=
  match m s with Done a s' => Q a s' | _ => False end.
Definition swp {S A} (m : M S A) (Q : A -> S -> Prop) (s : S) : Prop :=
  match m s with Done a s' => Q a s' | Panic _ => True | _ => False end.

Section Logic.
Context {S : Type}.
Implicit Types s : S.

Lemma wp_swp {A} (m : M S A) Q s : wp m Q s -> swp m Q s.
Proof. unfold wp, swp. by destruct (m s). Qed.
Lemma wp_mono {A} (m : M S A) (Q Q' : A -> S -> Prop) s :
  wp m Q s -> (forall a s', Q a s' -> Q' a s') -> wp m Q' s.
Proof. unfold wp. destruct (m s); naive_solver. Qed.
Lemma swp_mono {A} (m : M S A) (Q Q' : A -> S -> Prop) s :
  swp m Q s -> (forall a s', Q a s' -> Q' a s') -> swp m Q' s.
Proof. unfold swp. destruct (m s); naive_solver. Qed.

Lemma wp_ret {A} (a : A) Q s : wp (ret a) Q s <-> Q a s.
Proof. done. Qed.
Lemma wp_bind {A B} (m : M S A) (k : A -> M S B) Q s :
  wp (bind m k) Q s <-> wp m (fun a => wp (k a) Q) s.
Proof. unfold wp, bind. by destruct (m s). Qed.
Lemma swp_ret {A} (a : A) Q s : swp (ret a) Q s <-> Q a s.
Proof. done. Qed.
Lemma swp_bind {A B} (m : M S A) (k : A -> M S B) Q s :
  swp (bind m k) Q s <-> swp m (fun a => swp (k a) Q) s.
Proof. unfold swp, bind. by destruct (m s). Qed.
Lemma wp_gets {A} (f : S -> A) Q s : wp (gets f) Q s <-> Q (f s) s.
Proof. done. Qed.
Lemma wp_get (Q : S -> S -> Prop) s : wp get Q s <-> Q s s.
Proof. done. Qed.
Lemma wp_put s' (Q : unit -> S -> Prop) s : wp (put s') Q s <-> Q tt s'.
Proof. done. Qed.
Lemma swp_get (Q : S -> S -> Prop) s : swp get Q s <-> Q s s.
Proof. done. Qed.
Lemma swp_put s' (Q : unit -> S -> Prop) s : swp (put s') Q s <-> Q tt s'.
Proof. done. Qed.
Lemma wp_modify (f : S -> S) Q s : wp (modify f) Q s <-> Q tt (f s).
Proof. done. Qed.
Lemma swp_gets {A} (f : S -> A) Q s : swp (gets f) Q s <-> Q (f s) s.
Proof. done. Qed.
Lemma swp_modify (f : S -> S) Q s : swp (modify f) Q s <-> Q tt (f s).
Proof. done. Qed.
Lemma swp_panic {A} msg (Q : A -> S -> Prop) s : swp (panic msg) Q s <-> True.
Proof. done. Qed.
Lemma wp_deref {A} (o : option A) (Q : A -> S -> Prop) s a :
  o = Some a -> Q a s -> wp (deref o) Q s.
Proof. by intros ->. Qed.
Lemma swp_deref {A} (o : option A) (Q : A -> S -> Prop) s a :
  o = Some a -> Q a s -> swp (deref o) Q s.
Proof. by intros ->. Qed.

(** Total correctness of a loop: an invariant of locals and state together
    with a measure that every further round decreases. *)
Lemma wp_loop {A R} (body : A -> M S (A + R)) (I : A -> S -> Prop)
    (m : A -> S -> nat) (Q : R -> S -> Prop) :
  (forall a s, I a s ->
     wp (body a) (fun r s' => match r with
                              | inl a' => I a' s' /\ (m a' s' < m a s)%nat
                              | inr x => Q x s' end) s) ->
  forall fuel a s, I a s -> (m a s < fuel)%nat -> wp (loop fuel body a) Q s.
Proof.
  intros Hbody. induction fuel as [|fuel IH]; intros a s HI Hm; [lia|].
  cbn [loop]. apply wp_bind. eapply wp_mono; [by apply Hbody|].
  intros [a'|x] s' H; [|done]. apply IH; [apply H|lia].
Qed.
Lemma swp_loop {A R} (body : A -> M S (A + R)) (I : A -> S -> Prop)
    (m : A -> S -> nat) (Q : R -> S -> Prop) :
  (forall a s, I a s ->
     swp (body a) (fun r s' => match r with
                               | inl a' => I a' s' /\ (m a' s' < m a s)%nat
                               | inr x => Q x s' end) s) ->
  forall fuel a s, I a s -> (m a s < fuel)%nat -> swp (loop fuel body a) Q s.
Proof.
  intros Hbody. induction fuel as [|fuel IH]; intros a s HI Hm; [lia|].
  cbn [loop]. apply swp_bind. eapply swp_mono; [by apply Hbody|].
  intros [a'|x] s' H; [|done]. apply IH; [apply H|lia].
Qed.

(** Extra fuel changes nothing once a loop has finished. *)
Lemma loop_fuel {A R} (body : A -> M S (A + R)) n m a s :
  loop n body a s <> NoFuel -> (n <= m)%nat -> loop m body a s = loop n body a s.
Proof.
  revert m a s. induction n as [|n IH]; intros m a s Hn Hle; [done|].
  destruct m as [|m]; [lia|]. cbn [loop] in *. unfold bind in *.
  destruct (body a s) as [[a'|x] s'| | |]; [|done..]. apply IH; [done|lia].
Qed.

Lemma wp_for_each {A} (l : list A) (f : A -> M S unit) (I : list A -> S -> Prop) :
  (forall a l' s, I (a :: l') s -> wp (f a) (fun _ => I l') s) ->
  forall s, I l s -> wp (for_each l f) (fun _ => I []) s.
Proof.
  intros Hf. induction l as [|a l IH]; intros s HI; [done|].
  cbn [for_each]. apply wp_bind. eapply wp_mono; [by apply Hf|].
  intros [] s' H. by apply IH.
Qed.
Lemma swp_for_each {A} (l : list A) (f : A -> M S unit) (I : list A -> S -> Prop) :
  (forall a l' s, I (a :: l') s -> swp (f a) (fun _ => I l') s) ->
  forall s, I l s -> swp (for_each l f) (fun _ => I []) s.
Proof.
  intros Hf. induction l as [|a l IH]; intros s HI; [done|].
  cbn [for_each]. apply swp_bind. eapply swp_mono; [by apply Hf|].
  intros [] s' H. by apply IH.
Qed.

(** A loop over the integers from [a] on. *)
Lemma wp_for_seq n (f : Z -> M S unit) (I : Z -> S -> Prop) : forall a,
  0 <= n -> (forall i s, a <= i < a + n -> I i s -> wp (f i) (fun _ s' => I (i + 1) s') s) ->
  forall s, I a s -> wp (for_each (seqZ a n) f) (fun _ s' => I (a + n) s') s.
Proof.
  intros a Hn. revert a. pattern n. apply natlike_ind; [|clear n Hn|exact Hn].
  - intros a _ s HI. cbn. rewrite Z.add_0_r. exact HI.
  - intros n Hn IH a Hf s HI. rewrite seqZ_cons by lia. cbn [for_each]. apply wp_bind.
    eapply wp_mono; [apply Hf; [lia|done]|]. intros [] s' HI'.
    replace (Z.pred (Z.succ n)) with n by lia. replace (a + Z.succ n) with (Z.succ a + n) by lia.
    apply IH; [|exact HI']. intros i s'' Hi. apply Hf. lia.
Qed.
End Logic.

Lemma bind_run {S A B} (m : M S A) (k : A -> M S B) s a s' : m s = Done a s' -> bind m k s = k a s'.
Proof. unfold bind. by intros ->. Qed.
Lemma bind_assoc {S A B C} (m : M S A) (f : A -> M S B) (g : B -> M S C) s :
  bind (bind m f) g s = bind m (fun a => bind (f a) g) s.
Proof. unfold bind. by destruct (m s). Qed.
Lemma bind_ret {S A B} (a : A) (f : A -> M S B) s : bind (ret a) f s = f a s.
Proof. done. Qed.
(** Run the first command of a sequence by an equation for it. *)
Tactic Notation "run" uconstr(H) := erewrite bind_run by (eapply H).

Create Rewrite HintDb wp.
Create Rewrite HintDb mach.
#[export] Hint Rewrite @wp_ret @wp_bind @swp_ret @swp_bind @wp_gets @wp_modify
  @wp_get @wp_put @swp_get @swp_put @swp_gets @swp_modify @swp_panic : wp.

(** Symbolic execution of straight-line monadic code. *)
Ltac wp_run := autorewrite with wp; cbv beta.

(** [lia] with Euclidean division and remainder by constants. *)
Ltac dlia := Z.to_euclidean_division_equations; lia.

(** ** Machine integers: laws *)
Lemma i32_range z : - 2 ^ 31 <= i32 z < 2 ^ 31.
Proof. unfold i32. pose proof (Z.mod_pos_bound (z + 2 ^ 31) (2 ^ 32)). lia. Qed.
Lemma u32_range z : 0 <= u32 z < 2 ^ 32.
Proof. apply Z.mod_pos_bound. lia. Qed.
Lemma u16_range z : 0 <= u16 z < 2 ^ 16.
Proof. apply Z.mod_pos_bound. lia. Qed.
Lemma u8_range z : 0 <= u8 z < 2 ^ 8.
Proof. apply Z.mod_pos_bound. lia. Qed.
Lemma i32_id z : - 2 ^ 31 <= z < 2 ^ 31 -> i32 z = z.
Proof. intros. unfold i32. rewrite Z.mod_small; lia. Qed.
Lemma u32_id z : 0 <= z < 2 ^ 32 -> u32 z = z.
Proof. apply Z.mod_small. Qed.
Lemma u16_id z : 0 <= z < 2 ^ 16 -> u16 z = z.
Proof. apply Z.mod_small. Qed.
Lemma u8_id z : 0 <= z < 2 ^ 8 -> u8 z = z.
Proof. apply Z.mod_small. Qed.
Lemma i32_add_idemp_l a b : i32 (i32 a + b) = i32 (a + b).
Proof.
  unfold i32. f_equal.
  replace ((a + 2 ^ 31) mod 2 ^ 32 - 2 ^ 31 + b + 2 ^ 31)
    with ((a + 2 ^ 31) mod 2 ^ 32 + b) by lia.
  rewrite Zplus_mod_idemp_l. f_equal. lia.
Qed.
Lemma i32_sub_idemp_l a b : i32 (i32 a - b) = i32 (a - b).
Proof. rewrite <- (Z.add_opp_r (i32 a)), i32_add_idemp_l. done. Qed.
#[export] Hint Rewrite i32_add_idemp_l i32_sub_idemp_l : mach.
Lemma i32_ex z : exists k, i32 z = z + k * 2 ^ 32.
Proof. exists (- ((z + 2 ^ 31) / 2 ^ 32)). unfold i32. dlia. Qed.
Lemma i32_eqm a b : (a - b) mod 2 ^ 32 = 0 -> i32 a = i32 b.
Proof.
  intros H. unfold i32. f_equal.
  replace (a + 2 ^ 31) with (b + 2 ^ 31 + ((a - b) / 2 ^ 32) * 2 ^ 32) by dlia.
  apply Z_mod_plus_full.
Qed.

(** The ring operations of 32-bit integers may be computed exactly and
    converted once at the end. *)
Ltac i32_ring :=
  apply i32_eqm;
  repeat match goal with
  | |- context [i32 ?z] =>
      lazymatch z with context [i32 _] => fail | _ => idtac end;
      let k := fresh "k" in let E := fresh "E" in
      destruct (i32_ex z) as [k E]; rewrite E; clear E
  end;
  dlia.
