(* ===== verification/Mktime.v ===== *)
(** * Kernel time: [kernel/mktime.c]

    [kernel_mktime] turns the broken-down time read from the CMOS clock into
    seconds since 1970.  The model keeps the table and the 32-bit arithmetic of
    the source; the specification counts days year by year and month by month
    in the Gregorian calendar. *)
From S2P Require Import Prelude.

Module Mktime.

Record tm : Type := mk_tm {
  tm_sec : Z; tm_min : Z; tm_hour : Z; tm_mday : Z; tm_mon : Z; tm_year : Z
}.

Definition MINUTE : Z := 60.
Definition HOUR : Z := 60 * MINUTE.
Definition DAY : Z := 24 * HOUR.
Definition YEAR : Z := 365 * DAY.

(** Offset of each month's first day, in a leap year. *)
Definition month : list Z :=
  [ 0;
    DAY * 31;
    DAY * (31+29);
    DAY * (31+29+31);
    DAY * (31+29+31+30);
    DAY * (31+29+31+30+31);
    DAY * (31+29+31+30+31+30);
    DAY * (31+29+31+30+31+30+31);
    DAY * (31+29+31+30+31+30+31+31);
    DAY * (31+29+31+30+31+30+31+31+30);
    DAY * (31+29+31+30+31+30+31+31+30+31);
    DAY * (31+29+31+30+31+30+31+31+30+31+30) ].

(** [long kernel_mktime(struct tm *tm)]; an index outside [month] is undefined
    in C and has no result here. *)
Definition kernel_mktime (t : tm) : option Z :=
  let year := i32 (tm_year t - 70) in
  let res := i32 (YEAR * year + DAY * ((year + 1) ÷ 4)) in
  if tm_mon t <? 0 then None else
  m ← month !! Z.to_nat (tm_mon t);
  let res := i32 (res + m) in
  let res := if (1 <? tm_mon t) && truth (Z.rem (year + 2) 4)
             then i32 (res - DAY) else res in
  let res := i32 (res + DAY * (tm_mday t - 1)) in
  let res := i32 (res + HOUR * tm_hour t) in
  let res := i32 (res + MINUTE * tm_min t) in
  Some (i32 (res + tm_sec t)).

(** ** Specification: the Gregorian calendar *)
Definition is_leap (y : Z) : bool :=
  (y mod 4 =? 0) && (negb (y mod 100 =? 0) || (y mod 400 =? 0)).
Definition days_in_year (y : Z) : Z := if is_leap y then 366 else 365.
Definition days_in_month (y m : Z) : Z :=
  if m =? 1 then (if is_leap y then 29 else 28)
  else if (m =? 3) || (m =? 5) || (m =? 8) || (m =? 10) then 30 else 31.

(** Sum of [f a], ..., [f (a + n - 1)]. *)
Fixpoint sum_from (f : Z -> Z) (a : Z) (n : nat) : Z :=
  match n with O => 0 | Datatypes.S k => sum_from f a k + f (a + Z.of_nat k) end.

Definition days_before_year (y : Z) : Z := sum_from days_in_year 1970 (Z.to_nat (y - 1970)).
Definition days_before_month (y m : Z) : Z := sum_from (days_in_month y) 0 (Z.to_nat m).

Definition epoch_seconds (t : tm) : Z :=
  let y := 1900 + tm_year t in
  (days_before_year y + days_before_month y (tm_mon t) + (tm_mday t - 1)) * DAY
  + tm_hour t * HOUR + tm_min t * MINUTE + tm_sec t.

(** A date the calendar has. *)
Definition valid_tm (t : tm) : Prop :=
  0 <= tm_mon t < 12 /\
  1 <= tm_mday t <= days_in_month (1900 + tm_year t) (tm_mon t) /\
  0 <= tm_hour t < 24 /\ 0 <= tm_min t < 60 /\ 0 <= tm_sec t < 60.

(** ** Lemmas *)
Lemma sum_from_ext f g a n :
  (forall k, (k < n)%nat -> f (a + Z.of_nat k) = g (a + Z.of_nat k)) ->
  sum_from f a n = sum_from g a n.
Proof.
  induction n as [|n IH]; intros H; [done|]. cbn [sum_from].
  rewrite IH by (intros; apply H; lia). by rewrite H by lia.
Qed.

(** The three boolean years the table needs, decided once and for all. *)
Lemma leap_in_range y : 1970 <= y <= 2099 -> is_leap y = (y mod 4 =? 0).
Proof.
  intros H. unfold is_leap. destruct (y mod 4 =? 0) eqn:E; [|done].
  apply Z.eqb_eq in E. cbn [andb].
  destruct (y mod 100 =? 0) eqn:E1; [|done]. cbn [negb orb].
  apply Z.eqb_eq in E1. apply Z.eqb_eq.
  assert (y = 2000) as -> by dlia. done.
Qed.

Lemma days_before_year_closed n :
  (n <= 129)%nat ->
  sum_from days_in_year 1970 n = 365 * Z.of_nat n + (Z.of_nat n + 1) / 4.
Proof.
  induction n as [|n IH]; intros Hn; [done|].
  cbn [sum_from]. rewrite IH by lia. unfold days_in_year.
  rewrite leap_in_range by lia.
  destruct ((1970 + Z.of_nat n) mod 4 =? 0) eqn:E; dlia.
Qed.

Lemma days_before_month_closed y m n :
  1970 <= y <= 2099 -> month !! n = Some m ->
  DAY * days_before_month y (Z.of_nat n) =
    m - (if (1 <? Z.of_nat n) && negb (is_leap y) then DAY else 0).
Proof.
  intros Hy Hm. assert (n < 12)%nat as Hn by (apply lookup_lt_Some in Hm; exact Hm).
  unfold days_before_month. rewrite Nat2Z.id.
  do 12 (destruct n as [|n]; [injection Hm as <-; cbn [sum_from];
    unfold days_in_month; cbn; destruct (is_leap y); reflexivity |]). lia.
Qed.

Lemma leap_offset y :
  1970 <= y <= 2099 -> truth (Z.rem (y - 1970 + 2) 4) = negb (is_leap y).
Proof.
  intros H. rewrite leap_in_range by done. unfold truth. f_equal.
  rewrite Z.rem_mod_nonneg by lia.
  destruct (Z.eqb_spec ((y - 1970 + 2) mod 4) 0), (Z.eqb_spec (y mod 4) 0); dlia.
Qed.

Lemma kernel_mktime_epoch (t : tm) :
  70 <= tm_year t <= 199 -> valid_tm t ->
  kernel_mktime t = Some (i32 (epoch_seconds t)).
Proof.
  intros Hy (Hmon & Hday & Hh & Hmi & Hs).
  destruct (lookup_lt_is_Some_2 month (Z.to_nat (tm_mon t))) as [m Hm].
  { change (length month) with 12%nat. lia. }
  unfold kernel_mktime. rewrite (i32_id (tm_year t - 70)) by lia.
  destruct (Z.ltb_spec (tm_mon t) 0); [lia|]. rewrite Hm. cbn [mbind option_bind].
  replace (tm_year t - 70) with (1900 + tm_year t - 1970) by lia.
  rewrite leap_offset by lia.
  pose proof (days_before_month_closed (1900 + tm_year t) m _ ltac:(lia) Hm) as Hdm.
  rewrite Z2Nat.id in Hdm by lia.
  pose proof (days_before_year_closed (Z.to_nat (tm_year t - 70)) ltac:(lia)) as Hdy.
  assert (YEAR * (tm_year t - 70) + DAY * ((tm_year t - 70 + 1) ÷ 4) =
          DAY * days_before_year (1900 + tm_year t)) as Hyear.
  { unfold days_before_year. replace (1900 + tm_year t - 1970) with (tm_year t - 70) by lia.
    rewrite Hdy, Z2Nat.id, Z.quot_div_nonneg by lia. unfold YEAR, DAY, HOUR, MINUTE. lia. }
  replace (1900 + tm_year t - 1970) with (tm_year t - 70) by lia.
  rewrite Hyear. f_equal. unfold epoch_seconds.
  revert Hdm; unfold DAY, HOUR, MINUTE; intros Hdm.
  destruct (_ && _); i32_ring.
Qed.

(** C38: for every valid date from 1970 to 2099, [kernel_mktime] returns the
    number of seconds since the epoch in the Gregorian calendar, reduced to a
    32-bit [long]: the leap-year offsets [(year+1)/4] and [(year+2)%4] and the
    leap-year month table agree with the calendar on every day. *)
Theorem kernel_mktime_correct (t : tm) :
  70 <= tm_year t <= 199 -> valid_tm t ->
  kernel_mktime t = Some (i32 (epoch_seconds t)).
Proof. apply kernel_mktime_epoch. Qed.

(** Every second of the run 31 Dec 1999, 23:59:59 ... 1 Mar 2000 is as in the
    calendar; 1 March 2000 is 951868800. *)
Lemma kernel_mktime_correct_witness :
  let t := mk_tm 0 0 0 1 2 100 in
  (70 <= tm_year t <= 199 /\ valid_tm t) /\
  kernel_mktime t = Some 951868800.
Proof.
  split.
  - unfold valid_tm, days_in_month; cbn; lia.
  - rewrite (kernel_mktime_correct (mk_tm 0 0 0 1 2 100)).
    + vm_compute. reflexivity.
    + cbn; lia.
    + unfold valid_tm, days_in_month; cbn; lia.
Defined.

End Mktime.
