(* ===== verification/Vsprintf.v ===== *)
(** * Kernel formatting: [kernel/vsprintf.c]

    [skip_atoi], [number] and [vsprintf], the formatter behind [printk].
    Characters are their codes; a C string is the list of the characters before
    its NUL; [number] returns the characters it appends to the buffer. *)
From S2P Require Import Prelude.

Module Vsprintf.

Definition is_digit (c : Z) : bool := (48 <=? c) && (c <=? 57).

(** [skip_atoi]: the value read (an [int]) and the rest of the string. *)
Fixpoint skip_atoi_from (i : Z) (s : list Z) : Z * list Z :=
  match s with
  | c :: s' => if is_digit c then skip_atoi_from (i32 (i * 10 + c - 48)) s' else (i, s)
  | [] => (i, [])
  end.
Definition skip_atoi (s : list Z) : Z * list Z := skip_atoi_from 0 s.

Definition ZEROPAD : Z := 1.
Definition SIGN : Z := 2.
Definition PLUS : Z := 4.
Definition SPACE : Z := 8.
Definition LEFT : Z := 16.
Definition SPECIAL : Z := 32.
Definition SMALL : Z := 64.

Definition flag (type f : Z) : bool := truth (Z.land type f).

(** [digits[k]] of the two digit strings of [number]. *)
Definition digit (small : bool) (k : Z) : Z :=
  if k <? 10 then 48 + k else (if small then 97 else 65) + (k - 10).

(** The [do_div] loop: the digits of an unsigned number, least significant
    first.  [divl] divides the unsigned 32-bit value. *)
Fixpoint do_divs (fuel : nat) (base n : Z) : list Z :=
  match fuel with
  | O => []
  | Datatypes.S k => if n =? 0 then [] else (n mod base) :: do_divs k base (n / base)
  end.

(** [while (size-- > 0) *str++ = c;] : what it writes and what is left in [size]. *)
Definition pad (size c : Z) : list Z * Z :=
  (replicate (Z.to_nat size) c, Z.min size 0 - 1).

(** [number(str, num, base, size, precision, type)]; [None] is the null pointer
    it returns for an impossible base. *)
Definition number (num base size precision type : Z) : option (list Z) :=
  let small := flag type SMALL in
  let type := if flag type LEFT then Z.land type (Z.lnot ZEROPAD) else type in
  if (base <? 2) || (36 <? base) then None else
  let c := if flag type ZEROPAD then 48 else 32 in
  let '(sign, num) :=
    if flag type SIGN && (num <? 0) then (45, i32 (- num))
    else ((if flag type PLUS then 43 else if flag type SPACE then 32 else 0), num) in
  let size := if truth sign then size - 1 else size in
  let size := if flag type SPECIAL
              then (if base =? 16 then size - 2 else if base =? 8 then size - 1 else size)
              else size in
  let tmp := if num =? 0 then [48]
             else map (digit small) (do_divs 32 base (u32 num)) in
  let i := Z.of_nat (length tmp) in
  let precision := if precision <? i then i else precision in
  let size := size - precision in
  let '(out1, size) := if flag type (ZEROPAD + LEFT) then ([], size) else pad size 32 in
  let out2 := if truth sign then [sign] else [] in
  let out3 := if flag type SPECIAL
              then (if base =? 8 then [48] else if base =? 16 then [48; digit small 33] else [])
              else [] in
  let '(out4, size) := if flag type LEFT then ([], size) else pad size c in
  let out5 := replicate (Z.to_nat (precision - i)) 48 in
  let out6 := reverse tmp in
  let '(out7, _) := pad size 32 in
  Some (out1 ++ out2 ++ out3 ++ out4 ++ out5 ++ out6 ++ out7).

(** ** [vsprintf] *)

(** The words [va_arg] fetches: an integer, a pointer to a string, or a pointer
    to an [int] (for [%n]). *)
Inductive va_word : Type :=
  | VInt (n : Z)
  | VStr (s : list Z)
  | VPtr (p : Z).

(** Buffer written so far, remaining arguments, and the stores of [%n]. *)
Record vstate : Type := mk_vstate {
  buf : list Z;
  args : list va_word;
  stores : list (Z * Z)
}.
#[export] Instance upd_buf : Setter buf := fun g r => mk_vstate (g (buf r)) (args r) (stores r).
#[export] Instance upd_args : Setter args := fun g r => mk_vstate (buf r) (g (args r)) (stores r).
#[export] Instance upd_stores : Setter stores := fun g r => mk_vstate (buf r) (args r) (g (stores r)).

Definition emit (l : list Z) : M vstate unit := modify (fun s => s <| buf ::= fun b => b ++ l |>).

Definition va_arg : M vstate va_word :=
  fun s => match args s with
           | w :: ws => Done w (s <| args := ws |>)
           | [] => Fault
           end.
Definition va_int : M vstate Z :=
  w <- va_arg ;; match w with VInt n => ret (i32 n) | VPtr p => ret (i32 p) | VStr _ => fault end.
Definition va_str : M vstate (list Z) :=
  w <- va_arg ;; match w with VStr s => ret s | _ => fault end.
Definition va_ptr : M vstate Z :=
  w <- va_arg ;; match w with VPtr p => ret p | _ => fault end.

(** [repeat: ++fmt; switch ( *fmt )] : the flag characters. *)
Fixpoint get_flags (fmt : list Z) (flags : Z) : list Z * Z :=
  match fmt with
  | [] => ([], flags)
  | c :: fmt' =>
      if c =? 45 then get_flags fmt' (Z.lor flags LEFT)
      else if c =? 43 then get_flags fmt' (Z.lor flags PLUS)
      else if c =? 32 then get_flags fmt' (Z.lor flags SPACE)
      else if c =? 35 then get_flags fmt' (Z.lor flags SPECIAL)
      else if c =? 48 then get_flags fmt' (Z.lor flags ZEROPAD)
      else (fmt, flags)
  end.

(** The character [*fmt]; 0 at the end of the string. *)
Definition peek (fmt : list Z) : Z := match fmt with c :: _ => c | [] => 0 end.

(** Field width: the source does not step over a ['*']. *)
Definition get_width (fmt : list Z) (flags : Z) : M vstate (list Z * Z * Z) :=
  if is_digit (peek fmt) then
    let '(w, fmt) := skip_atoi fmt in ret (fmt, w, flags)
  else if peek fmt =? 42 then
    w <- va_int ;;
    if w <? 0 then ret (fmt, i32 (- w), Z.lor flags LEFT) else ret (fmt, w, flags)
  else ret (fmt, -1, flags).

Definition get_precision (fmt : list Z) : M vstate (list Z * Z) :=
  if peek fmt =? 46 then
    let fmt := tail fmt in
    r <- (if is_digit (peek fmt) then let '(p, fmt) := skip_atoi fmt in ret (fmt, p)
          else if peek fmt =? 42 then p <- va_int ;; ret (fmt, p)
          else ret (fmt, -1)) ;;
    let '(fmt, p) := r in ret (fmt, if p <? 0 then 0 else p)
  else ret (fmt, -1).

Definition skip_qualifier (fmt : list Z) : list Z :=
  if (peek fmt =? 104) || (peek fmt =? 108) || (peek fmt =? 76) then tail fmt else fmt.

(** [while (--w > 0) *str++ = ' ';] and [while (len < w--) *str++ = ' ';] *)
Definition pad_char (w : Z) : list Z * Z := (replicate (Z.to_nat (w - 1)) 32, Z.min (w - 1) 0).
Definition pad_str (len w : Z) : list Z * Z :=
  (replicate (Z.to_nat (w - len)) 32, Z.min w len - 1).

Definition emit_number (base w p flags : Z) : M vstate unit :=
  n <- va_int ;; out <- deref (number n base w p flags) ;; emit out.

(** One round of the [for] loop: the rest of the format, or the end. *)
Definition vsprintf_step (fmt : list Z) : M vstate (list Z + unit) :=
  match fmt with
  | [] => ret (inr tt)
  | c :: fmt' =>
    if negb (c =? 37) then emit [c] ;;; ret (inl fmt') else
    let '(fmt, flags) := get_flags fmt' 0 in
    r <- get_width fmt flags ;;
    let '(fmt, w, flags) := r in
    r <- get_precision fmt ;;
    let '(fmt, p) := r in
    let fmt := skip_qualifier fmt in
    let k := peek fmt in
    (if k =? 99 then                                                   (* 'c' *)
       let '(out, w) := if flag flags LEFT then ([], w) else pad_char w in
       n <- va_int ;;
       emit (out ++ [u8 n] ++ fst (pad_char w))
     else if k =? 115 then                                             (* 's' *)
       s <- va_str ;;
       let len := Z.of_nat (length s) in
       let len := if p <? 0 then len else if p <? len then p else len in
       let '(out, w) := if flag flags LEFT then ([], w) else pad_str len w in
       emit (out ++ take (Z.to_nat len) s ++ fst (pad_str len w))
     else if k =? 111 then emit_number 8 w p flags                     (* 'o' *)
     else if k =? 112 then                                             (* 'p' *)
       (if w =? -1 then emit_number 16 8 p (Z.lor flags ZEROPAD)
        else emit_number 16 w p flags)
     else if k =? 120 then emit_number 16 w p (Z.lor flags SMALL)      (* 'x' *)
     else if k =? 88 then emit_number 16 w p flags                     (* 'X' *)
     else if (k =? 100) || (k =? 105) then emit_number 10 w p (Z.lor flags SIGN)
     else if k =? 117 then emit_number 10 w p flags                    (* 'u' *)
     else if k =? 110 then                                             (* 'n' *)
       ip <- va_ptr ;;
       modify (fun s => s <| stores ::= fun l => (ip, Z.of_nat (length (buf s))) :: l |>)
     else
       (if k =? 37 then ret tt else emit [37]) ;;;
       (if k =? 0 then ret tt else emit [k])) ;;;
    ret (inl (tail fmt))
  end.

(** [vsprintf(buf, fmt, args)]: the number of characters written. *)
Definition vsprintf (fmt : list Z) : M vstate Z :=
  loop (Datatypes.S (length fmt)) vsprintf_step fmt ;;;
  s <- get ;; ret (Z.of_nat (length (buf s))).

(** Running it on a fresh buffer. *)
Definition sprintf (fmt : list Z) (l : list va_word) : outcome vstate Z :=
  vsprintf fmt (mk_vstate [] l []).
Definition codes (s : string) : list Z :=
  map (fun a => Z.of_N (Ascii.N_of_ascii a)) (String.list_ascii_of_string s).


(** ** Lemmas on the digits *)

(** Value of a list of digits, least significant first. *)
Definition digits_value (base : Z) (l : list Z) : Z := foldr (fun d v => d + base * v) 0 l.

Lemma do_divs_value fuel base n :
  2 <= base -> 0 <= n < base ^ Z.of_nat fuel -> digits_value base (do_divs fuel base n) = n.
Proof.
  intros Hb. revert n. induction fuel as [|fuel IH]; intros n Hn.
  { cbn in Hn |- *. lia. }
  cbn [do_divs]. destruct (Z.eqb_spec n 0) as [->|Hne]; [done|].
  cbn [digits_value foldr]. fold (digits_value base (do_divs fuel base (n / base))).
  rewrite IH; [pose proof (Z.div_mod n base); lia|].
  rewrite Nat2Z.inj_succ, Z.pow_succ_r in Hn by lia.
  split; [apply Z.div_pos; lia | apply Z.div_lt_upper_bound; lia].
Qed.

Lemma do_divs_digits fuel base n :
  2 <= base -> 0 <= n -> Forall (fun d => 0 <= d < base) (do_divs fuel base n).
Proof.
  intros Hb. revert n. induction fuel as [|fuel IH]; intros n Hn; cbn [do_divs]; [constructor|].
  destruct (n =? 0); constructor; [apply Z.mod_pos_bound; lia | apply IH, Z.div_pos; lia].
Qed.

Lemma do_divs_nonempty fuel base n : 0 < n -> do_divs (Datatypes.S fuel) base n <> [].
Proof. intros H. cbn [do_divs]. destruct (Z.eqb_spec n 0); [lia | done]. Qed.

(** The digit characters [number] stores in [tmp]. *)
Definition tmp_of (small : bool) (base n : Z) : list Z :=
  if n =? 0 then [48] else map (digit small) (do_divs 32 base (u32 n)).

(** ** A reader of decimal numbers: blanks, an optional sign, digits *)
Fixpoint read_digits (acc : Z) (s : list Z) : Z :=
  match s with
  | c :: s' => if is_digit c then read_digits (acc * 10 + (c - 48)) s' else acc
  | [] => acc
  end.
Fixpoint read_int (s : list Z) : Z :=
  match s with
  | [] => 0
  | c :: s' => if c =? 32 then read_int s'
               else if c =? 45 then - read_digits 0 s'
               else if c =? 43 then read_digits 0 s'
               else read_digits 0 s
  end.

Lemma read_int_blanks k s : read_int (replicate k 32 ++ s) = read_int s.
Proof. by induction k. Qed.
Lemma read_digits_zeros k s : read_digits 0 (replicate k 48 ++ s) = read_digits 0 s.
Proof. by induction k. Qed.
Lemma read_digits_blanks acc k : read_digits acc (replicate k 32) = acc.
Proof. by destruct k. Qed.

Lemma read_digits_app acc l rest :
  Forall (fun d => 0 <= d < 10) l ->
  read_digits acc (reverse (map (digit false) l) ++ rest) =
  read_digits (acc * 10 ^ Z.of_nat (length l) + digits_value 10 l) rest.
Proof.
  intros Hl. revert acc rest. induction Hl as [|d l Hd Hl IH]; intros acc rest.
  { cbn. f_equal. lia. }
  rewrite fmap_cons || cbn [map]. rewrite reverse_cons, <- app_assoc, IH.
  cbn [app read_digits digits_value foldr length]. fold (digits_value 10 l).
  unfold digit, is_digit. destruct (Z.ltb_spec d 10); [|lia].
  destruct (Z.leb_spec 48 (48 + d)), (Z.leb_spec (48 + d) 57); [|lia..]. cbn [andb].
  f_equal. rewrite Nat2Z.inj_succ, Z.pow_succ_r by lia. lia.
Qed.

Lemma digit_small_decimal small l :
  Forall (fun d => 0 <= d < 10) l -> map (digit small) l = map (digit false) l.
Proof.
  intros Hl. apply map_ext_Forall. eapply Forall_impl; [exact Hl|]. intros d Hd.
  cbv beta in Hd. unfold digit. destruct (Z.ltb_spec d 10); [done|lia].
Qed.

Lemma read_tmp small n k :
  - 2 ^ 31 <= n < 2 ^ 31 ->
  read_digits 0 (reverse (tmp_of small 10 n) ++ replicate k 32) = u32 n.
Proof.
  intros Hn. unfold tmp_of. destruct (Z.eqb_spec n 0) as [->|Hne].
  { cbn. by rewrite read_digits_blanks. }
  pose proof (u32_range n).
  pose proof (do_divs_digits 32 10 (u32 n) ltac:(lia) ltac:(lia)) as Hd.
  rewrite digit_small_decimal, read_digits_app, read_digits_blanks by done.
  rewrite do_divs_value; [lia..|]. cbn. lia.
Qed.

Lemma read_int_digits l k :
  (forall c, head l = Some c -> is_digit c = true) ->
  read_int (replicate k 48 ++ l) = read_digits 0 l.
Proof.
  intros Hl. destruct k as [|k].
  - destruct l as [|c l]; [done|]. specialize (Hl c eq_refl). unfold is_digit in Hl.
    cbn [replicate app read_int].
    destruct (Z.eqb_spec c 32), (Z.eqb_spec c 45), (Z.eqb_spec c 43); subst; [done..|done].
  - cbn [replicate app read_int Z.eqb Pos.eqb]. apply (read_digits_zeros (Datatypes.S k)).
Qed.

Lemma tmp_of_nonempty small base n : - 2 ^ 31 <= n < 2 ^ 31 -> tmp_of small base n <> [].
Proof.
  intros Hn. unfold tmp_of. destruct (Z.eqb_spec n 0); [done|].
  assert (0 < u32 n) by (unfold u32; dlia).
  intros Hnil%fmap_nil_inv. by apply (do_divs_nonempty 31 base (u32 n)) in Hnil.
Qed.
Lemma tmp_of_digits small n : Forall (fun c => is_digit c = true) (tmp_of small 10 n).
Proof.
  unfold tmp_of. destruct (n =? 0); [by repeat constructor|].
  apply Forall_map. eapply Forall_impl; [apply do_divs_digits; [lia | apply u32_range]|].
  intros d Hd. cbv beta in Hd. unfold is_digit, digit.
  destruct (Z.ltb_spec d 10); [|lia].
  apply andb_true_iff; rewrite !Z.leb_le; lia.
Qed.
Lemma tmp_head_digit small n rest c :
  - 2 ^ 31 <= n < 2 ^ 31 ->
  head (reverse (tmp_of small 10 n) ++ rest) = Some c -> is_digit c = true.
Proof.
  intros Hn H. pose proof (tmp_of_digits small n) as Hd.
  apply Forall_reverse in Hd. pose proof (tmp_of_nonempty small 10 n Hn) as Hne.
  destruct (reverse (tmp_of small 10 n)) as [|c' l] eqn:E.
  { apply (f_equal reverse) in E. by rewrite reverse_involutive in E. }
  cbn in H. injection H as <-. by inversion Hd.
Qed.

(** ** The layout of [number]'s output *)
Definition sign_chars (type num : Z) : list Z :=
  if flag type SIGN && (num <? 0) then [45]
  else if flag type PLUS then [43] else if flag type SPACE then [32] else [].
Definition magnitude (type num : Z) : Z :=
  if flag type SIGN && (num <? 0) then i32 (- num) else num.
Definition special_chars (type base : Z) : list Z :=
  if flag type SPECIAL
  then (if base =? 8 then [48]
        else if base =? 16 then [48; digit (flag type SMALL) 33] else []) else [].

Lemma flag_lor t a b : flag t (Z.lor a b) = flag t a || flag t b.
Proof.
  unfold flag, truth. rewrite Z.land_lor_distr_r. apply eq_true_iff_eq.
  rewrite orb_true_iff, !negb_true_iff, !Z.eqb_neq, Z.lor_eq_0_iff. lia.
Qed.

Lemma flag_clear t m f : Z.land (Z.lnot m) f = f -> flag (Z.land t (Z.lnot m)) f = flag t f.
Proof. intros H. unfold flag. by rewrite <- Z.land_assoc, H. Qed.

(** [type] after [if (type & LEFT) type &= ~ZEROPAD]. *)
Definition norm_type (type : Z) : Z :=
  if flag type LEFT then Z.land type (Z.lnot ZEROPAD) else type.
Lemma norm_type_flag type f :
  Z.land (Z.lnot ZEROPAD) f = f -> flag (norm_type type) f = flag type f.
Proof. intros H. unfold norm_type. destruct (flag type LEFT); [by apply flag_clear|done]. Qed.
Lemma norm_type_zeropad type : flag type LEFT = true -> flag (norm_type type) ZEROPAD = false.
Proof.
  intros H. unfold norm_type. rewrite H. unfold flag.
  rewrite <- Z.land_assoc. change (Z.land (Z.lnot ZEROPAD) ZEROPAD) with 0. by rewrite Z.land_0_r.
Qed.

(** The whole output: blanks, sign, radix prefix, zeros, digits, blanks. *)
Lemma number_layout num base size precision type :
  2 <= base <= 36 ->
  let sgn := sign_chars type num in
  let pre := special_chars type base in
  let tmp := tmp_of (flag type SMALL) base (magnitude type num) in
  exists a z b,
    number num base size precision type =
      Some (replicate a 32 ++ sgn ++ pre ++ replicate z 48 ++ reverse tmp ++ replicate b 32) /\
    Z.of_nat (a + length sgn + length pre + z + length tmp + b) =
      Z.max size (Z.of_nat (length sgn + length pre) + Z.max (Z.of_nat (length tmp)) precision) /\
    (if flag type LEFT then a = 0%nat else b = 0%nat).
Proof.
  intros Hb sgn pre tmp. unfold number. fold (norm_type type).
  destruct (Z.ltb_spec base 2), (Z.ltb_spec 36 base); [lia..|]. cbn [orb].
  set (sg := if flag (norm_type type) SIGN && (num <? 0) then _ else _).
  assert (sg = (match sgn with c :: _ => c | [] => 0 end, magnitude type num)) as ->.
  { unfold sg, sgn, sign_chars, magnitude. rewrite !norm_type_flag by done.
    destruct (flag type SIGN && (num <? 0)), (flag type PLUS), (flag type SPACE); done. }
  set (s1 := if truth _ then size - 1 else size).
  assert (s1 = size - Z.of_nat (length sgn)) as ->.
  { unfold s1, sgn, sign_chars. destruct (flag type SIGN && (num <? 0)), (flag type PLUS), (flag type SPACE); cbn; lia. }
  set (o2 := if truth _ then [_] else []).
  assert (o2 = sgn) as ->.
  { unfold o2, sgn, sign_chars. destruct (flag type SIGN && (num <? 0)), (flag type PLUS), (flag type SPACE); done. }
  set (s2 := if flag (norm_type type) SPECIAL then _ else size - Z.of_nat (length sgn)).
  assert (s2 = size - Z.of_nat (length sgn) - Z.of_nat (length pre)) as ->.
  { unfold s2, pre, special_chars. rewrite norm_type_flag by done.
    destruct (flag type SPECIAL), (Z.eqb_spec base 16), (Z.eqb_spec base 8); subst; cbn; lia. }
  set (o3 := if flag (norm_type type) SPECIAL then _ else []).
  assert (o3 = pre) as ->.
  { unfold o3, pre, special_chars. by rewrite norm_type_flag. }
  fold (tmp_of (flag type SMALL) base (magnitude type num)). fold tmp.
  set (i := Z.of_nat (length tmp)).
  set (pr := if precision <? i then i else precision).
  assert (pr = Z.max i precision) as -> by (unfold pr; destruct (Z.ltb_spec precision i); lia).
  change (ZEROPAD + LEFT) with (Z.lor ZEROPAD LEFT).
  rewrite flag_lor, norm_type_flag with (f := LEFT) by done. unfold pad.
  destruct (flag type LEFT) eqn:HL; [rewrite orb_true_r | rewrite orb_false_r].
  - eexists 0%nat, _, _. split; [cbn [replicate app]; reflexivity|].
    split; [lia|done].
  - destruct (flag (norm_type type) ZEROPAD) eqn:HZ.
    + eexists 0%nat, (_ + _)%nat, _. split.
      { rewrite replicate_add, <- !app_assoc. cbn [replicate app]. reflexivity. }
      split; lia.
    + eexists _, _, _. split; [|split].
      * rewrite (Z2Nat.nonpos (_ - 1)) at 1 by lia.
        cbn [replicate app]. reflexivity.
      * lia.
      * lia.
Qed.

Lemma number_read_back (num size precision type : Z) :
  - 2 ^ 31 <= num < 2 ^ 31 -> flag type SIGN = true ->
  exists out, number num 10 size precision type = Some out /\ read_int out = num.
Proof.
  intros Hnum Hs. destruct (number_layout num 10 size precision type ltac:(lia))
    as (a & z & b & -> & _ & _).
  eexists; split; [reflexivity|]. rewrite read_int_blanks.
  set (tl := reverse _ ++ _).
  assert (- 2 ^ 31 <= magnitude type num < 2 ^ 31) as Hmag
    by (unfold magnitude; destruct (_ && _); [apply i32_range | done]).
  assert (read_digits 0 tl = u32 (magnitude type num)) as Htl by (by apply read_tmp).
  assert (forall c, head tl = Some c -> is_digit c = true) as Hhd
    by (intros c; by apply tmp_head_digit).
  assert (special_chars type 10 = []) as -> by (unfold special_chars; by destruct (flag type SPECIAL)).
  cbn [app]. unfold sign_chars, magnitude in *. rewrite Hs in *. cbn [andb] in *.
  destruct (Z.ltb_spec num 0).
  - cbn [app read_int Z.eqb Pos.eqb]. rewrite read_digits_zeros, Htl. unfold u32, i32. dlia.
  - unfold u32 in Htl. rewrite Z.mod_small in Htl by lia.
    destruct (flag type PLUS), (flag type SPACE); cbn [app read_int Z.eqb Pos.eqb];
      rewrite ?read_digits_zeros, ?read_int_digits by done; done.
Qed.

(** C39: [number] with [SIGN] in base 10 is inverted by a decimal reader, for
    every [int], width, precision and every combination of the other flags
    (including [-2^31], whose negation overflows). *)
Theorem number_decimal_roundtrip (num size precision type : Z) :
  - 2 ^ 31 <= num < 2 ^ 31 -> flag type SIGN = true ->
  exists out, number num 10 size precision type = Some out /\ read_int out = num.
Proof. apply number_read_back. Qed.


Lemma number_decimal_roundtrip_witness :
  (- 2 ^ 31 <= - 2 ^ 31 < 2 ^ 31 /\ flag SIGN SIGN = true) /\
  exists out, number (- 2 ^ 31) 10 14 3 SIGN = Some out /\ read_int out = - 2 ^ 31.
Proof. split; [done|]. apply (number_decimal_roundtrip (- 2 ^ 31) 14 3 SIGN); done. Defined.

(** In every base the output of [number] is exactly as wide as asked for,
    or, when the sign, the radix prefix and the digits (zero-extended to the
    precision) need more room, exactly as wide as those; and it is padded on
    one side only. *)
Theorem number_width (num base size precision type : Z) :
  2 <= base <= 36 ->
  exists out, number num base size precision type = Some out /\
    Z.of_nat (length out) =
      Z.max size
        (Z.of_nat (length (sign_chars type num) + length (special_chars type base)) +
         Z.max (Z.of_nat (length (tmp_of (flag type SMALL) base (magnitude type num)))) precision).
Proof.
  intros Hb. destruct (number_layout num base size precision type Hb)
    as (a & z & b & -> & Hlen & _).
  eexists; split; [reflexivity|]. rewrite <- Hlen.
  rewrite !length_app, !length_replicate, length_reverse. f_equal. lia.
Qed.

Lemma number_width_witness :
  2 <= 16 <= 36 /\ exists out, number 255 16 3 0 SPECIAL = Some out /\ Z.of_nat (length out) = 4.
Proof.
  split; [lia|]. destruct (number_width 255 16 3 0 SPECIAL) as (out & H & Hl); [lia|].
  exists out. split; [exact H|]. rewrite Hl. vm_compute. reflexivity.
Defined.

(** ** Termination of [vsprintf] *)
Lemma skip_atoi_length i s : (length (snd (skip_atoi_from i s)) <= length s)%nat.
Proof.
  revert i. induction s as [|c s IH]; intros i; cbn; [lia|].
  destruct (is_digit c); cbn; [specialize (IH (i32 (i * 10 + c - 48))); lia | lia].
Qed.
Lemma get_flags_length fmt fl : (length (fst (get_flags fmt fl)) <= length fmt)%nat.
Proof.
  revert fl. induction fmt as [|c fmt IH]; intros fl; cbn; [lia|].
  repeat (case_match; [etrans; [apply IH|]; lia|]). done.
Qed.
Lemma skip_qualifier_length fmt : (length (skip_qualifier fmt) <= length fmt)%nat.
Proof. unfold skip_qualifier. destruct fmt; cbn; [done|]. case_match; cbn; lia. Qed.

(** A computation that, if it returns, returns something satisfying [P], and
    that never runs out of fuel. *)
Definition returns {A} (m : M vstate A) (P : A -> Prop) : Prop :=
  forall s, match m s with Done a _ => P a | NoFuel => False | _ => True end.
Lemma returns_bind {A B} (m : M vstate A) (k : A -> M vstate B) P Q :
  returns m P -> (forall a, P a -> returns (k a) Q) -> returns (bind m k) Q.
Proof.
  intros Hm Hk s. specialize (Hm s). unfold bind. destruct (m s); try done. by apply Hk.
Qed.
Lemma returns_ret {A} (a : A) (P : A -> Prop) : P a -> returns (ret a) P.
Proof. by intros H s. Qed.
Lemma returns_weaken {A} (m : M vstate A) (P Q : A -> Prop) :
  returns m P -> (forall a, P a -> Q a) -> returns m Q.
Proof. intros Hm H s. specialize (Hm s). destruct (m s); naive_solver. Qed.
Lemma returns_va {A} (f : va_word -> M vstate A) P :
  (forall w, returns (f w) P) -> returns (bind va_arg f) P.
Proof.
  intros Hf. apply returns_bind with (fun _ => True); [|intros; apply Hf].
  intros s. unfold va_arg. by destruct (args s).
Qed.
Lemma returns_va_int : returns va_int (fun _ => True).
Proof. apply returns_va. by intros []. Qed.
Lemma returns_emit_number base w p fl : returns (emit_number base w p fl) (fun _ => True).
Proof.
  eapply returns_bind; [apply returns_va_int|]. intros n _.
  eapply returns_bind with (fun _ => True); [|done].
  by destruct (number n base w p fl).
Qed.

Lemma get_width_returns fmt fl :
  returns (get_width fmt fl) (fun r => (length (r.1.1) <= length fmt)%nat).
Proof.
  unfold get_width. destruct (is_digit (peek fmt)).
  { pose proof (skip_atoi_length 0 fmt) as H. unfold skip_atoi.
    destruct (skip_atoi_from 0 fmt). by apply returns_ret. }
  destruct (peek fmt =? 42); [|by apply returns_ret].
  eapply returns_bind; [apply returns_va_int|]. intros w _.
  destruct (w <? 0); by apply returns_ret.
Qed.
Lemma get_precision_returns fmt :
  returns (get_precision fmt) (fun r => (length (r.1) <= length fmt)%nat).
Proof.
  unfold get_precision. destruct (peek fmt =? 46); [|by apply returns_ret].
  apply returns_bind with (fun r => (length (r.1) <= length fmt)%nat);
    [|intros [f p] H; by apply returns_ret].
  assert (length (tail fmt) <= length fmt)%nat by (destruct fmt; cbn; lia).
  destruct (is_digit (peek (tail fmt))).
  { pose proof (skip_atoi_length 0 (tail fmt)). unfold skip_atoi.
    destruct (skip_atoi_from 0 (tail fmt)). apply returns_ret. cbn in *; lia. }
  destruct (peek (tail fmt) =? 42); [|by apply returns_ret].
  eapply returns_bind; [apply returns_va_int|]. intros w _. by apply returns_ret.
Qed.

Lemma vsprintf_step_returns fmt :
  returns (vsprintf_step fmt)
    (fun r => match r with inl fmt' => (length fmt' < length fmt)%nat | inr _ => True end).
Proof.
  destruct fmt as [|c fmt]; [by apply returns_ret|]. cbn [vsprintf_step].
  destruct (negb (c =? 37)).
  { eapply returns_bind with (fun _ => True); [done|]. intros [] _. apply returns_ret. cbn; lia. }
  pose proof (get_flags_length fmt 0) as Hf.
  destruct (get_flags fmt 0) as [f1 fl]. cbn in Hf.
  eapply returns_bind; [apply get_width_returns|]. intros [[f2 w] fl2] H2. cbn in H2.
  eapply returns_bind; [apply get_precision_returns|]. intros [f3 p] H3. cbn in H3.
  pose proof (skip_qualifier_length f3) as H4. set (f4 := skip_qualifier f3) in *.
  eapply returns_bind with (fun _ => True).
  - repeat case_match; try apply returns_emit_number;
      first [ by repeat (eapply returns_bind with (fun _ => True); [done|]; intros [] _)
            | apply returns_va; by intros []
            | eapply returns_bind; [apply returns_va_int|]; done
            | eapply returns_bind with (fun _ => True); [apply returns_va; by intros []|];
              intros; by repeat case_match ].
  - intros _ _. apply returns_ret. destruct f4; cbn in *; lia.
Qed.

(** C40: [vsprintf] terminates: a loop of one round more than the format has
    characters never runs out of fuel, whatever the format and the arguments. *)
Theorem vsprintf_terminates (fmt : list Z) (s : vstate) : vsprintf fmt s <> NoFuel.
Proof.
  assert (forall n fmt, (length fmt < n)%nat ->
            returns (loop n vsprintf_step fmt) (fun _ => True)) as H.
  { induction n as [|n IH]; intros f Hn; [lia|]. cbn [loop].
    eapply returns_bind; [apply vsprintf_step_returns|].
    intros [f'|[]] Hf; [apply IH; lia | by apply returns_ret]. }
  specialize (H (Datatypes.S (length fmt)) fmt ltac:(lia) s).
  unfold vsprintf, bind. destruct (loop _ _ _ _); done.
Qed.


(** ** What a directive writes *)
Lemma vsprintf_loop_terminates n fmt s :
  (length fmt < n)%nat -> loop n vsprintf_step fmt s <> NoFuel.
Proof.
  revert fmt s. induction n as [|n IH]; intros fmt s Hn; [lia|]. cbn [loop]. unfold bind.
  pose proof (vsprintf_step_returns fmt s) as H.
  destruct (vsprintf_step fmt s) as [[f'|[]] s'| | |]; try done. apply IH. lia.
Qed.

(** One round of the loop in front of the rest of the format. *)
Lemma vsprintf_round fmt rest s s' :
  vsprintf_step fmt s = Done (inl rest) s' -> vsprintf fmt s = vsprintf rest s'.
Proof.
  intros Hs. unfold vsprintf. apply (f_equal2 (fun o k => match o with
    | Done a t => k a t | Panic m => Panic m | Fault => Fault | NoFuel => NoFuel end)); [|done].
  pose proof (vsprintf_step_returns fmt s) as Hl. rewrite Hs in Hl.
  transitivity (loop (length fmt) vsprintf_step rest s').
  { cbn [loop]. unfold bind. by rewrite Hs. }
  apply loop_fuel; [|lia]. apply vsprintf_loop_terminates. lia.
Qed.

Lemma vsprintf_literal pre rest s :
  Forall (fun c => c <> 37) pre ->
  vsprintf (pre ++ rest) s = vsprintf rest (s <| buf ::= fun b => b ++ pre |>).
Proof.
  intros Hp. revert s. induction Hp as [|c pre Hc Hp IH]; intros s.
  { cbn [app]. f_equal. destruct s as [b a t]. unfold upd, upd_buf. cbn. by rewrite (app_nil_r b). }
  cbn [app]. rewrite (vsprintf_round _ (pre ++ rest) s (s <| buf ::= fun b => b ++ [c] |>)).
  2: { cbn [vsprintf_step]. destruct (Z.eqb_spec c 37); [lia|]. done. }
  rewrite IH. f_equal. destruct s. unfold upd, upd_buf. cbn. by rewrite <- app_assoc.
Qed.

(** The flag characters, and the flags they stand for. *)
Definition flag_of (c : Z) : option Z :=
  if c =? 45 then Some LEFT else if c =? 43 then Some PLUS else if c =? 32 then Some SPACE
  else if c =? 35 then Some SPECIAL else if c =? 48 then Some ZEROPAD else None.
Definition flags_of (l : list Z) : Z :=
  foldl (fun fl c => Z.lor fl (default 0 (flag_of c))) 0 l.
(** The value of a decimal string of at most nine digits. *)
Definition decimal (l : list Z) : Z := foldl (fun v c => v * 10 + (c - 48)) 0 l.

Lemma get_flags_spec l fl rest :
  Forall (fun c => is_Some (flag_of c)) l -> flag_of (peek rest) = None ->
  get_flags (l ++ rest) fl = (rest, foldl (fun fl c => Z.lor fl (default 0 (flag_of c))) fl l).
Proof.
  intros Hl Hr. revert fl. induction Hl as [|c l [f Hc] Hl IH]; intros fl.
  - cbn. destruct rest as [|c rest]; [done|]. cbn in Hr |- *. unfold flag_of in Hr.
    repeat case_match; done.
  - cbn [app get_flags foldl]. rewrite <- IH. unfold flag_of in *.
    repeat case_match; try done.
Qed.

Lemma skip_atoi_spec l v rest :
  Forall (fun c => is_digit c = true) l -> is_digit (peek rest) = false ->
  0 <= v -> (v + 1) * 10 ^ Z.of_nat (length l) <= 10 ^ 9 ->
  skip_atoi_from v (l ++ rest) = (foldl (fun v c => v * 10 + (c - 48)) v l, rest).
Proof.
  intros Hl Hr. revert v. induction Hl as [|c l Hc Hl IH]; intros v Hv Hb.
  - cbn. destruct rest as [|c rest]; [done|]. cbn in Hr |- *. by rewrite Hr.
  - cbn [app skip_atoi_from foldl]. rewrite Hc. cbn [length] in Hb.
    rewrite Nat2Z.inj_succ, Z.pow_succ_r in Hb by lia.
    pose proof (Z.pow_pos_nonneg 10 (Z.of_nat (length l)) ltac:(lia) ltac:(lia)).
    unfold is_digit in Hc. apply andb_true_iff in Hc. rewrite !Z.leb_le in Hc.
    rewrite i32_id by nia. rewrite <- IH by nia. f_equal. lia.
Qed.

(** A directive [%<flags><width>d] between any literal text and any rest of
    the format appends exactly [number]'s output for the flags and the width
    written there, in decimal and signed, and goes on with the rest. *)
Theorem vsprintf_signed_directive (pre fl wd post : list Z) (n : Z) (s : vstate) (l : list va_word) :
  Forall (fun c => c <> 37) pre ->
  Forall (fun c => is_Some (flag_of c)) fl ->
  Forall (fun c => is_digit c = true) wd -> (1 <= length wd <= 9)%nat -> peek wd <> 48 ->
  args s = VInt n :: l -> - 2 ^ 31 <= n < 2 ^ 31 ->
  exists out,
    number n 10 (decimal wd) (-1) (Z.lor (flags_of fl) SIGN) = Some out /\
    read_int out = n /\
    vsprintf (pre ++ [37] ++ fl ++ wd ++ [100] ++ post) s =
    vsprintf post (mk_vstate (buf s ++ pre ++ out) l (stores s)).
Proof.
  intros Hpre Hfl Hwd Hlen Hhd Hargs Hn.
  assert (flag (Z.lor (flags_of fl) SIGN) SIGN = true) as Hsign.
  { unfold flag. rewrite Z.land_comm, Z.land_lor_distr_r. change (Z.land SIGN SIGN) with SIGN.
    unfold truth. apply negb_true_iff, Z.eqb_neq. intros H. by apply Z.lor_eq_0_iff in H as [_ H]. }
  destruct (number_read_back n (decimal wd) (-1) _ Hn Hsign) as (out & Hout & Hread).
  exists out. split_and!; [done..|].
  rewrite vsprintf_literal by done. apply vsprintf_round.
  set (rest := wd ++ [100] ++ post).
  assert (peek rest = peek wd /\ is_digit (peek wd) = true) as [Hpk Hdg].
  { unfold rest. destruct Hwd; [cbn in Hlen; lia|]. done. }
  assert (flag_of (peek rest) = None) as Hnf.
  { rewrite Hpk. unfold is_digit in Hdg. unfold flag_of.
    apply andb_true_iff in Hdg. rewrite !Z.leb_le in Hdg.
    repeat case_match; try done; rewrite ?Z.eqb_eq in *; lia. }
  cbn [app vsprintf_step Z.eqb Pos.eqb negb].
  fold rest. rewrite get_flags_spec by done. fold (flags_of fl).
  unfold get_width. rewrite Hpk, Hdg. unfold skip_atoi, rest.
  rewrite skip_atoi_spec; [|done|done|lia|].
  2: { rewrite Z.mul_1_l. apply Z.pow_le_mono_r; lia. }
  fold (decimal wd). unfold emit_number, va_int, va_arg, emit. unfold bind. cbn -[Z.lor number flags_of decimal i32].
  rewrite Hargs. cbn -[Z.lor number flags_of decimal i32]. rewrite (i32_id n) by done. rewrite Hout. cbn.
  unfold upd, upd_buf, upd_args. cbn. by rewrite <- app_assoc.
Qed.

Lemma vsprintf_signed_directive_witness :
  exists out, number (-42) 10 6 (-1) (Z.lor (flags_of (codes "-")) SIGN) = Some out /\
    read_int out = -42 /\
    vsprintf (codes "x=" ++ [37] ++ codes "-" ++ codes "6" ++ [100] ++ codes "|")
      (mk_vstate [] [VInt (-42)] []) =
    Done 9 (mk_vstate (codes "x=-42   |") [] []).
Proof.
  destruct (vsprintf_signed_directive (codes "x=") (codes "-") (codes "6") (codes "|") (-42)
    (mk_vstate [] [VInt (-42)] []) []) as (out & Ho & Hr & Hv).
  1,2,3: repeat constructor; done || (eexists; reflexivity).
  1,2,3: cbn; lia || done.
  1: lia.
  exists out. split; [exact Ho|]. split; [exact Hr|]. vm_compute. reflexivity.
Defined.

(** The field width ['*'] does not work: the format pointer is left on the
    ['*'], so whatever the argument, [%*] is copied to the output and the
    conversion character after it becomes literal text. *)
Theorem vsprintf_star_width (post : list Z) (w : Z) (s : vstate) (l : list va_word) :
  args s = VInt w :: l ->
  vsprintf ([37; 42] ++ post) s = vsprintf post (mk_vstate (buf s ++ [37; 42]) l (stores s)).
Proof.
  intros Hargs. apply vsprintf_round.
  unfold vsprintf_step, get_width, va_int, va_arg, emit, bind. cbn. rewrite Hargs. cbn.
  destruct (i32 w <? 0); unfold upd, upd_buf, upd_args; cbn; by rewrite <- app_assoc.
Qed.

Lemma vsprintf_star_width_witness :
  args (mk_vstate [] [VInt 5; VInt 7] []) = [VInt 5; VInt 7] /\
  sprintf (codes "%*d") [VInt 5; VInt 7] = Done 3 (mk_vstate (codes "%*d") [VInt 7] []).
Proof.
  split; [reflexivity|].
  change (codes "%*d") with ([37; 42] ++ [100]) at 1. unfold sprintf.
  rewrite (vsprintf_star_width [100] 5 (mk_vstate [] [VInt 5; VInt 7] []) [VInt 7] eq_refl).
  vm_compute. reflexivity.
Defined.

End Vsprintf.
