(* ===== verification/Libstring.v ===== *)
(** * Libstring: the string routines of include/string.h

    The routines are inline assembly over the string instructions of the processor: the model
    has those instructions, with their flags, over the registers the routines use. *)
From S2P Require Import Prelude.

Module Libstring.

(** ** The processor *)

(** What the conditional jumps look at: zero, sign, and "less" (sign and overflow differ). *)
Record flags : Type := mk_flags { zf : bool; sf : bool; lt : bool }.
(** The registers that the routines use, unsigned, the direction flag, memory by bytes, and the static variable of strtok. *)
Record cpu : Type := mk_cpu {
  eax : Z;
  ebx : Z;
  ecx : Z;
  edx : Z;
  esi : Z;
  edi : Z;
  fl : flags;
  df : bool;
  mem : gmap Z Z;
  ___strtok : Z
}.

#[global] Instance upd_eax : Setter eax := fun g r => mk_cpu (g (eax r)) (ebx r) (ecx r) (edx r) (esi r) (edi r) (fl r) (df r) (mem r) (___strtok r).
#[global] Instance upd_ebx : Setter ebx := fun g r => mk_cpu (eax r) (g (ebx r)) (ecx r) (edx r) (esi r) (edi r) (fl r) (df r) (mem r) (___strtok r).
#[global] Instance upd_ecx : Setter ecx := fun g r => mk_cpu (eax r) (ebx r) (g (ecx r)) (edx r) (esi r) (edi r) (fl r) (df r) (mem r) (___strtok r).
#[global] Instance upd_edx : Setter edx := fun g r => mk_cpu (eax r) (ebx r) (ecx r) (g (edx r)) (esi r) (edi r) (fl r) (df r) (mem r) (___strtok r).
#[global] Instance upd_esi : Setter esi := fun g r => mk_cpu (eax r) (ebx r) (ecx r) (edx r) (g (esi r)) (edi r) (fl r) (df r) (mem r) (___strtok r).
#[global] Instance upd_edi : Setter edi := fun g r => mk_cpu (eax r) (ebx r) (ecx r) (edx r) (esi r) (g (edi r)) (fl r) (df r) (mem r) (___strtok r).
#[global] Instance upd_fl : Setter fl := fun g r => mk_cpu (eax r) (ebx r) (ecx r) (edx r) (esi r) (edi r) (g (fl r)) (df r) (mem r) (___strtok r).
#[global] Instance upd_df : Setter df := fun g r => mk_cpu (eax r) (ebx r) (ecx r) (edx r) (esi r) (edi r) (fl r) (g (df r)) (mem r) (___strtok r).
#[global] Instance upd_mem : Setter mem := fun g r => mk_cpu (eax r) (ebx r) (ecx r) (edx r) (esi r) (edi r) (fl r) (df r) (g (mem r)) (___strtok r).
#[global] Instance upd____strtok : Setter ___strtok := fun g r => mk_cpu (eax r) (ebx r) (ecx r) (edx r) (esi r) (edi r) (fl r) (df r) (mem r) (g (___strtok r)).

Definition byte_at (m : gmap Z Z) (a : Z) : Z := u8 (default 0 (m !! u32 a)).
Definition set_at (a v : Z) (m : gmap Z Z) : gmap Z Z := <[u32 a := u8 v]> m.

(** The flags of the comparison of two bytes, of a test and of [dec]. *)
Definition cmp8 (a b : Z) : flags := mk_flags (a =? b) (i8 (a - b) <? 0) (i8 a <? i8 b).
Definition test8 (a : Z) : flags := mk_flags (a =? 0) (i8 a <? 0) (i8 a <? 0).
Definition test32 (a : Z) : flags := mk_flags (a =? 0) (i32 a <? 0) (i32 a <? 0).
Definition dec32 (a : Z) : flags := mk_flags (u32 (a - 1) =? 0) (i32 (a - 1) <? 0) (i32 a <? 1).

Definition al (s : cpu) : Z := u8 (eax s).
Definition set_al (v : Z) (s : cpu) : cpu := s <| eax := eax s - u8 (eax s) + u8 v |>.
Definition ah (s : cpu) : Z := u8 (eax s / 256).
Definition set_ah (v : Z) (s : cpu) : cpu := s <| eax := eax s - 256 * ah s + 256 * u8 v |>.
(** How the string instructions move. *)
Definition dir (s : cpu) : Z := if df s then -1 else 1.

(** *** Instructions *)
Definition cld : M cpu unit := modify (fun s => s <| df := false |>).
Definition std : M cpu unit := modify (fun s => s <| df := true |>).
Definition lods (s : cpu) : cpu := (set_al (byte_at (mem s) (esi s)) s) <| esi := u32 (esi s + dir s) |>.
Definition stos (s : cpu) : cpu := s <| mem ::= set_at (edi s) (al s) |> <| edi := u32 (edi s + dir s) |>.
Definition movs (s : cpu) : cpu :=
  s <| mem ::= set_at (edi s) (byte_at (mem s) (esi s)) |> <| esi := u32 (esi s + dir s) |> <| edi := u32 (edi s + dir s) |>.
Definition scas (s : cpu) : cpu := s <| fl := cmp8 (al s) (byte_at (mem s) (edi s)) |> <| edi := u32 (edi s + dir s) |>.
Definition cmps (s : cpu) : cpu :=
  s <| fl := cmp8 (byte_at (mem s) (esi s)) (byte_at (mem s) (edi s)) |> <| esi := u32 (esi s + dir s) |> <| edi := u32 (edi s + dir s) |>.
Definition lodsb : M cpu unit := modify lods.
Definition stosb : M cpu unit := modify stos.
Definition movsb : M cpu unit := modify movs.
Definition scasb : M cpu unit := modify scas.
Definition cmpsb : M cpu unit := modify cmps.
Definition test_al : M cpu unit := modify (fun s => s <| fl := test8 (al s) |>).
Definition xor_eax : M cpu unit := modify (fun s => s <| eax := 0 |> <| fl := test32 0 |>).
Definition dec_ecx : M cpu unit := modify (fun s => s <| fl := dec32 (ecx s) |> <| ecx := u32 (ecx s - 1) |>).
Definition dec_esi : M cpu unit := modify (fun s => s <| fl := dec32 (esi s) |> <| esi := u32 (esi s - 1) |>).
Definition dec_edi : M cpu unit := modify (fun s => s <| fl := dec32 (edi s) |> <| edi := u32 (edi s - 1) |>).
Definition not_ecx : M cpu unit := modify (fun s => s <| ecx := u32 (- ecx s - 1) |>).
Definition je : M cpu bool := gets (fun s => zf (fl s)).
Definition jl : M cpu bool := gets (fun s => lt (fl s)).
Definition js : M cpu bool := gets (fun s => sf (fl s)).

Section Routines.
Context (fuel : nat).

(** The prefixes: while [ecx] is not 0, and for [repe] and [repne] while the last comparison was, or was not, equal. *)
Definition rep (i : M cpu unit) : M cpu unit :=
  loop fuel (fun _ => s <- get ;; if ecx s =? 0 then ret (inr tt) else i ;;; modify (fun s => s <| ecx ::= Z.pred |>) ;;; ret (inl tt)) tt.
Definition rep_while (e : bool) (i : M cpu unit) : M cpu unit :=
  loop fuel (fun _ => s <- get ;; if ecx s =? 0 then ret (inr tt) else
    i ;;; modify (fun s => s <| ecx ::= Z.pred |>) ;;; z <- je ;; ret (if Bool.eqb z e then inl tt else inr tt)) tt.
Definition repe : M cpu unit -> M cpu unit := rep_while true.
Definition repne : M cpu unit -> M cpu unit := rep_while false.

(** [lodsb; stosb; testb al,al; jne 1b]: copy up to the null. *)
Definition copy_string : M cpu unit :=
  loop fuel (fun _ => lodsb ;;; stosb ;;; test_al ;;; z <- je ;; ret (if z then inr tt else inl tt)) tt.

Definition strcpy (dest src : Z) : M cpu Z :=
  modify (fun s => s <| esi := src |> <| edi := dest |>) ;;;
  cld ;;; copy_string ;;; ret dest.

(** [true] when the null was copied, [false] when the count ran out. *)
Definition copy_counted : M cpu bool :=
  loop fuel (fun _ => dec_ecx ;;; n <- js ;; if n then ret (inr false) else
    lodsb ;;; stosb ;;; test_al ;;; z <- je ;; ret (if z then inr true else inl tt)) tt.
Definition strncpy (dest src count : Z) : M cpu Z :=
  modify (fun s => s <| esi := src |> <| edi := dest |> <| ecx := u32 count |>) ;;;
  cld ;;; z <- copy_counted ;; when z (rep stosb) ;;; ret dest.

Definition strcat (dest src : Z) : M cpu Z :=
  modify (fun s => s <| esi := src |> <| edi := dest |> <| eax := 0 |> <| ecx := 2 ^ 32 - 1 |>) ;;;
  cld ;;; repne scasb ;;; dec_edi ;;; copy_string ;;; ret dest.
Definition strncat (dest src count : Z) : M cpu Z :=
  modify (fun s => s <| esi := src |> <| edi := dest |> <| eax := 0 |> <| ecx := 2 ^ 32 - 1 |>) ;;;
  cld ;;; repne scasb ;;; dec_edi ;;; modify (fun s => s <| ecx := u32 count |>) ;;;
  copy_counted ;;; xor_eax ;;; stosb ;;; ret dest.

(** The value of [eax] as an int: [movl $1,eax; jl; negl eax] after the comparison. *)
Definition order : M cpu Z := l <- jl ;; ret (if l then 1 else -1).
Definition strcmp (cs ct : Z) : M cpu Z :=
  modify (fun s => s <| edi := cs |> <| esi := ct |>) ;;;
  cld ;;;
  same <- loop fuel (fun _ => lodsb ;;; scasb ;;; e <- je ;; if negb e then ret (inr false) else
    test_al ;;; z <- je ;; ret (if z then inr true else inl tt)) tt ;;
  if same then ret 0 else order.
Definition strncmp (cs ct count : Z) : M cpu Z :=
  modify (fun s => s <| edi := cs |> <| esi := ct |> <| ecx := u32 count |>) ;;;
  cld ;;;
  same <- loop fuel (fun _ => dec_ecx ;;; n <- js ;; if n then ret (inr true) else
    lodsb ;;; scasb ;;; e <- je ;; if negb e then ret (inr false) else
    test_al ;;; z <- je ;; ret (if z then inr true else inl tt)) tt ;;
  if same then ret 0 else order.

Definition strchr (str c : Z) : M cpu Z :=
  modify (fun s => (set_al c s) <| esi := str |>) ;;;
  cld ;;; modify (fun s => set_ah (al s) s) ;;;
  found <- loop fuel (fun _ => lodsb ;;; modify (fun s => s <| fl := cmp8 (al s) (ah s) |>) ;;; e <- je ;; if e then ret (inr true) else
    test_al ;;; z <- je ;; ret (if z then inr false else inl tt)) tt ;;
  when (negb found) (modify (fun s => s <| esi := 1 |>)) ;;;
  gets (fun s => u32 (esi s - 1)).
Definition strrchr (str c : Z) : M cpu Z :=
  modify (fun s => (set_al c s) <| esi := str |> <| edx := 0 |>) ;;;
  cld ;;; modify (fun s => set_ah (al s) s) ;;;
  loop fuel (fun _ => lodsb ;;; modify (fun s => s <| fl := cmp8 (al s) (ah s) |>) ;;; e <- je ;;
    when e (modify (fun s => s <| edx := u32 (esi s - 1) |>)) ;;;
    test_al ;;; z <- je ;; ret (if z then inr tt else inl tt)) tt ;;;
  gets edx.

(** The length of the string at [ct] in [ecx] and [edx], as strspn, strcspn, strpbrk and strstr begin. *)
Definition measure (ct : Z) : M cpu unit :=
  cld ;;; modify (fun s => s <| edi := ct |>) ;;; repne scasb ;;; not_ecx ;;; dec_ecx ;;; modify (fun s => s <| edx := ecx s |>).
(** [lodsb; testb al,al; je; movl ct,edi; movl edx,ecx; repne scasb]: [None] at the null of the string,
    else whether the character is one of those at [ct]. *)
Definition next_in (ct : Z) : M cpu (option bool) :=
  lodsb ;;; test_al ;;; z <- je ;; if z then ret None else
  modify (fun s => s <| edi := ct |> <| ecx := edx s |>) ;;; repne scasb ;;; e <- je ;; ret (Some e).
Definition span_start (cs : Z) : M cpu unit := modify (fun s => s <| eax := 0 |> <| ecx := 2 ^ 32 - 1 |> <| esi := cs |>).
(** Skip characters while they are, or are not, in the set: [true] when one that ends it was found. *)
Definition skip (inside : bool) (ct : Z) : M cpu bool :=
  loop fuel (fun _ => o <- next_in ct ;; match o with
    | None => ret (inr false)
    | Some e => ret (if Bool.eqb e inside then inl tt else inr true)
    end) tt.

Definition strspn (cs ct : Z) : M cpu Z :=
  span_start cs ;;; measure ct ;;; skip true ct ;;; dec_esi ;;; gets (fun s => i32 (esi s - cs)).
Definition strcspn (cs ct : Z) : M cpu Z :=
  span_start cs ;;; measure ct ;;; skip false ct ;;; dec_esi ;;; gets (fun s => i32 (esi s - cs)).
Definition strpbrk (cs ct : Z) : M cpu Z :=
  span_start cs ;;; measure ct ;;; found <- skip false ct ;;
  (if found then dec_esi else modify (fun s => s <| esi := 0 |> <| fl := test32 0 |>)) ;;; gets esi.

Definition strstr (cs ct : Z) : M cpu Z :=
  span_start cs ;;; measure ct ;;;
  loop fuel (fun _ =>
    modify (fun s => s <| edi := ct |> <| eax := esi s |> <| ecx := edx s |>) ;;; repe cmpsb ;;;
    e <- je ;; if e then s <- get ;; ret (inr (eax s)) else
    modify (fun s => s <| eax := esi s |> <| esi := eax s |>) ;;;
    modify (fun s => s <| esi := u32 (esi s + 1) |>) ;;;
    modify (fun s => s <| fl := cmp8 (byte_at (mem s) (eax s - 1)) 0 |>) ;;;
    z <- je ;; ret (if z then inr 0 else inl tt)) tt.

Definition strlen (str : Z) : M cpu Z :=
  modify (fun s => s <| edi := str |> <| eax := 0 |> <| ecx := 2 ^ 32 - 1 |>) ;;;
  cld ;;; repne scasb ;;; not_ecx ;;; dec_ecx ;;; gets (fun s => i32 (ecx s)).

(** From label 3 to label 6: the end of the token, [esi] after it or 0. *)
Definition strtok_tail (ct : Z) : M cpu unit :=
  ended <- skip false ct ;;
  if negb ended then modify (fun s => s <| esi := 0 |>) else
  dec_esi ;;; s <- get ;; if byte_at (mem s) (esi s) =? 0 then modify (fun s => s <| esi := 0 |>) else
  modify (fun s => s <| mem ::= set_at (esi s) 0 |>) ;;; modify (fun s => s <| esi := u32 (esi s + 1) |>).
(** From label 1 to label 7: [ebx] is the result. *)
Definition strtok_body (ct : Z) : M cpu unit :=
  modify (fun s => s <| ebx := 0 |> <| ecx := 2 ^ 32 - 1 |> <| eax := 0 |>) ;;;
  cld ;;; modify (fun s => s <| edi := ct |>) ;;; repne scasb ;;; not_ecx ;;; dec_ecx ;;;
  z <- je ;; if z then ret tt else
  modify (fun s => s <| edx := ecx s |>) ;;;
  more <- skip true ct ;; if negb more then ret tt else
  dec_esi ;;; s <- get ;; if byte_at (mem s) (esi s) =? 0 then ret tt else
  modify (fun s => s <| ebx := esi s |>) ;;;
  strtok_tail ct ;;;
  s <- get ;; when (byte_at (mem s) (ebx s) =? 0) (modify (fun s => s <| ebx := 0 |>)).
Definition strtok (str ct : Z) : M cpu Z :=
  modify (fun s => s <| ebx := ___strtok s |> <| esi := str |>) ;;;
  s <- get ;;
  (if (esi s =? 0) && (ebx s =? 0) then ret tt else
   when (esi s =? 0) (modify (fun s => s <| esi := ebx s |>)) ;;;
   strtok_body ct ;;;
   s <- get ;; when (ebx s =? 0) (modify (fun s => s <| esi := 0 |>))) ;;;
  modify (fun s => s <| ___strtok := esi s |>) ;;; gets ebx.

Definition memcpy (dest src n : Z) : M cpu Z :=
  modify (fun s => s <| ecx := u32 n |> <| esi := src |> <| edi := dest |>) ;;; cld ;;; rep movsb ;;; ret dest.
Definition memmove (dest src n : Z) : M cpu Z :=
  (if dest <? src then
     modify (fun s => s <| ecx := u32 n |> <| esi := src |> <| edi := dest |>) ;;; cld ;;; rep movsb
   else
     modify (fun s => s <| ecx := u32 n |> <| esi := u32 (src + n - 1) |> <| edi := u32 (dest + n - 1) |>) ;;; std ;;; rep movsb) ;;;
  ret dest.
Definition memcmp (cs ct count : Z) : M cpu Z :=
  modify (fun s => s <| eax := 0 |> <| edi := cs |> <| esi := ct |> <| ecx := u32 count |>) ;;;
  cld ;;; repe cmpsb ;;; e <- je ;; if e then ret 0 else order.
Definition memchr (cs c count : Z) : M cpu Z :=
  if count =? 0 then ret 0 else
  modify (fun s => (set_al c s) <| edi := cs |> <| ecx := u32 count |>) ;;;
  cld ;;; repne scasb ;;; e <- je ;; when (negb e) (modify (fun s => s <| edi := 1 |>)) ;;; gets (fun s => u32 (edi s - 1)).
Definition memset (str c count : Z) : M cpu Z :=
  modify (fun s => (set_al c s) <| edi := str |> <| ecx := u32 count |>) ;;; cld ;;; rep stosb ;;; ret str.

Ltac fields := cbn [upd upd_eax upd_ebx upd_ecx upd_edx upd_esi upd_edi upd_fl upd_df upd_mem upd____strtok eax ebx ecx edx esi edi fl df mem ___strtok].
Lemma cpu_ext s t : eax s = eax t -> ebx s = ebx t -> ecx s = ecx t -> edx s = edx t -> esi s = esi t -> edi s = edi t -> fl s = fl t ->
  df s = df t -> mem s = mem t -> ___strtok s = ___strtok t -> s = t.
Proof. destruct s, t. cbn. congruence. Qed.

(** ** The prefixed instructions in closed form *)
Section Prefix.
Context (f : cpu -> cpu).
Hypothesis (Hf : forall s, ecx (f s) = ecx s).
Definition again (s : cpu) : cpu := (f s) <| ecx ::= Z.pred |>.
Lemma ecx_iter n s : ecx (Nat.iter n again s) = ecx s - Z.of_nat n.
Proof. induction n as [|n IH]; [cbn; lia|]. rewrite Nat.iter_succ. change (Z.pred (ecx (f (Nat.iter n again s))) = ecx s - Z.of_nat (S n)). rewrite Hf, IH. lia. Qed.
Lemma iter_again n s : Nat.iter (S n) again s = Nat.iter n again (again s).
Proof. apply Nat.iter_succ_r. Qed.
Lemma rep_run s n : ecx s = Z.of_nat n -> (n < fuel)%nat -> rep (modify f) s = Done tt (Nat.iter n again s).
Proof.
  unfold rep. generalize fuel as m. intros m. revert s n. induction m as [|m IH]; intros s n Hn Hm; [lia|]. cbn [loop].
  unfold bind at 1, get. unfold bind at 1. rewrite Hn. destruct n as [|n]; [done|].
  rewrite (proj2 (Z.eqb_neq _ 0)) by lia. rewrite iter_again. apply (IH (again s) n); [cbn; rewrite Hf; lia|lia].
Qed.
Lemma rep_while_end e s n : ecx s = Z.of_nat n -> (n < fuel)%nat ->
  (forall j, (j < n)%nat -> zf (fl (Nat.iter (S j) again s)) = e) -> rep_while e (modify f) s = Done tt (Nat.iter n again s).
Proof.
  unfold rep_while. generalize fuel as m. intros m. revert s n. induction m as [|m IH]; intros s n Hn Hm Hz; [lia|]. cbn [loop].
  unfold bind at 1, get. unfold bind at 1. rewrite Hn. destruct n as [|n]; [done|].
  rewrite (proj2 (Z.eqb_neq _ 0)) by lia. cbn - [Nat.iter]. change (zf (fl (f s))) with (zf (fl (Nat.iter 1 again s))). rewrite (Hz 0%nat) by lia.
  rewrite eqb_reflx. rewrite iter_again. apply (IH (again s) n); [cbn; rewrite Hf; lia|lia|].
  intros j Hj. rewrite <- iter_again. apply Hz. lia.
Qed.
Lemma rep_while_stop e s k : Z.of_nat k < ecx s -> (k < fuel)%nat ->
  (forall j, (j < k)%nat -> zf (fl (Nat.iter (S j) again s)) = e) -> zf (fl (Nat.iter (S k) again s)) = negb e ->
  rep_while e (modify f) s = Done tt (Nat.iter (S k) again s).
Proof.
  unfold rep_while. generalize fuel as m. intros m. revert s k. induction m as [|m IH]; intros s k Hn Hm Hz Hk; [lia|]. cbn [loop].
  unfold bind at 1, get. unfold bind at 1.
  rewrite (proj2 (Z.eqb_neq _ 0)) by lia. cbn - [Nat.iter]. change (zf (fl (f s))) with (zf (fl (Nat.iter 1 again s))). destruct k as [|k].
  - rewrite Hk. by destruct e.
  - rewrite (Hz 0%nat) by lia. rewrite eqb_reflx. rewrite iter_again. apply (IH (again s) k); [cbn; rewrite Hf; lia|lia| |].
    + intros j Hj. rewrite <- iter_again. apply Hz. lia.
    + by rewrite <- iter_again.
Qed.
End Prefix.

(** *** Bytes and strings in memory *)
Lemma byte_at_u32 m a : byte_at m (u32 a) = byte_at m a.
Proof. unfold byte_at. by rewrite (u32_id (u32 a)) by apply u32_range. Qed.
Lemma u32_add a b : u32 (u32 a + b) = u32 (a + b).
Proof. apply Zplus_mod_idemp_l. Qed.
Lemma byte_at_range m a : 0 <= byte_at m a < 256.
Proof. apply u8_range. Qed.
(** The string [l], without its null, at [a]. *)
Record cstr (m : gmap Z Z) (a : Z) (l : list Z) : Prop := {
  cs_start : 0 < a;
  cs_end : a + Z.of_nat (length l) < 2 ^ 32;
  cs_chars : Forall (fun c => 0 < c < 256) l;
  cs_bytes i c : l !! i = Some c -> byte_at m (a + Z.of_nat i) = c;
  cs_null : byte_at m (a + Z.of_nat (length l)) = 0
}.
Lemma cstr_char m a l i : cstr m a l -> (i < length l)%nat -> l !! i = Some (byte_at m (a + Z.of_nat i)) /\ byte_at m (a + Z.of_nat i) <> 0.
Proof.
  intros H Hi. destruct (lookup_lt_is_Some_2 l i Hi) as [c Hc]. pose proof (cs_bytes _ _ _ H i c Hc) as E. rewrite E. split; [done|].
  pose proof (proj1 (Forall_lookup _ l) (cs_chars _ _ _ H) i c Hc). cbv beta in *. lia.
Qed.
Lemma cstr_tail m a c l : cstr m a (c :: l) -> byte_at m a = c /\ 0 < c < 256 /\ cstr m (a + 1) l.
Proof.
  intros [H1 H2 H3 H4 H5]. cbn [length] in *. apply Forall_cons in H3 as [Hc H3]. split; [rewrite <- (H4 0%nat c eq_refl); f_equal; lia|].
  split; [done|]. split; [lia|lia|done| |rewrite <- H5; f_equal; lia]. intros i d Hi. rewrite <- (H4 (S i) d Hi). f_equal. lia.
Qed.
Lemma cstr_drop m a l k : cstr m a l -> (k <= length l)%nat -> cstr m (a + Z.of_nat k) (drop k l).
Proof.
  intros [H1 H2 H3 H4 H5] Hk. split; rewrite ?length_drop; [lia|lia|by apply Forall_drop| |rewrite <- H5; f_equal; lia].
  intros i c Hi. rewrite lookup_drop in Hi. rewrite <- (H4 _ c Hi). f_equal. lia.
Qed.

(** *** Scanning *)
Lemma scas_iter s k : df s = false -> Nat.iter (S k) (again scas) s =
  s <| fl := cmp8 (al s) (byte_at (mem s) (edi s + Z.of_nat k)) |> <| edi := u32 (edi s + Z.of_nat k + 1) |> <| ecx := ecx s - Z.of_nat k - 1 |>.
Proof.
  intros Hd. induction k as [|k IH].
  - change (Nat.iter 1 (again scas) s) with (again scas s). unfold again, scas, dir. rewrite Hd. apply cpu_ext; fields; rewrite ?Z.add_0_r; try done. lia.
  - rewrite Nat.iter_succ, IH. unfold again, scas, dir. fields. rewrite Hd. replace (Z.of_nat (S k)) with (Z.of_nat k + 1) by lia. rewrite Z.add_assoc.
    apply cpu_ext; fields; rewrite ?byte_at_u32, ?u32_add; try done. lia.
Qed.
Definition scanned (s : cpu) (k : nat) : cpu :=
  s <| fl := cmp8 (al s) (byte_at (mem s) (edi s + Z.of_nat k)) |> <| edi := u32 (edi s + Z.of_nat k + 1) |> <| ecx := ecx s - Z.of_nat k - 1 |>.
Lemma scan_found s k : df s = false -> Z.of_nat k < ecx s -> (k < fuel)%nat ->
  (forall j, (j < k)%nat -> byte_at (mem s) (edi s + Z.of_nat j) <> al s) -> byte_at (mem s) (edi s + Z.of_nat k) = al s ->
  repne scasb s = Done tt (scanned s k).
Proof.
  intros Hd Hk Hm Hno Hyes. unfold repne, scasb. rewrite (rep_while_stop scas (fun _ => eq_refl) false s k Hk Hm).
  - by rewrite scas_iter.
  - intros j Hj. rewrite scas_iter by done. apply Z.eqb_neq, not_eq_sym, Hno, Hj.
  - rewrite scas_iter by done. apply Z.eqb_eq. cbn. done.
Qed.
Lemma scan_none s n : df s = false -> ecx s = Z.of_nat n -> (n < fuel)%nat ->
  (forall j, (j < n)%nat -> byte_at (mem s) (edi s + Z.of_nat j) <> al s) ->
  repne scasb s = Done tt (match n with O => s | S k => scanned s k end).
Proof.
  intros Hd Hn Hm Hno. unfold repne, scasb. rewrite (rep_while_end scas (fun _ => eq_refl) false s n Hn Hm).
  - destruct n as [|k]; [done|]. by rewrite scas_iter.
  - intros j Hj. rewrite scas_iter by done. apply Z.eqb_neq, not_eq_sym, Hno, Hj.
Qed.
Lemma scan_null s l : df s = false -> al s = 0 -> ecx s = 2 ^ 32 - 1 -> cstr (mem s) (edi s) l -> (length l < fuel)%nat ->
  repne scasb s = Done tt (scanned s (length l)).
Proof.
  intros Hd Ha Hc H Hm. pose proof (cs_start _ _ _ H). pose proof (cs_end _ _ _ H). apply scan_found; [done|lia|done| |].
  - intros j Hj. rewrite Ha. by apply (cstr_char _ _ l).
  - rewrite Ha. exact (cs_null _ _ _ H).
Qed.

(** *** The length of a string *)
Lemma cpu_eta s : s = mk_cpu (eax s) (ebx s) (ecx s) (edx s) (esi s) (edi s) (fl s) (df s) (mem s) (___strtok s).
Proof. by destruct s. Qed.
(** [repne scasb; notl; decl] after [eax := 0; ecx := -1; edi := a]. *)
Lemma length_run {A} (rest : M cpu A) s l : df s = false -> eax s = 0 -> ecx s = 2 ^ 32 - 1 -> cstr (mem s) (edi s) l -> (length l < fuel)%nat ->
  (repne scasb ;;; not_ecx ;;; dec_ecx ;;; rest) s =
  rest (s <| edi := u32 (edi s + Z.of_nat (length l) + 1) |> <| ecx := Z.of_nat (length l) |> <| fl := dec32 (Z.of_nat (length l) + 1) |>).
Proof.
  intros Hd Ha Hc H Hm. assert (al s = 0) as Hal by (unfold al; by rewrite Ha). run (scan_null s l Hd Hal Hc H Hm).
  pose proof (cs_start _ _ _ H). pose proof (cs_end _ _ _ H). assert (u32 (- (ecx s - Z.of_nat (length l) - 1) - 1) = Z.of_nat (length l) + 1) as Hw.
  { rewrite Hc. replace (- (2 ^ 32 - 1 - Z.of_nat (length l) - 1) - 1) with (Z.of_nat (length l) + 1 + (-1) * 2 ^ 32) by lia.
    unfold u32. rewrite Z_mod_plus_full. apply Z.mod_small. lia. }
  unfold not_ecx, dec_ecx, modify, bind, scanned. f_equal. apply cpu_ext; fields; rewrite ?Hw; try done. rewrite u32_id by lia. lia.
Qed.
Lemma length_wp {A} (rest : M cpu A) Q s l : df s = false -> eax s = 0 -> ecx s = 2 ^ 32 - 1 -> cstr (mem s) (edi s) l -> (length l < fuel)%nat ->
  wp rest Q (s <| edi := u32 (edi s + Z.of_nat (length l) + 1) |> <| ecx := Z.of_nat (length l) |> <| fl := dec32 (Z.of_nat (length l) + 1) |>) ->
  wp (repne scasb ;;; not_ecx ;;; dec_ecx ;;; rest) Q s.
Proof. intros. unfold wp. by rewrite (length_run _ s l). Qed.
Lemma strlen_ok s str l : cstr (mem s) str l -> Z.of_nat (length l) < 2 ^ 31 -> (length l < fuel)%nat ->
  wp (strlen str) (fun r s' => r = Z.of_nat (length l) /\ mem s' = mem s) s.
Proof.
  intros H Hl Hm. unfold strlen, cld. apply wp_bind, wp_modify, wp_bind, wp_modify. set (s1 := upd df _ _).
  unfold wp. rewrite (length_run _ s1 l eq_refl eq_refl eq_refl H Hm). split; [|done]. fields. apply i32_id. lia.
Qed.

(** *** Moving bytes *)
Lemma byte_at_set m a v x : byte_at (set_at a v m) x = if decide (u32 x = u32 a) then u8 v else byte_at m x.
Proof.
  unfold byte_at, set_at. destruct (decide (u32 x = u32 a)) as [->|Hne].
  - rewrite lookup_insert_eq. cbn. apply u8_id, u8_range.
  - by rewrite lookup_insert_ne by congruence.
Qed.
Lemma movs_regs s n (s' := Nat.iter n (again movs) s) : 0 <= esi s < 2 ^ 32 -> 0 <= edi s < 2 ^ 32 ->
  df s' = df s /\ esi s' = u32 (esi s + dir s * Z.of_nat n) /\ edi s' = u32 (edi s + dir s * Z.of_nat n).
Proof.
  intros H1 H2. subst s'. induction n as [|n IH]; [cbn [Nat.iter nat_rect]; rewrite Z.mul_0_r, !Z.add_0_r, !u32_id by lia; done|].
  rewrite Nat.iter_succ. destruct IH as (E1 & E2 & E3). set (t := Nat.iter n (again movs) s) in *. assert (dir t = dir s) as Ed by (unfold dir; by rewrite E1).
  split; [exact E1|]. change (esi (again movs t)) with (u32 (esi t + dir t)). change (edi (again movs t)) with (u32 (edi t + dir t)).
  rewrite E2, E3, Ed, !u32_add. split; f_equal; lia.
Qed.
(** The bytes at [b] have been copied to [a]. *)
Definition copied (m : gmap Z Z) (a b n : Z) (m' : gmap Z Z) : Prop :=
  forall x, 0 <= x < 2 ^ 32 -> byte_at m' x = if decide (a <= x < a + n) then byte_at m (b + (x - a)) else byte_at m x.
Lemma copied_one m a b n m' x y : copied m a b n m' -> 0 <= x < 2 ^ 32 -> 0 <= y < 2 ^ 32 -> ~ a <= y < a + n -> y - x = b - a -> 0 <= n ->
  forall z, 0 <= z < 2 ^ 32 -> byte_at (set_at (u32 x) (byte_at m' (u32 y)) m') z =
    if decide (a <= z < a + n \/ z = x) then byte_at m (b + (z - a)) else byte_at m z.
Proof.
  intros H Hx Hy Hno Hyx Hn z Hz. rewrite byte_at_set, byte_at_u32, !u32_id by (try rewrite u32_id; lia). rewrite u8_id by apply byte_at_range.
  rewrite (H y Hy), (H z Hz), (decide_False _ _ Hno). destruct (decide (z = x)) as [->|Hne].
  - rewrite decide_True by lia. f_equal. lia.
  - destruct (decide (a <= z < a + n)); [by rewrite decide_True by lia|by rewrite decide_False by lia].
Qed.
Lemma movs_up s n : df s = false -> 0 <= esi s -> esi s + Z.of_nat n <= 2 ^ 32 -> esi s < 2 ^ 32 -> 0 <= edi s < 2 ^ 32 -> edi s + Z.of_nat n <= 2 ^ 32 ->
  edi s <= esi s \/ esi s + Z.of_nat n <= edi s -> copied (mem s) (edi s) (esi s) (Z.of_nat n) (mem (Nat.iter n (again movs) s)).
Proof.
  intros Hd Hs1 Hs2 Hs3 Hd1 Hd2 Hov. induction n as [|n IH]; [intros x _; by rewrite decide_False by lia|].
  rewrite Nat.iter_succ. destruct (movs_regs s n ltac:(lia) Hd1) as (E1 & E2 & E3). set (t := Nat.iter n (again movs) s) in *.
  intros x Hx. change (mem (again movs t)) with (set_at (edi t) (byte_at (mem t) (esi t)) (mem t)). rewrite E2, E3. unfold dir. rewrite Hd, Z.mul_1_l.
  rewrite (copied_one (mem s) (edi s) (esi s) (Z.of_nat n)) by (try apply IH; lia). by apply decide_ext; lia.
Qed.
Lemma movs_down s n a b (N := Z.of_nat n) : df s = true -> esi s = u32 (b + N - 1) -> edi s = u32 (a + N - 1) ->
  0 <= b -> b + N <= 2 ^ 32 -> 0 <= a -> a + N <= 2 ^ 32 -> b <= a -> copied (mem s) a b N (mem (Nat.iter n (again movs) s)).
Proof.
  intros Hd Hs Ht Hb1 Hb2 Ha1 Ha2 Hba.
  enough (forall k, (k <= n)%nat -> copied (mem s) (a + N - Z.of_nat k) (b + N - Z.of_nat k) (Z.of_nat k) (mem (Nat.iter k (again movs) s))) as H.
  { specialize (H n ltac:(lia)). unfold N in H. by rewrite !Z.add_simpl_r in H. }
  induction k as [|k IH]; intros Hk; [intros x _; by rewrite decide_False by lia|]. specialize (IH ltac:(lia)).
  rewrite Nat.iter_succ. destruct (movs_regs s k) as (E1 & E2 & E3); [rewrite Hs; apply u32_range|rewrite Ht; apply u32_range|]. set (t := Nat.iter k (again movs) s) in *.
  intros x Hx. change (mem (again movs t)) with (set_at (edi t) (byte_at (mem t) (esi t)) (mem t)). rewrite E2, E3. unfold dir. rewrite Hd, Hs, Ht, !u32_add.
  rewrite (copied_one (mem s) (a + N - Z.of_nat k) (b + N - Z.of_nat k) (Z.of_nat k)) by (try apply IH; lia).
  destruct (decide (a + N - Z.of_nat k <= x < a + N - Z.of_nat k + Z.of_nat k \/ x = a + N - 1 + -1 * Z.of_nat k)).
  - rewrite decide_True by lia. f_equal. lia.
  - by rewrite decide_False by lia.
Qed.
(** C12: memmove copies right when the ranges overlap: every byte of the [n] at [dest] is the byte that the
    range at [src] had before the call, and no byte outside changes.  Copying downwards leaves the
    direction flag set. *)
Theorem memmove_ok s dest src n : 0 <= dest < 2 ^ 32 -> 0 <= src < 2 ^ 32 -> 0 <= n < 2 ^ 31 -> dest + n <= 2 ^ 32 -> src + n <= 2 ^ 32 -> n < Z.of_nat fuel ->
  wp (memmove dest src n) (fun r s' => r = dest /\ copied (mem s) dest src n (mem s') /\ df s' = negb (dest <? src)) s.
Proof.
  intros Hd Hs Hn Hdn Hsn Hm. unfold memmove, cld, std. apply wp_bind. rewrite (u32_id n) by lia. assert (Z.of_nat (Z.to_nat n) = n) as En by lia.
  destruct (Z.ltb_spec dest src); apply wp_bind, wp_modify, wp_bind, wp_modify; set (s1 := upd df _ _); unfold wp, movsb.
  - rewrite (rep_run movs (fun _ => eq_refl) s1 (Z.to_nat n)) by (cbn; lia). unfold ret. split; [done|].
    destruct (movs_regs s1 (Z.to_nat n) Hs Hd) as [E _]. split; [|exact E].
    rewrite <- En at 1. apply (movs_up s1); try done; cbn; lia.
  - rewrite (rep_run movs (fun _ => eq_refl) s1 (Z.to_nat n)) by (cbn; lia). unfold ret. split; [done|].
    destruct (movs_regs s1 (Z.to_nat n)) as [E _]; [apply u32_range..|]. split; [|exact E].
    rewrite <- En at 1. apply (movs_down s1); rewrite ?En; try done; lia.
Qed.

(** *** Comparing *)
Definition bytes (m : gmap Z Z) (a n : Z) : list Z := map (fun i => byte_at m (a + i)) (seqZ 0 n).
(** The first difference decides, as signed characters. *)
Fixpoint order_of (l1 l2 : list Z) : Z :=
  match l1, l2 with
  | a :: l1, b :: l2 => if a =? b then order_of l1 l2 else if i8 b <? i8 a then 1 else -1
  | _, _ => 0
  end.
Lemma bytes_S m a n : bytes m a (Z.of_nat (S n)) = byte_at m a :: bytes m (a + 1) (Z.of_nat n).
Proof.
  unfold bytes. rewrite seqZ_cons by lia. cbn [map]. rewrite Z.add_0_r. f_equal. replace (Z.pred (Z.of_nat (S n))) with (Z.of_nat n) by lia.
  change (Z.succ 0) with (1 + 0). rewrite <- (fmap_add_seqZ 1 0 (Z.of_nat n)). change (map ?f (?g <$> ?l)) with (f <$> (g <$> l)). rewrite <- list_fmap_compose. apply list_fmap_ext. intros i x _. cbn. f_equal. lia.
Qed.
Lemma order_same m a b n : (forall j, (j < n)%nat -> byte_at m (a + Z.of_nat j) = byte_at m (b + Z.of_nat j)) ->
  order_of (bytes m a (Z.of_nat n)) (bytes m b (Z.of_nat n)) = 0.
Proof.
  revert a b. induction n as [|n IH]; intros a b H; [done|]. rewrite !bytes_S. cbn [order_of].
  pose proof (H 0%nat ltac:(lia)) as H0. rewrite !Z.add_0_r in H0. rewrite H0, Z.eqb_refl. apply IH.
  intros j Hj. specialize (H (S j) ltac:(lia)). rewrite !Nat2Z.inj_succ in H. rewrite <- !Z.add_assoc, !(Z.add_comm 1). exact H.
Qed.
Lemma order_differ m a b n k : (k < n)%nat -> (forall j, (j < k)%nat -> byte_at m (a + Z.of_nat j) = byte_at m (b + Z.of_nat j)) ->
  byte_at m (a + Z.of_nat k) <> byte_at m (b + Z.of_nat k) ->
  order_of (bytes m a (Z.of_nat n)) (bytes m b (Z.of_nat n)) = if i8 (byte_at m (b + Z.of_nat k)) <? i8 (byte_at m (a + Z.of_nat k)) then 1 else -1.
Proof.
  revert a b n. induction k as [|k IH]; intros a b n Hn H Hne; (destruct n as [|n]; [lia|]); rewrite !bytes_S; cbn [order_of].
  - rewrite !Z.add_0_r in *. by rewrite (proj2 (Z.eqb_neq _ _) Hne).
  - pose proof (H 0%nat ltac:(lia)) as H0. rewrite !Z.add_0_r in H0. rewrite H0, Z.eqb_refl.
    assert (forall c j, c + Z.of_nat (S j) = c + 1 + Z.of_nat j) as E by lia. rewrite !E in *. apply IH; [lia| |done].
    intros j Hj. rewrite <- !E. apply H. lia.
Qed.
Lemma first_difference (p q : nat -> Z) n :
  (forall j, (j < n)%nat -> p j = q j) \/ exists k, (k < n)%nat /\ (forall j, (j < k)%nat -> p j = q j) /\ p k <> q k.
Proof.
  induction n as [|n [IH|(k & Hk & Hl & Hne)]]; [left; lia| |right; exists k; split; [lia|done]].
  destruct (decide (p n = q n)); [left; intros j Hj; destruct (decide (j = n)) as [->|]; [done|apply IH; lia]|].
  right. exists n. split; [lia|done].
Qed.
Definition compared (s : cpu) (k : nat) : cpu :=
  s <| fl := cmp8 (byte_at (mem s) (esi s + Z.of_nat k)) (byte_at (mem s) (edi s + Z.of_nat k)) |>
    <| esi := u32 (esi s + Z.of_nat k + 1) |> <| edi := u32 (edi s + Z.of_nat k + 1) |> <| ecx := ecx s - Z.of_nat k - 1 |>.
Lemma cmps_iter s k : df s = false -> Nat.iter (S k) (again cmps) s = compared s k.
Proof.
  intros Hd. induction k as [|k IH].
  - change (Nat.iter 1 (again cmps) s) with (again cmps s). unfold again, cmps, compared, dir. rewrite Hd. apply cpu_ext; fields; rewrite ?Z.add_0_r; try done. lia.
  - rewrite Nat.iter_succ, IH. unfold again, cmps, compared, dir. fields. rewrite Hd. replace (Z.of_nat (S k)) with (Z.of_nat k + 1) by lia. rewrite !Z.add_assoc.
    apply cpu_ext; fields; rewrite ?byte_at_u32, ?u32_add; try done. lia.
Qed.
Lemma cmp_equal s n : df s = false -> ecx s = Z.of_nat n -> (n < fuel)%nat ->
  (forall j, (j < n)%nat -> byte_at (mem s) (edi s + Z.of_nat j) = byte_at (mem s) (esi s + Z.of_nat j)) ->
  repe cmpsb s = Done tt (match n with O => s | S k => compared s k end).
Proof.
  intros Hd Hn Hm Heq. unfold repe, cmpsb. rewrite (rep_while_end cmps (fun _ => eq_refl) true s n Hn Hm).
  - destruct n as [|k]; [done|]. by rewrite cmps_iter.
  - intros j Hj. rewrite cmps_iter by done. apply Z.eqb_eq, eq_sym, Heq, Hj.
Qed.
Lemma cmp_differ s k : df s = false -> Z.of_nat k < ecx s -> (k < fuel)%nat ->
  (forall j, (j < k)%nat -> byte_at (mem s) (edi s + Z.of_nat j) = byte_at (mem s) (esi s + Z.of_nat j)) ->
  byte_at (mem s) (edi s + Z.of_nat k) <> byte_at (mem s) (esi s + Z.of_nat k) -> repe cmpsb s = Done tt (compared s k).
Proof.
  intros Hd Hk Hm Heq Hne. unfold repe, cmpsb. rewrite (rep_while_stop cmps (fun _ => eq_refl) true s k Hk Hm).
  - by rewrite cmps_iter.
  - intros j Hj. rewrite cmps_iter by done. apply Z.eqb_eq, eq_sym, Heq, Hj.
  - rewrite cmps_iter by done. by apply Z.eqb_neq, not_eq_sym.
Qed.
(** [memcmp]: of no bytes it answers by the flags that were there before the call. *)
Lemma memcmp_run s cs ct count : 0 <= count < 2 ^ 31 -> count < Z.of_nat fuel ->
  wp (memcmp cs ct count) (fun r s' => mem s' = mem s /\
    r = if count =? 0 then (if zf (fl s) then 0 else if lt (fl s) then 1 else -1) else order_of (bytes (mem s) cs count) (bytes (mem s) ct count)) s.
Proof.
  intros Hc Hm. unfold memcmp, cld, order, je, jl. apply wp_bind, wp_modify, wp_bind, wp_modify. rewrite u32_id by lia. set (s1 := upd df _ _).
  assert (exists n, count = Z.of_nat n /\ (n < fuel)%nat) as (n & -> & Hn) by (exists (Z.to_nat count); lia). apply wp_bind. unfold wp at 1.
  destruct (first_difference (fun j => byte_at (mem s) (cs + Z.of_nat j)) (fun j => byte_at (mem s) (ct + Z.of_nat j)) n) as [Heq|(k & Hk & Heq & Hne)].
  - rewrite (cmp_equal s1 n) by done. rewrite order_same by done. destruct n as [|k].
    + unfold wp, bind, gets, ret. change (fl s1) with (fl s). destruct (zf (fl s)); split; reflexivity.
    + unfold wp, bind, gets, ret. change (zf (fl (compared s1 k))) with (byte_at (mem s) (ct + Z.of_nat k) =? byte_at (mem s) (cs + Z.of_nat k)).
      rewrite <- (Heq k) by lia. rewrite Z.eqb_refl. done.
  - rewrite (cmp_differ s1 k) by (done || cbn; lia). rewrite (order_differ _ _ _ _ k) by done. unfold wp, bind, gets, ret. change (fl (compared s1 k)) with (cmp8 (byte_at (mem s) (ct + Z.of_nat k)) (byte_at (mem s) (cs + Z.of_nat k))). cbn [cmp8 zf lt].
    rewrite (proj2 (Z.eqb_neq _ _) (not_eq_sym Hne)). rewrite (proj2 (Z.eqb_neq (Z.of_nat n) 0)) by lia. split; reflexivity.
Qed.

Lemma al_set_al v s : al (set_al v s) = u8 v.
Proof. unfold al, set_al. fields. unfold u8. dlia. Qed.
Lemma al_lods s : al (lods s) = byte_at (mem s) (esi s).
Proof. change (al (lods s)) with (al (set_al (byte_at (mem s) (esi s)) s)). rewrite al_set_al. apply u8_id, byte_at_range. Qed.
Lemma cstr_hd m a l : cstr m a l -> byte_at m a = hd 0 l.
Proof.
  intros H. destruct l as [|c l]; [cbn; rewrite <- (Z.add_0_r a); exact (cs_null _ _ _ H)|]. by destruct (cstr_tail _ _ _ _ H) as [-> _].
Qed.
Lemma cstr_next m a l : cstr m a l -> u32 (a + 1) = a + 1 \/ l = [].
Proof. intros H. destruct l as [|c l]; [by right|left]. pose proof (cs_start _ _ _ H). pose proof (cs_end _ _ _ H). cbn [length] in *. apply u32_id. lia. Qed.
(** One round of strcmp: the registers and what the jumps see. *)
Definition cmp_round (s : cpu) : cpu := scas (lods s).
Lemma cmp_round_fields s : df s = false -> let t := cmp_round s in
  mem t = mem s /\ df t = false /\ ecx t = ecx s /\ esi t = u32 (esi s + 1) /\ edi t = u32 (edi s + 1) /\ al t = byte_at (mem s) (esi s) /\
  fl t = cmp8 (byte_at (mem s) (esi s)) (byte_at (mem s) (edi s)).
Proof.
  intros Hd t. split; [done|]. split; [done|]. split; [done|].
  assert (dir s = 1) as E by (unfold dir; by rewrite Hd). split; [change (esi t) with (u32 (esi s + dir s)); by rewrite E|].
  split; [change (edi t) with (u32 (edi s + dir s)); by rewrite E|]. split; [apply al_lods|].
  change (fl t) with (cmp8 (al (lods s)) (byte_at (mem s) (edi s))). by rewrite al_lods.
Qed.
Definition cmp_answer (s : cpu) (same : bool) : Z := if same then 0 else if lt (fl s) then 1 else -1.
Definition strcmp_round : M cpu (unit + bool) :=
  lodsb ;;; scasb ;;; e <- je ;; if negb e then ret (inr false) else test_al ;;; z <- je ;; ret (if z then inr true else inl tt).
Lemma strcmp_round_run s x y : df s = false -> byte_at (mem s) (esi s) = y -> byte_at (mem s) (edi s) = x -> exists t,
  strcmp_round s = Done (if y =? x then if y =? 0 then inr true else inl tt else inr false) t /\
  mem t = mem s /\ df t = false /\ ecx t = ecx s /\ esi t = u32 (esi s + 1) /\ edi t = u32 (edi s + 1) /\ (y <> x -> fl t = cmp8 y x).
Proof.
  intros Hd Ey Ex. pose proof (cmp_round_fields s Hd) as (E1 & E2 & E3 & E4 & E5 & E6 & E7). rewrite Ey, Ex in *. set (t := cmp_round s) in *.
  destruct (Z.eqb_spec y x) as [->|Hne].
  - exists (t <| fl := test8 (al t) |>). split; [|by split_and!].
    unfold strcmp_round, lodsb, scasb, test_al, je, modify, gets, bind. fold (cmp_round s). fold t. rewrite E7. cbn [cmp8 zf]. rewrite Z.eqb_refl. cbn [negb].
    unfold ret. fields. by rewrite E6.
  - exists t. split; [|by split_and!]. unfold strcmp_round, lodsb, scasb, je, modify, gets, bind. fold (cmp_round s). fold t. rewrite E7. cbn [cmp8 zf].
    by rewrite (proj2 (Z.eqb_neq _ _) Hne).
Qed.
(** The characters of two strings, compared up to the first difference or null. *)
Lemma order_strings m a b l1 l2 : cstr m a l1 -> cstr m b l2 -> let x := byte_at m a in let y := byte_at m b in
  order_of (l1 ++ [0]) (l2 ++ [0]) = (if y =? x then if y =? 0 then 0 else order_of (tail l1 ++ [0]) (tail l2 ++ [0]) else if i8 y <? i8 x then 1 else -1) /\
  (y = x -> y <> 0 -> cstr m (a + 1) (tail l1) /\ cstr m (b + 1) (tail l2) /\ u32 (a + 1) = a + 1 /\ u32 (b + 1) = b + 1 /\ length l1 = S (length (tail l1))).
Proof.
  intros H1 H2 x y. pose proof (cstr_hd _ _ _ H1) as Ex. pose proof (cstr_hd _ _ _ H2) as Ey. fold x in Ex. fold y in Ey. split.
  - destruct (Z.eqb_spec y x) as [E|Hne].
    + destruct l1 as [|c l1], l2 as [|d l2]; cbn [hd] in *.
      * by rewrite Ey.
      * pose proof (cs_chars _ _ _ H2) as [? _]%Forall_cons. lia.
      * pose proof (cs_chars _ _ _ H1) as [? _]%Forall_cons. lia.
      * pose proof (cs_chars _ _ _ H1) as [? _]%Forall_cons. cbn [app order_of tail]. rewrite (proj2 (Z.eqb_eq c d)), (proj2 (Z.eqb_neq y 0)) by lia. done.
    + assert (order_of (l1 ++ [0]) (l2 ++ [0]) = if x =? y then order_of (tail (l1 ++ [0])) (tail (l2 ++ [0])) else if i8 y <? i8 x then 1 else -1) as ->.
      { destruct l1, l2; cbn [app order_of hd tail] in *; by rewrite Ex, Ey. }
      by rewrite (proj2 (Z.eqb_neq x y)) by done.
  - intros E Hne. destruct l1 as [|c l1]; [cbn in Ex; lia|]. destruct l2 as [|d l2]; [cbn in Ey; lia|].
    destruct (cstr_tail _ _ _ _ H1) as (_ & _ & T1). destruct (cstr_tail _ _ _ _ H2) as (_ & _ & T2). split; [done|]. split; [done|].
    pose proof (cs_start _ _ _ T1). pose proof (cs_end _ _ _ T1). pose proof (cs_start _ _ _ T2). pose proof (cs_end _ _ _ T2). rewrite !u32_id by lia. done.
Qed.
Lemma strcmp_loop m : forall l1 l2 s, (length l1 < m)%nat -> df s = false -> cstr (mem s) (edi s) l1 -> cstr (mem s) (esi s) l2 ->
  wp (loop m (fun _ => strcmp_round) tt) (fun same s' => mem s' = mem s /\ order_of (l1 ++ [0]) (l2 ++ [0]) = cmp_answer s' same) s.
Proof.
  induction m as [|m IH]; intros l1 l2 s Hm Hd H1 H2; [lia|]. cbn [loop]. apply wp_bind. unfold wp at 1.
  destruct (strcmp_round_run s _ _ Hd eq_refl eq_refl) as (t & -> & E1 & E2 & _ & E4 & E5 & E6).
  destruct (order_strings _ _ _ l1 l2 H1 H2) as [-> Hnext]. destruct (Z.eqb_spec (byte_at (mem s) (esi s)) (byte_at (mem s) (edi s))) as [E|Hne].
  - destruct (Z.eqb_spec (byte_at (mem s) (esi s)) 0) as [E0|Hn0]; [by apply wp_ret|].
    destruct (Hnext E Hn0) as (T1 & T2 & U1 & U2 & El). rewrite <- E1. rewrite <- E1 in T1, T2. rewrite <- U1, <- E5 in T1. rewrite <- U2, <- E4 in T2.
    apply (IH (tail l1) (tail l2) t); [lia|done|done|done].
  - apply wp_ret. split; [done|]. unfold cmp_answer. by rewrite E6.
Qed.
Lemma strcmp_run s cs ct l1 l2 : cstr (mem s) cs l1 -> cstr (mem s) ct l2 -> (length l1 < fuel)%nat ->
  wp (strcmp cs ct) (fun r s' => mem s' = mem s /\ r = order_of (l1 ++ [0]) (l2 ++ [0])) s.
Proof.
  intros H1 H2 Hm. unfold strcmp, cld, order, jl. apply wp_bind, wp_modify, wp_bind, wp_modify, wp_bind. set (s1 := upd df _ _).
  eapply wp_mono; [apply (strcmp_loop fuel l1 l2 s1); done|]. cbv beta. intros same s2 [Em ->]. unfold cmp_answer. destruct same; [by apply wp_ret|].
  by apply wp_bind, wp_gets, wp_ret.
Qed.
Lemma order_zero l1 l2 : Forall (fun c => 0 < c < 256) l1 -> Forall (fun c => 0 < c < 256) l2 -> order_of (l1 ++ [0]) (l2 ++ [0]) = 0 <-> l1 = l2.
Proof.
  intros H1. revert l2. induction H1 as [|c l1 Hc H1 IH]; intros l2 H2; (destruct l2 as [|d l2]; [|apply Forall_cons in H2 as [Hd H2]]); cbn [app order_of].
  - done.
  - rewrite (proj2 (Z.eqb_neq 0 d)) by lia. split; [by destruct (_ <? _)|done].
  - rewrite (proj2 (Z.eqb_neq c 0)) by lia. split; [by destruct (_ <? _)|done].
  - destruct (Z.eqb_spec c d) as [->|Hne]; [rewrite (IH l2 H2); split; congruence|]. split; [by destruct (_ <? _)|congruence].
Qed.

(** *** Sets of characters *)
Lemma first_place (D : list Z) c : c ∈ D -> exists k, D !! k = Some c /\ forall j, (j < k)%nat -> D !! j <> Some c.
Proof.
  intros H. destruct (list_find (fun x => x = c) D) as [[k x]|] eqn:E.
  - apply list_find_Some in E as (Hk & -> & Hmin). exists k. split; [done|]. intros j Hj Hjc. by apply (Hmin j c Hjc Hj).
  - apply list_find_None in E. rewrite Forall_forall in E. by destruct (E c H).
Qed.
(** What stays the same while a string is read. *)
Record reads (s t : cpu) : Prop := {
  rd_mem : mem t = mem s;
  rd_df : df t = df s;
  rd_edx : edx t = edx s;
  rd_ebx : ebx t = ebx s;
  rd_tok : ___strtok t = ___strtok s
}.
#[local] Instance reads_preorder : PreOrder reads.
Proof. split; [by split|]. intros s1 s2 s3 [] []. split; congruence. Qed.
Lemma next_in_run s ct D (c := byte_at (mem s) (esi s)) : df s = false -> cstr (mem s) ct D -> edx s = Z.of_nat (length D) -> (length D < fuel)%nat ->
  exists t, next_in ct s = Done (if c =? 0 then None else Some (bool_decide (c ∈ D))) t /\ reads s t /\ esi t = u32 (esi s + 1).
Proof.
  intros Hd HD Hx Hm. assert (dir s = 1) as Edir by (unfold dir; by rewrite Hd). pose proof (al_lods s) as Ea. fold c in Ea.
  set (s1 := (lods s) <| fl := test8 (al (lods s)) |>). assert (esi s1 = u32 (esi s + 1)) as Es by (change (esi s1) with (u32 (esi s + dir s)); by rewrite Edir).
  unfold next_in, lodsb, test_al, je, modify, gets, bind. fold s1. change (zf (fl s1)) with (al (lods s) =? 0). rewrite Ea.
  destruct (Z.eqb_spec c 0) as [E0|Hne]; [exists s1; split; [done|split; [by split|done]]|].
  set (s2 := s1 <| edi := ct |> <| ecx := edx s1 |>). assert (al s2 = c) as Ea2 by exact Ea. assert (df s2 = false) as Hd2 by exact Hd.
  assert (ecx s2 = Z.of_nat (length D)) as Hc2 by exact Hx. destruct (decide (c ∈ D)) as [Hin|Hout].
  - destruct (first_place D c Hin) as (k & Hk & Hmin). pose proof (lookup_lt_Some _ _ _ Hk). rewrite (scan_found s2 k); [|done|lia|lia| |].
    + exists (scanned s2 k). split; [|split; [by split|done]]. change (zf (fl (scanned s2 k))) with (al s2 =? byte_at (mem s) (ct + Z.of_nat k)).
      rewrite (cs_bytes _ _ _ HD k c Hk), Ea2, Z.eqb_refl. unfold ret. by rewrite bool_decide_eq_true_2.
    + intros j Hj E. destruct (cstr_char _ _ _ j HD) as [Hjl _]; [lia|]. apply (Hmin j Hj). rewrite Hjl. f_equal. rewrite <- Ea2. exact E.
    + rewrite Ea2. exact (cs_bytes _ _ _ HD k c Hk).
  - assert (forall j, (j < length D)%nat -> byte_at (mem s) (ct + Z.of_nat j) <> c) as Hno.
    { intros j Hj E. destruct (cstr_char _ _ _ j HD Hj) as [Hjl _]. rewrite E in Hjl. apply Hout. by eapply list_elem_of_lookup_2. }
    rewrite (scan_none s2 (length D) Hd2 Hc2 Hm); [|intros j Hj; rewrite Ea2; by apply Hno]. destruct (length D) as [|k].
    + exists s2. split; [|split; [by split|done]]. change (zf (fl s2)) with (al (lods s) =? 0). rewrite Ea, (proj2 (Z.eqb_neq _ _) Hne). unfold ret. by rewrite bool_decide_eq_false_2.
    + exists (scanned s2 k). split; [|split; [by split|done]]. change (zf (fl (scanned s2 k))) with (al s2 =? byte_at (mem s) (ct + Z.of_nat k)).
      rewrite Ea2, (proj2 (Z.eqb_neq _ _)) by (apply not_eq_sym, Hno; lia). unfold ret. by rewrite bool_decide_eq_false_2.
Qed.
(** The length of the longest prefix of characters that are, or are not, in the set. *)
Fixpoint spn (inside : bool) (D l : list Z) : nat :=
  match l with [] => 0%nat | c :: l => if Bool.eqb (bool_decide (c ∈ D)) inside then S (spn inside D l) else 0%nat end.
Lemma spn_le inside D l : (spn inside D l <= length l)%nat.
Proof. induction l as [|c l IH]; cbn; [lia|]. destruct (Bool.eqb _ _); lia. Qed.
Lemma skip_run inside ct D : forall m l s, df s = false -> cstr (mem s) ct D -> edx s = Z.of_nat (length D) -> (length D < fuel)%nat ->
  cstr (mem s) (esi s) l -> (length l < m)%nat ->
  exists t, loop m (fun _ => o <- next_in ct ;; match o with None => ret (inr false) | Some e => ret (if Bool.eqb e inside then inl tt else inr true) end) tt s =
    Done (negb (spn inside D l =? length l)%nat) t /\ reads s t /\ esi t = u32 (esi s + Z.of_nat (spn inside D l) + 1).
Proof.
  induction m as [|m IH]; intros l s Hd HD Hx Hf Hl Hm; [lia|]. cbn [loop]. destruct (next_in_run s ct D Hd HD Hx Hf) as (t & Hrun & Ht & Es).
  unfold bind at 1, bind at 1. rewrite Hrun. pose proof (cstr_hd _ _ _ Hl) as Eh. rewrite Eh in *. destruct l as [|c l]; cbn [hd spn length] in *.
  - exists t. split; [done|]. split; [done|]. rewrite Es. f_equal. lia.
  - destruct (cstr_tail _ _ _ _ Hl) as (_ & Hc & Hl'). rewrite (proj2 (Z.eqb_neq c 0)) by lia. unfold ret at 1 2.
    destruct (Bool.eqb (bool_decide (c ∈ D)) inside) eqn:Ee.
    + assert (u32 (esi s + 1) = esi s + 1) as Eu by (pose proof (cs_start _ _ _ Hl'); pose proof (cs_end _ _ _ Hl'); apply u32_id; lia).
      destruct Ht as [T1 T2 T3 T4 T5]. rewrite Eu in Es. destruct (IH l t) as (t' & Hrun' & Ht' & Es'); [congruence|by rewrite T1|congruence|done|by rewrite T1, Es|lia|].
      exists t'. split; [exact Hrun'|]. split; [by transitivity t; [split|]|]. rewrite Es', Es. f_equal. lia.
    + exists t. split; [done|]. split; [done|]. rewrite Es. f_equal. lia.
Qed.
(** [measure] and the registers that the span routines start with. *)
Definition measured (s : cpu) (cs ct n : Z) (t : cpu) : Prop :=
  mem t = mem s /\ df t = false /\ esi t = cs /\ edx t = n /\ zf (fl t) = (n =? 0) /\ ___strtok t = ___strtok s.
Lemma measure_run s cs ct D : cstr (mem s) ct D -> (length D < fuel)%nat ->
  wp (span_start cs ;;; measure ct) (fun _ t => measured s cs ct (Z.of_nat (length D)) t) s.
Proof.
  intros HD Hm. unfold span_start, measure, cld. do 3 apply wp_bind, wp_modify. set (s1 := upd edi _ _).
  unfold wp. rewrite (length_run _ s1 D eq_refl eq_refl eq_refl HD Hm). unfold modify. set (t := upd edx _ _). unfold measured.
  do 4 (split; [done|]). split; [|done]. change (zf (fl t)) with (u32 (Z.of_nat (length D) + 1 - 1) =? 0). rewrite Z.add_simpl_r.
  pose proof (cs_end _ _ _ HD). pose proof (cs_start _ _ _ HD). by rewrite u32_id by lia.
Qed.
Lemma spans_run {A} (rest : bool -> M cpu A) Q s cs ct l D inside (n := spn inside D l) :
  cstr (mem s) cs l -> cstr (mem s) ct D -> (length D < fuel)%nat -> (length l < fuel)%nat ->
  (forall t, mem t = mem s -> esi t = u32 (cs + Z.of_nat n + 1) -> wp (rest (negb (n =? length l)%nat)) Q t) ->
  wp (span_start cs ;;; measure ct ;;; found <- skip inside ct ;; rest found) Q s.
Proof.
  intros Hl HD HDm Hlm HQ. pose proof (measure_run s cs ct D HD HDm) as H. apply wp_bind in H. apply wp_bind. eapply wp_mono; [exact H|].
  cbv beta. intros [] t0 H0. apply wp_bind. eapply wp_mono; [exact H0|]. cbv beta. intros [] t (E1 & E2 & E3 & E4 & _ & _).
  apply wp_bind. unfold wp at 1, skip. destruct (skip_run inside ct D fuel l t) as (t' & -> & [R1 _ _ _ _] & Es); [done|by rewrite E1|done|done|by rewrite E1, E3|done|].
  apply HQ; [congruence|]. by rewrite Es, E3.
Qed.
Lemma u32_back a : 0 <= a < 2 ^ 32 -> u32 (u32 (a + 1) - 1) = a.
Proof. intros H. unfold u32. rewrite Zminus_mod_idemp_l, Z.add_simpl_r. by apply Z.mod_small. Qed.
Lemma within m a l n : cstr m a l -> (n <= length l)%nat -> 0 <= a + Z.of_nat n < 2 ^ 32.
Proof. intros H Hn. pose proof (cs_start _ _ _ H). pose proof (cs_end _ _ _ H). lia. Qed.
Lemma spn_run (inside : bool) s cs ct l D : cstr (mem s) cs l -> cstr (mem s) ct D -> (length D < fuel)%nat -> (length l < fuel)%nat -> Z.of_nat (length l) < 2 ^ 31 ->
  wp ((if inside then strspn else strcspn) cs ct) (fun r t => r = Z.of_nat (spn inside D l) /\ mem t = mem s) s.
Proof.
  intros Hl HD HDm Hlm Hs. pose proof (spn_le inside D l) as Hle. pose proof (within _ _ _ _ Hl Hle).
  enough (wp (span_start cs ;;; measure ct ;;; skip inside ct ;;; dec_esi ;;; gets (fun s => i32 (esi s - cs))) (fun r t => r = Z.of_nat (spn inside D l) /\ mem t = mem s) s)
    by (by destruct inside).
  apply (spans_run (fun _ => dec_esi ;;; gets (fun s => i32 (esi s - cs))) _ s cs ct l D inside); [done..|]. intros t Em Es.
  unfold dec_esi. apply wp_bind, wp_modify, wp_gets. fields. split; [|done]. rewrite Es, u32_back by lia. rewrite i32_id; lia.
Qed.
Lemma strpbrk_run s cs ct l D : cstr (mem s) cs l -> cstr (mem s) ct D -> (length D < fuel)%nat -> (length l < fuel)%nat ->
  wp (strpbrk cs ct) (fun r t => r = (if (spn false D l =? length l)%nat then 0 else cs + Z.of_nat (spn false D l)) /\ mem t = mem s) s.
Proof.
  intros Hl HD HDm Hlm. pose proof (spn_le false D l) as Hle. pose proof (within _ _ _ _ Hl Hle).
  apply (spans_run (fun found : bool => (if found then dec_esi else modify (fun s => s <| esi := 0 |> <| fl := test32 0 |>)) ;;; gets esi) _ s cs ct l D false); [done..|].
  intros t Em Es. destruct (spn false D l =? length l)%nat; cbn [negb]; unfold dec_esi; apply wp_bind, wp_modify, wp_gets; fields; split; try done.
  rewrite Es. by apply u32_back.
Qed.

(** *** Searching a string *)
Fixpoint find_sub (p l : list Z) : option nat :=
  if bool_decide (p `prefix_of` l) then Some 0%nat else match l with [] => None | _ :: l => S <$> find_sub p l end.
Lemma find_sub_short p l : (length l < length p)%nat -> find_sub p l = None.
Proof.
  induction l as [|c l IH]; intros H; cbn [find_sub]; (rewrite bool_decide_eq_false_2 by (intros Hp%prefix_length; lia)); [done|].
  cbn [length] in H. by rewrite IH by lia.
Qed.
Section Match.
Context (m : gmap Z Z) (a b : Z) (p l : list Z).
Hypothesis (Hp : cstr m a p) (Hl : cstr m b l).
Notation same j := (byte_at m (a + Z.of_nat j) = byte_at m (b + Z.of_nat j)).
Lemma same_inside k : (k < length p)%nat -> (forall j, (j < k)%nat -> same j) -> (k <= length l)%nat.
Proof.
  intros Hk H. destruct (decide (k <= length l)%nat); [done|]. specialize (H (length l) ltac:(lia)). rewrite (cs_null _ _ _ Hl) in H.
  by destruct (cstr_char _ _ _ (length l) Hp) as [_ []]; [lia|].
Qed.
Lemma same_prefix : (forall j, (j < length p)%nat -> same j) <-> p `prefix_of` l.
Proof.
  split.
  - intros H. assert (length p <= length l)%nat as Hle.
    { destruct (length p) as [|k] eqn:E; [lia|]. pose proof (same_inside k ltac:(lia) ltac:(intros; apply H; lia)). destruct (decide (k = length l)); [|lia].
      specialize (H k ltac:(lia)). subst k. rewrite (cs_null _ _ _ Hl) in H. by destruct (cstr_char _ _ _ (length l) Hp) as [_ []]; [lia|]. }
    exists (drop (length p) l). rewrite <- (take_drop (length p) l) at 1. f_equal. apply list_eq. intros j. destruct (decide (j < length p)%nat).
    + rewrite lookup_take_lt by done. destruct (cstr_char _ _ _ j Hl ltac:(lia)) as [-> _]. destruct (cstr_char _ _ _ j Hp ltac:(lia)) as [-> _]. by rewrite H.
    + rewrite !(proj2 (lookup_ge_None _ _)); [done|lia|rewrite length_take; lia].
  - intros [q ->] j Hj. destruct (cstr_char _ _ _ j Hp Hj) as [E1 _]. symmetry. apply (cs_bytes _ _ _ Hl). by rewrite lookup_app_l.
Qed.
End Match.
Definition strstr_found : M cpu (unit + Z) := s <- get ;; ret (inr (eax s)).
Definition strstr_advance : M cpu (unit + Z) :=
  modify (fun s => s <| eax := esi s |> <| esi := eax s |>) ;;;
  modify (fun s => s <| esi := u32 (esi s + 1) |>) ;;;
  modify (fun s => s <| fl := cmp8 (byte_at (mem s) (eax s - 1)) 0 |>) ;;;
  z <- je ;; ret (if z then inr 0 else inl tt).
Definition strstr_round (ct : Z) : M cpu (unit + Z) :=
  modify (fun s => s <| edi := ct |> <| eax := esi s |> <| ecx := edx s |>) ;;; repe cmpsb ;;;
  e <- je ;; if e then strstr_found else strstr_advance.
Lemma strstr_advance_run s : exists t, strstr_advance s = Done (if byte_at (mem s) (esi s - 1) =? 0 then inr 0 else inl tt) t /\
  mem t = mem s /\ df t = df s /\ edx t = edx s /\ esi t = u32 (eax s + 1).
Proof. eexists. split; [reflexivity|done]. Qed.
Lemma strstr_round_run s ct p l : df s = false -> cstr (mem s) ct p -> edx s = Z.of_nat (length p) -> (length p < fuel)%nat -> cstr (mem s) (esi s) l ->
  (p = [] -> zf (fl s) = true) -> exists t,
  mem t = mem s /\ df t = false /\ edx t = edx s /\
  (p `prefix_of` l /\ strstr_round ct s = Done (inr (esi s)) t \/
   ~ p `prefix_of` l /\ p <> [] /\ (strstr_round ct s = Done (inr 0) t /\ (length l < length p)%nat \/
     strstr_round ct s = Done (inl tt) t /\ esi t = u32 (esi s + 1) /\ l <> [])).
Proof.
  intros Hd Hp Hx Hm Hl Hz. set (s1 := s <| edi := ct |> <| eax := esi s |> <| ecx := edx s |>). assert (ecx s1 = Z.of_nat (length p)) as Hc by exact Hx.
  assert (strstr_round ct s = (repe cmpsb ;;; (e <- je ;; if e then strstr_found else strstr_advance)) s1) as -> by done.
  destruct (first_difference (fun j => byte_at (mem s) (ct + Z.of_nat j)) (fun j => byte_at (mem s) (esi s + Z.of_nat j)) (length p)) as [Heq|(k & Hk & Heq & Hne)].
  - run (cmp_equal s1 (length p) Hd Hc Hm Heq). set (s2 := match length p with O => s1 | S k => compared s1 k end).
    assert (zf (fl s2) = true) as Hz2.
    { unfold s2. destruct (length p) as [|k] eqn:E; [exact (Hz (nil_length_inv _ E))|].
      change ((byte_at (mem s) (esi s + Z.of_nat k) =? byte_at (mem s) (ct + Z.of_nat k)) = true). apply Z.eqb_eq, eq_sym, Heq. lia. }
    assert (mem s2 = mem s /\ df s2 = false /\ edx s2 = edx s /\ eax s2 = esi s) as (M1 & M2 & M3 & M4) by (unfold s2; by destruct (length p)).
    exists s2. do 3 (split; [done|]). left. split; [by apply (same_prefix (mem s) ct (esi s))|]. unfold bind at 1, je, gets. rewrite Hz2. unfold strstr_found, get, bind, ret. by rewrite M4.
  - run (cmp_differ s1 k Hd ltac:(lia) ltac:(lia) Heq Hne). pose proof (same_inside (mem s) ct (esi s) p l Hp Hl k Hk Heq) as Hkl. set (s2 := compared s1 k).
    assert (zf (fl s2) = false) as Hz2 by (by apply Z.eqb_neq, not_eq_sym).
    destruct (strstr_advance_run s2) as (t & Hrun & T1 & T2 & T3 & T4). exists t. split; [done|]. split; [by rewrite T2|]. split; [done|]. right.
    split; [intros Hpre; apply Hne; by apply (same_prefix (mem s) ct (esi s) p l Hp Hl)|]. split; [by intros ->; cbn in Hk; lia|].
    unfold bind at 1 2, je, gets. rewrite Hz2, Hrun. change (byte_at (mem s2) (esi s2 - 1)) with (byte_at (mem s) (u32 (esi s + Z.of_nat k + 1) - 1)).
    rewrite <- (byte_at_u32 (mem s) (u32 (esi s + Z.of_nat k + 1) - 1)), u32_back by (by apply (within (mem s) _ l)).
    destruct (decide (k = length l)) as [->|].
    + left. rewrite (cs_null _ _ _ Hl). split; [done|lia].
    + right. destruct (cstr_char _ _ _ k Hl ltac:(lia)) as [_ Hn0]. rewrite (proj2 (Z.eqb_neq _ _) Hn0). split; [done|]. split; [done|]. intros ->. cbn [length] in *. lia.
Qed.
Lemma strstr_loop ct p : forall m l s, df s = false -> cstr (mem s) ct p -> edx s = Z.of_nat (length p) -> (length p < fuel)%nat -> cstr (mem s) (esi s) l ->
  (p = [] -> zf (fl s) = true) -> (length l < m)%nat ->
  wp (loop m (fun _ => strstr_round ct) tt) (fun r t => mem t = mem s /\ r = match find_sub p l with Some i => esi s + Z.of_nat i | None => 0 end) s.
Proof.
  induction m as [|m IH]; intros l s Hd Hp Hx Hf Hl Hz Hm; [lia|]. cbn [loop]. apply wp_bind. unfold wp at 1.
  destruct (strstr_round_run s ct p l Hd Hp Hx Hf Hl Hz) as (t & E1 & E2 & E3 & [[Hpre ->]|(Hno & Hne & [[-> Hlen]|(-> & Es & Hl0)])]).
  - apply wp_ret. split; [done|]. destruct l; cbn [find_sub]; rewrite bool_decide_eq_true_2 by done; lia.
  - apply wp_ret. split; [done|]. by rewrite find_sub_short.
  - destruct l as [|c l]; [done|]. destruct (cstr_tail _ _ _ _ Hl) as (_ & _ & Hl'). cbn [length] in Hm.
    rewrite u32_id in Es by (pose proof (cs_start _ _ _ Hl'); pose proof (cs_end _ _ _ Hl'); lia). rewrite <- E1, <- Es in Hl'.
    eapply wp_mono; [apply (IH l t); [done|by rewrite E1|congruence|done|done|done|lia]|]. cbv beta. intros r u [Eu ->]. split; [congruence|].
    cbn [find_sub]. rewrite bool_decide_eq_false_2 by done. destruct (find_sub p l); cbn [fmap option_fmap option_map]; [lia|done].
Qed.
Lemma strstr_run s cs ct l p : cstr (mem s) cs l -> cstr (mem s) ct p -> (length p < fuel)%nat -> (length l < fuel)%nat ->
  wp (strstr cs ct) (fun r t => mem t = mem s /\ r = match find_sub p l with Some i => cs + Z.of_nat i | None => 0 end) s.
Proof.
  intros Hl Hp Hpm Hlm. pose proof (measure_run s cs ct p Hp Hpm) as H. apply wp_bind in H. unfold strstr. apply wp_bind. eapply wp_mono; [exact H|].
  cbv beta. intros [] t0 H0. apply wp_bind. eapply wp_mono; [exact H0|]. cbv beta. intros [] t (E1 & E2 & E3 & E4 & E5 & _).
  eapply wp_mono; [apply (strstr_loop ct p fuel l t); [done|by rewrite E1|done|done|by rewrite E1, E3| |done]|].
  - intros ->. by rewrite E5.
  - cbv beta. intros r u [Eu ->]. split; [congruence|]. by rewrite E3.
Qed.

(** *** Storing bytes *)
Fixpoint store (a : Z) (l : list Z) (m : gmap Z Z) : gmap Z Z :=
  match l with [] => m | c :: l => store (a + 1) l (set_at a c m) end.
Lemma set_at_u32 a v m : set_at (u32 a) v m = set_at a v m.
Proof. unfold set_at. by rewrite (u32_id (u32 a)) by apply u32_range. Qed.
Lemma set_at_u8 a v m : set_at a (u8 v) m = set_at a v m.
Proof. unfold set_at. by rewrite (u8_id (u8 v)) by apply u8_range. Qed.
Lemma store_mod a b l m : u32 a = u32 b -> store a l m = store b l m.
Proof.
  revert a b m. induction l as [|c l IH]; intros a b m E; [done|]. cbn [store]. rewrite <- (set_at_u32 a), <- (set_at_u32 b), E.
  apply IH. by rewrite <- (u32_add a), <- (u32_add b), E.
Qed.
Lemma store_u32 a l m : store (u32 a) l m = store a l m.
Proof. apply store_mod, u32_id, u32_range. Qed.
Lemma store_app a l1 l2 m : store a (l1 ++ l2) m = store (a + Z.of_nat (length l1)) l2 (store a l1 m).
Proof.
  revert a m. induction l1 as [|c l1 IH]; intros a m; cbn [app store length]; [by rewrite Z.add_0_r|]. rewrite IH. f_equal. lia.
Qed.
Lemma byte_at_store a l m x : 0 <= a -> a + Z.of_nat (length l) <= 2 ^ 32 -> 0 <= x < 2 ^ 32 ->
  byte_at (store a l m) x = if decide (a <= x < a + Z.of_nat (length l)) then u8 (default 0 (l !! Z.to_nat (x - a))) else byte_at m x.
Proof.
  revert a m. induction l as [|c l IH]; intros a m Ha Hl Hx; cbn [length store] in *; [by rewrite decide_False by lia|].
  rewrite IH, byte_at_set by lia. rewrite !u32_id by lia. destruct (decide (x = a)) as [->|Hne].
  - rewrite decide_False, decide_True by lia. by rewrite Z.sub_diag.
  - destruct (decide (a + 1 <= x < a + 1 + Z.of_nat (length l))); [rewrite decide_True by lia|by rewrite decide_False by lia].
    replace (Z.to_nat (x - a)) with (S (Z.to_nat (x - (a + 1)))) by lia. done.
Qed.
Lemma cstr_set m a l x v : cstr m a l -> 0 <= x < 2 ^ 32 -> x < a \/ a + Z.of_nat (length l) < x -> cstr (set_at x v m) a l.
Proof.
  intros [H1 H2 H3 H4 H5] Hx Hor. split; try done.
  - intros i c Hi. pose proof (lookup_lt_Some _ _ _ Hi). rewrite byte_at_set, !u32_id by lia. rewrite decide_False by lia. by apply H4.
  - rewrite byte_at_set, !u32_id by lia. by rewrite decide_False by lia.
Qed.
Lemma stos_iter n : forall s, df s = false -> mem (Nat.iter n (again stos) s) = store (edi s) (replicate n (al s)) (mem s).
Proof.
  induction n as [|n IH]; intros s Hd; [done|]. rewrite iter_again, IH by done. cbn [replicate store].
  change (edi (again stos s)) with (u32 (edi s + dir s)). unfold dir. rewrite Hd, store_u32. done.
Qed.
Lemma memset_run s str c count : 0 <= count < 2 ^ 31 -> count < Z.of_nat fuel ->
  wp (memset str c count) (fun r t => r = str /\ mem t = store str (replicate (Z.to_nat count) (u8 c)) (mem s)) s.
Proof.
  intros Hc Hm. unfold memset, cld. apply wp_bind, wp_modify, wp_bind, wp_modify. rewrite u32_id by lia. set (s1 := upd df _ _). apply wp_bind. unfold wp, stosb.
  rewrite (rep_run stos (fun _ => eq_refl) s1 (Z.to_nat count)) by (cbn; lia). unfold ret. split; [done|]. rewrite stos_iter by done.
  assert (al s1 = u8 c) as -> by (apply (al_set_al c s)). done.
Qed.

(** *** Copying strings *)
(** One round: [lodsb; stosb; testb]. *)
Definition copy_round (s : cpu) : cpu := let s := stos (lods s) in s <| fl := test8 (al s) |>.
Lemma copy_round_fields s (t := copy_round s) : df s = false -> mem t = set_at (edi s) (byte_at (mem s) (esi s)) (mem s) /\ df t = false /\
  esi t = u32 (esi s + 1) /\ edi t = u32 (edi s + 1) /\ al t = byte_at (mem s) (esi s) /\ zf (fl t) = (byte_at (mem s) (esi s) =? 0) /\ ecx t = ecx s.
Proof.
  intros Hd. assert (dir s = 1) as E by (unfold dir; by rewrite Hd). pose proof (al_lods s) as Ea.
  split; [change (mem t) with (set_at (edi s) (al (lods s)) (mem s)); by rewrite Ea|]. split; [done|].
  split; [change (esi t) with (u32 (esi s + dir s)); by rewrite E|]. split; [change (edi t) with (u32 (edi s + dir s)); by rewrite E|].
  split; [exact Ea|]. split; [|done]. change (zf (fl t)) with (al (lods s) =? 0). by rewrite Ea.
Qed.
Definition apart (src dst n : Z) : Prop := dst <= src \/ src + n <= dst.
Lemma copy_loop m : forall l s, df s = false -> cstr (mem s) (esi s) l -> 0 <= edi s -> edi s + Z.of_nat (length l) < 2 ^ 32 ->
  apart (esi s) (edi s) (Z.of_nat (length l) + 1) -> (length l < m)%nat ->
  wp (loop m (fun _ => lodsb ;;; stosb ;;; test_al ;;; z <- je ;; ret (if z then inr tt else inl tt)) tt)
    (fun _ t => mem t = store (edi s) (l ++ [0]) (mem s)) s.
Proof.
  induction m as [|m IH]; intros l s Hd Hl He1 He2 Hap Hm; [lia|]. cbn [loop]. pose proof (copy_round_fields s Hd) as (E1 & E2 & E3 & E4 & _ & E6 & _).
  unfold lodsb, stosb, test_al, je. apply wp_bind, wp_bind, wp_modify, wp_bind, wp_modify, wp_bind, wp_modify, wp_bind, wp_gets. fold (copy_round s). set (t := copy_round s) in *.
  rewrite E6. pose proof (cstr_hd _ _ _ Hl) as Eh. rewrite Eh in *. destruct l as [|c l]; cbn [hd length app] in *; [by apply wp_ret|].
  destruct (cstr_tail _ _ _ _ Hl) as (_ & Hc & Hl'). rewrite (proj2 (Z.eqb_neq c 0)) by lia. apply wp_ret. cbv beta iota.
  pose proof (cs_start _ _ _ Hl'). pose proof (cs_end _ _ _ Hl'). rewrite u32_id in E3, E4 by lia. unfold apart in *.
  eapply wp_mono; [apply (IH l t)|cbv beta; intros [] u ->; rewrite E4, E1; done]; [done| |lia|lia|lia|lia].
  rewrite E1, E3. apply cstr_set; [done|lia|lia].
Qed.
Lemma strcpy_run s dest src l : cstr (mem s) src l -> 0 <= dest -> dest + Z.of_nat (length l) < 2 ^ 32 -> apart src dest (Z.of_nat (length l) + 1) -> (length l < fuel)%nat ->
  wp (strcpy dest src) (fun r t => r = dest /\ mem t = store dest (l ++ [0]) (mem s)) s.
Proof.
  intros Hl Hd1 Hd2 Hap Hm. unfold strcpy, cld. apply wp_bind, wp_modify, wp_bind, wp_modify, wp_bind. set (s1 := upd df _ _).
  eapply wp_mono; [by apply (copy_loop fuel l s1)|]. cbv beta. intros [] t E. by apply wp_ret.
Qed.
(** At most [n] bytes, the null among them. *)
Lemma counted_loop m : forall l n s, df s = false -> cstr (mem s) (esi s) l -> 0 <= edi s -> edi s + Z.of_nat (length l) < 2 ^ 32 ->
  apart (esi s) (edi s) (Z.of_nat (length l) + 1) -> ecx s = Z.of_nat n -> Z.of_nat n < 2 ^ 31 -> (length l + 1 < m)%nat ->
  wp (loop m (fun _ => dec_ecx ;;; n <- js ;; if n then ret (inr false) else
      lodsb ;;; stosb ;;; test_al ;;; z <- je ;; ret (if z then inr true else inl tt)) tt)
    (fun z t => mem t = store (edi s) (take n (l ++ [0])) (mem s) /\ z = (length l <? n)%nat /\ df t = false /\
       edi t = u32 (edi s + Z.of_nat (Nat.min n (length l + 1))) /\ (z = true -> al t = 0 /\ ecx t = Z.of_nat (n - length l - 1))) s.
Proof.
  induction m as [|m IH]; intros l n s Hd Hl He1 He2 Hap Hn Hn2 Hm; [lia|]. cbn [loop]. unfold dec_ecx, js. apply wp_bind, wp_bind, wp_modify, wp_bind, wp_gets.
  set (s1 := upd ecx _ _). change (sf (fl s1)) with (i32 (ecx s - 1) <? 0). rewrite Hn, i32_id by lia. destruct n as [|n].
  { apply wp_ret. split; [done|]. split; [done|]. split; [done|]. split; [|done]. change (edi s1) with (edi s). cbn [Nat.min]. by rewrite Z.add_0_r, u32_id by lia. }
  rewrite (proj2 (Z.ltb_ge _ 0)) by lia. assert (ecx s1 = Z.of_nat n) as Hc1 by (change (ecx s1) with (u32 (ecx s - 1)); rewrite Hn, u32_id; lia).
  pose proof (copy_round_fields s1 Hd) as (E1 & E2 & E3 & E4 & E5 & E6 & E7).
  unfold lodsb, stosb, test_al, je. apply wp_bind, wp_modify, wp_bind, wp_modify, wp_bind, wp_modify, wp_bind, wp_gets. fold (copy_round s1). set (t := copy_round s1) in *.
  rewrite E6. change (mem s1) with (mem s) in *. change (esi s1) with (esi s) in *. change (edi s1) with (edi s) in *.
  pose proof (cstr_hd _ _ _ Hl) as Eh. rewrite Eh in *. destruct l as [|c l]; cbn [hd length app take] in *.
  - apply wp_ret. rewrite take_nil. split; [exact E1|]. split; [done|]. split; [done|]. split; [rewrite E4; do 2 f_equal; lia|]. intros _. split; [done|]. rewrite E7. lia.
  - destruct (cstr_tail _ _ _ _ Hl) as (_ & Hc & Hl'). rewrite (proj2 (Z.eqb_neq c 0)) by lia. apply wp_ret. cbv beta iota.
    pose proof (cs_start _ _ _ Hl'). pose proof (cs_end _ _ _ Hl'). rewrite u32_id in E3, E4 by lia. unfold apart in *.
    eapply wp_mono; [apply (IH l n t)|cbv beta; intros z u (U1 & U2 & U3 & U4 & U5)]; [done| |lia|lia|lia|congruence|lia|lia|].
    + rewrite E1, E3. apply cstr_set; [done|lia|lia].
    + rewrite E4 in U4. rewrite U1, E4, E1. split; [done|]. split; [done|]. split; [done|]. split; [rewrite U4; f_equal; lia|exact U5].
Qed.
(** C13: what strncat stores.  It appends the first [count] bytes of the string at [src] with its null, and
    one more null always: when the whole of [src] is shorter than [count] two nulls are stored, one
    byte more than the string needs.  Nothing else in memory changes. *)
Theorem strncat_ok s dest src count d l (a := dest + Z.of_nat (length d)) : cstr (mem s) dest d -> cstr (mem s) src l ->
  a + Z.of_nat (length l) + 1 < 2 ^ 32 -> apart src a (Z.of_nat (length l) + 1) -> 0 <= count < 2 ^ 31 -> (length d < fuel)%nat -> (length l + 1 < fuel)%nat ->
  wp (strncat dest src count) (fun r t => r = dest /\ mem t = store a (take (Z.to_nat count) (l ++ [0]) ++ [0]) (mem s)) s.
Proof.
  intros Hd Hl Ha Hap Hc Hdm Hlm. unfold strncat, cld, dec_edi, xor_eax, stosb. apply wp_bind, wp_modify, wp_bind, wp_modify. set (s1 := upd df _ _).
  apply wp_bind. unfold wp at 1. rewrite (scan_null s1 d eq_refl eq_refl eq_refl Hd Hdm). apply wp_bind, wp_modify, wp_bind, wp_modify. rewrite u32_id by lia. set (s2 := upd ecx _ _).
  pose proof (cs_start _ _ _ Hd). assert (edi s2 = a) as Ed by (change (edi s2) with (u32 (u32 (a + 1) - 1)); apply u32_back; lia).
  apply wp_bind. eapply wp_mono; [apply (counted_loop fuel l (Z.to_nat count) s2)|]; rewrite ?Ed; try done; [lia|lia|cbn; lia|lia|].
  cbv beta. intros z t (T1 & _ & T3 & T4 & _). apply wp_bind, wp_modify, wp_bind, wp_modify, wp_ret. split; [done|].
  set (t1 := upd fl _ _). change (mem (stos t1)) with (set_at (edi t) 0 (mem t)). rewrite T1, T4, store_app, set_at_u32. cbn [store].
  rewrite length_take, length_app. done.
Qed.

(** *** Tokens *)
Fixpoint tokens_n (n : nat) (D l : list Z) : list (list Z) :=
  match n with
  | O => []
  | S n => let r := drop (spn true D l) l in
           match r with [] => [] | _ => take (spn false D r) r :: tokens_n n D (drop (S (spn false D r)) r) end
  end.
Definition tokens (D l : list Z) : list (list Z) := tokens_n (S (length l)) D l.
Lemma tokens_fuel D n : forall m l, (length l < n)%nat -> (length l < m)%nat -> tokens_n n D l = tokens_n m D l.
Proof.
  induction n as [|n IH]; intros m l Hn Hm; [lia|]. destruct m as [|m]; [lia|]. cbn [tokens_n]. cbv zeta.
  assert (length (drop (spn true D l) l) <= length l)%nat as Hl by (rewrite length_drop; lia).
  destruct (drop (spn true D l) l) as [|c r]; [done|]. cbn [length] in Hl. f_equal. apply IH; rewrite length_drop; cbn [length]; lia.
Qed.
Lemma tokens_step D l : tokens D l =
  let r := drop (spn true D l) l in match r with [] => [] | _ => take (spn false D r) r :: tokens D (drop (S (spn false D r)) r) end.
Proof.
  unfold tokens at 1. cbn [tokens_n]. cbv zeta. assert (length (drop (spn true D l) l) <= length l)%nat as Hl by (rewrite length_drop; lia).
  destruct (drop (spn true D l) l) as [|c r]; [done|]. cbn [length] in Hl. f_equal. apply tokens_fuel; rewrite length_drop; cbn [length]; lia.
Qed.
Lemma spn_drop inside D l : match drop (spn inside D l) l with [] => True | c :: _ => Bool.eqb (bool_decide (c ∈ D)) inside = false end.
Proof. induction l as [|c l IH]; cbn [spn]; [done|]. destruct (Bool.eqb (bool_decide (c ∈ D)) inside) eqn:E; [exact IH|exact E]. Qed.
Lemma spn_token D l : drop (spn true D l) l <> [] -> (0 < spn false D (drop (spn true D l) l))%nat.
Proof.
  pose proof (spn_drop true D l) as H. destruct (drop (spn true D l) l) as [|c r]; [done|]. intros _. cbn [spn]. destruct (bool_decide (c ∈ D)); [done|]. cbn. lia.
Qed.
(** What [strtok] has found: the start of the token and, unless the string ends there, the place of its end. *)
Definition strtok_end (D l : list Z) (a : Z) (m : gmap Z Z) : Z * Z * gmap Z Z :=
  let r := drop (spn true D l) l in
  let b := a + Z.of_nat (spn true D l) in
  match r with
  | [] => (0, 0, m)
  | _ => let n := spn false D r in
         if (n =? length r)%nat then (b, 0, m) else (b, b + Z.of_nat n + 1, set_at (b + Z.of_nat n) 0 m)
  end.
Lemma strtok_tail_run s ct D r (n := spn false D r) : df s = false -> cstr (mem s) ct D -> edx s = Z.of_nat (length D) -> (length D < fuel)%nat ->
  cstr (mem s) (esi s) r -> (length r < fuel)%nat ->
  wp (strtok_tail ct) (fun _ t => ebx t = ebx s /\ if (n =? length r)%nat then esi t = 0 /\ mem t = mem s
    else esi t = esi s + Z.of_nat n + 1 /\ mem t = set_at (esi s + Z.of_nat n) 0 (mem s)) s.
Proof.
  intros Hd HD Hx HDm Hr Hrm. unfold strtok_tail, skip. destruct (skip_run false ct D fuel r s Hd HD Hx HDm Hr Hrm) as (t & Hrun & [R1 _ _ R4 _] & Es).
  fold n in Hrun, Es. pose proof (spn_le false D r) as Hle. fold n in Hle. pose proof (within _ _ r n Hr Hle) as Hw. apply wp_bind. unfold wp at 1. rewrite Hrun.
  destruct (Nat.eqb_spec n (length r)) as [E|Hne]; cbn [negb]; [by apply wp_modify|].
  unfold dec_esi. apply wp_bind, wp_modify, wp_bind, wp_get. set (t1 := upd esi _ _).
  assert (esi t1 = esi s + Z.of_nat n) as E1 by (change (esi t1) with (u32 (esi t - 1)); rewrite Es; by apply u32_back).
  change (mem t1) with (mem t). rewrite R1, E1. destruct (cstr_char _ _ r n Hr ltac:(lia)) as [_ Hn0]. rewrite (proj2 (Z.eqb_neq _ _) Hn0).
  apply wp_bind, wp_modify, wp_modify. fields. change (mem t1) with (mem t). split; [done|]. rewrite E1, R1. split; [|done].
  pose proof (cs_end _ _ _ Hr). rewrite u32_id; lia.
Qed.
Lemma strtok_body_run s ct D l : cstr (mem s) ct D -> D <> [] -> (length D < fuel)%nat -> cstr (mem s) (esi s) l -> (length l < fuel)%nat ->
  let '(b, e, m) := strtok_end D l (esi s) (mem s) in
  wp (strtok_body ct) (fun _ t => ebx t = b /\ (b = 0 \/ esi t = e) /\ mem t = m) s.
Proof.
  intros HD HDne HDm Hl Hlm. unfold strtok_body, cld, strtok_end. cbv zeta. pose proof (spn_le true D l) as Hle. pose proof (within _ _ l _ Hl Hle) as Hw.
  pose proof (cstr_drop _ _ l _ Hl Hle) as Hr. set (k := spn true D l) in *. set (r := drop k l) in *. assert (length r = length l - k)%nat as Hlen by (unfold r; apply length_drop).
  enough (wp (strtok_body ct) (fun _ t => if (k =? length l)%nat then ebx t = 0 /\ mem t = mem s else ebx t = esi s + Z.of_nat k /\
    if (spn false D r =? length r)%nat then esi t = 0 /\ mem t = mem s else
      esi t = esi s + Z.of_nat k + Z.of_nat (spn false D r) + 1 /\ mem t = set_at (esi s + Z.of_nat k + Z.of_nat (spn false D r)) 0 (mem s)) s) as H.
  { destruct (Nat.eqb_spec k (length l)) as [E|Hne].
    - rewrite (nil_length_inv r) by lia. eapply wp_mono; [exact H|]. cbv beta. intros [] t [H1 H2]. by split_and!; try left.
    - destruct r as [|c r'] eqn:Er; [cbn in Hlen; lia|]. destruct (spn false D (c :: r') =? length (c :: r'))%nat;
        (eapply wp_mono; [exact H|]; cbv beta; intros [] t (H1 & H2 & H3); split_and!; try done; by right). }
  unfold strtok_body, cld. do 3 apply wp_bind, wp_modify. set (s1 := upd edi _ _). apply (length_wp _ _ s1 D eq_refl eq_refl eq_refl HD HDm). set (s2 := upd fl _ _).
  assert (zf (fl s2) = false) as Hz2.
  { apply Z.eqb_neq. rewrite Z.add_simpl_r. pose proof (cs_start _ _ _ HD). pose proof (cs_end _ _ _ HD). rewrite u32_id by lia. destruct D; [done|cbn [length]; lia]. }
  apply wp_bind, wp_gets. rewrite Hz2. apply wp_bind, wp_modify. set (s3 := upd edx _ _). apply wp_bind. unfold wp at 1, skip.
  destruct (skip_run true ct D fuel l s3) as (t & -> & [R1 R2 R3 R4 _] & Es); try done. fold k in Es |- *.
  destruct (Nat.eqb_spec k (length l)) as [E|Hne]; cbn [negb]; [by apply wp_ret|].
  unfold dec_esi. apply wp_bind, wp_modify, wp_bind, wp_get. set (t1 := upd esi _ _).
  assert (esi t1 = esi s + Z.of_nat k) as E1 by (change (esi t1) with (u32 (esi t - 1)); rewrite Es; by apply u32_back).
  assert (mem t1 = mem s) as M1 by exact R1. rewrite M1, E1. destruct (cstr_char _ _ l k Hl ltac:(lia)) as [_ Hn0]. rewrite (proj2 (Z.eqb_neq _ _) Hn0).
  apply wp_bind, wp_modify. set (t2 := upd ebx _ _). apply wp_bind.
  eapply wp_mono; [apply (strtok_tail_run t2 ct D r)|]; try done; [by rewrite <- M1 in HD|rewrite <- M1 in Hr; rewrite <- E1 in Hr; exact Hr|lia|].
  cbv beta. intros [] u [U1 U2]. change (ebx t2) with (esi t1) in U1. change (esi t2) with (esi t1) in U2. change (mem t2) with (mem t1) in U2. rewrite E1 in *. rewrite M1 in *.
  assert (byte_at (mem u) (ebx u) <> 0) as Hn.
  { rewrite U1. destruct (Nat.eqb_spec (spn false D r) (length r)); destruct U2 as [_ ->]; [done|]. rewrite byte_at_set.
    pose proof (spn_le false D r). pose proof (cs_end _ _ _ Hr). assert (0 < spn false D r)%nat by (apply spn_token; fold k r; intros Er; rewrite Er in Hlen; cbn in Hlen; lia).
    rewrite !u32_id by lia. by rewrite decide_False by lia. }
  apply wp_bind, wp_get. rewrite (proj2 (Z.eqb_neq _ _) Hn). by apply wp_ret.
Qed.
Lemma cstr_cut m a l n : cstr m a l -> (n < length l)%nat -> cstr (set_at (a + Z.of_nat n) 0 m) a (take n l).
Proof.
  intros [H1 H2 H3 H4 H5] Hn. assert (length (take n l) = n) as Hl by (rewrite length_take; lia). split; rewrite ?Hl; [done|lia|by apply Forall_take| |].
  - intros i c Hi. apply lookup_take_Some in Hi as [Hi Hin]. rewrite byte_at_set, !u32_id by lia. rewrite decide_False by lia. by apply H4.
  - by rewrite byte_at_set, decide_True.
Qed.
(** The token and what is left, in memory. *)
Lemma strtok_end_ok D l a m : cstr m a l -> let '(b, e, m') := strtok_end D l a m in
  (forall x, 0 <= x < a \/ a + Z.of_nat (length l) <= x < 2 ^ 32 -> byte_at m' x = byte_at m x) /\
  (forall b w, b + Z.of_nat (length w) < a \/ a + Z.of_nat (length l) <= b -> cstr m b w -> cstr m' b w) /\
  match tokens D l with
  | [] => b = 0 /\ e = 0
  | w :: ts => cstr m' b w /\ a <= b /\
      (e = 0 /\ ts = [] \/ exists l', cstr m' e l' /\ e + Z.of_nat (length l') = a + Z.of_nat (length l) /\ b + Z.of_nat (length w) < e /\ ts = tokens D l')
  end.
Proof.
  intros Hl. unfold strtok_end. rewrite tokens_step. cbv zeta. pose proof (spn_le true D l) as Hle. pose proof (cstr_drop _ _ l _ Hl Hle) as Hr. pose proof (spn_token D l) as Htok.
  pose proof (length_drop l (spn true D l)) as Hlen. set (b := a + Z.of_nat (spn true D l)) in *. destruct (drop (spn true D l) l) as [|c r0]; [done|].
  set (r := c :: r0) in *. specialize (Htok ltac:(done)). set (n := spn false D r) in *. pose proof (spn_le false D r) as Hn. fold n in Hn.
  pose proof (cs_start _ _ _ Hl). pose proof (cs_end _ _ _ Hl).
  destruct (Nat.eqb_spec n (length r)) as [E|Hne].
  - split; [done|]. split; [done|]. rewrite E, take_ge, drop_ge by lia. split; [done|]. split; [lia|]. by left.
  - split; [intros x Hx; rewrite byte_at_set, !u32_id by lia; by rewrite decide_False by lia|].
    split; [intros d w Hd Hw; apply cstr_set; [done|lia|lia]|]. split; [by apply cstr_cut; [|lia]|]. split; [lia|]. right. exists (drop (S n) r).
    rewrite length_drop, length_take. split; [|split; [lia|split; [lia|done]]].
    replace (b + Z.of_nat n + 1) with (b + Z.of_nat (S n)) by lia. apply cstr_set; [apply cstr_drop; [done|lia]|lia|lia].
Qed.
(** The tokens that the calls of [strtok] with a null pointer have still to give, from [a] on. *)
Definition waiting (m : gmap Z Z) (a ct : Z) (D : list Z) (ts : list (list Z)) : Prop :=
  cstr m ct D /\ (a = 0 /\ ts = [] \/ exists l, cstr m a l /\ (length l < fuel)%nat /\ ts = tokens D l /\
    (ct + Z.of_nat (length D) < a \/ a + Z.of_nat (length l) < ct)).
(** C11: strtok gives the tokens one after the other.  The tokens of a string are its longest parts without
    delimiters.  When those still to come are [ts], a call answers the address of a string that is
    the first of them, and the ones to come are the rest; with none left it answers null.  Strings
    that end before the place where it goes on, the tokens given so far among them, stay as they
    are, and so do the delimiters. *)
Theorem strtok_ok s str ct D ts (a := if str =? 0 then ___strtok s else str) : D <> [] -> (length D < fuel)%nat -> waiting (mem s) a ct D ts ->
  wp (strtok str ct) (fun r t => waiting (mem t) (___strtok t) ct D (tail ts) /\
    match ts with [] => r = 0 | w :: _ => cstr (mem t) r w /\ a <= r /\ (___strtok t = 0 \/ r + Z.of_nat (length w) < ___strtok t) end /\
    forall b w, b + Z.of_nat (length w) < a -> cstr (mem s) b w -> cstr (mem t) b w) s.
Proof.
  intros HDne HDm [HD Hw]. unfold strtok. apply wp_bind, wp_modify, wp_bind, wp_get. set (s1 := upd esi _ _). change (esi s1) with str. change (ebx s1) with (___strtok s).
  destruct Hw as [[Ea ->]|(l & Hl & Hlm & -> & Hap)].
  - unfold a in Ea. destruct (Z.eqb_spec str 0) as [->|]; [|done]. rewrite Ea. apply wp_bind, wp_ret, wp_bind, wp_modify, wp_gets.
    split; [|split; [exact Ea|done]]. split; [done|]. by left.
  - pose proof (cs_start _ _ _ Hl) as Ha. apply wp_bind.
    set (s2 := if str =? 0 then s1 <| esi := ebx s1 |> else s1). assert (esi s2 = a /\ mem s2 = mem s) as [Es2 Em2] by (unfold s2, a; by destruct (str =? 0)).
    assert ((str =? 0) && (___strtok s =? 0) = false) as -> by (unfold a in Ha; destruct (Z.eqb_spec str 0); [apply Z.eqb_neq; lia|done]).
    apply wp_bind. unfold wp at 1. assert ((when (str =? 0) (modify (fun s => s <| esi := ebx s |>))) s1 = Done tt s2) as -> by (unfold s2; by destruct (str =? 0)).
    pose proof (strtok_body_run s2 ct D l) as Hbody. rewrite Em2, Es2 in Hbody. specialize (Hbody HD HDne HDm Hl Hlm). pose proof (strtok_end_ok D l a (mem s) Hl) as Hend.
    destruct (strtok_end D l a (mem s)) as [[b e] m']. destruct Hend as (_ & Hkeep & Htok). apply wp_bind. eapply wp_mono; [exact Hbody|]. cbv beta. intros [] t (Eb & Ee & Em).
    assert (cstr m' ct D) as HD' by (apply Hkeep; [lia|done]). apply wp_bind, wp_get. rewrite Eb. unfold wp at 1.
    assert (exists u, when (b =? 0) (modify (fun s => s <| esi := 0 |>)) t = Done tt u /\ mem u = m' /\ ebx u = b /\ esi u = e) as (u & -> & Um & Ub & Ue).
    { destruct (Z.eqb_spec b 0) as [E0|Hb0]; (eexists; split; [reflexivity|]); split_and!; try done; [|by destruct Ee].
      destruct (tokens D l) as [|w ts]; [by destruct Htok as [_ ->]|]. destruct Htok as ([Hb _ _ _ _] & _). lia. }
    apply wp_bind, wp_modify, wp_gets. fields. rewrite Um, Ub, Ue. split; [|split; [|intros c w Hc Hw; apply Hkeep; [by left|done]]].
    + split; [done|]. destruct (tokens D l) as [|w ts]; [left; by destruct Htok|]. destruct Htok as (_ & Hab & [[-> ->]|(l' & Hl' & He & Hlt & ->)]); [by left|].
      right. exists l'. split; [done|]. split; [lia|]. split; [done|lia].
    + destruct (tokens D l) as [|w ts]; [by destruct Htok|]. destruct Htok as (H1 & H2 & [[-> _]|(l' & _ & _ & H3 & _)]); split_and!; try done; [by left|by right].
Qed.

(** *** Strings that have been stored *)
Lemma cstr_store a l m : 0 < a -> a + Z.of_nat (length l) < 2 ^ 32 -> Forall (fun c => 0 < c < 256) l -> cstr (store a (l ++ [0]) m) a l.
Proof.
  intros Ha Hl Hc. assert (Z.of_nat (length (l ++ [0])) = Z.of_nat (length l) + 1) as E by (rewrite length_app; cbn; lia). split; try done.
  - intros i c Hi. pose proof (lookup_lt_Some _ _ _ Hi). rewrite byte_at_store by lia. rewrite decide_True by lia.
    replace (Z.to_nat (a + Z.of_nat i - a)) with i by lia. rewrite lookup_app_l, Hi by done. cbn. apply u8_id. by apply (proj1 (Forall_lookup _ l) Hc i c) in Hi; lia.
  - rewrite byte_at_store by lia. rewrite decide_True by lia. replace (Z.to_nat (a + Z.of_nat (length l) - a)) with (length l) by lia.
    by rewrite lookup_app_r, Nat.sub_diag.
Qed.
Lemma cstr_store_other a l m b r : cstr m b r -> 0 <= a -> a + Z.of_nat (length l) <= 2 ^ 32 -> a + Z.of_nat (length l) <= b \/ b + Z.of_nat (length r) < a -> cstr (store a l m) b r.
Proof.
  intros [H1 H2 H3 H4 H5] Ha Hl Hor. split; try done.
  - intros i c Hi. pose proof (lookup_lt_Some _ _ _ Hi). rewrite byte_at_store by lia. rewrite decide_False by lia. by apply H4.
  - rewrite byte_at_store by lia. by rewrite decide_False by lia.
Qed.
End Routines.

(** ** Witnesses: the strings "a,b" at 100 and "," at 200 *)
Definition two_strings : cpu :=
  mk_cpu 0 0 0 0 0 0 (test32 0) false (store 100 ([97; 44; 98] ++ [0]) (store 200 ([44] ++ [0]) ∅)) 0.
Lemma delimiter_there : cstr (mem two_strings) 200 [44].
Proof. apply cstr_store_other; [apply cstr_store; [lia|cbn; lia|repeat constructor; lia]|lia|cbn; lia|cbn; lia]. Qed.
Lemma string_there : cstr (mem two_strings) 100 [97; 44; 98].
Proof. apply cstr_store; [lia|cbn; lia|repeat constructor; lia]. Qed.
Lemma strtok_ok_witness : waiting 10 (mem two_strings) 100 200 [44] [[97]; [98]] /\
  wp (strtok 10 100 200) (fun r t => waiting 10 (mem t) (___strtok t) 200 [44] [[98]] /\
    (cstr (mem t) r [97] /\ 100 <= r /\ (___strtok t = 0 \/ r + Z.of_nat (length [97]) < ___strtok t)) /\
    forall b w, b + Z.of_nat (length w) < 100 -> cstr (mem two_strings) b w -> cstr (mem t) b w) two_strings.
Proof.
  assert (waiting 10 (mem two_strings) 100 200 [44] [[97]; [98]]) as H.
  { split; [exact delimiter_there|]. right. exists [97; 44; 98]. split; [exact string_there|]. split; [cbn; lia|]. split; [vm_compute; reflexivity|cbn; lia]. }
  split; [exact H|]. apply (strtok_ok 10 two_strings 100 200 [44] [[97]; [98]]); [done|cbn; lia|exact H].
Defined.
Lemma memmove_ok_witness :
  wp (memmove 10 101 100 3) (fun r t => r = 101 /\ copied (mem two_strings) 101 100 3 (mem t) /\ df t = true) two_strings.
Proof. apply (memmove_ok 10 two_strings 101 100 3); lia. Defined.
Lemma strncat_ok_witness :
  wp (strncat 10 200 100 9) (fun r t => r = 200 /\ mem t = store 201 [97; 44; 98; 0; 0] (mem two_strings)) two_strings.
Proof.
  apply (strncat_ok 10 two_strings 200 100 9 [44] [97; 44; 98] delimiter_there string_there); unfold apart; cbn; lia.
Defined.
End Libstring.
