(* ===== verification/Console.v ===== *)
(** * Console: [kernel/chr_drv/console.c]

    The VT102 console: cursor motion, scrolling (by moving the display origin on
    EGA/VGA, by copying elsewhere), the erase, insert and delete operations of
    the escape sequences.  The escape-sequence state machine [con_write] itself
    is in [Tty], because it shares state with the tty queues.

    Every access to video memory goes through [peek_word] and [poke_word], which
    fault outside the video memory: a routine that returns has stayed inside. *)
From S2P Require Import Prelude.

Module Console.

Definition VIDEO_TYPE_MDA : Z := 16.
Definition VIDEO_TYPE_CGA : Z := 17.
Definition VIDEO_TYPE_EGAM : Z := 32.
Definition VIDEO_TYPE_EGAC : Z := 33.
Definition NPAR : Z := 16.

(** The static variables of the file, the video memory as 16-bit words at their
    byte addresses, and the log of port writes [(value, port)], newest first. *)
Record console : Type := mk_console {
  video_type : Z;
  video_num_columns : Z;
  video_size_row : Z;
  video_num_lines : Z;
  video_page : Z;
  video_mem_start : Z;
  video_mem_end : Z;
  video_port_reg : Z;
  video_port_val : Z;
  video_erase_char : Z;
  origin : Z;
  scr_end : Z;
  pos : Z;
  x : Z;
  y : Z;
  top : Z;
  bottom : Z;
  state : Z;
  npar : Z;
  par : list Z;
  ques : Z;
  attr : Z;
  saved_x : Z;
  saved_y : Z;
  beepcount : Z;
  vmem : gmap Z Z;
  ports : list (Z * Z)
}.

#[global] Instance upd_video_type : Setter video_type := fun g r => mk_console (g (video_type r)) (video_num_columns r) (video_size_row r) (video_num_lines r) (video_page r) (video_mem_start r) (video_mem_end r) (video_port_reg r) (video_port_val r) (video_erase_char r) (origin r) (scr_end r) (pos r) (x r) (y r) (top r) (bottom r) (state r) (npar r) (par r) (ques r) (attr r) (saved_x r) (saved_y r) (beepcount r) (vmem r) (ports r).
#[global] Instance upd_video_num_columns : Setter video_num_columns := fun g r => mk_console (video_type r) (g (video_num_columns r)) (video_size_row r) (video_num_lines r) (video_page r) (video_mem_start r) (video_mem_end r) (video_port_reg r) (video_port_val r) (video_erase_char r) (origin r) (scr_end r) (pos r) (x r) (y r) (top r) (bottom r) (state r) (npar r) (par r) (ques r) (attr r) (saved_x r) (saved_y r) (beepcount r) (vmem r) (ports r).
#[global] Instance upd_video_size_row : Setter video_size_row := fun g r => mk_console (video_type r) (video_num_columns r) (g (video_size_row r)) (video_num_lines r) (video_page r) (video_mem_start r) (video_mem_end r) (video_port_reg r) (video_port_val r) (video_erase_char r) (origin r) (scr_end r) (pos r) (x r) (y r) (top r) (bottom r) (state r) (npar r) (par r) (ques r) (attr r) (saved_x r) (saved_y r) (beepcount r) (vmem r) (ports r).
#[global] Instance upd_video_num_lines : Setter video_num_lines := fun g r => mk_console (video_type r) (video_num_columns r) (video_size_row r) (g (video_num_lines r)) (video_page r) (video_mem_start r) (video_mem_end r) (video_port_reg r) (video_port_val r) (video_erase_char r) (origin r) (scr_end r) (pos r) (x r) (y r) (top r) (bottom r) (state r) (npar r) (par r) (ques r) (attr r) (saved_x r) (saved_y r) (beepcount r) (vmem r) (ports r).
#[global] Instance upd_video_page : Setter video_page := fun g r => mk_console (video_type r) (video_num_columns r) (video_size_row r) (video_num_lines r) (g (video_page r)) (video_mem_start r) (video_mem_end r) (video_port_reg r) (video_port_val r) (video_erase_char r) (origin r) (scr_end r) (pos r) (x r) (y r) (top r) (bottom r) (state r) (npar r) (par r) (ques r) (attr r) (saved_x r) (saved_y r) (beepcount r) (vmem r) (ports r).
#[global] Instance upd_video_mem_start : Setter video_mem_start := fun g r => mk_console (video_type r) (video_num_columns r) (video_size_row r) (video_num_lines r) (video_page r) (g (video_mem_start r)) (video_mem_end r) (video_port_reg r) (video_port_val r) (video_erase_char r) (origin r) (scr_end r) (pos r) (x r) (y r) (top r) (bottom r) (state r) (npar r) (par r) (ques r) (attr r) (saved_x r) (saved_y r) (beepcount r) (vmem r) (ports r).
#[global] Instance upd_video_mem_end : Setter video_mem_end := fun g r => mk_console (video_type r) (video_num_columns r) (video_size_row r) (video_num_lines r) (video_page r) (video_mem_start r) (g (video_mem_end r)) (video_port_reg r) (video_port_val r) (video_erase_char r) (origin r) (scr_end r) (pos r) (x r) (y r) (top r) (bottom r) (state r) (npar r) (par r) (ques r) (attr r) (saved_x r) (saved_y r) (beepcount r) (vmem r) (ports r).
#[global] Instance upd_video_port_reg : Setter video_port_reg := fun g r => mk_console (video_type r) (video_num_columns r) (video_size_row r) (video_num_lines r) (video_page r) (video_mem_start r) (video_mem_end r) (g (video_port_reg r)) (video_port_val r) (video_erase_char r) (origin r) (scr_end r) (pos r) (x r) (y r) (top r) (bottom r) (state r) (npar r) (par r) (ques r) (attr r) (saved_x r) (saved_y r) (beepcount r) (vmem r) (ports r).
#[global] Instance upd_video_port_val : Setter video_port_val := fun g r => mk_console (video_type r) (video_num_columns r) (video_size_row r) (video_num_lines r) (video_page r) (video_mem_start r) (video_mem_end r) (video_port_reg r) (g (video_port_val r)) (video_erase_char r) (origin r) (scr_end r) (pos r) (x r) (y r) (top r) (bottom r) (state r) (npar r) (par r) (ques r) (attr r) (saved_x r) (saved_y r) (beepcount r) (vmem r) (ports r).
#[global] Instance upd_video_erase_char : Setter video_erase_char := fun g r => mk_console (video_type r) (video_num_columns r) (video_size_row r) (video_num_lines r) (video_page r) (video_mem_start r) (video_mem_end r) (video_port_reg r) (video_port_val r) (g (video_erase_char r)) (origin r) (scr_end r) (pos r) (x r) (y r) (top r) (bottom r) (state r) (npar r) (par r) (ques r) (attr r) (saved_x r) (saved_y r) (beepcount r) (vmem r) (ports r).
#[global] Instance upd_origin : Setter origin := fun g r => mk_console (video_type r) (video_num_columns r) (video_size_row r) (video_num_lines r) (video_page r) (video_mem_start r) (video_mem_end r) (video_port_reg r) (video_port_val r) (video_erase_char r) (g (origin r)) (scr_end r) (pos r) (x r) (y r) (top r) (bottom r) (state r) (npar r) (par r) (ques r) (attr r) (saved_x r) (saved_y r) (beepcount r) (vmem r) (ports r).
#[global] Instance upd_scr_end : Setter scr_end := fun g r => mk_console (video_type r) (video_num_columns r) (video_size_row r) (video_num_lines r) (video_page r) (video_mem_start r) (video_mem_end r) (video_port_reg r) (video_port_val r) (video_erase_char r) (origin r) (g (scr_end r)) (pos r) (x r) (y r) (top r) (bottom r) (state r) (npar r) (par r) (ques r) (attr r) (saved_x r) (saved_y r) (beepcount r) (vmem r) (ports r).
#[global] Instance upd_pos : Setter pos := fun g r => mk_console (video_type r) (video_num_columns r) (video_size_row r) (video_num_lines r) (video_page r) (video_mem_start r) (video_mem_end r) (video_port_reg r) (video_port_val r) (video_erase_char r) (origin r) (scr_end r) (g (pos r)) (x r) (y r) (top r) (bottom r) (state r) (npar r) (par r) (ques r) (attr r) (saved_x r) (saved_y r) (beepcount r) (vmem r) (ports r).
#[global] Instance upd_x : Setter x := fun g r => mk_console (video_type r) (video_num_columns r) (video_size_row r) (video_num_lines r) (video_page r) (video_mem_start r) (video_mem_end r) (video_port_reg r) (video_port_val r) (video_erase_char r) (origin r) (scr_end r) (pos r) (g (x r)) (y r) (top r) (bottom r) (state r) (npar r) (par r) (ques r) (attr r) (saved_x r) (saved_y r) (beepcount r) (vmem r) (ports r).
#[global] Instance upd_y : Setter y := fun g r => mk_console (video_type r) (video_num_columns r) (video_size_row r) (video_num_lines r) (video_page r) (video_mem_start r) (video_mem_end r) (video_port_reg r) (video_port_val r) (video_erase_char r) (origin r) (scr_end r) (pos r) (x r) (g (y r)) (top r) (bottom r) (state r) (npar r) (par r) (ques r) (attr r) (saved_x r) (saved_y r) (beepcount r) (vmem r) (ports r).
#[global] Instance upd_top : Setter top := fun g r => mk_console (video_type r) (video_num_columns r) (video_size_row r) (video_num_lines r) (video_page r) (video_mem_start r) (video_mem_end r) (video_port_reg r) (video_port_val r) (video_erase_char r) (origin r) (scr_end r) (pos r) (x r) (y r) (g (top r)) (bottom r) (state r) (npar r) (par r) (ques r) (attr r) (saved_x r) (saved_y r) (beepcount r) (vmem r) (ports r).
#[global] Instance upd_bottom : Setter bottom := fun g r => mk_console (video_type r) (video_num_columns r) (video_size_row r) (video_num_lines r) (video_page r) (video_mem_start r) (video_mem_end r) (video_port_reg r) (video_port_val r) (video_erase_char r) (origin r) (scr_end r) (pos r) (x r) (y r) (top r) (g (bottom r)) (state r) (npar r) (par r) (ques r) (attr r) (saved_x r) (saved_y r) (beepcount r) (vmem r) (ports r).
#[global] Instance upd_state : Setter state := fun g r => mk_console (video_type r) (video_num_columns r) (video_size_row r) (video_num_lines r) (video_page r) (video_mem_start r) (video_mem_end r) (video_port_reg r) (video_port_val r) (video_erase_char r) (origin r) (scr_end r) (pos r) (x r) (y r) (top r) (bottom r) (g (state r)) (npar r) (par r) (ques r) (attr r) (saved_x r) (saved_y r) (beepcount r) (vmem r) (ports r).
#[global] Instance upd_npar : Setter npar := fun g r => mk_console (video_type r) (video_num_columns r) (video_size_row r) (video_num_lines r) (video_page r) (video_mem_start r) (video_mem_end r) (video_port_reg r) (video_port_val r) (video_erase_char r) (origin r) (scr_end r) (pos r) (x r) (y r) (top r) (bottom r) (state r) (g (npar r)) (par r) (ques r) (attr r) (saved_x r) (saved_y r) (beepcount r) (vmem r) (ports r).
#[global] Instance upd_par : Setter par := fun g r => mk_console (video_type r) (video_num_columns r) (video_size_row r) (video_num_lines r) (video_page r) (video_mem_start r) (video_mem_end r) (video_port_reg r) (video_port_val r) (video_erase_char r) (origin r) (scr_end r) (pos r) (x r) (y r) (top r) (bottom r) (state r) (npar r) (g (par r)) (ques r) (attr r) (saved_x r) (saved_y r) (beepcount r) (vmem r) (ports r).
#[global] Instance upd_ques : Setter ques := fun g r => mk_console (video_type r) (video_num_columns r) (video_size_row r) (video_num_lines r) (video_page r) (video_mem_start r) (video_mem_end r) (video_port_reg r) (video_port_val r) (video_erase_char r) (origin r) (scr_end r) (pos r) (x r) (y r) (top r) (bottom r) (state r) (npar r) (par r) (g (ques r)) (attr r) (saved_x r) (saved_y r) (beepcount r) (vmem r) (ports r).
#[global] Instance upd_attr : Setter attr := fun g r => mk_console (video_type r) (video_num_columns r) (video_size_row r) (video_num_lines r) (video_page r) (video_mem_start r) (video_mem_end r) (video_port_reg r) (video_port_val r) (video_erase_char r) (origin r) (scr_end r) (pos r) (x r) (y r) (top r) (bottom r) (state r) (npar r) (par r) (ques r) (g (attr r)) (saved_x r) (saved_y r) (beepcount r) (vmem r) (ports r).
#[global] Instance upd_saved_x : Setter saved_x := fun g r => mk_console (video_type r) (video_num_columns r) (video_size_row r) (video_num_lines r) (video_page r) (video_mem_start r) (video_mem_end r) (video_port_reg r) (video_port_val r) (video_erase_char r) (origin r) (scr_end r) (pos r) (x r) (y r) (top r) (bottom r) (state r) (npar r) (par r) (ques r) (attr r) (g (saved_x r)) (saved_y r) (beepcount r) (vmem r) (ports r).
#[global] Instance upd_saved_y : Setter saved_y := fun g r => mk_console (video_type r) (video_num_columns r) (video_size_row r) (video_num_lines r) (video_page r) (video_mem_start r) (video_mem_end r) (video_port_reg r) (video_port_val r) (video_erase_char r) (origin r) (scr_end r) (pos r) (x r) (y r) (top r) (bottom r) (state r) (npar r) (par r) (ques r) (attr r) (saved_x r) (g (saved_y r)) (beepcount r) (vmem r) (ports r).
#[global] Instance upd_beepcount : Setter beepcount := fun g r => mk_console (video_type r) (video_num_columns r) (video_size_row r) (video_num_lines r) (video_page r) (video_mem_start r) (video_mem_end r) (video_port_reg r) (video_port_val r) (video_erase_char r) (origin r) (scr_end r) (pos r) (x r) (y r) (top r) (bottom r) (state r) (npar r) (par r) (ques r) (attr r) (saved_x r) (saved_y r) (g (beepcount r)) (vmem r) (ports r).
#[global] Instance upd_vmem : Setter vmem := fun g r => mk_console (video_type r) (video_num_columns r) (video_size_row r) (video_num_lines r) (video_page r) (video_mem_start r) (video_mem_end r) (video_port_reg r) (video_port_val r) (video_erase_char r) (origin r) (scr_end r) (pos r) (x r) (y r) (top r) (bottom r) (state r) (npar r) (par r) (ques r) (attr r) (saved_x r) (saved_y r) (beepcount r) (g (vmem r)) (ports r).
#[global] Instance upd_ports : Setter ports := fun g r => mk_console (video_type r) (video_num_columns r) (video_size_row r) (video_num_lines r) (video_page r) (video_mem_start r) (video_mem_end r) (video_port_reg r) (video_port_val r) (video_erase_char r) (origin r) (scr_end r) (pos r) (x r) (y r) (top r) (bottom r) (state r) (npar r) (par r) (ques r) (attr r) (saved_x r) (saved_y r) (beepcount r) (vmem r) (g (ports r)).

(** ** Video memory *)
Definition in_video (c : console) (a : Z) : bool :=
  (video_mem_start c <=? a) && (a + 2 <=? video_mem_end c).
Definition word_at (m : gmap Z Z) (a : Z) : Z := default 0 (m !! a).

Definition peek_word (a : Z) : M console Z :=
  fun c => if in_video c a then Done (word_at (vmem c) a) c else Fault.
Definition poke_word (a v : Z) : M console unit :=
  fun c => if in_video c a then Done tt (c <| vmem ::= <[a := v]> |>) else Fault.

(** [cld; rep; stosw] and [std; rep; stosw] *)
Fixpoint stosw (n : nat) (di v : Z) : M console unit :=
  match n with O => ret tt | Datatypes.S k => poke_word di v ;;; stosw k (di + 2) v end.
Fixpoint stosw_down (n : nat) (di v : Z) : M console unit :=
  match n with O => ret tt | Datatypes.S k => poke_word di v ;;; stosw_down k (di - 2) v end.
(** [rep; movsl]: one 32-bit word (two cells) at a time, [step] is 4 or -4; the
    result is the final [%edi]. *)
Fixpoint movsl (step : Z) (n : nat) (si di : Z) : M console Z :=
  match n with
  | O => ret di
  | Datatypes.S k =>
      lo <- peek_word si ;; hi <- peek_word (si + 2) ;;
      poke_word di lo ;;; poke_word (di + 2) hi ;;;
      movsl step k (si + step) (di + step)
  end.

Definition outb (v port : Z) : M console unit :=
  modify (fun c => c <| ports ::= cons (v, port) |>).

(** ** Cursor and origin *)
Definition gotoxy (new_x new_y : Z) : M console unit :=
  c <- get ;;
  let new_x := u32 new_x in
  let new_y := u32 new_y in
  if (video_num_columns c <? new_x) || (video_num_lines c <=? new_y) then ret tt
  else put (c <| x := new_x |> <| y := new_y |>
              <| pos := origin c + new_y * video_size_row c + Z.shiftl new_x 1 |>).

Definition set_origin : M console unit :=
  c <- get ;;
  outb 12 (video_port_reg c) ;;;
  outb (Z.land 255 (Z.shiftr (origin c - video_mem_start c) 9)) (video_port_val c) ;;;
  outb 13 (video_port_reg c) ;;;
  outb (Z.land 255 (Z.shiftr (origin c - video_mem_start c) 1)) (video_port_val c).

Definition set_cursor : M console unit :=
  c <- get ;;
  outb 14 (video_port_reg c) ;;;
  outb (Z.land 255 (Z.shiftr (pos c - video_mem_start c) 9)) (video_port_val c) ;;;
  outb 15 (video_port_reg c) ;;;
  outb (Z.land 255 (Z.shiftr (pos c - video_mem_start c) 1)) (video_port_val c).

Definition is_ega (c : console) : bool :=
  (video_type c =? VIDEO_TYPE_EGAC) || (video_type c =? VIDEO_TYPE_EGAM).

(** ** Scrolling *)

(** The copying scroll, used for a region and on adapters without a movable origin. *)
Definition scrup_copy : M console unit :=
  c <- get ;;
  di <- movsl 4 (Z.to_nat (Z.shiftr ((bottom c - top c - 1) * video_num_columns c) 1))
          (origin c + video_size_row c * (top c + 1)) (origin c + video_size_row c * top c) ;;
  stosw (Z.to_nat (video_num_columns c)) di (video_erase_char c).

Definition scrup : M console unit :=
  c <- get ;;
  if is_ega c then
    if negb (truth (top c)) && (bottom c =? video_num_lines c) then
      modify (fun c => c <| origin ::= fun o => o + video_size_row c |>
                         <| pos ::= fun p => p + video_size_row c |>
                         <| scr_end ::= fun e => e + video_size_row c |>) ;;;
      c <- get ;;
      (if video_mem_end c <? scr_end c then
         di <- movsl 4 (Z.to_nat (Z.shiftr ((video_num_lines c - 1) * video_num_columns c) 1))
                 (origin c) (video_mem_start c) ;;
         stosw (Z.to_nat (video_num_columns c)) di (video_erase_char c) ;;;
         modify (fun c => c <| scr_end ::= fun e => e - (origin c - video_mem_start c) |>
                            <| pos ::= fun p => p - (origin c - video_mem_start c) |>
                            <| origin := video_mem_start c |>)
       else
         stosw (Z.to_nat (video_num_columns c)) (scr_end c - video_size_row c)
           (video_erase_char c)) ;;;
      set_origin
    else scrup_copy
  else scrup_copy.

(** Both branches of [scrdown] in the source are the same code. *)
Definition scrdown : M console unit :=
  c <- get ;;
  di <- movsl (-4) (Z.to_nat (Z.shiftr ((bottom c - top c - 1) * video_num_columns c) 1))
          (origin c + video_size_row c * (bottom c - 1) - 4)
          (origin c + video_size_row c * bottom c - 4) ;;
  stosw_down (Z.to_nat (video_num_columns c)) (di + 2) (video_erase_char c).

Definition lf : M console unit :=
  c <- get ;;
  if y c + 1 <? bottom c
  then put (c <| y ::= Z.succ |> <| pos ::= fun p => p + video_size_row c |>)
  else scrup.

Definition ri : M console unit :=
  c <- get ;;
  if top c <? y c
  then put (c <| y ::= Z.pred |> <| pos ::= fun p => p - video_size_row c |>)
  else scrdown.

Definition cr : M console unit :=
  modify (fun c => c <| pos ::= fun p => p - Z.shiftl (x c) 1 |> <| x := 0 |>).

Definition del : M console unit :=
  c <- get ;;
  when (truth (x c))
    (put (c <| pos ::= fun p => p - 2 |> <| x ::= Z.pred |>) ;;;
     poke_word (pos c - 2) (video_erase_char c)).

(** ** Erasing *)
Definition csi_J (n : Z) : M console unit :=
  c <- get ;;
  if n =? 0 then      (* from cursor to end of display *)
    stosw (Z.to_nat (Z.shiftr (scr_end c - pos c) 1)) (pos c) (video_erase_char c)
  else if n =? 1 then (* from start to cursor *)
    stosw (Z.to_nat (Z.shiftr (pos c - origin c) 1)) (origin c) (video_erase_char c)
  else if n =? 2 then (* whole display *)
    stosw (Z.to_nat (video_num_columns c * video_num_lines c)) (origin c) (video_erase_char c)
  else ret tt.

Definition csi_K (n : Z) : M console unit :=
  c <- get ;;
  if n =? 0 then      (* from cursor to end of line *)
    if video_num_columns c <=? x c then ret tt
    else stosw (Z.to_nat (video_num_columns c - x c)) (pos c) (video_erase_char c)
  else if n =? 1 then (* from start of line to cursor *)
    stosw (Z.to_nat (if x c <? video_num_columns c then x c else video_num_columns c))
      (pos c - Z.shiftl (x c) 1) (video_erase_char c)
  else if n =? 2 then (* whole line *)
    stosw (Z.to_nat (video_num_columns c)) (pos c - Z.shiftl (x c) 1) (video_erase_char c)
  else ret tt.

(** The attribute selected by one parameter of [ESC [ ... m]. *)
Definition attr_of (p old : Z) : Z :=
  if p =? 0 then 7 else if p =? 1 then 15 else if p =? 4 then 15
  else if p =? 7 then 112 else if p =? 27 then 7 else old.
Definition csi_m : M console unit :=
  modify (fun c => c <| attr := foldl (fun a p => attr_of p a) (attr c)
                                  (take (Z.to_nat (npar c + 1)) (par c)) |>).

(** ** Inserting and deleting *)

(** The loop of [insert_char]: shift right by one, starting with [old]. *)
Fixpoint shift_right (n : nat) (p old : Z) : M console unit :=
  match n with
  | O => ret tt
  | Datatypes.S k => tmp <- peek_word p ;; poke_word p old ;;; shift_right k (p + 2) tmp
  end.
Definition insert_char : M console unit :=
  c <- get ;;
  shift_right (Z.to_nat (video_num_columns c - x c)) (pos c) (video_erase_char c).

Definition insert_line : M console unit :=
  c <- get ;;
  put (c <| top := y c |> <| bottom := video_num_lines c |>) ;;;
  scrdown ;;;
  modify (fun c' => c' <| top := top c |> <| bottom := bottom c |>).

(** The loop of [delete_char]: shift left by one; the result is the last cell. *)
Fixpoint shift_left (n : nat) (p : Z) : M console Z :=
  match n with
  | O => ret p
  | Datatypes.S k => v <- peek_word (p + 2) ;; poke_word p v ;;; shift_left k (p + 2)
  end.
Definition delete_char : M console unit :=
  c <- get ;;
  if video_num_columns c <=? x c then ret tt
  else p <- shift_left (Z.to_nat (video_num_columns c - x c - 1)) (pos c) ;;
       poke_word p (video_erase_char c).

Definition delete_line : M console unit :=
  c <- get ;;
  put (c <| top := y c |> <| bottom := video_num_lines c |>) ;;;
  scrup ;;;
  modify (fun c' => c' <| top := top c |> <| bottom := bottom c |>).

Fixpoint repeatM {S} (n : nat) (m : M S unit) : M S unit :=
  match n with O => ret tt | Datatypes.S k => m ;;; repeatM k m end.
(** [if (nr > max) nr = max; else if (!nr) nr = 1;] *)
Definition clamp (nr max : Z) : nat :=
  Z.to_nat (if max <? nr then max else if nr =? 0 then 1 else nr).

Definition csi_at (nr : Z) : M console unit :=
  c <- get ;; repeatM (clamp nr (video_num_columns c)) insert_char.
Definition csi_L (nr : Z) : M console unit :=
  c <- get ;; repeatM (clamp nr (video_num_lines c)) insert_line.
Definition csi_P (nr : Z) : M console unit :=
  c <- get ;; repeatM (clamp nr (video_num_columns c)) delete_char.
Definition csi_M (nr : Z) : M console unit :=
  c <- get ;; repeatM (clamp nr (video_num_lines c)) delete_line.

Definition save_cur : M console unit :=
  modify (fun c => c <| saved_x := x c |> <| saved_y := y c |>).
Definition restore_cur : M console unit :=
  c <- get ;; gotoxy (saved_x c) (saved_y c).

(** ** One character of output

    [con_char inb erase c] is the body of the loop of [con_write] for the
    character [c]: [inb] reads an I/O port and [erase] is the terminal's erase
    character.  It answers [true] when the character ends in [respond(tty)],
    the one step that leaves this file. *)
Section Output.
Context (inb : Z -> Z).

Definition sysbeep : M console unit :=
  outb (Z.lor (inb 97) 3) 97 ;;;
  outb 182 67 ;;; outb 55 66 ;;; outb 6 66 ;;;
  modify (fun c => c <| beepcount := 100 / 8 |>).

Definition sysbeepstop : M console unit := outb (Z.land (inb 97) 252) 97.

Definition wrap_line : M console unit :=
  modify (fun c => c <| x ::= fun v => v - video_num_columns c |>
                     <| pos ::= fun p => p - video_size_row c |>) ;;;
  lf.

Definition put_char (ch : Z) : M console unit :=
  c <- get ;;
  when (video_num_columns c <=? x c) wrap_line ;;;
  c <- get ;;
  poke_word (pos c) (attr c * 256 + ch) ;;;
  modify (fun c => c <| pos ::= fun p => p + 2 |> <| x ::= Z.succ |>).

Definition tab : M console unit :=
  c <- get ;;
  let n := 8 - Z.land (x c) 7 in
  put (c <| x ::= fun v => v + n |> <| pos ::= fun p => p + Z.shiftl n 1 |>) ;;;
  c <- get ;;
  when (video_num_columns c <? x c) wrap_line.

Definition back_space : M console unit :=
  modify (fun c => if truth (x c) then c <| x ::= Z.pred |> <| pos ::= fun p => p - 2 |> else c).

(** State 0: plain text and control characters. *)
Definition con_text (erase ch : Z) : M console unit :=
  if (31 <? ch) && (ch <? 127) then put_char ch
  else if ch =? 27 then modify (fun c => c <| state := 1 |>)
  else if (ch =? 10) || (ch =? 11) || (ch =? 12) then lf
  else if ch =? 13 then cr
  else if ch =? erase then del
  else if ch =? 8 then back_space
  else if ch =? 9 then tab
  else if ch =? 7 then sysbeep
  else ret tt.

(** State 1: after ESC.  The last two tests of the source look at the cursor
    column [x], not at the character. *)
Definition con_esc (ch : Z) : M console bool :=
  modify (fun c => c <| state := 0 |>) ;;;
  c <- get ;;
  if ch =? 91 then modify (fun c => c <| state := 2 |>) ;;; ret false
  else if ch =? 69 then gotoxy 0 (y c + 1) ;;; ret false
  else if ch =? 77 then ri ;;; ret false
  else if ch =? 68 then lf ;;; ret false
  else if ch =? 90 then ret true
  else if x c =? 55 then save_cur ;;; ret false
  else if x c =? 56 then restore_cur ;;; ret false
  else ret false.

Definition nth_par (l : list Z) (i : Z) : Z := default 0 (l !! Z.to_nat i).
Definition par_at (c : console) (i : Z) : Z := nth_par (par c) i.
Definition set_par (i v : Z) : console -> console :=
  fun c => c <| par ::= <[Z.to_nat i := v]> |>.
(** [if (par[i]) par[i]--;] and [if (!par[i]) par[i]++;] *)
Definition par_dec (i : Z) : M console unit :=
  c <- get ;; when (truth (par_at c i)) (put (set_par i (par_at c i - 1) c)).
Definition par_min1 (i : Z) : M console unit :=
  c <- get ;; when (negb (truth (par_at c i))) (put (set_par i 1 c)).

(** State 4: the final character of a control sequence. *)
Definition con_csi (ch : Z) : M console unit :=
  modify (fun c => c <| state := 0 |>) ;;;
  if (ch =? 71) || (ch =? 96) then                                  (* G ` *)
    par_dec 0 ;;; c <- get ;; gotoxy (par_at c 0) (y c)
  else if ch =? 65 then                                             (* A *)
    par_min1 0 ;;; c <- get ;; gotoxy (x c) (y c - par_at c 0)
  else if (ch =? 66) || (ch =? 101) then                            (* B e *)
    par_min1 0 ;;; c <- get ;; gotoxy (x c) (y c + par_at c 0)
  else if (ch =? 67) || (ch =? 97) then                             (* C a *)
    par_min1 0 ;;; c <- get ;; gotoxy (x c + par_at c 0) (y c)
  else if ch =? 68 then                                             (* D *)
    par_min1 0 ;;; c <- get ;; gotoxy (x c - par_at c 0) (y c)
  else if ch =? 69 then                                             (* E *)
    par_min1 0 ;;; c <- get ;; gotoxy 0 (y c + par_at c 0)
  else if ch =? 70 then                                             (* F *)
    par_min1 0 ;;; c <- get ;; gotoxy 0 (y c - par_at c 0)
  else if ch =? 100 then                                            (* d *)
    par_dec 0 ;;; c <- get ;; gotoxy (x c) (par_at c 0)
  else if (ch =? 72) || (ch =? 102) then                            (* H f *)
    par_dec 0 ;;; par_dec 1 ;;; c <- get ;; gotoxy (par_at c 1) (par_at c 0)
  else if ch =? 74 then c <- get ;; csi_J (par_at c 0)              (* J *)
  else if ch =? 75 then c <- get ;; csi_K (par_at c 0)              (* K *)
  else if ch =? 76 then c <- get ;; csi_L (par_at c 0)              (* L *)
  else if ch =? 77 then c <- get ;; csi_M (par_at c 0)              (* M *)
  else if ch =? 80 then c <- get ;; csi_P (par_at c 0)              (* P *)
  else if ch =? 64 then c <- get ;; csi_at (par_at c 0)             (* @ *)
  else if ch =? 109 then csi_m                                      (* m *)
  else if ch =? 114 then                                            (* r *)
    par_dec 0 ;;;
    c <- get ;; when (negb (truth (par_at c 1))) (put (set_par 1 (video_num_lines c) c)) ;;;
    c <- get ;;
    when ((par_at c 0 <? par_at c 1) && (par_at c 1 <=? video_num_lines c))
      (put (c <| top := par_at c 0 |> <| bottom := par_at c 1 |>))
  else if ch =? 115 then save_cur                                   (* s *)
  else if ch =? 117 then restore_cur                                (* u *)
  else ret tt.

(** State 3: parameters; anything else falls through to state 4. *)
Definition con_par (ch : Z) : M console unit :=
  c <- get ;;
  if (ch =? 59) && (npar c <? NPAR - 1) then put (c <| npar ::= Z.succ |>)
  else if (48 <=? ch) && (ch <=? 57) then
    put (set_par (npar c) (u32 (10 * par_at c (npar c) + ch - 48)) c)
  else con_csi ch.

(** State 2: after ESC [; falls through to state 3 unless the character is ?. *)
Definition con_bracket (ch : Z) : M console unit :=
  modify (fun c => c <| par := replicate (Z.to_nat NPAR) 0 |> <| npar := 0 |>
                     <| state := 3 |> <| ques := if ch =? 63 then 1 else 0 |>) ;;;
  if ch =? 63 then ret tt else con_par ch.

Definition con_char (erase ch : Z) : M console bool :=
  c <- get ;;
  if state c =? 0 then con_text erase ch ;;; ret false
  else if state c =? 1 then con_esc ch
  else if state c =? 2 then con_bracket ch ;;; ret false
  else if state c =? 3 then con_par ch ;;; ret false
  else if state c =? 4 then con_csi ch ;;; ret false
  else ret false.
End Output.

(** ** Initialisation *)

(** [con_init]: the parameters are what [setup.s] left at 0x90000 and the code
    tests: columns, mode, EGA information, page and cursor.  [detect] is its
    first half, up to the banner.  The installation of the keyboard trap gate is
    not modelled. *)
Definition detect (cols mode ega_bx page : Z) (c : console) : console :=
  let mono := mode =? 7 in
  let ega := negb (Z.land ega_bx 255 =? 16) in
  c <| video_num_columns := cols |> <| video_size_row := cols * 2 |>
    <| video_num_lines := 25 |> <| video_page := page |> <| video_erase_char := 1824 |>
    <| video_mem_start := if mono then 720896 else 753664 |>
    <| video_port_reg := if mono then 948 else 980 |>
    <| video_port_val := if mono then 949 else 981 |>
    <| video_type := if mono then (if ega then VIDEO_TYPE_EGAM else VIDEO_TYPE_MDA)
                     else (if ega then VIDEO_TYPE_EGAC else VIDEO_TYPE_CGA) |>
    <| video_mem_end := if mono then (if ega then 753664 else 729088)
                        else (if ega then 770048 else 761856) |>.
(** The characters of [display_desc]: EGAm, *MDA, EGAc, *CGA. *)
Definition display_desc (mode ega_bx : Z) : list Z :=
  let ega := negb (Z.land ega_bx 255 =? 16) in
  if mode =? 7 then (if ega then [69; 71; 65; 109] else [42; 77; 68; 65])
  else (if ega then [69; 71; 65; 99] else [42; 67; 71; 65]).
(** Characters go to the low bytes of the cells. *)
Fixpoint show_desc (l : list Z) (p : Z) : M console unit :=
  match l with
  | [] => ret tt
  | ch :: l' => w <- peek_word p ;; poke_word p (w / 256 * 256 + ch) ;;; show_desc l' (p + 2)
  end.
Definition con_init (cols mode ega_bx page orig_x orig_y : Z) (inb : Z -> Z) : M console unit :=
  modify (detect cols mode ega_bx page) ;;;
  c <- get ;;
  show_desc (display_desc mode ega_bx) (video_mem_start c + video_size_row c - 8) ;;;
  modify (fun c => c <| origin := video_mem_start c |>
    <| scr_end := video_mem_start c + video_num_lines c * video_size_row c |>
    <| top := 0 |> <| bottom := video_num_lines c |>) ;;;
  gotoxy orig_x orig_y ;;;
  outb (Z.land (inb 33) 253) 33 ;;;
  outb (Z.lor (inb 97) 128) 97 ;;; outb (inb 97) 97.

(** ** The specification: a terminal with a grid of cells

    No addresses, no origin and no video memory: the visible screen as a
    function of row and column, the cursor, the scroll region, the attribute and
    the parser of escape sequences. *)
Record term : Type := mk_term {
  t_cols : Z; t_lines : Z; t_erase : Z;
  t_x : Z; t_y : Z; t_top : Z; t_bottom : Z;
  t_state : Z; t_npar : Z; t_par : list Z; t_ques : Z; t_attr : Z;
  t_sx : Z; t_sy : Z;
  t_screen : Z -> Z -> Z
}.
#[global] Instance upd_t_cols : Setter t_cols := fun g r => mk_term (g (t_cols r)) (t_lines r) (t_erase r) (t_x r) (t_y r) (t_top r) (t_bottom r) (t_state r) (t_npar r) (t_par r) (t_ques r) (t_attr r) (t_sx r) (t_sy r) (t_screen r).
#[global] Instance upd_t_lines : Setter t_lines := fun g r => mk_term (t_cols r) (g (t_lines r)) (t_erase r) (t_x r) (t_y r) (t_top r) (t_bottom r) (t_state r) (t_npar r) (t_par r) (t_ques r) (t_attr r) (t_sx r) (t_sy r) (t_screen r).
#[global] Instance upd_t_erase : Setter t_erase := fun g r => mk_term (t_cols r) (t_lines r) (g (t_erase r)) (t_x r) (t_y r) (t_top r) (t_bottom r) (t_state r) (t_npar r) (t_par r) (t_ques r) (t_attr r) (t_sx r) (t_sy r) (t_screen r).
#[global] Instance upd_t_x : Setter t_x := fun g r => mk_term (t_cols r) (t_lines r) (t_erase r) (g (t_x r)) (t_y r) (t_top r) (t_bottom r) (t_state r) (t_npar r) (t_par r) (t_ques r) (t_attr r) (t_sx r) (t_sy r) (t_screen r).
#[global] Instance upd_t_y : Setter t_y := fun g r => mk_term (t_cols r) (t_lines r) (t_erase r) (t_x r) (g (t_y r)) (t_top r) (t_bottom r) (t_state r) (t_npar r) (t_par r) (t_ques r) (t_attr r) (t_sx r) (t_sy r) (t_screen r).
#[global] Instance upd_t_top : Setter t_top := fun g r => mk_term (t_cols r) (t_lines r) (t_erase r) (t_x r) (t_y r) (g (t_top r)) (t_bottom r) (t_state r) (t_npar r) (t_par r) (t_ques r) (t_attr r) (t_sx r) (t_sy r) (t_screen r).
#[global] Instance upd_t_bottom : Setter t_bottom := fun g r => mk_term (t_cols r) (t_lines r) (t_erase r) (t_x r) (t_y r) (t_top r) (g (t_bottom r)) (t_state r) (t_npar r) (t_par r) (t_ques r) (t_attr r) (t_sx r) (t_sy r) (t_screen r).
#[global] Instance upd_t_state : Setter t_state := fun g r => mk_term (t_cols r) (t_lines r) (t_erase r) (t_x r) (t_y r) (t_top r) (t_bottom r) (g (t_state r)) (t_npar r) (t_par r) (t_ques r) (t_attr r) (t_sx r) (t_sy r) (t_screen r).
#[global] Instance upd_t_npar : Setter t_npar := fun g r => mk_term (t_cols r) (t_lines r) (t_erase r) (t_x r) (t_y r) (t_top r) (t_bottom r) (t_state r) (g (t_npar r)) (t_par r) (t_ques r) (t_attr r) (t_sx r) (t_sy r) (t_screen r).
#[global] Instance upd_t_par : Setter t_par := fun g r => mk_term (t_cols r) (t_lines r) (t_erase r) (t_x r) (t_y r) (t_top r) (t_bottom r) (t_state r) (t_npar r) (g (t_par r)) (t_ques r) (t_attr r) (t_sx r) (t_sy r) (t_screen r).
#[global] Instance upd_t_ques : Setter t_ques := fun g r => mk_term (t_cols r) (t_lines r) (t_erase r) (t_x r) (t_y r) (t_top r) (t_bottom r) (t_state r) (t_npar r) (t_par r) (g (t_ques r)) (t_attr r) (t_sx r) (t_sy r) (t_screen r).
#[global] Instance upd_t_attr : Setter t_attr := fun g r => mk_term (t_cols r) (t_lines r) (t_erase r) (t_x r) (t_y r) (t_top r) (t_bottom r) (t_state r) (t_npar r) (t_par r) (t_ques r) (g (t_attr r)) (t_sx r) (t_sy r) (t_screen r).
#[global] Instance upd_t_sx : Setter t_sx := fun g r => mk_term (t_cols r) (t_lines r) (t_erase r) (t_x r) (t_y r) (t_top r) (t_bottom r) (t_state r) (t_npar r) (t_par r) (t_ques r) (t_attr r) (g (t_sx r)) (t_sy r) (t_screen r).
#[global] Instance upd_t_sy : Setter t_sy := fun g r => mk_term (t_cols r) (t_lines r) (t_erase r) (t_x r) (t_y r) (t_top r) (t_bottom r) (t_state r) (t_npar r) (t_par r) (t_ques r) (t_attr r) (t_sx r) (g (t_sy r)) (t_screen r).
#[global] Instance upd_t_screen : Setter t_screen := fun g r => mk_term (t_cols r) (t_lines r) (t_erase r) (t_x r) (t_y r) (t_top r) (t_bottom r) (t_state r) (t_npar r) (t_par r) (t_ques r) (t_attr r) (t_sx r) (t_sy r) (g (t_screen r)).

(** Cell [(r, k)] of the visible screen. *)
Definition cell (c : console) (r k : Z) : Z :=
  word_at (vmem c) (origin c + r * video_size_row c + 2 * k).

Definition view (c : console) (scr : Z -> Z -> Z) : term :=
  mk_term (video_num_columns c) (video_num_lines c) (video_erase_char c)
    (x c) (y c) (top c) (bottom c) (state c) (npar c) (par c) (ques c) (attr c)
    (saved_x c) (saved_y c) scr.

(** The console shows the terminal's screen. *)
Definition shows (c : console) (scr : Z -> Z -> Z) : Prop :=
  forall r k, 0 <= r < video_num_lines c -> 0 <= k < video_num_columns c -> cell c r k = scr r k.

Definition a_goto (nx ny : Z) (t : term) : term :=
  if (t_cols t <? u32 nx) || (t_lines t <=? u32 ny) then t
  else t <| t_x := u32 nx |> <| t_y := u32 ny |>.
Definition a_scrup (t : term) : term :=
  t <| t_screen := fun r k =>
         if (t_top t <=? r) && (r <? t_bottom t)
         then (if r + 1 <? t_bottom t then t_screen t (r + 1) k else t_erase t)
         else t_screen t r k |>.
Definition a_scrdown (t : term) : term :=
  t <| t_screen := fun r k =>
         if (t_top t <=? r) && (r <? t_bottom t)
         then (if t_top t <? r then t_screen t (r - 1) k else t_erase t)
         else t_screen t r k |>.
Definition a_lf (t : term) : term :=
  if t_y t + 1 <? t_bottom t then t <| t_y ::= Z.succ |> else a_scrup t.
Definition a_ri (t : term) : term :=
  if t_top t <? t_y t then t <| t_y ::= Z.pred |> else a_scrdown t.
Definition a_cr (t : term) : term := t <| t_x := 0 |>.
(** Erase the cells of the screen selected by [f]. *)
Definition a_erase (f : Z -> Z -> bool) (t : term) : term :=
  t <| t_screen := fun r k => if f r k then t_erase t else t_screen t r k |>.
Definition a_del (t : term) : term :=
  if truth (t_x t)
  then (a_erase (fun r k => (r =? t_y t) && (k =? t_x t - 1)) t) <| t_x ::= Z.pred |> else t.
Definition a_J (n : Z) (t : term) : term :=
  if n =? 0 then a_erase (fun r k => (t_y t <? r) || (r =? t_y t) && (t_x t <=? k)) t
  else if n =? 1 then a_erase (fun r k => (r <? t_y t) || (r =? t_y t) && (k <? t_x t)) t
  else if n =? 2 then a_erase (fun _ _ => true) t else t.
Definition a_K (n : Z) (t : term) : term :=
  if n =? 0 then a_erase (fun r k => (r =? t_y t) && (t_x t <=? k)) t
  else if n =? 1 then a_erase (fun r k => (r =? t_y t) && (k <? t_x t)) t
  else if n =? 2 then a_erase (fun r _ => r =? t_y t) t else t.
Definition a_insert_char (t : term) : term :=
  t <| t_screen := fun r k =>
         if (r =? t_y t) && (t_x t <=? k)
         then (if k =? t_x t then t_erase t else t_screen t r (k - 1)) else t_screen t r k |>.
Definition a_delete_char (t : term) : term :=
  t <| t_screen := fun r k =>
         if (r =? t_y t) && (t_x t <=? k)
         then (if k =? t_cols t - 1 then t_erase t else t_screen t r (k + 1))
         else t_screen t r k |>.
(** Run an operation with the scroll region from the cursor line to the bottom. *)
Definition a_below (f : term -> term) (t : term) : term :=
  (f (t <| t_top := t_y t |> <| t_bottom := t_lines t |>))
    <| t_top := t_top t |> <| t_bottom := t_bottom t |>.

(** Text: the wrap at the right margin happens before the next character. *)
Definition a_wrap (t : term) : term := a_lf (t <| t_x ::= fun v => v - t_cols t |>).
Definition a_store (ch : Z) (t : term) : term :=
  t <| t_screen := fun r k =>
         if (r =? t_y t) && (k =? t_x t) then t_attr t * 256 + ch else t_screen t r k |>
    <| t_x ::= Z.succ |>.
Definition a_put (ch : Z) (t : term) : term :=
  a_store ch (if t_cols t <=? t_x t then a_wrap t else t).
Definition a_tab (t : term) : term :=
  let t' := t <| t_x ::= fun v => v + (8 - v mod 8) |> in
  if t_cols t' <? t_x t' then a_wrap t' else t'.
Definition a_bs (t : term) : term := if truth (t_x t) then t <| t_x ::= Z.pred |> else t.
Definition a_text (erase ch : Z) (t : term) : term :=
  if (31 <? ch) && (ch <? 127) then a_put ch t
  else if ch =? 27 then t <| t_state := 1 |>
  else if (ch =? 10) || (ch =? 11) || (ch =? 12) then a_lf t
  else if ch =? 13 then a_cr t
  else if ch =? erase then a_del t
  else if ch =? 8 then a_bs t
  else if ch =? 9 then a_tab t
  else t.

(** The counted operations, with the clamping of their argument. *)
Definition a_at (n : Z) (t : term) : term := Nat.iter (clamp n (t_cols t)) a_insert_char t.
Definition a_P (n : Z) (t : term) : term := Nat.iter (clamp n (t_cols t)) a_delete_char t.
Definition a_L (n : Z) (t : term) : term := Nat.iter (clamp n (t_lines t)) (a_below a_scrdown) t.
Definition a_M (n : Z) (t : term) : term := Nat.iter (clamp n (t_lines t)) (a_below a_scrup) t.
Definition a_save (t : term) : term := t <| t_sx := t_x t |> <| t_sy := t_y t |>.
Definition a_restore (t : term) : term := a_goto (t_sx t) (t_sy t) t.
Definition a_m (t : term) : term :=
  t <| t_attr := foldl (fun a p => attr_of p a) (t_attr t) (take (Z.to_nat (t_npar t + 1)) (t_par t)) |>.

(** Escape sequences. *)
Definition a_esc (ch : Z) (t0 : term) : term :=
  let t := t0 <| t_state := 0 |> in
  if ch =? 91 then t <| t_state := 2 |>
  else if ch =? 69 then a_goto 0 (t_y t + 1) t
  else if ch =? 77 then a_ri t
  else if ch =? 68 then a_lf t
  else if ch =? 90 then t
  else if t_x t =? 55 then a_save t
  else if t_x t =? 56 then a_restore t
  else t.

Definition t_arg (i : Z) (t : term) : Z := nth_par (t_par t) i.
Definition a_set_par (i v : Z) (t : term) : term := t <| t_par ::= <[Z.to_nat i := v]> |>.
Definition a_dec (i : Z) (t : term) : term :=
  if truth (t_arg i t) then a_set_par i (t_arg i t - 1) t else t.
Definition a_min1 (i : Z) (t : term) : term :=
  if truth (t_arg i t) then t else a_set_par i 1 t.
Definition a_move (fx fy : term -> Z) (t : term) : term := a_goto (fx t) (fy t) t.
Definition a_region (t : term) : term :=
  if (t_arg 0 t <? t_arg 1 t) && (t_arg 1 t <=? t_lines t)
  then t <| t_top := t_arg 0 t |> <| t_bottom := t_arg 1 t |> else t.
Definition a_arg1_lines (t : term) : term :=
  if truth (t_arg 1 t) then t else a_set_par 1 (t_lines t) t.

Definition a_final (ch : Z) (t : term) : term :=
  if (ch =? 71) || (ch =? 96) then a_move (t_arg 0) t_y (a_dec 0 t)
  else if ch =? 65 then a_move t_x (fun t => t_y t - t_arg 0 t) (a_min1 0 t)
  else if (ch =? 66) || (ch =? 101) then a_move t_x (fun t => t_y t + t_arg 0 t) (a_min1 0 t)
  else if (ch =? 67) || (ch =? 97) then a_move (fun t => t_x t + t_arg 0 t) t_y (a_min1 0 t)
  else if ch =? 68 then a_move (fun t => t_x t - t_arg 0 t) t_y (a_min1 0 t)
  else if ch =? 69 then a_move (fun _ => 0) (fun t => t_y t + t_arg 0 t) (a_min1 0 t)
  else if ch =? 70 then a_move (fun _ => 0) (fun t => t_y t - t_arg 0 t) (a_min1 0 t)
  else if ch =? 100 then a_move t_x (t_arg 0) (a_dec 0 t)
  else if (ch =? 72) || (ch =? 102) then a_move (t_arg 1) (t_arg 0) (a_dec 1 (a_dec 0 t))
  else if ch =? 74 then a_J (t_arg 0 t) t
  else if ch =? 75 then a_K (t_arg 0 t) t
  else if ch =? 76 then a_L (t_arg 0 t) t
  else if ch =? 77 then a_M (t_arg 0 t) t
  else if ch =? 80 then a_P (t_arg 0 t) t
  else if ch =? 64 then a_at (t_arg 0 t) t
  else if ch =? 109 then a_m t
  else if ch =? 114 then a_region (a_arg1_lines (a_dec 0 t))
  else if ch =? 115 then a_save t
  else if ch =? 117 then a_restore t
  else t.
Definition a_csi (ch : Z) (t : term) : term := a_final ch (t <| t_state := 0 |>).
Definition a_par (ch : Z) (t : term) : term :=
  if (ch =? 59) && (t_npar t <? NPAR - 1) then t <| t_npar ::= Z.succ |>
  else if (48 <=? ch) && (ch <=? 57)
  then a_set_par (t_npar t) (u32 (10 * t_arg (t_npar t) t + ch - 48)) t
  else a_csi ch t.
Definition a_start (ch : Z) (t : term) : term :=
  t <| t_par := replicate (Z.to_nat NPAR) 0 |> <| t_npar := 0 |>
    <| t_state := 3 |> <| t_ques := if ch =? 63 then 1 else 0 |>.
Definition a_bracket (ch : Z) (t : term) : term :=
  if ch =? 63 then a_start ch t else a_par ch (a_start ch t).

(** One character sent to the terminal. *)
Definition a_char (erase ch : Z) (t : term) : term :=
  if t_state t =? 0 then a_text erase ch t
  else if t_state t =? 1 then a_esc ch t
  else if t_state t =? 2 then a_bracket ch t
  else if t_state t =? 3 then a_par ch t
  else if t_state t =? 4 then a_csi ch t
  else t.
(** The terminal is asked for its identification (ESC Z). *)
Definition a_responds (ch : Z) (t : term) : bool := (t_state t =? 1) && (ch =? 90).


(** ** The invariant of the console *)
Record con_ok (c : console) : Prop := {
  ok_cols : 8 <= video_num_columns c <= 254 /\ video_num_columns c mod 2 = 0;
  ok_lines : 1 <= video_num_lines c <= 255;
  ok_row : video_size_row c = 2 * video_num_columns c;
  ok_origin : video_mem_start c <= origin c /\ (origin c - video_mem_start c) mod 2 = 0;
  ok_scr_end : scr_end c = origin c + video_num_lines c * video_size_row c;
  ok_mem_end : scr_end c <= video_mem_end c;
  ok_x : 0 <= x c <= video_num_columns c;
  ok_y : 0 <= y c < video_num_lines c;
  ok_pos : pos c = origin c + y c * video_size_row c + 2 * x c;
  ok_region : 0 <= top c < bottom c /\ bottom c <= video_num_lines c;
  ok_npar : 0 <= npar c < NPAR;
  ok_par : length (par c) = Z.to_nat NPAR /\ Forall (fun p => 0 <= p) (par c)
}.

(** The console is well formed and shows the terminal [t]. *)
Definition represents (c : console) (t : term) : Prop :=
  con_ok c /\ exists scr, t = view c scr /\ shows c scr.

(** ** Effect of the string instructions *)
Fixpoint fill (n : nat) (di v : Z) (m : gmap Z Z) : gmap Z Z :=
  match n with O => m | Datatypes.S k => fill k (di + 2) v (<[di := v]> m) end.
Fixpoint fill_down (n : nat) (di v : Z) (m : gmap Z Z) : gmap Z Z :=
  match n with O => m | Datatypes.S k => fill_down k (di - 2) v (<[di := v]> m) end.
Fixpoint move (step : Z) (n : nat) (si di : Z) (m : gmap Z Z) : gmap Z Z :=
  match n with
  | O => m
  | Datatypes.S k =>
      move step k (si + step) (di + step)
        (<[di + 2 := word_at m (si + 2)]> (<[di := word_at m si]> m))
  end.

Lemma word_at_insert m a b v :
  word_at (<[a := v]> m) b = if decide (a = b) then v else word_at m b.
Proof. unfold word_at. rewrite lookup_insert. by case_decide. Qed.

Lemma fill_at n di v m k :
  word_at (fill n di v m) (di + 2 * k) =
    if (0 <=? k) && (k <? Z.of_nat n) then v else word_at m (di + 2 * k).
Proof.
  revert di m k. induction n as [|n IH]; intros di m k; cbn [fill].
  - destruct (Z.leb_spec 0 k), (Z.ltb_spec k (Z.of_nat 0)); cbn; [lia|done..].
  - replace (di + 2 * k) with (di + 2 + 2 * (k - 1)) by lia. rewrite IH, word_at_insert.
    destruct (Z.leb_spec 0 (k - 1)), (Z.ltb_spec (k - 1) (Z.of_nat n)),
      (Z.leb_spec 0 k), (Z.ltb_spec k (Z.of_nat (Datatypes.S n))); cbn; try lia;
      case_decide; try lia; done.
Qed.
Lemma fill_down_at n di v m k :
  word_at (fill_down n di v m) (di - 2 * k) =
    if (0 <=? k) && (k <? Z.of_nat n) then v else word_at m (di - 2 * k).
Proof.
  revert di m k. induction n as [|n IH]; intros di m k; cbn [fill_down].
  - destruct (Z.leb_spec 0 k), (Z.ltb_spec k (Z.of_nat 0)); cbn; [lia|done..].
  - replace (di - 2 * k) with (di - 2 - 2 * (k - 1)) by lia. rewrite IH, word_at_insert.
    destruct (Z.leb_spec 0 (k - 1)), (Z.ltb_spec (k - 1) (Z.of_nat n)),
      (Z.leb_spec 0 k), (Z.ltb_spec k (Z.of_nat (Datatypes.S n))); cbn; try lia;
      case_decide; try lia; done.
Qed.

(** A forward copy to a lower address moves a block. *)
Lemma move_up_at n si di m k :
  di <= si -> (si - di) mod 2 = 0 ->
  word_at (move 4 n si di m) (di + 2 * k) =
    if (0 <=? k) && (k <? 2 * Z.of_nat n) then word_at m (si + 2 * k)
    else word_at m (di + 2 * k).
Proof.
  intros Hle Hev. revert si di m k Hle Hev.
  induction n as [|n IH]; intros si di m k Hle Hev; cbn [move].
  - destruct (Z.leb_spec 0 k), (Z.ltb_spec k (2 * Z.of_nat 0)); cbn; [lia|done..].
  - replace (di + 2 * k) with (di + 4 + 2 * (k - 2)) by lia.
    rewrite IH by dlia. replace (si + 4 + 2 * (k - 2)) with (si + 2 * k) by lia.
    replace (di + 4 + 2 * (k - 2)) with (di + 2 * k) by lia. rewrite !word_at_insert.
    destruct (Z.leb_spec 0 (k - 2)), (Z.ltb_spec (k - 2) (2 * Z.of_nat n)),
      (Z.leb_spec 0 k), (Z.ltb_spec k (2 * Z.of_nat (Datatypes.S n))); cbn; try lia;
      repeat case_decide; try lia; try done; f_equal; lia.
Qed.
(** A backward copy to a higher address moves a block. *)
Lemma move_down_at n si di m k :
  si <= di -> (di - si) mod 2 = 0 ->
  word_at (move (-4) n si di m) (di + 2 - 2 * k) =
    if (0 <=? k) && (k <? 2 * Z.of_nat n) then word_at m (si + 2 - 2 * k)
    else word_at m (di + 2 - 2 * k).
Proof.
  intros Hle Hev. revert si di m k Hle Hev.
  induction n as [|n IH]; intros si di m k Hle Hev; cbn [move].
  - destruct (Z.leb_spec 0 k), (Z.ltb_spec k (2 * Z.of_nat 0)); cbn; [lia|done..].
  - replace (di + 2 - 2 * k) with (di + -4 + 2 - 2 * (k - 2)) by lia.
    rewrite IH by dlia. replace (si + -4 + 2 - 2 * (k - 2)) with (si + 2 - 2 * k) by lia.
    replace (di + -4 + 2 - 2 * (k - 2)) with (di + 2 - 2 * k) by lia. rewrite !word_at_insert.
    destruct (Z.leb_spec 0 (k - 2)), (Z.ltb_spec (k - 2) (2 * Z.of_nat n)),
      (Z.leb_spec 0 k), (Z.ltb_spec k (2 * Z.of_nat (Datatypes.S n))); cbn; try lia;
      repeat case_decide; try lia; try done; f_equal; lia.
Qed.

(** Inside video memory the instructions have exactly these effects. *)
Lemma stosw_run n di v c :
  video_mem_start c <= di -> di + 2 * Z.of_nat n <= video_mem_end c ->
  stosw n di v c = Done tt (c <| vmem := fill n di v (vmem c) |>).
Proof.
  revert di c. induction n as [|n IH]; intros di c H1 H2; cbn [stosw fill].
  { by destruct c. }
  unfold bind, poke_word, in_video.
  destruct (Z.leb_spec (video_mem_start c) di), (Z.leb_spec (di + 2) (video_mem_end c)); [|lia..].
  cbn [andb]. rewrite IH by (cbn; lia). done.
Qed.
Lemma stosw_down_run n di v c :
  video_mem_start c <= di + 2 - 2 * Z.of_nat n -> di + 2 <= video_mem_end c ->
  stosw_down n di v c = Done tt (c <| vmem := fill_down n di v (vmem c) |>).
Proof.
  revert di c. induction n as [|n IH]; intros di c H1 H2; cbn [stosw_down fill_down].
  { by destruct c. }
  unfold bind, poke_word, in_video.
  destruct (Z.leb_spec (video_mem_start c) di), (Z.leb_spec (di + 2) (video_mem_end c)); [|lia..].
  cbn [andb]. rewrite IH by (cbn; lia). done.
Qed.
Lemma movsl_run step n si di c :
  step = 4 \/ step = -4 ->
  (n <> O -> video_mem_start c <= Z.min si di /\ Z.max si di + 4 <= video_mem_end c /\
     video_mem_start c <= Z.min si di + step * (Z.of_nat n - 1) /\
     Z.max si di + step * (Z.of_nat n - 1) + 4 <= video_mem_end c) ->
  movsl step n si di c =
    Done (di + step * Z.of_nat n) (c <| vmem := move step n si di (vmem c) |>).
Proof.
  intros Hs. revert si di c. induction n as [|n IH]; intros si di c H; cbn [movsl move].
  { unfold ret. f_equal; [lia | by destruct c]. }
  specialize (H ltac:(lia)).
  assert (forall a m, a = si \/ a = si + 2 \/ a = di \/ a = di + 2 ->
    in_video (c <| vmem := m |>) a = true) as Hin.
  { intros a m Ha. unfold in_video. apply andb_true_iff. rewrite !Z.leb_le. cbn. lia. }
  unfold bind, peek_word, poke_word.
  pose proof (Hin si (vmem c)) as H1. pose proof (Hin (si + 2) (vmem c)) as H2.
  pose proof (Hin di (vmem c)) as H3.
  replace (c <| vmem := vmem c |>) with c in H1, H2, H3 by (by destruct c).
  rewrite H1, H2, H3 by tauto.
  change (in_video (upd vmem (<[di := ?v]>) c)) with
    (in_video (c <| vmem := <[di := v]> (vmem c) |>)).
  rewrite Hin by tauto. rewrite IH.
  - f_equal. lia.
  - intros Hn. cbn. lia.
Qed.


(** ** The operations implement the terminal *)

(** Destructs [represents c t] into the geometry facts the proofs need; [h] is
    half the number of columns, so that a row is [4 * h] bytes. *)
Ltac open_console H :=
  let scr := fresh "scr" in let Hs := fresh "Hshow" in
  destruct H as [[[? ?] ? ? [? ?] ? ? ? ? ? [? ?] ? [? ?]] (scr & -> & Hs)].

(** [rep movsl] counts of a block of rows, in cells. *)
Lemma row_longs a w :
  0 <= a -> 0 <= w -> w mod 2 = 0 -> 2 * Z.of_nat (Z.to_nat (Z.shiftr (a * w) 1)) = a * w.
Proof.
  intros Ha Hw He. rewrite Z.shiftr_div_pow2 by lia. change (2 ^ 1) with 2.
  rewrite Z2Nat.id by (apply Z.div_pos; lia || nia).
  assert (exists h, w = 2 * h) as [h ->] by (exists (w / 2); dlia).
  replace (a * (2 * h)) with (a * h * 2) by lia. rewrite Z.div_mul; lia.
Qed.

(** The linear order of cells is the lexicographic order of (row, column). *)
Lemma lin_ltb w r k r' k' :
  0 <= k < w -> 0 <= k' <= w ->
  (r * w + k <? r' * w + k') = (r <? r') || ((r =? r') && (k <? k')).
Proof.
  intros Hk Hk'. destruct (Z.ltb_spec r r'), (Z.eqb_spec r r'); cbn; subst.
  - lia.
  - apply Z.ltb_lt. nia.
  - destruct (Z.ltb_spec k k'); [apply Z.ltb_lt | apply Z.ltb_ge]; lia.
  - apply Z.ltb_ge. nia.
Qed.

(** Block operations in linear cell coordinates relative to an address [o]. *)
Lemma fill_lin n o j v m i :
  word_at (fill n (o + 2 * j) v m) (o + 2 * i) =
    if negb (i <? j) && (i <? j + Z.of_nat n) then v else word_at m (o + 2 * i).
Proof.
  replace (o + 2 * i) with (o + 2 * j + 2 * (i - j)) by lia. rewrite fill_at.
  replace (negb (i <? j)) with (0 <=? i - j) by lia.
  by replace (i <? j + Z.of_nat n) with (i - j <? Z.of_nat n) by lia.
Qed.
Lemma fill_down_lin n o j v m i :
  word_at (fill_down n (o + 2 * j) v m) (o + 2 * i) =
    if negb (i <? j + 1 - Z.of_nat n) && (i <? j + 1) then v else word_at m (o + 2 * i).
Proof.
  replace (o + 2 * i) with (o + 2 * j - 2 * (j - i)) by lia. rewrite fill_down_at.
  replace (negb (i <? j + 1 - Z.of_nat n)) with (j - i <? Z.of_nat n) by lia.
  replace (i <? j + 1) with (0 <=? j - i) by lia. by rewrite andb_comm.
Qed.
Lemma move_up_lin n o js jd m i :
  jd <= js ->
  word_at (move 4 n (o + 2 * js) (o + 2 * jd) m) (o + 2 * i) =
    if negb (i <? jd) && (i <? jd + 2 * Z.of_nat n)
    then word_at m (o + 2 * (i + (js - jd))) else word_at m (o + 2 * i).
Proof.
  intros H. replace (o + 2 * i) with (o + 2 * jd + 2 * (i - jd)) by lia.
  rewrite move_up_at by dlia.
  replace (o + 2 * js + 2 * (i - jd)) with (o + 2 * (i + (js - jd))) by lia.
  replace (negb (i <? jd)) with (0 <=? i - jd) by lia.
  by replace (i <? jd + 2 * Z.of_nat n) with (i - jd <? 2 * Z.of_nat n) by lia.
Qed.
Lemma move_up_base n o js m i :
  0 <= js ->
  word_at (move 4 n (o + 2 * js) o m) (o + 2 * i) =
    if negb (i <? 0) && (i <? 2 * Z.of_nat n)
    then word_at m (o + 2 * (i + js)) else word_at m (o + 2 * i).
Proof.
  intros H. pose proof (move_up_lin n o js 0 m i H) as E.
  rewrite Z.mul_0_r, Z.add_0_r, Z.add_0_l, Z.sub_0_r in E. exact E.
Qed.
(** [js] and [jd] are the last cells of the source and the destination. *)
Lemma move_down_lin n o js jd m i :
  js <= jd ->
  word_at (move (-4) n (o + 2 * js - 2) (o + 2 * jd - 2) m) (o + 2 * i) =
    if negb (i <? jd + 1 - 2 * Z.of_nat n) && (i <? jd + 1)
    then word_at m (o + 2 * (i - (jd - js))) else word_at m (o + 2 * i).
Proof.
  intros H. replace (o + 2 * i) with (o + 2 * jd - 2 + 2 - 2 * (jd - i)) by lia.
  rewrite move_down_at by dlia.
  replace (o + 2 * js - 2 + 2 - 2 * (jd - i)) with (o + 2 * (i - (jd - js))) by lia.
  replace (negb (i <? jd + 1 - 2 * Z.of_nat n)) with (jd - i <? 2 * Z.of_nat n) by lia.
  replace (i <? jd + 1) with (0 <=? jd - i) by lia. by rewrite andb_comm.
Qed.

Lemma cell_lin c r k :
  video_size_row c = 2 * video_num_columns c ->
  cell c r k = word_at (vmem c) (origin c + 2 * (r * video_num_columns c + k)).
Proof. intros H. unfold cell. rewrite H. f_equal. lia. Qed.

(** Closes a goal about an [if] over comparisons, given the screen. *)
Ltac cells_by Hshow :=
  repeat match goal with
  | |- context [if ?b then _ else _] =>
      lazymatch b with context [if _ then _ else _] => fail | _ => idtac end;
      let E := fresh "E" in destruct b eqn:E
  end;
  first [ reflexivity | exfalso; lia
        | rewrite <- Hshow by lia; first [reflexivity | f_equal; lia]
        | symmetry; rewrite <- Hshow by lia; first [reflexivity | f_equal; lia] ].

Lemma scrup_copy_spec c t :
  represents c t -> wp scrup_copy (fun _ c' => represents c' (a_scrup t)) c.
Proof.
  intros H. pose proof H as [Hok _]. open_console H.
  set (w := video_num_columns c) in *.
  unfold wp, scrup_copy, bind, get. cbv beta. fold w.
  pose proof (row_longs (bottom c - top c - 1) w ltac:(lia) ltac:(lia) ltac:(done)) as Hn.
  set (n := Z.to_nat (Z.shiftr _ 1)) in *.
  assert (bottom c * w <= video_num_lines c * w) by nia. assert (0 <= top c * w) by nia.
  replace (origin c + video_size_row c * (top c + 1))
    with (origin c + 2 * ((top c + 1) * w + 0)) by lia.
  replace (origin c + video_size_row c * top c)
    with (origin c + 2 * (top c * w + 0)) by lia.
  rewrite movsl_run by lia.
  replace (origin c + 2 * (top c * w + 0) + 4 * Z.of_nat n)
    with (origin c + 2 * ((bottom c - 1) * w + 0)) by lia.
  rewrite stosw_run by (cbn; lia).
  split; [destruct Hok; constructor; cbn; lia || auto|].
  eexists; split; [reflexivity|]. intros r k Hr Hk. cbn in Hr, Hk.
  rewrite cell_lin by done. cbn. fold w in Hk |- *.
  rewrite fill_lin, move_up_lin by lia.
  replace (r * w + k + _) with ((r + 1) * w + k) by lia.
  rewrite Z2Nat.id by lia.
  replace ((bottom c - 1) * w + 0 + w) with (bottom c * w + 0) by lia.
  replace (top c * w + 0 + 2 * Z.of_nat n) with ((bottom c - 1) * w + 0) by lia.
  rewrite !lin_ltb by lia.
  unfold w. rewrite <- !cell_lin by done.
  cells_by Hshow.
Qed.

Lemma shiftl1 a : Z.shiftl a 1 = 2 * a.
Proof. rewrite Z.shiftl_mul_pow2 by lia. lia. Qed.

(** What an operation of the console does to the terminal it shows. *)
Definition implements (m : M console unit) (f : term -> term) : Prop :=
  forall c t, represents c t -> wp m (fun _ c' => represents c' (f t)) c.

Lemma implements_ret : implements (ret tt) (fun t => t).
Proof. by intros c t H. Qed.
Lemma implements_seq m n f g :
  implements m f -> implements n g -> implements (m ;;; n) (fun t => g (f t)).
Proof.
  intros Hm Hn c t H. apply wp_bind. eapply wp_mono; [by apply Hm|].
  intros [] c' H'. by apply Hn.
Qed.
Lemma implements_repeat n m f : implements m f -> implements (repeatM n m) (Nat.iter n f).
Proof.
  intros Hm. induction n as [|n IH]; [apply implements_ret|].
  cbn [repeatM]. intros c t H. rewrite Nat.iter_succ_r. by apply (implements_seq m _ f _ Hm IH).
Qed.

Lemma scrup_copy_impl : implements scrup_copy a_scrup.
Proof. exact scrup_copy_spec. Qed.

Lemma set_origin_impl : implements set_origin (fun t => t).
Proof. intros c t [Hok (scr & -> & Hs)]. split; [by destruct Hok|]. by exists scr. Qed.
Lemma set_cursor_impl : implements set_cursor (fun t => t).
Proof. intros c t [Hok (scr & -> & Hs)]. split; [by destruct Hok|]. by exists scr. Qed.

(** Proves [con_ok] of an updated console from [con_ok] of the old one. *)
Ltac keeps_ok Hok :=
  destruct Hok; constructor; cbn; rewrite ?shiftl1; first [lia | solve [auto] | dlia].

(** Opens a represented console and names its number of columns [w]. *)
Ltac start_impl m :=
  let H := fresh "H" in intros c t H; pose proof H as [Hok _]; open_console H;
  set (w := video_num_columns c) in *;
  unfold wp, m, bind, get, put, modify; cbv beta; fold w.
(** Leaves the screen of the new state to be proved, cell by cell. *)
Ltac finish_impl Hok :=
  split; [keeps_ok Hok|]; eexists; split; [reflexivity|];
  let Hr := fresh "Hr" in let Hk := fresh "Hk" in
  intros r k Hr Hk; cbn in Hr, Hk.

Lemma scrup_impl : implements scrup a_scrup.
Proof.
  intros c t H. pose proof H as Hrep. pose proof H as [Hok _].
  unfold scrup, wp, bind at 1, get.
  destruct (is_ega c); [|by apply (scrup_copy_impl c)].
  destruct (truth (top c)) eqn:Htop; [by apply (scrup_copy_impl c)|].
  destruct (Z.eqb_spec (bottom c) (video_num_lines c)) as [Hbot|]; [|by apply (scrup_copy_impl c)].
  assert (top c = 0) as Ht by (unfold truth in Htop; lia). clear Htop Hrep.
  open_console H. set (w := video_num_columns c) in *. cbn [andb negb].
  unfold set_origin, outb, modify, bind, get. cbn. fold w.
  pose proof (row_longs (video_num_lines c - 1) w ltac:(lia) ltac:(lia) ltac:(done)) as Hn.
  set (n := Z.to_nat (Z.shiftr _ 1)) in *.
  assert (exists j, origin c = video_mem_start c + 2 * j) as [j Hj]
    by (exists ((origin c - video_mem_start c) / 2); dlia).
  assert (0 <= video_num_lines c * w) by nia.
  destruct (Z.ltb_spec (video_mem_end c) (scr_end c + video_size_row c)).
  - replace (origin c + video_size_row c) with (video_mem_start c + 2 * (j + w)) by lia.
    rewrite movsl_run by (cbn; lia).
    replace (video_mem_start c + 4 * Z.of_nat n)
      with (video_mem_start c + 2 * ((video_num_lines c - 1) * w)) by lia.
    rewrite stosw_run by (cbn; lia). cbn.
    finish_impl Hok. rewrite cell_lin by done. cbn. fold w in Hk |- *.
    rewrite fill_lin, move_up_base by lia. rewrite Z2Nat.id by lia.
    replace (r * w + k + (j + w)) with (r * w + k + w + j) by lia.
    replace ((video_num_lines c - 1) * w) with ((video_num_lines c - 1) * w + 0) by lia.
    replace ((video_num_lines c - 1) * w + 0 + w) with (video_num_lines c * w + 0) by lia.
    replace (2 * Z.of_nat n) with ((video_num_lines c - 1) * w + 0) by lia.
    replace (r * w + k <? 0) with (r * w + k <? 0 * w + 0) by (f_equal; lia).
    rewrite !lin_ltb by lia.
    replace (video_mem_start c + 2 * (r * w + k + w + j))
      with (origin c + 2 * ((r + 1) * w + k)) by lia.
    unfold w. rewrite <- !cell_lin by done. fold w. cells_by Hshow.
  - replace (scr_end c + video_size_row c - video_size_row c)
      with (origin c + 2 * (video_num_lines c * w)) by lia.
    rewrite stosw_run by (cbn; lia). cbn.
    finish_impl Hok. rewrite cell_lin by done. cbn. fold w in Hk |- *.
    replace (origin c + video_size_row c + 2 * (r * w + k))
      with (origin c + 2 * ((r + 1) * w + k)) by lia.
    rewrite fill_lin. rewrite Z2Nat.id by lia.
    replace (video_num_lines c * w) with (video_num_lines c * w + 0) by lia.
    replace (video_num_lines c * w + 0 + w) with ((video_num_lines c + 1) * w + 0) by lia.
    rewrite !lin_ltb by lia.
    unfold w. rewrite <- !cell_lin by done. fold w. cells_by Hshow.
Qed.

Lemma scrdown_impl : implements scrdown a_scrdown.
Proof.
  start_impl scrdown.
  pose proof (row_longs (bottom c - top c - 1) w ltac:(lia) ltac:(lia) ltac:(done)) as Hn.
  set (n := Z.to_nat (Z.shiftr _ 1)) in *.
  assert (bottom c * w <= video_num_lines c * w) by nia. assert (0 <= top c * w) by nia.
  replace (origin c + video_size_row c * (bottom c - 1) - 4)
    with (origin c + 2 * ((bottom c - 1) * w - 1) - 2) by lia.
  replace (origin c + video_size_row c * bottom c - 4)
    with (origin c + 2 * (bottom c * w - 1) - 2) by lia.
  rewrite movsl_run by lia.
  replace (origin c + 2 * (bottom c * w - 1) - 2 + -4 * Z.of_nat n + 2)
    with (origin c + 2 * ((top c + 1) * w - 1)) by lia.
  rewrite stosw_down_run by (cbn; lia).
  finish_impl Hok. rewrite cell_lin by done. cbn. fold w in Hk |- *.
  rewrite fill_down_lin, move_down_lin by lia.
  replace (r * w + k - _) with ((r - 1) * w + k) by lia.
  rewrite Z2Nat.id by lia.
  replace ((top c + 1) * w - 1 + 1 - w) with (top c * w + 0) by lia.
  replace ((top c + 1) * w - 1 + 1) with ((top c + 1) * w + 0) by lia.
  replace (bottom c * w - 1 + 1 - 2 * Z.of_nat n) with ((top c + 1) * w + 0) by lia.
  replace (bottom c * w - 1 + 1) with (bottom c * w + 0) by lia.
  rewrite !lin_ltb by lia.
  unfold w. rewrite <- !cell_lin by done. fold w. cells_by Hshow.
Qed.

Lemma lf_impl : implements lf a_lf.
Proof.
  intros c t H. unfold lf, wp, bind, get, put.
  destruct (Z.ltb_spec (y c + 1) (bottom c)) as [Hlt|Hge].
  - destruct H as [Hok (scr & -> & Hs)]. split; [keeps_ok Hok|].
    exists scr. split; [|exact Hs]. unfold a_lf. cbn.
    by rewrite (proj2 (Z.ltb_lt _ _) Hlt).
  - assert (a_lf t = a_scrup t) as ->; [|by apply (scrup_impl c)].
    destruct H as [_ (scr & -> & _)]. unfold a_lf. cbn.
    by rewrite (proj2 (Z.ltb_ge _ _) Hge).
Qed.
Lemma ri_impl : implements ri a_ri.
Proof.
  intros c t H. unfold ri, wp, bind, get, put.
  destruct (Z.ltb_spec (top c) (y c)) as [Hlt|Hge].
  - destruct H as [Hok (scr & -> & Hs)]. split; [keeps_ok Hok|].
    exists scr. split; [|exact Hs]. unfold a_ri. cbn.
    by rewrite (proj2 (Z.ltb_lt _ _) Hlt).
  - assert (a_ri t = a_scrdown t) as ->; [|by apply (scrdown_impl c)].
    destruct H as [_ (scr & -> & _)]. unfold a_ri. cbn.
    by rewrite (proj2 (Z.ltb_ge _ _) Hge).
Qed.
Lemma cr_impl : implements cr a_cr.
Proof.
  intros c t [Hok (scr & -> & Hs)]. unfold cr, wp, modify.
  split; [keeps_ok Hok|]. exists scr. by split.
Qed.

(** Filling the cells [j <= i < j + n] of the screen, in reading order. *)
Lemma fill_cells c scr j n f :
  con_ok c -> shows c scr -> 0 <= j -> 0 <= n ->
  j + n <= video_num_lines c * video_num_columns c ->
  (forall r k, 0 <= r < video_num_lines c -> 0 <= k < video_num_columns c ->
     f r k = negb (r * video_num_columns c + k <? j)
             && (r * video_num_columns c + k <? j + n)) ->
  wp (stosw (Z.to_nat n) (origin c + 2 * j) (video_erase_char c))
    (fun _ c' => represents c' (a_erase f (view c scr))) c.
Proof.
  intros Hok Hshow Hj Hn Hend Hf. unfold wp.
  pose proof (ok_row c Hok). pose proof (ok_origin c Hok).
  pose proof (ok_scr_end c Hok). pose proof (ok_mem_end c Hok).
  rewrite stosw_run by nia. finish_impl Hok.
  rewrite cell_lin by done. cbn. rewrite fill_lin, Z2Nat.id, Hf by lia.
  rewrite <- cell_lin by done. cells_by Hshow.
Qed.

Lemma poke_run a v c :
  video_mem_start c <= a -> a + 2 <= video_mem_end c ->
  poke_word a v c = Done tt (c <| vmem ::= <[a := v]> |>).
Proof.
  intros H1 H2. unfold poke_word, in_video.
  destruct (Z.leb_spec (video_mem_start c) a), (Z.leb_spec (a + 2) (video_mem_end c)); [done|lia..].
Qed.
Lemma peek_run a c :
  video_mem_start c <= a -> a + 2 <= video_mem_end c ->
  peek_word a c = Done (word_at (vmem c) a) c.
Proof.
  intros H1 H2. unfold peek_word, in_video.
  destruct (Z.leb_spec (video_mem_start c) a), (Z.leb_spec (a + 2) (video_mem_end c)); [done|lia..].
Qed.

Lemma csi_J_impl n : implements (csi_J n) (a_J n).
Proof.
  intros c t [Hok (scr & -> & Hs)]. unfold csi_J, a_J, wp, bind, get.
  pose proof (ok_cols c Hok). pose proof (ok_row c Hok). pose proof (ok_y c Hok).
  pose proof (ok_x c Hok). pose proof (ok_pos c Hok). pose proof (ok_scr_end c Hok).
  set (w := video_num_columns c) in *. set (l := video_num_lines c) in *.
  assert (y c * w + x c <= l * w) by nia. assert (0 <= y c * w) by nia.
  destruct (n =? 0); [|destruct (n =? 1); [|destruct (n =? 2)]].
  - replace (Z.shiftr (scr_end c - pos c) 1) with (l * w - (y c * w + x c))
      by (rewrite Z.shiftr_div_pow2 by lia; dlia).
    replace (pos c) with (origin c + 2 * (y c * w + x c)) by lia.
    apply fill_cells; fold w l; [done..|lia|lia|lia|].
    intros r k Hr Hk.
    replace (y c * w + x c + (l * w - (y c * w + x c))) with (l * w + 0) by lia.
    rewrite !lin_ltb by lia. cbn. lia.
  - replace (Z.shiftr (pos c - origin c) 1) with (y c * w + x c)
      by (rewrite Z.shiftr_div_pow2 by lia; dlia).
    replace (origin c) with (origin c + 2 * 0) by lia.
    apply fill_cells; fold w l; [done..|lia|lia|lia|].
    intros r k Hr Hk. rewrite Z.add_0_l, lin_ltb by lia. cbn.
    replace (r * w + k <? 0) with false by nia. cbn. lia.
  - replace (origin c) with (origin c + 2 * 0) by lia.
    apply fill_cells; fold w l; [done..|lia|lia|lia|].
    intros r k Hr Hk. rewrite Z.add_0_l.
    replace (r * w + k <? 0) with false by nia.
    replace (w * l) with (l * w + 0) by lia. rewrite lin_ltb by lia. lia.
  - split; [done|]. by exists scr.
Qed.

Lemma csi_K_impl n : implements (csi_K n) (a_K n).
Proof.
  intros c t [Hok (scr & -> & Hs)]. unfold csi_K, a_K, wp, bind, get.
  pose proof (ok_cols c Hok). pose proof (ok_row c Hok). pose proof (ok_y c Hok).
  pose proof (ok_x c Hok). pose proof (ok_pos c Hok). pose proof (ok_scr_end c Hok).
  set (w := video_num_columns c) in *. set (l := video_num_lines c) in *.
  assert (y c * w + w <= l * w) by nia. assert (0 <= y c * w) by nia.
  rewrite shiftl1.
  destruct (n =? 0); [|destruct (n =? 1); [|destruct (n =? 2)]].
  - destruct (Z.leb_spec w (x c)).
    { split; [done|]. eexists; split; [reflexivity|]. intros r k Hr Hk. cbn in *.
      fold w in Hk. cells_by Hs. }
    replace (pos c) with (origin c + 2 * (y c * w + x c)) by lia.
    apply fill_cells; fold w l; [done..|lia|lia|lia|].
    intros r k Hr Hk. replace (y c * w + x c + (w - x c)) with (y c * w + w) by lia.
    rewrite !lin_ltb by lia. cbn. lia.
  - replace (if x c <? w then x c else w) with (x c) by (destruct (Z.ltb_spec (x c) w); lia).
    replace (pos c - 2 * x c) with (origin c + 2 * (y c * w + 0)) by lia.
    apply fill_cells; fold w l; [done..|lia|lia|lia|].
    intros r k Hr Hk. replace (y c * w + 0 + x c) with (y c * w + x c) by lia.
    rewrite !lin_ltb by lia. cbn. lia.
  - replace (pos c - 2 * x c) with (origin c + 2 * (y c * w + 0)) by lia.
    apply fill_cells; fold w l; [done..|lia|lia|lia|].
    intros r k Hr Hk. replace (y c * w + 0 + w) with (y c * w + w) by lia.
    rewrite !lin_ltb by lia. cbn. lia.
  - split; [done|]. by exists scr.
Qed.

Lemma del_impl : implements del a_del.
Proof.
  intros c t [Hok (scr & -> & Hs)]. unfold del, a_del, wp, bind, get, when, put.
  pose proof (ok_cols c Hok). pose proof (ok_row c Hok). pose proof (ok_y c Hok).
  pose proof (ok_x c Hok). pose proof (ok_pos c Hok). pose proof (ok_scr_end c Hok).
  pose proof (ok_mem_end c Hok). pose proof (ok_origin c Hok).
  set (w := video_num_columns c) in *. set (l := video_num_lines c) in *. cbn.
  destruct (truth (x c)) eqn:Hx; cbn; [|split; [done|]; by exists scr].
  assert (x c <> 0) by (unfold truth in Hx; lia).
  assert (y c * w + w <= l * w) by nia. assert (0 <= y c * w) by nia.
  rewrite poke_run by (cbn; lia).
  finish_impl Hok. rewrite cell_lin by done. cbn. rewrite word_at_insert.
  fold w l in Hr, Hk |- *. rewrite <- cell_lin by done.
  destruct (Z.eqb_spec r (y c)), (Z.eqb_spec k (x c - 1)); case_decide; cbn; subst;
    try done; try (exfalso; nia); by apply Hs.
Qed.

(** The loops of [insert_char] and [delete_char] shift [n] cells by one. *)
Lemma shift_right_run n p old c :
  video_mem_start c <= p -> p + 2 * Z.of_nat n <= video_mem_end c ->
  exists m, shift_right n p old c = Done tt (c <| vmem := m |>) /\
    forall k, word_at m (p + 2 * k) =
      if (0 <=? k) && (k <? Z.of_nat n)
      then (if k =? 0 then old else word_at (vmem c) (p + 2 * (k - 1)))
      else word_at (vmem c) (p + 2 * k).
Proof.
  revert p old c. induction n as [|n IH]; intros p old c H1 H2; cbn [shift_right].
  { exists (vmem c). split; [by destruct c|]. intros k.
    destruct (Z.leb_spec 0 k), (Z.ltb_spec k (Z.of_nat 0)); cbn; [lia|done..]. }
  unfold bind. rewrite peek_run, poke_run by lia.
  destruct (IH (p + 2) (word_at (vmem c) p) (c <| vmem ::= <[p := old]> |>))
    as (m & -> & Hm); [cbn; lia..|].
  exists m. split; [done|]. intros k. specialize (Hm (k - 1)). cbn in Hm.
  replace (p + 2 + 2 * (k - 1)) with (p + 2 * k) in Hm by lia.
  replace (p + 2 + 2 * (k - 1 - 1)) with (p + 2 * (k - 1)) in Hm by lia.
  rewrite Hm, !word_at_insert.
  repeat case_decide; destruct (Z.leb_spec 0 (k - 1)), (Z.ltb_spec (k - 1) (Z.of_nat n)),
    (Z.leb_spec 0 k), (Z.ltb_spec k (Z.of_nat (Datatypes.S n))), (Z.eqb_spec k 0),
    (Z.eqb_spec (k - 1) 0); cbn; try lia; try done; f_equal; lia.
Qed.
Lemma shift_left_run n p c :
  video_mem_start c <= p -> p + 2 * Z.of_nat n + 2 <= video_mem_end c ->
  exists m, shift_left n p c = Done (p + 2 * Z.of_nat n) (c <| vmem := m |>) /\
    forall k, word_at m (p + 2 * k) =
      if (0 <=? k) && (k <? Z.of_nat n) then word_at (vmem c) (p + 2 * (k + 1))
      else word_at (vmem c) (p + 2 * k).
Proof.
  revert p c. induction n as [|n IH]; intros p c H1 H2; cbn [shift_left].
  { exists (vmem c). split; [unfold ret; f_equal; [lia|by destruct c]|]. intros k.
    destruct (Z.leb_spec 0 k), (Z.ltb_spec k (Z.of_nat 0)); cbn; [lia|done..]. }
  unfold bind. rewrite peek_run, poke_run by lia.
  destruct (IH (p + 2) (c <| vmem ::= <[p := word_at (vmem c) (p + 2)]> |>))
    as (m & -> & Hm); [cbn; lia..|].
  exists m. split; [unfold upd, upd_vmem; f_equal; lia|].
  intros k. specialize (Hm (k - 1)). cbn in Hm.
  replace (p + 2 + 2 * (k - 1)) with (p + 2 * k) in Hm by lia.
  replace (p + 2 + 2 * (k - 1 + 1)) with (p + 2 * (k + 1)) in Hm by lia.
  rewrite Hm, !word_at_insert.
  repeat case_decide; destruct (Z.leb_spec 0 (k - 1)), (Z.ltb_spec (k - 1) (Z.of_nat n)),
    (Z.leb_spec 0 k), (Z.ltb_spec k (Z.of_nat (Datatypes.S n))); cbn; try lia; try done;
    f_equal; lia.
Qed.

(** The address of cell [k] of the cursor's row, relative to the cursor. *)
Lemma cell_cursor c k :
  con_ok c -> cell c (y c) k = word_at (vmem c) (pos c + 2 * (k - x c)).
Proof. intros Hok. unfold cell. f_equal. rewrite (ok_pos c Hok). lia. Qed.

(** An operation that changes the cells of the cursor's row from the cursor on. *)
Lemma row_update c scr m (f : Z -> Z -> Z) :
  con_ok c -> shows c scr ->
  (forall k, x c <= k < video_num_columns c ->
     word_at m (pos c + 2 * (k - x c)) = f (y c) k) ->
  (forall j, j < 0 \/ video_num_columns c - x c <= j ->
     word_at m (pos c + 2 * j) = word_at (vmem c) (pos c + 2 * j)) ->
  represents (c <| vmem := m |>) ((view c scr) <| t_screen := fun r k =>
    if (r =? y c) && (x c <=? k) then f r k else scr r k |>).
Proof.
  intros Hok Hs Hin Hout. finish_impl Hok.
  pose proof (ok_row c Hok). pose proof (ok_pos c Hok). pose proof (ok_x c Hok).
  assert (cell (c <| vmem := m |>) r k =
    word_at m (pos c + 2 * ((r - y c) * video_num_columns c + k - x c))) as ->.
  { unfold cell. cbn. f_equal. lia. }
  destruct (Z.eqb_spec r (y c)) as [->|Hr']; cbn.
  - replace ((y c - y c) * video_num_columns c + k - x c) with (k - x c) by lia.
    destruct (Z.leb_spec (x c) k); [apply Hin; lia|].
    rewrite Hout by lia. rewrite <- cell_cursor by done. by apply Hs.
  - rewrite Hout by nia. rewrite <- Hs by done. unfold cell. f_equal. lia.
Qed.

Lemma insert_char_impl : implements insert_char a_insert_char.
Proof.
  intros c t [Hok (scr & -> & Hs)]. unfold insert_char, wp, bind, get.
  pose proof (ok_cols c Hok). pose proof (ok_row c Hok). pose proof (ok_y c Hok).
  pose proof (ok_x c Hok). pose proof (ok_pos c Hok). pose proof (ok_scr_end c Hok).
  pose proof (ok_mem_end c Hok). pose proof (ok_origin c Hok).
  destruct (shift_right_run (Z.to_nat (video_num_columns c - x c)) (pos c)
    (video_erase_char c) c) as (m & -> & Hm); [nia..|].
  apply (row_update c scr m (fun r k => if k =? x c then video_erase_char c else scr r (k - 1)));
    [done..| |].
  - intros k Hk. rewrite Hm, Z2Nat.id by lia.
    replace (0 <=? k - x c) with true by lia.
    replace (k - x c <? video_num_columns c - x c) with true by lia. cbn.
    destruct (Z.eqb_spec (k - x c) 0), (Z.eqb_spec k (x c)); try lia.
    rewrite <- Hs by lia. rewrite cell_cursor by done. do 2 f_equal. lia.
  - intros j Hj. rewrite Hm, Z2Nat.id by lia.
    destruct (Z.leb_spec 0 j), (Z.ltb_spec j (video_num_columns c - x c)); cbn; done || lia.
Qed.
Lemma delete_char_impl : implements delete_char a_delete_char.
Proof.
  intros c t [Hok (scr & -> & Hs)]. unfold delete_char, wp, bind, get.
  pose proof (ok_cols c Hok). pose proof (ok_row c Hok). pose proof (ok_y c Hok).
  pose proof (ok_x c Hok). pose proof (ok_pos c Hok). pose proof (ok_scr_end c Hok).
  pose proof (ok_mem_end c Hok). pose proof (ok_origin c Hok).
  destruct (Z.leb_spec (video_num_columns c) (x c)).
  { split; [done|]. eexists; split; [reflexivity|]. intros r k Hr Hk. cbn in *. cells_by Hs. }
  destruct (shift_left_run (Z.to_nat (video_num_columns c - x c - 1)) (pos c) c)
    as (m & -> & Hm); [nia..|]. rewrite Z2Nat.id in * by lia.
  rewrite poke_run by (cbn; nia).
  apply (row_update c scr _
    (fun r k => if k =? video_num_columns c - 1 then video_erase_char c else scr r (k + 1)));
    [done..| |]; cbn.
  - intros k Hk. rewrite word_at_insert, Hm.
    destruct (Z.eqb_spec k (video_num_columns c - 1)); case_decide; try lia.
    replace (0 <=? k - x c) with true by lia.
    replace (k - x c <? video_num_columns c - x c - 1) with true by lia. cbn.
    rewrite <- Hs by lia. rewrite cell_cursor by done. do 2 f_equal. lia.
  - intros j Hj. rewrite word_at_insert, Hm. case_decide; [lia|].
    destruct (Z.leb_spec 0 j), (Z.ltb_spec j (video_num_columns c - x c - 1)); cbn; done || lia.
Qed.

(** [insert_line] and [delete_line] are a scroll of the region below the cursor. *)
Lemma below_impl m f :
  implements m f -> (forall t, t_lines (f t) = t_lines t) ->
  implements (c <- get ;;
              put (c <| top := y c |> <| bottom := video_num_lines c |>) ;;;
              m ;;;
              modify (fun c' => c' <| top := top c |> <| bottom := bottom c |>)) (a_below f).
Proof.
  intros Hm Hf c t [Hok (scr & -> & Hs)].
  set (c1 := c <| top := y c |> <| bottom := video_num_lines c |>).
  assert (represents c1 (view c1 scr)) as H1.
  { split; [unfold c1; keeps_ok Hok|]. by exists scr. }
  apply Hm in H1. change (wp (m ;;; modify (fun c' => c' <| top := top c |> <| bottom := bottom c |>))
    (fun _ c' => represents c' (a_below f (view c scr))) c1).
  apply wp_bind. eapply wp_mono; [exact H1|]. intros [] c' [Hok' (scr' & Heq & Hs')].
  pose proof (Hf (view c1 scr)) as Hl. rewrite Heq in Hl. cbn in Hl.
  pose proof (ok_region c Hok) as Hreg. cbv [wp modify].
  split; [destruct Hok'; constructor; cbn; try lia; auto; rewrite Hl; lia|].
  exists scr'. split; [|exact Hs'].
  assert (a_below f (view c scr) =
    (f (view c1 scr)) <| t_top := top c |> <| t_bottom := bottom c |>) as -> by done.
  by rewrite Heq.
Qed.
Lemma insert_line_impl : implements insert_line (a_below a_scrdown).
Proof. by apply below_impl; [apply scrdown_impl|]. Qed.
Lemma delete_line_impl : implements delete_line (a_below a_scrup).
Proof. by apply below_impl; [apply scrup_impl|]. Qed.

Lemma csi_at_impl n : implements (csi_at n) (a_at n).
Proof.
  intros c t H. pose proof H as [_ (scr & E & _)].
  replace (a_at n t) with (Nat.iter (clamp n (video_num_columns c)) a_insert_char t) by (by subst t).
  by apply (implements_repeat _ _ _ insert_char_impl).
Qed.
Lemma csi_P_impl n : implements (csi_P n) (a_P n).
Proof.
  intros c t H. pose proof H as [_ (scr & E & _)].
  replace (a_P n t) with (Nat.iter (clamp n (video_num_columns c)) a_delete_char t) by (by subst t).
  by apply (implements_repeat _ _ _ delete_char_impl).
Qed.
Lemma csi_L_impl n : implements (csi_L n) (a_L n).
Proof.
  intros c t H. pose proof H as [_ (scr & E & _)].
  replace (a_L n t) with (Nat.iter (clamp n (video_num_lines c)) (a_below a_scrdown) t) by (by subst t).
  by apply (implements_repeat _ _ _ insert_line_impl).
Qed.
Lemma csi_M_impl n : implements (csi_M n) (a_M n).
Proof.
  intros c t H. pose proof H as [_ (scr & E & _)].
  replace (a_M n t) with (Nat.iter (clamp n (video_num_lines c)) (a_below a_scrup) t) by (by subst t).
  by apply (implements_repeat _ _ _ delete_line_impl).
Qed.

Lemma gotoxy_impl a b : implements (gotoxy a b) (a_goto a b).
Proof.
  intros c t [Hok (scr & -> & Hs)]. unfold gotoxy, a_goto, wp, bind, get.
  pose proof (u32_range a). pose proof (u32_range b). cbn -[u32].
  destruct ((video_num_columns c <? u32 a) || (video_num_lines c <=? u32 b)) eqn:E;
    (split; [|by exists scr]); [done|].
  apply orb_false_iff in E as [E1 E2]. rewrite Z.ltb_ge in E1. rewrite Z.leb_gt in E2.
  destruct Hok; constructor; cbn -[u32]; rewrite ?shiftl1; first [lia | solve [auto]].
Qed.

Lemma save_cur_impl : implements save_cur a_save.
Proof.
  intros c t [Hok (scr & -> & Hs)]. split; [keeps_ok Hok|]. by exists scr.
Qed.
Lemma restore_cur_impl : implements restore_cur a_restore.
Proof.
  intros c t H. pose proof (gotoxy_impl (saved_x c) (saved_y c) c t H) as H'.
  destruct H as [_ (scr & -> & _)]. exact H'.
Qed.
Lemma csi_m_impl : implements csi_m a_m.
Proof.
  intros c t [Hok (scr & -> & Hs)]. split; [keeps_ok Hok|]. by exists scr.
Qed.

Lemma implements_if (b : bool) m n f g :
  implements m f -> implements n g ->
  implements (if b then m else n) (fun t => if b then f t else g t).
Proof. by destruct b. Qed.
Lemma implements_get (k : console -> M console unit) f :
  (forall c scr, represents c (view c scr) ->
     wp (k c) (fun _ c' => represents c' (f (view c scr))) c) ->
  implements (c <- get ;; k c) f.
Proof. intros Hk c t H. pose proof H as [_ (scr & -> & _)]. by apply Hk. Qed.
(** An update of the fields that the invariant does not constrain. *)
Lemma implements_modify (g : console -> console) f :
  (forall c, con_ok c -> con_ok (g c)) ->
  (forall c scr, f (view c scr) = view (g c) scr) ->
  (forall c r k, cell (g c) r k = cell c r k /\
     video_num_lines (g c) = video_num_lines c /\
     video_num_columns (g c) = video_num_columns c) ->
  implements (modify g) f.
Proof.
  intros Hok Hv Hc c t [H (scr & -> & Hs)]. split; [by apply Hok|].
  exists scr. split; [apply Hv|]. intros r k Hr Hk.
  destruct (Hc c r k) as (-> & El & Ec). rewrite El in Hr. rewrite Ec in Hk. by apply Hs.
Qed.
Ltac plain_modify :=
  apply implements_modify;
  [intros ? Hok; keeps_ok Hok | done | done].

(** Putting a character at a cursor that is not past the margin. *)
Lemma store_impl ch c t :
  represents c t -> t_x t < t_cols t ->
  wp (poke_word (pos c) (attr c * 256 + ch) ;;;
      modify (fun c => c <| pos ::= fun p => p + 2 |> <| x ::= Z.succ |>))
    (fun _ c' => represents c' (a_store ch t)) c.
Proof.
  intros [Hok (scr & -> & Hs)] Hx. unfold wp, bind, modify. cbn in Hx.
  pose proof (ok_cols c Hok). pose proof (ok_row c Hok). pose proof (ok_y c Hok).
  pose proof (ok_x c Hok). pose proof (ok_pos c Hok). pose proof (ok_scr_end c Hok).
  pose proof (ok_mem_end c Hok). pose proof (ok_origin c Hok).
  rewrite poke_run by nia. finish_impl Hok.
  rewrite cell_lin by done. cbn. rewrite word_at_insert, <- cell_lin by done.
  destruct (Z.eqb_spec r (y c)), (Z.eqb_spec k (x c)); case_decide; cbn; subst;
    try done; try (exfalso; nia); by apply Hs.
Qed.

(** [wrap_line] may start with the cursor past the margin. *)
Lemma wrap_line_impl c scr :
  con_ok (c <| x ::= fun v => v - video_num_columns c |>
            <| pos ::= fun p => p - video_size_row c |>) ->
  shows c scr ->
  wp wrap_line (fun _ c' => represents c' (a_wrap (view c scr))) c.
Proof.
  intros Hok Hs. unfold wrap_line. apply wp_bind.
  change (wp lf (fun _ c' => represents c' (a_wrap (view c scr)))
    (c <| x ::= fun v => v - video_num_columns c |> <| pos ::= fun p => p - video_size_row c |>)).
  apply lf_impl. split; [done|]. exists scr. by split.
Qed.

Lemma a_lf_x t : t_x (a_lf t) = t_x t /\ t_cols (a_lf t) = t_cols t.
Proof. unfold a_lf. by destruct (_ <? _). Qed.

Lemma put_char_impl ch : implements (put_char ch) (a_put ch).
Proof.
  apply implements_get. intros c scr H. apply wp_bind.
  eapply (wp_mono _ (fun _ c' => represents c'
    (if t_cols (view c scr) <=? t_x (view c scr) then a_wrap (view c scr) else view c scr))).
  - cbn. destruct (Z.leb_spec (video_num_columns c) (x c)); [|done].
    destruct H as [Hok (scr' & E & Hs)]. injection E as <-.
    apply wrap_line_impl; [keeps_ok Hok|done].
  - intros [] c' H'. apply (store_impl ch c' _ H').
    destruct H as [Hok _]. pose proof (ok_x c Hok). pose proof (ok_cols c Hok). cbn.
    destruct (Z.leb_spec (video_num_columns c) (x c)); [|done].
    unfold a_wrap. destruct (a_lf_x ((view c scr) <| t_x ::= fun v => v - t_cols (view c scr) |>))
      as [-> ->]. cbn. lia.
Qed.

Lemma land7 v : Z.land v 7 = v mod 8.
Proof. change 7 with (Z.ones 3). by rewrite Z.land_ones by lia. Qed.

Lemma tab_impl : implements tab a_tab.
Proof.
  apply implements_get. intros c scr [Hok (scr' & E & Hs)]. injection E as <-.
  rewrite land7, shiftl1. pose proof (Z.mod_pos_bound (x c) 8 ltac:(lia)).
  pose proof (ok_x c Hok). pose proof (ok_cols c Hok).
  set (c1 := c <| x ::= fun v => v + (8 - x c mod 8) |>
               <| pos ::= fun p => p + 2 * (8 - x c mod 8) |>).
  change (wp (when (video_num_columns c1 <? x c1) wrap_line)
    (fun _ c' => represents c' (if t_cols (view c1 scr) <? t_x (view c1 scr)
       then a_wrap (view c1 scr) else view c1 scr)) c1).
  unfold when. cbn. destruct (Z.ltb_spec (video_num_columns c) (x c + (8 - x c mod 8))).
  - apply wrap_line_impl; [unfold c1; keeps_ok Hok|done].
  - split; [unfold c1; keeps_ok Hok|]. by exists scr.
Qed.

Lemma back_space_impl : implements back_space a_bs.
Proof.
  intros c t [Hok (scr & -> & Hs)]. unfold back_space, wp, modify, a_bs. cbn.
  destruct (truth (x c)) eqn:Hx; [|by split; [|exists scr]].
  assert (x c <> 0) by (unfold truth in Hx; lia).
  split; [keeps_ok Hok|]. by exists scr.
Qed.

Section Output_correct.
Context (inb : Z -> Z).

Lemma sysbeep_impl : implements (sysbeep inb) (fun t => t).
Proof. intros c t [Hok (scr & -> & Hs)]. split; [keeps_ok Hok|]. by exists scr. Qed.

Lemma con_text_impl erase ch : implements (con_text inb erase ch) (a_text erase ch).
Proof.
  unfold con_text, a_text.
  repeat (apply implements_if);
    eauto using put_char_impl, lf_impl, cr_impl, del_impl, back_space_impl, tab_impl, implements_ret.
  - plain_modify.
  - destruct (ch =? 7); [apply sysbeep_impl | apply implements_ret].
Qed.

(** Sequencing with a routine that also answers. *)
Lemma implements_answer m f (b : bool) (Q : bool -> Prop) c t :
  implements m f -> represents c t -> Q b ->
  wp (m ;;; ret b) (fun b' c' => Q b' /\ represents c' (f t)) c.
Proof.
  intros Hm H Hb. apply wp_bind. eapply wp_mono; [by apply Hm|]. intros [] c' H'. by split.
Qed.

Lemma con_esc_impl ch c t :
  represents c t ->
  wp (con_esc ch) (fun b c' => b = (ch =? 90) /\ represents c' (a_esc ch t)) c.
Proof.
  intros H. pose proof H as [_ (scr & -> & _)]. unfold con_esc. apply wp_bind.
  assert (represents (c <| state := 0 |>) (view (c <| state := 0 |>) scr)) as H0.
  { destruct H as [Hok (scr' & E & Hs)]. injection E as <-.
    split; [keeps_ok Hok|]. by exists scr. }
  set (c0 := c <| state := 0 |>) in *. cbv [wp modify]. fold c0.
  unfold a_esc. change ((view c scr) <| t_state := 0 |>) with (view c0 scr).
  unfold get. unfold bind at 1.
  destruct (Z.eqb_spec ch 91) as [->|]; [|destruct (Z.eqb_spec ch 69) as [->|];
    [|destruct (Z.eqb_spec ch 77) as [->|]; [|destruct (Z.eqb_spec ch 68) as [->|];
    [|destruct (Z.eqb_spec ch 90) as [->|]; [|destruct (x c0 =? 55) eqn:E7;
    [|destruct (x c0 =? 56) eqn:E8]]]]]].
  - apply (implements_answer _ (fun t => t <| t_state := 2 |>) _ (fun b => b = false) _ _);
      [plain_modify|done..].
  - by apply (implements_answer _ _ _ (fun b => b = false) _ _ (gotoxy_impl _ _)).
  - by apply (implements_answer _ _ _ (fun b => b = false) _ _ ri_impl).
  - by apply (implements_answer _ _ _ (fun b => b = false) _ _ lf_impl).
  - done.
  - cbn [view t_x]. rewrite E7.
    by apply (implements_answer _ _ _ (fun b => b = false) _ _ save_cur_impl).
  - cbn [view t_x]. rewrite E7, E8.
    by apply (implements_answer _ _ _ (fun b => b = false) _ _ restore_cur_impl).
  - cbn [view t_x]. by rewrite E7, E8.
Qed.

(** Parameters *)
Lemma par_at_nonneg c i : con_ok c -> 0 <= par_at c i.
Proof.
  intros Hok. pose proof (ok_par c Hok) as [_ Hp]. unfold par_at, nth_par.
  destruct (par c !! Z.to_nat i) eqn:E; cbn; [|lia].
  by eapply (Forall_lookup_1 _ _ _ _ Hp).
Qed.
Lemma set_par_impl i v c scr :
  0 <= v -> represents c (view c scr) ->
  represents (set_par i v c) (a_set_par i v (view c scr)).
Proof.
  intros Hv [Hok (scr' & E & Hs)]. injection E as <-.
  split; [|by exists scr]. pose proof (ok_par c Hok) as [Hl Hp].
  destruct Hok; constructor; cbn; auto.
  split; [by rewrite length_insert | by apply Forall_insert].
Qed.
Lemma par_dec_impl i : implements (par_dec i) (a_dec i).
Proof.
  apply implements_get. intros c scr H. unfold a_dec. cbn.
  change (t_arg i (view c scr)) with (par_at c i).
  destruct (truth (par_at c i)) eqn:E; [|done].
  apply set_par_impl; [|done]. pose proof (par_at_nonneg c i (proj1 H)).
  unfold truth in E. lia.
Qed.
Lemma par_min1_impl i : implements (par_min1 i) (a_min1 i).
Proof.
  apply implements_get. intros c scr H. unfold a_min1. cbn.
  change (t_arg i (view c scr)) with (par_at c i).
  destruct (truth (par_at c i)); [done|]. by apply set_par_impl.
Qed.
Lemma default_bottom_impl :
  implements (c <- get ;; when (negb (truth (par_at c 1))) (put (set_par 1 (video_num_lines c) c)))
    a_arg1_lines.
Proof.
  apply implements_get. intros c scr H. unfold a_arg1_lines. cbn.
  change (t_arg 1 (view c scr)) with (par_at c 1).
  destruct (truth (par_at c 1)); [done|]. apply set_par_impl; [|done].
  pose proof (ok_lines c (proj1 H)). lia.
Qed.
Lemma set_region_impl :
  implements (c <- get ;;
    when ((par_at c 0 <? par_at c 1) && (par_at c 1 <=? video_num_lines c))
      (put (c <| top := par_at c 0 |> <| bottom := par_at c 1 |>))) a_region.
Proof.
  apply implements_get. intros c scr H. unfold a_region. cbn.
  change (t_arg 0 (view c scr)) with (par_at c 0).
  change (t_arg 1 (view c scr)) with (par_at c 1).
  destruct H as [Hok (scr' & E & Hs)]. injection E as <-.
  pose proof (par_at_nonneg c 0 Hok) as H0.
  destruct ((par_at c 0 <? par_at c 1) && _) eqn:E; [|by split; [|exists scr]].
  apply andb_true_iff in E as [E1 E2]. rewrite Z.ltb_lt in E1. rewrite Z.leb_le in E2.
  split; [keeps_ok Hok|]. by exists scr.
Qed.

(** The operations whose arguments are read from the state. *)
Lemma move_impl (fx fy : console -> Z) (gx gy : term -> Z) :
  (forall c scr, gx (view c scr) = fx c) -> (forall c scr, gy (view c scr) = fy c) ->
  implements (c <- get ;; gotoxy (fx c) (fy c)) (a_move gx gy).
Proof.
  intros Hx Hy. apply implements_get. intros c scr H. unfold a_move. rewrite Hx, Hy.
  by apply gotoxy_impl.
Qed.
Lemma arg0_impl (m : Z -> M console unit) (f : Z -> term -> term) :
  (forall n, implements (m n) (f n)) ->
  implements (c <- get ;; m (par_at c 0)) (fun t => f (t_arg 0 t) t).
Proof. intros Hm. apply implements_get. intros c scr H. by apply (Hm (par_at c 0)). Qed.
(** [implements_seq] for the association of the code's sequences. *)
Lemma implements_move p f (fx fy : console -> Z) (gx gy : term -> Z) :
  implements p f ->
  (forall c scr, gx (view c scr) = fx c) -> (forall c scr, gy (view c scr) = fy c) ->
  implements (p ;;; (c <- get ;; gotoxy (fx c) (fy c))) (fun t => a_move gx gy (f t)).
Proof. intros Hp Hx Hy. apply implements_seq; [done|]. by apply move_impl. Qed.

Lemma con_csi_impl ch : implements (con_csi ch) (a_csi ch).
Proof.
  unfold con_csi, a_csi.
  apply (implements_seq _ _ (fun t => t <| t_state := 0 |>) (a_final ch)); [plain_modify|].
  unfold a_final.
  repeat apply implements_if;
    try (apply implements_move; [by first [apply par_dec_impl | apply par_min1_impl] | done..]).
  - apply (implements_seq _ _ (a_dec 0) (fun t => a_move (t_arg 1) (t_arg 0) (a_dec 1 t)));
      [apply par_dec_impl|].
    apply implements_move; [apply par_dec_impl|done..].
  - apply arg0_impl, csi_J_impl.
  - apply arg0_impl, csi_K_impl.
  - apply arg0_impl, csi_L_impl.
  - apply arg0_impl, csi_M_impl.
  - apply arg0_impl, csi_P_impl.
  - apply arg0_impl, csi_at_impl.
  - apply csi_m_impl.
  - apply (implements_seq _ _ (a_dec 0) (fun t => a_region (a_arg1_lines t)));
      [apply par_dec_impl|].
    intros c t H. pose proof (implements_seq _ _ _ _ default_bottom_impl set_region_impl c t H).
    exact H0.
  - apply save_cur_impl.
  - apply restore_cur_impl.
  - apply implements_ret.
Qed.

Lemma con_par_impl ch : implements (con_par ch) (a_par ch).
Proof.
  apply implements_get. intros c scr H. unfold a_par. cbn -[con_csi u32 a_csi].
  change (t_arg (npar c) (view c scr)) with (par_at c (npar c)).
  destruct ((ch =? 59) && (npar c <? NPAR - 1)) eqn:E.
  - apply andb_true_iff in E as [_ E]. rewrite Z.ltb_lt in E.
    destruct H as [Hok (scr' & E' & Hs)]. injection E' as <-.
    split; [|by exists scr]. pose proof (ok_npar c Hok).
    destruct Hok; constructor; cbn; auto; unfold NPAR in *; lia.
  - destruct ((48 <=? ch) && (ch <=? 57)).
    + apply (set_par_impl (npar c)); [apply u32_range|done].
    + by apply con_csi_impl.
Qed.

Lemma con_bracket_impl ch : implements (con_bracket ch) (a_bracket ch).
Proof.
  unfold con_bracket, a_bracket.
  intros c t H. apply wp_bind.
  assert (represents (c <| par := replicate (Z.to_nat NPAR) 0 |> <| npar := 0 |>
    <| state := 3 |> <| ques := if ch =? 63 then 1 else 0 |>) (a_start ch t)) as H1.
  { destruct H as [Hok (scr & -> & Hs)]. split; [|by exists scr].
    destruct Hok; constructor; cbn; auto; [unfold NPAR; lia|].
    split; [done|]. by repeat constructor. }
  cbv [wp modify]. destruct (ch =? 63); [exact H1|].
  by apply con_par_impl.
Qed.

(** C37: One character of console output does exactly what the same character
    does to an abstract terminal, a grid of cells with no addresses, whatever
    the display adapter: the routine returns (it never touches a word outside
    video memory, and every loop ends), it asks for the identification response
    exactly for ESC Z (not for CSI c or CSI 0 c, which are ignored, although the comment on the
    response in the source says that it answers both; and ESC 7 and ESC 8 do nothing unless the
    cursor is in column 55 or 56, where any other character after ESC saves or restores it, since the code
    compares the column with '7' and '8'), and the screen, the cursor, the scroll region, the
    attribute and the parser state it leaves are those of the terminal.  The
    invariant [con_ok] of the static variables is preserved. *)
Theorem con_char_refines erase ch c t :
  represents c t ->
  wp (con_char inb erase ch)
    (fun resp c' => resp = a_responds ch t /\ represents c' (a_char erase ch t)) c.
Proof.
  intros H. pose proof H as [_ (scr & -> & _)]. unfold con_char.
  unfold wp, bind at 1, get. unfold a_char, a_responds. cbn [view t_state].
  destruct (Z.eqb_spec (state c) 0) as [E|E].
  { rewrite E. by apply (implements_answer _ _ _ (fun b => b = false) _ _ (con_text_impl _ _)). }
  destruct (Z.eqb_spec (state c) 1) as [E1|E1]; [by apply con_esc_impl|].
  destruct (state c =? 2).
  { by apply (implements_answer _ _ _ (fun b => b = false) _ _ (con_bracket_impl _)). }
  destruct (state c =? 3).
  { by apply (implements_answer _ _ _ (fun b => b = false) _ _ (con_par_impl _)). }
  destruct (state c =? 4).
  { by apply (implements_answer _ _ _ (fun b => b = false) _ _ (con_csi_impl _)). }
  done.
Qed.

(** ESC 7 and ESC 8 do not work: the code compares the cursor column [x]
    with the characters 7 and 8 where it means the input character.  With the
    cursor anywhere but in columns 55 and 56, ESC 7 and ESC 8 only end the
    escape sequence; in column 55 every sequence of ESC and a character that is
    not a left bracket, E, M, D or Z saves the cursor. *)
Theorem esc_7_tests_the_column erase ch c :
  con_ok c -> state c = 1 ->
  (x c <> 55 -> x c <> 56 -> ch = 55 \/ ch = 56 ->
     con_char inb erase ch c = Done false (c <| state := 0 |>)) /\
  (x c = 55 -> ch ∉ [91; 69; 77; 68; 90] ->
     con_char inb erase ch c =
       Done false (c <| state := 0 |> <| saved_x := x c |> <| saved_y := y c |>)).
Proof.
  intros _ Hst.
  assert (con_char inb erase ch c = con_esc ch c) as ->.
  { unfold con_char, bind at 1, get. cbv beta. by rewrite Hst. }
  unfold con_esc, bind, modify, get, ret. cbv beta iota.
  change (x (c <| state := 0 |>)) with (x c). split.
  - intros H1 H2 Hch.
    assert ((ch =? 91) = false /\ (ch =? 69) = false /\ (ch =? 77) = false /\
            (ch =? 68) = false /\ (ch =? 90) = false) as (-> & -> & -> & -> & ->) by lia.
    by rewrite (proj2 (Z.eqb_neq _ _) H1), (proj2 (Z.eqb_neq _ _) H2).
  - intros H1 Hch. rewrite !not_elem_of_cons in Hch.
    destruct Hch as (N1 & N2 & N3 & N4 & N5 & _). apply Z.eqb_neq in N1, N2, N3, N4, N5.
    rewrite N1, N2, N3, N4, N5. by rewrite (proj2 (Z.eqb_eq _ _) H1).
Qed.

Lemma show_desc_run l p c :
  video_mem_start c <= p -> p + 2 * Z.of_nat (length l) <= video_mem_end c ->
  exists m, show_desc l p c = Done tt (c <| vmem := m |>).
Proof.
  revert p c. induction l as [|ch l IH]; intros p c H1 H2; cbn [show_desc length] in *.
  { exists (vmem c). by destruct c. }
  unfold bind. rewrite peek_run, poke_run by lia.
  destruct (IH (p + 2) (c <| vmem ::= <[p := word_at (vmem c) p / 256 * 256 + ch]> |>))
    as [m ->]; [cbn; lia..|]. by exists m.
Qed.

(** [con_init] leaves a well formed console, for each of the four kinds of
    adapter it distinguishes, whenever the text screen fits into 8 Kb and the BIOS
    cursor is on it; the cursor is then where the BIOS left it. *)
Theorem con_init_ok cols mode ega_bx page orig_x orig_y c :
  8 <= cols <= 162 -> cols mod 2 = 0 -> 0 <= orig_x <= cols -> 0 <= orig_y < 25 ->
  0 <= npar c < NPAR -> length (par c) = Z.to_nat NPAR -> Forall (fun p => 0 <= p) (par c) ->
  wp (con_init cols mode ega_bx page orig_x orig_y inb)
    (fun _ c' => con_ok c' /\ x c' = orig_x /\ y c' = orig_y /\
                 top c' = 0 /\ bottom c' = video_num_lines c') c.
Proof.
  intros Hc He Hx Hy Hn Hl Hp. unfold con_init.
  set (c1 := detect cols mode ega_bx page c).
  assert (video_mem_start c1 + 8192 <= video_mem_end c1) as Hmem.
  { unfold c1, detect. cbn. by destruct (mode =? 7), (negb (Z.land ega_bx 255 =? 16)). }
  assert (length (display_desc mode ega_bx) = 4%nat) as Hlen.
  { unfold display_desc. by destruct (mode =? 7), (negb (Z.land ega_bx 255 =? 16)). }
  assert (video_num_columns c1 = cols /\ video_size_row c1 = cols * 2 /\
          video_num_lines c1 = 25 /\ npar c1 = npar c /\ par c1 = par c)
    as (E1 & E2 & E3 & E4 & E5) by done.
  destruct (show_desc_run (display_desc mode ega_bx)
    (video_mem_start c1 + video_size_row c1 - 8) c1) as [m Hm]; [lia..|].
  wp_run. fold c1. unfold wp at 1. rewrite Hm. wp_run.
  set (c2 := (c1 <| vmem := m |>) <| origin := _ |> <| scr_end := _ |> <| top := 0 |> <| bottom := _ |>).
  unfold gotoxy, outb. wp_run. rewrite !u32_id by lia.
  replace ((video_num_columns c2 <? orig_x) || (video_num_lines c2 <=? orig_y)) with false
    by (unfold c2; cbn -[c1]; lia).
  wp_run. subst c2. cbn -[c1 Z.mul]. clearbody c1.
  split; [|done].
  constructor; cbn -[Z.mul]; rewrite ?shiftl1, ?E1, ?E2, ?E3, ?E4, ?E5;
    first [lia | solve [auto] | dlia].
Qed.

End Output_correct.

(** ** Witnesses *)
Definition bss_console : console :=
  mk_console 0 0 0 0 0 0 0 0 0 0 0 0 0 0 0 0 0 0 0 (replicate 16 0) 0 7 0 0 0 ∅ [].
Definition ega_console : console :=
  match con_init 80 3 0 0 79 24 (fun _ => 0) bss_console with Done _ c => c | _ => bss_console end.

Lemma con_init_ok_witness :
  wp (con_init 80 3 0 0 79 24 (fun _ => 0))
    (fun _ c' => con_ok c' /\ x c' = 79 /\ y c' = 24 /\ top c' = 0 /\
                 bottom c' = video_num_lines c') bss_console.
Proof.
  apply (con_init_ok (fun _ => 0) 80 3 0 0 79 24 bss_console).
  1-5: by repeat split.
  1: done.
  by apply Forall_replicate.
Defined.

Lemma ega_console_ok : con_ok ega_console.
Proof.
  constructor; vm_compute; try done; repeat split; try done; by repeat constructor.
Qed.

(** A line feed in the last row scrolls. *)
Lemma con_char_refines_witness :
  wp (con_char (fun _ => 0) 127 10)
    (fun resp c' => resp = false /\ represents c' (a_scrup (view ega_console (cell ega_console))))
    ega_console.
Proof.
  apply (con_char_refines (fun _ => 0) 127 10 ega_console (view ega_console (cell ega_console))).
  split; [exact ega_console_ok | by exists (cell ega_console)].
Defined.

Lemma con_ok_state n c : con_ok c -> con_ok (c <| state := n |>).
Proof. intros Hok. keeps_ok Hok. Qed.
Lemma esc_7_tests_the_column_witness :
  con_char (fun _ => 0) 127 55 (ega_console <| state := 1 |>) = Done false (ega_console <| state := 1 |> <| state := 0 |>).
Proof.
  apply (proj1 (esc_7_tests_the_column (fun _ => 0) 127 55 (ega_console <| state := 1 |>)
    (con_ok_state 1 _ ega_console_ok) eq_refl)).
  - vm_compute. discriminate.
  - vm_compute. discriminate.
  - by left.
Defined.

End Console.
