(* ===== verification/Task.v ===== *)
(** * Tasks: [include/linux/sched.h], [include/linux/tty.h], [include/signal.h]

    The data of the process side of the kernel: signal actions, task structures,
    terminals, and the record [kernel] of the variables that the files of
    [kernel/] share.  A [struct task_struct] pointer is the index of the slot of
    [task] that holds it, [None] for the null pointer. *)
From S2P Require Import Prelude Console.

Definition NR_TASKS : nat := 64.
Definition NR_OPEN : nat := 20.
Definition HZ : Z := 100.
Definition TASK_RUNNING : Z := 0.
Definition TASK_INTERRUPTIBLE : Z := 1.
Definition TASK_UNINTERRUPTIBLE : Z := 2.
Definition TASK_ZOMBIE : Z := 3.
Definition TASK_STOPPED : Z := 4.

Definition EPERM : Z := 1.
Definition ENOENT : Z := 2.
Definition ESRCH : Z := 3.
Definition EINTR : Z := 4.
Definition EIO : Z := 5.
Definition EBADF : Z := 9.
Definition ECHILD : Z := 10.
Definition EAGAIN : Z := 11.
Definition ENOMEM : Z := 12.
Definition EACCES : Z := 13.
Definition EBUSY : Z := 16.
Definition EEXIST : Z := 17.
Definition ENODEV : Z := 19.
Definition ENOTDIR : Z := 20.
Definition EISDIR : Z := 21.
Definition EINVAL : Z := 22.
Definition ENOSPC : Z := 28.
Definition ENOSYS : Z := 38.
Definition ENOTEMPTY : Z := 39.
Definition ERROR : Z := 99.

Definition SIGHUP : Z := 1.
Definition SIGINT : Z := 2.
Definition SIGQUIT : Z := 3.
Definition SIGKILL : Z := 9.
Definition SIGSEGV : Z := 11.
Definition SIGPIPE : Z := 13.
Definition SIGALRM : Z := 14.
Definition SIGCHLD : Z := 17.
Definition SIGSTOP : Z := 19.
Definition SA_NOMASK : Z := 1073741824.
Definition SA_ONESHOT : Z := 2147483648.
(** [1<<(sig-1)], the bit of a signal in a 32-bit mask *)
Definition sigbit (sig : Z) : Z := i32 (Z.shiftl 1 (sig - 1)).
Definition BLOCKABLE : Z := Z.lnot (Z.lor (sigbit SIGKILL) (sigbit SIGSTOP)).

(** [struct sigaction] *)
Record sigaction : Type := mk_sigaction {
  sa_handler : Z;
  sa_mask : Z;
  sa_flags : Z;
  sa_restorer : Z
}.

#[global] Instance upd_sa_handler : Setter sa_handler := fun g r => mk_sigaction (g (sa_handler r)) (sa_mask r) (sa_flags r) (sa_restorer r).
#[global] Instance upd_sa_mask : Setter sa_mask := fun g r => mk_sigaction (sa_handler r) (g (sa_mask r)) (sa_flags r) (sa_restorer r).
#[global] Instance upd_sa_flags : Setter sa_flags := fun g r => mk_sigaction (sa_handler r) (sa_mask r) (g (sa_flags r)) (sa_restorer r).
#[global] Instance upd_sa_restorer : Setter sa_restorer := fun g r => mk_sigaction (sa_handler r) (sa_mask r) (sa_flags r) (g (sa_restorer r)).

(** A segment descriptor: its two 32-bit words. *)
Record desc_struct : Type := mk_desc {
  d_a : Z;
  d_b : Z
}.

#[global] Instance upd_d_a : Setter d_a := fun g r => mk_desc (g (d_a r)) (d_b r).
#[global] Instance upd_d_b : Setter d_b := fun g r => mk_desc (d_a r) (g (d_b r)).

(** [struct tss_struct], less the stack pointers of rings 1 and 2 that the kernel
    never sets; [i387] stands for the saved coprocessor state. *)
Record tss_struct : Type := mk_tss {
  back_link : Z;
  esp0 : Z;
  ss0 : Z;
  cr3 : Z;
  eip : Z;
  eflags : Z;
  eax : Z;
  ecx : Z;
  edx : Z;
  ebx : Z;
  esp : Z;
  ebp : Z;
  esi : Z;
  edi : Z;
  es : Z;
  cs : Z;
  ss : Z;
  ds : Z;
  fs : Z;
  gs : Z;
  ldt_sel : Z;
  trace_bitmap : Z;
  i387 : Z
}.

#[global] Instance upd_back_link : Setter back_link := fun g r => mk_tss (g (back_link r)) (esp0 r) (ss0 r) (cr3 r) (eip r) (eflags r) (eax r) (ecx r) (edx r) (ebx r) (esp r) (ebp r) (esi r) (edi r) (es r) (cs r) (ss r) (ds r) (fs r) (gs r) (ldt_sel r) (trace_bitmap r) (i387 r).
#[global] Instance upd_esp0 : Setter esp0 := fun g r => mk_tss (back_link r) (g (esp0 r)) (ss0 r) (cr3 r) (eip r) (eflags r) (eax r) (ecx r) (edx r) (ebx r) (esp r) (ebp r) (esi r) (edi r) (es r) (cs r) (ss r) (ds r) (fs r) (gs r) (ldt_sel r) (trace_bitmap r) (i387 r).
#[global] Instance upd_ss0 : Setter ss0 := fun g r => mk_tss (back_link r) (esp0 r) (g (ss0 r)) (cr3 r) (eip r) (eflags r) (eax r) (ecx r) (edx r) (ebx r) (esp r) (ebp r) (esi r) (edi r) (es r) (cs r) (ss r) (ds r) (fs r) (gs r) (ldt_sel r) (trace_bitmap r) (i387 r).
#[global] Instance upd_cr3 : Setter cr3 := fun g r => mk_tss (back_link r) (esp0 r) (ss0 r) (g (cr3 r)) (eip r) (eflags r) (eax r) (ecx r) (edx r) (ebx r) (esp r) (ebp r) (esi r) (edi r) (es r) (cs r) (ss r) (ds r) (fs r) (gs r) (ldt_sel r) (trace_bitmap r) (i387 r).
#[global] Instance upd_eip : Setter eip := fun g r => mk_tss (back_link r) (esp0 r) (ss0 r) (cr3 r) (g (eip r)) (eflags r) (eax r) (ecx r) (edx r) (ebx r) (esp r) (ebp r) (esi r) (edi r) (es r) (cs r) (ss r) (ds r) (fs r) (gs r) (ldt_sel r) (trace_bitmap r) (i387 r).
#[global] Instance upd_eflags : Setter eflags := fun g r => mk_tss (back_link r) (esp0 r) (ss0 r) (cr3 r) (eip r) (g (eflags r)) (eax r) (ecx r) (edx r) (ebx r) (esp r) (ebp r) (esi r) (edi r) (es r) (cs r) (ss r) (ds r) (fs r) (gs r) (ldt_sel r) (trace_bitmap r) (i387 r).
#[global] Instance upd_eax : Setter eax := fun g r => mk_tss (back_link r) (esp0 r) (ss0 r) (cr3 r) (eip r) (eflags r) (g (eax r)) (ecx r) (edx r) (ebx r) (esp r) (ebp r) (esi r) (edi r) (es r) (cs r) (ss r) (ds r) (fs r) (gs r) (ldt_sel r) (trace_bitmap r) (i387 r).
#[global] Instance upd_ecx : Setter ecx := fun g r => mk_tss (back_link r) (esp0 r) (ss0 r) (cr3 r) (eip r) (eflags r) (eax r) (g (ecx r)) (edx r) (ebx r) (esp r) (ebp r) (esi r) (edi r) (es r) (cs r) (ss r) (ds r) (fs r) (gs r) (ldt_sel r) (trace_bitmap r) (i387 r).
#[global] Instance upd_edx : Setter edx := fun g r => mk_tss (back_link r) (esp0 r) (ss0 r) (cr3 r) (eip r) (eflags r) (eax r) (ecx r) (g (edx r)) (ebx r) (esp r) (ebp r) (esi r) (edi r) (es r) (cs r) (ss r) (ds r) (fs r) (gs r) (ldt_sel r) (trace_bitmap r) (i387 r).
#[global] Instance upd_ebx : Setter ebx := fun g r => mk_tss (back_link r) (esp0 r) (ss0 r) (cr3 r) (eip r) (eflags r) (eax r) (ecx r) (edx r) (g (ebx r)) (esp r) (ebp r) (esi r) (edi r) (es r) (cs r) (ss r) (ds r) (fs r) (gs r) (ldt_sel r) (trace_bitmap r) (i387 r).
#[global] Instance upd_esp : Setter esp := fun g r => mk_tss (back_link r) (esp0 r) (ss0 r) (cr3 r) (eip r) (eflags r) (eax r) (ecx r) (edx r) (ebx r) (g (esp r)) (ebp r) (esi r) (edi r) (es r) (cs r) (ss r) (ds r) (fs r) (gs r) (ldt_sel r) (trace_bitmap r) (i387 r).
#[global] Instance upd_ebp : Setter ebp := fun g r => mk_tss (back_link r) (esp0 r) (ss0 r) (cr3 r) (eip r) (eflags r) (eax r) (ecx r) (edx r) (ebx r) (esp r) (g (ebp r)) (esi r) (edi r) (es r) (cs r) (ss r) (ds r) (fs r) (gs r) (ldt_sel r) (trace_bitmap r) (i387 r).
#[global] Instance upd_esi : Setter esi := fun g r => mk_tss (back_link r) (esp0 r) (ss0 r) (cr3 r) (eip r) (eflags r) (eax r) (ecx r) (edx r) (ebx r) (esp r) (ebp r) (g (esi r)) (edi r) (es r) (cs r) (ss r) (ds r) (fs r) (gs r) (ldt_sel r) (trace_bitmap r) (i387 r).
#[global] Instance upd_edi : Setter edi := fun g r => mk_tss (back_link r) (esp0 r) (ss0 r) (cr3 r) (eip r) (eflags r) (eax r) (ecx r) (edx r) (ebx r) (esp r) (ebp r) (esi r) (g (edi r)) (es r) (cs r) (ss r) (ds r) (fs r) (gs r) (ldt_sel r) (trace_bitmap r) (i387 r).
#[global] Instance upd_es : Setter es := fun g r => mk_tss (back_link r) (esp0 r) (ss0 r) (cr3 r) (eip r) (eflags r) (eax r) (ecx r) (edx r) (ebx r) (esp r) (ebp r) (esi r) (edi r) (g (es r)) (cs r) (ss r) (ds r) (fs r) (gs r) (ldt_sel r) (trace_bitmap r) (i387 r).
#[global] Instance upd_cs : Setter cs := fun g r => mk_tss (back_link r) (esp0 r) (ss0 r) (cr3 r) (eip r) (eflags r) (eax r) (ecx r) (edx r) (ebx r) (esp r) (ebp r) (esi r) (edi r) (es r) (g (cs r)) (ss r) (ds r) (fs r) (gs r) (ldt_sel r) (trace_bitmap r) (i387 r).
#[global] Instance upd_ss : Setter ss := fun g r => mk_tss (back_link r) (esp0 r) (ss0 r) (cr3 r) (eip r) (eflags r) (eax r) (ecx r) (edx r) (ebx r) (esp r) (ebp r) (esi r) (edi r) (es r) (cs r) (g (ss r)) (ds r) (fs r) (gs r) (ldt_sel r) (trace_bitmap r) (i387 r).
#[global] Instance upd_ds : Setter ds := fun g r => mk_tss (back_link r) (esp0 r) (ss0 r) (cr3 r) (eip r) (eflags r) (eax r) (ecx r) (edx r) (ebx r) (esp r) (ebp r) (esi r) (edi r) (es r) (cs r) (ss r) (g (ds r)) (fs r) (gs r) (ldt_sel r) (trace_bitmap r) (i387 r).
#[global] Instance upd_fs : Setter fs := fun g r => mk_tss (back_link r) (esp0 r) (ss0 r) (cr3 r) (eip r) (eflags r) (eax r) (ecx r) (edx r) (ebx r) (esp r) (ebp r) (esi r) (edi r) (es r) (cs r) (ss r) (ds r) (g (fs r)) (gs r) (ldt_sel r) (trace_bitmap r) (i387 r).
#[global] Instance upd_gs : Setter gs := fun g r => mk_tss (back_link r) (esp0 r) (ss0 r) (cr3 r) (eip r) (eflags r) (eax r) (ecx r) (edx r) (ebx r) (esp r) (ebp r) (esi r) (edi r) (es r) (cs r) (ss r) (ds r) (fs r) (g (gs r)) (ldt_sel r) (trace_bitmap r) (i387 r).
#[global] Instance upd_ldt_sel : Setter ldt_sel := fun g r => mk_tss (back_link r) (esp0 r) (ss0 r) (cr3 r) (eip r) (eflags r) (eax r) (ecx r) (edx r) (ebx r) (esp r) (ebp r) (esi r) (edi r) (es r) (cs r) (ss r) (ds r) (fs r) (gs r) (g (ldt_sel r)) (trace_bitmap r) (i387 r).
#[global] Instance upd_trace_bitmap : Setter trace_bitmap := fun g r => mk_tss (back_link r) (esp0 r) (ss0 r) (cr3 r) (eip r) (eflags r) (eax r) (ecx r) (edx r) (ebx r) (esp r) (ebp r) (esi r) (edi r) (es r) (cs r) (ss r) (ds r) (fs r) (gs r) (ldt_sel r) (g (trace_bitmap r)) (i387 r).
#[global] Instance upd_i387 : Setter i387 := fun g r => mk_tss (back_link r) (esp0 r) (ss0 r) (cr3 r) (eip r) (eflags r) (eax r) (ecx r) (edx r) (ebx r) (esp r) (ebp r) (esi r) (edi r) (es r) (cs r) (ss r) (ds r) (fs r) (gs r) (ldt_sel r) (trace_bitmap r) (g (i387 r)).

(** [struct task_struct], and the address of the page that holds it. *)
Record task_struct : Type := mk_task {
  page_addr : Z;
  t_state : Z;
  counter : Z;
  priority : Z;
  signal : Z;
  sigactions : list sigaction;
  blocked : Z;
  exit_code : Z;
  start_code : Z;
  end_code : Z;
  end_data : Z;
  brk : Z;
  start_stack : Z;
  pid : Z;
  father : Z;
  pgrp : Z;
  session : Z;
  leader : Z;
  uid : Z;
  euid : Z;
  suid : Z;
  gid : Z;
  egid : Z;
  sgid : Z;
  alarm : Z;
  utime : Z;
  stime : Z;
  cutime : Z;
  cstime : Z;
  start_time : Z;
  used_math : Z;
  tty : Z;
  umask : Z;
  pwd : option Z;
  root : option Z;
  executable : option Z;
  close_on_exec : Z;
  filp : list (option Z);
  ldt : list desc_struct;
  tss : tss_struct
}.

#[global] Instance upd_page_addr : Setter page_addr := fun g r => mk_task (g (page_addr r)) (t_state r) (counter r) (priority r) (signal r) (sigactions r) (blocked r) (exit_code r) (start_code r) (end_code r) (end_data r) (brk r) (start_stack r) (pid r) (father r) (pgrp r) (session r) (leader r) (uid r) (euid r) (suid r) (gid r) (egid r) (sgid r) (alarm r) (utime r) (stime r) (cutime r) (cstime r) (start_time r) (used_math r) (tty r) (umask r) (pwd r) (root r) (executable r) (close_on_exec r) (filp r) (ldt r) (tss r).
#[global] Instance upd_t_state : Setter t_state := fun g r => mk_task (page_addr r) (g (t_state r)) (counter r) (priority r) (signal r) (sigactions r) (blocked r) (exit_code r) (start_code r) (end_code r) (end_data r) (brk r) (start_stack r) (pid r) (father r) (pgrp r) (session r) (leader r) (uid r) (euid r) (suid r) (gid r) (egid r) (sgid r) (alarm r) (utime r) (stime r) (cutime r) (cstime r) (start_time r) (used_math r) (tty r) (umask r) (pwd r) (root r) (executable r) (close_on_exec r) (filp r) (ldt r) (tss r).
#[global] Instance upd_counter : Setter counter := fun g r => mk_task (page_addr r) (t_state r) (g (counter r)) (priority r) (signal r) (sigactions r) (blocked r) (exit_code r) (start_code r) (end_code r) (end_data r) (brk r) (start_stack r) (pid r) (father r) (pgrp r) (session r) (leader r) (uid r) (euid r) (suid r) (gid r) (egid r) (sgid r) (alarm r) (utime r) (stime r) (cutime r) (cstime r) (start_time r) (used_math r) (tty r) (umask r) (pwd r) (root r) (executable r) (close_on_exec r) (filp r) (ldt r) (tss r).
#[global] Instance upd_priority : Setter priority := fun g r => mk_task (page_addr r) (t_state r) (counter r) (g (priority r)) (signal r) (sigactions r) (blocked r) (exit_code r) (start_code r) (end_code r) (end_data r) (brk r) (start_stack r) (pid r) (father r) (pgrp r) (session r) (leader r) (uid r) (euid r) (suid r) (gid r) (egid r) (sgid r) (alarm r) (utime r) (stime r) (cutime r) (cstime r) (start_time r) (used_math r) (tty r) (umask r) (pwd r) (root r) (executable r) (close_on_exec r) (filp r) (ldt r) (tss r).
#[global] Instance upd_signal : Setter signal := fun g r => mk_task (page_addr r) (t_state r) (counter r) (priority r) (g (signal r)) (sigactions r) (blocked r) (exit_code r) (start_code r) (end_code r) (end_data r) (brk r) (start_stack r) (pid r) (father r) (pgrp r) (session r) (leader r) (uid r) (euid r) (suid r) (gid r) (egid r) (sgid r) (alarm r) (utime r) (stime r) (cutime r) (cstime r) (start_time r) (used_math r) (tty r) (umask r) (pwd r) (root r) (executable r) (close_on_exec r) (filp r) (ldt r) (tss r).
#[global] Instance upd_sigactions : Setter sigactions := fun g r => mk_task (page_addr r) (t_state r) (counter r) (priority r) (signal r) (g (sigactions r)) (blocked r) (exit_code r) (start_code r) (end_code r) (end_data r) (brk r) (start_stack r) (pid r) (father r) (pgrp r) (session r) (leader r) (uid r) (euid r) (suid r) (gid r) (egid r) (sgid r) (alarm r) (utime r) (stime r) (cutime r) (cstime r) (start_time r) (used_math r) (tty r) (umask r) (pwd r) (root r) (executable r) (close_on_exec r) (filp r) (ldt r) (tss r).
#[global] Instance upd_blocked : Setter blocked := fun g r => mk_task (page_addr r) (t_state r) (counter r) (priority r) (signal r) (sigactions r) (g (blocked r)) (exit_code r) (start_code r) (end_code r) (end_data r) (brk r) (start_stack r) (pid r) (father r) (pgrp r) (session r) (leader r) (uid r) (euid r) (suid r) (gid r) (egid r) (sgid r) (alarm r) (utime r) (stime r) (cutime r) (cstime r) (start_time r) (used_math r) (tty r) (umask r) (pwd r) (root r) (executable r) (close_on_exec r) (filp r) (ldt r) (tss r).
#[global] Instance upd_exit_code : Setter exit_code := fun g r => mk_task (page_addr r) (t_state r) (counter r) (priority r) (signal r) (sigactions r) (blocked r) (g (exit_code r)) (start_code r) (end_code r) (end_data r) (brk r) (start_stack r) (pid r) (father r) (pgrp r) (session r) (leader r) (uid r) (euid r) (suid r) (gid r) (egid r) (sgid r) (alarm r) (utime r) (stime r) (cutime r) (cstime r) (start_time r) (used_math r) (tty r) (umask r) (pwd r) (root r) (executable r) (close_on_exec r) (filp r) (ldt r) (tss r).
#[global] Instance upd_start_code : Setter start_code := fun g r => mk_task (page_addr r) (t_state r) (counter r) (priority r) (signal r) (sigactions r) (blocked r) (exit_code r) (g (start_code r)) (end_code r) (end_data r) (brk r) (start_stack r) (pid r) (father r) (pgrp r) (session r) (leader r) (uid r) (euid r) (suid r) (gid r) (egid r) (sgid r) (alarm r) (utime r) (stime r) (cutime r) (cstime r) (start_time r) (used_math r) (tty r) (umask r) (pwd r) (root r) (executable r) (close_on_exec r) (filp r) (ldt r) (tss r).
#[global] Instance upd_end_code : Setter end_code := fun g r => mk_task (page_addr r) (t_state r) (counter r) (priority r) (signal r) (sigactions r) (blocked r) (exit_code r) (start_code r) (g (end_code r)) (end_data r) (brk r) (start_stack r) (pid r) (father r) (pgrp r) (session r) (leader r) (uid r) (euid r) (suid r) (gid r) (egid r) (sgid r) (alarm r) (utime r) (stime r) (cutime r) (cstime r) (start_time r) (used_math r) (tty r) (umask r) (pwd r) (root r) (executable r) (close_on_exec r) (filp r) (ldt r) (tss r).
#[global] Instance upd_end_data : Setter end_data := fun g r => mk_task (page_addr r) (t_state r) (counter r) (priority r) (signal r) (sigactions r) (blocked r) (exit_code r) (start_code r) (end_code r) (g (end_data r)) (brk r) (start_stack r) (pid r) (father r) (pgrp r) (session r) (leader r) (uid r) (euid r) (suid r) (gid r) (egid r) (sgid r) (alarm r) (utime r) (stime r) (cutime r) (cstime r) (start_time r) (used_math r) (tty r) (umask r) (pwd r) (root r) (executable r) (close_on_exec r) (filp r) (ldt r) (tss r).
#[global] Instance upd_brk : Setter brk := fun g r => mk_task (page_addr r) (t_state r) (counter r) (priority r) (signal r) (sigactions r) (blocked r) (exit_code r) (start_code r) (end_code r) (end_data r) (g (brk r)) (start_stack r) (pid r) (father r) (pgrp r) (session r) (leader r) (uid r) (euid r) (suid r) (gid r) (egid r) (sgid r) (alarm r) (utime r) (stime r) (cutime r) (cstime r) (start_time r) (used_math r) (tty r) (umask r) (pwd r) (root r) (executable r) (close_on_exec r) (filp r) (ldt r) (tss r).
#[global] Instance upd_start_stack : Setter start_stack := fun g r => mk_task (page_addr r) (t_state r) (counter r) (priority r) (signal r) (sigactions r) (blocked r) (exit_code r) (start_code r) (end_code r) (end_data r) (brk r) (g (start_stack r)) (pid r) (father r) (pgrp r) (session r) (leader r) (uid r) (euid r) (suid r) (gid r) (egid r) (sgid r) (alarm r) (utime r) (stime r) (cutime r) (cstime r) (start_time r) (used_math r) (tty r) (umask r) (pwd r) (root r) (executable r) (close_on_exec r) (filp r) (ldt r) (tss r).
#[global] Instance upd_pid : Setter pid := fun g r => mk_task (page_addr r) (t_state r) (counter r) (priority r) (signal r) (sigactions r) (blocked r) (exit_code r) (start_code r) (end_code r) (end_data r) (brk r) (start_stack r) (g (pid r)) (father r) (pgrp r) (session r) (leader r) (uid r) (euid r) (suid r) (gid r) (egid r) (sgid r) (alarm r) (utime r) (stime r) (cutime r) (cstime r) (start_time r) (used_math r) (tty r) (umask r) (pwd r) (root r) (executable r) (close_on_exec r) (filp r) (ldt r) (tss r).
#[global] Instance upd_father : Setter father := fun g r => mk_task (page_addr r) (t_state r) (counter r) (priority r) (signal r) (sigactions r) (blocked r) (exit_code r) (start_code r) (end_code r) (end_data r) (brk r) (start_stack r) (pid r) (g (father r)) (pgrp r) (session r) (leader r) (uid r) (euid r) (suid r) (gid r) (egid r) (sgid r) (alarm r) (utime r) (stime r) (cutime r) (cstime r) (start_time r) (used_math r) (tty r) (umask r) (pwd r) (root r) (executable r) (close_on_exec r) (filp r) (ldt r) (tss r).
#[global] Instance upd_pgrp : Setter pgrp := fun g r => mk_task (page_addr r) (t_state r) (counter r) (priority r) (signal r) (sigactions r) (blocked r) (exit_code r) (start_code r) (end_code r) (end_data r) (brk r) (start_stack r) (pid r) (father r) (g (pgrp r)) (session r) (leader r) (uid r) (euid r) (suid r) (gid r) (egid r) (sgid r) (alarm r) (utime r) (stime r) (cutime r) (cstime r) (start_time r) (used_math r) (tty r) (umask r) (pwd r) (root r) (executable r) (close_on_exec r) (filp r) (ldt r) (tss r).
#[global] Instance upd_session : Setter session := fun g r => mk_task (page_addr r) (t_state r) (counter r) (priority r) (signal r) (sigactions r) (blocked r) (exit_code r) (start_code r) (end_code r) (end_data r) (brk r) (start_stack r) (pid r) (father r) (pgrp r) (g (session r)) (leader r) (uid r) (euid r) (suid r) (gid r) (egid r) (sgid r) (alarm r) (utime r) (stime r) (cutime r) (cstime r) (start_time r) (used_math r) (tty r) (umask r) (pwd r) (root r) (executable r) (close_on_exec r) (filp r) (ldt r) (tss r).
#[global] Instance upd_leader : Setter leader := fun g r => mk_task (page_addr r) (t_state r) (counter r) (priority r) (signal r) (sigactions r) (blocked r) (exit_code r) (start_code r) (end_code r) (end_data r) (brk r) (start_stack r) (pid r) (father r) (pgrp r) (session r) (g (leader r)) (uid r) (euid r) (suid r) (gid r) (egid r) (sgid r) (alarm r) (utime r) (stime r) (cutime r) (cstime r) (start_time r) (used_math r) (tty r) (umask r) (pwd r) (root r) (executable r) (close_on_exec r) (filp r) (ldt r) (tss r).
#[global] Instance upd_uid : Setter uid := fun g r => mk_task (page_addr r) (t_state r) (counter r) (priority r) (signal r) (sigactions r) (blocked r) (exit_code r) (start_code r) (end_code r) (end_data r) (brk r) (start_stack r) (pid r) (father r) (pgrp r) (session r) (leader r) (g (uid r)) (euid r) (suid r) (gid r) (egid r) (sgid r) (alarm r) (utime r) (stime r) (cutime r) (cstime r) (start_time r) (used_math r) (tty r) (umask r) (pwd r) (root r) (executable r) (close_on_exec r) (filp r) (ldt r) (tss r).
#[global] Instance upd_euid : Setter euid := fun g r => mk_task (page_addr r) (t_state r) (counter r) (priority r) (signal r) (sigactions r) (blocked r) (exit_code r) (start_code r) (end_code r) (end_data r) (brk r) (start_stack r) (pid r) (father r) (pgrp r) (session r) (leader r) (uid r) (g (euid r)) (suid r) (gid r) (egid r) (sgid r) (alarm r) (utime r) (stime r) (cutime r) (cstime r) (start_time r) (used_math r) (tty r) (umask r) (pwd r) (root r) (executable r) (close_on_exec r) (filp r) (ldt r) (tss r).
#[global] Instance upd_suid : Setter suid := fun g r => mk_task (page_addr r) (t_state r) (counter r) (priority r) (signal r) (sigactions r) (blocked r) (exit_code r) (start_code r) (end_code r) (end_data r) (brk r) (start_stack r) (pid r) (father r) (pgrp r) (session r) (leader r) (uid r) (euid r) (g (suid r)) (gid r) (egid r) (sgid r) (alarm r) (utime r) (stime r) (cutime r) (cstime r) (start_time r) (used_math r) (tty r) (umask r) (pwd r) (root r) (executable r) (close_on_exec r) (filp r) (ldt r) (tss r).
#[global] Instance upd_gid : Setter gid := fun g r => mk_task (page_addr r) (t_state r) (counter r) (priority r) (signal r) (sigactions r) (blocked r) (exit_code r) (start_code r) (end_code r) (end_data r) (brk r) (start_stack r) (pid r) (father r) (pgrp r) (session r) (leader r) (uid r) (euid r) (suid r) (g (gid r)) (egid r) (sgid r) (alarm r) (utime r) (stime r) (cutime r) (cstime r) (start_time r) (used_math r) (tty r) (umask r) (pwd r) (root r) (executable r) (close_on_exec r) (filp r) (ldt r) (tss r).
#[global] Instance upd_egid : Setter egid := fun g r => mk_task (page_addr r) (t_state r) (counter r) (priority r) (signal r) (sigactions r) (blocked r) (exit_code r) (start_code r) (end_code r) (end_data r) (brk r) (start_stack r) (pid r) (father r) (pgrp r) (session r) (leader r) (uid r) (euid r) (suid r) (gid r) (g (egid r)) (sgid r) (alarm r) (utime r) (stime r) (cutime r) (cstime r) (start_time r) (used_math r) (tty r) (umask r) (pwd r) (root r) (executable r) (close_on_exec r) (filp r) (ldt r) (tss r).
#[global] Instance upd_sgid : Setter sgid := fun g r => mk_task (page_addr r) (t_state r) (counter r) (priority r) (signal r) (sigactions r) (blocked r) (exit_code r) (start_code r) (end_code r) (end_data r) (brk r) (start_stack r) (pid r) (father r) (pgrp r) (session r) (leader r) (uid r) (euid r) (suid r) (gid r) (egid r) (g (sgid r)) (alarm r) (utime r) (stime r) (cutime r) (cstime r) (start_time r) (used_math r) (tty r) (umask r) (pwd r) (root r) (executable r) (close_on_exec r) (filp r) (ldt r) (tss r).
#[global] Instance upd_alarm : Setter alarm := fun g r => mk_task (page_addr r) (t_state r) (counter r) (priority r) (signal r) (sigactions r) (blocked r) (exit_code r) (start_code r) (end_code r) (end_data r) (brk r) (start_stack r) (pid r) (father r) (pgrp r) (session r) (leader r) (uid r) (euid r) (suid r) (gid r) (egid r) (sgid r) (g (alarm r)) (utime r) (stime r) (cutime r) (cstime r) (start_time r) (used_math r) (tty r) (umask r) (pwd r) (root r) (executable r) (close_on_exec r) (filp r) (ldt r) (tss r).
#[global] Instance upd_utime : Setter utime := fun g r => mk_task (page_addr r) (t_state r) (counter r) (priority r) (signal r) (sigactions r) (blocked r) (exit_code r) (start_code r) (end_code r) (end_data r) (brk r) (start_stack r) (pid r) (father r) (pgrp r) (session r) (leader r) (uid r) (euid r) (suid r) (gid r) (egid r) (sgid r) (alarm r) (g (utime r)) (stime r) (cutime r) (cstime r) (start_time r) (used_math r) (tty r) (umask r) (pwd r) (root r) (executable r) (close_on_exec r) (filp r) (ldt r) (tss r).
#[global] Instance upd_stime : Setter stime := fun g r => mk_task (page_addr r) (t_state r) (counter r) (priority r) (signal r) (sigactions r) (blocked r) (exit_code r) (start_code r) (end_code r) (end_data r) (brk r) (start_stack r) (pid r) (father r) (pgrp r) (session r) (leader r) (uid r) (euid r) (suid r) (gid r) (egid r) (sgid r) (alarm r) (utime r) (g (stime r)) (cutime r) (cstime r) (start_time r) (used_math r) (tty r) (umask r) (pwd r) (root r) (executable r) (close_on_exec r) (filp r) (ldt r) (tss r).
#[global] Instance upd_cutime : Setter cutime := fun g r => mk_task (page_addr r) (t_state r) (counter r) (priority r) (signal r) (sigactions r) (blocked r) (exit_code r) (start_code r) (end_code r) (end_data r) (brk r) (start_stack r) (pid r) (father r) (pgrp r) (session r) (leader r) (uid r) (euid r) (suid r) (gid r) (egid r) (sgid r) (alarm r) (utime r) (stime r) (g (cutime r)) (cstime r) (start_time r) (used_math r) (tty r) (umask r) (pwd r) (root r) (executable r) (close_on_exec r) (filp r) (ldt r) (tss r).
#[global] Instance upd_cstime : Setter cstime := fun g r => mk_task (page_addr r) (t_state r) (counter r) (priority r) (signal r) (sigactions r) (blocked r) (exit_code r) (start_code r) (end_code r) (end_data r) (brk r) (start_stack r) (pid r) (father r) (pgrp r) (session r) (leader r) (uid r) (euid r) (suid r) (gid r) (egid r) (sgid r) (alarm r) (utime r) (stime r) (cutime r) (g (cstime r)) (start_time r) (used_math r) (tty r) (umask r) (pwd r) (root r) (executable r) (close_on_exec r) (filp r) (ldt r) (tss r).
#[global] Instance upd_start_time : Setter start_time := fun g r => mk_task (page_addr r) (t_state r) (counter r) (priority r) (signal r) (sigactions r) (blocked r) (exit_code r) (start_code r) (end_code r) (end_data r) (brk r) (start_stack r) (pid r) (father r) (pgrp r) (session r) (leader r) (uid r) (euid r) (suid r) (gid r) (egid r) (sgid r) (alarm r) (utime r) (stime r) (cutime r) (cstime r) (g (start_time r)) (used_math r) (tty r) (umask r) (pwd r) (root r) (executable r) (close_on_exec r) (filp r) (ldt r) (tss r).
#[global] Instance upd_used_math : Setter used_math := fun g r => mk_task (page_addr r) (t_state r) (counter r) (priority r) (signal r) (sigactions r) (blocked r) (exit_code r) (start_code r) (end_code r) (end_data r) (brk r) (start_stack r) (pid r) (father r) (pgrp r) (session r) (leader r) (uid r) (euid r) (suid r) (gid r) (egid r) (sgid r) (alarm r) (utime r) (stime r) (cutime r) (cstime r) (start_time r) (g (used_math r)) (tty r) (umask r) (pwd r) (root r) (executable r) (close_on_exec r) (filp r) (ldt r) (tss r).
#[global] Instance upd_tty : Setter tty := fun g r => mk_task (page_addr r) (t_state r) (counter r) (priority r) (signal r) (sigactions r) (blocked r) (exit_code r) (start_code r) (end_code r) (end_data r) (brk r) (start_stack r) (pid r) (father r) (pgrp r) (session r) (leader r) (uid r) (euid r) (suid r) (gid r) (egid r) (sgid r) (alarm r) (utime r) (stime r) (cutime r) (cstime r) (start_time r) (used_math r) (g (tty r)) (umask r) (pwd r) (root r) (executable r) (close_on_exec r) (filp r) (ldt r) (tss r).
#[global] Instance upd_umask : Setter umask := fun g r => mk_task (page_addr r) (t_state r) (counter r) (priority r) (signal r) (sigactions r) (blocked r) (exit_code r) (start_code r) (end_code r) (end_data r) (brk r) (start_stack r) (pid r) (father r) (pgrp r) (session r) (leader r) (uid r) (euid r) (suid r) (gid r) (egid r) (sgid r) (alarm r) (utime r) (stime r) (cutime r) (cstime r) (start_time r) (used_math r) (tty r) (g (umask r)) (pwd r) (root r) (executable r) (close_on_exec r) (filp r) (ldt r) (tss r).
#[global] Instance upd_pwd : Setter pwd := fun g r => mk_task (page_addr r) (t_state r) (counter r) (priority r) (signal r) (sigactions r) (blocked r) (exit_code r) (start_code r) (end_code r) (end_data r) (brk r) (start_stack r) (pid r) (father r) (pgrp r) (session r) (leader r) (uid r) (euid r) (suid r) (gid r) (egid r) (sgid r) (alarm r) (utime r) (stime r) (cutime r) (cstime r) (start_time r) (used_math r) (tty r) (umask r) (g (pwd r)) (root r) (executable r) (close_on_exec r) (filp r) (ldt r) (tss r).
#[global] Instance upd_root : Setter root := fun g r => mk_task (page_addr r) (t_state r) (counter r) (priority r) (signal r) (sigactions r) (blocked r) (exit_code r) (start_code r) (end_code r) (end_data r) (brk r) (start_stack r) (pid r) (father r) (pgrp r) (session r) (leader r) (uid r) (euid r) (suid r) (gid r) (egid r) (sgid r) (alarm r) (utime r) (stime r) (cutime r) (cstime r) (start_time r) (used_math r) (tty r) (umask r) (pwd r) (g (root r)) (executable r) (close_on_exec r) (filp r) (ldt r) (tss r).
#[global] Instance upd_executable : Setter executable := fun g r => mk_task (page_addr r) (t_state r) (counter r) (priority r) (signal r) (sigactions r) (blocked r) (exit_code r) (start_code r) (end_code r) (end_data r) (brk r) (start_stack r) (pid r) (father r) (pgrp r) (session r) (leader r) (uid r) (euid r) (suid r) (gid r) (egid r) (sgid r) (alarm r) (utime r) (stime r) (cutime r) (cstime r) (start_time r) (used_math r) (tty r) (umask r) (pwd r) (root r) (g (executable r)) (close_on_exec r) (filp r) (ldt r) (tss r).
#[global] Instance upd_close_on_exec : Setter close_on_exec := fun g r => mk_task (page_addr r) (t_state r) (counter r) (priority r) (signal r) (sigactions r) (blocked r) (exit_code r) (start_code r) (end_code r) (end_data r) (brk r) (start_stack r) (pid r) (father r) (pgrp r) (session r) (leader r) (uid r) (euid r) (suid r) (gid r) (egid r) (sgid r) (alarm r) (utime r) (stime r) (cutime r) (cstime r) (start_time r) (used_math r) (tty r) (umask r) (pwd r) (root r) (executable r) (g (close_on_exec r)) (filp r) (ldt r) (tss r).
#[global] Instance upd_filp : Setter filp := fun g r => mk_task (page_addr r) (t_state r) (counter r) (priority r) (signal r) (sigactions r) (blocked r) (exit_code r) (start_code r) (end_code r) (end_data r) (brk r) (start_stack r) (pid r) (father r) (pgrp r) (session r) (leader r) (uid r) (euid r) (suid r) (gid r) (egid r) (sgid r) (alarm r) (utime r) (stime r) (cutime r) (cstime r) (start_time r) (used_math r) (tty r) (umask r) (pwd r) (root r) (executable r) (close_on_exec r) (g (filp r)) (ldt r) (tss r).
#[global] Instance upd_ldt : Setter ldt := fun g r => mk_task (page_addr r) (t_state r) (counter r) (priority r) (signal r) (sigactions r) (blocked r) (exit_code r) (start_code r) (end_code r) (end_data r) (brk r) (start_stack r) (pid r) (father r) (pgrp r) (session r) (leader r) (uid r) (euid r) (suid r) (gid r) (egid r) (sgid r) (alarm r) (utime r) (stime r) (cutime r) (cstime r) (start_time r) (used_math r) (tty r) (umask r) (pwd r) (root r) (executable r) (close_on_exec r) (filp r) (g (ldt r)) (tss r).
#[global] Instance upd_tss : Setter tss := fun g r => mk_task (page_addr r) (t_state r) (counter r) (priority r) (signal r) (sigactions r) (blocked r) (exit_code r) (start_code r) (end_code r) (end_data r) (brk r) (start_stack r) (pid r) (father r) (pgrp r) (session r) (leader r) (uid r) (euid r) (suid r) (gid r) (egid r) (sgid r) (alarm r) (utime r) (stime r) (cutime r) (cstime r) (start_time r) (used_math r) (tty r) (umask r) (pwd r) (root r) (executable r) (close_on_exec r) (filp r) (ldt r) (g (tss r)).

(** [struct tty_queue]; [proc_list] is the address of its wait queue pointer. *)
Record tty_queue : Type := mk_queue {
  data : Z;
  head : Z;
  tail : Z;
  proc_list : Z;
  buf : list Z
}.

#[global] Instance upd_data : Setter data := fun g r => mk_queue (g (data r)) (head r) (tail r) (proc_list r) (buf r).
#[global] Instance upd_head : Setter head := fun g r => mk_queue (data r) (g (head r)) (tail r) (proc_list r) (buf r).
#[global] Instance upd_tail : Setter tail := fun g r => mk_queue (data r) (head r) (g (tail r)) (proc_list r) (buf r).
#[global] Instance upd_proc_list : Setter proc_list := fun g r => mk_queue (data r) (head r) (tail r) (g (proc_list r)) (buf r).
#[global] Instance upd_buf : Setter buf := fun g r => mk_queue (data r) (head r) (tail r) (proc_list r) (g (buf r)).

Record termios : Type := mk_termios {
  c_iflag : Z;
  c_oflag : Z;
  c_cflag : Z;
  c_lflag : Z;
  c_line : Z;
  c_cc : list Z
}.

#[global] Instance upd_c_iflag : Setter c_iflag := fun g r => mk_termios (g (c_iflag r)) (c_oflag r) (c_cflag r) (c_lflag r) (c_line r) (c_cc r).
#[global] Instance upd_c_oflag : Setter c_oflag := fun g r => mk_termios (c_iflag r) (g (c_oflag r)) (c_cflag r) (c_lflag r) (c_line r) (c_cc r).
#[global] Instance upd_c_cflag : Setter c_cflag := fun g r => mk_termios (c_iflag r) (c_oflag r) (g (c_cflag r)) (c_lflag r) (c_line r) (c_cc r).
#[global] Instance upd_c_lflag : Setter c_lflag := fun g r => mk_termios (c_iflag r) (c_oflag r) (c_cflag r) (g (c_lflag r)) (c_line r) (c_cc r).
#[global] Instance upd_c_line : Setter c_line := fun g r => mk_termios (c_iflag r) (c_oflag r) (c_cflag r) (c_lflag r) (g (c_line r)) (c_cc r).
#[global] Instance upd_c_cc : Setter c_cc := fun g r => mk_termios (c_iflag r) (c_oflag r) (c_cflag r) (c_lflag r) (c_line r) (g (c_cc r)).

(** The [write] function of a terminal. *)
Inductive tty_driver : Type := con_write_fn | rs_write_fn.
#[export] Instance tty_driver_eq_dec : EqDecision tty_driver.
Proof. solve_decision. Defined.

Record tty_struct : Type := mk_tty {
  tios : termios;
  tty_pgrp : Z;
  stopped : Z;
  tty_drv : tty_driver;
  read_q : tty_queue;
  write_q : tty_queue;
  secondary : tty_queue
}.

#[global] Instance upd_tios : Setter tios := fun g r => mk_tty (g (tios r)) (tty_pgrp r) (stopped r) (tty_drv r) (read_q r) (write_q r) (secondary r).
#[global] Instance upd_tty_pgrp : Setter tty_pgrp := fun g r => mk_tty (tios r) (g (tty_pgrp r)) (stopped r) (tty_drv r) (read_q r) (write_q r) (secondary r).
#[global] Instance upd_stopped : Setter stopped := fun g r => mk_tty (tios r) (tty_pgrp r) (g (stopped r)) (tty_drv r) (read_q r) (write_q r) (secondary r).
#[global] Instance upd_tty_drv : Setter tty_drv := fun g r => mk_tty (tios r) (tty_pgrp r) (stopped r) (g (tty_drv r)) (read_q r) (write_q r) (secondary r).
#[global] Instance upd_read_q : Setter read_q := fun g r => mk_tty (tios r) (tty_pgrp r) (stopped r) (tty_drv r) (g (read_q r)) (write_q r) (secondary r).
#[global] Instance upd_write_q : Setter write_q := fun g r => mk_tty (tios r) (tty_pgrp r) (stopped r) (tty_drv r) (read_q r) (g (write_q r)) (secondary r).
#[global] Instance upd_secondary : Setter secondary := fun g r => mk_tty (tios r) (tty_pgrp r) (stopped r) (tty_drv r) (read_q r) (write_q r) (g (secondary r)).

(** [struct timer_list]: [t_fn] names the function, [None] is a free entry. *)
Record timer : Type := mk_timer {
  t_jiffies : Z;
  t_fn : option Z;
  t_next : option nat
}.

#[global] Instance upd_t_jiffies : Setter t_jiffies := fun g r => mk_timer (g (t_jiffies r)) (t_fn r) (t_next r).
#[global] Instance upd_t_fn : Setter t_fn := fun g r => mk_timer (t_jiffies r) (g (t_fn r)) (t_next r).
#[global] Instance upd_t_next : Setter t_next := fun g r => mk_timer (t_jiffies r) (t_fn r) (g (t_next r)).

(** The kernel variables of [kernel/] and [kernel/chr_drv/].  [wchan] holds the
    wait queue pointers ([struct task_struct *]) by the address of the variable,
    absent for null; [umem] is the memory of the current process, by its address
    in the user data segment. *)
Record kernel : Type := mk_kernel {
  task : list (option task_struct);
  current : nat;
  jiffies : Z;
  startup_time : Z;
  last_pid : Z;
  last_task_used_math : option nat;
  wchan : gmap Z nat;
  timer_list : list timer;
  next_timer : option nat;
  mon_timer : list Z;
  moff_timer : list Z;
  current_DOR : Z;
  selected : Z;
  tty_table : list tty_struct;
  cr_flag : Z;
  con : Console.console;
  umem : gmap Z Z;
  gdt : gmap Z desc_struct
}.

#[global] Instance upd_task : Setter task := fun g r => mk_kernel (g (task r)) (current r) (jiffies r) (startup_time r) (last_pid r) (last_task_used_math r) (wchan r) (timer_list r) (next_timer r) (mon_timer r) (moff_timer r) (current_DOR r) (selected r) (tty_table r) (cr_flag r) (con r) (umem r) (gdt r).
#[global] Instance upd_current : Setter current := fun g r => mk_kernel (task r) (g (current r)) (jiffies r) (startup_time r) (last_pid r) (last_task_used_math r) (wchan r) (timer_list r) (next_timer r) (mon_timer r) (moff_timer r) (current_DOR r) (selected r) (tty_table r) (cr_flag r) (con r) (umem r) (gdt r).
#[global] Instance upd_jiffies : Setter jiffies := fun g r => mk_kernel (task r) (current r) (g (jiffies r)) (startup_time r) (last_pid r) (last_task_used_math r) (wchan r) (timer_list r) (next_timer r) (mon_timer r) (moff_timer r) (current_DOR r) (selected r) (tty_table r) (cr_flag r) (con r) (umem r) (gdt r).
#[global] Instance upd_startup_time : Setter startup_time := fun g r => mk_kernel (task r) (current r) (jiffies r) (g (startup_time r)) (last_pid r) (last_task_used_math r) (wchan r) (timer_list r) (next_timer r) (mon_timer r) (moff_timer r) (current_DOR r) (selected r) (tty_table r) (cr_flag r) (con r) (umem r) (gdt r).
#[global] Instance upd_last_pid : Setter last_pid := fun g r => mk_kernel (task r) (current r) (jiffies r) (startup_time r) (g (last_pid r)) (last_task_used_math r) (wchan r) (timer_list r) (next_timer r) (mon_timer r) (moff_timer r) (current_DOR r) (selected r) (tty_table r) (cr_flag r) (con r) (umem r) (gdt r).
#[global] Instance upd_last_task_used_math : Setter last_task_used_math := fun g r => mk_kernel (task r) (current r) (jiffies r) (startup_time r) (last_pid r) (g (last_task_used_math r)) (wchan r) (timer_list r) (next_timer r) (mon_timer r) (moff_timer r) (current_DOR r) (selected r) (tty_table r) (cr_flag r) (con r) (umem r) (gdt r).
#[global] Instance upd_wchan : Setter wchan := fun g r => mk_kernel (task r) (current r) (jiffies r) (startup_time r) (last_pid r) (last_task_used_math r) (g (wchan r)) (timer_list r) (next_timer r) (mon_timer r) (moff_timer r) (current_DOR r) (selected r) (tty_table r) (cr_flag r) (con r) (umem r) (gdt r).
#[global] Instance upd_timer_list : Setter timer_list := fun g r => mk_kernel (task r) (current r) (jiffies r) (startup_time r) (last_pid r) (last_task_used_math r) (wchan r) (g (timer_list r)) (next_timer r) (mon_timer r) (moff_timer r) (current_DOR r) (selected r) (tty_table r) (cr_flag r) (con r) (umem r) (gdt r).
#[global] Instance upd_next_timer : Setter next_timer := fun g r => mk_kernel (task r) (current r) (jiffies r) (startup_time r) (last_pid r) (last_task_used_math r) (wchan r) (timer_list r) (g (next_timer r)) (mon_timer r) (moff_timer r) (current_DOR r) (selected r) (tty_table r) (cr_flag r) (con r) (umem r) (gdt r).
#[global] Instance upd_mon_timer : Setter mon_timer := fun g r => mk_kernel (task r) (current r) (jiffies r) (startup_time r) (last_pid r) (last_task_used_math r) (wchan r) (timer_list r) (next_timer r) (g (mon_timer r)) (moff_timer r) (current_DOR r) (selected r) (tty_table r) (cr_flag r) (con r) (umem r) (gdt r).
#[global] Instance upd_moff_timer : Setter moff_timer := fun g r => mk_kernel (task r) (current r) (jiffies r) (startup_time r) (last_pid r) (last_task_used_math r) (wchan r) (timer_list r) (next_timer r) (mon_timer r) (g (moff_timer r)) (current_DOR r) (selected r) (tty_table r) (cr_flag r) (con r) (umem r) (gdt r).
#[global] Instance upd_current_DOR : Setter current_DOR := fun g r => mk_kernel (task r) (current r) (jiffies r) (startup_time r) (last_pid r) (last_task_used_math r) (wchan r) (timer_list r) (next_timer r) (mon_timer r) (moff_timer r) (g (current_DOR r)) (selected r) (tty_table r) (cr_flag r) (con r) (umem r) (gdt r).
#[global] Instance upd_selected : Setter selected := fun g r => mk_kernel (task r) (current r) (jiffies r) (startup_time r) (last_pid r) (last_task_used_math r) (wchan r) (timer_list r) (next_timer r) (mon_timer r) (moff_timer r) (current_DOR r) (g (selected r)) (tty_table r) (cr_flag r) (con r) (umem r) (gdt r).
#[global] Instance upd_tty_table : Setter tty_table := fun g r => mk_kernel (task r) (current r) (jiffies r) (startup_time r) (last_pid r) (last_task_used_math r) (wchan r) (timer_list r) (next_timer r) (mon_timer r) (moff_timer r) (current_DOR r) (selected r) (g (tty_table r)) (cr_flag r) (con r) (umem r) (gdt r).
#[global] Instance upd_cr_flag : Setter cr_flag := fun g r => mk_kernel (task r) (current r) (jiffies r) (startup_time r) (last_pid r) (last_task_used_math r) (wchan r) (timer_list r) (next_timer r) (mon_timer r) (moff_timer r) (current_DOR r) (selected r) (tty_table r) (g (cr_flag r)) (con r) (umem r) (gdt r).
#[global] Instance upd_con : Setter con := fun g r => mk_kernel (task r) (current r) (jiffies r) (startup_time r) (last_pid r) (last_task_used_math r) (wchan r) (timer_list r) (next_timer r) (mon_timer r) (moff_timer r) (current_DOR r) (selected r) (tty_table r) (cr_flag r) (g (con r)) (umem r) (gdt r).
#[global] Instance upd_umem : Setter umem := fun g r => mk_kernel (task r) (current r) (jiffies r) (startup_time r) (last_pid r) (last_task_used_math r) (wchan r) (timer_list r) (next_timer r) (mon_timer r) (moff_timer r) (current_DOR r) (selected r) (tty_table r) (cr_flag r) (con r) (g (umem r)) (gdt r).
#[global] Instance upd_gdt : Setter gdt := fun g r => mk_kernel (task r) (current r) (jiffies r) (startup_time r) (last_pid r) (last_task_used_math r) (wchan r) (timer_list r) (next_timer r) (mon_timer r) (moff_timer r) (current_DOR r) (selected r) (tty_table r) (cr_flag r) (con r) (umem r) (g (gdt r)).

(** ** Access to tasks *)
Definition slot (k : kernel) (i : nat) : option task_struct := mjoin (task k !! i).
Definition get_task (i : nat) : M kernel task_struct := k <- get ;; deref (slot k i).
Definition put_task (i : nat) (t : task_struct) : M kernel unit :=
  modify (fun k => k <| task ::= <[i := Some t]> |>).
Definition mod_task (i : nat) (f : task_struct -> task_struct) : M kernel unit :=
  t <- get_task i ;; put_task i (f t).
(** [current->...] *)
Definition cur : M kernel task_struct := k <- get ;; get_task (current k).
Definition mod_cur (f : task_struct -> task_struct) : M kernel unit :=
  k <- get ;; mod_task (current k) f.
(** The loops [for (p = &LAST_TASK ; p > &FIRST_TASK ; --p) if ( *p )]: every
    slot but the first. *)
Definition all_but_first (f : task_struct -> task_struct) (l : list (option task_struct)) :
    list (option task_struct) :=
  match l with [] => [] | t0 :: l' => t0 :: map (option_map f) l' end.
Definition suser : M kernel bool := t <- cur ;; ret (euid t =? 0).

(** ** Wait queue pointers *)
Definition wq_get (p : Z) : M kernel (option nat) := gets (fun k => wchan k !! p).
Definition wq_set (p : Z) (o : option nat) : M kernel unit :=
  modify (fun k => k <| wchan ::= fun m => match o with Some i => <[p := i]> m | None => delete p m end |>).
(** [if (o) o->state = 0;] *)
Definition make_runnable (o : option nat) : M kernel unit :=
  match o with Some i => mod_task i (fun t => t <| t_state := TASK_RUNNING |>) | None => ret tt end.

(** ** User memory *)
Definition get_fs_byte (a : Z) : M kernel Z := gets (fun k => default 0 (umem k !! u32 a)).
Definition put_fs_byte (v a : Z) : M kernel unit :=
  modify (fun k => k <| umem ::= <[u32 a := u8 v]> |>).
Definition put_fs_long (v a : Z) : M kernel unit :=
  put_fs_byte v a ;;; put_fs_byte (Z.shiftr v 8) (a + 1) ;;;
  put_fs_byte (Z.shiftr v 16) (a + 2) ;;; put_fs_byte (Z.shiftr v 24) (a + 3).
Definition get_fs_long (a : Z) : M kernel Z :=
  b0 <- get_fs_byte a ;; b1 <- get_fs_byte (a + 1) ;;
  b2 <- get_fs_byte (a + 2) ;; b3 <- get_fs_byte (a + 3) ;;
  ret (b0 + Z.shiftl b1 8 + Z.shiftl b2 16 + Z.shiftl b3 24).

(** ** Descriptors: the macros of [sched.h]

    [set_base] scatters the base over bytes 2-4 and 7 of the descriptor,
    [set_limit] the limit over bytes 0-1 and the low nibble of byte 6. *)
Definition set_base (d : desc_struct) (base : Z) : desc_struct :=
  mk_desc (Z.lor (Z.land (d_a d) 65535) (Z.shiftl (Z.land base 65535) 16))
    (Z.lor (Z.land (d_b d) 16776960)
       (Z.lor (Z.land (Z.shiftr base 16) 255) (Z.shiftl (Z.land (Z.shiftr base 24) 255) 24))).
Definition get_base (d : desc_struct) : Z :=
  Z.lor (Z.land (Z.shiftr (d_a d) 16) 65535)
    (Z.lor (Z.shiftl (Z.land (d_b d) 255) 16)
       (Z.shiftl (Z.land (Z.shiftr (d_b d) 24) 255) 24)).
Definition set_limit (d : desc_struct) (limit : Z) : desc_struct :=
  let l := Z.shiftr (limit - 1) 12 in
  mk_desc (Z.lor (Z.land (d_a d) 4294901760) (Z.land l 65535))
    (Z.lor (Z.land (d_b d) 4293984255) (Z.shiftl (Z.land (Z.shiftr l 16) 15) 16)).
(** [lsll; incl]: the limit in bytes of a descriptor with page granularity
    (bit 23 of the second word), else of one with byte granularity. *)
Definition limit_field (d : desc_struct) : Z :=
  Z.lor (Z.land (d_a d) 65535) (Z.shiftl (Z.land (Z.shiftr (d_b d) 16) 15) 16).
Definition get_limit (d : desc_struct) : Z :=
  if Z.testbit (d_b d) 23 then Z.shiftl (limit_field d + 1) 12 else limit_field d + 1.

(** ** Lemmas *)
Lemma slot_upd k i j t :
  (i < length (task k))%nat ->
  slot (k <| task ::= <[i := Some t]> |>) j = if decide (i = j) then Some t else slot k j.
Proof.
  intros Hi. unfold slot. cbn. case_decide; subst.
  - by rewrite list_lookup_insert_eq.
  - by rewrite list_lookup_insert_ne.
Qed.
Lemma slot_length k i t : slot k i = Some t -> (i < length (task k))%nat.
Proof.
  unfold slot. destruct (task k !! i) eqn:E; [|done]. intros _. by eapply lookup_lt_Some.
Qed.
Lemma all_but_first_lookup f l i :
  mjoin (all_but_first f l !! i) = (if decide (i = O) then id else option_map f) (mjoin (l !! i)).
Proof.
  destruct l as [|t0 l], i as [|i]; cbn; try done.
  change (mjoin ((option_map f <$> l) !! i) = option_map f (mjoin (l !! i))).
  rewrite list_lookup_fmap. by destruct (l !! i) as [[t|]|].
Qed.
Lemma length_all_but_first f l : length (all_but_first f l) = length l.
Proof. destruct l; cbn; [done|]. by rewrite length_map. Qed.

Lemma wp_get_task i (Q : task_struct -> kernel -> Prop) k t :
  slot k i = Some t -> Q t k -> wp (get_task i) Q k.
Proof. intros H HQ. unfold get_task, wp, bind, get. by rewrite H. Qed.
Lemma wp_mod_task i f (Q : unit -> kernel -> Prop) k t :
  slot k i = Some t -> Q tt (k <| task ::= <[i := Some (f t)]> |>) -> wp (mod_task i f) Q k.
Proof. intros H HQ. unfold mod_task. apply wp_bind. by eapply wp_get_task. Qed.
Lemma wp_cur (Q : task_struct -> kernel -> Prop) k t :
  slot k (current k) = Some t -> Q t k -> wp cur Q k.
Proof. intros H HQ. unfold cur. apply wp_bind, wp_get. by eapply wp_get_task. Qed.
Lemma wp_mod_cur f (Q : unit -> kernel -> Prop) k t :
  slot k (current k) = Some t ->
  Q tt (k <| task ::= <[current k := Some (f t)]> |>) -> wp (mod_cur f) Q k.
Proof. intros H HQ. unfold mod_cur. apply wp_bind, wp_get. by eapply wp_mod_task. Qed.

Lemma suser_run k t : slot k (current k) = Some t -> suser k = Done (euid t =? 0) k.
Proof. intros Ht. unfold suser, cur, get_task, bind, get, deref, ret. by rewrite Ht. Qed.
Lemma cur_run k t : slot k (current k) = Some t -> cur k = Done t k.
Proof. intros Ht. unfold cur, get_task, bind, get, deref, ret. by rewrite Ht. Qed.
Lemma mod_cur_run f k t :
  slot k (current k) = Some t ->
  mod_cur f k = Done tt (k <| task ::= <[current k := Some (f t)]> |>).
Proof. intros Ht. unfold mod_cur, mod_task, put_task, get_task, bind, get, deref, modify, ret. by rewrite Ht. Qed.


(** The kernel with the current task replaced. *)
Definition with_cur (k : kernel) (t : task_struct) : kernel :=
  k <| task ::= <[current k := Some t]> |>.
Lemma with_cur_id k t : slot k (current k) = Some t -> k = with_cur k t.
Proof.
  intros Ht. unfold with_cur. assert (<[current k := Some t]> (task k) = task k) as E.
  { apply list_insert_id. unfold slot in Ht.
    destruct (task k !! current k) as [o|] eqn:Eo; [|done]. cbn in Ht. by rewrite Ht. }
  unfold upd, upd_task. rewrite E. by destruct k.
Qed.
Lemma with_cur_slot k t : (current k < length (task k))%nat -> slot (with_cur k t) (current (with_cur k t)) = Some t.
Proof. intros Hl. unfold with_cur. cbn [current upd upd_task]. rewrite slot_upd by done. by rewrite decide_True. Qed.
Lemma cur_at k t : (current k < length (task k))%nat -> cur (with_cur k t) = Done t (with_cur k t).
Proof. intros Hl. by apply cur_run, with_cur_slot. Qed.
Lemma suser_at k t : (current k < length (task k))%nat -> suser (with_cur k t) = Done (euid t =? 0) (with_cur k t).
Proof. intros Hl. by apply suser_run, with_cur_slot. Qed.
Lemma mod_cur_at f k t :
  (current k < length (task k))%nat -> mod_cur f (with_cur k t) = Done tt (with_cur k (f t)).
Proof.
  intros Hl. rewrite (mod_cur_run f _ t) by (by apply with_cur_slot).
  unfold with_cur, upd, upd_task. cbn [task current]. by rewrite list_insert_insert_eq.
Qed.

(** ** Bits of machine words *)
Lemma testbit_above w a n : 0 <= a < 2 ^ w -> 0 <= w <= n -> Z.testbit a n = false.
Proof.
  intros Ha Hn. rewrite <- (Z.mod_small a (2 ^ w)) by done.
  apply Z.mod_pow2_bits_high. lia.
Qed.
(** The bits of a mask of consecutive ones. *)
Lemma testbit_mask i w n :
  0 <= i -> 0 <= w -> 0 <= n ->
  Z.testbit (Z.shiftl (Z.ones w) i) n = (i <=? n) && (n <? i + w).
Proof.
  intros Hi Hw Hn. destruct (Z.leb_spec i n).
  - rewrite Z.shiftl_spec by lia. destruct (Z.ltb_spec n (i + w)); cbn.
    + apply Z.ones_spec_low. lia.
    + apply Z.ones_spec_high. lia.
  - rewrite Z.shiftl_spec_low by lia. done.
Qed.

(** Decides one bit of an expression built from shifts and masks. *)
Ltac one_bit :=
  repeat match goal with
  | |- context [Z.testbit ?a ?n] => rewrite (Z.testbit_neg_r a n) by lia
  | |- context [Z.testbit (Z.lor ?a ?b) ?n] => rewrite (Z.lor_spec a b n)
  | |- context [Z.testbit (Z.land ?a ?b) ?n] => rewrite (Z.land_spec a b n)
  | |- context [Z.testbit (Z.shiftl (Z.ones ?w) ?i) ?n] => rewrite (testbit_mask i w n) by lia
  | |- context [Z.testbit (Z.shiftr ?a ?b) ?n] => rewrite (Z.shiftr_spec a b n) by lia
  | |- context [Z.testbit (Z.shiftl ?a ?b) ?n] => rewrite (Z.shiftl_spec a b n) by lia
  end;
  repeat match goal with
  | |- context [?a <=? ?b] =>
      first [ rewrite (proj2 (Z.leb_le a b)) by lia | rewrite (proj2 (Z.leb_gt a b)) by lia ]
  | |- context [?a <? ?b] =>
      first [ rewrite (proj2 (Z.ltb_lt a b)) by lia | rewrite (proj2 (Z.ltb_ge a b)) by lia ]
  end;
  cbn [andb orb];
  rewrite ?andb_true_r, ?andb_false_r, ?orb_false_r, ?orb_false_l, ?andb_false_l; cbn [andb orb];
  try done; try (f_equal; lia).

Lemma bits_below w a b :
  0 <= w -> (forall n, w <= n -> Z.testbit a n = false) ->
  (forall n, w <= n -> Z.testbit b n = false) ->
  (forall n, 0 <= n < w -> Z.testbit a n = Z.testbit b n) -> a = b.
Proof.
  intros Hw Ha Hb H. apply Z.bits_inj'. intros n Hn. destruct (Z.lt_ge_cases n w); [by apply H|].
  by rewrite Ha, Hb.
Qed.

Lemma get_base_set_base d b : 0 <= b < 2 ^ 32 -> get_base (set_base d b) = b.
Proof.
  intros Hb. unfold get_base, set_base. cbn [d_a d_b].
  change 65535 with (Z.shiftl (Z.ones 16) 0). change 255 with (Z.shiftl (Z.ones 8) 0).
  change 16776960 with (Z.shiftl (Z.ones 16) 8).
  apply Z.bits_inj'. intros n Hn.
  assert (n < 16 \/ 16 <= n < 24 \/ 24 <= n < 32 \/ 32 <= n) as [H|[H|[H|H]]] by lia;
    [..|rewrite (testbit_above 32 b n) by lia]; one_bit.
Qed.

(** The fields of a segment descriptor survive each other: [get_base] reads
    back the base that [set_base] scattered over the descriptor, [get_limit] the
    limit (a number of pages) that [set_limit] stored in it, and neither disturbs
    the other's field. *)
Theorem descriptor_fields d b l :
  0 <= b < 2 ^ 32 -> 0 < l <= 2 ^ 20 -> Z.testbit (d_b d) 23 = true ->
  get_base (set_base d b) = b /\ get_limit (set_base d b) = get_limit d /\
  get_limit (set_limit d (l * 4096)) = l * 4096 /\
  get_base (set_limit d (l * 4096)) = get_base d.
Proof.
  intros Hb Hl Hg. unfold get_base, get_limit.
  assert (limit_field (set_base d b) = limit_field d /\
    limit_field (set_limit d (l * 4096)) = l - 1 /\
    Z.testbit (d_b (set_base d b)) 23 = true /\
    Z.testbit (d_b (set_limit d (l * 4096))) 23 = true) as (-> & -> & -> & ->);
    [|rewrite Hg; split; [|split; [|split]]];
    [|by apply get_base_set_base|..];
    unfold limit_field, set_base, set_limit; cbn [d_a d_b];
    replace (Z.shiftr (l * 4096 - 1) 12) with (l - 1)
      by (rewrite Z.shiftr_div_pow2 by lia; change (2 ^ 12) with 4096; dlia);
    change 65535 with (Z.shiftl (Z.ones 16) 0); change 255 with (Z.shiftl (Z.ones 8) 0);
    change 16776960 with (Z.shiftl (Z.ones 16) 8); change 15 with (Z.shiftl (Z.ones 4) 0);
    change 4294901760 with (Z.shiftl (Z.ones 16) 16);
    change 4293984255 with (Z.lor (Z.shiftl (Z.ones 16) 0) (Z.shiftl (Z.ones 12) 20)).
  - split; [|split; [|split]]; [| |by one_bit..]; apply Z.bits_inj'; intros n Hn;
      assert (n < 16 \/ 16 <= n < 20 \/ 20 <= n) as [H|[H|H]] by lia;
      try (rewrite (testbit_above 20 (l - 1) n) by lia); one_bit.
  - done.
  - rewrite Z.shiftl_mul_pow2 by lia. lia.
  - apply Z.bits_inj'. intros n Hn.
    assert (n < 16 \/ 16 <= n < 20 \/ 20 <= n < 24 \/ 24 <= n < 32 \/ 32 <= n)
      as [H|[H|[H|[H|H]]]] by lia; one_bit.
Qed.
Lemma descriptor_fields_witness :
  get_base (set_base (mk_desc 159 12644864) 134217728) = 134217728 /\
  get_limit (set_base (mk_desc 159 12644864) 134217728) = get_limit (mk_desc 159 12644864) /\
  get_limit (set_limit (mk_desc 159 12644864) (160 * 4096)) = 160 * 4096 /\
  get_base (set_limit (mk_desc 159 12644864) (160 * 4096)) = get_base (mk_desc 159 12644864).
Proof. apply descriptor_fields; [lia | lia | reflexivity]. Defined.

(** ** User memory *)
Lemma u32_add_inj a i j : 0 <= i < 4 -> 0 <= j < 4 -> u32 (a + i) = u32 (a + j) -> i = j.
Proof. unfold u32. intros Hi Hj H. change (2 ^ 32) with 4294967296 in H. dlia. Qed.
Lemma bytes_of_long v :
  u8 v + Z.shiftl (u8 (Z.shiftr v 8)) 8 + Z.shiftl (u8 (Z.shiftr v 16)) 16 +
    Z.shiftl (u8 (Z.shiftr v 24)) 24 = u32 v.
Proof.
  rewrite !Z.shiftl_mul_pow2, !Z.shiftr_div_pow2 by lia. unfold u8, u32.
  change (2 ^ 8) with 256. change (2 ^ 16) with 65536. change (2 ^ 24) with 16777216.
  change (2 ^ 32) with 4294967296. dlia.
Qed.
(** User memory as a map from addresses: a long is four bytes. *)
Definition read_long (m : gmap Z Z) (a : Z) : Z :=
  let b i := default 0 (m !! u32 (a + i)) in
  b 0 + Z.shiftl (b 1) 8 + Z.shiftl (b 2) 16 + Z.shiftl (b 3) 24.
Definition write_long (m : gmap Z Z) (a v : Z) : gmap Z Z :=
  <[u32 (a + 3) := u8 (Z.shiftr v 24)]> (<[u32 (a + 2) := u8 (Z.shiftr v 16)]>
    (<[u32 (a + 1) := u8 (Z.shiftr v 8)]> (<[u32 (a + 0) := u8 v]> m))).
Lemma put_fs_long_eq v a k : put_fs_long v a k = Done tt (k <| umem ::= fun m => write_long m a v |>).
Proof.
  unfold put_fs_long, put_fs_byte, bind, modify, write_long. rewrite Z.add_0_r. reflexivity.
Qed.
Lemma get_fs_long_eq a k : get_fs_long a k = Done (read_long (umem k) a) k.
Proof.
  unfold get_fs_long, get_fs_byte, bind, gets, ret, read_long. cbv zeta.
  rewrite Z.add_0_r. reflexivity.
Qed.
Lemma read_write_same m a v : read_long (write_long m a v) a = u32 v.
Proof.
  unfold read_long, write_long.
  assert (forall i j, 0 <= i < 4 -> 0 <= j < 4 -> i <> j -> u32 (a + i) <> u32 (a + j)) as Hne
    by (intros i j Hi Hj Hij E; by apply Hij, (u32_add_inj a)).
  repeat first [ rewrite lookup_insert_eq | rewrite lookup_insert_ne by (apply Hne; lia) ].
  cbn [default]. by rewrite <- (bytes_of_long v).
Qed.
Lemma read_write_other m a b v :
  4 <= (b - a) mod 2 ^ 32 <= 2 ^ 32 - 4 -> read_long (write_long m a v) b = read_long m b.
Proof.
  intros H. unfold read_long, write_long.
  assert (forall i j, 0 <= i < 4 -> 0 <= j < 4 -> u32 (a + i) <> u32 (b + j)) as Hne.
  { intros i j Hi Hj E. unfold u32 in E. change (2 ^ 32) with 4294967296 in *. dlia. }
  by rewrite !lookup_insert_ne by (apply Hne; lia).
Qed.
(** [put_fs_long] changes user memory only, and [get_fs_long] reads it back. *)
Lemma put_fs_long_run v a k :
  exists m, put_fs_long v a k = Done tt (k <| umem := m |>) /\
    get_fs_long a (k <| umem := m |>) = Done (u32 v) (k <| umem := m |>).
Proof.
  exists (write_long (umem k) a v). split; [apply put_fs_long_eq|].
  rewrite get_fs_long_eq. f_equal. apply read_write_same.
Qed.

(** ** The initial values *)
Definition null_action : sigaction := mk_sigaction 0 0 0 0.
Definition init_tss : tss_struct :=
  mk_tss 0 4096 16 0 0 0 0 0 0 0 0 0 0 0 23 23 23 23 23 23 40 2147483648 0.
(** [INIT_TASK]: the idle task, all of whose pointers are null. *)
Definition INIT_TASK : task_struct :=
  mk_task 0 0 15 15 0 (replicate 32 null_action) 0 0 0 0 0 0 0
    0 (-1) 0 0 0 0 0 0 0 0 0 0 0 0 0 0 0 0 (-1) 18 None None None 0
    (replicate NR_OPEN None) [mk_desc 0 0; mk_desc 159 12646912; mk_desc 159 12644864] init_tss.
(** [INIT_C_CC] *)
Definition INIT_C_CC : list Z := [3; 28; 127; 21; 4; 0; 1; 0; 17; 19; 26; 0; 18; 15; 23; 22; 0].
Definition empty_queue (d wq : Z) : tty_queue := mk_queue d 0 0 wq (replicate 1024 0).
Definition init_tty_table : list tty_struct :=
  [mk_tty (mk_termios 256 5 0 2571 0 INIT_C_CC) 0 0 con_write_fn
     (empty_queue 0 100) (empty_queue 0 101) (empty_queue 0 102);
   mk_tty (mk_termios 0 0 59 0 0 INIT_C_CC) 0 0 rs_write_fn
     (empty_queue 1016 103) (empty_queue 1016 104) (empty_queue 0 105);
   mk_tty (mk_termios 0 0 59 0 0 INIT_C_CC) 0 0 rs_write_fn
     (empty_queue 760 106) (empty_queue 760 107) (empty_queue 0 108)].
Definition boot_kernel : kernel :=
  mk_kernel (Some INIT_TASK :: replicate 63 None) 0 0 0 0 None ∅
    (replicate 64 (mk_timer 0 None None)) None [0; 0; 0; 0] [0; 0; 0; 0] 12 0
    init_tty_table 0 Console.bss_console ∅ ∅.
(** A kernel with further tasks in the slots from 1 on, for the examples. *)
Definition with_tasks (l : list task_struct) : kernel :=
  boot_kernel <| task := Some INIT_TASK :: map Some l ++ replicate (63 - length l) None |>.
