(* ===== verification/Memory.v ===== *)
(** * Memory: the memory manager (mm/memory.c)

    Physical pages are counted in [mem_map]; page directories and page tables are
    ordinary memory words, reached by their physical address, as in the source.
    The second half proves the manager's reference counting: [mm_ok owned] says
    that every count is the number of page directory and page table entries that
    refer to the page plus the references [owned] that the rest of the kernel
    holds, and every routine is shown to keep it. *)
From S2P Require Import Prelude Console Task.

Module Memory.

(** ** Constants and state *)
Definition LOW_MEM : Z := 1048576.
Definition PAGING_PAGES : Z := 3840.
Definition MAP_NR (addr : Z) : Z := Z.shiftr (addr - LOW_MEM) 12.
Definition USED : Z := 100.

(** The messages of the file, with their arguments. *)
Inductive message : Type :=
  | Out_of_memory
  | Trying_to_put_page (page address : Z)
  | Mem_map_disagrees (page address : Z)
  | Pages_free (free total : Z)
  | Pg_dir_uses (i pages : Z).

(** The variables of mm/memory.c, the physical memory as 32-bit words (the word at address [a] is [ram (a / 4)]; the page directory is at address 0) and what [printk] has printed. *)
Record mm : Type := mk_mm {
  HIGH_MEMORY : Z;
  mem_map : list Z;
  ram : Z -> Z;
  klog : list message
}.

#[global] Instance upd_HIGH_MEMORY : Setter HIGH_MEMORY := fun g r => mk_mm (g (HIGH_MEMORY r)) (mem_map r) (ram r) (klog r).
#[global] Instance upd_mem_map : Setter mem_map := fun g r => mk_mm (HIGH_MEMORY r) (g (mem_map r)) (ram r) (klog r).
#[global] Instance upd_ram : Setter ram := fun g r => mk_mm (HIGH_MEMORY r) (mem_map r) (g (ram r)) (klog r).
#[global] Instance upd_klog : Setter klog := fun g r => mk_mm (HIGH_MEMORY r) (mem_map r) (ram r) (g (klog r)).

Definition printk (m : message) : M mm unit := modify (fun s => s <| klog ::= fun l => l ++ [m] |>).
(** [*(unsigned long * ) a] and [*(unsigned long * ) a = v]. *)
Definition rd (a : Z) : M mm Z := gets (fun s => ram s (a / 4)).
Definition wr (a v : Z) : M mm unit :=
  modify (fun s => s <| ram ::= fun r w => if w =? a / 4 then v else r w |>).
(** [mem_map[i]]. *)
Definition count_at (i : Z) : M mm Z :=
  s <- get ;; if 0 <=? i then deref (mem_map s !! Z.to_nat i) else fault.
Definition set_count (i v : Z) : M mm unit :=
  s <- get ;;
  if (0 <=? i) && (i <? Z.of_nat (length (mem_map s)))
  then put (s <| mem_map ::= <[Z.to_nat i := u8 v]> |>) else fault.

(** The task that called ends in [do_exit]: its code, and no return. *)
Definition exits (A : Type) : Type := (Z + A)%type.
Definition oom {A} : M mm (exits A) := printk Out_of_memory ;;; ret (inl SIGSEGV).
Definition ok {A} (m : M mm A) : M mm (exits A) := a <- m ;; ret (inr a).
Definition and_then {A B} (m : M mm (exits A)) (f : A -> M mm (exits B)) : M mm (exits B) :=
  x <- m ;; match x with inl code => ret (inl code) | inr a => f a end.

(** [copy_page]: 1024 longs moved upwards; and the 1024 longs [get_free_page]
    stores downwards. *)
Definition copy_page (from to : Z) : M mm unit :=
  modify (fun s => s <| ram ::= fun r w =>
    if (to / 4 <=? w) && (w <? to / 4 + 1024) then r (from / 4 + (w - to / 4)) else r w |>).
Definition clear_page (page : Z) : M mm unit :=
  modify (fun s => s <| ram ::= fun r w =>
    if (page / 4 <=? w) && (w <? page / 4 + 1024) then 0 else r w |>).

(** ** Allocation *)

(** [std ; repne ; scasb]: the last of the first [ecx] counts that is zero. *)
Fixpoint scasb (l : list Z) (ecx : nat) : option Z :=
  match ecx with
  | O => None
  | S i => match l !! i with
           | Some 0 => Some (Z.of_nat i)
           | _ => scasb l i
           end
  end.

Definition get_free_page : M mm Z :=
  s <- get ;;
  match scasb (mem_map s) (Z.to_nat PAGING_PAGES) with
  | None => ret 0
  | Some ecx =>
      set_count ecx 1 ;;;
      let edx := Z.shiftl ecx 12 + LOW_MEM in
      clear_page edx ;;;
      ret edx
  end.

Definition free_page (addr : Z) : M mm unit :=
  s <- get ;;
  if addr <? LOW_MEM then ret tt else
  if u32 (HIGH_MEMORY s) <=? addr then panic "trying to free nonexistent page" else
  let addr := Z.shiftr (addr - LOW_MEM) 12 in
  n <- count_at addr ;;
  set_count addr (n - 1) ;;;
  if truth n then ret tt else
  set_count addr 0 ;;; panic "trying to free free page".

(** ** Page tables of a task *)

(** One entry of the page table at [pg_table]. *)
Definition free_entry (pg_table nr : Z) : M mm unit :=
  e <- rd (pg_table + 4 * nr) ;;
  when (truth (Z.land 1 e)) (free_page (Z.land 4294963200 e)) ;;;
  wr (pg_table + 4 * nr) 0.

Definition free_dir (dir : Z) : M mm unit :=
  e <- rd dir ;;
  if negb (truth (Z.land 1 e)) then ret tt else
  let pg_table := Z.land 4294963200 e in
  for_each (seqZ 0 1024) (free_entry pg_table) ;;;
  e <- rd dir ;;
  free_page (Z.land 4294963200 e) ;;;
  wr dir 0.

Definition free_page_tables (from size : Z) : M mm Z :=
  if truth (Z.land from 4194303) then panic "free_page_tables called with wrong alignment" else
  if from =? 0 then panic "Trying to free up swapper memory space" else
  let size := Z.shiftr (u32 (size + 4194303)) 22 in
  let dir := Z.land (Z.shiftr from 20) 4092 in
  for_each (seqZ 0 size) (fun i => free_dir (dir + 4 * i)) ;;;
  ret 0.

(** One page: the entries at [from_pte] and [to_pte]. *)
Definition copy_entry (from_pte to_pte : Z) : M mm unit :=
  this_page <- rd from_pte ;;
  if negb (truth (Z.land 1 this_page)) then ret tt else
  let this_page := Z.land this_page (-3) in
  wr to_pte this_page ;;;
  when (LOW_MEM <? this_page) (
    wr from_pte this_page ;;;
    let i := MAP_NR this_page in
    n <- count_at i ;;
    set_count i (n + 1)).

(** One directory entry; [false] when there is no page for the new table. *)
Definition copy_dir (nr from_dir to_dir : Z) : M mm bool :=
  e <- rd to_dir ;;
  if truth (Z.land 1 e) then panic "copy_page_tables: already exist" else
  e <- rd from_dir ;;
  if negb (truth (Z.land 1 e)) then ret true else
  let from_page_table := Z.land 4294963200 e in
  to_page_table <- get_free_page ;;
  if to_page_table =? 0 then ret false else
  wr to_dir (Z.lor to_page_table 7) ;;;
  for_each (seqZ 0 nr) (fun i => copy_entry (from_page_table + 4 * i) (to_page_table + 4 * i)) ;;;
  ret true.

Fixpoint copy_dirs (nr from_dir to_dir : Z) (size : nat) : M mm Z :=
  match size with
  | O => ret 0
  | S size =>
      b <- copy_dir nr from_dir to_dir ;;
      if b : bool then copy_dirs nr (from_dir + 4) (to_dir + 4) size else ret (-1)
  end.

Definition copy_page_tables (from to size : Z) : M mm Z :=
  if truth (Z.land from 4194303) || truth (Z.land to 4194303)
  then panic "copy_page_tables called with wrong alignment" else
  let from_dir := Z.land (Z.shiftr from 20) 4092 in
  let to_dir := Z.land (Z.shiftr to 20) 4092 in
  let size := Z.shiftr (u32 (size + 4194303)) 22 in
  copy_dirs (if from =? 0 then 160 else 1024) from_dir to_dir (Z.to_nat size).

(** ** Single pages *)
Definition put_page (page address : Z) : M mm Z :=
  s <- get ;;
  when ((page <? LOW_MEM) || (u32 (HIGH_MEMORY s) <=? page)) (printk (Trying_to_put_page page address)) ;;;
  n <- count_at (Z.shiftr (u32 (page - LOW_MEM)) 12) ;;
  when (negb (n =? 1)) (printk (Mem_map_disagrees page address)) ;;;
  let dir := Z.land (Z.shiftr address 20) 4092 in
  e <- rd dir ;;
  page_table <- (if truth (Z.land e 1) then ret (Some (Z.land 4294963200 e)) else
                 tmp <- get_free_page ;;
                 if tmp =? 0 then ret None else
                 wr dir (Z.lor tmp 7) ;;; ret (Some tmp)) ;;
  match page_table with
  | None => ret 0
  | Some page_table =>
      wr (page_table + 4 * Z.land (Z.shiftr address 12) 1023) (Z.lor page 7) ;;;
      ret page
  end.

Definition un_wp_page (table_entry : Z) : M mm (exits unit) :=
  e <- rd table_entry ;;
  let old_page := Z.land 4294963200 e in
  private <- (if LOW_MEM <=? old_page then n <- count_at (MAP_NR old_page) ;; ret (n =? 1) else ret false) ;;
  if private : bool then wr table_entry (Z.lor e 2) ;;; ret (inr tt) else
  new_page <- get_free_page ;;
  if new_page =? 0 then oom else
  when (LOW_MEM <=? old_page) (
    n <- count_at (MAP_NR old_page) ;;
    set_count (MAP_NR old_page) (n - 1)) ;;;
  wr table_entry (Z.lor new_page 7) ;;;
  copy_page old_page new_page ;;;
  ret (inr tt).

Definition do_wp_page (error_code address : Z) : M mm (exits unit) :=
  e <- rd (Z.land (Z.shiftr address 20) 4092) ;;
  un_wp_page (Z.land (Z.shiftr address 10) 4092 + Z.land 4294963200 e).

Definition write_verify (address : Z) : M mm (exits unit) :=
  page <- rd (Z.land (Z.shiftr address 20) 4092) ;;
  if negb (truth (Z.land page 1)) then ret (inr tt) else
  let page := Z.land page 4294963200 + Z.land (Z.shiftr address 10) 4092 in
  e <- rd page ;;
  if Z.land 3 e =? 1 then un_wp_page page else ret (inr tt).

Definition get_empty_page (address : Z) : M mm (exits unit) :=
  tmp <- get_free_page ;;
  put <- (if tmp =? 0 then ret false else page <- put_page tmp address ;; ret (negb (page =? 0))) ;;
  if put : bool then ret (inr tt) else
  free_page tmp ;;;
  oom.

(** ** Sharing and demand loading *)

(** [p] is the other task. *)
Definition try_to_share (cur_start address : Z) (p : task_struct) : M mm (exits Z) :=
  let from_page := Z.land (Z.shiftr address 20) 4092 + Z.land (Z.shiftr (start_code p) 20) 4092 in
  let to_page := Z.land (Z.shiftr address 20) 4092 + Z.land (Z.shiftr cur_start 20) 4092 in
  from <- rd from_page ;;
  if negb (truth (Z.land from 1)) then ret (inr 0) else
  let from_page := Z.land from 4294963200 + Z.land (Z.shiftr address 10) 4092 in
  phys_addr <- rd from_page ;;
  if negb (Z.land phys_addr 65 =? 1) then ret (inr 0) else
  let phys_addr := Z.land phys_addr 4294963200 in
  s <- get ;;
  if (u32 (HIGH_MEMORY s) <=? phys_addr) || (phys_addr <? LOW_MEM) then ret (inr 0) else
  to <- rd to_page ;;
  and_then
    (if truth (Z.land to 1) then ret (inr to) else
     to <- get_free_page ;;
     if to =? 0 then oom else wr to_page (Z.lor to 7) ;;; ret (inr to))
    (fun to =>
     let to_page := Z.land to 4294963200 + Z.land (Z.shiftr address 10) 4092 in
     e <- rd to_page ;;
     if truth (Z.land 1 e) then panic "try_to_share: to_page already exists" else
     e <- rd from_page ;;
     wr from_page (Z.land e (-3)) ;;;
     e <- rd from_page ;;
     wr to_page e ;;;
     let i := Z.shiftr (phys_addr - LOW_MEM) 12 in
     n <- count_at i ;;
     set_count i (n + 1) ;;;
     ret (inr 1)).

(** What demand loading uses of the file system: the use count of an in-core
    inode and its device, the block number of a block of a file, and the reading
    of a page's four blocks into memory. *)
Section DemandLoading.
Context (i_count i_dev : Z -> Z) (bmap : Z -> Z -> M mm Z) (bread_page : Z -> Z -> list Z -> M mm unit).

(** The slots [p] from the last down to the second. *)
Fixpoint share_scan (k : kernel) (me : task_struct) (address : Z) (p : nat) : M mm (exits Z) :=
  match p with
  | O => ret (inr 0)
  | S p' =>
      match slot k p with
      | None => share_scan k me address p'
      | Some t =>
          if (current k =? p)%nat then share_scan k me address p' else
          if negb (bool_decide (executable t = executable me)) then share_scan k me address p' else
          and_then (try_to_share (start_code me) address t) (fun r =>
            if truth r then ret (inr 1) else share_scan k me address p')
      end
  end.

Definition share_page (k : kernel) (me : task_struct) (address : Z) : M mm (exits Z) :=
  match executable me with
  | None => ret (inr 0)
  | Some inode =>
      if i_count inode <? 2 then ret (inr 0) else share_scan k me address (NR_TASKS - 1)
  end.

(** [tmp--; *(char * )tmp = 0], [i] times. *)
Fixpoint clear_down (i : nat) (tmp : Z) : M mm unit :=
  match i with
  | O => ret tt
  | S i =>
      let tmp := tmp - 1 in
      w <- rd tmp ;;
      wr tmp (Z.ldiff w (Z.shiftl 255 (8 * (tmp mod 4)))) ;;;
      clear_down i tmp
  end.

Fixpoint bmaps (inode block : Z) (i : nat) : M mm (list Z) :=
  match i with
  | O => ret []
  | S i => b <- bmap inode block ;; l <- bmaps inode (block + 1) i ;; ret (b :: l)
  end.

Definition do_no_page (k : kernel) (me : task_struct) (error_code address : Z) : M mm (exits unit) :=
  let address := Z.land address 4294963200 in
  let tmp := u32 (address - start_code me) in
  match executable me with
  | None => get_empty_page address
  | Some inode =>
      if end_data me <=? tmp then get_empty_page address else
      and_then (share_page k me tmp) (fun shared =>
      if truth shared then ret (inr tt) else
      page <- get_free_page ;;
      if page =? 0 then oom else
      let block := 1 + tmp / 1024 in
      nr <- bmaps inode block 4 ;;
      bread_page page (i_dev inode) nr ;;;
      clear_down (Z.to_nat (i32 (tmp + 4096 - end_data me))) (page + 4096) ;;;
      r <- put_page page address ;;
      if truth r then ret (inr tt) else
      free_page page ;;;
      oom)
  end.
End DemandLoading.

(** ** Start and statistics *)
Definition mem_init (start_mem end_mem : Z) : M mm unit :=
  modify (fun s => s <| HIGH_MEMORY := end_mem |>) ;;;
  for_each (seqZ 0 PAGING_PAGES) (fun i => set_count i USED) ;;;
  let i := MAP_NR start_mem in
  let n := Z.shiftr (end_mem - start_mem) 12 in
  for_each (seqZ i n) (fun i => set_count i 0).

Definition count_present (pg_tbl : Z) (s : mm) : Z :=
  Z.of_nat (length (filter (fun j => Z.odd (ram s (pg_tbl / 4 + j)) = true) (seqZ 0 1024))).
Definition calc_mem : M mm unit :=
  s <- get ;;
  printk (Pages_free (Z.of_nat (length (filter (fun n => n = 0) (mem_map s)))) PAGING_PAGES) ;;;
  for_each (seqZ 2 1022) (fun i =>
    e <- rd (4 * i) ;;
    when (truth (Z.land 1 e)) (
      s <- get ;;
      printk (Pg_dir_uses i (count_present (Z.land 4294963200 e) s)))).

(** ** Words, entries and addresses *)
Lemma mask_page e : 0 <= e < 4294967296 -> Z.land 4294963200 e = 4096 * (e / 4096).
Proof.
  intros He. change 4294963200 with (Z.land (Z.ones 32) (Z.lnot (Z.ones 12))).
  rewrite Z.land_comm, Z.land_assoc, Z.land_ones, (Z.mod_small e) by lia.
  rewrite <- Z.ldiff_land, Z.ldiff_ones_r, Z.shiftl_mul_pow2, Z.shiftr_div_pow2 by lia.
  change (2 ^ 12) with 4096. lia.
Qed.
Lemma mask_page_r e : 0 <= e < 4294967296 -> Z.land e 4294963200 = 4096 * (e / 4096).
Proof. rewrite Z.land_comm. apply mask_page. Qed.
Lemma mask_4092 x : 0 <= x -> Z.land x 4092 = 4 * ((x / 4) mod 1024).
Proof.
  intros Hx. change 4092 with (Z.land (Z.ones 12) (Z.lnot (Z.ones 2))).
  rewrite Z.land_assoc, Z.land_ones by lia.
  rewrite <- Z.ldiff_land, Z.ldiff_ones_r, Z.shiftl_mul_pow2, Z.shiftr_div_pow2 by lia.
  change (2 ^ 12) with 4096. change (2 ^ 2) with 4. dlia.
Qed.
Lemma dir_index a : 0 <= a -> Z.land (Z.shiftr a 20) 4092 = 4 * (a / 4194304 mod 1024).
Proof.
  intros Ha. rewrite mask_4092 by (apply Z.shiftr_nonneg; lia).
  rewrite Z.shiftr_div_pow2, Z.div_div by lia. done.
Qed.
Lemma table_index a : 0 <= a -> Z.land (Z.shiftr a 10) 4092 = 4 * (a / 4096 mod 1024).
Proof.
  intros Ha. rewrite mask_4092 by (apply Z.shiftr_nonneg; lia).
  rewrite Z.shiftr_div_pow2, Z.div_div by lia. done.
Qed.
Lemma odd_truth e : truth (Z.land 1 e) = Z.odd e.
Proof.
  rewrite Z.land_comm. change 1 with (Z.ones 1) at 1. rewrite Z.land_ones by lia.
  change (2 ^ 1) with 2. rewrite Zmod_odd. by destruct (Z.odd e).
Qed.
Lemma odd_truth_r e : truth (Z.land e 1) = Z.odd e.
Proof. rewrite Z.land_comm. apply odd_truth. Qed.

(** Clearing the write bit, and setting flag bits. *)
Definition wp_bit (e : Z) : Z := Z.land e (-3).
Lemma wp_bit_page e : wp_bit e / 4096 = e / 4096.
Proof.
  unfold wp_bit. change 4096 with (2 ^ 12). rewrite <- !Z.shiftr_div_pow2 by lia.
  rewrite Z.shiftr_land. change (Z.shiftr (-3) 12) with (-1). apply Z.land_m1_r.
Qed.
Lemma wp_bit_odd e : Z.odd (wp_bit e) = Z.odd e.
Proof. unfold wp_bit. rewrite <- !Z.bit0_odd, Z.land_spec. apply andb_true_r. Qed.
Lemma page_range e : 0 <= e / 4096 < 1048576 -> 0 <= e < 4294967296.
Proof. intros. dlia. Qed.
Lemma wp_bit_range e : 0 <= e < 4294967296 -> 0 <= wp_bit e < 4294967296.
Proof. intros. apply page_range. rewrite wp_bit_page. dlia. Qed.
Lemma flags_page p k : 0 <= k < 4096 -> Z.lor (4096 * p) k / 4096 = p.
Proof.
  intros Hk. change 4096 with (2 ^ 12). rewrite <- !Z.shiftr_div_pow2 by lia.
  rewrite Z.shiftr_lor, !Z.shiftr_div_pow2 by lia. change (2 ^ 12) with 4096.
  rewrite (Z.div_small k), Z.lor_0_r, (Z.mul_comm 4096), Z.div_mul by lia. done.
Qed.
Lemma flags_odd e k : Z.odd k = true -> Z.odd (Z.lor e k) = true.
Proof. rewrite <- !Z.bit0_odd, Z.lor_spec. intros ->. apply orb_true_r. Qed.
Lemma write_bit_page e : Z.lor e 2 / 4096 = e / 4096.
Proof.
  change 4096 with (2 ^ 12). rewrite <- !Z.shiftr_div_pow2 by lia.
  rewrite Z.shiftr_lor. change (Z.shiftr 2 12) with 0. apply Z.lor_0_r.
Qed.
Lemma write_bit_odd e : Z.odd (Z.lor e 2) = Z.odd e.
Proof. rewrite <- !Z.bit0_odd, Z.lor_spec. apply orb_false_r. Qed.

(** ** Sums over a list of indices *)
Definition zsum (l : list Z) (g : Z -> Z) : Z := foldr (fun i a => g i + a) 0 l.

Lemma zsum_ext l g g' : (forall i, i ∈ l -> g' i = g i) -> zsum l g' = zsum l g.
Proof.
  induction l as [|i l IH]; intros H; [done|]. cbn [zsum foldr].
  rewrite H by left. fold (zsum l g) (zsum l g'). rewrite IH; [done|].
  intros j Hj. apply H. by right.
Qed.
Lemma zsum_upd l g g' i :
  NoDup l -> i ∈ l -> (forall j, j ∈ l -> j <> i -> g' j = g j) ->
  zsum l g' = zsum l g - g i + g' i.
Proof.
  induction l as [|k l IH]; intros Hn Hi H; [by apply elem_of_nil in Hi|].
  apply NoDup_cons in Hn as [Hk Hn]. cbn [zsum foldr]. fold (zsum l g) (zsum l g').
  destruct (Z.eq_dec k i) as [->|Hki].
  - rewrite (zsum_ext l g g'); [lia|]. intros j Hj. apply H; [by right|]. by intros ->.
  - rewrite (IH Hn); [rewrite (H k); [lia|left|done]| |].
    + apply elem_of_cons in Hi as [->|Hi]; [done|exact Hi].
    + intros j Hj. apply H. by right.
Qed.
Lemma zsum_nonneg l g : (forall i, i ∈ l -> 0 <= g i) -> 0 <= zsum l g.
Proof.
  induction l as [|i l IH]; intros H; [done|]. cbn [zsum foldr]. fold (zsum l g).
  pose proof (H i ltac:(left)). assert (0 <= zsum l g); [|lia]. apply IH. intros. apply H. by right.
Qed.
Lemma zsum_ge l g i : (forall j, j ∈ l -> 0 <= g j) -> i ∈ l -> g i <= zsum l g.
Proof.
  induction l as [|k l IH]; intros H Hi; [by apply elem_of_nil in Hi|].
  cbn [zsum foldr]. fold (zsum l g).
  pose proof (zsum_nonneg l g ltac:(intros; apply H; by right)). pose proof (H k ltac:(left)).
  apply elem_of_cons in Hi as [->|Hi]; [lia|].
  pose proof (IH ltac:(intros; apply H; by right) Hi). lia.
Qed.
Lemma zsum_ge_two l g i k :
  (forall j, j ∈ l -> 0 <= g j) -> NoDup l -> i ∈ l -> k ∈ l -> i <> k -> g i + g k <= zsum l g.
Proof.
  intros H Hn Hi Hk Hik.
  pose proof (zsum_upd l g (fun j => if j =? i then 0 else g j) i Hn Hi) as E.
  cbn beta in E. rewrite Z.eqb_refl in E. pose proof (zsum_ge l (fun j => if j =? i then 0 else g j) k) as G.
  cbn beta in G. destruct (Z.eqb_spec k i) as [->|]; [done|].
  assert (forall j, j ∈ l -> 0 <= (if j =? i then 0 else g j)) as H0.
  { intros j Hj. destruct (j =? i); [lia|]. by apply H. }
  specialize (G H0 Hk). rewrite E in G; [lia|].
  intros j _ Hj. by apply Z.eqb_neq in Hj as ->.
Qed.
Lemma zsum_zero l g : (forall i, i ∈ l -> g i = 0) -> zsum l g = 0.
Proof. intros H. rewrite (zsum_ext l (fun _ => 0) g H). clear H. induction l; [done|]. by cbn. Qed.

(** ** References to a page

    The page with index [f] in [mem_map] is referred to by the present entries of
    the directory of the user tasks (entries 16 and up: task 0 and the kernel use
    the first 64 megabytes) and of the page tables these point to. *)
Definition refers (f e : Z) : Z := if Z.odd e && (e / 4096 =? 256 + f) then 1 else 0.
Definition user_dirs : list Z := seqZ 16 1008.
Definition entries : list Z := seqZ 0 1024.
(** The word of entry [j] of the table of directory entry [d]. *)
Definition pte (r : Z -> Z) (d j : Z) : Z := 1024 * (r d / 4096) + j.
Definition table_refs (r : Z -> Z) (f d : Z) : Z := zsum entries (fun j => refers f (r (pte r d j))).
Definition dir_refs (r : Z -> Z) (f d : Z) : Z :=
  refers f (r d) + (if Z.odd (r d) then table_refs r f d else 0).
Definition refs (r : Z -> Z) (f : Z) : Z := zsum user_dirs (dir_refs r f).

(** The reference counts are right.  [owned f] is the number of references to
    the page [f] from outside the page tables; the pages that are not for
    general use have [USED] of them. *)
Record mm_ok (owned : Z -> Z) (s : mm) : Prop := mk_mm_ok {
  ok_words : forall w, 0 <= ram s w < 4294967296;
  ok_high : HIGH_MEMORY s mod 4096 = 0 /\ 1048576 <= HIGH_MEMORY s <= 16777216;
  ok_owned : forall f, 0 <= owned f;
  ok_len : length (mem_map s) = 3840%nat;
  ok_count : forall f, 0 <= f < 3840 ->
    mem_map s !! Z.to_nat f = Some (refs (ram s) f + owned f) /\ refs (ram s) f + owned f <= 255;
  ok_top : forall f, 0 <= f < 3840 -> HIGH_MEMORY s <= 4096 * (256 + f) -> 0 < owned f;
  ok_dirs : forall d, 16 <= d < 1024 -> Z.odd (ram s d) = true ->
    256 <= ram s d / 4096 < HIGH_MEMORY s / 4096 /\
    mem_map s !! Z.to_nat (ram s d / 4096 - 256) = Some 1;
  ok_ptes : forall d j, 16 <= d < 1024 -> Z.odd (ram s d) = true -> 0 <= j < 1024 ->
    Z.odd (ram s (pte (ram s) d j)) = true -> ram s (pte (ram s) d j) / 4096 < HIGH_MEMORY s / 4096
}.

Lemma refers_nonneg f e : 0 <= refers f e.
Proof. unfold refers. by destruct (_ && _). Qed.
Lemma refers_even f e : Z.odd e = false -> refers f e = 0.
Proof. intros H. unfold refers. by rewrite H. Qed.
Lemma refers_odd f e : Z.odd e = true -> refers f e = if e / 4096 =? 256 + f then 1 else 0.
Proof. intros H. unfold refers. by rewrite H. Qed.
Lemma refers_same f e e' : Z.odd e' = Z.odd e -> e' / 4096 = e / 4096 -> refers f e' = refers f e.
Proof. intros H1 H2. unfold refers. by rewrite H1, H2. Qed.
Lemma table_refs_nonneg r f d : 0 <= table_refs r f d.
Proof. apply zsum_nonneg. intros. apply refers_nonneg. Qed.
Lemma dir_refs_nonneg r f d : 0 <= dir_refs r f d.
Proof.
  unfold dir_refs. pose proof (refers_nonneg f (r d)). pose proof (table_refs_nonneg r f d).
  destruct (Z.odd _); lia.
Qed.
Lemma refs_nonneg r f : 0 <= refs r f.
Proof. apply zsum_nonneg. intros. apply dir_refs_nonneg. Qed.
Lemma dir_refs_le r f d : 16 <= d < 1024 -> dir_refs r f d <= refs r f.
Proof.
  intros. apply zsum_ge; [intros; apply dir_refs_nonneg|]. apply elem_of_seqZ. lia.
Qed.
Lemma pte_refs_le r f d j :
  16 <= d < 1024 -> Z.odd (r d) = true -> 0 <= j < 1024 ->
  refers f (r d) + refers f (r (pte r d j)) <= refs r f.
Proof.
  intros Hd Hp Hj. pose proof (dir_refs_le r f d Hd) as H. unfold dir_refs in H. rewrite Hp in H.
  assert (refers f (r (pte r d j)) <= table_refs r f d); [|lia].
  apply (zsum_ge entries (fun j => refers f (r (pte r d j))));
    [intros; apply refers_nonneg|apply elem_of_seqZ; lia].
Qed.

Ltac seqz := apply elem_of_seqZ; lia.
Lemma refs_ext r r' f :
  (forall d, 16 <= d < 1024 -> r' d = r d) ->
  (forall d j, 16 <= d < 1024 -> Z.odd (r d) = true -> 0 <= j < 1024 -> r' (pte r d j) = r (pte r d j)) ->
  refs r' f = refs r f.
Proof.
  intros Hd Hp. apply zsum_ext. intros d Hin. apply elem_of_seqZ in Hin.
  unfold dir_refs, table_refs. rewrite Hd by lia. destruct (Z.odd (r d)) eqn:Ho; [|done].
  f_equal. apply zsum_ext. intros j Hj. apply elem_of_seqZ in Hj.
  unfold pte at 1. rewrite (Hd d) by lia. fold (pte r d j). rewrite Hp by (done || lia). done.
Qed.

(** No two directory entries share a table. *)
Definition distinct_tables (r : Z -> Z) : Prop :=
  forall d d', 16 <= d < 1024 -> 16 <= d' < 1024 -> Z.odd (r d) = true -> Z.odd (r d') = true ->
    r d / 4096 = r d' / 4096 -> d = d'.
Definition tables_high (r : Z -> Z) : Prop :=
  forall d, 16 <= d < 1024 -> Z.odd (r d) = true -> 256 <= r d / 4096.

Lemma refs_pte r r' d j v f :
  distinct_tables r -> tables_high r -> 16 <= d < 1024 -> Z.odd (r d) = true -> 0 <= j < 1024 ->
  (forall w, r' w = if w =? pte r d j then v else r w) ->
  refs r' f = refs r f - refers f (r (pte r d j)) + refers f v.
Proof.
  intros Hdist Hhigh Hd Hp Hj Hr.
  assert (forall d', 16 <= d' < 1024 -> r' d' = r d') as Hdir.
  { intros d' Hd'. rewrite Hr. pose proof (Hhigh d Hd Hp). unfold pte.
    destruct (Z.eqb_spec d' (1024 * (r d / 4096) + j)); [lia|done]. }
  unfold refs. rewrite (zsum_upd user_dirs (dir_refs r f) (dir_refs r' f) d);
    [|apply NoDup_seqZ|seqz|].
  - assert (forall j, pte r' d j = pte r d j) as Hpte by (intros; unfold pte; by rewrite Hdir).
    unfold dir_refs. rewrite Hdir, Hp by done. unfold table_refs.
    rewrite (zsum_upd entries (fun j => refers f (r (pte r d j))) (fun j => refers f (r' (pte r' d j))) j);
      [|apply NoDup_seqZ|seqz|].
    + rewrite Hpte, Hr, Z.eqb_refl. lia.
    + intros j' Hj' Hne. rewrite Hpte, Hr. destruct (Z.eqb_spec (pte r d j') (pte r d j)) as [E|]; [|done].
      unfold pte in E. lia.
  - intros d' Hin Hne. apply elem_of_seqZ in Hin. unfold dir_refs, table_refs.
    rewrite Hdir by lia. destruct (Z.odd (r d')) eqn:Ho; [|done]. f_equal.
    apply zsum_ext. intros j' Hj'. apply elem_of_seqZ in Hj'.
    unfold pte at 1. rewrite (Hdir d') by lia. fold (pte r d' j'). rewrite Hr.
    destruct (Z.eqb_spec (pte r d' j') (pte r d j)) as [E|]; [|done].
    unfold pte in E. destruct Hne. apply Hdist; [lia..|done|done|]. lia.
Qed.

(** Setting the directory entry [d]. *)
Lemma refs_dir r r' d v f :
  tables_high r -> 16 <= d < 1024 -> (forall w, r' w = if w =? d then v else r w) ->
  (Z.odd v = true -> 256 <= v / 4096) ->
  refs r' f = refs r f - dir_refs r f d
              + (refers f v + (if Z.odd v then zsum entries (fun j => refers f (r (1024 * (v / 4096) + j))) else 0)).
Proof.
  intros Hhigh Hd Hr Hv. unfold refs.
  rewrite (zsum_upd user_dirs (dir_refs r f) (dir_refs r' f) d); [|apply NoDup_seqZ|seqz|].
  - f_equal. unfold dir_refs. rewrite Hr, Z.eqb_refl. f_equal. destruct (Z.odd v) eqn:Ho; [|done].
    apply zsum_ext. intros j Hj. apply elem_of_seqZ in Hj. unfold pte.
    rewrite (Hr d), Z.eqb_refl, Hr.
    destruct (Z.eqb_spec (1024 * (v / 4096) + j) d); [specialize (Hv eq_refl); lia|done].
  - intros d' Hin Hne. apply elem_of_seqZ in Hin. unfold dir_refs, table_refs.
    rewrite (Hr d'). apply Z.eqb_neq in Hne as Hne'. rewrite Hne'.
    destruct (Z.odd (r d')) eqn:Ho; [|done]. f_equal. apply zsum_ext. intros j Hj.
    apply elem_of_seqZ in Hj. unfold pte at 1. rewrite (Hr d'), Hne'. fold (pte r d' j).
    rewrite Hr. pose proof (Hhigh d' ltac:(lia) Ho). unfold pte.
    destruct (Z.eqb_spec (1024 * (r d' / 4096) + j) d); [lia|done].
Qed.

Section Invariant.
Context (owned : Z -> Z) (s : mm) (H : mm_ok owned s).

Lemma ok_tables_high : tables_high (ram s).
Proof. intros d Hd Ho. destruct (ok_dirs _ _ H d Hd Ho) as [? _]. lia. Qed.
Lemma high_pages : 256 <= HIGH_MEMORY s / 4096 <= 4096 /\ HIGH_MEMORY s = 4096 * (HIGH_MEMORY s / 4096).
Proof. destruct (ok_high _ _ H). dlia. Qed.
Lemma table_total d : 16 <= d < 1024 -> Z.odd (ram s d) = true ->
  refs (ram s) (ram s d / 4096 - 256) + owned (ram s d / 4096 - 256) = 1.
Proof.
  intros Hd Ho. destruct (ok_dirs _ _ H d Hd Ho) as [Hr Hm].
  pose proof high_pages. destruct (ok_count _ _ H (ram s d / 4096 - 256) ltac:(lia)) as [Hc _].
  rewrite Hm in Hc. by injection Hc.
Qed.
Lemma refers_table d : Z.odd (ram s d) = true -> refers (ram s d / 4096 - 256) (ram s d) = 1.
Proof. intros Ho. rewrite refers_odd by done. by rewrite (proj2 (Z.eqb_eq _ _)) by lia. Qed.
Lemma ok_distinct : distinct_tables (ram s).
Proof.
  intros d d' Hd Hd' Ho Ho' E. destruct (Z.eq_dec d d') as [|Hne]; [done|exfalso].
  pose proof (table_total d Hd Ho) as Ht. pose proof (ok_owned _ _ H (ram s d / 4096 - 256)).
  pose proof (zsum_ge_two user_dirs (dir_refs (ram s) (ram s d / 4096 - 256)) d d') as G.
  fold (refs (ram s) (ram s d / 4096 - 256)) in G.
  specialize (G ltac:(intros; apply dir_refs_nonneg) ltac:(apply NoDup_seqZ) ltac:(seqz) ltac:(seqz) Hne).
  unfold dir_refs in G. rewrite Ho, Ho', (refers_table d) in G by done.
  rewrite E, (refers_table d') in G by done.
  pose proof (table_refs_nonneg (ram s) (ram s d' / 4096 - 256) d).
  pose proof (table_refs_nonneg (ram s) (ram s d' / 4096 - 256) d'). rewrite E in *. lia.
Qed.
(** No task has a page table mapped. *)
Lemma table_not_mapped d d' j :
  16 <= d < 1024 -> Z.odd (ram s d) = true -> 16 <= d' < 1024 -> Z.odd (ram s d') = true -> 0 <= j < 1024 ->
  refers (ram s d / 4096 - 256) (ram s (pte (ram s) d' j)) = 0.
Proof.
  intros Hd Ho Hd' Ho' Hj. set (f := ram s d / 4096 - 256).
  pose proof (table_total d Hd Ho) as Ht. fold f in Ht. pose proof (ok_owned _ _ H f).
  pose proof (refers_nonneg f (ram s (pte (ram s) d' j))).
  pose proof (refers_table d Ho) as Hf. fold f in Hf.
  destruct (Z.eq_dec d d') as [<-|Hne].
  - pose proof (pte_refs_le (ram s) f d j Hd Ho Hj). lia.
  - pose proof (zsum_ge_two user_dirs (dir_refs (ram s) f) d d') as G. fold (refs (ram s) f) in G.
    specialize (G ltac:(intros; apply dir_refs_nonneg) ltac:(apply NoDup_seqZ) ltac:(seqz) ltac:(seqz) Hne).
    unfold dir_refs in G. rewrite Ho, Ho', Hf in G.
    pose proof (table_refs_nonneg (ram s) f d). pose proof (refers_nonneg f (ram s d')).
    pose proof (zsum_ge entries (fun j => refers f (ram s (pte (ram s) d' j))) j
      ltac:(intros; apply refers_nonneg) ltac:(seqz)) as G'. cbn beta in G'.
    fold (table_refs (ram s) f d') in G'. lia.
Qed.
(** A page without references is no page table, nor mapped. *)
Lemma unused_not_table f d :
  refs (ram s) f = 0 -> 16 <= d < 1024 -> Z.odd (ram s d) = true -> ram s d / 4096 <> 256 + f.
Proof.
  intros Hf Hd Ho E. pose proof (dir_refs_le (ram s) f d Hd) as G. unfold dir_refs in G.
  rewrite Ho, refers_odd, (proj2 (Z.eqb_eq _ _) E) in G by done.
  pose proof (table_refs_nonneg (ram s) f d). lia.
Qed.
End Invariant.

(** ** Steps that keep the counts right

    What an operation does to [owned]: one more or one less reference to [f]. *)
Definition own (f : Z) (owned : Z -> Z) (g : Z) : Z := owned g + (if g =? f then 1 else 0).
Definition disown (f : Z) (owned : Z -> Z) (g : Z) : Z := owned g - (if g =? f then 1 else 0).

(** Only the counts and the words that the invariant reads matter. *)
Lemma mm_ok_ext owned owned' s s' :
  mm_ok owned s -> (forall f, owned' f = owned f) -> HIGH_MEMORY s' = HIGH_MEMORY s ->
  mem_map s' = mem_map s -> (forall w, ram s' w = ram s w) -> mm_ok owned' s'.
Proof.
  intros H Ho Hh Hm Hr.
  assert (forall f, refs (ram s') f = refs (ram s) f) as Hrefs by (intros; apply refs_ext; intros; apply Hr).
  assert (forall d j, pte (ram s') d j = pte (ram s) d j) as Hp by (intros; unfold pte; by rewrite Hr).
  split.
  - intros w. rewrite Hr. apply (ok_words _ _ H).
  - rewrite Hh. apply (ok_high _ _ H).
  - intros. rewrite Ho. apply (ok_owned _ _ H).
  - rewrite Hm. apply (ok_len _ _ H).
  - intros. rewrite Hm, Hrefs, Ho. by apply (ok_count _ _ H).
  - intros. rewrite Ho. apply (ok_top _ _ H); congruence.
  - intros d Hd. rewrite Hr, Hh, Hm. by apply (ok_dirs _ _ H).
  - intros d j Hd. rewrite Hp, !Hr, Hh. by apply (ok_ptes _ _ H).
Qed.

(** A page table entry is written. *)
Lemma mm_ok_pte owned owned' s s' d j v :
  mm_ok owned s -> 16 <= d < 1024 -> Z.odd (ram s d) = true -> 0 <= j < 1024 ->
  HIGH_MEMORY s' = HIGH_MEMORY s ->
  (forall w, ram s' w = if w =? pte (ram s) d j then v else ram s w) ->
  0 <= v < 4294967296 -> (Z.odd v = true -> v / 4096 < HIGH_MEMORY s / 4096) ->
  length (mem_map s') = 3840%nat ->
  (forall f, 0 <= owned' f) ->
  (forall f, 0 <= f < 3840 -> HIGH_MEMORY s <= 4096 * (256 + f) -> 0 < owned' f) ->
  (forall f, 0 <= f < 3840 -> let n := refs (ram s) f - refers f (ram s (pte (ram s) d j)) + refers f v + owned' f in
     mem_map s' !! Z.to_nat f = Some n /\ n <= 255) ->
  (forall d', 16 <= d' < 1024 -> Z.odd (ram s d') = true -> mem_map s' !! Z.to_nat (ram s d' / 4096 - 256) = Some 1) ->
  mm_ok owned' s'.
Proof.
  intros H Hd Ho Hj Hh Hr Hv Hvh Hlen Hown Htop Hcnt Htab.
  pose proof (ok_tables_high _ _ H) as Hth.
  assert (forall d', 16 <= d' < 1024 -> ram s' d' = ram s d') as Hdir.
  { intros d' Hd'. rewrite Hr. pose proof (Hth d Hd Ho). unfold pte.
    destruct (Z.eqb_spec d' (1024 * (ram s d / 4096) + j)); [lia|done]. }
  assert (forall f, refs (ram s') f = refs (ram s) f - refers f (ram s (pte (ram s) d j)) + refers f v) as Hrefs
    by (intros; apply refs_pte; try done; by eapply ok_distinct).
  split; [| |exact Hown|exact Hlen| | | |].
  - intros w. rewrite Hr. destruct (_ =? _); [done|]. apply (ok_words _ _ H).
  - rewrite Hh. apply (ok_high _ _ H).
  - intros f Hf. rewrite Hrefs. by apply Hcnt.
  - rewrite Hh. exact Htop.
  - intros d' Hd' Ho'. rewrite Hdir in Ho' |- * by done. rewrite Hh.
    destruct (ok_dirs _ _ H d' Hd' Ho') as [? _]. split; [done|]. by apply Htab.
  - intros d' j' Hd' Ho' Hj'. rewrite Hdir in Ho' by done. rewrite Hh.
    assert (pte (ram s') d' j' = pte (ram s) d' j') as -> by (unfold pte; by rewrite Hdir).
    rewrite Hr. destruct (_ =? _); [done|]. by apply (ok_ptes _ _ H).
Qed.

(** Words of a page that is no page table are written. *)
Lemma mm_ok_page owned s s' f :
  mm_ok owned s -> 0 <= f -> HIGH_MEMORY s' = HIGH_MEMORY s -> mem_map s' = mem_map s ->
  (forall d, 16 <= d < 1024 -> Z.odd (ram s d) = true -> ram s d / 4096 <> 256 + f) ->
  (forall w, 0 <= ram s' w < 4294967296) ->
  (forall w, w / 1024 <> 256 + f -> ram s' w = ram s w) -> mm_ok owned s'.
Proof.
  intros H Hf Hh Hm Hno Hw Hr.
  assert (forall d, 16 <= d < 1024 -> ram s' d = ram s d) as Hdir by (intros; apply Hr; dlia).
  assert (forall d j, 16 <= d < 1024 -> Z.odd (ram s d) = true -> 0 <= j < 1024 ->
    ram s' (pte (ram s) d j) = ram s (pte (ram s) d j)) as Hpte.
  { intros d j Hd Ho Hj. apply Hr. unfold pte. specialize (Hno d Hd Ho). dlia. }
  assert (forall f, refs (ram s') f = refs (ram s) f) as Hrefs by (intros; by apply refs_ext).
  split; [exact Hw| | | | | | |].
  - rewrite Hh. apply (ok_high _ _ H).
  - apply (ok_owned _ _ H).
  - rewrite Hm. apply (ok_len _ _ H).
  - intros. rewrite Hm, Hrefs. by apply (ok_count _ _ H).
  - rewrite Hh. apply (ok_top _ _ H).
  - intros d Hd. rewrite Hdir, Hh, Hm by done. by apply (ok_dirs _ _ H).
  - intros d j Hd Ho Hj. rewrite Hdir in Ho by done.
    assert (pte (ram s') d j = pte (ram s) d j) as -> by (unfold pte; by rewrite Hdir).
    rewrite Hpte, Hh by done. by apply (ok_ptes _ _ H).
Qed.

(** An empty table is entered in the directory. *)
Lemma mm_ok_new_table owned owned' s s' d f v :
  mm_ok owned' s -> (forall g, owned' g = own f owned g) -> (forall g, 0 <= owned g) ->
  0 <= f -> 256 + f < HIGH_MEMORY s / 4096 -> mem_map s !! Z.to_nat f = Some 1 ->
  16 <= d < 1024 -> Z.odd (ram s d) = false -> Z.odd v = true -> v / 4096 = 256 + f ->
  HIGH_MEMORY s' = HIGH_MEMORY s -> mem_map s' = mem_map s ->
  (forall w, ram s' w = if w =? d then v else ram s w) ->
  (forall j, 0 <= j < 1024 -> ram s (1024 * (256 + f) + j) = 0) -> mm_ok owned s'.
Proof.
  intros H Ho Hown Hf Hfh Hm1 Hd Hev Hodd Hv Hh Hm Hr Hz.
  pose proof (ok_tables_high _ _ H) as Hth. pose proof (high_pages _ _ H) as Hhp.
  assert (forall g, 0 <= g -> refs (ram s') g + owned g = refs (ram s) g + owned' g) as Hrefs.
  { intros g Hg. rewrite Ho. unfold own.
    rewrite (refs_dir (ram s) (ram s') d v g Hth Hd Hr) by lia.
    unfold dir_refs. rewrite Hev, Hodd, refers_even, refers_odd, Hv by done.
    rewrite zsum_zero.
    - destruct (Z.eqb_spec (256 + f) (256 + g)), (Z.eqb_spec g f); lia.
    - intros j Hj. apply elem_of_seqZ in Hj. rewrite Hz by lia. done. }
  assert (forall d', 16 <= d' < 1024 -> Z.odd (ram s d') = true -> ram s d' / 4096 <> 256 + f) as Hnot.
  { intros d' Hd' Ho' E. pose proof (table_total _ _ H d' Hd' Ho') as Ht.
    replace (ram s d' / 4096 - 256) with f in Ht by lia. rewrite Ho in Ht. unfold own in Ht.
    rewrite Z.eqb_refl in Ht. specialize (Hown f).
    assert (refs (ram s) f = 0) by (pose proof (refs_nonneg (ram s) f); lia).
    by eapply unused_not_table. }
  split; [| |exact Hown| | | | |].
  - intros w. rewrite Hr. destruct (_ =? _); [|apply (ok_words _ _ H)]. apply page_range. lia.
  - rewrite Hh. apply (ok_high _ _ H).
  - rewrite Hm. apply (ok_len _ _ H).
  - intros g Hg. rewrite Hrefs, Hm by lia. by apply (ok_count _ _ H).
  - intros g Hg Hgh. rewrite Hh in Hgh. pose proof (ok_top _ _ H g Hg Hgh) as G. rewrite Ho in G.
    unfold own in G. destruct (Z.eqb_spec g f); lia.
  - intros d' Hd'. rewrite Hr, Hh, Hm. destruct (Z.eqb_spec d' d) as [->|].
    + intros _. rewrite Hv. split; [lia|]. replace (256 + f - 256) with f by lia. done.
    + by apply (ok_dirs _ _ H).
  - intros d' j Hd' Ho' Hj. rewrite Hh. unfold pte. rewrite Hr in Ho' |- *. rewrite Hr.
    destruct (Z.eqb_spec d' d) as [->|].
    + rewrite Hv. destruct (Z.eqb_spec (1024 * (256 + f) + j) d); [lia|]. by rewrite Hz.
    + pose proof (Hth d' Hd' Ho'). destruct (Z.eqb_spec (1024 * (ram s d' / 4096) + j) d); [lia|].
      by apply (ok_ptes _ _ H).
Qed.

(** A table without present entries is taken out of the directory, and freed. *)
Lemma mm_ok_free_table owned s s' d :
  mm_ok owned s -> 16 <= d < 1024 -> Z.odd (ram s d) = true ->
  (forall j, 0 <= j < 1024 -> Z.odd (ram s (pte (ram s) d j)) = false) ->
  HIGH_MEMORY s' = HIGH_MEMORY s -> mem_map s' = <[Z.to_nat (ram s d / 4096 - 256) := 0]> (mem_map s) ->
  (forall w, ram s' w = if w =? d then 0 else ram s w) -> mm_ok owned s'.
Proof.
  intros H Hd Ho Hz Hh Hm Hr. set (f := ram s d / 4096 - 256) in *.
  pose proof (ok_tables_high _ _ H) as Hth. pose proof (high_pages _ _ H) as Hhp.
  pose proof (table_total _ _ H d Hd Ho) as Ht. fold f in Ht.
  destruct (ok_dirs _ _ H d Hd Ho) as [Hrange _].
  assert (forall g, refs (ram s') g = refs (ram s) g - (if g =? f then 1 else 0)) as Hrefs.
  { intros g. rewrite (refs_dir (ram s) (ram s') d 0 g Hth Hd Hr) by done.
    unfold dir_refs. rewrite Ho, (refers_odd g (ram s d)) by done. unfold table_refs.
    rewrite zsum_zero by (intros j Hj; apply elem_of_seqZ in Hj; apply refers_even, Hz; lia).
    rewrite refers_even by done. cbn [Z.odd].
    destruct (Z.eqb_spec (ram s d / 4096) (256 + g)), (Z.eqb_spec g f); unfold f in *; lia. }
  split.
  - intros w. rewrite Hr. destruct (_ =? _); [lia|apply (ok_words _ _ H)].
  - rewrite Hh. apply (ok_high _ _ H).
  - apply (ok_owned _ _ H).
  - rewrite Hm, length_insert. apply (ok_len _ _ H).
  - intros g Hg. rewrite Hrefs, Hm. destruct (ok_count _ _ H g Hg) as [Hc Hc'].
    destruct (Z.eqb_spec g f) as [->|Hne].
    + rewrite list_lookup_insert_eq; [split; [f_equal|]; lia|]. rewrite (ok_len _ _ H). lia.
    + rewrite list_lookup_insert_ne by lia. rewrite Hc. split; [f_equal|]; lia.
  - rewrite Hh. apply (ok_top _ _ H).
  - intros d' Hd'. rewrite Hr, Hh, Hm. destruct (Z.eqb_spec d' d) as [->|Hne]; [done|].
    intros Ho'. destruct (ok_dirs _ _ H d' Hd' Ho') as [Hr' Hm']. split; [done|].
    rewrite list_lookup_insert_ne; [done|]. intros E. apply Hne.
    apply (ok_distinct _ _ H d' d Hd' Hd Ho' Ho). unfold f in E. lia.
  - intros d' j Hd' Ho' Hj. rewrite Hh. unfold pte. rewrite Hr in Ho' |- *. rewrite Hr.
    destruct (Z.eqb_spec d' d) as [->|]; [done|].
    pose proof (Hth d' Hd' Ho'). destruct (Z.eqb_spec (1024 * (ram s d' / 4096) + j) d); [lia|].
    by apply (ok_ptes _ _ H).
Qed.

(** ** Pages *)
Lemma scasb_some l n i : scasb l n = Some i ->
  0 <= i < Z.of_nat n /\ l !! Z.to_nat i = Some 0 /\
  (forall g, i < g < Z.of_nat n -> l !! Z.to_nat g <> Some 0).
Proof.
  induction n as [|n IH]; [done|]. cbn [scasb]. destruct (decide (l !! n = Some 0)) as [E|E].
  - rewrite E. intros [= <-]. rewrite Nat2Z.id. split; [lia|]. split; [done|]. intros. lia.
  - intros Hs. assert (scasb l n = Some i) as Hs' by (destruct (l !! n) as [[]|]; solve [exact Hs|by destruct E]).
    destruct (IH Hs') as (? & ? & Hg). split; [lia|]. split; [done|]. intros g Hr.
    destruct (Z.eq_dec g (Z.of_nat n)) as [->|]; [by rewrite Nat2Z.id|]. apply Hg. lia.
Qed.
Lemma scasb_none l n : scasb l n = None -> forall g, 0 <= g < Z.of_nat n -> l !! Z.to_nat g <> Some 0.
Proof.
  induction n as [|n IH]; [intros; lia|]. cbn [scasb]. intros Hs g Hg.
  destruct (Z.eq_dec g (Z.of_nat n)) as [->|].
  - rewrite Nat2Z.id. intros E. by rewrite E in Hs.
  - apply IH; [|lia]. by destruct (l !! n) as [[]|].
Qed.

Lemma count_at_run i n s : 0 <= i -> mem_map s !! Z.to_nat i = Some n -> count_at i s = Done n s.
Proof. intros Hi Hn. unfold count_at, bind, get. rewrite (proj2 (Z.leb_le 0 i)), Hn by lia. done. Qed.
Lemma set_count_run i v s : 0 <= i < Z.of_nat (length (mem_map s)) -> 0 <= v < 256 ->
  set_count i v s = Done tt (s <| mem_map ::= <[Z.to_nat i := v]> |>).
Proof.
  intros Hi Hv. unfold set_count, bind, get.
  rewrite (proj2 (Z.leb_le 0 i)), (proj2 (Z.ltb_lt i _)) by lia. cbn [andb]. rewrite u8_id by lia. done.
Qed.

(** The words of the page [f]. *)
Lemma in_page w f : (4096 * (256 + f) / 4 <=? w) && (w <? 4096 * (256 + f) / 4 + 1024) = (w / 1024 =? 256 + f).
Proof.
  apply eq_bool_prop_intro. rewrite andb_True, !Is_true_true, Z.leb_le, Z.ltb_lt, Z.eqb_eq. dlia.
Qed.
Lemma word_addr p j : (4096 * p + 4 * j) / 4 = 1024 * p + j.
Proof. dlia. Qed.

(** What [get_free_page] promises. *)
Definition got_page (owned : Z -> Z) (s : mm) (page : Z) (s' : mm) : Prop :=
  (page = 0 /\ s' = s /\ forall f, 0 <= f < 3840 -> mem_map s !! Z.to_nat f <> Some 0) \/
  exists f, page = 4096 * (256 + f) /\ 0 <= f < 3840 /\ 256 + f < HIGH_MEMORY s / 4096 /\
    mem_map s !! Z.to_nat f = Some 0 /\ refs (ram s) f = 0 /\ owned f = 0 /\
    (forall g, f < g < 3840 -> mem_map s !! Z.to_nat g <> Some 0) /\
    HIGH_MEMORY s' = HIGH_MEMORY s /\ klog s' = klog s /\
    mem_map s' = <[Z.to_nat f := 1]> (mem_map s) /\
    (forall w, ram s' w = if w / 1024 =? 256 + f then 0 else ram s w) /\
    mm_ok (own f owned) s'.

(** A page of count 0 is taken. *)
Lemma own_ok owned s f :
  mm_ok owned s -> 0 <= f < 3840 -> mem_map s !! Z.to_nat f = Some 0 ->
  mm_ok (own f owned) (s <| mem_map ::= <[Z.to_nat f := 1]> |>).
Proof.
  intros H Hf Hz. pose proof (ok_len _ _ H) as Hlen. destruct (ok_count _ _ H f Hf) as [Hc _].
  rewrite Hz in Hc. injection Hc as Hc. pose proof (refs_nonneg (ram s) f). pose proof (ok_owned _ _ H f).
  split; cbn.
  - apply (ok_words _ _ H).
  - apply (ok_high _ _ H).
  - intros g. pose proof (ok_owned _ _ H g). unfold own. destruct (_ =? _); lia.
  - by rewrite length_insert.
  - intros g Hg'. destruct (ok_count _ _ H g Hg') as [Hc' Hc'']. unfold own.
    destruct (Z.eqb_spec g f) as [->|Hne].
    + rewrite list_lookup_insert_eq by lia. split; [f_equal|]; lia.
    + rewrite list_lookup_insert_ne by lia. rewrite Hc'. split; [f_equal|]; lia.
  - intros g Hg' Hh'. pose proof (ok_top _ _ H g Hg' Hh'). unfold own. destruct (_ =? _); lia.
  - intros d Hd Ho. destruct (ok_dirs _ _ H d Hd Ho) as [Hr Hm]. split; [done|].
    rewrite list_lookup_insert_ne; [done|].
    pose proof (unused_not_table s f d ltac:(lia) Hd Ho). lia.
  - apply (ok_ptes _ _ H).
Qed.

Lemma get_free_page_run owned s : mm_ok owned s -> wp get_free_page (got_page owned s) s.
Proof.
  intros H. unfold get_free_page. apply wp_bind, wp_get.
  destruct (scasb (mem_map s) (Z.to_nat PAGING_PAGES)) as [f|] eqn:Es.
  2:{ apply wp_ret. left. split; [done|]. split; [done|]. intros f Hf.
      apply (scasb_none _ _ Es). unfold PAGING_PAGES. lia. }
  destruct (scasb_some _ _ _ Es) as (Hf & Hz & Hg). unfold PAGING_PAGES in Hf, Hg.
  change (Z.of_nat (Z.to_nat 3840)) with 3840 in Hf, Hg. clear Es.
  pose proof (ok_len _ _ H) as Hlen. destruct (ok_count _ _ H f Hf) as [Hc _].
  rewrite Hz in Hc. injection Hc as Hc. pose proof (refs_nonneg (ram s) f).
  pose proof (ok_owned _ _ H f). pose proof (high_pages _ _ H).
  assert (256 + f < HIGH_MEMORY s / 4096) as Hhigh.
  { destruct (Z.lt_ge_cases (256 + f) (HIGH_MEMORY s / 4096)) as [|Hge]; [done|].
    pose proof (ok_top _ _ H f Hf). lia. }
  apply wp_bind. unfold wp at 1. rewrite set_count_run by lia.
  unfold clear_page. apply wp_bind, wp_modify, wp_ret. right. exists f.
  rewrite Z.shiftl_mul_pow2 by lia. unfold LOW_MEM. change (2 ^ 12) with 4096.
  replace (f * 4096 + 1048576) with (4096 * (256 + f)) by lia.
  split; [done|]. repeat (split; [solve [lia|exact Hg|reflexivity|assumption]|]). split.
  { intros w. cbn -[Z.mul Z.div Z.add]. by rewrite in_page. }
  assert (forall d, 16 <= d < 1024 -> Z.odd (ram s d) = true -> ram s d / 4096 <> 256 + f) as Hnot
    by (intros; apply (unused_not_table s f); (done || lia)).
  apply (mm_ok_page (own f owned) (s <| mem_map ::= <[Z.to_nat f := 1]> |>) _ f).
  - by apply own_ok.
  - lia.
  - done.
  - done.
  - exact Hnot.
  - intros w. cbn -[Z.mul Z.div Z.add]. destruct (_ && _); [lia|]. apply (ok_words _ _ H).
  - intros w Hw. cbn -[Z.mul Z.div Z.add]. rewrite in_page.
    destruct (Z.eqb_spec (w / 1024) (256 + f)); [done|]. done.
Qed.

Lemma free_page_low a s : a < 1048576 -> free_page a s = Done tt s.
Proof. intros Ha. unfold free_page, bind, get. by rewrite (proj2 (Z.ltb_lt a LOW_MEM)) by exact Ha. Qed.
Lemma free_page_run s f n :
  0 <= f < Z.of_nat (length (mem_map s)) -> 4096 * (256 + f) < HIGH_MEMORY s < 4294967296 ->
  mem_map s !! Z.to_nat f = Some n -> 0 < n <= 255 ->
  free_page (4096 * (256 + f)) s = Done tt (s <| mem_map ::= <[Z.to_nat f := n - 1]> |>).
Proof.
  intros Hf Hh Hn Hr. unfold free_page, LOW_MEM. cbn [bind get].
  destruct (Z.ltb_spec (4096 * (256 + f)) 1048576); [lia|].
  rewrite u32_id by lia. destruct (Z.leb_spec (HIGH_MEMORY s) (4096 * (256 + f))); [lia|].
  replace (4096 * (256 + f) - 1048576) with (f * 2 ^ 12) by lia.
  rewrite Z.shiftr_div_pow2, Z.div_mul by lia. unfold bind at 1 2, get.
  rewrite (count_at_run f n s) by (done || lia). unfold bind.
  rewrite set_count_run by lia. unfold truth. destruct (Z.eqb_spec n 0); [lia|]. done.
Qed.

(** ** Freeing page tables *)
Lemma wp_run_done {A} (m : M mm A) a s s' (Q : A -> mm -> Prop) : m s = Done a s' -> Q a s' -> wp m Q s.
Proof. unfold wp. by intros ->. Qed.
Lemma wp_rd a (Q : Z -> mm -> Prop) s : Q (ram s (a / 4)) s -> wp (rd a) Q s.
Proof. done. Qed.
Lemma wp_wr a v (Q : unit -> mm -> Prop) s :
  Q tt (s <| ram ::= fun r w => if w =? a / 4 then v else r w |>) -> wp (wr a v) Q s.
Proof. done. Qed.

(** A mapped page of the pool has its count. *)
Lemma mapped_count owned s d j :
  mm_ok owned s -> 16 <= d < 1024 -> Z.odd (ram s d) = true -> 0 <= j < 1024 ->
  let e := ram s (pte (ram s) d j) in Z.odd e = true -> 256 <= e / 4096 ->
  let f := e / 4096 - 256 in
  0 <= f < 3840 /\ e / 4096 < HIGH_MEMORY s / 4096 /\
  exists n, mem_map s !! Z.to_nat f = Some n /\ n = refs (ram s) f + owned f /\ 0 < n <= 255 /\
    (forall d', 16 <= d' < 1024 -> Z.odd (ram s d') = true -> ram s d' / 4096 - 256 <> f).
Proof.
  intros H Hd Ho Hj e Hoe He f. pose proof (high_pages _ _ H) as Hh.
  pose proof (ok_ptes _ _ H d j Hd Ho Hj Hoe) as Hp. fold e in Hp.
  assert (0 <= f < 3840) as Hf by (unfold f; lia). split; [done|]. split; [done|].
  destruct (ok_count _ _ H f Hf) as [Hc Hc']. eexists. split; [exact Hc|]. split; [done|].
  pose proof (pte_refs_le (ram s) f d j Hd Ho Hj) as G. fold e in G.
  assert (refers f e = 1) as E1.
  { rewrite refers_odd by done. unfold f. by rewrite (proj2 (Z.eqb_eq _ _)) by lia. }
  pose proof (refers_nonneg f (ram s d)). pose proof (ok_owned _ _ H f). split; [lia|].
  intros d' Hd' Ho' E. pose proof (table_not_mapped _ _ H d' d j Hd' Ho' Hd Ho Hj) as E0.
  fold e in E0. rewrite E in E0. lia.
Qed.

(** What an operation on the tables of the directory entry [d] may not touch. *)
Definition same_elsewhere (d : Z) (s s' : mm) : Prop :=
  HIGH_MEMORY s' = HIGH_MEMORY s /\ klog s' = klog s /\
  forall w, w <> d -> (Z.odd (ram s d) = true -> w / 1024 <> ram s d / 4096) -> ram s' w = ram s w.

Lemma free_entry_ok owned s d j :
  mm_ok owned s -> 16 <= d < 1024 -> Z.odd (ram s d) = true -> 0 <= j < 1024 ->
  wp (free_entry (Z.land 4294963200 (ram s d)) j)
     (fun _ s' => mm_ok owned s' /\ HIGH_MEMORY s' = HIGH_MEMORY s /\ klog s' = klog s /\
        forall w, ram s' w = if w =? pte (ram s) d j then 0 else ram s w) s.
Proof.
  intros H Hd Ho Hj. unfold free_entry.
  rewrite mask_page by apply (ok_words _ _ H). apply wp_bind, wp_rd. rewrite word_addr.
  fold (pte (ram s) d j). set (e := ram s (pte (ram s) d j)).
  assert (0 <= e < 4294967296) as He by apply (ok_words _ _ H).
  rewrite odd_truth, mask_page by done. pose proof (high_pages _ _ H) as Hh.
  apply wp_bind.
  assert (forall s', HIGH_MEMORY s' = HIGH_MEMORY s -> length (mem_map s') = 3840%nat ->
    ram s' = (fun w => if w =? pte (ram s) d j then 0 else ram s w) ->
    (forall f, 0 <= f < 3840 -> mem_map s' !! Z.to_nat f = Some (refs (ram s) f - refers f e + owned f)
        /\ refs (ram s) f - refers f e + owned f <= 255) ->
    (forall d', 16 <= d' < 1024 -> Z.odd (ram s d') = true ->
       mem_map s' !! Z.to_nat (ram s d' / 4096 - 256) = Some 1) -> mm_ok owned s') as Hfin.
  { intros s' Hh' Hl' Hr' Hc' Hd'. apply (mm_ok_pte owned owned s s' d j 0); try done.
    - intros w. by rewrite Hr'.
    - apply (ok_owned _ _ H).
    - apply (ok_top _ _ H).
    - intros f Hf. fold e. rewrite (refers_even f 0), Z.add_0_r by done. cbn zeta. by apply Hc'. }
  destruct (Z.odd e) eqn:Hoe; cbn [when].
  2:{ apply wp_ret, wp_wr. rewrite word_addr. fold (pte (ram s) d j). split; [|done].
      apply Hfin; cbn; try done.
      - apply (ok_len _ _ H).
      - intros f Hf. rewrite refers_even, Z.sub_0_r by done. by apply (ok_count _ _ H).
      - intros. by apply (ok_dirs _ _ H). }
  destruct (Z.lt_ge_cases (e / 4096) 256) as [Hlow|Hge].
  { eapply wp_run_done; [apply free_page_low; lia|]. apply wp_wr. rewrite word_addr.
    fold (pte (ram s) d j). split; [|done]. apply Hfin; cbn; try done.
    - apply (ok_len _ _ H).
    - intros f Hf. rewrite refers_odd by done. destruct (Z.eqb_spec (e / 4096) (256 + f)); [lia|].
      rewrite Z.sub_0_r. by apply (ok_count _ _ H).
    - intros. by apply (ok_dirs _ _ H). }
  destruct (mapped_count _ _ _ _ H Hd Ho Hj Hoe Hge) as (Hf & Hfh & n & Hn & En & Hnr & Hnt).
  fold e in Hf, Hfh, Hn, En, Hnt. set (f := e / 4096 - 256) in *.
  replace (e / 4096) with (256 + f) by (unfold f; lia).
  eapply wp_run_done.
  { apply (free_page_run s f n); [rewrite (ok_len _ _ H); lia| |done|done].
    destruct (ok_high _ _ H). lia. }
  apply wp_wr. rewrite word_addr. fold (pte (ram s) d j). split; [|done]. apply Hfin; cbn; try done.
  - rewrite length_insert. apply (ok_len _ _ H).
  - intros g Hg. rewrite refers_odd by done. destruct (ok_count _ _ H g Hg) as [Hc Hc'].
    destruct (Z.eqb_spec (e / 4096) (256 + g)) as [E|Hne].
    + assert (g = f) as -> by (unfold f; lia).
      rewrite list_lookup_insert_eq by (rewrite (ok_len _ _ H); lia). split; [f_equal|]; lia.
    + rewrite list_lookup_insert_ne by (unfold f; lia). rewrite Hc. split; [f_equal|]; lia.
  - intros d' Hd' Ho'. destruct (ok_dirs _ _ H d' Hd' Ho') as [Hr Hm].
    rewrite list_lookup_insert_ne; [done|]. specialize (Hnt d' Hd' Ho'). lia.
Qed.

Lemma free_dir_ok owned s d :
  mm_ok owned s -> 16 <= d < 1024 ->
  wp (free_dir (4 * d)) (fun _ s' => mm_ok owned s' /\ same_elsewhere d s s' /\ Z.odd (ram s' d) = false) s.
Proof.
  intros H Hd. unfold free_dir. apply wp_bind, wp_rd. rewrite (Z.mul_comm 4 d), Z.div_mul by lia.
  rewrite odd_truth. destruct (Z.odd (ram s d)) eqn:Ho; cbn [negb].
  2:{ apply wp_ret. unfold same_elsewhere. done. }
  pose proof (ok_tables_high _ _ H d Hd Ho) as Hth. apply wp_bind.
  eapply wp_mono.
  { apply (wp_for_seq 1024 (free_entry (Z.land 4294963200 (ram s d))) (fun i s' =>
      mm_ok owned s' /\ HIGH_MEMORY s' = HIGH_MEMORY s /\ klog s' = klog s /\
      forall w, ram s' w = if (pte (ram s) d 0 <=? w) && (w <? pte (ram s) d i) then 0 else ram s w) 0);
      [lia| |].
    - intros j s1 Hj (H1 & Hh1 & Hk1 & Hr1).
      assert (ram s1 d = ram s d) as Hd1.
      { rewrite Hr1. unfold pte. destruct (Z.leb_spec (1024 * (ram s d / 4096) + 0) d); [lia|done]. }
      rewrite <- Hd1 at 1. eapply wp_mono; [apply (free_entry_ok owned s1 d j)|]; try done; [by rewrite Hd1|].
      intros [] s2 (H2 & Hh2 & Hk2 & Hr2). split; [done|]. split; [congruence|]. split; [congruence|].
      intros w. rewrite Hr2, Hr1. unfold pte. rewrite Hd1.
      destruct (Z.eqb_spec w (1024 * (ram s d / 4096) + j)),
        (Z.leb_spec (1024 * (ram s d / 4096) + 0) w),
        (Z.ltb_spec w (1024 * (ram s d / 4096) + j)),
        (Z.ltb_spec w (1024 * (ram s d / 4096) + (j + 1))); cbn; (lia || done).
    - split; [done|]. split; [done|]. split; [done|]. intros w. unfold pte.
      destruct (Z.leb_spec (1024 * (ram s d / 4096) + 0) w), (Z.ltb_spec w (1024 * (ram s d / 4096) + 0)); cbn; (lia || done). }
  cbn beta. intros [] s1 (H1 & Hh1 & Hk1 & Hr1). change (0 + 1024) with 1024 in Hr1.
  assert (ram s1 d = ram s d) as Hd1.
  { rewrite Hr1. unfold pte. destruct (Z.leb_spec (1024 * (ram s d / 4096) + 0) d); [lia|done]. }
  apply wp_bind, wp_rd. rewrite Z.div_mul, mask_page by (apply (ok_words _ _ H1) || lia).
  destruct (ok_dirs _ _ H1 d Hd) as [Hrange Hm]; [by rewrite Hd1|].
  pose proof (high_pages _ _ H1) as Hhp. destruct (ok_high _ _ H1) as [_ Hhr].
  apply wp_bind. replace (ram s1 d / 4096) with (256 + (ram s1 d / 4096 - 256)) at 1 by lia.
  eapply wp_run_done.
  { apply (free_page_run s1 (ram s1 d / 4096 - 256) 1); [rewrite (ok_len _ _ H1); lia|lia|done|lia]. }
  apply wp_wr. rewrite Z.div_mul by lia. split; [|split].
  - apply (mm_ok_free_table owned s1 _ d); try done; [by rewrite Hd1|].
    intros j Hj. unfold pte. rewrite Hd1, Hr1. unfold pte.
    rewrite (proj2 (Z.leb_le _ _)), (proj2 (Z.ltb_lt _ _)) by lia. done.
  - split; [done|]. split; [done|]. intros w Hw Hw'. cbn. rewrite (proj2 (Z.eqb_neq w d)) by done.
    rewrite Hr1. specialize (Hw' Ho). unfold pte.
    destruct (Z.leb_spec (1024 * (ram s d / 4096) + 0) w), (Z.ltb_spec w (1024 * (ram s d / 4096) + 1024)); cbn; (dlia || done).
  - cbn. by rewrite Z.eqb_refl.
Qed.

(** The words of the directory entries [d0 .. d0 + n - 1] and of their tables. *)
Definition outside (r : Z -> Z) (d0 n w : Z) : Prop :=
  forall d, d0 <= d < d0 + n -> w <> d /\ (Z.odd (r d) = true -> w / 1024 <> r d / 4096).
Definition dirs_of (size : Z) : Z := (size + 4194303) / 4194304.

Lemma aligned_test a : a mod 4194304 = 0 -> truth (Z.land a 4194303) = false.
Proof. intros Ha. change 4194303 with (Z.ones 22). rewrite Z.land_ones by lia. change (2 ^ 22) with 4194304. by rewrite Ha. Qed.
Lemma size_test size : 0 <= size <= 4227858432 -> Z.shiftr (u32 (size + 4194303)) 22 = dirs_of size.
Proof. intros. rewrite u32_id, Z.shiftr_div_pow2 by lia. done. Qed.
Lemma dir_of a : a mod 4194304 = 0 -> 0 <= a < 4294967296 -> Z.land (Z.shiftr a 20) 4092 = 4 * (a / 4194304).
Proof. intros. rewrite dir_index by lia. rewrite Z.mod_small; dlia. Qed.

(** C27: freeing the page tables of an address range never fails on a consistent
    memory, takes the whole range out of the directory and touches no word
    outside it; the counts of all the pages stay right, so every page and table
    that only the range referred to is free afterwards and no other page is. *)
Theorem free_page_tables_ok owned s from size :
  mm_ok owned s -> from mod 4194304 = 0 -> 67108864 <= from < 4294967296 -> 0 <= size -> from + size <= 4294967296 ->
  wp (free_page_tables from size) (fun r s' =>
    r = 0 /\ mm_ok owned s' /\
    (forall d, from / 4194304 <= d < from / 4194304 + dirs_of size -> Z.odd (ram s' d) = false) /\
    (forall w, outside (ram s) (from / 4194304) (dirs_of size) w -> ram s' w = ram s w)) s.
Proof.
  intros H Ha Hfrom Hsize Hend. unfold free_page_tables.
  rewrite aligned_test, (proj2 (Z.eqb_neq from 0)), size_test, dir_of by (done || lia).
  set (d0 := from / 4194304). set (n := dirs_of size).
  assert (16 <= d0 /\ 0 <= n /\ d0 + n <= 1024) as (Hd0 & Hn & Hdn) by (unfold d0, n, dirs_of; dlia).
  apply wp_bind. eapply wp_mono.
  { apply (wp_for_seq n (fun i => free_dir (4 * d0 + 4 * i)) (fun i s' => mm_ok owned s' /\
      (forall d, d0 <= d < d0 + i -> Z.odd (ram s' d) = false) /\
      (forall d, d0 + i <= d < 1024 -> ram s' d = ram s d) /\
      (forall w, outside (ram s) d0 i w -> ram s' w = ram s w)) 0); [done| |].
    - intros i s1 Hi (H1 & Hoff1 & Hdir1 & Hout1).
      replace (4 * d0 + 4 * i) with (4 * (d0 + i)) by lia.
      eapply wp_mono; [apply (free_dir_ok owned s1 (d0 + i)); [done|lia]|].
      intros [] s2 (H2 & (_ & _ & He2) & Hoff2).
      assert (forall d, 16 <= d < 1024 -> d <> d0 + i -> ram s2 d = ram s1 d) as Hdir2.
      { intros d Hd Hne. apply He2; [done|]. intros Ho.
        pose proof (ok_tables_high _ _ H1 (d0 + i) ltac:(lia) Ho). dlia. }
      split; [done|]. split; [|split].
      + intros d Hd. destruct (Z.eq_dec d (d0 + i)) as [->|]; [done|].
        rewrite Hdir2 by lia. apply Hoff1. lia.
      + intros d Hd. rewrite Hdir2 by lia. apply Hdir1. lia.
      + intros w Hw. destruct (Hw (d0 + i)) as [Hw1 Hw2]; [lia|]. rewrite He2.
        * apply Hout1. intros d Hd. apply Hw. lia.
        * done.
        * by rewrite Hdir1 by lia.
    - split; [done|]. split; [intros; lia|]. done. }
  cbn beta. intros [] s' (H' & Hoff & _ & Hout). apply wp_ret. rewrite Z.add_0_l in *. done.
Qed.

(** A boot memory of 16 megabytes with the pool from 1 megabyte + 4 pages on. *)
Definition boot_mm : mm :=
  mk_mm 16777216 (replicate 4 100 ++ replicate 3836 0) (fun _ => 0) [].
Definition boot_owned (f : Z) : Z := if (0 <=? f) && (f <? 4) then 100 else 0.
Lemma refs_no_dirs r f : (forall d, 16 <= d < 1024 -> Z.odd (r d) = false) -> refs r f = 0.
Proof.
  intros Hr. apply zsum_zero. intros d Hd. apply elem_of_seqZ in Hd. unfold dir_refs.
  rewrite refers_even, Hr by (apply Hr; lia) || lia. done.
Qed.
Lemma boot_mm_ok : mm_ok boot_owned boot_mm.
Proof.
  assert (forall f, refs (ram boot_mm) f = 0) as Hrefs by (intros; by apply refs_no_dirs).
  split; try done.
  - intros f. unfold boot_owned. destruct (_ && _); lia.
  - intros f Hf. rewrite Hrefs. unfold boot_owned.
    destruct (Z.leb_spec 0 f), (Z.ltb_spec f 4); cbn [andb]; try lia; (split; [|lia]); unfold boot_mm; cbn [mem_map].
    + rewrite lookup_app_l by (rewrite length_replicate; lia). by rewrite lookup_replicate_2 by lia.
    + rewrite lookup_app_r by (rewrite length_replicate; lia). rewrite length_replicate.
      by rewrite lookup_replicate_2 by lia.
  - cbn. intros. lia.
Qed.

Lemma free_page_tables_ok_witness :
  wp (free_page_tables 67108864 8388608) (fun r s' => r = 0 /\ mm_ok boot_owned s') boot_mm.
Proof.
  eapply wp_mono; [apply (free_page_tables_ok boot_owned boot_mm 67108864 8388608 boot_mm_ok); [reflexivity|lia..]|].
  intros r s' (Hr & H' & _). exact (conj Hr H').
Defined.

(** A page from [get_free_page] is the highest one with count 0, which no page
    table and nobody else refers to; it comes with count 1 and filled with
    zeros, and no other word changes; the answer is 0 exactly when every
    page is in use.  Giving the page back restores all the counts. *)
Theorem get_free_page_ok owned s :
  mm_ok owned s ->
  wp get_free_page (fun page s1 => got_page owned s page s1 /\
    wp (free_page page) (fun _ s2 => mem_map s2 = mem_map s /\ ram s2 = ram s1) s1) s.
Proof.
  intros H. eapply wp_mono; [by apply (get_free_page_run owned)|]. intros page s1 G. split; [done|].
  destruct G as [(-> & -> & _)|(f & -> & Hf & Hh & Hz & _ & _ & _ & Hh1 & _ & Hm1 & _ & H1)].
  - eapply wp_run_done; [apply free_page_low; lia|]. done.
  - pose proof (high_pages _ _ H). destruct (ok_high _ _ H1). pose proof (ok_len _ _ H).
    eapply wp_run_done.
    { apply (free_page_run s1 f 1); [rewrite (ok_len _ _ H1); lia|lia| |lia].
      rewrite Hm1. apply list_lookup_insert_eq. lia. }
    split; [|done]. cbn. rewrite Hm1, list_insert_insert_eq. by apply list_insert_id.
Qed.
Lemma get_free_page_ok_witness : wp get_free_page (fun page s1 => got_page boot_owned boot_mm page s1) boot_mm.
Proof.
  eapply wp_mono; [apply (get_free_page_ok boot_owned boot_mm boot_mm_ok)|]. intros page s1 [G _]. exact G.
Defined.

(** ** Copying page tables *)

(** The entry of the copy, and what becomes of the original. *)
Definition shared (x : Z) : Z := if Z.odd x then wp_bit x else 0.
Definition guarded (x : Z) : Z := if Z.odd x && (1048576 <=? x) then wp_bit x else x.

Lemma pool_test y : Z.odd y = true -> (LOW_MEM <? y) = (256 <=? y / 4096).
Proof.
  intros Ho. unfold LOW_MEM. destruct (Z.leb_spec 256 (y / 4096)); [|apply Z.ltb_ge; dlia].
  apply Z.ltb_lt. assert (y <> 1048576); [by intros ->|dlia].
Qed.
Lemma guarded_test x : (1048576 <=? x) = (256 <=? x / 4096).
Proof. destruct (Z.leb_spec 256 (x / 4096)); [apply Z.leb_le|apply Z.leb_gt]; dlia. Qed.
Lemma refers_wp_bit f x : refers f (wp_bit x) = refers f x.
Proof. apply refers_same; [apply wp_bit_odd|apply wp_bit_page]. Qed.

Section CopyEntry.
Context (owned : Z -> Z) (s : mm) (d e j : Z).
Hypothesis (H : mm_ok owned s) (Hd : 16 <= d < 1024) (He : 16 <= e < 1024) (Hde : d <> e).
Hypothesis (Hod : Z.odd (ram s d) = true) (Hoe : Z.odd (ram s e) = true) (Hj : 0 <= j < 1024).
Hypothesis (Hempty : Z.odd (ram s (pte (ram s) e j)) = false).
Let x := ram s (pte (ram s) d j).

Lemma ptes_differ i k : 0 <= i < 1024 -> 0 <= k < 1024 -> pte (ram s) d i <> pte (ram s) e k.
Proof.
  intros Hi Hk E. apply Hde. apply (ok_distinct _ _ H d e Hd He Hod Hoe). unfold pte in E. lia.
Qed.

(** The two writes and the increment of [copy_entry], on a page of the pool. *)
Definition copied_entry : mm :=
  s <| ram ::= fun r w => if w =? pte (ram s) d j then wp_bit x
                          else if w =? pte (ram s) e j then wp_bit x else r w |>
    <| mem_map ::= <[Z.to_nat (x / 4096 - 256) := refs (ram s) (x / 4096 - 256) + owned (x / 4096 - 256) + 1]> |>.

Lemma copied_entry_ok :
  Z.odd x = true -> 256 <= x / 4096 ->
  refs (ram s) (x / 4096 - 256) + owned (x / 4096 - 256) < 255 -> mm_ok owned copied_entry.
Proof.
  intros Hox Hx Hb. set (f := x / 4096 - 256) in *.
  destruct (mapped_count _ _ _ _ H Hd Hod Hj Hox Hx) as (Hf & Hfh & n & Hn & En & Hnr & Hnt).
  fold x f in Hf, Hfh, Hn, En, Hnt. unfold copied_entry. fold f.
  pose proof (wp_bit_range x ltac:(apply (ok_words _ _ H))) as Hwr.
  set (s1 := s <| ram ::= fun r w => if w =? pte (ram s) e j then wp_bit x else r w |>
               <| mem_map ::= <[Z.to_nat f := refs (ram s) f + owned f + 1]> |>).
  assert (forall d', 16 <= d' < 1024 -> Z.odd (ram s d') = true ->
    mem_map s1 !! Z.to_nat (ram s d' / 4096 - 256) = Some 1) as Htab.
  { intros d' Hd' Ho'. destruct (ok_dirs _ _ H d' Hd' Ho') as [? Hm]. cbn.
    rewrite list_lookup_insert_ne; [done|]. specialize (Hnt d' Hd' Ho'). lia. }
  assert (mm_ok owned s1) as H1.
  { apply (mm_ok_pte owned owned s s1 e j (wp_bit x)); try done.
    - intros _. by rewrite wp_bit_page.
    - cbn. rewrite length_insert. apply (ok_len _ _ H).
    - apply (ok_owned _ _ H).
    - apply (ok_top _ _ H).
    - intros g Hg. cbn. rewrite refers_even, refers_wp_bit, refers_odd by done.
      destruct (ok_count _ _ H g Hg) as [Hc Hc']. destruct (Z.eqb_spec (x / 4096) (256 + g)) as [E|Hne].
      + assert (g = f) as -> by (unfold f; lia).
        rewrite list_lookup_insert_eq by (rewrite (ok_len _ _ H); lia). split; [f_equal|]; lia.
      + rewrite list_lookup_insert_ne by (unfold f; lia). rewrite Hc. split; [f_equal|]; lia. }
  assert (forall d', 16 <= d' < 1024 -> ram s1 d' = ram s d') as Hdir.
  { intros d' Hd'. cbn. pose proof (ok_tables_high _ _ H e He Hoe). unfold pte.
    destruct (Z.eqb_spec d' (1024 * (ram s e / 4096) + j)); [lia|done]. }
  assert (forall i, pte (ram s1) d i = pte (ram s) d i) as Hpte by (intros; unfold pte; by rewrite Hdir).
  assert (ram s1 (pte (ram s) d j) = x) as Hx1.
  { cbn. by rewrite (proj2 (Z.eqb_neq _ _)) by (by apply ptes_differ). }
  apply (mm_ok_pte owned owned s1 _ d j (wp_bit x)); try done.
  - by rewrite Hdir.
  - intros w. rewrite Hpte. done.
  - intros _. by rewrite wp_bit_page.
  - apply (ok_len _ _ H1).
  - apply (ok_owned _ _ H).
  - apply (ok_top _ _ H1).
  - intros g Hg. rewrite Hpte, Hx1, refers_wp_bit. destruct (ok_count _ _ H1 g Hg) as [Hc Hc'].
    cbn zeta. replace (refs (ram s1) g - refers g x + refers g x + owned g)
      with (refs (ram s1) g + owned g) by lia. done.
  - intros d' Hd'. rewrite Hdir by done. by apply Htab.
Qed.

Lemma copy_entry_ok :
  (forall f, 0 <= f < 3840 -> refers f x = 1 -> refs (ram s) f + owned f < 255) ->
  wp (copy_entry (4096 * (ram s d / 4096) + 4 * j) (4096 * (ram s e / 4096) + 4 * j))
     (fun _ s' => mm_ok owned s' /\ HIGH_MEMORY s' = HIGH_MEMORY s /\ klog s' = klog s /\
        (forall f, 0 <= f < 3840 -> refs (ram s') f = refs (ram s) f + refers f x) /\
        forall w, ram s' w = if w =? pte (ram s) e j then (if Z.odd x then wp_bit x else ram s w)
                             else if w =? pte (ram s) d j then guarded x else ram s w) s.
Proof.
  intros Hb. unfold copy_entry. apply wp_bind, wp_rd. rewrite !word_addr.
  fold (pte (ram s) d j) (pte (ram s) e j). fold x. rewrite odd_truth.
  pose proof (ok_tables_high _ _ H) as Hth. pose proof (ok_distinct _ _ H) as Hdist.
  destruct (Z.odd x) eqn:Hox; cbn [negb].
  2:{ apply wp_ret. split; [done|]. split; [done|]. split; [done|]. split.
      - intros f _. rewrite refers_even by done. lia.
      - intros w. unfold guarded. rewrite Hox. cbn [andb]. destruct (_ =? pte (ram s) e j); [done|].
        by destruct (Z.eqb_spec w (pte (ram s) d j)) as [->|]. }
  fold (wp_bit x). apply wp_bind, wp_wr. rewrite word_addr. fold (pte (ram s) e j).
  rewrite pool_test, wp_bit_page by (by rewrite wp_bit_odd).
  destruct (Z.leb_spec 256 (x / 4096)) as [Hx|Hx]; cbn [when].
  - unfold MAP_NR, LOW_MEM. apply wp_bind, wp_wr. rewrite word_addr. fold (pte (ram s) d j).
    replace (Z.shiftr (wp_bit x - 1048576) 12) with (x / 4096 - 256).
    2:{ rewrite Z.shiftr_div_pow2 by lia. rewrite <- (wp_bit_page x). change (2 ^ 12) with 4096. dlia. }
    destruct (mapped_count _ _ _ _ H Hd Hod Hj Hox Hx) as (Hf & Hfh & n & Hn & En & Hnr & Hnt).
    fold x in Hf, Hfh, Hn, En. apply wp_bind. eapply wp_run_done.
    { apply count_at_run; [lia|exact Hn]. }
    assert (refs (ram s) (x / 4096 - 256) + owned (x / 4096 - 256) < 255) as Hb'.
    { apply Hb; [lia|]. rewrite refers_odd by done. by rewrite (proj2 (Z.eqb_eq _ _)) by lia. }
    eapply wp_run_done.
    { apply set_count_run; cbn; [rewrite (ok_len _ _ H); lia|lia]. }
    rewrite En. pose proof (copied_entry_ok Hox Hx Hb') as H'.
    split; [exact H'|]. split; [done|]. split; [done|]. split.
    + intros f Hf'. destruct (ok_count _ _ H' f Hf') as [Hc _]. destruct (ok_count _ _ H f Hf') as [Hc0 _].
      cbn in Hc. rewrite refers_odd by done. destruct (Z.eqb_spec (x / 4096) (256 + f)) as [E|Hne].
      * replace (x / 4096 - 256) with f in Hc by lia.
        rewrite list_lookup_insert_eq in Hc by (rewrite (ok_len _ _ H); lia). injection Hc as Hc. cbn. lia.
      * rewrite list_lookup_insert_ne, Hc0 in Hc by lia. injection Hc as Hc. cbn. lia.
    + intros w. cbn. unfold guarded. rewrite Hox, guarded_test, (proj2 (Z.leb_le _ _) Hx). cbn [andb].
      destruct (Z.eqb_spec w (pte (ram s) e j)) as [->|]; [|done].
      by rewrite (proj2 (Z.eqb_neq _ _)) by (intros E; symmetry in E; by apply ptes_differ in E).
  - apply wp_ret. match goal with |- mm_ok _ ?s1 /\ _ => assert (mm_ok owned s1) as H' end.
    { apply (mm_ok_pte owned owned s _ e j (wp_bit x)); try done.
      - apply wp_bit_range, (ok_words _ _ H).
      - intros _. rewrite wp_bit_page. pose proof (high_pages _ _ H). lia.
      - apply (ok_len _ _ H).
      - apply (ok_owned _ _ H).
      - apply (ok_top _ _ H).
      - intros g Hg. cbn. rewrite refers_even, refers_wp_bit, refers_odd by done.
        rewrite (proj2 (Z.eqb_neq _ _)) by lia. rewrite Z.sub_0_r, Z.add_0_r. by apply (ok_count _ _ H).
      - apply (ok_dirs _ _ H). }
    split; [done|]. split; [done|]. split; [done|]. split.
    + intros f Hf. destruct (ok_count _ _ H' f Hf) as [Hc _]. destruct (ok_count _ _ H f Hf) as [Hc0 _].
      cbn in Hc. rewrite Hc0 in Hc. injection Hc as Hc. rewrite refers_odd by done.
      rewrite (proj2 (Z.eqb_neq _ _)) by lia. cbn. lia.
    + intros w. cbn. unfold guarded. rewrite guarded_test, (proj2 (Z.leb_gt _ _) Hx), andb_false_r.
      destruct (_ =? pte (ram s) e j); [done|]. by destruct (Z.eqb_spec w (pte (ram s) d j)) as [->|].
Qed.
End CopyEntry.

(** The entries of the directory entry [d] in [s] as the entries of [e] in [s']. *)
Definition copied (s s' : mm) (d e : Z) : Prop :=
  if Z.odd (ram s d) then
    Z.odd (ram s' e) = true /\
    forall j, 0 <= j < 1024 ->
      ram s' (pte (ram s') e j) = shared (ram s (pte (ram s) d j)) /\
      ram s' (pte (ram s) d j) = guarded (ram s (pte (ram s) d j))
  else Z.odd (ram s' e) = false.

(** A word of a page in use that holds no directory or page table. *)
Definition data_word (s : mm) (w : Z) : Prop :=
  1024 <= w /\ (forall d, 16 <= d < 1024 -> Z.odd (ram s d) = true -> w / 1024 <> ram s d / 4096) /\
  (w / 1024 < 256 \/ mem_map s !! Z.to_nat (w / 1024 - 256) <> Some 0).

(** What copying the tables of [froms] to [tos] leaves alone: the directory, but
    for [tos]; the tables of the other tasks; and the contents of all pages. *)
Definition kept (froms tos : Z -> Prop) (s s' : mm) : Prop :=
  HIGH_MEMORY s' = HIGH_MEMORY s /\ klog s' = klog s /\
  (forall d, 16 <= d < 1024 -> ~ tos d -> ram s' d = ram s d) /\
  (forall d j, 16 <= d < 1024 -> Z.odd (ram s d) = true -> ~ froms d -> ~ tos d -> 0 <= j < 1024 ->
     ram s' (pte (ram s) d j) = ram s (pte (ram s) d j)) /\
  (forall w, data_word s w -> data_word s' w /\ ram s' w = ram s w).

Lemma kept_refl froms tos s : kept froms tos s s.
Proof. done. Qed.
Lemma kept_trans (f1 t1 f2 t2 f t : Z -> Prop) s1 s2 s3 :
  kept f1 t1 s1 s2 -> kept f2 t2 s2 s3 ->
  (forall d, f1 d -> f d) -> (forall d, f2 d -> f d) -> (forall d, t1 d -> t d) -> (forall d, t2 d -> t d) ->
  kept f t s1 s3.
Proof.
  intros (Hh & Hk & Hd & Hp & Hw) (Hh' & Hk' & Hd' & Hp' & Hw') F1 F2 T1 T2.
  split; [congruence|]. split; [congruence|]. split; [|split].
  - intros d Hr Ht. rewrite Hd' by auto. apply Hd; auto.
  - intros d j Hr Ho Hf Ht Hj.
    assert (ram s2 d = ram s1 d) as E by (apply Hd; auto).
    assert (pte (ram s2) d j = pte (ram s1) d j) as Ep by (unfold pte; by rewrite E).
    rewrite <- Ep. rewrite Hp' by (rewrite ?E; auto). rewrite Ep. apply Hp; auto.
  - intros w Hd1. destruct (Hw w Hd1) as [Hd2 E]. destruct (Hw' w Hd2) as [Hd3 E']. split; [done|congruence].
Qed.

Lemma zsum_app l l' g : zsum (l ++ l') g = zsum l g + zsum l' g.
Proof. induction l as [|i l IH]; [done|]. cbn [zsum foldr app]. fold (zsum (l ++ l') g) (zsum l g). lia. Qed.
Lemma zsum_snoc a n g : 0 <= n -> zsum (seqZ a (n + 1)) g = zsum (seqZ a n) g + g (a + n).
Proof.
  intros. rewrite seqZ_app, zsum_app by lia. rewrite (seqZ_cons (a + n) 1), (seqZ_nil _ (Z.pred 1)) by lia.
  unfold zsum at 2. cbn [foldr]. lia.
Qed.
Lemma zsum_prefix n g : 0 <= n <= 1024 -> (forall i, 0 <= i < 1024 -> 0 <= g i) -> zsum (seqZ 0 n) g <= zsum entries g.
Proof.
  intros Hn Hg. unfold entries. replace 1024 with (n + (1024 - n)) by lia.
  rewrite seqZ_app, zsum_app by lia.
  pose proof (zsum_nonneg (seqZ (0 + n) (1024 - n)) g) as G.
  enough (0 <= zsum (seqZ (0 + n) (1024 - n)) g) by lia. apply G.
  intros i Hi. apply elem_of_seqZ in Hi. apply Hg. lia.
Qed.

Lemma ltb_succ w x : w <> x -> (w <? x + 1) = (w <? x).
Proof. intros. destruct (Z.ltb_spec w x), (Z.ltb_spec w (x + 1)); (lia || done). Qed.
(** The loop over one table. *)
Section CopyTable.
Context (owned : Z -> Z) (s : mm) (d e : Z).
Hypothesis (H : mm_ok owned s) (Hd : 16 <= d < 1024) (He : 16 <= e < 1024) (Hde : d <> e).
Hypothesis (Hod : Z.odd (ram s d) = true) (Hoe : Z.odd (ram s e) = true).
Hypothesis (Hz : forall j, 0 <= j < 1024 -> ram s (pte (ram s) e j) = 0).
Hypothesis (Hb : forall f, 0 <= f < 3840 -> refs (ram s) f + owned f + table_refs (ram s) f d <= 255).
Let td := ram s d / 4096.
Let te := ram s e / 4096.
Lemma tables_apart : 256 <= td /\ 256 <= te /\ td <> te.
Proof.
  pose proof (ok_tables_high _ _ H d Hd Hod). pose proof (ok_tables_high _ _ H e He Hoe). split; [done|]. split; [done|].
  intros E. apply Hde. by apply (ok_distinct _ _ H).
Qed.
(** The first [i] entries are copied. *)
Definition part_copied (i : Z) (s' : mm) : Prop :=
  mm_ok owned s' /\ HIGH_MEMORY s' = HIGH_MEMORY s /\ klog s' = klog s /\
  (forall f, 0 <= f < 3840 -> refs (ram s') f =
     refs (ram s) f + zsum (seqZ 0 i) (fun j => refers f (ram s (pte (ram s) d j)))) /\
  (forall w, ram s' w =
     if (1024 * te <=? w) && (w <? 1024 * te + i) then shared (ram s (w - 1024 * te + 1024 * td))
     else if (1024 * td <=? w) && (w <? 1024 * td + i) then guarded (ram s w) else ram s w).
Lemma part_copied_next i s1 : 0 <= i < 1024 -> part_copied i s1 ->
  wp (copy_entry (4096 * td + 4 * i) (4096 * te + 4 * i)) (fun _ s2 => part_copied (i + 1) s2) s1.
Proof.
  intros Hi (H1 & Hh1 & Hk1 & Hrefs1 & Hr1). destruct tables_apart as (Htd & Hte & Htne).
  assert (forall w, w < 1024 -> ram s1 w = ram s w) as Hdir.
  { intros w Hw. rewrite Hr1. destruct (Z.leb_spec (1024 * te) w), (Z.leb_spec (1024 * td) w); (lia || done). }
  assert (forall j, pte (ram s1) d j = pte (ram s) d j /\ pte (ram s1) e j = pte (ram s) e j) as Hpte
    by (intros; unfold pte; by rewrite !Hdir by lia).
  assert (ram s1 (pte (ram s) d i) = ram s (pte (ram s) d i)) as Ex.
  { rewrite Hr1. unfold pte. fold td.
    destruct (Z.leb_spec (1024 * te) (1024 * td + i)), (Z.ltb_spec (1024 * td + i) (1024 * te + i)),
      (Z.ltb_spec (1024 * td + i) (1024 * td + i)); cbn [andb]; try lia; rewrite ?andb_false_r; (lia || done). }
  pose proof (copy_entry_ok owned s1 d e i H1 Hd He Hde) as C.
  rewrite !Hdir in C by lia. destruct (Hpte i) as [Hp1 Hp2]. rewrite Hp1, Hp2, Ex in C. fold td te in C.
  assert (ram s1 (pte (ram s) e i) = 0) as Ez.
  { rewrite Hr1. unfold pte. fold te. rewrite (proj2 (Z.ltb_ge _ _)) by lia. rewrite andb_false_r.
    destruct (Z.leb_spec (1024 * td) (1024 * te + i)), (Z.ltb_spec (1024 * te + i) (1024 * td + i));
      cbn [andb]; try lia; apply (Hz i Hi). }
  eapply wp_mono; [apply C; try done; [by rewrite Ez|]|].
  - intros f Hf Hrf. rewrite Hrefs1 by done. specialize (Hb f Hf).
    pose proof (zsum_prefix (i + 1) (fun j => refers f (ram s (pte (ram s) d j))) ltac:(lia)
      ltac:(intros; apply refers_nonneg)) as Hpre.
    rewrite zsum_snoc, Z.add_0_l in Hpre by lia. fold (table_refs (ram s) f d) in Hpre. lia.
  - intros [] s2 (H2 & Hh2 & Hk2 & Hrefs2 & Hr2). split; [done|]. split; [congruence|]. split; [congruence|]. split.
    + intros f Hf. rewrite Hrefs2, Hrefs1, zsum_snoc, Z.add_0_l by (done || lia). lia.
    + intros w. rewrite Hr2. unfold pte in Ez |- *. fold td in Ez |- *. fold te in Ez |- *. clear Hr2.
      destruct (Z.eqb_spec w (1024 * te + i)) as [->|Hne].
      { rewrite Ez, (proj2 (Z.leb_le _ _)), (proj2 (Z.ltb_lt _ _)) by lia. cbn [andb]. unfold shared.
        by replace (1024 * te + i - 1024 * te + 1024 * td) with (1024 * td + i) by lia. }
      rewrite Hr1. rewrite Z.add_assoc, (ltb_succ w (1024 * te + i)) by lia.
      destruct (Z.eqb_spec w (1024 * td + i)) as [->|Hned].
      { replace ((1024 * te <=? 1024 * td + i) && (1024 * td + i <? 1024 * te + i)) with false
          by (destruct (Z.leb_spec (1024 * te) (1024 * td + i)), (Z.ltb_spec (1024 * td + i) (1024 * te + i)); (lia || done)).
        by rewrite (proj2 (Z.leb_le _ _)), (proj2 (Z.ltb_lt _ _)) by lia. }
      by rewrite Z.add_assoc, (ltb_succ w (1024 * td + i)) by lia.
Qed.
Lemma copy_table_ok :
  wp (for_each (seqZ 0 1024) (fun i => copy_entry (4096 * td + 4 * i) (4096 * te + 4 * i)))
     (fun _ s' => mm_ok owned s' /\ HIGH_MEMORY s' = HIGH_MEMORY s /\ klog s' = klog s /\
        (forall f, 0 <= f < 3840 -> refs (ram s') f = refs (ram s) f + table_refs (ram s) f d) /\
        (forall w, ram s' w = if w / 1024 =? te then shared (ram s (pte (ram s) d (w mod 1024)))
                              else if w / 1024 =? td then guarded (ram s w) else ram s w)) s.
Proof.
  eapply wp_mono.
  { apply (wp_for_seq 1024 (fun i => copy_entry (4096 * td + 4 * i) (4096 * te + 4 * i)) part_copied 0); [lia|by intros; apply part_copied_next|].
    split; [done|]. split; [done|]. split; [done|]. split.
    - intros. change (seqZ 0 0) with (@nil Z). unfold zsum. cbn [foldr]. lia.
    - intros w. destruct (Z.leb_spec (1024 * te) w), (Z.ltb_spec w (1024 * te + 0)),
        (Z.leb_spec (1024 * td) w), (Z.ltb_spec w (1024 * td + 0)); cbn [andb]; (lia || done). }
  cbn beta. change (0 + 1024) with 1024. intros [] s' (H' & Hh' & Hk' & Hrefs & Hr).
  split; [done|]. split; [done|]. split; [done|]. split; [exact Hrefs|].
  intros w. rewrite Hr. unfold pte. fold td.
  replace ((1024 * te <=? w) && (w <? 1024 * te + 1024)) with (w / 1024 =? te).
  2:{ apply eq_bool_prop_intro. rewrite andb_True, !Is_true_true, Z.leb_le, Z.ltb_lt, Z.eqb_eq. dlia. }
  replace ((1024 * td <=? w) && (w <? 1024 * td + 1024)) with (w / 1024 =? td).
  2:{ apply eq_bool_prop_intro. rewrite andb_True, !Is_true_true, Z.leb_le, Z.ltb_lt, Z.eqb_eq. dlia. }
  destruct (Z.eqb_spec (w / 1024) te) as [E|]; [|done]. do 2 f_equal. dlia.
Qed.
End CopyTable.

(** The refs of a page of the pool, read off its count. *)
Lemma refs_count owned s f n : mm_ok owned s -> 0 <= f < 3840 -> mem_map s !! Z.to_nat f = Some n ->
  refs (ram s) f = n - owned f.
Proof. intros H Hf Hn. destruct (ok_count _ _ H f Hf) as [Hc _]. rewrite Hn in Hc. injection Hc. lia. Qed.

Lemma data_word_count owned s w f : mm_ok owned s -> data_word s w -> 0 <= f < 3840 ->
  mem_map s !! Z.to_nat f = Some 0 -> w / 1024 <> 256 + f.
Proof.
  intros H (Hw & _ & [Hl|Hc]) Hf Hz E; [lia|]. apply Hc. by replace (w / 1024 - 256) with f by lia.
Qed.
Lemma data_word_kept owned s s' w :
  mm_ok owned s -> mm_ok owned s' -> data_word s w ->
  (forall f, 0 <= f < 3840 -> refs (ram s) f <= refs (ram s') f) ->
  (forall d, 16 <= d < 1024 -> Z.odd (ram s' d) = true -> w / 1024 <> ram s' d / 4096) -> data_word s' w.
Proof.
  intros H H' (Hw & _ & Hc) Hle Ht. split; [done|]. split; [done|].
  destruct (Z.lt_ge_cases (w / 1024) 256) as [|Hge]; [by left|right]. destruct Hc as [|Hc]; [lia|].
  intros E. set (f := w / 1024 - 256) in *.
  assert (0 <= f < 3840) as Hf.
  { split; [unfold f; lia|]. apply lookup_lt_Some in E. rewrite (ok_len _ _ H') in E. lia. }
  pose proof (refs_count _ _ f 0 H' Hf E) as E'. destruct (ok_count _ _ H f Hf) as [Hc0 _].
  pose proof (refs_nonneg (ram s) f). pose proof (ok_owned _ _ H f). specialize (Hle f Hf).
  apply Hc. rewrite Hc0. f_equal. lia.
Qed.

Lemma new_entry_ok f : 0 <= f -> Z.odd (Z.lor (4096 * (256 + f)) 7) = true /\ Z.lor (4096 * (256 + f)) 7 / 4096 = 256 + f.
Proof. intros. split; [by apply flags_odd|]. by apply flags_page. Qed.

(** A fresh page becomes the table of the directory entry [e]. *)
Lemma enter_table_ok owned s s1 e f :
  mm_ok owned s -> 16 <= e < 1024 -> Z.odd (ram s e) = false -> 0 <= f < 3840 ->
  256 + f < HIGH_MEMORY s / 4096 -> mem_map s !! Z.to_nat f = Some 0 ->
  HIGH_MEMORY s1 = HIGH_MEMORY s -> klog s1 = klog s ->
  mem_map s1 = <[Z.to_nat f := 1]> (mem_map s) ->
  (forall w, ram s1 w = if w / 1024 =? 256 + f then 0 else ram s w) -> mm_ok (own f owned) s1 ->
  let s2 := s1 <| ram ::= fun r w => if w =? e then Z.lor (4096 * (256 + f)) 7 else r w |> in
  mm_ok owned s2 /\ (forall d, 16 <= d < 1024 -> d <> e -> ram s2 d = ram s d) /\
  (forall w, w <> e -> w / 1024 <> 256 + f -> ram s2 w = ram s w) /\
  (forall w, w / 1024 = 256 + f -> ram s2 w = 0) /\
  (forall g, 0 <= g < 3840 -> refs (ram s2) g = refs (ram s) g + if g =? f then 1 else 0).
Proof.
  intros H He Hev Hf Hfh Hz Hh1 Hk1 Hm1 Hr1 H1 s2. destruct (new_entry_ok f ltac:(lia)) as [Hno Hnp].
  assert (mm_ok owned s2) as H2.
  { apply (mm_ok_new_table owned (own f owned) s1 s2 e f (Z.lor (4096 * (256 + f)) 7)); try done.
    - apply (ok_owned _ _ H).
    - lia.
    - by rewrite Hh1.
    - rewrite Hm1. apply list_lookup_insert_eq. rewrite (ok_len _ _ H). lia.
    - rewrite Hr1. by rewrite (proj2 (Z.eqb_neq _ _)) by dlia.
    - intros j Hj. rewrite Hr1. by rewrite (proj2 (Z.eqb_eq _ _)) by dlia. }
  split; [done|]. split; [|split; [|split]].
  - intros d Hd Hne. cbn. rewrite (proj2 (Z.eqb_neq d e)), Hr1, (proj2 (Z.eqb_neq _ _)) by (done || dlia). done.
  - intros w Hw Hw'. cbn. rewrite (proj2 (Z.eqb_neq w e)), Hr1, (proj2 (Z.eqb_neq _ _)) by done. done.
  - intros w Hw. cbn. rewrite (proj2 (Z.eqb_neq w e)), Hr1, (proj2 (Z.eqb_eq _ _) Hw) by dlia. done.
  - intros g Hg. destruct (ok_count _ _ H g Hg) as [Hc _].
    destruct (Z.eqb_spec g f) as [->|Hne].
    + rewrite (refs_count owned s2 f 1) by (done || (cbn; rewrite Hm1; apply list_lookup_insert_eq; rewrite (ok_len _ _ H); lia)).
      rewrite (refs_count owned s f 0) by done. lia.
    + rewrite (refs_count owned s2 g (refs (ram s) g + owned g)); [lia|done|done|].
      cbn. rewrite Hm1, list_lookup_insert_ne by lia. done.
Qed.

(** [s2]: the directory entry [e] of [s] has the new table in page [f0]; [s']: it is filled from the table of [d]. *)
Section CopyDir.
Context (owned : Z -> Z) (s s2 s' : mm) (d e f0 : Z).
Hypothesis (H : mm_ok owned s) (Hd : 16 <= d < 1024) (He : 16 <= e < 1024) (Hde : d <> e) (Hod : Z.odd (ram s d) = true).
Hypothesis (Hf : 0 <= f0 < 3840) (Hz : mem_map s !! Z.to_nat f0 = Some 0).
Hypothesis (Hnt : forall d', 16 <= d' < 1024 -> Z.odd (ram s d') = true -> ram s d' / 4096 <> 256 + f0).
Hypothesis (Hdir2 : forall d', 16 <= d' < 1024 -> d' <> e -> ram s2 d' = ram s d').
Hypothesis (Hold2 : forall w, w <> e -> w / 1024 <> 256 + f0 -> ram s2 w = ram s w) (Ee : ram s2 e / 4096 = 256 + f0).
Hypothesis (H' : mm_ok owned s') (Hh' : HIGH_MEMORY s' = HIGH_MEMORY s) (Hk' : klog s' = klog s).
Hypothesis (Hrefs' : forall f, 0 <= f < 3840 -> refs (ram s') f = refs (ram s) f + table_refs (ram s) f d + if f =? f0 then 1 else 0).
Hypothesis (Hr : forall w, ram s' w = if w / 1024 =? 256 + f0 then shared (ram s2 (pte (ram s2) d (w mod 1024)))
  else if w / 1024 =? ram s d / 4096 then guarded (ram s2 w) else ram s2 w).
Lemma old_entries d' j : 16 <= d' < 1024 -> Z.odd (ram s d') = true -> 0 <= j < 1024 -> ram s2 (pte (ram s) d' j) = ram s (pte (ram s) d' j).
Proof. intros Hd' Ho' Hj. pose proof (ok_tables_high _ _ H d' Hd' Ho'). specialize (Hnt d' Hd' Ho'). apply Hold2; unfold pte; dlia. Qed.
Lemma low_words w : w < 262144 -> ram s' w = ram s2 w.
Proof. intros Hw. pose proof (ok_tables_high _ _ H d Hd Hod). rewrite Hr, !(proj2 (Z.eqb_neq (w / 1024) _)) by dlia. done. Qed.
Lemma copy_dir_kept : kept (eq d) (eq e) s s'.
Proof.
  split; [done|]. split; [done|]. split; [|split].
  - intros d' Hd' Hne. rewrite low_words by lia. by apply Hdir2; [|congruence].
  - intros d' j Hd' Ho' Hne Hne' Hj. rewrite Hr. pose proof (Hnt d' Hd' Ho').
    rewrite (proj2 (Z.eqb_neq _ (256 + f0))) by (unfold pte; dlia).
    assert (ram s d' / 4096 <> ram s d / 4096) by (intros E; apply Hne; symmetry; by apply (ok_distinct _ _ H)).
    rewrite (proj2 (Z.eqb_neq _ (ram s d / 4096))) by (unfold pte; dlia). by apply old_entries.
  - intros w Hw. pose proof (data_word_count owned s w f0 H Hw Hf Hz) as Hwf.
    pose proof Hw as (Hw1 & Hwt & _). split.
    + apply (data_word_kept owned s s'); try done.
      * intros f Hfr. rewrite Hrefs' by done. pose proof (table_refs_nonneg (ram s) f d). destruct (_ =? _); lia.
      * intros d' Hd'. rewrite low_words by lia. destruct (Z.eq_dec d' e) as [->|].
        -- by rewrite Ee.
        -- rewrite Hdir2 by done. by apply Hwt.
    + rewrite Hr, (proj2 (Z.eqb_neq _ _)), (proj2 (Z.eqb_neq _ _)) by (done || by apply Hwt).
      apply Hold2; [lia|done].
Qed.
Lemma copy_dir_copied : Z.odd (ram s2 e) = true -> copied s s' d e.
Proof.
  intros Hoe. unfold copied. rewrite Hod. assert (ram s' e = ram s2 e) as Ee' by (apply low_words; lia).
  assert (ram s2 d = ram s d) as Ed by (by apply Hdir2).
  split; [by rewrite Ee'|]. intros j Hj. unfold pte at 1. rewrite Ee', Ee. split.
  - rewrite Hr, (proj2 (Z.eqb_eq _ _)) by dlia. replace ((1024 * (256 + f0) + j) mod 1024) with j by dlia.
    unfold pte at 1. rewrite Ed. fold (pte (ram s) d j). by rewrite old_entries.
  - pose proof (Hnt d Hd Hod). rewrite Hr. rewrite (proj2 (Z.eqb_neq _ _)) by (unfold pte; dlia).
    rewrite (proj2 (Z.eqb_eq _ _)) by (unfold pte; dlia). by rewrite old_entries.
Qed.
End CopyDir.

Lemma copy_dir_ok owned s d e :
  mm_ok owned s -> 16 <= d < 1024 -> 16 <= e < 1024 -> d <> e -> Z.odd (ram s e) = false ->
  (forall f, 0 <= f < 3840 ->
     refs (ram s) f + owned f + (if Z.odd (ram s d) then table_refs (ram s) f d else 0) <= 255) ->
  wp (copy_dir 1024 (4 * d) (4 * e)) (fun b s' =>
    mm_ok owned s' /\ kept (eq d) (eq e) s s' /\
    if b : bool then copied s s' d e /\
      forall f, 0 <= f < 3840 ->
        refs (ram s') f = refs (ram s) f + (if Z.odd (ram s d) then table_refs (ram s) f d else 0) \/
        refs (ram s) f = 0 /\ owned f = 0 /\ refs (ram s') f = 1
    else forall f, 0 <= f < 3840 -> mem_map s' !! Z.to_nat f <> Some 0) s.
Proof.
  intros H Hd He Hde Hev Hb. unfold copy_dir. apply wp_bind, wp_rd.
  rewrite (Z.mul_comm 4 e), Z.div_mul, odd_truth, Hev by lia. apply wp_bind, wp_rd.
  rewrite (Z.mul_comm 4 d), Z.div_mul, odd_truth by lia.
  destruct (Z.odd (ram s d)) eqn:Hod; cbn [negb].
  2:{ apply wp_ret. split; [done|]. split; [done|]. unfold copied. rewrite Hod.
      split; [done|]. intros f Hf. left. lia. }
  apply wp_bind. eapply wp_mono; [by apply (get_free_page_run owned)|].
  intros page s1 [(-> & -> & Hnone)|(f0 & -> & Hf & Hfh & Hz & Hrf & Hof & _ & Hh1 & Hk1 & Hm1 & Hr1 & H1)].
  { apply wp_ret. split; [done|]. split; [done|]. done. }
  rewrite (proj2 (Z.eqb_neq _ 0)) by lia. apply wp_bind, wp_wr. rewrite Z.div_mul by lia.
  destruct (enter_table_ok owned s s1 e f0) as (H2 & Hdir2 & Hold2 & Hnew2 & Hrefs2); try done.
  set (s2 := s1 <| ram ::= _ |>) in *.
  destruct (new_entry_ok f0 ltac:(lia)) as [Hno Hnp].
  assert (ram s2 e = Z.lor (4096 * (256 + f0)) 7) as Ee by (cbn; by rewrite Z.eqb_refl).
  assert (ram s2 d = ram s d) as Ed by (by apply Hdir2).
  assert (forall d', 16 <= d' < 1024 -> Z.odd (ram s d') = true -> ram s d' / 4096 <> 256 + f0) as Hnt
    by (intros; by apply (unused_not_table s f0)).
  assert (forall d' j, 16 <= d' < 1024 -> Z.odd (ram s d') = true -> 0 <= j < 1024 ->
    ram s2 (pte (ram s) d' j) = ram s (pte (ram s) d' j)) as Hpte2.
  { intros d' j Hd' Ho' Hj. pose proof (ok_tables_high _ _ H d' Hd' Ho'). specialize (Hnt d' Hd' Ho').
    apply Hold2; unfold pte; dlia. }
  assert (forall f, table_refs (ram s2) f d = table_refs (ram s) f d) as Htr.
  { intros f. apply zsum_ext. intros j Hj. apply elem_of_seqZ in Hj. unfold pte at 1. rewrite Ed.
    fold (pte (ram s) d j). by rewrite Hpte2 by (done || lia). }
  pose proof (copy_table_ok owned s2 d e H2 Hd He Hde) as C.
  rewrite Ed, Ee, Hnp in C. rewrite mask_page by apply (ok_words _ _ H).
  apply wp_bind. eapply wp_mono; [apply C; try done|].
  - intros j Hj. apply Hnew2. unfold pte. rewrite Ee, Hnp. dlia.
  - intros f Hfr. rewrite Htr, Hrefs2 by done. specialize (Hb f Hfr).
    destruct (Z.eqb_spec f f0) as [->|]; [|lia].
    pose proof (dir_refs_le (ram s) f0 d Hd) as G. unfold dir_refs in G. rewrite Hod in G.
    pose proof (refers_nonneg f0 (ram s d)). lia.
  - intros [] s' (H' & Hh' & Hk' & Hrefs & Hr).
    assert (forall f, 0 <= f < 3840 -> refs (ram s') f = refs (ram s) f + table_refs (ram s) f d + if f =? f0 then 1 else 0) as Hrefs'.
    { intros f Hfr. rewrite Hrefs, Hrefs2, Htr by done. lia. }
    apply wp_ret. split; [done|]. split; [|split].
    + apply (copy_dir_kept owned s s2 s' d e f0); try done; [by rewrite Ee|by rewrite Hh'|by rewrite Hk'].
    + apply (copy_dir_copied owned s s2 s' d e f0); try done; by rewrite Ee.
    + intros f Hfr. rewrite Hrefs' by done. destruct (Z.eqb_spec f f0) as [->|]; [|left; lia].
      right. split; [done|]. split; [done|].
      pose proof (dir_refs_le (ram s) f0 d Hd) as G. unfold dir_refs in G. rewrite Hod in G.
      pose proof (refers_nonneg f0 (ram s d)). pose proof (table_refs_nonneg (ram s) f0 d). lia.
Qed.

(** The references that copying the directory entries [d .. d + n - 1] adds. *)
Definition range_refs (r : Z -> Z) (f d n : Z) : Z :=
  zsum (seqZ d n) (fun i => if Z.odd (r i) then table_refs r f i else 0).
Lemma range_refs_cons r f d n : 0 <= n ->
  range_refs r f d (n + 1) = (if Z.odd (r d) then table_refs r f d else 0) + range_refs r f (d + 1) n.
Proof.
  intros Hn. unfold range_refs. rewrite seqZ_cons by lia.
  replace (Z.pred (n + 1)) with n by lia. done.
Qed.
Lemma range_refs_nonneg r f d n : 0 <= range_refs r f d n.
Proof. apply zsum_nonneg. intros i _. pose proof (table_refs_nonneg r f i). by destruct (Z.odd _). Qed.
Lemma range_refs_unused r f d n : 16 <= d -> d + n <= 1024 -> refs r f = 0 -> range_refs r f d n = 0.
Proof.
  intros Hd Hn Hf. apply zsum_zero. intros i Hi. apply elem_of_seqZ in Hi.
  pose proof (dir_refs_le r f i ltac:(lia)) as G. unfold dir_refs in G.
  pose proof (refers_nonneg f (r i)). pose proof (table_refs_nonneg r f i). destruct (Z.odd (r i)); lia.
Qed.
Lemma range_refs_ext r r' f d n :
  (forall i, d <= i < d + n -> r' i = r i) ->
  (forall i j, d <= i < d + n -> Z.odd (r i) = true -> 0 <= j < 1024 -> r' (pte r i j) = r (pte r i j)) ->
  range_refs r' f d n = range_refs r f d n.
Proof.
  intros Hr Hp. apply zsum_ext. intros i Hi. apply elem_of_seqZ in Hi. rewrite Hr by lia.
  destruct (Z.odd (r i)) eqn:Ho; [|done]. apply zsum_ext. intros j Hj. apply elem_of_seqZ in Hj.
  unfold pte at 1. rewrite (Hr i) by lia. fold (pte r i j). rewrite Hp by (done || lia). done.
Qed.

(** The state after copying [n] directory entries from [d] on to [e] on. *)
Definition in_range (d n i : Z) : Prop := d <= i < d + n.
Lemma copied_later s s1 s2 d e f0 t0 :
  copied s s1 d e -> kept f0 t0 s1 s2 -> 16 <= d < 1024 -> 16 <= e < 1024 ->
  ram s1 d = ram s d -> ~ f0 d -> ~ t0 d -> ~ f0 e -> ~ t0 e -> copied s s2 d e.
Proof.
  intros C (_ & _ & Hdir & Hp & _) Hd He Ed Hfd Htd Hfe Hte. unfold copied in *.
  destruct (Z.odd (ram s d)) eqn:Ho; [|by rewrite Hdir]. destruct C as [Hoe C].
  split; [by rewrite Hdir|]. intros j Hj. destruct (C j Hj) as [C1 C2].
  assert (pte (ram s2) e j = pte (ram s1) e j) as -> by (unfold pte; by rewrite Hdir).
  assert (pte (ram s) d j = pte (ram s1) d j) as E by (unfold pte; by rewrite Ed).
  rewrite (Hp e), E, (Hp d), <- E by (done || by rewrite Ed). done.
Qed.

Lemma copy_dirs_ok owned : forall n s d e,
  mm_ok owned s -> 16 <= d -> d + Z.of_nat n <= 1024 -> 16 <= e -> e + Z.of_nat n <= 1024 ->
  d + Z.of_nat n <= e \/ e + Z.of_nat n <= d ->
  (forall i, in_range e (Z.of_nat n) i -> Z.odd (ram s i) = false) ->
  (forall f, 0 <= f < 3840 -> refs (ram s) f + owned f + range_refs (ram s) f d (Z.of_nat n) <= 255) ->
  wp (copy_dirs 1024 (4 * d) (4 * e) n) (fun r s' =>
    mm_ok owned s' /\ kept (in_range d (Z.of_nat n)) (in_range e (Z.of_nat n)) s s' /\
    (r = 0 /\ (forall i, 0 <= i < Z.of_nat n -> copied s s' (d + i) (e + i)) \/
     r = -1 /\ forall f, 0 <= f < 3840 -> mem_map s' !! Z.to_nat f <> Some 0)) s.
Proof.
  induction n as [|n IH]; intros s d e H Hd Hdn He Hen Hdis Hev Hb.
  { apply wp_ret. split; [done|]. split; [apply kept_refl|]. left. split; [done|]. intros. lia. }
  cbn [copy_dirs]. replace (Z.of_nat (S n)) with (Z.of_nat n + 1) in * by lia.
  apply wp_bind. eapply wp_mono.
  { apply (copy_dir_ok owned s d e); [done|lia|lia|lia|apply Hev; unfold in_range; lia|].
    intros f Hf. specialize (Hb f Hf). rewrite range_refs_cons in Hb by lia.
    pose proof (range_refs_nonneg (ram s) f (d + 1) (Z.of_nat n)). lia. }
  intros b s1 (H1 & K1 & Hres). destruct b.
  2:{ apply wp_ret. split; [done|]. split; [|right; by split].
      eapply kept_trans; [exact K1|apply (kept_refl (fun _ => False) (fun _ => False))|..];
        unfold in_range; (intros; subst; lia) || done. }
  destruct Hres as [C1 Hrefs1]. pose proof K1 as (_ & _ & Hdir1 & Hpte1 & _).
  assert (forall i, in_range (d + 1) (Z.of_nat n) i -> ram s1 i = ram s i) as Hfrom
    by (unfold in_range in *; intros i Hi; apply Hdir1; lia).
  replace (4 * d + 4) with (4 * (d + 1)) by lia. replace (4 * e + 4) with (4 * (e + 1)) by lia.
  eapply wp_mono; [apply (IH s1 (d + 1) (e + 1)); try done; try lia|].
  - unfold in_range. intros i Hi. rewrite Hdir1 by lia. apply Hev. unfold in_range. lia.
  - intros f Hf. rewrite (range_refs_ext (ram s) (ram s1)).
    + specialize (Hb f Hf). rewrite range_refs_cons in Hb by lia.
      destruct (Hrefs1 f Hf) as [E|(E0 & Eo & E1)]; [lia|].
      rewrite range_refs_unused by (done || lia). lia.
    + intros i Hi. by apply Hfrom.
    + intros i j Hi Ho Hj. apply Hpte1; (done || lia).
  - intros r s' (H' & K' & Hres). split; [done|]. split.
    { eapply kept_trans; [exact K1|exact K'|..]; unfold in_range; intros; subst; lia. }
    destruct Hres as [(-> & Hc)|(-> & Hex)]; [left|right; done]. split; [done|].
    intros i Hi. destruct (Z.eq_dec i 0) as [->|Hne].
    + rewrite !Z.add_0_r. eapply copied_later; [exact C1|exact K'|..]; try lia; unfold in_range; try lia.
      apply Hdir1; lia.
    + specialize (Hc (i - 1) ltac:(lia)).
      replace (d + 1 + (i - 1)) with (d + i) in Hc by lia. replace (e + 1 + (i - 1)) with (e + i) in Hc by lia.
      unfold copied in *. rewrite Hfrom in Hc by (unfold in_range; lia).
      destruct (Z.odd (ram s (d + i))) eqn:Ho; [|done]. destruct Hc as [Hc1 Hc]. split; [done|].
      intros j Hj. specialize (Hc j Hj).
      assert (pte (ram s1) (d + i) j = pte (ram s) (d + i) j) as E by (unfold pte; by rewrite Hfrom by (unfold in_range; lia)).
      rewrite E in Hc. rewrite (Hpte1 (d + i) j) in Hc by (done || lia). exact Hc.
Qed.

(** C26: copying the page tables of a user address range to an address range that is
    not mapped yet: every mapped page becomes shared, entered in both tables
    without write permission and with one reference more, the mapping is
    otherwise the same in both ranges, and no other table and no word of any
    other page in use changes.  (A page below 1 MB is not counted, and keeps the write permission
    in the table it is copied from.)  If pages run out the answer is -1 and the counts still
    agree with what has been entered, so that freeing the target range undoes
    the copy.  (The counts are bytes: they must have room for the new references.) *)
Theorem copy_page_tables_ok owned s from to size :
  mm_ok owned s -> from mod 4194304 = 0 -> to mod 4194304 = 0 ->
  67108864 <= from < 4294967296 -> 67108864 <= to < 4294967296 ->
  0 <= size -> from + size <= 4294967296 -> to + size <= 4294967296 ->
  let d := from / 4194304 in let e := to / 4194304 in let n := dirs_of size in
  d + n <= e \/ e + n <= d ->
  (forall i, in_range e n i -> Z.odd (ram s i) = false) ->
  (forall f, 0 <= f < 3840 -> refs (ram s) f + owned f + range_refs (ram s) f d n <= 255) ->
  wp (copy_page_tables from to size) (fun r s' =>
    mm_ok owned s' /\ kept (in_range d n) (in_range e n) s s' /\
    (r = 0 /\ (forall i, 0 <= i < n -> copied s s' (d + i) (e + i)) \/
     r = -1 /\ forall f, 0 <= f < 3840 -> mem_map s' !! Z.to_nat f <> Some 0)) s.
Proof.
  intros H Hfa Hta Hfrom Hto Hsize Hfe Hte d e n Hdis Hev Hb. unfold copy_page_tables.
  rewrite !aligned_test by done. cbn [orb].
  rewrite (proj2 (Z.eqb_neq from 0)), size_test, !dir_of by (done || lia).
  fold d e n. assert (0 <= n) by (unfold n, dirs_of; dlia).
  rewrite <- (Z2Nat.id n) in Hdis, Hev, Hb |- * by done. rewrite Nat2Z.id.
  apply copy_dirs_ok; (try done); unfold d, e, n, dirs_of in *; dlia.
Qed.
Lemma boot_dirs_off i : Z.odd (ram boot_mm i) = false.
Proof. done. Qed.
Lemma boot_range_refs f d n : 16 <= d -> d + n <= 1024 -> range_refs (ram boot_mm) f d n = 0.
Proof. intros. apply range_refs_unused; [done|done|]. by apply refs_no_dirs. Qed.
Lemma copy_page_tables_ok_witness :
  wp (copy_page_tables 67108864 134217728 8388608) (fun r s' => mm_ok boot_owned s' /\ kept (in_range 16 2) (in_range 32 2) boot_mm s') boot_mm.
Proof.
  eapply wp_mono.
  { apply (copy_page_tables_ok boot_owned boot_mm 67108864 134217728 8388608 boot_mm_ok);
      [reflexivity|reflexivity|lia|lia|lia|lia|lia|left; vm_compute; discriminate| |].
    - intros i _. apply boot_dirs_off.
    - intros f Hf. rewrite boot_range_refs, refs_no_dirs by (vm_compute; done).
      unfold boot_owned. destruct (_ && _); lia. }
  intros r s' (H' & K & _). exact (conj H' K).
Defined.

(** ** Copy on write *)
Definition writable (e : Z) : bool := Z.testbit e 1.
(** A word of a page that is in use. *)
Definition used_word (s : mm) (w : Z) : Prop :=
  w / 1024 < 256 \/ mem_map s !! Z.to_nat (w / 1024 - 256) <> Some 0.

(** After the page entered at [a] has been made private. *)
Definition made_private (owned : Z -> Z) (s s' : mm) (a : Z) : Prop :=
  let e := ram s a in let e' := ram s' a in
  mm_ok owned s' /\ Z.odd e' = true /\ writable e' = true /\
  256 <= e' / 4096 /\ mem_map s' !! Z.to_nat (e' / 4096 - 256) = Some 1 /\
  (forall i, 0 <= i < 1024 -> ram s' (1024 * (e' / 4096) + i) = ram s (1024 * (e / 4096) + i)) /\
  (forall w, w <> a -> used_word s w -> ram s' w = ram s w).

Section UnWp.
Context (owned : Z -> Z) (s : mm) (d j : Z).
Hypothesis (H : mm_ok owned s) (Hd : 16 <= d < 1024) (Hod : Z.odd (ram s d) = true) (Hj : 0 <= j < 1024).
Let a := pte (ram s) d j.
Let e := ram s a.
Hypothesis (Hoe : Z.odd e = true).

(** The entry is not part of the page it maps. *)
Lemma entry_not_in_page : a / 1024 <> e / 4096.
Proof.
  intros E. pose proof (ok_tables_high _ _ H d Hd Hod).
  pose proof (table_not_mapped _ _ H d d j Hd Hod Hd Hod Hj) as G. fold a in G. fold e in G.
  rewrite refers_odd in G by done. unfold a, pte in E.
  destruct (Z.eqb_spec (e / 4096) (256 + (ram s d / 4096 - 256))); [done|]. dlia.
Qed.

Lemma set_write_bit_ok (s' : mm) :
  256 <= e / 4096 -> mem_map s !! Z.to_nat (e / 4096 - 256) = Some 1 ->
  HIGH_MEMORY s' = HIGH_MEMORY s -> mem_map s' = mem_map s ->
  (forall w, ram s' w = if w =? a then Z.lor e 2 else ram s w) -> made_private owned s s' a.
Proof.
  intros He Hm Hh Hm' Hr. unfold made_private. fold e.
  assert (ram s' a = Z.lor e 2) as Ea by (rewrite Hr; by rewrite Z.eqb_refl).
  rewrite Ea, write_bit_page, write_bit_odd, Hm'. split.
  { apply (mm_ok_pte owned owned s s' d j (Z.lor e 2)); try done.
    - apply page_range. rewrite write_bit_page. pose proof (ok_words _ _ H a) as Hw. fold e in Hw. dlia.
    - intros _. rewrite write_bit_page. by apply (ok_ptes _ _ H).
    - rewrite Hm'. apply (ok_len _ _ H).
    - apply (ok_owned _ _ H).
    - apply (ok_top _ _ H).
    - intros f Hf. cbn zeta. fold a e. rewrite (refers_same f e (Z.lor e 2)) by (apply write_bit_odd || apply write_bit_page).
      replace (refs (ram s) f - refers f e + refers f e + owned f) with (refs (ram s) f + owned f) by lia.
      rewrite Hm'. by apply (ok_count _ _ H).
    - intros. rewrite Hm'. by apply (ok_dirs _ _ H). }
  split; [done|]. split; [unfold writable; rewrite Z.lor_spec; apply orb_true_r|].
  split; [done|]. split; [done|]. split.
  - intros i Hi. rewrite Hr. pose proof entry_not_in_page.
    destruct (Z.eqb_spec (1024 * (e / 4096) + i) a); [dlia|done].
  - intros w Hw _. rewrite Hr. by rewrite (proj2 (Z.eqb_neq w a)).
Qed.

(** The new page [f] takes the place of the old one in the entry; [s1]: it is taken; [s2]: it is entered; [s3]: it is filled. *)
Section Replace.
Context (s1 : mm) (f : Z).
Hypothesis (Hf : 0 <= f < 3840) (Hfh : 256 + f < HIGH_MEMORY s / 4096) (Hz : mem_map s !! Z.to_nat f = Some 0).
Hypothesis (Hh1 : HIGH_MEMORY s1 = HIGH_MEMORY s).
Hypothesis (Hr1 : forall w, ram s1 w = if w / 1024 =? 256 + f then 0 else ram s w) (H1 : mm_ok (own f owned) s1).
Lemma not_a_table d' : 16 <= d' < 1024 -> Z.odd (ram s d') = true -> ram s d' / 4096 <> 256 + f.
Proof.
  intros. pose proof (refs_count _ _ f 0 H Hf Hz). pose proof (ok_owned _ _ H f). pose proof (refs_nonneg (ram s) f).
  apply (unused_not_table s f); (done || lia).
Qed.
Lemma directory_kept d' : 16 <= d' < 1024 -> ram s1 d' = ram s d'.
Proof. intros. rewrite Hr1. by rewrite (proj2 (Z.eqb_neq _ _)) by dlia. Qed.
Lemma entry_elsewhere : a / 1024 <> 256 + f /\ e / 4096 <> 256 + f.
Proof.
  pose proof (refs_count _ _ f 0 H Hf Hz). pose proof (ok_owned _ _ H f). pose proof (refs_nonneg (ram s) f).
  split; [pose proof (not_a_table d Hd Hod); unfold a, pte; dlia|]. intros E. pose proof (pte_refs_le (ram s) f d j Hd Hod Hj) as G. fold a e in G.
  rewrite (refers_odd f e), (proj2 (Z.eqb_eq _ _) E) in G by done. pose proof (refers_nonneg f (ram s d)). lia.
Qed.
Section Entered.
Context (s2 : mm) (Hh2 : HIGH_MEMORY s2 = HIGH_MEMORY s) (Hl2 : length (mem_map s2) = 3840%nat).
Hypothesis (Hm2 : forall g, 0 <= g < 3840 -> mem_map s2 !! Z.to_nat g =
     Some (refs (ram s) g + owned g - refers g e + if g =? f then 1 else 0)).
Hypothesis (Hr2 : forall w, ram s2 w = if w =? a then Z.lor (4096 * (256 + f)) 7 else ram s1 w).
Lemma entered_ok : mm_ok owned s2.
Proof.
  destruct (new_entry_ok f ltac:(lia)) as [Hno Hnp]. pose proof not_a_table as Hnt. pose proof directory_kept as Hdir1.
  destruct entry_elsewhere as [Eat Hef]. pose proof (refs_count _ _ f 0 H Hf Hz) as Hrf.
  assert (pte (ram s1) d j = a) as Ea by (unfold pte; by rewrite Hdir1).
  assert (ram s1 a = e) as Ee by (rewrite Hr1; by rewrite (proj2 (Z.eqb_neq _ _))).
  assert (forall g, 0 <= g < 3840 -> refs (ram s1) g = refs (ram s) g) as Hrefs1.
  { intros g Hg. apply refs_ext; [exact Hdir1|]. intros d' j' Hd' Ho' Hj'. rewrite Hr1.
    specialize (Hnt d' Hd' Ho'). rewrite (proj2 (Z.eqb_neq _ _)) by (unfold pte; dlia). done. }
  apply (mm_ok_pte (own f owned) owned s1 s2 d j (Z.lor (4096 * (256 + f)) 7)); try done.
  - by rewrite Hdir1.
  - by rewrite Hh1.
  - by rewrite Ea.
  - apply page_range. rewrite Hnp. lia.
  - intros _. rewrite Hnp, Hh1. lia.
  - apply (ok_owned _ _ H).
  - rewrite Hh1. apply (ok_top _ _ H).
  - intros g Hg. cbn zeta. rewrite Ea, Ee, Hm2, Hrefs1, (refers_odd g (Z.lor _ _)), Hnp by done.
    replace (256 + f =? 256 + g) with (g =? f) by (destruct (Z.eqb_spec g f), (Z.eqb_spec (256 + f) (256 + g)); (lia || done)).
    destruct (ok_count _ _ H g Hg) as [_ Hc]. pose proof (refers_nonneg g e).
    split; [f_equal; lia|]. destruct (Z.eqb_spec g f) as [->|]; lia.
  - intros d' Hd' Ho'. rewrite Hdir1 in * by done. destruct (ok_dirs _ _ H d' Hd' Ho') as [Hr Hm'].
    pose proof (high_pages _ _ H). rewrite Hm2 by lia. pose proof (table_total _ _ H d' Hd' Ho') as Ht.
    pose proof (table_not_mapped _ _ H d' d j Hd' Ho' Hd Hod Hj) as Hn. fold a e in Hn. rewrite Hn.
    specialize (Hnt d' Hd' Ho'). rewrite (proj2 (Z.eqb_neq _ f)) by lia. f_equal. lia.
Qed.
Lemma replace_page_ok s3 : HIGH_MEMORY s3 = HIGH_MEMORY s -> mem_map s3 = mem_map s2 ->
  (forall w, ram s3 w = if w / 1024 =? 256 + f then ram s2 (1024 * (e / 4096) + (w - 1024 * (256 + f))) else ram s2 w) ->
  made_private owned s s3 a.
Proof.
  intros Hh3 Hm3 Hr3. destruct (new_entry_ok f ltac:(lia)) as [Hno Hnp]. pose proof not_a_table as Hnt. pose proof directory_kept as Hdir1.
  destruct entry_elsewhere as [Eat Hef]. pose proof (refs_count _ _ f 0 H Hf Hz) as Hrf. pose proof entered_ok as H2.
  pose proof (ok_tables_high _ _ H d Hd Hod) as Hth. pose proof (ok_owned _ _ H f) as Hown. pose proof (refs_nonneg (ram s) f) as Hrn.
  assert (ram s2 a = Z.lor (4096 * (256 + f)) 7) as Ea2 by (rewrite Hr2; by rewrite Z.eqb_refl).
  assert (forall d', 16 <= d' < 1024 -> ram s2 d' = ram s d') as Hdir2.
  { intros d' Hd'. rewrite Hr2, (proj2 (Z.eqb_neq _ _)) by (unfold a, pte; lia). by apply Hdir1. }
  assert (ram s3 a = ram s2 a) as Ea3 by (rewrite Hr3; by rewrite (proj2 (Z.eqb_neq _ _))).
  unfold made_private. fold e. rewrite Ea3, Ea2, Hnp. split; [|split; [done|split; [|split; [lia|split; [|split]]]]].
  - apply (mm_ok_page owned s2 s3 f); try done; try lia.
    + intros d' Hd'. rewrite Hdir2 by done. by apply Hnt.
    + intros w. rewrite Hr3. destruct (_ =? _); apply (ok_words _ _ H2).
    + intros w Hw. rewrite Hr3. by rewrite (proj2 (Z.eqb_neq _ _)).
  - unfold writable. rewrite Z.lor_spec. apply orb_true_r.
  - rewrite Hm3. replace (256 + f - 256) with f by lia. rewrite Hm2, Z.eqb_refl, refers_odd by done.
    rewrite (proj2 (Z.eqb_neq _ _)) by done. f_equal. lia.
  - intros i Hi. rewrite Hr3, (proj2 (Z.eqb_eq _ _)) by dlia.
    replace (1024 * (e / 4096) + (1024 * (256 + f) + i - 1024 * (256 + f))) with (1024 * (e / 4096) + i) by lia.
    pose proof entry_not_in_page. rewrite Hr2, (proj2 (Z.eqb_neq _ _)) by dlia.
    rewrite Hr1, (proj2 (Z.eqb_neq _ _)) by dlia. done.
  - intros w Hw Hu. assert (w / 1024 <> 256 + f) as Hwf.
    { intros E. destruct Hu as [Hu|Hu]; [lia|]. apply Hu. rewrite E. by replace (256 + f - 256) with f by lia. }
    rewrite Hr3, (proj2 (Z.eqb_neq _ _)), Hr2, (proj2 (Z.eqb_neq w a)), Hr1, (proj2 (Z.eqb_neq _ _)) by done. done.
Qed.
End Entered.
(** The end of [un_wp_page], the same for a page of the pool and for a page below it. *)
Lemma enter_new_page m2 : length m2 = 3840%nat ->
  (forall g, 0 <= g < 3840 -> m2 !! Z.to_nat g = Some (refs (ram s) g + owned g - refers g e + if g =? f then 1 else 0)) ->
  wp (wr (4096 * (ram s d / 4096) + 4 * j) (Z.lor (4096 * (256 + f)) 7) ;;; copy_page (4096 * (e / 4096)) (4096 * (256 + f)) ;;; ret (inr tt : exits unit))
    (fun r s' => r = inr tt /\ made_private owned s s' a) (s1 <| mem_map := m2 |>).
Proof.
  intros Hl Hm. apply wp_bind, wp_wr. rewrite word_addr. fold (pte (ram s) d j). fold a. apply wp_bind, wp_modify, wp_ret. split; [done|].
  eapply (replace_page_ok (s1 <| mem_map := m2 |> <| ram ::= fun r w => if w =? a then Z.lor (4096 * (256 + f)) 7 else r w |>)); try done.
  intros w. cbn -[Z.mul Z.div Z.add]. rewrite in_page. destruct (Z.eqb_spec (w / 1024) (256 + f)); [|done].
  replace (4096 * (e / 4096) / 4) with (1024 * (e / 4096)) by dlia.
  by replace (4096 * (256 + f) / 4) with (1024 * (256 + f)) by dlia.
Qed.
End Replace.

Lemma un_wp_page_ok :
  wp (un_wp_page (4096 * (ram s d / 4096) + 4 * j)) (fun r s' =>
    (r = inr tt /\ made_private owned s s' a) \/
    (r = inl SIGSEGV /\ (forall f, 0 <= f < 3840 -> mem_map s !! Z.to_nat f <> Some 0) /\
     s' = s <| klog ::= fun l => l ++ [Out_of_memory] |>)) s.
Proof.
  unfold un_wp_page. apply wp_bind, wp_rd. rewrite word_addr. fold (pte (ram s) d j). fold a e.
  assert (0 <= e < 4294967296) as Her by apply (ok_words _ _ H). rewrite mask_page by done.
  apply wp_bind. unfold MAP_NR, LOW_MEM.
  assert (256 <= e / 4096 -> Z.shiftr (4096 * (e / 4096) - 1048576) 12 = e / 4096 - 256) as Enr.
  { intros. rewrite Z.shiftr_div_pow2 by lia. change (2 ^ 12) with 4096. dlia. }
  set (private := match mem_map s !! Z.to_nat (e / 4096 - 256) with Some n => n =? 1 | None => false end).
  eapply (wp_run_done _ ((256 <=? e / 4096) && private) s).
  { destruct (Z.leb_spec 256 (e / 4096)) as [He|He].
    - rewrite (proj2 (Z.leb_le _ _)) by lia. rewrite Enr by done.
      destruct (mapped_count _ _ _ _ H Hd Hod Hj Hoe He) as (Hf & _ & n & Hn & _). fold a e in Hf, Hn.
      unfold bind. rewrite (count_at_run _ n) by (done || lia). unfold private. rewrite Hn. done.
    - rewrite (proj2 (Z.leb_gt _ _)) by lia. done. }
  destruct (Z.leb_spec 256 (e / 4096)) as [He|He]; cbn [andb].
  - destruct (mapped_count _ _ _ _ H Hd Hod Hj Hoe He) as (Hf & Hfh & n & Hn & En & Hnr & _). fold a e in Hf, Hn, En, Hfh.
    subst private. rewrite Hn. destruct (Z.eqb_spec n 1) as [->|Hn1].
    { apply wp_bind, wp_wr. rewrite word_addr. fold (pte (ram s) d j). fold a. apply wp_ret. left. split; [done|].
      by apply set_write_bit_ok. }
    apply wp_bind. eapply wp_mono; [by apply (get_free_page_run owned)|].
    intros page s1 [(-> & -> & Hnone)|(f & -> & Hff & Hffh & Hz & Hrf & Hof & _ & Hh1 & Hk1 & Hm1 & Hr1 & H1)].
    { cbn. right. done. }
    rewrite (proj2 (Z.eqb_neq _ 0)) by lia. rewrite (proj2 (Z.leb_le _ (4096 * (e / 4096)))), Enr by lia. cbn [when].
    assert (e / 4096 - 256 <> f) as Hne by (intros E; rewrite E, Hz in Hn; injection Hn; lia).
    assert (mem_map s1 !! Z.to_nat (e / 4096 - 256) = Some n) as Hn'.
    { rewrite Hm1, list_lookup_insert_ne by lia. done. }
    apply wp_bind, wp_bind. eapply wp_run_done; [apply count_at_run; [lia|exact Hn']|].
    eapply wp_run_done; [apply set_count_run; [rewrite (ok_len _ _ H1); lia|lia]|].
    eapply wp_mono; [apply (enter_new_page s1 f Hff Hffh Hz Hh1 Hr1 H1 (<[Z.to_nat (e / 4096 - 256) := n - 1]> (mem_map s1)))|by intros r s'; left].
    + rewrite length_insert. apply (ok_len _ _ H1).
    + intros g Hg. rewrite refers_odd by done. destruct (ok_count _ _ H g Hg) as [Hc _].
      destruct (Z.eqb_spec (e / 4096) (256 + g)) as [E|Hgne].
      * replace (e / 4096 - 256) with g in * by lia.
        rewrite list_lookup_insert_eq by (rewrite (ok_len _ _ H1); lia).
        destruct (Z.eqb_spec g f); [lia|]. f_equal. lia.
      * rewrite list_lookup_insert_ne, Hm1 by lia. destruct (Z.eqb_spec g f) as [->|].
        -- rewrite list_lookup_insert_eq by (rewrite (ok_len _ _ H); lia). f_equal. lia.
        -- rewrite list_lookup_insert_ne, Hc by lia. f_equal. lia.
  - apply wp_bind. eapply wp_mono; [by apply (get_free_page_run owned)|].
    intros page s1 [(-> & -> & Hnone)|(f & -> & Hff & Hffh & Hz & Hrf & Hof & _ & Hh1 & Hk1 & Hm1 & Hr1 & H1)].
    { cbn. right. done. }
    rewrite (proj2 (Z.eqb_neq _ 0)) by lia. rewrite (proj2 (Z.leb_gt _ (4096 * (e / 4096)))) by lia. cbn [when].
    apply wp_bind, wp_ret. eapply wp_mono; [apply (enter_new_page s1 f Hff Hffh Hz Hh1 Hr1 H1 (mem_map s1))|by intros r s'; left].
    + apply (ok_len _ _ H1).
    + intros g Hg. rewrite refers_odd, (proj2 (Z.eqb_neq _ _)), Hm1 by (done || lia).
      destruct (ok_count _ _ H g Hg) as [Hc _]. destruct (Z.eqb_spec g f) as [->|].
      * rewrite list_lookup_insert_eq by (rewrite (ok_len _ _ H); lia). f_equal. lia.
      * rewrite list_lookup_insert_ne, Hc by lia. f_equal. lia.
Qed.
End UnWp.

Definition dir_index_of (address : Z) : Z := address / 4194304.
Definition table_index_of (address : Z) : Z := address / 4096 mod 1024.

(** Entering a page in a present table. *)
Lemma enter_page_ok owned s s' d j f :
  mm_ok (own f owned) s -> (forall g, 0 <= owned g) -> 16 <= d < 1024 -> Z.odd (ram s d) = true -> 0 <= j < 1024 ->
  Z.odd (ram s (pte (ram s) d j)) = false -> 0 <= f < 3840 -> 256 + f < HIGH_MEMORY s / 4096 ->
  (HIGH_MEMORY s <= 4096 * (256 + f) -> 0 < owned f) ->
  HIGH_MEMORY s' = HIGH_MEMORY s -> mem_map s' = mem_map s ->
  (forall w, ram s' w = if w =? pte (ram s) d j then Z.lor (4096 * (256 + f)) 7 else ram s w) -> mm_ok owned s'.
Proof.
  intros H Hown Hd Ho Hj Hev Hf Hfh Htop Hh Hm Hr. destruct (new_entry_ok f ltac:(lia)) as [Hno Hnp].
  apply (mm_ok_pte (own f owned) owned s s' d j (Z.lor (4096 * (256 + f)) 7)); try done.
  - apply page_range. rewrite Hnp. lia.
  - intros _. rewrite Hnp. lia.
  - rewrite Hm. apply (ok_len _ _ H).
  - intros g Hg Hgh. pose proof (ok_top _ _ H g Hg Hgh) as G. unfold own in G.
    destruct (Z.eqb_spec g f) as [->|]; [by apply Htop|lia].
  - intros g Hg. cbn zeta. rewrite Hm, (refers_even g (ram s _)), refers_odd, Hnp by done.
    destruct (ok_count _ _ H g Hg) as [Hc Hc']. unfold own in Hc, Hc'. rewrite Hc.
    destruct (Z.eqb_spec g f), (Z.eqb_spec (256 + f) (256 + g)); try lia; (split; [f_equal|]; lia).
  - intros. rewrite Hm. by apply (ok_dirs _ _ H).
Qed.

Lemma put_page_ok owned s f address :
  mm_ok (own f owned) s -> (forall g, 0 <= owned g) -> 0 <= f < 3840 -> 256 + f < HIGH_MEMORY s / 4096 ->
  mem_map s !! Z.to_nat f = Some 1 -> 67108864 <= address < 4294967296 ->
  let d := dir_index_of address in let j := table_index_of address in
  (Z.odd (ram s d) = true -> Z.odd (ram s (pte (ram s) d j)) = false) ->
  wp (put_page (4096 * (256 + f)) address) (fun r s' =>
    (r = 4096 * (256 + f) /\ mm_ok owned s' /\ Z.odd (ram s' d) = true /\
     ram s' (pte (ram s') d j) = Z.lor (4096 * (256 + f)) 7 /\
     forall w, w <> d -> (Z.odd (ram s d) = true -> w <> pte (ram s) d j) -> used_word s w -> ram s' w = ram s w) \/
    (r = 0 /\ s' = s /\ Z.odd (ram s d) = false /\
     forall g, 0 <= g < 3840 -> mem_map s !! Z.to_nat g <> Some 0)) s.
Proof.
  intros H Hown Hf Hfh Hm Ha d j Hev. unfold put_page. pose proof (high_pages _ _ H) as Hhp.
  assert (16 <= d < 1024) as Hd by (unfold d, dir_index_of; dlia).
  assert (0 <= j < 1024) as Hj by (unfold j, table_index_of; dlia).
  destruct (ok_high _ _ H) as [_ Hhr]. apply wp_bind, wp_get. unfold LOW_MEM.
  rewrite (proj2 (Z.ltb_ge _ 1048576)), u32_id, (proj2 (Z.leb_gt _ _)) by lia. cbn [orb when].
  apply wp_bind, wp_ret. rewrite u32_id by lia.
  replace (Z.shiftr (4096 * (256 + f) - 1048576) 12) with f.
  2:{ rewrite Z.shiftr_div_pow2 by lia. change (2 ^ 12) with 4096. dlia. }
  apply wp_bind. eapply wp_run_done; [by apply (count_at_run f 1); [lia|]|].
  cbn [negb Z.eqb when Pos.eqb]. apply wp_bind, wp_ret.
  rewrite dir_index by lia. replace (address / 4194304 mod 1024) with d by (unfold d, dir_index_of; dlia).
  replace (Z.land (Z.shiftr address 12) 1023) with j.
  2:{ change 1023 with (Z.ones 10). rewrite Z.land_ones, Z.shiftr_div_pow2 by lia. done. }
  apply wp_bind, wp_rd. rewrite (Z.mul_comm 4 d), Z.div_mul, odd_truth_r by lia.
  destruct (Z.odd (ram s d)) eqn:Ho.
  - apply wp_bind, wp_ret. rewrite mask_page by apply (ok_words _ _ H). cbn match.
    apply wp_bind, wp_wr. rewrite word_addr. fold (pte (ram s) d j). apply wp_ret. left. split; [done|].
    set (s' := s <| ram ::= _ |>).
    assert (ram s' d = ram s d) as Ed.
    { cbn. pose proof (ok_tables_high _ _ H d Hd Ho). by rewrite (proj2 (Z.eqb_neq _ _)) by (unfold pte; lia). }
    assert (pte (ram s') d j = pte (ram s) d j) as Ep by (unfold pte; by rewrite Ed).
    split; [|split; [by rewrite Ed|split]].
    + apply (enter_page_ok owned s s' d j f); try done; try lia. by apply Hev.
    + rewrite Ep. cbn. by rewrite Z.eqb_refl.
    + intros w Hwd Hw _. cbn. by rewrite (proj2 (Z.eqb_neq _ _)) by (by apply Hw).
  - apply wp_bind, wp_bind. eapply wp_mono; [by apply (get_free_page_run (own f owned))|].
    intros page s1 [(-> & -> & Hnone)|(t & -> & Ht & Hth & Hz & Hrt & Hot & _ & Hh1 & Hk1 & Hm1 & Hr1 & H1)].
    { cbn. right. done. }
    rewrite (proj2 (Z.eqb_neq _ 0)) by lia. apply wp_bind, wp_wr. rewrite Z.div_mul by lia. apply wp_ret.
    destruct (enter_table_ok (own f owned) s s1 d t) as (H2 & Hdir2 & Hold2 & Hnew2 & Hrefs2); try done.
    set (s2 := s1 <| ram ::= _ |>) in *. destruct (new_entry_ok t ltac:(lia)) as [Hto Htp].
    assert (ram s2 d = Z.lor (4096 * (256 + t)) 7) as Ed by (cbn; by rewrite Z.eqb_refl).
    assert (pte (ram s2) d j = 1024 * (256 + t) + j) as Ep by (unfold pte; by rewrite Ed, Htp).
    assert (t <> f) as Htf by (intros ->; congruence).
    apply wp_bind, wp_wr. rewrite word_addr, <- Ep. apply wp_ret. left. split; [done|].
    set (s' := s2 <| ram ::= _ |>).
    assert (forall w, ram s' w = if w =? pte (ram s2) d j then Z.lor (4096 * (256 + f)) 7 else ram s2 w) as Hr' by done.
    assert (ram s' d = ram s2 d) as Ed' by (rewrite Hr', Ep; by rewrite (proj2 (Z.eqb_neq d _)) by lia).
    split; [|split; [by rewrite Ed', Ed|split]].
    + apply (enter_page_ok owned s2 s' d j f); try done; try (cbn; rewrite ?Hh1; lia).
      * by rewrite Ed.
      * rewrite Ep, Hnew2 by dlia. done.
    + replace (pte (ram s') d j) with (pte (ram s2) d j) by (unfold pte; by rewrite Ed').
      rewrite Hr'. by rewrite Z.eqb_refl.
    + intros w Hwd _ Hu. assert (w / 1024 <> 256 + t) as Hwt.
      { intros E. destruct Hu as [Hu|Hu]; [lia|]. apply Hu. rewrite E. by replace (256 + t - 256) with t by lia. }
      rewrite Hr', (proj2 (Z.eqb_neq w _)) by (rewrite Ep; dlia). by apply Hold2.
Qed.

Lemma low_bits e : Z.land 3 e = 1 <-> Z.odd e = true /\ writable e = false.
Proof.
  unfold writable. rewrite Z.land_comm. change 3 with (Z.ones 2). rewrite Z.land_ones by lia. change (2 ^ 2) with 4.
  rewrite (Z.testbit_odd e 1), Z.shiftr_div_pow2 by lia. change (2 ^ 1) with 2.
  pose proof (Zmod_odd e). pose proof (Zmod_odd (e / 2)).
  destruct (Z.odd e), (Z.odd (e / 2)); split; try (intros [? ?]); try done; intros; dlia.
Qed.

(** C28: [write_verify] on a user address.  If the address is mapped read-only, the
    page becomes private to the mapping: writable, of count 1, with the same
    contents as before, while no word of a page in use changes but the entry
    itself, so the other tasks that shared the page still read the old
    contents.  If it is not mapped, or writable already, nothing happens.
    When a copy is needed and no page is free, the task ends with [SIGSEGV] and
    no word of memory has changed. *)
Theorem write_verify_private owned s address :
  mm_ok owned s -> 67108864 <= address < 4294967296 ->
  let d := dir_index_of address in
  let a := pte (ram s) d (table_index_of address) in
  wp (write_verify address) (fun r s' =>
    if Z.odd (ram s d) && Z.odd (ram s a) && negb (writable (ram s a)) then
      (r = inr tt /\ made_private owned s s' a) \/
      (r = inl SIGSEGV /\ (forall f, 0 <= f < 3840 -> mem_map s !! Z.to_nat f <> Some 0) /\
       s' = s <| klog ::= fun l => l ++ [Out_of_memory] |>)
    else r = inr tt /\ s' = s) s.
Proof.
  intros H Ha d a. unfold write_verify.
  assert (16 <= d < 1024) as Hd by (unfold d, dir_index_of; dlia).
  assert (0 <= table_index_of address < 1024) as Hj by (unfold table_index_of; dlia).
  apply wp_bind, wp_rd. rewrite dir_index, table_index by lia.
  replace (address / 4194304 mod 1024) with d by (unfold d, dir_index_of; dlia).
  fold (table_index_of address). rewrite (Z.mul_comm 4 d), Z.div_mul, odd_truth_r by lia.
  destruct (Z.odd (ram s d)) eqn:Ho; cbn [negb andb]; [|by apply wp_ret].
  rewrite mask_page_r by apply (ok_words _ _ H). apply wp_bind, wp_rd. rewrite word_addr.
  fold (pte (ram s) d (table_index_of address)). fold a.
  destruct (Z.eqb_spec (Z.land 3 (ram s a)) 1) as [E|Hne].
  - apply low_bits in E as [E1 E2]. rewrite E1, E2. cbn [andb negb]. by apply un_wp_page_ok.
  - apply wp_ret. destruct (Z.odd (ram s a)) eqn:E1; cbn [andb]; [|done].
    destruct (writable (ram s a)) eqn:E2; [done|]. destruct Hne. by apply low_bits.
Qed.

(** A page fault outside the executable: [get_empty_page] maps a page of zeros,
    readable and writable, at an address that was not mapped, and changes no
    other word of a page in use; without a free page the task ends with [SIGSEGV]
    and the counts are what they were. *)
Theorem get_empty_page_ok owned s address :
  mm_ok owned s -> 67108864 <= address < 4294967296 ->
  let d := dir_index_of address in let j := table_index_of address in
  (Z.odd (ram s d) = true -> Z.odd (ram s (pte (ram s) d j)) = false) ->
  wp (get_empty_page address) (fun r s' => mm_ok owned s' /\
    (r = inl SIGSEGV /\ mem_map s' = mem_map s \/
     r = inr tt /\ exists f, 0 <= f < 3840 /\ mem_map s !! Z.to_nat f = Some 0 /\
       Z.odd (ram s' d) = true /\ ram s' (pte (ram s') d j) = Z.lor (4096 * (256 + f)) 7 /\
       (forall i, 0 <= i < 1024 -> ram s' (1024 * (256 + f) + i) = 0) /\
       (forall w, w <> d -> (Z.odd (ram s d) = true -> w <> pte (ram s) d j) -> used_word s w -> ram s' w = ram s w))) s.
Proof.
  intros H Ha d j Hev. unfold get_empty_page.
  assert (16 <= d < 1024) as Hd by (unfold d, dir_index_of; dlia).
  apply wp_bind. eapply wp_mono; [by apply (get_free_page_run owned)|].
  intros page s1 [(-> & -> & Hnone)|(f & -> & Hf & Hfh & Hz & Hrf & Hof & _ & Hh1 & Hk1 & Hm1 & Hr1 & H1)].
  { rewrite Z.eqb_refl. apply wp_bind, wp_ret, wp_bind.
    eapply wp_run_done; [apply free_page_low; lia|].
    split; [|by left]. by apply (mm_ok_ext owned owned s). }
  rewrite (proj2 (Z.eqb_neq _ 0)) by lia.
  assert (ram s1 d = ram s d) as Ed by (rewrite Hr1; by rewrite (proj2 (Z.eqb_neq _ _)) by dlia).
  assert (Z.odd (ram s d) = true -> ram s d / 4096 <> 256 + f) as Hnt
    by (intros; apply (unused_not_table s f); (done || lia)).
  assert (0 <= j < 1024) as Hj by (unfold j, table_index_of; dlia).
  assert (pte (ram s1) d j = pte (ram s) d j) as Ep by (unfold pte; by rewrite Ed).
  assert (mem_map s1 !! Z.to_nat f = Some 1) as Hmf
    by (rewrite Hm1; apply list_lookup_insert_eq; rewrite (ok_len _ _ H); lia).
  apply wp_bind, wp_bind. eapply wp_mono.
  { apply (put_page_ok owned s1 f address); try done.
    - apply (ok_owned _ _ H).
    - by rewrite Hh1.
    - fold d j. rewrite Ed, Ep. intros Ho. specialize (Hev Ho). specialize (Hnt Ho).
      rewrite Hr1. by rewrite (proj2 (Z.eqb_neq _ _)) by (unfold pte; dlia). }
  fold d j. intros r s' [(-> & H' & Hod & Hpte & Hsame)|(-> & -> & Hod & Hnone)].
  - apply wp_ret. rewrite (proj2 (Z.eqb_neq _ 0)) by lia. apply wp_ret. split; [done|]. right. split; [done|].
    exists f. split; [done|]. split; [done|]. split; [done|]. split; [done|].
    assert (forall w, used_word s w -> used_word s1 w) as Hused.
    { intros w [|Hw]; [by left|right]. rewrite Hm1. intros E. apply Hw.
      destruct (decide (Z.to_nat f = Z.to_nat (w / 1024 - 256))) as [E'|].
      - rewrite <- E', <- Hm1, Hmf in E. done.
      - by rewrite list_lookup_insert_ne in E. }
    split.
    + intros i Hi. rewrite Hsame.
      * rewrite Hr1. by rewrite (proj2 (Z.eqb_eq _ _)) by dlia.
      * dlia.
      * rewrite Ed, Ep. intros Ho E. apply (Hnt Ho). unfold pte in E. lia.
      * right. replace ((1024 * (256 + f) + i) / 1024 - 256) with f by dlia. by rewrite Hmf.
    + intros w Hw1 Hw2 Hu. rewrite Hsame; [|done| |by apply Hused].
      * rewrite Hr1. rewrite (proj2 (Z.eqb_neq _ _)); [done|]. intros E.
        destruct Hu as [Hu|Hu]; [lia|]. apply Hu. rewrite E. by replace (256 + f - 256) with f by lia.
      * rewrite Ed, Ep. exact Hw2.
  - apply wp_ret. cbn [Z.eqb negb]. apply wp_bind.
    pose proof (high_pages _ _ H). destruct (ok_high _ _ H1). eapply wp_run_done.
    { apply (free_page_run s1 f 1); [rewrite (ok_len _ _ H1); lia|lia|done|lia]. }
    cbn. rewrite Hm1, list_insert_insert_eq, list_insert_id by done. split; [|by left].
    apply (mm_ok_page owned s _ f); try done; try lia.
    + cbn. by rewrite Hm1, list_insert_insert_eq, list_insert_id.
    + intros d' Hd' Ho'. by apply (unused_not_table s f).
    + apply (ok_words _ _ H1).
    + intros w Hw. cbn. rewrite Hr1. by rewrite (proj2 (Z.eqb_neq _ _)).
Qed.

(** ** Start *)
Definition reserved (start_mem end_mem f : Z) : Z :=
  if (start_mem <=? 4096 * (256 + f)) && (4096 * (256 + f) <? end_mem) then 0 else USED.

Lemma set_range_run a n v s :
  0 <= v < 256 -> 0 <= n -> 0 <= a -> a + n <= Z.of_nat (length (mem_map s)) ->
  wp (for_each (seqZ a n) (fun i => set_count i v)) (fun _ s' =>
    HIGH_MEMORY s' = HIGH_MEMORY s /\ ram s' = ram s /\ length (mem_map s') = length (mem_map s) /\
    forall f, 0 <= f < Z.of_nat (length (mem_map s)) ->
      mem_map s' !! Z.to_nat f = if (a <=? f) && (f <? a + n) then Some v else mem_map s !! Z.to_nat f) s.
Proof.
  intros Hv Hn Ha Hl. apply (wp_for_seq n (fun i => set_count i v) (fun i s' =>
    HIGH_MEMORY s' = HIGH_MEMORY s /\ ram s' = ram s /\ length (mem_map s') = length (mem_map s) /\
    forall f, 0 <= f < Z.of_nat (length (mem_map s)) ->
      mem_map s' !! Z.to_nat f = if (a <=? f) && (f <? i) then Some v else mem_map s !! Z.to_nat f) a Hn).
  - intros i s1 Hi (Hh & Hr & Hl1 & Hm). eapply wp_run_done; [apply set_count_run; lia|].
    split; [done|]. split; [done|]. split; [cbn; by rewrite length_insert|].
    intros f Hf. cbn. destruct (Z.eq_dec f i) as [->|Hne].
    + rewrite list_lookup_insert_eq by lia. by rewrite (proj2 (Z.leb_le _ _)), (proj2 (Z.ltb_lt _ _)) by lia.
    + rewrite list_lookup_insert_ne, Hm by lia.
      replace (f <? i + 1) with (f <? i) by (destruct (Z.ltb_spec f i), (Z.ltb_spec f (i + 1)); (lia || done)). done.
  - split; [done|]. split; [done|]. split; [done|]. intros f Hf.
    destruct (Z.leb_spec a f), (Z.ltb_spec f a); cbn; (lia || done).
Qed.

(** [mem_init] makes the counts right for a memory without user page tables:
    the pages from [start_mem] to [end_mem] are free, all the others [USED]. *)
Theorem mem_init_ok s start_mem end_mem :
  length (mem_map s) = 3840%nat -> (forall w, 0 <= ram s w < 4294967296) ->
  (forall d, 16 <= d < 1024 -> Z.odd (ram s d) = false) ->
  start_mem mod 4096 = 0 -> end_mem mod 4096 = 0 -> 1048576 <= start_mem <= end_mem -> end_mem <= 16777216 ->
  wp (mem_init start_mem end_mem) (fun _ s' =>
    mm_ok (reserved start_mem end_mem) s' /\ ram s' = ram s /\
    forall f, 0 <= f < 3840 ->
      mem_map s' !! Z.to_nat f = Some 0 <-> start_mem <= 4096 * (256 + f) < end_mem) s.
Proof.
  intros Hl Hw Hoff Hs He Hse Hend. unfold mem_init, PAGING_PAGES. apply wp_bind, wp_modify, wp_bind.
  eapply wp_mono; [apply (set_range_run 0 3840 USED); unfold USED; cbn; rewrite ?Hl; lia|].
  cbn. intros [] s1 (Hh1 & Hr1 & Hl1 & Hm1). rewrite Hl in Hl1, Hm1.
  unfold MAP_NR, LOW_MEM. rewrite !Z.shiftr_div_pow2 by lia. change (2 ^ 12) with 4096.
  set (a := (start_mem - 1048576) / 4096). set (n := (end_mem - start_mem) / 4096).
  assert (0 <= a /\ 0 <= n /\ a + n <= 3840 /\ start_mem = 4096 * (256 + a) /\ end_mem = 4096 * (256 + a + n))
    as (Ha & Hn & Han & Es & Ee) by (unfold a, n; dlia).
  eapply wp_mono; [apply (set_range_run a n 0); rewrite ?Hl1; lia|].
  intros [] s' (Hh & Hr & Hl' & Hm). rewrite Hl1 in Hl', Hm.
  assert (forall f, 0 <= f < 3840 -> mem_map s' !! Z.to_nat f = Some (reserved start_mem end_mem f)) as Hmap.
  { intros f Hf. rewrite Hm, Hm1, (proj2 (Z.leb_le 0 f)), (proj2 (Z.ltb_lt f (0 + 3840))) by lia. cbn [andb].
    unfold reserved. rewrite Es, Ee.
    destruct (Z.leb_spec a f), (Z.ltb_spec f (a + n)), (Z.leb_spec (4096 * (256 + a)) (4096 * (256 + f))),
      (Z.ltb_spec (4096 * (256 + f)) (4096 * (256 + a + n))); cbn [andb]; (lia || done). }
  rewrite Hr, Hr1. assert (forall f, refs (ram s) f = 0) as Hrefs by (intros; by apply refs_no_dirs).
  split; [|split; [done|]].
  - split; rewrite ?Hr, ?Hr1, ?Hh, ?Hh1; try done.
    + lia.
    + intros f. unfold reserved, USED. destruct (_ && _); lia.
    + intros f Hf. rewrite Hrefs, Hmap by done. split; [done|]. unfold reserved, USED. destruct (_ && _); lia.
    + intros f Hf Hge. unfold reserved, USED. rewrite (proj2 (Z.ltb_ge _ _)) by lia. by rewrite andb_false_r.
    + intros d Hd Ho. by rewrite Hoff in Ho.
    + intros d j Hd Ho. by rewrite Hoff in Ho.
  - intros f Hf. rewrite Hmap by done. unfold reserved, USED.
    destruct (Z.leb_spec start_mem (4096 * (256 + f))), (Z.ltb_spec (4096 * (256 + f)) end_mem); cbn [andb];
      split; intros; (done || lia).
Qed.
Lemma mem_init_ok_witness :
  wp (mem_init 4194304 16777216) (fun _ s' => mm_ok (reserved 4194304 16777216) s') boot_mm.
Proof.
  eapply wp_mono.
  { apply (mem_init_ok boot_mm 4194304 16777216); [vm_compute; done|done|done|done|done|lia|lia]. }
  intros [] s' [H' _]. exact H'.
Defined.

Lemma get_empty_page_ok_witness :
  wp (get_empty_page 67112960) (fun r s' => mm_ok boot_owned s') boot_mm.
Proof.
  eapply wp_mono; [apply (get_empty_page_ok boot_owned boot_mm 67112960 boot_mm_ok); [lia|vm_compute; discriminate]|].
  intros r s' [H' _]. exact H'.
Defined.

(** A task with one page, mapped read-only at the start of its address space. *)
Definition one_table : mm := boot_mm <| mem_map ::= <[3839%nat := 1]> |>
  <| ram := fun w => if w =? 16 then 16773127 else 0 |>.
Definition one_page : mm := one_table <| mem_map ::= <[3838%nat := 1]> |>
  <| ram := fun w => if w =? 4193280 then 16769031 else ram one_table w |>.
Definition read_only_page : mm := one_page <| ram := fun w => if w =? 4193280 then 16769029 else ram one_page w |>.

Lemma read_only_page_ok : mm_ok boot_owned read_only_page.
Proof.
  assert (mm_ok boot_owned one_table) as H1.
  { apply (mm_ok_new_table boot_owned (own 3839 boot_owned) (boot_mm <| mem_map ::= <[Z.to_nat 3839 := 1]> |>)
      one_table 16 3839 16773127); try done; try (vm_compute; congruence).
    - by apply (own_ok boot_owned boot_mm 3839 boot_mm_ok).
    - apply (ok_owned _ _ boot_mm_ok). }
  assert (mm_ok boot_owned one_page) as H2.
  { apply (enter_page_ok boot_owned (one_table <| mem_map ::= <[Z.to_nat 3838 := 1]> |>) one_page 16 0 3838);
      try lia; try reflexivity; try (vm_compute; congruence).
    - apply (own_ok boot_owned one_table 3838 H1); [lia|vm_compute; reflexivity].
    - apply (ok_owned _ _ boot_mm_ok). }
  apply (mm_ok_pte boot_owned boot_owned one_page read_only_page 16 0 16769029 H2);
    [lia|vm_compute; reflexivity|lia|reflexivity|intros w; reflexivity|lia|vm_compute; congruence|
     vm_compute; reflexivity|..].
  - apply (ok_owned _ _ boot_mm_ok).
  - apply (ok_top _ _ H2).
  - intros f Hf. cbn zeta. rewrite (refers_same f (ram one_page (pte (ram one_page) 16 0)) 16769029) by done.
    pose proof (ok_count _ _ H2 f Hf) as Hc. change (mem_map read_only_page) with (mem_map one_page).
    replace (refs (ram one_page) f - refers f (ram one_page (pte (ram one_page) 16 0)) +
      refers f (ram one_page (pte (ram one_page) 16 0)) + boot_owned f) with (refs (ram one_page) f + boot_owned f) by lia.
    exact Hc.
  - intros d Hd Ho. exact (proj2 (ok_dirs _ _ H2 d Hd Ho)).
Qed.
Lemma write_verify_private_witness :
  wp (write_verify 67108864) (fun r s' =>
    r = inr tt /\ made_private boot_owned read_only_page s' 4193280 \/ r = inl SIGSEGV) read_only_page.
Proof.
  eapply wp_mono; [apply (write_verify_private boot_owned read_only_page 67108864 read_only_page_ok); lia|].
  intros r s' G. cbv beta zeta in G.
  match type of G with (if ?b then _ else _) => replace b with true in G by (vm_compute; reflexivity) end.
  destruct G as [G|(G & _)]; [left|right]; exact G.
Defined.

End Memory.
