(* ===== verification/Sched.v ===== *)
(** * Sched: [kernel/sched.c]

    The scheduler, the wait queues, the timers, the floppy motor clock and the
    system calls of [sched.c]. *)
From S2P Require Import Prelude Console Task.

Module Sched.

(** ** The scheduler *)

(** The first loop of [schedule]: expired alarms become SIGALRM, and an
    interruptible sleeper with a signal it does not block becomes runnable. *)
Definition alarm_check (now : Z) (t : task_struct) : task_struct :=
  let t := if truth (alarm t) && (alarm t <? now)
           then t <| signal := Z.lor (signal t) (sigbit SIGALRM) |> <| alarm := 0 |> else t in
  if truth (Z.land (signal t) (Z.lnot (Z.land BLOCKABLE (blocked t)))) &&
     (t_state t =? TASK_INTERRUPTIBLE)
  then t <| t_state := TASK_RUNNING |> else t.

(** The selection: from the last slot down to slot 1, the first runnable task
    with the largest counter; slot 0 when there is none. *)
Definition candidate (l : list (option task_struct)) (acc : Z * nat) (i : nat) : Z * nat :=
  match mjoin (l !! i) with
  | Some t => if (t_state t =? TASK_RUNNING) && (fst acc <? counter t) then (counter t, i) else acc
  | None => acc
  end.
Definition select (l : list (option task_struct)) : Z * nat :=
  foldl (candidate l) (-1, O) (rev (seq 1 (NR_TASKS - 1))).

Definition recount (t : task_struct) : task_struct :=
  t <| counter := i32 (Z.shiftr (counter t) 1 + priority t) |>.

Definition switch_to (n : nat) : M kernel unit := modify (fun k => k <| current := n |>).

(** The [while (1)] of [schedule] goes round at most twice (see
    [schedule_picks]). *)
Definition schedule : M kernel unit :=
  modify (fun k => k <| task ::= all_but_first (alarm_check (jiffies k)) |>) ;;;
  next <- loop 2
    (fun _ : unit =>
       k <- get ;;
       let (c, next) := select (task k) in
       if truth c then ret (inr next)
       else modify (fun k => k <| task ::= all_but_first recount |>) ;;; ret (inl tt)) tt ;;
  switch_to next.

(** ** Sleeping and waking

    A routine that calls [schedule] continues when the scheduler comes back to
    its task.  [others] stands for what the rest of the system does in between:
    the other tasks and the interrupts. *)
Section Sleep.
Context (others : nat -> M kernel unit).

Definition reschedule : M kernel unit :=
  k <- get ;; schedule ;;; others (current k).

Definition sys_pause : M kernel Z :=
  mod_cur (fun t => t <| t_state := TASK_INTERRUPTIBLE |>) ;;; reschedule ;;; ret 0.

(** [sleep_on] before and after its call of [schedule]. *)
Definition sleep_enter (st : Z) (p : Z) : M kernel (option nat) :=
  k <- get ;;
  if Nat.eqb (current k) 0 then panic "task[0] trying to sleep" else
  tmp <- wq_get p ;;
  wq_set p (Some (current k)) ;;;
  mod_cur (fun t => t <| t_state := st |>) ;;;
  ret tmp.
Definition sleep_on (p : Z) : M kernel unit :=
  tmp <- sleep_enter TASK_UNINTERRUPTIBLE p ;;
  reschedule ;;;
  make_runnable tmp.

(** What [interruptible_sleep_on] does each time it is scheduled again: [false]
    when it goes back to [repeat]. *)
Definition sleep_again (p : Z) (tmp : option nat) : M kernel bool :=
  k <- get ;;
  h <- wq_get p ;;
  match h with
  | Some i =>
      if Nat.eqb i (current k) then wq_set p None ;;; make_runnable tmp ;;; ret true
      else make_runnable (Some i) ;;;
           mod_cur (fun t => t <| t_state := TASK_INTERRUPTIBLE |>) ;;; ret false
  | None => wq_set p None ;;; make_runnable tmp ;;; ret true
  end.
Definition interruptible_sleep_on (fuel : nat) (p : Z) : M kernel unit :=
  tmp <- sleep_enter TASK_INTERRUPTIBLE p ;;
  loop fuel (fun _ : unit =>
    reschedule ;;;
    b <- sleep_again p tmp ;;
    ret (if b : bool then inr tt else inl tt)) tt.
End Sleep.

Definition wake_up (p : Z) : M kernel unit :=
  o <- wq_get p ;;
  match o with
  | Some i => make_runnable (Some i) ;;; wq_set p None
  | None => ret tt
  end.

(** ** The floppy motors *)

(** The address of [wait_motor[nr]]. *)
Definition wait_motor (nr : Z) : Z := nr.
Definition nth_Z (l : list Z) (i : Z) : Z := default 0 (l !! Z.to_nat i).
Definition outb (v port : Z) : M kernel unit :=
  modify (fun k => k <| con ::= fun c => c <| Console.ports ::= cons (v, port) |> |>).
Definition FD_DOR : Z := 1010.

Definition ticks_to_floppy_on (nr : Z) : M kernel Z :=
  if 3 <? u32 nr then panic "floppy_on: nr>3" else
  modify (fun k => k <| moff_timer ::= <[Z.to_nat nr := 10000]> |>) ;;;
  k <- get ;;
  let mask := Z.lor (u8 (Z.shiftl 16 nr)) (current_DOR k) in
  let mask := if truth (selected k) then mask else Z.lor (Z.land mask 252) nr in
  when (negb (mask =? current_DOR k))
    (outb mask FD_DOR ;;;
     (if truth (Z.land (Z.lxor mask (current_DOR k)) 240)
      then modify (fun k => k <| mon_timer ::= <[Z.to_nat nr := HZ / 2]> |>)
      else if nth_Z (mon_timer k) nr <? 2
           then modify (fun k => k <| mon_timer ::= <[Z.to_nat nr := 2]> |>) else ret tt) ;;;
     modify (fun k => k <| current_DOR := mask |>)) ;;;
  gets (fun k => nth_Z (mon_timer k) nr).

Definition floppy_on (others : nat -> M kernel unit) (fuel : nat) (nr : Z) : M kernel unit :=
  loop fuel (fun _ : unit =>
    ticks <- ticks_to_floppy_on nr ;;
    if truth ticks then sleep_on others (wait_motor nr) ;;; ret (inl tt) else ret (inr tt)) tt.

Definition floppy_off (nr : Z) : M kernel unit :=
  modify (fun k => k <| moff_timer ::= <[Z.to_nat nr := 3 * HZ]> |>).

Definition floppy_tick (i : Z) : M kernel unit :=
  k <- get ;;
  let mask := Z.shiftl 16 i in
  if negb (truth (Z.land mask (current_DOR k))) then ret tt
  else if truth (nth_Z (mon_timer k) i) then
    modify (fun k => k <| mon_timer ::= <[Z.to_nat i := nth_Z (mon_timer k) i - 1]> |>) ;;;
    (if negb (truth (nth_Z (mon_timer k) i - 1)) then wake_up (wait_motor i) else ret tt)
  else if negb (truth (nth_Z (moff_timer k) i)) then
    modify (fun k => k <| current_DOR := Z.land (current_DOR k) (u8 (Z.lnot mask)) |>) ;;;
    k' <- get ;; outb (current_DOR k') FD_DOR
  else modify (fun k => k <| moff_timer ::= <[Z.to_nat i := nth_Z (moff_timer k) i - 1]> |>).
Definition do_floppy_timer : M kernel unit := for_each [0; 1; 2; 3] floppy_tick.

(** ** Timers *)
Definition TIME_REQUESTS : nat := 64.
Definition get_timer (p : nat) : M kernel timer := k <- get ;; deref (timer_list k !! p).
Definition mod_timer (p : nat) (f : timer -> timer) : M kernel unit :=
  t <- get_timer p ;; modify (fun k => k <| timer_list ::= <[p := f t]> |>).
(** The first free entry of [timer_list]. *)
Fixpoint free_entry (l : list timer) (i : nat) : option nat :=
  match l with
  | [] => None
  | t :: l' => match t_fn t with Some _ => free_entry l' (Datatypes.S i) | None => Some i end
  end.
(** The body of the sorting loop of [add_timer]: exchange entry [p] with its
    successor while that one expires earlier. *)
Definition sift (p : nat) : M kernel (nat + unit) :=
  t <- get_timer p ;;
  match t_next t with
  | None => ret (inr tt)
  | Some q =>
      u <- get_timer q ;;
      if t_jiffies u <? t_jiffies t then
        mod_timer p (fun t => t <| t_jiffies := t_jiffies t - t_jiffies u |>) ;;;
        t <- get_timer p ;; u <- get_timer q ;;
        mod_timer p (fun t => t <| t_fn := t_fn u |>) ;;;
        mod_timer q (fun u => u <| t_fn := t_fn t |>) ;;;
        mod_timer p (fun t => t <| t_jiffies := t_jiffies u |>) ;;;
        mod_timer q (fun u => u <| t_jiffies := t_jiffies t |>) ;;;
        ret (inl q)
      else ret (inr tt)
  end.

Section Timers.
(** The functions that timers call. *)
Context (call : Z -> M kernel unit) (inb : Z -> Z).

Definition add_timer (j : Z) (fn : option Z) : M kernel unit :=
  match fn with
  | None => ret tt
  | Some f =>
      if j <=? 0 then call f else
      k <- get ;;
      match free_entry (take TIME_REQUESTS (timer_list k)) O with
      | None => panic "No more time requests free"
      | Some p =>
          mod_timer p (fun _ => mk_timer j (Some f) (next_timer k)) ;;;
          modify (fun k => k <| next_timer := Some p |>) ;;;
          loop (Datatypes.S TIME_REQUESTS) sift p
      end
  end.

(** One round of the expiry loop of [do_timer]. *)
Definition expire (_ : unit) : M kernel (unit + unit) :=
  k <- get ;;
  match next_timer k with
  | None => ret (inr tt)
  | Some p =>
      t <- get_timer p ;;
      if t_jiffies t <=? 0 then
        mod_timer p (fun t => t <| t_fn := None |>) ;;;
        modify (fun k => k <| next_timer := t_next t |>) ;;;
        f <- deref (t_fn t) ;; call f ;;; ret (inl tt)
      else ret (inr tt)
  end.
Definition run_timers : M kernel unit :=
  k <- get ;;
  match next_timer k with
  | None => ret tt
  | Some p => mod_timer p (fun t => t <| t_jiffies ::= Z.pred |>) ;;;
              loop (Datatypes.S TIME_REQUESTS) expire tt
  end.

(** [do_timer] of the timer interrupt; the task may be preempted at its end. *)
Definition do_timer (others : nat -> M kernel unit) (cpl : Z) : M kernel unit :=
  k <- get ;;
  when (truth (Console.beepcount (con k)))
    (modify (fun k => k <| con ::= fun c => c <| Console.beepcount ::= Z.pred |> |>) ;;;
     k <- get ;;
     when (negb (truth (Console.beepcount (con k))))
       (zoom con (fun c k => k <| con := c |>) (Console.sysbeepstop inb))) ;;;
  (if truth cpl then mod_cur (fun t => t <| utime ::= Z.succ |>)
   else mod_cur (fun t => t <| stime ::= Z.succ |>)) ;;;
  run_timers ;;;
  k <- get ;;
  when (truth (Z.land (current_DOR k) 240)) do_floppy_timer ;;;
  mod_cur (fun t => t <| counter ::= Z.pred |>) ;;;
  t <- cur ;;
  if 0 <? counter t then ret tt
  else mod_cur (fun t => t <| counter := 0 |>) ;;;
       (if truth cpl then reschedule others else ret tt).
End Timers.

(** ** System calls *)
Definition sys_alarm (seconds : Z) : M kernel Z :=
  k <- get ;; t <- cur ;;
  let old := if truth (alarm t) then Z.quot (alarm t - jiffies k) HZ else alarm t in
  mod_cur (fun t => t <| alarm := if 0 <? seconds then i32 (jiffies k + HZ * seconds) else 0 |>) ;;;
  ret old.
Definition sys_getpid : M kernel Z := t <- cur ;; ret (pid t).
Definition sys_getppid : M kernel Z := t <- cur ;; ret (father t).
Definition sys_getuid : M kernel Z := t <- cur ;; ret (uid t).
Definition sys_geteuid : M kernel Z := t <- cur ;; ret (euid t).
Definition sys_getgid : M kernel Z := t <- cur ;; ret (gid t).
Definition sys_getegid : M kernel Z := t <- cur ;; ret (egid t).
Definition sys_nice (increment : Z) : M kernel Z :=
  t <- cur ;;
  when (0 <? priority t - increment)
    (mod_cur (fun t => t <| priority := priority t - increment |>)) ;;;
  ret 0.

(** [math_state_restore]: [fpu] is the live coprocessor state, the result the
    state after the switch; [fninit_state] is a freshly initialised one. *)
Definition math_state_restore (fninit_state fpu : Z) : M kernel Z :=
  k <- get ;;
  if bool_decide (last_task_used_math k = Some (current k)) then ret fpu else
  match last_task_used_math k with
  | Some l => mod_task l (fun t => t <| tss ::= fun s => s <| i387 := fpu |> |>)
  | None => ret tt
  end ;;;
  modify (fun k => k <| last_task_used_math := Some (current k) |>) ;;;
  t <- cur ;;
  if truth (used_math t) then ret (i387 (tss t))
  else mod_cur (fun t => t <| used_math := 1 |>) ;;; ret fninit_state.

(** [sched_init]: the table of tasks and the descriptors of the empty slots; the
    hardware set-up is not modelled, save for the timer chip. *)
Definition LATCH : Z := 1193180 / HZ.
Definition sched_init (inb : Z -> Z) : M kernel unit :=
  for_each (seq 1 (NR_TASKS - 1)) (fun i =>
    modify (fun k => k <| task ::= <[i := None]> |>
      <| gdt ::= fun g => <[Z.of_nat (4 + 2 * i) := mk_desc 0 0]>
                            (<[Z.of_nat (5 + 2 * i) := mk_desc 0 0]> g) |>)) ;;;
  outb 54 67 ;;; outb (Z.land LATCH 255) 64 ;;; outb (Z.shiftr LATCH 8) 64 ;;;
  outb (Z.land (inb 33) (Z.lnot 1)) 33.

(** ** The choice of [schedule] *)
Definition runnable (l : list (option task_struct)) (i : nat) (t : task_struct) : Prop :=
  (1 <= i < NR_TASKS)%nat /\ mjoin (l !! i) = Some t /\ t_state t = TASK_RUNNING.

(** The counters and priorities of the tasks (the idle task's are not used). *)
Definition task_ok (t : task_struct) : Prop :=
  0 <= counter t < 1073741824 /\ 0 < priority t < 536870912.
Definition tasks_ok (l : list (option task_struct)) : Prop :=
  forall i t, (1 <= i < NR_TASKS)%nat -> mjoin (l !! i) = Some t -> task_ok t.

(** [n] is the task that [schedule] ought to run: one with the largest counter
    among the runnable tasks, the idle task when there is none. *)
Definition best (l : list (option task_struct)) (n : nat) : Prop :=
  (n = O /\ forall i t, ~ runnable l i t) \/
  (exists t, runnable l n t /\ 0 < counter t /\
     forall i u, runnable l i u -> counter u <= counter t /\ (counter u = counter t -> (i <= n)%nat)).

(** The state of the selection once the slots from [j] up have been looked at. *)
Definition best_from (l : list (option task_struct)) (j : nat) (acc : Z * nat) : Prop :=
  (acc = (-1, O) /\
     forall i t, (j <= i)%nat -> runnable l i t -> counter t <= -1) \/
  (exists t, (j <= snd acc)%nat /\ runnable l (snd acc) t /\ counter t = fst acc /\ -1 < fst acc /\
     forall i u, (j <= i)%nat -> runnable l i u ->
       counter u <= fst acc /\ (counter u = fst acc -> (i <= snd acc)%nat)).

Lemma candidate_cases l acc j :
  (1 <= j < NR_TASKS)%nat ->
  (exists t, runnable l j t /\ fst acc < counter t /\ candidate l acc j = (counter t, j)) \/
  (candidate l acc j = acc /\ forall t, runnable l j t -> counter t <= fst acc).
Proof.
  intros Hj. unfold candidate, runnable. destruct (mjoin (l !! j)) as [t|]; [|by right; naive_solver].
  destruct (Z.eqb_spec (t_state t) TASK_RUNNING), (Z.ltb_spec (fst acc) (counter t)); cbn.
  1: { left. by exists t. }
  all: right; split; [done|]; intros u (_ & [= <-] & ?); lia || congruence.
Qed.

Lemma best_from_step l j acc :
  (1 <= j < NR_TASKS)%nat -> best_from l (j + 1) acc -> best_from l j (candidate l acc j).
Proof.
  intros Hj H. destruct (candidate_cases l acc j Hj) as [(t & Ht & Hlt & ->)|[-> Hle]].
  - right. exists t. cbn. assert (-1 < counter t) by (destruct H as [[-> _]|(? & _ & _ & _ & ? & _)]; cbn in *; lia).
    repeat split; auto; try apply Ht; destruct (decide (i = j)) as [->|Hne];
      try (destruct Ht as (_ & E & _), H2 as (_ & E' & _); rewrite E in E'; injection E' as ->; lia).
    all: destruct H as [[-> H]|(t' & _ & _ & _ & _ & H)];
      [specialize (H i u ltac:(lia) H2); cbn in *; lia
      |specialize (H i u ltac:(lia) H2); lia].
  - destruct H as [[-> H]|(t' & H1 & H2 & H3 & H4 & H5)].
    + left. split; [done|]. intros i t Hi Ht.
      destruct (decide (i = j)) as [->|]; [by apply Hle|]. apply (H i); [lia|done].
    + right. exists t'. split; [lia|]. repeat split; try apply H2; auto.
      all: destruct (decide (i = j)) as [->|]; [|apply (H5 i u); [lia|done]].
      * by apply Hle.
      * lia.
Qed.

Lemma select_from l m :
  (m < NR_TASKS)%nat -> best_from l (NR_TASKS - m) (foldl (candidate l) (-1, O) (rev (seq (NR_TASKS - m) m))).
Proof.
  induction m as [|m IH]; intros Hm.
  { left. split; [done|]. intros i t Hi [? _]. lia. }
  replace (seq (NR_TASKS - Datatypes.S m) (Datatypes.S m))
    with ((NR_TASKS - Datatypes.S m)%nat :: seq (NR_TASKS - m) m)
    by (cbn [seq]; do 2 f_equal; lia).
  cbn [rev]. rewrite foldl_app. apply best_from_step; [lia|].
  replace (NR_TASKS - Datatypes.S m + 1)%nat with (NR_TASKS - m)%nat by lia. apply IH. lia.
Qed.

Lemma select_best l : best_from l 1 (select l).
Proof. apply (select_from l 63). unfold NR_TASKS. lia. Qed.

Lemma tasks_ok_map f l :
  (forall t, task_ok t -> task_ok (f t)) -> tasks_ok l -> tasks_ok (all_but_first f l).
Proof.
  intros Hf H i t Hi Ht. rewrite all_but_first_lookup in Ht.
  destruct (decide (i = O)); [lia|]. destruct (mjoin (l !! i)) as [u|] eqn:E; [|done].
  injection Ht as <-. by apply Hf, (H i).
Qed.
Lemma alarm_check_ok now t : task_ok t -> task_ok (alarm_check now t).
Proof. intros H. unfold alarm_check. by repeat case_match. Qed.
Lemma recount_counter t : task_ok t -> counter (recount t) = counter t / 2 + priority t.
Proof.
  intros [H1 H2]. unfold recount. cbn -[i32]. rewrite Z.shiftr_div_pow2 by lia.
  change (2 ^ 1) with 2. apply i32_id. dlia.
Qed.
Lemma recount_ok t : task_ok t -> task_ok (recount t).
Proof.
  intros H. pose proof (recount_counter t H) as E. destruct H as [H1 H2].
  split; [rewrite E; dlia|exact H2].
Qed.
Lemma runnable_recount l i t :
  runnable l i t -> runnable (all_but_first recount l) i (recount t).
Proof.
  intros (Hi & Ht & Hr). split; [done|]. rewrite all_but_first_lookup.
  destruct (decide (i = O)); [lia|]. by rewrite Ht.
Qed.

(** A selection with a non-zero counter is the right one. *)
Lemma best_from_picks l c n :
  tasks_ok l -> best_from l 1 (c, n) -> truth c = true -> best l n.
Proof.
  intros Hok [[[= -> ->] H]|(t & H1 & H2 & H3 & H4 & H5)] Hc; cbn [fst snd] in *.
  - left. split; [done|]. intros i t Ht.
    pose proof (H i t ltac:(apply Ht) Ht). destruct Ht as (Hi & Ht & _).
    pose proof (Hok i t Hi Ht) as [? _]. lia.
  - right. exists t. unfold truth in Hc. split; [done|]. split; [lia|].
    intros i u Hu. rewrite H3. apply (H5 i u); [apply Hu|done].
Qed.
Lemma best_from_again l n c' n' :
  tasks_ok l -> best_from l 1 (0, n) -> best_from (all_but_first recount l) 1 (c', n') ->
  truth c' = true /\ forall i t, runnable l i t -> counter t = 0.
Proof.
  intros Hok [[[=] _]|(t & H1 & H2 & H3 & H4 & H5)] Hb; cbn [fst snd] in *.
  assert (task_ok t) as Ht by (destruct H2 as (Hi & Ht & _); by apply (Hok _ _ Hi)).
  split.
  - apply runnable_recount in H2. pose proof (recount_counter t Ht) as Er. rewrite H3 in Er.
    change (0 / 2) with 0 in Er. unfold truth. destruct Ht as [_ Hp].
    destruct Hb as [[_ H]|(t' & _ & _ & _ & _ & H)];
      specialize (H _ _ ltac:(apply H2) H2); cbn [fst snd] in *; lia.
  - intros i u Hu. destruct (H5 i u ltac:(apply Hu) Hu) as [Hle _].
    destruct Hu as (Hi & Hu & _). pose proof (Hok i u Hi Hu) as [? _]. lia.
Qed.

Lemma schedule_run k :
  tasks_ok (task k) ->
  wp schedule (fun _ k' =>
    let checked := all_but_first (alarm_check (jiffies k)) (task k) in
    best (task k') (current k') /\ tasks_ok (task k') /\
    (task k' = checked \/
     task k' = all_but_first recount checked /\ forall i t, runnable checked i t -> counter t = 0) /\
    k' = k <| task := task k' |> <| current := current k' |>) k.
Proof.
  intros Hok. unfold schedule. wp_run.
  set (l1 := all_but_first (alarm_check (jiffies k)) (task k)).
  assert (tasks_ok l1) as H1 by (apply tasks_ok_map; [apply alarm_check_ok|done]).
  change (wp _ ?Q (k <| task ::= _ |>)) with (wp (loop 2 (fun _ : unit =>
    k <- get ;;
    let (c, next) := select (task k) in
    if truth c then ret (inr next)
    else modify (fun k => k <| task ::= all_but_first recount |>) ;;; ret (inl tt)) tt)
    Q (k <| task := l1 |>)).
  clearbody l1. cbn [loop]. wp_run. change (task (k <| task := l1 |>)) with l1.
  pose proof (select_best l1) as Hb1. destruct (select l1) as [c1 n1].
  destruct (truth c1) eqn:Hc1; wp_run.
  { split; [by eapply best_from_picks|]. split; [done|]. split; [by left|]. by destruct k. }
  change (task (upd task (all_but_first recount) (k <| task := l1 |>)))
    with (all_but_first recount l1).
  assert (tasks_ok (all_but_first recount l1)) as H2 by (apply tasks_ok_map; [apply recount_ok|done]).
  pose proof (select_best (all_but_first recount l1)) as Hb2.
  destruct (select (all_but_first recount l1)) as [c2 n2].
  assert (c1 = 0) as -> by (unfold truth in Hc1; lia).
  destruct (best_from_again l1 n1 c2 n2 H1 Hb1 Hb2) as [Hc2 Hz].
  rewrite Hc2. wp_run.
  split; [by eapply best_from_picks|]. split; [done|]. split; [by right|]. by destruct k.
Qed.

(** C33: [schedule] always returns (its [while (1)] goes round at most twice) and
    runs the best task: a runnable task other than the idle one with the largest
    counter, which is positive, the one in the highest slot among equals; the idle
    task only when no other is runnable.  Before that every expired alarm has become
    a SIGALRM and every interruptible sleeper with an unblocked signal is
    runnable, and the counters are recomputed exactly when every runnable task
    has used up its own.  Nothing but the tasks and [current] changes, and the
    bounds on counters and priorities are kept. *)
Theorem schedule_picks k :
  tasks_ok (task k) ->
  wp schedule (fun _ k' =>
    let checked := all_but_first (alarm_check (jiffies k)) (task k) in
    best (task k') (current k') /\ tasks_ok (task k') /\
    (task k' = checked \/
     task k' = all_but_first recount checked /\ forall i t, runnable checked i t -> counter t = 0) /\
    k' = k <| task := task k' |> <| current := current k' |>) k.
Proof. exact (schedule_run k). Qed.

(** ** The timers *)

(** The chain of timers from [o]: the entries [l] and what they hold, the ticks to
    wait after the timer before and the function. *)
Fixpoint holds (T : list timer) (o : option nat) (l : list nat) (xs : list (Z * Z)) : Prop :=
  match l, xs with
  | [], [] => o = None
  | p :: l', (j, f) :: xs' =>
      o = Some p /\ exists n, T !! p = Some (mk_timer j (Some f) n) /\ holds T n l' xs'
  | _, _ => False
  end.
Definition timers_ok (k : kernel) (xs : list (Z * Z)) : Prop :=
  exists l, holds (timer_list k) (next_timer k) l xs /\ NoDup l /\
            length (timer_list k) = TIME_REQUESTS.

(** [add_timer] on such a list. *)
Fixpoint insert_delta (j f : Z) (xs : list (Z * Z)) : list (Z * Z) :=
  match xs with
  | [] => [(j, f)]
  | (i, g) :: xs' => if i <? j then (i, g) :: insert_delta (j - i) f xs' else (j, f) :: xs
  end.

Lemma holds_frame T T' o l xs :
  (forall p, p ∈ l -> T' !! p = T !! p) -> holds T o l xs -> holds T' o l xs.
Proof.
  revert o xs. induction l as [|p l IH]; intros o [|[j f] xs] Hf H; cbn in *; try done.
  destruct H as (-> & n & Hp & H). split; [done|]. exists n. split.
  - rewrite Hf by (by left). done.
  - apply IH; [|done]. intros q Hq. apply Hf. by right.
Qed.
Lemma holds_length T o l xs : holds T o l xs -> length l = length xs.
Proof.
  revert o xs. induction l as [|p l IH]; intros o [|[j f] xs]; cbn; try done.
  intros (_ & n & _ & H). f_equal. by eapply IH.
Qed.
Lemma holds_bound T o l xs : holds T o l xs -> Forall (fun p => (p < length T)%nat) l.
Proof.
  revert o xs. induction l as [|p l IH]; intros o [|[j f] xs]; cbn; try done.
  intros (_ & n & Hp & H). constructor; [by eapply lookup_lt_Some|by eapply IH].
Qed.
(** A list of distinct entries is not longer than the table. *)
Lemma distinct_length (l : list nat) n : NoDup l -> Forall (fun p => (p < n)%nat) l -> (length l <= n)%nat.
Proof.
  intros Hd Hl. rewrite <- (length_seq n 0). apply submseteq_length, NoDup_submseteq; [done|].
  intros p Hp. rewrite Forall_forall in Hl. apply elem_of_seq. pose proof (Hl p Hp). lia.
Qed.

Lemma wp_get_timer p (Q : timer -> kernel -> Prop) k t :
  timer_list k !! p = Some t -> Q t k -> wp (get_timer p) Q k.
Proof. intros H HQ. unfold get_timer, wp, bind, get. by rewrite H. Qed.
Lemma wp_mod_timer p f (Q : unit -> kernel -> Prop) k t :
  timer_list k !! p = Some t ->
  Q tt (k <| timer_list := <[p := f t]> (timer_list k) |>) -> wp (mod_timer p f) Q k.
Proof. intros H HQ. unfold mod_timer. apply wp_bind. by eapply wp_get_timer. Qed.

(** The same on a kernel given by its timer list. *)
Lemma wp_get_timer_of p (Q : timer -> kernel -> Prop) k T t :
  T !! p = Some t -> Q t (k <| timer_list := T |>) -> wp (get_timer p) Q (k <| timer_list := T |>).
Proof. intros H HQ. by apply (wp_get_timer p Q (k <| timer_list := T |>) t). Qed.
Lemma wp_mod_timer_of p f (Q : unit -> kernel -> Prop) k T t :
  T !! p = Some t -> Q tt (k <| timer_list := <[p := f t]> T |>) ->
  wp (mod_timer p f) Q (k <| timer_list := T |>).
Proof. intros H HQ. by apply (wp_mod_timer p f Q (k <| timer_list := T |>) t). Qed.

(** Looks up an entry after a series of updates. *)
Ltac at_entry :=
  cbn [timer_list upd upd_timer_list t_jiffies t_fn t_next];
  repeat first [ rewrite list_lookup_insert_ne by congruence
               | rewrite list_lookup_insert_eq
                   by (rewrite ?length_insert; eapply lookup_lt_Some; eassumption) ];
  first [eassumption | reflexivity].

(** One exchange of the sorting loop. *)
Lemma sift_swap p q j f i g m k :
  timer_list k !! p = Some (mk_timer j (Some f) (Some q)) ->
  timer_list k !! q = Some (mk_timer i (Some g) m) -> p <> q -> i < j ->
  wp (sift p) (fun r k' => r = inl q /\ exists T, k' = k <| timer_list := T |> /\
    length T = length (timer_list k) /\
    T !! p = Some (mk_timer i (Some g) (Some q)) /\ T !! q = Some (mk_timer (j - i) (Some f) m) /\
    forall r, r <> p -> r <> q -> T !! r = timer_list k !! r) k.
Proof.
  intros Hp Hq Hne Hlt. unfold sift.
  replace k with (k <| timer_list := timer_list k |>) at 1 by (by destruct k).
  set (T := timer_list k) in *.
  apply wp_bind. eapply wp_get_timer_of; [exact Hp|]. cbn [t_next t_jiffies].
  apply wp_bind. eapply wp_get_timer_of; [exact Hq|]. cbn [t_next t_jiffies].
  destruct (Z.ltb_spec i j); [|lia].
  apply wp_bind. eapply wp_mod_timer_of; [exact Hp|].
  apply wp_bind. eapply wp_get_timer_of; [at_entry|].
  apply wp_bind. eapply wp_get_timer_of; [at_entry|].
  do 3 (apply wp_bind; eapply wp_mod_timer_of; [at_entry|]).
  apply wp_bind; eapply wp_mod_timer_of; [at_entry|].
  apply wp_ret. split; [done|]. eexists. split; [reflexivity|].
  split; [by rewrite !length_insert|].
  split; [at_entry|]. split; [at_entry|].
  intros r H1 H2. by rewrite !list_lookup_insert_ne by congruence.
Qed.

Lemma sift_loop fuel : forall xs l p j f n k,
  timer_list k !! p = Some (mk_timer j (Some f) n) ->
  holds (timer_list k) n l xs -> NoDup (p :: l) -> (length xs < fuel)%nat ->
  wp (loop fuel sift p) (fun _ k' => exists T, k' = k <| timer_list := T |> /\
     length T = length (timer_list k) /\
     (forall q, q ∉ p :: l -> T !! q = timer_list k !! q) /\
     holds T (Some p) (p :: l) (insert_delta j f xs)) k.
Proof.
  induction fuel as [|fuel IH]; intros xs l p j f n k Hp Hl Hnd Hfuel; [lia|].
  cbn [loop]. apply wp_bind. destruct l as [|q l], xs as [|[i g] xs]; cbn in Hl; try done.
  - subst n. unfold sift. apply wp_bind. eapply wp_get_timer; [done|].
    cbn. exists (timer_list k). split; [by destruct k|]. split; [done|]. split; [done|].
    split; [done|]. by exists None.
  - destruct Hl as (-> & m & Hq & Hl). cbn [insert_delta].
    assert (p <> q) as Hpq by (intros ->; apply NoDup_cons in Hnd as [Hn _]; apply Hn; by left).
    destruct (Z.ltb_spec i j) as [Hlt|Hge].
    + eapply wp_mono; [by eapply sift_swap|]. intros r k' (-> & T & -> & HT & Tp & Tq & Tr).
      assert (forall r, r ∈ l -> r <> p /\ r <> q) as Hout.
      { intros r Hr. rewrite !NoDup_cons in Hnd. set_solver. }
      eapply wp_mono; [eapply (IH xs l q (j - i) f m); cbn [timer_list upd upd_timer_list] in *|].
      * exact Tq.
      * eapply holds_frame; [|exact Hl]. intros r Hr. by apply Tr; apply Hout.
      * by apply NoDup_cons in Hnd as [_ ?].
      * cbn in Hfuel. lia.
      * intros _ k' (T' & -> & HT' & Hfr & Hh). exists T'. split; [by destruct k|].
        cbn [timer_list upd upd_timer_list] in *. split; [congruence|]. split.
        -- intros r Hr. rewrite Hfr by set_solver. apply Tr; set_solver.
        -- split; [done|]. exists (Some q). split; [|done]. rewrite Hfr; [done|].
           by apply NoDup_cons in Hnd as [? _].
    + unfold sift. apply wp_bind. eapply wp_get_timer; [done|]. cbn [t_next t_jiffies].
      apply wp_bind. eapply wp_get_timer; [done|]. cbn [t_next t_jiffies].
      destruct (Z.ltb_spec i j); [lia|]. cbn.
      exists (timer_list k). split; [by destruct k|]. split; [done|]. split; [done|].
      split; [done|]. exists (Some q). split; [done|]. split; [done|]. by exists m.
Qed.

Lemma free_entry_spec T i p :
  free_entry T i = Some p ->
  (i <= p < i + length T)%nat /\ exists t, T !! (p - i)%nat = Some t /\ t_fn t = None.
Proof.
  revert i. induction T as [|t T IH]; intros i; cbn; [done|].
  destruct (t_fn t) as [f|] eqn:E.
  - intros H. apply IH in H as [Hp (u & Hu & Hn)]. split; [lia|]. exists u.
    replace (p - i)%nat with (Datatypes.S (p - Datatypes.S i)) by lia. done.
  - intros [= ->]. split; [lia|]. exists t. by rewrite Nat.sub_diag.
Qed.

(** Times at which the timers of a chain are due, from now. *)
Fixpoint due (now : Z) (xs : list (Z * Z)) : list (Z * Z) :=
  match xs with [] => [] | (j, f) :: xs' => (now + j, f) :: due (now + j) xs' end.
Definition total (xs : list (Z * Z)) : Z := foldr (fun x a => fst x + a) 0 xs.
Definition later (d : Z) (x : Z * Z) : Z * Z := (fst x + d, snd x).

Lemma due_app now xs ys : due now (xs ++ ys) = due now xs ++ due (now + total xs) ys.
Proof.
  revert now. induction xs as [|[j f] xs IH]; intros now; cbn; [by rewrite Z.add_0_r|].
  rewrite IH. do 3 f_equal. unfold total. lia.
Qed.
Lemma due_later now d xs : due (now + d) xs = map (later d) (due now xs).
Proof.
  revert now. induction xs as [|[j f] xs IH]; intros now; cbn; [done|].
  unfold later at 1. cbn. f_equal; [f_equal; lia|]. rewrite <- IH. f_equal. lia.
Qed.
Lemma due_from now xs j :
  j <= now -> Forall (fun x => 0 <= fst x) xs -> Forall (fun x => j <= fst x) (due now xs).
Proof.
  revert now. induction xs as [|[i g] xs IH]; intros now Hj Hpos; cbn; [done|].
  apply Forall_cons in Hpos as [Hi Hpos]. cbn in Hi. constructor; [cbn; lia|]. apply IH; [lia|done].
Qed.
Lemma insert_delta_split j f xs :
  0 < j -> Forall (fun x => 0 <= fst x) xs ->
  exists a b, xs = a ++ b /\ insert_delta j f xs = a ++ (j - total a, f) :: b /\ 0 < j - total a /\
    Forall (fun x => fst x < j) (due 0 a) /\ Forall (fun x => j <= fst x) (due (total a) b).
Proof.
  revert j. induction xs as [|[i g] xs IH]; intros j Hj Hpos; cbn [insert_delta].
  - exists [], []. change (total []) with 0. by rewrite Z.sub_0_r.
  - apply Forall_cons in Hpos as [Hi Hpos]. cbn in Hi. destruct (Z.ltb_spec i j).
    + destruct (IH (j - i)) as (a & b & -> & E & Hd & Ha & Hb); [lia|done|].
      exists ((i, g) :: a), b. split; [done|]. rewrite E.
      replace (total ((i, g) :: a)) with (total a + i) by (unfold total; cbn; lia).
      replace (j - (total a + i)) with (j - i - total a) by lia.
      split; [done|]. split; [done|]. cbn [due]. rewrite !due_later. split.
      * constructor; [done|]. apply Forall_map. eapply Forall_impl; [exact Ha|].
        intros x Hx. cbn in *. lia.
      * apply Forall_map. eapply Forall_impl; [exact Hb|]. intros x Hx. cbn in *. lia.
    + exists [], ((i, g) :: xs). change (total []) with 0. rewrite Z.sub_0_r.
      do 4 (split; [done|]). cbn [due]. constructor; [done|]. apply due_from; [done|done].
Qed.

(** [add_timer] takes a free entry and inserts the new timer in the chain
    so that it is due exactly after the requested number of ticks, with the
    timers that are due earlier in front of it unchanged; but it forgets to
    shorten the wait of the timer that follows, so that every timer behind the new
    one becomes due later, by exactly the wait stored in the new entry. *)
Theorem add_timer_due call j f xs k :
  0 < j -> Forall (fun x => 0 <= fst x) xs -> timers_ok k xs ->
  (exists p t, timer_list k !! p = Some t /\ t_fn t = None) ->
  wp (add_timer call j (Some f)) (fun _ k' =>
    exists a b d, 0 < d /\ xs = a ++ b /\
      Forall (fun x => fst x < j) (due 0 a) /\ Forall (fun x => j <= fst x) (due (total a) b) /\
      timers_ok k' (a ++ (d, f) :: b) /\
      due 0 (a ++ (d, f) :: b) = due 0 a ++ (j, f) :: map (later d) (due (total a) b) /\
      k' = k <| timer_list := timer_list k' |> <| next_timer := next_timer k' |>) k.
Proof.
  intros Hj Hpos (l & Hl & Hnd & Hlen) (p0 & t0 & Hp0 & Hfree). unfold add_timer.
  destruct (Z.leb_spec j 0); [lia|]. wp_run. rewrite take_ge by lia.
  destruct (free_entry (timer_list k) 0) as [p|] eqn:E.
  2: { exfalso. clear -E Hp0 Hfree. revert p0 Hp0 E. generalize O.
       induction (timer_list k) as [|t T IH]; intros n p0 Hp0 E; [done|]. cbn in E.
       destruct (t_fn t) eqn:Ht; [|done]. destruct p0 as [|p0]; cbn in Hp0; [congruence|].
       by eapply IH. }
  apply free_entry_spec in E as [Hpb (t & Ht & Hn)]. rewrite Nat.sub_0_r in Ht.
  assert (p ∉ l) as Hp.
  { intros Hin. clear -Hin Hl Ht Hn. revert xs Hl. generalize (next_timer k).
    induction l as [|q l IH]; intros o [|[i g] xs] Hl; cbn in Hl; try done.
    { by apply not_elem_of_nil in Hin. }
    destruct Hl as (-> & n & Hq & Hl). apply elem_of_cons in Hin as [->|Hin]; [|by eapply IH].
    rewrite Ht in Hq. injection Hq as ->. done. }
  apply wp_bind. eapply wp_mod_timer; [exact Ht|]. wp_run.
  set (k1 := upd next_timer _ _).
  assert (holds (timer_list k1) (next_timer k) l xs) as Hl1.
  { eapply holds_frame; [|exact Hl]. intros q Hq. cbn. rewrite list_lookup_insert_ne; [done|set_solver]. }
  assert (NoDup (p :: l)) as Hnd1 by (by constructor).
  assert (length xs < Datatypes.S TIME_REQUESTS)%nat as Hfuel.
  { rewrite <- (holds_length _ _ _ _ Hl). apply Nat.lt_succ_r. rewrite <- Hlen.
    apply distinct_length; [done|]. by eapply holds_bound. }
  eapply wp_mono.
  { apply (sift_loop (Datatypes.S TIME_REQUESTS) xs l p j f (next_timer k) k1); [|done..].
    cbn. apply list_lookup_insert_eq. lia. }
  intros [] k' (T & -> & HT & _ & Hh).
  destruct (insert_delta_split j f xs Hj Hpos) as (a & b & -> & E & Hd & Ha & Hb). rewrite E in Hh.
  exists a, b, (j - total a). do 4 (split; [done|]). split; [|split].
  - exists (p :: l). split; [exact Hh|]. split; [done|]. cbn. rewrite HT. cbn. by rewrite length_insert.
  - rewrite due_app, Z.add_0_l. cbn [due].
    replace (total a + (j - total a)) with j by lia.
    rewrite <- due_later. by replace (total a + (j - total a)) with j by lia.
  - by destruct k.
Qed.

(** One tick of the clock: the first timer has one tick less to wait, and the
    timers at the front with nothing left to wait are due. *)
Definition tick (xs : list (Z * Z)) : list (Z * Z) :=
  match xs with [] => [] | (j, f) :: xs' => (j - 1, f) :: xs' end.
Fixpoint expired (xs : list (Z * Z)) : list Z * list (Z * Z) :=
  match xs with
  | (j, f) :: xs' => if j <=? 0 then (f :: fst (expired xs'), snd (expired xs')) else ([], xs)
  | [] => ([], [])
  end.

Section Tick.
(** What the called functions do to the record [called] of the calls; they leave
    the timers alone. *)
Context (call : Z -> M kernel unit) (called : kernel -> list Z).
Context (call_ok : forall f k, wp (call f) (fun _ k' =>
  called k' = called k ++ [f] /\ timer_list k' = timer_list k /\ next_timer k' = next_timer k) k).
Context (called_frame : forall k T o, called (k <| timer_list := T |> <| next_timer := o |>) = called k).

Lemma expire_loop fuel : forall xs l k,
  holds (timer_list k) (next_timer k) l xs -> NoDup l -> (length xs < fuel)%nat ->
  wp (loop fuel (expire call) tt) (fun _ k' =>
    (exists l', holds (timer_list k') (next_timer k') l' (snd (expired xs)) /\ NoDup l') /\
    length (timer_list k') = length (timer_list k) /\
    called k' = called k ++ fst (expired xs)) k.
Proof.
  induction fuel as [|fuel IH]; intros xs l k Hl Hnd Hfuel; [lia|].
  cbn [loop]. apply wp_bind. unfold expire at 1. apply wp_bind, wp_get.
  destruct l as [|p l], xs as [|[j f] xs]; cbn in Hl; try done.
  { rewrite Hl. cbn. split; [by exists []|]. by rewrite app_nil_r. }
  destruct Hl as (Hn & n & Hp & Hl). rewrite Hn.
  apply wp_bind. eapply wp_get_timer; [exact Hp|]. cbn [t_jiffies t_fn t_next expired].
  destruct (Z.leb_spec j 0).
  2: { cbn. split; [|by rewrite app_nil_r]. exists (p :: l). split; [|done]. cbn. by eauto. }
  apply wp_bind. eapply wp_mod_timer; [exact Hp|]. apply wp_bind, wp_modify, wp_bind.
  eapply wp_deref; [done|]. apply wp_bind. eapply wp_mono; [apply call_ok|].
  intros [] k' (Hc & Ht & Hnx). cbn in Ht, Hnx. apply wp_ret.
  apply NoDup_cons in Hnd as [Hnin Hnd].
  eapply wp_mono; [apply (IH xs l k')|].
  - rewrite Ht, Hnx. eapply holds_frame; [|exact Hl].
    intros q Hq. rewrite list_lookup_insert_ne; [done|by intros ->].
  - done.
  - cbn in Hfuel. lia.
  - intros [] k'' (H1 & H2 & H3). cbn [fst snd]. split; [done|]. split.
    + rewrite H2, Ht. by rewrite length_insert.
    + rewrite H3, Hc, <- app_assoc. f_equal. apply called_frame.
Qed.

(** The timer part of the timer interrupt runs exactly the functions of the
    timers whose wait is over after this tick, in the order of the chain, frees
    their entries and keeps the others; its loop ends. *)
Theorem run_timers_tick xs k :
  timers_ok k xs ->
  wp (run_timers call) (fun _ k' =>
    timers_ok k' (snd (expired (tick xs))) /\ called k' = called k ++ fst (expired (tick xs))) k.
Proof.
  intros (l & Hl & Hnd & Hlen). unfold run_timers. apply wp_bind, wp_get.
  destruct l as [|p l], xs as [|[j f] xs]; cbn in Hl; try done.
  { rewrite Hl. cbn. split; [by exists []|by rewrite app_nil_r]. }
  destruct Hl as (Hn & n & Hp & Hl). rewrite Hn.
  apply wp_bind. eapply wp_mod_timer; [exact Hp|].
  set (k1 := k <| timer_list := _ |>).
  assert (holds (timer_list k1) (next_timer k1) (p :: l) (tick ((j, f) :: xs))) as H1.
  { cbn. split; [done|]. exists n. split.
    - apply list_lookup_insert_eq. by eapply lookup_lt_Some.
    - eapply holds_frame; [|exact Hl]. intros q Hq. apply NoDup_cons in Hnd as [Hnin _].
      rewrite list_lookup_insert_ne; [done|by intros ->]. }
  assert (length (timer_list k1) = TIME_REQUESTS) as Hlen1 by (cbn; by rewrite length_insert).
  eapply wp_mono; [apply (expire_loop _ _ _ k1 H1 Hnd)|].
  - rewrite <- (holds_length _ _ _ _ H1). apply Nat.lt_succ_r. rewrite <- Hlen1.
    apply distinct_length; [done|]. by eapply holds_bound.
  - intros [] k' ((l' & Hl' & Hnd') & Hlen' & Hc). split.
    + exists l'. split; [done|]. split; [done|]. congruence.
    + rewrite Hc. f_equal. pose proof (called_frame k (timer_list k1) (next_timer k)) as E.
      rewrite <- E. by destruct k.
Qed.
End Tick.

(** *** Witnesses *)

(** A timer function that leaves a trace in the log of port writes. *)
Definition trace_call (f : Z) : M kernel unit := outb f 0.
Definition trace (k : kernel) : list Z := rev (map fst (Console.ports (con k))).
Definition timer_kernel : kernel :=
  match (add_timer trace_call 50 (Some 1) ;;; add_timer trace_call 1 (Some 2)) boot_kernel with
  | Done _ k => k | _ => boot_kernel end.

Lemma timer_kernel_ok : timers_ok timer_kernel [(1, 2); (50, 1)].
Proof.
  exists [1; 0]%nat. split; [|split; [|reflexivity]].
  - split; [reflexivity|]. eexists. split; [reflexivity|]. split; [reflexivity|].
    eexists. split; [reflexivity|]. reflexivity.
  - repeat constructor; set_solver.
Qed.
Lemma add_timer_due_witness :
  wp (add_timer trace_call 20 (Some 3)) (fun _ k' => timers_ok k' [(1, 2); (19, 3); (50, 1)]) timer_kernel.
Proof.
  eapply wp_mono.
  - apply (add_timer_due trace_call 20 3 [(1, 2); (50, 1)] timer_kernel); [lia| |exact timer_kernel_ok|].
    + by repeat constructor.
    + exists 2%nat. eexists. split; reflexivity.
  - intros [] k' (a & b & d & Hd & E & Ha & Hb & H & Hdue & _).
    destruct a as [|x [|y a]]; cbn in E; [subst b|injection E as <- <-|injection E as <- <- E].
    + apply Forall_cons in Hb as [Hb _]. cbn in Hb. lia.
    + cbn in Hdue. injection Hdue as Hdd. replace d with 19 in H by lia. exact H.
    + apply Forall_cons in Ha as [_ Ha]. apply Forall_cons in Ha as [Ha _]. cbn in Ha. lia.
Defined.
Lemma run_timers_tick_witness :
  wp (run_timers trace_call) (fun _ k' =>
    timers_ok k' [(50, 1)] /\ trace k' = [2]) timer_kernel.
Proof.
  apply (run_timers_tick trace_call trace) with (xs := [(1, 2); (50, 1)]).
  - intros f k. cbn. split; [|done]. unfold trace. cbn. by rewrite map_cons || reflexivity.
  - reflexivity.
  - exact timer_kernel_ok.
Defined.
Lemma schedule_picks_witness :
  exists k', schedule boot_kernel = Done tt k' /\ best (task k') (current k').
Proof.
  assert (tasks_ok (task boot_kernel)) as Hok.
  { intros i t Hi Ht. destruct i as [|i]; [lia|]. exfalso. revert Ht.
    unfold boot_kernel. cbn [task]. change (mjoin (replicate 63 (@None task_struct) !! i) = Some t -> False).
    destruct (replicate 63 (@None task_struct) !! i) as [o|] eqn:E; [|done].
    apply lookup_replicate_1 in E as [-> _]. done. }
  pose proof (schedule_picks boot_kernel Hok) as H. unfold wp in H.
  destruct (schedule boot_kernel) as [[] k'| | |]; try done.
  exists k'. split; [done|]. apply H.
Defined.

End Sched.
