(* ===== verification/WaitQueue.v ===== *)
(** * WaitQueue: sleeping tasks and wake-ups as a transition system

    [sleep_on] keeps the queue of the tasks that wait for an event on their
    kernel stacks: the queue variable holds the last sleeper and each sleeper
    remembers in [tmp] the one before it.  This file runs the routines of [Sched]
    as the steps of a system of tasks and shows that no sleeper of [sleep_on] is
    ever forgotten, and that [interruptible_sleep_on] can forget one. *)
From S2P Require Import Prelude Console Task Sched.
From stdpp Require Import relations.
Import Sched.

Module WaitQueue.

Section Queue.
Context (p : Z).

Definition state_of (k : kernel) (i : nat) : option Z := t_state <$> slot k i.

(** *** The system of [sleep_on]

    The kernel, and for every task that is inside [sleep_on(p)] the rest of its call, which it
    runs when it is scheduled again. *)
Definition system : Type := kernel * gmap nat (M kernel unit).

(** [call] in [k] switches to other tasks in the state [k'] and goes on with [rest] when it is
    scheduled again, whatever these have done. *)
Definition switches (call : (nat -> M kernel unit) -> M kernel unit) (k k' : kernel) (rest : M kernel unit) : Prop :=
  forall others, call others k = (others (current k) ;;; rest) k'.

Inductive step : system -> system -> Prop :=
  | step_sleep k k' fr rest :
      fr !! current k = None ->
      switches (fun others => sleep_on others p) k k' rest ->
      step (k, fr) (k', <[current k := rest]> fr)
  | step_wake k k' fr :
      wake_up p k = Done tt k' -> step (k, fr) (k', fr)
  | step_resume k k' fr t rest :
      fr !! t = Some rest -> state_of k t = Some TASK_RUNNING ->
      rest (k <| current := t |>) = Done tt k' ->
      step (k, fr) (k', delete t fr)
  (** Tasks outside of [sleep_on(p)] do what they like: sleep elsewhere, exit, fork, run. *)
  | step_other k k' fr :
      wchan k' !! p = wchan k !! p ->
      (forall t, is_Some (fr !! t) -> state_of k' t = state_of k t) ->
      step (k, fr) (k', fr).

(** [rest] makes the task [t] runnable when it is run. *)
Definition awakens (rest : M kernel unit) (t : nat) : Prop :=
  forall k, is_Some (slot k t) -> exists k', rest k = Done tt k' /\ state_of k' t = Some TASK_RUNNING.

(** The queue variable, or a sleeper that will run, leads to [t] through what the sleepers do
    when they run. *)
Inductive reached (k : kernel) (fr : gmap nat (M kernel unit)) : nat -> Prop :=
  | reached_head t : wchan k !! p = Some t -> reached k fr t
  | reached_running t : state_of k t = Some TASK_RUNNING -> reached k fr t
  | reached_by t u rest : fr !! u = Some rest -> awakens rest t -> reached k fr u -> reached k fr t.
Definition none_lost (c : system) : Prop := forall t, is_Some (snd c !! t) -> reached (fst c) (snd c) t.

(** *** The same with the local variables [tmp] in place of the rests *)
Definition config : Type := kernel * gmap nat (option nat).

(** [waits_for (k, fr) t]: the queue variable, or a sleeper that will run, leads
    to [t] along the [tmp] links. *)
Inductive waits_for (k : kernel) (fr : gmap nat (option nat)) : nat -> Prop :=
  | wait_head t : wchan k !! p = Some t -> waits_for k fr t
  | wait_running t : state_of k t = Some TASK_RUNNING -> waits_for k fr t
  | wait_link t u : fr !! u = Some (Some t) -> waits_for k fr u -> waits_for k fr t.

Lemma make_runnable_inv o k k' :
  make_runnable o k = Done tt k' ->
  wchan k' = wchan k /\
  (forall i, o = Some i -> state_of k' i = Some TASK_RUNNING) /\
  (forall i, o <> Some i -> state_of k' i = state_of k i).
Proof.
  destruct o as [i|]; cbn [make_runnable]; [|by intros [= <-]].
  unfold mod_task, bind, get_task, get, bind, deref.
  destruct (slot k i) as [t|] eqn:E; [|done]. intros [= <-]. split; [done|].
  unfold state_of. split; intros j; rewrite slot_upd by (by eapply slot_length).
  - intros [= <-]. by rewrite decide_True.
  - intros Hj. rewrite decide_False; [done|congruence].
Qed.
Lemma make_runnable_run o k : (forall i, o = Some i -> is_Some (state_of k i)) -> exists k', make_runnable o k = Done tt k'.
Proof.
  intros H. destruct o as [i|]; [|by exists k]. destruct (H i eq_refl) as [x Ht]. unfold state_of in Ht.
  destruct (slot k i) as [t|] eqn:E; [|done]. eexists. cbn; unfold mod_task, bind, get_task, get, bind, deref. by rewrite E.
Qed.
Lemma awakens_tmp t rest : (forall k, rest k = make_runnable (Some t) k) -> awakens rest t.
Proof.
  intros H k [x Hx]. destruct (make_runnable_run (Some t) k) as [k' E]; [intros i [= <-]; unfold state_of; rewrite Hx; by eexists|].
  exists k'. rewrite H. split; [done|]. by apply (make_runnable_inv _ _ _ E).
Qed.

(** [schedule] wakes only tasks whose sleep a signal may end. *)
Definition may_wake (k k' : kernel) : Prop :=
  wchan k' = wchan k /\ forall i, state_of k i <> Some TASK_INTERRUPTIBLE -> state_of k' i = state_of k i.
#[local] Instance may_wake_preorder : PreOrder may_wake.
Proof.
  split; [done|]. intros k1 k2 k3 [W1 S1] [W2 S2]. split; [congruence|]. intros i Hi. rewrite <- S1 by done. apply S2. by rewrite S1.
Qed.
Lemma all_but_first_wakes (f : task_struct -> task_struct) k :
  (forall t, t_state t <> TASK_INTERRUPTIBLE -> t_state (f t) = t_state t) -> may_wake k (k <| task ::= all_but_first f |>).
Proof.
  intros Hf. split; [done|]. intros i. unfold state_of, slot. cbn. rewrite all_but_first_lookup. case_decide; [done|].
  destruct (mjoin (task k !! i)) as [t|]; [|done]. cbn. intros Hi. rewrite Hf; [done|congruence].
Qed.
Lemma schedule_wakes k k' : schedule k = Done tt k' -> may_wake k k'.
Proof.
  unfold schedule. unfold bind at 1, modify at 1. set (k1 := upd task _ k).
  assert (may_wake k k1) as H1 by (apply all_but_first_wakes; intros t Ht; unfold alarm_check; repeat case_match; try done; cbn in *; lia).
  set (body := fun _ : unit => _). assert (forall n k2, may_wake k k2 -> match loop n body tt k2 with Done _ k3 => may_wake k k3 | _ => True end) as Hloop.
  { intros n. induction n as [|n IH]; intros k2 H2; [done|]. cbn [loop]. unfold bind at 1. unfold body at 1, bind, get. destruct (select (task k2)) as [c i].
    destruct (truth c); [exact H2|]. unfold modify, ret. apply IH. transitivity k2; [done|]. by apply all_but_first_wakes. }
  specialize (Hloop 2%nat k1 H1). unfold bind. destruct (loop 2 body tt k1) as [n k2| | |]; try done. intros [= <-]. exact Hloop.
Qed.

(** What a sleeper remembers and what it leaves. *)
Lemma sleep_enter_inv st k k' tmp :
  sleep_enter st p k = Done tmp k' ->
  tmp = wchan k !! p /\ wchan k' !! p = Some (current k) /\ state_of k' (current k) = Some st /\ current k' = current k /\
  (forall i, i <> current k -> state_of k' i = state_of k i).
Proof.
  unfold sleep_enter, bind, get, wq_get, gets, wq_set, modify, ret.
  destruct (Nat.eqb (current k) 0); [done|].
  unfold mod_cur, mod_task, bind, get, get_task, bind, get, deref.
  change (current (k <| wchan ::= _ |>)) with (current k). cbn.
  destruct (slot _ _) as [t|] eqn:E; [|done]. intros [= <- <-].
  split; [done|]. split; [apply lookup_insert_eq|]. unfold state_of. pose proof (slot_length _ _ _ E) as Hl. split; [|split; [done|]].
  - rewrite slot_upd by done. by rewrite decide_True.
  - intros i Hi. rewrite slot_upd by done. by rewrite decide_False.
Qed.
Lemma switches_observe call k k1 k2 r1 r2 : switches call k k1 r1 -> switches call k k2 r2 ->
  (forall o : kernel -> bool, o k1 = o k2) /\ forall k, r1 k = r2 k.
Proof.
  intros H1 H2. split.
  - intros o. specialize (H1 (fun _ k => Panic (if o k then "yes" else "no"))). specialize (H2 (fun _ k => Panic (if o k then "yes" else "no"))).
    rewrite H1 in H2. unfold bind in H2. injection H2. by destruct (o k1), (o k2).
  - intros k0. specialize (H1 (fun _ _ => Done tt k0)). specialize (H2 (fun _ _ => Done tt k0)). rewrite H1 in H2. exact H2.
Qed.
(** How a call of [sleep_on] goes on, by cases of its two steps before the switch. *)
Definition from_outcome {A} (o : outcome kernel A) (f : A -> kernel -> outcome kernel unit) : outcome kernel unit :=
  match o with Done a k => f a k | Panic m => Panic m | Fault => Fault | NoFuel => NoFuel end.
Lemma sleep_on_cases others k : sleep_on others p k =
  from_outcome (sleep_enter TASK_UNINTERRUPTIBLE p k) (fun tmp k0 =>
    from_outcome (schedule k0) (fun _ k1 => (others (current k0) ;;; make_runnable tmp) k1)).
Proof.
  unfold sleep_on, reschedule, from_outcome, bind, get. destruct (sleep_enter _ _ _); [|reflexivity..]. by destruct (schedule _).
Qed.
Lemma sleep_on_switches k k0 k1 tmp : sleep_enter TASK_UNINTERRUPTIBLE p k = Done tmp k0 -> schedule k0 = Done tt k1 ->
  switches (fun others => sleep_on others p) k k1 (make_runnable tmp).
Proof.
  intros H0 H1 others. pose proof (sleep_enter_inv _ _ _ _ H0) as (_ & _ & _ & Ec & _).
  rewrite sleep_on_cases, H0. cbn [from_outcome]. rewrite H1. cbn [from_outcome]. by rewrite Ec.
Qed.
Lemma done_twice (oa : outcome kernel (option nat)) (sch : M kernel unit) (c : nat) (r : option nat -> M kernel unit) (rest : M kernel unit) k' :
  (forall w : nat -> M kernel unit, from_outcome oa (fun tmp k0 => from_outcome (sch k0) (fun _ k1 => (w (current k0) ;;; r tmp) k1)) = (w c ;;; rest) k') ->
  exists tmp k0 k1, oa = Done tmp k0 /\ sch k0 = Done tt k1.
Proof.
  intros H. pose proof (H (fun _ _ => Panic "yes")) as H1. pose proof (H (fun _ _ => Panic "no")) as H2. unfold bind in H1, H2.
  destruct oa as [tmp k0| | |]; cbn [from_outcome] in *; try congruence.
  destruct (sch k0) as [[] k1| | |] eqn:E1; cbn [from_outcome] in *; try congruence. by exists tmp, k0, k1.
Qed.
Lemma switches_parts k k' rest : switches (fun others => sleep_on others p) k k' rest ->
  exists tmp k0 k1, sleep_enter TASK_UNINTERRUPTIBLE p k = Done tmp k0 /\ schedule k0 = Done tt k1.
Proof.
  intros H. apply (done_twice _ schedule (current k) make_runnable rest k'). intros w. rewrite <- (H w). symmetry. apply sleep_on_cases.
Qed.
(** A call that switches has put the task on the queue and remembers the sleeper before it. *)
Lemma switches_inv k k' rest : switches (fun others => sleep_on others p) k k' rest ->
  (forall k0, rest k0 = make_runnable (wchan k !! p) k0) /\ wchan k' !! p = Some (current k) /\
  state_of k' (current k) = Some TASK_UNINTERRUPTIBLE /\
  (forall i, i <> current k -> state_of k i <> Some TASK_INTERRUPTIBLE -> state_of k' i = state_of k i).
Proof.
  intros H. destruct (switches_parts k k' rest H) as (tmp & k0 & k1 & E0 & E1).
  destruct (switches_observe _ _ _ _ _ _ H (sleep_on_switches k k0 k1 tmp E0 E1)) as [Ho Hr].
  destruct (sleep_enter_inv _ _ _ _ E0) as (-> & Hh & Hc & Hcur & Hs). destruct (schedule_wakes k0 k1 E1) as [Hw Hst].
  assert (forall i x, state_of k1 i = x -> state_of k' i = x) as Hstate.
  { intros i x Hx. specialize (Ho (fun k => bool_decide (state_of k i = x))). cbv beta in Ho. rewrite (bool_decide_eq_true_2 _ Hx) in Ho. by apply bool_decide_eq_true_1 in Ho. }
  split; [exact Hr|]. split; [|split].
  - specialize (Ho (fun k0 => bool_decide (wchan k0 !! p = Some (current k)))). cbv beta in Ho.
    rewrite (bool_decide_eq_true_2 (wchan k1 !! p = Some (current k))) in Ho by (by rewrite Hw). by apply bool_decide_eq_true_1 in Ho.
  - apply Hstate. rewrite Hst; [done|]. by rewrite Hc.
  - intros i Hi Hn. apply Hstate. rewrite <- Hs in Hn |- * by done. by apply Hst.
Qed.

(** *** Invariants

    [tm] has the local variable [tmp] of every sleeper. *)
Definition same_rests (fr : gmap nat (M kernel unit)) (tm : gmap nat (option nat)) : Prop := forall t,
  match fr !! t, tm !! t with
  | Some rest, Some o => forall k, rest k = make_runnable o k
  | None, None => True
  | _, _ => False
  end.
Record sleepers (k : kernel) (fr : gmap nat (M kernel unit)) (tm : gmap nat (option nat)) : Prop := {
  sl_rests : same_rests fr tm;
  sl_state t : is_Some (tm !! t) -> state_of k t = Some TASK_RUNNING \/ state_of k t = Some TASK_UNINTERRUPTIBLE;
  sl_waits t : is_Some (tm !! t) -> waits_for k tm t
}.
(** Who is asleep is remembered once: by the queue variable or by one sleeper. *)
Record chained (k : kernel) (tm : gmap nat (option nat)) : Prop := {
  ch_head h : wchan k !! p = Some h -> is_Some (tm !! h) /\ state_of k h = Some TASK_UNINTERRUPTIBLE;
  ch_link u t : tm !! u = Some (Some t) -> is_Some (tm !! t) /\ state_of k t = Some TASK_UNINTERRUPTIBLE;
  ch_once u v t : tm !! u = Some (Some t) -> tm !! v = Some (Some t) -> u = v;
  ch_first u h : wchan k !! p = Some h -> tm !! u <> Some (Some h)
}.
Lemma same_rests_dom fr tm t : same_rests fr tm -> is_Some (fr !! t) <-> is_Some (tm !! t).
Proof. intros H. specialize (H t). destruct (fr !! t), (tm !! t); (done || by split; intros []). Qed.
Lemma same_rests_at fr tm t rest : same_rests fr tm -> fr !! t = Some rest -> exists o, tm !! t = Some o /\ forall k, rest k = make_runnable o k.
Proof. intros H Ht. specialize (H t). rewrite Ht in H. destruct (tm !! t) as [o|]; [|done]. by exists o. Qed.
Lemma same_rests_insert fr tm t rest o : same_rests fr tm -> (forall k, rest k = make_runnable o k) -> same_rests (<[t := rest]> fr) (<[t := o]> tm).
Proof. intros H Hr i. destruct (decide (i = t)) as [->|Hi]; [by rewrite !lookup_insert_eq|rewrite !lookup_insert_ne by done; apply H]. Qed.
Lemma same_rests_delete fr tm t : same_rests fr tm -> same_rests (delete t fr) (delete t tm).
Proof. intros H i. destruct (decide (i = t)) as [->|Hi]; [by rewrite !lookup_delete_eq|rewrite !lookup_delete_ne by done; apply H]. Qed.

Lemma sleepers_reached k fr tm : sleepers k fr tm -> none_lost (k, fr).
Proof.
  intros [Hr _ Hw] t Ht. apply (same_rests_dom fr tm t Hr) in Ht. apply Hw in Ht. cbn [fst snd]. induction Ht as [t Ht|t Ht|t u Hu _ IH].
  - by apply reached_head.
  - by apply reached_running.
  - pose proof (Hr u) as H. rewrite Hu in H. destruct (fr !! u) as [rest|] eqn:E; [|done]. by apply (reached_by k fr t u rest); [|apply awakens_tmp|].
Qed.
(** A change of the kernel that keeps the sleepers: a runnable one stays so, and of those asleep each is woken or stays on its chain. *)
Lemma waits_kept k k' tm t : (forall h, wchan k !! p = Some h -> is_Some (tm !! h) -> waits_for k' tm h) ->
  (forall i, is_Some (tm !! i) -> state_of k i = Some TASK_RUNNING -> state_of k' i = Some TASK_RUNNING) ->
  waits_for k tm t -> is_Some (tm !! t) -> waits_for k' tm t.
Proof.
  intros Hh Hs Hw. induction Hw as [t Ht|t Ht|t u Hu _ IH]; intros Hin.
  - by apply Hh.
  - by apply wait_running, Hs.
  - apply (wait_link _ _ _ u); [done|]. apply IH. by eexists.
Qed.

Lemma sleepers_sleep k k' fr tm rest : fr !! current k = None -> switches (fun others => sleep_on others p) k k' rest ->
  sleepers k fr tm -> sleepers k' (<[current k := rest]> fr) (<[current k := wchan k !! p]> tm) /\
  (chained k tm -> chained k' (<[current k := wchan k !! p]> tm)).
Proof.
  intros Hfr Hsw [Hr Hs Hw]. apply switches_inv in Hsw as (Hrest & Hh & Hc & Hst). set (c := current k) in *.
  assert (tm !! c = None) as Hc0.
  { destruct (tm !! c) eqn:E; [|done]. destruct (proj2 (same_rests_dom fr tm c Hr)) as [x Hx]; [by eexists|congruence]. }
  assert (forall t, is_Some (tm !! t) -> t <> c /\ state_of k' t = state_of k t) as Hkeep.
  { intros t Ht. assert (t <> c) as Hne by (intros ->; rewrite Hc0 in Ht; by destruct Ht). split; [done|]. apply Hst; [done|]. destruct (Hs t Ht) as [->| ->]; done. }
  split; [split|].
  - by apply same_rests_insert.
  - intros t Ht. destruct (decide (t = c)) as [->|Hne]; [by right|]. rewrite lookup_insert_ne in Ht by done. destruct (Hkeep t Ht) as [_ ->]. by apply Hs.
  - intros t Ht. destruct (decide (t = c)) as [->|Hne]; [by apply wait_head|]. rewrite lookup_insert_ne in Ht by done. pose proof (Hw t Ht) as Hwt.
    clear Hne. induction Hwt as [t H|t H|t u Hu _ IH].
    + apply (wait_link _ _ _ c); [by rewrite lookup_insert_eq, H|by apply wait_head].
    + apply wait_running. destruct (Hkeep t Ht) as [_ ->]. done.
    + assert (is_Some (tm !! u)) as Hu' by (by eexists). apply (wait_link _ _ _ u); [rewrite lookup_insert_ne; [done|]; symmetry; by apply Hkeep|by apply IH].
  - intros [C1 C2 C3 C4]. split.
    + intros h Hhd. rewrite Hh in Hhd. injection Hhd as <-. by rewrite lookup_insert_eq.
    + intros u t Hu. assert (is_Some (tm !! t) /\ state_of k t = Some TASK_UNINTERRUPTIBLE) as [Ht Hu2].
      { rewrite lookup_insert_Some in Hu. destruct Hu as [[_ Hu]|[_ Hu]]; [by apply C1|by apply (C2 u)]. }
      destruct (Hkeep t Ht) as [Hne ->]. by rewrite lookup_insert_ne.
    + intros u v t. rewrite !lookup_insert_Some. intros [[<- Hu]|[Hu' Hu]] [[<- Hv]|[Hv' Hv]]; [done|by destruct (C4 v t Hu)|by destruct (C4 u t Hv)|by apply (C3 u v t)].
    + intros u h Hhd. rewrite Hh in Hhd. injection Hhd as <-. rewrite lookup_insert_Some. intros [[_ H]|[_ H]].
      * destruct (C1 c H) as [[x Hx] _]. congruence.
      * destruct (C2 u c H) as [[x Hx] _]. congruence.
Qed.

Lemma wake_up_inv k k' : wake_up p k = Done tt k' ->
  wchan k' !! p = None /\ (forall i, wchan k !! p = Some i -> state_of k' i = Some TASK_RUNNING) /\
  (forall i, wchan k !! p <> Some i -> state_of k' i = state_of k i).
Proof.
  unfold wake_up, bind, wq_get, gets. destruct (wchan k !! p) as [h|] eqn:Eh.
  - intros H. destruct (make_runnable (Some h) k) as [[] k1| | |] eqn:E; try done.
    injection H as <-. apply make_runnable_inv in E as (_ & H1 & H2). split; [apply lookup_delete_eq|]. by split.
  - intros [= <-]. by split.
Qed.
Lemma sleepers_wake k k' fr tm : wake_up p k = Done tt k' -> sleepers k fr tm -> sleepers k' fr tm /\ (chained k tm -> chained k' tm).
Proof.
  intros Hk [Hr Hs Hw]. apply wake_up_inv in Hk as (Hp & H1 & H2).
  assert (forall i, state_of k' i = state_of k i \/ state_of k' i = Some TASK_RUNNING) as Hst.
  { intros i. destruct (decide (wchan k !! p = Some i)) as [E|E]; [right; by apply H1|left; by apply H2]. }
  split; [split; [done| |]|].
  - intros t Ht. destruct (Hst t) as [->| ->]; [by apply Hs|by left].
  - intros t Ht. apply (waits_kept k); [intros h Hh _; by apply wait_running, H1| |by apply Hw|done]. intros i _ Hi. by destruct (Hst i) as [->| ->].
  - intros [C1 C2 C3 C4]. split; [intros h Hh; congruence| |done|intros u h Hh; congruence].
    intros u t Hu. rewrite H2; [by apply (C2 u)|]. intros E. by destruct (C4 u t E).
Qed.

Lemma sleepers_resume k k' fr tm t rest : fr !! t = Some rest -> state_of k t = Some TASK_RUNNING -> rest (k <| current := t |>) = Done tt k' ->
  sleepers k fr tm -> sleepers k' (delete t fr) (delete t tm) /\ wchan k' = wchan k /\ (chained k tm -> chained k' (delete t tm)).
Proof.
  intros Hf Hrun Hk [Hr Hs Hw]. destruct (same_rests_at fr tm t rest Hr Hf) as (o & Ho & Hrest). rewrite Hrest in Hk.
  apply make_runnable_inv in Hk as (Hp & H1 & H2). change (wchan (k <| current := t |>)) with (wchan k) in Hp.
  assert (forall i, o <> Some i -> state_of k' i = state_of k i) as H2' by (intros i Hi; by rewrite H2). clear H2.
  assert (forall i, state_of k' i = state_of k i \/ state_of k' i = Some TASK_RUNNING) as Hst.
  { intros i. destruct (decide (o = Some i)) as [E|E]; [right; by apply H1|left; by apply H2']. }
  split; [split; [by apply same_rests_delete| |]|split; [done|]].
  - intros i Hi. rewrite lookup_delete_is_Some in Hi. destruct Hi as [_ Hi]. destruct (Hst i) as [->| ->]; [by apply Hs|by left].
  - intros i Hi. rewrite lookup_delete_is_Some in Hi. destruct Hi as [_ Hi]. pose proof (Hw i Hi) as Hwi. clear Hi. induction Hwi as [i H|i H|i u Hu _ IH].
    + apply wait_head. by rewrite Hp.
    + apply wait_running. by destruct (Hst i) as [->| ->].
    + destruct (decide (u = t)) as [->|Hne]; [apply wait_running, H1; congruence|]. apply (wait_link _ _ _ u); [by rewrite lookup_delete_ne|done].
  - intros [C1 C2 C3 C4].
    assert (forall i, is_Some (tm !! i) -> state_of k i = Some TASK_UNINTERRUPTIBLE -> o <> Some i -> is_Some (delete t tm !! i) /\ state_of k' i = Some TASK_UNINTERRUPTIBLE) as Hkeep.
    { intros i Hi Hu Hoi. rewrite H2' by done. split; [|done]. rewrite lookup_delete_is_Some. split; [|done]. intros E. subst i. by rewrite Hrun in Hu. }
    split; rewrite ?Hp.
    + intros h Hh. destruct (C1 h Hh). apply Hkeep; [done..|]. intros ->. by destruct (C4 t h Hh).
    + intros u i Hu. rewrite lookup_delete_Some in Hu. destruct Hu as [Hne Hu]. destruct (C2 u i Hu). apply Hkeep; [done..|]. intros ->. by destruct Hne, (C3 t u i).
    + intros u v i. rewrite !lookup_delete_Some. intros [_ Hu] [_ Hv]. by apply (C3 u v i).
    + intros u h Hh. rewrite lookup_delete_Some. intros [_ Hu]. by destruct (C4 u h Hh).
Qed.
Lemma sleepers_other k k' fr tm : wchan k' !! p = wchan k !! p -> (forall t, is_Some (fr !! t) -> state_of k' t = state_of k t) ->
  sleepers k fr tm -> sleepers k' fr tm /\ (chained k tm -> chained k' tm).
Proof.
  intros Hp Hst [Hr Hs Hw]. assert (forall t, is_Some (tm !! t) -> state_of k' t = state_of k t) as Hst' by (intros t Ht; by apply Hst, (same_rests_dom fr tm)).
  split; [split; [done| |]|].
  - intros t Ht. rewrite Hst' by done. by apply Hs.
  - intros t Ht. apply (waits_kept k); [intros h Hh _; apply wait_head; by rewrite Hp| |by apply Hw|done]. intros i Hi. by rewrite Hst'.
  - intros [C1 C2 C3 C4]. split; rewrite ?Hp; [|  |done|done].
    + intros h Hh. destruct (C1 h Hh) as [Hin Hu]. by rewrite Hst'.
    + intros u t Hu. destruct (C2 u t Hu) as [Hin Hu']. by rewrite Hst'.
Qed.
Lemma step_sleepers c c' : step c c' -> forall tm, sleepers (fst c) (snd c) tm ->
  exists tm', sleepers (fst c') (snd c') tm' /\ (chained (fst c) tm -> chained (fst c') tm').
Proof.
  destruct 1 as [k k' fr rest Hn Hsw|k k' fr Hk|k k' fr t rest Hf Hrun Hk|k k' fr Hp Hst]; intros tm Hsl; cbn [fst snd] in *; eexists.
  - by apply (sleepers_sleep k k').
  - by apply (sleepers_wake k k').
  - destruct (sleepers_resume k k' fr tm t rest Hf Hrun Hk Hsl) as (A & _ & B). split; [exact A|exact B].
  - by apply (sleepers_other k k').
Qed.
Lemma steps_sleepers c c' : rtc step c c' -> forall tm, sleepers (fst c) (snd c) tm ->
  exists tm', sleepers (fst c') (snd c') tm' /\ (chained (fst c) tm -> chained (fst c') tm').
Proof.
  induction 1 as [c|c1 c2 c3 Hs _ IH]; intros tm Hsl; [by exists tm|].
  destruct (step_sleepers c1 c2 Hs tm Hsl) as (tm1 & H1 & C1). destruct (IH tm1 H1) as (tm2 & H2 & C2). exists tm2. split; [done|]. intros C. by apply C2, C1.
Qed.
Lemma sleepers_none k : sleepers k ∅ ∅.
Proof. split; [intros t; by rewrite !lookup_empty| |]; intros t [x Hx]; by rewrite lookup_empty in Hx. Qed.
Lemma chained_none k : wchan k !! p = None -> chained k ∅.
Proof. intros Hp. split; intros *; rewrite ?lookup_empty; congruence. Qed.

(** C34: No sleeper of [sleep_on] is forgotten.  Tasks call [sleep_on(p)], wake the queue up, run again when they are
    runnable, and those that are not inside [sleep_on(p)] do anything else: sleep on other queues, pause, exit, fork.
    However these steps interleave, every task inside [sleep_on(p)] is runnable, or is the one the queue variable has, or is
    made runnable by another such task when that one runs the rest of its call.  The steps of [sleep_on] are those of the
    routine itself up to its switch and after it. *)
Theorem sleep_on_none_lost k c : rtc step (k, ∅) c -> none_lost c.
Proof.
  intros H. destruct (steps_sleepers _ _ H ∅ (sleepers_none k)) as (tm & Hsl & _). destruct c as [k' fr]. by apply (sleepers_reached k' fr tm).
Qed.

(** *** One wake-up reaches everybody *)

(** A runnable sleeper finishes its call of [sleep_on]. *)
Inductive resumes : system -> system -> Prop :=
  | resume k k' fr t rest :
      fr !! t = Some rest -> state_of k t = Some TASK_RUNNING ->
      rest (k <| current := t |>) = Done tt k' -> resumes (k, fr) (k', delete t fr).
Lemma wake_up_run k : (forall h, wchan k !! p = Some h -> is_Some (state_of k h)) -> exists k', wake_up p k = Done tt k'.
Proof.
  intros H. unfold wake_up, bind, wq_get, gets. destruct (wchan k !! p) as [h|] eqn:Eh; [|by exists k].
  destruct (make_runnable_run (Some h) k) as [k1 E]; [intros i [= <-]; by apply H|]. rewrite E. by eexists.
Qed.
Lemma resumes_kept n c c' : nsteps resumes n c c' -> forall tm, sleepers (fst c) (snd c) tm -> chained (fst c) tm -> wchan (fst c) !! p = None ->
  (n + size (snd c') = size (snd c))%nat /\ exists tm', sleepers (fst c') (snd c') tm' /\ chained (fst c') tm' /\ wchan (fst c') !! p = None.
Proof.
  induction 1 as [c|n c1 c2 c3 Hs _ IH]; intros tm Hsl Hch Hp; [split; [done|]; by exists tm|].
  destruct Hs as [k k' fr t rest Hf Hrun Hk]. cbn [fst snd] in *.
  destruct (sleepers_resume k k' fr tm t rest Hf Hrun Hk Hsl) as (A & B & C). rewrite <- B in Hp.
  destruct (IH (delete t tm) A (C Hch) Hp) as [IHn IHt]. split; [|exact IHt].
  rewrite map_size_delete_Some in IHn by (by eexists). assert (size fr <> 0%nat) by (apply map_size_non_empty_iff; intros ->; by rewrite lookup_empty in Hf). lia.
Qed.
Lemma resume_able k fr tm t rest : sleepers k fr tm -> chained k tm -> fr !! t = Some rest -> state_of k t = Some TASK_RUNNING ->
  exists k', resumes (k, fr) (k', delete t fr).
Proof.
  intros Hsl Hch Hf Hrun. destruct (same_rests_at fr tm t rest (sl_rests _ _ _ Hsl) Hf) as (o & Ho & Hrest).
  destruct (make_runnable_run o (k <| current := t |>)) as [k' E].
  - intros i ->. destruct (ch_link _ _ Hch t i Ho) as [_ E]. change (is_Some (state_of k i)). by rewrite E.
  - exists k'. apply (resume k k' fr t rest); [done..|]. by rewrite Hrest.
Qed.
(** C35: One [wake_up] is enough for all sleepers, in every state that the tasks can reach from one with an empty queue.
    It returns, and when the sleepers that are runnable then finish their calls of [sleep_on], one after the other in any order,
    this ends, after as many steps as there are sleepers, only when no sleeper is left; on the way every runnable sleeper can
    finish. *)
Theorem wake_up_reaches_all k0 k fr : wchan k0 !! p = None -> rtc step (k0, ∅) (k, fr) ->
  exists k1, wake_up p k = Done tt k1 /\ forall n c, nsteps resumes n (k1, fr) c ->
    (n + size (snd c) = size fr)%nat /\
    (forall t, is_Some (snd c !! t) -> state_of (fst c) t = Some TASK_RUNNING -> exists k2, resumes c (k2, delete t (snd c))) /\
    ((forall c', ~ resumes c c') -> snd c = ∅).
Proof.
  intros Hp0 Hr. destruct (steps_sleepers _ _ Hr ∅ (sleepers_none k0)) as (tm & Hsl & Hch). specialize (Hch (chained_none k0 Hp0)). cbn [fst snd] in *.
  destruct (wake_up_run k) as [k1 E]; [intros h Hh; by destruct (ch_head _ _ Hch h Hh) as [_ ->]|]. exists k1. split; [done|].
  destruct (sleepers_wake k k1 fr tm E Hsl) as [Hsl1 Hch1]. specialize (Hch1 Hch). destruct (wake_up_inv k k1 E) as (Hp1 & _). intros n [k2 fr2] Hn.
  destruct (resumes_kept n _ _ Hn tm Hsl1 Hch1 Hp1) as (Hsize & tm2 & Hsl2 & Hch2 & Hp2). cbn [fst snd] in *.
  assert (forall t, is_Some (fr2 !! t) -> state_of k2 t = Some TASK_RUNNING -> exists k3, resumes (k2, fr2) (k3, delete t fr2)) as Hgo
    by (intros t [rest Hf]; by apply (resume_able k2 fr2 tm2 t rest)).
  split; [done|]. split; [done|]. intros Hstuck. apply map_empty. intros t.
  assert (forall s, waits_for k2 tm2 s -> is_Some (tm2 !! s) -> False) as Hnone.
  { induction 1 as [s Hs|s Hs|s u Hu _ IH]; intros Hin; [congruence| |apply IH; by eexists].
    apply (same_rests_dom fr2 tm2 s (sl_rests _ _ _ Hsl2)) in Hin. destruct (Hgo s Hin Hs) as [k3 H3]. by apply (Hstuck _ H3). }
  destruct (fr2 !! t) eqn:Et; [|done]. assert (is_Some (tm2 !! t)) as Hin by (apply (same_rests_dom fr2 tm2 t (sl_rests _ _ _ Hsl2)); by eexists).
  destruct (Hnone t (sl_waits _ _ _ Hsl2 t Hin) Hin).
Qed.


(** *** [interruptible_sleep_on] *)
Inductive istep : config -> config -> Prop :=
  | istep_sleep k k' fr tmp :
      fr !! current k = None ->
      sleep_enter TASK_INTERRUPTIBLE p k = Done tmp k' ->
      istep (k, fr) (k', <[current k := tmp]> fr)
  | istep_wake k k' fr : wake_up p k = Done tt k' -> istep (k, fr) (k', fr)
  | istep_again k k' fr tmp :
      fr !! current k = Some tmp -> state_of k (current k) = Some TASK_RUNNING ->
      sleep_again p tmp k = Done false k' -> istep (k, fr) (k', fr)
  | istep_leave k k' fr tmp :
      fr !! current k = Some tmp -> state_of k (current k) = Some TASK_RUNNING ->
      sleep_again p tmp k = Done true k' -> istep (k, fr) (k', delete (current k) fr)
  | istep_switch k fr n : istep (k, fr) (k <| current := n |>, fr).

(** A sleeper that no wake-up of the queue can reach any more. *)
Definition lost (c : config) (t : nat) : Prop :=
  is_Some (snd c !! t) /\ state_of (fst c) t = Some TASK_INTERRUPTIBLE /\
  ~ waits_for (fst c) (snd c) t /\ wake_up p (fst c) = Done tt (fst c).

End Queue.

(** Two tasks, in slots 1 and 2. *)
Definition two_tasks : kernel := with_tasks [INIT_TASK; INIT_TASK].

Definition run {A} (m : M kernel A) (k : kernel) : kernel :=
  match m k with Done _ k' => k' | _ => k end.
Definition at_task (n : nat) (k : kernel) : kernel := k <| current := n |>.

(** C36: [interruptible_sleep_on] loses wake-ups: task 1 sleeps, is woken, and
    before it runs task 2 sleeps on the same queue; task 1 then wakes task 2 and
    goes back to sleep without entering the queue again, and task 2 clears the
    queue.  Task 1 now sleeps, and neither the queue variable nor any sleeper leads
    to it: no wake-up of the queue reaches it. *)
Theorem interruptible_sleep_loses_a_task :
  exists c, rtc (istep 7) (at_task 1 two_tasks, ∅) c /\ lost 7 c 1.
Proof.
  set (k1 := at_task 1 two_tasks).
  set (k2 := run (sleep_enter TASK_INTERRUPTIBLE 7) k1).
  set (k3 := at_task 2 (run (wake_up 7) k2)).
  set (k4 := at_task 1 (run (sleep_enter TASK_INTERRUPTIBLE 7) k3)).
  set (k5 := at_task 2 (run (sleep_again 7 None) k4)).
  set (k6 := run (sleep_again 7 None) k5).
  exists (k6, delete 2%nat (<[2%nat := None]> (<[1%nat := None]> ∅))). split.
  - eapply rtc_l; [by apply (istep_sleep 7 k1 k2 ∅ None)|].
    eapply rtc_l; [by apply (istep_wake 7 k2 (run (wake_up 7) k2))|].
    eapply rtc_l; [apply (istep_switch 7 _ _ 2)|].
    eapply rtc_l; [by apply (istep_sleep 7 k3 (run (sleep_enter TASK_INTERRUPTIBLE 7) k3) _ None)|].
    eapply rtc_l; [apply (istep_switch 7 _ _ 1)|].
    eapply rtc_l; [by apply (istep_again 7 k4 (run (sleep_again 7 None) k4) _ None)|].
    eapply rtc_l; [apply (istep_switch 7 _ _ 2)|].
    eapply rtc_l; [by apply (istep_leave 7 k5 k6 _ None)|].
    apply rtc_refl.
  - split; [by eexists|]. split; [done|]. split; [|done].
    assert (wchan k6 !! 7%Z = None) as Hq by (vm_compute; reflexivity).
    assert (state_of k6 1 = Some TASK_INTERRUPTIBLE) as Hst by (vm_compute; reflexivity).
    cbn [fst snd]. intros H. inversion H as [t Ht|t Ht|t u Hu Hw]; subst.
    + congruence.
    + by rewrite Hst in Ht.
    + rewrite lookup_delete_Some, lookup_insert_Some, lookup_insert_Some, lookup_empty in Hu.
      naive_solver.
Qed.
(** Task 1 asleep. *)
Definition one_asleep : kernel := run schedule (run (sleep_enter TASK_UNINTERRUPTIBLE 7) (at_task 1 two_tasks)).
Lemma one_asleep_step : rtc (step 7) (at_task 1 two_tasks, ∅) (one_asleep, <[1%nat := make_runnable None]> ∅).
Proof.
  apply rtc_once. apply (step_sleep 7 (at_task 1 two_tasks)); [reflexivity|].
  apply (sleep_on_switches 7 _ (run (sleep_enter TASK_UNINTERRUPTIBLE 7) (at_task 1 two_tasks))); vm_compute; reflexivity.
Qed.
Lemma wake_up_reaches_all_witness : exists k1, wake_up 7 one_asleep = Done tt k1 /\
  forall n c, nsteps resumes n (k1, <[1%nat := make_runnable None]> ∅) c -> (forall c', ~ resumes c c') -> snd c = ∅.
Proof.
  destruct (wake_up_reaches_all 7 (at_task 1 two_tasks) one_asleep _ eq_refl one_asleep_step) as (k1 & E & H).
  exists k1. split; [exact E|]. intros n c Hn. exact (proj2 (proj2 (H n c Hn))).
Defined.
Lemma sleep_on_none_lost_witness : none_lost 7 (one_asleep, <[1%nat := make_runnable None]> ∅).
Proof. exact (sleep_on_none_lost 7 (at_task 1 two_tasks) _ one_asleep_step). Defined.
End WaitQueue.
