(* ===== verification/Services.v ===== *)
(** * Services: what the process system calls use of the other subsystems

    [fork], [exit], [wait] and [signal] call the memory manager and the file
    system.  [Services] names those routines as operations on the kernel
    variables.  [ServicesLaws] is what [fork] relies on: the routines of the memory
    manager, called with the aligned ranges of a task, and the ones that count the
    users of files and inodes return, and leave the task structures alone.
    [ServicesFrames] is what [exit] and [signal] rely on: those of the memory manager,
    when they return (no page counted wrongly, a free page for the copy that a write
    needs), have left the tasks alone.  Nothing is assumed of [sys_close] and [iput], which may
    wait and let other tasks run, nor of [others]: everything that runs between a call of
    [schedule] and the moment the caller's task is scheduled again. *)
From S2P Require Import Prelude Console Task.

Class Services : Type := {
  others : nat -> M kernel unit;
  write_verify : Z -> M kernel unit;
  get_free_page : M kernel Z;
  free_page : Z -> M kernel unit;
  copy_page_tables : Z -> Z -> Z -> M kernel Z;
  free_page_tables : Z -> Z -> M kernel Z;
  sys_close : Z -> M kernel Z;
  iput : option Z -> M kernel unit;
  inc_f_count : Z -> M kernel unit;
  inc_i_count : Z -> M kernel unit
}.

(** A task structure without its open files. *)
Definition sans_files (t : task_struct) : task_struct :=
  t <| filp := [] |> <| close_on_exec := 0 |>.
(** Nothing of the process side has changed but open files. *)
Definition same_tasks (k k' : kernel) : Prop :=
  (forall i, sans_files <$> slot k' i = sans_files <$> slot k i) /\
  length (task k') = length (task k) /\ current k' = current k /\
  last_pid k' = last_pid k /\ tty_table k' = tty_table k /\
  last_task_used_math k' = last_task_used_math k.
#[export] Instance same_tasks_preorder : PreOrder same_tasks.
Proof.
  split; [done|]. intros k1 k2 k3 (H1 & H2 & H3 & H4 & H5 & H6) (H1' & H2' & H3' & H4' & H5' & H6').
  repeat split; try congruence; intros i; by rewrite H1', H1.
Qed.

Definition quiet {A} (m : M kernel A) : Prop := forall k, wp m (fun _ k' => same_tasks k k') k.

Class ServicesLaws (S : Services) : Prop := {
  quiet_get_free_page : quiet get_free_page;
  quiet_free_page a : quiet (free_page a);
  quiet_copy_page_tables a b c : quiet (copy_page_tables a b c);
  quiet_free_page_tables a b : quiet (free_page_tables a b);
  quiet_inc_f_count f : quiet (inc_f_count f);
  quiet_inc_i_count i : quiet (inc_i_count i)
}.

(** When [m] returns, the tasks are what they were. *)
Definition spares {A} (m : M kernel A) : Prop := forall k a k', m k = Done a k' ->
  task k' = task k /\ current k' = current k.
Class ServicesFrames (S : Services) : Prop := {
  spares_write_verify a : spares (write_verify a);
  spares_free_page_tables a b : spares (free_page_tables a b)
}.

Lemma quiet_ret {A} (a : A) : quiet (ret a).
Proof. intros k. cbn. done. Qed.
Lemma quiet_bind {A B} (m : M kernel A) (f : A -> M kernel B) :
  quiet m -> (forall a, quiet (f a)) -> quiet (a <- m ;; f a).
Proof.
  intros Hm Hf k. apply wp_bind. eapply wp_mono; [apply Hm|]. intros a k1 H1.
  eapply wp_mono; [apply Hf|]. intros b k2 H2. by transitivity k1.
Qed.
Lemma quiet_for_each {A} (l : list A) (f : A -> M kernel unit) :
  (forall a, quiet (f a)) -> quiet (for_each l f).
Proof. intros Hf. induction l; cbn [for_each]; [apply quiet_ret|]. by apply quiet_bind. Qed.
Lemma quiet_get {A} (f : kernel -> M kernel A) : (forall k, quiet (f k)) -> quiet (k <- get ;; f k).
Proof. intros Hf k. apply wp_bind, wp_get, Hf. Qed.

Create HintDb quiet.
#[export] Hint Resolve quiet_get_free_page quiet_free_page
  quiet_copy_page_tables quiet_free_page_tables quiet_inc_f_count quiet_inc_i_count quiet_ret : quiet.

Lemma same_tasks_slot k k' i t :
  same_tasks k k' -> slot k i = Some t ->
  exists t', slot k' i = Some t' /\ sans_files t' = sans_files t.
Proof.
  intros (H & _) Ht. specialize (H i). rewrite Ht in H.
  destruct (slot k' i) as [t'|]; [|done]. exists t'. split; [done|]. exact (inj Some _ _ H).
Qed.

Lemma wp_quiet {A} (m : M kernel A) (Q : A -> kernel -> Prop) k :
  quiet m -> (forall a k', same_tasks k k' -> Q a k') -> wp m Q k.
Proof. intros Hm HQ. eapply wp_mono; [apply Hm|]. exact HQ. Qed.

(** Services that do nothing, with a supply of one page, for the examples. *)
Definition idle_services : Services := {|
  others := fun me => modify (fun k => k <| current := me |>);
  write_verify := fun _ => ret tt;
  get_free_page := ret 1048576;
  free_page := fun _ => ret tt;
  copy_page_tables := fun _ _ _ => ret 0;
  free_page_tables := fun _ _ => ret 0;
  sys_close := fun _ => ret 0;
  iput := fun _ => ret tt;
  inc_f_count := fun _ => ret tt;
  inc_i_count := fun _ => ret tt
|}.
#[export] Instance idle_services_laws : ServicesLaws idle_services.
Proof. split; intros; apply quiet_ret. Qed.
#[export] Instance idle_services_frames : ServicesFrames idle_services.
Proof. split; [intros a k r k' E|intros a b k r k' E]; injection E as _ <-; done. Qed.
