(* ===== verification/Fork.v ===== *)
(** * Fork: [kernel/fork.c]

    [fork] in its parts: the choice of a process number and a slot, the copy of
    the task structure and of the memory, and [verify_area]. *)
From S2P Require Import Prelude Console Task Services.

Module Fork.

Definition PAGE_SIZE : Z := 4096.
(** [_LDT(n)] *)
Definition _LDT (n : nat) : Z := Z.shiftl (Z.of_nat n) 4 + Z.shiftl 5 3.
Definition FIRST_TSS_ENTRY : Z := 4.
Definition FIRST_LDT_ENTRY : Z := 5.
(** The offsets of [ldt] and [tss] in [struct task_struct]. *)
Definition offset_ldt : Z := 720.
Definition offset_tss : Z := 744.
(** [_set_tssldt_desc(n,addr,type)] with [type] 0x89 (a tss) or 0x82 (an ldt) *)
Definition tssldt_desc (addr type : Z) : desc_struct :=
  mk_desc (Z.lor 104 (Z.shiftl (Z.land addr 65535) 16))
    (Z.lor (Z.land (Z.shiftr addr 16) 255)
       (Z.lor (Z.shiftl type 8) (Z.shiftl (Z.land (Z.shiftr addr 24) 255) 24))).
Definition set_tss_desc (n addr : Z) : M kernel unit :=
  modify (fun k => k <| gdt ::= <[n := tssldt_desc addr 137]> |>).
Definition set_ldt_desc (n addr : Z) : M kernel unit :=
  modify (fun k => k <| gdt ::= <[n := tssldt_desc addr 130]> |>).

Definition nth_ldt (t : task_struct) (i : nat) : desc_struct := default (mk_desc 0 0) (ldt t !! i).

Section Fork.
Context {S : Services}.

Definition verify_area (addr size : Z) : M kernel unit :=
  t <- cur ;;
  let start := u32 addr in
  let size := size + Z.land start 4095 in
  let start := u32 (Z.land start 4294963200 + get_base (nth_ldt t 2)) in
  loop (Datatypes.S (Z.to_nat (Z.shiftr (size + 4095) 12)))
    (fun '(size, start) =>
       if 0 <? size
       then write_verify start ;;; ret (inl (size - 4096, u32 (start + 4096)))
       else ret (inr tt)) (size, start).

(** The first page of the memory of task [nr]: [nr * 0x4000000]. *)
Definition copy_mem (nr : nat) : M kernel Z :=
  t <- cur ;;
  let code_limit := get_limit (nth_ldt t 1) in
  let data_limit := get_limit (nth_ldt t 2) in
  let old_code_base := get_base (nth_ldt t 1) in
  let old_data_base := get_base (nth_ldt t 2) in
  if negb (old_data_base =? old_code_base) then panic "We don't support separate I&D"
  else if data_limit <? code_limit then panic "Bad data_limit" else
  let new_base := u32 (Z.of_nat nr * 67108864) in
  mod_task nr (fun p => p <| start_code := new_base |>
    <| ldt ::= fun l => <[1%nat := set_base (nth_ldt p 1) new_base]> l |>) ;;;
  mod_task nr (fun p => p <| ldt ::= fun l => <[2%nat := set_base (nth_ldt p 2) new_base]> l |>) ;;;
  r <- copy_page_tables old_data_base new_base data_limit ;;
  if truth r then free_page_tables new_base data_limit ;;; ret (- ENOMEM)
  else ret 0.

(** The registers that [_system_call] and [_sys_fork] leave on the kernel stack. *)
Record regs : Type := mk_regs {
  r_ebp : Z; r_edi : Z; r_esi : Z; r_gs : Z; r_ebx : Z; r_ecx : Z; r_edx : Z;
  r_fs : Z; r_es : Z; r_ds : Z; r_eip : Z; r_cs : Z; r_eflags : Z; r_esp : Z; r_ss : Z
}.

(** The task structure of the child before its memory is copied; [fpu] is the
    live coprocessor state if the parent used the coprocessor last. *)
Definition child (k : kernel) (parent : task_struct) (page : Z) (nr : nat) (r : regs) (fpu : Z) :
    task_struct :=
  parent <| page_addr := page |>
    <| t_state := TASK_UNINTERRUPTIBLE |> <| pid := last_pid k |> <| father := pid parent |>
    <| counter := priority parent |> <| signal := 0 |> <| alarm := 0 |> <| leader := 0 |>
    <| utime := 0 |> <| stime := 0 |> <| cutime := 0 |> <| cstime := 0 |>
    <| start_time := jiffies k |>
    <| tss := mk_tss 0 (PAGE_SIZE + page) 16 (cr3 (tss parent)) (r_eip r) (r_eflags r) 0
         (r_ecx r) (r_edx r) (r_ebx r) (r_esp r) (r_ebp r) (r_esi r) (r_edi r)
         (Z.land (r_es r) 65535) (Z.land (r_cs r) 65535) (Z.land (r_ss r) 65535)
         (Z.land (r_ds r) 65535) (Z.land (r_fs r) 65535) (Z.land (r_gs r) 65535)
         (_LDT nr) 2147483648
         (if bool_decide (last_task_used_math k = Some (current k)) then fpu else i387 (tss parent)) |>.

Definition copy_process (nr : nat) (r : regs) (fpu : Z) : M kernel Z :=
  p <- get_free_page ;;
  if negb (truth p) then ret (- EAGAIN) else
  k <- get ;;
  t <- cur ;;
  put_task nr (child k t p nr r fpu) ;;;
  e <- copy_mem nr ;;
  if truth e then
    modify (fun k => k <| task ::= <[nr := None]> |>) ;;; free_page p ;;; ret (- EAGAIN)
  else
  c <- get_task nr ;;
  for_each (filp c) (fun f => match f with Some f => inc_f_count f | None => ret tt end) ;;;
  t <- cur ;;
  match pwd t with Some i => inc_i_count i | None => ret tt end ;;;
  match root t with Some i => inc_i_count i | None => ret tt end ;;;
  match executable t with Some i => inc_i_count i | None => ret tt end ;;;
  set_tss_desc (Z.of_nat nr * 2 + FIRST_TSS_ENTRY) (p + offset_tss) ;;;
  set_ldt_desc (Z.of_nat nr * 2 + FIRST_LDT_ENTRY) (p + offset_ldt) ;;;
  mod_task nr (fun t => t <| t_state := TASK_RUNNING |>) ;;;
  gets last_pid.
End Fork.

(** [if ((++last_pid)<0) last_pid=1;] *)
Definition next_pid (p : Z) : Z := if i32 (p + 1) <? 0 then 1 else i32 (p + 1).
Definition pid_in_use (l : list (option task_struct)) (p : Z) : bool :=
  existsb (fun o => match o with Some t => pid t =? p | None => false end) l.
(** The first empty slot from slot 1 on. *)
Fixpoint empty_slot (l : list (option task_struct)) (i : nat) : option nat :=
  match l with
  | [] => None
  | None :: _ => Some i
  | Some _ :: l' => empty_slot l' (Datatypes.S i)
  end.
Definition find_empty_process : M kernel Z :=
  loop (NR_TASKS + 2) (fun _ : unit =>
    modify (fun k => k <| last_pid ::= next_pid |>) ;;;
    k <- get ;;
    if pid_in_use (task k) (last_pid k) then ret (inl tt) else ret (inr tt)) tt ;;;
  k <- get ;;
  ret (match empty_slot (drop 1 (task k)) 1 with Some i => Z.of_nat i | None => - EAGAIN end).

(** ** The choice of a process number *)

Lemma next_pid_eq p :
  0 <= p < 2147483648 -> next_pid p = if p + 1 <? 2147483648 then p + 1 else 1.
Proof.
  intros Hp. unfold next_pid. destruct (Z.ltb_spec (p + 1) 2147483648).
  - rewrite i32_id by lia. destruct (Z.ltb_spec (p + 1) 0); lia.
  - replace p with 2147483647 by lia. reflexivity.
Qed.
(** The [i]-th number that [find_empty_process] tries after [p]. *)
Lemma next_pid_iter p i :
  0 <= p < 2147483648 -> (1 <= i <= 1000)%nat ->
  Nat.iter i next_pid p =
    (if p + Z.of_nat i <? 2147483648 then p + Z.of_nat i else p + Z.of_nat i - 2147483647).
Proof.
  intros Hp. induction i as [|i IH]; intros Hi; [lia|].
  destruct (decide (i = O)) as [->|Hn]; rewrite Nat.iter_succ.
  - cbn [Nat.iter nat_rect]. rewrite next_pid_eq by done.
    destruct (Z.ltb_spec (p + 1) 2147483648), (Z.ltb_spec (p + Z.of_nat 1) 2147483648); lia.
  - rewrite IH by lia.
    destruct (Z.ltb_spec (p + Z.of_nat i) 2147483648); rewrite next_pid_eq by lia;
      repeat match goal with |- context [?a <? ?b] => destruct (Z.ltb_spec a b) end; lia.
Qed.

Definition pids (l : list (option task_struct)) : list Z :=
  omap (fun o => pid <$> o) l.
Lemma pid_in_use_spec l p : pid_in_use l p = true <-> p ∈ pids l.
Proof.
  unfold pid_in_use, pids. rewrite existsb_exists. split.
  - intros ([t|] & Hin & Ht); [|done]. apply Z.eqb_eq in Ht. subst.
    apply list_elem_of_omap. exists (Some t). split; [by apply list_elem_of_In|done].
  - intros (o & Hin & Ho)%list_elem_of_omap. exists o.
    split; [by apply list_elem_of_In|]. destruct o as [t|]; [|done]. cbn in Ho.
    injection Ho as ->. apply Z.eqb_refl.
Qed.
Lemma length_pids l : (length (pids l) <= length l)%nat.
Proof. unfold pids. induction l as [|[t|] l IH]; [done| |]; [apply le_n_S | apply le_S]; exact IH. Qed.

(** Among more numbers than there are slots one is not in use. *)
Lemma some_pid_free l p n :
  0 <= p < 2147483648 -> (length l < n <= 1000)%nat ->
  exists i, (1 <= i <= n)%nat /\ pid_in_use l (Nat.iter i next_pid p) = false.
Proof.
  intros Hp Hn.
  destruct (decide (Exists (fun i => pid_in_use l (Nat.iter i next_pid p) = false) (seq 1 n))) as [H|H].
  { apply Exists_exists in H as (i & Hi & H). apply elem_of_seq in Hi. exists i. split; [lia|done]. }
  exfalso. apply not_Exists_Forall in H; [|intros ?; apply _]. rewrite Forall_forall in H.
  assert (NoDup (map (fun i => Nat.iter i next_pid p) (seq 1 n))) as Hnd.
  { apply NoDup_fmap_2_strong; [|apply NoDup_seq].
    intros i j Hi Hj. apply elem_of_seq in Hi, Hj. rewrite !next_pid_iter by lia.
    intros E. repeat case_match; lia. }
  assert (length (map (fun i => Nat.iter i next_pid p) (seq 1 n)) <= length (pids l))%nat as Hle.
  { apply submseteq_length, NoDup_submseteq; [done|]. intros x (i & -> & Hi)%list_elem_of_fmap.
    apply pid_in_use_spec. specialize (H i Hi). cbn in H.
    by destruct (pid_in_use l (Nat.iter i next_pid p)). }
  rewrite length_map, length_seq in Hle. pose proof (length_pids l). lia.
Qed.

Lemma empty_slot_spec l i :
  match empty_slot l i with
  | Some j => (i <= j < i + length l)%nat /\ l !! (j - i)%nat = Some None
  | None => Forall (fun o => is_Some o) l
  end.
Proof.
  revert i. induction l as [|[t|] l IH]; intros i; cbn; [done|..].
  - specialize (IH (Datatypes.S i)). destruct (empty_slot l (Datatypes.S i)) as [j|].
    + destruct IH as [Hj Hl]. split; [lia|].
      by replace (j - i)%nat with (Datatypes.S (j - Datatypes.S i)) by lia.
    + constructor; [by eexists|done].
  - split; [lia|]. by rewrite Nat.sub_diag.
Qed.

Lemma pid_loop n : forall fuel k,
  (1 <= n)%nat -> (n <= fuel)%nat ->
  pid_in_use (task k) (Nat.iter n next_pid (last_pid k)) = false ->
  wp (loop fuel (fun _ : unit =>
      modify (fun k => k <| last_pid ::= next_pid |>) ;;;
      k <- get ;;
      if pid_in_use (task k) (last_pid k) then ret (inl tt) else ret (inr tt)) tt)
    (fun _ k' => exists m, (1 <= m <= n)%nat /\
       k' = k <| last_pid := Nat.iter m next_pid (last_pid k) |> /\
       pid_in_use (task k) (last_pid k') = false) k.
Proof.
  induction n as [|n IH]; intros fuel k Hn Hf Hfree; [lia|].
  destruct fuel as [|fuel]; [lia|]. cbn [loop]. wp_run.
  change (task (upd last_pid next_pid k)) with (task k).
  change (last_pid (upd last_pid next_pid k)) with (next_pid (last_pid k)).
  destruct (pid_in_use (task k) (next_pid (last_pid k))) eqn:E; wp_run.
  - assert (n <> O) by (intros ->; cbn in Hfree; congruence).
    eapply wp_mono; [apply IH; [lia|lia|]|].
    + cbn. by rewrite Nat.iter_succ_r in Hfree.
    + intros [] k' (m & Hm & -> & Hu). exists (Datatypes.S m). split; [lia|].
      rewrite Nat.iter_succ_r. by split.
  - exists 1%nat. split; [lia|]. by split.
Qed.

(** [find_empty_process] always returns, within 65 tries of its [goto repeat]
    even across the wrap-around of [last_pid]: it leaves in [last_pid] a positive
    number that no task has, and returns an empty slot, never slot 0, or -EAGAIN
    exactly when the other slots are all in use. *)
Theorem find_empty_process_ok k :
  length (task k) = NR_TASKS -> 0 <= last_pid k < 2147483648 ->
  wp find_empty_process (fun r k' =>
    k' = k <| last_pid := last_pid k' |> /\
    0 < last_pid k' < 2147483648 /\ (last_pid k' ∉ pids (task k)) /\
    ((exists i, r = Z.of_nat i /\ (1 <= i < NR_TASKS)%nat /\ task k !! i = Some None) \/
     (r = - EAGAIN /\ forall i, (1 <= i < NR_TASKS)%nat -> is_Some (slot k i)))) k.
Proof.
  intros Hlen Hp. unfold find_empty_process. apply wp_bind.
  destruct (some_pid_free (task k) (last_pid k) 65) as (n & Hn & Hfree);
    [done|rewrite Hlen; unfold NR_TASKS; lia|].
  eapply wp_mono; [apply (pid_loop n); [lia|unfold NR_TASKS; lia|done]|].
  intros [] k' (m & Hm & -> & Hf). wp_run. split; [done|].
  change (task (k <| last_pid := _ |>)) with (task k).
  cbn [last_pid upd upd_last_pid] in *. split; [|split].
  - rewrite next_pid_iter by lia. case_match; lia.
  - rewrite <- pid_in_use_spec. by rewrite Hf.
  - pose proof (empty_slot_spec (drop 1 (task k)) 1) as H.
    destruct (empty_slot (drop 1 (task k)) 1) as [i|]; [left|right].
    + destruct H as [Hi H]. exists i. split; [done|]. rewrite length_drop in Hi. split; [lia|].
      rewrite lookup_drop in H. by replace (1 + (i - 1))%nat with i in H by lia.
    + split; [done|]. intros i Hi. rewrite Forall_lookup in H.
      destruct (lookup_lt_is_Some_2 (task k) i) as [o Ho]; [lia|].
      specialize (H (i - 1)%nat o). rewrite lookup_drop in H.
      replace (1 + (i - 1))%nat with i in H by lia. unfold slot. rewrite Ho. by apply H.
Qed.

(** ** The child *)
Section Child.
Context {S : Services} {L : ServicesLaws S}.

(** Slot [nr] holds [o] (up to open files) and the rest is as in [k]. *)
Definition forked (k : kernel) (nr : nat) (o : option task_struct) (k' : kernel) : Prop :=
  (forall i, i <> nr -> sans_files <$> slot k' i = sans_files <$> slot k i) /\
  sans_files <$> slot k' nr = sans_files <$> o /\
  length (task k') = length (task k) /\ current k' = current k /\ last_pid k' = last_pid k.

Lemma forked_same k nr o k' k'' : forked k nr o k' -> same_tasks k' k'' -> forked k nr o k''.
Proof.
  intros (H1 & H2 & H3 & H4 & H5) (E1 & E2 & E3 & E4 & _). unfold forked.
  split; [intros i Hi; rewrite E1; by apply H1|]. split; [by rewrite E1|].
  repeat split; congruence.
Qed.
Lemma forked_slot k nr c k' :
  forked k nr (Some c) k' -> exists c', slot k' nr = Some c' /\ sans_files c' = sans_files c.
Proof.
  intros (_ & H & _). destruct (slot k' nr) as [c'|]; [|done]. exists c'.
  split; [done|exact (inj Some _ _ H)].
Qed.
Lemma forked_mod k nr c k' f :
  (forall t t', sans_files t = sans_files t' -> sans_files (f t) = sans_files (f t')) ->
  forked k nr (Some c) k' ->
  wp (mod_task nr f) (fun _ k'' => forked k nr (Some (f c)) k'') k'.
Proof.
  intros Hf Hk. destruct (forked_slot _ _ _ _ Hk) as (c' & Hc & Hs).
  eapply wp_mod_task; [exact Hc|]. destruct Hk as (H1 & H2 & H3 & H4 & H5).
  pose proof (slot_length _ _ _ Hc) as Hlen.
  split; [|split; [|split; [by cbn; rewrite length_insert|done]]].
  - intros i Hi. rewrite slot_upd by done. rewrite decide_False by done. by apply H1.
  - rewrite slot_upd by done. rewrite decide_True by done. cbn. f_equal. by apply Hf.
Qed.
Lemma wp_forked {A} k nr o k' (m : M kernel A) (Q : A -> kernel -> Prop) :
  quiet m -> forked k nr o k' -> (forall a k'', forked k nr o k'' -> Q a k'') -> wp m Q k'.
Proof.
  intros Hm Hk HQ. apply wp_quiet; [done|]. intros a k'' Hs. by eapply HQ, forked_same.
Qed.

(** The changes that [copy_mem] makes to the task structure of the child. *)
Definition rebase (base : Z) (p : task_struct) : task_struct :=
  let p1 := p <| start_code := base |> <| ldt ::= fun l => <[1%nat := set_base (nth_ldt p 1) base]> l |> in
  p1 <| ldt ::= fun l => <[2%nat := set_base (nth_ldt p1 2) base]> l |>.

Lemma rebase_ldt base p :
  0 <= base < 2 ^ 32 -> length (ldt p) = 3%nat ->
  let c := (rebase base p) <| t_state := TASK_RUNNING |> in
  get_base (nth_ldt c 1) = base /\ get_base (nth_ldt c 2) = base.
Proof.
  intros Hb Hl c. unfold c, rebase, nth_ldt. cbn -[get_base set_base].
  destruct (ldt p) as [|d0 [|d1 [|d2 [|]]]]; try done. cbn -[get_base set_base].
  by rewrite !get_base_set_base.
Qed.

Lemma quiet_modify f : (forall k, same_tasks k (f k)) -> quiet (modify f).
Proof. intros H k. cbn. apply H. Qed.
Lemma quiet_set_tss n a : quiet (set_tss_desc n a).
Proof. by apply quiet_modify. Qed.
Lemma quiet_set_ldt n a : quiet (set_ldt_desc n a).
Proof. by apply quiet_modify. Qed.
#[local] Hint Resolve quiet_set_tss quiet_set_ldt : quiet.

(** The address space of the task can be shared by [fork]. *)
Definition flat (t : task_struct) : Prop :=
  get_base (nth_ldt t 2) = get_base (nth_ldt t 1) /\
  get_limit (nth_ldt t 1) <= get_limit (nth_ldt t 2).

Lemma copy_mem_forked k nr c k' t :
  nr <> current k -> slot k (current k) = Some t -> flat t -> forked k nr (Some c) k' ->
  wp (copy_mem nr) (fun e k'' =>
    forked k nr (Some (rebase (u32 (Z.of_nat nr * 67108864)) c)) k'' /\ (e = 0 \/ e = - ENOMEM)) k'.
Proof.
  intros Hne Ht [Hb Hl] Hk. unfold copy_mem. apply wp_bind.
  pose proof Hk as (H1 & _ & _ & Hcur & _). specialize (H1 (current k) ltac:(done)).
  rewrite Ht in H1. destruct (slot k' (current k)) as [t'|] eqn:Ht'; [|done].
  apply (inj Some) in H1.
  assert (ldt t' = ldt t) as El by (change (ldt (sans_files t') = ldt (sans_files t)); by rewrite H1).
  eapply wp_cur; [by rewrite Hcur|].
  assert (forall i, nth_ldt t' i = nth_ldt t i) as En by (intros i; unfold nth_ldt; by rewrite El).
  rewrite !En, Hb, Z.eqb_refl. cbn [negb].
  destruct (Z.ltb_spec (get_limit (nth_ldt t 2)) (get_limit (nth_ldt t 1))); [lia|].
  apply wp_bind. eapply wp_mono.
  { eapply forked_mod; [|exact Hk]. intros u u' Hu.
    assert (ldt u = ldt u') as E by (change (ldt (sans_files u) = ldt (sans_files u')); by rewrite Hu).
    destruct u, u'. injection Hu. cbn in E. intros. subst. reflexivity. }
  intros [] k1 Hk1. apply wp_bind. eapply wp_mono.
  { eapply forked_mod; [|exact Hk1]. intros u u' Hu. destruct u, u'. injection Hu. intros. by subst. }
  intros [] k2 Hk2. apply wp_bind. eapply wp_forked; [auto with quiet|exact Hk2|].
  intros e k3 Hk3. destruct (truth e).
  - apply wp_bind. eapply wp_forked; [auto with quiet|exact Hk3|]. intros _ k4 Hk4. apply wp_ret. by eauto.
  - apply wp_ret. by eauto.
Qed.

Lemma forked_for_each k nr o (l : list (option Z)) k' (Q : unit -> kernel -> Prop) :
  forked k nr o k' -> (forall k'', forked k nr o k'' -> Q tt k'') ->
  wp (for_each l (fun f => match f with Some f => inc_f_count f | None => ret tt end)) Q k'.
Proof.
  intros Hk HQ. eapply wp_forked; [|exact Hk|intros []; apply HQ].
  apply quiet_for_each. intros [f|]; auto with quiet.
Qed.
Lemma forked_inc k nr o (i : option Z) k' (Q : unit -> kernel -> Prop) :
  forked k nr o k' -> (forall k'', forked k nr o k'' -> Q tt k'') ->
  wp (match i with Some i => inc_i_count i | None => ret tt end) Q k'.
Proof.
  intros Hk HQ. eapply wp_forked; [|exact Hk|intros []; apply HQ]. destruct i; auto with quiet.
Qed.

(** What a successful [fork] has made of the child [c] of the task [t]. *)
Record child_of (k : kernel) (nr : nat) (r : regs) (t c : task_struct) : Prop := {
  ch_state : t_state c = TASK_RUNNING;
  ch_pid : pid c = last_pid k;
  ch_father : father c = pid t;
  ch_group : pgrp c = pgrp t /\ session c = session t /\ leader c = 0;
  ch_sched : counter c = priority t /\ priority c = priority t;
  ch_signal : signal c = 0 /\ alarm c = 0 /\ blocked c = blocked t /\ sigactions c = sigactions t;
  ch_times : utime c = 0 /\ stime c = 0 /\ cutime c = 0 /\ cstime c = 0;
  ch_ids : uid c = uid t /\ euid c = euid t /\ gid c = gid t /\ egid c = egid t;
  ch_regs : eax (tss c) = 0 /\ eip (tss c) = r_eip r /\ esp (tss c) = r_esp r /\
            eflags (tss c) = r_eflags r /\ ebx (tss c) = r_ebx r;
  ch_base : get_base (nth_ldt c 1) = Z.of_nat nr * 67108864 /\
            get_base (nth_ldt c 2) = Z.of_nat nr * 67108864
}.

(** [child_of] does not look at the files. *)
Lemma child_of_sans k nr r t t1 c c1 :
  child_of k nr r t1 c1 -> sans_files c = sans_files c1 -> sans_files t1 = sans_files t ->
  child_of k nr r t c.
Proof.
  intros [] Ec Et. destruct c, c1, t, t1. injection Ec; injection Et; intros; subst.
  constructor; assumption.
Qed.

Lemma forked_start k nr c0 k1 : (nr < length (task k))%nat -> same_tasks k k1 ->
  forked k nr (Some c0) (k1 <| task ::= <[nr := Some c0]> |>).
Proof.
  intros Hnr (H1 & H2 & H3 & H4 & _). split; [|split; [|split; [|done]]].
  - intros i Hi. rewrite slot_upd by lia. by rewrite decide_False.
  - rewrite slot_upd by lia. by rewrite decide_True.
  - cbn. by rewrite length_insert.
Qed.
Lemma forked_undo k nr o k' : (nr < length (task k))%nat -> forked k nr o k' -> forked k nr None (k' <| task ::= <[nr := None]> |>).
Proof.
  intros Hnr (A1 & A2 & A3 & A4 & A5). split; [|split; [|split; [cbn; by rewrite length_insert|done]]].
  - intros i Hi. rewrite <- A1 by done. unfold slot. cbn. by rewrite list_lookup_insert_ne.
  - unfold slot. cbn. by rewrite list_lookup_insert_eq by lia.
Qed.
(** The new task after [copy_mem] and the last store of [copy_process]. *)
Lemma child_of_child k nr r fpu t k1 t1 p c base : 0 <= base < 2 ^ 32 -> base = Z.of_nat nr * 67108864 ->
  last_pid k1 = last_pid k -> length (ldt t) = 3%nat -> sans_files t1 = sans_files t ->
  sans_files c = sans_files ((rebase base (child k1 t1 p nr r fpu)) <| t_state := TASK_RUNNING |>) ->
  child_of k nr r t c.
Proof.
  intros Hr Hbase Hlp Hldt Hs1. set (c0 := child k1 t1 p nr r fpu). intros Hsc. eapply child_of_sans; [|exact Hsc|exact Hs1].
  assert (length (ldt c0) = 3%nat) as Hl0.
  { change (length (ldt (sans_files t1)) = 3%nat). by rewrite Hs1. }
  constructor; cbn -[get_base set_base]; auto; try (repeat split; reflexivity).
  rewrite <- Hbase. clearbody c0. exact (rebase_ldt base c0 Hr Hl0).
Qed.

(** C29: [copy_process]: either it returns -EAGAIN and slot [nr] is empty again, or
    it returns the number of the new process and the child in slot [nr] is
    runnable, has that number and the caller as father, the caller's identity,
    signal actions and priority, a fresh counter, no pending signal, no alarm, no
    accumulated times and no session leadership, will return 0 from [fork] at
    the caller's instruction and stack pointers, and has its code and data at
    its own 64 Mb of the address space.  No other task changes, but for the
    counts of files and inodes. *)
Theorem copy_process_child nr r fpu k t :
  (nr < NR_TASKS)%nat -> length (task k) = NR_TASKS -> nr <> current k ->
  slot k nr = None -> slot k (current k) = Some t -> length (ldt t) = 3%nat -> flat t ->
  wp (copy_process nr r fpu) (fun res k' =>
    (forall i, i <> nr -> sans_files <$> slot k' i = sans_files <$> slot k i) /\
    current k' = current k /\
    (res = - EAGAIN /\ slot k' nr = None \/
     res = last_pid k /\ exists c, slot k' nr = Some c /\ child_of k nr r t c)) k.
Proof.
  intros Hnr Hlen Hne Hempty Ht Hldt Hflat. unfold copy_process.
  apply wp_bind, wp_quiet; [auto with quiet|]. intros p k1 H1.
  destruct (same_tasks_slot _ _ _ _ H1 Ht) as (t1 & Ht1 & Hs1).
  assert (slot k1 nr = None) as He1.
  { destruct H1 as (H1 & _). specialize (H1 nr). rewrite Hempty in H1. by destruct (slot k1 nr). }
  destruct (truth p); cbn [negb]; [|apply wp_ret; split; [intros i _; apply H1|]; split; [apply H1|by left]].
  apply wp_bind, wp_get, wp_bind. eapply wp_cur.
  { destruct H1 as (_ & _ & -> & _). exact Ht1. }
  apply wp_bind, wp_modify. pose proof (forked_start k nr (child k1 t1 p nr r fpu) k1 ltac:(lia) H1) as Hk2.
  apply wp_bind. eapply wp_mono; [by eapply copy_mem_forked|]. intros e k3 [Hk3 He].
  destruct (truth e).
  - apply wp_bind, wp_modify, wp_bind. pose proof (forked_undo k nr _ k3 ltac:(lia) Hk3) as Hk4.
    eapply wp_forked; [auto with quiet|exact Hk4|]. intros _ k5 (A1 & A2 & A3 & A4 & A5).
    apply wp_ret. split; [done|]. split; [done|]. left. split; [done|]. by destruct (slot k5 nr).
  - apply wp_bind. destruct (forked_slot _ _ _ _ Hk3) as (c3 & Hc3 & Hs3).
    eapply wp_get_task; [exact Hc3|].
    apply wp_bind. eapply forked_for_each; [exact Hk3|]. clear k3 Hk3 c3 Hc3 Hs3. intros k3 Hk3.
    apply wp_bind. pose proof Hk3 as (A1 & _ & _ & A4 & _).
    specialize (A1 (current k) ltac:(done)). rewrite Ht in A1.
    destruct (slot k3 (current k)) as [t3|] eqn:Ht3; [|done].
    eapply wp_cur; [by rewrite A4|].
    do 3 (apply wp_bind; eapply forked_inc; [eassumption|]; intros ? ?).
    do 2 (apply wp_bind; eapply wp_forked; [auto with quiet|eassumption|]; intros ? ? ?).
    apply wp_bind. eapply wp_mono; [eapply (forked_mod _ _ _ _ (fun t => t <| t_state := TASK_RUNNING |>)); [|eassumption]|].
    { intros u u' Hu. destruct u, u'. injection Hu; intros; by subst. }
    intros [] k9 Hk9. apply wp_gets. pose proof Hk9 as (B1 & _ & _ & B4 & B5).
    split; [done|]. split; [done|]. right. split; [done|].
    destruct (forked_slot _ _ _ _ Hk9) as (c & Hc & Hsc). exists c. split; [done|].
    eapply (child_of_child k nr r fpu t k1 t1 p c); [apply u32_range| |apply H1|exact Hldt|exact Hs1|exact Hsc].
    apply u32_id. unfold NR_TASKS in Hnr. lia.
Qed.
End Child.

(** ** [verify_area] *)
Section Verify.
Context {S : Services}.

(** [n] pages from [start]. *)
Definition pages (n : nat) (start : Z) : list Z := map (fun i => start + 4096 * Z.of_nat i) (seq 0 n).

Lemma pages_succ n start : pages (Datatypes.S n) start = start :: pages n (start + 4096).
Proof.
  unfold pages. cbn [seq map]. f_equal; [lia|]. rewrite <- seq_shift, map_map.
  apply map_ext. intros i. lia.
Qed.

Lemma verify_loop n : forall fuel size start k,
  4096 * (Z.of_nat n - 1) < size <= 4096 * Z.of_nat n ->
  0 <= start -> start + 4096 * Z.of_nat n <= 2 ^ 32 -> (n < fuel)%nat ->
  loop fuel (fun '(size, start) =>
       if 0 <? size
       then write_verify start ;;; ret (inl (size - 4096, u32 (start + 4096)))
       else ret (inr tt)) (size, start) k
  = for_each (pages n start) write_verify k.
Proof.
  induction n as [|n IH]; intros fuel size start k Hs H0 Hmax Hf; (destruct fuel as [|fuel]; [lia|]);
    cbn [loop]; unfold bind.
  - destruct (Z.ltb_spec 0 size); [lia|]. done.
  - destruct (Z.ltb_spec 0 size); [|lia]. rewrite pages_succ. cbn [for_each]. unfold bind.
    destruct (write_verify start k) as [[] k1| | |]; try done. cbn [ret].
    destruct (decide (n = O)) as [->|Hn].
    + destruct fuel as [|fuel]; [lia|]. cbn [loop]. unfold bind, ret.
      destruct (Z.ltb_spec 0 (size - 4096)); [lia|]. done.
    + rewrite u32_id by lia. apply IH; lia.
Qed.

(** [verify_area] hands to [write_verify] exactly the pages that the bytes
    [addr] to [addr + size - 1] of the user's data segment lie in, each once and
    in increasing order, and its loop ends. *)
Theorem verify_area_pages addr size k t :
  slot k (current k) = Some t -> get_base (nth_ldt t 2) mod 4096 = 0 ->
  0 <= addr -> 0 < size -> 0 <= get_base (nth_ldt t 2) ->
  get_base (nth_ldt t 2) + addr + size + 4096 <= 2 ^ 32 ->
  exists l, verify_area addr size k = for_each l write_verify k /\ NoDup l /\
    forall a, a ∈ l <->
      exists j, 0 <= j < size /\ a = (get_base (nth_ldt t 2) + addr + j) / 4096 * 4096.
Proof.
  intros Ht Hal Ha Hs Hb Hmax. set (base := get_base (nth_ldt t 2)) in *.
  set (off := addr mod 4096). set (n := Z.to_nat ((size + off + 4095) / 4096)).
  assert (0 <= off < 4096) as Hoff by (apply Z.mod_pos_bound; lia).
  assert (Z.of_nat n = (size + off + 4095) / 4096) as Hn by (apply Z2Nat.id, Z.div_pos; lia).
  exists (pages n (addr - off + base)). split; [|split].
  - unfold verify_area, cur, bind at 1, bind at 1, get at 1, get_task, bind, get, deref.
    rewrite Ht. cbn [ret]. fold base.
    assert (u32 addr = addr) as -> by (apply u32_id; lia).
    assert (Z.land addr 4095 = off) as ->.
    { change 4095 with (Z.ones 12). rewrite Z.land_ones by lia. done. }
    assert (Z.land addr 4294963200 = addr - off) as ->.
    { change 4294963200 with (Z.shiftl (Z.ones 20) 12).
      transitivity (Z.shiftl (Z.shiftr addr 12) 12).
      - apply (bits_below 32); [lia|intros b Hb'..|intros b Hb'].
        + rewrite Z.land_spec, (testbit_above 32 addr b) by lia. done.
        + rewrite Z.shiftl_spec, Z.shiftr_spec by lia. apply (testbit_above 32); lia.
        + assert (b < 12 \/ 12 <= b) as [H|H] by lia; one_bit.
      - rewrite Z.shiftl_mul_pow2, Z.shiftr_div_pow2 by lia. change (2 ^ 12) with 4096.
        unfold off. dlia. }
    rewrite u32_id by (unfold off in *; dlia).
    apply verify_loop; [dlia|unfold off in *; dlia|unfold off in *; dlia|].
    rewrite Z.shiftr_div_pow2 by lia. change (2 ^ 12) with 4096.
    apply Nat.lt_succ_r. unfold n. apply Nat.le_refl.
  - unfold pages. apply NoDup_fmap_2; [intros i j E; lia|apply NoDup_seq].
  - intros a. unfold pages. rewrite list_elem_of_fmap. split.
    + intros (i & -> & Hi). apply elem_of_seq in Hi.
      exists (if decide (i = O) then 0 else 4096 * Z.of_nat i - off).
      case_decide; subst; [unfold off; dlia|]. split; [dlia|]. unfold off. dlia.
    + intros (j & Hj & ->). exists (Z.to_nat ((off + j) / 4096)).
      assert (0 <= (off + j) / 4096) by (apply Z.div_pos; lia).
      rewrite Z2Nat.id by lia. split; [unfold off; dlia|]. apply elem_of_seq.
      split; [lia|]. cbn. apply Nat2Z.inj_lt. rewrite Z2Nat.id, Hn by lia. dlia.
Qed.
End Verify.

(** When [verify_area] returns it has left the tasks alone. *)
Lemma spares_verify_area {S : Services} {F : ServicesFrames S} addr size : spares (verify_area addr size).
Proof.
  intros k [] k'. unfold verify_area, bind at 1. destruct (cur k) as [t k1| | |] eqn:Ec; [|done..].
  assert (k1 = k) as -> by (by destruct (slot k (current k)) as [u|] eqn:Eu;
    [rewrite (cur_run k u Eu) in Ec|unfold cur, get_task, bind, get, deref in Ec; rewrite Eu in Ec]; simplify_eq).
  clear Ec. generalize (Datatypes.S (Z.to_nat (Z.shiftr (size + Z.land (u32 addr) 4095 + 4095) 12))) as fuel.
  generalize (size + Z.land (u32 addr) 4095) as n, (u32 (Z.land (u32 addr) 4294963200 + get_base (nth_ldt t 2))) as start.
  intros n start fuel. revert n start k. induction fuel as [|fuel IH]; intros n start k; [done|]. cbn [loop]. unfold bind.
  destruct (0 <? n); cbn [ret]; [|by intros [= <-]].
  destruct (write_verify start k) as [[] k1| | |] eqn:E; [|done..]. cbn [ret]. intros H.
  destruct (IH _ _ _ H) as [-> ->]. exact (spares_write_verify start k tt k1 E).
Qed.

(** ** Witnesses *)
Lemma find_empty_process_ok_witness :
  wp find_empty_process (fun r k' =>
    (last_pid k' ∉ pids (task boot_kernel)) /\
    ((exists i, r = Z.of_nat i /\ task boot_kernel !! i = Some None) \/ r = - EAGAIN)) boot_kernel.
Proof.
  eapply wp_mono; [apply (find_empty_process_ok boot_kernel); [reflexivity|split; [discriminate|reflexivity]]|].
  intros r k' (_ & _ & Hp & [(i & Hr & _ & Hi)|[Hr _]]).
  - split; [exact Hp|]. left. by exists i.
  - split; [exact Hp|by right].
Defined.

Definition some_regs : regs := mk_regs 0 0 0 23 0 0 0 23 23 23 4096 15 512 8192 23.
Lemma copy_process_child_witness :
  wp (copy_process (S := idle_services) 1 some_regs 0) (fun res k' =>
    current k' = O /\ (res = - EAGAIN \/ res = 0)) boot_kernel.
Proof.
  eapply wp_mono.
  - apply (copy_process_child (S := idle_services) 1 some_regs 0 boot_kernel INIT_TASK);
      [unfold NR_TASKS; lia | reflexivity | discriminate | reflexivity | reflexivity | reflexivity |].
    vm_compute. split; [reflexivity|discriminate].
  - intros res k' (_ & Hc & [[-> _]|[-> _]]); split; auto.
Defined.
Lemma verify_area_pages_witness :
  exists l, verify_area (S := idle_services) 4090 10 boot_kernel =
              for_each l (write_verify (Services := idle_services)) boot_kernel /\ NoDup l /\ 4096 ∈ l.
Proof.
  destruct (verify_area_pages (S := idle_services) 4090 10 boot_kernel INIT_TASK) as (l & H1 & H2 & H3);
    [reflexivity | reflexivity | discriminate | reflexivity | discriminate | vm_compute; discriminate |].
  exists l. split; [exact H1|]. split; [exact H2|]. apply H3. exists 6. split; [split; [discriminate|reflexivity]|reflexivity].
Defined.

End Fork.
