(* ===== verification/Exit.v ===== *)
(** * Exit: [kernel/exit.c]

    Sending signals, the end of a process and waiting for it. *)
From S2P Require Import Prelude Console Task Sched Services Fork.
Import Sched Fork.

Module Exit.

Definition WNOHANG : Z := 1.
Definition WUNTRACED : Z := 2.

Section Exit.
Context {S : Services}.

(** [release(p)]: the slot is searched for from 1 on; slot 0 and an empty slot are
    never found. *)
Definition release (p : option nat) : M kernel unit :=
  match p with
  | None => ret tt
  | Some i =>
      k <- get ;;
      match slot k i with
      | Some t =>
          if Nat.eqb i 0 then panic "trying to release non-existent task" else
          modify (fun k => k <| task ::= <[i := None]> |>) ;;;
          free_page (page_addr t) ;;;
          reschedule others
      | None => panic "trying to release non-existent task"
      end
  end.

(** [send_sig(sig,p,priv)], [p] a slot of the task table *)
Definition send_sig (sig : Z) (p : nat) (priv : bool) : M kernel Z :=
  k <- get ;;
  match slot k p with
  | None => ret (- EINVAL)
  | Some t =>
      if (sig <? 1) || (32 <? sig) then ret (- EINVAL) else
      c <- cur ;;
      if priv || (euid c =? euid t) || (euid c =? 0)
      then put_task p (t <| signal := Z.lor (signal t) (sigbit sig) |>) ;;; ret 0
      else ret (- EPERM)
  end.

Definition kill_session : M kernel unit :=
  c <- cur ;;
  modify (fun k => k <| task ::= all_but_first (fun t =>
    if session t =? session c then t <| signal := Z.lor (signal t) (sigbit SIGHUP) |> else t) |>).

(** The loops of [sys_kill] from slot [n] down to slot 1, over the tasks that [sel]
    selects; the last error is kept. *)
Fixpoint kill_where (sel : task_struct -> bool) (priv : bool) (sig : Z) (n : nat) (retval : Z) :
    M kernel Z :=
  match n with
  | O => ret retval
  | Datatypes.S m =>
      k <- get ;;
      err <- (match slot k n with
              | Some t => if sel t then send_sig sig n priv else ret 0
              | None => ret 0
              end) ;;
      kill_where sel priv sig m (if truth err then err else retval)
  end.
(** The branch for [pid == -1].  The [else] before the last loop of the source
    belongs to the [if] inside this one: after the first signal that could be sent
    the process group loop runs over the remaining slots. *)
Fixpoint kill_every (pid sig : Z) (n : nat) (retval : Z) : M kernel Z :=
  match n with
  | O => ret retval
  | Datatypes.S m =>
      err <- send_sig sig n false ;;
      if truth err then kill_every pid sig m err
      else kill_where (fun t => pgrp t =? - pid) false sig m retval
  end.
Definition sys_kill (pid sig : Z) : M kernel Z :=
  c <- cur ;;
  let last := (NR_TASKS - 1)%nat in
  if negb (truth pid) then kill_where (fun t => pgrp t =? Task.pid c) true sig last 0
  else if 0 <? pid then kill_where (fun t => Task.pid t =? pid) false sig last 0
  else if pid =? -1 then kill_every pid sig last 0
  else ret 0.

(** The first slot, from slot [i] on, with the process number [p]. *)
Fixpoint find_pid (l : list (option task_struct)) (p : Z) (i : nat) : option nat :=
  match l with
  | [] => None
  | Some t :: l' => if pid t =? p then Some i else find_pid l' p (Datatypes.S i)
  | None :: l' => find_pid l' p (Datatypes.S i)
  end.
Definition tell_father (p : Z) : M kernel unit :=
  k <- get ;;
  match (if truth p then find_pid (task k) p 0 else None) with
  | Some i => mod_task i (fun t => t <| signal := Z.lor (signal t) (sigbit SIGCHLD) |>)
  | None => (* "BAD BAD - no father found" *) release (Some (current k))
  end.

(** The loop of [do_exit] over the children. *)
Definition orphan (i : nat) : M kernel unit :=
  k <- get ;;
  c <- cur ;;
  match slot k i with
  | Some t =>
      if father t =? pid c then
        put_task i (t <| father := 1 |>) ;;;
        (if t_state t =? TASK_ZOMBIE then send_sig SIGCHLD 1 true ;;; ret tt else ret tt)
      else ret tt
  | None => ret tt
  end.
Definition close_fd (i : nat) : M kernel unit :=
  c <- cur ;;
  match mjoin (filp c !! i) with Some _ => sys_close (Z.of_nat i) ;;; ret tt | None => ret tt end.

(** What [do_exit] gives back: files, inodes, the terminal, the coprocessor and
    the session. *)
Definition drop_resources : M kernel unit :=
  for_each (seq 0 NR_OPEN) close_fd ;;;
  c <- cur ;; iput (pwd c) ;;; mod_cur (fun t => t <| pwd := None |>) ;;;
  c <- cur ;; iput (root c) ;;; mod_cur (fun t => t <| root := None |>) ;;;
  c <- cur ;; iput (executable c) ;;; mod_cur (fun t => t <| executable := None |>) ;;;
  c <- cur ;;
  when (truth (leader c) && (0 <=? tty c))
    (modify (fun k => k <| tty_table ::= alter (fun y => y <| tty_pgrp := 0 |>) (Z.to_nat (tty c)) |>)) ;;;
  k <- get ;;
  when (bool_decide (last_task_used_math k = Some (current k)))
    (modify (fun k => k <| last_task_used_math := None |>)) ;;;
  when (truth (leader c)) kill_session.

(** [do_exit] up to its call of [schedule]. *)
Definition exit_task (code : Z) : M kernel unit :=
  c <- cur ;;
  free_page_tables (get_base (nth_ldt c 1)) (get_limit (nth_ldt c 1)) ;;;
  c <- cur ;;
  free_page_tables (get_base (nth_ldt c 2)) (get_limit (nth_ldt c 2)) ;;;
  for_each (seq 0 NR_TASKS) orphan ;;;
  drop_resources ;;;
  mod_cur (fun t => t <| t_state := TASK_ZOMBIE |> <| exit_code := code |>) ;;;
  c <- cur ;;
  tell_father (father c).
(** The last [schedule] does not come back: the zombie is never run again. *)
Definition do_exit (code : Z) : M kernel Z := exit_task code ;;; schedule ;;; ret (-1).
Definition sys_exit (error_code : Z) : M kernel Z := do_exit (Z.shiftl (Z.land error_code 255) 8).

(** ** Waiting *)

(** Which children [waitpid(p)] of the task [c] is about. *)
Definition wanted (c : task_struct) (p : Z) (t : task_struct) : bool :=
  (father t =? pid c) &&
  (if 0 <? p then pid t =? p
   else if p =? 0 then pgrp t =? pgrp c
   else if negb (p =? -1) then pgrp t =? - p else true).
(** What the search over the tasks from slot [n] down finds: a stopped child, a
    zombie, or whether there are others. *)
Inductive wait_result : Type :=
  | Stopped (i : nat) | Zombie (i : nat) | Neither (flag : bool).
Fixpoint wait_scan (k : kernel) (c : task_struct) (p options : Z) (n : nat) (flag : bool) : wait_result :=
  match n with
  | O => Neither flag
  | Datatypes.S m =>
      match slot k n with
      | None => wait_scan k c p options m flag
      | Some t =>
          if Nat.eqb n (current k) || negb (wanted c p t) then wait_scan k c p options m flag
          else if t_state t =? TASK_STOPPED then
            if truth (Z.land options WUNTRACED) then Stopped n
            else wait_scan k c p options m flag
          else if t_state t =? TASK_ZOMBIE then Zombie n
          else wait_scan k c p options m true
      end
  end.
Definition wait_round (p stat_addr options : Z) : M kernel (unit + Z) :=
  k <- get ;;
  c <- cur ;;
  match wait_scan k c p options (NR_TASKS - 1) false with
  | Stopped i =>
      t <- get_task i ;; put_fs_long 127 stat_addr ;;; ret (inr (pid t))
  | Zombie i =>
      t <- get_task i ;;
      mod_cur (fun c => c <| cutime := i32 (cutime c + utime t) |>
                          <| cstime := i32 (cstime c + stime t) |>) ;;;
      release (Some i) ;;;
      put_fs_long (exit_code t) stat_addr ;;;
      ret (inr (pid t))
  | Neither flag =>
      if flag : bool then
        if truth (Z.land options WNOHANG) then ret (inr 0) else
        mod_cur (fun t => t <| t_state := TASK_INTERRUPTIBLE |>) ;;;
        reschedule others ;;;
        mod_cur (fun t => t <| signal := Z.land (signal t) (Z.lnot (sigbit SIGCHLD)) |>) ;;;
        c <- cur ;;
        if truth (signal c) then ret (inr (- EINTR)) else ret (inl tt)
      else ret (inr (- ECHILD))
  end.
Definition sys_waitpid (fuel : nat) (p stat_addr options : Z) : M kernel Z :=
  verify_area stat_addr 4 ;;;
  loop fuel (fun _ : unit => wait_round p stat_addr options) tt.
End Exit.

(** ** [kill] *)

(** May the task [c] signal the task [t]? *)
Definition may_signal (priv : bool) (c t : task_struct) : bool :=
  priv || (euid c =? euid t) || (euid c =? 0).
(** The effect of a signal on a task that [sel] selects. *)
Definition deliver (sel : task_struct -> bool) (priv : bool) (c : task_struct) (sig : Z) (t : task_struct) :
    task_struct :=
  if sel t && may_signal priv c t then t <| signal := Z.lor (signal t) (sigbit sig) |> else t.

Lemma send_sig_run sig p priv k t c :
  1 <= sig <= 32 -> slot k p = Some t -> slot k (current k) = Some c ->
  send_sig sig p priv k =
    (if may_signal priv c t
     then Done 0 (k <| task ::= <[p := Some (t <| signal := Z.lor (signal t) (sigbit sig) |>)]> |>)
     else Done (- EPERM) k).
Proof.
  intros Hs Ht Hc. unfold send_sig, bind at 1, get. rewrite Ht.
  destruct (Z.ltb_spec sig 1), (Z.ltb_spec 32 sig); try lia. cbn [orb].
  unfold cur, get_task, bind, get. cbn. rewrite Hc. cbn.
  unfold may_signal. by destruct (priv || (euid c =? euid t) || (euid c =? 0)).
Qed.

(** One round of [kill_where]: a task selected gets the signal, or the caller may not send it. *)
Definition refused (sel : task_struct -> bool) (priv : bool) (c : task_struct) (k : kernel) (i : nat) : bool :=
  match slot k i with Some t => sel t && negb (may_signal priv c t) | None => false end.
Lemma kill_one_run (sel : task_struct -> bool) priv sig k c i : 1 <= sig <= 32 -> slot k (current k) = Some c -> (i < length (task k))%nat ->
  exists k', (match slot k i with Some t => if sel t then send_sig sig i priv else ret 0 | None => ret 0 end) k =
      Done (if refused sel priv c k i then - EPERM else 0) k' /\
    k' = k <| task := task k' |> /\ length (task k') = length (task k) /\
    (forall j, slot k' j = if decide (j = i) then deliver sel priv c sig <$> slot k j else slot k j).
Proof.
  intros Hs Hc Hi. unfold refused.
  assert (forall j, (forall t, slot k i = Some t -> deliver sel priv c sig t = t) ->
    slot k j = if decide (j = i) then deliver sel priv c sig <$> slot k j else slot k j) as Hsame.
  { intros j Hj. case_decide as E; [|done]. subst j. destruct (slot k i) as [t|]; [|done]. cbn. by rewrite Hj. }
  destruct (slot k i) as [t|] eqn:Et.
  2:{ exists k. split; [done|]. split; [by destruct k|]. split; [done|]. intros j. by apply Hsame. }
  destruct (sel t) eqn:Esel.
  2:{ exists k. split; [done|]. split; [by destruct k|]. split; [done|]. intros j. apply Hsame. intros u [= <-]. unfold deliver. by rewrite Esel. }
  rewrite (send_sig_run _ _ _ _ t c) by done. destruct (may_signal priv c t) eqn:Em; cbn [negb andb].
  - eexists. split; [reflexivity|]. split; [by destruct k|]. split; [cbn; by rewrite length_insert|].
    intros j. rewrite slot_upd by lia. destruct (decide (i = j)) as [<-|]; [|by rewrite decide_False by done].
    rewrite decide_True by done. rewrite Et. cbn. unfold deliver. by rewrite Esel, Em.
  - exists k. split; [done|]. split; [by destruct k|]. split; [done|]. intros j. apply Hsame. intros u [= <-]. unfold deliver. by rewrite Em, andb_false_r.
Qed.
Lemma may_signal_euid priv c c' t : euid c' = euid c -> may_signal priv c' t = may_signal priv c t.
Proof. intros E. unfold may_signal. by rewrite E. Qed.
Lemma refused_kept sel priv c c' k k' l : euid c' = euid c -> (forall i, i ∈ l -> slot k' i = slot k i) ->
  existsb (refused sel priv c' k') l = existsb (refused sel priv c k) l.
Proof.
  intros Ee. induction l as [|i l IH]; intros Hl; [done|]. cbn [existsb]. rewrite IH by (intros; apply Hl; by right). f_equal.
  unfold refused. rewrite Hl by left. destruct (slot k i); [|done]. by rewrite (may_signal_euid priv c c').
Qed.
Lemma kill_where_run sel priv sig n : forall k c retval,
  1 <= sig <= 32 -> slot k (current k) = Some c -> (n < length (task k))%nat ->
  exists k', kill_where sel priv sig n retval k =
      Done (if existsb (refused sel priv c k) (seq 1 n) then - EPERM else retval) k' /\
    k' = k <| task := task k' |> /\ length (task k') = length (task k) /\
    (forall i, slot k' i = if decide (1 <= i <= n)%nat then deliver sel priv c sig <$> slot k i else slot k i).
Proof.
  induction n as [|n IH]; intros k c retval Hs Hc Hn.
  { exists k. split; [done|]. split; [by destruct k|]. split; [done|].
    intros i. rewrite decide_False by lia. done. }
  cbn [kill_where]. unfold bind at 1, get.
  destruct (kill_one_run sel priv sig k c (Datatypes.S n) Hs Hc Hn) as (k1 & Em & Hk1 & Hl1 & Hs1).
  unfold bind. rewrite Em. set (b := refused sel priv c k (Datatypes.S n)).
  assert (exists c1, slot k1 (current k1) = Some c1 /\ euid c1 = euid c) as (c1 & Hc1 & He1).
  { rewrite Hs1. rewrite Hk1. cbn [current upd upd_task].
    case_decide; rewrite Hc; cbn; [|by exists c]. eexists. split; [reflexivity|].
    unfold deliver. by destruct (sel c && may_signal priv c c). }
  destruct (IH k1 c1 (if truth (if b then - EPERM else 0) then if b then - EPERM else 0 else retval))
    as (k' & E & Hk' & Hl' & Hs'); [done|done|lia|].
  exists k'. rewrite E. split; [|split; [rewrite Hk', Hk1; by destruct k|split; [congruence|]]].
  - f_equal. rewrite seq_S, existsb_app. cbn [existsb]. rewrite orb_false_r.
    change (1 + n)%nat with (Datatypes.S n). fold b. rewrite (refused_kept sel priv c c1 k k1).
    + clear -b. clearbody b. by destruct b, (existsb _ _).
    + done.
    + intros i Hi%elem_of_seq. rewrite Hs1. by rewrite decide_False by lia.
  - intros i. rewrite Hs', Hs1.
    assert (forall t, deliver sel priv c1 sig t = deliver sel priv c sig t) as Hd
      by (intros t; unfold deliver; by rewrite (may_signal_euid priv c c1)).
    repeat case_decide; try lia; try done. destruct (slot k i); cbn; [by rewrite Hd|done].
Qed.

Section Kill.
Context {S : Services}.

(** [kill(pid, sig)] with a positive [pid] and a valid signal sends it to
    exactly the tasks with that number, other than the idle task, that have the
    caller's effective user or whose sender is the superuser; the result is -EPERM
    if one of them may not be signalled, and 0 otherwise, even when there is no
    such task. *)
Theorem sys_kill_pid p sig k c :
  0 < p -> 1 <= sig <= 32 -> slot k (current k) = Some c -> length (task k) = NR_TASKS ->
  wp (sys_kill p sig) (fun r k' =>
    (r = 0 \/ r = - EPERM) /\
    (r = - EPERM <-> exists i t, (1 <= i < NR_TASKS)%nat /\ slot k i = Some t /\ pid t = p /\
       may_signal false c t = false) /\
    k' = k <| task := task k' |> /\
    (forall i, slot k' i =
       if decide (1 <= i < NR_TASKS)%nat
       then deliver (fun t => pid t =? p) false c sig <$> slot k i else slot k i)) k.
Proof.
  intros Hp Hs Hc Hlen. unfold sys_kill. apply wp_bind. eapply wp_cur; [exact Hc|].
  replace (truth p) with true by (unfold truth; lia). cbn [negb].
  destruct (Z.ltb_spec 0 p); [|lia].
  destruct (kill_where_run (fun t => pid t =? p) false sig (NR_TASKS - 1) k c 0) as (k' & E & Hk' & Hl & Hsl);
    [done|done|rewrite Hlen; unfold NR_TASKS; lia|].
  unfold wp. rewrite E. split; [by destruct (existsb _ _); [right|left]|]. split; [|split; [done|]].
  - transitivity (existsb (fun i => match slot k i with
      | Some t => (pid t =? p) && negb (may_signal false c t) | None => false end) (seq 1 (NR_TASKS - 1)) = true).
    { destruct (existsb _ _); unfold EPERM; split; done || lia. }
    rewrite existsb_exists. split.
    + intros (i & Hi & Ht). apply list_elem_of_In, elem_of_seq in Hi.
      destruct (slot k i) as [t|] eqn:Et; [|done]. exists i, t.
      split; [unfold NR_TASKS in *; lia|]. split; [done|]. apply andb_true_iff in Ht as [H1 H2].
      split; [lia|by destruct (may_signal false c t)].
    + intros (i & t & Hi & Et & Hpid & Hm). exists i. split.
      * apply list_elem_of_In, elem_of_seq. unfold NR_TASKS in *. lia.
      * rewrite Et, Hm, Hpid, Z.eqb_refl. done.
  - intros i. rewrite Hsl. repeat case_decide; try done; unfold NR_TASKS in *; lia.
Qed.

(** [kill] with a process group, a [pid] below -1, does nothing at all and
    reports success: the [else] that should introduce this case belongs to the
    [if] inside the loop of the case -1. *)
Theorem sys_kill_group_ignored p sig k c :
  p < -1 -> slot k (current k) = Some c -> sys_kill p sig k = Done 0 k.
Proof.
  intros Hp Hc. unfold sys_kill, cur, get_task, bind, get, deref. rewrite Hc. cbn [ret].
  replace (truth p) with true by (unfold truth; lia). cbn [negb].
  destruct (Z.ltb_spec 0 p), (Z.eqb_spec p (-1)); try lia. done.
Qed.
End Kill.

(** ** [exit] *)
Section Exit_correct.
Context {S : Services} {F : ServicesFrames S}.

(** The children of process [p] get task 1 as their father, and task 1 is told
    when one of them is a zombie. *)
Definition adopt (p : Z) (t : task_struct) : task_struct :=
  if father t =? p then t <| father := 1 |> else t.
Definition zombie_child (k : kernel) (p : Z) (i : nat) : bool :=
  match slot k i with Some t => (father t =? p) && (t_state t =? TASK_ZOMBIE) | None => false end.
Definition told (b : bool) (i : nat) (t : task_struct) : task_struct :=
  if b && Nat.eqb i 1 then t <| signal := Z.lor (signal t) (sigbit SIGCHLD) |> else t.
(** The state of the loop over the children when the slots below [n] are done. *)
Definition adopted (k : kernel) (p : Z) (n : nat) (k' : kernel) : Prop :=
  k' = k <| task := task k' |> /\ length (task k') = length (task k) /\
  forall i, slot k' i = told (existsb (zombie_child k p) (seq 0 n)) i <$>
    (if decide (i < n)%nat then adopt p <$> slot k i else slot k i).

Lemma told_told b b' i t : told b i (told b' i t) = told (b' || b) i t.
Proof.
  unfold told. destruct (Nat.eqb i 1); [|by rewrite !andb_false_r]. destruct b, b'; try done. cbn.
  by rewrite <- Z.lor_assoc, Z.lor_diag.
Qed.
Lemma told_fields b i t :
  pid (told b i t) = pid t /\ father (told b i t) = father t /\ t_state (told b i t) = t_state t.
Proof. unfold told. by destruct (b && Nat.eqb i 1). Qed.
Lemma told_father b i t x : (told b i t) <| father := x |> = told b i (t <| father := x |>).
Proof. unfold told. by destruct (b && Nat.eqb i 1). Qed.
Lemma adopt_pid p t : pid (adopt p t) = pid t.
Proof. unfold adopt. by destruct (father t =? p). Qed.

(** Telling task 1, whether there is one or not. *)
Lemma send_sig_told k c :
  slot k (current k) = Some c -> exists r k', send_sig SIGCHLD 1 true k = Done r k' /\
    k' = k <| task := task k' |> /\ length (task k') = length (task k) /\
    forall i, slot k' i = told true i <$> slot k i.
Proof.
  intros Hc. destruct (slot k 1) as [t|] eqn:Ht.
  - rewrite (send_sig_run _ _ _ _ t c) by (done || (split; discriminate)). eexists 0, _. split; [reflexivity|].
    split; [by destruct k|]. split; [cbn; by rewrite length_insert|]. intros i.
    rewrite slot_upd by (by eapply slot_length). case_decide as E; [subst i; by rewrite Ht|].
    unfold told. replace (Nat.eqb i 1) with false by (symmetry; apply Nat.eqb_neq; congruence).
    cbn. by destruct (slot k i).
  - exists (- EINVAL), k. unfold send_sig, bind, get. rewrite Ht. split; [done|]. split; [by destruct k|].
    split; [done|]. intros i. destruct (Nat.eqb_spec i 1) as [->|E]; [by rewrite Ht|].
    unfold told. rewrite (proj2 (Nat.eqb_neq _ _) E). by destruct (slot k i).
Qed.

Lemma adopted_current k p n k' c :
  slot k (current k) = Some c -> adopted k p n k' -> exists c', slot k' (current k') = Some c' /\ pid c' = pid c.
Proof.
  intros Hc (Ek & _ & Hs). assert (current k' = current k) as -> by (rewrite Ek; done). rewrite Hs, Hc.
  case_decide; cbn; (eexists; split; [reflexivity|]); by rewrite (proj1 (told_fields _ _ _)), ?adopt_pid.
Qed.

(** One slot of the loop that is not the slot of a child. *)
Lemma adopted_skip k p n k' : zombie_child k p n = false -> (forall t, slot k n = Some t -> father t <> p) ->
  adopted k p n k' -> adopted k p (Datatypes.S n) k'.
Proof.
  intros Hz Hf (Ek & El & Hs). split; [done|]. split; [done|]. intros i. rewrite Hs, seq_S, existsb_app. cbn [existsb plus].
  rewrite Hz, !orb_false_r. f_equal. repeat case_decide; try lia; try done. replace i with n by lia.
  destruct (slot k n) as [t|] eqn:Et; [|done]. cbn. unfold adopt. by rewrite (proj2 (Z.eqb_neq _ _) (Hf t eq_refl)).
Qed.
(** One slot with a child, [b] telling whether it is a zombie. *)
Lemma adopted_child k p n k' k2 t (b : bool) : zombie_child k p n = b -> slot k n = Some t -> father t = p ->
  adopted k p n k' -> k2 = k' <| task := task k2 |> -> length (task k2) = length (task k') ->
  (forall i, slot k2 i = told b i <$> (if decide (n = i) then (fun t => t <| father := 1 |>) <$> slot k' n else slot k' i)) ->
  adopted k p (Datatypes.S n) k2.
Proof.
  intros Hz Ht Hf (Ek & El & Hs) Ek2 El2 Hs2. split; [rewrite Ek2, Ek; by destruct k|]. split; [congruence|].
  intros i. rewrite Hs2, seq_S, existsb_app. cbn [existsb plus]. rewrite Hz, orb_false_r.
  assert (forall o : option task_struct, told b i <$> (told (existsb (zombie_child k p) (seq 0 n)) i <$> o) =
    told (existsb (zombie_child k p) (seq 0 n) || b) i <$> o) as Htt.
  { intros [u|]; [|done]. cbn. by rewrite told_told. }
  rewrite <- Htt. f_equal. rewrite !Hs. destruct (decide (n = i)) as [<-|Hni].
  - rewrite decide_False, decide_True by lia. rewrite Ht. cbn. rewrite told_father. unfold adopt. by rewrite Hf, Z.eqb_refl.
  - f_equal. repeat case_decide; try lia; done.
Qed.

Lemma orphan_step k p n k' c :
  slot k (current k) = Some c -> pid c = p -> adopted k p n k' ->
  exists k'', orphan n k' = Done tt k'' /\ adopted k p (Datatypes.S n) k''.
Proof.
  intros Hc Hp Ha. pose proof Ha as (_ & _ & Hs). destruct (adopted_current k p n k' c Hc Ha) as (c' & Hc' & Hp').
  unfold orphan. unfold bind at 1, get at 1. unfold bind at 1. rewrite (cur_run k' c' Hc'), Hp', Hp.
  pose proof (Hs n) as Hn. rewrite decide_False in Hn by lia. rewrite Hn.
  destruct (slot k n) as [t|] eqn:Ht; cbn [fmap option_fmap option_map].
  2:{ exists k'. split; [done|]. apply adopted_skip; [by unfold zombie_child; rewrite Ht| |done]. intros u. by rewrite Ht. }
  destruct (told_fields (existsb (zombie_child k p) (seq 0 n)) n t) as (_ & -> & ->).
  destruct (Z.eqb_spec (father t) p) as [Hf|Hf].
  2:{ exists k'. split; [done|]. apply adopted_skip; [|intros u; rewrite Ht; by intros [= <-]|done].
      unfold zombie_child. by rewrite Ht, (proj2 (Z.eqb_neq _ _) Hf). }
  cbn [fmap option_fmap option_map] in Hn. pose proof (slot_length _ _ _ Hn) as Hl.
  set (t2 := _ <| father := 1 |>). set (k2 := k' <| task ::= <[n := Some t2]> |>).
  assert (forall i, slot k2 i = if decide (n = i) then (fun t => t <| father := 1 |>) <$> slot k' n else slot k' i) as E2.
  { intros i. unfold k2. rewrite slot_upd by done. by rewrite Hn. }
  assert (zombie_child k p n = (t_state t =? TASK_ZOMBIE)) as Hz by (unfold zombie_child; by rewrite Ht, Hf, Z.eqb_refl).
  unfold bind at 1, put_task, modify. destruct (t_state t =? TASK_ZOMBIE).
  - assert (exists c2, slot k2 (current k2) = Some c2) as [c2 Hc2].
    { rewrite E2. change (current k2) with (current k'). rewrite Hc', Hn. case_decide; cbn; by eexists. }
    destruct (send_sig_told k2 c2 Hc2) as (r & k3 & E & Ek3 & El3 & Hs3).
    unfold bind. fold k2. rewrite E. exists k3. split; [done|]. apply (adopted_child k p n k' k3 t true Hz Ht Hf Ha).
    + rewrite Ek3. unfold k2. by destruct k'.
    + rewrite El3. cbn. by rewrite length_insert.
    + intros i. by rewrite Hs3, E2.
  - exists k2. split; [done|]. apply (adopted_child k p n k' k2 t false Hz Ht Hf Ha).
    + unfold k2. by destruct k'.
    + cbn. by rewrite length_insert.
    + intros i. rewrite E2. unfold told. cbn. by destruct (if decide (n = i) then _ else _).
Qed.
Lemma orphans_run k c m : forall n k', slot k (current k) = Some c -> adopted k (pid c) n k' ->
  exists k'', for_each (seq n m) orphan k' = Done tt k'' /\ adopted k (pid c) (n + m) k''.
Proof.
  induction m as [|m IH]; intros n k' Hc Ha; cbn [seq for_each].
  { exists k'. by rewrite Nat.add_0_r. }
  destruct (orphan_step k (pid c) n k' c Hc eq_refl Ha) as (k1 & E & H1). unfold bind. rewrite E.
  rewrite Nat.add_succ_r, <- Nat.add_succ_l. by apply IH.
Qed.

(** The tasks when the loop is over. *)
Definition orphaned (k : kernel) (p : Z) : list (option task_struct) :=
  imap (fun i o => told (existsb (zombie_child k p) (seq 0 NR_TASKS)) i <$> (adopt p <$> o)) (task k).
Lemma tasks_ext (l l' : list (option task_struct)) :
  length l = length l' -> (forall i, mjoin (l !! i) = mjoin (l' !! i)) -> l = l'.
Proof.
  intros Hl H. apply list_eq_same_length with (length l); [done|done|]. intros i x y _ Hx Hy.
  specialize (H i). by rewrite Hx, Hy in H.
Qed.
Lemma orphans_done k c : slot k (current k) = Some c -> length (task k) = NR_TASKS ->
  for_each (seq 0 NR_TASKS) orphan k = Done tt (k <| task := orphaned k (pid c) |>).
Proof.
  intros Hc Hlen. destruct (orphans_run k c NR_TASKS 0 k Hc) as (k' & E & Ek & El & Hs).
  { split; [by destruct k|]. split; [done|]. intros i. rewrite decide_False by lia. by destruct (slot k i). }
  rewrite E. enough (task k' = orphaned k (pid c)) as Et by (by rewrite Ek, Et).
  apply tasks_ext; [by unfold orphaned; rewrite length_imap|].
  intros i. change (slot k' i = mjoin (orphaned k (pid c) !! i)). rewrite Hs. unfold orphaned. rewrite list_lookup_imap.
  unfold slot. destruct (task k !! i) as [o|] eqn:Eo; [|by case_decide].
  apply lookup_lt_Some in Eo. rewrite decide_True by (rewrite Hlen in Eo; lia). by destruct o.
Qed.

(** [find_pid] finds the first slot. *)
Lemma find_pid_first l p : forall i j t, mjoin (l !! j) = Some t -> pid t = p ->
  (forall j' u, (j' < j)%nat -> mjoin (l !! j') = Some u -> pid u <> p) -> find_pid l p i = Some (i + j)%nat.
Proof.
  induction l as [|o l IH]; intros i j t Hj Ht Hb; [done|]. destruct j as [|j]; cbn in Hj.
  - destruct o; simplify_eq. cbn [find_pid]. by rewrite Z.eqb_refl, Nat.add_0_r.
  - cbn [find_pid]. assert (find_pid l p (Datatypes.S i) = Some (i + Datatypes.S j)%nat) as ->.
    { rewrite Nat.add_succ_r, <- Nat.add_succ_l. eapply IH; [done|done|]. intros j' u Hj'. apply (Hb (Datatypes.S j')). lia. }
    destruct o as [u|]; [|done]. destruct (Z.eqb_spec (pid u) p) as [E|]; [|done].
    exfalso. apply (Hb O u); [lia|done|done].
Qed.
Lemma find_pid_none l p : (forall j u, mjoin (l !! j) = Some u -> pid u <> p) -> forall i, find_pid l p i = None.
Proof.
  induction l as [|o l IH]; intros Hb i; [done|]. cbn [find_pid].
  rewrite IH by (intros j u; apply (Hb (Datatypes.S j))). destruct o as [u|]; [|done].
  by rewrite (proj2 (Z.eqb_neq _ _) (Hb O u eq_refl)).
Qed.

(** The end of [do_exit], from the moment its resources are given back. *)
Lemma exit_end code k c (z := c <| t_state := TASK_ZOMBIE |> <| exit_code := code |>) :
  slot k (current k) = Some c ->
  (mod_cur (fun t => t <| t_state := TASK_ZOMBIE |> <| exit_code := code |>) ;;; c <- cur ;; tell_father (father c)) k =
  tell_father (father c) (k <| task ::= <[current k := Some z]> |>).
Proof.
  intros Hc. unfold bind at 1. rewrite (mod_cur_run _ k c Hc). fold z. unfold bind.
  rewrite (cur_run _ z); [done|]. cbn [current upd upd_task]. rewrite slot_upd by (by eapply slot_length). by rewrite decide_True.
Qed.

(** C30: The end of a process, up to the final [schedule].  Its memory is given back,
    then every task that had it as father has task 1 as father, and task 1 is sent SIGCHLD when one
    of those is a zombie; no other task, and nothing else of any task, has changed.  Then the process
    closes its files and gives up its inodes: on a pipe or a block that is locked it may wait, and
    the other tasks may then do anything, end and be reaped included.  When
    that returns, in a state [k2], the process is made a zombie that keeps the exit
    code, and the first task with the number that is then its father's is sent SIGCHLD,
    no other task being changed; when it has no father, or no task has that number, the
    process releases itself. *)
Theorem exit_task_zombie code k c k0 r :
  slot k (current k) = Some c -> length (task k) = NR_TASKS ->
  (free_page_tables (get_base (nth_ldt c 1)) (get_limit (nth_ldt c 1)) ;;;
   free_page_tables (get_base (nth_ldt c 2)) (get_limit (nth_ldt c 2))) k = Done r k0 ->
  forall k2 c2,
  drop_resources (k0 <| task := orphaned k (pid c) |>) = Done tt k2 -> slot k2 (current k2) = Some c2 ->
  let kz := k2 <| task ::= <[current k2 := Some (c2 <| t_state := TASK_ZOMBIE |> <| exit_code := code |>)]> |> in
  (forall i t, father c2 <> 0 -> slot kz i = Some t -> pid t = father c2 ->
     (forall j u, (j < i)%nat -> slot kz j = Some u -> pid u <> father c2) ->
     exit_task code k =
       Done tt (kz <| task ::= <[i := Some (t <| signal := Z.lor (signal t) (sigbit SIGCHLD) |>)]> |>)) /\
  (father c2 = 0 \/ (forall j u, slot kz j = Some u -> pid u <> father c2) ->
     exit_task code k = release (Some (current kz)) kz).
Proof.
  intros Hc Hlen Hfree k2 c2 Hdrop Hc2 kz.
  assert (exit_task code k = tell_father (father c2) kz) as ->.
  { unfold exit_task, bind at 1. rewrite (cur_run k c Hc). unfold bind at 1 in Hfree. unfold bind at 1.
    destruct (free_page_tables (get_base (nth_ldt c 1)) (get_limit (nth_ldt c 1)) k) as [r1 k1| | |] eqn:E1; [|done..].
    destruct (spares_free_page_tables _ _ _ _ _ E1) as [T1 C1]. unfold bind at 1.
    rewrite (cur_run k1 c) by (unfold slot; by rewrite T1, C1). unfold bind at 1. rewrite Hfree.
    destruct (spares_free_page_tables _ _ _ _ _ Hfree) as [T2 C2]. unfold bind at 1.
    assert (slot k0 (current k0) = Some c) as Hc0 by (unfold slot; by rewrite T2, C2, T1, C1).
    rewrite (orphans_done k0 c Hc0) by congruence.
    assert (orphaned k0 (pid c) = orphaned k (pid c)) as ->.
    { unfold orphaned, zombie_child, slot. by rewrite T2, T1. }
    unfold bind at 1. rewrite Hdrop. exact (exit_end code k2 c2 Hc2). }
  unfold tell_father, bind, get. split.
  - intros i t Hf Ht Hp Hb. replace (truth (father c2)) with true by (unfold truth; lia).
    rewrite (find_pid_first (task kz) (father c2) 0 i t Ht Hp Hb). cbn [plus].
    unfold mod_task, get_task, bind, get. by rewrite Ht.
  - intros [Hf|Hn]; [by rewrite Hf|]. rewrite (find_pid_none _ _ Hn). by destruct (truth (father c2)).
Qed.
End Exit_correct.

(** ** [waitpid] *)
Section Wait.
Context {S : Services}.

(** The children that the call is about, the caller itself excluded. *)
Definition child_in (k : kernel) (c : task_struct) (p : Z) (i : nat) (t : task_struct) : Prop :=
  i <> current k /\ slot k i = Some t /\ wanted c p t = true.

(** What the result [r] of the search of the slots up to [n] says, when [flag] was
    set before. *)
Definition scan_result (k : kernel) (c : task_struct) (p options : Z) (n : nat) (flag : bool)
    (r : wait_result) : Prop :=
  match r with
  | Stopped i => (1 <= i <= n)%nat /\ truth (Z.land options WUNTRACED) = true /\
                 exists t, child_in k c p i t /\ t_state t = TASK_STOPPED
  | Zombie i => (1 <= i <= n)%nat /\ exists t, child_in k c p i t /\ t_state t = TASK_ZOMBIE
  | Neither flag' =>
      (forall i t, (1 <= i <= n)%nat -> child_in k c p i t -> t_state t <> TASK_ZOMBIE /\
         (t_state t = TASK_STOPPED -> truth (Z.land options WUNTRACED) = false)) /\
      (flag' = true <-> flag = true \/ exists i t, (1 <= i <= n)%nat /\ child_in k c p i t /\
         t_state t <> TASK_STOPPED)
  end.

(** A slot with a child that is not reported, [b] telling whether it counts. *)
Lemma scan_skip k c p options n flag (b : bool) r :
  (forall t, child_in k c p (Datatypes.S n) t -> t_state t <> TASK_ZOMBIE /\
     (t_state t = TASK_STOPPED -> truth (Z.land options WUNTRACED) = false)) ->
  (b = true <-> exists t, child_in k c p (Datatypes.S n) t /\ t_state t <> TASK_STOPPED) ->
  scan_result k c p options n (flag || b) r -> scan_result k c p options (Datatypes.S n) flag r.
Proof.
  intros Hb1 Hb2 IH. destruct r as [i|i|f]; cbn in *.
  - destruct IH as (? & ? & ?). split; [lia|done].
  - destruct IH as (? & ?). split; [lia|done].
  - destruct IH as [I1 I2]. split.
    + intros i t Hi Ht. destruct (decide (i = Datatypes.S n)) as [->|]; [by apply Hb1|].
      apply (I1 i t); [lia|done].
    + rewrite I2, orb_true_iff, Hb2. split.
      * intros [[Hf|(t & Ht)]|(i & t & Hi & Ht)]; [by left| |].
        -- right. exists (Datatypes.S n), t. split; [lia|done].
        -- right. exists i, t. split; [lia|done].
      * intros [Hf|(i & t & Hi & Ht)]; [by left; left|].
        destruct (decide (i = Datatypes.S n)) as [->|]; [left; right; by exists t|].
        right. exists i, t. split; [lia|done].
Qed.

Lemma wait_scan_spec k c p options n : forall flag,
  scan_result k c p options n flag (wait_scan k c p options n flag).
Proof.
  induction n as [|n IH]; intros flag; cbn [wait_scan].
  { split; [intros; lia|]. split; [by left|]. intros [?|(i & t & ? & _)]; [done|lia]. }
  destruct (slot k (Datatypes.S n)) as [t|] eqn:Et.
  2: { apply (scan_skip k c p options n flag false).
       - intros t (_ & Ht & _). congruence.
       - split; [done|]. intros (t & (_ & Ht & _) & _). congruence.
       - rewrite orb_false_r. apply IH. }
  destruct (Nat.eqb (Datatypes.S n) (current k) || negb (wanted c p t)) eqn:Eskip.
  { apply (scan_skip k c p options n flag false); [| |rewrite orb_false_r; apply IH].
    - intros u (Hn & Hu & Hw). rewrite Et in Hu. injection Hu as <-. rewrite Hw in Eskip.
      apply Nat.eqb_neq in Hn. by rewrite Hn in Eskip.
    - split; [done|]. intros (u & (Hn & Hu & Hw) & _). rewrite Et in Hu. injection Hu as <-.
      rewrite Hw in Eskip. apply Nat.eqb_neq in Hn. by rewrite Hn in Eskip. }
  apply orb_false_iff in Eskip as [En Ew]. apply Nat.eqb_neq in En. apply negb_false_iff in Ew.
  assert (child_in k c p (Datatypes.S n) t) as Hch by done.
  destruct (Z.eqb_spec (t_state t) TASK_STOPPED) as [Es|Es].
  - destruct (truth (Z.land options WUNTRACED)) eqn:Eo.
    + split; [lia|]. split; [done|]. by exists t.
    + apply (scan_skip k c p options n flag false); [| |rewrite orb_false_r; apply IH].
      * intros u (_ & Hu & _). rewrite Et in Hu. injection Hu as <-. by rewrite Es.
      * split; [done|]. intros (u & (_ & Hu & _) & Hs). rewrite Et in Hu. by injection Hu as <-.
  - destruct (Z.eqb_spec (t_state t) TASK_ZOMBIE) as [Ez|Ez].
    + split; [lia|]. by exists t.
    + apply (scan_skip k c p options n flag true); [| |rewrite orb_true_r; apply IH].
      * intros u (_ & Hu & _). rewrite Et in Hu. by injection Hu as <-.
      * split; [|done]. intros _. by exists t.
Qed.

Lemma wait_round_eq p a options k c :
  slot k (current k) = Some c ->
  wait_round p a options k = match wait_scan k c p options (NR_TASKS - 1) false with
  | Stopped i =>
      (t <- get_task i ;; put_fs_long 127 a ;;; ret (inr (pid t))) k
  | Zombie i =>
      (t <- get_task i ;;
       mod_cur (fun c => c <| cutime := i32 (cutime c + utime t) |>
                           <| cstime := i32 (cstime c + stime t) |>) ;;;
       release (Some i) ;;;
       put_fs_long (exit_code t) a ;;;
       ret (inr (pid t))) k
  | Neither flag =>
      (if flag : bool then
        if truth (Z.land options WNOHANG) then ret (inr 0) else
        mod_cur (fun t => t <| t_state := TASK_INTERRUPTIBLE |>) ;;;
        reschedule others ;;;
        mod_cur (fun t => t <| signal := Z.land (signal t) (Z.lnot (sigbit SIGCHLD)) |>) ;;;
        c <- cur ;;
        if truth (signal c) then ret (inr (- EINTR)) else ret (inl tt)
      else ret (inr (- ECHILD))) k
  end.
Proof.
  intros Hc. unfold wait_round at 1, bind at 1, get at 1, bind at 1.
  assert (cur k = Done c k) as -> by (unfold cur, get_task, bind, get; cbn; by rewrite Hc).
  by destruct (wait_scan k c p options (NR_TASKS - 1) false).
Qed.

(** What [waitpid] answers without waiting for a zombie: -ECHILD when every
    child it is about is a stopped one that the caller did not ask for (in
    particular when there is none); 0 with WNOHANG when none of them is a zombie
    or to be reported as stopped, and one is still running. *)
Theorem waitpid_without_zombie p a options k c :
  slot k (current k) = Some c ->
  (forall i t, (1 <= i < NR_TASKS)%nat -> child_in k c p i t ->
     t_state t <> TASK_ZOMBIE /\
     (t_state t = TASK_STOPPED -> truth (Z.land options WUNTRACED) = false)) ->
  ((forall i t, (1 <= i < NR_TASKS)%nat -> child_in k c p i t -> t_state t = TASK_STOPPED) ->
     wait_round p a options k = Done (inr (- ECHILD)) k) /\
  ((exists i t, (1 <= i < NR_TASKS)%nat /\ child_in k c p i t /\ t_state t <> TASK_STOPPED) ->
     truth (Z.land options WNOHANG) = true ->
     wait_round p a options k = Done (inr 0) k).
Proof.
  intros Hc Hno. rewrite (wait_round_eq p a options k c Hc).
  pose proof (wait_scan_spec k c p options (NR_TASKS - 1) false) as H.
  assert (forall i, (1 <= i <= NR_TASKS - 1)%nat <-> (1 <= i < NR_TASKS)%nat) as Hrange
    by (intros i; unfold NR_TASKS; lia).
  destruct (wait_scan k c p options (NR_TASKS - 1) false) as [i|i|flag]; cbn [scan_result] in H.
  - destruct H as (Hi & Ho & t & Ht & Hs). apply Hrange in Hi.
    destruct (Hno i t Hi Ht) as [_ H]. rewrite (H Hs) in Ho. done.
  - destruct H as (Hi & t & Ht & Hs). apply Hrange in Hi. by destruct (Hno i t Hi Ht).
  - destruct H as [_ Hf]. split.
    + intros Hall. destruct flag; [|done]. exfalso.
      destruct (proj1 Hf eq_refl) as [?|(i & t & Hi & Ht & Hs)]; [done|].
      apply Hs, (Hall i t); [by apply Hrange|done].
    + intros (i & t & Hi & Ht & Hs) Hw. rewrite (proj2 Hf), Hw; [done|].
      right. exists i, t. rewrite Hrange. done.
Qed.

(** The search finds the zombie in the highest slot that has a child to report. *)
Lemma wait_scan_zombie k c p options i t n : (1 <= i <= n)%nat -> child_in k c p i t -> t_state t = TASK_ZOMBIE ->
  (forall j u, (i < j <= n)%nat -> child_in k c p j u ->
     t_state u <> TASK_ZOMBIE /\ (t_state u = TASK_STOPPED -> truth (Z.land options WUNTRACED) = false)) ->
  forall flag, wait_scan k c p options n flag = Zombie i.
Proof.
  intros Hi (Hne & Ht & Hw) Hz. induction n as [|n IH]; intros Hb flag; [lia|]. cbn [wait_scan].
  destruct (decide (i = Datatypes.S n)) as [<-|Hin].
  { by rewrite Ht, (proj2 (Nat.eqb_neq _ _) Hne), Hw, Hz. }
  assert (forall flag, wait_scan k c p options n flag = Zombie i) as Hrec by (apply IH; [lia|]; intros j u Hj; apply Hb; lia).
  destruct (slot k (Datatypes.S n)) as [u|] eqn:Hu; [|done].
  destruct (Nat.eqb_spec (Datatypes.S n) (current k)) as [|Hnc]; cbn [orb]; [apply Hrec|].
  destruct (wanted c p u) eqn:Hwu; cbn [negb]; [|apply Hrec].
  destruct (Hb (Datatypes.S n) u) as [Hnz Hst]; [lia|done|].
  destruct (Z.eqb_spec (t_state u) TASK_STOPPED); [by rewrite Hst|].
  by rewrite (proj2 (Z.eqb_neq _ _) Hnz).
Qed.

(** [release] of a slot other than 0: the slot is empty when its page is freed. *)
Lemma release_run k i t : slot k i = Some t -> i <> O ->
  release (Some i) k = (free_page (page_addr t) ;;; reschedule others) (k <| task ::= <[i := None]> |>).
Proof.
  intros Ht Hi. unfold release, bind at 1, get at 1. rewrite Ht, (proj2 (Nat.eqb_neq _ _) Hi). reflexivity.
Qed.

(** C31: [waitpid] reaps a zombie.  Of the children it is about, other than stopped ones
    that the caller does not ask for, the one in the highest slot is a zombie: the call adds
    the times that it used to those of its children in the caller, each in 32 bits, and empties the
    slot, all other tasks being what they were; then it frees the page of the task and
    calls [schedule], whatever other tasks do until the caller runs again, and then
    stores the exit code at [stat_addr] and returns the number of the child.
    ([verify_area] has returned before: there was memory for the page of the status.) *)
Theorem waitpid_reaps fuel p a options k k0 c i t :
  verify_area a 4 k = Done tt k0 -> slot k0 (current k0) = Some c ->
  (1 <= i < NR_TASKS)%nat -> child_in k0 c p i t -> t_state t = TASK_ZOMBIE ->
  (forall j u, (i < j < NR_TASKS)%nat -> child_in k0 c p j u ->
     t_state u <> TASK_ZOMBIE /\ (t_state u = TASK_STOPPED -> truth (Z.land options WUNTRACED) = false)) ->
  let c1 := c <| cutime := i32 (cutime c + utime t) |> <| cstime := i32 (cstime c + stime t) |> in
  let k1 := k0 <| task ::= <[current k0 := Some c1]> |> <| task ::= <[i := None]> |> in
  forall k2, (free_page (page_addr t) ;;; reschedule others) k1 = Done tt k2 ->
  father t = pid c /\
  let k3 := k2 <| umem ::= fun m => write_long m a (exit_code t) |> in
  sys_waitpid (Datatypes.S fuel) p a options k = Done (pid t) k3 /\
  get_fs_long a k3 = Done (u32 (exit_code t)) k3.
Proof.
  intros Hv Hc Hi Hch Hz Hb c1 k1 k2 Hk2. pose proof Hch as (Hne & Ht & Hw).
  pose proof (slot_length _ _ _ Hc) as Hl. apply andb_true_iff in Hw as [Hfa _].
  split; [lia|]. intros k3. split; [|unfold k3; rewrite get_fs_long_eq; cbn [umem upd upd_umem]; by rewrite read_write_same].
  unfold sys_waitpid, bind at 1. rewrite Hv. cbn [loop]. unfold bind at 1.
  assert (wait_round p a options k0 = Done (inr (pid t)) k3) as ->; [|done]. rewrite (wait_round_eq p a options k0 c Hc).
  rewrite (wait_scan_zombie k0 c p options i t (NR_TASKS - 1)); [|unfold NR_TASKS in *; lia|done..|].
  2:{ intros j u Hj. apply Hb. unfold NR_TASKS in *. lia. }
  unfold bind at 1, get_task, bind at 1, get at 1. rewrite Ht. cbn [deref ret]. unfold bind at 1.
  rewrite (mod_cur_run _ k0 c Hc). unfold bind at 1.
  rewrite (release_run _ i t); [|rewrite slot_upd, decide_False by done; done|lia]. fold c1. fold k1. rewrite Hk2.
  unfold bind. by rewrite put_fs_long_eq.
Qed.
End Wait.

(** ** Witnesses *)

(** Task 1, and its child with number 2 in slot 2, running. *)
Definition family : kernel :=
  (with_tasks [INIT_TASK <| pid := 1 |> <| father := 0 |>; INIT_TASK <| pid := 2 |> <| father := 1 |>])
    <| current := 2%nat |>.
(** The same with the child as a zombie and its father running. *)
Definition bereaved : kernel :=
  (with_tasks [INIT_TASK <| pid := 1 |> <| father := 0 |>;
               INIT_TASK <| pid := 2 |> <| father := 1 |> <| t_state := TASK_ZOMBIE |> <| exit_code := 256 |>
                 <| utime := 5 |> <| stime := 7 |>])
    <| current := 1%nat |>.

Lemma sys_kill_pid_witness :
  wp (sys_kill 1 15) (fun r k' => r = 0 \/ r = - EPERM) family.
Proof.
  eapply wp_mono; [apply (sys_kill_pid 1 15 family (INIT_TASK <| pid := 2 |> <| father := 1 |>))|].
  - reflexivity.
  - split; discriminate.
  - reflexivity.
  - reflexivity.
  - intros r k' (H & _). exact H.
Defined.
Lemma sys_kill_group_ignored_witness : sys_kill (-2) 9 family = Done 0 family.
Proof.
  apply (sys_kill_group_ignored (-2) 9 family (INIT_TASK <| pid := 2 |> <| father := 1 |>)); reflexivity.
Defined.
(** The process of slot 2 of [family] when its resources are given back, and the end of it. *)
Definition end_of (o : outcome kernel unit) : kernel := match o with Done _ k => k | _ => family end.
Definition family_given : kernel :=
  end_of (drop_resources (S := idle_services) (family <| task := orphaned family 2 |>)).
Definition child_given : task_struct := default INIT_TASK (slot family_given 2).
Definition family_end : kernel := end_of (exit_task (S := idle_services) 256 family).
Lemma exit_task_zombie_witness :
  exit_task (S := idle_services) 256 family = Done tt family_end /\
  option_map t_state (slot family_end 2) = Some TASK_ZOMBIE /\
  option_map exit_code (slot family_end 2) = Some 256 /\
  option_map signal (slot family_end 1) = Some (sigbit SIGCHLD).
Proof.
  split.
  - etransitivity.
    + apply (proj1 (exit_task_zombie (S := idle_services) 256 family (INIT_TASK <| pid := 2 |> <| father := 1 |>) family 0
        ltac:(reflexivity) ltac:(reflexivity) ltac:(vm_compute; reflexivity) family_given child_given
        ltac:(vm_compute; reflexivity) ltac:(vm_compute; reflexivity)) 1%nat (INIT_TASK <| pid := 1 |> <| father := 0 |>)).
      * vm_compute. discriminate.
      * vm_compute. reflexivity.
      * vm_compute. reflexivity.
      * intros [|j] u Hj; [|lia]. vm_compute. intros [= <-]. discriminate.
    + vm_compute. reflexivity.
  - vm_compute. repeat split.
Defined.
Lemma waitpid_without_zombie_witness :
  wait_round (S := idle_services) 7 0 0 family = Done (inr (- ECHILD)) family.
Proof.
  apply (waitpid_without_zombie (S := idle_services) 7 0 0 family (INIT_TASK <| pid := 2 |> <| father := 1 |>)).
  - reflexivity.
  - intros i t Hi (_ & Ht & Hw). exfalso. revert Ht Hw.
    do 3 (destruct i as [|i]; [intros [= <-]; discriminate|]). intros Ht.
    change (mjoin (replicate 61 (@None task_struct) !! i) = Some t) in Ht.
    destruct (replicate 61 (@None task_struct) !! i) as [o|] eqn:E; [|done].
    apply lookup_replicate_1 in E as [-> _]. done.
  - intros i t Hi (_ & Ht & Hw). exfalso. revert Ht Hw.
    do 3 (destruct i as [|i]; [intros [= <-]; discriminate|]). intros Ht.
    change (mjoin (replicate 61 (@None task_struct) !! i) = Some t) in Ht.
    destruct (replicate 61 (@None task_struct) !! i) as [o|] eqn:E; [|done].
    apply lookup_replicate_1 in E as [-> _]. done.
Defined.
Lemma waitpid_reaps_witness : exists k',
  sys_waitpid (S := idle_services) 1 (-1) 64 0 bereaved = Done 2 k' /\
  slot k' 2 = None /\ get_fs_long 64 k' = Done 256 k' /\ option_map cutime (slot k' 1) = Some 5 /\
  option_map cstime (slot k' 1) = Some 7.
Proof.
  eexists.
  edestruct (waitpid_reaps (S := idle_services) 0 (-1) 64 0 bereaved bereaved
    (INIT_TASK <| pid := 1 |> <| father := 0 |>) 2
    (INIT_TASK <| pid := 2 |> <| father := 1 |> <| t_state := TASK_ZOMBIE |> <| exit_code := 256 |>
      <| utime := 5 |> <| stime := 7 |>)) as (_ & H1 & H2).
  - reflexivity.
  - reflexivity.
  - unfold NR_TASKS. lia.
  - split; [discriminate|]. split; reflexivity.
  - reflexivity.
  - intros j u Hj (_ & Hu & _). exfalso. revert Hu. do 3 (destruct j as [|j]; [lia|]).
    change (mjoin (replicate 61 (@None task_struct) !! j) = Some u -> False).
    destruct (replicate 61 (@None task_struct) !! j) as [o|] eqn:E; [|done].
    by apply lookup_replicate_1 in E as [-> _].
  - vm_compute. reflexivity.
  - split; [exact H1|]. split; [reflexivity|]. split; [exact H2|]. split; reflexivity.
Defined.

End Exit.
