(* ===== verification/Signal.v ===== *)
(** * Signal: [kernel/signal.c]

    The system calls on signal masks and actions, and [do_signal], which makes the
    current process run its handler. *)
From S2P Require Import Prelude Console Task Sched Services Fork Exit.
Import Sched Fork Exit.

Module Signal.

Definition sys_sgetmask : M kernel Z := t <- cur ;; ret (blocked t).
Definition sys_ssetmask (newmask : Z) : M kernel Z :=
  t <- cur ;;
  mod_cur (fun t => t <| blocked := Z.land newmask (Z.lnot (sigbit SIGKILL)) |>) ;;;
  ret (blocked t).

(** The action of a signal number between 1 and 32. *)
Definition action (t : task_struct) (signum : Z) : sigaction :=
  default null_action (sigactions t !! Z.to_nat (signum - 1)).
Definition set_action (signum : Z) (a : sigaction) (t : task_struct) : task_struct :=
  t <| sigactions ::= <[Z.to_nat (signum - 1) := a]> |>.

(** The 16 bytes of a [struct sigaction] in memory: four longs. *)
Definition put_action (a : sigaction) (to : Z) : M kernel unit :=
  put_fs_long (sa_handler a) to ;;; put_fs_long (sa_mask a) (to + 4) ;;;
  put_fs_long (sa_flags a) (to + 8) ;;; put_fs_long (sa_restorer a) (to + 12).
Definition get_new (from : Z) : M kernel sigaction :=
  h <- get_fs_long from ;; m <- get_fs_long (from + 4) ;;
  f <- get_fs_long (from + 8) ;; r <- get_fs_long (from + 12) ;;
  ret (mk_sigaction h m f r).

Section Signal.
Context {S : Services}.

Definition save_old (a : sigaction) (to : Z) : M kernel unit :=
  verify_area to 16 ;;; put_action a to.

Definition sys_signal (signum handler restorer : Z) : M kernel Z :=
  if (signum <? 1) || (32 <? signum) || (signum =? SIGKILL) then ret (-1) else
  t <- cur ;;
  mod_cur (set_action signum (mk_sigaction handler 0 (Z.lor SA_ONESHOT SA_NOMASK) restorer)) ;;;
  ret (sa_handler (action t signum)).

Definition sys_sigaction (signum act oldact : Z) : M kernel Z :=
  if (signum <? 1) || (32 <? signum) || (signum =? SIGKILL) then ret (-1) else
  t <- cur ;;
  new <- get_new act ;;
  mod_cur (set_action signum new) ;;;
  when (truth oldact) (save_old (action t signum) oldact) ;;;
  mod_cur (fun t =>
    let a := action t signum in
    set_action signum
      (if truth (Z.land (sa_flags a) SA_NOMASK) then a <| sa_mask := 0 |>
       else a <| sa_mask ::= fun m => Z.lor m (u32 (Z.shiftl 1 (signum - 1))) |>) t) ;;;
  ret 0.

(** The registers of the interrupted program on the kernel stack. *)
Record frame : Type := mk_frame {
  f_eax : Z; f_ebx : Z; f_ecx : Z; f_edx : Z; f_eip : Z; f_eflags : Z; f_esp : Z
}.
(** The longs that are pushed on the user stack, from the new [esp] up. *)
Fixpoint push_longs (l : list Z) (a : Z) : M kernel unit :=
  match l with
  | [] => ret tt
  | v :: l' => put_fs_long v a ;;; push_longs l' (a + 4)
  end.
Definition signal_frame (t : task_struct) (sa : sigaction) (signr : Z) (f : frame) : list Z :=
  [sa_restorer sa; signr] ++
  (if truth (Z.land (sa_flags sa) SA_NOMASK) then [] else [blocked t]) ++
  [f_eax f; f_ecx f; f_edx f; f_eflags f; f_eip f].

(** [do_signal]: the result is the frame with which the program goes on; after
    [do_exit] it does not go on at all. *)
Definition do_signal (signr : Z) (f : frame) : M kernel frame :=
  t <- cur ;;
  let sa := action t signr in
  if sa_handler sa =? 1 then ret f else
  if (sa_handler sa =? 0) && (signr =? SIGCHLD) then ret f else
  if sa_handler sa =? 0 then do_exit (sigbit signr) ;;; ret f else
  when (truth (Z.land (sa_flags sa) SA_ONESHOT))
    (mod_cur (set_action signr (sa <| sa_handler := 0 |>))) ;;;
  let longs := if truth (Z.land (sa_flags sa) SA_NOMASK) then 7 else 8 in
  let esp := u32 (f_esp f - longs * 4) in
  verify_area esp (longs * 4) ;;;
  t <- cur ;;
  push_longs (signal_frame t sa signr f) esp ;;;
  mod_cur (fun t => t <| blocked ::= fun b => Z.lor b (sa_mask sa) |>) ;;;
  ret (mk_frame (f_eax f) (f_ebx f) (f_ecx f) (f_edx f) (sa_handler sa) (f_eflags f) esp).
End Signal.


Section Correct.
Context {S : Services} {F : ServicesFrames S}.





(** SIGKILL cannot be caught or ignored: [sys_signal] and [sys_sigaction]
    refuse it, as they refuse numbers outside 1 to 32, and change nothing; and
    [sys_ssetmask] never leaves it blocked. *)
Theorem sigkill_kept signum handler restorer act oldact newmask k t :
  slot k (current k) = Some t ->
  (signum = SIGKILL \/ signum < 1 \/ 32 < signum ->
     sys_signal signum handler restorer k = Done (-1) k /\
     sys_sigaction signum act oldact k = Done (-1) k) /\
  exists k', sys_ssetmask newmask k = Done (blocked t) k' /\
    exists t', slot k' (current k) = Some t' /\ Z.testbit (blocked t') (SIGKILL - 1) = false /\
      forall n, 0 <= n -> n <> SIGKILL - 1 -> Z.testbit (blocked t') n = Z.testbit newmask n.
Proof.
  intros Ht. split.
  - intros Hs. unfold sys_signal, sys_sigaction.
    replace ((signum <? 1) || (32 <? signum) || (signum =? SIGKILL)) with true by (unfold SIGKILL in *; lia).
    done.
  - unfold sys_ssetmask, bind. rewrite (cur_run k t), (mod_cur_run _ k t) by done. eexists. split; [reflexivity|]. eexists.
    rewrite slot_upd by (by eapply slot_length). rewrite decide_True by done.
    split; [reflexivity|]. cbn [blocked upd upd_blocked].
    change (sigbit SIGKILL) with (2 ^ 8). change (SIGKILL - 1) with 8. split.
    + rewrite Z.land_spec, Z.lnot_spec, Z.pow2_bits_eqb by lia. by rewrite andb_false_r.
    + intros n Hn Hne. rewrite Z.land_spec, Z.lnot_spec, Z.pow2_bits_eqb by lia.
      destruct (Z.eqb_spec 8 n); [lia|]. by rewrite andb_true_r.
Qed.
End Correct.

(** ** A way to block SIGKILL *)

(** A process whose action for SIGUSR1 (10) has all signals in its mask. *)
Definition usr1_all : task_struct :=
  INIT_TASK <| sigactions := <[9%nat := mk_sigaction 4096 4294967295 0 0]> (replicate 32 null_action) |>.
Definition usr1_kernel : kernel := (with_tasks [usr1_all]) <| current := 1%nat |>.
Definition some_frame : frame := mk_frame 1 2 3 4 100 512 8192.

(** But the mask of an action can block it: while the handler of a signal
    runs whose action was installed with a full mask, SIGKILL is blocked, which
    [sys_ssetmask] takes care to prevent. *)
Theorem do_signal_blocks_sigkill :
  exists f k' t', do_signal (S := idle_services) 10 some_frame usr1_kernel = Done f k' /\
    slot k' 1 = Some t' /\ Z.testbit (blocked t') (SIGKILL - 1) = true.
Proof.
  destruct (do_signal (S := idle_services) 10 some_frame usr1_kernel) as [f k'| | |] eqn:E.
  - exists f, k'. destruct (slot k' 1) as [t'|] eqn:Et.
    + exists t'. split; [done|]. split; [done|]. revert Et.
      assert (Some k' = match do_signal (S := idle_services) 10 some_frame usr1_kernel with
                        | Done _ k => Some k | _ => None end) as Ek by (by rewrite E).
      vm_compute in Ek. injection Ek as ->. intros Et. vm_compute in Et. injection Et as <-. reflexivity.
    + exfalso. assert (match do_signal (S := idle_services) 10 some_frame usr1_kernel with
                        | Done _ k => slot k 1 | _ => None end = None) as Ek by (by rewrite E).
      vm_compute in Ek. discriminate.
  - vm_compute in E. discriminate.
  - vm_compute in E. discriminate.
  - vm_compute in E. discriminate.
Qed.

Lemma sigkill_kept_witness :
  sys_signal SIGKILL 4096 0 boot_kernel = Done (-1) boot_kernel.
Proof.
  apply (proj1 (proj1 (sigkill_kept (S := idle_services) SIGKILL 4096 0 0 0 0 boot_kernel INIT_TASK eq_refl)
    (or_introl eq_refl))).
Defined.

End Signal.
