(* ===== verification/Sys.v ===== *)
(** * Sys: [kernel/sys.c]

    Identity, process groups, times, the break and the calls that are not
    implemented. *)
From S2P Require Import Prelude Console Task Sched Services Fork.
Import Sched Fork.

Module Sys.

Definition sys_ftime : M kernel Z := ret (- ENOSYS).
Definition sys_break : M kernel Z := ret (- ENOSYS).
Definition sys_ptrace : M kernel Z := ret (- ENOSYS).
Definition sys_stty : M kernel Z := ret (- ENOSYS).
Definition sys_gtty : M kernel Z := ret (- ENOSYS).
Definition sys_rename : M kernel Z := ret (- ENOSYS).
Definition sys_prof : M kernel Z := ret (- ENOSYS).
Definition sys_acct : M kernel Z := ret (- ENOSYS).
Definition sys_phys : M kernel Z := ret (- ENOSYS).
Definition sys_lock : M kernel Z := ret (- ENOSYS).
Definition sys_mpx : M kernel Z := ret (- ENOSYS).
Definition sys_ulimit : M kernel Z := ret (- ENOSYS).

(** Identities are unsigned shorts. *)
Definition sys_setregid (rgid new_egid : Z) : M kernel Z :=
  t <- cur ;;
  su <- suser ;;
  if (0 <? rgid) && negb ((gid t =? rgid) || su) then ret (- EPERM) else
  when (0 <? rgid) (mod_cur (fun t => t <| gid := u16 rgid |>)) ;;;
  t <- cur ;;
  su <- suser ;;
  if 0 <? new_egid then
    if (gid t =? new_egid) || (egid t =? new_egid) || (sgid t =? new_egid) || su
    then mod_cur (fun t => t <| egid := u16 new_egid |>) ;;; ret 0
    else ret (- EPERM)
  else ret 0.
Definition sys_setgid (gid : Z) : M kernel Z := sys_setregid gid gid.

Definition sys_setreuid (ruid new_euid : Z) : M kernel Z :=
  t <- cur ;;
  let old_ruid := uid t in
  su <- suser ;;
  if (0 <? ruid) && negb ((euid t =? ruid) || (old_ruid =? ruid) || su) then ret (- EPERM) else
  when (0 <? ruid) (mod_cur (fun t => t <| uid := u16 ruid |>)) ;;;
  t <- cur ;;
  su <- suser ;;
  if 0 <? new_euid then
    if (old_ruid =? new_euid) || (euid t =? new_euid) || su
    then mod_cur (fun t => t <| euid := u16 new_euid |>) ;;; ret 0
    else mod_cur (fun t => t <| uid := old_ruid |>) ;;; ret (- EPERM)
  else ret 0.
Definition sys_setuid (uid : Z) : M kernel Z := sys_setreuid uid uid.

(** [CURRENT_TIME] *)
Definition CURRENT_TIME (k : kernel) : Z := startup_time k + Z.quot (jiffies k) HZ.

Section Sys.
Context {S : Services}.

Definition sys_time (tloc : Z) : M kernel Z :=
  k <- get ;;
  let i := i32 (CURRENT_TIME k) in
  when (truth tloc) (verify_area tloc 4 ;;; put_fs_long i tloc) ;;;
  ret i.

Definition sys_stime (tptr : Z) : M kernel Z :=
  su <- suser ;;
  if negb su then ret (- EPERM) else
  v <- get_fs_long tptr ;;
  modify (fun k => k <| startup_time := i32 (v - Z.quot (jiffies k) HZ) |>) ;;;
  ret 0.

Definition sys_times (tbuf : Z) : M kernel Z :=
  when (truth tbuf)
    (verify_area tbuf 16 ;;;
     t <- cur ;; put_fs_long (utime t) tbuf ;;;
     put_fs_long (stime t) (tbuf + 4) ;;;
     put_fs_long (cutime t) (tbuf + 8) ;;;
     put_fs_long (cstime t) (tbuf + 12)) ;;;
  gets jiffies.

(** The fields of [struct utsname], nine bytes each. *)
Definition thisname : list Z :=
  let field (s : string) := map (fun a => Z.of_nat (Ascii.nat_of_ascii a)) (String.list_ascii_of_string s) in
  let pad (l : list Z) := take 9 (l ++ replicate 9 0) in
  pad (field "linux .0") ++ pad (field "nodename") ++ pad (field "release ") ++
  pad (field "version ") ++ pad (field "machine ").
Definition sys_uname (name : Z) : M kernel Z :=
  if negb (truth name) then ret (- ERROR) else
  verify_area name 45 ;;;
  for_each (seq 0 45) (fun i => put_fs_byte (default 0 (thisname !! i)) (name + Z.of_nat i)) ;;;
  ret 0.
End Sys.

Definition sys_brk (end_data_seg : Z) : M kernel Z :=
  t <- cur ;;
  when ((end_code t <=? end_data_seg) && (end_data_seg <? u32 (start_stack t - 16384)))
    (mod_cur (fun t => t <| brk := end_data_seg |>)) ;;;
  t <- cur ;; ret (i32 (brk t)).

(** The first slot with a process number (slot 0 included). *)
Fixpoint pid_slot (l : list (option task_struct)) (p : Z) (i : nat) : option (nat * task_struct) :=
  match l with
  | [] => None
  | o :: l' =>
      match o with
      | Some t => if pid t =? p then Some (i, t) else pid_slot l' p (Datatypes.S i)
      | None => pid_slot l' p (Datatypes.S i)
      end
  end.
Definition sys_setpgid (p pgid : Z) : M kernel Z :=
  c <- cur ;;
  let p := if truth p then p else pid c in
  let pgid := if truth pgid then pgid else pid c in
  k <- get ;;
  match pid_slot (task k) p 0 with
  | Some (i, t) =>
      if truth (leader t) then ret (- EPERM)
      else if negb (session t =? session c) then ret (- EPERM)
      else put_task i (t <| pgrp := pgid |>) ;;; ret 0
  | None => ret (- ESRCH)
  end.
Definition sys_getpgrp : M kernel Z := t <- cur ;; ret (pgrp t).
Definition sys_setsid : M kernel Z :=
  t <- cur ;;
  su <- suser ;;
  if truth (leader t) && negb su then ret (- EPERM) else
  mod_cur (fun t => t <| leader := 1 |> <| pgrp := pid t |> <| session := pid t |> <| tty := -1 |>) ;;;
  t <- cur ;; ret (pgrp t).
Definition sys_umask (mask : Z) : M kernel Z :=
  t <- cur ;;
  mod_cur (fun t => t <| umask := Z.land mask 511 |>) ;;;
  ret (umask t).

(** ** Identities *)

(** Rewrites with the current task in view. *)
Ltac at_cur :=
  cbn [ret andb negb when];
  repeat (first [ rewrite cur_at by done | rewrite suser_at by done | rewrite mod_cur_at by done ];
          cbn [ret andb negb when]).

Lemma setreuid_at a b k t :
  (current k < length (task k))%nat -> euid t <> 0 ->
  0 <= uid t < 65536 -> 0 <= euid t < 65536 ->
  wp (sys_setreuid a b) (fun r k' => exists t', k' = with_cur k t' /\
    (uid t' = uid t \/ uid t' = euid t) /\ (euid t' = euid t \/ euid t' = uid t) /\
    (r = 0 \/ r = - EPERM /\ t' = t)) (with_cur k t).
Proof.
  intros Hl He Hu1 Hu2. assert ((euid t =? 0) = false) as Hsu by lia.
  assert (forall v, (uid t =? v) || (euid t =? v) = true -> u16 v = uid t \/ u16 v = euid t) as Hv.
  { intros v [E|E]%orb_true_iff; apply Z.eqb_eq in E; subst; rewrite u16_id by done; auto. }
  unfold wp, sys_setreuid, bind. at_cur. rewrite Hsu, !orb_false_r, orb_comm.
  destruct (Z.ltb_spec 0 a) as [Ha|Ha]; cbn [andb].
  - destruct ((uid t =? a) || (euid t =? a)) eqn:Ea; cbn [negb].
    2: { exists t. auto 6. }
    apply Hv in Ea. at_cur. change (euid (t <| uid := u16 a |>)) with (euid t).
    rewrite Hsu, orb_false_r. destruct (Z.ltb_spec 0 b); [|eexists; split; [reflexivity|]; cbn -[u16]; tauto].
    destruct ((uid t =? b) || (euid t =? b)) eqn:Eb; at_cur.
    + apply Hv in Eb. eexists. split; [reflexivity|]. cbn -[u16]. tauto.
    + exists t. split; [by destruct t|]. auto 6.
  - at_cur. rewrite Hsu, orb_false_r. destruct (Z.ltb_spec 0 b); [|exists t; auto 6].
    destruct ((uid t =? b) || (euid t =? b)) eqn:Eb; at_cur.
    + apply Hv in Eb. eexists. split; [reflexivity|]. cbn -[u16]. tauto.
    + exists t. split; [by destruct t|]. auto 6.
Qed.
Lemma setregid_at a b k t :
  (current k < length (task k))%nat -> euid t <> 0 ->
  0 <= gid t < 65536 -> 0 <= egid t < 65536 -> 0 <= sgid t < 65536 ->
  wp (sys_setregid a b) (fun r k' => exists t', k' = with_cur k t' /\
    gid t' = gid t /\ (egid t' = egid t \/ egid t' = gid t \/ egid t' = sgid t) /\
    (r = 0 \/ r = - EPERM /\ t' = t)) (with_cur k t).
Proof.
  intros Hl He Hg1 Hg2 Hg3. assert ((euid t =? 0) = false) as Hsu by lia.
  assert (forall v, ((gid t =? v) || (egid t =? v) || (sgid t =? v)) = true ->
    u16 v = egid t \/ u16 v = gid t \/ u16 v = sgid t) as Hv.
  { intros v [[E|E]%orb_true_iff|E]%orb_true_iff; apply Z.eqb_eq in E; subst; rewrite u16_id by done; auto. }
  unfold wp, sys_setregid, bind. at_cur. rewrite Hsu, !orb_false_r.
  destruct (Z.ltb_spec 0 a) as [Ha|Ha]; cbn [andb].
  - destruct (Z.eqb_spec (gid t) a) as [Ea|Ea]; cbn [negb].
    2: { exists t. auto 6. }
    assert (t <| gid := u16 a |> = t) as Et.
    { subst a. rewrite u16_id by done. by destruct t. }
    at_cur. rewrite Et, Hsu, orb_false_r. destruct (Z.ltb_spec 0 b); [|exists t; auto 6].
    destruct ((gid t =? b) || (egid t =? b) || (sgid t =? b)) eqn:Eb; at_cur.
    + apply Hv in Eb. eexists. split; [reflexivity|]. cbn -[u16]. tauto.
    + exists t. auto 6.
  - at_cur. rewrite Hsu, orb_false_r. destruct (Z.ltb_spec 0 b); [|exists t; auto 6].
    destruct ((gid t =? b) || (egid t =? b) || (sgid t =? b)) eqn:Eb; at_cur.
    + apply Hv in Eb. eexists. split; [reflexivity|]. cbn -[u16]. tauto.
    + exists t. auto 6.
Qed.

(** An unprivileged process cannot give itself an identity that it does not
    have: after [setreuid] its real and effective user are each one of the two
    it had before, after [setregid] its real group is the one it had and its
    effective group is the real, effective or saved one; a call that fails
    with -EPERM changes nothing, and no other task changes. *)
Theorem ids_not_forged a b k t :
  slot k (current k) = Some t -> euid t <> 0 ->
  0 <= uid t < 65536 -> 0 <= euid t < 65536 -> 0 <= gid t < 65536 -> 0 <= egid t < 65536 ->
  0 <= sgid t < 65536 ->
  wp (sys_setreuid a b) (fun r k' => exists t', k' = with_cur k t' /\
    (uid t' = uid t \/ uid t' = euid t) /\ (euid t' = euid t \/ euid t' = uid t) /\
    (r = 0 \/ r = - EPERM /\ t' = t)) k /\
  wp (sys_setregid a b) (fun r k' => exists t', k' = with_cur k t' /\
    gid t' = gid t /\ (egid t' = egid t \/ egid t' = gid t \/ egid t' = sgid t) /\
    (r = 0 \/ r = - EPERM /\ t' = t)) k.
Proof.
  intros Ht He Hu1 Hu2 Hg1 Hg2 Hg3. pose proof (slot_length _ _ _ Ht) as Hl.
  pose proof (setreuid_at a b k t Hl He Hu1 Hu2) as H1.
  pose proof (setregid_at a b k t Hl He Hg1 Hg2 Hg3) as H2.
  rewrite <- (with_cur_id k t Ht) in H1, H2. by split.
Qed.
Lemma ids_not_forged_witness :
  wp (sys_setregid 5 0) (fun r k' => r = 0 \/ r = - EPERM)
    (with_cur boot_kernel (INIT_TASK <| uid := 5 |> <| euid := 6 |>)).
Proof.
  eapply wp_mono.
  - apply (ids_not_forged 5 0 (with_cur boot_kernel (INIT_TASK <| uid := 5 |> <| euid := 6 |>))
      (INIT_TASK <| uid := 5 |> <| euid := 6 |>)); (split + idtac); first [reflexivity | discriminate].
  - intros r k' (t' & _ & _ & _ & [H|[H _]]); auto.
Defined.

End Sys.
