(* ===== verification/Tty.v ===== *)
(** * Tty: terminals (kernel/chr_drv/tty_io.c, tty_ioctl.c, serial.c, the output
    loop of console.c, and fs/char_dev.c)

    The queues of a terminal are ring buffers; [copy_to_cooked] is the line
    discipline, called from the interrupt, that moves characters from the raw
    queue to the cooked one; [tty_read] and [tty_write] are the system call
    side.  The characters in the queues are C's signed [char]. *)
From S2P Require Import Prelude Console Task Sched Services Fork.

(** ** Character classes (include/ctype.h, lib/ctype.c) *)
Module Ctype.
Definition _U : Z := 1.
Definition _L : Z := 2.
Definition _D : Z := 4.
Definition _C : Z := 8.
Definition _P : Z := 16.
Definition _S : Z := 32.
Definition _X : Z := 64.
Definition _SP : Z := 128.

Definition _ctype : list Z :=
  [0] ++ replicate 8 _C ++ [_C] ++ replicate 5 (Z.lor _C _S) ++ replicate 18 _C ++
  [Z.lor _S _SP] ++ replicate 15 _P ++ replicate 10 _D ++ replicate 7 _P ++
  replicate 6 (Z.lor _U _X) ++ replicate 20 _U ++ replicate 6 _P ++
  replicate 6 (Z.lor _L _X) ++ replicate 20 _L ++ replicate 4 _P ++ [_C] ++ replicate 128 0.

(** [(_ctype+1)[c]&mask]: the table starts at index -1. *)
Definition class_bits {S} (c mask : Z) : M S bool :=
  if c <? -1 then fault else v <- deref (_ctype !! Z.to_nat (c + 1)) ;; ret (truth (Z.land v mask)).
Definition isupper {S} (c : Z) : M S bool := class_bits c _U.
Definition islower {S} (c : Z) : M S bool := class_bits c _L.
Definition tolower {S} (c : Z) : M S Z := b <- isupper c ;; ret (if b : bool then c + 32 else c).
Definition toupper {S} (c : Z) : M S Z := b <- islower c ;; ret (if b : bool then c - 32 else c).
End Ctype.

Module Tty.

(** ** Queues (the macros of include/linux/tty.h) *)
Definition TTY_BUF_SIZE : Z := 1024.
Definition INC (a : Z) : Z := Z.land (a + 1) (TTY_BUF_SIZE - 1).
Definition DEC (a : Z) : Z := Z.land (a - 1) (TTY_BUF_SIZE - 1).
Definition EMPTY (q : tty_queue) : bool := head q =? tail q.
Definition LEFT (q : tty_queue) : Z := Z.land (tail q - head q - 1) (TTY_BUF_SIZE - 1).
Definition FULL (q : tty_queue) : bool := negb (truth (LEFT q)).
Definition CHARS (q : tty_queue) : Z := Z.land (head q - tail q) (TTY_BUF_SIZE - 1).
Definition at_index (q : tty_queue) (i : Z) : option Z := buf q !! Z.to_nat i.
Definition LAST (q : tty_queue) : option Z := at_index q (Z.land (TTY_BUF_SIZE - 1) (head q - 1)).
(** [PUTCH] and [GETCH] on the structure; [GETCH]'s character is [at_index q (tail q)]. *)
Definition put_queue (c : Z) (q : tty_queue) : tty_queue :=
  q <| buf ::= <[Z.to_nat (head q) := i8 c]> |> <| head := INC (head q) |>.
Definition drop_queue (q : tty_queue) : tty_queue := q <| tail := INC (tail q) |>.

(** The three queues of a terminal. *)
Inductive which : Type := Read | Write | Secondary.
Definition queue (w : which) (t : tty_struct) : tty_queue :=
  match w with Read => read_q t | Write => write_q t | Secondary => secondary t end.
Definition upd_queue (w : which) (f : tty_queue -> tty_queue) (t : tty_struct) : tty_struct :=
  match w with
  | Read => t <| read_q ::= f |>
  | Write => t <| write_q ::= f |>
  | Secondary => t <| secondary ::= f |>
  end.

(** [tty_table + i] *)
Definition get_tty (i : nat) : M kernel tty_struct := k <- get ;; deref (tty_table k !! i).
Definition mod_tty (i : nat) (f : tty_struct -> tty_struct) : M kernel unit :=
  t <- get_tty i ;; modify (fun k => k <| tty_table ::= <[i := f t]> |>).
Definition PUTCH (c : Z) (i : nat) (w : which) : M kernel unit := mod_tty i (upd_queue w (put_queue c)).
Definition GETCH (i : nat) (w : which) : M kernel Z :=
  t <- get_tty i ;;
  c <- deref (at_index (queue w t) (tail (queue w t))) ;;
  mod_tty i (upd_queue w drop_queue) ;;;
  ret c.

(** ** Modes and control characters *)
Definition flag (v bit : Z) : bool := truth (Z.land v bit).
Definition I_NLCR (t : tty_struct) : bool := flag (c_iflag (tios t)) 64.
Definition I_NOCR (t : tty_struct) : bool := flag (c_iflag (tios t)) 128.
Definition I_CRNL (t : tty_struct) : bool := flag (c_iflag (tios t)) 256.
Definition I_UCLC (t : tty_struct) : bool := flag (c_iflag (tios t)) 512.
Definition O_POST (t : tty_struct) : bool := flag (c_oflag (tios t)) 1.
Definition O_LCUC (t : tty_struct) : bool := flag (c_oflag (tios t)) 2.
Definition O_NLCR (t : tty_struct) : bool := flag (c_oflag (tios t)) 4.
Definition O_CRNL (t : tty_struct) : bool := flag (c_oflag (tios t)) 8.
Definition O_NLRET (t : tty_struct) : bool := flag (c_oflag (tios t)) 32.
Definition L_ISIG (t : tty_struct) : bool := flag (c_lflag (tios t)) 1.
Definition L_CANON (t : tty_struct) : bool := flag (c_lflag (tios t)) 2.
Definition L_ECHO (t : tty_struct) : bool := flag (c_lflag (tios t)) 8.
Definition L_ECHOCTL (t : tty_struct) : bool := flag (c_lflag (tios t)) 512.
Definition cc (i : nat) (t : tty_struct) : Z := default 0 (c_cc (tios t) !! i).
Definition INTR_CHAR (t : tty_struct) : Z := cc 0 t.
Definition QUIT_CHAR (t : tty_struct) : Z := cc 1 t.
Definition ERASE_CHAR (t : tty_struct) : Z := cc 2 t.
Definition KILL_CHAR (t : tty_struct) : Z := cc 3 t.
Definition EOF_CHAR (t : tty_struct) : Z := cc 4 t.
Definition VTIME (t : tty_struct) : Z := cc 5 t.
Definition VMIN (t : tty_struct) : Z := cc 6 t.
Definition START_CHAR (t : tty_struct) : Z := cc 8 t.
Definition STOP_CHAR (t : tty_struct) : Z := cc 9 t.
Definition INTMASK : Z := Z.shiftl 1 (SIGINT - 1).
Definition QUITMASK : Z := Z.shiftl 1 (SIGQUIT - 1).
Definition ALRMMASK : Z := Z.shiftl 1 (SIGALRM - 1).

(** ** Signals from the keyboard *)
Definition tty_intr (i : nat) (mask : Z) : M kernel unit :=
  t <- get_tty i ;;
  if tty_pgrp t <=? 0 then ret tt else
  modify (fun k => k <| task ::= map (fun o => match o with
    | Some p => Some (if pgrp p =? tty_pgrp t then p <| signal ::= fun s => Z.lor s mask |> else p)
    | None => None
    end) |>).

Section Terminal.
(** [inb] reads an I/O port. *)
Context (inb : Z -> Z).

(** ** Output *)

(** [rs_write]: transmit interrupts on, unless there is nothing to send. *)
Definition rs_write (i : nat) : M kernel unit :=
  t <- get_tty i ;;
  when (negb (EMPTY (write_q t)))
    (let port := data (write_q t) + 1 in Sched.outb (Z.lor (inb port) 2) port).

Section Line.
(** [copy] is [copy_to_cooked] itself, which [con_write] calls through
    [respond]. *)
Context (copy : nat -> M kernel unit).

(** ESC [ ? 1 ; 2 c *)
Definition RESPONSE : list Z := [27; 91; 63; 49; 59; 50; 99].
Definition respond (i : nat) : M kernel unit :=
  for_each RESPONSE (fun c => PUTCH c i Read) ;;;
  copy i.

Definition in_console {A} (m : M Console.console A) : M kernel A :=
  zoom con (fun c k => k <| con := c |>) m.

Definition con_write (i : nat) : M kernel unit :=
  t <- get_tty i ;;
  Console.repeatM (Z.to_nat (CHARS (write_q t)))
    (c <- GETCH i Write ;;
     t <- get_tty i ;;
     r <- in_console (Console.con_char inb (ERASE_CHAR t) c) ;;
     when r (respond i)) ;;;
  in_console Console.set_cursor.

(** [tty->write(tty)] *)
Definition write_tty (i : nat) : M kernel unit :=
  t <- get_tty i ;;
  match tty_drv t with
  | con_write_fn => con_write i
  | rs_write_fn => rs_write i
  end.

(** ** The line discipline *)

(** Erasing the last character of the cooked queue, with its echo; the test is
    that of [c] the character erased. *)
Definition erase_last (i : nat) (c : Z) : M kernel unit :=
  t <- get_tty i ;;
  when (L_ECHO t)
    (when (c <? 32) (PUTCH 127 i Write) ;;;
     PUTCH 127 i Write ;;;
     write_tty i) ;;;
  mod_tty i (upd_queue Secondary (fun q => q <| head ::= DEC |>)).

(** The last character of the cooked queue, if it belongs to the current line. *)
Definition erasable (i : nat) : M kernel (option Z) :=
  t <- get_tty i ;;
  if EMPTY (secondary t) then ret None else
  c <- deref (LAST (secondary t)) ;;
  ret (if (c =? 10) || (c =? EOF_CHAR t) then None else Some c).

Definition kill_line (i : nat) : M kernel unit :=
  loop 1024 (fun _ : unit =>
    o <- erasable i ;;
    match o with
    | Some c => erase_last i c ;;; ret (inl tt)
    | None => ret (inr tt)
    end) tt.

(** The translation of an input character; [None]: the character is dropped. *)
Definition map_input (t : tty_struct) (c : Z) : M kernel (option Z) :=
  if (c =? 13) && I_CRNL t then ret (Some 10)
  else if (c =? 13) && I_NOCR t then ret None
  else if (c =? 10) && I_NLCR t then ret (Some 13)
  else ret (Some c).

(** What a canonical-mode control character does; [false]: it is none. *)
Definition edit (i : nat) (c : Z) : M kernel bool :=
  t <- get_tty i ;;
  if c =? KILL_CHAR t then kill_line i ;;; ret true
  else if c =? ERASE_CHAR t then
    o <- erasable i ;;
    match o with Some c => erase_last i c ;;; ret true | None => ret true end
  else if c =? STOP_CHAR t then mod_tty i (fun t => t <| stopped := 1 |>) ;;; ret true
  else if c =? START_CHAR t then mod_tty i (fun t => t <| stopped := 0 |>) ;;; ret true
  else ret false.

Definition interrupt (i : nat) (c : Z) : M kernel bool :=
  t <- get_tty i ;;
  if c =? INTR_CHAR t then tty_intr i INTMASK ;;; ret true
  else if c =? QUIT_CHAR t then tty_intr i QUITMASK ;;; ret true
  else ret false.

Definition echo (i : nat) (c : Z) : M kernel unit :=
  t <- get_tty i ;;
  (if c =? 10 then PUTCH 10 i Write ;;; PUTCH 13 i Write
   else if c <? 32 then
     when (L_ECHOCTL t) (PUTCH 94 i Write ;;; PUTCH (c + 64) i Write)
   else PUTCH c i Write) ;;;
  write_tty i.

(** One character, after its translation. *)
Definition cook (i : nat) (c : Z) : M kernel unit :=
  t <- get_tty i ;;
  done <- (if L_CANON t then edit i c else ret false) ;;
  if done : bool then ret tt else
  t <- get_tty i ;;
  done <- (if L_ISIG t then interrupt i c else ret false) ;;
  if done : bool then ret tt else
  t <- get_tty i ;;
  when ((c =? 10) || (c =? EOF_CHAR t))
    (mod_tty i (upd_queue Secondary (fun q => q <| data ::= fun d => u32 (d + 1) |>))) ;;;
  when (L_ECHO t) (echo i c) ;;;
  PUTCH c i Secondary.

Definition cook_next (i : nat) (_ : unit) : M kernel (unit + unit) :=
  t <- get_tty i ;;
  if EMPTY (read_q t) || FULL (secondary t) then ret (inr tt) else
  c <- GETCH i Read ;;
  o <- map_input t c ;;
  match o with
  | None => ret (inl tt)
  | Some c =>
      c <- (if I_UCLC t then Ctype.tolower c else ret c) ;;
      cook i c ;;;
      ret (inl tt)
  end.
End Line.

(** [depth] bounds the nesting of [copy_to_cooked] through [respond], [rounds] the
    characters taken from the raw queue. *)
Fixpoint copy_to_cooked (rounds depth : nat) (i : nat) : M kernel unit :=
  match depth with
  | O => nofuel
  | S depth =>
      loop rounds (cook_next (copy_to_cooked rounds depth) i) tt ;;;
      t <- get_tty i ;;
      Sched.wake_up (proc_list (secondary t))
  end.
Definition do_tty_interrupt (rounds depth : nat) (i : nat) : M kernel unit := copy_to_cooked rounds depth i.

(** ** Reading and writing *)
Section Calls.
Context {S : Services} (fuel : nat).

Definition sleep_if_empty (i : nat) (w : which) : M kernel unit :=
  loop fuel (fun _ : unit =>
    p <- cur ;; t <- get_tty i ;;
    if negb (truth (signal p)) && EMPTY (queue w t)
    then Sched.interruptible_sleep_on others fuel (proc_list (queue w t)) ;;; ret (inl tt)
    else ret (inr tt)) tt.

Definition sleep_if_full (i : nat) (w : which) : M kernel unit :=
  t <- get_tty i ;;
  if negb (FULL (queue w t)) then ret tt else
  loop fuel (fun _ : unit =>
    p <- cur ;; t <- get_tty i ;;
    if negb (truth (signal p)) && (LEFT (queue w t) <? 128)
    then Sched.interruptible_sleep_on others fuel (proc_list (queue w t)) ;;; ret (inl tt)
    else ret (inr tt)) tt.

Definition wait_for_keypress : M kernel unit := sleep_if_empty 0 Secondary.

(** The inner loop of [tty_read], which moves characters to the user's buffer:
    [b] is the number moved so far, [nr] what is still wanted.  The answer says
    whether the end-of-file character has made the call return. *)
Definition read_chars (i : nat) (buf : Z) (b nr : Z) : M kernel (bool * Z * Z) :=
  loop (Z.to_nat TTY_BUF_SIZE + 1) (fun '(b, nr) =>
    c <- GETCH i Secondary ;;
    t <- get_tty i ;;
    when ((c =? EOF_CHAR t) || (c =? 10))
      (mod_tty i (upd_queue Secondary (fun q => q <| data ::= fun d => u32 (d - 1) |>))) ;;;
    if (c =? EOF_CHAR t) && L_CANON t then ret (inr (true, b, nr)) else
    put_fs_byte c (buf + b) ;;;
    let b := b + 1 in
    let nr := nr - 1 in
    if nr =? 0 then ret (inr (false, b, nr)) else
    t <- get_tty i ;;
    ret (if (0 <? nr) && negb (EMPTY (secondary t)) then inl (b, nr) else inr (false, b, nr))) (b, nr).

(** [oldalarm] is restored at the end, except after the end-of-file character. *)
Definition tty_read (channel buf nr : Z) : M kernel Z :=
  if (2 <? u32 channel) || (nr <? 0) then ret (-1) else
  let i := Z.to_nat (u32 channel) in
  t <- get_tty i ;; p <- cur ;; k <- get ;;
  let oldalarm := alarm p in
  let time := 10 * VTIME t in
  let sets := negb (truth oldalarm) || (time + jiffies k <? oldalarm) in
  let minimum := if truth time && negb (truth (VMIN t)) then 1 else VMIN t in
  let fl := truth time && negb (truth (VMIN t)) && sets in
  when fl (mod_cur (fun p => p <| alarm := time + jiffies k |>)) ;;;
  let minimum := if nr <? minimum then nr else minimum in
  res <- loop fuel (fun '(b, nr, fl) =>
    if negb (0 <? nr) then ret (inr (false, b)) else
    p <- cur ;;
    if fl && truth (Z.land (signal p) ALRMMASK)
    then mod_cur (fun p => p <| signal ::= fun s => Z.land s (Z.lnot ALRMMASK) |>) ;;; ret (inr (false, b)) else
    if truth (signal p) then ret (inr (false, b)) else
    t <- get_tty i ;;
    if EMPTY (secondary t) || (L_CANON t && negb (truth (data (secondary t))) && (20 <? LEFT (secondary t)))
    then sleep_if_empty i Secondary ;;; ret (inl (b, nr, fl)) else
    x <- read_chars i buf b nr ;;
    let '(eof, b, nr) := x in
    if eof : bool then ret (inr (true, b)) else
    t <- get_tty i ;; k <- get ;;
    let sets := negb (truth oldalarm) || (time + jiffies k <? oldalarm) in
    let again := truth time && negb (L_CANON t) in
    when again (mod_cur (fun p => p <| alarm := if sets then time + jiffies k else oldalarm |>)) ;;;
    let fl := if again then sets else fl in
    ret (if L_CANON t then if truth b then inr (false, b) else inl (b, nr, fl)
         else if minimum <=? b then inr (false, b) else inl (b, nr, fl))) (0, nr, fl) ;;
  let '(eof, b) := res in
  if eof : bool then ret b else
  mod_cur (fun p => p <| alarm := oldalarm |>) ;;;
  p <- cur ;;
  ret (if truth (signal p) && negb (truth b) then - EINTR else b).

(** One character of [tty_write]: the new position of the buffer. *)
Definition write_char (i : nat) (buf b : Z) : M kernel Z :=
  t <- get_tty i ;;
  v <- get_fs_byte (buf + b) ;;
  let c := i8 v in
  k <- get ;;
  let c1 := if O_POST t && (c =? 13) && O_CRNL t then 10
            else if O_POST t && (c =? 10) && O_NLRET t then 13 else c in
  if O_POST t && (c1 =? 10) && negb (truth (cr_flag k)) && O_NLCR t
  then modify (fun k => k <| cr_flag := 1 |>) ;;; PUTCH 13 i Write ;;; ret b else
  c2 <- (if O_POST t && O_LCUC t then Ctype.toupper c1 else ret c1) ;;
  modify (fun k => k <| cr_flag := 0 |>) ;;;
  PUTCH c2 i Write ;;;
  ret (b + 1).

(** The inner loop: until all is written or the queue is full. *)
Definition write_chars (i : nat) (buf n b : Z) : M kernel Z :=
  loop (Z.to_nat TTY_BUF_SIZE) (fun b =>
    t <- get_tty i ;;
    if (b <? n) && negb (FULL (write_q t)) then b' <- write_char i buf b ;; ret (inl b') else ret (inr b)) b.

Definition tty_write (rounds depth : nat) (channel buf n : Z) : M kernel Z :=
  if (2 <? u32 channel) || (n <? 0) then ret (-1) else
  let i := Z.to_nat (u32 channel) in
  loop fuel (fun b =>
    if negb (b <? n) then ret (inr b) else
    sleep_if_full i Write ;;;
    p <- cur ;;
    if truth (signal p) then ret (inr b) else
    b <- write_chars i buf n b ;;
    write_tty (copy_to_cooked rounds depth) i ;;;
    when (b <? n) (Sched.reschedule others) ;;;
    ret (inl b)) 0.
End Calls.
End Terminal.

(** ** Ring buffers

    [ring q l]: the queue holds the characters [l], the oldest first. *)
Definition len (l : list Z) : Z := Z.of_nat (length l).
Definition ring (q : tty_queue) (l : list Z) : Prop :=
  length (buf q) = 1024%nat /\ 0 <= tail q < 1024 /\ len l <= 1023 /\
  head q = (tail q + len l) mod 1024 /\
  forall j, 0 <= j < len l -> buf q !! Z.to_nat ((tail q + j) mod 1024) = l !! Z.to_nat j.

Lemma mask_1023 a : Z.land a (TTY_BUF_SIZE - 1) = a mod 1024.
Proof. unfold TTY_BUF_SIZE. change (1024 - 1) with (Z.ones 10). by rewrite Z.land_ones by lia. Qed.
Lemma len_app l l' : len (l ++ l') = len l + len l'.
Proof. unfold len. rewrite length_app. lia. Qed.
Lemma len_cons c l : len (c :: l) = len l + 1.
Proof. unfold len. cbn. lia. Qed.

Section Ring.
Context (q : tty_queue) (l : list Z) (H : ring q l).

Lemma ring_left : LEFT q = 1023 - len l.
Proof.
  destruct H as (_ & Ht & Hl & Hh & _). unfold LEFT. rewrite mask_1023, Hh.
  assert (0 <= len l) by (unfold len; lia). dlia.
Qed.
Lemma ring_chars : CHARS q = len l.
Proof.
  destruct H as (_ & Ht & Hl & Hh & _). unfold CHARS. rewrite mask_1023, Hh.
  assert (0 <= len l) by (unfold len; lia). dlia.
Qed.
Lemma ring_empty : EMPTY q = (len l =? 0).
Proof.
  destruct H as (_ & Ht & Hl & Hh & _). unfold EMPTY. rewrite Hh.
  assert (0 <= len l) by (unfold len; lia).
  apply eq_bool_prop_intro. rewrite !Is_true_true, !Z.eqb_eq. dlia.
Qed.
Lemma ring_full : FULL q = (len l =? 1023).
Proof.
  unfold FULL, truth. rewrite negb_involutive, ring_left.
  apply eq_bool_prop_intro. rewrite !Is_true_true, !Z.eqb_eq. lia.
Qed.
Lemma ring_put c : len l < 1023 -> i8 c = c -> ring (put_queue c q) (l ++ [c]).
Proof.
  intros Hl Hc. destruct H as (Hb & Ht & _ & Hh & Hj).
  assert (0 <= len l) by (unfold len; lia).
  split; [cbn; by rewrite length_insert|]. split; [done|]. rewrite len_app. change (len [c]) with 1.
  split; [lia|]. split.
  - cbn. unfold INC. rewrite mask_1023, Hh. dlia.
  - intros j Hjr. cbn. rewrite Hh, Hc. destruct (Z.eq_dec j (len l)) as [->|Hne].
    + rewrite list_lookup_insert_eq by dlia. rewrite lookup_app_r by (unfold len; lia).
      by replace (Z.to_nat (len l) - length l)%nat with O by (unfold len; lia).
    + rewrite list_lookup_insert_ne by dlia. rewrite lookup_app_l by (unfold len in *; lia). apply Hj. lia.
Qed.
Lemma ring_get c l' : l = c :: l' -> at_index q (tail q) = Some c /\ ring (drop_queue q) l'.
Proof.
  intros E. destruct H as (Hb & Ht & Hl & Hh & Hj). rewrite E, len_cons in *.
  assert (0 <= len l') by (unfold len; lia). split.
  - pose proof (Hj 0 ltac:(lia)) as G. rewrite Z.add_0_r, Z.mod_small in G by lia. exact G.
  - unfold drop_queue, ring. cbn. unfold INC. rewrite mask_1023. split; [done|].
    split; [dlia|]. split; [lia|]. split; [rewrite Hh; dlia|]. intros j Hjr.
    specialize (Hj (j + 1) ltac:(lia)).
    replace (Z.to_nat (j + 1)) with (S (Z.to_nat j)) in Hj by lia. cbn [lookup list_lookup] in Hj.
    replace (((tail q + 1) mod 1024 + j) mod 1024) with ((tail q + (j + 1)) mod 1024) by dlia. exact Hj.
Qed.
Lemma ring_last c l' : l = l' ++ [c] -> LAST q = Some c /\ ring (q <| head ::= DEC |>) l'.
Proof.
  intros E. destruct H as (Hb & Ht & Hl & Hh & Hj). rewrite E, len_app in *. change (len [c]) with 1 in *.
  assert (0 <= len l') by (unfold len; lia). split.
  - unfold LAST. rewrite Z.land_comm, mask_1023. unfold at_index. pose proof (Hj (len l') ltac:(lia)) as G.
    rewrite lookup_app_r in G by (unfold len; lia).
    replace (Z.to_nat (len l') - length l')%nat with O in G by (unfold len; lia).
    change (Some c) with ([c] !! 0%nat). rewrite <- G. do 2 f_equal. rewrite Hh. dlia.
  - unfold ring. cbn. unfold DEC. rewrite mask_1023. split; [done|].
    split; [done|]. split; [lia|]. split; [rewrite Hh; dlia|]. intros j Hjr.
    rewrite (Hj j) by lia. apply lookup_app_l. unfold len in *. lia.
Qed.
End Ring.

(** The queues of a terminal are first-in first-out lists of at most 1023
    characters: [LEFT], [CHARS], [EMPTY] and [FULL] count what the list says,
    [PUTCH] appends when there is room, [GETCH] takes the oldest character, and
    [LAST] with [DEC] the newest. *)
Theorem queue_fifo q l :
  ring q l ->
  CHARS q = len l /\ LEFT q = 1023 - len l /\ EMPTY q = (len l =? 0) /\ FULL q = (len l =? 1023) /\
  (forall c, len l < 1023 -> - 128 <= c < 128 -> ring (put_queue c q) (l ++ [c])) /\
  (forall c l', l = c :: l' -> at_index q (tail q) = Some c /\ ring (drop_queue q) l') /\
  (forall c l', l = l' ++ [c] -> LAST q = Some c /\ ring (q <| head ::= DEC |>) l').
Proof.
  intros H. split; [by apply ring_chars|]. split; [by apply ring_left|].
  split; [by apply ring_empty|]. split; [by apply ring_full|]. split; [|split].
  - intros c Hl Hc. apply ring_put; [done|done|]. unfold i8. rewrite Z.mod_small; lia.
  - intros c l' E. by apply (ring_get q l).
  - intros c l' E. by apply (ring_last q l).
Qed.

(** ** The line discipline as a function on lines

    [typed] holds the cooked characters, the newest first. *)
Record line : Type := mk_line {
  typed : list Z;
  ends : Z;
  halted : Z;
  raised : Z
}.
Definition terminator (t : tty_struct) (c : Z) : bool := (c =? 10) || (c =? EOF_CHAR t).
(** Erase takes back one character, kill all, of the current line. *)
Definition a_erase (t : tty_struct) (l : list Z) : list Z :=
  match l with c :: l' => if terminator t c then l else l' | [] => [] end.
Fixpoint a_kill (t : tty_struct) (l : list Z) : list Z :=
  match l with c :: l' => if terminator t c then l else a_kill t l' | [] => [] end.

Definition a_map (t : tty_struct) (c : Z) : option Z :=
  if (c =? 13) && I_CRNL t then Some 10
  else if (c =? 13) && I_NOCR t then None
  else if (c =? 10) && I_NLCR t then Some 13
  else Some c.
Definition lower (c : Z) : Z := if (65 <=? c) && (c <=? 90) then c + 32 else c.

Definition a_cook (t : tty_struct) (s : line) (c : Z) : line :=
  let signal mask := mk_line (typed s) (ends s) (halted s)
                       (if tty_pgrp t <=? 0 then raised s else Z.lor (raised s) mask) in
  if L_CANON t && (c =? KILL_CHAR t) then mk_line (a_kill t (typed s)) (ends s) (halted s) (raised s)
  else if L_CANON t && (c =? ERASE_CHAR t) then mk_line (a_erase t (typed s)) (ends s) (halted s) (raised s)
  else if L_CANON t && (c =? STOP_CHAR t) then mk_line (typed s) (ends s) 1 (raised s)
  else if L_CANON t && (c =? START_CHAR t) then mk_line (typed s) (ends s) 0 (raised s)
  else if L_ISIG t && (c =? INTR_CHAR t) then signal INTMASK
  else if L_ISIG t && (c =? QUIT_CHAR t) then signal QUITMASK
  else mk_line (c :: typed s) (if terminator t c then u32 (ends s + 1) else ends s) (halted s) (raised s).
(** One character from the raw queue. *)
Definition a_char (t : tty_struct) (s : line) (c : Z) : line :=
  match a_map t c with
  | None => s
  | Some c => a_cook t s (if I_UCLC t then lower c else c)
  end.

(** ** The states the line discipline goes through *)
Definition raise (g mask : Z) (o : option task_struct) : option task_struct :=
  match o with
  | Some p => Some (if pgrp p =? g then p <| signal ::= fun s => Z.lor s mask |> else p)
  | None => None
  end.
(** [k] with terminal [i] as [t] is, but for its input side, and the signals [m] sent
    to its process group. *)
Definition input_state (k : kernel) (i : nat) (t : tty_struct) (rq sq : tty_queue) (st m : Z) : kernel :=
  k <| tty_table ::= <[i := t <| read_q := rq |> <| secondary := sq |> <| stopped := st |>]> |>
    <| task ::= map (raise (tty_pgrp t) m) |>.

Lemma raise_raise g a b o : raise g b (raise g a o) = raise g (Z.lor a b) o.
Proof.
  destruct o as [p|]; [|done]. unfold raise. destruct (pgrp p =? g) eqn:E; [|by rewrite E].
  change (pgrp (p <| signal ::= fun s => Z.lor s a |>)) with (pgrp p). rewrite E. destruct p. cbn. unfold upd_signal. cbn.
  do 2 f_equal. by rewrite Z.lor_assoc.
Qed.
Lemma raise_none g o : raise g 0 o = o.
Proof. destruct o as [p|]; [|done]. cbn. destruct (_ =? _); [|done]. destruct p. cbn. unfold upd_signal. cbn. by rewrite Z.lor_0_r. Qed.

Lemma lower_run {S} c (s : S) : - 1 <= c < 256 -> Ctype.tolower c s = Done (lower c) s.
Proof.
  intros Hc. unfold Ctype.tolower, Ctype.isupper, Ctype.class_bits, bind, ret, lower.
  rewrite (proj2 (Z.ltb_ge c (-1))) by lia.
  assert (forall n, (n < 257)%nat -> exists v, Ctype._ctype !! n = Some v /\
    truth (Z.land v Ctype._U) = ((66 <=? Z.of_nat n) && (Z.of_nat n <=? 91))) as Htab.
  { intros n Hn. assert (forallb (fun n => match Ctype._ctype !! n with
      | Some v => Bool.eqb (truth (Z.land v Ctype._U)) ((66 <=? Z.of_nat n) && (Z.of_nat n <=? 91))
      | None => false end) (seq 0 257) = true) as Hall by (vm_compute; done).
    rewrite forallb_forall in Hall. specialize (Hall n ltac:(apply in_seq; lia)).
    destruct (Ctype._ctype !! n) as [v|]; [|done]. exists v. split; [done|]. by apply eqb_prop. }
  destruct (Htab (Z.to_nat (c + 1)) ltac:(lia)) as (v & -> & E). cbn [deref ret]. rewrite E, Z2Nat.id by lia.
  replace ((66 <=? c + 1) && (c + 1 <=? 91)) with ((65 <=? c) && (c <=? 90)); [done|].
  apply eq_bool_prop_intro. rewrite !andb_True, !Is_true_true, !Z.leb_le. lia.
Qed.

Section Discipline.
Context (inb : Z -> Z) (copy : nat -> M kernel unit) (k : kernel) (i : nat) (t : tty_struct).
Hypothesis (Hi : (i < length (tty_table k))%nat) (Hecho : L_ECHO t = false).
Let state := input_state k i t.

Lemma get_tty_run rq sq st m :
  get_tty i (state rq sq st m) = Done (t <| read_q := rq |> <| secondary := sq |> <| stopped := st |>) (state rq sq st m).
Proof. unfold get_tty, bind, get. cbn. by rewrite list_lookup_insert_eq. Qed.
Lemma mod_tty_run f rq sq st m rq' sq' st' :
  f (t <| read_q := rq |> <| secondary := sq |> <| stopped := st |>)
    = t <| read_q := rq' |> <| secondary := sq' |> <| stopped := st' |> ->
  mod_tty i f (state rq sq st m) = Done tt (state rq' sq' st' m).
Proof.
  intros E. unfold mod_tty, bind. rewrite get_tty_run, E.
  unfold modify, input_state, upd_tty_table, upd_task. cbn. unfold upd_tty_table, upd_task. cbn.
  by rewrite list_insert_insert_eq.
Qed.
Lemma tty_intr_run mask rq sq st m :
  tty_intr i mask (state rq sq st m) =
    Done tt (state rq sq st (if tty_pgrp t <=? 0 then m else Z.lor m mask)).
Proof.
  unfold tty_intr, bind. rewrite get_tty_run. cbn -[input_state].
  destruct (tty_pgrp t <=? 0); [done|]. unfold modify, input_state. cbn. unfold upd_tty_table, upd_task. cbn.
  rewrite map_map. unfold state, input_state. cbn. unfold upd_tty_table, upd_task. cbn. do 2 f_equal.
  apply map_ext. intros o. apply raise_raise.
Qed.

Lemma terminator_keep c rq sq st :
  terminator (t <| read_q := rq |> <| secondary := sq |> <| stopped := st |>) c = terminator t c.
Proof. done. Qed.

(** The current line's last character can be erased when it is no terminator. *)
Lemma erasable_run rq sq st m l : ring sq (reverse l) ->
  erasable i (state rq sq st m) =
    Done (match l with c :: _ => if terminator t c then None else Some c | [] => None end) (state rq sq st m).
Proof.
  intros H. unfold erasable, bind. rewrite get_tty_run. cbn -[input_state].
  rewrite (ring_empty _ _ H). unfold len. rewrite length_reverse. destruct l as [|c l]; [done|].
  rewrite (proj2 (Z.eqb_neq _ 0)) by (cbn; lia).
  destruct (ring_last _ _ H c (reverse l)) as [-> _]; [by rewrite reverse_cons|]. done.
Qed.
Lemma erase_last_run c rq sq st m :
  erase_last inb copy i c (state rq sq st m) = Done tt (state rq (sq <| head ::= DEC |>) st m).
Proof.
  unfold erase_last, bind. rewrite get_tty_run. change (L_ECHO _) with (L_ECHO t). rewrite Hecho. cbn [when ret].
  by apply mod_tty_run.
Qed.
Lemma kill_line_run rq st m : forall l sq n, ring sq (reverse l) -> (length l < n)%nat ->
  exists sq', loop n (fun _ : unit =>
      o <- erasable i ;;
      match o with
      | Some c => erase_last inb copy i c ;;; ret (inl tt)
      | None => ret (inr tt)
      end) tt (state rq sq st m) = Done tt (state rq sq' st m) /\
    ring sq' (reverse (a_kill t l)) /\ data sq' = data sq /\ proc_list sq' = proc_list sq.
Proof.
  induction l as [|c l IH]; intros sq n H Hn; (destruct n as [|n]; [cbn in Hn; lia|]); cbn [loop]; unfold bind at 1 2.
  - rewrite (erasable_run _ _ _ _ _ H). exists sq. done.
  - rewrite (erasable_run _ _ _ _ _ H). cbn [a_kill]. destruct (terminator t c); [exists sq; done|].
    unfold bind at 1. rewrite erase_last_run.
    destruct (IH (sq <| head ::= DEC |>) n) as (sq' & E & ? & ? & ?); [|cbn in Hn; lia|].
    + apply (ring_last _ _ H c). by rewrite reverse_cons.
    + exists sq'. done.
Qed.

(** One character without echo: the line afterwards is [s']. *)
Definition cooks_to (m : M kernel unit) (rq sq : tty_queue) (st sg : Z) (s' : line) : Prop :=
  exists sq', m (state rq sq st sg) = Done tt (state rq sq' (halted s') (raised s')) /\
    ring sq' (reverse (typed s')) /\ data sq' = ends s' /\ proc_list sq' = proc_list sq.
(** The end of [cook], for a character that is none of the special ones. *)
Definition put_char (c : Z) : M kernel unit :=
  t <- get_tty i ;;
  when ((c =? 10) || (c =? EOF_CHAR t))
    (mod_tty i (upd_queue Secondary (fun q => q <| data ::= fun d => u32 (d + 1) |>))) ;;;
  when (L_ECHO t) (echo inb copy i c) ;;;
  PUTCH c i Secondary.
Lemma put_char_run c rq sq st m l d : ring sq (reverse l) -> data sq = d -> len l < 1023 -> - 128 <= c < 128 ->
  cooks_to (put_char c) rq sq st m (mk_line (c :: l) (if terminator t c then u32 (d + 1) else d) st m).
Proof.
  intros H Hd Hl Hc. set (sq1 := if terminator t c then sq <| data ::= fun d => u32 (d + 1) |> else sq).
  exists (put_queue c sq1). unfold put_char, bind at 1. rewrite get_tty_run.
  change (EOF_CHAR _) with (EOF_CHAR t). change (L_ECHO _) with (L_ECHO t). fold (terminator t c). rewrite Hecho.
  assert (when (terminator t c) (mod_tty i (upd_queue Secondary (fun q => q <| data ::= fun d => u32 (d + 1) |>)))
    (state rq sq st m) = Done tt (state rq sq1 st m)) as E1.
  { unfold sq1. destruct (terminator t c); cbn [when]; [by apply mod_tty_run|done]. }
  unfold bind. rewrite E1. cbn [when ret]. split; [by apply mod_tty_run|].
  assert (ring sq1 (reverse l)) as H1 by (unfold sq1; by destruct (terminator t c)).
  split; [|unfold sq1; destruct (terminator t c); cbn; by subst].
  cbn [typed]. rewrite reverse_cons. apply ring_put; [done| |unfold i8; rewrite Z.mod_small; lia].
  unfold len in *. by rewrite length_reverse.
Qed.
(** [cook] after [edit]. *)
Definition signal_char (c : Z) : M kernel unit :=
  t <- get_tty i ;;
  done <- (if L_ISIG t then interrupt i c else ret false) ;;
  if done : bool then ret tt else put_char c.
Lemma signal_char_run c rq sq st m l d (raise := fun mask => mk_line l d st (if tty_pgrp t <=? 0 then m else Z.lor m mask)) :
  ring sq (reverse l) -> data sq = d -> len l < 1023 -> - 128 <= c < 128 ->
  cooks_to (signal_char c) rq sq st m
    (if L_ISIG t && (c =? INTR_CHAR t) then raise INTMASK
     else if L_ISIG t && (c =? QUIT_CHAR t) then raise QUITMASK
     else mk_line (c :: l) (if terminator t c then u32 (d + 1) else d) st m).
Proof.
  intros H Hd Hl Hc. pose proof (put_char_run c rq sq st m l d H Hd Hl Hc) as Hput. unfold signal_char, cooks_to, bind at 1. rewrite get_tty_run. change (L_ISIG _) with (L_ISIG t).
  destruct (L_ISIG t) eqn:Hs; cbn [andb].
  2:{ destruct Hput as (sq' & E & Hq). exists sq'. unfold bind at 1, ret at 1. rewrite E. done. }
  unfold bind at 1, interrupt. unfold bind at 1. rewrite get_tty_run.
  change (INTR_CHAR (_ <| stopped := _ |>)) with (INTR_CHAR t). change (QUIT_CHAR (_ <| stopped := _ |>)) with (QUIT_CHAR t).
  destruct (c =? INTR_CHAR t); [exists sq; unfold bind at 1; by rewrite tty_intr_run|].
  destruct (c =? QUIT_CHAR t); [exists sq; unfold bind at 1; by rewrite tty_intr_run|].
  destruct Hput as (sq' & E & Hq). exists sq'. unfold ret at 1. rewrite E. done.
Qed.
Lemma cook_run c rq sq st m l d :
  ring sq (reverse l) -> data sq = d -> len l < 1023 -> - 128 <= c < 128 ->
  cooks_to (cook inb copy i c) rq sq st m (a_cook t (mk_line l d st m) c).
Proof.
  intros H Hd Hl Hc. pose proof (signal_char_run c rq sq st m l d H Hd Hl Hc) as (sqs & Esig & Hsig).
  unfold cook, a_cook. fold (put_char c). fold (signal_char c). cbn [typed ends halted raised]. unfold cooks_to. unfold bind at 1. rewrite get_tty_run. change (L_CANON _) with (L_CANON t).
  destruct (L_CANON t) eqn:HC; cbn [andb].
  2:{ exists sqs. unfold bind at 1, ret at 1. rewrite Esig. done. }
  unfold bind at 1, edit. unfold bind at 1. rewrite get_tty_run.
  change (KILL_CHAR (_ <| stopped := _ |>)) with (KILL_CHAR t). change (ERASE_CHAR (_ <| stopped := _ |>)) with (ERASE_CHAR t).
  change (STOP_CHAR (_ <| stopped := _ |>)) with (STOP_CHAR t). change (START_CHAR (_ <| stopped := _ |>)) with (START_CHAR t).
  destruct (c =? KILL_CHAR t).
  { destruct (kill_line_run rq st m l sq 1024 H) as (sq' & E & ? & ? & ?); [unfold len in Hl; lia|].
    exists sq'. unfold bind at 1, kill_line. rewrite E. subst d. done. }
  destruct (c =? ERASE_CHAR t).
  { unfold bind at 1. rewrite (erasable_run _ _ _ _ _ H). destruct l as [|x l]; [exists sq; done|].
    cbn [a_erase typed]. destruct (terminator t x) eqn:Hx; [exists sq; done|].
    exists (sq <| head ::= DEC |>). unfold bind at 1. rewrite erase_last_run. split; [done|].
    split; [|done]. apply (ring_last _ _ H x). by rewrite reverse_cons. }
  destruct (c =? STOP_CHAR t).
  { exists sq. unfold bind at 1. rewrite (mod_tty_run _ rq sq st m rq sq 1) by done. done. }
  destruct (c =? START_CHAR t).
  { exists sq. unfold bind at 1. rewrite (mod_tty_run _ rq sq st m rq sq 0) by done. done. }
  exists sqs. unfold ret at 1. rewrite Esig. done.
Qed.
End Discipline.

Lemma input_state_start k i t : tty_table k !! i = Some t ->
  input_state k i t (read_q t) (secondary t) (stopped t) 0 = k.
Proof.
  intros Ht. unfold input_state. destruct t, k. cbn in *. unfold upd_tty_table, upd_task, upd_read_q, upd_secondary, upd_stopped.
  cbn. rewrite list_insert_id by done. f_equal. rewrite <- (map_id task) at 2. apply map_ext. intros o. apply raise_none.
Qed.

Lemma a_kill_le t l : (length (a_kill t l) <= length l)%nat.
Proof. induction l as [|c l IH]; [done|]. cbn. destruct (terminator t c); cbn; lia. Qed.
Lemma a_cook_len t s c : len (typed (a_cook t s c)) <= len (typed s) + 1.
Proof.
  unfold a_cook, len. pose proof (a_kill_le t (typed s)).
  assert (length (a_erase t (typed s)) <= length (typed s))%nat
    by (destruct (typed s) as [|x l]; [done|]; cbn; destruct (terminator t x); cbn; lia).
  repeat match goal with |- context [if ?b then _ else _] => destruct b; cbn [typed length]; try lia end.
Qed.
Lemma a_char_len t s c : len (typed (a_char t s c)) <= len (typed s) + 1.
Proof. unfold a_char. destruct (a_map t c); [apply a_cook_len|lia]. Qed.

(** What may be in the raw queue; [tolower] reads its table from -1 on. *)
Definition char_ok (t : tty_struct) (c : Z) : Prop := - 128 <= c < 128 /\ (I_UCLC t = true -> - 1 <= c).
Lemma a_map_ok t c c' : char_ok t c -> a_map t c = Some c' -> char_ok t c'.
Proof.
  unfold a_map, char_ok. intros [H1 H2].
  repeat match goal with |- context [if ?b then _ else _] => destruct b end; intros [= <-]; (split; [lia|intros; lia]) || auto.
Qed.

Section Loop.
Context (inb : Z -> Z) (copy : nat -> M kernel unit) (k : kernel) (i : nat) (t : tty_struct).
Hypothesis (Hi : (i < length (tty_table k))%nat) (Hecho : L_ECHO t = false).

Lemma cook_next_run c rq sq s xs l :
  ring rq (c :: xs) -> ring sq (reverse (typed s)) -> data sq = ends s -> len (typed s) < 1023 -> char_ok t c ->
  l = typed s ->
  exists sq', let s' := a_char t s c in
    cook_next inb copy i tt (input_state k i t rq sq (halted s) (raised s)) =
      Done (inl tt) (input_state k i t (drop_queue rq) sq' (halted s') (raised s')) /\
    ring sq' (reverse (typed s')) /\ data sq' = ends s' /\ proc_list sq' = proc_list sq.
Proof.
  intros Hr Hs Hd Hl Hc ->. destruct (ring_get _ _ Hr c xs eq_refl) as [Hat Hdrop].
  unfold cook_next. unfold bind at 1. rewrite get_tty_run by done.
  change (read_q (_ <| stopped := _ |>)) with rq. change (secondary (_ <| stopped := _ |>)) with sq.
  rewrite (ring_empty _ _ Hr), (ring_full _ _ Hs), len_cons. unfold len at 1 2. rewrite length_reverse.
  fold (len (typed s)). rewrite (proj2 (Z.eqb_neq _ 0)), (proj2 (Z.eqb_neq _ 1023)) by (unfold len in *; lia).
  cbn [orb]. unfold bind at 1, GETCH. unfold bind at 1. rewrite get_tty_run by done.
  change (queue Read (_ <| stopped := _ |>)) with rq. unfold bind at 1. rewrite Hat. cbn [deref ret].
  unfold bind at 1. rewrite (mod_tty_run k i t Hi _ rq sq (halted s) (raised s) (drop_queue rq) sq (halted s)) by done.
  unfold ret at 1. unfold bind at 1, map_input, a_char, a_map.
  change (I_CRNL (_ <| stopped := _ |>)) with (I_CRNL t). change (I_NOCR (_ <| stopped := _ |>)) with (I_NOCR t).
  change (I_NLCR (_ <| stopped := _ |>)) with (I_NLCR t). change (I_UCLC (_ <| stopped := _ |>)) with (I_UCLC t).
  assert (forall c', char_ok t c' -> exists sq', let s' := a_cook t s (if I_UCLC t then lower c' else c') in
    (c0 <- (if I_UCLC t then Ctype.tolower c' else ret c') ;; cook inb copy i c0 ;;; ret (inl tt))
      (input_state k i t (drop_queue rq) sq (halted s) (raised s)) =
      Done (inl tt : unit + unit) (input_state k i t (drop_queue rq) sq' (halted s') (raised s')) /\
    ring sq' (reverse (typed s')) /\ data sq' = ends s' /\ proc_list sq' = proc_list sq) as Hcook.
  { intros c' [Hc1 Hc2]. set (c'' := if I_UCLC t then lower c' else c').
    assert (- 128 <= c'' < 128) as Hc''.
    { unfold c'', lower. destruct (I_UCLC t); [|done]. destruct (Z.leb_spec 65 c'), (Z.leb_spec c' 90); cbn; lia. }
    destruct (cook_run inb copy k i t Hi Hecho c'' (drop_queue rq) sq (halted s) (raised s) (typed s) (ends s))
      as (sq' & E & ? & ? & ?); try done. exists sq'. cbn zeta in E |- *.
    replace (mk_line (typed s) (ends s) (halted s) (raised s)) with s in * by (by destruct s).
    split; [|done]. unfold bind at 1.
    assert ((if I_UCLC t then Ctype.tolower c' else ret c') (input_state k i t (drop_queue rq) sq (halted s) (raised s))
      = Done c'' (input_state k i t (drop_queue rq) sq (halted s) (raised s))) as ->.
    { unfold c''. destruct (I_UCLC t) eqn:Hu; [|done]. apply lower_run. specialize (Hc2 eq_refl). lia. }
    unfold bind. by rewrite E. }
  destruct ((c =? 13) && I_CRNL t); [apply (Hcook 10); split; lia|].
  destruct ((c =? 13) && I_NOCR t); [by exists sq|].
  destruct ((c =? 10) && I_NLCR t); [apply (Hcook 13); split; lia|]. by apply Hcook.
Qed.

Lemma cook_all_run : forall xs rq sq s n,
  ring rq xs -> ring sq (reverse (typed s)) -> data sq = ends s -> len (typed s) + len xs <= 1023 ->
  Forall (char_ok t) xs -> (length xs < n)%nat ->
  exists rq' sq', let s' := foldl (a_char t) s xs in
    loop n (cook_next inb copy i) tt (input_state k i t rq sq (halted s) (raised s)) =
      Done tt (input_state k i t rq' sq' (halted s') (raised s')) /\
    ring rq' [] /\ ring sq' (reverse (typed s')) /\ data sq' = ends s' /\ proc_list sq' = proc_list sq.
Proof.
  induction xs as [|c xs IH]; intros rq sq s n Hr Hs Hd Hl Hok Hn; (destruct n as [|n]; [cbn in Hn; lia|]);
    cbn [loop]; unfold bind at 1.
  - exists rq, sq. unfold cook_next. unfold bind at 1. rewrite get_tty_run by done.
    change (read_q (_ <| stopped := _ |>)) with rq. by rewrite (ring_empty _ _ Hr).
  - apply Forall_cons in Hok as [Hc Hok]. rewrite len_cons in Hl. assert (0 <= len xs) by (unfold len; lia).
    destruct (cook_next_run c rq sq s xs (typed s) Hr Hs Hd) as (sq1 & E & H1 & H2 & H3); [lia|done|done|].
    rewrite E. pose proof (a_char_len t s c). cbn [foldl].
    destruct (IH (drop_queue rq) sq1 (a_char t s c) n) as (rq' & sq' & E' & ? & ? & ? & ?); try done.
    + by apply (ring_get _ _ Hr c).
    + lia.
    + cbn in Hn. lia.
    + exists rq', sq'. split; [exact E'|]. split; [done|]. split; [done|]. split; [done|congruence].
Qed.
End Loop.

(** C25: the line discipline without echo.  Taken from the interrupt with room in the
    cooked queue for all the raw characters, [copy_to_cooked] empties the raw
    queue and leaves in the cooked queue exactly the line edited by the
    characters typed (erase and kill stop at the line's start, CR/NL and case are
    mapped, control characters send their signals to the process group and
    stop or start the output), counts in [data] the lines that were ended, changes
    nothing else, and then wakes the readers. *)
Theorem copy_to_cooked_line inb k i t xs l rounds depth :
  tty_table k !! i = Some t -> L_ECHO t = false ->
  ring (read_q t) xs -> ring (secondary t) (reverse l) -> len l + len xs <= 1023 ->
  Forall (char_ok t) xs -> (length xs < rounds)%nat ->
  let s' := foldl (a_char t) (mk_line l (data (secondary t)) (stopped t) 0) xs in
  exists rq sq, ring rq [] /\ ring sq (reverse (typed s')) /\ data sq = ends s' /\
    copy_to_cooked inb rounds (S depth) i k =
      Sched.wake_up (proc_list (secondary t)) (input_state k i t rq sq (halted s') (raised s')).
Proof.
  intros Ht He Hr Hs Hl Hok Hn. pose proof (lookup_lt_Some _ _ _ Ht) as Hi.
  destruct (cook_all_run inb (copy_to_cooked inb rounds depth) k i t Hi He xs (read_q t) (secondary t)
    (mk_line l (data (secondary t)) (stopped t) 0) rounds) as (rq & sq & E & ? & ? & ? & Hp); try done.
  exists rq, sq. split; [done|]. split; [done|]. split; [done|]. cbn [copy_to_cooked]. unfold bind at 1.
  cbn [halted raised] in E. rewrite input_state_start in E by done. rewrite E. unfold bind at 1.
  rewrite get_tty_run by done. change (secondary (_ <| stopped := _ |>)) with sq. by rewrite Hp.
Qed.

(** The console in canonical mode without echo, with [a b DEL c newline] typed. *)
Definition typed_tty : tty_struct :=
  mk_tty (mk_termios 256 5 0 2563 0 INIT_C_CC) 0 0 con_write_fn
    (foldl (fun q c => put_queue c q) (empty_queue 0 100) [97; 98; 127; 99; 13])
    (empty_queue 0 101) (empty_queue 0 102).
Definition typed_kernel : kernel := boot_kernel <| tty_table := [typed_tty] |>.
Lemma ring_new d p : ring (empty_queue d p) [].
Proof. split; [done|]. split; [cbn; lia|]. split; [done|]. split; [done|]. intros j Hj. change (len []) with 0 in Hj. lia. Qed.
Lemma ring_typed xs : forall q l, ring q l -> len l + len xs <= 1023 -> Forall (fun c => i8 c = c) xs ->
  ring (foldl (fun q c => put_queue c q) q xs) (l ++ xs).
Proof.
  induction xs as [|c xs IH]; intros q l H Hl Hc; [by rewrite app_nil_r|]. cbn [foldl].
  apply Forall_cons in Hc as [Hc Hcs]. rewrite len_cons in Hl. assert (0 <= len xs) by (unfold len; lia).
  rewrite cons_middle, app_assoc. apply IH; [|rewrite len_app; change (len [c]) with 1; lia|done].
  apply ring_put; [done|lia|done].
Qed.
Lemma copy_to_cooked_line_witness :
  exists rq sq, ring rq [] /\ ring sq [97; 99; 10] /\ data sq = 1 /\
    copy_to_cooked (fun _ => 0) 10 1 0 typed_kernel =
      Sched.wake_up 102 (input_state typed_kernel 0 typed_tty rq sq 0 0).
Proof.
  apply (copy_to_cooked_line (fun _ => 0) typed_kernel 0 typed_tty [97; 98; 127; 99; 13] [] 10 0).
  - reflexivity.
  - reflexivity.
  - apply (ring_typed [97; 98; 127; 99; 13] _ [] (ring_new 0 100)); [vm_compute; congruence|]. repeat constructor.
  - apply ring_new.
  - vm_compute. congruence.
  - repeat constructor; (lia || discriminate).
  - cbn. lia.
Defined.

(** ** Output processing *)
Definition upper (c : Z) : Z := if (97 <=? c) && (c <=? 122) then c - 32 else c.
Lemma upper_run {S} c (s : S) : - 1 <= c < 256 -> Ctype.toupper c s = Done (upper c) s.
Proof.
  intros Hc. unfold Ctype.toupper, Ctype.islower, Ctype.class_bits, bind, ret, upper.
  rewrite (proj2 (Z.ltb_ge c (-1))) by lia.
  assert (forall n, (n < 257)%nat -> exists v, Ctype._ctype !! n = Some v /\
    truth (Z.land v Ctype._L) = ((98 <=? Z.of_nat n) && (Z.of_nat n <=? 123))) as Htab.
  { intros n Hn. assert (forallb (fun n => match Ctype._ctype !! n with
      | Some v => Bool.eqb (truth (Z.land v Ctype._L)) ((98 <=? Z.of_nat n) && (Z.of_nat n <=? 123))
      | None => false end) (seq 0 257) = true) as Hall by (vm_compute; done).
    rewrite forallb_forall in Hall. specialize (Hall n ltac:(apply in_seq; lia)).
    destruct (Ctype._ctype !! n) as [v|]; [|done]. exists v. split; [done|]. by apply eqb_prop. }
  destruct (Htab (Z.to_nat (c + 1)) ltac:(lia)) as (v & -> & E). cbn [deref ret]. rewrite E, Z2Nat.id by lia.
  replace ((98 <=? c + 1) && (c + 1 <=? 123)) with ((97 <=? c) && (c <=? 122)); [done|].
  apply eq_bool_prop_intro. rewrite !andb_True, !Is_true_true, !Z.leb_le. lia.
Qed.

(** What a character written becomes in the write queue: carriage returns and
    newlines are mapped, a newline is preceded by a carriage return, and lower
    case letters become capitals, as the output modes say. *)
Definition out_map (t : tty_struct) (c : Z) : Z :=
  if O_POST t && (c =? 13) && O_CRNL t then 10
  else if O_POST t && (c =? 10) && O_NLRET t then 13 else c.
Definition out_case (t : tty_struct) (c : Z) : Z := if O_POST t && O_LCUC t then upper c else c.
Definition out (t : tty_struct) (c : Z) : list Z :=
  let c1 := out_map t c in
  if O_POST t && (c1 =? 10) && O_NLCR t then [13; out_case t c1] else [out_case t c1].
Definition out_ok (t : tty_struct) (c : Z) : Prop := - 128 <= c < 128 /\ (O_POST t && O_LCUC t = true -> - 1 <= c).

Definition write_state (k : kernel) (i : nat) (t : tty_struct) (wq : tty_queue) (cr : Z) : kernel :=
  k <| tty_table ::= <[i := t <| write_q := wq |>]> |> <| cr_flag := cr |>.

Section Output.
Context (k : kernel) (i : nat) (t : tty_struct) (buf : Z).
Hypothesis (Hi : (i < length (tty_table k))%nat).

Lemma get_tty_write wq cr : get_tty i (write_state k i t wq cr) = Done (t <| write_q := wq |>) (write_state k i t wq cr).
Proof. unfold get_tty, bind, get. cbn. by rewrite list_lookup_insert_eq. Qed.
Lemma putch_write c wq cr :
  PUTCH c i Write (write_state k i t wq cr) = Done tt (write_state k i t (put_queue c wq) cr).
Proof.
  unfold PUTCH, mod_tty, bind. rewrite get_tty_write. unfold modify, write_state. cbn.
  unfold upd_tty_table, upd_cr_flag. cbn. by rewrite list_insert_insert_eq.
Qed.
Lemma cr_flag_write v wq cr :
  modify (fun k => k <| cr_flag := v |>) (write_state k i t wq cr) = Done tt (write_state k i t wq v).
Proof. done. Qed.

Lemma out_case_ok c : out_ok t c -> - 128 <= out_case t (out_map t c) < 128.
Proof.
  intros [Hc _]. assert (- 128 <= out_map t c < 128) as H.
  { unfold out_map. repeat match goal with |- context [if ?b then _ else _] => destruct b end; lia. }
  unfold out_case, upper. destruct (_ && _); [|done].
  destruct (Z.leb_spec 97 (out_map t c)), (Z.leb_spec (out_map t c) 122); cbn; lia.
Qed.

(** One round of the inner loop, by what [cr_flag] says. *)
Lemma write_char_run c b wq cr :
  default 0 (umem k !! u32 (buf + b)) = u8 c -> out_ok t c ->
  write_char i buf b (write_state k i t wq cr) =
    (if O_POST t && (out_map t c =? 10) && negb (truth cr) && O_NLCR t
     then Done b (write_state k i t (put_queue 13 wq) 1)
     else Done (b + 1) (write_state k i t (put_queue (out_case t (out_map t c)) wq) 0)).
Proof.
  intros Hb [Hc Hu]. unfold write_char, bind at 1. rewrite get_tty_write.
  unfold bind at 1, get_fs_byte, gets. change (umem (write_state k i t wq cr)) with (umem k). rewrite Hb.
  replace (i8 (u8 c)) with c by (unfold i8, u8; dlia).
  change (O_POST (t <| write_q := wq |>)) with (O_POST t). change (O_CRNL (t <| write_q := wq |>)) with (O_CRNL t).
  change (O_NLRET (t <| write_q := wq |>)) with (O_NLRET t). change (O_NLCR (t <| write_q := wq |>)) with (O_NLCR t).
  change (O_LCUC (t <| write_q := wq |>)) with (O_LCUC t).
  unfold bind at 1, get. fold (out_map t c). change (cr_flag (write_state k i t wq cr)) with cr.
  destruct (O_POST t && (out_map t c =? 10) && negb (truth cr) && O_NLCR t).
  - unfold bind at 1. rewrite cr_flag_write. unfold bind at 1. by rewrite putch_write.
  - unfold bind at 1. assert ((if O_POST t && O_LCUC t then Ctype.toupper (out_map t c) else ret (out_map t c))
      (write_state k i t wq cr) = Done (out_case t (out_map t c)) (write_state k i t wq cr)) as ->.
    { unfold out_case. destruct (O_POST t && O_LCUC t) eqn:E; [|done]. apply upper_run. specialize (Hu eq_refl).
      unfold out_map. repeat match goal with |- context [if ?b then _ else _] => destruct b end; lia. }
    unfold bind at 1. rewrite cr_flag_write. unfold bind at 1. by rewrite putch_write.
Qed.

Lemma write_round c b n wq ws cr fuel :
  default 0 (umem k !! u32 (buf + b)) = u8 c -> out_ok t c -> ring wq ws -> b < n -> len ws < 1023 ->
  loop (S fuel) (fun b => t <- get_tty i ;;
    if (b <? n) && negb (FULL (write_q t)) then b' <- write_char i buf b ;; ret (inl b') else ret (inr b)) b
    (write_state k i t wq cr) =
  (if O_POST t && (out_map t c =? 10) && negb (truth cr) && O_NLCR t
   then loop fuel (fun b => t <- get_tty i ;;
    if (b <? n) && negb (FULL (write_q t)) then b' <- write_char i buf b ;; ret (inl b') else ret (inr b)) b
     (write_state k i t (put_queue 13 wq) 1)
   else loop fuel (fun b => t <- get_tty i ;;
    if (b <? n) && negb (FULL (write_q t)) then b' <- write_char i buf b ;; ret (inl b') else ret (inr b)) (b + 1)
     (write_state k i t (put_queue (out_case t (out_map t c)) wq) 0)).
Proof.
  intros Hm Hok Hr Hb Hl. cbn [loop]. unfold bind at 1 2. rewrite get_tty_write.
  change (write_q (t <| write_q := wq |>)) with wq. rewrite (ring_full _ _ Hr).
  rewrite (proj2 (Z.ltb_lt b n)), (proj2 (Z.eqb_neq _ 1023)) by lia. cbn [negb andb].
  unfold bind at 1. rewrite (write_char_run c) by done. by destruct (_ && _).
Qed.

Lemma write_chars_run n : forall cs b wq ws fuel,
  ring wq ws -> n = b + len cs ->
  (forall j, 0 <= j < len cs -> exists c, cs !! Z.to_nat j = Some c /\ default 0 (umem k !! u32 (buf + (b + j))) = u8 c) ->
  Forall (out_ok t) cs -> len ws + len (flat_map (out t) cs) <= 1023 -> len (flat_map (out t) cs) < Z.of_nat fuel ->
  exists wq', ring wq' (ws ++ flat_map (out t) cs) /\ data wq' = data wq /\ proc_list wq' = proc_list wq /\
    loop fuel (fun b => t <- get_tty i ;;
      if (b <? n) && negb (FULL (write_q t)) then b' <- write_char i buf b ;; ret (inl b') else ret (inr b)) b
      (write_state k i t wq 0) = Done n (write_state k i t wq' 0).
Proof.
  induction cs as [|c cs IH]; intros b wq ws fuel Hr Hn Hm Hok Hl Hf.
  - exists wq. rewrite app_nil_r. split; [done|]. split; [done|]. split; [done|].
    change (len []) with 0 in Hn. destruct fuel as [|fuel]; [unfold len in Hf; cbn in Hf; lia|]. cbn [loop]. unfold bind at 1 2.
    rewrite get_tty_write, (proj2 (Z.ltb_ge b n)) by lia. cbn. do 2 f_equal. lia.
  - apply Forall_cons in Hok as [Hc Hok]. rewrite len_cons in Hn, Hm. cbn [flat_map] in *. rewrite len_app in Hl, Hf.
    assert (0 <= len cs /\ 0 <= len (flat_map (out t) cs) /\ 0 <= len ws) as (? & ? & ?) by (unfold len; lia).
    destruct (Hm 0 ltac:(lia)) as (c0 & [= <-] & Hm0). rewrite Z.add_0_r in Hm0.
    pose proof (out_case_ok c Hc) as Hoc.
    assert (i8 (out_case t (out_map t c)) = out_case t (out_map t c)) as Hi8
      by (unfold i8; rewrite Z.mod_small; lia).
    assert (forall j, 0 <= j < len cs -> exists c, cs !! Z.to_nat j = Some c /\
      default 0 (umem k !! u32 (buf + (b + 1 + j))) = u8 c) as Hm'.
    { intros j Hj. destruct (Hm (j + 1) ltac:(lia)) as (x & Hx & E).
      replace (Z.to_nat (j + 1)) with (S (Z.to_nat j)) in Hx by lia. exists x. split; [exact Hx|].
      by replace (b + 1 + j) with (b + (j + 1)) by lia. }
    destruct (O_POST t && (out_map t c =? 10) && O_NLCR t) eqn:E.
    + assert (out t c = [13; out_case t (out_map t c)]) as Eo by (unfold out; by rewrite E).
      rewrite Eo in *. change (len [13; out_case t (out_map t c)]) with 2 in *.
      destruct fuel as [|[|fuel]]; [lia|lia|].
      rewrite (write_round c _ _ _ ws) by (done || lia).
      assert (O_POST t && (out_map t c =? 10) && negb (truth 0) && O_NLCR t = true) as ->.
      { cbn [truth negb Z.eqb]. rewrite andb_true_r. destruct (O_POST t), (out_map t c =? 10), (O_NLCR t); done. }
      assert (ring (put_queue 13 wq) (ws ++ [13])) as Hr1 by (apply ring_put; [done|lia|done]).
      rewrite (write_round c _ _ _ (ws ++ [13])) by (done || (rewrite ?len_app; change (len [13]) with 1; lia)).
      replace (O_POST t && (out_map t c =? 10) && negb (truth 1) && O_NLCR t) with false
        by (cbn [truth negb Z.eqb]; by rewrite andb_false_r).
      destruct (IH (b + 1) (put_queue (out_case t (out_map t c)) (put_queue 13 wq)) ((ws ++ [13]) ++ [out_case t (out_map t c)]) fuel)
        as (wq' & Hr' & Hd & Hp & El); try done; try lia.
      * apply ring_put; [done| |exact Hi8]. rewrite len_app. change (len [13]) with 1. lia.
      * rewrite !len_app. change (len [13]) with 1. change (len [out_case t (out_map t c)]) with 1. lia.
      * exists wq'. rewrite <- app_assoc in Hr'. rewrite <- app_assoc in Hr'. done.
    + assert (out t c = [out_case t (out_map t c)]) as Eo by (unfold out; by rewrite E).
      rewrite Eo in *. change (len [out_case t (out_map t c)]) with 1 in *. destruct fuel as [|fuel]; [lia|].
      rewrite (write_round c _ _ _ ws) by (done || lia).
      replace (O_POST t && (out_map t c =? 10) && negb (truth 0) && O_NLCR t) with false
        by (cbn [truth negb Z.eqb]; rewrite andb_true_r; by rewrite E).
      destruct (IH (b + 1) (put_queue (out_case t (out_map t c)) wq) (ws ++ [out_case t (out_map t c)]) fuel)
        as (wq' & Hr' & Hd & Hp & El); try done; try lia.
      * apply ring_put; [done|lia|exact Hi8].
      * rewrite len_app. change (len [out_case t (out_map t c)]) with 1. lia.
      * exists wq'. rewrite <- app_assoc in Hr'. done.
Qed.
End Output.

(** Writing to a serial line with room in its queue, no signal pending and no
    half-written newline: [tty_write] takes all the characters from the user's
    buffer, appends to the write queue what output processing makes of them, and
    switches the transmit interrupt on. *)
Theorem tty_write_serial inb {S : Services} fuel rounds depth k channel i t p buf cs ws :
  channel = Z.of_nat i -> channel <= 2 -> tty_table k !! i = Some t -> tty_drv t = rs_write_fn ->
  slot k (current k) = Some p -> signal p = 0 -> cr_flag k = 0 ->
  ring (write_q t) ws -> 0 < len cs -> len ws < 1023 ->
  (forall j, 0 <= j < len cs -> exists c, cs !! Z.to_nat j = Some c /\ default 0 (umem k !! u32 (buf + j)) = u8 c) ->
  Forall (out_ok t) cs -> len ws + len (flat_map (out t) cs) <= 1023 -> (1 < fuel)%nat ->
  exists wq, ring wq (ws ++ flat_map (out t) cs) /\ data wq = data (write_q t) /\
    tty_write inb fuel rounds depth channel buf (len cs) k =
      (rs_write inb i ;;; ret (len cs)) (write_state k i t wq 0).
Proof.
  intros Hch Hle Ht Hdrv Hp Hsig Hcr Hr Hn Hw Hm Hok Hl Hf. pose proof (lookup_lt_Some _ _ _ Ht) as Hi.
  assert (k = write_state k i t (write_q t) 0) as Ek.
  { unfold write_state. destruct t, k. cbn in *. unfold upd_tty_table, upd_cr_flag, upd_write_q. cbn.
    rewrite list_insert_id by done. by subst. }
  destruct (write_chars_run k i t buf Hi (len cs) cs 0 (write_q t) ws 1024 Hr) as (wq & Hr' & Hd & Hpl & E);
    try done; try (unfold len in *; lia).
  exists wq. split; [done|]. split; [done|]. unfold tty_write.
  rewrite u32_id, (proj2 (Z.ltb_ge 2 channel)), (proj2 (Z.ltb_ge (len cs) 0)) by lia. cbn [orb].
  rewrite Hch, Nat2Z.id. destruct fuel as [|[|fuel]]; [lia|lia|]. cbn [loop]. unfold bind at 1.
  rewrite (proj2 (Z.ltb_lt 0 (len cs))) by lia. cbn [negb]. unfold bind at 1.
  assert (sleep_if_full (Datatypes.S (Datatypes.S fuel)) i Write k = Done tt k) as ->.
  { unfold sleep_if_full, bind at 1, get_tty, bind, get. cbn. rewrite Ht. cbn [deref ret queue].
    rewrite (ring_full _ _ Hr), (proj2 (Z.eqb_neq _ 1023)) by lia. done. }
  unfold bind at 1. rewrite (cur_run k p Hp). unfold truth at 1. rewrite Hsig. cbn [Z.eqb negb].
  unfold bind at 1, write_chars. rewrite Ek at 1. change (Z.to_nat TTY_BUF_SIZE) with 1024%nat. rewrite E.
  unfold bind at 1, write_tty. unfold bind at 1. rewrite get_tty_write by done.
  change (tty_drv (t <| write_q := wq |>)) with (tty_drv t). rewrite Hdrv.
  assert (exists s', rs_write inb i (write_state k i t wq 0) = Done tt s') as [s' Es].
  { unfold rs_write, bind at 1. rewrite get_tty_write by done. change (write_q (t <| write_q := wq |>)) with wq.
    destruct (negb (EMPTY wq)); eexists; reflexivity. }
  assert ((rs_write inb i ;;; ret (len cs)) (write_state k i t wq 0) = Done (len cs) s') as ->
    by (unfold bind; by rewrite Es).
  rewrite Es. cbn [loop]. rewrite Z.ltb_irrefl. cbn. unfold bind, ret.
  by rewrite Z.ltb_irrefl.
Qed.

Lemma queue_fifo_witness :
  LEFT (put_queue 97 (empty_queue 0 100)) = 1022 /\ ring (put_queue 98 (put_queue 97 (empty_queue 0 100))) [97; 98].
Proof.
  destruct (queue_fifo (put_queue 97 (empty_queue 0 100)) [97]) as (_ & Hl & _ & _ & Hput & _).
  - apply (ring_put _ [] (ring_new 0 100)); [vm_compute; reflexivity|reflexivity].
  - split; [exact Hl|]. apply (Hput 98); [vm_compute; reflexivity|lia].
Defined.

(** The first serial line with newline mapping, and [a newline] in user memory. *)
Definition serial_tty : tty_struct :=
  mk_tty (mk_termios 0 5 59 0 0 INIT_C_CC) 0 0 rs_write_fn (empty_queue 1016 103) (empty_queue 1016 104) (empty_queue 0 105).
Definition serial_kernel : kernel :=
  boot_kernel <| tty_table := [serial_tty; serial_tty] |> <| umem := <[4096 := 97]> (<[4097 := 10]> ∅) |>.
Lemma tty_write_serial_witness :
  exists wq, ring wq [97; 13; 10] /\ data wq = 1016 /\
    tty_write (S := idle_services) (fun _ => 0) 2 0 0 1 4096 2 serial_kernel =
      (rs_write (fun _ => 0) 1 ;;; ret 2) (write_state serial_kernel 1 serial_tty wq 0).
Proof.
  apply (tty_write_serial (S := idle_services) (fun _ => 0) 2 0 0 serial_kernel 1 1 serial_tty INIT_TASK 4096 [97; 10] []);
    try reflexivity.
  - lia.
  - apply ring_new.
  - intros j Hj. assert (j = 0 \/ j = 1) as [-> | ->] by (change (len [97; 10]) with 2 in Hj; lia);
      eexists; split; reflexivity.
  - repeat constructor; (lia || discriminate).
  - vm_compute. congruence.
  - lia.
Defined.
End Tty.
