(* ===== verification/Ioctl.v ===== *)
(** * Ioctl: terminal control (kernel/chr_drv/tty_ioctl.c, serial.c) and the
    character devices (fs/char_dev.c)

    [struct termios] and [struct termio] are copied to and from the user as bytes;
    [termios_bytes] is the layout of the first in memory, with the two bytes of
    padding at its end kept after the control characters. *)
From S2P Require Import Prelude Console Task Sched Services Fork Tty.

Module Ioctl.
Import Tty.

(** ** Structures as bytes *)
Definition le16 (v : Z) : list Z := [u8 v; u8 (Z.shiftr v 8)].
Definition le32 (v : Z) : list Z := [u8 v; u8 (Z.shiftr v 8); u8 (Z.shiftr v 16); u8 (Z.shiftr v 24)].
Definition byte_at (l : list Z) (i : nat) : Z := default 0 (l !! i).
Definition word_at (l : list Z) (i : nat) : Z := byte_at l i + 256 * byte_at l (i + 1).
Definition long_at (l : list Z) (i : nat) : Z :=
  word_at l i + 65536 * word_at l (i + 2).

Definition NCC : nat := 8.
Definition termios_size : nat := 36.
Definition termios_bytes (t : termios) : list Z :=
  le32 (c_iflag t) ++ le32 (c_oflag t) ++ le32 (c_cflag t) ++ le32 (c_lflag t) ++
  [c_line t] ++ map (fun i => byte_at (c_cc t) i) (seq 0 19).
Definition termios_of (l : list Z) : termios :=
  mk_termios (long_at l 0) (long_at l 4) (long_at l 8) (long_at l 12) (byte_at l 16)
    (map (fun i => byte_at l (17 + i)) (seq 0 19)).

Record termio : Type := mk_termio {
  s_iflag : Z; s_oflag : Z; s_cflag : Z; s_lflag : Z; s_line : Z; s_cc : list Z
}.
Definition termio_size : nat := 18.
(** [pad] is what the stack holds in the last byte. *)
Definition termio_bytes (pad : Z) (t : termio) : list Z :=
  le16 (s_iflag t) ++ le16 (s_oflag t) ++ le16 (s_cflag t) ++ le16 (s_lflag t) ++
  [s_line t] ++ map (fun i => byte_at (s_cc t) i) (seq 0 NCC) ++ [pad].
Definition termio_of (l : list Z) : termio :=
  mk_termio (word_at l 0) (word_at l 2) (word_at l 4) (word_at l 6) (byte_at l 8)
    (map (fun i => byte_at l (9 + i)) (seq 0 NCC)).

(** The loops that copy a structure. *)
Fixpoint put_bytes (l : list Z) (a : Z) : M kernel unit :=
  match l with
  | [] => ret tt
  | b :: l => put_fs_byte b a ;;; put_bytes l (a + 1)
  end.
Fixpoint get_bytes (n : nat) (a : Z) : M kernel (list Z) :=
  match n with
  | O => ret []
  | S n => b <- get_fs_byte a ;; l <- get_bytes n (a + 1) ;; ret (b :: l)
  end.

(** ** Serial lines *)
Definition quotient : list Z :=
  [0; 2304; 1536; 1047; 857; 768; 576; 384; 192; 96; 64; 48; 24; 12; 6; 3].

Definition change_speed (i : nat) : M kernel unit :=
  t <- get_tty i ;;
  let port := u16 (data (read_q t)) in
  if port =? 0 then ret tt else
  quot <- deref (quotient !! Z.to_nat (Z.land (c_cflag (tios t)) 15)) ;;
  Sched.outb 128 (port + 3) ;;;
  Sched.outb (Z.land quot 255) port ;;;
  Sched.outb (Z.shiftr quot 8) (port + 1) ;;;
  Sched.outb 3 (port + 3).

Section Devices.
Context (inb : Z -> Z).

(** [init] of serial.c; and [rs_init] less the interrupt gates. *)
Definition init (port : Z) : M kernel unit :=
  Sched.outb 128 (port + 3) ;;;
  Sched.outb 48 port ;;;
  Sched.outb 0 (port + 1) ;;;
  Sched.outb 3 (port + 3) ;;;
  Sched.outb 11 (port + 4) ;;;
  Sched.outb 13 (port + 1).
Definition rs_init : M kernel unit :=
  t1 <- get_tty 1 ;; init (data (read_q t1)) ;;;
  t2 <- get_tty 2 ;; init (data (read_q t2)) ;;;
  Sched.outb (Z.land (inb 33) 231) 33.

(** ** Terminal control *)
Definition flush (i : nat) (w : which) : M kernel unit :=
  mod_tty i (upd_queue w (fun q => q <| head := tail q |>)).
Definition wait_until_sent (i : nat) : M kernel unit := ret tt.
Definition send_break (i : nat) : M kernel unit := ret tt.

Context {S : Services}.

Definition get_termios (i : nat) (a : Z) : M kernel Z :=
  Fork.verify_area a (Z.of_nat termios_size) ;;;
  t <- get_tty i ;;
  put_bytes (termios_bytes (tios t)) a ;;;
  ret 0.
Definition set_termios (i : nat) (a : Z) : M kernel Z :=
  l <- get_bytes termios_size a ;;
  mod_tty i (fun t => t <| tios := termios_of l |>) ;;;
  change_speed i ;;;
  ret 0.

Definition get_termio (pad : Z) (i : nat) (a : Z) : M kernel Z :=
  Fork.verify_area a (Z.of_nat termio_size) ;;;
  t <- get_tty i ;;
  let m := tios t in
  let tmp := mk_termio (u16 (c_iflag m)) (u16 (c_oflag m)) (u16 (c_cflag m)) (u16 (c_lflag m))
               (c_line m) (take NCC (c_cc m)) in
  put_bytes (termio_bytes pad tmp) a ;;;
  ret 0.

(** [*(unsigned short * )&v = w]: the low half is replaced. *)
Definition set_low (w v : Z) : Z := v - u16 v + w.
Definition set_termio (i : nat) (a : Z) : M kernel Z :=
  l <- get_bytes termio_size a ;;
  let tmp := termio_of l in
  mod_tty i (fun t => t <| tios ::= fun m =>
    m <| c_iflag ::= set_low (s_iflag tmp) |> <| c_oflag ::= set_low (s_oflag tmp) |>
      <| c_cflag ::= set_low (s_cflag tmp) |> <| c_lflag ::= set_low (s_lflag tmp) |>
      <| c_line := s_line tmp |> <| c_cc ::= fun c => s_cc tmp ++ drop NCC c |> |>) ;;;
  change_speed i ;;;
  ret 0.

Definition TCGETS : Z := 21505.
Definition TCSETS : Z := 21506.
Definition TCSETSW : Z := 21507.
Definition TCSETSF : Z := 21508.
Definition TCGETA : Z := 21509.
Definition TCSETA : Z := 21510.
Definition TCSETAW : Z := 21511.
Definition TCSETAF : Z := 21512.
Definition TCSBRK : Z := 21513.
Definition TCFLSH : Z := 21515.
Definition TIOCGPGRP : Z := 21519.
Definition TIOCSPGRP : Z := 21520.
Definition TIOCOUTQ : Z := 21521.
Definition TIOCINQ : Z := 21531.

Definition MAJOR (dev : Z) : Z := Z.shiftr (u32 dev) 8.
Definition MINOR (dev : Z) : Z := Z.land dev 255.

(** All the other commands answer [-EINVAL]. *)
Definition tty_ioctl (pad dev cmd arg : Z) : M kernel Z :=
  p <- cur ;;
  dev <- (if MAJOR dev =? 5
          then if tty p <? 0 then panic "tty_ioctl: dev<0" else ret (tty p)
          else ret (MINOR dev)) ;;
  let i := Z.to_nat dev in
  if cmd =? TCGETS then get_termios i arg
  else if cmd =? TCSETSF then flush i Read ;;; wait_until_sent i ;;; set_termios i arg
  else if cmd =? TCSETSW then wait_until_sent i ;;; set_termios i arg
  else if cmd =? TCSETS then set_termios i arg
  else if cmd =? TCGETA then get_termio pad i arg
  else if cmd =? TCSETAF then flush i Read ;;; wait_until_sent i ;;; set_termio i arg
  else if cmd =? TCSETAW then wait_until_sent i ;;; set_termio i arg
  else if cmd =? TCSETA then set_termio i arg
  else if cmd =? TCSBRK then
    when (negb (truth arg)) (wait_until_sent i ;;; send_break i) ;;; ret 0
  else if cmd =? TCFLSH then
    if arg =? 0 then flush i Read ;;; ret 0
    else if arg =? 1 then flush i Write ;;; ret 0
    else if arg =? 2 then flush i Read ;;; flush i Write ;;; ret 0
    else ret (- EINVAL)
  else if cmd =? TIOCGPGRP then
    Fork.verify_area arg 4 ;;; t <- get_tty i ;; put_fs_long (tty_pgrp t) arg ;;; ret 0
  else if cmd =? TIOCSPGRP then
    v <- get_fs_long arg ;; mod_tty i (fun t => t <| tty_pgrp := i32 v |>) ;;; ret 0
  else if cmd =? TIOCOUTQ then
    Fork.verify_area arg 4 ;;; t <- get_tty i ;; put_fs_long (CHARS (write_q t)) arg ;;; ret 0
  else if cmd =? TIOCINQ then
    Fork.verify_area arg 4 ;;; t <- get_tty i ;; put_fs_long (CHARS (secondary t)) arg ;;; ret 0
  else ret (- EINVAL).

(** ** Character devices

    The file position is passed and returned: [(result, position)]. *)
Section CharDev.
Context (fuel rounds depth : nat).
Inductive rw : Type := READ | WRITE.
Definition is_read (d : rw) : bool := match d with READ => true | WRITE => false end.

Definition rw_ttyx (d : rw) (minor buf count pos : Z) : M kernel (Z * Z) :=
  n <- (if is_read d then tty_read fuel minor buf count
        else tty_write inb fuel rounds depth minor buf count) ;;
  ret (n, pos).

Definition rw_tty (d : rw) (minor buf count pos : Z) : M kernel (Z * Z) :=
  p <- cur ;;
  if tty p <? 0 then ret (- EPERM, pos) else rw_ttyx d (tty p) buf count pos.

Definition rw_ram (d : rw) (buf count pos : Z) : M kernel (Z * Z) := ret (- EIO, pos).
Definition rw_mem (d : rw) (buf count pos : Z) : M kernel (Z * Z) := ret (- EIO, pos).
Definition rw_kmem (d : rw) (buf count pos : Z) : M kernel (Z * Z) := ret (- EIO, pos).

Definition port_byte (d : rw) (i buf : Z) : M kernel unit :=
  if is_read d then put_fs_byte (inb i) buf else v <- get_fs_byte buf ;; Sched.outb v i.
Definition rw_port (d : rw) (buf count pos : Z) : M kernel (Z * Z) :=
  i <- loop (Z.to_nat (65536 - pos) + 1) (fun i =>
         if (i - pos <? count) && (i <? 65536)
         then port_byte d i (buf + (i - pos)) ;;; ret (inl (i + 1)) else ret (inr i)) pos ;;
  ret (i - pos, i).

Definition rw_memory (d : rw) (minor buf count pos : Z) : M kernel (Z * Z) :=
  if minor =? 0 then rw_ram d buf count pos
  else if minor =? 1 then rw_mem d buf count pos
  else if minor =? 2 then rw_kmem d buf count pos
  else if minor =? 3 then ret (if is_read d then 0 else count, pos)
  else if minor =? 4 then rw_port d buf count pos
  else ret (- EIO, pos).

(** [crw_table] *)
Definition crw_table : list (option (rw -> Z -> Z -> Z -> Z -> M kernel (Z * Z))) :=
  [None; Some rw_memory; None; None; Some rw_ttyx; Some rw_tty; None; None].
Definition rw_char (d : rw) (dev buf count pos : Z) : M kernel (Z * Z) :=
  match crw_table !! Z.to_nat (MAJOR dev) with
  | Some (Some call_addr) => call_addr d (MINOR dev) buf count pos
  | _ => ret (- ENODEV, pos)
  end.
End CharDev.
End Devices.
End Ioctl.
