(* ===== verification/Fs.v ===== *)
(** * Fs: the tables of the file system and of the block drivers
    (include/linux/fs.h, kernel/blk_drv/blk.h)

    The state of everything below [fs/] and [kernel/blk_drv/], with access to its
    tables, and sleeping and waking on the wait queues of the file system.
    [Env] collects what runs outside of these files: the other tasks between a
    call of [schedule] and the return of the caller's task, the strategy routines of the
    floppy and the hard disk, the floppy's disk-change line, and the allocation of the pages of
    pipes ([Memory] has the allocator itself). *)
From S2P Require Import Prelude Console Task Sched.

(** ** Constants of fs.h *)
Definition READ : Z := 0.
Definition WRITE : Z := 1.
Definition READA : Z := 2.
Definition WRITEA : Z := 3.
Definition MAJOR (a : Z) : Z := Z.shiftr (u32 a) 8.
Definition MINOR (a : Z) : Z := Z.land a 255.
Definition NAME_LEN : nat := 14.
Definition ROOT_INO : Z := 1.
Definition I_MAP_SLOTS : nat := 8.
Definition Z_MAP_SLOTS : nat := 8.
Definition SUPER_MAGIC : Z := 4991.
Definition NR_INODE : nat := 32.
Definition NR_FILE : nat := 64.
Definition NR_SUPER : nat := 8.
Definition NR_HASH : Z := 307.
Definition BLOCK_SIZE : Z := 1024.
Definition INODES_PER_BLOCK : Z := 32.
Definition DIR_ENTRIES_PER_BLOCK : Z := 64.

(** ** Structures *)
(** [struct buffer_head], with its block of 1024 bytes; the links are buffer numbers. *)
Record buffer_head : Type := mk_buffer {
  b_data : list Z;
  b_blocknr : Z;
  b_dev : Z;
  b_uptodate : Z;
  b_dirt : Z;
  b_count : Z;
  b_lock : Z;
  b_prev : option nat;
  b_next : option nat;
  b_prev_free : option nat;
  b_next_free : option nat
}.

#[global] Instance upd_b_data : Setter b_data := fun g r => mk_buffer (g (b_data r)) (b_blocknr r) (b_dev r) (b_uptodate r) (b_dirt r) (b_count r) (b_lock r) (b_prev r) (b_next r) (b_prev_free r) (b_next_free r).
#[global] Instance upd_b_blocknr : Setter b_blocknr := fun g r => mk_buffer (b_data r) (g (b_blocknr r)) (b_dev r) (b_uptodate r) (b_dirt r) (b_count r) (b_lock r) (b_prev r) (b_next r) (b_prev_free r) (b_next_free r).
#[global] Instance upd_b_dev : Setter b_dev := fun g r => mk_buffer (b_data r) (b_blocknr r) (g (b_dev r)) (b_uptodate r) (b_dirt r) (b_count r) (b_lock r) (b_prev r) (b_next r) (b_prev_free r) (b_next_free r).
#[global] Instance upd_b_uptodate : Setter b_uptodate := fun g r => mk_buffer (b_data r) (b_blocknr r) (b_dev r) (g (b_uptodate r)) (b_dirt r) (b_count r) (b_lock r) (b_prev r) (b_next r) (b_prev_free r) (b_next_free r).
#[global] Instance upd_b_dirt : Setter b_dirt := fun g r => mk_buffer (b_data r) (b_blocknr r) (b_dev r) (b_uptodate r) (g (b_dirt r)) (b_count r) (b_lock r) (b_prev r) (b_next r) (b_prev_free r) (b_next_free r).
#[global] Instance upd_b_count : Setter b_count := fun g r => mk_buffer (b_data r) (b_blocknr r) (b_dev r) (b_uptodate r) (b_dirt r) (g (b_count r)) (b_lock r) (b_prev r) (b_next r) (b_prev_free r) (b_next_free r).
#[global] Instance upd_b_lock : Setter b_lock := fun g r => mk_buffer (b_data r) (b_blocknr r) (b_dev r) (b_uptodate r) (b_dirt r) (b_count r) (g (b_lock r)) (b_prev r) (b_next r) (b_prev_free r) (b_next_free r).
#[global] Instance upd_b_prev : Setter b_prev := fun g r => mk_buffer (b_data r) (b_blocknr r) (b_dev r) (b_uptodate r) (b_dirt r) (b_count r) (b_lock r) (g (b_prev r)) (b_next r) (b_prev_free r) (b_next_free r).
#[global] Instance upd_b_next : Setter b_next := fun g r => mk_buffer (b_data r) (b_blocknr r) (b_dev r) (b_uptodate r) (b_dirt r) (b_count r) (b_lock r) (b_prev r) (g (b_next r)) (b_prev_free r) (b_next_free r).
#[global] Instance upd_b_prev_free : Setter b_prev_free := fun g r => mk_buffer (b_data r) (b_blocknr r) (b_dev r) (b_uptodate r) (b_dirt r) (b_count r) (b_lock r) (b_prev r) (b_next r) (g (b_prev_free r)) (b_next_free r).
#[global] Instance upd_b_next_free : Setter b_next_free := fun g r => mk_buffer (b_data r) (b_blocknr r) (b_dev r) (b_uptodate r) (b_dirt r) (b_count r) (b_lock r) (b_prev r) (b_next r) (b_prev_free r) (g (b_next_free r)).

(** [struct m_inode]; of a pipe, [i_size] is the address of its page. *)
Record m_inode : Type := mk_inode {
  i_mode : Z;
  i_uid : Z;
  i_size : Z;
  i_mtime : Z;
  i_gid : Z;
  i_nlinks : Z;
  i_zone : list Z;
  i_atime : Z;
  i_ctime : Z;
  i_dev : Z;
  i_num : Z;
  i_count : Z;
  i_lock : Z;
  i_dirt : Z;
  i_pipe : Z;
  i_mount : Z;
  i_seek : Z;
  i_update : Z
}.

#[global] Instance upd_i_mode : Setter i_mode := fun g r => mk_inode (g (i_mode r)) (i_uid r) (i_size r) (i_mtime r) (i_gid r) (i_nlinks r) (i_zone r) (i_atime r) (i_ctime r) (i_dev r) (i_num r) (i_count r) (i_lock r) (i_dirt r) (i_pipe r) (i_mount r) (i_seek r) (i_update r).
#[global] Instance upd_i_uid : Setter i_uid := fun g r => mk_inode (i_mode r) (g (i_uid r)) (i_size r) (i_mtime r) (i_gid r) (i_nlinks r) (i_zone r) (i_atime r) (i_ctime r) (i_dev r) (i_num r) (i_count r) (i_lock r) (i_dirt r) (i_pipe r) (i_mount r) (i_seek r) (i_update r).
#[global] Instance upd_i_size : Setter i_size := fun g r => mk_inode (i_mode r) (i_uid r) (g (i_size r)) (i_mtime r) (i_gid r) (i_nlinks r) (i_zone r) (i_atime r) (i_ctime r) (i_dev r) (i_num r) (i_count r) (i_lock r) (i_dirt r) (i_pipe r) (i_mount r) (i_seek r) (i_update r).
#[global] Instance upd_i_mtime : Setter i_mtime := fun g r => mk_inode (i_mode r) (i_uid r) (i_size r) (g (i_mtime r)) (i_gid r) (i_nlinks r) (i_zone r) (i_atime r) (i_ctime r) (i_dev r) (i_num r) (i_count r) (i_lock r) (i_dirt r) (i_pipe r) (i_mount r) (i_seek r) (i_update r).
#[global] Instance upd_i_gid : Setter i_gid := fun g r => mk_inode (i_mode r) (i_uid r) (i_size r) (i_mtime r) (g (i_gid r)) (i_nlinks r) (i_zone r) (i_atime r) (i_ctime r) (i_dev r) (i_num r) (i_count r) (i_lock r) (i_dirt r) (i_pipe r) (i_mount r) (i_seek r) (i_update r).
#[global] Instance upd_i_nlinks : Setter i_nlinks := fun g r => mk_inode (i_mode r) (i_uid r) (i_size r) (i_mtime r) (i_gid r) (g (i_nlinks r)) (i_zone r) (i_atime r) (i_ctime r) (i_dev r) (i_num r) (i_count r) (i_lock r) (i_dirt r) (i_pipe r) (i_mount r) (i_seek r) (i_update r).
#[global] Instance upd_i_zone : Setter i_zone := fun g r => mk_inode (i_mode r) (i_uid r) (i_size r) (i_mtime r) (i_gid r) (i_nlinks r) (g (i_zone r)) (i_atime r) (i_ctime r) (i_dev r) (i_num r) (i_count r) (i_lock r) (i_dirt r) (i_pipe r) (i_mount r) (i_seek r) (i_update r).
#[global] Instance upd_i_atime : Setter i_atime := fun g r => mk_inode (i_mode r) (i_uid r) (i_size r) (i_mtime r) (i_gid r) (i_nlinks r) (i_zone r) (g (i_atime r)) (i_ctime r) (i_dev r) (i_num r) (i_count r) (i_lock r) (i_dirt r) (i_pipe r) (i_mount r) (i_seek r) (i_update r).
#[global] Instance upd_i_ctime : Setter i_ctime := fun g r => mk_inode (i_mode r) (i_uid r) (i_size r) (i_mtime r) (i_gid r) (i_nlinks r) (i_zone r) (i_atime r) (g (i_ctime r)) (i_dev r) (i_num r) (i_count r) (i_lock r) (i_dirt r) (i_pipe r) (i_mount r) (i_seek r) (i_update r).
#[global] Instance upd_i_dev : Setter i_dev := fun g r => mk_inode (i_mode r) (i_uid r) (i_size r) (i_mtime r) (i_gid r) (i_nlinks r) (i_zone r) (i_atime r) (i_ctime r) (g (i_dev r)) (i_num r) (i_count r) (i_lock r) (i_dirt r) (i_pipe r) (i_mount r) (i_seek r) (i_update r).
#[global] Instance upd_i_num : Setter i_num := fun g r => mk_inode (i_mode r) (i_uid r) (i_size r) (i_mtime r) (i_gid r) (i_nlinks r) (i_zone r) (i_atime r) (i_ctime r) (i_dev r) (g (i_num r)) (i_count r) (i_lock r) (i_dirt r) (i_pipe r) (i_mount r) (i_seek r) (i_update r).
#[global] Instance upd_i_count : Setter i_count := fun g r => mk_inode (i_mode r) (i_uid r) (i_size r) (i_mtime r) (i_gid r) (i_nlinks r) (i_zone r) (i_atime r) (i_ctime r) (i_dev r) (i_num r) (g (i_count r)) (i_lock r) (i_dirt r) (i_pipe r) (i_mount r) (i_seek r) (i_update r).
#[global] Instance upd_i_lock : Setter i_lock := fun g r => mk_inode (i_mode r) (i_uid r) (i_size r) (i_mtime r) (i_gid r) (i_nlinks r) (i_zone r) (i_atime r) (i_ctime r) (i_dev r) (i_num r) (i_count r) (g (i_lock r)) (i_dirt r) (i_pipe r) (i_mount r) (i_seek r) (i_update r).
#[global] Instance upd_i_dirt : Setter i_dirt := fun g r => mk_inode (i_mode r) (i_uid r) (i_size r) (i_mtime r) (i_gid r) (i_nlinks r) (i_zone r) (i_atime r) (i_ctime r) (i_dev r) (i_num r) (i_count r) (i_lock r) (g (i_dirt r)) (i_pipe r) (i_mount r) (i_seek r) (i_update r).
#[global] Instance upd_i_pipe : Setter i_pipe := fun g r => mk_inode (i_mode r) (i_uid r) (i_size r) (i_mtime r) (i_gid r) (i_nlinks r) (i_zone r) (i_atime r) (i_ctime r) (i_dev r) (i_num r) (i_count r) (i_lock r) (i_dirt r) (g (i_pipe r)) (i_mount r) (i_seek r) (i_update r).
#[global] Instance upd_i_mount : Setter i_mount := fun g r => mk_inode (i_mode r) (i_uid r) (i_size r) (i_mtime r) (i_gid r) (i_nlinks r) (i_zone r) (i_atime r) (i_ctime r) (i_dev r) (i_num r) (i_count r) (i_lock r) (i_dirt r) (i_pipe r) (g (i_mount r)) (i_seek r) (i_update r).
#[global] Instance upd_i_seek : Setter i_seek := fun g r => mk_inode (i_mode r) (i_uid r) (i_size r) (i_mtime r) (i_gid r) (i_nlinks r) (i_zone r) (i_atime r) (i_ctime r) (i_dev r) (i_num r) (i_count r) (i_lock r) (i_dirt r) (i_pipe r) (i_mount r) (g (i_seek r)) (i_update r).
#[global] Instance upd_i_update : Setter i_update := fun g r => mk_inode (i_mode r) (i_uid r) (i_size r) (i_mtime r) (i_gid r) (i_nlinks r) (i_zone r) (i_atime r) (i_ctime r) (i_dev r) (i_num r) (i_count r) (i_lock r) (i_dirt r) (i_pipe r) (i_mount r) (i_seek r) (g (i_update r)).

(** [struct file]; inodes are numbered by their slot in [inode_table]. *)
Record file : Type := mk_file {
  f_mode : Z;
  f_flags : Z;
  f_count : Z;
  f_inode : option nat;
  f_pos : Z
}.

#[global] Instance upd_f_mode : Setter f_mode := fun g r => mk_file (g (f_mode r)) (f_flags r) (f_count r) (f_inode r) (f_pos r).
#[global] Instance upd_f_flags : Setter f_flags := fun g r => mk_file (f_mode r) (g (f_flags r)) (f_count r) (f_inode r) (f_pos r).
#[global] Instance upd_f_count : Setter f_count := fun g r => mk_file (f_mode r) (f_flags r) (g (f_count r)) (f_inode r) (f_pos r).
#[global] Instance upd_f_inode : Setter f_inode := fun g r => mk_file (f_mode r) (f_flags r) (f_count r) (g (f_inode r)) (f_pos r).
#[global] Instance upd_f_pos : Setter f_pos := fun g r => mk_file (f_mode r) (f_flags r) (f_count r) (f_inode r) (g (f_pos r)).

(** [struct super_block]; the bitmaps are held in buffers. *)
Record super_block : Type := mk_super {
  s_ninodes : Z;
  s_nzones : Z;
  s_imap_blocks : Z;
  s_zmap_blocks : Z;
  s_firstdatazone : Z;
  s_log_zone_size : Z;
  s_max_size : Z;
  s_magic : Z;
  s_imap : list (option nat);
  s_zmap : list (option nat);
  s_dev : Z;
  s_isup : option nat;
  s_imount : option nat;
  s_time : Z;
  s_lock : Z;
  s_rd_only : Z;
  s_dirt : Z
}.

#[global] Instance upd_s_ninodes : Setter s_ninodes := fun g r => mk_super (g (s_ninodes r)) (s_nzones r) (s_imap_blocks r) (s_zmap_blocks r) (s_firstdatazone r) (s_log_zone_size r) (s_max_size r) (s_magic r) (s_imap r) (s_zmap r) (s_dev r) (s_isup r) (s_imount r) (s_time r) (s_lock r) (s_rd_only r) (s_dirt r).
#[global] Instance upd_s_nzones : Setter s_nzones := fun g r => mk_super (s_ninodes r) (g (s_nzones r)) (s_imap_blocks r) (s_zmap_blocks r) (s_firstdatazone r) (s_log_zone_size r) (s_max_size r) (s_magic r) (s_imap r) (s_zmap r) (s_dev r) (s_isup r) (s_imount r) (s_time r) (s_lock r) (s_rd_only r) (s_dirt r).
#[global] Instance upd_s_imap_blocks : Setter s_imap_blocks := fun g r => mk_super (s_ninodes r) (s_nzones r) (g (s_imap_blocks r)) (s_zmap_blocks r) (s_firstdatazone r) (s_log_zone_size r) (s_max_size r) (s_magic r) (s_imap r) (s_zmap r) (s_dev r) (s_isup r) (s_imount r) (s_time r) (s_lock r) (s_rd_only r) (s_dirt r).
#[global] Instance upd_s_zmap_blocks : Setter s_zmap_blocks := fun g r => mk_super (s_ninodes r) (s_nzones r) (s_imap_blocks r) (g (s_zmap_blocks r)) (s_firstdatazone r) (s_log_zone_size r) (s_max_size r) (s_magic r) (s_imap r) (s_zmap r) (s_dev r) (s_isup r) (s_imount r) (s_time r) (s_lock r) (s_rd_only r) (s_dirt r).
#[global] Instance upd_s_firstdatazone : Setter s_firstdatazone := fun g r => mk_super (s_ninodes r) (s_nzones r) (s_imap_blocks r) (s_zmap_blocks r) (g (s_firstdatazone r)) (s_log_zone_size r) (s_max_size r) (s_magic r) (s_imap r) (s_zmap r) (s_dev r) (s_isup r) (s_imount r) (s_time r) (s_lock r) (s_rd_only r) (s_dirt r).
#[global] Instance upd_s_log_zone_size : Setter s_log_zone_size := fun g r => mk_super (s_ninodes r) (s_nzones r) (s_imap_blocks r) (s_zmap_blocks r) (s_firstdatazone r) (g (s_log_zone_size r)) (s_max_size r) (s_magic r) (s_imap r) (s_zmap r) (s_dev r) (s_isup r) (s_imount r) (s_time r) (s_lock r) (s_rd_only r) (s_dirt r).
#[global] Instance upd_s_max_size : Setter s_max_size := fun g r => mk_super (s_ninodes r) (s_nzones r) (s_imap_blocks r) (s_zmap_blocks r) (s_firstdatazone r) (s_log_zone_size r) (g (s_max_size r)) (s_magic r) (s_imap r) (s_zmap r) (s_dev r) (s_isup r) (s_imount r) (s_time r) (s_lock r) (s_rd_only r) (s_dirt r).
#[global] Instance upd_s_magic : Setter s_magic := fun g r => mk_super (s_ninodes r) (s_nzones r) (s_imap_blocks r) (s_zmap_blocks r) (s_firstdatazone r) (s_log_zone_size r) (s_max_size r) (g (s_magic r)) (s_imap r) (s_zmap r) (s_dev r) (s_isup r) (s_imount r) (s_time r) (s_lock r) (s_rd_only r) (s_dirt r).
#[global] Instance upd_s_imap : Setter s_imap := fun g r => mk_super (s_ninodes r) (s_nzones r) (s_imap_blocks r) (s_zmap_blocks r) (s_firstdatazone r) (s_log_zone_size r) (s_max_size r) (s_magic r) (g (s_imap r)) (s_zmap r) (s_dev r) (s_isup r) (s_imount r) (s_time r) (s_lock r) (s_rd_only r) (s_dirt r).
#[global] Instance upd_s_zmap : Setter s_zmap := fun g r => mk_super (s_ninodes r) (s_nzones r) (s_imap_blocks r) (s_zmap_blocks r) (s_firstdatazone r) (s_log_zone_size r) (s_max_size r) (s_magic r) (s_imap r) (g (s_zmap r)) (s_dev r) (s_isup r) (s_imount r) (s_time r) (s_lock r) (s_rd_only r) (s_dirt r).
#[global] Instance upd_s_dev : Setter s_dev := fun g r => mk_super (s_ninodes r) (s_nzones r) (s_imap_blocks r) (s_zmap_blocks r) (s_firstdatazone r) (s_log_zone_size r) (s_max_size r) (s_magic r) (s_imap r) (s_zmap r) (g (s_dev r)) (s_isup r) (s_imount r) (s_time r) (s_lock r) (s_rd_only r) (s_dirt r).
#[global] Instance upd_s_isup : Setter s_isup := fun g r => mk_super (s_ninodes r) (s_nzones r) (s_imap_blocks r) (s_zmap_blocks r) (s_firstdatazone r) (s_log_zone_size r) (s_max_size r) (s_magic r) (s_imap r) (s_zmap r) (s_dev r) (g (s_isup r)) (s_imount r) (s_time r) (s_lock r) (s_rd_only r) (s_dirt r).
#[global] Instance upd_s_imount : Setter s_imount := fun g r => mk_super (s_ninodes r) (s_nzones r) (s_imap_blocks r) (s_zmap_blocks r) (s_firstdatazone r) (s_log_zone_size r) (s_max_size r) (s_magic r) (s_imap r) (s_zmap r) (s_dev r) (s_isup r) (g (s_imount r)) (s_time r) (s_lock r) (s_rd_only r) (s_dirt r).
#[global] Instance upd_s_time : Setter s_time := fun g r => mk_super (s_ninodes r) (s_nzones r) (s_imap_blocks r) (s_zmap_blocks r) (s_firstdatazone r) (s_log_zone_size r) (s_max_size r) (s_magic r) (s_imap r) (s_zmap r) (s_dev r) (s_isup r) (s_imount r) (g (s_time r)) (s_lock r) (s_rd_only r) (s_dirt r).
#[global] Instance upd_s_lock : Setter s_lock := fun g r => mk_super (s_ninodes r) (s_nzones r) (s_imap_blocks r) (s_zmap_blocks r) (s_firstdatazone r) (s_log_zone_size r) (s_max_size r) (s_magic r) (s_imap r) (s_zmap r) (s_dev r) (s_isup r) (s_imount r) (s_time r) (g (s_lock r)) (s_rd_only r) (s_dirt r).
#[global] Instance upd_s_rd_only : Setter s_rd_only := fun g r => mk_super (s_ninodes r) (s_nzones r) (s_imap_blocks r) (s_zmap_blocks r) (s_firstdatazone r) (s_log_zone_size r) (s_max_size r) (s_magic r) (s_imap r) (s_zmap r) (s_dev r) (s_isup r) (s_imount r) (s_time r) (s_lock r) (g (s_rd_only r)) (s_dirt r).
#[global] Instance upd_s_dirt : Setter s_dirt := fun g r => mk_super (s_ninodes r) (s_nzones r) (s_imap_blocks r) (s_zmap_blocks r) (s_firstdatazone r) (s_log_zone_size r) (s_max_size r) (s_magic r) (s_imap r) (s_zmap r) (s_dev r) (s_isup r) (s_imount r) (s_time r) (s_lock r) (s_rd_only r) (g (s_dirt r)).

(** [struct request]; the pointer [buffer] points to the byte [r_off] of the data of buffer [r_buffer]. *)
Record request_t : Type := mk_request {
  r_dev : Z;
  r_cmd : Z;
  r_errors : Z;
  r_sector : Z;
  r_nr_sectors : Z;
  r_buffer : nat;
  r_off : Z;
  r_bh : option nat;
  r_next : option nat
}.

#[global] Instance upd_r_dev : Setter r_dev := fun g r => mk_request (g (r_dev r)) (r_cmd r) (r_errors r) (r_sector r) (r_nr_sectors r) (r_buffer r) (r_off r) (r_bh r) (r_next r).
#[global] Instance upd_r_cmd : Setter r_cmd := fun g r => mk_request (r_dev r) (g (r_cmd r)) (r_errors r) (r_sector r) (r_nr_sectors r) (r_buffer r) (r_off r) (r_bh r) (r_next r).
#[global] Instance upd_r_errors : Setter r_errors := fun g r => mk_request (r_dev r) (r_cmd r) (g (r_errors r)) (r_sector r) (r_nr_sectors r) (r_buffer r) (r_off r) (r_bh r) (r_next r).
#[global] Instance upd_r_sector : Setter r_sector := fun g r => mk_request (r_dev r) (r_cmd r) (r_errors r) (g (r_sector r)) (r_nr_sectors r) (r_buffer r) (r_off r) (r_bh r) (r_next r).
#[global] Instance upd_r_nr_sectors : Setter r_nr_sectors := fun g r => mk_request (r_dev r) (r_cmd r) (r_errors r) (r_sector r) (g (r_nr_sectors r)) (r_buffer r) (r_off r) (r_bh r) (r_next r).
#[global] Instance upd_r_buffer : Setter r_buffer := fun g r => mk_request (r_dev r) (r_cmd r) (r_errors r) (r_sector r) (r_nr_sectors r) (g (r_buffer r)) (r_off r) (r_bh r) (r_next r).
#[global] Instance upd_r_off : Setter r_off := fun g r => mk_request (r_dev r) (r_cmd r) (r_errors r) (r_sector r) (r_nr_sectors r) (r_buffer r) (g (r_off r)) (r_bh r) (r_next r).
#[global] Instance upd_r_bh : Setter r_bh := fun g r => mk_request (r_dev r) (r_cmd r) (r_errors r) (r_sector r) (r_nr_sectors r) (r_buffer r) (r_off r) (g (r_bh r)) (r_next r).
#[global] Instance upd_r_next : Setter r_next := fun g r => mk_request (r_dev r) (r_cmd r) (r_errors r) (r_sector r) (r_nr_sectors r) (r_buffer r) (r_off r) (r_bh r) (g (r_next r)).

(** The strategy routine of a block device. *)
Inductive driver : Type := do_rd_request_fn | do_fd_request_fn | do_hd_request_fn.

(** [struct blk_dev_struct]. *)
Record blk_dev_struct : Type := mk_blk_dev {
  request_fn : option driver;
  current_request : option nat
}.

#[global] Instance upd_request_fn : Setter request_fn := fun g r => mk_blk_dev (g (request_fn r)) (current_request r).
#[global] Instance upd_current_request : Setter current_request := fun g r => mk_blk_dev (request_fn r) (g (current_request r)).

(** The routines that the interrupts of the disks call next: [do_hd] and [do_floppy]. *)
Inductive hd_handler : Type := read_intr_fn | write_intr_fn | recal_intr_fn.
Inductive floppy_handler : Type := rw_interrupt_fn | seek_interrupt_fn | recal_interrupt_fn | reset_interrupt_fn.

(** [struct hd_i_struct] (hd.c): the geometry of a hard disk. *)
Record hd_i_struct : Type := mk_hd_info {
  hi_head : Z;
  hi_sect : Z;
  hi_cyl : Z;
  hi_wpcom : Z;
  hi_lzone : Z;
  hi_ctl : Z
}.

#[global] Instance upd_hi_head : Setter hi_head := fun g r => mk_hd_info (g (hi_head r)) (hi_sect r) (hi_cyl r) (hi_wpcom r) (hi_lzone r) (hi_ctl r).
#[global] Instance upd_hi_sect : Setter hi_sect := fun g r => mk_hd_info (hi_head r) (g (hi_sect r)) (hi_cyl r) (hi_wpcom r) (hi_lzone r) (hi_ctl r).
#[global] Instance upd_hi_cyl : Setter hi_cyl := fun g r => mk_hd_info (hi_head r) (hi_sect r) (g (hi_cyl r)) (hi_wpcom r) (hi_lzone r) (hi_ctl r).
#[global] Instance upd_hi_wpcom : Setter hi_wpcom := fun g r => mk_hd_info (hi_head r) (hi_sect r) (hi_cyl r) (g (hi_wpcom r)) (hi_lzone r) (hi_ctl r).
#[global] Instance upd_hi_lzone : Setter hi_lzone := fun g r => mk_hd_info (hi_head r) (hi_sect r) (hi_cyl r) (hi_wpcom r) (g (hi_lzone r)) (hi_ctl r).
#[global] Instance upd_hi_ctl : Setter hi_ctl := fun g r => mk_hd_info (hi_head r) (hi_sect r) (hi_cyl r) (hi_wpcom r) (hi_lzone r) (g (hi_ctl r)).

(** The variables of hd.c and floppy.c; [hd] has the first sector and the size of each partition,
    [floppy] is an index of [floppy_type], and [port_reads] counts the reads of a port so far. *)
Record drivers : Type := mk_drivers {
  hd_recalibrate : Z;
  hd_reset : Z;
  hd_info : list hd_i_struct;
  NR_HD : Z;
  hd : list (Z * Z);
  hd_callable : Z;
  do_hd : option hd_handler;
  fd_recalibrate : Z;
  fd_reset : Z;
  seek : Z;
  reply_buffer : list Z;
  cur_spec1 : Z;
  cur_rate : Z;
  floppy : nat;
  current_drive : Z;
  sector : Z;
  head : Z;
  track : Z;
  seek_track : Z;
  current_track : Z;
  command : Z;
  do_floppy : option floppy_handler;
  tmp_floppy_area : list Z;
  port_reads : nat
}.

#[global] Instance upd_hd_recalibrate : Setter hd_recalibrate := fun g r => mk_drivers (g (hd_recalibrate r)) (hd_reset r) (hd_info r) (NR_HD r) (hd r) (hd_callable r) (do_hd r) (fd_recalibrate r) (fd_reset r) (seek r) (reply_buffer r) (cur_spec1 r) (cur_rate r) (floppy r) (current_drive r) (sector r) (head r) (track r) (seek_track r) (current_track r) (command r) (do_floppy r) (tmp_floppy_area r) (port_reads r).
#[global] Instance upd_hd_reset : Setter hd_reset := fun g r => mk_drivers (hd_recalibrate r) (g (hd_reset r)) (hd_info r) (NR_HD r) (hd r) (hd_callable r) (do_hd r) (fd_recalibrate r) (fd_reset r) (seek r) (reply_buffer r) (cur_spec1 r) (cur_rate r) (floppy r) (current_drive r) (sector r) (head r) (track r) (seek_track r) (current_track r) (command r) (do_floppy r) (tmp_floppy_area r) (port_reads r).
#[global] Instance upd_hd_info : Setter hd_info := fun g r => mk_drivers (hd_recalibrate r) (hd_reset r) (g (hd_info r)) (NR_HD r) (hd r) (hd_callable r) (do_hd r) (fd_recalibrate r) (fd_reset r) (seek r) (reply_buffer r) (cur_spec1 r) (cur_rate r) (floppy r) (current_drive r) (sector r) (head r) (track r) (seek_track r) (current_track r) (command r) (do_floppy r) (tmp_floppy_area r) (port_reads r).
#[global] Instance upd_NR_HD : Setter NR_HD := fun g r => mk_drivers (hd_recalibrate r) (hd_reset r) (hd_info r) (g (NR_HD r)) (hd r) (hd_callable r) (do_hd r) (fd_recalibrate r) (fd_reset r) (seek r) (reply_buffer r) (cur_spec1 r) (cur_rate r) (floppy r) (current_drive r) (sector r) (head r) (track r) (seek_track r) (current_track r) (command r) (do_floppy r) (tmp_floppy_area r) (port_reads r).
#[global] Instance upd_hd : Setter hd := fun g r => mk_drivers (hd_recalibrate r) (hd_reset r) (hd_info r) (NR_HD r) (g (hd r)) (hd_callable r) (do_hd r) (fd_recalibrate r) (fd_reset r) (seek r) (reply_buffer r) (cur_spec1 r) (cur_rate r) (floppy r) (current_drive r) (sector r) (head r) (track r) (seek_track r) (current_track r) (command r) (do_floppy r) (tmp_floppy_area r) (port_reads r).
#[global] Instance upd_hd_callable : Setter hd_callable := fun g r => mk_drivers (hd_recalibrate r) (hd_reset r) (hd_info r) (NR_HD r) (hd r) (g (hd_callable r)) (do_hd r) (fd_recalibrate r) (fd_reset r) (seek r) (reply_buffer r) (cur_spec1 r) (cur_rate r) (floppy r) (current_drive r) (sector r) (head r) (track r) (seek_track r) (current_track r) (command r) (do_floppy r) (tmp_floppy_area r) (port_reads r).
#[global] Instance upd_do_hd : Setter do_hd := fun g r => mk_drivers (hd_recalibrate r) (hd_reset r) (hd_info r) (NR_HD r) (hd r) (hd_callable r) (g (do_hd r)) (fd_recalibrate r) (fd_reset r) (seek r) (reply_buffer r) (cur_spec1 r) (cur_rate r) (floppy r) (current_drive r) (sector r) (head r) (track r) (seek_track r) (current_track r) (command r) (do_floppy r) (tmp_floppy_area r) (port_reads r).
#[global] Instance upd_fd_recalibrate : Setter fd_recalibrate := fun g r => mk_drivers (hd_recalibrate r) (hd_reset r) (hd_info r) (NR_HD r) (hd r) (hd_callable r) (do_hd r) (g (fd_recalibrate r)) (fd_reset r) (seek r) (reply_buffer r) (cur_spec1 r) (cur_rate r) (floppy r) (current_drive r) (sector r) (head r) (track r) (seek_track r) (current_track r) (command r) (do_floppy r) (tmp_floppy_area r) (port_reads r).
#[global] Instance upd_fd_reset : Setter fd_reset := fun g r => mk_drivers (hd_recalibrate r) (hd_reset r) (hd_info r) (NR_HD r) (hd r) (hd_callable r) (do_hd r) (fd_recalibrate r) (g (fd_reset r)) (seek r) (reply_buffer r) (cur_spec1 r) (cur_rate r) (floppy r) (current_drive r) (sector r) (head r) (track r) (seek_track r) (current_track r) (command r) (do_floppy r) (tmp_floppy_area r) (port_reads r).
#[global] Instance upd_seek : Setter seek := fun g r => mk_drivers (hd_recalibrate r) (hd_reset r) (hd_info r) (NR_HD r) (hd r) (hd_callable r) (do_hd r) (fd_recalibrate r) (fd_reset r) (g (seek r)) (reply_buffer r) (cur_spec1 r) (cur_rate r) (floppy r) (current_drive r) (sector r) (head r) (track r) (seek_track r) (current_track r) (command r) (do_floppy r) (tmp_floppy_area r) (port_reads r).
#[global] Instance upd_reply_buffer : Setter reply_buffer := fun g r => mk_drivers (hd_recalibrate r) (hd_reset r) (hd_info r) (NR_HD r) (hd r) (hd_callable r) (do_hd r) (fd_recalibrate r) (fd_reset r) (seek r) (g (reply_buffer r)) (cur_spec1 r) (cur_rate r) (floppy r) (current_drive r) (sector r) (head r) (track r) (seek_track r) (current_track r) (command r) (do_floppy r) (tmp_floppy_area r) (port_reads r).
#[global] Instance upd_cur_spec1 : Setter cur_spec1 := fun g r => mk_drivers (hd_recalibrate r) (hd_reset r) (hd_info r) (NR_HD r) (hd r) (hd_callable r) (do_hd r) (fd_recalibrate r) (fd_reset r) (seek r) (reply_buffer r) (g (cur_spec1 r)) (cur_rate r) (floppy r) (current_drive r) (sector r) (head r) (track r) (seek_track r) (current_track r) (command r) (do_floppy r) (tmp_floppy_area r) (port_reads r).
#[global] Instance upd_cur_rate : Setter cur_rate := fun g r => mk_drivers (hd_recalibrate r) (hd_reset r) (hd_info r) (NR_HD r) (hd r) (hd_callable r) (do_hd r) (fd_recalibrate r) (fd_reset r) (seek r) (reply_buffer r) (cur_spec1 r) (g (cur_rate r)) (floppy r) (current_drive r) (sector r) (head r) (track r) (seek_track r) (current_track r) (command r) (do_floppy r) (tmp_floppy_area r) (port_reads r).
#[global] Instance upd_floppy : Setter floppy := fun g r => mk_drivers (hd_recalibrate r) (hd_reset r) (hd_info r) (NR_HD r) (hd r) (hd_callable r) (do_hd r) (fd_recalibrate r) (fd_reset r) (seek r) (reply_buffer r) (cur_spec1 r) (cur_rate r) (g (floppy r)) (current_drive r) (sector r) (head r) (track r) (seek_track r) (current_track r) (command r) (do_floppy r) (tmp_floppy_area r) (port_reads r).
#[global] Instance upd_current_drive : Setter current_drive := fun g r => mk_drivers (hd_recalibrate r) (hd_reset r) (hd_info r) (NR_HD r) (hd r) (hd_callable r) (do_hd r) (fd_recalibrate r) (fd_reset r) (seek r) (reply_buffer r) (cur_spec1 r) (cur_rate r) (floppy r) (g (current_drive r)) (sector r) (head r) (track r) (seek_track r) (current_track r) (command r) (do_floppy r) (tmp_floppy_area r) (port_reads r).
#[global] Instance upd_sector : Setter sector := fun g r => mk_drivers (hd_recalibrate r) (hd_reset r) (hd_info r) (NR_HD r) (hd r) (hd_callable r) (do_hd r) (fd_recalibrate r) (fd_reset r) (seek r) (reply_buffer r) (cur_spec1 r) (cur_rate r) (floppy r) (current_drive r) (g (sector r)) (head r) (track r) (seek_track r) (current_track r) (command r) (do_floppy r) (tmp_floppy_area r) (port_reads r).
#[global] Instance upd_head : Setter head := fun g r => mk_drivers (hd_recalibrate r) (hd_reset r) (hd_info r) (NR_HD r) (hd r) (hd_callable r) (do_hd r) (fd_recalibrate r) (fd_reset r) (seek r) (reply_buffer r) (cur_spec1 r) (cur_rate r) (floppy r) (current_drive r) (sector r) (g (head r)) (track r) (seek_track r) (current_track r) (command r) (do_floppy r) (tmp_floppy_area r) (port_reads r).
#[global] Instance upd_track : Setter track := fun g r => mk_drivers (hd_recalibrate r) (hd_reset r) (hd_info r) (NR_HD r) (hd r) (hd_callable r) (do_hd r) (fd_recalibrate r) (fd_reset r) (seek r) (reply_buffer r) (cur_spec1 r) (cur_rate r) (floppy r) (current_drive r) (sector r) (head r) (g (track r)) (seek_track r) (current_track r) (command r) (do_floppy r) (tmp_floppy_area r) (port_reads r).
#[global] Instance upd_seek_track : Setter seek_track := fun g r => mk_drivers (hd_recalibrate r) (hd_reset r) (hd_info r) (NR_HD r) (hd r) (hd_callable r) (do_hd r) (fd_recalibrate r) (fd_reset r) (seek r) (reply_buffer r) (cur_spec1 r) (cur_rate r) (floppy r) (current_drive r) (sector r) (head r) (track r) (g (seek_track r)) (current_track r) (command r) (do_floppy r) (tmp_floppy_area r) (port_reads r).
#[global] Instance upd_current_track : Setter current_track := fun g r => mk_drivers (hd_recalibrate r) (hd_reset r) (hd_info r) (NR_HD r) (hd r) (hd_callable r) (do_hd r) (fd_recalibrate r) (fd_reset r) (seek r) (reply_buffer r) (cur_spec1 r) (cur_rate r) (floppy r) (current_drive r) (sector r) (head r) (track r) (seek_track r) (g (current_track r)) (command r) (do_floppy r) (tmp_floppy_area r) (port_reads r).
#[global] Instance upd_command : Setter command := fun g r => mk_drivers (hd_recalibrate r) (hd_reset r) (hd_info r) (NR_HD r) (hd r) (hd_callable r) (do_hd r) (fd_recalibrate r) (fd_reset r) (seek r) (reply_buffer r) (cur_spec1 r) (cur_rate r) (floppy r) (current_drive r) (sector r) (head r) (track r) (seek_track r) (current_track r) (g (command r)) (do_floppy r) (tmp_floppy_area r) (port_reads r).
#[global] Instance upd_do_floppy : Setter do_floppy := fun g r => mk_drivers (hd_recalibrate r) (hd_reset r) (hd_info r) (NR_HD r) (hd r) (hd_callable r) (do_hd r) (fd_recalibrate r) (fd_reset r) (seek r) (reply_buffer r) (cur_spec1 r) (cur_rate r) (floppy r) (current_drive r) (sector r) (head r) (track r) (seek_track r) (current_track r) (command r) (g (do_floppy r)) (tmp_floppy_area r) (port_reads r).
#[global] Instance upd_tmp_floppy_area : Setter tmp_floppy_area := fun g r => mk_drivers (hd_recalibrate r) (hd_reset r) (hd_info r) (NR_HD r) (hd r) (hd_callable r) (do_hd r) (fd_recalibrate r) (fd_reset r) (seek r) (reply_buffer r) (cur_spec1 r) (cur_rate r) (floppy r) (current_drive r) (sector r) (head r) (track r) (seek_track r) (current_track r) (command r) (do_floppy r) (g (tmp_floppy_area r)) (port_reads r).
#[global] Instance upd_port_reads : Setter port_reads := fun g r => mk_drivers (hd_recalibrate r) (hd_reset r) (hd_info r) (NR_HD r) (hd r) (hd_callable r) (do_hd r) (fd_recalibrate r) (fd_reset r) (seek r) (reply_buffer r) (cur_spec1 r) (cur_rate r) (floppy r) (current_drive r) (sector r) (head r) (track r) (seek_track r) (current_track r) (command r) (do_floppy r) (tmp_floppy_area r) (g (port_reads r)).

(** The variables of [fs/] and [kernel/blk_drv/] beside those of the rest of the kernel.  [rd_data] is the memory of the RAM disk, from the address [rd_start] on, [pages] the pages of the pipes, by address, and [null_b_prev] the word that [NULL->b_prev] names (it is written, see [insert_into_queues]). *)
Record fs : Type := mk_fs {
  kern : kernel;
  bufs : list buffer_head;
  hash_table : list (option nat);
  free_list : nat;
  null_b_prev : option nat;
  inode_table : list m_inode;
  last_inode : nat;
  super_blocks : list super_block;
  file_table : list file;
  ROOT_DEV : Z;
  request : list request_t;
  blk_dev : list blk_dev_struct;
  rd_data : list Z;
  rd_start : Z;
  rd_length : Z;
  pages : gmap Z (list Z);
  klog : list (string * list Z);
  drv : drivers
}.

#[global] Instance upd_kern : Setter kern := fun g r => mk_fs (g (kern r)) (bufs r) (hash_table r) (free_list r) (null_b_prev r) (inode_table r) (last_inode r) (super_blocks r) (file_table r) (ROOT_DEV r) (request r) (blk_dev r) (rd_data r) (rd_start r) (rd_length r) (pages r) (klog r) (drv r).
#[global] Instance upd_bufs : Setter bufs := fun g r => mk_fs (kern r) (g (bufs r)) (hash_table r) (free_list r) (null_b_prev r) (inode_table r) (last_inode r) (super_blocks r) (file_table r) (ROOT_DEV r) (request r) (blk_dev r) (rd_data r) (rd_start r) (rd_length r) (pages r) (klog r) (drv r).
#[global] Instance upd_hash_table : Setter hash_table := fun g r => mk_fs (kern r) (bufs r) (g (hash_table r)) (free_list r) (null_b_prev r) (inode_table r) (last_inode r) (super_blocks r) (file_table r) (ROOT_DEV r) (request r) (blk_dev r) (rd_data r) (rd_start r) (rd_length r) (pages r) (klog r) (drv r).
#[global] Instance upd_free_list : Setter free_list := fun g r => mk_fs (kern r) (bufs r) (hash_table r) (g (free_list r)) (null_b_prev r) (inode_table r) (last_inode r) (super_blocks r) (file_table r) (ROOT_DEV r) (request r) (blk_dev r) (rd_data r) (rd_start r) (rd_length r) (pages r) (klog r) (drv r).
#[global] Instance upd_null_b_prev : Setter null_b_prev := fun g r => mk_fs (kern r) (bufs r) (hash_table r) (free_list r) (g (null_b_prev r)) (inode_table r) (last_inode r) (super_blocks r) (file_table r) (ROOT_DEV r) (request r) (blk_dev r) (rd_data r) (rd_start r) (rd_length r) (pages r) (klog r) (drv r).
#[global] Instance upd_inode_table : Setter inode_table := fun g r => mk_fs (kern r) (bufs r) (hash_table r) (free_list r) (null_b_prev r) (g (inode_table r)) (last_inode r) (super_blocks r) (file_table r) (ROOT_DEV r) (request r) (blk_dev r) (rd_data r) (rd_start r) (rd_length r) (pages r) (klog r) (drv r).
#[global] Instance upd_last_inode : Setter last_inode := fun g r => mk_fs (kern r) (bufs r) (hash_table r) (free_list r) (null_b_prev r) (inode_table r) (g (last_inode r)) (super_blocks r) (file_table r) (ROOT_DEV r) (request r) (blk_dev r) (rd_data r) (rd_start r) (rd_length r) (pages r) (klog r) (drv r).
#[global] Instance upd_super_blocks : Setter super_blocks := fun g r => mk_fs (kern r) (bufs r) (hash_table r) (free_list r) (null_b_prev r) (inode_table r) (last_inode r) (g (super_blocks r)) (file_table r) (ROOT_DEV r) (request r) (blk_dev r) (rd_data r) (rd_start r) (rd_length r) (pages r) (klog r) (drv r).
#[global] Instance upd_file_table : Setter file_table := fun g r => mk_fs (kern r) (bufs r) (hash_table r) (free_list r) (null_b_prev r) (inode_table r) (last_inode r) (super_blocks r) (g (file_table r)) (ROOT_DEV r) (request r) (blk_dev r) (rd_data r) (rd_start r) (rd_length r) (pages r) (klog r) (drv r).
#[global] Instance upd_ROOT_DEV : Setter ROOT_DEV := fun g r => mk_fs (kern r) (bufs r) (hash_table r) (free_list r) (null_b_prev r) (inode_table r) (last_inode r) (super_blocks r) (file_table r) (g (ROOT_DEV r)) (request r) (blk_dev r) (rd_data r) (rd_start r) (rd_length r) (pages r) (klog r) (drv r).
#[global] Instance upd_request : Setter request := fun g r => mk_fs (kern r) (bufs r) (hash_table r) (free_list r) (null_b_prev r) (inode_table r) (last_inode r) (super_blocks r) (file_table r) (ROOT_DEV r) (g (request r)) (blk_dev r) (rd_data r) (rd_start r) (rd_length r) (pages r) (klog r) (drv r).
#[global] Instance upd_blk_dev : Setter blk_dev := fun g r => mk_fs (kern r) (bufs r) (hash_table r) (free_list r) (null_b_prev r) (inode_table r) (last_inode r) (super_blocks r) (file_table r) (ROOT_DEV r) (request r) (g (blk_dev r)) (rd_data r) (rd_start r) (rd_length r) (pages r) (klog r) (drv r).
#[global] Instance upd_rd_data : Setter rd_data := fun g r => mk_fs (kern r) (bufs r) (hash_table r) (free_list r) (null_b_prev r) (inode_table r) (last_inode r) (super_blocks r) (file_table r) (ROOT_DEV r) (request r) (blk_dev r) (g (rd_data r)) (rd_start r) (rd_length r) (pages r) (klog r) (drv r).
#[global] Instance upd_rd_start : Setter rd_start := fun g r => mk_fs (kern r) (bufs r) (hash_table r) (free_list r) (null_b_prev r) (inode_table r) (last_inode r) (super_blocks r) (file_table r) (ROOT_DEV r) (request r) (blk_dev r) (rd_data r) (g (rd_start r)) (rd_length r) (pages r) (klog r) (drv r).
#[global] Instance upd_rd_length : Setter rd_length := fun g r => mk_fs (kern r) (bufs r) (hash_table r) (free_list r) (null_b_prev r) (inode_table r) (last_inode r) (super_blocks r) (file_table r) (ROOT_DEV r) (request r) (blk_dev r) (rd_data r) (rd_start r) (g (rd_length r)) (pages r) (klog r) (drv r).
#[global] Instance upd_pages : Setter pages := fun g r => mk_fs (kern r) (bufs r) (hash_table r) (free_list r) (null_b_prev r) (inode_table r) (last_inode r) (super_blocks r) (file_table r) (ROOT_DEV r) (request r) (blk_dev r) (rd_data r) (rd_start r) (rd_length r) (g (pages r)) (klog r) (drv r).
#[global] Instance upd_klog : Setter klog := fun g r => mk_fs (kern r) (bufs r) (hash_table r) (free_list r) (null_b_prev r) (inode_table r) (last_inode r) (super_blocks r) (file_table r) (ROOT_DEV r) (request r) (blk_dev r) (rd_data r) (rd_start r) (rd_length r) (pages r) (g (klog r)) (drv r).
#[global] Instance upd_drv : Setter drv := fun g r => mk_fs (kern r) (bufs r) (hash_table r) (free_list r) (null_b_prev r) (inode_table r) (last_inode r) (super_blocks r) (file_table r) (ROOT_DEV r) (request r) (blk_dev r) (rd_data r) (rd_start r) (rd_length r) (pages r) (klog r) (g (drv r)).

(** ** Access to the tables *)
Definition get_buf (i : nat) : M fs buffer_head := s <- get ;; deref (bufs s !! i).
Definition mod_buf (i : nat) (f : buffer_head -> buffer_head) : M fs unit :=
  b <- get_buf i ;; modify (fun s => s <| bufs ::= <[i := f b]> |>).
Definition get_inode (i : nat) : M fs m_inode := s <- get ;; deref (inode_table s !! i).
Definition mod_inode (i : nat) (f : m_inode -> m_inode) : M fs unit :=
  n <- get_inode i ;; modify (fun s => s <| inode_table ::= <[i := f n]> |>).
Definition get_sb (i : nat) : M fs super_block := s <- get ;; deref (super_blocks s !! i).
Definition mod_sb (i : nat) (f : super_block -> super_block) : M fs unit :=
  b <- get_sb i ;; modify (fun s => s <| super_blocks ::= <[i := f b]> |>).
Definition get_file (i : nat) : M fs file := s <- get ;; deref (file_table s !! i).
Definition mod_file (i : nat) (f : file -> file) : M fs unit :=
  b <- get_file i ;; modify (fun s => s <| file_table ::= <[i := f b]> |>).
Definition in_kernel {A} (m : M kernel A) : M fs A := zoom kern (fun k s => s <| kern := k |>) m.
(** The format, without its control characters, and the arguments. *)
Definition printk (fmt : string) (args : list Z) : M fs unit :=
  modify (fun s => s <| klog ::= fun l => l ++ [(fmt, args)] |>).
Definition current_time : M fs Z :=
  gets (fun s => startup_time (kern s) + jiffies (kern s) / HZ).

Lemma get_buf_run s i b : bufs s !! i = Some b -> get_buf i s = Done b s.
Proof. intros H. unfold get_buf, bind, get. by rewrite H. Qed.
Lemma mod_buf_run s i b f : bufs s !! i = Some b -> mod_buf i f s = Done tt (s <| bufs ::= <[i := f b]> |>).
Proof. intros H. unfold mod_buf, bind. by rewrite (get_buf_run s i b H). Qed.
Lemma get_inode_run s i n : inode_table s !! i = Some n -> get_inode i s = Done n s.
Proof. intros H. unfold get_inode, bind, get. by rewrite H. Qed.
Lemma mod_inode_run s i n f : inode_table s !! i = Some n -> mod_inode i f s = Done tt (s <| inode_table ::= <[i := f n]> |>).
Proof. intros H. unfold mod_inode, bind. by rewrite (get_inode_run s i n H). Qed.
Lemma get_sb_run s i n : super_blocks s !! i = Some n -> get_sb i s = Done n s.
Proof. intros H. unfold get_sb, bind, get. by rewrite H. Qed.
Lemma mod_sb_run s i n f : super_blocks s !! i = Some n -> mod_sb i f s = Done tt (s <| super_blocks ::= <[i := f n]> |>).
Proof. intros H. unfold mod_sb, bind. by rewrite (get_sb_run s i n H). Qed.
Lemma get_file_run s i f : file_table s !! i = Some f -> get_file i s = Done f s.
Proof. intros H. unfold get_file, bind, get. by rewrite H. Qed.
Lemma mod_file_run s i x f : file_table s !! i = Some x -> mod_file i f s = Done tt (s <| file_table ::= <[i := f x]> |>).
Proof. intros H. unfold mod_file, bind. by rewrite (get_file_run s i x H). Qed.

(** ** Bytes of a block *)
Definition byte (l : list Z) (i : Z) : Z := default 0 (l !! Z.to_nat i).
Definition half (l : list Z) (i : Z) : Z := byte l i + 256 * byte l (i + 1).
Definition word (l : list Z) (i : Z) : Z := half l i + 65536 * half l (i + 2).
Definition set_byte (i v : Z) (l : list Z) : list Z := <[Z.to_nat i := u8 v]> l.
Definition set_half (i v : Z) (l : list Z) : list Z :=
  set_byte (i + 1) (Z.shiftr v 8) (set_byte i v l).
Definition set_word (i v : Z) (l : list Z) : list Z :=
  set_half (i + 2) (Z.shiftr v 16) (set_half i v l).
(** [memcpy] into a buffer at [i]. *)
Fixpoint blit (i : Z) (src l : list Z) : list Z :=
  match src with [] => l | b :: src => blit (i + 1) src (set_byte i b l) end.

(** ** Wait queues: the addresses of the wait queue pointers *)
Definition b_wait (i : nat) : Z := 10000 + Z.of_nat i.
Definition i_wait (i : nat) : Z := 20000 + Z.of_nat i.
Definition s_wait (i : nat) : Z := 30000 + Z.of_nat i.
Definition buffer_wait : Z := 40000.
Definition wait_for_request : Z := 40001.
Definition r_waiting (i : nat) : Z := 41000 + Z.of_nat i.

Class Env : Type := {
  others : nat -> M fs unit;
  do_fd_request : M fs unit;
  do_hd_request : M fs unit;
  floppy_change : Z -> M fs bool;
  get_free_page : M fs Z;
  free_page : Z -> M fs unit;
  fuel : nat
}.

Section Sleeping.
Context {E : Env}.
Definition fs_schedule : M fs unit :=
  s <- get ;; in_kernel Sched.schedule ;;; others (current (kern s)).
Definition fs_sleep_on (p : Z) : M fs unit :=
  tmp <- in_kernel (Sched.sleep_enter TASK_UNINTERRUPTIBLE p) ;;
  fs_schedule ;;;
  in_kernel (make_runnable tmp).
Definition fs_wake_up (p : Z) : M fs unit := in_kernel (Sched.wake_up p).

(** [while (lock) sleep_on(&wait);] *)
Definition wait_while (locked : M fs bool) (p : Z) : M fs unit :=
  loop fuel (fun _ : unit =>
    l <- locked ;; if l : bool then fs_sleep_on p ;;; ret (inl tt) else ret (inr tt)) tt.
End Sleeping.

(** ** The variables before any of it is initialised *)
Definition no_buffer : buffer_head := mk_buffer (replicate 1024 0) 0 0 0 0 0 0 None None None None.
Definition no_inode : m_inode := mk_inode 0 0 0 0 0 0 (replicate 9 0) 0 0 0 0 0 0 0 0 0 0 0.
Definition no_super : super_block :=
  mk_super 0 0 0 0 0 0 0 0 (replicate 8 None) (replicate 8 None) 0 None None 0 0 0 0.
Definition no_file : file := mk_file 0 0 0 None 0.
Definition no_request : request_t := mk_request 0 0 0 0 0 0 0 None None.
Definition no_hd_info : hd_i_struct := mk_hd_info 0 0 0 0 0 0.
Definition boot_drivers : drivers :=
  mk_drivers 1 1 [no_hd_info; no_hd_info] 0 (replicate 10 (0, 0)) 1 None
    0 0 0 (replicate 7 0) (- 1) (- 1) 0 0 0 0 0 0 255 0 None (replicate 1024 0) 0.
Definition boot_fs : fs :=
  mk_fs boot_kernel [] (replicate (Z.to_nat NR_HASH) None) 0 None (replicate NR_INODE no_inode) 0
    (replicate NR_SUPER no_super) (replicate NR_FILE no_file) 0 (replicate 32 no_request)
    (replicate 7 (mk_blk_dev None None)) [] 0 0 ∅ [] boot_drivers.

(** ** Ports

    [port_in n p] is what read number [n] of a port answers, when [p] is the port that is
    read: the controllers may answer anything at any time. *)
Class Ports : Type := port_in : nat -> Z -> Z.
Definition drvs : M fs drivers := gets drv.
Definition mod_drv (f : drivers -> drivers) : M fs unit := modify (fun s => s <| drv ::= f |>).
Definition fs_outb (v port : Z) : M fs unit := in_kernel (Sched.outb (u8 v) port).
Definition fs_outw (v port : Z) : M fs unit := in_kernel (Sched.outb (u16 v) port).
Section Input.
Context {I : Ports}.
Definition read_port (port : Z) : M fs Z :=
  d <- drvs ;; mod_drv (fun d => d <| port_reads ::= S |>) ;;; ret (port_in (port_reads d) port).
Definition inb (port : Z) : M fs Z := v <- read_port port ;; ret (u8 v).
(** [insw]: [n] words, as bytes. *)
Fixpoint insw (n : nat) (port : Z) : M fs (list Z) :=
  match n with
  | O => ret []
  | S n => v <- read_port port ;; l <- insw n port ;; ret (u8 v :: u8 (Z.shiftr v 8) :: l)
  end.
End Input.
(** [outsw]: the bytes in pairs. *)
Fixpoint outsw (l : list Z) (port : Z) : M fs unit :=
  match l with
  | a :: b :: l => fs_outw (a + 256 * b) port ;;; outsw l port
  | _ => ret tt
  end.

(** An environment in which nothing else runs. *)
Definition idle_env : Env :=
  {| others _ := ret tt; do_fd_request := ret tt; do_hd_request := ret tt; floppy_change _ := ret false;
     get_free_page := s <- get ;; (if decide (pages s = ∅) then modify (fun s => s <| pages := {[ 1048576 := replicate 4096 0 ]} |>) ;;; ret 1048576 else ret 0);
     free_page a := modify (fun s => s <| pages ::= delete a |>); fuel := 100 |}.
