(* ===== verification/Blk.v ===== *)
(** * Blk: block device requests (kernel/blk_drv/ll_rw_blk.c, blk.h, ramdisk.c)

    A request for a buffer is put into a free entry of the request table and linked
    into its device's queue in elevator order; the device's strategy routine
    works the queue off.  The RAM disk does so at once, by copying. *)
From S2P Require Import Prelude Console Task Sched Fs.

Module Blk.

Definition NR_BLK_DEV : nat := 7.
Definition NR_REQUEST : nat := 32.

Definition get_req (i : nat) : M fs request_t := s <- get ;; deref (request s !! i).
Definition mod_req (i : nat) (f : request_t -> request_t) : M fs unit :=
  r <- get_req i ;; modify (fun s => s <| request ::= <[i := f r]> |>).
Definition get_dev (major : nat) : M fs blk_dev_struct := s <- get ;; deref (blk_dev s !! major).
Definition mod_dev (major : nat) (f : blk_dev_struct -> blk_dev_struct) : M fs unit :=
  d <- get_dev major ;; modify (fun s => s <| blk_dev ::= <[major := f d]> |>).

(** [IN_ORDER(s1,s2)]: by command, device and sector. *)
Definition IN_ORDER (s1 s2 : request_t) : bool :=
  (r_cmd s1 <? r_cmd s2) || (r_cmd s1 =? r_cmd s2) &&
  ((r_dev s1 <? r_dev s2) || (r_dev s1 =? r_dev s2) && (r_sector s1 <? r_sector s2)).

(** [memcpy(l + off, src, len)] *)
Definition splice (off : nat) (src l : list Z) : list Z :=
  take off l ++ src ++ drop (off + length src) l.

Section Requests.
Context {E : Env}.

Definition lock_buffer (bh : nat) : M fs unit :=
  wait_while (b <- get_buf bh ;; ret (truth (b_lock b))) (b_wait bh) ;;;
  mod_buf bh (fun b => b <| b_lock := 1 |>).
Definition unlock_buffer (bh : nat) : M fs unit :=
  b <- get_buf bh ;;
  when (negb (truth (b_lock b))) (printk "ll_rw_block.c: buffer not locked" []) ;;;
  mod_buf bh (fun b => b <| b_lock := 0 |>) ;;;
  fs_wake_up (b_wait bh).

(** ** The end of a request (blk.h, for the device of major number [major]) *)
Definition unlock_request_buffer (name : string) (bh : nat) : M fs unit :=
  b <- get_buf bh ;;
  when (negb (truth (b_lock b))) (printk (name ++ ": free buffer being unlocked") []) ;;;
  mod_buf bh (fun b => b <| b_lock := 0 |>) ;;;
  fs_wake_up (b_wait bh).

Definition end_request (name : string) (major : nat) (uptodate : Z) : M fs unit :=
  d <- get_dev major ;;
  cur <- deref (current_request d) ;;
  r <- get_req cur ;;
  match r_bh r with
  | Some bh => mod_buf bh (fun b => b <| b_uptodate := uptodate |>) ;;; unlock_request_buffer name bh
  | None => ret tt
  end ;;;
  when (negb (truth uptodate))
    (printk (name ++ " I/O error") [] ;;;
     bh <- deref (r_bh r) ;; b <- get_buf bh ;;
     printk "dev %04x, block %d" [r_dev r; b_blocknr b]) ;;;
  fs_wake_up (r_waiting cur) ;;;
  fs_wake_up wait_for_request ;;;
  mod_req cur (fun r => r <| r_dev := -1 |>) ;;;
  r <- get_req cur ;;
  mod_dev major (fun d => d <| current_request := r_next r |>).

(** [INIT_REQUEST]: the current request, if there is one. *)
Definition init_request (name : string) (major : nat) : M fs (option (nat * request_t)) :=
  d <- get_dev major ;;
  match current_request d with
  | None => ret None
  | Some cur =>
      r <- get_req cur ;;
      if negb (MAJOR (r_dev r) =? Z.of_nat major) then panic (name ++ ": request list destroyed") else
      match r_bh r with
      | Some bh => b <- get_buf bh ;;
          if negb (truth (b_lock b)) then panic (name ++ ": block not locked") else ret (Some (cur, r))
      | None => ret (Some (cur, r))
      end
  end.

(** ** The RAM disk *)
Definition rd_name : string := "ramdisk".
Definition rd_addr (s : fs) (r : request_t) : Z := u32 (rd_start s + u32 (Z.shiftl (r_sector r) 9)).
Definition rd_len (r : request_t) : Z := i32 (Z.shiftl (r_nr_sectors r) 9).
(** The copy; memory below the RAM disk is not in the model. *)
Definition rd_transfer (r : request_t) : M fs unit :=
  s <- get ;;
  off <- deref (if rd_start s <=? rd_addr s r then Some (Z.to_nat (rd_addr s r - rd_start s)) else None) ;;
  let len := Z.to_nat (rd_len r) in
  if r_cmd r =? WRITE then
    b <- get_buf (r_buffer r) ;;
    modify (fun s => s <| rd_data ::= splice off (take len (drop (Z.to_nat (r_off r)) (b_data b))) |>)
  else if r_cmd r =? READ then
    mod_buf (r_buffer r) (fun b => b <| b_data ::= splice (Z.to_nat (r_off r)) (take len (drop off (rd_data s))) |>)
  else panic "unknown ramdisk-command".

Definition rd_step (_ : unit) : M fs (unit + unit) :=
  o <- init_request rd_name 1 ;;
  match o with
  | None => ret (inr tt)
  | Some (cur, r) =>
      s <- get ;;
      if negb (MINOR (r_dev r) =? 1) || (u32 (rd_start s + rd_length s) <? u32 (rd_addr s r + rd_len r))
      then end_request rd_name 1 0 ;;; ret (inl tt)
      else rd_transfer r ;;; end_request rd_name 1 1 ;;; ret (inl tt)
  end.
(** The queue has at most [NR_REQUEST] entries. *)
Definition do_rd_request : M fs unit := loop (S NR_REQUEST) rd_step tt.

Definition call_request_fn (f : driver) : M fs unit :=
  match f with
  | do_rd_request_fn => do_rd_request
  | do_fd_request_fn => do_fd_request
  | do_hd_request_fn => do_hd_request
  end.

(** ** Queueing *)

(** Where the request goes: the entry after which it is linked. *)
Definition find_place (req : request_t) : nat -> M fs nat :=
  loop NR_REQUEST (fun tmp =>
    t <- get_req tmp ;;
    match r_next t with
    | None => ret (inr tmp)
    | Some next =>
        n <- get_req next ;;
        ret (if (IN_ORDER t req || negb (IN_ORDER t n)) && IN_ORDER req n then inr tmp else inl next)
    end).

Definition add_request (major : nat) (req : nat) : M fs unit :=
  mod_req req (fun r => r <| r_next := None |>) ;;;
  r <- get_req req ;;
  match r_bh r with
  | Some bh => mod_buf bh (fun b => b <| b_dirt := 0 |>)
  | None => ret tt
  end ;;;
  d <- get_dev major ;;
  match current_request d with
  | None =>
      mod_dev major (fun d => d <| current_request := Some req |>) ;;;
      f <- deref (request_fn d) ;; call_request_fn f
  | Some first =>
      tmp <- find_place r first ;;
      t <- get_req tmp ;;
      mod_req req (fun r => r <| r_next := r_next t |>) ;;;
      mod_req tmp (fun t => t <| r_next := Some req |>)
  end.

(** The highest free entry below [n]. *)
Fixpoint free_request (l : list request_t) (n : nat) : option nat :=
  match n with
  | O => None
  | S i => match l !! i with
           | Some r => if r_dev r <? 0 then Some i else free_request l i
           | None => free_request l i
           end
  end.

Definition make_request (major : nat) (rw : Z) (bh : nat) : M fs unit :=
  let rw_ahead := (rw =? READA) || (rw =? WRITEA) in
  b <- get_buf bh ;;
  if rw_ahead && truth (b_lock b) then ret tt else
  let rw := if rw_ahead then if rw =? READA then READ else WRITE else rw in
  if negb (rw =? READ) && negb (rw =? WRITE) then panic "Bad block dev command, must be R/W/RA/WA" else
  lock_buffer bh ;;;
  b <- get_buf bh ;;
  if (rw =? WRITE) && negb (truth (b_dirt b)) || (rw =? READ) && truth (b_uptodate b)
  then unlock_buffer bh else
  let limit := if rw =? READ then NR_REQUEST else (NR_REQUEST * 2 / 3)%nat in
  o <- loop fuel (fun _ : unit =>
         s <- get ;;
         match free_request (request s) limit with
         | Some req => ret (inr (Some req))
         | None => if rw_ahead then ret (inr None)
                   else fs_sleep_on wait_for_request ;;; ret (inl tt)
         end) tt ;;
  match o with
  | None => unlock_buffer bh
  | Some req =>
      b <- get_buf bh ;;
      mod_req req (fun _ => mk_request (b_dev b) rw 0 (u32 (Z.shiftl (b_blocknr b) 1)) 2 bh 0 (Some bh) None) ;;;
      in_kernel (wq_set (r_waiting req) None) ;;;
      add_request major req
  end.

Definition ll_rw_block (rw : Z) (bh : nat) : M fs unit :=
  b <- get_buf bh ;;
  let major := Z.to_nat (MAJOR (b_dev b)) in
  s <- get ;;
  match blk_dev s !! major with
  | Some (mk_blk_dev (Some _) _) => make_request major rw bh
  | _ => printk "Trying to read nonexistent block-device" []
  end.
End Requests.

Definition blk_dev_init : M fs unit :=
  for_each (seq 0 NR_REQUEST) (fun i => mod_req i (fun r => r <| r_dev := -1 |> <| r_next := None |>)).
Definition rd_init (mem_start length : Z) : M fs Z :=
  mod_dev 1 (fun d => d <| request_fn := Some do_rd_request_fn |>) ;;;
  modify (fun s => s <| rd_start := mem_start |> <| rd_length := length |> <| rd_data := replicate (Z.to_nat length) 0 |>) ;;;
  ret length.

(** ** The elevator

    [elevate r t l]: where the request [r] goes in the queue [t :: l]. *)
Fixpoint elevate (r t : request_t) (l : list request_t) : list request_t :=
  match l with
  | [] => [t; r]
  | n :: l' =>
      if (IN_ORDER t r || negb (IN_ORDER t n)) && IN_ORDER r n then t :: r :: l
      else t :: elevate r n l'
  end.
(** A sweep: requests in increasing order. *)
Fixpoint sweep (t : request_t) (l : list request_t) : Prop :=
  match l with [] => True | n :: l' => IN_ORDER t n = true /\ sweep n l' end.
(** The rest of the current sweep, then at most one sweep from the start. *)
Fixpoint two_sweeps (t : request_t) (l : list request_t) : Prop :=
  match l with
  | [] => True
  | n :: l' => if IN_ORDER t n then two_sweeps n l' else sweep n l'
  end.

Arguments IN_ORDER : simpl never.

(** Two requests are for different sectors or of different kinds. *)
Definition differ (a b : request_t) : Prop :=
  r_cmd a <> r_cmd b \/ r_dev a <> r_dev b \/ r_sector a <> r_sector b.
Lemma IN_ORDER_spec a b : IN_ORDER a b = true <->
  r_cmd a < r_cmd b \/ r_cmd a = r_cmd b /\ (r_dev a < r_dev b \/ r_dev a = r_dev b /\ r_sector a < r_sector b).
Proof. unfold IN_ORDER. rewrite !orb_true_iff, !andb_true_iff, !orb_true_iff, !andb_true_iff, !Z.ltb_lt, !Z.eqb_eq. tauto. Qed.
Lemma IN_ORDER_false a b : IN_ORDER a b = false <-> ~ IN_ORDER a b = true.
Proof. destruct (IN_ORDER a b); split; intros; done. Qed.
Lemma IN_ORDER_total a b : differ a b -> IN_ORDER a b = false -> IN_ORDER b a = true.
Proof. unfold differ. rewrite IN_ORDER_false, !IN_ORDER_spec. lia. Qed.
Lemma IN_ORDER_trans a b c : IN_ORDER a b = true -> IN_ORDER b c = true -> IN_ORDER a c = true.
Proof. rewrite !IN_ORDER_spec. lia. Qed.
Lemma IN_ORDER_asym a b : IN_ORDER a b = true -> IN_ORDER b a = false.
Proof. rewrite IN_ORDER_false, !IN_ORDER_spec. lia. Qed.

(** In the second sweep, a request above its first entry is put in order. *)
Lemma elevate_sweep r : forall l t, sweep t l -> IN_ORDER t r = true -> Forall (differ r) l ->
  sweep t (match elevate r t l with [] => [] | _ :: l' => l' end) /\ elevate r t l = t :: match elevate r t l with [] => [] | _ :: l' => l' end.
Proof.
  induction l as [|n l IH]; intros t Hs Ht Hd; [cbn; done|]. apply Forall_cons in Hd as [Hdn Hd].
  destruct Hs as [Htn Hs]. cbn [elevate]. rewrite Ht, Htn. cbn [orb andb].
  destruct (IN_ORDER r n) eqn:Hrn; [by cbn|]. pose proof (IN_ORDER_total r n Hdn Hrn) as Hnr.
  destruct (IH n Hs Hnr Hd) as [IH1 IH2]. split; [|done]. rewrite IH2. cbn. split; [done|exact IH1].
Qed.
Lemma elevate_head r t l : elevate r t l = t :: tl (elevate r t l).
Proof. destruct l as [|n l]; [done|]. cbn. by destruct (_ && _). Qed.

Lemma sweep_two t l : sweep t l -> two_sweeps t l.
Proof.
  revert t. induction l as [|n l IH]; intros t H; [done|]. destruct H as [H1 H2]. cbn. rewrite H1. auto.
Qed.

(** The queue stays in two sweeps, and nothing in it is lost or reordered. *)
Lemma elevate_two_sweeps r : forall l t, two_sweeps t l -> differ r t -> Forall (differ r) l ->
  two_sweeps t (tl (elevate r t l)).
Proof.
  induction l as [|n l IH]; intros t H Hdt Hd.
  - cbn. by destruct (IN_ORDER t r).
  - apply Forall_cons in Hd as [Hdn Hd]. cbn [elevate two_sweeps] in *.
    destruct (IN_ORDER t n) eqn:Htn; cbn [negb].
    + destruct (IN_ORDER t r) eqn:Htr; cbn [orb andb].
      * destruct (IN_ORDER r n) eqn:Hrn; cbn [tl two_sweeps].
        -- by rewrite Htr, Hrn.
        -- rewrite elevate_head. cbn [two_sweeps]. rewrite Htn. by apply IH.
      * rewrite elevate_head. cbn [tl two_sweeps]. rewrite Htn. by apply IH.
    + rewrite orb_true_r. cbn [andb]. destruct (IN_ORDER r n) eqn:Hrn; cbn [tl two_sweeps].
      * destruct (IN_ORDER t r); [rewrite Hrn; by apply sweep_two|]. by split.
      * rewrite elevate_head. cbn [two_sweeps]. rewrite Htn.
        pose proof (IN_ORDER_total r n Hdn Hrn) as Hnr.
        destruct (elevate_sweep r l n H Hnr Hd) as [G _]. exact G.
Qed.
Lemma elevate_split r : forall l t, exists l1 l2, l = l1 ++ l2 /\ elevate r t l = t :: l1 ++ r :: l2.
Proof.
  induction l as [|n l IH]; intros t; [by exists [], []|]. cbn [elevate].
  destruct (_ && _); [by exists [], (n :: l)|]. destruct (IH n) as (l1 & l2 & -> & ->).
  by exists (n :: l1), l2.
Qed.

Lemma get_req_run s i r : request s !! i = Some r -> get_req i s = Done r s.
Proof. intros H. unfold get_req, bind, get. by rewrite H. Qed.
Lemma mod_req_run s i r f : request s !! i = Some r -> mod_req i f s = Done tt (s <| request ::= <[i := f r]> |>).
Proof. intros H. unfold mod_req, bind. by rewrite (get_req_run s i r H). Qed.
Lemma get_dev_run s i d : blk_dev s !! i = Some d -> get_dev i s = Done d s.
Proof. intros H. unfold get_dev, bind, get. by rewrite H. Qed.
Lemma mod_dev_run s i d f : blk_dev s !! i = Some d -> mod_dev i f s = Done tt (s <| blk_dev ::= <[i := f d]> |>).
Proof. intros H. unfold mod_dev, bind. by rewrite (get_dev_run s i d H). Qed.

(** ** Queues in the request table *)
Fixpoint linked (T : list request_t) (o : option nat) (l : list nat) : Prop :=
  match l with
  | [] => o = None
  | i :: l' => o = Some i /\ exists r, T !! i = Some r /\ linked T (r_next r) l'
  end.
Definition reqs (T : list request_t) (l : list nat) : list request_t := omap (fun i => T !! i) l.

Lemma linked_ext T T' o l : linked T o l -> (forall i, i ∈ l -> T' !! i = T !! i) -> linked T' o l.
Proof.
  revert o. induction l as [|i l IH]; intros o H Hext; [done|]. destruct H as (-> & r & Hr & Hl).
  split; [done|]. exists r. rewrite Hext by left. split; [done|]. apply IH; [done|]. intros j Hj. apply Hext. by right.
Qed.

Section Place.
Context (s : fs) (rq : request_t).
(** [find_place] walks as [elevate] does: it answers the entry before the new one. *)
Lemma find_place_run : forall l t n, linked (request s) (Some t) (t :: l) -> (length l < n)%nat ->
  exists l1 i l2, t :: l = l1 ++ i :: l2 /\
    loop n (fun tmp =>
      t <- get_req tmp ;;
      match r_next t with
      | None => ret (inr tmp)
      | Some next => n <- get_req next ;;
          ret (if (IN_ORDER t rq || negb (IN_ORDER t n)) && IN_ORDER rq n then inr tmp else inl next)
      end) t s = Done i s /\
    forall rt, request s !! t = Some rt ->
      elevate rq rt (reqs (request s) l) = reqs (request s) (l1 ++ [i]) ++ rq :: reqs (request s) l2.
Proof.
  induction l as [|x l IH]; intros t n H Hn; (destruct n as [|n]; [cbn in Hn; lia|]); destruct H as (_ & r & Hr & Hl).
  - exists [], t, []. split; [done|]. cbn [loop]. unfold bind, get_req, bind, get. rewrite Hr. cbn.
    cbn in Hl. rewrite Hl. split; [done|]. intros rt [= <-]. unfold reqs. cbn. by rewrite Hr.
  - cbn in Hl. destruct Hl as (Hn1 & rx & Hrx & Hl). cbn [loop]. unfold bind at 1 2, get_req at 1, bind at 1, get at 1.
    rewrite Hr. cbn [deref ret]. rewrite Hn1. unfold bind at 1, get_req at 1, bind at 1, get at 1. rewrite Hrx. cbn [deref ret].
    destruct ((IN_ORDER r rq || negb (IN_ORDER r rx)) && IN_ORDER rq rx) eqn:Ec.
    + exists [], t, (x :: l). split; [done|]. split; [done|]. intros rt [= <-].
      unfold reqs. cbn. rewrite Hr, Hrx. cbn. by rewrite Ec.
    + destruct (IH x n) as (l1 & i & l2 & E & Erun & Espec).
      * split; [done|]. exists rx. done.
      * cbn in Hn. lia.
      * exists (t :: l1), i, l2. split; [by rewrite E|]. split; [exact Erun|].
        intros rt [= <-]. specialize (Espec rx Hrx).
        unfold reqs in *. cbn [omap list_omap app]. rewrite Hr. cbn. rewrite Hrx. cbn. rewrite Ec. cbn in Espec. by rewrite Espec.
Qed.
End Place.

Definition same_key (a b : request_t) : Prop :=
  r_cmd a = r_cmd b /\ r_dev a = r_dev b /\ r_sector a = r_sector b.
Lemma IN_ORDER_keys a a' b b' : same_key a a' -> same_key b b' -> IN_ORDER a b = IN_ORDER a' b'.
Proof. intros (E1 & E2 & E3) (F1 & F2 & F3). unfold IN_ORDER. by rewrite E1, E2, E3, F1, F2, F3. Qed.
Lemma sweep_keys l : forall l' a a', same_key a a' -> Forall2 same_key l l' -> sweep a l -> sweep a' l'.
Proof.
  induction l as [|b l IH]; intros l' a a' Ha H; inversion H as [|? b' ? l2 Hb Hl]; subst; [done|].
  cbn. rewrite (IN_ORDER_keys a a' b b' Ha Hb). intros [? ?]. split; [done|]. by apply (IH l2 b).
Qed.
Lemma two_sweeps_keys l : forall l' a a', same_key a a' -> Forall2 same_key l l' -> two_sweeps a l -> two_sweeps a' l'.
Proof.
  induction l as [|b l IH]; intros l' a a' Ha H; inversion H as [|? b' ? l2 Hb Hl]; subst; [done|].
  cbn. rewrite (IN_ORDER_keys a a' b b' Ha Hb). destruct (IN_ORDER a' b'); [by apply IH|by apply (sweep_keys l)].
Qed.

(** Linking entry [req] after [i]. *)
Definition link_after (T : list request_t) (i req : nat) (t r : request_t) : list request_t :=
  <[i := t <| r_next := Some req |>]> (<[req := r <| r_next := r_next t |>]> T).

Lemma link_after_keys T i req t r : T !! i = Some t -> T !! req = Some r -> i <> req ->
  forall l, Forall2 same_key (reqs T l) (reqs (link_after T i req t r) l).
Proof.
  intros Ht Hr Hne l. induction l as [|j l IH]; [constructor|]. unfold reqs in *. cbn [omap list_omap].
  assert ((T !! j = None /\ link_after T i req t r !! j = None) \/
    exists a b, T !! j = Some a /\ link_after T i req t r !! j = Some b /\ same_key a b) as G.
  { unfold link_after. pose proof (lookup_lt_Some _ _ _ Ht). pose proof (lookup_lt_Some _ _ _ Hr).
    destruct (decide (j = i)) as [->|Hj1].
    - right. exists t. eexists. rewrite list_lookup_insert_eq by (by rewrite length_insert). done.
    - rewrite list_lookup_insert_ne by done. destruct (decide (j = req)) as [->|Hj2].
      + right. exists r. eexists. rewrite list_lookup_insert_eq by done. done.
      + rewrite list_lookup_insert_ne by done. destruct (T !! j) as [a|]; [right|by left]. by exists a, a. }
  destruct G as [[-> ->]|(a & b & -> & -> & Hk)]; cbn; [exact IH|]. by constructor.
Qed.

Lemma link_after_linked T i req t r : T !! i = Some t -> T !! req = Some r ->
  forall l1 l2 o, linked T o (l1 ++ i :: l2) -> NoDup (l1 ++ i :: l2) -> req ∉ l1 ++ i :: l2 ->
  linked (link_after T i req t r) o (l1 ++ i :: req :: l2).
Proof.
  intros Ht Hr l1. pose proof (lookup_lt_Some _ _ _ Ht). pose proof (lookup_lt_Some _ _ _ Hr).
  induction l1 as [|j l1 IH]; intros l2 o Hl Hn Hq; cbn [app] in *.
  - apply not_elem_of_cons in Hq as [Hq Hq2]. apply NoDup_cons in Hn as [Hi Hn].
    destruct Hl as (-> & t' & Ht' & Hl). rewrite Ht in Ht'. injection Ht' as <-.
    split; [done|]. exists (t <| r_next := Some req |>). unfold link_after.
    rewrite list_lookup_insert_eq by (by rewrite length_insert). split; [done|]. split; [done|].
    exists (r <| r_next := r_next t |>). rewrite list_lookup_insert_ne, list_lookup_insert_eq by done. split; [done|].
    change (r_next (r <| r_next := r_next t |>)) with (r_next t). apply (linked_ext T); [done|].
    intros j Hj. assert (j <> i /\ j <> req) as [? ?] by (split; intros ->; done).
    by rewrite !list_lookup_insert_ne by done.
  - apply not_elem_of_cons in Hq as [Hq Hq2]. apply NoDup_cons in Hn as [Hj Hn].
    destruct Hl as (-> & t' & Ht' & Hl). split; [done|]. exists t'. split.
    + unfold link_after. assert (j <> i) by (intros ->; apply Hj, elem_of_app; right; left).
      by rewrite !list_lookup_insert_ne by done.
    + by apply IH.
Qed.

Lemma reqs_ext T T' l : (forall i, i ∈ l -> T' !! i = T !! i) -> reqs T' l = reqs T l.
Proof.
  unfold reqs. induction l as [|i l IH]; intros H; [done|]. cbn [omap list_omap].
  rewrite (H i) by left. rewrite IH; [done|]. intros j Hj. apply H. by right.
Qed.
Lemma reqs_app T l1 l2 : reqs T (l1 ++ l2) = reqs T l1 ++ reqs T l2.
Proof. apply omap_app. Qed.
Lemma linked_head T o i l : linked T o (i :: l) -> o = Some i /\ exists r, T !! i = Some r /\ reqs T (i :: l) = r :: reqs T l.
Proof. intros (-> & r & Hr & _). split; [done|]. exists r. split; [done|]. unfold reqs. cbn. by rewrite Hr. Qed.

Section Elevator.
Context {E : Env}.

Lemma linked_in T l2 i l1 : forall o, linked T o (l1 ++ i :: l2) -> exists t, T !! i = Some t.
Proof.
  induction l1 as [|j l1 IH]; cbn; [intros o (_ & t & Ht & _); by eexists|].
  intros o (_ & r & _ & Hl). by apply (IH (r_next r)).
Qed.
(** The entry cleared for its place in the queue, its buffer no longer dirty. *)
Definition entered (s : fs) (req : nat) (rq : request_t) (bh : nat) (b : buffer_head) : fs :=
  s <| request ::= <[req := rq <| r_next := None |>]> |> <| bufs ::= <[bh := b <| b_dirt := 0 |>]> |>.
Lemma add_request_run s major d first req rq bh b i t (s1 := entered s req rq bh b) (rq0 := rq <| r_next := None |>) :
  blk_dev s !! major = Some d -> current_request d = Some first ->
  request s !! req = Some rq -> r_bh rq = Some bh -> bufs s !! bh = Some b ->
  find_place rq0 first s1 = Done i s1 -> request s1 !! i = Some t -> i <> req ->
  add_request major req s = Done tt (s1 <| request := link_after (request s1) i req t rq0 |>).
Proof.
  intros Hd Hc Hrq Hbh Hb Erun Ht Hne. pose proof (lookup_lt_Some _ _ _ Hrq) as Hlt.
  assert (request s1 !! req = Some rq0) as Hr0 by (cbn; by rewrite list_lookup_insert_eq).
  unfold add_request. run (mod_req_run s req rq _ Hrq). fold rq0. set (sa := s <| request ::= _ |>).
  assert (request sa !! req = Some rq0) as Ha by (cbn; by rewrite list_lookup_insert_eq).
  run (get_req_run sa req rq0 Ha). change (r_bh rq0) with (r_bh rq). rewrite Hbh.
  run (mod_buf_run sa bh b _ Hb). change (sa <| bufs ::= _ |>) with s1. run (get_dev_run s1 major d Hd).
  rewrite Hc. run Erun. run (get_req_run s1 i t Ht). run (mod_req_run s1 req rq0 _ Hr0).
  rewrite (mod_req_run _ i t); [done|]. cbn. rewrite list_lookup_insert_ne by done. exact Ht.
Qed.
(** The queue with the entry in the place that [elevate] gives it is still two sweeps. *)
Lemma elevated_queue T rq0 req first f l l' : T !! first = Some f -> T !! req = Some rq0 ->
  elevate rq0 f (reqs T l) = reqs T (first :: l') -> Forall (differ rq0) (reqs T (first :: l)) -> two_sweeps f (reqs T l) ->
  two_sweeps f (reqs T l').
Proof.
  intros Hf Hr He Hd Ht. unfold reqs in He at 2. cbn [omap list_omap] in He. rewrite Hf in He. fold (reqs T l') in He.
  unfold reqs in Hd. cbn [omap list_omap] in Hd. rewrite Hf in Hd. fold (reqs T l) in Hd. apply Forall_cons in Hd as [Hdf Hdl].
  replace (reqs T l') with (tl (elevate rq0 f (reqs T l))) by (by rewrite He). by apply elevate_two_sweeps.
Qed.

(** C23: a request for a busy device is linked into the device's queue behind its
    current request, the others keep their order, and when no two requests in
    the queue are for the same sector and command, the queue is again one
    increasing sweep from the current request followed by at most one more: the
    elevator turns round once. *)
Theorem add_request_elevator s major d first l req rq bh b :
  blk_dev s !! major = Some d -> current_request d = Some first ->
  linked (request s) (Some first) (first :: l) -> NoDup (first :: l) -> req ∉ first :: l ->
  (length l < NR_REQUEST)%nat ->
  request s !! req = Some rq -> r_bh rq = Some bh -> bufs s !! bh = Some b ->
  Forall (differ rq) (reqs (request s) (first :: l)) ->
  (forall f, request s !! first = Some f -> two_sweeps f (reqs (request s) l)) ->
  wp (add_request major req) (fun _ s' =>
    blk_dev s' = blk_dev s /\ bufs s' = <[bh := b <| b_dirt := 0 |>]> (bufs s) /\
    exists l1 l2, l = l1 ++ l2 /\ linked (request s') (Some first) (first :: l1 ++ req :: l2) /\
      forall f, request s' !! first = Some f -> two_sweeps f (reqs (request s') (l1 ++ req :: l2))) s.
Proof.
  intros Hd Hc Hl Hn Hq Hlen Hrq Hbh Hb Hdiff Htwo. pose proof (lookup_lt_Some _ _ _ Hrq) as Hlt.
  set (rq0 := rq <| r_next := None |>). set (s1 := entered s req rq bh b).
  assert (Hq' : forall i, i ∈ first :: l -> request s1 !! i = request s !! i).
  { intros i Hi. cbn. rewrite list_lookup_insert_ne; [done|]. by intros ->. }
  pose proof (linked_ext _ (request s1) _ _ Hl Hq') as Hl1.
  destruct (find_place_run s1 rq0 l first NR_REQUEST Hl1 Hlen) as (l1 & i & l2 & El & Erun & Espec).
  destruct (linked_head _ _ _ _ Hl) as (_ & f & Hf & _).
  assert (request s1 !! first = Some f) as Hf1 by (rewrite Hq'; [done|left]). specialize (Espec f Hf1).
  assert (i ∈ first :: l) as Hi by (rewrite El; apply elem_of_app; right; left).
  assert (i <> req) as Hne by (by intros ->).
  destruct (linked_in (request s1) l2 i l1 (Some first)) as [t Ht]; [by rewrite <- El|].
  assert (request s1 !! req = Some rq0) as Hr0 by (cbn; by rewrite list_lookup_insert_eq).
  unfold wp. rewrite (add_request_run s major d first req rq bh b i t) by done. fold s1 rq0. set (s2 := upd request _ s1).
  split; [done|]. split; [done|].
  pose proof (link_after_linked _ i req t rq0 Ht Hr0 l1 l2 (Some first)) as Hlink. rewrite <- El in Hlink.
  specialize (Hlink Hl1 Hn Hq). pose proof (link_after_keys _ i req t rq0 Ht Hr0 Hne) as Hkeys.
  assert (exists l1', l1 ++ i :: req :: l2 = first :: l1' ++ req :: l2 /\ l = l1' ++ l2) as (l1' & E1 & E2).
  { destruct l1 as [|j l1]; cbn in El; injection El as <- ->; [by exists []|]. exists (l1 ++ [i]).
    by rewrite <- !app_assoc. }
  exists l1', l2. split; [done|]. rewrite E1 in Hlink. split; [exact Hlink|]. intros f' Hf'.
  assert (reqs (request s1) (l1 ++ [i]) ++ rq0 :: reqs (request s1) l2 = reqs (request s1) (first :: l1' ++ req :: l2)) as Eall.
  { rewrite <- E1. replace (l1 ++ i :: req :: l2) with ((l1 ++ [i]) ++ [req] ++ l2) by (by rewrite <- app_assoc).
    rewrite !reqs_app. f_equal. unfold reqs at 2. cbn [omap list_omap]. by rewrite Hr0. }
  assert (same_key f f') as Hk.
  { specialize (Hkeys [first]). unfold reqs in Hkeys. cbn [omap list_omap] in Hkeys. rewrite Hf1 in Hkeys.
    change (request s2) with (link_after (request s1) i req t rq0) in Hf'. rewrite Hf' in Hkeys. by inversion Hkeys. }
  apply (two_sweeps_keys _ _ f f' Hk (Hkeys (l1' ++ req :: l2))). rewrite Eall in Espec.
  apply (elevated_queue _ rq0 req first f l); [done|done|exact Espec| |];
    rewrite (reqs_ext (request s)); [exact Hdiff|done|by apply Htwo|intros; apply Hq'; by right].
Qed.
End Elevator.

(** ** A device that transfers at once

    What the buffer cache uses of a block device of its own: [stored s n] is
    the contents of block [n], and reading or writing a buffer is done when
    [ll_rw_block] returns.  Only the buffer and what belongs to the driver change. *)
Definition no_waiters (s : fs) : Prop := forall p, 10000 <= p -> wchan (kern s) !! p = None.

(** The same state but for the buffer [bh], and what the drivers keep. *)
Definition transferred (bh : nat) (b : buffer_head) (s s' : fs) : Prop :=
  bufs s' = <[bh := b]> (bufs s) /\ kern s' = kern s /\ hash_table s' = hash_table s /\
  free_list s' = free_list s /\ null_b_prev s' = null_b_prev s /\ inode_table s' = inode_table s /\
  last_inode s' = last_inode s /\ super_blocks s' = super_blocks s /\ file_table s' = file_table s /\
  ROOT_DEV s' = ROOT_DEV s /\ pages s' = pages s.

(** The variables of the block drivers and the wait queues are the same. *)
Definition same_device (s s' : fs) : Prop :=
  request s' = request s /\ blk_dev s' = blk_dev s /\ rd_data s' = rd_data s /\ rd_start s' = rd_start s /\ rd_length s' = rd_length s /\
  wchan (kern s') = wchan (kern s).

Class SyncDevice {E : Env} (dev : Z) : Type := {
  ready : fs -> Prop;
  blocks : fs -> Z;
  stored : fs -> Z -> list Z;
  stored_length s n : ready s -> 0 <= n < blocks s -> length (stored s n) = 1024%nat;
  (** The device looks at nothing but its own. *)
  device_frame s s' : same_device s s' -> ready s -> ready s' /\ blocks s' = blocks s /\ forall n, stored s' n = stored s n;
  read_block s bh b : ready s -> bufs s !! bh = Some b -> b_dev b = dev -> b_lock b = 0 -> b_uptodate b = 0 ->
    0 <= b_blocknr b < blocks s -> length (b_data b) = 1024%nat ->
    wp (ll_rw_block READ bh) (fun _ s' => ready s' /\ blocks s' = blocks s /\
      (forall n, stored s' n = stored s n) /\
      transferred bh (b <| b_data := stored s (b_blocknr b) |> <| b_uptodate := 1 |> <| b_dirt := 0 |>) s s') s;
  write_block s bh b : ready s -> bufs s !! bh = Some b -> b_dev b = dev -> b_lock b = 0 -> b_dirt b <> 0 ->
    0 <= b_blocknr b < blocks s -> length (b_data b) = 1024%nat ->
    wp (ll_rw_block WRITE bh) (fun _ s' => ready s' /\ blocks s' = blocks s /\
      (forall n, 0 <= n < blocks s -> stored s' n = if n =? b_blocknr b then b_data b else stored s n) /\
      transferred bh (b <| b_uptodate := 1 |> <| b_dirt := 0 |>) s s') s
}.

(** ** The RAM disk is such a device *)
Definition rd_ready (s : fs) : Prop :=
  blk_dev s !! 1%nat = Some (mk_blk_dev (Some do_rd_request_fn) None) /\ length (request s) = NR_REQUEST /\
  Forall (fun r => r_dev r < 0) (request s) /\ rd_length s = Z.of_nat (length (rd_data s)) /\
  0 <= rd_start s /\ rd_start s + rd_length s < 1073741824 /\ no_waiters s.
Definition rd_blocks (s : fs) : Z := rd_length s / 1024.
Definition rd_stored (s : fs) (n : Z) : list Z := take 1024 (drop (Z.to_nat (1024 * n)) (rd_data s)).

Lemma kern_same s : s <| kern := kern s |> = s.
Proof. by destruct s. Qed.
Lemma wake_up_none s p : wchan (kern s) !! p = None -> fs_wake_up p s = Done tt s.
Proof.
  intros H. unfold fs_wake_up, in_kernel, zoom, Sched.wake_up, bind, wq_get, gets. rewrite H.
  unfold ret. by rewrite kern_same.
Qed.
Lemma wq_set_none s p : wchan (kern s) !! p = None -> in_kernel (wq_set p None) s = Done tt s.
Proof.
  intros H. unfold in_kernel, zoom, wq_set, modify. f_equal. rewrite <- (kern_same s) at 2. f_equal.
  change (fun _ => ?x) with (fun _ : kernel => x). f_equal.
  destruct s as [k]. cbn in *. destruct k. unfold upd_wchan. cbn in *. by rewrite delete_id.
Qed.

Lemma b_wait_high i : 10000 <= b_wait i.
Proof. unfold b_wait. lia. Qed.
Lemma r_waiting_high i : 10000 <= r_waiting i.
Proof. unfold r_waiting. lia. Qed.

Section RamDisk.
Context {E : Env}.
Hypothesis (Hfuel : (0 < fuel)%nat).

Lemma lock_buffer_run s bh b : bufs s !! bh = Some b -> b_lock b = 0 ->
  lock_buffer bh s = Done tt (s <| bufs ::= <[bh := b <| b_lock := 1 |>]> |>).
Proof.
  intros Hb Hl. unfold lock_buffer.
  assert (wait_while (b <- get_buf bh ;; ret (truth (b_lock b))) (b_wait bh) s = Done tt s) as Hw.
  { unfold wait_while. destruct fuel as [|n]; [lia|]. cbn [loop]. unfold bind at 1 2 3.
    rewrite (get_buf_run s bh b Hb). cbn [ret]. rewrite Hl. done. }
  run Hw. by apply mod_buf_run.
Qed.
Lemma free_request_top l n : length l = NR_REQUEST -> Forall (fun r => r_dev r < 0) l -> (n < NR_REQUEST)%nat ->
  free_request l (S n) = Some n.
Proof.
  intros Hl Hf Hn. cbn. destruct (lookup_lt_is_Some_2 l n) as [r Hr]; [lia|]. rewrite Hr.
  rewrite Forall_lookup in Hf. specialize (Hf n r Hr). by rewrite (proj2 (Z.ltb_lt _ _)).
Qed.

Lemma end_request_run s bh b i r next :
  bufs s !! bh = Some b -> b_lock b = 1 -> request s !! i = Some r -> r_bh r = Some bh -> r_next r = next ->
  blk_dev s !! 1%nat = Some (mk_blk_dev (Some do_rd_request_fn) (Some i)) -> no_waiters s ->
  end_request rd_name 1 1 s = Done tt
    (s <| bufs ::= <[bh := b <| b_uptodate := 1 |> <| b_lock := 0 |>]> |>
       <| request ::= <[i := r <| r_dev := -1 |>]> |>
       <| blk_dev ::= <[1%nat := mk_blk_dev (Some do_rd_request_fn) next]> |>).
Proof.
  intros Hb Hl Hr Hbh Hnext Hd Hw. pose proof (lookup_lt_Some _ _ _ Hb). pose proof (lookup_lt_Some _ _ _ Hr).
  unfold end_request. run (get_dev_run s 1 _ Hd). cbn [current_request deref]. run (eq_refl : ret i s = Done i s).
  run (get_req_run s i r Hr). rewrite Hbh.
  set (sa := s <| bufs ::= <[bh := b <| b_uptodate := 1 |>]> |>).
  set (sb := s <| bufs ::= <[bh := b <| b_uptodate := 1 |> <| b_lock := 0 |>]> |>).
  assert (bufs sa !! bh = Some (b <| b_uptodate := 1 |>)) as Hba by (cbn; by rewrite list_lookup_insert_eq).
  assert ((mod_buf bh (fun b => b <| b_uptodate := 1 |>) ;;; unlock_request_buffer rd_name bh) s = Done tt sb) as Hu.
  { run (mod_buf_run s bh b _ Hb). fold sa. unfold unlock_request_buffer. run (get_buf_run sa bh _ Hba).
    change (b_lock (b <| b_uptodate := 1 |>)) with (b_lock b). rewrite Hl. cbn [truth Z.eqb negb when].
    run (eq_refl : ret tt sa = Done tt sa). run (mod_buf_run sa bh _ _ Hba).
    replace (sa <| bufs ::= _ |>) with sb by (unfold sa, sb, upd_bufs; cbn; by rewrite list_insert_insert_eq).
    by apply wake_up_none, Hw, b_wait_high. }
  run Hu. cbn [truth Z.eqb negb when]. run (eq_refl : ret tt sb = Done tt sb).
  run (wake_up_none sb (r_waiting i) (Hw _ (r_waiting_high i))). run (wake_up_none sb wait_for_request (Hw wait_for_request ltac:(unfold wait_for_request; lia))).
  run (mod_req_run sb i r _ Hr). set (sc := sb <| request ::= _ |>).
  assert (request sc !! i = Some (r <| r_dev := -1 |>)) as Hrc by (cbn; by rewrite list_lookup_insert_eq).
  run (get_req_run sc i _ Hrc). rewrite (mod_dev_run sc 1 _ _ Hd). cbn. by rewrite Hnext.
Qed.

Lemma splice_length off src l : (off + length src <= length l)%nat -> length (splice off src l) = length l.
Proof. intros. unfold splice. rewrite !length_app, length_take, length_drop. lia. Qed.
Lemma splice_all src l : length src = length l -> splice 0 src l = src.
Proof. intros Hl. unfold splice. rewrite Hl. cbn. by rewrite drop_all, app_nil_r. Qed.

(** Blocks of 1024 bytes do not overlap. *)
Lemma splice_block i j src l : length src = 1024%nat -> (1024 * i + 1024 <= length l)%nat ->
  take 1024 (drop (1024 * j) (splice (1024 * i) src l)) = if (j =? i)%nat then src else take 1024 (drop (1024 * j) l).
Proof.
  intros Hs Hl. unfold splice. rewrite Hs. destruct (Nat.eqb_spec j i) as [->|Hne].
  - rewrite skipn_app, drop_ge by (rewrite length_take; lia). rewrite length_take, Nat.min_l, Nat.sub_diag by lia.
    rewrite drop_0, app_nil_l, firstn_app, Hs, take_ge by lia. by rewrite Nat.sub_diag, take_0, app_nil_r.
  - rewrite !take_drop_commute. destruct (decide (j < i)%nat).
    + rewrite firstn_app, take_take, Nat.min_l by lia. rewrite length_take, Nat.min_l by lia.
      replace (1024 * j + 1024 - 1024 * i)%nat with 0%nat by lia. by rewrite take_0, app_nil_r.
    + rewrite <- !take_drop_commute. rewrite skipn_app, drop_ge by (rewrite length_take; lia).
      rewrite length_take, Nat.min_l by lia. rewrite app_nil_l, skipn_app, drop_ge by lia. rewrite app_nil_l.
      rewrite drop_drop, Hs. do 2 f_equal. lia.
Qed.

(** What the transfer of block [n] does to the buffer and to the disk. *)
Definition after_transfer (rw : Z) (s : fs) (b : buffer_head) : buffer_head :=
  if rw =? READ then b <| b_data := rd_stored s (b_blocknr b) |> else b.
Definition disk_after (rw : Z) (s : fs) (b : buffer_head) : list Z :=
  if rw =? READ then rd_data s else splice (Z.to_nat (1024 * b_blocknr b)) (b_data b) (rd_data s).

Lemma do_rd_request_run s bh b i rw :
  rw = READ \/ rw = WRITE ->
  bufs s !! bh = Some b -> b_lock b = 1 -> b_dev b = 257 -> length (b_data b) = 1024%nat ->
  0 <= b_blocknr b -> 1024 * (b_blocknr b + 1) <= rd_length s -> rd_length s = Z.of_nat (length (rd_data s)) ->
  0 <= rd_start s -> rd_start s + rd_length s < 1073741824 ->
  request s !! i = Some (mk_request 257 rw 0 (2 * b_blocknr b) 2 bh 0 (Some bh) None) ->
  blk_dev s !! 1%nat = Some (mk_blk_dev (Some do_rd_request_fn) (Some i)) -> no_waiters s ->
  do_rd_request s = Done tt
    (s <| bufs ::= <[bh := (after_transfer rw s b) <| b_uptodate := 1 |> <| b_lock := 0 |>]> |>
       <| request ::= <[i := mk_request (-1) rw 0 (2 * b_blocknr b) 2 bh 0 (Some bh) None]> |>
       <| blk_dev ::= <[1%nat := mk_blk_dev (Some do_rd_request_fn) None]> |>
       <| rd_data := disk_after rw s b |>).
Proof.
  intros Hrw Hb Hl Hdev Hlen Hn Hfit Hrd Hst Hsmall Hr Hd Hw. pose proof (lookup_lt_Some _ _ _ Hb).
  set (r := mk_request 257 rw 0 (2 * b_blocknr b) 2 bh 0 (Some bh) None) in *.
  assert (rd_addr s r = rd_start s + 1024 * b_blocknr b) as Eaddr.
  { unfold rd_addr. change (r_sector r) with (2 * b_blocknr b). rewrite Z.shiftl_mul_pow2, (u32_id (_ * _)), u32_id by lia. lia. }
  unfold do_rd_request. change (S NR_REQUEST) with (S (S 31)). cbn [loop].
  set (s1 := s <| bufs ::= <[bh := after_transfer rw s b]> |> <| rd_data := disk_after rw s b |>).
  set (s2 := s <| bufs ::= <[bh := (after_transfer rw s b) <| b_uptodate := 1 |> <| b_lock := 0 |>]> |>
       <| request ::= <[i := r <| r_dev := -1 |>]> |>
       <| blk_dev ::= <[1%nat := mk_blk_dev (Some do_rd_request_fn) None]> |> <| rd_data := disk_after rw s b |>).
  assert (rd_transfer r s = Done tt s1) as Htr.
  { unfold rd_transfer. run (eq_refl : get s = Done s s). rewrite Eaddr, (proj2 (Z.leb_le _ _)) by lia.
    replace (rd_start s + 1024 * b_blocknr b - rd_start s) with (1024 * b_blocknr b) by lia.
    run (eq_refl : deref (Some (Z.to_nat (1024 * b_blocknr b))) s = Done (Z.to_nat (1024 * b_blocknr b)) s).
    cbv zeta. change (r_cmd r) with rw. change (Z.to_nat (rd_len r)) with 1024%nat.
    change (r_buffer r) with bh. destruct Hrw as [-> | ->].
    - cbn [Z.eqb WRITE READ]. rewrite (mod_buf_run s bh b _ Hb). unfold s1, after_transfer, disk_after, rd_stored.
      cbn [Z.eqb READ]. unfold upd_b_data, upd_bufs, upd_rd_data. cbn.
      rewrite splice_all; [done|]. rewrite Hlen, length_take, length_drop. lia.
    - change (WRITE =? WRITE) with true. cbv iota. run (get_buf_run s bh b Hb). unfold modify, s1, after_transfer, disk_after. change (WRITE =? READ) with false. cbv iota.
      change (Z.to_nat (r_off r)) with 0%nat. rewrite drop_0, take_ge by lia. destruct s. unfold upd_bufs, upd_rd_data. cbn. cbn in Hb. by rewrite list_insert_id. }
  assert (bufs s1 !! bh = Some (after_transfer rw s b)) as Hb1 by (cbn; by rewrite list_lookup_insert_eq).
  assert (b_lock (after_transfer rw s b) = 1) as Hl1 by (unfold after_transfer; by destruct (rw =? READ)).
  assert (rd_step tt s = Done (inl tt) s2) as Hstep.
  { unfold rd_step. assert (init_request rd_name 1 s = Done (Some (i, r)) s) as Hi.
    { unfold init_request. run (get_dev_run s 1 _ Hd). cbn [current_request]. run (get_req_run s i r Hr).
      change (negb (MAJOR (r_dev r) =? Z.of_nat 1)) with false. cbn [r_bh r]. run (get_buf_run s bh b Hb). by rewrite Hl. }
    run Hi. cbv beta iota. run (eq_refl : get s = Done s s). rewrite Eaddr.
    change (negb (MINOR (r_dev r) =? 1)) with false. change (rd_len r) with 1024.
    rewrite !u32_id, (proj2 (Z.ltb_ge _ _)) by lia. cbn [orb]. run Htr.
    run (end_request_run s1 bh _ i r None Hb1 Hl1 Hr eq_refl eq_refl Hd Hw). unfold ret. f_equal.
    unfold s2, s1, upd_bufs, upd_rd_data, upd_request, upd_blk_dev. cbn. by rewrite list_insert_insert_eq. }
  run Hstep. cbn [loop].
  assert (rd_step tt s2 = Done (inr tt) s2) as Hend.
  { unfold rd_step, init_request.
    assert (blk_dev s2 !! 1%nat = Some (mk_blk_dev (Some do_rd_request_fn) None)) as Hd2
      by (cbn; rewrite list_lookup_insert_eq; [done|by apply lookup_lt_Some in Hd]).
    unfold bind at 1 2. by rewrite (get_dev_run s2 1 _ Hd2). }
  by run Hend.
Qed.

(** A request for an idle device starts the device. *)
Lemma add_request_idle s major d f i r bh b : blk_dev s !! major = Some d -> current_request d = None -> request_fn d = Some f ->
  request s !! i = Some r -> r_next r = None -> r_bh r = Some bh -> bufs s !! bh = Some b ->
  add_request major i s = call_request_fn f
    (s <| bufs ::= <[bh := b <| b_dirt := 0 |>]> |> <| blk_dev ::= <[major := mk_blk_dev (Some f) (Some i)]> |>).
Proof.
  intros Hd Hc Hf Hr Hn Hbh Hb. unfold add_request. run (mod_req_run s i r _ Hr).
  assert (r <| r_next := None |> = r) as Er by (destruct r; cbn in Hn; by subst).
  assert (s <| request ::= <[i := r <| r_next := None |>]> |> = s) as Es.
  { rewrite Er. unfold upd, upd_request. rewrite list_insert_id by done. by destruct s. }
  change (s <| request ::= _ |>) with (s <| request ::= <[i := r <| r_next := None |>]> |>). rewrite Es.
  run (get_req_run s i r Hr). rewrite Hbh. run (mod_buf_run s bh b _ Hb). set (s3 := s <| bufs ::= _ |>).
  run (get_dev_run s3 major d Hd). rewrite Hc. run (mod_dev_run s3 major d _ Hd). rewrite Hf.
  assert (d <| current_request := Some i |> = mk_blk_dev (Some f) (Some i)) as Ed by (destruct d; cbn in Hf; by subst).
  by rewrite Ed.
Qed.
(** A request to the idle RAM disk. *)
Lemma ll_rw_block_rd s bh b rw :
  rw = READ /\ b_uptodate b = 0 \/ rw = WRITE /\ b_dirt b <> 0 ->
  rd_ready s -> bufs s !! bh = Some b -> b_lock b = 0 -> b_dev b = 257 -> length (b_data b) = 1024%nat ->
  0 <= b_blocknr b < rd_blocks s ->
  exists T, length T = NR_REQUEST /\ Forall (fun r => r_dev r < 0) T /\
    ll_rw_block rw bh s = Done tt
      (s <| bufs ::= <[bh := (after_transfer rw s b) <| b_uptodate := 1 |> <| b_dirt := 0 |>]> |>
         <| request := T |> <| rd_data := disk_after rw s b |>).
Proof.
  intros Hrw (Hd & Hlr & Hfree & Hrd & Hst & Hsmall & Hw) Hb Hl Hdev Hlen Hn. pose proof (lookup_lt_Some _ _ _ Hb) as Hlb.
  unfold rd_blocks in Hn. assert (1024 * (b_blocknr b + 1) <= rd_length s) as Hfit by dlia.
  set (i := if rw =? READ then 31%nat else 20%nat).
  assert ((i < NR_REQUEST)%nat) as Hi by (unfold i, NR_REQUEST; destruct (_ =? _); lia).
  set (r := mk_request 257 rw 0 (2 * b_blocknr b) 2 bh 0 (Some bh) None).
  set (T := <[i := r <| r_dev := -1 |>]> (request s)).
  exists T. split; [unfold T; by rewrite length_insert|]. split.
  { unfold T. apply Forall_insert; [done|cbn; lia]. }
  set (s1 := s <| bufs ::= <[bh := b <| b_lock := 1 |>]> |>).
  set (s2 := s1 <| request ::= <[i := r]> |>).
  set (s3 := s2 <| bufs ::= <[bh := b <| b_lock := 1 |> <| b_dirt := 0 |>]> |>).
  set (s4 := s3 <| blk_dev ::= <[1%nat := mk_blk_dev (Some do_rd_request_fn) (Some i)]> |>).
  assert (bufs s1 !! bh = Some (b <| b_lock := 1 |>)) as Hb1 by (cbn; by rewrite list_lookup_insert_eq).
  assert (request s2 !! i = Some r) as Hr2 by (cbn; rewrite list_lookup_insert_eq by lia; done).
  assert (u32 (Z.shiftl (b_blocknr b) 1) = 2 * b_blocknr b) as Esec
    by (rewrite Z.shiftl_mul_pow2, u32_id by lia; lia).
  unfold ll_rw_block. run (get_buf_run s bh b Hb). cbv zeta. rewrite Hdev. change (Z.to_nat (MAJOR 257)) with 1%nat.
  run (eq_refl : get s = Done s s). rewrite Hd. cbv iota. unfold make_request. cbv zeta.
  assert ((rw =? READA) || (rw =? WRITEA) = false) as Hra by (by destruct Hrw as [[-> _]|[-> _]]).
  run (get_buf_run s bh b Hb). rewrite Hra. cbn [andb].
  assert (negb (rw =? READ) && negb (rw =? WRITE) = false) as -> by (by destruct Hrw as [[-> _]|[-> _]]).
  run (lock_buffer_run s bh b Hb Hl). fold s1. run (get_buf_run s1 bh _ Hb1).
  change (b_dirt (b <| b_lock := 1 |>)) with (b_dirt b). change (b_uptodate (b <| b_lock := 1 |>)) with (b_uptodate b).
  assert ((rw =? WRITE) && negb (truth (b_dirt b)) || (rw =? READ) && truth (b_uptodate b) = false) as ->.
  { destruct Hrw as [[-> E0]|[-> E0]]; cbn [Z.eqb WRITE READ andb orb]; [by rewrite E0|].
    unfold truth. rewrite (proj2 (Z.eqb_neq _ 0)) by done. done. }
  assert (free_request (request s1) (if rw =? READ then NR_REQUEST else (NR_REQUEST * 2 / 3)%nat) = Some i) as Efree.
  { unfold i. destruct Hrw as [[-> _]|[-> _]]; cbn [Z.eqb READ WRITE].
    - apply (free_request_top (request s) 31); [done|done|unfold NR_REQUEST; lia].
    - change (NR_REQUEST * 2 / 3)%nat with 21%nat. apply (free_request_top (request s) 20); [done|done|unfold NR_REQUEST; lia]. }
  match goal with |- bind ?m _ s1 = _ => assert (m s1 = Done (Some i) s1) as Hloop end.
  { destruct fuel as [|n]; [lia|]. cbn [loop]. unfold bind at 1 2, get at 1. rewrite Efree. done. }
  run Hloop. cbv beta iota. run (get_buf_run s1 bh _ Hb1).
  assert (mod_req i (fun _ => mk_request (b_dev (b <| b_lock := 1 |>)) rw 0 (u32 (Z.shiftl (b_blocknr (b <| b_lock := 1 |>)) 1)) 2 bh 0 (Some bh) None) s1
    = Done tt s2) as Hmod.
  { destruct (lookup_lt_is_Some_2 (request s1) i) as [r0 Hr0]; [cbn; lia|]. rewrite (mod_req_run s1 i r0 _ Hr0).
    change (b_dev (b <| b_lock := 1 |>)) with (b_dev b). change (b_blocknr (b <| b_lock := 1 |>)) with (b_blocknr b).
    rewrite Hdev, Esec. done. }
  run Hmod. run (wq_set_none s2 (r_waiting i) (Hw _ (r_waiting_high i))).
  rewrite (add_request_idle s2 1 _ _ i r bh _ Hd eq_refl eq_refl Hr2 eq_refl eq_refl Hb1). cbn [call_request_fn].
  change (s2 <| bufs ::= _ |> <| blk_dev ::= _ |>) with s4.
  assert (blk_dev s4 !! 1%nat = Some (mk_blk_dev (Some do_rd_request_fn) (Some i))) as Hd4
    by (cbn; rewrite list_lookup_insert_eq; [done|by apply lookup_lt_Some in Hd]).
  set (b3 := b <| b_lock := 1 |> <| b_dirt := 0 |>).
  assert (bufs s4 !! bh = Some b3) as Hb4 by (cbn; rewrite list_lookup_insert_eq; [done|by rewrite length_insert]).
  erewrite (do_rd_request_run s4 bh b3 i rw); [|try done..]; [|by destruct Hrw as [[-> _]|[-> _]]; [left|right]|cbn; lia].
  f_equal. unfold T, s4, s3, s2, s1, upd_bufs, upd_request, upd_blk_dev, upd_rd_data. cbn -[after_transfer disk_after].
  rewrite !list_insert_insert_eq. rewrite (list_insert_id (blk_dev s) 1 _ Hd).
  unfold after_transfer, disk_after, rd_stored. cbn. destruct b. cbn in *. subst. by destruct (rw =? READ).
Qed.
End RamDisk.

(** The RAM disk keeps the promise, as soon as a wait loop may look once at its condition. *)
#[global] Instance ramdisk {E : Env} (Hfuel : (0 < fuel)%nat) : SyncDevice 257.
Proof.
  refine {| ready := rd_ready; blocks := rd_blocks; stored := rd_stored |}.
  - intros s n (_ & _ & _ & Hrd & _) Hn. unfold rd_blocks in Hn. unfold rd_stored.
    rewrite length_take, length_drop. dlia.
  - intros s s' (H1 & H2 & H3 & H4 & H5 & H6) (R1 & R2 & R3 & R4 & R5 & R6 & R7).
    unfold rd_ready, rd_blocks, rd_stored, no_waiters. rewrite H1, H2, H3, H4, H5, H6. repeat split; done.
  - intros s bh b Hr Hb Hdev Hl Hu Hn Hlen.
    destruct (ll_rw_block_rd Hfuel s bh b READ) as (T & HT1 & HT2 & Erun); try done; [by left|].
    unfold wp. rewrite Erun. destruct Hr as (R1 & R2 & R3 & R4 & R5 & R6 & R7). by repeat split.
  - intros s bh b Hr Hb Hdev Hl Hd Hn Hlen.
    destruct (ll_rw_block_rd Hfuel s bh b WRITE) as (T & HT1 & HT2 & Erun); try done; [by right|].
    unfold wp. rewrite Erun. destruct Hr as (R1 & R2 & R3 & R4 & R5 & R6 & R7). unfold rd_blocks in Hn.
    change (disk_after WRITE s b) with (splice (Z.to_nat (1024 * b_blocknr b)) (b_data b) (rd_data s)).
    assert (Z.to_nat (1024 * b_blocknr b) + length (b_data b) <= length (rd_data s))%nat as Hfit by (rewrite Hlen; dlia).
    split; [|split; [done|split; [|by repeat split]]].
    + repeat split; try done. cbn. by rewrite splice_length.
    + intros n Hn'. unfold rd_blocks in Hn'. unfold rd_stored. cbn [rd_data upd upd_rd_data].
      replace (Z.to_nat (1024 * n)) with (1024 * Z.to_nat n)%nat by lia.
      replace (Z.to_nat (1024 * b_blocknr b)) with (1024 * Z.to_nat (b_blocknr b))%nat by lia.
      rewrite splice_block by lia.
      destruct (n =? b_blocknr b) eqn:En; [rewrite (proj2 (Nat.eqb_eq _ _)) by lia; done|].
      by rewrite (proj2 (Nat.eqb_neq _ _)) by lia.
Defined.

(** C24: a block written to a device that transfers at once is what the next read of
    the same block of the device brings into a buffer, and the read leaves every
    other buffer as it was. *)
Theorem write_then_read {E : Env} {dev} {D : SyncDevice dev} s w r bw br :
  ready s -> w <> r -> bufs s !! w = Some bw -> bufs s !! r = Some br -> b_dev bw = dev -> b_dev br = dev ->
  b_lock bw = 0 -> b_lock br = 0 -> b_dirt bw <> 0 -> b_uptodate br = 0 ->
  b_blocknr br = b_blocknr bw -> 0 <= b_blocknr bw < blocks s ->
  length (b_data bw) = 1024%nat -> length (b_data br) = 1024%nat ->
  wp (ll_rw_block WRITE w ;;; ll_rw_block READ r) (fun _ s' =>
    (exists b', bufs s' !! r = Some b' /\ b_data b' = b_data bw /\ b_uptodate b' = 1) /\
    forall i, i <> w -> i <> r -> bufs s' !! i = bufs s !! i) s.
Proof.
  intros Hr Hne Hw Hb Dw Dr Lw Lr Hd Hu En Hn Hlw Hlr. apply wp_bind.
  eapply wp_mono; [eapply write_block; eauto|]. intros [] s1 (R1 & B1 & S1 & T1). destruct T1 as (T1 & _).
  assert (bufs s1 !! r = Some br) as Hb1 by (rewrite T1, list_lookup_insert_ne by done; done).
  eapply wp_mono; [eapply read_block; eauto; by rewrite B1, En|]. cbv beta.
  intros [] s2 (R2 & B2 & S2' & T2). destruct T2 as (T2 & _). split.
  - exists (br <| b_data := stored s1 (b_blocknr br) |> <| b_uptodate := 1 |> <| b_dirt := 0 |>). split; [|split; [|done]].
    + rewrite T2. apply list_lookup_insert_eq. by eapply lookup_lt_Some.
    + change (stored s1 (b_blocknr br) = b_data bw). by rewrite S1, En, Z.eqb_refl by by rewrite En.
  - intros i Hi1 Hi2. rewrite T2, list_lookup_insert_ne by done. by rewrite T1, list_lookup_insert_ne.
Qed.

Lemma idle_fuel : (0 < fuel (Env := idle_env))%nat.
Proof. apply Nat.ltb_lt. reflexivity. Qed.
(** A RAM disk of two blocks, and two buffers for its block 1. *)
Definition dirty_buffer : buffer_head :=
  no_buffer <| b_dev := 257 |> <| b_blocknr := 1 |> <| b_dirt := 1 |> <| b_data := replicate 1024 7 |>.
Definition old_buffer : buffer_head := no_buffer <| b_dev := 257 |> <| b_blocknr := 1 |>.
Definition two_blocks : fs :=
  match (blk_dev_init ;;; rd_init 0 2048) boot_fs with
  | Done _ s => s <| bufs := [dirty_buffer; old_buffer] |>
  | _ => boot_fs
  end.
Lemma two_blocks_ready : rd_ready two_blocks.
Proof.
  split; [|split; [|split; [|split; [|split; [|split]]]]].
  - vm_compute; reflexivity.
  - vm_compute; reflexivity.
  - apply Forall_forall. intros r Hr. apply list_elem_of_lookup in Hr as [i Hi].
    assert (request two_blocks = replicate 32 (no_request <| r_dev := -1 |>)) as Er by (vm_compute; reflexivity).
    rewrite Er in Hi. apply lookup_replicate in Hi as [-> _]. reflexivity.
  - vm_compute; reflexivity.
  - apply Z.leb_le; reflexivity.
  - apply Z.ltb_lt; vm_compute; reflexivity.
  - intros p _. assert (wchan (kern two_blocks) = ∅) as -> by (vm_compute; reflexivity). reflexivity.
Qed.
Lemma write_then_read_witness :
  wp (ll_rw_block (E := idle_env) WRITE 0 ;;; ll_rw_block (E := idle_env) READ 1) (fun _ s' =>
    (exists b', bufs s' !! 1%nat = Some b' /\ b_data b' = replicate 1024 7 /\ b_uptodate b' = 1) /\
    forall i, i <> 0%nat -> i <> 1%nat -> bufs s' !! i = bufs two_blocks !! i) two_blocks.
Proof.
  apply (write_then_read (D := ramdisk idle_fuel) two_blocks 0 1 dirty_buffer old_buffer).
  - exact two_blocks_ready.
  - discriminate.
  - vm_compute; reflexivity.
  - vm_compute; reflexivity.
  - reflexivity.
  - reflexivity.
  - reflexivity.
  - reflexivity.
  - discriminate.
  - reflexivity.
  - reflexivity.
  - change (0 <= 1 < rd_blocks two_blocks). assert (rd_blocks two_blocks = 2) as -> by (vm_compute; reflexivity). lia.
  - apply length_replicate.
  - apply length_replicate.
Defined.

(** A hard disk whose queue is at sectors 10 and 4 when a request for 6 comes. *)
Definition hd_request (sector : Z) (next : option nat) : request_t := mk_request 769 READ 0 sector 2 0 0 (Some 0%nat) next.
Definition busy_hd : fs :=
  boot_fs <| bufs := [no_buffer] |> <| blk_dev := <[3%nat := mk_blk_dev (Some do_hd_request_fn) (Some 0%nat)]> (blk_dev boot_fs) |>
          <| request := [hd_request 10 (Some 1%nat); hd_request 4 None; hd_request 6 None] |>.
Lemma add_request_elevator_witness :
  wp (add_request (E := idle_env) 3 2) (fun _ s' =>
    blk_dev s' = blk_dev busy_hd /\ bufs s' = <[0%nat := no_buffer <| b_dirt := 0 |>]> (bufs busy_hd) /\
    exists l1 l2, [1%nat] = l1 ++ l2 /\ linked (request s') (Some 0%nat) (0%nat :: l1 ++ 2%nat :: l2) /\
      forall f, request s' !! 0%nat = Some f -> two_sweeps f (reqs (request s') (l1 ++ 2%nat :: l2))) busy_hd.
Proof.
  apply (add_request_elevator (E := idle_env) busy_hd 3 (mk_blk_dev (Some do_hd_request_fn) (Some 0%nat)) 0 [1%nat] 2
    (hd_request 6 None) 0 no_buffer); try reflexivity.
  - split; [reflexivity|]. eexists. split; [reflexivity|]. split; [reflexivity|]. eexists. split; reflexivity.
  - apply NoDup_cons. split; [set_solver|]. apply NoDup_singleton.
  - set_solver.
  - unfold NR_REQUEST. cbn. lia.
  - vm_compute. repeat (apply Forall_cons; split); [right; right; discriminate..|apply Forall_nil_2].
  - intros f [= <-]. repeat split.
Defined.
End Blk.
