(* ===== verification/Progress.v ===== *)
(** * Progress: routines that never run out of fuel

    [live m Q s]: [m] started in [s] returns with [Q], panics or faults, but never runs for ever.
    Most routines of the drivers are [tame]: they also leave the queues of requests and the list of
    timers alone.  What the rest does to the queue of its device is that [end_request] takes
    the first request off it. *)
From S2P Require Import Prelude Console Task Sched Fs Blk.
Import Blk.

Module Progress.

Section Live.
Context {S : Type}.
Implicit Types s : S.
Definition live {A} (m : M S A) (Q : A -> S -> Prop) s : Prop :=
  match m s with Done a s' => Q a s' | NoFuel => False | _ => True end.
Lemma live_not {A} (m : M S A) Q s : live m Q s -> m s <> NoFuel.
Proof. unfold live. by destruct (m s). Qed.
Lemma live_mono {A} (m : M S A) (Q Q' : A -> S -> Prop) s : live m Q s -> (forall a s', Q a s' -> Q' a s') -> live m Q' s.
Proof. unfold live. destruct (m s); naive_solver. Qed.
Lemma live_bind {A B} (m : M S A) (k : A -> M S B) Q s : live m (fun a => live (k a) Q) s -> live (bind m k) Q s.
Proof. unfold live, bind. by destruct (m s). Qed.
Lemma live_loop {A R} (body : A -> M S (A + R)) (I : A -> S -> Prop) (m : A -> S -> nat) (Q : R -> S -> Prop) :
  (forall a s, I a s -> live (body a) (fun r s' => match r with
     | inl a' => I a' s' /\ (m a' s' < m a s)%nat | inr x => Q x s' end) s) ->
  forall fuel a s, I a s -> (m a s < fuel)%nat -> live (loop fuel body a) Q s.
Proof.
  intros Hbody. induction fuel as [|fuel IH]; intros a s HI Hm; [lia|]. cbn [loop]. apply live_bind.
  eapply live_mono; [by apply Hbody|]. intros [a'|x] s' H; [|done]. apply IH; [apply H|lia].
Qed.
End Live.

(** ** Routines that leave the queues alone *)
Definition same_queues (s s' : fs) : Prop :=
  blk_dev s' = blk_dev s /\ request s' = request s /\ timer_list (kern s') = timer_list (kern s) /\
  next_timer (kern s') = next_timer (kern s).
#[export] Instance same_queues_preorder : PreOrder same_queues.
Proof. split; [done|]. intros s1 s2 s3 (H1 & H2 & H3 & H4) (H5 & H6 & H7 & H8). repeat split; congruence. Qed.
Definition tame {A} (m : M fs A) : Prop := forall s, live m (fun _ s' => same_queues s s') s.

Lemma live_tame {A} (m : M fs A) (Q : A -> fs -> Prop) s : tame m -> (forall a s', same_queues s s' -> Q a s') -> live m Q s.
Proof. intros Hm HQ. eapply live_mono; [apply Hm|]. exact HQ. Qed.
Lemma tame_ret {A} (a : A) : tame (ret a).
Proof. by intros s. Qed.
Lemma tame_panic {A} msg : tame (panic (A := A) msg).
Proof. by intros s. Qed.
Lemma tame_fault {A} : tame (fault (A := A)).
Proof. by intros s. Qed.
Lemma tame_bind {A B} (m : M fs A) (k : A -> M fs B) : tame m -> (forall a, tame (k a)) -> tame (bind m k).
Proof.
  intros Hm Hk s. apply live_bind, live_tame; [done|]. intros a s1 H1. apply live_tame; [done|]. intros b s2 H2. by transitivity s1.
Qed.
Lemma tame_when b m : tame m -> tame (when b m).
Proof. intros Hm. destruct b; [done|apply tame_ret]. Qed.
Lemma tame_gets {A} (f : fs -> A) : tame (gets f).
Proof. by intros s. Qed.
Lemma tame_get : tame get.
Proof. by intros s. Qed.
Lemma tame_deref {A} (o : option A) : tame (deref o).
Proof. destruct o; by intros s. Qed.
Lemma tame_modify f : (forall s, same_queues s (f s)) -> tame (modify f).
Proof. intros Hf s. apply Hf. Qed.
Lemma tame_loop_inv {A R} (body : A -> M fs (A + R)) (I : A -> Prop) (m : A -> nat) fuel a : I a -> (m a < fuel)%nat ->
  (forall a s, I a -> live (body a) (fun r s' => same_queues s s' /\ match r with inl a' => I a' /\ (m a' < m a)%nat | inr _ => True end) s) ->
  tame (loop fuel body a).
Proof.
  intros HI Hm Hbody s. apply (live_loop body (fun a s' => I a /\ same_queues s s') (fun a _ => m a)); [|done|done].
  intros b s1 [Hb H1]. eapply live_mono; [by apply Hbody|]. intros [b'|x] s2 [H2 H3]; [|by transitivity s1].
  destruct H3 as [H3 H4]. split; [|done]. split; [done|by transitivity s1].
Qed.
Lemma tame_loop {A R} (body : A -> M fs (A + R)) (m : A -> nat) fuel a : (m a < fuel)%nat ->
  (forall a s, live (body a) (fun r s' => same_queues s s' /\ match r with inl a' => (m a' < m a)%nat | inr _ => True end) s) ->
  tame (loop fuel body a).
Proof.
  intros Hm Hbody. apply (tame_loop_inv body (fun _ => True) m); [done|done|]. intros b s _.
  eapply live_mono; [apply Hbody|]. by intros [b'|x] s' [H1 H2].
Qed.
Lemma tame_for_each {A} (l : list A) (f : A -> M fs unit) : (forall a, tame (f a)) -> tame (for_each l f).
Proof. intros Hf. induction l; cbn [for_each]; [apply tame_ret|by apply tame_bind]. Qed.

(** In the kernel: nothing loops, and the timers stay. *)
Definition calm {A} (m : M kernel A) : Prop := forall k,
  live m (fun _ k' => timer_list k' = timer_list k /\ next_timer k' = next_timer k) k.
Lemma tame_in_kernel {A} (m : M kernel A) : calm m -> tame (in_kernel m).
Proof.
  intros Hm s. specialize (Hm (kern s)). unfold live, in_kernel, zoom in *. destruct (m (kern s)); [|done..].
  by destruct Hm.
Qed.
Lemma calm_get : calm get.
Proof. by intros k. Qed.
Lemma calm_modify f : (forall k, timer_list (f k) = timer_list k /\ next_timer (f k) = next_timer k) -> calm (modify f).
Proof. intros Hf k. apply Hf. Qed.
Lemma calm_wake_up p : calm (Sched.wake_up p).
Proof.
  intros k. unfold live, Sched.wake_up, wq_get, wq_set, make_runnable, mod_task, put_task, get_task, bind, gets, get, modify, ret.
  destruct (wchan k !! p) as [i|]; [|done]. destruct (slot k i); done.
Qed.
Lemma calm_outb v p : calm (Sched.outb v p).
Proof. by intros k. Qed.
Lemma calm_floppy_off nr : calm (Sched.floppy_off nr).
Proof. by intros k. Qed.
Lemma calm_ticks nr : calm (Sched.ticks_to_floppy_on nr).
Proof.
  intros k. unfold Sched.ticks_to_floppy_on. destruct (3 <? u32 nr); [done|].
  unfold live, bind, get, gets, modify, when, Sched.outb, modify, ret. by repeat case_match; simplify_eq/=.
Qed.

Create HintDb tame discriminated.
#[export] Hint Constants Opaque : tame.
#[export] Hint Resolve tame_ret tame_panic tame_fault tame_gets tame_get tame_deref tame_when tame_in_kernel
  calm_get calm_wake_up calm_outb calm_floppy_off calm_ticks : tame.
(** Takes a routine apart. *)
Ltac tame_step :=
  lazymatch goal with
  | |- tame (bind _ _) => apply tame_bind; [|intros ?]
  | |- tame (for_each _ _) => apply tame_for_each; intros ?
  | |- tame (modify _) => by apply tame_modify
  | |- tame (in_kernel (modify _)) => by apply tame_in_kernel, calm_modify
  | |- tame (match ?x with _ => _ end) => destruct x
  | |- tame (when _ _) => apply tame_when
  | |- tame _ => solve [auto with tame]
  end.
Ltac tame := repeat first
  [ progress cbv zeta | progress (unfold drvs, mod_drv, printk, fs_outb, fs_outw, fs_wake_up) | tame_step ].

Lemma tame_get_req i : tame (get_req i).
Proof. unfold get_req. tame. Qed.
Lemma tame_get_dev i : tame (get_dev i).
Proof. unfold get_dev. tame. Qed.
Lemma tame_get_buf i : tame (get_buf i).
Proof. unfold get_buf. tame. Qed.
#[export] Hint Resolve tame_get_req tame_get_dev tame_get_buf : tame.
Lemma tame_mod_buf i f : tame (mod_buf i f).
Proof. unfold mod_buf. tame. Qed.
#[export] Hint Resolve tame_mod_buf : tame.
Lemma tame_unlock name bh : tame (unlock_request_buffer name bh).
Proof. unfold unlock_request_buffer. tame. Qed.
Lemma tame_init_request name major : tame (init_request name major).
Proof. unfold init_request. tame. Qed.
#[export] Hint Resolve tame_unlock tame_init_request : tame.
Section Input.
Context {I : Ports}.
Lemma tame_read_port p : tame (read_port p).
Proof. unfold read_port. tame. Qed.
Hint Resolve tame_read_port : tame.
Lemma tame_inb p : tame (inb p).
Proof. unfold inb. tame. Qed.
Lemma tame_insw n p : tame (insw n p).
Proof. induction n; cbn [insw]; tame. Qed.
End Input.
Lemma tame_outsw p : forall l, tame (outsw l p).
Proof. fix IH 1. intros [|a [|b l]]; cbn [outsw]; [apply tame_ret..|]. apply tame_bind; [tame|]. intros _. apply IH. Qed.
#[export] Hint Resolve tame_inb tame_insw tame_outsw : tame.

(** ** The queue of a device *)
Definition queued (major : nat) (s : fs) (l : list nat) : Prop :=
  length (request s) = NR_REQUEST /\ NoDup l /\
  exists d, blk_dev s !! major = Some d /\ linked (request s) (current_request d) l.
Lemma queued_same major s s' l : same_queues s s' -> queued major s l -> queued major s' l.
Proof. intros (E1 & E2 & _). unfold queued. by rewrite E1, E2. Qed.
Lemma linked_bound T l : forall o, linked T o l -> Forall (fun i => (i < length T)%nat) l.
Proof.
  induction l as [|i l IH]; intros o H; [done|]. destruct H as (_ & r & Hr & H). constructor; [by eapply lookup_lt_Some|by eapply IH].
Qed.
Lemma queued_length major s l : queued major s l -> (length l <= NR_REQUEST)%nat.
Proof. intros (Hn & Hd & d & _ & Hl). rewrite <- Hn. apply Sched.distinct_length; [done|by eapply linked_bound]. Qed.

(** A change of a request that keeps its place. *)
Lemma linked_mod T o l i r r' : linked T o l -> T !! i = Some r -> r_next r' = r_next r -> linked (<[i := r']> T) o l.
Proof.
  intros Hl Hi Hn. revert o Hl. induction l as [|j l IH]; intros o Hl; [done|]. destruct Hl as (Ho & rj & Hj & Hl). split; [done|].
  destruct (decide (i = j)) as [<-|Hne].
  - rewrite Hi in Hj. injection Hj as <-. exists r'. split; [apply list_lookup_insert_eq; by eapply lookup_lt_Some|]. rewrite Hn. by apply IH.
  - exists rj. rewrite list_lookup_insert_ne by done. split; [done|by apply IH].
Qed.
Lemma mod_req_live major i f s l : (forall r, r_next (f r) = r_next r) -> queued major s l ->
  live (mod_req i f) (fun _ s' => queued major s' l /\ exists r, request s !! i = Some r /\ request s' = <[i := f r]> (request s) /\
    blk_dev s' = blk_dev s /\ kern s' = kern s) s.
Proof.
  intros Hf (Hn & Hd & d & Hdev & Hl). unfold mod_req, get_req, live, bind, get, deref.
  destruct (request s !! i) as [r|] eqn:Hr; [|done]. cbn [ret modify]. split; [|by exists r].
  split; [cbn; by rewrite length_insert|]. split; [done|]. exists d. split; [done|]. by apply (linked_mod _ _ _ _ r).
Qed.

(** The first request is taken off the queue. *)
Definition advanced (major : nat) (s s' : fs) (l : list nat) : Prop := exists i l' r, l = i :: l' /\ queued major s' l' /\
  request s !! i = Some r /\ request s' = <[i := r <| r_dev := -1 |>]> (request s) /\
  timer_list (kern s') = timer_list (kern s) /\ next_timer (kern s') = next_timer (kern s).
Lemma advance major s l i r s' : queued major s (i :: l) -> request s !! i = Some r -> same_queues s s' ->
  live (mod_req i (fun r => r <| r_dev := -1 |>) ;;; r <- get_req i ;; mod_dev major (fun d => d <| current_request := r_next r |>))
    (fun _ s2 => advanced major s s2 (i :: l)) s'.
Proof.
  intros (Hn & Hd & d & Hdev & Hc & r' & Hr' & Hl) Hr (E1 & E2 & E3 & E4). rewrite Hr in Hr'. injection Hr' as <-.
  unfold live. rewrite <- E2 in Hr. rewrite <- E1 in Hdev. pose proof (lookup_lt_Some _ _ _ Hr) as Hlt.
  run (mod_req_run s' i r (fun r => r <| r_dev := -1 |>) Hr). set (s1 := s' <| request ::= _ |>).
  assert (request s1 !! i = Some (r <| r_dev := -1 |>)) as Hr1 by (by apply list_lookup_insert_eq).
  run (get_req_run s1 i _ Hr1). rewrite (mod_dev_run s1 major d _ Hdev). exists i, l, r. split; [done|]. rewrite <- E2 in *.
  split; [|split; [done|split; [done|by split]]]. apply NoDup_cons in Hd as [Hi Hd]. split; [cbn; by rewrite length_insert|]. split; [done|].
  exists (d <| current_request := r_next r |>). split; [apply list_lookup_insert_eq; by eapply lookup_lt_Some|].
  apply (linked_ext (request s')); [exact Hl|]. intros j Hj. apply list_lookup_insert_ne. by intros <-.
Qed.
Lemma end_request_live name major up s l : queued major s l ->
  live (end_request name major up) (fun _ s' => advanced major s s' l) s.
Proof.
  intros Hq. pose proof Hq as (_ & _ & d & Hdev & Hl). unfold end_request. unfold live at 1. run (get_dev_run s major d Hdev).
  destruct l as [|i l]; cbn in Hl; [by rewrite Hl|]. destruct Hl as (Hcur & r & Hr & Hl). rewrite Hcur. cbn [deref]. rewrite bind_ret.
  run (get_req_run s i r Hr).
  change (live (match r_bh r with
    | Some bh => mod_buf bh (fun b => b <| b_uptodate := up |>) ;;; unlock_request_buffer name bh
    | None => ret tt
    end ;;; when (negb (truth up)) (printk (name ++ " I/O error") [] ;;;
      bh <- deref (r_bh r) ;; b <- get_buf bh ;; printk "dev %04x, block %d" [r_dev r; b_blocknr b]) ;;;
    fs_wake_up (r_waiting i) ;;; fs_wake_up wait_for_request ;;; mod_req i (fun r => r <| r_dev := -1 |>) ;;;
    r <- get_req i ;; mod_dev major (fun d => d <| current_request := r_next r |>)) (fun _ s' => advanced major s s' (i :: l)) s).
  apply live_bind, live_tame; [tame|]. intros _ s1 H1. apply live_bind, live_tame; [tame|]. intros _ s2 H2.
  apply live_bind, live_tame; [tame|]. intros _ s3 H3. apply live_bind, live_tame; [tame|]. intros _ s4 H4.
  apply advance with r; [done|done|]. transitivity s1; [done|]. transitivity s2; [done|]. by transitivity s3.
Qed.
End Progress.
