(* ===== verification/Buffer.v ===== *)
(** * Buffer: the buffer cache (fs/buffer.c, the loading of the RAM disk in kernel/blk_drv/ramdisk.c)

    The buffers are on a ring, the free list, and those of a device in the chain of
    their hash.  [sync_inodes] is defined on top of this file, and [sync_dev] calls
    it: it is the argument of the class [Sync] here and supplied by [Inode]. *)
From S2P Require Import Prelude Console Task Sched Fs Blk.
Import Blk.

Module Buffer.

(** The results of [f] on a list, in order. *)
Fixpoint map_each {S A B} (l : list A) (f : A -> M S B) : M S (list B) :=
  match l with [] => ret [] | a :: l => b <- f a ;; bs <- map_each l f ;; ret (b :: bs) end.

Class Sync : Type := sync_inodes : M fs unit.

Definition hashfn (dev block : Z) : nat := Z.to_nat (u32 (Z.lxor dev block) mod NR_HASH).
Definition hash (dev block : Z) : M fs (option nat) :=
  s <- get ;; deref (hash_table s !! hashfn dev block).
Definition set_hash (dev block : Z) (o : option nat) : M fs unit :=
  hash dev block ;;; modify (fun s => s <| hash_table ::= <[hashfn dev block := o]> |>).

Section Cache.
Context {E : Env}.

Definition wait_on_buffer (bh : nat) : M fs unit :=
  wait_while (b <- get_buf bh ;; ret (truth (b_lock b))) (b_wait bh).

(** ** Hash chains and free list *)
Definition remove_from_queues (bh : nat) : M fs unit :=
  b <- get_buf bh ;;
  match b_next b with Some n => mod_buf n (fun x => x <| b_prev := b_prev b |>) | None => ret tt end ;;;
  b <- get_buf bh ;;
  match b_prev b with Some p => mod_buf p (fun x => x <| b_next := b_next b |>) | None => ret tt end ;;;
  b <- get_buf bh ;;
  h <- hash (b_dev b) (b_blocknr b) ;;
  when (bool_decide (h = Some bh)) (set_hash (b_dev b) (b_blocknr b) (b_next b)) ;;;
  match b_prev_free b, b_next_free b with
  | Some p, Some n =>
      mod_buf p (fun x => x <| b_next_free := Some n |>) ;;;
      b <- get_buf bh ;;
      n <- deref (b_next_free b) ;;
      mod_buf n (fun x => x <| b_prev_free := b_prev_free b |>) ;;;
      s <- get ;;
      when (Nat.eqb (free_list s) bh)
        (b <- get_buf bh ;; n <- deref (b_next_free b) ;; modify (fun s => s <| free_list := n |>))
  | _, _ => panic "Free block list corrupted"
  end.

(** [bh->b_next->b_prev = bh] is executed with [bh->b_next] NULL when the chain was
    empty: the word at [&NULL->b_prev] is then written. *)
Definition insert_into_queues (bh : nat) : M fs unit :=
  s <- get ;;
  let f := free_list s in
  mod_buf bh (fun x => x <| b_next_free := Some f |>) ;;;
  t <- get_buf f ;;
  mod_buf bh (fun x => x <| b_prev_free := b_prev_free t |>) ;;;
  t <- get_buf f ;;
  p <- deref (b_prev_free t) ;;
  mod_buf p (fun x => x <| b_next_free := Some bh |>) ;;;
  mod_buf f (fun x => x <| b_prev_free := Some bh |>) ;;;
  mod_buf bh (fun x => x <| b_prev := None |> <| b_next := None |>) ;;;
  b <- get_buf bh ;;
  if b_dev b =? 0 then ret tt else
  h <- hash (b_dev b) (b_blocknr b) ;;
  mod_buf bh (fun x => x <| b_next := h |>) ;;;
  set_hash (b_dev b) (b_blocknr b) (Some bh) ;;;
  match h with
  | Some n => mod_buf n (fun x => x <| b_prev := Some bh |>)
  | None => modify (fun s => s <| null_b_prev := Some bh |>)
  end.

(** A chain has no more entries than there are buffers. *)
Definition find_buffer (dev block : Z) : M fs (option nat) :=
  h <- hash dev block ;;
  s <- get ;;
  loop (S (length (bufs s))) (fun tmp =>
    match tmp with
    | None => ret (inr None)
    | Some i => b <- get_buf i ;;
        ret (if (b_dev b =? dev) && (b_blocknr b =? u32 block) then inr (Some i) else inl (b_next b))
    end) h.

Definition get_hash_table (dev block : Z) : M fs (option nat) :=
  loop fuel (fun _ : unit =>
    o <- find_buffer dev block ;;
    match o with
    | None => ret (inr None)
    | Some bh =>
        mod_buf bh (fun b => b <| b_count ::= fun c => u8 (c + 1) |>) ;;;
        wait_on_buffer bh ;;;
        b <- get_buf bh ;;
        if (b_dev b =? dev) && (b_blocknr b =? u32 block) then ret (inr (Some bh))
        else mod_buf bh (fun b => b <| b_count ::= fun c => u8 (c - 1) |>) ;;; ret (inl tt)
    end) tt.

(** ** Writing back *)
Definition sync_buffer (dev : Z) (i : nat) : M fs unit :=
  b <- get_buf i ;;
  if negb (b_dev b =? dev) then ret tt else
  wait_on_buffer i ;;;
  b <- get_buf i ;;
  when ((b_dev b =? dev) && truth (b_dirt b)) (ll_rw_block WRITE i).
Definition sync_buffers (dev : Z) : M fs unit :=
  s <- get ;; for_each (seq 0 (length (bufs s))) (sync_buffer dev).
Definition sync_dev {Y : Sync} (dev : Z) : M fs Z :=
  sync_buffers dev ;;; sync_inodes ;;; sync_buffers dev ;;; ret 0.
Definition sys_sync {Y : Sync} : M fs Z :=
  sync_inodes ;;;
  s <- get ;;
  for_each (seq 0 (length (bufs s))) (fun i =>
    wait_on_buffer i ;;; b <- get_buf i ;; when (truth (b_dirt b)) (ll_rw_block WRITE i)) ;;;
  ret 0.
Definition invalidate_buffers (dev : Z) : M fs unit :=
  s <- get ;;
  for_each (seq 0 (length (bufs s))) (fun i =>
    b <- get_buf i ;;
    if negb (b_dev b =? dev) then ret tt else
    wait_on_buffer i ;;;
    b <- get_buf i ;;
    when (b_dev b =? dev) (mod_buf i (fun b => b <| b_dirt := 0 |> <| b_uptodate := 0 |>))).

(** ** Getting a buffer *)
Definition BADNESS (b : buffer_head) : Z := Z.shiftl (b_dirt b) 1 + b_lock b.

(** The unused buffer with the least badness, the first of them in the free list. *)
Definition pick_step (first : nat) (st : nat * option nat) : M fs ((nat * option nat) + option nat) :=
  let '(tmp, bh) := st in
  t <- get_buf tmp ;;
  better <- (if truth (b_count t) then ret false else
             match bh with
             | None => ret true
             | Some i => b <- get_buf i ;; ret (BADNESS t <? BADNESS b)
             end) ;;
  let bh := if better : bool then Some tmp else bh in
  if better && negb (truth (BADNESS t)) then ret (inr bh) else
  next <- deref (b_next_free t) ;;
  ret (if Nat.eqb next first then inr bh else inl (next, bh)).
Definition pick_buffer : M fs (option nat) :=
  s <- get ;; loop (length (bufs s)) (pick_step (free_list s)) (free_list s, None).

(** [while (bh->b_dirt)]: whether the buffer is still unused. *)
Definition flush_buffer {Y : Sync} (bh : nat) : M fs bool :=
  loop fuel (fun _ : unit =>
    b <- get_buf bh ;;
    if negb (truth (b_dirt b)) then ret (inr true) else
    sync_dev (b_dev b) ;;;
    wait_on_buffer bh ;;;
    b <- get_buf bh ;;
    ret (if truth (b_count b) then inr false else inl tt)) tt.

Definition getblk {Y : Sync} (dev block : Z) : M fs nat :=
  loop fuel (fun _ : unit =>
    o <- get_hash_table dev block ;;
    match o with
    | Some bh => ret (inr bh)
    | None =>
        o <- pick_buffer ;;
        match o with
        | None => fs_sleep_on buffer_wait ;;; ret (inl tt)
        | Some bh =>
            wait_on_buffer bh ;;;
            b <- get_buf bh ;;
            if truth (b_count b) then ret (inl tt) else
            unused <- flush_buffer bh ;;
            if negb unused then ret (inl tt) else
            f <- find_buffer dev block ;;
            match f with
            | Some _ => ret (inl tt)
            | None =>
                mod_buf bh (fun b => b <| b_count := 1 |> <| b_dirt := 0 |> <| b_uptodate := 0 |>) ;;;
                remove_from_queues bh ;;;
                mod_buf bh (fun b => b <| b_dev := u16 dev |> <| b_blocknr := u32 block |>) ;;;
                insert_into_queues bh ;;;
                ret (inr bh)
            end
        end
    end) tt.

Definition brelse (buf : option nat) : M fs unit :=
  match buf with
  | None => ret tt
  | Some buf =>
      wait_on_buffer buf ;;;
      b <- get_buf buf ;;
      mod_buf buf (fun b => b <| b_count ::= fun c => u8 (c - 1) |>) ;;;
      if truth (b_count b) then fs_wake_up buffer_wait else panic "Trying to free free buffer"
  end.

Definition bread {Y : Sync} (dev block : Z) : M fs (option nat) :=
  bh <- getblk dev block ;;
  b <- get_buf bh ;;
  if truth (b_uptodate b) then ret (Some bh) else
  ll_rw_block READ bh ;;;
  wait_on_buffer bh ;;;
  b <- get_buf bh ;;
  if truth (b_uptodate b) then ret (Some bh) else
  brelse (Some bh) ;;; ret None.

(** [COPYBLK(bh->b_data, address)], [i] blocks into the page at [address]. *)
Definition COPYBLK (i : nat) (data : list Z) (address : Z) : M fs unit :=
  s <- get ;;
  p <- deref (pages s !! address) ;;
  modify (fun s => s <| pages ::= <[address := splice (1024 * i) data p]> |>).

Definition bread_page {Y : Sync} (address : Z) (dev : Z) (b : list Z) : M fs unit :=
  bh <- map_each b (fun n =>
          if truth n then
            bh <- getblk dev n ;;
            x <- get_buf bh ;;
            when (negb (truth (b_uptodate x))) (ll_rw_block READ bh) ;;;
            ret (Some bh)
          else ret None) ;;
  for_each (zip (seq 0 (length bh)) bh) (fun '(i, o) =>
    match o with
    | None => ret tt
    | Some bh =>
        wait_on_buffer bh ;;;
        x <- get_buf bh ;;
        when (truth (b_uptodate x)) (COPYBLK i (b_data x) address) ;;;
        brelse (Some bh)
    end).

Fixpoint until_negative (l : list Z) : list Z :=
  match l with [] => [] | n :: l => if n <? 0 then [] else n :: until_negative l end.

(** The variable arguments as a list; [READA] goes to [bh], as in the code. *)
Definition breada {Y : Sync} (dev first : Z) (rest : list Z) : M fs (option nat) :=
  bh <- getblk dev first ;;
  b <- get_buf bh ;;
  when (negb (truth (b_uptodate b))) (ll_rw_block READ bh) ;;;
  for_each (until_negative rest) (fun first =>
    tmp <- getblk dev first ;;
    t <- get_buf tmp ;;
    when (negb (truth (b_uptodate t))) (ll_rw_block READA bh) ;;;
    mod_buf tmp (fun t => t <| b_count ::= fun c => u8 (c - 1) |>)) ;;;
  wait_on_buffer bh ;;;
  b <- get_buf bh ;;
  if truth (b_uptodate b) then ret (Some bh) else
  brelse (Some bh) ;;; ret None.

(** ** Initialisation

    [end_] is the address of the kernel's end, where the buffer heads start, 36 bytes each;
    [raw] is what these bytes and [mem] what the blocks hold before. *)
Definition init_buffer (raw : nat -> buffer_head) (mem : Z -> list Z) (b : Z) (h : nat) : buffer_head :=
  (raw h) <| b_dev := 0 |> <| b_dirt := 0 |> <| b_count := 0 |> <| b_lock := 0 |> <| b_uptodate := 0 |>
        <| b_next := None |> <| b_prev := None |> <| b_data := mem b |>
        <| b_prev_free := if Nat.eqb h 0 then None else Some (h - 1)%nat |> <| b_next_free := Some (h + 1)%nat |>.
Definition init_step (end_ : Z) (raw : nat -> buffer_head) (mem : Z -> list Z) (b : Z) : M fs (Z + unit) :=
  s <- get ;;
  let h := length (bufs s) in
  let b := b - BLOCK_SIZE in
  if end_ + 36 * (Z.of_nat h + 1) <=? b then
    modify (fun s => s <| bufs ::= fun l => l ++ [init_buffer raw mem b h] |>) ;;;
    in_kernel (wq_set (b_wait h) None) ;;;
    ret (inl (if b =? 1048576 then 655360 else b))
  else ret (inr tt).
Definition buffer_init (end_ : Z) (raw : nat -> buffer_head) (mem : Z -> list Z) (buffer_end : Z) : M fs unit :=
  let b := if buffer_end =? 1048576 then 655360 else buffer_end in
  modify (fun s => s <| bufs := [] |>) ;;;
  loop (S (Z.to_nat b)) (init_step end_ raw mem) b ;;;
  s <- get ;;
  let h := (length (bufs s) - 1)%nat in
  modify (fun s => s <| free_list := 0%nat |>) ;;;
  mod_buf 0 (fun x => x <| b_prev_free := Some h |>) ;;;
  mod_buf h (fun x => x <| b_next_free := Some 0%nat |>) ;;;
  modify (fun s => s <| hash_table := replicate (Z.to_nat NR_HASH) None |>).

(** ** Loading the RAM disk *)
Definition load_block {Y : Sync} (st : Z * Z * Z * Z) : M fs (Z * Z * Z * Z + bool) :=
  let '(block, nblocks, cp, i) := st in
  if negb (truth nblocks) then ret (inr true) else
  s <- get ;;
  o <- (if 2 <? nblocks then breada (ROOT_DEV s) block [block + 1; block + 2; -1] else bread (ROOT_DEV s) block) ;;
  match o with
  | None => printk "I/O error on block %d, aborting load" [block] ;;; ret (inr false)
  | Some bh =>
      b <- get_buf bh ;;
      modify (fun s => s <| rd_data ::= splice (Z.to_nat cp) (b_data b) |>) ;;;
      brelse (Some bh) ;;;
      printk "%4dk" [i] ;;;
      ret (inl (block + 1, nblocks - 1, cp + BLOCK_SIZE, i + 1))
  end.
(** [SUPER_MAGIC] is at offset 16 of the super block, [s_nzones] at 2, [s_log_zone_size] at 10. *)
Definition rd_load {Y : Sync} : M fs unit :=
  let block := 256 in
  s <- get ;;
  if negb (truth (rd_length s)) then ret tt else
  printk "Ram disk: %d bytes, starting at 0x%x" [rd_length s; rd_start s] ;;;
  s <- get ;;
  if negb (MAJOR (ROOT_DEV s) =? 2) then ret tt else
  o <- breada (ROOT_DEV s) (block + 1) [block; block + 2; -1] ;;
  match o with
  | None => printk "Disk error while looking for ramdisk!" []
  | Some bh =>
      b <- get_buf bh ;;
      brelse (Some bh) ;;;
      if negb (half (b_data b) 16 =? SUPER_MAGIC) then ret tt else
      let nblocks := i32 (Z.shiftl (half (b_data b) 2) (Z.land (half (b_data b) 10) 31)) in
      s <- get ;;
      let avail := Z.shiftr (rd_length s) 10 in
      if avail <? nblocks then printk "Ram disk image too big!  (%d blocks, %d avail)" [nblocks; avail] else
      printk "Loading %d bytes into ram disk... 0000k" [i32 (Z.shiftl nblocks 10)] ;;;
      ok <- loop (S (Z.to_nat nblocks)) load_block (block, nblocks, 0, 1) ;;
      if ok : bool then
        printk "done" [] ;;;
        modify (fun s => s <| ROOT_DEV := 257 |>)
      else ret tt
  end.
End Cache.

(** ** Doubly linked lists

    [seg nx pv p l q]: the entries [l] are linked in both directions, the first points
    back to [p] and the last on to [q]. *)
Definition hd_or (q : option nat) (l : list nat) : option nat := match l with [] => q | j :: _ => Some j end.
Definition last_or (p : option nat) (l : list nat) : option nat := match last l with Some j => Some j | None => p end.
Fixpoint seg (nx pv : nat -> option nat) (p : option nat) (l : list nat) (q : option nat) : Prop :=
  match l with
  | [] => True
  | i :: l' => pv i = p /\ nx i = hd_or q l' /\ seg nx pv (Some i) l' q
  end.
Definition ring (nx pv : nat -> option nat) (l : list nat) : Prop := seg nx pv (last l) l (hd_error l).
(** The function [f] changed at [i]. *)
Definition fset (i : nat) (v : option nat) (f : nat -> option nat) : nat -> option nat :=
  fun j => if Nat.eqb j i then v else f j.

Lemma fset_eq i v f : fset i v f i = v.
Proof. unfold fset. by rewrite Nat.eqb_refl. Qed.
Lemma fset_ne i j v f : j <> i -> fset i v f j = f j.
Proof. unfold fset. intros H. by rewrite (proj2 (Nat.eqb_neq _ _)). Qed.
Lemma hd_or_app q l1 l2 : hd_or q (l1 ++ l2) = hd_or (hd_or q l2) l1.
Proof. by destruct l1. Qed.
Lemma last_or_cons p i l : last_or p (i :: l) = last_or (Some i) l.
Proof. unfold last_or. rewrite last_cons. by destruct (last l). Qed.
Lemma last_or_snoc p l i : last_or p (l ++ [i]) = Some i.
Proof. unfold last_or. by rewrite last_snoc. Qed.
Lemma last_or_last l p : l <> [] -> last_or p l = last l.
Proof. unfold last_or. destruct (last l) eqn:E; [done|]. by apply last_None in E. Qed.
Lemma hd_or_head l q : l <> [] -> hd_or q l = hd_error l.
Proof. by destruct l. Qed.

Lemma seg_app nx pv q l1 l2 : forall p,
  seg nx pv p (l1 ++ l2) q <-> seg nx pv p l1 (hd_or q l2) /\ seg nx pv (last_or p l1) l2 q.
Proof.
  induction l1 as [|i l1 IH]; intros p; cbn [app seg]; [tauto|].
  rewrite IH, hd_or_app, last_or_cons. tauto.
Qed.
Lemma seg_ext nx pv nx' pv' p l q :
  (forall i, i ∈ l -> nx' i = nx i /\ pv' i = pv i) -> seg nx pv p l q -> seg nx' pv' p l q.
Proof.
  revert p. induction l as [|i l IH]; intros p H Hs; [done|]. destruct Hs as (H1 & H2 & H3).
  destruct (H i) as [E1 E2]; [left|]. cbn. rewrite E1, E2. do 2 (split; [done|]).
  apply IH; [|done]. intros j Hj. apply H. by right.
Qed.
(** The last entry is pointed elsewhere, the first back elsewhere. *)
Lemma seg_last nx pv p l y q q' : y ∉ l ->
  seg nx pv p (l ++ [y]) q -> seg (fset y q' nx) pv p (l ++ [y]) q'.
Proof.
  intros Hy. rewrite !seg_app. cbn [seg hd_or]. intros (H1 & H2 & _ & _). split.
  - revert H1. apply seg_ext. intros i Hi. split; [|done]. apply fset_ne. by intros ->.
  - by rewrite fset_eq.
Qed.
Lemma seg_first nx pv p y l q p' : y ∉ l ->
  seg nx pv p (y :: l) q -> seg nx (fset y p' pv) p' (y :: l) q.
Proof.
  intros Hy (_ & H2 & H3). cbn [seg]. rewrite fset_eq. do 2 (split; [done|]).
  revert H3. apply seg_ext. intros i Hi. split; [done|]. apply fset_ne. by intros ->.
Qed.
Lemma seg_fset nx pv p l q i j v w : i ∉ l -> j ∉ l ->
  seg nx pv p l q -> seg (fset i v nx) (fset j w pv) p l q.
Proof. intros Hi Hj. apply seg_ext. intros k Hk. split; apply fset_ne; by intros ->. Qed.

(** Both ends at once. *)
Lemma seg_relink nx pv p l q a b p' q' : NoDup l -> hd_error l = Some a -> last l = Some b ->
  seg nx pv p l q -> seg (fset b q' nx) (fset a p' pv) p' l q'.
Proof.
  intros Hn Ha Hb Hs. destruct l as [|a' l]; [done|]. injection Ha as ->.
  apply NoDup_cons in Hn as Hn'. destruct Hn' as [Hna Hnl].
  apply (seg_first _ pv p); [done|].
  destruct (exists_last (l := a :: l)) as (l' & b' & E); [done|]. rewrite E in *.
  rewrite last_snoc in Hb. injection Hb as ->. apply (seg_last _ _ _ _ _ q); [|done].
  apply NoDup_app in Hn as (_ & Hd & _). intros Hin. apply (Hd b Hin). left.
Qed.

Lemma ring_rotate nx pv l1 l2 : ring nx pv (l1 ++ l2) -> ring nx pv (l2 ++ l1).
Proof.
  unfold ring. destruct l1 as [|a l1]; [by rewrite app_nil_r|]. destruct l2 as [|b l2]; [by rewrite app_nil_r|].
  rewrite !seg_app. rewrite !last_app. cbn [hd_error hd_or app]. rewrite !last_or_last by done.
  destruct (last (a :: l1)) eqn:Ea; [|by apply last_None in Ea].
  destruct (last (b :: l2)) eqn:Eb; [|by apply last_None in Eb]. tauto.
Qed.
Lemma ring_remove nx pv x l a b : NoDup l -> hd_error l = Some a -> last l = Some b ->
  ring nx pv (x :: l) -> nx x = Some a /\ pv x = Some b /\ ring (fset b (Some a) nx) (fset a (Some b) pv) l.
Proof.
  intros Hn Ha Hb (H1 & H2 & H3). rewrite last_cons, Hb in H1. cbn [hd_error] in *.
  split; [rewrite H2; by destruct l|]. split; [done|].
  unfold ring. rewrite Ha, Hb. by apply (seg_relink nx pv (Some x) l (Some x)).
Qed.
Lemma ring_insert nx pv x l a b : NoDup l -> x ∉ l -> hd_error l = Some a -> last l = Some b ->
  ring nx pv l ->
  ring (fset b (Some x) (fset x (Some a) nx)) (fset a (Some x) (fset x (Some b) pv)) (l ++ [x]).
Proof.
  intros Hn Hx Ha Hb H. unfold ring. rewrite last_snoc. rewrite (proj2 (head_app_Some l [x] a)) by by left.
  assert (a ∈ l) as Hal by (destruct l; [done|]; injection Ha as ->; left).
  assert (b ∈ l) as Hbl by (by apply last_Some_elem_of).
  rewrite seg_app. cbn [hd_or seg]. split; [|split; [|split; [|done]]].
  - apply (seg_relink _ _ (last l) l (hd_error l)); [done..|]. by apply seg_fset.
  - rewrite last_or_last by (by intros ->). rewrite fset_ne by (by intros ->). by rewrite fset_eq.
  - rewrite fset_ne by (by intros ->). by rewrite fset_eq.
Qed.

(** A chain from which [x] is taken: what [x] points to is linked past it. *)
Definition relink_next (o : option nat) (v : option nat) (f : nat -> option nat) : nat -> option nat :=
  match o with Some i => fset i v f | None => f end.
Lemma chain_remove nx pv l1 x l2 : NoDup (l1 ++ x :: l2) ->
  seg nx pv None (l1 ++ x :: l2) None ->
  pv x = last l1 /\ nx x = hd_error l2 /\
  seg (relink_next (last l1) (hd_error l2) nx) (relink_next (hd_error l2) (last l1) pv) None (l1 ++ l2) None.
Proof.
  intros Hn Hs. rewrite seg_app in Hs. cbn [hd_or seg] in Hs. destruct Hs as (H1 & H2 & H3 & H4).
  apply NoDup_app in Hn as (Hn1 & Hd & Hn2). apply NoDup_cons in Hn2 as [Hx2 Hn2].
  assert (last_or None l1 = last l1) as El by (unfold last_or; by destruct (last l1)).
  assert (hd_or None l2 = hd_error l2) as Eh by (by destruct l2).
  rewrite El in H2. rewrite Eh in H3. split; [done|]. split; [done|].
  rewrite seg_app, El, Eh.
  assert (forall i, i ∈ l1 -> i ∉ l2) as Hd' by (intros i Hi Hi2; apply (Hd i Hi); by right).
  split.
  - destruct (last l1) as [b|] eqn:Eb; cbn [relink_next].
    + assert (exists l0, l1 = l0 ++ [b]) as [l0 ->] by (by apply last_Some).
      apply (seg_ext (fset b (hd_error l2) nx) pv).
      { intros i Hi. split; [done|]. destruct (hd_error l2) as [a|] eqn:Ea; [|done]. cbn. apply fset_ne.
        intros ->. destruct l2; [done|]. injection Ea as ->. apply (Hd' a Hi). left. }
      apply (seg_last _ _ _ _ _ (Some x)); [|done]. apply NoDup_app in Hn1 as (_ & Hn1 & _). intros Hin. apply (Hn1 b Hin). left.
    + apply last_None in Eb. by subst.
  - destruct l2 as [|a l2]; [done|]. cbn [hd_error relink_next].
    apply (seg_ext nx (fset a (last l1) pv)).
    { intros i Hi. split; [|done]. destruct (last l1) as [b|] eqn:Eb; [|done]. cbn. apply fset_ne.
      intros ->. apply (Hd' b); [|done]. by apply last_Some_elem_of. }
    apply (seg_first _ _ (Some x)); [|done]. by apply NoDup_cons in Hn2 as [? _].
Qed.
(** A chain with [x] in front. *)
Lemma chain_insert nx pv x l : x ∉ l -> NoDup l -> seg nx pv None l None ->
  seg (fset x (hd_error l) nx) (relink_next (hd_error l) (Some x) (fset x None pv)) None (x :: l) None.
Proof.
  intros Hx Hn Hs. cbn [seg]. rewrite fset_eq. split; [|split; [by destruct l|]].
  - destruct l as [|a l]; cbn [hd_error relink_next]; [by rewrite fset_eq|]. rewrite fset_ne by (intros ->; apply Hx; left).
    by rewrite fset_eq.
  - destruct l as [|a l]; [done|]. cbn [hd_error relink_next]. apply NoDup_cons in Hn as [Ha _].
    apply (seg_first _ _ None); [done|]. by apply seg_fset.
Qed.

(** ** The links of all buffers at once *)
Record links : Type := mk_links {
  nf : nat -> option nat;
  pf : nat -> option nat;
  nh : nat -> option nat;
  ph : nat -> option nat
}.
Definition set_nf (i : nat) (v : option nat) (L : links) : links := mk_links (fset i v (nf L)) (pf L) (nh L) (ph L).
Definition set_pf (i : nat) (v : option nat) (L : links) : links := mk_links (nf L) (fset i v (pf L)) (nh L) (ph L).
Definition set_nh (i : nat) (v : option nat) (L : links) : links := mk_links (nf L) (pf L) (fset i v (nh L)) (ph L).
Definition set_ph (i : nat) (v : option nat) (L : links) : links := mk_links (nf L) (pf L) (nh L) (fset i v (ph L)).
Definition linked_as (L : links) (i : nat) (b : buffer_head) : Prop :=
  b_next_free b = nf L i /\ b_prev_free b = pf L i /\ b_next b = nh L i /\ b_prev b = ph L i.
(** A buffer but for its links. *)
Definition core (b : buffer_head) : buffer_head :=
  b <| b_next_free := None |> <| b_prev_free := None |> <| b_next := None |> <| b_prev := None |>.

(** [s] is [s0] with its buffers linked as [L] says. *)
Record rep (s0 : fs) (L : links) (s : fs) : Prop := {
  rep_links i b : bufs s !! i = Some b -> linked_as L i b;
  rep_core i : core <$> bufs s !! i = core <$> bufs s0 !! i;
  rep_rest : s = s0 <| bufs := bufs s |> <| free_list := free_list s |> <| hash_table := hash_table s |> <| null_b_prev := null_b_prev s |>
}.
(** The lists and the table start where they did. *)
Definition same_heads (s s' : fs) : Prop := free_list s' = free_list s /\ hash_table s' = hash_table s.

Lemma rep_get s0 L s i b0 : rep s0 L s -> bufs s0 !! i = Some b0 ->
  exists b, bufs s !! i = Some b /\ core b = core b0 /\ linked_as L i b.
Proof.
  intros [H1 H2 _] Hb. specialize (H2 i). rewrite Hb in H2. destruct (bufs s !! i) as [b|] eqn:Eb; [|done].
  apply (inj Some) in H2. exists b. split; [done|]. split; [done|]. by apply H1.
Qed.
Lemma wp_get_rep s0 L s i b0 Q : rep s0 L s -> bufs s0 !! i = Some b0 ->
  (forall b, core b = core b0 -> linked_as L i b -> Q b s) -> wp (get_buf i) Q s.
Proof.
  intros Hr Hb HQ. destruct (rep_get s0 L s i b0 Hr Hb) as (b & H1 & H2 & H3).
  unfold wp. rewrite (get_buf_run s i b H1). auto.
Qed.
(** A write to the links of buffer [i]. *)
Lemma wp_mod_rep s0 L L' s i b0 f (Q : unit -> fs -> Prop) : rep s0 L s -> bufs s0 !! i = Some b0 ->
  (forall b, core (f b) = core b) -> (forall b, linked_as L i b -> linked_as L' i (f b)) ->
  (forall j b, j <> i -> linked_as L j b -> linked_as L' j b) ->
  (forall s', rep s0 L' s' -> same_heads s s' -> Q tt s') -> wp (mod_buf i f) Q s.
Proof.
  intros Hr Hb Hf Hi Hj HQ. destruct (rep_get s0 L s i b0 Hr Hb) as (b & H1 & H2 & H3).
  unfold wp. rewrite (mod_buf_run s i b f H1). apply HQ; [|done]. destruct Hr as [R1 R2 R3].
  pose proof (lookup_lt_Some _ _ _ H1) as Hlt. constructor.
  - intros j c Hc. cbn in Hc. destruct (decide (j = i)) as [->|Hne].
    + rewrite list_lookup_insert_eq in Hc by done. injection Hc as <-. by apply Hi.
    + rewrite list_lookup_insert_ne in Hc by done. apply Hj; [done|]. by apply R1.
  - intros j. cbn. destruct (decide (j = i)) as [->|Hne].
    + rewrite list_lookup_insert_eq by done. cbn. rewrite Hf, H2, Hb. done.
    + by rewrite list_lookup_insert_ne.
  - rewrite R3. done.
Qed.

Ltac link_case :=
  intros; unfold linked_as in *; unfold set_nf, set_pf, set_nh, set_ph; cbn in *;
  rewrite ?fset_eq, ?fset_ne by done; naive_solver.
Lemma wp_set_nf s0 L s i b0 v (Q : unit -> fs -> Prop) : rep s0 L s -> bufs s0 !! i = Some b0 ->
  (forall s', rep s0 (set_nf i v L) s' -> same_heads s s' -> Q tt s') ->
  wp (mod_buf i (fun x => x <| b_next_free := v |>)) Q s.
Proof. intros Hr Hb HQ. eapply (wp_mod_rep s0 L (set_nf i v L)); [done..|link_case|link_case|done]. Qed.
Lemma wp_set_pf s0 L s i b0 v (Q : unit -> fs -> Prop) : rep s0 L s -> bufs s0 !! i = Some b0 ->
  (forall s', rep s0 (set_pf i v L) s' -> same_heads s s' -> Q tt s') ->
  wp (mod_buf i (fun x => x <| b_prev_free := v |>)) Q s.
Proof. intros Hr Hb HQ. eapply (wp_mod_rep s0 L (set_pf i v L)); [done..|link_case|link_case|done]. Qed.
Lemma wp_set_nh s0 L s i b0 v (Q : unit -> fs -> Prop) : rep s0 L s -> bufs s0 !! i = Some b0 ->
  (forall s', rep s0 (set_nh i v L) s' -> same_heads s s' -> Q tt s') ->
  wp (mod_buf i (fun x => x <| b_next := v |>)) Q s.
Proof. intros Hr Hb HQ. eapply (wp_mod_rep s0 L (set_nh i v L)); [done..|link_case|link_case|done]. Qed.
Lemma wp_set_ph s0 L s i b0 v (Q : unit -> fs -> Prop) : rep s0 L s -> bufs s0 !! i = Some b0 ->
  (forall s', rep s0 (set_ph i v L) s' -> same_heads s s' -> Q tt s') ->
  wp (mod_buf i (fun x => x <| b_prev := v |>)) Q s.
Proof. intros Hr Hb HQ. eapply (wp_mod_rep s0 L (set_ph i v L)); [done..|link_case|link_case|done]. Qed.
Lemma wp_set_chain s0 L s i b0 (Q : unit -> fs -> Prop) : rep s0 L s -> bufs s0 !! i = Some b0 ->
  (forall s', rep s0 (set_nh i None (set_ph i None L)) s' -> same_heads s s' -> Q tt s') ->
  wp (mod_buf i (fun x => x <| b_prev := None |> <| b_next := None |>)) Q s.
Proof. intros Hr Hb HQ. eapply (wp_mod_rep s0 L (set_nh i None (set_ph i None L))); [done..|link_case|link_case|done]. Qed.

Definition opt_links (f : nat -> links -> links) (o : option nat) (L : links) : links :=
  match o with Some i => f i L | None => L end.
(** What the two routines do to the links. *)
Definition remove_links (p n : nat) (o1 o2 : option nat) (L : links) : links :=
  set_pf n (Some p) (set_nf p (Some n)
    (opt_links (fun i => set_nh i o2) o1 (opt_links (fun i => set_ph i o1) o2 L))).
Definition insert_links (bh f p : nat) (h : option nat) (dev : bool) (L : links) : links :=
  let L := set_nh bh None (set_ph bh None (set_pf f (Some bh) (set_nf p (Some bh)
             (set_pf bh (Some p) (set_nf bh (Some f) L))))) in
  if dev then opt_links (fun i => set_ph i (Some bh)) h (set_nh bh h L) else L.

Lemma wp_hash s dev block h Q : hash_table s !! hashfn dev block = Some h -> Q h s -> wp (hash dev block) Q s.
Proof. intros H HQ. unfold wp, hash, bind, get. by rewrite H. Qed.
Lemma wp_set_hash s0 L s dev block h v (Q : unit -> fs -> Prop) : rep s0 L s -> hash_table s !! hashfn dev block = Some h ->
  (forall s', rep s0 L s' -> free_list s' = free_list s -> hash_table s' = <[hashfn dev block := v]> (hash_table s) -> Q tt s') ->
  wp (set_hash dev block v) Q s.
Proof.
  intros [R1 R2 R3] H HQ. unfold set_hash. apply wp_bind. apply (wp_hash _ _ _ _ _ H). apply HQ; [|done..].
  constructor; [exact R1|exact R2|]. rewrite R3. done.
Qed.
Lemma wp_set_free s0 L s n (Q : unit -> fs -> Prop) : rep s0 L s ->
  (forall s', rep s0 L s' -> free_list s' = n -> hash_table s' = hash_table s -> Q tt s') ->
  wp (modify (fun s => s <| free_list := n |>)) Q s.
Proof. intros [R1 R2 R3] HQ. apply HQ; [|done..]. constructor; [exact R1|exact R2|]. rewrite R3. done. Qed.
Lemma wp_set_null s0 L s v (Q : unit -> fs -> Prop) : rep s0 L s ->
  (forall s', rep s0 L s' -> same_heads s s' -> Q tt s') ->
  wp (modify (fun s => s <| null_b_prev := v |>)) Q s.
Proof. intros [R1 R2 R3] HQ. apply HQ; [|done..]. constructor; [exact R1|exact R2|]. rewrite R3. done. Qed.

Lemma buffer_core_fields b b0 : core b = core b0 ->
  b_data b = b_data b0 /\ b_blocknr b = b_blocknr b0 /\ b_dev b = b_dev b0 /\ b_uptodate b = b_uptodate b0 /\
  b_dirt b = b_dirt b0 /\ b_count b = b_count b0 /\ b_lock b = b_lock b0.
Proof. destruct b, b0. unfold core, upd, upd_b_next_free, upd_b_prev_free, upd_b_next, upd_b_prev. cbn. intros [=]. by subst. Qed.
Lemma core_intro b b0 : b_data b = b_data b0 -> b_blocknr b = b_blocknr b0 -> b_dev b = b_dev b0 -> b_uptodate b = b_uptodate b0 ->
  b_dirt b = b_dirt b0 -> b_count b = b_count b0 -> b_lock b = b_lock b0 -> core b = core b0.
Proof. destruct b, b0. cbn. intros. by subst. Qed.
Definition here (s : fs) (o : option nat) : Prop := match o with Some i => is_Some (bufs s !! i) | None => True end.

Lemma remove_run s0 L s bh b0 p n h (Q : unit -> fs -> Prop) :
  rep s0 L s -> bufs s0 !! bh = Some b0 ->
  nf L bh = Some n -> pf L bh = Some p -> is_Some (bufs s0 !! p) -> is_Some (bufs s0 !! n) -> p <> bh -> n <> bh ->
  here s0 (ph L bh) -> here s0 (nh L bh) -> ph L bh <> Some bh -> nh L bh <> Some bh ->
  hash_table s !! hashfn (b_dev b0) (b_blocknr b0) = Some h ->
  (forall s', rep s0 (remove_links p n (ph L bh) (nh L bh) L) s' ->
     free_list s' = (if Nat.eqb (free_list s) bh then n else free_list s) ->
     hash_table s' = (if bool_decide (h = Some bh) then <[hashfn (b_dev b0) (b_blocknr b0) := nh L bh]> (hash_table s) else hash_table s) ->
     Q tt s') ->
  wp (remove_from_queues bh) Q s.
Proof.
  intros Hr Hb Hn Hp [bp Hbp] [bn Hbn] Hpb Hnb Ho1 Ho2 Hs1 Hs2 Hh HQ. unfold remove_from_queues.
  set (o1 := ph L bh) in *. set (o2 := nh L bh) in *.
  apply wp_bind. eapply (wp_get_rep _ _ _ _ b0); [done..|]. intros b _ (_ & _ & E2 & E1). fold o2 in E2. fold o1 in E1. rewrite E1, E2.
  apply wp_bind.
  assert (forall s', rep s0 (opt_links (fun i => set_ph i o1) o2 L) s' -> same_heads s s' ->
    wp (b <- get_buf bh ;;
        match b_prev b with Some p => mod_buf p (fun x => x <| b_next := b_next b |>) | None => ret tt end) (fun _ s'' =>
      rep s0 (opt_links (fun i => set_nh i o2) o1 (opt_links (fun i => set_ph i o1) o2 L)) s'' /\ same_heads s s'') s') as Hstep2.
  { intros s1 H1 Hs. apply wp_bind. eapply (wp_get_rep _ _ _ _ b0); [done..|]. intros b1 _ (_ & _ & E3 & E4).
    assert (b_next b1 = o2 /\ b_prev b1 = o1) as [-> ->].
    { rewrite E3, E4. destruct o2 as [j|] eqn:Eo; cbn; split; try exact Eo; [|done]. by rewrite fset_ne by congruence. }
    destruct o1 as [i|]; [|done]. destruct Ho1 as [bi Hbi]. eapply (wp_set_nh _ _ _ _ bi); [done..|]. intros s2 H2 Hs'.
    split; [done|]. destruct Hs, Hs'. split; congruence. }
  match type of Hstep2 with forall s', _ -> _ -> wp _ ?Q2 _ =>
    assert (wp (match o2 with Some n => mod_buf n (fun x => x <| b_prev := o1 |>) | None => ret tt end)
      (fun _ s' => rep s0 (opt_links (fun i => set_ph i o1) o2 L) s' /\ same_heads s s') s) as Hstep1 end.
  { destruct o2 as [i|]; [|done]. destruct Ho2 as [bi Hbi]. by eapply (wp_set_ph _ _ _ _ bi). }
  eapply wp_mono; [exact Hstep1|]. cbv beta. intros [] s1 [H1 Hs1']. clear Hstep1.
  specialize (Hstep2 s1 H1 Hs1'). set (L2 := opt_links (fun i => set_nh i o2) o1 _) in *.
  assert (nf L2 = nf L /\ pf L2 = pf L /\ nh L2 bh = o2) as (F1 & F2 & F3).
  { unfold L2. destruct o1 as [i|] eqn:Eo1, o2 as [j|] eqn:Eo2; cbn; repeat split; try exact Eo2; by rewrite fset_ne by congruence. }
  apply (wp_bind (S := fs)) in Hstep2. apply wp_bind. eapply wp_mono; [exact Hstep2|]. cbv beta.
  intros b1 s1' Hstep. apply wp_bind. eapply wp_mono; [exact Hstep|]. cbv beta. intros [] s2 [H2 Hs2']. clear Hstep Hstep2.
  apply wp_bind. eapply (wp_get_rep _ _ _ _ b0); [done..|]. intros b2 Ec (E5 & E6 & E7 & _).
  apply buffer_core_fields in Ec as (_ & Eb & Ed & _). rewrite Ed, Eb, E5, E6, E7, F1, F2, F3, Hn, Hp.
  destruct Hs2' as [Hf2 Hh2].
  apply wp_bind. apply (wp_hash _ _ _ h); [by rewrite Hh2|].
  apply wp_bind. set (T := if bool_decide (h = Some bh) then _ else _) in HQ.
  assert (wp (when (bool_decide (h = Some bh)) (set_hash (b_dev b0) (b_blocknr b0) o2))
    (fun _ s' => rep s0 L2 s' /\ free_list s' = free_list s /\ hash_table s' = T) s2) as Hw.
  { unfold T. destruct (bool_decide _); cbn [when]; [|done]. eapply (wp_set_hash _ _ _ _ _ h); [done|by rewrite Hh2|].
    intros s3 H3 Hf3 Hh3. rewrite Hf3, Hh3, Hh2. done. }
  eapply wp_mono; [exact Hw|]. cbv beta. intros [] s3 (H3 & Hf3 & Hh3). clear Hw.
  apply wp_bind. eapply (wp_set_nf _ _ _ _ bp); [done..|]. intros s4 H4 [Hf4 Hh4].
  apply wp_bind. eapply (wp_get_rep _ _ _ _ b0); [done..|]. intros b4 _ (E8 & E9 & _). cbn in E8, E9.
  rewrite fset_ne in E8 by congruence. rewrite E8, E9, F1, F2, Hn, Hp. apply wp_bind. apply (wp_deref _ _ _ n); [done|].
  apply wp_bind. eapply (wp_set_pf _ _ _ _ bn); [done..|]. intros s5 H5 [Hf5 Hh5].
  apply wp_bind. change (wp _ ?P ?s) with (P s s). cbv beta.
  replace (free_list s5) with (free_list s) by congruence.
  assert (hash_table s5 = T) as HT by congruence.
  destruct (Nat.eqb (free_list s) bh); cbn [when]; [|by apply HQ; [|congruence|]].
  apply wp_bind. eapply (wp_get_rep _ _ _ _ b0); [done..|]. intros b6 _ (E10 & _). cbn in E10.
  rewrite fset_ne in E10 by congruence. rewrite E10, F1, Hn. apply wp_bind. apply (wp_deref _ _ _ n); [done|].
  eapply wp_set_free; [done|]. intros s7 H7 Hf7 Hh7. apply HQ; [done|done|]. congruence.
Qed.

Lemma insert_run s0 L s bh b0 f p h (Q : unit -> fs -> Prop) :
  rep s0 L s -> bufs s0 !! bh = Some b0 -> free_list s = f -> is_Some (bufs s0 !! f) -> is_Some (bufs s0 !! p) ->
  pf L f = Some p -> f <> bh -> p <> bh -> here s0 h ->
  hash_table s !! hashfn (b_dev b0) (b_blocknr b0) = Some h ->
  (forall s', rep s0 (insert_links bh f p h (negb (b_dev b0 =? 0)) L) s' -> free_list s' = f ->
     hash_table s' = (if b_dev b0 =? 0 then hash_table s else <[hashfn (b_dev b0) (b_blocknr b0) := Some bh]> (hash_table s)) ->
     Q tt s') ->
  wp (insert_into_queues bh) Q s.
Proof.
  intros Hr Hb Hf [bf Hbf] [bp Hbp] Hp Hfb Hpb Ho Hh HQ. unfold insert_into_queues.
  apply wp_bind. change (wp _ ?P ?s) with (P s s). cbv beta zeta. rewrite Hf.
  apply wp_bind. eapply (wp_set_nf _ _ _ _ b0); [done..|]. intros s1 H1 [Hf1 Hh1].
  apply wp_bind. eapply (wp_get_rep _ _ _ _ bf); [done..|]. intros b1 _ (_ & E1 & _). cbn in E1. rewrite E1, Hp.
  apply wp_bind. eapply (wp_set_pf _ _ _ _ b0); [done..|]. intros s2 H2 [Hf2 Hh2].
  apply wp_bind. eapply (wp_get_rep _ _ _ _ bf); [done..|]. intros b2 _ (_ & E2 & _). cbn in E2.
  rewrite fset_ne in E2 by done. rewrite E2, Hp.
  apply wp_bind. apply (wp_deref _ _ _ p); [done|].
  apply wp_bind. eapply (wp_set_nf _ _ _ _ bp); [done..|]. intros s3 H3 [Hf3 Hh3].
  apply wp_bind. eapply (wp_set_pf _ _ _ _ bf); [done..|]. intros s4 H4 [Hf4 Hh4].
  apply wp_bind. eapply (wp_set_chain _ _ _ _ b0); [done..|]. intros s5 H5 [Hf5 Hh5].
  apply wp_bind. eapply (wp_get_rep _ _ _ _ b0); [done..|]. intros b6 Ec _.
  apply buffer_core_fields in Ec as (_ & Eb & Ed & _). rewrite Ed, Eb.
  destruct (b_dev b0 =? 0); cbn [negb] in HQ; [apply HQ; [done|congruence..]|].
  apply wp_bind. apply (wp_hash _ _ _ h); [congruence|].
  apply wp_bind. eapply (wp_set_nh _ _ _ _ b0); [done..|]. intros s7 H7 [Hf7 Hh7].
  apply wp_bind. eapply (wp_set_hash _ _ _ _ _ h); [done|congruence|]. intros s8 H8 Hf8 Hh8.
  destruct h as [n|].
  - destruct Ho as [bn Hbn]. eapply (wp_set_ph _ _ _ _ bn); [done..|]. intros s9 H9 [Hf9 Hh9].
    apply HQ; [exact H9|congruence..].
  - eapply wp_set_null; [done|]. intros s9 H9 [Hf9 Hh9]. apply HQ; [exact H9|congruence..].
Qed.

(** ** The invariant of the cache *)
Definition NHASH : nat := 307.
Record links_ok (s : fs) (fl : list nat) (ch : nat -> list nat) (L : links) : Prop := {
  ok_ring : ring (nf L) (pf L) fl;
  ok_nodup : NoDup fl;
  ok_free : hd_error fl = Some (free_list s);
  ok_hash : length (hash_table s) = NHASH;
  ok_chain h : (h < NHASH)%nat -> hash_table s !! h = Some (hd_error (ch h)) /\ NoDup (ch h) /\ seg (nh L) (ph L) None (ch h) None
}.
Record cache_ok (s : fs) (fl : list nat) (ch : nat -> list nat) : Prop := {
  ok_links : exists L, rep s L s /\ links_ok s fl ch L /\
    (forall i b, bufs s !! i = Some b -> b_dev b = 0 -> nh L i = None /\ ph L i = None);
  ok_all i : i ∈ fl <-> is_Some (bufs s !! i);
  ok_many : (1 < length fl)%nat;
  ok_chained h i : (h < NHASH)%nat ->
    i ∈ ch h <-> exists b, bufs s !! i = Some b /\ b_dev b <> 0 /\ hashfn (b_dev b) (b_blocknr b) = h;
  ok_unique i j b c : bufs s !! i = Some b -> bufs s !! j = Some c -> b_dev b <> 0 -> b_dev b = b_dev c ->
    b_blocknr b = b_blocknr c -> i = j;
  ok_range i b : bufs s !! i = Some b -> 0 <= b_dev b < 65536 /\ 0 <= b_blocknr b < 4294967296 /\
    0 <= b_count b < 256 /\ 0 <= b_dirt b < 256 /\ length (b_data b) = 1024%nat
}.

Lemma hashfn_bound dev block : (hashfn dev block < NHASH)%nat.
Proof. unfold hashfn, NHASH, NR_HASH. pose proof (Z.mod_pos_bound (u32 (Z.lxor dev block)) 307 ltac:(lia)). lia. Qed.

(** Buffer [bh] is at the end of the free list, and in the chain of its hash only. *)
Definition without (bh : nat) (l : list nat) : list nat := filter (fun i => i <> bh) l.
Lemma without_id bh l : bh ∉ l -> without bh l = l.
Proof.
  unfold without. induction l as [|i l IH]; intros H; [done|]. apply not_elem_of_cons in H as [H1 H2].
  rewrite filter_cons_True by congruence. by rewrite IH.
Qed.
Lemma without_split bh l1 l2 : NoDup (l1 ++ bh :: l2) -> without bh (l1 ++ bh :: l2) = l1 ++ l2.
Proof.
  intros H. apply NoDup_app in H as (H1 & H2 & H3). apply NoDup_cons in H3 as [H3 H4].
  unfold without. rewrite filter_app, filter_cons_False by tauto. fold (without bh l1) (without bh l2).
  rewrite !without_id; [done|done|]. intros Hin. apply (H2 bh Hin). left.
Qed.
Lemma without_elem bh l i : i ∈ without bh l <-> i <> bh /\ i ∈ l.
Proof. unfold without. by rewrite list_elem_of_filter. Qed.

Definition disjoint_chains (ch : nat -> list nat) : Prop :=
  forall h1 h2 i, (h1 < NHASH)%nat -> (h2 < NHASH)%nat -> i ∈ ch h1 -> i ∈ ch h2 -> h1 = h2.

Lemma remove_chains s fl ch L bh h0 : links_ok s fl ch L -> disjoint_chains ch -> (h0 < NHASH)%nat ->
  (forall h, (h < NHASH)%nat -> bh ∈ ch h -> h = h0) ->
  (bh ∈ ch h0 \/ nh L bh = None /\ ph L bh = None) ->
  forall T, T = (if bool_decide (hd_error (ch h0) = Some bh) then <[h0 := nh L bh]> (hash_table s) else hash_table s) ->
  length T = NHASH /\ (forall i, ph L bh = Some i \/ nh L bh = Some i -> i ∈ ch h0) /\ ph L bh <> Some bh /\ nh L bh <> Some bh /\
  forall h, (h < NHASH)%nat -> T !! h = Some (hd_error (without bh (ch h))) /\ NoDup (without bh (ch h)) /\
    seg (relink_next (ph L bh) (nh L bh) (nh L)) (relink_next (nh L bh) (ph L bh) (ph L)) None (without bh (ch h)) None.
Proof.
  intros Hok Hdis Hh0 Honly Hin T ->. destruct (ok_chain _ _ _ _ Hok h0 Hh0) as (C1 & C2 & C3).
  destruct (decide (bh ∈ ch h0)) as [Hbh|Hbh].
  - apply list_elem_of_split in Hbh as (m1 & m2 & Em). rewrite Em in *.
    destruct (chain_remove _ _ _ _ _ C2 C3) as (E1 & E2 & C4). rewrite E1, E2.
    assert (bh ∉ m1 /\ bh ∉ m2) as [Hm1 Hm2].
    { apply NoDup_app in C2 as (_ & D1 & D2). apply NoDup_cons in D2 as [D2 _]. split; [|done].
      intros Hi. apply (D1 bh Hi). left. }
    assert (forall i, last m1 = Some i \/ hd_error m2 = Some i -> i ∈ m1 ++ bh :: m2 /\ i <> bh) as Hends.
    { intros i [Hi|Hi].
      - apply last_Some_elem_of in Hi. split; [set_solver|]. by intros ->.
      - apply head_Some_elem_of in Hi. split; [set_solver|]. by intros ->. }
    split; [by destruct (bool_decide _); rewrite ?length_insert; apply (ok_hash _ _ _ _ Hok)|].
    split; [intros i Hi; by apply Hends|]. split; [intros Hl; by apply (Hends bh); [left|]|].
    split; [intros Hl; by apply (Hends bh); [right|]|]. intros h Hh. destruct (decide (h = h0)) as [->|Hne].
    + rewrite Em. rewrite without_split by done. split; [|split; [|done]].
      * destruct m1 as [|i m1]; cbn [app hd_error] in *.
        -- rewrite bool_decide_true by done. rewrite list_lookup_insert_eq; [done|]. rewrite (ok_hash _ _ _ _ Hok). exact Hh0.
        -- rewrite bool_decide_false; [exact C1|]. intros [= ->]. apply Hm1. left.
      * apply NoDup_app in C2 as (D0 & D1 & D2). apply NoDup_cons in D2 as [_ D2]. apply NoDup_app.
        split; [done|]. split; [|done]. intros i Hi Hi2. apply (D1 i Hi). by right.
    + destruct (ok_chain _ _ _ _ Hok h Hh) as (B1 & B2 & B3).
      assert (forall i, i ∈ m1 ++ bh :: m2 -> i ∉ ch h) as Hout.
      { intros i Hi Hi2. apply Hne. apply (Hdis h h0 i); [done..|]. by rewrite Em. }
      rewrite without_id by (apply Hout; set_solver). split; [|split; [done|]].
      * destruct (bool_decide _); [|done]. by rewrite list_lookup_insert_ne.
      * revert B3. apply seg_ext. intros i Hi. unfold relink_next.
        split; [destruct (last m1) as [j|] eqn:Ej|destruct (hd_error m2) as [j|] eqn:Ej]; try done; apply fset_ne; intros ->;
          apply (Hout j); [|done| |done]; apply Hends; [by left|by right].
  - destruct Hin as [?|[E1 E2]]; [done|]. rewrite E1, E2. cbn [relink_next].
    assert (forall h, (h < NHASH)%nat -> bh ∉ ch h) as Hno by (intros h Hh Hi; apply Hbh; by rewrite <- (Honly h Hh Hi)).
    rewrite bool_decide_false; [|intros Hd; apply head_Some_elem_of in Hd; done].
    split; [apply (ok_hash _ _ _ _ Hok)|]. split; [by intros i [?|?]|]. do 2 (split; [done|]).
    intros h Hh. rewrite without_id by by apply Hno. by apply (ok_chain _ _ _ _ Hok h).
Qed.

Lemma remove_queues_ok s fl ch L bh b0 l1 l2 :
  rep s L s -> links_ok s fl ch L -> disjoint_chains ch -> bufs s !! bh = Some b0 -> fl = l1 ++ bh :: l2 -> (1 < length fl)%nat ->
  (forall i, i ∈ fl -> is_Some (bufs s !! i)) -> (forall h i, (h < NHASH)%nat -> i ∈ ch h -> i ∈ fl) ->
  (forall h, (h < NHASH)%nat -> bh ∈ ch h -> h = hashfn (b_dev b0) (b_blocknr b0)) ->
  (bh ∈ ch (hashfn (b_dev b0) (b_blocknr b0)) \/ nh L bh = None /\ ph L bh = None) ->
  wp (remove_from_queues bh) (fun _ s' => exists L', rep s L' s' /\
    links_ok s' (l1 ++ l2) (fun h => without bh (ch h)) L' /\
    (forall i, i ∉ ch (hashfn (b_dev b0) (b_blocknr b0)) -> nh L' i = nh L i /\ ph L' i = ph L i)) s.
Proof.
  intros Hr Hok Hdis Hb -> Hlen Hall Hch Honly Hin. pose proof (hashfn_bound (b_dev b0) (b_blocknr b0)) as Hh0.
  set (h0 := hashfn (b_dev b0) (b_blocknr b0)) in *.
  destruct (remove_chains _ _ _ _ bh h0 Hok Hdis Hh0 Honly Hin _ eq_refl) as (T1 & T2 & T3 & T4 & T5).
  destruct (ok_chain _ _ _ _ Hok h0 Hh0) as (C1 & _ & _).
  pose proof (ok_nodup _ _ _ _ Hok) as Hn.
  assert (NoDup (bh :: l2 ++ l1)) as Hn' by (eapply (NoDup_Permutation_proper); [|exact Hn]; rewrite (Permutation_app_comm l1 _); done).
  apply NoDup_cons in Hn' as [Hbh Hn'].
  assert (l2 ++ l1 <> []) as Hne by (destruct l1, l2; cbn in Hlen; try done; lia).
  destruct (hd_error (l2 ++ l1)) as [n|] eqn:En; [|by apply head_None in En].
  destruct (last (l2 ++ l1)) as [p|] eqn:Ep; [|by apply last_None in Ep].
  destruct (ring_remove (nf L) (pf L) bh (l2 ++ l1) n p Hn' En Ep) as (R1 & R2 & R3).
  { change (bh :: l2 ++ l1) with ((bh :: l2) ++ l1). apply ring_rotate, (ok_ring _ _ _ _ Hok). }
  apply head_Some_elem_of in En as Hn1. apply last_Some_elem_of in Ep as Hp1.
  assert (forall i, i ∈ l2 ++ l1 -> i ∈ l1 ++ bh :: l2) as Hsub by (intros i; set_solver).
  assert (forall o, (forall i, o = Some i -> i ∈ ch h0) -> here s o) as Hhere.
  { intros [i|] Ho; [|done]. cbn. apply Hall, (Hch h0); [done|]. by apply Ho. }
  eapply (remove_run s L s bh b0 p n (hd_error (ch h0))); try done.
  - apply Hall; by auto.
  - apply Hall; by auto.
  - by intros ->.
  - by intros ->.
  - apply Hhere. intros i Hi. apply T2. by left.
  - apply Hhere. intros i Hi. apply T2. by right.
  - fold h0. intros s' Hr' Hf' Hh'. exists (remove_links p n (ph L bh) (nh L bh) L). split; [done|].
    assert (forall A (P : (nat -> option nat) -> (nat -> option nat) -> A), 
      P (nh (remove_links p n (ph L bh) (nh L bh) L)) (ph (remove_links p n (ph L bh) (nh L bh) L)) =
      P (relink_next (ph L bh) (nh L bh) (nh L)) (relink_next (nh L bh) (ph L bh) (ph L))) as Eh.
    { intros A P. unfold remove_links. by destruct (ph L bh), (nh L bh). }
    assert (forall A (P : (nat -> option nat) -> (nat -> option nat) -> A), 
      P (nf (remove_links p n (ph L bh) (nh L bh) L)) (pf (remove_links p n (ph L bh) (nh L bh) L)) =
      P (fset p (Some n) (nf L)) (fset n (Some p) (pf L))) as Ef.
    { intros A P. unfold remove_links. by destruct (ph L bh), (nh L bh). }
    split.
    2:{ intros i Hi. rewrite (Eh _ (fun nx pv => nx i = nh L i /\ pv i = ph L i)). fold h0 in Hi.
        split; [destruct (ph L bh) eqn:E|destruct (nh L bh) eqn:E]; cbn; try done; apply fset_ne; intros ->; apply Hi, T2; auto. }
    constructor.
    + rewrite Ef. by apply ring_rotate.
    + eapply NoDup_Permutation_proper; [apply Permutation_app_comm|done].
    + rewrite Hf'. pose proof (ok_free _ _ _ _ Hok) as Hfree. destruct l1 as [|x l1]; cbn [app hd_error] in *.
      * injection Hfree as <-. rewrite Nat.eqb_refl. by rewrite app_nil_r in En.
      * injection Hfree as <-. rewrite (proj2 (Nat.eqb_neq _ _)); [done|]. intros ->. apply Hbh. set_solver.
    + by rewrite Hh'.
    + intros h Hh. rewrite (Eh _ (fun nx pv => seg nx pv None (without bh (ch h)) None)). rewrite Hh'. by apply T5.
Qed.

Lemma insert_queues_ok s fl ch L bh b0 (h0 := hashfn (b_dev b0) (b_blocknr b0)) :
  rep s L s -> links_ok s fl ch L -> disjoint_chains ch -> bufs s !! bh = Some b0 -> bh ∉ fl -> b_dev b0 <> 0 ->
  (forall i, i ∈ fl -> is_Some (bufs s !! i)) -> (forall h i, (h < NHASH)%nat -> i ∈ ch h -> i ∈ fl) ->
  wp (insert_into_queues bh) (fun _ s' => exists L', rep s L' s' /\
    links_ok s' (fl ++ [bh]) (fun h => if Nat.eqb h h0 then bh :: ch h else ch h) L' /\
    (forall i, i ∉ bh :: ch h0 -> nh L' i = nh L i /\ ph L' i = ph L i)) s.
Proof.
  intros Hr Hok Hdis Hb Hbh Hdev Hall Hch. pose proof (hashfn_bound (b_dev b0) (b_blocknr b0)) as Hh0. fold h0 in Hh0.
  destruct (ok_chain _ _ _ _ Hok h0 Hh0) as (C1 & C2 & C3).
  assert (bh ∉ ch h0) as Hbc by (intros Hi; apply Hbh; by apply (Hch h0)).
  pose proof (ok_free _ _ _ _ Hok) as Ef. set (f := free_list s) in *.
  assert (exists p, last fl = Some p) as [p Ep] by (destruct (last fl) eqn:Ep; [eauto|]; apply last_None in Ep; by subst).
  assert (f ∈ fl) as Hf by (by apply head_Some_elem_of). assert (p ∈ fl) as Hp by (by apply last_Some_elem_of).
  assert (pf L f = Some p) as Epf.
  { pose proof (ok_ring _ _ _ _ Hok) as Hring. unfold ring in Hring. rewrite Ep in Hring.
    destruct fl as [|x fl]; [done|]. injection Ef as ->. by destruct Hring. }
  eapply (insert_run s L s bh b0 f p (hd_error (ch h0))); try done.
  - by apply Hall.
  - by apply Hall.
  - by intros ->.
  - by intros ->.
  - destruct (hd_error (ch h0)) as [i|] eqn:Ei; [|done]. cbn. apply Hall, (Hch h0); [done|]. by apply head_Some_elem_of.
  - fold h0. intros s' Hr' Hf' Hh'. rewrite (proj2 (Z.eqb_neq _ _)) in Hh', Hr' by done. cbn [negb] in Hr'.
    set (L' := insert_links bh f p (hd_error (ch h0)) true L) in *. exists L'. split; [done|].
    assert (forall i, nh L' i = fset bh (hd_error (ch h0)) (nh L) i) as En.
    { intros i. unfold L', insert_links. assert (forall v, fset bh v (fset bh None (nh L)) i = fset bh v (nh L) i) as E
        by (intros v; unfold fset; by destruct (Nat.eqb i bh)). destruct (hd_error (ch h0)); cbn; apply E. }
    assert (forall i, ph L' i = relink_next (hd_error (ch h0)) (Some bh) (fset bh None (ph L)) i) as Epp.
    { intros i. unfold L', insert_links. by destruct (hd_error (ch h0)). }
    assert (nf L' = fset p (Some bh) (fset bh (Some f) (nf L)) /\ pf L' = fset f (Some bh) (fset bh (Some p) (pf L))) as [Enf Epf'].
    { unfold L', insert_links. by destruct (hd_error (ch h0)). }
    assert (forall i, i ∉ bh :: ch h0 -> nh L' i = nh L i /\ ph L' i = ph L i) as Hsame.
    { intros i Hi. apply not_elem_of_cons in Hi as [Hi1 Hi2]. rewrite En, Epp, fset_ne by done. split; [done|].
      unfold relink_next. destruct (hd_error (ch h0)) as [j|] eqn:Ej; [|by apply fset_ne].
      rewrite fset_ne; [by apply fset_ne|]. intros ->. apply Hi2. by apply head_Some_elem_of. }
    split; [|exact Hsame]. constructor.
    + rewrite Enf, Epf'. apply ring_insert; [apply (ok_nodup _ _ _ _ Hok)|done..|apply (ok_ring _ _ _ _ Hok)].
    + apply NoDup_app. split; [apply (ok_nodup _ _ _ _ Hok)|]. split; [|apply NoDup_singleton].
      intros i Hi Hi2. apply list_elem_of_singleton in Hi2 as ->. done.
    + rewrite Hf'. by destruct fl.
    + rewrite Hh', length_insert. apply (ok_hash _ _ _ _ Hok).
    + intros h Hh. rewrite Hh'. destruct (Nat.eqb_spec h h0) as [->|Hne].
      * rewrite list_lookup_insert_eq by (by rewrite (ok_hash _ _ _ _ Hok)). split; [done|].
        split; [by apply NoDup_cons|]. pose proof (chain_insert _ _ bh _ Hbc C2 C3) as Hs. revert Hs.
        apply seg_ext. intros i _. by rewrite En, Epp.
      * rewrite list_lookup_insert_ne by done. destruct (ok_chain _ _ _ _ Hok h Hh) as (B1 & B2 & B3).
        split; [done|]. split; [done|]. revert B3. apply seg_ext. intros i Hi. apply Hsame. intros Hin.
        apply elem_of_cons in Hin as [->|Hin]; [by apply Hbh, (Hch h)|]. by apply Hne, (Hdis h h0 i).
Qed.

Lemma rep_self s0 L s : rep s0 L s -> rep s L s.
Proof. intros [R1 R2 R3]. constructor; [done|done|]. by destruct s. Qed.
Lemma rep_core_at s0 L s i b : rep s0 L s -> bufs s !! i = Some b -> exists b0, bufs s0 !! i = Some b0 /\ core b = core b0.
Proof.
  intros [_ R2 _] Hb. specialize (R2 i). rewrite Hb in R2. destruct (bufs s0 !! i) as [b0|]; [|done].
  apply (inj Some) in R2. by exists b0.
Qed.
Lemma rep_is_some s0 L s i : rep s0 L s -> is_Some (bufs s !! i) <-> is_Some (bufs s0 !! i).
Proof. intros [_ R2 _]. specialize (R2 i). by rewrite <- (fmap_is_Some core), R2, fmap_is_Some. Qed.

(** What the cache's lists are made of in a buffer. *)
Definition linkof (b : buffer_head) : option nat * option nat * option nat * option nat :=
  (b_next_free b, b_prev_free b, b_next b, b_prev b).
Lemma rep_linkof s s' L : (forall i, linkof <$> bufs s' !! i = linkof <$> bufs s !! i) -> rep s L s -> rep s' L s'.
Proof.
  intros Hk [R1 _ _]. constructor; [|done|by destruct s'].
  intros i b' Hb'. specialize (Hk i). rewrite Hb' in Hk. destruct (bufs s !! i) as [b|] eqn:Hb; [|done].
  apply (inj Some) in Hk. destruct (R1 i b Hb) as (E1 & E2 & E3 & E4). injection Hk as K3 K4 K5 K6.
  unfold linked_as. by rewrite K3, K4, K5, K6.
Qed.
Definition keyed (b : buffer_head) : Z * Z * (option nat * option nat * option nat * option nat) :=
  (b_dev b, b_blocknr b, linkof b).
Definition in_range (b : buffer_head) : Prop :=
  0 <= b_dev b < 65536 /\ 0 <= b_blocknr b < 4294967296 /\ 0 <= b_count b < 256 /\ 0 <= b_dirt b < 256 /\
  length (b_data b) = 1024%nat.
Lemma cache_ok_keyed s s' fl ch : cache_ok s fl ch ->
  (forall i, keyed <$> bufs s' !! i = keyed <$> bufs s !! i) ->
  (forall i b, bufs s' !! i = Some b -> in_range b) -> same_heads s s' -> cache_ok s' fl ch.
Proof.
  intros Hok Hk Hrange [Hf Hh].
  assert (forall i b', bufs s' !! i = Some b' -> exists b, bufs s !! i = Some b /\ keyed b' = keyed b) as Hback.
  { intros i b' Hb'. specialize (Hk i). rewrite Hb' in Hk. destruct (bufs s !! i) as [b|]; [|done].
    apply (inj Some) in Hk. by exists b. }
  assert (forall i b, bufs s !! i = Some b -> exists b', bufs s' !! i = Some b' /\ keyed b' = keyed b) as Hforth.
  { intros i b Hb. specialize (Hk i). rewrite Hb in Hk. destruct (bufs s' !! i) as [b'|]; [|done].
    apply (inj Some) in Hk. by exists b'. }
  destruct (ok_links _ _ _ Hok) as (L & H1 & H2 & H3). constructor.
  - exists L. split.
    { apply (rep_linkof s); [|done]. intros i. specialize (Hk i). destruct (bufs s' !! i), (bufs s !! i); try done.
      apply (inj Some) in Hk. exact (f_equal (fun x => Some (snd x)) Hk). } split.
    + destruct H2. constructor; rewrite ?Hf, ?Hh; done.
    + intros i b' Hb' Hd. destruct (Hback i b' Hb') as (b & Hb & E). injection E as E1 _. apply (H3 i b Hb). congruence.
  - intros i. rewrite (ok_all _ _ _ Hok). specialize (Hk i). rewrite <- !(fmap_is_Some keyed). by rewrite Hk.
  - apply (ok_many _ _ _ Hok).
  - intros h i Hi. rewrite (ok_chained _ _ _ Hok h i Hi). split.
    + intros (b & Hb & Hd & <-). destruct (Hforth i b Hb) as (b' & Hb' & E). injection E as E1 E2 _ _ _ _.
      exists b'. split; [done|]. by rewrite E1, E2.
    + intros (b' & Hb' & Hd & <-). destruct (Hback i b' Hb') as (b & Hb & E). injection E as E1 E2 _ _ _ _.
      exists b. split; [done|]. by rewrite <- E1, <- E2.
  - intros i j b c Hb Hc Hd E1 E2. destruct (Hback i b Hb) as (b' & Hb' & E). destruct (Hback j c Hc) as (c' & Hc' & E').
    injection E as F1 F2 _ _ _ _. injection E' as G1 G2 _ _ _ _. apply (ok_unique _ _ _ Hok i j b' c'); congruence.
  - exact Hrange.
Qed.

(** Of the variables only those of the cache change. *)
Definition cache_only (s s' : fs) : Prop :=
  s' = s <| bufs := bufs s' |> <| free_list := free_list s' |> <| hash_table := hash_table s' |> <| null_b_prev := null_b_prev s' |>.
Lemma cache_only_trans s1 s2 s3 : cache_only s1 s2 -> cache_only s2 s3 -> cache_only s1 s3.
Proof. unfold cache_only. intros -> ->. by destruct s1. Qed.
Lemma rep_cache_only s0 L s : rep s0 L s -> cache_only s0 s.
Proof. intros [_ _ R3]. exact R3. Qed.
Lemma cache_disjoint s fl ch : cache_ok s fl ch -> disjoint_chains ch.
Proof.
  intros Hok h1 h2 i H1 H2 Hi1 Hi2. rewrite (ok_chained _ _ _ Hok) in Hi1, Hi2 by done.
  destruct Hi1 as (b & Hb & _ & <-), Hi2 as (c & Hc & _ & <-). rewrite Hb in Hc. by injection Hc as ->.
Qed.
Lemma cache_chain_in s fl ch h i : cache_ok s fl ch -> (h < NHASH)%nat -> i ∈ ch h -> i ∈ fl.
Proof. intros Hok Hh Hi. rewrite (ok_chained _ _ _ Hok) in Hi by done. destruct Hi as (b & Hb & _). rewrite (ok_all _ _ _ Hok). eauto. Qed.

(** The buffer is given to block [block] of device [dev]. *)
Definition fresh (dev block : Z) (b : buffer_head) : buffer_head :=
  b <| b_count := 1 |> <| b_dirt := 0 |> <| b_uptodate := 0 |> <| b_dev := u16 dev |> <| b_blocknr := u32 block |>.
Lemma fresh_core dev block b b2 : core b2 = core (b <| b_count := 1 |> <| b_dirt := 0 |> <| b_uptodate := 0 |>) ->
  core (b2 <| b_dev := u16 dev |> <| b_blocknr := u32 block |>) = core (fresh dev block b).
Proof.
  intros E. apply buffer_core_fields in E as (E1 & E2 & E3 & E4 & E5 & E6 & E7).
  apply core_intro; [exact E1|reflexivity|reflexivity|exact E4|exact E5|exact E6|exact E7].
Qed.
Definition reassign (bh : nat) (dev block : Z) : M fs unit :=
  mod_buf bh (fun b => b <| b_count := 1 |> <| b_dirt := 0 |> <| b_uptodate := 0 |>) ;;;
  remove_from_queues bh ;;;
  mod_buf bh (fun b => b <| b_dev := u16 dev |> <| b_blocknr := u32 block |>) ;;;
  insert_into_queues bh.

(** The buffer out of the queues, [s1] being the state in which it was taken. *)
Lemma detach_run {A} (k : M fs A) Q s fl ch bh b0 (b1 := b0 <| b_count := 1 |> <| b_dirt := 0 |> <| b_uptodate := 0 |>) (s1 := s <| bufs ::= <[bh := b1]> |>) :
  cache_ok s fl ch -> bufs s !! bh = Some b0 ->
  (forall s2 L2 l1 l2, fl = l1 ++ bh :: l2 -> bh ∉ l1 ++ l2 -> rep s1 L2 s2 -> links_ok s2 (l1 ++ l2) (fun h => without bh (ch h)) L2 ->
    (forall i, is_Some (bufs s2 !! i) <-> is_Some (bufs s !! i)) ->
    (forall i b, i <> bh -> bufs s1 !! i = Some b -> b_dev b = 0 -> nh L2 i = None /\ ph L2 i = None) -> wp k Q s2) ->
  wp (mod_buf bh (fun b => b <| b_count := 1 |> <| b_dirt := 0 |> <| b_uptodate := 0 |>) ;;; remove_from_queues bh ;;; k) Q s.
Proof.
  intros Hok Hb Hnext. apply wp_bind. unfold wp at 1. rewrite (mod_buf_run s bh b0 _ Hb). fold b1. fold s1. pose proof (lookup_lt_Some _ _ _ Hb) as Hlt.
  assert (bufs s1 !! bh = Some b1) as Hb1 by (cbn; by rewrite list_lookup_insert_eq).
  assert (forall i, i <> bh -> bufs s1 !! i = bufs s !! i) as Hs1 by (intros i Hi; cbn; by rewrite list_lookup_insert_ne).
  destruct (ok_links _ _ _ Hok) as (L & R & Lok & Hnone).
  assert (rep s1 L s1) as R1.
  { apply (rep_linkof s); [|done]. intros i. destruct (decide (i = bh)) as [->|Hne]; [by rewrite Hb1, Hb|by rewrite Hs1]. }
  assert (links_ok s1 fl ch L) as Lok1 by (destruct Lok; by constructor).
  assert (bh ∈ fl) as Hin by (rewrite (ok_all _ _ _ Hok); eauto).
  apply list_elem_of_split in Hin as (l1 & l2 & Efl).
  assert (forall i, is_Some (bufs s1 !! i) <-> is_Some (bufs s !! i)) as Hsome1.
  { intros i. destruct (decide (i = bh)) as [->|Hne]; [|by rewrite Hs1]. rewrite Hb1, Hb. split; eauto. }
  apply wp_bind. eapply wp_mono; [apply (remove_queues_ok s1 fl ch L bh b1 l1 l2); try done|].
  { by apply (cache_disjoint s fl). }
  { by apply (ok_many _ _ _ Hok). }
  { intros i Hi. rewrite Hsome1. by rewrite <- (ok_all _ _ _ Hok). }
  { intros h i Hh Hi. by apply (cache_chain_in s fl ch h). }
  { intros h Hh Hi. rewrite (ok_chained _ _ _ Hok) in Hi by done. destruct Hi as (b & Hb' & _ & <-).
    rewrite Hb in Hb'. by injection Hb' as <-. }
  { change (b_dev b1) with (b_dev b0). change (b_blocknr b1) with (b_blocknr b0).
    destruct (decide (b_dev b0 = 0)) as [Hd|Hd]; [right; by apply (Hnone bh b0)|].
    left. rewrite (ok_chained _ _ _ Hok) by apply hashfn_bound. eauto. }
  cbv beta. intros [] s2 (L2 & R2 & Lok2 & Hout2). apply (Hnext s2 L2 l1 l2); try done.
  - pose proof (ok_nodup _ _ _ _ Lok) as Hn. rewrite Efl in Hn. rewrite <- (without_split bh l1 l2) by done. rewrite without_elem. tauto.
  - intros i. by rewrite (rep_is_some s1 L2 s2 i R2).
  - intros i b Hi Hbi Hd. rewrite Hs1 in Hbi by done. destruct (Hnone i b Hbi Hd) as [N1 N2]. destruct (Hout2 i) as [-> ->]; [|done].
    intros Hin. rewrite (ok_chained _ _ _ Hok) in Hin by apply hashfn_bound. destruct Hin as (b' & Hb' & Hd' & _). congruence.
Qed.
Lemma reassign_run s fl ch bh b0 dev block : cache_ok s fl ch -> bufs s !! bh = Some b0 -> 0 < dev < 65536 -> 0 <= block < 4294967296 ->
  wp (reassign bh dev block) (fun _ s4 => cache_only s s4 /\
    (exists b4, bufs s4 !! bh = Some b4 /\ core b4 = core (fresh dev block b0)) /\
    (forall i, i <> bh -> core <$> bufs s4 !! i = core <$> bufs s !! i) /\
    exists l1 l2 L4, fl = l1 ++ bh :: l2 /\ rep s4 L4 s4 /\
      links_ok s4 ((l1 ++ l2) ++ [bh]) (fun h => if Nat.eqb h (hashfn dev block) then bh :: without bh (ch h) else without bh (ch h)) L4 /\
      (forall i b, i <> bh -> bufs s4 !! i = Some b -> b_dev b = 0 -> nh L4 i = None /\ ph L4 i = None)) s.
Proof.
  intros Hok Hb Hdev Hblock. unfold reassign.
  apply (detach_run _ _ s fl ch bh b0 Hok Hb). intros s2 L2 l1 l2 Efl Hbh R2 Lok2 Hsome2 Hnone2.
  set (b1 := b0 <| b_count := 1 |> <| b_dirt := 0 |> <| b_uptodate := 0 |>) in *. set (s1 := s <| bufs ::= <[bh := b1]> |>) in *.
  pose proof (lookup_lt_Some _ _ _ Hb) as Hlt. assert (bufs s1 !! bh = Some b1) as Hb1 by (cbn; by rewrite list_lookup_insert_eq).
  assert (forall i, i <> bh -> bufs s1 !! i = bufs s !! i) as Hs1 by (intros i Hi; cbn; by rewrite list_lookup_insert_ne).
  destruct (rep_get s1 L2 s2 bh b1 R2 Hb1) as (b2 & Hb2 & Ec2 & _).
  apply wp_bind. unfold wp at 1. rewrite (mod_buf_run s2 bh b2 _ Hb2).
  set (b3 := b2 <| b_dev := u16 dev |> <| b_blocknr := u32 block |>). set (s3 := s2 <| bufs ::= <[bh := b3]> |>).
  pose proof (lookup_lt_Some _ _ _ Hb2) as Hlt2.
  assert (bufs s3 !! bh = Some b3) as Hb3 by (cbn; by rewrite list_lookup_insert_eq).
  assert (forall i, i <> bh -> bufs s3 !! i = bufs s2 !! i) as Hs3 by (intros i Hi; cbn; by rewrite list_lookup_insert_ne).
  assert (rep s3 L2 s3) as R3.
  { apply (rep_linkof s2); [|by apply (rep_self s1)]. intros i. destruct (decide (i = bh)) as [->|Hne]; [by rewrite Hb3, Hb2|by rewrite Hs3]. }
  assert (links_ok s3 (l1 ++ l2) (fun h => without bh (ch h)) L2) as Lok3 by (destruct Lok2; by constructor).
  assert (b_dev b3 = dev /\ b_blocknr b3 = block) as [Ed3 En3].
  { change (u16 dev = dev /\ u32 block = block). unfold u16. rewrite u32_id by lia. by rewrite Z.mod_small by lia. }
  assert (forall i, is_Some (bufs s3 !! i) <-> is_Some (bufs s !! i)) as Hsome3.
  { intros i. rewrite <- Hsome2. destruct (decide (i = bh)) as [->|Hne]; [|by rewrite Hs3]. rewrite Hb3, Hb2. split; eauto. }
  assert (forall i, i ∈ l1 ++ l2 -> i ∈ fl) as Hsub by (intros i; rewrite Efl; set_solver).
  assert (forall h i, (h < NHASH)%nat -> i ∈ without bh (ch h) -> i ∈ l1 ++ l2) as Hch3.
  { intros h i Hh Hi. rewrite without_elem in Hi. destruct Hi as [Hi1 Hi2]. apply (cache_chain_in s fl ch h) in Hi2; [|done..].
    rewrite Efl in Hi2. set_solver. }
  eapply wp_mono; [apply (insert_queues_ok s3 (l1 ++ l2) (fun h => without bh (ch h)) L2 bh b3); try done|].
  { intros h h' i Hh Hh' Hi Hi'. cbv beta in Hi, Hi'. rewrite without_elem in Hi, Hi'. apply (cache_disjoint s fl ch Hok h h' i); tauto. }
  { rewrite Ed3. lia. }
  { intros i Hi. rewrite Hsome3, <- (ok_all _ _ _ Hok). by apply Hsub. }
  cbv beta zeta. rewrite Ed3, En3. intros [] s4 (L4 & R4 & Lok4 & Hout4).
  assert (forall i, i <> bh -> core <$> bufs s4 !! i = core <$> bufs s !! i) as Hcore.
  { intros i Hi. rewrite (rep_core _ _ _ R4), Hs3, (rep_core _ _ _ R2), Hs1 by done. done. }
  split; [|split; [|split; [done|]]].
  - apply (cache_only_trans _ s1); [by destruct s|]. apply (cache_only_trans _ s2); [by apply (rep_cache_only _ L2)|].
    apply (cache_only_trans _ s3); [by destruct s2|]. by apply (rep_cache_only _ L4).
  - destruct (rep_get s3 L4 s4 bh b3 R4 Hb3) as (b4 & Hb4 & Ec4 & _). exists b4. split; [done|]. rewrite Ec4.
    by apply fresh_core.
  - exists l1, l2, L4. split; [done|]. split; [by apply (rep_self s3)|]. split; [exact Lok4|].
    intros i b Hi Hbi Hd. destruct (rep_core_at _ _ _ _ _ R4 Hbi) as (b3' & Hb3' & Ec3). rewrite Hs3 in Hb3' by done.
    destruct (rep_core_at _ _ _ _ _ R2 Hb3') as (b1' & Hb1' & Ec1). 
    assert (b_dev b1' = 0) as Hd1.
    { apply buffer_core_fields in Ec3 as (_ & _ & Ed & _). apply buffer_core_fields in Ec1 as (_ & _ & Ed' & _). congruence. }
    destruct (Hnone2 i b1' Hi Hb1' Hd1) as [N1 N2]. destruct (Hout4 i) as [-> ->]; [|done].
    intros Hin. apply elem_of_cons in Hin as [->|Hin]; [done|]. rewrite without_elem in Hin. destruct Hin as [_ Hin].
    rewrite (ok_chained _ _ _ Hok) in Hin by apply hashfn_bound. destruct Hin as (b' & Hb' & Hd' & _).
    rewrite <- Hs1, Hb1' in Hb' by done. by injection Hb' as <-.
Qed.

Lemma chained_after s fl ch bh dev block s4 b4 : cache_ok s fl ch ->
  bufs s4 !! bh = Some b4 -> b_dev b4 = dev -> b_blocknr b4 = block -> dev <> 0 ->
  (forall i, i <> bh -> core <$> bufs s4 !! i = core <$> bufs s !! i) ->
  forall h i, (h < NHASH)%nat ->
    i ∈ (if Nat.eqb h (hashfn dev block) then bh :: without bh (ch h) else without bh (ch h)) <->
    exists b, bufs s4 !! i = Some b /\ b_dev b <> 0 /\ hashfn (b_dev b) (b_blocknr b) = h.
Proof.
  intros Hok Hb4 Hd4 Hn4 Hdev Hothers h i Hh.
  assert (i ∈ (if Nat.eqb h (hashfn dev block) then bh :: without bh (ch h) else without bh (ch h)) <->
    i = bh /\ h = hashfn dev block \/ i <> bh /\ i ∈ ch h) as ->.
  { destruct (Nat.eqb_spec h (hashfn dev block)); rewrite ?elem_of_cons, without_elem; destruct (decide (i = bh)); tauto. }
  destruct (decide (i = bh)) as [->|Hne].
  - split; [intros [[_ ->]|[? _]]; [|done]|intros (b & Hb & _ & <-); left].
    + exists b4. rewrite Hd4, Hn4. done.
    + rewrite Hb4 in Hb. injection Hb as <-. by rewrite Hd4, Hn4.
  - rewrite (ok_chained _ _ _ Hok) by done. specialize (Hothers i Hne). split.
    + intros [[? _]|[_ (b & Hb & Hd & <-)]]; [done|]. rewrite Hb in Hothers. destruct (bufs s4 !! i) as [b'|] eqn:Hb'; [|done].
      apply (inj Some) in Hothers. apply buffer_core_fields in Hothers as (_ & En & Ed & _). exists b'. by rewrite Ed, En.
    + intros (b & Hb & Hd & <-). right. split; [done|]. rewrite Hb in Hothers. destruct (bufs s !! i) as [b'|] eqn:Hb'; [|done].
      apply (inj Some) in Hothers. apply buffer_core_fields in Hothers as (_ & En & Ed & _). exists b'. by rewrite <- Ed, <- En.
Qed.

Definition caches (s : fs) (dev block : Z) (i : nat) : Prop :=
  exists b, bufs s !! i = Some b /\ b_dev b = dev /\ b_blocknr b = block.

(** A buffer whose block no other buffer holds can be given another block. *)
Lemma reassign_ok s fl ch bh b0 dev block : cache_ok s fl ch -> bufs s !! bh = Some b0 -> 0 < dev < 65536 -> 0 <= block < 4294967296 ->
  (forall i, ~ caches s dev block i) ->
  wp (reassign bh dev block) (fun _ s4 => cache_only s s4 /\
    (exists b4, bufs s4 !! bh = Some b4 /\ core b4 = core (fresh dev block b0)) /\
    (forall i, i <> bh -> core <$> bufs s4 !! i = core <$> bufs s !! i) /\
    exists fl' ch', cache_ok s4 fl' ch' /\ Permutation fl fl') s.
Proof.
  intros Hok Hb Hdev Hblock Hnew. eapply wp_mono; [by apply (reassign_run s fl ch bh b0 dev block)|]. cbv beta.
  intros [] s4 (H1 & (b4 & Hb4 & Ec4) & Hothers & l1 & l2 & L4 & Efl & R4 & Lok4 & Hnone). split; [done|]. split; [by exists b4|].
  split; [done|]. apply buffer_core_fields in Ec4 as (Edata & En & Ed & _ & Edirt & Ecount & _).
  change (b_dev (fresh dev block b0)) with (u16 dev) in Ed. change (b_blocknr (fresh dev block b0)) with (u32 block) in En.
  unfold u16 in Ed. rewrite Z.mod_small in Ed by lia. rewrite u32_id in En by lia.
  change (b_count (fresh dev block b0)) with 1 in Ecount. change (b_dirt (fresh dev block b0)) with 0 in Edirt.
  change (b_data (fresh dev block b0)) with (b_data b0) in Edata.
  assert (Permutation fl ((l1 ++ l2) ++ [bh])) as Hperm by (rewrite Efl; solve_Permutation).
  assert (forall i b, i <> bh -> bufs s4 !! i = Some b -> exists b', bufs s !! i = Some b' /\ core b = core b') as Hback.
  { intros i b Hi Hbi. specialize (Hothers i Hi). rewrite Hbi in Hothers. destruct (bufs s !! i) as [b'|]; [|done].
    apply (inj Some) in Hothers. by exists b'. }
  exists ((l1 ++ l2) ++ [bh]), (fun h => if Nat.eqb h (hashfn dev block) then bh :: without bh (ch h) else without bh (ch h)).
  split; [|done]. constructor.
  - exists L4. split; [done|]. split; [done|]. intros i b Hbi Hd. apply (Hnone i b); [|done..]. intros ->.
    rewrite Hb4 in Hbi. injection Hbi as <-. lia.
  - intros i. rewrite <- Hperm, (ok_all _ _ _ Hok). destruct (decide (i = bh)) as [->|Hne]; [rewrite Hb, Hb4; split; eauto|].
    rewrite <- (fmap_is_Some core (bufs s !! i)), <- (fmap_is_Some core (bufs s4 !! i)). by rewrite Hothers.
  - rewrite <- Hperm. apply (ok_many _ _ _ Hok).
  - intros h i Hh. apply (chained_after s fl ch bh dev block s4 b4); try done. lia.
  - intros i j b c Hbi Hcj Hd E1 E2. destruct (decide (i = bh)) as [->|Hi], (decide (j = bh)) as [->|Hj]; [done|..].
    + exfalso. rewrite Hb4 in Hbi. injection Hbi as <-. destruct (Hback j c Hj Hcj) as (c' & Hc' & Ec).
      apply buffer_core_fields in Ec as (_ & Ecn & Ecd & _). apply (Hnew j). exists c'. split; [done|]. split; congruence.
    + exfalso. rewrite Hb4 in Hcj. injection Hcj as <-. destruct (Hback i b Hi Hbi) as (c' & Hc' & Ec).
      apply buffer_core_fields in Ec as (_ & Ecn & Ecd & _). apply (Hnew i). exists c'. split; [done|]. split; congruence.
    + destruct (Hback i b Hi Hbi) as (b' & Hb' & Ec). destruct (Hback j c Hj Hcj) as (c' & Hc' & Ec').
      apply buffer_core_fields in Ec as (_ & Ecn & Ecd & _). apply buffer_core_fields in Ec' as (_ & Ecn' & Ecd' & _).
      apply (ok_unique _ _ _ Hok i j b' c'); congruence.
  - intros i b Hbi. destruct (decide (i = bh)) as [->|Hi].
    + rewrite Hb4 in Hbi. injection Hbi as <-. rewrite Ed, En, Ecount, Edirt, Edata.
      pose proof (ok_range _ _ _ Hok bh b0 Hb). repeat split; try lia.
    + destruct (Hback i b Hi Hbi) as (b' & Hb' & Ec). apply buffer_core_fields in Ec as (E1 & E2 & E3 & E4 & E5 & E6 & E7).
      rewrite E1, E2, E3, E5, E6. by apply (ok_range _ _ _ Hok i).
Qed.

(** ** Looking a buffer up *)
Lemma seg_suffix nx pv p l1 i l2 q : seg nx pv p (l1 ++ i :: l2) q -> nx i = hd_or q l2.
Proof. rewrite seg_app. cbn [seg]. tauto. Qed.
Lemma length_chain s fl ch h : cache_ok s fl ch -> (h < NHASH)%nat -> (length (ch h) <= length (bufs s))%nat.
Proof.
  intros Hok Hh. destruct (ok_links _ _ _ Hok) as (L & _ & Lok & _). destruct (ok_chain _ _ _ _ Lok h Hh) as (_ & Hn & _).
  rewrite <- (length_seq (length (bufs s)) 0). apply NoDup_incl_length; [by apply NoDup_ListNoDup|].
  intros i Hi. apply list_elem_of_In in Hi. apply (cache_chain_in s fl ch) in Hi; [|done..]. rewrite (ok_all _ _ _ Hok) in Hi.
  apply lookup_lt_is_Some in Hi. apply in_seq. lia.
Qed.

Section Lookup.
Context {E : Env} (s : fs) (fl : list nat) (ch : nat -> list nat).
Hypothesis (Hok : cache_ok s fl ch).

Definition wanted (dev block : Z) (b : buffer_head) : bool := (b_dev b =? dev) && (b_blocknr b =? u32 block).
Lemma find_buffer_run dev block : 0 < dev -> 0 <= block < 4294967296 ->
  exists o, find_buffer dev block s = Done o s /\
    match o with Some i => caches s dev block i | None => forall i, ~ caches s dev block i end.
Proof.
  intros Hdev Hblock. destruct (ok_links _ _ _ Hok) as (L & R & Lok & _). set (h := hashfn dev block).
  assert (h < NHASH)%nat as Hh by apply hashfn_bound. destruct (ok_chain _ _ _ _ Lok h Hh) as (C1 & C2 & C3).
  assert (forall l2 l1 n, ch h = l1 ++ l2 -> (forall i, i ∈ l1 -> ~ caches s dev block i) -> (length l2 < n)%nat ->
    exists o, loop n (fun tmp =>
      match tmp with
      | None => ret (inr None)
      | Some i => b <- get_buf i ;;
          ret (if (b_dev b =? dev) && (b_blocknr b =? u32 block) then inr (Some i) else inl (b_next b))
      end) (hd_error l2) s = Done o s /\ match o with Some i => caches s dev block i | None => forall i, ~ caches s dev block i end) as Hloop.
  { induction l2 as [|i l2 IH]; intros l1 n El Hl1 Hn; (destruct n as [|n]; [cbn in Hn; lia|]); cbn [loop hd_error].
    - exists None. split; [done|]. intros i Hi. apply (Hl1 i); [|done]. rewrite app_nil_r in El. rewrite <- El.
      rewrite (ok_chained _ _ _ Hok) by done. destruct Hi as (b & Hb & <- & <-). exists b. split; [done|]. split; [lia|done].
    - assert (i ∈ ch h) as Hi by (rewrite El; set_solver). rewrite (ok_chained _ _ _ Hok) in Hi by done. destruct Hi as (b & Hb & Hd & Hhb).
      rewrite bind_assoc. run (get_buf_run s i b Hb). rewrite bind_ret. assert (u32 block = block) as Eu by (by apply u32_id).
      destruct (Z.eqb_spec (b_dev b) dev) as [E1|E1], (Z.eqb_spec (b_blocknr b) (u32 block)) as [E2|E2]; cbn [andb]; rewrite Eu in E2.
      1: { exists (Some i). split; [done|]. by exists b. }
      all: assert (b_next b = hd_error l2) as -> by
          (destruct R as [R1 _ _]; destruct (R1 i b Hb) as (_ & _ & -> & _); rewrite El in C3; rewrite (seg_suffix _ _ _ _ _ _ _ C3); by destruct l2).
      all: apply (IH (l1 ++ [i])); [by rewrite <- app_assoc| |cbn in Hn; lia].
      all: intros j Hj; apply elem_of_app in Hj as [Hj|Hj]; [by apply Hl1|]; apply list_elem_of_singleton in Hj as ->;
          intros (b' & Hb' & F1 & F2); rewrite Hb in Hb'; injection Hb' as <-; done. }
  destruct (Hloop (ch h) [] (S (length (bufs s))) eq_refl) as (o & Ho & Hres).
  - intros i Hi. inversion Hi.
  - pose proof (length_chain s fl ch h Hok Hh). lia.
  - exists o. split; [|done]. unfold find_buffer.
    assert (hash dev block s = Done (hd_error (ch h)) s) as Hhash by (unfold hash, bind, get; fold h; by rewrite C1).
    run Hhash.
    run (eq_refl : get s = Done s s). exact Ho.
Qed.
End Lookup.

Definition calm (s : fs) : Prop := forall i b, bufs s !! i = Some b -> b_lock b = 0.
Definition idle (b : buffer_head) : Prop := b_count b = 0 /\ b_dirt b = 0.

Section Pick.
Context (s : fs) (fl : list nat) (ch : nat -> list nat).
Hypothesis (Hok : cache_ok s fl ch) (Hcalm : calm s).

Lemma BADNESS_calm i b : bufs s !! i = Some b -> BADNESS b = 2 * b_dirt b /\ 0 <= b_dirt b.
Proof.
  intros Hb. unfold BADNESS. rewrite (Hcalm i b Hb). pose proof (ok_range _ _ _ Hok i b Hb).
  rewrite Z.shiftl_mul_pow2 by lia. lia.
Qed.
Lemma pick_loop : forall l2 l1 x o n, fl = l1 ++ x :: l2 ->
  (exists i b, i ∈ x :: l2 /\ bufs s !! i = Some b /\ idle b) ->
  (forall i, o = Some i -> exists b, bufs s !! i = Some b /\ b_dirt b <> 0) -> (length l2 < n)%nat ->
  exists i b, loop n (pick_step (free_list s)) (x, o) s = Done (Some i) s /\ bufs s !! i = Some b /\ idle b.
Proof.
  destruct (ok_links _ _ _ Hok) as (L & R & Lok & _).
  induction l2 as [|y l2 IH]; intros l1 x o n Efl Hex Ho Hn; (destruct n as [|n]; [cbn in Hn; lia|]).
  all: assert (is_Some (bufs s !! x)) as [bx Hbx] by (rewrite <- (ok_all _ _ _ Hok), Efl; set_solver).
  all: destruct (BADNESS_calm x bx Hbx) as [EB Hd0]; cbn [loop]; unfold pick_step at 1.
  all: rewrite bind_assoc; run (get_buf_run s x bx Hbx); rewrite bind_assoc.
  all: set (better := (if truth (b_count bx) then ret false else match o with
             | None => ret true | Some i => b <- get_buf i ;; ret (BADNESS bx <? BADNESS b) end)).
  all: assert (exists be, better s = Done be s /\ (be = true -> b_count bx = 0) /\ (idle bx -> be = true)) as (be & Ebe & Hbe & Hidle).
  1, 3: unfold better, truth, idle; destruct (Z.eqb_spec (b_count bx) 0) as [E0|E0]; cbn [negb]; [|exists false; split; [done|]; split; [discriminate|]; intros [? _]; done].
  1, 2: destruct o as [i|]; [|by exists true].
  1, 2: destruct (Ho i eq_refl) as (b & Hb & Hbd); destruct (BADNESS_calm i b Hb) as [EB' Hd0'].
  1, 2: run (get_buf_run s i b Hb); exists (BADNESS bx <? BADNESS b); split; [done|]; split; [done|intros [_ Hd]; lia].
  all: run Ebe; cbv zeta.
  all: destruct (decide (idle bx)) as [Hi|Hi].
  1, 3: rewrite (Hidle Hi); destruct Hi as [Hi1 Hi2]; rewrite EB, Hi2; cbn; exists x, bx; done.
  all: assert (be && negb (truth (BADNESS bx)) = false) as -> by
    (destruct be; [|done]; unfold truth; rewrite (proj2 (Z.eqb_neq _ 0)); [done|]; intros E0; apply Hi; split; [auto|lia]).
  - exfalso. destruct Hex as (i & b & Hin & Hb & Hib). apply list_elem_of_singleton in Hin as ->. rewrite Hbx in Hb. by injection Hb as <-.
  - pose proof (ok_ring _ _ _ _ Lok) as Hring. rewrite Efl in Hring. apply (seg_suffix _ _ _ _ x (y :: l2)) in Hring. cbn in Hring.
    destruct R as [R1 _ _]. destruct (R1 x bx Hbx) as (-> & _). rewrite Hring. cbv beta iota. rewrite bind_assoc.
    run (eq_refl : deref (Some y) s = Done y s).
    assert (y <> free_list s) as Hy.
    { intros ->. pose proof (ok_free _ _ _ _ Lok) as Hf. pose proof (ok_nodup _ _ _ _ Lok) as Hnd. rewrite Efl in Hf, Hnd.
      apply NoDup_app in Hnd as (_ & Hd & Hnd). apply NoDup_cons in Hnd as [Hnd _].
      destruct l1 as [|z l1]; cbn in Hf; injection Hf as Hf; [apply Hnd; rewrite Hf; left|].
      apply (Hd z); [left|]. rewrite Hf. right. left. }
    rewrite (proj2 (Nat.eqb_neq _ _)) by done. rewrite bind_ret.
    apply (IH (l1 ++ [x])); [by rewrite <- app_assoc| |intros i; destruct be eqn:Eb|cbn in Hn; lia].
    + destruct Hex as (i & b & Hin & Hb & Hib). exists i, b. split; [|done]. apply elem_of_cons in Hin as [->|Hin]; [|done].
      rewrite Hbx in Hb. by injection Hb as <-.
    + intros [= <-]. exists bx. split; [done|]. intros E0. apply Hi. split; [auto|done].
    + apply Ho.
Qed.
Lemma pick_buffer_run : (exists i b, bufs s !! i = Some b /\ idle b) ->
  exists i b, pick_buffer s = Done (Some i) s /\ bufs s !! i = Some b /\ idle b.
Proof.
  intros (i & b & Hb & Hib). destruct (ok_links _ _ _ Hok) as (L & R & Lok & _). pose proof (ok_free _ _ _ _ Lok) as Hf.
  assert (i ∈ fl) as Hin by (rewrite (ok_all _ _ _ Hok); eauto).
  rewrite head_Some in Hf. destruct Hf as [l Efl]. rewrite Efl in Hin.
  destruct (pick_loop l [] (free_list s) None (length (bufs s))) as (j & c & H1 & H2 & H3); [done|by exists i, b|done| |].
  - assert (length fl <= length (bufs s))%nat; [|rewrite Efl in *; cbn in *; lia].
    rewrite <- (length_seq (length (bufs s)) 0). apply NoDup_incl_length; [apply NoDup_ListNoDup, (ok_nodup _ _ _ _ Lok)|].
    intros k Hk. apply list_elem_of_In in Hk. rewrite (ok_all _ _ _ Hok) in Hk. apply lookup_lt_is_Some in Hk. apply in_seq. lia.
  - exists j, c. split; [|done]. unfold pick_buffer. run (eq_refl : get s = Done s s). exact H1.
Qed.
End Pick.

Section Getblk.
Context {E : Env}.
Hypothesis (Hfuel : (0 < fuel)%nat).

Lemma wait_on_buffer_run s bh b : bufs s !! bh = Some b -> b_lock b = 0 -> wait_on_buffer bh s = Done tt s.
Proof.
  intros Hb Hl. unfold wait_on_buffer, wait_while. destruct fuel as [|n]; [lia|]. cbn [loop].
  rewrite !bind_assoc. run (get_buf_run s bh b Hb). rewrite !bind_ret. by rewrite Hl.
Qed.

Definition counted (b : buffer_head) : buffer_head := b <| b_count := b_count b + 1 |>.
Lemma get_hash_table_run s fl ch dev block : cache_ok s fl ch -> calm s -> 0 < dev -> 0 <= block < 4294967296 ->
  (forall i b, bufs s !! i = Some b -> b_dev b = dev -> b_blocknr b = block -> b_count b < 255) ->
  (forall i, ~ caches s dev block i) /\ get_hash_table dev block s = Done None s \/
  exists i b, bufs s !! i = Some b /\ b_dev b = dev /\ b_blocknr b = block /\
    get_hash_table dev block s = Done (Some i) (s <| bufs ::= <[i := counted b]> |>).
Proof.
  intros Hok Hcalm Hdev Hblock Hcount. destruct (find_buffer_run s fl ch Hok dev block Hdev Hblock) as (o & Hf & Ho).
  unfold get_hash_table. assert (exists n, fuel = S n) as [n ->] by (exists (pred fuel); lia). cbn [loop].
  destruct o as [i|].
  - right. destruct Ho as (b & Hb & Ed & En). exists i, b. do 3 (split; [done|]).
    pose proof (lookup_lt_Some _ _ _ Hb). pose proof (ok_range _ _ _ Hok i b Hb). specialize (Hcount i b Hb Ed En).
    rewrite bind_assoc. run Hf. cbv beta iota. rewrite bind_assoc. run (mod_buf_run s i b (fun b => b <| b_count ::= fun c => u8 (c + 1) |>) Hb).
    assert (b <| b_count ::= fun c => u8 (c + 1) |> = counted b) as ->.
    { unfold counted, upd. unfold upd_b_count, u8. by rewrite Z.mod_small by lia. }
    set (s1 := s <| bufs ::= <[i := counted b]> |>).
    assert (bufs s1 !! i = Some (counted b)) as Hb1 by (cbn; by rewrite list_lookup_insert_eq).
    rewrite bind_assoc. run (wait_on_buffer_run s1 i (counted b) Hb1 (Hcalm i b Hb)).
    rewrite bind_assoc. run (get_buf_run s1 i _ Hb1). change (b_dev (counted b)) with (b_dev b). change (b_blocknr (counted b)) with (b_blocknr b).
    rewrite Ed, En, (u32_id block), !Z.eqb_refl by done. done.
  - left. split; [done|]. rewrite bind_assoc. run Hf. done.
Qed.

Context {Y : Sync}.

(** What [getblk] answers: the buffer of the block with one more user, or an unused one for it. *)
Definition got (s s' : fs) (dev block : Z) (bh : nat) : Prop :=
  (forall i, i <> bh -> core <$> bufs s' !! i = core <$> bufs s !! i) /\
  exists b', bufs s' !! bh = Some b' /\
    ((exists b, bufs s !! bh = Some b /\ b_dev b = dev /\ b_blocknr b = block /\ core b' = core (counted b)) \/
     (exists b0, (forall i, ~ caches s dev block i) /\ bufs s !! bh = Some b0 /\ idle b0 /\ core b' = core (fresh dev block b0))).
Definition can_get (s : fs) (dev block : Z) : Prop :=
  0 < dev < 65536 /\ 0 <= block < 4294967296 /\
  (forall i b, bufs s !! i = Some b -> b_dev b = dev -> b_blocknr b = block -> b_count b < 255) /\
  ((exists i, caches s dev block i) \/ exists i b, bufs s !! i = Some b /\ idle b).
(** The cache is in order and no buffer is locked. *)
Definition quiet (s : fs) : Prop := (exists fl ch, cache_ok s fl ch) /\ calm s.

Lemma getblk_spec s dev block : quiet s -> can_get s dev block ->
  wp (getblk dev block) (fun bh s' => quiet s' /\ cache_only s s' /\ got s s' dev block bh) s.
Proof.
  intros [(fl & ch & Hok) Hcalm] (Hdev & Hblock & Hcount & Hcan). unfold getblk.
  assert (exists n, fuel = S n) as [n Efuel] by (exists (pred fuel); lia). rewrite Efuel. cbn [loop].
  destruct (get_hash_table_run s fl ch dev block) as [[Hnew Hrun]|(i & b & Hb & Ed & En & Hrun)]; try done; [lia|..].
  2: { set (s1 := s <| bufs ::= <[i := counted b]> |>) in *.
    unfold wp. rewrite bind_assoc. run Hrun. cbv beta iota. rewrite bind_ret. cbv beta iota. pose proof (lookup_lt_Some _ _ _ Hb).
    assert (bufs s1 !! i = Some (counted b)) as Hb1 by (cbn; by rewrite list_lookup_insert_eq).
    assert (forall j, j <> i -> bufs s1 !! j = bufs s !! j) as Hs1 by (intros j Hj; cbn; by rewrite list_lookup_insert_ne).
    pose proof (ok_range _ _ _ Hok i b Hb) as Hrg. specialize (Hcount i b Hb Ed En). split; [split|split].
    - exists fl, ch. apply (cache_ok_keyed s); [done| | |done].
      + intros j. destruct (decide (j = i)) as [->|Hj]; [by rewrite Hb1, Hb|by rewrite Hs1].
      + intros j c Hc. destruct (decide (j = i)) as [->|Hj]; [|rewrite Hs1 in Hc by done; by apply (ok_range _ _ _ Hok j)].
        rewrite Hb1 in Hc. injection Hc as <-. unfold in_range. change (b_count (counted b)) with (b_count b + 1).
        repeat split; try apply Hrg; lia.
    - intros j c Hc. destruct (decide (j = i)) as [->|Hj]; [|rewrite Hs1 in Hc by done; by apply (Hcalm j)].
      rewrite Hb1 in Hc. injection Hc as <-. exact (Hcalm i b Hb).
    - by destruct s.
    - split; [intros j Hj; by rewrite Hs1|]. exists (counted b). split; [done|]. left. by exists b. }
  destruct Hcan as [[i Hi]|Hidle]; [by destruct (Hnew i)|].
  destruct (pick_buffer_run s fl ch Hok Hcalm Hidle) as (bh & b0 & Hpick & Hb0 & Hib).
  destruct Hib as [Hc0 Hd0].
  unfold wp. rewrite bind_assoc. run Hrun. cbv beta iota. rewrite bind_assoc. run Hpick. cbv beta iota.
  rewrite bind_assoc. run (wait_on_buffer_run s bh b0 Hb0 (Hcalm bh b0 Hb0)). rewrite bind_assoc. run (get_buf_run s bh b0 Hb0).
  rewrite Hc0. cbn [truth Z.eqb negb].
  assert (flush_buffer bh s = Done true s) as Hflush.
  { unfold flush_buffer. rewrite Efuel. cbn [loop]. rewrite bind_assoc. run (get_buf_run s bh b0 Hb0). by rewrite Hd0. }
  rewrite bind_assoc. run Hflush. cbn [negb].
  destruct (find_buffer_run s fl ch Hok dev block) as (o & Hf & Ho); [lia|done|].
  destruct o as [i|]; [by destruct (Hnew i)|]. rewrite bind_assoc. run Hf. cbv beta iota.
  pose proof (reassign_ok s fl ch bh b0 dev block Hok Hb0 Hdev Hblock Hnew) as Hre. unfold wp, reassign in Hre.
  repeat (rewrite bind_assoc in Hre || rewrite bind_assoc).
  set (m1 := mod_buf bh _) in *. unfold bind at 1 in Hre. unfold bind at 1. destruct (m1 s) as [[] s1| | |]; try done.
  rewrite bind_assoc. unfold bind at 1 in Hre. unfold bind at 1. destruct (remove_from_queues bh s1) as [[] s2| | |]; try done.
  rewrite bind_assoc. unfold bind at 1 in Hre. unfold bind at 1. destruct (mod_buf bh _ s2) as [[] s3| | |]; try done.
  rewrite bind_assoc. unfold bind at 1. destruct (insert_into_queues bh s3) as [[] s4| | |]; try done. cbn.
  destruct Hre as (H1 & (b4 & Hb4 & Ec4) & Hothers & fl' & ch' & Hok' & _).
  split; [|split; [done|]].
  - split; [by exists fl', ch'|]. intros j c Hc. destruct (decide (j = bh)) as [->|Hj].
    + rewrite Hb4 in Hc. injection Hc as <-. apply buffer_core_fields in Ec4 as (_ & _ & _ & _ & _ & _ & El). rewrite El. exact (Hcalm bh b0 Hb0).
    + specialize (Hothers j Hj). rewrite Hc in Hothers. destruct (bufs s !! j) as [c'|] eqn:Hc'; [|done].
      apply (inj Some) in Hothers. apply buffer_core_fields in Hothers as (_ & _ & _ & _ & _ & _ & ->). exact (Hcalm j c' Hc').
  - split; [done|]. exists b4. split; [done|]. right. by exists b0.
Qed.
End Getblk.

(** ** The cache is invisible

    [view s n]: what block [n] of the device holds for the programs above the cache, the
    data of an up-to-date buffer if there is one, and else what is stored. *)
Section View.
Context {E : Env} {dev : Z} {D : SyncDevice dev}.
Hypothesis (Hfuel : (0 < fuel)%nat) (Hdev : 0 < dev < 65536).

Definition shows (n : Z) (b : buffer_head) : bool :=
  (b_dev b =? dev) && (b_blocknr b =? n) && truth (b_uptodate b).
Definition view (s : fs) (n : Z) : list Z :=
  match List.find (shows n) (bufs s) with Some b => b_data b | None => stored s n end.
(** Buffers are of blocks that exist, dirty ones are up to date, and clean ones that are up to date agree with the device. *)
Definition coherent (s : fs) : Prop := forall i b, bufs s !! i = Some b -> b_dev b = dev ->
  0 <= b_blocknr b < blocks s /\ (b_dirt b <> 0 -> b_uptodate b <> 0) /\
  (b_uptodate b <> 0 -> b_dirt b = 0 -> b_data b = stored s (b_blocknr b)).
Definition serving (s : fs) : Prop := quiet s /\ ready s /\ coherent s.
Definition same_view (s s' : fs) : Prop :=
  blocks s' = blocks s /\ forall n, 0 <= n < blocks s -> view s' n = view s n.

Lemma shows_spec n b : shows n b = true <-> b_dev b = dev /\ b_blocknr b = n /\ b_uptodate b <> 0.
Proof. unfold shows, truth. rewrite !andb_true_iff, !Z.eqb_eq, negb_true_iff, Z.eqb_neq. tauto. Qed.
Lemma view_buffer s i b : quiet s -> bufs s !! i = Some b -> b_dev b = dev -> b_uptodate b <> 0 ->
  view s (b_blocknr b) = b_data b.
Proof.
  intros [(fl & ch & Hok) _] Hb Hd Hu. unfold view. destruct (List.find _ _) as [c|] eqn:Ef.
  - apply List.find_some in Ef as [Hin Hs]. apply shows_spec in Hs as (E1 & E2 & _).
    apply list_elem_of_In, list_elem_of_lookup in Hin as [j Hj].
    assert (j = i) as -> by (apply (ok_unique _ _ _ Hok j i c b Hj Hb); [lia|congruence|congruence]).
    rewrite Hb in Hj. by injection Hj as ->.
  - exfalso. assert (b ∈ bufs s) as Hin by (by eapply list_elem_of_lookup_2). apply list_elem_of_In in Hin.
    pose proof (List.find_none _ _ Ef b Hin) as Hs. assert (shows (b_blocknr b) b = true) by (by apply shows_spec). congruence.
Qed.
Lemma view_stored s n : (forall i b, bufs s !! i = Some b -> b_dev b = dev -> b_blocknr b = n -> b_uptodate b = 0) ->
  view s n = stored s n.
Proof.
  intros H. unfold view. destruct (List.find _ _) as [c|] eqn:Ef; [|done]. exfalso.
  apply List.find_some in Ef as [Hin Hs]. apply shows_spec in Hs as (E1 & E2 & E3).
  apply list_elem_of_In, list_elem_of_lookup in Hin as [j Hj]. by apply E3, (H j).
Qed.
Lemma view_cases s n : quiet s ->
  (exists i b, bufs s !! i = Some b /\ b_dev b = dev /\ b_blocknr b = n /\ b_uptodate b <> 0 /\ view s n = b_data b) \/
  ((forall i b, bufs s !! i = Some b -> b_dev b = dev -> b_blocknr b = n -> b_uptodate b = 0) /\ view s n = stored s n).
Proof.
  intros Hq. destruct (List.find (shows n) (bufs s)) as [b|] eqn:Ef.
  - left. apply List.find_some in Ef as Ef'. destruct Ef' as [Hin Hs]. apply shows_spec in Hs as (E1 & E2 & E3).
    apply list_elem_of_In, list_elem_of_lookup in Hin as [j Hj]. exists j, b. do 4 (split; [done|]).
    rewrite <- E2. by apply (view_buffer s j).
  - right. assert (forall i b, bufs s !! i = Some b -> b_dev b = dev -> b_blocknr b = n -> b_uptodate b = 0) as H.
    { intros i b Hb E1 E2. destruct (decide (b_uptodate b = 0)) as [|Hu]; [done|]. exfalso.
      assert (b ∈ bufs s) as Hin by (by eapply list_elem_of_lookup_2). apply list_elem_of_In in Hin.
      pose proof (List.find_none _ _ Ef b Hin) as Hs. assert (shows n b = true) by (by apply shows_spec). congruence. }
    split; [done|]. by apply view_stored.
Qed.

(** On a clean device, what is stored is what is seen. *)
Lemma view_clean s n : serving s -> (forall i b, bufs s !! i = Some b -> b_dev b = dev -> b_dirt b = 0) -> view s n = stored s n.
Proof.
  intros (Hq & _ & Hco) Hclean. destruct (view_cases s n Hq) as [(i & b & Hb & E1 & E2 & E3 & ->)|[_ ->]]; [|done].
  rewrite <- E2. apply (Hco i b); [done..|]. by apply (Hclean i).
Qed.

Lemma cache_only_device s s' : cache_only s s' -> same_device s s'.
Proof. intros ->. by repeat split. Qed.

Context {Y : Sync}.
Lemma getblk_view s n : serving s -> can_get s dev n -> 0 <= n < blocks s ->
  wp (getblk dev n) (fun bh s' => serving s' /\ same_view s s' /\ kern s' = kern s /\
    exists b', bufs s' !! bh = Some b' /\ b_dev b' = dev /\ b_blocknr b' = n /\ 0 < b_count b' /\
      got s s' dev n bh) s.
Proof.
  intros (Hq & Hr & Hco) Hcan Hn. eapply wp_mono; [by apply (getblk_spec Hfuel s dev n)|]. cbv beta.
  intros bh s' (Hq' & Hc & Hothers & b' & Hb' & Hgot).
  destruct (device_frame s s' (cache_only_device _ _ Hc) Hr) as (Hr' & Hbl & Hst).
  assert (forall i c, i <> bh -> bufs s' !! i = Some c -> exists c', bufs s !! i = Some c' /\ core c = core c') as Hback.
  { intros i c Hi Hbi. specialize (Hothers i Hi). rewrite Hbi in Hothers. destruct (bufs s !! i) as [c'|]; [|done].
    apply (inj Some) in Hothers. by exists c'. }
  assert (forall i c, i <> bh -> bufs s !! i = Some c -> exists c', bufs s' !! i = Some c' /\ core c' = core c) as Hforth.
  { intros i c Hi Hbi. specialize (Hothers i Hi). rewrite Hbi in Hothers. destruct (bufs s' !! i) as [c'|]; [|done].
    apply (inj Some) in Hothers. by exists c'. }
  destruct Hcan as (_ & Hnr & Hcount & _). pose proof Hgot as Hgot0.
  assert (b_dev b' = dev /\ b_blocknr b' = n /\ 0 < b_count b') as (F1 & F2 & F3).
  { destruct Hgot as [(b & Hb & E1 & E2 & Ec)|(b0 & _ & Hb & _ & Ec)]; apply buffer_core_fields in Ec as (_ & -> & -> & _ & _ & -> & _).
    - change (b_dev b = dev /\ b_blocknr b = n /\ 0 < b_count b + 1). split; [done|]. split; [done|].
      destruct Hq as [(fl & ch & Hok) _]. pose proof (ok_range _ _ _ Hok bh b Hb). lia.
    - change (u16 dev = dev /\ u32 n = n /\ 0 < 1). unfold u16. rewrite Z.mod_small, u32_id by lia. done. }
  assert (coherent s') as Hco'.
  { intros i c Hc0 Hd. rewrite Hbl. setoid_rewrite Hst. destruct (decide (i = bh)) as [->|Hi].
    - rewrite Hb' in Hc0. injection Hc0 as <-. rewrite F2. split; [done|].
      destruct Hgot as [(b & Hb & E1 & E2 & Ec)|(b0 & _ & Hb & _ & Ec)]; apply buffer_core_fields in Ec as (-> & _ & _ & -> & -> & _).
      + change (b_data (counted b)) with (b_data b). change (b_uptodate (counted b)) with (b_uptodate b). change (b_dirt (counted b)) with (b_dirt b).
        rewrite <- E2. by apply (Hco bh b).
      + by split.
    - destruct (Hback i c Hi Hc0) as (c' & Hc' & Ec). apply buffer_core_fields in Ec as (-> & -> & Ed & -> & -> & _).
      apply (Hco i c'); [done|congruence]. }
  split; [done|]. split; [|split; [by rewrite Hc|exists b'; do 4 (split; [done|]); split; [done|exists b'; by split]]].
  split; [done|]. intros m Hm.
  destruct (view_cases s m Hq) as [(i & b & Hb & E1 & E2 & E3 & ->)|[Hnone ->]].
  - destruct (decide (i = bh)) as [->|Hi].
    + destruct Hgot as [(b1 & Hb1 & _ & _ & Ec)|(b0 & Hnew & Hb0 & Hidle & _)].
      * rewrite Hb in Hb1. injection Hb1 as <-. apply buffer_core_fields in Ec as (Ea & En & _ & Eu & _).
        change (b_data (counted b)) with (b_data b) in Ea. change (b_blocknr (counted b)) with (b_blocknr b) in En.
        change (b_uptodate (counted b)) with (b_uptodate b) in Eu.
        rewrite <- E2, <- En, <- Ea. apply (view_buffer s' bh); [done..|]. by rewrite Eu.
      * rewrite Hb in Hb0. injection Hb0 as <-. rewrite view_stored, Hst.
        -- symmetry. rewrite <- E2. apply (Hco bh b); [done..|apply Hidle].
        -- intros j c Hj Ed En. destruct (decide (j = bh)) as [->|Hj2].
           ++ exfalso. rewrite Hb' in Hj. injection Hj as <-. apply (Hnew bh). exists b. split; [done|]. split; congruence.
           ++ exfalso. destruct (Hback j c Hj2 Hj) as (c' & Hc' & Ec). apply buffer_core_fields in Ec as (_ & En' & Ed' & _).
              destruct Hq as [(fl & ch & Hok) _]. apply Hj2. apply (ok_unique _ _ _ Hok j bh c' b); [done|done|lia|congruence|congruence].
    + destruct (Hforth i b Hi Hb) as (c & Hc' & Ec). apply buffer_core_fields in Ec as (Ea & En & Ed & Eu & _).
      rewrite <- E2, <- En, <- Ea. apply (view_buffer s' i); [done..|congruence|congruence].
  - rewrite <- Hst. apply view_stored. intros j c Hj Ed En. destruct (decide (j = bh)) as [->|Hj2].
    + rewrite Hb' in Hj. injection Hj as <-.
      destruct Hgot as [(b & Hb & E1 & E2 & Ec)|(b0 & _ & Hb & _ & Ec)]; apply buffer_core_fields in Ec as (_ & _ & _ & -> & _); [|done].
      change (b_uptodate (counted b)) with (b_uptodate b). apply (Hnone bh); [done..|congruence].
    + destruct (Hback j c Hj2 Hj) as (c' & Hc' & Ec). apply buffer_core_fields in Ec as (_ & En' & Ed' & -> & _).
      apply (Hnone j); [done|congruence|congruence].
Qed.

(** A transfer between a buffer and the device leaves the view as it was. *)
Lemma transfer_serving s s' bh b b' : serving s -> bufs s !! bh = Some b -> b_dev b = dev ->
  ready s' -> blocks s' = blocks s -> transferred bh b' s s' ->
  keyed b' = keyed b -> b_lock b' = b_lock b -> b_count b' = b_count b -> b_uptodate b' = 1 -> b_dirt b' = 0 ->
  length (b_data b') = 1024%nat -> stored s' (b_blocknr b) = b_data b' -> view s (b_blocknr b) = b_data b' ->
  (forall m, 0 <= m < blocks s -> m <> b_blocknr b -> stored s' m = stored s m) ->
  serving s' /\ same_view s s' /\ kern s' = kern s /\ bufs s' = <[bh := b']> (bufs s).
Proof.
  intros (Hq & Hr & Hco) Hb Hd Hr' Hbl Ht Hk Hlock Hcount Hup Hdirt Hlen Hst Hview Hother.
  destruct Ht as (Hbufs & Hkern & Hhash & Hfree & _). pose proof (lookup_lt_Some _ _ _ Hb).
  assert (bufs s' !! bh = Some b') as Hb' by (by rewrite Hbufs, list_lookup_insert_eq).
  assert (forall i, i <> bh -> bufs s' !! i = bufs s !! i) as Hs' by (intros i Hi; by rewrite Hbufs, list_lookup_insert_ne).
  assert (b_dev b' = b_dev b /\ b_blocknr b' = b_blocknr b) as [Ed En] by (injection Hk; auto).
  pose proof Hq as [(fl & ch & Hok) Hcalm].
  assert (quiet s') as Hq'.
  { split.
    - exists fl, ch. apply (cache_ok_keyed s); [done| | |by split].
      + intros i. destruct (decide (i = bh)) as [->|Hi]; [rewrite Hb', Hb; cbn; by rewrite Hk|by rewrite Hs'].
      + intros i c Hc. destruct (decide (i = bh)) as [->|Hi]; [|rewrite Hs' in Hc by done; by apply (ok_range _ _ _ Hok i)].
        rewrite Hb' in Hc. injection Hc as <-. unfold in_range. rewrite Ed, En, Hcount, Hdirt.
        pose proof (ok_range _ _ _ Hok bh b Hb). repeat split; try done; lia.
    - intros i c Hc. destruct (decide (i = bh)) as [->|Hi]; [|rewrite Hs' in Hc by done; by apply (Hcalm i)].
      rewrite Hb' in Hc. injection Hc as <-. rewrite Hlock. exact (Hcalm bh b Hb). }
  assert (forall i c, i <> bh -> bufs s !! i = Some c -> b_dev c = dev -> b_blocknr c <> b_blocknr b) as Huniq.
  { intros i c Hi Hc Hdc En'. apply Hi. apply (ok_unique _ _ _ Hok i bh c b); [done|done|lia|congruence|done]. }
  assert (coherent s') as Hco'.
  { intros i c Hc Hdc. rewrite Hbl. destruct (decide (i = bh)) as [->|Hi].
    - rewrite Hb' in Hc. injection Hc as <-. rewrite En, Hup. destruct (Hco bh b Hb Hd) as (G1 & _). split; [done|]. split; [done|]. by intros _ _.
    - rewrite Hs' in Hc by done. destruct (Hco i c Hc Hdc) as (G1 & G2 & G3). split; [done|]. split; [done|].
      rewrite Hother; [done|done|by apply (Huniq i)]. }
  split; [done|]. split; [|done]. split; [done|]. intros m Hm.
  destruct (decide (m = b_blocknr b)) as [->|Hm2].
  { rewrite Hview, <- En. apply (view_buffer s' bh); [done|done|congruence|by rewrite Hup]. }
  destruct (view_cases s m Hq) as [(i & c & Hc & E1 & E2 & E3 & ->)|[Hnone ->]].
  - assert (i <> bh) as Hi by (intros ->; congruence).
    rewrite <- E2. apply (view_buffer s' i); [done|by rewrite Hs'|done..].
  - rewrite <- (Hother m Hm Hm2). apply view_stored. intros i c Hc E1 E2. destruct (decide (i = bh)) as [->|Hi].
    + rewrite Hb' in Hc. injection Hc as <-. congruence.
    + rewrite Hs' in Hc by done. by apply (Hnone i).
Qed.
Lemma read_view s bh b : serving s -> bufs s !! bh = Some b -> b_dev b = dev -> b_uptodate b = 0 ->
  wp (ll_rw_block READ bh) (fun _ s' => serving s' /\ same_view s s' /\ kern s' = kern s /\
    bufs s' = <[bh := b <| b_data := stored s (b_blocknr b) |> <| b_uptodate := 1 |> <| b_dirt := 0 |>]> (bufs s)) s.
Proof.
  intros Hs Hb Hd Hu. pose proof Hs as (Hq & Hr & Hco). destruct (Hco bh b Hb Hd) as (Hn & _). pose proof Hq as [(fl & ch & Hok) Hcalm].
  pose proof (ok_range _ _ _ Hok bh b Hb) as (_ & _ & _ & _ & Hlen).
  eapply wp_mono; [apply (read_block s bh b); try done; by apply (Hcalm bh)|]. cbv beta. intros [] s' (R1 & R2 & R3 & R4).
  apply (transfer_serving s s' bh b); try done.
  - by apply stored_length.
  - apply view_stored. intros i c Hc E1 E2. assert (i = bh) as ->; [|congruence].
    apply (ok_unique _ _ _ Hok i bh c b); [done|done|lia|congruence|done].
Qed.
Lemma write_view s bh b : serving s -> bufs s !! bh = Some b -> b_dev b = dev -> b_dirt b <> 0 ->
  wp (ll_rw_block WRITE bh) (fun _ s' => serving s' /\ same_view s s' /\ kern s' = kern s /\
    bufs s' = <[bh := b <| b_uptodate := 1 |> <| b_dirt := 0 |>]> (bufs s)) s.
Proof.
  intros Hs Hb Hd Hu. pose proof Hs as (Hq & Hr & Hco). destruct (Hco bh b Hb Hd) as (Hn & Hup & _). pose proof Hq as [(fl & ch & Hok) Hcalm].
  pose proof (ok_range _ _ _ Hok bh b Hb) as (_ & _ & _ & _ & Hlen).
  eapply wp_mono; [apply (write_block s bh b); try done; by apply (Hcalm bh)|]. cbv beta. intros [] s' (R1 & R2 & R3 & R4).
  apply (transfer_serving s s' bh b); try done.
  - rewrite R3 by done. by rewrite Z.eqb_refl.
  - apply (view_buffer s bh b Hq Hb Hd). by apply Hup.
  - intros m Hm Hm2. rewrite R3 by done. by rewrite (proj2 (Z.eqb_neq _ _)).
Qed.
Lemma same_view_trans s1 s2 s3 : same_view s1 s2 -> same_view s2 s3 -> same_view s1 s3.
Proof. intros [B1 V1] [B2 V2]. split; [congruence|]. intros n Hn. rewrite V2 by (by rewrite B1). by apply V1. Qed.

(** C21: reading a block of a device that transfers at once through the cache.  When the cache is in order, no buffer is
    locked and there is a buffer for the block or an unused clean one, [bread] of an
    existing block answers a buffer of this block, in use, whose data is what the
    block holds; the cache is in order afterwards and every block of the device
    still holds what it did, whatever had to be given up in the cache. *)
Theorem bread_view s n : serving s -> can_get s dev n -> 0 <= n < blocks s ->
  wp (bread dev n) (fun o s' => exists bh b, o = Some bh /\ bufs s' !! bh = Some b /\
    b_dev b = dev /\ b_blocknr b = n /\ 0 < b_count b /\ b_uptodate b <> 0 /\ b_data b = view s n /\
    serving s' /\ same_view s s') s.
Proof.
  intros Hs Hcan Hn. unfold bread. apply wp_bind. eapply wp_mono; [by apply getblk_view|]. cbv beta.
  intros bh s1 (Hs1 & Hv1 & Hk1 & b & Hb & Ed & En & Hc & _).
  apply wp_bind. unfold wp at 1. rewrite (get_buf_run s1 bh b Hb). unfold truth.
  destruct (Z.eqb_spec (b_uptodate b) 0) as [Hu|Hu]; cbn [negb].
  - apply wp_bind. eapply wp_mono; [by apply (read_view s1 bh b)|]. cbv beta. intros [] s2 (Hs2 & Hv2 & Hk2 & Hb2).
    set (b2 := b <| b_data := _ |> <| b_uptodate := 1 |> <| b_dirt := 0 |>) in Hb2.
    assert (bufs s2 !! bh = Some b2) as Hb2' by (rewrite Hb2; apply list_lookup_insert_eq; by eapply lookup_lt_Some).
    assert (b_lock b2 = 0) as Hl by (destruct Hs1 as ([_ Hcalm] & _); exact (Hcalm bh b Hb)).
    apply wp_bind. unfold wp at 1. rewrite (wait_on_buffer_run Hfuel s2 bh b2 Hb2' Hl).
    apply wp_bind. unfold wp at 1. rewrite (get_buf_run s2 bh b2 Hb2'). change (b_uptodate b2) with 1. cbn [truth Z.eqb negb].
    exists bh, b2. do 5 (split; [done|]). split; [done|]. split; [|split; [done|by apply (same_view_trans s s1)]].
    destruct Hv1 as [Hbl1 Hv1]. rewrite <- Hv1 by done. destruct Hv2 as [_ Hv2]. rewrite <- Hv2 by (by rewrite Hbl1).
    rewrite <- En. symmetry. apply (view_buffer s2 bh b2); [apply Hs2|done..].
  - exists bh, b. do 6 (split; [done|]). split; [|done]. destruct Hv1 as [Hbl1 Hv1]. rewrite <- Hv1 by done. rewrite <- En. symmetry.
    apply (view_buffer s1 bh b); [apply Hs1|done..].
Qed.

(** ** Writing back *)
Lemma sync_buffer_ok s i : serving s -> (i < length (bufs s))%nat ->
  wp (sync_buffer dev i) (fun _ s' => serving s' /\ same_view s s' /\ kern s' = kern s /\ length (bufs s') = length (bufs s) /\
    (forall b, bufs s' !! i = Some b -> b_dev b = dev -> b_dirt b = 0) /\ forall j, j <> i -> bufs s' !! j = bufs s !! j) s.
Proof.
  intros Hs Hi. destruct (lookup_lt_is_Some_2 _ _ Hi) as [b Hb]. unfold sync_buffer.
  apply wp_bind. unfold wp at 1. rewrite (get_buf_run s i b Hb).
  destruct (Z.eqb_spec (b_dev b) dev) as [Ed|Ed]; cbn [negb].
  2: { split; [done|]. split; [by split|]. do 2 (split; [done|]). split; [|done]. intros c Hc Hd. congruence. }
  assert (b_lock b = 0) as Hl by (destruct Hs as ([_ Hcalm] & _); exact (Hcalm i b Hb)).
  apply wp_bind. unfold wp at 1. rewrite (wait_on_buffer_run Hfuel s i b Hb Hl).
  apply wp_bind. unfold wp at 1. rewrite (get_buf_run s i b Hb). rewrite Ed, Z.eqb_refl. cbn [andb]. unfold truth.
  destruct (Z.eqb_spec (b_dirt b) 0) as [E0|E0]; cbn [negb when].
  - split; [done|]. split; [by split|]. do 2 (split; [done|]). split; [|done]. intros c Hc _. congruence.
  - eapply wp_mono; [by apply (write_view s i b)|]. cbv beta. intros [] s' (Hs' & Hv & Hk & Hb'). do 3 (split; [done|]).
    rewrite Hb', length_insert. split; [done|]. split.
    + intros c Hc _. rewrite list_lookup_insert_eq in Hc by done. by injection Hc as <-.
    + intros j Hj. by rewrite list_lookup_insert_ne.
Qed.

(** C22: writing a device that transfers at once back: after the pass of [sync_dev] over the buffers the
    device itself stores, in every block, what the cache showed before; no buffer
    of the device is dirty, and the view is the same. *)
Theorem sync_buffers_stored s : serving s ->
  wp (sync_buffers dev) (fun _ s' => serving s' /\ same_view s s' /\
    (forall i b, bufs s' !! i = Some b -> b_dev b = dev -> b_dirt b = 0) /\
    forall n, 0 <= n < blocks s -> stored s' n = view s n) s.
Proof.
  intros Hs. unfold sync_buffers. apply wp_bind. change (wp _ ?P ?s) with (P s s). cbv beta.
  set (N := length (bufs s)).
  eapply wp_mono; [apply (wp_for_each _ _ (fun l s' => exists k, l = seq k (N - k) /\ serving s' /\ same_view s s' /\ length (bufs s') = N /\
    forall i b, (i < k)%nat -> bufs s' !! i = Some b -> b_dev b = dev -> b_dirt b = 0))|].
  - intros i l s1 (k & El & Hs1 & Hv1 & Hn1 & Hc1).
    destruct (N - k)%nat as [|m] eqn:Em; [done|]. cbn in El. injection El as -> ->.
    eapply wp_mono; [apply (sync_buffer_ok s1 k); [done|lia]|]. cbv beta. intros [] s2 (Hs2 & Hv2 & _ & Hn2 & Hk2 & Ho2).
    exists (S k). replace (N - S k)%nat with m by lia. split; [done|]. split; [done|]. split; [by apply (same_view_trans s s1)|].
    split; [congruence|]. intros i b Hi Hb Hd. destruct (decide (i = k)) as [->|Hne]; [by apply (Hk2 b)|].
    rewrite Ho2 in Hb by done. apply (Hc1 i b); [lia|done..].
  - exists O. rewrite Nat.sub_0_r. split; [done|]. split; [done|]. split; [by split|]. split; [done|]. intros; lia.
  - cbv beta. intros [] s' (k & El & Hs' & Hv & Hn & Hc). assert (N <= k)%nat by (destruct (N - k)%nat eqn:E'; [lia|done]).
    assert (forall i b, bufs s' !! i = Some b -> b_dev b = dev -> b_dirt b = 0) as Hclean.
    { intros i b Hb. apply (Hc i b); [|done]. apply lookup_lt_Some in Hb. lia. }
    split; [done|]. split; [done|]. split; [done|]. intros n Hb. destruct Hv as [_ Hv]. rewrite <- Hv by done.
    symmetry. by apply view_clean.
Qed.
End View.

(** ** A change of one buffer that leaves its block and its lists *)
Lemma quiet_mod s bh b b' : quiet s -> bufs s !! bh = Some b -> keyed b' = keyed b -> b_lock b' = 0 -> in_range b' ->
  quiet (s <| bufs ::= <[bh := b']> |>).
Proof.
  intros [(fl & ch & Hok) Hcalm] Hb Hk Hl Hr. pose proof (lookup_lt_Some _ _ _ Hb).
  set (s' := s <| bufs ::= <[bh := b']> |>).
  assert (bufs s' !! bh = Some b') as Hb' by (cbn; by rewrite list_lookup_insert_eq).
  assert (forall i, i <> bh -> bufs s' !! i = bufs s !! i) as Hs' by (intros i Hi; cbn; by rewrite list_lookup_insert_ne).
  split.
  - exists fl, ch. apply (cache_ok_keyed s); [done| | |by split].
    + intros i. destruct (decide (i = bh)) as [->|Hi]; [rewrite Hb', Hb; cbn; by rewrite Hk|by rewrite Hs'].
    + intros i c Hc. destruct (decide (i = bh)) as [->|Hi]; [|rewrite Hs' in Hc by done; by apply (ok_range _ _ _ Hok i)].
      rewrite Hb' in Hc. by injection Hc as <-.
  - intros i c Hc. destruct (decide (i = bh)) as [->|Hi]; [|rewrite Hs' in Hc by done; by apply (Hcalm i)].
    rewrite Hb' in Hc. by injection Hc as <-.
Qed.
Lemma quiet_in_range s i b : quiet s -> bufs s !! i = Some b -> in_range b /\ b_lock b = 0.
Proof. intros [(fl & ch & Hok) Hcalm] Hb. split; [by apply (ok_range _ _ _ Hok i)|by apply (Hcalm i)]. Qed.

(** Giving a buffer back. *)
Definition released (b : buffer_head) : buffer_head := b <| b_count := b_count b - 1 |>.
Lemma brelse_run {E : Env} (Hfuel : (0 < fuel)%nat) s i b : quiet s -> bufs s !! i = Some b -> 0 < b_count b ->
  wchan (kern s) !! buffer_wait = None ->
  brelse (Some i) s = Done tt (s <| bufs ::= <[i := released b]> |>) /\ quiet (s <| bufs ::= <[i := released b]> |>).
Proof.
  intros Hq Hb Hc Hw. destruct (quiet_in_range s i b Hq Hb) as [Hr Hl]. split.
  - unfold brelse. run (wait_on_buffer_run Hfuel s i b Hb Hl). run (get_buf_run s i b Hb).
    run (mod_buf_run s i b (fun b => b <| b_count ::= fun c => u8 (c - 1) |>) Hb).
    assert (b <| b_count ::= fun c => u8 (c - 1) |> = released b) as ->.
    { unfold released, upd, upd_b_count, u8. unfold in_range in Hr. by rewrite Z.mod_small by lia. }
    unfold truth. rewrite (proj2 (Z.eqb_neq _ 0)) by lia. cbn [negb]. by apply wake_up_none.
  - apply (quiet_mod s i b); [done|done|done|done|]. unfold in_range in *. change (b_count (released b)) with (b_count b - 1).
    repeat split; try apply Hr; lia.
Qed.

(** ** The cache after [buffer_init] *)
Lemma seg_seq nx pv : forall n a p q,
  (forall i, (a <= i < a + n)%nat -> pv i = (if Nat.eqb i a then p else Some (i - 1)%nat) /\
     nx i = (if Nat.eqb (S i) (a + n) then q else Some (S i))) ->
  seg nx pv p (seq a n) q.
Proof.
  induction n as [|n IH]; intros a p q H; [done|]. cbn [seq seg].
  destruct (H a) as [H1 H2]; [lia|]. rewrite Nat.eqb_refl in H1. split; [done|]. split.
  - rewrite H2. destruct n as [|n]; cbn [seq hd_or].
    + by rewrite (proj2 (Nat.eqb_eq _ _)) by lia.
    + by rewrite (proj2 (Nat.eqb_neq _ _)) by lia.
  - apply IH. intros i Hi. destruct (H i) as [-> ->]; [lia|]. split.
    + rewrite (proj2 (Nat.eqb_neq i a)) by lia. destruct (Nat.eqb_spec i (S a)) as [->|]; [f_equal; lia|done].
    + by replace (S a + n)%nat with (a + S n)%nat by lia.
Qed.

Section Init.
Context (end_ : Z) (raw : nat -> buffer_head) (mem : Z -> list Z).
Hypothesis (Hend : 0 <= end_ /\ end_ + 72 <= 655360 - 2048).
Hypothesis (Hraw : forall i, 0 <= b_blocknr (raw i) < 4294967296) (Hmem : forall b, length (mem b) = 1024%nat).

(** The first [h] buffers are in place, and a second one will be. *)
Definition building (s0 : fs) (b0 b : Z) (s : fs) : Prop :=
  (forall i x, bufs s !! i = Some x -> exists a, x = init_buffer raw mem a i) /\ no_waiters s /\ same_device s0 s /\
  let h := length (bufs s) in
  ((h = 0)%nat /\ b = b0 \/ (h = 1)%nat /\ end_ + 72 <= b - 1024 \/ (2 <= h)%nat).

Lemma wq_clear_waiters s p : no_waiters s -> 10000 <= p -> in_kernel (wq_set p None) s = Done tt s.
Proof. intros Hw Hp. by apply wq_set_none, Hw. Qed.
Lemma init_loop b0 s : no_waiters s -> bufs s = [] -> end_ + 72 <= b0 - 2048 ->
  wp (loop (S (Z.to_nat b0)) (init_step end_ raw mem) b0) (fun _ s' => building s b0 0 s' /\ (2 <= length (bufs s'))%nat) s.
Proof.
  intros Hw Hs Hb0. eapply (wp_loop _ (fun b s1 => building s b0 b s1 /\ b <= b0) (fun b _ => Z.to_nat b)).
  - intros b s1 ((Hall & Hw1 & Hsd & Hh) & Hle). cbv zeta in Hh. unfold init_step. apply wp_bind. change (wp _ ?P ?s) with (P s s). cbv beta zeta.
    unfold BLOCK_SIZE. set (h := length (bufs s1)) in *.
    destruct (Z.leb_spec (end_ + 36 * (Z.of_nat h + 1)) (b - 1024)) as [Hfit|Hfit].
    + apply wp_bind. unfold wp at 1. cbn [modify]. set (s2 := s1 <| bufs ::= _ |>).
      apply wp_bind. unfold wp at 1. assert (no_waiters s2) as Hw2 by exact Hw1.
      rewrite (wq_clear_waiters s2 (b_wait h) Hw2 (b_wait_high h)). unfold wp. cbn [ret].
      set (b' := if b - 1024 =? 1048576 then 655360 else b - 1024).
      assert (b' <= b - 1024 /\ 0 <= b') as [Hb'1 Hb'2] by (unfold b'; destruct (Z.eqb_spec (b - 1024) 1048576); lia).
      split; [split; [|lia]|lia]. split; [|split; [done|split; [done|]]].
      * intros i x Hx. cbn in Hx. destruct (decide (i < h)%nat) as [Hi|Hi].
        -- rewrite lookup_app_l in Hx by done. by apply Hall.
        -- rewrite lookup_app_r in Hx by (fold h; lia). fold h in Hx. destruct (i - h)%nat as [|k] eqn:Ek; [|by destruct k].
           injection Hx as <-. exists (b - 1024). f_equal. lia.
      * cbn. rewrite length_app. fold h. cbn. right. destruct Hh as [[Eh Eb]|[[Eh Eb]|Eh]]; [left|right; lia|right; lia].
        split; [lia|]. unfold b'. destruct (b - 1024 =? 1048576); lia.
    + unfold wp. cbn [ret]. assert (2 <= h)%nat as H2 by (destruct Hh as [[Eh Eb]|[[Eh Eb]|Eh]]; lia).
      split; [|done]. split; [done|]. split; [done|]. split; [done|]. cbv zeta. right. by right.
  - split; [|lia]. split; [|split; [done|split; [by repeat split|]]].
    + intros i x. by rewrite Hs.
    + cbv zeta. left. by rewrite Hs.
  - lia.
Qed.

(** The list of buffers when the loop is done and the ring is closed. *)
Definition initial (N i : nat) (b : buffer_head) : Prop :=
  exists a, core b = core (init_buffer raw mem a i) /\ b_next b = None /\ b_prev b = None /\
    b_prev_free b = Some (if Nat.eqb i 0 then N - 1 else i - 1)%nat /\ b_next_free b = Some (if Nat.eqb (S i) N then 0%nat else S i).
Lemma closed_ring l x0 x1 (N := length l) : (2 <= N)%nat -> (forall i x, l !! i = Some x -> exists a, x = init_buffer raw mem a i) ->
  l !! 0%nat = Some x0 -> l !! (N - 1)%nat = Some x1 ->
  forall i b, <[(N - 1)%nat := x1 <| b_next_free := Some 0%nat |>]> (<[0%nat := x0 <| b_prev_free := Some (N - 1)%nat |>]> l) !! i = Some b -> initial N i b.
Proof.
  intros HN Hall Hx0 Hx1 i b Hb. destruct (Hall 0%nat x0 Hx0) as [a0 ->]. destruct (Hall (N - 1)%nat x1 Hx1) as [a1 ->]. unfold initial.
  destruct (decide (i = N - 1)%nat) as [->|Hi1].
  - rewrite list_lookup_insert_eq in Hb by (rewrite length_insert; fold N; lia). injection Hb as <-. exists a1.
    split; [done|]. split; [done|]. split; [done|]. split.
    + change ((if Nat.eqb (N - 1) 0 then None else Some (N - 1 - 1)%nat) = Some (if Nat.eqb (N - 1) 0 then N - 1 else N - 1 - 1)%nat).
      by rewrite (proj2 (Nat.eqb_neq (N - 1) 0)) by lia.
    + change (Some 0%nat = Some (if Nat.eqb (S (N - 1)) N then 0%nat else S (N - 1))). by rewrite (proj2 (Nat.eqb_eq _ _)) by lia.
  - rewrite list_lookup_insert_ne in Hb by done. destruct (decide (i = 0)%nat) as [->|Hi0].
    + rewrite list_lookup_insert_eq in Hb by (fold N; lia). injection Hb as <-. exists a0.
      split; [done|]. split; [done|]. split; [done|]. split; [done|]. by rewrite (proj2 (Nat.eqb_neq 1 N)) by lia.
    + rewrite list_lookup_insert_ne in Hb by done. pose proof (lookup_lt_Some _ _ _ Hb) as Hlt. fold N in Hlt.
      destruct (Hall i b Hb) as [a ->]. exists a. split; [done|]. split; [done|]. split; [done|].
      rewrite (proj2 (Nat.eqb_neq i 0)), (proj2 (Nat.eqb_neq (S i) N)) by lia. split.
      * change ((if Nat.eqb i 0 then None else Some (i - 1)%nat) = Some (i - 1)%nat). by rewrite (proj2 (Nat.eqb_neq i 0)).
      * change (Some (i + 1)%nat = Some (S i)). f_equal. lia.
Qed.
Lemma initial_idle N i b : initial N i b -> idle b /\ b_dev b = 0 /\ b_lock b = 0 /\ in_range b.
Proof.
  intros (a & Ec & _). apply buffer_core_fields in Ec as (Ea & En & Ed & _ & Edi & Eco & El).
  unfold idle, in_range. rewrite Ea, En, Ed, Edi, Eco, El. cbn. pose proof (Hraw i). rewrite Hmem. lia.
Qed.
Lemma initial_cache s N : (2 <= N)%nat -> length (bufs s) = N -> hash_table s = replicate NHASH None -> free_list s = 0%nat ->
  (forall i b, bufs s !! i = Some b -> initial N i b) -> cache_ok s (seq 0 N) (fun _ => []).
Proof.
  intros HN Hl Hh Hf Hbufs. assert (forall i, is_Some (bufs s !! i) <-> (i < N)%nat) as Hsome by (intros i; by rewrite lookup_lt_is_Some, Hl).
  constructor.
  - exists (mk_links (fun i => bufs s !! i ≫= b_next_free) (fun i => bufs s !! i ≫= b_prev_free) (fun i => bufs s !! i ≫= b_next) (fun i => bufs s !! i ≫= b_prev)).
    split; [|split].
    + constructor; [|done|by destruct s]. intros i b Hb. unfold linked_as. cbn [nf pf nh ph]. rewrite Hb. done.
    + constructor; [|apply NoDup_seq|rewrite Hf; by destruct N; [lia|]|by rewrite Hh, length_replicate|].
      * unfold ring. cbn [nf pf]. apply seg_seq. intros i Hi. destruct (proj2 (Hsome i)) as [b Hb]; [lia|].
        rewrite Hb. cbn [mbind option_bind]. destruct (Hbufs i b Hb) as (_ & _ & _ & _ & -> & ->).
        assert (hd_error (seq 0 N) = Some 0%nat) as -> by (by destruct N; [lia|]).
        assert (last (seq 0 N) = Some (N - 1)%nat) as ->.
        { destruct N as [|n]; [lia|]. rewrite seq_S, last_snoc. f_equal. lia. }
        change (0 + N)%nat with N. split; [by destruct (Nat.eqb i 0)|by destruct (Nat.eqb (S i) N)].
      * intros h Hlt. split; [|split; [apply NoDup_nil_2|done]]. rewrite Hh. by apply lookup_replicate_2.
    + intros i b Hb _. cbn [nh ph]. rewrite Hb. cbn. destruct (Hbufs i b Hb) as (_ & _ & -> & -> & _). done.
  - intros i. rewrite Hsome, elem_of_seq. lia.
  - rewrite length_seq. lia.
  - intros h i Hlt. split; [intros Hi; by inversion Hi|]. intros (b & Hb & Hd & _). by destruct (initial_idle N i b (Hbufs i b Hb)) as (_ & ? & _).
  - intros i j b c Hb _ Hd. by destruct (initial_idle N i b (Hbufs i b Hb)) as (_ & ? & _).
  - intros i b Hb. by apply (initial_idle N i b (Hbufs i b Hb)).
Qed.
Lemma buffer_init_run s buffer_end : no_waiters s -> end_ + 72 <= buffer_end - 2048 ->
  wp (buffer_init end_ raw mem buffer_end) (fun _ s' => quiet s' /\ (2 <= length (bufs s'))%nat /\
    same_device s s' /\ forall i b, bufs s' !! i = Some b -> idle b /\ b_dev b = 0) s.
Proof.
  intros Hw Hbe. unfold buffer_init. cbv zeta. set (b0 := if buffer_end =? 1048576 then 655360 else buffer_end).
  assert (end_ + 72 <= b0 - 2048) as Hb0 by (unfold b0; destruct (Z.eqb_spec buffer_end 1048576); lia).
  apply wp_bind. unfold wp at 1. cbn [modify]. set (s0 := s <| bufs := [] |>).
  apply wp_bind. eapply wp_mono; [apply (init_loop b0 s0); done|]. cbv beta. intros [] s1 [(Hall & _ & Hsd & _) HN].
  set (N := length (bufs s1)) in *. apply wp_bind. change (wp _ ?P ?s) with (P s s). cbv beta. fold N.
  apply wp_bind. unfold wp at 1. cbn [modify]. set (s2 := s1 <| free_list := 0%nat |>).
  destruct (lookup_lt_is_Some_2 (bufs s1) 0) as [x0 Hx0]; [fold N; lia|].
  destruct (lookup_lt_is_Some_2 (bufs s1) (N - 1)) as [x1 Hx1]; [fold N; lia|].
  apply wp_bind. unfold wp at 1. rewrite (mod_buf_run s2 0 x0 _ Hx0).
  set (s3 := s2 <| bufs ::= _ |>).
  assert (bufs s3 !! (N - 1)%nat = Some x1) as Hx1' by (cbn; rewrite list_lookup_insert_ne by lia; exact Hx1).
  apply wp_bind. unfold wp at 1. rewrite (mod_buf_run s3 (N - 1) x1 _ Hx1').
  set (s4 := s3 <| bufs ::= _ |>). unfold wp, modify. set (s5 := s4 <| hash_table := _ |>).
  assert (forall i b, bufs s5 !! i = Some b -> initial N i b) as Hbufs by (by apply (closed_ring (bufs s1) x0 x1)).
  assert (length (bufs s5) = N) as HN5 by (cbn; by rewrite !length_insert).
  split; [split|split; [lia|split; [done|intros i b Hb; by destruct (initial_idle N i b (Hbufs i b Hb)) as (? & ? & _)]]].
  - exists (seq 0 N), (fun _ => []). by apply initial_cache.
  - intros i b Hb. by apply (initial_idle N i b (Hbufs i b Hb)).
Qed.

(** After [buffer_init] the cache serves: with room for two buffers at least, every buffer is unused and clean,
    the free list and the chains are in order, every block of the device can be got, and what
    the cache shows is what the device stores. *)
Theorem buffer_init_ok {E : Env} {dev} {D : SyncDevice dev} s buffer_end :
  0 < dev < 65536 -> no_waiters s -> ready s -> end_ + 72 <= buffer_end - 2048 ->
  wp (buffer_init end_ raw mem buffer_end) (fun _ s' => serving s' /\
    (forall i b, bufs s' !! i = Some b -> idle b) /\
    forall n, 0 <= n < 4294967296 -> can_get s' dev n /\ view s' n = stored s n) s.
Proof.
  intros Hdev Hw Hr Hbe. eapply wp_mono; [by apply buffer_init_run|]. cbv beta. intros [] s' (Hq & HN & Hsd & Hidle).
  destruct (device_frame s s' Hsd Hr) as (Hr' & _ & Hst).
  assert (coherent s') as Hco by (intros i b Hb Hd; destruct (Hidle i b Hb) as [_ Hd']; lia).
  split; [done|]. split; [intros i b Hb; by apply (Hidle i)|]. intros n Hn. split.
  - split; [done|]. split; [done|]. split; [intros i b Hb Hd; destruct (Hidle i b Hb) as [_ Hd']; lia|].
    right. destruct (lookup_lt_is_Some_2 (bufs s') 0) as [b Hb]; [lia|]. exists 0%nat, b. split; [done|]. by apply (Hidle 0%nat).
  - rewrite <- Hst. apply view_stored; [done|]. intros i b Hb Hd. destruct (Hidle i b Hb) as [_ Hd']. lia.
Qed.
End Init.

(** ** A small machine: a RAM disk of two blocks behind two buffers *)
#[local] Instance idle_sync : Sync := ret tt.
Definition after {A} (m : M fs A) (s : fs) : fs := match m s with Done _ s' => s' | _ => s end.
Lemma wp_after {A} (m : M fs A) Q s : wp m Q s -> exists a, m s = Done a (after m s) /\ Q a (after m s).
Proof. unfold wp, after. destruct (m s) as [a s'| | |]; [by exists a|done..]. Qed.
#[local] Notation two_buffers := (after (buffer_init 0 (fun _ => no_buffer) (fun _ => replicate 1024 0) 3072) two_blocks).
Lemma no_waiters_two : no_waiters two_blocks.
Proof. destruct two_blocks_ready as (_ & _ & _ & _ & _ & _ & H). exact H. Qed.
Lemma blank_raw : forall i : nat, 0 <= b_blocknr no_buffer < 4294967296.
Proof. intros _. cbn. lia. Qed.
Lemma blank_mem : forall b : Z, length (replicate 1024 0) = 1024%nat.
Proof. intros _. apply length_replicate. Qed.
Lemma room_for_two : 0 <= 0 /\ 0 + 72 <= 655360 - 2048.
Proof. lia. Qed.

Lemma buffer_init_ok_witness :
  wp (buffer_init 0 (fun _ => no_buffer) (fun _ => replicate 1024 0) 3072) (fun _ s' =>
    serving (D := ramdisk idle_fuel) s' /\ (forall i b, bufs s' !! i = Some b -> idle b) /\
    forall n, 0 <= n < 4294967296 -> can_get s' 257 n /\ view (D := ramdisk idle_fuel) s' n = stored (SyncDevice := ramdisk idle_fuel) two_blocks n) two_blocks.
Proof.
  refine (@buffer_init_ok 0 (fun _ => no_buffer) (fun _ => replicate 1024 0) room_for_two blank_raw blank_mem
    idle_env 257 (ramdisk idle_fuel) two_blocks 3072 _ no_waiters_two two_blocks_ready _); lia.
Defined.

Lemma two_buffers_serving : serving (D := ramdisk idle_fuel) two_buffers /\ (2 <= length (bufs two_buffers))%nat /\
  same_device two_blocks two_buffers /\ forall i b, bufs two_buffers !! i = Some b -> idle b /\ b_dev b = 0.
Proof.
  assert (0 + 72 <= 3072 - 2048) as Hroom by lia.
  destruct (wp_after _ _ _ (buffer_init_run 0 (fun _ => no_buffer) (fun _ => replicate 1024 0) room_for_two blank_raw blank_mem
    two_blocks 3072 no_waiters_two Hroom)) as (u & _ & Hq & HN & Hsd & Hidle).
  split; [|exact (conj HN (conj Hsd Hidle))].
  destruct (device_frame (SyncDevice := ramdisk idle_fuel) two_blocks two_buffers Hsd two_blocks_ready) as (Hr & _).
  split; [exact Hq|]. split; [exact Hr|]. intros i b Hb Hd. destruct (Hidle i b Hb) as [_ Hd']. lia.
Qed.
Lemma two_buffers_blocks : blocks (SyncDevice := ramdisk idle_fuel) two_buffers = 2.
Proof.
  destruct two_buffers_serving as (_ & _ & Hsd & _).
  destruct (device_frame (SyncDevice := ramdisk idle_fuel) two_blocks two_buffers Hsd two_blocks_ready) as (_ & -> & _).
  vm_compute. reflexivity.
Qed.
Lemma bread_view_witness :
  wp (bread (E := idle_env) 257 1) (fun o s' => exists bh b, o = Some bh /\ bufs s' !! bh = Some b /\
    b_dev b = 257 /\ b_blocknr b = 1 /\ 0 < b_count b /\ b_uptodate b <> 0 /\ b_data b = view (D := ramdisk idle_fuel) two_buffers 1 /\
    serving (D := ramdisk idle_fuel) s' /\ same_view (D := ramdisk idle_fuel) two_buffers s') two_buffers.
Proof.
  destruct two_buffers_serving as (Hs & HN & _ & Hidle).
  apply (bread_view (D := ramdisk idle_fuel) idle_fuel).
  - lia.
  - exact Hs.
  - split; [lia|]. split; [lia|]. split.
    + intros i b Hb Hd. destruct (Hidle i b Hb) as [_ Hd']. lia.
    + right. destruct (lookup_lt_is_Some_2 (bufs two_buffers) 0) as [b Hb]; [lia|]. exists 0%nat, b.
      split; [exact Hb|]. apply (Hidle 0%nat b Hb).
  - rewrite two_buffers_blocks. lia.
Defined.
Lemma sync_buffers_stored_witness :
  wp (sync_buffers (E := idle_env) 257) (fun _ s' => serving (D := ramdisk idle_fuel) s' /\ same_view (D := ramdisk idle_fuel) two_buffers s' /\
    (forall i b, bufs s' !! i = Some b -> b_dev b = 257 -> b_dirt b = 0) /\
    forall n, 0 <= n < 2 -> stored (SyncDevice := ramdisk idle_fuel) s' n = view (D := ramdisk idle_fuel) two_buffers n) two_buffers.
Proof.
  destruct two_buffers_serving as (Hs & _).
  pose proof (sync_buffers_stored (D := ramdisk idle_fuel) idle_fuel ltac:(lia) two_buffers Hs) as H.
  rewrite two_buffers_blocks in H. exact H.
Defined.
End Buffer.
