(* ===== verification/Bitmap.v ===== *)
(** * Bitmap: the bitmaps of blocks and inodes (fs/bitmap.c, the table of super blocks in fs/super.c)

    A bitmap is held in buffers; a set bit is a block or inode in use.  [new_inode] is
    in [Inode], with the inode table. *)
From S2P Require Import Prelude Console Task Sched Fs Blk Buffer.
Import Blk Buffer.

Module Bitmap.

(** ** Bits of a block *)
Definition test_bit (nr : Z) (l : list Z) : bool := Z.testbit (byte l (nr / 8)) (nr mod 8).
Definition with_bit (nr : Z) (v : bool) (l : list Z) : list Z :=
  let b := byte l (nr / 8) in
  set_byte (nr / 8) (if v then Z.setbit b (nr mod 8) else Z.clearbit b (nr mod 8)) l.

(** [set_bit] answers the bit before, [clear_bit] its complement. *)
Definition set_bit (nr : Z) (bh : nat) : M fs bool :=
  b <- get_buf bh ;;
  mod_buf bh (fun b => b <| b_data ::= with_bit nr true |>) ;;;
  ret (test_bit nr (b_data b)).
Definition clear_bit (nr : Z) (bh : nat) : M fs bool :=
  b <- get_buf bh ;;
  mod_buf bh (fun b => b <| b_data ::= with_bit nr false |>) ;;;
  ret (negb (test_bit nr (b_data b))).

(** [bsfl]: the lowest bit set. *)
Definition bsf (eax : Z) : option Z := List.find (Z.testbit eax) (seqZ 0 32).
(** [n] more words from bit [ecx] on. *)
Fixpoint scan_words (n : nat) (ecx : Z) (l : list Z) : Z :=
  match n with
  | O => ecx
  | S n => match bsf (Z.lxor (word l (ecx / 8)) 4294967295) with
           | Some edx => ecx + edx
           | None => scan_words n (ecx + 32) l
           end
  end.
Definition find_first_zero (l : list Z) : Z := scan_words 256 0 l.
Definition clear_block (bh : nat) : M fs unit := mod_buf bh (fun b => b <| b_data := replicate 1024 0 |>).

Section Super.
Context {E : Env}.

(** ** The table of super blocks *)
Definition wait_on_super (sb : nat) : M fs unit :=
  wait_while (s <- get_sb sb ;; ret (truth (s_lock s))) (s_wait sb).
Definition lock_super (sb : nat) : M fs unit :=
  wait_on_super sb ;;; mod_sb sb (fun s => s <| s_lock := 1 |>).
Definition free_super (sb : nat) : M fs unit :=
  mod_sb sb (fun s => s <| s_lock := 0 |>) ;;; fs_wake_up (s_wait sb).

(** The search starts again when the device of the entry has changed while waiting. *)
Definition get_super (dev : Z) : M fs (option nat) :=
  if dev =? 0 then ret None else
  loop (fuel * S NR_SUPER) (fun s : nat =>
    if Nat.ltb s NR_SUPER then
      b <- get_sb s ;;
      if s_dev b =? dev then
        wait_on_super s ;;;
        b <- get_sb s ;;
        ret (if s_dev b =? dev then inr (Some s) else inl O)
      else ret (inl (S s))
    else ret (inr None)) O.

(** ** Blocks *)
Definition zmap_buffer (sb : nat) (i : Z) : M fs nat :=
  s <- get_sb sb ;; o <- deref (s_zmap s !! Z.to_nat i) ;; deref o.

Definition free_block (dev block : Z) : M fs unit :=
  o <- get_super dev ;;
  match o with
  | None => panic "trying to free block on nonexistent device"
  | Some sb =>
      s <- get_sb sb ;;
      if (block <? s_firstdatazone s) || (s_nzones s <=? block) then panic "trying to free block not in datazone" else
      o <- get_hash_table dev block ;;
      stop <- match o with
              | None => ret false
              | Some bh =>
                  b <- get_buf bh ;;
                  if negb (b_count b =? 1) then
                    printk "trying to free block (%04x:%d), count=%d" [dev; block; b_count b] ;;; ret true
                  else
                    mod_buf bh (fun b => b <| b_dirt := 0 |> <| b_uptodate := 0 |>) ;;;
                    brelse (Some bh) ;;; ret false
              end ;;
      if stop : bool then ret tt else
      s <- get_sb sb ;;
      let block := block - (s_firstdatazone s - 1) in
      z <- zmap_buffer sb (block ÷ 8192) ;;
      was_clear <- clear_bit (Z.land block 8191) z ;;
      if was_clear : bool then
        printk "block (%04x:%d) " [dev; block + s_firstdatazone s - 1] ;;;
        panic "free_block: bit already cleared"
      else
        z <- zmap_buffer sb (block ÷ 8192) ;;
        mod_buf z (fun b => b <| b_dirt := 1 |>)
  end.

(** The first map with a clear bit: its number, its buffer and the bit. *)
Fixpoint first_free (maps : list (option nat)) (i : Z) : M fs (option (Z * nat * Z)) :=
  match maps with
  | [] => ret None
  | None :: maps => first_free maps (i + 1)
  | Some bh :: maps =>
      b <- get_buf bh ;;
      let j := find_first_zero (b_data b) in
      if j <? 8192 then ret (Some (i, bh, j)) else first_free maps (i + 1)
  end.

Context {Y : Sync}.
Definition new_block (dev : Z) : M fs Z :=
  o <- get_super dev ;;
  match o with
  | None => panic "trying to get new block from nonexistant device"
  | Some sb =>
      s <- get_sb sb ;;
      o <- first_free (s_zmap s) 0 ;;
      match o with
      | None => ret 0
      | Some (i, bh, j) =>
          was_set <- set_bit j bh ;;
          if was_set : bool then panic "new_block: bit already set" else
          mod_buf bh (fun b => b <| b_dirt := 1 |>) ;;;
          let j := j + (i * 8192 + s_firstdatazone s - 1) in
          if s_nzones s <=? j then ret 0 else
          bh <- getblk dev j ;;
          b <- get_buf bh ;;
          if negb (b_count b =? 1) then panic "new block: count is != 1" else
          clear_block bh ;;;
          mod_buf bh (fun b => b <| b_uptodate := 1 |> <| b_dirt := 1 |>) ;;;
          brelse (Some bh) ;;;
          ret j
      end
  end.

(** ** Inodes *)
Definition free_inode (inode : option nat) : M fs unit :=
  match inode with
  | None => ret tt
  | Some i =>
      n <- get_inode i ;;
      if i_dev n =? 0 then mod_inode i (fun _ => no_inode) ;;; in_kernel (wq_set (i_wait i) None) else
      if 1 <? i_count n then printk "trying to free inode with count=%d" [i_count n] ;;; panic "free_inode" else
      if truth (i_nlinks n) then panic "trying to free inode with links" else
      o <- get_super (i_dev n) ;;
      match o with
      | None => panic "trying to free inode on nonexistent device"
      | Some sb =>
          n <- get_inode i ;;
          s <- get_sb sb ;;
          if (i_num n <? 1) || (s_ninodes s <? i_num n) then panic "trying to free inode 0 or nonexistant inode" else
          o <- deref (s_imap s !! Z.to_nat (Z.shiftr (i_num n) 13)) ;;
          match o with
          | None => panic "nonexistent imap in superblock"
          | Some bh =>
              was_clear <- clear_bit (Z.land (i_num n) 8191) bh ;;
              when was_clear (printk "free_inode: bit already cleared." []) ;;;
              mod_buf bh (fun b => b <| b_dirt := 1 |>) ;;;
              mod_inode i (fun _ => no_inode) ;;; in_kernel (wq_set (i_wait i) None)
          end
      end
  end.
End Super.
End Bitmap.
