(* ===== verification/Inode.v ===== *)
(** * Inode: the inode table (fs/inode.c, fs/truncate.c, new_inode of fs/bitmap.c)

    [sync_inodes] writes inodes through the buffer cache, whose [sync_dev] calls
    [sync_inodes]: the recursion has a depth, the fuel of [Env]. *)
From S2P Require Import Prelude Console Task Sched Fs Blk Buffer Bitmap.
Import Blk Buffer Bitmap.

Module Inode.

(** ** File types (include/sys/stat.h, in octal there) *)
Definition S_IFMT : Z := 61440.
Definition S_IFREG : Z := 32768.
Definition S_IFBLK : Z := 24576.
Definition S_IFDIR : Z := 16384.
Definition S_IFCHR : Z := 8192.
Definition S_ISREG (m : Z) : bool := Z.land m S_IFMT =? S_IFREG.
Definition S_ISDIR (m : Z) : bool := Z.land m S_IFMT =? S_IFDIR.
Definition S_ISCHR (m : Z) : bool := Z.land m S_IFMT =? S_IFCHR.
Definition S_ISBLK (m : Z) : bool := Z.land m S_IFMT =? S_IFBLK.

Definition zone (n : m_inode) (k : nat) : Z := default 0 (i_zone n !! k).
Definition set_zone (k : nat) (v : Z) (n : m_inode) : m_inode := n <| i_zone ::= <[k := u16 v]> |>.
Definition set_i_count (f : Z -> Z) (n : m_inode) : m_inode := n <| i_count ::= fun c => u16 (f c) |>.

(** ** [struct d_inode]: 32 bytes, the first fields of [struct m_inode] *)
Definition le2 (v : Z) : list Z := [u8 v; u8 (Z.shiftr v 8)].
Definition le4 (v : Z) : list Z := le2 v ++ le2 (Z.shiftr v 16).
Definition d_inode_bytes (n : m_inode) : list Z :=
  le2 (i_mode n) ++ le2 (i_uid n) ++ le4 (i_size n) ++ le4 (i_mtime n) ++
  [u8 (i_gid n); u8 (i_nlinks n)] ++ flat_map (fun k => le2 (zone n k)) (seq 0 9).
Definition d_inode_read (l : list Z) (o : Z) (n : m_inode) : m_inode :=
  n <| i_mode := half l o |> <| i_uid := half l (o + 2) |> <| i_size := word l (o + 4) |>
    <| i_mtime := word l (o + 8) |> <| i_gid := byte l (o + 12) |> <| i_nlinks := byte l (o + 13) |>
    <| i_zone := map (fun k => half l (o + 14 + 2 * Z.of_nat k)) (seq 0 9) |>.

Section Table.
Context {E : Env}.

Definition wait_on_inode (i : nat) : M fs unit :=
  wait_while (n <- get_inode i ;; ret (truth (i_lock n))) (i_wait i).
Definition lock_inode (i : nat) : M fs unit :=
  wait_on_inode i ;;; mod_inode i (fun n => n <| i_lock := 1 |>).
Definition unlock_inode (i : nat) : M fs unit :=
  mod_inode i (fun n => n <| i_lock := 0 |>) ;;; fs_wake_up (i_wait i).

Definition invalidate_inodes (dev : Z) : M fs unit :=
  for_each (seq 0 NR_INODE) (fun i =>
    wait_on_inode i ;;;
    n <- get_inode i ;;
    when (i_dev n =? dev)
      (when (truth (i_count n)) (printk "inode in use on removed disk" []) ;;;
       mod_inode i (fun n => n <| i_dirt := 0 |> <| i_dev := 0 |>))).

(** The block and the offset in it of inode [num]. *)
Definition inode_block (s : super_block) (num : Z) : Z :=
  i32 (2 + s_imap_blocks s + s_zmap_blocks s + u32 (num - 1) / INODES_PER_BLOCK).
Definition inode_offset (num : Z) : Z := 32 * (u32 (num - 1) mod INODES_PER_BLOCK).

Section Levels.
Context {Y : Sync}.
Definition read_inode (i : nat) : M fs unit :=
  lock_inode i ;;;
  n <- get_inode i ;;
  o <- get_super (i_dev n) ;;
  match o with
  | None => panic "trying to read inode without dev"
  | Some sb =>
      s <- get_sb sb ;; n <- get_inode i ;;
      o <- bread (i_dev n) (inode_block s (i_num n)) ;;
      match o with
      | None => panic "unable to read i-node block"
      | Some bh =>
          b <- get_buf bh ;;
          mod_inode i (fun n => d_inode_read (b_data b) (inode_offset (i_num n)) n) ;;;
          brelse (Some bh) ;;;
          unlock_inode i
      end
  end.
Definition write_inode (i : nat) : M fs unit :=
  lock_inode i ;;;
  n <- get_inode i ;;
  if negb (truth (i_dirt n)) || negb (truth (i_dev n)) then unlock_inode i else
  o <- get_super (i_dev n) ;;
  match o with
  | None => panic "trying to write inode without device"
  | Some sb =>
      s <- get_sb sb ;; n <- get_inode i ;;
      o <- bread (i_dev n) (inode_block s (i_num n)) ;;
      match o with
      | None => panic "unable to read i-node block"
      | Some bh =>
          n <- get_inode i ;;
          mod_buf bh (fun b => b <| b_data ::= blit (inode_offset (i_num n)) (d_inode_bytes n) |>) ;;;
          mod_buf bh (fun b => b <| b_dirt := 1 |>) ;;;
          mod_inode i (fun n => n <| i_dirt := 0 |>) ;;;
          brelse (Some bh) ;;;
          unlock_inode i
      end
  end.
Definition sync_all_inodes : M fs unit :=
  for_each (seq 0 NR_INODE) (fun i =>
    wait_on_inode i ;;;
    n <- get_inode i ;;
    when (truth (i_dirt n) && negb (truth (i_pipe n))) (write_inode i)).
End Levels.

Fixpoint sync_inodes_at (depth : nat) : M fs unit :=
  match depth with O => nofuel | S depth => sync_all_inodes (Y := sync_inodes_at depth) end.
#[global] Instance sync_inodes_fuel : Sync := sync_inodes_at fuel.

(** ** Blocks of a file *)

(** The zone [k] of the inode, filled in when [create]. *)
Definition zone_of (i k : nat) (create : bool) : M fs Z :=
  n <- get_inode i ;;
  when (create && negb (truth (zone n k)))
    (nb <- new_block (i_dev n) ;;
     mod_inode i (set_zone k nb) ;;;
     when (truth (u16 nb))
       (t <- current_time ;; mod_inode i (fun n => n <| i_dirt := 1 |> <| i_ctime := t |>))) ;;;
  n <- get_inode i ;; ret (zone n k).
(** The entry [k] of the indirect block in [bh], filled in when [create]. *)
Definition entry_of (dev : Z) (bh : nat) (k : Z) (create : bool) : M fs Z :=
  b <- get_buf bh ;;
  let i := half (b_data b) (2 * k) in
  if create && negb (truth i) then
    nb <- new_block dev ;;
    when (truth nb) (mod_buf bh (fun b => b <| b_data ::= set_half (2 * k) nb |> <| b_dirt := 1 |>)) ;;;
    ret nb
  else ret i.

Definition _bmap (i : nat) (block : Z) (create : bool) : M fs Z :=
  if block <? 0 then panic "_bmap: block<0" else
  if 7 + 512 + 512 * 512 <=? block then panic "_bmap: block>big" else
  if block <? 7 then zone_of i (Z.to_nat block) create else
  let block := block - 7 in
  if block <? 512 then
    z <- zone_of i 7 create ;;
    if negb (truth z) then ret 0 else
    n <- get_inode i ;;
    o <- bread (i_dev n) z ;;
    match o with
    | None => ret 0
    | Some bh =>
        n <- get_inode i ;;
        r <- entry_of (i_dev n) bh block create ;;
        brelse (Some bh) ;;; ret r
    end
  else
    let block := block - 512 in
    z <- zone_of i 8 create ;;
    if negb (truth z) then ret 0 else
    n <- get_inode i ;;
    o <- bread (i_dev n) z ;;
    match o with
    | None => ret 0
    | Some bh =>
        n <- get_inode i ;;
        r <- entry_of (i_dev n) bh (Z.shiftr block 9) create ;;
        brelse (Some bh) ;;;
        if negb (truth r) then ret 0 else
        n <- get_inode i ;;
        o <- bread (i_dev n) r ;;
        match o with
        | None => ret 0
        | Some bh =>
            n <- get_inode i ;;
            r <- entry_of (i_dev n) bh (Z.land block 511) create ;;
            brelse (Some bh) ;;; ret r
        end
    end.
Definition bmap (i : nat) (block : Z) : M fs Z := _bmap i block false.
Definition create_block (i : nat) (block : Z) : M fs Z := _bmap i block true.

(** ** Truncation *)
Definition free_each (bh : nat) (free : Z -> M fs unit) : M fs unit :=
  for_each (seqZ 0 512) (fun k =>
    b <- get_buf bh ;;
    let p := half (b_data b) (2 * k) in
    when (truth p) (free p)).
Definition free_ind (dev block : Z) : M fs unit :=
  if negb (truth block) then ret tt else
  o <- bread dev block ;;
  match o with
  | Some bh => free_each bh (free_block dev) ;;; brelse (Some bh)
  | None => ret tt
  end ;;;
  free_block dev block.
Definition free_dind (dev block : Z) : M fs unit :=
  if negb (truth block) then ret tt else
  o <- bread dev block ;;
  match o with
  | Some bh => free_each bh (free_ind dev) ;;; brelse (Some bh)
  | None => ret tt
  end ;;;
  free_block dev block.
Definition truncate (i : nat) : M fs unit :=
  n <- get_inode i ;;
  if negb (S_ISREG (i_mode n) || S_ISDIR (i_mode n)) then ret tt else
  for_each (seq 0 7) (fun k =>
    n <- get_inode i ;;
    when (truth (zone n k))
      (free_block (i_dev n) (zone n k) ;;; mod_inode i (set_zone k 0))) ;;;
  n <- get_inode i ;; free_ind (i_dev n) (zone n 7) ;;;
  n <- get_inode i ;; free_dind (i_dev n) (zone n 8) ;;;
  mod_inode i (fun n => set_zone 7 0 (set_zone 8 0 n)) ;;;
  mod_inode i (fun n => n <| i_size := 0 |> <| i_dirt := 1 |>) ;;;
  t <- current_time ;;
  mod_inode i (fun n => n <| i_ctime := t |> <| i_mtime := t |>).

(** ** Getting and putting inodes *)
Definition put_step (i : nat) (_ : unit) : M fs (unit + unit) :=
  n <- get_inode i ;;
  if 1 <? i_count n then mod_inode i (set_i_count (fun c => c - 1)) ;;; ret (inr tt) else
  if negb (truth (i_nlinks n)) then truncate i ;;; free_inode (Some i) ;;; ret (inr tt) else
  if truth (i_dirt n) then write_inode i ;;; wait_on_inode i ;;; ret (inl tt) else
  mod_inode i (set_i_count (fun c => c - 1)) ;;; ret (inr tt).
Definition iput (inode : option nat) : M fs unit :=
  match inode with
  | None => ret tt
  | Some i =>
      wait_on_inode i ;;;
      n <- get_inode i ;;
      if negb (truth (i_count n)) then panic "iput: trying to free free inode" else
      if truth (i_pipe n) then
        fs_wake_up (i_wait i) ;;;
        mod_inode i (set_i_count (fun c => c - 1)) ;;;
        n <- get_inode i ;;
        if truth (i_count n) then ret tt else
        free_page (i_size n) ;;;
        mod_inode i (fun n => n <| i_count := 0 |> <| i_dirt := 0 |> <| i_pipe := 0 |>)
      else if negb (truth (i_dev n)) then mod_inode i (set_i_count (fun c => c - 1)) else
      when (S_ISBLK (i_mode n)) (sync_dev (zone n 0) ;;; wait_on_inode i) ;;;
      loop fuel (put_step i) tt
  end.

(** One turn of the search: [last_inode] goes round the table. *)
Definition scan_inode (found : option nat) : M fs (option nat * bool) :=
  modify (fun s => s <| last_inode ::= fun l => if Nat.leb NR_INODE (S l) then O else S l |>) ;;;
  s <- get ;;
  n <- get_inode (last_inode s) ;;
  ret (if truth (i_count n) then (found, false)
       else (Some (last_inode s), negb (truth (i_dirt n)) && negb (truth (i_lock n)))).
Fixpoint scan_inodes (n : nat) (found : option nat) : M fs (option nat) :=
  match n with
  | O => ret found
  | S n => r <- scan_inode found ;; if snd r : bool then ret (fst r) else scan_inodes n (fst r)
  end.
Definition get_empty_inode : M fs nat :=
  i <- loop fuel (fun _ : unit =>
    o <- scan_inodes NR_INODE None ;;
    match o with
    | None =>
        for_each (seq 0 NR_INODE) (fun i => n <- get_inode i ;; printk "%04x: %6d" [i_dev n; i_num n]) ;;;
        panic "No free inodes in mem"
    | Some i =>
        wait_on_inode i ;;;
        loop fuel (fun _ : unit =>
          n <- get_inode i ;;
          if truth (i_dirt n) then write_inode i ;;; wait_on_inode i ;;; ret (inl tt) else ret (inr tt)) tt ;;;
        n <- get_inode i ;;
        ret (if truth (i_count n) then inl tt else inr i)
    end) tt ;;
  mod_inode i (fun _ => no_inode) ;;; in_kernel (wq_set (i_wait i) None) ;;;
  mod_inode i (fun n => n <| i_count := 1 |>) ;;;
  ret i.
Definition get_pipe_inode : M fs (option nat) :=
  i <- get_empty_inode ;;
  a <- get_free_page ;;
  mod_inode i (fun n => n <| i_size := a |>) ;;;
  if negb (truth a) then mod_inode i (fun n => n <| i_count := 0 |>) ;;; ret None else
  mod_inode i (fun n => set_zone 0 0 (set_zone 1 0 (n <| i_count := 2 |>))) ;;;
  mod_inode i (fun n => n <| i_pipe := 1 |>) ;;;
  ret (Some i).

(** The entry of the super block mounted on inode [i]. *)
Definition mounted_on (i : nat) : M fs (option nat) :=
  s <- get ;; ret (fst <$> list_find (fun b => s_imount b = Some i) (super_blocks s)).
Definition iget (dev nr : Z) : M fs nat :=
  if dev =? 0 then panic "iget with dev==0" else
  empty <- get_empty_inode ;;
  loop (fuel * S NR_INODE) (fun st : Z * Z * nat =>
    let '(dev, nr, i) := st in
    if Nat.ltb i NR_INODE then
      n <- get_inode i ;;
      if negb (i_dev n =? dev) || negb (i_num n =? nr) then ret (inl (dev, nr, S i)) else
      wait_on_inode i ;;;
      n <- get_inode i ;;
      if negb (i_dev n =? dev) || negb (i_num n =? nr) then ret (inl (dev, nr, O)) else
      mod_inode i (set_i_count (fun c => c + 1)) ;;;
      if truth (i_mount n) then
        o <- mounted_on i ;;
        match o with
        | None => printk "Mounted inode hasn't got sb" [] ;;; iput (Some empty) ;;; ret (inr i)
        | Some k =>
            iput (Some i) ;;;
            b <- get_sb k ;;
            ret (inl (s_dev b, ROOT_INO, O))
        end
      else iput (Some empty) ;;; ret (inr i)
    else
      mod_inode empty (fun n => n <| i_dev := u16 dev |> <| i_num := u16 nr |>) ;;;
      read_inode empty ;;;
      ret (inr empty)) (dev, nr, O).

(** ** [new_inode] (fs/bitmap.c) *)
Definition new_inode (dev : Z) : M fs (option nat) :=
  i <- get_empty_inode ;;
  o <- get_super dev ;;
  match o with
  | None => panic "new_inode with unknown device"
  | Some sb =>
      s <- get_sb sb ;;
      o <- first_free (s_imap s) 0 ;;
      match o with
      | None => iput (Some i) ;;; ret None
      | Some (k, bh, j) =>
          if s_ninodes s <? j + k * 8192 then iput (Some i) ;;; ret None else
          was_set <- set_bit j bh ;;
          if was_set : bool then panic "new_inode: bit already set" else
          mod_buf bh (fun b => b <| b_dirt := 1 |>) ;;;
          c <- in_kernel cur ;;
          t <- current_time ;;
          mod_inode i (fun n => n <| i_count := 1 |> <| i_nlinks := 1 |> <| i_dev := u16 dev |> <| i_uid := euid c |>
                                  <| i_gid := u8 (egid c) |> <| i_dirt := 1 |> <| i_num := u16 (j + k * 8192) |>
                                  <| i_ctime := t |> <| i_atime := t |> <| i_mtime := t |>) ;;;
          ret (Some i)
      end
  end.
End Table.
End Inode.
