(* ===== verification/FileDev.v ===== *)
(** * FileDev: reading and writing files, block devices and pipes
    (fs/file_dev.c, fs/block_dev.c, fs/pipe.c)

    The bytes go to and come from the memory of the current task, [umem] of the
    kernel state. *)
From S2P Require Import Prelude Console Task Sched Fs Blk Buffer Bitmap Inode.
Import Blk Buffer Bitmap Inode.

Module FileDev.

Definition O_APPEND : Z := 1024.
Definition PAGE_SIZE : Z := 4096.
Definition SIGPIPE : Z := 13.

Definition fs_put_byte (v a : Z) : M fs unit := in_kernel (put_fs_byte v a).
Definition fs_get_byte (a : Z) : M fs Z := in_kernel (get_fs_byte a).

(** [while (chars-->0) put_fs_byte( *(p++),buf++)] with [p] in buffer [bh] *)
Definition to_user (bh : nat) (p buf chars : Z) : M fs unit :=
  for_each (seqZ 0 chars) (fun k => b <- get_buf bh ;; v <- deref (b_data b !! Z.to_nat (p + k)) ;; fs_put_byte v (buf + k)).
Definition from_user (bh : nat) (p buf chars : Z) : M fs unit :=
  for_each (seqZ 0 chars) (fun k => v <- fs_get_byte (buf + k) ;;
    b <- get_buf bh ;; deref (b_data b !! Z.to_nat (p + k)) ;;;
    mod_buf bh (fun b => b <| b_data ::= set_byte (p + k) v |>)).
Definition zero_user (buf chars : Z) : M fs unit :=
  for_each (seqZ 0 chars) (fun k => fs_put_byte 0 (buf + k)).

Section FileDev.
Context {E : Env}.

(** ** Files *)

(** The result of the loop: how many bytes are left, [left] in the code. *)
Definition read_step (inode filp : nat) (st : Z * Z) : M fs ((Z * Z) + Z) :=
  let '(buf, rest) := st in
  if negb (truth rest) then ret (inr rest) else
  f <- get_file filp ;;
  nr <- bmap inode (f_pos f ÷ BLOCK_SIZE) ;;
  o <- (if truth nr then
          n <- get_inode inode ;;
          o <- bread (i_dev n) nr ;;
          ret (match o with Some bh => Some (Some bh) | None => None end)
        else ret (Some None)) ;;
  match o with
  | None => ret (inr rest)
  | Some bh =>
      f <- get_file filp ;;
      let nr := Z.rem (f_pos f) BLOCK_SIZE in
      let chars := Z.min (BLOCK_SIZE - nr) rest in
      mod_file filp (fun f => f <| f_pos ::= fun p => i32 (p + chars) |>) ;;;
      match bh with
      | Some bh => to_user bh nr buf chars ;;; brelse (Some bh)
      | None => zero_user buf chars
      end ;;;
      ret (inl (buf + chars, rest - chars))
  end.
(** Every round takes at least one byte. *)
Definition file_read (inode filp : nat) (buf count : Z) : M fs Z :=
  if count <=? 0 then ret 0 else
  rest <- loop (S (Z.to_nat count)) (read_step inode filp) (buf, count) ;;
  t <- current_time ;;
  mod_inode inode (fun n => n <| i_atime := t |>) ;;;
  ret (if truth (count - rest) then count - rest else - ERROR).

(** The position and the number of bytes written. *)
Definition write_step (inode : nat) (count : Z) (st : Z * Z * Z) : M fs ((Z * Z * Z) + (Z * Z)) :=
  let '(buf, pos, i) := st in
  if negb (i <? count) then ret (inr (pos, i)) else
  block <- create_block inode (pos ÷ BLOCK_SIZE) ;;
  if negb (truth block) then ret (inr (pos, i)) else
  n <- get_inode inode ;;
  o <- bread (i_dev n) block ;;
  match o with
  | None => ret (inr (pos, i))
  | Some bh =>
      let p := Z.rem pos BLOCK_SIZE in
      mod_buf bh (fun b => b <| b_dirt := 1 |>) ;;;
      let c := Z.min (BLOCK_SIZE - p) (count - i) in
      let pos := i32 (pos + c) in
      n <- get_inode inode ;;
      when (i_size n <? u32 pos) (mod_inode inode (fun n => n <| i_size := u32 pos |> <| i_dirt := 1 |>)) ;;;
      from_user bh p buf c ;;;
      brelse (Some bh) ;;;
      ret (inl (buf + c, pos, i + c))
  end.
Definition file_write (inode filp : nat) (buf count : Z) : M fs Z :=
  f <- get_file filp ;;
  n <- get_inode inode ;;
  let append := truth (Z.land (f_flags f) O_APPEND) in
  r <- loop (S (Z.to_nat count)) (write_step inode count) (buf, if append then i32 (i_size n) else f_pos f, 0) ;;
  let '(pos, i) := r in
  t <- current_time ;;
  mod_inode inode (fun n => n <| i_mtime := t |>) ;;;
  f <- get_file filp ;;
  when (negb (truth (Z.land (f_flags f) O_APPEND)))
    (mod_file filp (fun f => f <| f_pos := pos |>) ;;;
     t <- current_time ;; mod_inode inode (fun n => n <| i_ctime := t |>)) ;;;
  ret (if truth i then i else -1).

(** ** Block devices: the result and the new position *)
Definition block_write_step (dev : Z) (st : Z * Z * Z * Z * Z * Z) :
    M fs ((Z * Z * Z * Z * Z * Z) + (Z * Z)) :=
  let '(block, offset, pos, buf, count, written) := st in
  if negb (0 <? count) then ret (inr (written, pos)) else
  let chars := Z.min (BLOCK_SIZE - offset) count in
  o <- (if chars =? BLOCK_SIZE then bh <- getblk dev block ;; ret (Some bh)
        else breada dev block [block + 1; block + 2; -1]) ;;
  match o with
  | None => ret (inr (if truth written then written else - EIO, pos))
  | Some bh =>
      from_user bh offset buf chars ;;;
      mod_buf bh (fun b => b <| b_dirt := 1 |>) ;;;
      brelse (Some bh) ;;;
      ret (inl (block + 1, 0, i32 (pos + chars), buf + chars, count - chars, written + chars))
  end.
Definition block_write (dev pos buf count : Z) : M fs (Z * Z) :=
  loop (S (Z.to_nat count)) (block_write_step dev)
    (Z.shiftr pos 10, Z.land pos (BLOCK_SIZE - 1), pos, buf, count, 0).

Definition block_read_step (dev : Z) (st : Z * Z * Z * Z * Z * Z) :
    M fs ((Z * Z * Z * Z * Z * Z) + (Z * Z)) :=
  let '(block, offset, pos, buf, count, read) := st in
  if negb (0 <? count) then ret (inr (read, pos)) else
  let chars := Z.min (BLOCK_SIZE - offset) count in
  o <- breada dev block [block + 1; block + 2; -1] ;;
  match o with
  | None => ret (inr (if truth read then read else - EIO, pos))
  | Some bh =>
      to_user bh offset buf chars ;;;
      brelse (Some bh) ;;;
      ret (inl (block + 1, 0, u32 (pos + chars), buf + chars, count - chars, read + chars))
  end.
(** Its position is unsigned. *)
Definition block_read (dev pos buf count : Z) : M fs (Z * Z) :=
  loop (S (Z.to_nat count)) (block_read_step dev)
    (i32 (Z.shiftr pos 10), Z.land pos (BLOCK_SIZE - 1), pos, buf, count, 0).

(** ** Pipes: a ring of a page, its head in zone 0 and its tail in zone 1 *)
Definition PIPE_HEAD (n : m_inode) : Z := zone n 0.
Definition PIPE_TAIL (n : m_inode) : Z := zone n 1.
Definition PIPE_SIZE (n : m_inode) : Z := Z.land (PIPE_HEAD n - PIPE_TAIL n) (PAGE_SIZE - 1).

(** Waits until [room] is not zero; [None] when the other end is closed. *)
Definition pipe_wait (inode : nat) (room : m_inode -> Z) : M fs (option Z) :=
  loop fuel (fun _ : unit =>
    n <- get_inode inode ;;
    let size := room n in
    if truth size then ret (inr (Some size)) else
    fs_wake_up (i_wait inode) ;;;
    n <- get_inode inode ;;
    if negb (i_count n =? 2) then ret (inr None) else
    fs_sleep_on (i_wait inode) ;;; ret (inl tt)) tt.
Definition page_byte (a k : Z) : M fs Z :=
  s <- get ;; p <- deref (pages s !! a) ;; deref (p !! Z.to_nat k).
Definition set_page_byte (a k v : Z) : M fs unit :=
  page_byte a k ;;; modify (fun s => s <| pages ::= alter (set_byte k v) a |>).

Definition read_pipe_step (inode : nat) (st : Z * Z * Z) : M fs ((Z * Z * Z) + Z) :=
  let '(buf, count, read) := st in
  if negb (0 <? count) then fs_wake_up (i_wait inode) ;;; ret (inr read) else
  o <- pipe_wait inode PIPE_SIZE ;;
  match o with
  | None => ret (inr read)
  | Some size =>
      n <- get_inode inode ;;
      let tail := PIPE_TAIL n in
      let chars := Z.min (Z.min (PAGE_SIZE - tail) count) size in
      mod_inode inode (set_zone 1 (Z.land (u16 (tail + chars)) (PAGE_SIZE - 1))) ;;;
      for_each (seqZ 0 chars) (fun k => v <- page_byte (i_size n) (tail + k) ;; fs_put_byte v (buf + k)) ;;;
      ret (inl (buf + chars, count - chars, read + chars))
  end.
Definition read_pipe (inode : nat) (buf count : Z) : M fs Z :=
  loop (S (Z.to_nat count)) (read_pipe_step inode) (buf, count, 0).

Definition write_pipe_step (inode : nat) (st : Z * Z * Z) : M fs ((Z * Z * Z) + Z) :=
  let '(buf, count, written) := st in
  if negb (0 <? count) then fs_wake_up (i_wait inode) ;;; ret (inr written) else
  o <- pipe_wait inode (fun n => PAGE_SIZE - 1 - PIPE_SIZE n) ;;
  match o with
  | None =>
      in_kernel (mod_cur (fun t => t <| signal ::= fun x => Z.lor x (Z.shiftl 1 (SIGPIPE - 1)) |>)) ;;;
      ret (inr (if truth written then written else -1))
  | Some size =>
      n <- get_inode inode ;;
      let head := PIPE_HEAD n in
      let chars := Z.min (Z.min (PAGE_SIZE - head) count) size in
      mod_inode inode (set_zone 0 (Z.land (u16 (head + chars)) (PAGE_SIZE - 1))) ;;;
      for_each (seqZ 0 chars) (fun k => v <- fs_get_byte (buf + k) ;; set_page_byte (i_size n) (head + k) v) ;;;
      ret (inl (buf + chars, count - chars, written + chars))
  end.
Definition write_pipe (inode : nat) (buf count : Z) : M fs Z :=
  loop (S (Z.to_nat count)) (write_pipe_step inode) (buf, count, 0).
End FileDev.

(** ** Copies *)
Definition user_bytes (k : kernel) (buf n : Z) : list Z :=
  map (fun i => u8 (default 0 (umem k !! u32 (buf + i)))) (seqZ 0 n).

Lemma length_splice off src l : (off + length src <= length l)%nat -> length (splice off src l) = length l.
Proof. intros H. unfold splice. rewrite !length_app, length_take, length_drop. lia. Qed.
Lemma lookup_splice off src l j : (off + length src <= length l)%nat ->
  splice off src l !! j = if decide (off <= j < off + length src)%nat then src !! (j - off)%nat else l !! j.
Proof.
  intros H. unfold splice. assert (length (take off l) = off) as Ht by (rewrite length_take; lia).
  destruct (decide (off <= j < off + length src)%nat) as [Hj|Hj].
  - rewrite lookup_app_r by lia. rewrite Ht. by rewrite lookup_app_l by lia.
  - destruct (decide (j < off)%nat).
    + rewrite lookup_app_l by lia. by rewrite lookup_take_lt.
    + rewrite !lookup_app_r by lia. rewrite Ht, lookup_drop. f_equal. lia.
Qed.
Lemma splice_snoc off src v l : (off + length src < length l)%nat ->
  <[(off + length src)%nat := v]> (splice off src l) = splice off (src ++ [v]) l.
Proof.
  intros H. unfold splice. rewrite length_app. cbn [length].
  assert (length (take off l) = off) as Ht by (rewrite length_take; lia).
  rewrite insert_app_r_alt by lia. rewrite Ht. replace (off + length src - off)%nat with (length src) by lia.
  rewrite insert_app_r_alt by lia. rewrite Nat.sub_diag.
  rewrite <- (app_assoc src). f_equal. f_equal.
  replace (off + (length src + 1))%nat with (S (off + length src)) by lia.
  destruct (lookup_lt_is_Some_2 l (off + length src)) as [x Hx]; [lia|].
  by rewrite (drop_S _ x).
Qed.
Lemma user_bytes_snoc k buf n : 0 <= n ->
  user_bytes k buf (n + 1) = user_bytes k buf n ++ [u8 (default 0 (umem k !! u32 (buf + n)))].
Proof. intros H. unfold user_bytes. rewrite seqZ_app by lia. by rewrite map_app. Qed.
Lemma length_user_bytes k buf n : length (user_bytes k buf n) = Z.to_nat n.
Proof. unfold user_bytes. by rewrite length_map, length_seqZ. Qed.

Section Copies.
Context (s : fs) (bh : nat) (b : buffer_head) (p buf n : Z).
Hypothesis (Hb : bufs s !! bh = Some b) (Hp : 0 <= p) (Hn : 0 <= n) (Hfit : p + n <= Z.of_nat (length (b_data b))).

Definition filled (i : Z) : buffer_head := b <| b_data := splice (Z.to_nat p) (user_bytes (kern s) buf i) (b_data b) |>.
Lemma from_user_ok :
  wp (from_user bh p buf n) (fun _ s' => s' = s <| bufs ::= <[bh := filled n]> |>) s.
Proof.
  pose proof (lookup_lt_Some _ _ _ Hb) as Hlt.
  apply (wp_for_seq n _ (fun i s' => s' = s <| bufs ::= <[bh := filled i]> |>) 0 Hn).
  - intros i s' Hi ->. set (s1 := s <| bufs ::= <[bh := filled i]> |>).
    assert (bufs s1 !! bh = Some (filled i)) as Hb1 by (cbn; by rewrite list_lookup_insert_eq).
    apply wp_bind. unfold wp at 1, fs_get_byte, in_kernel, zoom, get_fs_byte, gets. change (kern s1) with (kern s).
    replace (s1 <| kern := kern s |>) with s1 by (by destruct s). set (v := default 0 _).
    apply wp_bind. unfold wp at 1. rewrite (get_buf_run s1 bh _ Hb1).
    assert (length (b_data (filled i)) = length (b_data b)) as Hlen.
    { change (b_data (filled i)) with (splice (Z.to_nat p) (user_bytes (kern s) buf i) (b_data b)).
      apply length_splice. rewrite length_user_bytes. lia. }
    destruct (lookup_lt_is_Some_2 (b_data (filled i)) (Z.to_nat (p + i))) as [x Hx]; [lia|]. rewrite Hx.
    apply wp_bind. apply (wp_deref _ _ _ x); [done|]. unfold wp. rewrite (mod_buf_run s1 bh _ _ Hb1).
    unfold s1, upd at 1 3, upd_bufs. cbn. rewrite list_insert_insert_eq. f_equal. f_equal.
    change ((filled i) <| b_data ::= set_byte (p + i) v |>) with (b <| b_data := set_byte (p + i) v (splice (Z.to_nat p) (user_bytes (kern s) buf i) (b_data b)) |>).
    unfold filled at 2. rewrite user_bytes_snoc, <- splice_snoc by (rewrite ?length_user_bytes; lia).
    unfold set_byte. by rewrite length_user_bytes, <- Z2Nat.inj_add by lia.
  - unfold filled, user_bytes. rewrite seqZ_nil by lia. cbn [map]. unfold splice. cbn [length app]. rewrite Nat.add_0_r, take_drop.
    destruct s, b. cbn in *. unfold upd, upd_bufs, upd_b_data. cbn. by rewrite list_insert_id.
Qed.
End Copies.

(** ** A block written whole is lost

    [block_write] takes the buffer of a block it writes whole from [getblk] and never
    marks it up to date. *)
Section Lost.
Context {E : Env} {Y : Sync} {dev : Z} {D : SyncDevice dev}.
Hypothesis (Hfuel : (0 < fuel)%nat) (Hdev : 0 < dev < 65536).

Definition stale (n : Z) (b : buffer_head) : Prop :=
  b_dev b = dev /\ b_blocknr b = n /\ b_uptodate b = 0 /\ b_count b = 0.
Lemma block_write_stale s n pos buf : serving s -> can_get s dev n -> (forall i, ~ caches s dev n i) ->
  0 <= n < blocks s -> wchan (kern s) !! buffer_wait = None ->
  wp (block_write_step dev (n, 0, pos, buf, 1024, 0)) (fun r s' =>
    r = inl (n + 1, 0, i32 (pos + 1024), buf + 1024, 0, 1024) /\
    quiet s' /\ ready s' /\ blocks s' = blocks s /\ stored s' n = stored s n /\
    exists bh b, bufs s' !! bh = Some b /\ stale n b) s.
Proof.
  intros Hs Hcan Hnew Hn Hw. pose proof Hs as (Hq & Hr & _). unfold block_write_step. cbv zeta.
  change (negb (0 <? 1024)) with false. cbv iota. change (Z.min (BLOCK_SIZE - 0) 1024) with 1024.
  change (1024 =? BLOCK_SIZE) with true. cbv iota. apply wp_bind, wp_bind.
  eapply wp_mono; [by apply (getblk_spec Hfuel s dev n)|]. cbv beta. intros bh s1 (Hq1 & Hc1 & _ & b & Hb & Hgot).
  destruct Hgot as [(b0 & Hb0 & E1 & E2 & _)|(b0 & _ & _ & _ & Ec)].
  { exfalso. apply (Hnew bh). by exists b0. }
  apply buffer_core_fields in Ec as (_ & En & Ed & Eu & _ & Eco & _).
  assert (b_dev b = dev /\ b_blocknr b = n /\ b_uptodate b = 0 /\ b_count b = 1) as (F1 & F2 & F3 & F4).
  { rewrite Ed, En, Eu, Eco. change (u16 dev = dev /\ u32 n = n /\ 0 = 0 /\ 1 = 1). destruct Hcan as (_ & ? & _).
    rewrite u32_id by lia. unfold u16. rewrite Z.mod_small by lia. done. }
  unfold wp at 1. cbn [ret]. cbv beta iota. apply wp_bind.
  destruct (quiet_in_range s1 bh b Hq1 Hb) as [Hr1 Hl1]. assert (length (b_data b) = 1024%nat) as Hlen by apply Hr1.
  eapply wp_mono; [apply (from_user_ok s1 bh b 0 buf 1024); [done|lia|lia|rewrite Hlen; lia]|]. cbv beta. intros [] s2 ->.
  set (b2 := filled s1 b 0 buf 1024). pose proof (lookup_lt_Some _ _ _ Hb) as Hlt.
  assert (length (b_data b2) = 1024%nat) as Hlen2.
  { change (b_data b2) with (splice (Z.to_nat 0) (user_bytes (kern s1) buf 1024) (b_data b)). rewrite length_splice; [done|].
    rewrite length_user_bytes, Hlen. lia. }
  assert (quiet (s1 <| bufs ::= <[bh := b2]> |>)) as Hq2 by (apply (quiet_mod s1 bh b); [done..|]; repeat split; try apply Hr1; done).
  set (s2 := s1 <| bufs ::= <[bh := b2]> |>) in *.
  assert (bufs s2 !! bh = Some b2) as Hb2 by (cbn; by rewrite list_lookup_insert_eq).
  apply wp_bind. unfold wp at 1. rewrite (mod_buf_run s2 bh b2 _ Hb2). set (b3 := b2 <| b_dirt := 1 |>).
  assert (quiet (s2 <| bufs ::= <[bh := b3]> |>)) as Hq3.
  { apply (quiet_mod s2 bh b2); [done..|]. split; [apply Hr1|]. split; [apply Hr1|]. split; [apply Hr1|]. split; [cbn; lia|done]. }
  set (s3 := s2 <| bufs ::= <[bh := b3]> |>) in *.
  assert (bufs s3 !! bh = Some b3) as Hb3 by (cbn; rewrite list_lookup_insert_eq; [done|by rewrite length_insert]).
  assert (kern s1 = kern s) as Hk1 by (by rewrite Hc1).
  destruct (brelse_run Hfuel s3 bh b3 Hq3 Hb3) as [Hrel Hq4].
  { change (b_count b3) with (b_count b). lia. }
  { change (kern s3) with (kern s1). by rewrite Hk1. }
  apply wp_bind. unfold wp at 1. rewrite Hrel. unfold wp, ret. split; [by rewrite Z.add_comm|]. split; [done|].
  set (s4 := s3 <| bufs ::= _ |>) in *.
  assert (same_device s1 s4) as Hsd by done.
  destruct (device_frame s s1 (cache_only_device _ _ Hc1) Hr) as (Hr1' & Hbl1 & Hst1).
  destruct (device_frame s1 s4 Hsd Hr1') as (Hr4 & Hbl4 & Hst4).
  split; [done|]. split; [congruence|]. split; [by rewrite Hst4, Hst1|].
  exists bh, (released b3). split; [cbn; rewrite list_lookup_insert_eq; [done|by rewrite !length_insert]|].
  unfold stale. change (b_dev (released b3)) with (b_dev b). change (b_blocknr (released b3)) with (b_blocknr b).
  change (b_uptodate (released b3)) with (b_uptodate b). change (b_count (released b3)) with (b_count b - 1).
  rewrite F4. done.
Qed.
(** The stale buffer is read from the device. *)
Lemma bread_stale s n bh b : quiet s -> ready s -> 0 <= n < blocks s -> n < 4294967296 -> bufs s !! bh = Some b -> stale n b ->
  wp (bread dev n) (fun o s' => exists bh b, o = Some bh /\ bufs s' !! bh = Some b /\
    b_dev b = dev /\ b_blocknr b = n /\ b_uptodate b = 1 /\ b_dirt b = 0 /\ b_data b = stored s n) s.
Proof.
  intros Hq Hr Hn Hn2 Hb (E1 & E2 & E3 & E4). unfold bread. apply wp_bind.
  assert (forall i c, bufs s !! i = Some c -> b_dev c = dev -> b_blocknr c = n -> i = bh) as Huniq.
  { intros i c Hc Ed En. destruct Hq as [(fl & ch & Hok) _]. apply (ok_unique _ _ _ Hok i bh c b); [done|done|lia|congruence|congruence]. }
  eapply wp_mono; [apply (getblk_spec Hfuel s dev n); [done|]|].
  { split; [done|]. split; [lia|]. split.
    - intros i c Hc Ed En. rewrite (Huniq i c Hc Ed En), Hb in Hc. injection Hc as <-. lia.
    - left. exists bh. by exists b. }
  cbv beta. intros i s1 (Hq1 & Hc1 & _ & b1 & Hb1 & Hgot).
  destruct (device_frame s s1 (cache_only_device _ _ Hc1) Hr) as (Hr1 & Hbl1 & Hst1).
  destruct Hgot as [(b0 & Hb0 & Ed0 & En0 & Ec)|(b0 & Hnew & _)].
  2: { exfalso. apply (Hnew bh). by exists b. }
  assert (i = bh) as -> by (by apply (Huniq i b0)). rewrite Hb in Hb0. injection Hb0 as <-.
  apply buffer_core_fields in Ec as (_ & En & Ed & Eu & _ & Eco & _).
  change (b_blocknr (counted b)) with (b_blocknr b) in En. change (b_dev (counted b)) with (b_dev b) in Ed.
  change (b_uptodate (counted b)) with (b_uptodate b) in Eu.
  destruct (quiet_in_range s1 bh b1 Hq1 Hb1) as [Hrange Hl1].
  apply wp_bind. unfold wp at 1. rewrite (get_buf_run s1 bh b1 Hb1), Eu, E3. change (truth 0) with false. cbv iota.
  apply wp_bind. eapply wp_mono; [apply (read_block s1 bh b1); try done; [congruence|congruence|rewrite Hbl1; lia|apply Hrange]|].
  cbv beta. intros [] s2 (_ & _ & _ & (Hbufs & _)). rewrite Hst1, En, E2 in Hbufs.
  set (b2 := b1 <| b_data := stored s n |> <| b_uptodate := 1 |> <| b_dirt := 0 |>) in Hbufs.
  assert (bufs s2 !! bh = Some b2) as Hb2 by (rewrite Hbufs; apply list_lookup_insert_eq; by eapply lookup_lt_Some).
  apply wp_bind. unfold wp at 1. rewrite (wait_on_buffer_run Hfuel s2 bh b2 Hb2 Hl1).
  apply wp_bind. unfold wp at 1. rewrite (get_buf_run s2 bh b2 Hb2). change (b_uptodate b2) with 1. change (truth 1) with true. cbv iota.
  exists bh, b2. split; [done|]. split; [done|]. split; [exact (eq_trans Ed E1)|]. split; [exact (eq_trans En E2)|]. done.
Qed.

(** C20: a block written through the block device is lost.  [block_write] of one whole block that is not
    in the cache answers that it wrote 1024 bytes, but [getblk] handed it a buffer that is not up to
    date and nothing marks it so: the next [bread] of the block reads the device again, and the
    buffer holds, clean, what was stored before the write. *)
Theorem block_write_lost s n buf : serving s -> can_get s dev n -> (forall i, ~ caches s dev n i) ->
  0 <= n < blocks s -> 1024 * n + 1024 < 2147483648 -> wchan (kern s) !! buffer_wait = None ->
  wp (r <- block_write dev (1024 * n) buf 1024 ;; o <- bread dev n ;; ret (r, o)) (fun a s' =>
    a.1 = (1024, 1024 * n + 1024) /\ exists bh b, a.2 = Some bh /\ bufs s' !! bh = Some b /\
    b_dev b = dev /\ b_blocknr b = n /\ b_uptodate b = 1 /\ b_dirt b = 0 /\ b_data b = stored s n) s.
Proof.
  intros Hs Hcan Hnew Hn Hlong Hw. unfold block_write.
  assert (Z.shiftr (1024 * n) 10 = n) as -> by (rewrite Z.shiftr_div_pow2 by lia; change (2 ^ 10) with 1024; rewrite Z.mul_comm; by apply Z.div_mul).
  assert (Z.land (1024 * n) (BLOCK_SIZE - 1) = 0) as ->.
  { change (BLOCK_SIZE - 1) with (Z.ones 10). rewrite Z.land_ones by lia. change (2 ^ 10) with 1024. rewrite Z.mul_comm. by apply Z.mod_mul. }
  destruct (Z.to_nat 1024) as [|m] eqn:Em; [lia|]. cbn [loop]. do 2 apply wp_bind.
  eapply wp_mono; [by apply block_write_stale|]. cbv beta. intros r s1 (-> & Hq1 & Hr1 & Hbl1 & Hst1 & bh & b & Hb & Hstale).
  apply wp_bind. unfold wp at 1. unfold block_write_step. change (negb (0 <? 0)) with true. cbv iota. cbn [ret].
  unfold wp at 1, ret at 1. apply wp_bind.
  eapply wp_mono; [apply (bread_stale s1 n bh b); try done; lia|]. cbv beta. intros o s2 (bh2 & b2 & Ho & H2).
  unfold wp, ret. split; [cbn [fst]; by rewrite i32_id by lia|]. exists bh2, b2. by rewrite <- Hst1.
Qed.
End Lost.

#[local] Instance idle_sync : Sync := ret tt.
#[local] Notation two_buffers := (after (buffer_init 0 (fun _ => no_buffer) (fun _ => replicate 1024 0) 3072) two_blocks).
Lemma block_write_lost_witness :
  wp (r <- block_write (E := idle_env) 257 (1024 * 1) 0 1024 ;; o <- bread (E := idle_env) 257 1 ;; ret (r, o)) (fun a s' =>
    a.1 = (1024, 1024 * 1 + 1024) /\ exists bh b, a.2 = Some bh /\ bufs s' !! bh = Some b /\
    b_dev b = 257 /\ b_blocknr b = 1 /\ b_uptodate b = 1 /\ b_dirt b = 0 /\
    b_data b = stored (SyncDevice := ramdisk idle_fuel) two_buffers 1) two_buffers.
Proof.
  destruct two_buffers_serving as (Hs & HN & Hsd & Hidle).
  apply (block_write_lost (D := ramdisk idle_fuel) idle_fuel).
  - lia.
  - exact Hs.
  - split; [lia|]. split; [lia|]. split.
    + intros i b Hb Hd. destruct (Hidle i b Hb) as [_ Hd']. lia.
    + right. destruct (lookup_lt_is_Some_2 (bufs two_buffers) 0) as [b Hb]; [lia|]. exists 0%nat, b.
      split; [exact Hb|]. apply (Hidle 0%nat b Hb).
  - intros i (b & Hb & Hd & _). destruct (Hidle i b Hb) as [_ Hd']. lia.
  - rewrite two_buffers_blocks. lia.
  - lia.
  - destruct Hsd as (_ & _ & _ & _ & _ & ->). vm_compute. reflexivity.
Defined.
End FileDev.
