(* ===== verification/View.v ===== *)
(** * View: blocks and files as the programs above the buffer cache see them

    On top of the cache of a device that transfers at once: borrowing and returning a
    buffer, the blocks of a file ([bmap] computes [zones]) and the bytes of a file. *)
From S2P Require Import Prelude Console Task Sched Fs Blk Buffer Bitmap Inode FileDev.
Import Blk Buffer Bitmap Inode FileDev.

Module View.

(** The tables that reading a block leaves alone. *)
Definition rest_same (s s' : fs) : Prop :=
  kern s' = kern s /\ inode_table s' = inode_table s /\ last_inode s' = last_inode s /\ super_blocks s' = super_blocks s /\
  file_table s' = file_table s /\ ROOT_DEV s' = ROOT_DEV s /\ pages s' = pages s.
(** The same cache and the same drivers. *)
Definition same_cache (s s' : fs) : Prop :=
  bufs s' = bufs s /\ hash_table s' = hash_table s /\ free_list s' = free_list s /\ null_b_prev s' = null_b_prev s /\
  same_device s s'.
#[export] Instance rest_same_preorder : PreOrder rest_same.
Proof. split; [done|]. intros s1 s2 s3 H1 H2. unfold rest_same in *. intuition congruence. Qed.

Lemma cache_only_rest s s' : cache_only s s' -> rest_same s s'.
Proof. unfold cache_only. by intros ->. Qed.
Lemma transferred_rest bh b s s' : transferred bh b s s' -> rest_same s s'.
Proof. unfold transferred, rest_same. tauto. Qed.
Lemma same_cache_quiet s s' : same_cache s s' -> quiet s -> quiet s'.
Proof.
  intros (Eb & Eh & Ef & En & _) [(fl & ch & Hok) Hcalm]. split.
  - exists fl, ch. apply (cache_ok_keyed s); [done| | |by split].
    + intros i. by rewrite Eb.
    + rewrite Eb. apply (ok_range _ _ _ Hok).
  - unfold calm. by rewrite Eb.
Qed.

(** ** User memory *)

(** The bytes [l] stored from address [a] on. *)
Definition put_list (m : gmap Z Z) (a : Z) (l : list Z) : gmap Z Z :=
  fst (foldl (fun '(m, a) v => (<[u32 a := u8 v]> m, a + 1)) (m, a) l).
Lemma put_list_addr (m : gmap Z Z) a l :
  snd (foldl (fun '(m, a) v => (<[u32 a := u8 v]> m, a + 1)) (m, a) l) = a + Z.of_nat (length l).
Proof. revert m a. induction l as [|v l IH]; intros m a; cbn [foldl length]; [cbn; lia|]. rewrite IH. lia. Qed.
Lemma put_list_app m a l1 l2 : put_list m a (l1 ++ l2) = put_list (put_list m a l1) (a + Z.of_nat (length l1)) l2.
Proof.
  unfold put_list. rewrite foldl_app. pose proof (put_list_addr m a l1) as Ha.
  destruct (foldl _ (m, a) l1) as [m1 a1]. cbn in Ha |- *. by rewrite Ha.
Qed.
Lemma put_list_snoc m a l v : put_list m a (l ++ [v]) = <[u32 (a + Z.of_nat (length l)) := u8 v]> (put_list m a l).
Proof. by rewrite put_list_app. Qed.
Lemma u32_apart a i j : 0 <= i < 2 ^ 32 -> 0 <= j < 2 ^ 32 -> u32 (a + i) = u32 (a + j) -> i = j.
Proof. unfold u32. intros Hi Hj H. change (2 ^ 32) with 4294967296 in *. dlia. Qed.
Lemma put_list_lookup m a l i v : Z.of_nat (length l) <= 2 ^ 32 -> l !! i = Some v ->
  put_list m a l !! u32 (a + Z.of_nat i) = Some (u8 v).
Proof.
  revert i v. induction l as [|w l IH] using rev_ind; intros i v Hlen Hi; [done|].
  rewrite length_app in Hlen. cbn in Hlen. rewrite put_list_snoc.
  apply lookup_app_Some in Hi as [Hi|[Hge Hi]].
  - rewrite lookup_insert_ne; [apply IH; [lia|done]|]. apply lookup_lt_Some in Hi.
    intros E%u32_apart; lia.
  - apply list_lookup_singleton_Some in Hi as [Hi <-]. replace i with (length l) by lia. apply lookup_insert_eq.
Qed.
Lemma put_list_other m a l b : (forall i, 0 <= i < Z.of_nat (length l) -> b <> u32 (a + i)) -> put_list m a l !! b = m !! b.
Proof.
  induction l as [|w l IH] using rev_ind; intros H; [done|]. rewrite length_app in H. cbn in H.
  rewrite put_list_snoc, lookup_insert_ne; [apply IH; intros; apply H; lia|]. apply not_eq_sym, H. lia.
Qed.
Definition with_umem (s : fs) (m : gmap Z Z) : fs := s <| kern := (kern s) <| umem := m |> |>.
Lemma put_list_user s a l : Z.of_nat (length l) <= 2 ^ 32 ->
  user_bytes (kern (with_umem s (put_list (umem (kern s)) a l))) a (Z.of_nat (length l)) = map u8 l.
Proof.
  intros Hlen. apply list_eq. intros i. unfold user_bytes. change (map ?f ?x) with (f <$> x). rewrite !list_lookup_fmap.
  destruct (l !! i) as [v|] eqn:Ev.
  - pose proof (lookup_lt_Some _ _ _ Ev). rewrite lookup_seqZ_lt by lia. cbn [fmap option_fmap option_map].
    change (umem (kern (with_umem s ?m))) with m. rewrite Z.add_0_l, (put_list_lookup _ _ _ _ v) by done.
    change (default 0 (Some (u8 v))) with (u8 v). by rewrite (u8_id (u8 v)) by apply u8_range.
  - apply lookup_ge_None in Ev. rewrite lookup_seqZ_ge by lia. done.
Qed.

(** A loop that stores byte after byte. *)
Lemma put_loop (f : Z -> M fs unit) (g : Z -> Z) s buf n : 0 <= n ->
  (forall k m, 0 <= k < n -> f k (with_umem s m) = Done tt (with_umem s (<[u32 (buf + k) := u8 (g k)]> m))) ->
  for_each (seqZ 0 n) f s = Done tt (with_umem s (put_list (umem (kern s)) buf (map g (seqZ 0 n)))).
Proof.
  intros Hn Hf. pose proof (wp_for_seq n f (fun k s' =>
    s' = with_umem s (put_list (umem (kern s)) buf (map g (seqZ 0 k)))) 0 Hn) as H.
  assert (wp (for_each (seqZ 0 n) f) (fun _ s' => s' = with_umem s (put_list (umem (kern s)) buf (map g (seqZ 0 n)))) s) as Hw.
  { eapply wp_mono; [apply H|by intros [] s' ->].
    - intros k s' Hk ->. unfold wp. rewrite Hf by lia. rewrite seqZ_app by lia. rewrite map_app, Z.add_0_l. cbn [map].
      change (seqZ k 1) with [k]. cbn [map]. rewrite put_list_snoc, length_map, length_seqZ. by rewrite Z2Nat.id by lia.
    - by destruct s as [[]]. }
  unfold wp in Hw. destruct (for_each _ f s) as [[] s'| | |]; try done. by subst.
Qed.
Lemma put_byte_at s m v a : fs_put_byte v a (with_umem s m) = Done tt (with_umem s (<[u32 a := u8 v]> m)).
Proof. reflexivity. Qed.
Lemma to_user_run s bh b p buf n : bufs s !! bh = Some b -> 0 <= p -> 0 <= n -> p + n <= Z.of_nat (length (b_data b)) ->
  to_user bh p buf n s = Done tt (with_umem s (put_list (umem (kern s)) buf (map (fun k => byte (b_data b) (p + k)) (seqZ 0 n)))).
Proof.
  intros Hb Hp Hn Hfit. apply put_loop; [done|]. intros k m Hk.
  run (get_buf_run (with_umem s m) bh b Hb). unfold byte.
  destruct (lookup_lt_is_Some_2 (b_data b) (Z.to_nat (p + k))) as [x Hx]; [lia|]. rewrite Hx. change (default 0 (Some x)) with x. cbn [deref].
  rewrite bind_ret. apply put_byte_at.
Qed.
Lemma zero_user_run s buf n : 0 <= n ->
  zero_user buf n s = Done tt (with_umem s (put_list (umem (kern s)) buf (map (fun _ => 0) (seqZ 0 n)))).
Proof. intros Hn. by apply put_loop. Qed.

Section View.
Context {E : Env} {dev : Z} {D : SyncDevice dev}.
Hypothesis (Hfuel : (0 < fuel)%nat) (Hdev : 0 < dev < 65536).

(** ** Borrowing a buffer *)

(** The cache serves, and a block can be read: some buffer is unused and clean. *)
Record spare (s : fs) : Prop := {
  sp_serving : serving s;
  sp_count i b : bufs s !! i = Some b -> b_count b < 255;
  sp_idle : exists i b, bufs s !! i = Some b /\ idle b;
  sp_wait : wchan (kern s) !! buffer_wait = None;
  sp_blocks : blocks s <= 4294967296
}.
(** The same with buffer [bh] in hand; it may be the last one. *)
Record lent (s : fs) (bh : nat) (b : buffer_head) : Prop := {
  le_serving : serving s;
  le_buf : bufs s !! bh = Some b;
  le_held : 0 < b_count b <= 255;
  le_count i c : i <> bh -> bufs s !! i = Some c -> b_count c < 255;
  le_idle : exists i c, bufs s !! i = Some c /\ idle (if decide (i = bh) then released c else c);
  le_wait : wchan (kern s) !! buffer_wait = None;
  le_blocks : blocks s <= 4294967296
}.

Lemma same_cache_serving s s' : same_cache s s' -> serving s -> serving s' /\ same_view s s'.
Proof.
  intros Hc (Hq & Hr & Hco). pose proof Hc as (Eb & _ & _ & _ & Hd).
  destruct (device_frame s s' Hd Hr) as (Hr' & Hbl & Hst). split.
  - split; [by apply (same_cache_quiet s)|]. split; [done|]. intros i b Hb Hdb. rewrite Eb in Hb.
    rewrite Hbl, Hst. by apply (Hco i b).
  - split; [done|]. intros n _. unfold view. rewrite Eb. by destruct (List.find _ _).
Qed.
Lemma same_cache_spare s s' : same_cache s s' -> spare s -> spare s' /\ same_view s s'.
Proof.
  intros Hc [H1 H2 H3 H4 Hbl]. pose proof Hc as (Eb & _ & _ & _ & (_ & _ & _ & _ & _ & Ew)).
  destruct (same_cache_serving s s' Hc H1) as [H5 H6]. split; [|done]. split; rewrite ?Eb, ?Ew, ?(proj1 H6); done.
Qed.
Lemma same_cache_lent s s' bh b : same_cache s s' -> lent s bh b -> lent s' bh b /\ same_view s s'.
Proof.
  intros Hc [H1 H2 H3 H4 H5 H6 Hbl]. pose proof Hc as (Eb & _ & _ & _ & (_ & _ & _ & _ & _ & Ew)).
  destruct (same_cache_serving s s' Hc H1) as [H7 H8]. split; [|done]. split; rewrite ?Eb, ?Ew, ?(proj1 H8); done.
Qed.

Lemma spare_can_get s n : spare s -> 0 <= n < 4294967296 -> can_get s dev n.
Proof.
  intros Hs Hn. split; [done|]. split; [done|]. split; [intros i b Hb _ _; by apply (sp_count s Hs i)|].
  right. apply (sp_idle s Hs).
Qed.

(** The buffer that [getblk] answers is borrowed. *)
Lemma got_lent s s' n bh : spare s -> serving s' -> blocks s' = blocks s -> wchan (kern s') = wchan (kern s) -> got s s' dev n bh ->
  exists b, lent s' bh b.
Proof.
  intros [Hs Hcount (i & c & Hi & Hidle) Hw Hbl] Hs' Hbl' Hk (Hothers & b' & Hb' & Hgot).
  assert (forall j d, j <> bh -> bufs s' !! j = Some d -> exists d', bufs s !! j = Some d' /\ core d = core d') as Hback.
  { intros j d Hj Hd. specialize (Hothers j Hj). rewrite Hd in Hothers. destruct (bufs s !! j) as [d'|]; [|done].
    apply (inj Some) in Hothers. by exists d'. }
  assert (exists x, bufs s !! bh = Some x /\ 0 <= b_count x < 255 /\ b_count b' = b_count x + 1 /\ (idle x -> idle (released b'))) as (x & Hx & Hcx & Ecx & Hidx).
  { destruct Hgot as [(x & Hx & _ & _ & Ec)|(x & _ & Hx & [Hx0 Hx1] & Ec)]; exists x; apply buffer_core_fields in Ec as (_ & _ & _ & _ & Edi & Eco & _).
    - destruct (quiet_in_range s bh x (proj1 Hs) Hx) as [Hrange _]. pose proof (Hcount bh x Hx). unfold in_range in Hrange.
      split; [done|]. split; [lia|]. split; [by rewrite Eco|]. intros [I1 I2]. split.
      + change (b_count (released b')) with (b_count b' - 1). rewrite Eco. change (b_count (counted x)) with (b_count x + 1). lia.
      + change (b_dirt b' = 0). by rewrite Edi.
    - split; [done|]. rewrite Hx0. split; [lia|]. split; [by rewrite Eco|]. intros _. split.
      + change (b_count (released b')) with (b_count b' - 1). rewrite Eco. done.
      + change (b_dirt b' = 0). by rewrite Edi. }
  exists b'. split; [done|done|lia| | |by rewrite Hk|by rewrite Hbl'].
  - intros j d Hj Hd. destruct (Hback j d Hj Hd) as (d' & Hd' & Ec). apply buffer_core_fields in Ec as (_ & _ & _ & _ & _ & -> & _). by apply (Hcount j).
  - destruct (decide (i = bh)) as [->|Hne].
    + exists bh, b'. split; [done|]. rewrite decide_True by done. apply Hidx. congruence.
    + specialize (Hothers i Hne). rewrite Hi in Hothers. destruct (bufs s' !! i) as [c'|] eqn:Hc'; [|done].
      apply (inj Some) in Hothers. apply buffer_core_fields in Hothers as (_ & _ & _ & _ & E5 & E6 & _).
      exists i, c'. split; [done|]. rewrite decide_False by done. destruct Hidle. split; congruence.
Qed.

(** The unused buffers, but for [bh], stay unused. *)
Definition idle_kept (s s' : fs) (bh : nat) : Prop :=
  forall i c, i <> bh -> bufs s !! i = Some c -> idle c -> exists c', bufs s' !! i = Some c' /\ idle c'.
(** Buffer [bh] was taken for block [n]: it had the block already or was unused. *)
Definition taken (s s' : fs) (n : Z) (bh : nat) (b : buffer_head) : Prop :=
  (forall i, i <> bh -> core <$> bufs s' !! i = core <$> bufs s !! i) /\
  exists x, bufs s !! bh = Some x /\
    (idle x /\ b_count b = 1 \/ b_dev x = dev /\ b_blocknr x = n /\ b_count b = b_count x + 1).
Lemma got_taken s s' n bh b : got s s' dev n bh -> bufs s' !! bh = Some b -> taken s s' n bh b.
Proof.
  intros [Hothers (b' & Hb' & Hgot)] Hb. rewrite Hb in Hb'. injection Hb' as <-. split; [exact Hothers|].
  destruct Hgot as [(x & Hx & Ed & En & Ec)|(x & _ & Hx & Hidle & Ec)]; exists x; apply buffer_core_fields in Ec as (_ & _ & _ & _ & _ & Eco & _).
  - split; [done|]. right. by rewrite Eco.
  - split; [done|]. left. split; [done|]. by rewrite Eco.
Qed.
Lemma taken_idle s s' n bh b : taken s s' n bh b -> idle_kept s s' bh.
Proof.
  intros [Hothers _] i c Hi Hc [I1 I2]. specialize (Hothers i Hi). rewrite Hc in Hothers.
  destruct (bufs s' !! i) as [c'|]; [|done]. apply (inj Some) in Hothers.
  apply buffer_core_fields in Hothers as (_ & _ & _ & _ & E5 & E6 & _). exists c'. split; [done|]. split; congruence.
Qed.
(** Reading a block: what it holds, in a borrowed buffer. *)
Lemma bread_taken s n : spare s -> 0 <= n < blocks s ->
  wp (bread dev n) (fun o s' => exists bh b, o = Some bh /\ lent s' bh b /\ b_data b = view s n /\
    b_dev b = dev /\ b_blocknr b = n /\ b_uptodate b <> 0 /\ same_view s s' /\ rest_same s s' /\ taken s s' n bh b) s.
Proof.
  intros Hsp Hn. pose proof (sp_serving s Hsp) as Hs. pose proof (sp_blocks s Hsp) as Hbs. unfold bread. apply wp_bind.
  assert (can_get s dev n) as Hcan by (apply spare_can_get; [done|lia]).
  unfold wp at 1. pose proof (getblk_view Hfuel Hdev s n Hs Hcan Hn) as H1. unfold wp in H1.
  pose proof (getblk_spec Hfuel s dev n (proj1 Hs) Hcan) as H2. unfold wp in H2.
  destruct (getblk dev n s) as [bh s1| | |]; try done.
  destruct H1 as (Hs1 & Hv1 & Hk1 & b & Hb & Ed & En & Hc & Hgot). destruct H2 as (_ & Hco1 & _).
  destruct (got_lent s s1 n bh Hsp Hs1 (proj1 Hv1) (f_equal wchan Hk1) Hgot) as [b' Hl]. pose proof (got_taken s s1 n bh b Hgot Hb) as Hkept.
  assert (b' = b) as -> by (pose proof (le_buf _ _ _ Hl); congruence).
  apply wp_bind. unfold wp at 1. rewrite (get_buf_run s1 bh b Hb). unfold truth.
  destruct (Z.eqb_spec (b_uptodate b) 0) as [Hu|Hu]; cbn [negb].
  - apply wp_bind. destruct (proj1 (proj1 Hs1)) as (fl & ch & Hok).
    pose proof (read_view Hfuel Hdev s1 bh b Hs1 Hb Ed Hu) as R. unfold wp in R. unfold wp at 1.
    pose proof (read_block s1 bh b) as R2. destruct Hs1 as (Hq1 & Hr1 & Hcoh1). destruct (Hcoh1 bh b Hb Ed) as (Hrange & _).
    destruct (quiet_in_range s1 bh b Hq1 Hb) as [Hin Hlock].
    specialize (R2 Hr1 Hb Ed Hlock Hu Hrange (proj2 (proj2 (proj2 (proj2 Hin))))). unfold wp in R2.
    destruct (ll_rw_block READ bh s1) as [[] s2| | |]; try done. destruct R as (Hs2 & Hv2 & Hk2 & Hb2). destruct R2 as (_ & _ & _ & Ht).
    set (b2 := b <| b_data := _ |> <| b_uptodate := 1 |> <| b_dirt := 0 |>) in *.
    assert (bufs s2 !! bh = Some b2) as Hb2' by (rewrite Hb2; apply list_lookup_insert_eq; by eapply lookup_lt_Some).
    apply wp_bind. unfold wp at 1. rewrite (wait_on_buffer_run Hfuel s2 bh b2 Hb2' Hlock).
    apply wp_bind. unfold wp at 1. rewrite (get_buf_run s2 bh b2 Hb2'). change (b_uptodate b2) with 1. cbn [truth Z.eqb negb].
    exists bh, b2. split; [done|].
    split; [|split; [|split; [exact Ed|split; [exact En|split; [done|split; [|split]]]]]].
    + destruct Hl as [L1 L2 L3 L4 (j & c & Hj & Hjd) L6 L7]. split; [done|done|exact L3| | |by rewrite Hk2|by rewrite (proj1 Hv2)].
      * intros i d Hi Hd. rewrite Hb2, list_lookup_insert_ne in Hd by done. by apply (L4 i).
      * destruct (decide (j = bh)) as [->|Hne].
        -- exists bh, b2. split; [done|]. rewrite decide_True by done. split; [|done].
           rewrite Hb in Hj. injection Hj as <-. apply Hjd.
        -- exists j, c. rewrite Hb2, list_lookup_insert_ne by done. split; [done|]. by rewrite decide_False.
    + pose proof (view_buffer Hfuel Hdev s2 bh b2 (proj1 Hs2) Hb2' Ed ltac:(done)) as Hvb.
      change (b_blocknr b2) with (b_blocknr b) in Hvb. rewrite En in Hvb. rewrite <- Hvb.
      destruct Hv1 as [B1 V1], Hv2 as [B2 V2]. rewrite V2, V1 by lia. done.
    + by apply (same_view_trans s s1).
    + transitivity s1; [by apply cache_only_rest|]. by apply (transferred_rest bh b2).
    + destruct Hkept as [Hothers Hx]. split; [|exact Hx]. intros i Hi. rewrite Hb2, list_lookup_insert_ne by done. by apply Hothers.
  - exists bh, b. split; [done|]. split; [done|]. split; [|split; [done|split; [done|split; [done|split; [done|split; [by apply cache_only_rest|done]]]]]].
    destruct Hv1 as [B1 V1]. rewrite <- V1 by done. rewrite <- En. symmetry. by apply (view_buffer Hfuel Hdev s1 bh b); [apply Hs1|..].
Qed.
Lemma bread_kept s n : spare s -> 0 <= n < blocks s ->
  wp (bread dev n) (fun o s' => exists bh b, o = Some bh /\ lent s' bh b /\ b_data b = view s n /\
    b_dev b = dev /\ b_blocknr b = n /\ b_uptodate b <> 0 /\ same_view s s' /\ rest_same s s' /\ idle_kept s s' bh) s.
Proof.
  intros Hs Hn. eapply wp_mono; [by apply bread_taken|]. cbv beta. intros o s' (bh & b & H1 & H2 & H3 & H4 & H5 & H6 & H7 & H8 & H9).
  exists bh, b. do 8 (split; [done|]). by apply (taken_idle s s' n bh b).
Qed.
Lemma bread_lent s n : spare s -> 0 <= n < blocks s ->
  wp (bread dev n) (fun o s' => exists bh b, o = Some bh /\ lent s' bh b /\ b_data b = view s n /\
    b_dev b = dev /\ b_blocknr b = n /\ b_uptodate b <> 0 /\ same_view s s' /\ rest_same s s') s.
Proof.
  intros Hs Hn. eapply wp_mono; [by apply bread_kept|]. cbv beta. intros o s' (bh & b & H1 & H2 & H3 & H4 & H5 & H6 & H7 & H8 & _).
  by exists bh, b.
Qed.

(** The count of a buffer does not show. *)
Lemma released_view s bh b : bufs s !! bh = Some b -> 0 < b_count b -> serving s ->
  wchan (kern s) !! buffer_wait = None ->
  serving (s <| bufs ::= <[bh := released b]> |>) /\ same_view s (s <| bufs ::= <[bh := released b]> |>).
Proof.
  intros Hb Hc Hs Hw. set (s' := s <| bufs ::= <[bh := released b]> |>). pose proof Hs as (Hq & Hr & Hco).
  destruct (brelse_run Hfuel s bh b Hq Hb Hc Hw) as [_ Hq'].
  assert (same_device s s') as Hsd by done. destruct (device_frame s s' Hsd Hr) as (Hr' & Hbl & Hst).
  assert (bufs s' !! bh = Some (released b)) as Hb'.
  { apply list_lookup_insert_eq. by eapply lookup_lt_Some. }
  assert (forall i c, bufs s' !! i = Some c -> exists c', bufs s !! i = Some c' /\ b_dev c' = b_dev c /\ b_blocknr c' = b_blocknr c /\
    b_uptodate c' = b_uptodate c /\ b_dirt c' = b_dirt c /\ b_data c' = b_data c) as Hback.
  { intros i c Hi. destruct (decide (i = bh)) as [->|Hne].
    - rewrite Hb' in Hi. injection Hi as <-. by exists b.
    - exists c. split; [|done]. cbn in Hi. by rewrite list_lookup_insert_ne in Hi. }
  assert (serving s') as Hs'.
  { split; [done|]. split; [done|]. intros i c Hi Hd. destruct (Hback i c Hi) as (c' & Hc' & E1 & E2 & E3 & E4 & E5).
    rewrite Hbl, Hst, <- E2, <- E3, <- E4, <- E5. apply (Hco i c' Hc'). congruence. }
  split; [done|]. split; [done|]. intros n Hn.
  destruct (view_cases Hfuel Hdev s' n Hq') as [(i & c & Hi & E1 & E2 & E3 & ->)|[Hnone ->]].
  - destruct (Hback i c Hi) as (c' & Hc' & F1 & F2 & F3 & F4 & F5). rewrite <- F5. symmetry.
    rewrite <- E2, <- F2. apply (view_buffer Hfuel Hdev s i c'); [done|done|congruence|congruence].
  - rewrite Hst. symmetry. apply (view_stored Hdev). intros i c Hi Ed En. destruct (decide (i = bh)) as [->|Hne].
    + rewrite Hb in Hi. injection Hi as <-. apply (Hnone bh (released b)); done.
    + apply (Hnone i c); [|done|done]. cbn. by rewrite list_lookup_insert_ne.
Qed.
Lemma brelse_lent s bh b : lent s bh b ->
  wp (brelse (Some bh)) (fun _ s' => spare s' /\ same_view s s' /\ rest_same s s') s.
Proof.
  intros [L1 L2 L3 L4 (j & c & Hj & Hjd) L6 L7]. pose proof (lookup_lt_Some _ _ _ L2) as Hlt.
  destruct (brelse_run Hfuel s bh b (proj1 L1) L2 ltac:(lia) L6) as [Hrun _]. unfold wp. rewrite Hrun.
  destruct (released_view s bh b L2 ltac:(lia) L1 L6) as [H1 H2]. split; [|done].
  split; [done| | |done|by rewrite (proj1 H2)].
  - intros i d Hd. cbn in Hd. destruct (decide (i = bh)) as [->|Hne].
    + rewrite list_lookup_insert_eq in Hd by done. injection Hd as <-. change (b_count (released b)) with (b_count b - 1). lia.
    + rewrite list_lookup_insert_ne in Hd by done. by apply (L4 i).
  - exists j. cbn. destruct (decide (j = bh)) as [->|Hne].
    + rewrite L2 in Hj. injection Hj as <-. exists (released b). by rewrite list_lookup_insert_eq.
    + exists c. by rewrite list_lookup_insert_ne.
Qed.

(** ** The blocks of a file *)

(** Block [k] of a file, through the indirect blocks; 0 is a hole. *)
Definition entry (v : Z -> list Z) (z k : Z) : Z := if z =? 0 then 0 else half (v z) (2 * k).
Definition zones (v : Z -> list Z) (n : m_inode) (k : Z) : Z :=
  if k <? 7 then zone n (Z.to_nat k) else
  if k - 7 <? 512 then entry v (zone n 7) (k - 7) else
  entry v (entry v (zone n 8) (Z.shiftr (k - 7 - 512) 9)) (Z.land (k - 7 - 512) 511).
Definition max_blocks : Z := 7 + 512 + 512 * 512.
Definition block_exists (s : fs) (z : Z) : Prop := z <> 0 -> 0 <= z < blocks s.
(** The indirect blocks are blocks of the device. *)
Record placed (s : fs) (n : m_inode) : Prop := {
  pl_dev : i_dev n = dev;
  pl_ind : block_exists s (zone n 7);
  pl_dind : block_exists s (zone n 8);
  pl_entries k : 0 <= k < 512 -> block_exists s (entry (view s) (zone n 8) k)
}.
Lemma same_view_entry s s' z k : same_view s s' -> block_exists s z -> entry (view s') z k = entry (view s) z k.
Proof. intros [_ Hv] Hz. unfold entry. destruct (Z.eqb_spec z 0); [done|]. by rewrite Hv by (by apply Hz). Qed.
Lemma zones_same_view s s' n k : same_view s s' -> placed s n -> 0 <= k < max_blocks -> zones (view s') n k = zones (view s) n k.
Proof.
  clear Hfuel Hdev. intros Hv [P1 P2 P3 P4] Hk. unfold zones. destruct (Z.ltb_spec k 7); [done|].
  destruct (Z.ltb_spec (k - 7) 512); [by apply same_view_entry|].
  rewrite (same_view_entry s s' (zone n 8)) by done. apply same_view_entry; [done|]. apply P4.
  rewrite Z.shiftr_div_pow2 by lia. change (2 ^ 9) with 512. unfold max_blocks in Hk. dlia.
Qed.

(** Reading an entry of an indirect block, then going on. *)
Lemma wp_entry {A} s i n z k (none : M fs A) (next : Z -> M fs A) (Q : A -> fs -> Prop) :
  spare s -> inode_table s !! i = Some n -> i_dev n = dev -> 0 <= z < blocks s -> z <> 0 ->
  (forall s', spare s' -> same_view s s' -> rest_same s s' -> wp (next (entry (view s) z k)) Q s') ->
  wp (o <- bread (i_dev n) z ;;
      match o with
      | None => none
      | Some bh => n <- get_inode i ;; r <- entry_of (i_dev n) bh k false ;; brelse (Some bh) ;;; next r
      end) Q s.
Proof.
  intros Hs Hi Hd Hz Hz0 Hnext. rewrite Hd. apply wp_bind. eapply wp_mono; [by apply bread_lent|].
  cbv beta. intros o s1 (bh & b & -> & Hl & Hdata & _ & _ & _ & Hv & Hrest). cbv iota.
  assert (inode_table s1 !! i = Some n) as Hi1 by (destruct Hrest as (_ & -> & _); done).
  apply wp_bind. unfold wp at 1. rewrite (get_inode_run s1 i n Hi1). apply wp_bind.
  unfold entry_of, wp at 1. rewrite (bind_run _ _ _ _ _ (get_buf_run s1 bh b (le_buf _ _ _ Hl))). cbn [andb]. unfold ret at 1.
  apply wp_bind. eapply wp_mono; [by apply (brelse_lent s1 bh b)|]. cbv beta. intros [] s2 (Hs2 & Hv2 & Hrest2).
  replace (half (b_data b) (2 * k)) with (entry (view s) z k)
    by (unfold entry; rewrite Hdata; by destruct (Z.eqb_spec z 0)).
  apply Hnext; [done|by apply (same_view_trans s s1)|by transitivity s1].
Qed.

Lemma bmap_zones s i n k : spare s -> inode_table s !! i = Some n -> placed s n -> 0 <= k < max_blocks ->
  wp (bmap i k) (fun r s' => r = zones (view s) n k /\ spare s' /\ same_view s s' /\ rest_same s s') s.
Proof.
  intros Hs Hi [P1 P2 P3 P4] Hk. unfold max_blocks in Hk. unfold bmap, _bmap.
  assert (forall j s', inode_table s' !! i = Some n -> zone_of i j false s' = Done (zone n j) s') as Hzone.
  { intros j s' Hi'. unfold zone_of. run (get_inode_run s' i n Hi'). cbn [andb when]. rewrite bind_ret. by run (get_inode_run s' i n Hi'). }
  assert (forall s', inode_table s' !! i = Some n -> get_inode i s' = Done n s') as Hget by (intros; by apply get_inode_run).
  destruct (Z.ltb_spec k 0); [lia|]. destruct (Z.leb_spec (7 + 512 + 512 * 512) k); [lia|]. unfold zones.
  destruct (Z.ltb_spec k 7).
  { unfold wp. rewrite (Hzone _ s Hi). done. }
  cbv zeta. destruct (Z.ltb_spec (k - 7) 512).
  - apply wp_bind. unfold wp at 1. rewrite (Hzone 7%nat s Hi). unfold truth, entry.
    destruct (Z.eqb_spec (zone n 7) 0) as [Hz|Hz]; cbn [negb]; [done|].
    apply wp_bind. unfold wp at 1. rewrite (Hget s Hi).
    apply (wp_entry s i n (zone n 7) (k - 7) (ret 0) ret); try done; [by apply P2|].
    intros s' Hs' Hv Hrest. unfold wp, ret, entry. by destruct (Z.eqb_spec (zone n 7) 0).
  - assert (0 <= Z.shiftr (k - 7 - 512) 9 < 512) as Hhi.
    { rewrite Z.shiftr_div_pow2 by lia. change (2 ^ 9) with 512. dlia. }
    apply wp_bind. unfold wp at 1. rewrite (Hzone 8%nat s Hi). unfold truth.
    destruct (Z.eqb_spec (zone n 8) 0) as [Hz|Hz]; cbn [negb].
    { rewrite Hz. done. }
    apply wp_bind. unfold wp at 1. rewrite (Hget s Hi).
    apply (wp_entry s i n (zone n 8)
      (Z.shiftr (k - 7 - 512) 9) (ret 0) (fun r => if negb (truth r) then ret 0 else n <- get_inode i ;; o <- bread (i_dev n) r ;;
        match o with None => ret 0 | Some bh => n <- get_inode i ;; r <- entry_of (i_dev n) bh (Z.land (k - 7 - 512) 511) false ;; brelse (Some bh) ;;; ret r end));
      try done; [by apply P3|].
    intros s1 Hs1 Hv1 Hrest1. unfold truth. set (r := entry (view s) (zone n 8) _) in *. pose proof (P4 _ Hhi) as Hr. fold r in Hr.
    assert (inode_table s1 !! i = Some n) as Hi1 by (destruct Hrest1 as (_ & -> & _); done).
    destruct (Z.eqb_spec r 0) as [E0|E0]; cbn [negb].
    { rewrite E0. done. }
    apply wp_bind. unfold wp at 1. rewrite (Hget s1 Hi1).
    apply (wp_entry s1 i n r (Z.land (k - 7 - 512) 511) (ret 0) ret); try done; [rewrite (proj1 Hv1); by apply Hr|].
    intros s2 Hs2 Hv2 Hrest2. unfold wp, ret. split; [by apply same_view_entry|].
    split; [done|]. split; [by apply (same_view_trans s s1)|by transitivity s1].
Qed.

(** ** The bytes of a file *)

(** Byte [p] of the file, holes read as nulls. *)
Definition file_byte (v : Z -> list Z) (n : m_inode) (p : Z) : Z :=
  let z := zones v n (p / 1024) in if z =? 0 then 0 else byte (v z) (p mod 1024).
Definition file_bytes (v : Z -> list Z) (n : m_inode) (p len : Z) : list Z := map (file_byte v n) (seqZ p len).

Section FileRead.
Context (s : fs) (i f : nat) (n : m_inode) (x : file) (buf count : Z).
Hypothesis (Hspare : spare s) (Hi : inode_table s !! i = Some n) (Hf : file_table s !! f = Some x).
Hypothesis (Hplaced : placed s n) (Hpos : 0 <= f_pos x) (Hcount : 0 < count) (Hmax : f_pos x + count <= 1024 * max_blocks).
Hypothesis (Hblocks : forall k, 0 <= k < max_blocks -> block_exists s (zones (view s) n k)).

(** After [d] bytes, up to the cache. *)
Definition read_so_far (d : Z) : fs :=
  (with_umem s (put_list (umem (kern s)) buf (file_bytes (view s) n (f_pos x) d)))
    <| file_table ::= <[f := x <| f_pos := f_pos x + d |>]> |>.
Lemma read_more d c s1 : 0 <= d -> 0 <= c -> d + c <= count -> rest_same (read_so_far d) s1 ->
  mod_file f (fun f => f <| f_pos ::= fun p => i32 (p + c) |>) s1 =
    Done tt (s1 <| file_table ::= <[f := x <| f_pos := f_pos x + (d + c) |>]> |>) /\
  rest_same (read_so_far (d + c)) (with_umem (s1 <| file_table ::= <[f := x <| f_pos := f_pos x + (d + c) |>]> |>)
    (put_list (umem (kern s1)) (buf + d) (file_bytes (view s) n (f_pos x + d) c))).
Proof.
  intros Hd Hc Hdc (Ek & Ein & El & Es & Ef & Er & Ep). pose proof (lookup_lt_Some _ _ _ Hf). split.
  - rewrite (mod_file_run s1 f (x <| f_pos := f_pos x + d |>)) by (rewrite Ef; by apply list_lookup_insert_eq).
    f_equal. f_equal. f_equal. change (f_pos (x <| f_pos := f_pos x + d |>)) with (f_pos x + d).
    unfold upd, upd_f_pos. cbn. rewrite i32_id by (unfold max_blocks in Hmax; lia). f_equal. lia.
  - assert (put_list (umem (kern s1)) (buf + d) (file_bytes (view s) n (f_pos x + d) c) =
      put_list (umem (kern s)) buf (file_bytes (view s) n (f_pos x) (d + c))) as ->.
    { rewrite Ek. change (umem (kern (read_so_far d))) with (put_list (umem (kern s)) buf (file_bytes (view s) n (f_pos x) d)).
      unfold file_bytes at 3. rewrite seqZ_app by lia. rewrite map_app, put_list_app. unfold file_bytes at 2.
      rewrite length_map, length_seqZ, Z2Nat.id by lia. done. }
    split; [|split; [|split; [|split; [|split; [|split]]]]]; try done; cbn.
    + by rewrite Ek.
    + rewrite Ef. cbn. by rewrite list_insert_insert_eq.
Qed.

Lemma file_bytes_hole v p c : 0 <= c -> p mod 1024 + c <= 1024 -> zones v n (p / 1024) = 0 ->
  file_bytes v n p c = map (fun _ => 0) (seqZ 0 c).
Proof.
  intros Hc Hfit Hz. unfold file_bytes. apply list_eq. intros k. change (map ?g ?l) with (g <$> l). rewrite !list_lookup_fmap.
  destruct (decide (Z.of_nat k < c)); [|by rewrite !lookup_seqZ_ge by lia].
  rewrite !lookup_seqZ_lt by lia. cbn. unfold file_byte. replace ((p + Z.of_nat k) / 1024) with (p / 1024) by dlia. by rewrite Hz.
Qed.
Lemma file_bytes_block v p c : 0 <= c -> p mod 1024 + c <= 1024 -> zones v n (p / 1024) <> 0 ->
  file_bytes v n p c = map (fun k => byte (v (zones v n (p / 1024))) (p mod 1024 + k)) (seqZ 0 c).
Proof.
  intros Hc Hfit Hz. unfold file_bytes. apply list_eq. intros k. change (map ?g ?l) with (g <$> l). rewrite !list_lookup_fmap.
  destruct (decide (Z.of_nat k < c)); [|by rewrite !lookup_seqZ_ge by lia].
  rewrite !lookup_seqZ_lt by lia. cbn. unfold file_byte. replace ((p + Z.of_nat k) / 1024) with (p / 1024) by dlia.
  destruct (Z.eqb_spec (zones v n (p / 1024)) 0); [done|]. do 2 f_equal. dlia.
Qed.

Definition reading (st : Z * Z) (s1 : fs) : Prop :=
  exists d, 0 <= d <= count /\ st = (buf + d, count - d) /\ spare s1 /\ same_view s s1 /\ rest_same (read_so_far d) s1.
Lemma read_step_ok st s1 : reading st s1 ->
  wp (read_step i f st) (fun r s' => match r with
    | inl st' => reading st' s' /\ (Z.to_nat (snd st') < Z.to_nat (snd st))%nat
    | inr rest => rest = 0 /\ spare s' /\ same_view s s' /\ rest_same (read_so_far count) s' end) s1.
Proof.
  intros (d & Hd & -> & Hs1 & Hv1 & Hr1). unfold read_step, truth.
  destruct (Z.eqb_spec (count - d) 0) as [E0|E0]; cbn [negb].
  { unfold wp, ret. replace d with count in * by lia. done. }
  set (c := Z.min (1024 - (f_pos x + d) mod 1024) (count - d)). assert (0 <= (f_pos x + d) mod 1024 < 1024) as Hmod by (apply Z.mod_pos_bound; lia).
  assert (0 < c <= count - d /\ (f_pos x + d) mod 1024 + c <= 1024) as [Hc Hc2] by lia.
  assert (forall s', rest_same (read_so_far d) s' -> get_file f s' = Done (x <| f_pos := f_pos x + d |>) s') as Hget.
  { intros s' (_ & _ & _ & _ & Ef & _). apply get_file_run. rewrite Ef. apply list_lookup_insert_eq. by eapply lookup_lt_Some. }
  assert (forall s', rest_same (read_so_far d) s' -> inode_table s' !! i = Some n) as Hino by (intros s' (_ & -> & _); exact Hi).
  apply wp_bind. unfold wp at 1. rewrite (Hget s1 Hr1). cbv beta. change (f_pos (x <| f_pos := f_pos x + d |>)) with (f_pos x + d).
  rewrite Z.quot_div_nonneg by (unfold BLOCK_SIZE; lia). change BLOCK_SIZE with 1024.
  assert (0 <= (f_pos x + d) / 1024 < max_blocks) as Hk by (unfold max_blocks in *; dlia).
  assert (placed s1 n) as Hp1.
  { destruct Hplaced as [P1 P2 P3 P4]. split; [done|..]; unfold block_exists; rewrite (proj1 Hv1); [done|done|].
    intros k Hk2. rewrite (same_view_entry s s1) by done. by apply P4. }
  apply wp_bind. eapply wp_mono; [apply (bmap_zones s1 i n); [done|by apply Hino|done|done]|]. cbv beta.
  intros nr s2 (-> & Hs2 & Hv2 & Hr2). rewrite (zones_same_view s s1) by done.
  set (z := zones (view s) n ((f_pos x + d) / 1024)).
  assert (rest_same (read_so_far d) s2) as Hrd by (by transitivity s1).
  destruct (read_more d c s2) as [Hmodf Hafter]; [lia|lia|lia|done|].
  assert (same_view s s2) as Hv by (by apply (same_view_trans s s1)).
  destruct (Z.eqb_spec z 0) as [Hz|Hz]; cbn [negb].
  - rewrite wp_bind. unfold wp at 1, ret at 1. apply wp_bind. unfold wp at 1. rewrite (Hget s2 Hrd).
    change (f_pos (x <| f_pos := f_pos x + d |>)) with (f_pos x + d). cbv zeta. rewrite Z.rem_mod_nonneg by lia. fold c.
    rewrite wp_bind. unfold wp at 1. rewrite Hmodf. set (s3 := s2 <| file_table ::= _ |>) in *.
    rewrite wp_bind. unfold wp at 1. rewrite zero_user_run by lia. rewrite <- (file_bytes_hole (view s) (f_pos x + d)) by (lia || done).
    set (s4 := with_umem s3 _) in *. unfold wp, ret. split; [|cbn [snd]; lia].
    destruct (same_cache_spare s2 s4) as [Hs4 Hv4]; [done|done|].
    exists (d + c). split; [lia|]. split; [f_equal; lia|]. split; [done|]. split; [by apply (same_view_trans s s2)|exact Hafter].
  - assert (0 <= z < blocks s2) as Hzr by (rewrite (proj1 Hv); by apply Hblocks).
    rewrite wp_bind. rewrite wp_bind. unfold wp at 1. rewrite (get_inode_run s2 i n (Hino s2 Hrd)). rewrite (pl_dev s n Hplaced).
    rewrite wp_bind. eapply wp_mono; [by apply bread_lent|]. cbv beta. intros o s3 (bh & b & -> & Hl & Hdata & _ & _ & _ & Hv3 & Hr3).
    unfold wp at 1, ret at 1. assert (rest_same (read_so_far d) s3) as Hrd3 by (by transitivity s2).
    destruct (read_more d c s3) as [Hmodf3 Hafter3]; [lia|lia|lia|done|].
    apply wp_bind. unfold wp at 1. rewrite (Hget s3 Hrd3).
    change (f_pos (x <| f_pos := f_pos x + d |>)) with (f_pos x + d). cbv zeta. rewrite Z.rem_mod_nonneg by lia. fold c.
    rewrite wp_bind. unfold wp at 1. rewrite Hmodf3. set (s4 := s3 <| file_table ::= _ |>) in *.
    pose proof (le_buf _ _ _ Hl) as Hb. destruct (quiet_in_range s3 bh b (proj1 (le_serving _ _ _ Hl)) Hb) as [Hrange _].
    destruct Hrange as (_ & _ & _ & _ & Hlen).
    rewrite wp_bind. rewrite wp_bind. unfold wp at 1. rewrite (to_user_run s4 bh b) by (exact Hb || lia).
    assert (b_data b = view s z) as Hdz by (rewrite Hdata; by apply Hv; rewrite <- (proj1 Hv)).
    pose proof (file_bytes_block (view s) (f_pos x + d) c ltac:(lia) Hc2 Hz) as Hfb. fold z in Hfb.
    rewrite Hdz, <- Hfb. clear Hfb. set (s5 := with_umem s4 _) in *.
    destruct (same_cache_lent s3 s5 bh b) as [Hl5 Hv5]; [done|done|].
    eapply wp_mono; [by apply (brelse_lent s5 bh b)|]. cbv beta. intros [] s6 (Hs6 & Hv6 & Hr6).
    unfold wp, ret. split; [|cbn [snd]; lia]. exists (d + c). split; [lia|]. split; [f_equal; lia|]. split; [done|]. split.
    + apply (same_view_trans s s2); [done|]. apply (same_view_trans s2 s3); [done|]. by apply (same_view_trans s3 s5).
    + transitivity s5; [exact Hafter3|exact Hr6].
Qed.

Lemma file_read_run : wp (file_read i f buf count) (fun r s' => r = count /\ spare s' /\ same_view s s' /\ exists s1,
  rest_same (read_so_far count) s1 /\ same_cache s1 s' /\
  s' = s1 <| inode_table ::= <[i := n <| i_atime := startup_time (kern s) + jiffies (kern s) / HZ |>]> |>) s.
Proof.
  unfold file_read. destruct (Z.leb_spec count 0); [lia|]. apply wp_bind.
  eapply wp_mono; [apply (wp_loop _ reading (fun st _ => Z.to_nat (snd st)) _ read_step_ok)|].
  - exists 0. split; [lia|]. split; [f_equal; lia|]. split; [done|]. split; [by split|].
    unfold read_so_far, file_bytes. cbn. unfold rest_same. rewrite Z.add_0_r. cbn. rewrite list_insert_id by (rewrite Hf; by destruct x).
    by destruct s as [[]].
  - cbn [snd]. lia.
  - cbv beta. intros rest s1 (-> & Hs1 & Hv1 & Hr1). apply wp_bind. unfold wp at 1, current_time, gets.
    apply wp_bind. unfold wp at 1. rewrite (mod_inode_run s1 i n) by (destruct Hr1 as (_ & -> & _); exact Hi).
    unfold wp, ret. rewrite Z.sub_0_r. unfold truth. destruct (Z.eqb_spec count 0); [lia|]. cbn [negb]. split; [done|].
    pose proof Hr1 as (Ek & _). rewrite Ek. change (startup_time (kern (read_so_far count))) with (startup_time (kern s)).
    change (jiffies (kern (read_so_far count))) with (jiffies (kern s)). set (s2 := s1 <| inode_table ::= _ |>).
    destruct (same_cache_spare s1 s2) as [Hs2 Hv2]; [done|done|]. split; [done|]. split; [by apply (same_view_trans s s1)|].
    by exists s1.
Qed.
End FileRead.

(** C4: reading a file of a device that transfers at once.  [file_read] of [count] bytes at the position of the open file, wherever they
    lie in direct and indirect blocks and holes, answers [count] and stores the bytes of the file in the
    task's memory from [buf] on and nothing else there; the position moves by [count], the access
    time is set, no other inode or open file changes, and every block of the device still holds
    what it did. *)
Theorem file_read_ok s i f n x buf count : spare s -> inode_table s !! i = Some n -> file_table s !! f = Some x ->
  placed s n -> (forall k, 0 <= k < max_blocks -> block_exists s (zones (view s) n k)) ->
  0 <= f_pos x -> 0 < count -> f_pos x + count <= 1024 * max_blocks ->
  wp (file_read i f buf count) (fun r s' => r = count /\
    user_bytes (kern s') buf count = map u8 (file_bytes (view s) n (f_pos x) count) /\
    (forall a, (forall k, 0 <= k < count -> a <> u32 (buf + k)) -> umem (kern s') !! a = umem (kern s) !! a) /\
    file_table s' = <[f := x <| f_pos := f_pos x + count |>]> (file_table s) /\
    inode_table s' = <[i := n <| i_atime := startup_time (kern s) + jiffies (kern s) / HZ |>]> (inode_table s) /\
    spare s' /\ same_view s s') s.
Proof.
  intros Hs Hi Hf Hp Hb Hpos Hc Hmax. eapply wp_mono; [by apply (file_read_run s i f n x)|]. cbv beta.
  intros r s' (-> & Hs' & Hv & s1 & (Ek & Ein & _ & _ & Ef & _) & _ & ->). split; [done|].
  set (l := file_bytes (view s) n (f_pos x) count) in *.
  assert (Z.of_nat (length l) = count) as Hl by (unfold l, file_bytes; rewrite length_map, length_seqZ; lia).
  assert (count <= 2 ^ 32) as Hcm by (unfold max_blocks in Hmax; lia).
  set (s2 := s1 <| inode_table ::= _ |>) in *.
  assert (kern s2 = kern (with_umem s (put_list (umem (kern s)) buf l))) as Ek2 by exact Ek.
  split; [|split; [|split; [exact Ef|split; [cbn; by rewrite Ein|done]]]]; rewrite Ek2.
  - rewrite <- Hl. apply put_list_user. lia.
  - intros a Ha. apply put_list_other. by rewrite Hl.
Qed.
End View.

(** ** A file of one block on the RAM disk *)
#[local] Notation two_buffers := (after (buffer_init 0 (fun _ => no_buffer) (fun _ => replicate 1024 0) 3072) two_blocks).
Definition one_block_inode : m_inode := no_inode <| i_dev := 257 |> <| i_zone := [1; 0; 0; 0; 0; 0; 0; 0; 0] |> <| i_size := 1024 |>.
Definition one_file : fs := two_buffers <| inode_table := [one_block_inode] |> <| file_table := [no_file] |>.
Lemma tables_same_cache s t u : same_cache s (s <| inode_table := t |> <| file_table := u |>).
Proof. done. Qed.
Lemma one_file_cache : same_cache two_buffers one_file.
Proof. exact (tables_same_cache two_buffers [one_block_inode] [no_file]). Qed.
Lemma two_buffers_spare : spare (D := ramdisk idle_fuel) two_buffers.
Proof.
  destruct two_buffers_serving as (Hs & HN & Hsd & Hidle). split; [exact Hs| | | |].
  - intros i b Hb. destruct (Hidle i b Hb) as [[-> _] _]. lia.
  - destruct (lookup_lt_is_Some_2 (bufs two_buffers) 0) as [b Hb]; [lia|]. exists 0%nat, b. split; [exact Hb|]. apply (Hidle 0%nat b Hb).
  - destruct Hsd as (_ & _ & _ & _ & _ & ->). vm_compute. reflexivity.
  - rewrite two_buffers_blocks. lia.
Qed.
Lemma one_file_spare : spare (D := ramdisk idle_fuel) one_file /\ same_view (D := ramdisk idle_fuel) two_buffers one_file.
Proof. exact (same_cache_spare two_buffers one_file one_file_cache two_buffers_spare). Qed.
Lemma one_file_blocks : blocks (SyncDevice := ramdisk idle_fuel) one_file = 2.
Proof. destruct one_file_spare as [_ [-> _]]. exact two_buffers_blocks. Qed.
Lemma one_block_zones v k : 0 <= k < max_blocks -> zones v one_block_inode k = if k =? 0 then 1 else 0.
Proof.
  intros Hk. unfold zones. destruct (Z.ltb_spec k 7).
  - assert (k = 0 \/ k = 1 \/ k = 2 \/ k = 3 \/ k = 4 \/ k = 5 \/ k = 6) as H7 by lia. by destruct H7 as [->|[->|[->|[->|[->|[->| ->]]]]]].
  - destruct (Z.eqb_spec k 0); [lia|]. by destruct (Z.ltb_spec (k - 7) 512).
Qed.
Lemma one_file_placed : placed (D := ramdisk idle_fuel) one_file one_block_inode.
Proof. split; [done|..]; unfold block_exists, entry; done. Qed.
Lemma file_read_ok_witness :
  wp (file_read (E := idle_env) 0 0 5000 1024) (fun r s' => r = 1024 /\
    user_bytes (kern s') 5000 1024 = map u8 (file_bytes (view (D := ramdisk idle_fuel) one_file) one_block_inode 0 1024) /\
    (forall a, (forall k, 0 <= k < 1024 -> a <> u32 (5000 + k)) -> umem (kern s') !! a = umem (kern one_file) !! a) /\
    file_table s' = <[0%nat := no_file <| f_pos := 0 + 1024 |>]> (file_table one_file) /\
    inode_table s' = <[0%nat := one_block_inode <| i_atime := startup_time (kern one_file) + jiffies (kern one_file) / HZ |>]> (inode_table one_file) /\
    spare (D := ramdisk idle_fuel) s' /\ same_view (D := ramdisk idle_fuel) one_file s') one_file.
Proof.
  apply (file_read_ok (D := ramdisk idle_fuel) idle_fuel ltac:(lia) one_file 0 0 one_block_inode no_file 5000 1024).
  - apply one_file_spare.
  - reflexivity.
  - reflexivity.
  - exact one_file_placed.
  - intros k Hk. rewrite one_block_zones by exact Hk. unfold block_exists. rewrite one_file_blocks. destruct (k =? 0); lia.
  - cbn. lia.
  - lia.
  - unfold max_blocks. cbn. lia.
Defined.
End View.
