(* ===== verification/Stored.v ===== *)
(** * Stored: writing inodes through the buffer cache

    What a changed buffer does to the view of the device, the encoding of an inode in its
    32 bytes, and [write_inode] with [read_inode] of [Inode] on top of both. *)
From S2P Require Import Prelude Console Task Sched Fs Blk Buffer Bitmap Inode FileDev View.
Import Blk Buffer Bitmap Inode FileDev View.

Module Stored.

(** ** The 32 bytes of an inode *)

(** The fields that are stored fit their C types. *)
Record disk_typed (n : m_inode) : Prop := {
  dt_mode : 0 <= i_mode n < 65536;
  dt_uid : 0 <= i_uid n < 65536;
  dt_size : 0 <= i_size n < 2 ^ 32;
  dt_mtime : 0 <= i_mtime n < 2 ^ 32;
  dt_gid : 0 <= i_gid n < 256;
  dt_nlinks : 0 <= i_nlinks n < 256;
  dt_zones : length (i_zone n) = 9%nat;
  dt_zone : Forall (fun z => 0 <= z < 65536) (i_zone n)
}.
(** [m] with the stored fields of [n]. *)
Definition with_disk (n m : m_inode) : m_inode :=
  m <| i_mode := i_mode n |> <| i_uid := i_uid n |> <| i_size := i_size n |> <| i_mtime := i_mtime n |>
    <| i_gid := i_gid n |> <| i_nlinks := i_nlinks n |> <| i_zone := i_zone n |>.

Lemma length_blit src : forall i l, length (blit i src l) = length l.
Proof. induction src as [|b src IH]; intros i l; [done|]. cbn [blit]. rewrite IH. unfold set_byte. apply length_insert. Qed.
Lemma byte_blit src : forall i l k, 0 <= i -> i + Z.of_nat (length src) <= Z.of_nat (length l) -> 0 <= k ->
  byte (blit i src l) k = if decide (i <= k < i + Z.of_nat (length src)) then u8 (byte src (k - i)) else byte l k.
Proof.
  induction src as [|b src IH]; intros i l k Hi Hl Hk; cbn [blit length] in *.
  - rewrite decide_False by lia. done.
  - rewrite IH by (unfold set_byte; rewrite ?length_insert; lia). unfold byte at 2 3. unfold set_byte.
    destruct (decide (k = i)) as [->|Hne].
    + rewrite decide_False by lia. rewrite decide_True by lia. unfold byte.
      rewrite list_lookup_insert_eq by lia. rewrite Z.sub_diag. done.
    + rewrite list_lookup_insert_ne by lia. destruct (decide (i + 1 <= k < i + 1 + Z.of_nat (length src))).
      * rewrite decide_True by lia. unfold byte. replace (Z.to_nat (k - i)) with (S (Z.to_nat (k - (i + 1)))) by lia. done.
      * rewrite decide_False by lia. done.
Qed.
Lemma half_le2 l o v : byte l o = u8 v -> byte l (o + 1) = u8 (Z.shiftr v 8) -> half l o = u16 v.
Proof.
  unfold half, u8, u16. intros -> ->. rewrite Z.shiftr_div_pow2 by lia. change (2 ^ 16) with 65536. change (2 ^ 8) with 256. dlia.
Qed.
Lemma word_le4 l o v : half l o = u16 v -> half l (o + 2) = u16 (Z.shiftr v 16) -> word l o = u32 v.
Proof.
  unfold word, u16, u32. intros -> ->. rewrite Z.shiftr_div_pow2 by lia. change (2 ^ 32) with 4294967296. change (2 ^ 16) with 65536. dlia.
Qed.

Section Codec.
Context (n : m_inode) (l : list Z) (o : Z).
Hypothesis (Ho : 0 <= o) (Hl : o + 32 <= Z.of_nat (length l)).
#[local] Notation L := (blit o (d_inode_bytes n) l).
Lemma slot_byte k v : (k < 32)%nat -> d_inode_bytes n !! k = Some (u8 v) -> byte L (o + Z.of_nat k) = u8 v.
Proof.
  intros Hk Hv. rewrite byte_blit by (change (length (d_inode_bytes n)) with 32%nat; lia). rewrite decide_True by (change (length (d_inode_bytes n)) with 32%nat; lia).
  unfold byte. replace (o + Z.of_nat k - o) with (Z.of_nat k) by lia. rewrite Nat2Z.id, Hv. cbn. apply u8_id, u8_range.
Qed.
Lemma slot_half k v : (S k < 32)%nat -> d_inode_bytes n !! k = Some (u8 v) -> d_inode_bytes n !! S k = Some (u8 (Z.shiftr v 8)) ->
  half L (o + Z.of_nat k) = u16 v.
Proof.
  intros Hk H1 H2. apply half_le2; [apply slot_byte; [lia|done]|].
  replace (o + Z.of_nat k + 1) with (o + Z.of_nat (S k)) by lia. apply slot_byte; [lia|done].
Qed.
Lemma d_inode_read_bytes m : disk_typed n -> d_inode_read L o m = with_disk n m.
Proof.
  intros [H1 H2 H3 H4 H5 H6 H7 H8].
  assert (half L o = i_mode n) as E1.
  { replace (half L o) with (half L (o + Z.of_nat 0)) by (f_equal; lia).
    rewrite (slot_half 0 (i_mode n)) by (done || lia). by apply u16_id. }
  assert (half L (o + 2) = i_uid n) as E2 by (rewrite (slot_half 2 (i_uid n) : _ -> _ -> _ -> half L (o + 2) = _) by (done || lia); by apply u16_id).
  assert (word L (o + 4) = i_size n) as E3.
  { rewrite (word_le4 _ _ (i_size n)); [by apply u32_id|apply (slot_half 4); (done || lia)|].
    replace (o + 4 + 2) with (o + Z.of_nat 6) by lia. apply slot_half; (done || lia). }
  assert (word L (o + 8) = i_mtime n) as E4.
  { rewrite (word_le4 _ _ (i_mtime n)); [by apply u32_id|apply (slot_half 8); (done || lia)|].
    replace (o + 8 + 2) with (o + Z.of_nat 10) by lia. apply slot_half; (done || lia). }
  assert (byte L (o + 12) = i_gid n) as E5 by (rewrite (slot_byte 12 (i_gid n) : _ -> _ -> byte L (o + 12) = _) by (done || lia); by apply u8_id).
  assert (byte L (o + 13) = i_nlinks n) as E6 by (rewrite (slot_byte 13 (i_nlinks n) : _ -> _ -> byte L (o + 13) = _) by (done || lia); by apply u8_id).
  assert (map (fun k => half L (o + 14 + 2 * Z.of_nat k)) (seq 0 9) = i_zone n) as E7.
  { apply list_eq. intros k. change (map ?g ?x) with (g <$> x). rewrite list_lookup_fmap.
    destruct (i_zone n !! k) as [z|] eqn:Ez.
    - pose proof (lookup_lt_Some _ _ _ Ez). rewrite lookup_seq_lt by lia. cbn [fmap option_fmap option_map]. f_equal.
      replace (o + 14 + 2 * Z.of_nat (0 + k)) with (o + Z.of_nat (14 + 2 * k)) by lia.
      pose proof (Forall_lookup_1 _ _ _ _ H8 Ez). rewrite (slot_half _ z); [by apply u16_id|lia|..];
        (replace z with (zone n k) by (unfold zone; by rewrite Ez)); do 9 (destruct k as [|k]; [reflexivity|]); lia.
    - apply lookup_ge_None in Ez. rewrite lookup_seq_ge by lia. done. }
  unfold d_inode_read, with_disk. rewrite E1, E2, E3, E4, E5, E6, E7. done.
Qed.
End Codec.

(** The fields read from bytes fit their types, whatever was in the block. *)
Lemma byte_range l o : Forall (fun v => 0 <= v < 256) l -> 0 <= byte l o < 256.
Proof.
  intros H. unfold byte. destruct (l !! Z.to_nat o) as [v|] eqn:E; [by apply (Forall_lookup_1 _ _ _ _ H E)|cbn; lia].
Qed.
Lemma half_range l o : Forall (fun v => 0 <= v < 256) l -> 0 <= half l o < 65536.
Proof. intros H. unfold half. pose proof (byte_range l o H). pose proof (byte_range l (o + 1) H). lia. Qed.
Lemma word_range l o : Forall (fun v => 0 <= v < 256) l -> 0 <= word l o < 2 ^ 32.
Proof. intros H. unfold word. pose proof (half_range l o H). pose proof (half_range l (o + 2) H). change (2 ^ 32) with 4294967296. lia. Qed.
Lemma d_inode_read_typed l o m : Forall (fun v => 0 <= v < 256) l -> disk_typed (d_inode_read l o m).
Proof.
  intros H. split; cbn [d_inode_read]; try apply half_range; try apply word_range; try apply byte_range; try done.
  apply Forall_map, Forall_true. intros k. by apply half_range.
Qed.

(** ** A changed buffer *)
Section Store.
Context {E : Env} {dev : Z} {D : SyncDevice dev}.
Hypothesis (Hfuel : (0 < fuel)%nat) (Hdev : 0 < dev < 65536).

(** The device with other contents in block [z]. *)
Definition stores (s : fs) (z : Z) (d : list Z) (s' : fs) : Prop :=
  blocks s' = blocks s /\ forall n, 0 <= n < blocks s -> view s' n = if decide (n = z) then d else view s n.
Definition changed (b : buffer_head) (d : list Z) : buffer_head := b <| b_data := d |> <| b_dirt := 1 |>.
(** Any change of a buffer of the device that leaves it dirty and up to date. *)
Definition alters (b b' : buffer_head) : Prop :=
  keyed b' = keyed b /\ b_lock b' = b_lock b /\ b_count b' = b_count b /\ 0 < b_dirt b' < 256 /\ b_uptodate b' <> 0 /\
  length (b_data b') = 1024%nat.
Lemma changed_alters b d : b_uptodate b <> 0 -> length d = 1024%nat -> alters b (changed b d).
Proof. intros. unfold alters. cbn. repeat split; (lia || done). Qed.
Lemma alters_serving s bh b b' (s' := s <| bufs ::= <[bh := b']> |>) : serving s -> bufs s !! bh = Some b -> b_dev b = dev -> alters b b' ->
  serving s' /\ stores s (b_blocknr b) (b_data b') s'.
Proof.
  intros Hs Hb Hd (Hkey & Hl' & Hc' & Hdirt & Hu & Hlen). pose proof Hs as (Hq & Hr & Hco).
  pose proof Hkey as Hkey'. unfold keyed in Hkey'. assert (b_dev b' = b_dev b /\ b_blocknr b' = b_blocknr b) as [Ed En] by (split; congruence).
  pose proof (lookup_lt_Some _ _ _ Hb) as Hlt. destruct (quiet_in_range s bh b Hq Hb) as [Hrange Hlock].
  assert (quiet s') as Hq'.
  { apply (quiet_mod s bh b); [done|done|done|congruence|]. unfold in_range in *. rewrite Ed, En, Hc'. repeat split; (apply Hrange || lia || done). }
  assert (bufs s' !! bh = Some b') as Hb' by (by apply list_lookup_insert_eq).
  assert (forall i, i <> bh -> bufs s' !! i = bufs s !! i) as Ho by (intros; by apply list_lookup_insert_ne).
  assert (same_device s s') as Hsd by done. destruct (device_frame s s' Hsd Hr) as (Hr' & Hbl & Hst).
  assert (serving s') as Hs'.
  { split; [done|]. split; [done|]. intros i c Hi Hdc. destruct (decide (i = bh)) as [->|Hne].
    - rewrite Hb' in Hi. injection Hi as <-. rewrite Hbl, En. destruct (Hco bh b Hb Hd) as (H1 & _). split; [exact H1|]. split; [done|]. intros _ H0. lia.
    - rewrite Ho in Hi by done. rewrite Hbl, Hst. by apply (Hco i c). }
  split; [done|]. split; [done|]. intros n Hn.
  pose proof (view_buffer Hfuel Hdev s' bh _ Hq' Hb' ltac:(congruence) Hu) as Hv. rewrite En in Hv.
  destruct (decide (n = b_blocknr b)) as [->|Hne]; [exact Hv|].
  destruct (view_cases Hfuel Hdev s' n Hq') as [(i & c & Hi & E1 & E2 & E3 & ->)|[Hnone ->]].
  - assert (i <> bh) as Hib by (intros ->; rewrite Hb' in Hi; injection Hi as <-; congruence).
    rewrite Ho in Hi by done. rewrite <- E2. symmetry. by apply (view_buffer Hfuel Hdev s i c).
  - rewrite Hst. symmetry. apply (view_stored Hdev). intros i c Hi Edc Enc. destruct (decide (i = bh)) as [->|Hib]; [congruence|].
    apply (Hnone i c); [by rewrite Ho|done|done].
Qed.

(** Two unused buffers: one may be changed, and another block can still be read. *)
Definition roomy (s : fs) : Prop :=
  spare s /\ exists i j b c, i <> j /\ bufs s !! i = Some b /\ idle b /\ bufs s !! j = Some c /\ idle c.
Lemma roomy_kept s s' bh : roomy s -> idle_kept s s' bh -> exists i c, i <> bh /\ bufs s' !! i = Some c /\ idle c.
Proof.
  intros (_ & i & j & b & c & Hij & Hb & Hib & Hc & Hic) Hk. destruct (decide (i = bh)) as [->|Hi].
  - destruct (Hk j c) as (c' & H1 & H2); [congruence|done|done|]. exists j, c'. split; [congruence|done].
  - destruct (Hk i b) as (c' & H1 & H2); [done..|]. by exists i, c'.
Qed.
(** The changed buffer is given back. *)
Lemma alters_release s bh b b' : lent s bh b -> b_dev b = dev -> alters b b' ->
  (exists i c, i <> bh /\ bufs s !! i = Some c /\ idle c) ->
  let s1 := s <| bufs ::= <[bh := b']> |> in let s2 := s <| bufs ::= <[bh := released b']> |> in
  brelse (Some bh) s1 = Done tt s2 /\ spare s2 /\ stores s (b_blocknr b) (b_data b') s2.
Proof.
  intros [L1 L2 L3 L4 _ L6 L7] Hd Ha (i & c & Hi & Hc & Hidle) s1 s2. pose proof Ha as (_ & _ & Ec & _).
  destruct (alters_serving s bh b b' L1 L2 Hd Ha) as [Hs1 [Hbl Hv]]. fold s1 in Hs1, Hbl, Hv. pose proof (lookup_lt_Some _ _ _ L2) as Hlt.
  assert (bufs s1 !! bh = Some b') as Hb1 by (by apply list_lookup_insert_eq).
  assert (0 < b_count b') as Hcount by lia.
  destruct (brelse_run Hfuel s1 bh _ (proj1 Hs1) Hb1 Hcount L6) as [Hrun _].
  destruct (released_view Hfuel Hdev s1 bh _ Hb1 Hcount Hs1 L6) as [H1 [H2 H3]].
  assert (s1 <| bufs ::= <[bh := released b']> |> = s2) as Es.
  { unfold s1, s2, upd, upd_bufs. cbn. by rewrite list_insert_insert_eq. }
  rewrite Es in *. split; [done|]. split; [|split; [congruence|]].
  - split; [done| | |done|].
    + intros j e He. unfold s2 in He. cbn in He. destruct (decide (j = bh)) as [->|Hne].
      * rewrite list_lookup_insert_eq in He by done. injection He as <-. change (b_count (released b')) with (b_count b' - 1). lia.
      * rewrite list_lookup_insert_ne in He by done. by apply (L4 j).
    + exists i, c. unfold s2. cbn. by rewrite list_lookup_insert_ne.
    + rewrite H2, Hbl. done.
  - intros n Hn. rewrite H3 by (by rewrite Hbl). by apply Hv.
Qed.

(** ** Nothing to wait for *)
Lemma wait_while_run s (locked : M fs bool) p : locked s = Done false s -> wait_while locked p s = Done tt s.
Proof. intros H. unfold wait_while. destruct fuel as [|f]; [lia|]. cbn [loop]. rewrite bind_assoc. run H. done. Qed.
Lemma lock_inode_run s i n : inode_table s !! i = Some n -> i_lock n = 0 ->
  lock_inode i s = Done tt (s <| inode_table ::= <[i := n <| i_lock := 1 |>]> |>).
Proof.
  intros Hi Hl. assert ((n <- get_inode i ;; ret (truth (i_lock n))) s = Done false s) as Hready by (run (get_inode_run s i n Hi); by rewrite Hl).
  unfold lock_inode, wait_on_inode. run (wait_while_run s _ (i_wait i) Hready). by apply (mod_inode_run s i n (fun n => n <| i_lock := 1 |>)).
Qed.
Lemma unlock_inode_run s i n : inode_table s !! i = Some n -> wchan (kern s) !! i_wait i = None ->
  unlock_inode i s = Done tt (s <| inode_table ::= <[i := n <| i_lock := 0 |>]> |>).
Proof.
  intros Hi Hw. unfold unlock_inode. run (mod_inode_run s i n (fun n => n <| i_lock := 0 |>) Hi). by apply wake_up_none.
Qed.
(** [dev] is mounted with super block [S], entry [sb] of the table. *)
Record mounted (s : fs) (sb : nat) (S : super_block) : Prop := {
  mo_sb : super_blocks s !! sb = Some S;
  mo_dev : s_dev S = dev;
  mo_lock : s_lock S = 0;
  mo_bound : (sb < NR_SUPER)%nat;
  mo_first j : (j < sb)%nat -> exists S', super_blocks s !! j = Some S' /\ s_dev S' <> dev
}.
Lemma get_super_run s sb S : mounted s sb S -> get_super dev s = Done (Some sb) s.
Proof.
  intros [H1 H2 H3 H4 H5]. assert ((t <- get_sb sb ;; ret (truth (s_lock t))) s = Done false s) as Hready by (run (get_sb_run s sb S H1); by rewrite H3).
  unfold get_super. destruct (Z.eqb_spec dev 0); [lia|].
  assert (forall m j f, (j + m = sb)%nat -> (m < f)%nat -> loop f (fun t => if Nat.ltb t NR_SUPER then
      b <- get_sb t ;;
      if s_dev b =? dev then wait_on_super t ;;; b <- get_sb t ;; ret (if s_dev b =? dev then inr (Some t) else inl O)
      else ret (inl (Datatypes.S t)) else ret (inr None)) j s = Done (Some sb) s) as H.
  { induction m as [|m IH]; intros j f Hj Hf; (destruct f as [|f]; [lia|]); cbn [loop];
      (destruct (Nat.ltb_spec j NR_SUPER); [|lia]); rewrite bind_assoc.
    - replace j with sb by lia. run (get_sb_run s sb S H1). rewrite H2, Z.eqb_refl. unfold wait_on_super. rewrite bind_assoc.
      run (wait_while_run s _ (s_wait sb) Hready). rewrite bind_assoc. run (get_sb_run s sb S H1). by rewrite H2, Z.eqb_refl.
    - destruct (H5 j) as (S' & HS' & Hd); [lia|]. run (get_sb_run s j S' HS'). destruct (Z.eqb_spec (s_dev S') dev); [done|].
      rewrite bind_ret. apply IH; lia. }
  apply (H sb 0%nat); [lia|]. unfold NR_SUPER in *. nia.
Qed.

(** ** One inode *)
Definition inode_home (s : fs) (S : super_block) (n : m_inode) : Prop :=
  i_dev n = dev /\ 0 <= inode_block S (i_num n) < blocks s.
Lemma inode_offset_range num : 0 <= inode_offset num <= 992.
Proof. unfold inode_offset. change INODES_PER_BLOCK with 32. dlia. Qed.
Lemma write_inode_run s i n sb S : roomy s -> inode_table s !! i = Some n -> i_lock n = 0 -> i_dirt n <> 0 ->
  mounted s sb S -> inode_home s S n -> wchan (kern s) !! i_wait i = None ->
  wp (write_inode i) (fun _ s' => spare s' /\
    stores s (inode_block S (i_num n)) (blit (inode_offset (i_num n)) (d_inode_bytes n) (view s (inode_block S (i_num n)))) s' /\
    inode_table s' = <[i := n <| i_dirt := 0 |>]> (inode_table s) /\ kern s' = kern s /\ super_blocks s' = super_blocks s) s.
Proof.
  intros Hroomy Hi Hlock Hdirt Hm [Hd Hz] Hw. pose proof (lookup_lt_Some _ _ _ Hi) as Hlt. set (z := inode_block S (i_num n)) in *.
  set (n1 := n <| i_lock := 1 |>). set (s1 := s <| inode_table ::= <[i := n1]> |>).
  destruct (same_cache_spare s s1 ltac:(done) (proj1 Hroomy)) as [Hsp1 Hv1].
  assert (inode_table s1 !! i = Some n1) as Hi1 by (by apply list_lookup_insert_eq).
  unfold write_inode. apply wp_bind. unfold wp at 1. rewrite (lock_inode_run s i n Hi Hlock). fold n1 s1.
  apply wp_bind. unfold wp at 1. rewrite (get_inode_run s1 i n1 Hi1). unfold truth.
  rewrite (proj2 (Z.eqb_neq (i_dirt n1) 0)) by done. rewrite (proj2 (Z.eqb_neq (i_dev n1) 0)) by (change (i_dev n1) with (i_dev n); lia). cbn [negb orb].
  change (i_dev n1) with (i_dev n). change (i_num n1) with (i_num n). rewrite Hd.
  assert (mounted s1 sb S) as Hm1 by (destruct Hm; by split).
  apply wp_bind. unfold wp at 1. rewrite (get_super_run s1 sb S Hm1). cbv iota.
  apply wp_bind. unfold wp at 1. rewrite (get_sb_run s1 sb S (mo_sb _ _ _ Hm)).
  apply wp_bind. unfold wp at 1. rewrite (get_inode_run s1 i n1 Hi1). fold z. change (i_dev n1) with (i_dev n). rewrite Hd.
  apply wp_bind. eapply wp_mono; [apply (bread_kept Hfuel Hdev s1 z Hsp1); by rewrite (proj1 Hv1)|].
  cbv beta. intros o s2 (bh & b & -> & Hl2 & Hdata & Hbd & Hbz & Hbu & Hv2 & Hr2 & Hk2). cbv iota.
  destruct (roomy_kept s s2 bh Hroomy Hk2) as (k & c & Hkb & Hc & Hidle).
  pose proof Hr2 as (Ek & Ei & _ & Es & _). assert (inode_table s2 !! i = Some n1) as Hi2 by (by rewrite Ei).
  apply wp_bind. unfold wp at 1. rewrite (get_inode_run s2 i n1 Hi2). change (d_inode_bytes n1) with (d_inode_bytes n).
  change (inode_offset (i_num n1)) with (inode_offset (i_num n)). set (d := blit (inode_offset (i_num n)) (d_inode_bytes n) (b_data b)).
  pose proof (le_buf _ _ _ Hl2) as Hb2. pose proof (lookup_lt_Some _ _ _ Hb2) as Hltb.
  apply wp_bind. unfold wp at 1. rewrite (mod_buf_run s2 bh b _ Hb2). set (b3 := upd b_data _ b).
  set (s3 := s2 <| bufs ::= <[bh := b3]> |>). assert (bufs s3 !! bh = Some b3) as Hb3 by (by apply list_lookup_insert_eq).
  apply wp_bind. unfold wp at 1. rewrite (mod_buf_run s3 bh b3 _ Hb3). set (s4 := s3 <| bufs ::= _ |>).
  apply wp_bind. unfold wp at 1. rewrite (mod_inode_run s4 i n1 (fun n => n <| i_dirt := 0 |>)) by exact Hi2. set (n5 := n1 <| i_dirt := 0 |>).
  set (t := s2 <| inode_table ::= <[i := n5]> |>). assert (s4 <| inode_table ::= <[i := n5]> |> = t <| bufs ::= <[bh := changed b d]> |>) as ->.
  { unfold s4, s3, t, upd, upd_bufs, upd_inode_table. cbn. by rewrite list_insert_insert_eq. }
  destruct (same_cache_lent s2 t bh b ltac:(done) Hl2) as [Hlt' Hvt].
  assert (length d = 1024%nat) as Hlen.
  { unfold d. rewrite length_blit. destruct (quiet_in_range s2 bh b (proj1 (le_serving _ _ _ Hl2)) Hb2) as [Hr _]. apply Hr. }
  destruct (alters_release t bh b (changed b d) Hlt' Hbd (changed_alters b d Hbu Hlen)) as (Hrel & Hsp & Hst); [by exists k, c|].
  change (b_data (changed b d)) with d in Hst.
  apply wp_bind. unfold wp at 1. rewrite Hrel. set (s6 := t <| bufs ::= <[bh := released (changed b d)]> |>) in *.
  assert (inode_table s6 !! i = Some n5) as Hi6 by (cbn; rewrite Ei; apply list_lookup_insert_eq; cbn; by rewrite length_insert).
  cbv beta iota. unfold wp. rewrite (unlock_inode_run s6 i n5 Hi6) by (change (kern s6) with (kern s2); rewrite Ek; exact Hw).
  set (s7 := s6 <| inode_table ::= _ |>). destruct (same_cache_spare s6 s7 ltac:(done) Hsp) as [Hsp7 Hv7]. split; [done|].
  split; [|split; [|split; [exact Ek|exact Es]]].
  - destruct Hst as [B1 V1], Hv7 as [B7 V7], Hvt as [Bt Vt], Hv2 as [B2 V2], Hv1 as [B0 V0]. split; [congruence|].
    intros m Hmr. rewrite V7, V1 by lia. rewrite Hbz. destruct (decide (m = z)) as [->|]; [by rewrite V0 in Hdata by done; unfold d; rewrite Hdata|].
    by rewrite Vt, V2, V0 by lia.
  - cbn. rewrite Ei. cbn. rewrite !list_insert_insert_eq. f_equal. unfold n5, n1. destruct n. cbn in Hlock. by subst.
Qed.
Lemma read_inode_run s j m sb S : spare s -> inode_table s !! j = Some m -> i_lock m = 0 -> mounted s sb S -> inode_home s S m ->
  wchan (kern s) !! i_wait j = None ->
  wp (read_inode j) (fun _ s' => spare s' /\ same_view s s' /\
    inode_table s' = <[j := d_inode_read (view s (inode_block S (i_num m))) (inode_offset (i_num m)) m]> (inode_table s) /\
    kern s' = kern s /\ super_blocks s' = super_blocks s) s.
Proof.
  intros Hs Hj Hlock Hm [Hd Hz] Hw. pose proof (lookup_lt_Some _ _ _ Hj) as Hlt. set (z := inode_block S (i_num m)) in *.
  set (m1 := m <| i_lock := 1 |>). set (s1 := s <| inode_table ::= <[j := m1]> |>).
  destruct (same_cache_spare s s1 ltac:(done) Hs) as [Hsp1 Hv1].
  assert (inode_table s1 !! j = Some m1) as Hj1 by (by apply list_lookup_insert_eq).
  unfold read_inode. apply wp_bind. unfold wp at 1. rewrite (lock_inode_run s j m Hj Hlock). fold m1 s1.
  apply wp_bind. unfold wp at 1. rewrite (get_inode_run s1 j m1 Hj1).
  change (i_dev m1) with (i_dev m). change (i_num m1) with (i_num m). rewrite Hd.
  assert (mounted s1 sb S) as Hm1 by (destruct Hm; by split).
  apply wp_bind. unfold wp at 1. rewrite (get_super_run s1 sb S Hm1). cbv iota.
  apply wp_bind. unfold wp at 1. rewrite (get_sb_run s1 sb S (mo_sb _ _ _ Hm)).
  apply wp_bind. unfold wp at 1. rewrite (get_inode_run s1 j m1 Hj1). fold z. change (i_dev m1) with (i_dev m). rewrite Hd.
  change (i_num m1) with (i_num m). fold z.
  apply wp_bind. eapply wp_mono; [apply (bread_lent Hfuel Hdev s1 z Hsp1); by rewrite (proj1 Hv1)|].
  cbv beta. intros o s2 (bh & b & -> & Hl2 & Hdata & _ & _ & _ & Hv2 & Hr2). cbv iota.
  pose proof Hr2 as (Ek & Ei & _ & Es & _). assert (inode_table s2 !! j = Some m1) as Hj2 by (by rewrite Ei).
  apply wp_bind. unfold wp at 1. rewrite (get_buf_run s2 bh b (le_buf _ _ _ Hl2)).
  apply wp_bind. unfold wp at 1. rewrite (mod_inode_run s2 j m1 _ Hj2). change (i_num m1) with (i_num m).
  set (m3 := d_inode_read (b_data b) (inode_offset (i_num m)) m1). set (s3 := s2 <| inode_table ::= <[j := m3]> |>).
  destruct (same_cache_lent s2 s3 bh b ltac:(done) Hl2) as [Hl3 Hv3].
  apply wp_bind. eapply wp_mono; [by apply (brelse_lent Hfuel Hdev s3 bh b)|]. cbv beta. intros [] s4 (Hs4 & Hv4 & Ek4 & Ei4 & _ & Es4 & _).
  assert (inode_table s4 !! j = Some m3) as Hj4 by (rewrite Ei4; cbn; rewrite Ei; apply list_lookup_insert_eq; cbn; by rewrite length_insert).
  unfold wp. rewrite (unlock_inode_run s4 j m3 Hj4) by (rewrite Ek4; change (kern s3) with (kern s2); rewrite Ek; exact Hw).
  set (s5 := s4 <| inode_table ::= _ |>). destruct (same_cache_spare s4 s5 ltac:(done) Hs4) as [Hs5 Hv5]. split; [done|].
  assert (same_view s s2) as Hv02 by (by apply (same_view_trans s s1)).
  split; [|split; [|split; [change (kern s4 = kern s); rewrite Ek4; exact Ek|change (super_blocks s4 = super_blocks s); rewrite Es4; exact Es]]].
  - apply (same_view_trans s s2); [done|]. apply (same_view_trans s2 s3); [done|]. by apply (same_view_trans s3 s4).
  - change (inode_table s5) with (<[j := m3 <| i_lock := 0 |>]> (inode_table s4)). rewrite Ei4. cbn. rewrite Ei. cbn.
    rewrite !list_insert_insert_eq. f_equal. destruct Hv1 as [_ V1]. rewrite V1 in Hdata by done. unfold m3, m1. rewrite Hdata.
    destruct m. cbn in Hlock. by subst.
Qed.

Lemma view_length s z : serving s -> 0 <= z < blocks s -> length (view s z) = 1024%nat.
Proof.
  intros (Hq & Hr & _) Hz. destruct (view_cases Hfuel Hdev s z Hq) as [(i & c & Hi & _ & _ & _ & ->)|[_ ->]].
  - destruct (quiet_in_range s i c Hq Hi) as [H _]. apply H.
  - by apply stored_length.
Qed.

(** C6: an inode that is written is read back, on a device that transfers at once.  [write_inode] and then [read_inode] of the
    same number into another entry of the table: the entry has the mode, owner, size, time, links
    and blocks that were written, the first one is clean, every other block of the device holds
    what it did, and so do the other bytes of the inode's block. *)
Theorem inode_roundtrip s i j n m sb S (z := inode_block S (i_num n)) (o := inode_offset (i_num n)) : roomy s ->
  inode_table s !! i = Some n -> inode_table s !! j = Some m -> i <> j -> i_lock n = 0 -> i_lock m = 0 -> i_dirt n <> 0 ->
  i_dev m = dev -> i_num m = i_num n -> mounted s sb S -> inode_home s S n -> disk_typed n ->
  wchan (kern s) !! i_wait i = None -> wchan (kern s) !! i_wait j = None ->
  wp (write_inode i ;;; read_inode j) (fun _ s' =>
    inode_table s' = <[j := with_disk n m]> (<[i := n <| i_dirt := 0 |>]> (inode_table s)) /\
    (forall z', 0 <= z' < blocks s -> z' <> z -> view s' z' = view s z') /\
    (forall k, 0 <= k < o \/ o + 32 <= k -> byte (view s' z) k = byte (view s z) k) /\ spare s') s.
Proof.
  intros Hr Hi Hj Hij Hln Hlm Hdirt Hdm Hnum Hm Hh Ht Hwi Hwj.
  pose proof (view_length s z (sp_serving s (proj1 Hr)) (proj2 Hh)) as Hlen. apply wp_bind.
  eapply wp_mono; [by apply (write_inode_run s i n sb S)|]. cbv beta. fold z o. set (d := blit o (d_inode_bytes n) (view s z)).
  intros _ s1 (Hs1 & [B1 V1] & Ei & Ek & Es). pose proof Hh as [Hd Hz]. fold z in Hz. pose proof (inode_offset_range (i_num n)) as Ho. fold o in Ho.
  assert (inode_table s1 !! j = Some m) as Hj1 by (rewrite Ei; by rewrite list_lookup_insert_ne).
  eapply wp_mono; [apply (read_inode_run s1 j m sb S)|]; try done.
  - destruct Hm as [M1 M2 M3 M4 M5]. split; rewrite ?Es; done.
  - split; [done|]. rewrite Hnum, B1. exact Hz.
  - by rewrite Ek.
  - cbv beta. rewrite Hnum. fold z o. intros _ s2 (Hs2 & [B2 V2] & Ei2 & _ & _).
    assert (view s1 z = d) as Hvz by (rewrite V1 by done; by rewrite decide_True).
    split; [|split; [|split; [|done]]].
    + rewrite Ei2, Hvz, Ei. f_equal. apply d_inode_read_bytes; [lia|rewrite Hlen; lia|done].
    + intros z' Hr' Hne. rewrite V2, V1 by lia. by rewrite decide_False.
    + intros k Hk. rewrite V2, Hvz by (by rewrite B1). unfold d. rewrite byte_blit by (change (length (d_inode_bytes n)) with 32%nat; rewrite ?Hlen; lia).
      change (length (d_inode_bytes n)) with 32%nat. rewrite decide_False by lia. done.
Qed.

(** C16: where [read_inode] finds the fields, on a device that transfers at once.  Inode [num] is the record number [(num-1) mod 32]
    of block [2 + imap_blocks + zmap_blocks + (num-1)/32], 32 bytes each: the mode at 0, the owner at 2,
    the size at 4, the time at 8, the group at 12, the links at 13 and the nine zones from 14 on, the
    low bytes first; of bytes the fields are in the ranges of their types.  No other field of the entry changes, no other entry of the table, and nothing of
    the device and the kernel. *)
Theorem read_inode_layout s j m sb S : spare s -> inode_table s !! j = Some m -> i_lock m = 0 -> mounted s sb S ->
  i_dev m = dev -> 1 <= i_num m < 65536 -> 0 <= s_imap_blocks S < 65536 -> 0 <= s_zmap_blocks S < 65536 ->
  let z := 2 + s_imap_blocks S + s_zmap_blocks S + (i_num m - 1) / 32 in
  let d k := byte (view s z) (32 * ((i_num m - 1) mod 32) + k) in
  z < blocks s -> wchan (kern s) !! i_wait j = None ->
  wp (read_inode j) (fun _ s' => exists n, inode_table s' = <[j := n]> (inode_table s) /\
    i_mode n = d 0 + 2 ^ 8 * d 1 /\ i_uid n = d 2 + 2 ^ 8 * d 3 /\
    i_size n = d 4 + 2 ^ 8 * d 5 + 2 ^ 16 * d 6 + 2 ^ 24 * d 7 /\
    i_mtime n = d 8 + 2 ^ 8 * d 9 + 2 ^ 16 * d 10 + 2 ^ 24 * d 11 /\
    i_gid n = d 12 /\ i_nlinks n = d 13 /\ length (i_zone n) = 9%nat /\
    (forall k, (k < 9)%nat -> zone n k = d (14 + 2 * Z.of_nat k) + 2 ^ 8 * d (15 + 2 * Z.of_nat k)) /\
    (Forall (fun v => 0 <= v < 256) (view s z) -> disk_typed n) /\
    n = with_disk n m /\ same_view s s' /\ kern s' = kern s /\ super_blocks s' = super_blocks s) s.
Proof.
  intros Hs Hj Hl Hm Hd Hn Hi Hz z d Hb Hw.
  assert (u32 (i_num m - 1) = i_num m - 1) as Eu by (unfold u32; rewrite Z.mod_small; change (2 ^ 32) with 4294967296; lia).
  assert (inode_block S (i_num m) = z) as Ez.
  { unfold inode_block. rewrite Eu. change INODES_PER_BLOCK with 32. fold z. apply i32_id. unfold z. change (2 ^ 31) with 2147483648. dlia. }
  assert (inode_offset (i_num m) = 32 * ((i_num m - 1) mod 32)) as Eo by (unfold inode_offset; by rewrite Eu).
  eapply wp_mono; [apply (read_inode_run s j m sb S); try done|].
  { split; [done|]. rewrite Ez. split; [unfold z; dlia|done]. }
  cbv beta. rewrite Ez, Eo. intros _ s' (_ & Hv & Ht & Hk & Hsb). eexists. split; [exact Ht|].
  set (o := 32 * ((i_num m - 1) mod 32)) in *.
  assert (forall k, half (view s z) (o + k) = d k + 2 ^ 8 * d (k + 1)) as Hh
    by (intros k; unfold half, d; by rewrite <- Z.add_assoc).
  assert (forall k, word (view s z) (o + k) = d k + 2 ^ 8 * d (k + 1) + 2 ^ 16 * d (k + 2) + 2 ^ 24 * d (k + 3)) as Hwd.
  { intros k. unfold word. rewrite <- Z.add_assoc, !Hh. replace (k + 2 + 1) with (k + 3) by lia. lia. }
  split; [transitivity (half (view s z) (o + 0)); [by rewrite Z.add_0_r|apply Hh]|]. split; [apply (Hh 2)|]. split; [apply (Hwd 4)|]. split; [apply (Hwd 8)|].
  split; [done|]. split; [done|]. split; [done|].
  split; [|split; [by apply d_inode_read_typed|split; [by destruct m|by split]]].
  intros k Hk9. unfold zone. change (i_zone (d_inode_read (view s z) o m)) with
    (map (fun k => half (view s z) (o + 14 + 2 * Z.of_nat k)) (seq 0 9)).
  change (map ?f ?l) with (f <$> l). rewrite list_lookup_fmap, lookup_seq_lt by lia. cbn [fmap option_fmap option_map default plus].
  replace (o + 14 + 2 * Z.of_nat k) with (o + (14 + 2 * Z.of_nat k)) by lia. rewrite Hh. by replace (14 + 2 * Z.of_nat k + 1) with (15 + 2 * Z.of_nat k) by lia.
Qed.
End Store.

(** ** A RAM disk of three blocks behind two buffers: block 2 holds the inodes *)
Definition three_blocks : fs :=
  match (blk_dev_init ;;; rd_init 0 3072) boot_fs with Done _ s => s | _ => boot_fs end.
Lemma three_blocks_ready : rd_ready three_blocks.
Proof.
  split; [|split; [|split; [|split; [|split; [|split]]]]]; try (vm_compute; reflexivity).
  - apply Forall_forall. intros r Hr. apply list_elem_of_lookup in Hr as [i Hi].
    assert (request three_blocks = replicate 32 (no_request <| r_dev := -1 |>)) as Er by (vm_compute; reflexivity).
    rewrite Er in Hi. apply lookup_replicate in Hi as [-> _]. reflexivity.
  - apply Z.leb_le; reflexivity.
Qed.
#[local] Notation buffered := (after (buffer_init 0 (fun _ => no_buffer) (fun _ => replicate 1024 0) 3072) three_blocks).
Lemma buffered_roomy : roomy (D := ramdisk idle_fuel) buffered /\ same_device three_blocks buffered /\ blocks (SyncDevice := ramdisk idle_fuel) buffered = 3 /\
  view (D := ramdisk idle_fuel) buffered 2 = replicate 1024 0.
Proof.
  assert (no_waiters three_blocks) as Hnw by (destruct three_blocks_ready as (_ & _ & _ & _ & _ & _ & H); exact H).
  destruct (wp_after _ _ _ (buffer_init_run 0 (fun _ => no_buffer) (fun _ => replicate 1024 0) room_for_two blank_raw blank_mem
    three_blocks 3072 Hnw ltac:(lia))) as (u & _ & Hq & HN & Hsd & Hidle).
  destruct (device_frame (SyncDevice := ramdisk idle_fuel) three_blocks buffered Hsd three_blocks_ready) as (Hr & Hbl & Hst).
  assert (blocks (SyncDevice := ramdisk idle_fuel) buffered = 3) as Hb3 by (rewrite Hbl; vm_compute; reflexivity).
  destruct (lookup_lt_is_Some_2 (bufs buffered) 0) as [b Hb]; [lia|]. destruct (lookup_lt_is_Some_2 (bufs buffered) 1) as [c Hc]; [lia|].
  split; [|split; [done|split; [done|]]].
  2: { rewrite (view_stored (dev := 257) ltac:(lia)); [rewrite Hst; vm_compute; reflexivity|]. intros i d Hi Hd. destruct (Hidle i d Hi) as [_ Hd']. lia. }
  split.
  - split.
    + split; [exact Hq|]. split; [exact Hr|]. intros i d Hi Hd. destruct (Hidle i d Hi) as [_ Hd']. lia.
    + intros i d Hi. destruct (Hidle i d Hi) as [[-> _] _]. lia.
    + exists 0%nat, b. split; [exact Hb|]. apply (Hidle 0%nat b Hb).
    + destruct Hsd as (_ & _ & _ & _ & _ & ->). vm_compute. reflexivity.
    + rewrite Hb3. lia.
  - exists 0%nat, 1%nat, b, c. split; [done|]. split; [exact Hb|]. split; [apply (Hidle 0%nat b Hb)|]. split; [exact Hc|apply (Hidle 1%nat c Hc)].
Qed.
Definition old_inode : m_inode := no_inode <| i_dev := 257 |> <| i_num := 5 |>.
Definition new_inode : m_inode := old_inode <| i_dirt := 1 |> <| i_mode := 33188 |> <| i_size := 70000 |> <| i_nlinks := 2 |>.
Definition ram_super : super_block := no_super <| s_dev := 257 |>.
Definition with_tables (t : list m_inode) (u : list super_block) (s : fs) : fs := s <| inode_table := t |> <| super_blocks := u |>.
Lemma with_tables_cache t u s : same_cache s (with_tables t u s).
Proof. done. Qed.
Lemma with_tables_wchan t u s : wchan (kern (with_tables t u s)) = wchan (kern s).
Proof. done. Qed.
Lemma same_cache_roomy {E : Env} {dev} {D : SyncDevice dev} s s' : same_cache s s' -> roomy s -> roomy s' /\ same_view s s'.
Proof.
  intros Hc [Hs Hi]. destruct (same_cache_spare s s' Hc Hs) as [Hs' Hv]. split; [split; [done|]|done].
  destruct Hc as (-> & _). exact Hi.
Qed.
Definition two_inodes : fs := with_tables [new_inode; old_inode] [ram_super] buffered.
Lemma two_inodes_facts : roomy (D := ramdisk idle_fuel) two_inodes /\ blocks (SyncDevice := ramdisk idle_fuel) two_inodes = 3 /\
  wchan (kern two_inodes) = ∅ /\ view (D := ramdisk idle_fuel) two_inodes 2 = replicate 1024 0.
Proof.
  destruct buffered_roomy as (Hr & Hsd & Hb & Hv2). destruct (same_cache_roomy (D := ramdisk idle_fuel) buffered two_inodes (with_tables_cache _ _ buffered) Hr) as [H1 [H2 H3]].
  split; [exact H1|]. split; [congruence|]. split; [|rewrite H3, Hv2; [done|rewrite Hb; lia]]. destruct Hsd as (_ & _ & _ & _ & _ & E). transitivity (wchan (kern buffered)); [exact (with_tables_wchan _ _ buffered)|]. rewrite E. vm_compute. reflexivity.
Qed.
#[local] Existing Instance idle_env.
Lemma inode_roundtrip_witness :
  wp (write_inode (E := idle_env) 0 ;;; read_inode (E := idle_env) 1) (fun _ s' =>
    inode_table s' = <[1%nat := with_disk new_inode old_inode]> (<[0%nat := new_inode <| i_dirt := 0 |>]> (inode_table two_inodes)) /\
    (forall z', 0 <= z' < blocks (SyncDevice := ramdisk idle_fuel) two_inodes -> z' <> inode_block ram_super (i_num new_inode) ->
      view (D := ramdisk idle_fuel) s' z' = view (D := ramdisk idle_fuel) two_inodes z') /\
    (forall k, 0 <= k < inode_offset (i_num new_inode) \/ inode_offset (i_num new_inode) + 32 <= k ->
      byte (view (D := ramdisk idle_fuel) s' (inode_block ram_super (i_num new_inode))) k =
      byte (view (D := ramdisk idle_fuel) two_inodes (inode_block ram_super (i_num new_inode))) k) /\
    spare (D := ramdisk idle_fuel) s') two_inodes.
Proof.
  destruct two_inodes_facts as (Hr & Hb & Hw & _).
  apply (inode_roundtrip (D := ramdisk idle_fuel) idle_fuel ltac:(lia) two_inodes 0 1 new_inode old_inode 0 ram_super).
  - exact Hr.
  - reflexivity.
  - reflexivity.
  - discriminate.
  - reflexivity.
  - reflexivity.
  - discriminate.
  - reflexivity.
  - reflexivity.
  - split; [reflexivity|reflexivity|reflexivity|unfold NR_SUPER; lia|intros j Hj; lia].
  - split; [reflexivity|]. change (inode_block ram_super (i_num new_inode)) with 2. rewrite Hb. lia.
  - split; try (cbn; lia). cbn. repeat constructor; lia.
  - by rewrite Hw.
  - by rewrite Hw.
Defined.
Lemma read_inode_layout_witness :
  wp (read_inode 0) (fun _ s' => exists n, inode_table s' = <[0%nat := n]> (inode_table two_inodes) /\ i_mode n = 0) two_inodes.
Proof.
  destruct two_inodes_facts as (Hr & Hb & Hw & Hv).
  eapply wp_mono; [apply (read_inode_layout (D := ramdisk idle_fuel) idle_fuel ltac:(lia) two_inodes 0 new_inode 0 ram_super)|].
  - exact (proj1 Hr).
  - reflexivity.
  - reflexivity.
  - split; [reflexivity|reflexivity|reflexivity|unfold NR_SUPER; lia|intros j Hj; lia].
  - reflexivity.
  - cbn. lia.
  - cbn. lia.
  - cbn. lia.
  - rewrite Hb. reflexivity.
  - by rewrite Hw.
  - cbv beta. intros _ s' (n & H1 & H2 & _). exists n. split; [exact H1|]. rewrite H2.
    change (2 + s_imap_blocks ram_super + s_zmap_blocks ram_super + (i_num new_inode - 1) / 32) with 2. rewrite Hv. reflexivity.
Defined.
End Stored.
