(* ===== verification/Hold.v ===== *)
(** * Hold: who uses which buffer

    Sequences of [bread], changes and [brelse] on several buffers at once: the users of the
    buffers as a function of the state, and how many buffers are still unused and clean. *)
From S2P Require Import Prelude Console Task Sched Fs Blk Buffer Bitmap Inode FileDev View Stored.
Import Blk Buffer Bitmap Inode FileDev View Stored.

Module Hold.

(** ** Users *)
Definition holder (b : buffer_head) : option (Z * Z * Z) :=
  if 0 <? b_count b then Some (b_dev b, b_blocknr b, b_count b) else None.
Definition holders (s : fs) (i : nat) : option (Z * Z * Z) := bufs s !! i ≫= holder.
(** The same users, and what they hold stays up to date. *)
Definition same_held (s s' : fs) : Prop :=
  (forall i, holders s' i = holders s i) /\
  forall i b b', bufs s !! i = Some b -> bufs s' !! i = Some b' -> 0 < b_count b -> b_uptodate b <> 0 -> b_uptodate b' <> 0.
Lemma holders_some s i d n c : holders s i = Some (d, n, c) <->
  exists b, bufs s !! i = Some b /\ 0 < b_count b /\ b_dev b = d /\ b_blocknr b = n /\ b_count b = c.
Proof.
  unfold holders, holder. split.
  - destruct (bufs s !! i) as [b|]; [|done]. cbn. destruct (Z.ltb_spec 0 (b_count b)); [|done]. intros [= <- <- <-]. by exists b.
  - intros (b & -> & Hc & <- & <- & <-). cbn. by rewrite (proj2 (Z.ltb_lt _ _) Hc).
Qed.
Lemma holder_unheld b : b_count b <= 0 -> holder b = None.
Proof. intros H. unfold holder. by rewrite (proj2 (Z.ltb_ge _ _) H). Qed.
Lemma holder_held b : 0 < b_count b -> holder b = Some (b_dev b, b_blocknr b, b_count b).
Proof. intros H. unfold holder. by rewrite (proj2 (Z.ltb_lt _ _) H). Qed.
Lemma holder_core b c : core b = core c -> holder b = holder c.
Proof. intros H. apply buffer_core_fields in H as (_ & E1 & E2 & _ & _ & E3 & _). unfold holder. by rewrite E1, E2, E3. Qed.
Lemma same_held_find s s' i b : same_held s s' -> bufs s !! i = Some b -> 0 < b_count b ->
  exists b', bufs s' !! i = Some b' /\ b_dev b' = b_dev b /\ b_blocknr b' = b_blocknr b /\ b_count b' = b_count b /\
    (b_uptodate b <> 0 -> b_uptodate b' <> 0).
Proof.
  intros [Hh Hu] Hb Hc. assert (holders s' i = Some (b_dev b, b_blocknr b, b_count b)) as H.
  { rewrite Hh. apply holders_some. by exists b. }
  apply holders_some in H as (b' & Hb' & _ & E1 & E2 & E3). exists b'. do 4 (split; [done|]). intros. by apply (Hu i b b').
Qed.
#[export] Instance same_held_preorder : PreOrder same_held.
Proof.
  split; [intros s; split; [done|congruence]|]. intros s1 s2 s3 H1 H2. split; [intros i; by rewrite (proj1 H2), (proj1 H1)|].
  intros i b c Hb Hc Hcount Hu. destruct (same_held_find s1 s2 i b H1 Hb Hcount) as (b2 & Hb2 & _ & _ & E & Hu2).
  apply (proj2 H2 i b2 c Hb2 Hc); [lia|by apply Hu2].
Qed.

(** ** Unused buffers *)
Definition room (s : fs) (m : nat) : Prop :=
  exists l, NoDup l /\ length l = m /\ forall i, i ∈ l -> exists c, bufs s !! i = Some c /\ idle c.
Lemma room_le s m k : room s m -> (k <= m)%nat -> room s k.
Proof.
  intros (l & Hnd & Hl & Hi) Hk. exists (take k l). split; [by eapply sublist_NoDup, sublist_take|]. split; [rewrite length_take; lia|].
  intros i Hin. apply Hi. by eapply subseteq_take.
Qed.
Lemma room_kept s s' bh m : room s (S m) -> idle_kept s s' bh -> room s' m.
Proof.
  intros (l & Hnd & Hl & Hi) Hk. apply (room_le s' (length (filter (fun i => i <> bh) l))).
  - exists (filter (fun i => i <> bh) l). split; [by apply NoDup_filter|]. split; [done|]. intros i Hin.
    apply list_elem_of_filter in Hin as [Hne Hin]. destruct (Hi i Hin) as (c & Hc & Hic). by apply (Hk i c).
  - clear Hi Hk. assert (length (filter (fun i => i = bh) l) <= 1)%nat as H1.
    { assert (NoDup (filter (fun i => i = bh) l)) as Hn by (by apply NoDup_filter).
      assert (forall i, i ∈ filter (fun i => i = bh) l -> i = bh) as Ha by (intros i Hin; by apply list_elem_of_filter in Hin as [? _]).
      destruct (filter (fun i => i = bh) l) as [|x [|y r]]; cbn; [lia..|]. exfalso. apply NoDup_cons in Hn as [Hn _]. apply Hn.
      rewrite (Ha x), (Ha y) by (repeat constructor). constructor. }
    assert (length l = length (filter (fun i => i = bh) l) + length (filter (fun i => i <> bh) l))%nat; [|lia].
    clear Hnd Hl H1. induction l as [|x l IH]; [done|]. rewrite !filter_cons. destruct (decide (x = bh)), (decide (x <> bh)); try done; cbn; lia.
Qed.
Lemma room_same s s' m : (forall i c, bufs s !! i = Some c -> idle c -> exists c', bufs s' !! i = Some c' /\ idle c') -> room s m -> room s' m.
Proof. intros H (l & Hnd & Hl & Hi). exists l. split; [done|]. split; [done|]. intros i Hin. destruct (Hi i Hin) as (c & Hc & Hic). by apply (H i c). Qed.

Section Hold.
Context {E : Env} {dev : Z} {D : SyncDevice dev}.
Hypothesis (Hfuel : (0 < fuel)%nat) (Hdev : 0 < dev < 65536).

Lemma room_roomy s m : spare s -> room s m -> (2 <= m)%nat -> roomy s.
Proof.
  intros Hs (l & Hnd & Hl & Hi) Hm. split; [done|]. destruct l as [|i [|j l]]; [cbn in Hl; lia..|].
  destruct (Hi i) as (b & Hb & Hib); [constructor|]. destruct (Hi j) as (c & Hc & Hjc); [repeat constructor|].
  apply NoDup_cons in Hnd as [Hn _]. exists i, j, b, c. split; [|done]. intros ->. apply Hn. constructor.
Qed.
Lemma same_cache_held s s' : same_cache s s' -> same_held s s' /\ forall m, room s m -> room s' m.
Proof.
  intros (Eb & _). split; [split; [intros i; unfold holders; by rewrite Eb|rewrite Eb; congruence]|].
  intros m. apply room_same. rewrite Eb. intros i c Hc Hi. by exists c.
Qed.

(** *** A buffer in use *)
Record held (s : fs) (bh : nat) (z : Z) (b : buffer_head) : Prop := {
  hd_buf : bufs s !! bh = Some b;
  hd_count : 0 < b_count b;
  hd_dev : b_dev b = dev;
  hd_block : b_blocknr b = z;
  hd_uptodate : b_uptodate b <> 0
}.
Lemma held_view s bh z b : serving s -> held s bh z b -> b_data b = view s z /\ length (b_data b) = 1024%nat /\ 0 <= z < blocks s.
Proof.
  intros Hs [H1 H2 H3 <- H5]. split; [symmetry; by apply (view_buffer Hfuel Hdev s bh b); [apply Hs|..]|].
  destruct (quiet_in_range s bh b (proj1 Hs) H1) as [Hr _]. split; [apply Hr|]. by apply (proj2 (proj2 Hs) bh b H1).
Qed.
Lemma held_kept s s' bh z b : held s bh z b -> same_held s s' -> exists b', held s' bh z b' /\ b_count b' = b_count b.
Proof.
  intros [H1 H2 H3 H4 H5] Hh. destruct (same_held_find s s' bh b Hh H1 H2) as (b' & E1 & E2 & E3 & E4 & E5). exists b'. split; [|done].
  split; [done|lia|congruence|congruence|by apply E5].
Qed.
Lemma alters_held s bh z b b' (s1 := s <| bufs ::= <[bh := b']> |>) : spare s -> held s bh z b -> alters b b' ->
  spare s1 /\ same_held s s1 /\ stores s z (b_data b') s1 /\ (forall m, room s m -> room s1 m) /\ held s1 bh z b' /\ rest_same s s1.
Proof.
  intros [Hs Hcount Hidle Hw Hbl] [H1 H2 H3 <- H5] Ha. pose proof Ha as (Hkey & _ & Ec & _ & Hu & _). unfold keyed in Hkey.
  assert (b_dev b' = b_dev b /\ b_blocknr b' = b_blocknr b) as [Ed En] by (split; congruence). pose proof (lookup_lt_Some _ _ _ H1) as Hlt.
  destruct (alters_serving Hfuel Hdev s bh b b' Hs H1 H3 Ha) as [Hs1 Hst]. fold s1 in Hs1, Hst.
  assert (bufs s1 !! bh = Some b') as Hb1 by (by apply list_lookup_insert_eq).
  assert (forall i, i <> bh -> bufs s1 !! i = bufs s !! i) as Ho by (intros; by apply list_lookup_insert_ne).
  assert (forall i c, bufs s !! i = Some c -> idle c -> exists c', bufs s1 !! i = Some c' /\ idle c') as Hid.
  { intros i c Hi Hic. exists c. rewrite Ho; [done|]. intros ->. rewrite H1 in Hi. injection Hi as <-. destruct Hic. lia. }
  split; [|split; [|split; [done|split; [intros m; by apply room_same|split; [split; (done || congruence || lia)|done]]]]].
  - split; [done| | |done|by rewrite (proj1 Hst)].
    + intros i c Hi. destruct (decide (i = bh)) as [->|Hne]; [|rewrite Ho in Hi by done; by apply (Hcount i)].
      rewrite Hb1 in Hi. injection Hi as <-. rewrite Ec. by apply (Hcount bh b).
    + destruct Hidle as (i & c & Hi & Hic). destruct (Hid i c Hi Hic) as (c' & Hc'). by exists i, c'.
  - split.
    + intros i. unfold holders. destruct (decide (i = bh)) as [->|Hne]; [|by rewrite Ho]. rewrite Hb1, H1. cbn. unfold holder. by rewrite Ec, Ed, En.
    + intros i c c' Hc Hc' _ Huc. destruct (decide (i = bh)) as [->|Hne]; [congruence|]. rewrite Ho in Hc' by done. congruence.
Qed.

(** *** Borrowing and giving back *)

(** [s'] is [s] with one more user of block [z], buffer [bh]. *)
Record borrowed (s s' : fs) (bh : nat) (z : Z) (b : buffer_head) : Prop := {
  bo_held : held s' bh z b;
  bo_others i : i <> bh -> holders s' i = holders s i;
  bo_count x : bufs s !! bh = Some x -> 0 < b_count x -> b_dev x = dev /\ b_blocknr x = z;
  bo_back : b_count b = 1 /\ holders s bh = None \/ holders s bh = Some (dev, z, b_count b - 1) /\ 1 < b_count b;
  bo_uptodate i c c' : bufs s !! i = Some c -> bufs s' !! i = Some c' -> 0 < b_count c -> b_uptodate c <> 0 -> b_uptodate c' <> 0
}.
Lemma bread_borrowed s z m : spare s -> room s (S (S m)) -> 0 <= z < blocks s ->
  (forall i b, bufs s !! i = Some b -> b_count b < 254) ->
  wp (bread dev z) (fun o s' => exists bh b, o = Some bh /\ borrowed s s' bh z b /\ b_data b = view s z /\ spare s' /\ room s' (S m) /\
    same_view s s' /\ rest_same s s') s.
Proof.
  intros Hs Hroom Hz Hcount. eapply wp_mono; [by apply (bread_taken Hfuel Hdev s z)|]. cbv beta.
  intros o s' (bh & b & -> & Hl & Hd & Ed & En & Hu & Hv & Hrest & Ht). exists bh, b. pose proof (taken_idle s s' z bh b Ht) as Hk.
  pose proof (room_kept s s' bh (S m) Hroom Hk) as Hroom'. destruct Ht as [Hothers (x & Hx & Hcx)]. destruct Hl as [L1 L2 L3 L4 _ L6 L7].
  assert (forall i, i <> bh -> holders s' i = holders s i) as Hho.
  { intros i Hi. specialize (Hothers i Hi). unfold holders. destruct (bufs s' !! i) as [c|], (bufs s !! i) as [c'|]; try done.
    apply (inj Some) in Hothers. cbn. by apply holder_core. }
  split; [done|]. split; [split|split; [done|split; [|done]]].
  - split; (done || lia).
  - exact Hho.
  - intros y Hy Hc. assert (y = x) as -> by congruence. destruct Hcx as [[[Hi _] _]|(E1 & E2 & _)]; [lia|done].
  - unfold holders. rewrite Hx. cbn. destruct Hcx as [[[Hi _] E1]|(E1 & E2 & E3)]; [left; split; [done|apply holder_unheld; lia]|].
    destruct (decide (0 < b_count x)) as [Hc|Hc]; [right|left].
    + rewrite holder_held by done. rewrite E1, E2. split; [do 2 f_equal; lia|lia].
    + destruct (quiet_in_range s bh x (proj1 (sp_serving s Hs)) Hx) as [Hr _]. unfold in_range in Hr. split; [lia|apply holder_unheld; lia].
  - intros i c c' Hc Hc' Hcc Huc. destruct (decide (i = bh)) as [->|Hne]; [congruence|]. specialize (Hothers i Hne). rewrite Hc, Hc' in Hothers.
    apply (inj Some) in Hothers. apply buffer_core_fields in Hothers as (_ & _ & _ & -> & _). done.
  - split; [done| | |done|done].
    + intros i c Hi. destruct (decide (i = bh)) as [->|Hne]; [|by apply (L4 i)]. rewrite L2 in Hi. injection Hi as <-.
      destruct Hcx as [[_ ->]|(_ & _ & ->)]; [lia|]. specialize (Hcount bh x Hx). lia.
    + destruct Hroom' as (l & _ & Hl & Hi). destruct l as [|i l]; [done|]. destruct (Hi i) as (c & Hc & Hic); [constructor|]. by exists i, c.
Qed.
Lemma brelse_held s bh z b (s1 := s <| bufs ::= <[bh := released b]> |>) : spare s -> held s bh z b ->
  brelse (Some bh) s = Done tt s1 /\ spare s1 /\ same_view s s1 /\ (forall m, room s m -> room s1 m).
Proof.
  intros [Hs Hcount Hidle Hw Hbl] [H1 H2 H3 H4 H5]. pose proof (lookup_lt_Some _ _ _ H1) as Hlt.
  destruct (brelse_run Hfuel s bh b (proj1 Hs) H1 H2 Hw) as [Hrun _]. destruct (released_view Hfuel Hdev s bh b H1 H2 Hs Hw) as [Hs1 Hv]. fold s1 in Hrun, Hs1, Hv.
  assert (forall i c, bufs s !! i = Some c -> idle c -> exists c', bufs s1 !! i = Some c' /\ idle c') as Hid.
  { intros i c Hi Hic. exists c. assert (i <> bh) as Hne by (intros ->; rewrite H1 in Hi; injection Hi as <-; destruct Hic; lia).
    split; [|done]. cbn. by rewrite list_lookup_insert_ne. }
  split; [done|]. split; [|split; [done|intros m; by apply room_same]]. split; [done| | |done|by rewrite (proj1 Hv)].
  - intros i c Hi. cbn in Hi. destruct (decide (i = bh)) as [->|Hne]; [|rewrite list_lookup_insert_ne in Hi by done; by apply (Hcount i)].
    rewrite list_lookup_insert_eq in Hi by done. injection Hi as <-. specialize (Hcount bh b H1). change (b_count (released b)) with (b_count b - 1). lia.
  - destruct Hidle as (i & c & Hi & Hic). destruct (Hid i c Hi Hic) as (c' & Hc'). by exists i, c'.
Qed.
(** What was borrowed in [s], whatever was done since, is given back: the users are those of [s]. *)
Lemma borrowed_released s s1 s2 bh z b b2 : borrowed s s1 bh z b -> same_held s1 s2 -> held s2 bh z b2 ->
  same_held s (s2 <| bufs ::= <[bh := released b2]> |>).
Proof.
  intros [B1 B2 B3 B4 B5] Hh H2. pose proof (lookup_lt_Some _ _ _ (hd_buf _ _ _ _ H2)) as Hlt.
  destruct (held_kept s1 s2 bh z b B1 Hh) as (b2' & H2' & Ec). assert (b2' = b2) as -> by (pose proof (hd_buf _ _ _ _ H2); pose proof (hd_buf _ _ _ _ H2'); congruence).
  pose proof (hd_count _ _ _ _ B1) as Hcb. split.
  - intros i. destruct (decide (i = bh)) as [->|Hne].
    + unfold holders at 1. cbn. rewrite list_lookup_insert_eq by done. cbn. destruct B4 as [[E1 ->]|[-> Hc]].
      * apply holder_unheld. change (b_count (released b2)) with (b_count b2 - 1). lia.
      * rewrite holder_held by (change (b_count (released b2)) with (b_count b2 - 1); lia). change (b_count (released b2)) with (b_count b2 - 1).
        change (b_dev (released b2)) with (b_dev b2). change (b_blocknr (released b2)) with (b_blocknr b2).
        by rewrite (hd_dev _ _ _ _ H2), (hd_block _ _ _ _ H2), Ec.
    + unfold holders at 1. cbn. rewrite list_lookup_insert_ne by done. fold (holders s2 i). rewrite (proj1 Hh). by apply B2.
  - intros i c c' Hc Hc' Hcc Huc. destruct (decide (i = bh)) as [->|Hne].
    + cbn in Hc'. rewrite list_lookup_insert_eq in Hc' by done. injection Hc' as <-. apply (hd_uptodate _ _ _ _ H2).
    + cbn in Hc'. rewrite list_lookup_insert_ne in Hc' by done. assert (holders s1 i = Some (b_dev c, b_blocknr c, b_count c)) as H1.
      { rewrite B2 by done. apply holders_some. by exists c. }
      apply holders_some in H1 as (c1 & Hc1 & Hcc1 & _). apply (proj2 Hh i c1 c' Hc1 Hc' Hcc1). by apply (B5 i c c1).
Qed.
End Hold.
End Hold.
