(* ===== verification/Alloc.v ===== *)
(** * Alloc: the allocation of blocks

    [new_block] and [free_block] of [Bitmap], as operations on the set of used blocks that
    the bitmap stands for, above the buffer cache. *)
From S2P Require Import Prelude Console Task Sched Fs Blk Buffer Bitmap Inode FileDev View Stored Hold.
Import Blk Buffer Bitmap Inode FileDev View Stored Hold.

Module Alloc.

(** ** The first zero of a bitmap *)
Lemma join_testbit a b n k : 0 <= n -> 0 <= a < 2 ^ n -> 0 <= k ->
  Z.testbit (a + 2 ^ n * b) k = if k <? n then Z.testbit a k else Z.testbit b (k - n).
Proof.
  intros Hn Ha Hk. destruct (Z.ltb_spec k n).
  - rewrite <- (Z.mod_pow2_bits_low _ n k) by lia. rewrite Z.mul_comm, Z.mod_add, Z.mod_small by lia. done.
  - replace k with (k - n + n) at 1 by lia. rewrite <- Z.div_pow2_bits by lia.
    rewrite Z.mul_comm, Z.div_add, Z.div_small by lia. f_equal.
Qed.
Lemma byte_bytes l o : Forall (fun v => 0 <= v < 256) l -> 0 <= byte l o < 2 ^ 8.
Proof. intros H. change (2 ^ 8) with 256. by apply byte_range. Qed.
Lemma word_testbit l o k : Forall (fun v => 0 <= v < 256) l -> 0 <= k < 32 ->
  Z.testbit (word l o) k = Z.testbit (byte l (o + k / 8)) (k mod 8).
Proof.
  intros Hl Hk. pose proof (half_range l o Hl). pose proof (half_range l (o + 2) Hl).
  assert (forall p j, 0 <= j < 16 -> Z.testbit (half l p) j = Z.testbit (byte l (p + j / 8)) (j mod 8)) as Hhalf.
  { intros p j Hj. unfold half. pose proof (byte_bytes l p Hl). change 256 with (2 ^ 8). rewrite join_testbit by lia.
    destruct (Z.ltb_spec j 8).
    - rewrite Z.div_small, Z.mod_small, Z.add_0_r by lia. done.
    - replace (j / 8) with 1 by dlia. replace (j mod 8) with (j - 8) by dlia. done. }
  unfold word. change 65536 with (2 ^ 16). rewrite join_testbit by (change (2 ^ 16) with 65536; lia).
  destruct (Z.ltb_spec k 16); [apply Hhalf; lia|]. rewrite Hhalf by lia. f_equal; [f_equal; dlia|dlia].
Qed.
Lemma find_seqZ_first (f : Z -> bool) n : forall a k, List.find f (seqZ a (Z.of_nat n)) = Some k ->
  a <= k < a + Z.of_nat n /\ f k = true /\ forall i, a <= i < k -> f i = false.
Proof.
  induction n as [|n IH]; intros a k H; [done|]. rewrite seqZ_cons in H by lia. cbn [List.find] in H.
  replace (Z.pred (Z.of_nat (S n))) with (Z.of_nat n) in H by lia. destruct (f a) eqn:Ea.
  - injection H as <-. split; [lia|]. split; [done|lia].
  - destruct (IH (Z.succ a) k H) as (H1 & H2 & H3). split; [lia|]. split; [done|]. intros i Hi.
    destruct (decide (i = a)) as [->|]; [done|]. apply H3. lia.
Qed.
Lemma scan_words_spec l n : Forall (fun v => 0 <= v < 256) l -> forall ecx, 0 <= ecx -> ecx mod 32 = 0 ->
  let r := scan_words n ecx l in let top := ecx + 32 * Z.of_nat n in
  (r = top \/ ecx <= r < top /\ test_bit r l = false) /\ forall i, ecx <= i < r -> test_bit i l = true.
Proof.
  intros Hl. induction n as [|n IH]; intros ecx H0 Hm; cbn [scan_words]; cbv zeta.
  - split; [left; lia|intros; lia].
  - assert (forall k, 0 <= k < 32 -> Z.testbit (Z.lxor (word l (ecx / 8)) 4294967295) k = negb (test_bit (ecx + k) l)) as Hbit.
    { intros k Hk. rewrite Z.lxor_spec. change 4294967295 with (Z.ones 32). rewrite Z.ones_spec_low by lia. rewrite xorb_true_r.
      f_equal. rewrite word_testbit by done. unfold test_bit. f_equal; [f_equal; dlia|dlia]. }
    unfold bsf. destruct (List.find _ _) as [k|] eqn:Ef.
    + destruct (find_seqZ_first _ 32 0 k Ef) as (Hk & Hset & Hlow). rewrite Hbit in Hset by lia. split.
      * right. split; [lia|]. by apply negb_true_iff.
      * intros i Hi. specialize (Hlow (i - ecx) ltac:(lia)). rewrite Hbit in Hlow by lia.
        replace (ecx + (i - ecx)) with i in Hlow by lia. by apply negb_false_iff.
    + destruct (IH (ecx + 32)) as [H1 H2]; [lia|dlia|]. cbv zeta in *. split.
      * destruct H1 as [->|[H1 H3]]; [left; lia|right; split; [lia|done]].
      * intros i Hi. destruct (decide (i < ecx + 32)) as [Hlt|]; [|apply H2; lia].
        pose proof (List.find_none _ _ Ef (i - ecx)) as Hno. rewrite Hbit in Hno by lia.
        replace (ecx + (i - ecx)) with i in Hno by lia. apply negb_false_iff, Hno, list_elem_of_In, elem_of_seqZ. lia.
Qed.
(** The first bit that is clear, 8192 when there is none. *)
Lemma find_first_zero_spec l (r := find_first_zero l) : Forall (fun v => 0 <= v < 256) l ->
  (r = 8192 \/ 0 <= r < 8192 /\ test_bit r l = false) /\ forall i, 0 <= i < r -> test_bit i l = true.
Proof. intros Hl. apply (scan_words_spec l 256 Hl 0); done. Qed.

(** ** Changing a bit *)
Lemma test_with_bit l nr v i : 0 <= nr < 8 * Z.of_nat (length l) -> 0 <= i -> Forall (fun v => 0 <= v < 256) l ->
  test_bit i (with_bit nr v l) = if decide (i = nr) then v else test_bit i l.
Proof.
  intros Hnr Hi Hl. assert (0 <= nr / 8 < Z.of_nat (length l)) as Hd by dlia. pose proof (byte_range l (nr / 8) Hl) as Hb.
  set (w := if v then Z.setbit (byte l (nr / 8)) (nr mod 8) else Z.clearbit (byte l (nr / 8)) (nr mod 8)).
  assert (forall j, 0 <= j < 8 -> Z.testbit (u8 w) j = if decide (j = nr mod 8) then v else Z.testbit (byte l (nr / 8)) j) as Hw.
  { intros j Hj. unfold u8. rewrite Z.mod_pow2_bits_low by lia. unfold w. assert (0 <= nr mod 8) by dlia. destruct (decide (j = nr mod 8)) as [->|Hne], v.
    - by rewrite Z.setbit_eq.
    - by rewrite Z.clearbit_eq.
    - rewrite Z.setbit_neq; [done|done|congruence].
    - rewrite Z.clearbit_neq; [done|congruence]. }
  unfold test_bit, with_bit, set_byte. fold w. unfold byte at 1. destruct (decide (i / 8 = nr / 8)) as [E|E].
  - rewrite E, list_lookup_insert_eq by lia. cbn. rewrite Hw by dlia. destruct (decide (i = nr)) as [->|Hne]; [by rewrite decide_True|].
    rewrite decide_False; [done|]. dlia.
  - rewrite list_lookup_insert_ne by (assert (0 <= i / 8) by dlia; lia). rewrite decide_False; [done|]. congruence.
Qed.
Lemma with_bit_bytes l nr v : Forall (fun v => 0 <= v < 256) l -> Forall (fun v => 0 <= v < 256) (with_bit nr v l).
Proof. intros Hl. unfold with_bit, set_byte. apply Forall_insert; [done|]. apply u8_range. Qed.
Lemma length_with_bit l nr v : length (with_bit nr v l) = length l.
Proof. apply length_insert. Qed.

(** ** The bitmap of a file system *)
Section Zones.
Context {E : Env} {dev : Z} {D : SyncDevice dev}.
Hypothesis (Hfuel : (0 < fuel)%nat) (Hdev : 0 < dev < 65536).

Definition zmap_block (S : super_block) (i : Z) : Z := 2 + s_imap_blocks S + i.
(** Bit [k] of the bitmap on the device; block [n] of the data zone has bit [zone_bit S n]. *)
Definition mapped (s : fs) (S : super_block) (k : Z) : bool := test_bit (k mod 8192) (view s (zmap_block S (k / 8192))).
Definition zone_bit (S : super_block) (n : Z) : Z := n - (s_firstdatazone S - 1).
Definition data_zone (S : super_block) (n : Z) : Prop := s_firstdatazone S <= n < s_nzones S.
Definition used (s : fs) (S : super_block) (n : Z) : bool := mapped s S (zone_bit S n).

(** While the file system is mounted the blocks of the bitmap are in buffers that are in use. *)
Definition map_buffer (S : super_block) (i : Z) (b : buffer_head) : Prop :=
  b_dev b = dev /\ b_blocknr b = zmap_block S i /\ b_uptodate b <> 0 /\ 0 < b_count b /\ Forall (fun v => 0 <= v < 256) (b_data b).
Record maps_held (s : fs) (S : super_block) : Prop := {
  mh_slots : length (s_zmap S) = Z_MAP_SLOTS;
  mh_count : 0 <= s_zmap_blocks S <= 8 /\ 0 <= s_imap_blocks S;
  mh_first : 2 + s_imap_blocks S + s_zmap_blocks S <= s_firstdatazone S;
  mh_cover : zone_bit S (s_nzones S) <= 8192 * s_zmap_blocks S;
  mh_size : s_nzones S <= blocks s;
  mh_map i : 0 <= i < s_zmap_blocks S -> exists bh b, s_zmap S !! Z.to_nat i = Some (Some bh) /\ bufs s !! bh = Some b /\ map_buffer S i b;
  mh_none i : s_zmap_blocks S <= i < 8 -> s_zmap S !! Z.to_nat i = Some None
}.
Lemma maps_held_frame s s' S : blocks s' = blocks s -> maps_held s S ->
  (forall i bh b, 0 <= i < s_zmap_blocks S -> bufs s !! bh = Some b -> map_buffer S i b -> exists b', bufs s' !! bh = Some b' /\ map_buffer S i b') ->
  maps_held s' S.
Proof.
  intros Hb [H1 H2 H3 H4 H5 H6 H7] H. split; try done; [by rewrite Hb|].
  intros i Hi. destruct (H6 i Hi) as (bh & b & Hs & Hbh & Hm). destruct (H i bh b Hi Hbh Hm) as (b' & Hb' & Hm'). by exists bh, b'.
Qed.
Lemma map_buffer_view s S i bh b : serving s -> bufs s !! bh = Some b -> map_buffer S i b -> view s (zmap_block S i) = b_data b.
Proof. intros Hs Hb (H1 & <- & H3 & _). by apply (view_buffer Hfuel Hdev s bh b); [apply Hs|..]. Qed.

(** *** The search for a clear bit *)
Definition slot_bit (s : fs) (maps : list (option nat)) (k : Z) : bool :=
  match maps !! Z.to_nat (k / 8192) with
  | Some (Some bh) => match bufs s !! bh with Some b => test_bit (k mod 8192) (b_data b) | None => true end
  | _ => true
  end.
Lemma slot_bit_cons s o maps k : 8192 <= k -> slot_bit s (o :: maps) k = slot_bit s maps (k - 8192).
Proof.
  intros Hk. unfold slot_bit. replace (k / 8192) with (Z.succ ((k - 8192) / 8192)) by dlia. rewrite Z2Nat.inj_succ by dlia. cbn [lookup list_lookup].
  replace ((k - 8192) mod 8192) with (k mod 8192) by dlia. done.
Qed.
Lemma first_free_run s : forall maps i,
  (forall j bh, maps !! j = Some (Some bh) -> exists b, bufs s !! bh = Some b /\ Forall (fun v => 0 <= v < 256) (b_data b)) ->
  (first_free maps i s = Done None s /\ forall k, 0 <= k -> slot_bit s maps k = true) \/
  exists m bh j, first_free maps i s = Done (Some (i + m, bh, j)) s /\ 0 <= m /\ maps !! Z.to_nat m = Some (Some bh) /\ 0 <= j < 8192 /\
    slot_bit s maps (8192 * m + j) = false /\ forall k, 0 <= k < 8192 * m + j -> slot_bit s maps k = true.
Proof.
  induction maps as [|o maps IH]; intros i Hmaps.
  - left. split; [done|]. intros k _. unfold slot_bit. by rewrite lookup_nil.
  - assert (forall k, 0 <= k < 8192 -> slot_bit s (o :: maps) k = match o with
      | Some bh => match bufs s !! bh with Some b => test_bit k (b_data b) | None => true end | None => true end) as Hhead.
    { intros k Hk. unfold slot_bit. rewrite Z.div_small, Z.mod_small by lia. done. }
    assert ((forall k, 0 <= k < 8192 -> slot_bit s (o :: maps) k = true) -> first_free (o :: maps) i s = first_free maps (i + 1) s ->
      (first_free (o :: maps) i s = Done None s /\ forall k, 0 <= k -> slot_bit s (o :: maps) k = true) \/
      exists m bh j, first_free (o :: maps) i s = Done (Some (i + m, bh, j)) s /\ 0 <= m /\ (o :: maps) !! Z.to_nat m = Some (Some bh) /\ 0 <= j < 8192 /\
        slot_bit s (o :: maps) (8192 * m + j) = false /\ forall k, 0 <= k < 8192 * m + j -> slot_bit s (o :: maps) k = true) as Hnext.
    { intros Hall Hrun. rewrite Hrun. destruct (IH (i + 1)) as [[H1 H2]|(m & bh & j & H1 & H2 & H3 & H4 & H5 & H6)].
      - intros j bh Hj. by apply (Hmaps (S j)).
      - left. split; [done|]. intros k Hk. destruct (decide (k < 8192)); [apply Hall; lia|]. rewrite slot_bit_cons by lia. apply H2. lia.
      - right. exists (m + 1), bh, j. split; [rewrite H1; do 3 f_equal; f_equal; lia|]. split; [lia|].
        split; [replace (Z.to_nat (m + 1)) with (S (Z.to_nat m)) by lia; done|]. split; [done|]. split.
        + rewrite slot_bit_cons by lia. by replace (8192 * (m + 1) + j - 8192) with (8192 * m + j) by lia.
        + intros k Hk. destruct (decide (k < 8192)); [apply Hall; lia|]. rewrite slot_bit_cons by lia. apply H6. lia. }
    destruct o as [bh|].
    + destruct (Hmaps 0%nat bh eq_refl) as (b & Hb & Hbytes). rewrite Hb in Hhead.
      destruct (find_first_zero_spec (b_data b) Hbytes) as [Hr Hlow]. set (r := find_first_zero (b_data b)) in *.
      assert (first_free (Some bh :: maps) i s = if r <? 8192 then Done (Some (i, bh, r)) s else first_free maps (i + 1) s) as Hrun.
      { cbn [first_free]. run (get_buf_run s bh b Hb). fold r. by destruct (r <? 8192). }
      destruct (Z.ltb_spec r 8192).
      * right. exists 0, bh, r. destruct Hr as [|[Hr Hclear]]; [lia|]. split; [rewrite Hrun; do 3 f_equal; f_equal; lia|].
        split; [lia|]. split; [done|]. split; [done|]. split; [rewrite Hhead by lia; done|]. intros k Hk. rewrite Hhead by lia. apply Hlow. lia.
      * apply Hnext; [|done]. intros k Hk. rewrite Hhead by lia. apply Hlow. lia.
    + apply Hnext; [|done]. intros k Hk. by rewrite Hhead by lia.
Qed.
Lemma slot_bit_mapped s S k : serving s -> maps_held s S -> 0 <= k < 8192 * s_zmap_blocks S -> slot_bit s (s_zmap S) k = mapped s S k.
Proof.
  intros Hs Hm Hk. destruct (mh_map _ _ Hm (k / 8192)) as (bh & b & Hslot & Hb & Hmb); [dlia|].
  unfold slot_bit, mapped. rewrite Hslot, Hb. by rewrite (map_buffer_view s S (k / 8192) bh b).
Qed.

(** *** Changing a bit of the bitmap *)
Lemma held_changed s S m bh b nr v (d := with_bit nr v (b_data b)) (s1 := s <| bufs ::= <[bh := changed b d]> |>) :
  spare s -> maps_held s S -> 0 <= m < s_zmap_blocks S -> s_zmap S !! Z.to_nat m = Some (Some bh) -> bufs s !! bh = Some b -> map_buffer S m b ->
  0 <= nr < 8192 ->
  spare s1 /\ (roomy s -> roomy s1) /\ maps_held s1 S /\ stores s (zmap_block S m) d s1 /\
  forall k, 0 <= k < 8192 * s_zmap_blocks S -> mapped s1 S k = if decide (k = 8192 * m + nr) then v else mapped s S k.
Proof.
  intros [Hs Hcount Hidle Hw Hbl] Hm Hmr Hslot Hb Hmb Hnr. pose proof Hmb as (M1 & M2 & M3 & M4 & M5).
  destruct (quiet_in_range s bh b (proj1 Hs) Hb) as [(_ & _ & _ & _ & Hlen) _].
  assert (length d = 1024%nat) as Hld by (unfold d; by rewrite length_with_bit). pose proof (lookup_lt_Some _ _ _ Hb) as Hlt.
  destruct (alters_serving Hfuel Hdev s bh b (changed b d) Hs Hb M1 (changed_alters Hfuel b d M3 Hld)) as [Hs1 Hst]. rewrite M2 in Hst.
  change (b_data (changed b d)) with d in Hst. fold s1 in Hs1, Hst.
  assert (bufs s1 !! bh = Some (changed b d)) as Hb1 by (by apply list_lookup_insert_eq).
  assert (forall i, i <> bh -> bufs s1 !! i = bufs s !! i) as Ho by (intros; by apply list_lookup_insert_ne).
  assert (forall i c, bufs s !! i = Some c -> idle c -> bufs s1 !! i = Some c) as Hid.
  { intros i c Hi [I1 I2]. rewrite Ho; [done|]. intros ->. rewrite Hb in Hi. injection Hi as <-. lia. }
  assert (spare s1) as Hsp1.
  { split; [done| | |done|by rewrite (proj1 Hst)].
    - intros i c Hi. destruct (decide (i = bh)) as [->|Hne]; [|rewrite Ho in Hi by done; by apply (Hcount i)].
      rewrite Hb1 in Hi. injection Hi as <-. by apply (Hcount bh b).
    - destruct Hidle as (i & c & Hi & Hic). exists i, c. split; [by apply Hid|done]. }
  split; [done|]. split; [|split; [|split; [done|]]].
  - intros (_ & i & j & c & e & Hij & Hi & Hic & Hj & Hje). split; [done|]. exists i, j, c, e. by split_and!; try apply Hid.
  - apply (maps_held_frame s); [apply Hst|done|]. intros i x c Hi Hx Hmx. destruct (decide (x = bh)) as [->|Hne].
    + exists (changed b d). split; [done|]. rewrite Hb in Hx. injection Hx as <-. destruct Hmx as (X1 & X2 & X3 & X4 & X5). by split_and!; try apply with_bit_bytes.
    + exists c. by rewrite Ho.
  - intros k Hk. unfold mapped. destruct Hst as [_ Hv]. pose proof (mh_first _ _ Hm). pose proof (mh_size _ _ Hm). pose proof (mh_cover _ _ Hm). unfold zone_bit in *.
    pose proof (mh_count _ _ Hm).
    destruct (mh_map _ _ Hm (k / 8192)) as (x & c & _ & Hx & C1 & C2 & C3 & _); [dlia|].
    assert (0 <= zmap_block S (k / 8192) < blocks s) as Hkr by (rewrite <- C2; by apply (proj2 (proj2 Hs) x c Hx)).
    rewrite Hv by done. destruct (decide (zmap_block S (k / 8192) = zmap_block S m)) as [E1|E1]; unfold zmap_block in E1.
    + unfold d. rewrite test_with_bit by (rewrite ?Hlen; try done; dlia). assert (k / 8192 = m) as E2 by lia.
      rewrite (map_buffer_view s S (k / 8192) bh b) by (try done; by rewrite E2).
      destruct (decide (k mod 8192 = nr)), (decide (k = 8192 * m + nr)); try done; exfalso; dlia.
    + rewrite decide_False; [done|]. intros ->. apply E1. f_equal. dlia.
Qed.

(** *** A fresh block *)
Definition zeros : list Z := replicate 1024 0.
Definition wiped (b : buffer_head) : buffer_head := b <| b_data := zeros |> <| b_uptodate := 1 |> <| b_dirt := 1 |>.
Definition holds_kept (s s' : fs) : Prop :=
  forall i b, bufs s !! i = Some b -> 0 < b_count b -> exists b', bufs s' !! i = Some b' /\ core b' = core b.
Lemma fresh_block s z : roomy s -> 0 <= z < blocks s ->
  (forall i b, bufs s !! i = Some b -> b_dev b = dev -> b_blocknr b = z -> b_count b = 0) ->
  wp (bh <- getblk dev z ;; b <- get_buf bh ;; if negb (b_count b =? 1) then panic "new block: count is != 1" else
      clear_block bh ;;; mod_buf bh (fun b => b <| b_uptodate := 1 |> <| b_dirt := 1 |>) ;;; brelse (Some bh) ;;; ret z)
    (fun r s' => r = z /\ spare s' /\ stores s z zeros s' /\ rest_same s s' /\ holds_kept s s' /\ same_held s s' /\
      forall m, room s (S m) -> room s' m) s.
Proof.
  intros Hroom Hz Hfree. pose proof Hroom as [Hsp _]. pose proof Hsp as [Hs Hcount Hidle Hw Hbl].
  assert (can_get s dev z) as Hcan by (apply (spare_can_get Hdev); [done|lia]).
  apply wp_bind. unfold wp at 1. pose proof (getblk_view Hfuel Hdev s z Hs Hcan Hz) as H1. unfold wp in H1.
  pose proof (getblk_spec Hfuel s dev z (proj1 Hs) Hcan) as H2. unfold wp in H2.
  destruct (getblk dev z s) as [bh s1| | |]; try done.
  destruct H1 as (Hs1 & Hv1 & Hk1 & b & Hb & Ed & En & Hc & Hgot). destruct H2 as (_ & Hco1 & _).
  destruct (got_lent Hfuel s s1 z bh Hsp Hs1 (proj1 Hv1) (f_equal wchan Hk1) Hgot) as [b' Hl]. pose proof (taken_idle s s1 z bh b (got_taken s s1 z bh b Hgot Hb)) as Hkept.
  assert (b' = b) as -> by (pose proof (le_buf _ _ _ Hl); congruence).
  assert (b_count b = 1 /\ forall x, bufs s !! bh = Some x -> b_count x = 0) as [Hone Hzero].
  { destruct Hgot as [_ (b' & Hb' & [(x & Hx & X1 & X2 & Ec)|(x & _ & Hx & [Hx0 _] & Ec)])];
      assert (b' = b) as -> by congruence; apply buffer_core_fields in Ec as (_ & _ & _ & _ & _ & -> & _).
    - change (b_count (counted x)) with (b_count x + 1). rewrite (Hfree bh x) by done. split; [done|]. intros y Hy. replace y with x by congruence. by apply (Hfree bh).
    - split; [done|]. intros y Hy. by replace y with x by congruence. }
  apply wp_bind. unfold wp at 1. rewrite (get_buf_run s1 bh b Hb). rewrite Hone. cbn [negb Z.eqb Pos.eqb].
  pose proof (lookup_lt_Some _ _ _ Hb) as Hlt. unfold clear_block.
  apply wp_bind. unfold wp at 1. rewrite (mod_buf_run s1 bh b _ Hb). set (b2 := b <| b_data := _ |>). set (s2 := s1 <| bufs ::= _ |>).
  assert (bufs s2 !! bh = Some b2) as Hb2 by (by apply list_lookup_insert_eq).
  apply wp_bind. unfold wp at 1. rewrite (mod_buf_run s2 bh b2 _ Hb2). set (s3 := s2 <| bufs ::= _ |>).
  assert (s3 = s1 <| bufs ::= <[bh := wiped b]> |>) as ->.
  { unfold s3, s2, upd, upd_bufs. cbn. by rewrite list_insert_insert_eq. }
  assert (alters b (wiped b)) as Ha by (unfold alters; cbn; split_and!; done).
  destruct (alters_release Hfuel Hdev s1 bh b (wiped b) Hl Ed Ha) as (Hrel & Hsp' & Hst); [by apply (roomy_kept s)|].
  pose proof (proj1 Hgot) as Hothers.
  apply wp_bind. unfold wp at 1. rewrite Hrel. apply wp_ret. split; [done|]. split; [done|]. rewrite En in Hst. split; [|split; [|split; [|split]]].
  - destruct Hst as [B1 V1], Hv1 as [B0 V0]. split; [congruence|]. intros n Hn. rewrite V1 by lia. by rewrite V0 by lia.
  - etransitivity; [by apply cache_only_rest|]. done.
  - intros i c Hi Hcc. assert (i <> bh) as Hne by (intros ->; rewrite (Hzero c Hi) in Hcc; lia).
    specialize (Hothers i Hne). rewrite Hi in Hothers. cbn. rewrite list_lookup_insert_ne by done.
    destruct (bufs s1 !! i) as [c'|]; [|done]. exists c'. split; [done|]. by apply (inj Some) in Hothers.
  - split.
    + intros i. unfold holders. cbn. destruct (decide (i = bh)) as [->|Hne].
      * rewrite list_lookup_insert_eq by done. cbn. rewrite holder_unheld by (change (b_count b - 1 <= 0); lia).
        destruct (bufs s !! bh) as [x|]; [|done]. cbn. symmetry. apply holder_unheld. by rewrite (Hzero x).
      * rewrite list_lookup_insert_ne by done. specialize (Hothers i Hne). destruct (bufs s1 !! i), (bufs s !! i); try done.
        apply (inj Some) in Hothers. by apply holder_core.
    + intros i c c' Hi Hi' Hcc Huc. cbn in Hi'. destruct (decide (i = bh)) as [->|Hne]; [rewrite (Hzero c Hi) in Hcc; lia|].
      rewrite list_lookup_insert_ne in Hi' by done. specialize (Hothers i Hne). rewrite Hi, Hi' in Hothers. apply (inj Some) in Hothers.
      apply buffer_core_fields in Hothers as (_ & _ & _ & -> & _). done.
  - intros m Hm. apply (room_kept s _ bh m Hm). intros i c Hne Hi Hic. destruct (Hkept i c Hne Hi Hic) as (c' & Hc' & Hic').
    exists c'. split; [|done]. cbn. by rewrite list_lookup_insert_ne.
Qed.

(** *** [new_block] *)
Lemma map_below_data s S m z : maps_held s S -> 0 <= m < s_zmap_blocks S -> data_zone S z -> zmap_block S m <> z /\ 0 <= zmap_block S m < blocks s.
Proof. intros Hm Hr [H1 H2]. pose proof (mh_first _ _ Hm). pose proof (mh_size _ _ Hm). pose proof (mh_count _ _ Hm). unfold zmap_block. lia. Qed.
Lemma clear_bit_slot s S m bh j : maps_held s S -> 0 <= m -> s_zmap S !! Z.to_nat m = Some (Some bh) -> 0 <= j < 8192 -> 
  exists b, 0 <= m < s_zmap_blocks S /\ bufs s !! bh = Some b /\ map_buffer S m b /\ slot_bit s (s_zmap S) (8192 * m + j) = test_bit j (b_data b).
Proof.
  intros Hm H0 Hslot Hj. pose proof (lookup_lt_Some _ _ _ Hslot) as Hlt. rewrite (mh_slots _ _ Hm) in Hlt. change Z_MAP_SLOTS with 8%nat in Hlt.
  assert (m < s_zmap_blocks S) as Hmb.
  { destruct (decide (m < s_zmap_blocks S)); [done|]. pose proof (mh_none _ _ Hm m ltac:(lia)). congruence. }
  destruct (mh_map _ _ Hm m ltac:(lia)) as (bh' & b & Hslot' & Hb & Hmbuf). assert (bh' = bh) as -> by congruence.
  exists b. split; [lia|]. split; [done|]. split; [done|]. unfold slot_bit. replace ((8192 * m + j) / 8192) with m by dlia.
  replace ((8192 * m + j) mod 8192) with j by dlia. by rewrite Hslot, Hb.
Qed.
Lemma holds_kept_maps s s1 S : maps_held s S -> blocks s1 = blocks s -> holds_kept s s1 -> maps_held s1 S.
Proof.
  intros Hm Hb Hkept. apply (maps_held_frame s); [done|done|]. intros i x c _ Hx Hmx. destruct (Hkept x c Hx) as (c' & Hc' & Ec); [apply Hmx|].
  exists c'. split; [done|]. apply buffer_core_fields in Ec as (E1 & E2 & E3 & E4 & _ & E6 & _). unfold map_buffer in *. rewrite E1, E2, E3, E4, E6. done.
Qed.
(** The bit that is set and the block that is answered. *)
Definition allocated (s : fs) (S : super_block) (k r : Z) (s' : fs) : Prop :=
  0 <= k < 8192 * s_zmap_blocks S /\ mapped s S k = false /\ (forall i, 0 <= i < k -> mapped s S i = true) /\
  (forall i, 0 <= i < 8192 * s_zmap_blocks S -> mapped s' S i = if decide (i = k) then true else mapped s S i) /\
  (r = 0 /\ s_nzones S <= k + (s_firstdatazone S - 1) \/ r = k + (s_firstdatazone S - 1) /\ data_zone S r /\ view s' r = zeros) /\
  forall z, 0 <= z < blocks s -> z <> zmap_block S (k / 8192) -> r = 0 \/ z <> r -> view s' z = view s z.
Lemma new_block_run s sb S : roomy s -> mounted (dev := dev) s sb S -> maps_held s S -> mapped s S 0 = true ->
  (forall i b, bufs s !! i = Some b -> b_dev b = dev -> data_zone S (b_blocknr b) -> used s S (b_blocknr b) = false -> b_count b = 0) ->
  wp (new_block dev) (fun r s' => spare s' /\ maps_held s' S /\ rest_same s s' /\ same_held s s' /\ (forall m, room s (Datatypes.S m) -> room s' m) /\ blocks s' = blocks s /\
    (r = 0 /\ s' = s /\ (forall k, 0 <= k < 8192 * s_zmap_blocks S -> mapped s S k = true) \/ exists k, allocated s S k r s')) s.
Proof.
  intros Hroom Hmo Hm Hres Hfree. pose proof (proj1 Hroom) as Hsp. pose proof (sp_serving s Hsp) as Hs.
  unfold new_block. apply wp_bind. unfold wp at 1. rewrite (get_super_run (dev := dev) Hfuel Hdev s sb S Hmo). cbv iota.
  apply wp_bind. unfold wp at 1. rewrite (get_sb_run s sb S (mo_sb _ _ _ Hmo)). apply wp_bind. unfold wp at 1.
  destruct (first_free_run s (s_zmap S) 0) as [[-> Hall]|(m & bh & j & -> & H0 & Hslot & Hj & Hclear & Hlow)].
  { intros i bh Hi. destruct (clear_bit_slot s S (Z.of_nat i) bh 0) as (b & _ & Hb & Hmb & _); [done|lia|by rewrite Nat2Z.id|lia|].
    exists b. split; [done|]. apply Hmb. }
  { cbv iota. apply wp_ret. split; [done|]. split; [done|]. split; [done|]. split; [done|]. split; [intros n; intros Hn; apply (room_le _ _ _ Hn); lia|]. split; [done|]. left. split; [done|]. split; [done|].
    intros k Hk. rewrite <- (slot_bit_mapped s S k) by done. apply Hall. lia. }
  cbv iota. rewrite Z.add_0_l. destruct (clear_bit_slot s S m bh j Hm H0 Hslot Hj) as (b & Hmr & Hb & Hmb & Hbit). rewrite Hclear in Hbit.
  pose proof (lookup_lt_Some _ _ _ Hb) as Hlt. set (k := 8192 * m + j) in *. assert (0 <= k < 8192 * s_zmap_blocks S) as Hk by lia.
  assert (mapped s S k = false) as Hunused by (by rewrite <- (slot_bit_mapped s S k)).
  assert (forall i, 0 <= i < k -> mapped s S i = true) as Hset by (intros i Hi; rewrite <- (slot_bit_mapped s S i) by (try done; lia); by apply Hlow).
  apply wp_bind. unfold wp at 1, set_bit. run (get_buf_run s bh b Hb). run (mod_buf_run s bh b (fun b => b <| b_data ::= with_bit j true |>) Hb).
  rewrite <- Hbit. cbv beta iota. set (b1 := upd b_data _ b). set (s0 := s <| bufs ::= _ |>).
  assert (bufs s0 !! bh = Some b1) as Hb1 by (by apply list_lookup_insert_eq).
  apply wp_bind. unfold wp at 1. rewrite (mod_buf_run s0 bh b1 _ Hb1). set (s1 := s0 <| bufs ::= _ |>).
  assert (s1 = s <| bufs ::= <[bh := changed b (with_bit j true (b_data b))]> |>) as Es1.
  { unfold s1, s0, upd, upd_bufs. cbn. by rewrite list_insert_insert_eq. }
  destruct (held_changed s S m bh b j true Hsp Hm Hmr Hslot Hb Hmb Hj) as (Hsp1 & Hroom1 & Hm1 & [Hbl1 Hst1] & Hmap1). rewrite <- Es1 in *. fold k in Hmap1.
  assert (rest_same s s1) as Hrest1 by (by rewrite Es1). destruct Hmb as (M1 & M2 & M3 & M4 & M5).
  destruct (quiet_in_range s bh b (proj1 Hs) Hb) as [(_ & _ & _ & _ & Hlen) _].
  destruct (alters_held Hfuel Hdev s bh (zmap_block S m) b (changed b (with_bit j true (b_data b))) Hsp) as (_ & Hheld1 & _ & Hroom1' & _);
    [by split|apply (changed_alters Hfuel); [done|by rewrite length_with_bit]|]. rewrite <- Es1 in Hheld1, Hroom1'.
  assert (k / 8192 = m) as Ekm by (unfold k; dlia).
  replace (j + (m * 8192 + s_firstdatazone S - 1)) with (k + (s_firstdatazone S - 1)) by (unfold k; lia). set (z := k + (s_firstdatazone S - 1)).
  destruct (Z.leb_spec (s_nzones S) z).
  { apply wp_ret. split; [done|]. split; [done|]. split; [done|]. split; [done|]. split; [intros i Hi; apply Hroom1', (room_le _ _ _ Hi); lia|]. split; [done|]. right. exists k. do 4 (split; [done|]). split; [by left|].
    intros n Hn Hne _. rewrite Hst1, decide_False by (congruence || done). done. }
  assert (k <> 0) as Hk0 by (intros E0; rewrite E0 in Hunused; congruence). assert (data_zone S z) as Hz by (unfold data_zone, z; lia).
  pose proof (mh_size _ _ Hm) as Hsize. pose proof (mh_first _ _ Hm). pose proof (mh_count _ _ Hm). pose proof Hz as [Hz1 Hz2].
  eapply wp_mono; [apply (fresh_block s1 z); [by apply Hroom1|lia|]|].
  - intros i c Hi Hd En. rewrite Es1 in Hi. destruct (decide (i = bh)) as [->|Hne].
    + cbn in Hi. rewrite list_lookup_insert_eq in Hi by done. injection Hi as <-. exfalso.
      apply (proj1 (map_below_data s S m z Hm Hmr Hz)). rewrite <- M2. exact En.
    + cbn in Hi. rewrite list_lookup_insert_ne in Hi by done. subst z. apply (Hfree i c Hi Hd); rewrite En; [done|].
      unfold used, zone_bit. by replace (k + (s_firstdatazone S - 1) - (s_firstdatazone S - 1)) with k by lia.
  - cbv beta. intros r s' (-> & Hsp' & [Hbl' Hst'] & Hrest & Hkept & Hheld & Hroom'). split; [done|].
    split; [|split; [by transitivity s1|split; [by transitivity s1|split; [intros i Hi; by apply Hroom', Hroom1'|split; [congruence|right; exists k]]]]].
    + by apply (holds_kept_maps s1).
    + split; [done|]. split; [done|]. split; [done|]. split; [|split].
      * intros i Hi. rewrite <- Hmap1 by done. unfold mapped. destruct (map_below_data s S (i / 8192) z Hm ltac:(dlia) Hz). rewrite Hst' by lia. by rewrite decide_False.
      * right. split; [done|]. split; [done|]. rewrite Hst' by lia. by rewrite decide_True.
      * intros n Hn Hne [->|Hnr]; [lia|]. rewrite Hst', decide_False, Hst1, decide_False by (congruence || lia). done.
Qed.

(** *** [free_block] *)
Definition dropped (b : buffer_head) : buffer_head := b <| b_dirt := 0 |> <| b_uptodate := 0 |>.
Lemma dropped_spare s bh b (s1 := s <| bufs ::= <[bh := dropped b]> |>) : spare s -> bufs s !! bh = Some b -> b_dev b = dev -> b_count b = 0 ->
  spare s1 /\ blocks s1 = blocks s /\ holds_kept s s1 /\ forall n, 0 <= n < blocks s -> n <> b_blocknr b -> view s1 n = view s n.
Proof.
  intros [Hs Hcount Hidle Hw Hbl] Hb Hd Hc. pose proof Hs as (Hq & Hr & Hco). pose proof (lookup_lt_Some _ _ _ Hb) as Hlt.
  destruct (quiet_in_range s bh b Hq Hb) as [Hrange Hlock].
  assert (quiet s1) as Hq1 by (apply (quiet_mod s bh b); [done|done|done|done|unfold in_range in *; cbn; repeat split; (apply Hrange || lia)]).
  assert (bufs s1 !! bh = Some (dropped b)) as Hb1 by (by apply list_lookup_insert_eq).
  assert (forall i, i <> bh -> bufs s1 !! i = bufs s !! i) as Ho by (intros; by apply list_lookup_insert_ne).
  assert (same_device s s1) as Hsd by done. destruct (device_frame s s1 Hsd Hr) as (Hr1 & Hbl1 & Hst). split; [|split; [done|split]].
  - split; [split; [done|split; [done|]]| | |done|by rewrite Hbl1].
    + intros i c Hi Hdc. destruct (decide (i = bh)) as [->|Hne]; [|rewrite Ho in Hi by done; rewrite Hbl1, Hst; by apply (Hco i c)].
      rewrite Hb1 in Hi. injection Hi as <-. rewrite Hbl1. split; [by apply (Hco bh b)|]. split; intros H; by destruct H.
    + intros i c Hi. destruct (decide (i = bh)) as [->|Hne]; [|rewrite Ho in Hi by done; by apply (Hcount i)].
      rewrite Hb1 in Hi. injection Hi as <-. by apply (Hcount bh b).
    + exists bh, (dropped b). by split.
  - intros i c Hi Hcc. exists c. split; [|done]. rewrite Ho; [done|]. intros ->. rewrite Hb in Hi. injection Hi as <-. lia.
  - intros n Hn Hne. destruct (view_cases Hfuel Hdev s1 n Hq1) as [(i & c & Hi & E1 & E2 & E3 & ->)|[Hnone ->]].
    + assert (i <> bh) as Hib by (intros ->; rewrite Hb1 in Hi; injection Hi as <-; by apply E3).
      rewrite Ho in Hi by done. rewrite <- E2. symmetry. by apply (view_buffer Hfuel Hdev s i c).
    + rewrite Hst. symmetry. apply (view_stored Hdev). intros i c Hi Edc Enc. destruct (decide (i = bh)) as [->|Hib]; [congruence|].
      apply (Hnone i c); [by rewrite Ho|done|done].
Qed.
Lemma drop_block {A} s z (next : bool -> M fs A) : spare s -> 0 <= z < blocks s ->
  (forall i b, bufs s !! i = Some b -> b_dev b = dev -> b_blocknr b = z -> b_count b = 0) ->
  exists s1, (o <- get_hash_table dev z ;;
      stop <- match o with
              | None => ret false
              | Some bh =>
                  b <- get_buf bh ;;
                  if negb (b_count b =? 1) then
                    printk "trying to free block (%04x:%d), count=%d" [dev; z; b_count b] ;;; ret true
                  else
                    mod_buf bh (fun b => b <| b_dirt := 0 |> <| b_uptodate := 0 |>) ;;;
                    brelse (Some bh) ;;; ret false
              end ;; next stop) s = next false s1 /\
    spare s1 /\ blocks s1 = blocks s /\ rest_same s s1 /\ holds_kept s s1 /\ forall n, 0 <= n < blocks s -> n <> z -> view s1 n = view s n.
Proof.
  intros Hsp Hz Hfree. pose proof Hsp as [Hs Hcount _ Hw Hbl]. pose proof Hs as (Hq & _). pose proof Hq as [(fl & ch & Hok) Hcalm].
  destruct (get_hash_table_run Hfuel s fl ch dev z Hok Hcalm) as [[_ Hrun]|(i & b & Hb & Ed & En & Hrun)]; [lia|lia|intros i b Hb _ _; by apply (Hcount i b)|..].
  - exists s. split; [by run Hrun|]. split; [done|]. split; [done|]. split; [done|]. split; [intros i b Hb _; by exists b|done].
  - pose proof (Hfree i b Hb Ed En) as Hc0. pose proof (lookup_lt_Some _ _ _ Hb) as Hlt. destruct (quiet_in_range s i b Hq Hb) as [Hrange Hlock].
    destruct (dropped_spare s i b Hsp Hb Ed Hc0) as (Hsp1 & Hbl1 & Hk1 & Hv1). rewrite En in Hv1. exists (s <| bufs ::= <[i := dropped b]> |>).
    split; [|done]. run Hrun. set (s1 := s <| bufs ::= <[i := counted b]> |>). assert (bufs s1 !! i = Some (counted b)) as Hb1 by (by apply list_lookup_insert_eq).
    cbv beta iota. rewrite bind_assoc. run (get_buf_run s1 i _ Hb1). change (b_count (counted b)) with (b_count b + 1). rewrite Hc0. change (negb (0 + 1 =? 1)) with false. cbv beta iota.
    rewrite bind_assoc. run (mod_buf_run s1 i _ (fun b => b <| b_dirt := 0 |> <| b_uptodate := 0 |>) Hb1).
    change (upd b_uptodate _ _) with (dropped (counted b)).
    assert (s1 <| bufs ::= <[i := dropped (counted b)]> |> = s <| bufs ::= <[i := dropped (counted b)]> |>) as ->.
    { unfold s1, upd, upd_bufs. cbn. by rewrite list_insert_insert_eq. }
    set (s2 := s <| bufs ::= _ |>). assert (bufs s2 !! i = Some (dropped (counted b))) as Hb2 by (by apply list_lookup_insert_eq).
    assert (quiet s2) as Hq2.
    { apply (quiet_mod s i b); [done|done|done|done|]. unfold in_range in *. cbn. rewrite Hc0. repeat split; (apply Hrange || lia). }
    destruct (brelse_run Hfuel s2 i _ Hq2 Hb2) as [Hrel _]; [cbn; lia|done|]. rewrite bind_assoc. run Hrel. rewrite bind_ret. f_equal.
    assert (released (dropped (counted b)) = dropped b) as ->.
    { unfold released, dropped, counted. destruct b. cbn in *. subst. reflexivity. }
    unfold s2, upd, upd_bufs. cbn. by rewrite list_insert_insert_eq.
Qed.
Lemma zmap_buffer_run s sb S m bh : super_blocks s !! sb = Some S -> s_zmap S !! Z.to_nat m = Some (Some bh) -> zmap_buffer sb m s = Done bh s.
Proof. intros Hsb Hslot. unfold zmap_buffer. run (get_sb_run s sb S Hsb). by rewrite Hslot. Qed.
Lemma zone_bit_range s S z : maps_held s S -> data_zone S z -> 0 <= zone_bit S z < 8192 * s_zmap_blocks S.
Proof. intros Hm [H1 H2]. pose proof (mh_cover _ _ Hm). pose proof (mh_first _ _ Hm). unfold zone_bit in *. lia. Qed.
Lemma free_block_run s sb S z : spare s -> mounted (dev := dev) s sb S -> maps_held s S -> data_zone S z ->
  (forall i b, bufs s !! i = Some b -> b_dev b = dev -> b_blocknr b = z -> b_count b = 0) ->
  if used s S z then exists s', free_block dev z s = Done tt s' /\ spare s' /\ maps_held s' S /\ rest_same s s' /\
      (forall n, data_zone S n -> used s' S n = if decide (n = z) then false else used s S n) /\
      forall n, 0 <= n < blocks s -> n <> z -> n <> zmap_block S (zone_bit S z / 8192) -> view s' n = view s n
  else free_block dev z s = Panic "free_block: bit already cleared".
Proof.
  intros Hsp Hmo Hm Hz Hfree. pose proof Hz as [Hz1 Hz2]. pose proof (mh_size _ _ Hm) as Hsize. pose proof (mh_first _ _ Hm). pose proof (mh_count _ _ Hm).
  pose proof (zone_bit_range s S z Hm Hz) as Hk. set (k := zone_bit S z) in *. set (m := k / 8192).
  assert (0 <= m < s_zmap_blocks S) as Hmr by (unfold m; dlia).
  destruct (drop_block s z (fun stop : bool => if stop then ret tt else
      s <- get_sb sb ;;
      let block := z - (s_firstdatazone s - 1) in
      z <- zmap_buffer sb (block ÷ 8192) ;;
      was_clear <- clear_bit (Z.land block 8191) z ;;
      if was_clear : bool then
        printk "block (%04x:%d) " [dev; block + s_firstdatazone s - 1] ;;;
        panic "free_block: bit already cleared"
      else
        z <- zmap_buffer sb (block ÷ 8192) ;;
        mod_buf z (fun b => b <| b_dirt := 1 |>)) Hsp ltac:(lia) Hfree) as (s1 & Hrun & Hsp1 & Hbl1 & Hrest1 & Hkept & Hv1).
  pose proof (holds_kept_maps s s1 S Hm Hbl1 Hkept) as Hm1.
  assert (forall n, data_zone S n -> used s1 S n = used s S n) as Hused1.
  { intros n Hn. unfold used, mapped. pose proof (zone_bit_range s S n Hm Hn). destruct (map_below_data s S (zone_bit S n / 8192) z Hm ltac:(dlia) Hz). by rewrite Hv1. }
  destruct (mh_map _ _ Hm1 m Hmr) as (bh & b & Hslot & Hb & Hmb). set (d := with_bit (k mod 8192) false (b_data b)).
  assert (free_block dev z s = if test_bit (k mod 8192) (b_data b) then Done tt (s1 <| bufs ::= <[bh := changed b d]> |>)
    else Panic "free_block: bit already cleared") as ->.
  { unfold free_block. run (get_super_run (dev := dev) Hfuel Hdev s sb S Hmo). cbv iota. run (get_sb_run s sb S (mo_sb _ _ _ Hmo)).
    destruct (Z.ltb_spec z (s_firstdatazone S)); [lia|]. destruct (Z.leb_spec (s_nzones S) z); [lia|]. cbn [orb]. etransitivity; [exact Hrun|].
    assert (super_blocks s1 !! sb = Some S) as Hsb by (destruct Hrest1 as (_ & _ & _ & -> & _); apply Hmo).
    cbv iota. run (get_sb_run s1 sb S Hsb). cbv zeta. change (z - (s_firstdatazone S - 1)) with k. change 8191 with (Z.ones 13). rewrite Z.land_ones by lia.
    change (2 ^ 13) with 8192. rewrite Z.quot_div_nonneg by lia. fold m. run (zmap_buffer_run s1 sb S m bh Hsb Hslot).
    unfold clear_bit. rewrite !bind_assoc. run (get_buf_run s1 bh b Hb). rewrite !bind_assoc.
    run (mod_buf_run s1 bh b (fun b => b <| b_data ::= with_bit (k mod 8192) false |>) Hb). rewrite !bind_ret.
    destruct (test_bit _ _); cbn [negb]; [|done]. set (b1 := upd b_data _ b). set (s2 := s1 <| bufs ::= _ |>).
    run (zmap_buffer_run s2 sb S m bh Hsb Hslot). pose proof (lookup_lt_Some _ _ _ Hb) as Hlt.
    assert (bufs s2 !! bh = Some b1) as Hb1 by (by apply list_lookup_insert_eq). rewrite (mod_buf_run s2 bh b1 _ Hb1). f_equal.
    unfold s2, upd, upd_bufs. cbn. by rewrite list_insert_insert_eq. }
  assert (used s S z = test_bit (k mod 8192) (b_data b)) as ->.
  { rewrite <- Hused1 by done. unfold used, mapped. fold k m. by rewrite (map_buffer_view s1 S m bh b) by (try done; apply Hsp1). }
  destruct (test_bit _ _); [|done]. exists (s1 <| bufs ::= <[bh := changed b d]> |>). split; [done|].
  destruct (held_changed s1 S m bh b (k mod 8192) false Hsp1 Hm1 Hmr Hslot Hb Hmb ltac:(dlia)) as (Hsp3 & _ & Hm3 & [Hbl3 Hst3] & Hmap3).
  split; [done|]. split; [done|]. split; [by transitivity s1|]. split.
  - intros n Hn. pose proof (zone_bit_range s S n Hm Hn). rewrite <- Hused1 by done. unfold used. rewrite Hmap3 by done. replace (8192 * m + k mod 8192) with k by (unfold m; dlia).
    unfold k, zone_bit. destruct (decide (n = z)) as [->|Hne]; [by rewrite decide_True|]. rewrite decide_False by lia. done.
  - intros n Hn Hne1 Hne2. fold k m in Hne2. rewrite Hst3 by lia. rewrite decide_False by done. by apply Hv1.
Qed.

(** C8: on a device that transfers at once, [new_block] answers the first block of the data zone that the bitmap says is unused, filled
    with zeros, and marks it used; when every block is used it answers 0.  No other block of the
    zone changes its mark, and no block of the device but that one and those of the bitmap changes
    at all.  The block need not be in the cache; a buffer of an unused block must have no user. *)
Theorem new_block_ok s sb S : roomy s -> mounted (dev := dev) s sb S -> maps_held s S -> mapped s S 0 = true ->
  (forall i b, bufs s !! i = Some b -> b_dev b = dev -> data_zone S (b_blocknr b) -> used s S (b_blocknr b) = false -> b_count b = 0) ->
  wp (new_block dev) (fun r s' => spare s' /\ maps_held s' S /\ rest_same s s' /\
    (r = 0 /\ (forall n, data_zone S n -> used s S n = true /\ used s' S n = true) \/
     data_zone S r /\ used s S r = false /\ (forall n, s_firstdatazone S <= n < r -> used s S n = true) /\ view s' r = zeros /\
     (forall n, data_zone S n -> used s' S n = if decide (n = r) then true else used s S n)) /\
    forall n, 0 <= n < blocks s -> (forall m, 0 <= m < s_zmap_blocks S -> n <> zmap_block S m) -> r = 0 \/ n <> r -> view s' n = view s n) s.
Proof.
  intros Hroom Hmo Hm Hres Hfree. eapply wp_mono; [by apply (new_block_run s sb S)|]. cbv beta. intros r s' (H1 & H2 & H3 & _ & _ & _ & Hr).
  split; [done|]. split; [done|]. split; [done|]. destruct Hr as [(-> & -> & Hall)|(k & Hk & Hun & Hlow & Hmap & Hr & Hview)].
  - split; [|done]. left. split; [done|]. intros n Hn. by split; apply Hall, (zone_bit_range s).
  - split.
    + destruct Hr as [[-> Hout]|(Er & Hz & Hv)]; [left|right].
      * split; [done|]. intros n Hn. pose proof (zone_bit_range s S n Hm Hn). destruct Hn as [Hn1 Hn2].
        assert (used s S n = true) as E1 by (apply Hlow; unfold zone_bit in *; lia). split; [done|].
        unfold used. rewrite Hmap by done. rewrite decide_False by (unfold zone_bit; lia). exact E1.
      * split; [done|]. pose proof (zone_bit_range s S r Hm Hz) as Hkr. assert (zone_bit S r = k) as Ek by (unfold zone_bit; lia). split; [unfold used; by rewrite Ek|]. split; [|split; [done|]].
        -- intros n Hn. apply Hlow. destruct Hz. pose proof (mh_first _ _ Hm). pose proof (mh_count _ _ Hm). unfold zone_bit. lia.
        -- intros n Hn. pose proof (zone_bit_range s S n Hm Hn). unfold used. rewrite Hmap by done.
           destruct (decide (n = r)) as [->|Hne]; [by rewrite decide_True|]. rewrite decide_False; [done|]. unfold zone_bit. lia.
    + intros n Hn Hnm Hne. apply Hview; [done| |done]. apply Hnm. dlia.
Qed.

(** A user more of a buffer does not show. *)
Lemma find_counted n d (l : list buffer_head) : forall i b, l !! i = Some b ->
  match List.find (shows (dev := dev) n) (<[i := counted b]> l) with Some c => b_data c | None => d end =
  match List.find (shows (dev := dev) n) l with Some c => b_data c | None => d end.
Proof.
  induction l as [|c l IH]; intros i b Hi; [done|]. destruct i as [|i]; cbn in *.
  - injection Hi as ->. change (shows n (counted b)) with (shows (dev := dev) n b). by destruct (shows n b).
  - destruct (shows n c); [done|]. by apply IH.
Qed.
(** [free_block] of a block whose buffer has a user: it is left alone. *)
Lemma free_block_busy s sb S z i b : spare s -> mounted (dev := dev) s sb S -> maps_held s S -> data_zone S z ->
  bufs s !! i = Some b -> b_dev b = dev -> b_blocknr b = z -> b_count b <> 0 ->
  let s' := s <| bufs ::= <[i := counted b]> |>
              <| klog ::= fun l => l ++ [("trying to free block (%04x:%d), count=%d"%string, [dev; z; b_count b + 1])] |> in
  free_block dev z s = Done tt s' /\ forall n, view s' n = view s n.
Proof.
  intros Hsp Hmo Hm [Hz1 Hz2] Hb Ed En Hc s'. pose proof Hsp as [Hs Hcount _ _ Hbl]. pose proof Hs as (Hq & Hr & _). pose proof Hq as [(fl & ch & Hok) Hcalm].
  pose proof (mh_size _ _ Hm). pose proof (mh_first _ _ Hm). pose proof (mh_count _ _ Hm). split.
  - unfold free_block. run (get_super_run (dev := dev) Hfuel Hdev s sb S Hmo). cbv iota. run (get_sb_run s sb S (mo_sb _ _ _ Hmo)).
    destruct (Z.ltb_spec z (s_firstdatazone S)); [lia|]. destruct (Z.leb_spec (s_nzones S) z); [lia|]. cbn [orb].
    destruct (get_hash_table_run Hfuel s fl ch dev z Hok Hcalm) as [[Hno _]|(j & c & Hj & Ed' & En' & Hrun)];
      [lia|lia|intros j c Hj _ _; by apply (Hcount j c)|destruct (Hno i); by exists b|].
    assert (j = i) as -> by (apply (ok_unique _ _ _ Hok j i c b); congruence || lia). rewrite Hb in Hj. injection Hj as <-.
    run Hrun. cbv beta iota. set (s1 := s <| bufs ::= _ |>).
    assert (bufs s1 !! i = Some (counted b)) as Hb1 by (apply list_lookup_insert_eq; by eapply lookup_lt_Some).
    rewrite bind_assoc. run (get_buf_run s1 i _ Hb1). destruct (Z.eqb_spec (b_count (counted b)) 1) as [E1|_]; [cbn in E1; lia|]. done.
  - intros n. destruct (device_frame s s') as (_ & _ & Hst); [done|done|]. unfold view. rewrite Hst.
    exact (find_counted n (stored s n) (bufs s) i b Hb).
Qed.

(** C9: [free_block] of a used block of the data zone, on a device that transfers at once.  When no buffer of the block has a user it marks the block
    unused and nothing else: no other mark, and no block of the device but that one and the one of
    the bitmap that has its bit; and of a block that is unused already it panics: nothing is freed
    twice.  But when a buffer of the block has a user the block stays used and the contents of no block changes:
    the call complains, and leaves the buffer with one more user, which it never gives back. *)
Theorem free_block_ok s sb S z : spare s -> mounted (dev := dev) s sb S -> maps_held s S -> data_zone S z ->
  ((forall i b, bufs s !! i = Some b -> b_dev b = dev -> b_blocknr b = z -> b_count b = 0) ->
    if used s S z then exists s', free_block dev z s = Done tt s' /\ spare s' /\ maps_held s' S /\ rest_same s s' /\
        (forall n, data_zone S n -> used s' S n = if decide (n = z) then false else used s S n) /\
        forall n, 0 <= n < blocks s -> n <> z -> n <> zmap_block S (zone_bit S z / 8192) -> view s' n = view s n
    else free_block dev z s = Panic "free_block: bit already cleared") /\
  (forall i b, bufs s !! i = Some b -> b_dev b = dev -> b_blocknr b = z -> b_count b <> 0 ->
    let s' := s <| bufs ::= <[i := b <| b_count := b_count b + 1 |>]> |>
                <| klog ::= fun l => l ++ [("trying to free block (%04x:%d), count=%d"%string, [dev; z; b_count b + 1])] |> in
    free_block dev z s = Done tt s' /\ (forall n, view s' n = view s n) /\ forall n, used s' S n = used s S n).
Proof.
  intros Hsp Hmo Hm Hz. split; [intros Hfree; by apply (free_block_run s sb)|]. intros i b Hb Ed En Hc s'.
  destruct (free_block_busy s sb S z i b Hsp Hmo Hm Hz Hb Ed En Hc) as [H1 H2]. split; [exact H1|]. split; [exact H2|].
  intros n. unfold used, mapped. f_equal. apply H2.
Qed.
End Zones.

(** ** A RAM disk of five blocks: block 2 is the bitmap, blocks 3 and 4 the data zone *)
Definition five_blocks : fs :=
  match (blk_dev_init ;;; rd_init 0 5120) boot_fs with Done _ s => s | _ => boot_fs end.
Definition map_super (bh : nat) : super_block :=
  no_super <| s_dev := 257 |> <| s_nzones := 5 |> <| s_zmap_blocks := 1 |> <| s_firstdatazone := 3 |> <| s_zmap := Some bh :: replicate 7 None |>.
#[local] Existing Instance idle_env.
(** Block 3 is used, block 4 is not. *)
Definition mount_map : M fs unit :=
  o <- bread 257 2 ;; bh <- deref o ;;
  mod_buf bh (fun b => changed b (with_bit 0 true (b_data b))) ;;;
  mod_buf bh (fun b => changed b (with_bit 1 true (b_data b))) ;;;
  modify (fun s => s <| super_blocks := [map_super bh] |>).
#[local] Notation cache5 := (after (buffer_init 0 (fun _ => no_buffer) (fun _ => replicate 1024 0) 10240) five_blocks).
#[local] Notation mounted5 := (after mount_map cache5).
Lemma five_blocks_ready : rd_ready five_blocks.
Proof.
  split; [|split; [|split; [|split; [|split; [|split]]]]]; try (vm_compute; reflexivity).
  - apply Forall_forall. intros r Hr. apply list_elem_of_lookup in Hr as [i Hi].
    assert (request five_blocks = replicate 32 (no_request <| r_dev := -1 |>)) as Er by (vm_compute; reflexivity).
    rewrite Er in Hi. apply lookup_replicate in Hi as [-> _]. reflexivity.
  - apply Z.leb_le; reflexivity.
Qed.
Lemma cache5_facts : spare (D := ramdisk idle_fuel) cache5 /\ blocks (SyncDevice := ramdisk idle_fuel) cache5 = 5 /\
  view (D := ramdisk idle_fuel) cache5 2 = zeros /\ (9 <= length (bufs cache5))%nat /\ forall i b, bufs cache5 !! i = Some b -> idle b.
Proof.
  assert (no_waiters five_blocks) as Hnw by (destruct five_blocks_ready as (_ & _ & _ & _ & _ & _ & H); exact H).
  destruct (wp_after _ _ _ (buffer_init_run 0 (fun _ => no_buffer) (fun _ => replicate 1024 0) room_for_two blank_raw blank_mem
    five_blocks 10240 Hnw ltac:(lia))) as (u & _ & Hq & HN & Hsd & Hidle).
  destruct (device_frame (SyncDevice := ramdisk idle_fuel) five_blocks cache5 Hsd five_blocks_ready) as (Hr & Hbl & Hst).
  assert (blocks (SyncDevice := ramdisk idle_fuel) cache5 = 5) as Hb5 by (rewrite Hbl; vm_compute; reflexivity).
  split; [|split; [exact Hb5|split; [|split; [apply Nat.leb_le; vm_compute; reflexivity|intros i b Hb; apply (Hidle i b Hb)]]]].
  - split.
    + split; [exact Hq|]. split; [exact Hr|]. intros i d Hi Hd. destruct (Hidle i d Hi) as [_ Hd']. lia.
    + intros i d Hi. destruct (Hidle i d Hi) as [[-> _] _]. lia.
    + destruct (lookup_lt_is_Some_2 (bufs cache5) 0) as [b Hb]; [lia|]. exists 0%nat, b. split; [exact Hb|apply (Hidle 0%nat b Hb)].
    + destruct Hsd as (_ & _ & _ & _ & _ & ->). vm_compute. reflexivity.
    + rewrite Hb5. lia.
  - rewrite (view_stored (dev := 257) ltac:(lia)); [rewrite Hst; vm_compute; reflexivity|]. intros i d Hi Hd. destruct (Hidle i d Hi) as [_ Hd']. lia.
Qed.
Lemma all_room s m : (m <= length (bufs s))%nat -> (forall i b, bufs s !! i = Some b -> idle b) -> room s m.
Proof.
  intros Hl Hall. exists (seq 0 m). split; [apply NoDup_seq|]. split; [by rewrite length_seq|]. intros i Hi%elem_of_seq.
  destruct (lookup_lt_is_Some_2 (bufs s) i) as [c Hc]; [lia|]. exists c. split; [done|]. by apply (Hall i).
Qed.
Lemma insert_room s s' bh b b' m : bufs s !! bh = Some b -> b_count b <> 0 -> bufs s' = <[bh := b']> (bufs s) -> room s m -> room s' m.
Proof.
  intros Hb Hc E. apply room_same. intros i c Hi Hic. exists c. split; [|done]. rewrite E, list_lookup_insert_ne; [done|].
  intros <-. rewrite Hb in Hi. injection Hi as <-. by destruct Hic.
Qed.
(** [mount_map] takes one of the unused buffers. *)
Lemma mount_map_run s m : spare (D := ramdisk idle_fuel) s -> blocks (SyncDevice := ramdisk idle_fuel) s = 5 ->
  view (D := ramdisk idle_fuel) s 2 = zeros -> room s (S m) ->
  exists bh b s2, let s4 := after mount_map s in
  lent (D := ramdisk idle_fuel) s2 bh b /\ b_data b = zeros /\ b_dev b = 257 /\ b_blocknr b = 2 /\ b_uptodate b <> 0 /\
  blocks (SyncDevice := ramdisk idle_fuel) s2 = 5 /\
  room s2 m /\
  let s3 := s2 <| bufs ::= <[bh := changed b (with_bit 0 true (b_data b))]> |> in
  s4 = s3 <| bufs ::= <[bh := changed (changed b (with_bit 0 true (b_data b))) (with_bit 1 true (with_bit 0 true (b_data b)))]> |> <| super_blocks := [map_super bh] |>.
Proof.
  intros Hsp Hbl Hv Hroom.
  pose proof (bread_kept (D := ramdisk idle_fuel) idle_fuel ltac:(lia) s 2 Hsp ltac:(rewrite Hbl; lia)) as Hrd. unfold wp in Hrd.
  destruct (bread 257 2 s) as [o s2| | |] eqn:Erd; try done.
  destruct Hrd as (bh & b & -> & Hl & Hd & H1 & H2 & H3 & Hv2 & Hrest & Hkept). rewrite Hv in Hd. exists bh, b, s2.
  split; [done|]. split; [done|]. split; [done|]. split; [done|]. split; [done|]. split; [by rewrite (proj1 Hv2)|]. split.
  - by apply (room_kept s s2 bh m).
  - pose proof (le_buf _ _ _ Hl) as Hb. pose proof (lookup_lt_Some _ _ _ Hb). cbv zeta. set (b3 := changed b _). set (s3 := s2 <| bufs ::= _ |>).
    assert (mount_map s = Done tt (s3 <| bufs ::= <[bh := changed b3 (with_bit 1 true (b_data b3))]> |> <| super_blocks := [map_super bh] |>)) as Hrun.
    { unfold mount_map. run Erd. run (eq_refl : deref (Some bh) s2 = Done bh s2). run (mod_buf_run s2 bh b (fun b => changed b (with_bit 0 true (b_data b))) Hb). fold b3 s3.
      assert (bufs s3 !! bh = Some b3) as Hb3 by (by apply list_lookup_insert_eq).
      run (mod_buf_run s3 bh b3 (fun b => changed b (with_bit 1 true (b_data b))) Hb3). done. }
    unfold after. rewrite Hrun. done.
Qed.
Lemma bufs_all (f : buffer_head -> bool) l : forallb f l = true -> forall i b, l !! i = Some b -> f b = true.
Proof. intros H i b Hb. eapply forallb_forall; [exact H|]. apply list_elem_of_In. by eapply list_elem_of_lookup_2. Qed.
(** A cache with the bitmap in a buffer: what the theorems above ask for. *)
Lemma map_mounted s2 bh b (s3 := s2 <| bufs ::= <[bh := changed b (with_bit 0 true (b_data b))]> |>)
    (s4 := s3 <| bufs ::= <[bh := changed (changed b (with_bit 0 true (b_data b))) (with_bit 1 true (with_bit 0 true (b_data b)))]> |> <| super_blocks := [map_super bh] |>) m :
  (2 <= m)%nat -> lent (D := ramdisk idle_fuel) s2 bh b -> b_data b = zeros -> b_dev b = 257 -> b_blocknr b = 2 -> b_uptodate b <> 0 -> b_count b < 255 ->
  blocks (SyncDevice := ramdisk idle_fuel) s2 = 5 ->
  room s2 m ->
  spare (D := ramdisk idle_fuel) s4 /\ room s4 m /\ mounted (dev := 257) s4 0 (map_super bh) /\ maps_held (D := ramdisk idle_fuel) s4 (map_super bh) /\
  forall k, 0 <= k < 3 -> mapped (D := ramdisk idle_fuel) s4 (map_super bh) k = (k <=? 1).
Proof.
  intros Hm2 [L1 L2 L3 L4 _ L6 L7] Hd H1 H2 H3 Hc Hbl Hroom. set (M := map_super bh).
  assert (spare (D := ramdisk idle_fuel) s2) as Hs2.
  { split; [done| | |done|done].
    - intros i c Hi. destruct (decide (i = bh)) as [->|]; [|by apply (L4 i)]. congruence.
    - destruct (room_le _ _ 1 Hroom ltac:(lia)) as (l & _ & Hl & Hi). destruct l as [|i l]; [done|]. destruct (Hi i) as (c & Hic); [constructor|]. by exists i, c. }
  assert (map_buffer (dev := 257) M 0 b) as Hmb by (unfold map_buffer; rewrite Hd; split_and!; try done; [lia|apply Forall_replicate; lia]).
  assert (maps_held (D := ramdisk idle_fuel) s2 M) as Hmaps2.
  { split; try done; try (cbn; lia); [rewrite Hbl; cbn; lia| |].
    - intros i Hi. cbn in Hi. assert (i = 0) as -> by lia. exists bh, b. done.
    - intros i Hi. change (s_zmap_blocks M) with 1 in Hi. assert (exists n, Z.to_nat i = S n /\ (n < 7)%nat) as (n & -> & Hn) by (exists (Z.to_nat (i - 1)); lia).
      change (replicate 7 (None : option nat) !! n = Some None). by apply lookup_replicate. }
  destruct (held_changed (D := ramdisk idle_fuel) idle_fuel ltac:(lia) s2 M 0 bh b 0 true Hs2 Hmaps2 ltac:(cbn; lia) eq_refl L2 Hmb ltac:(lia))
    as (Hsp3 & _ & Hm3 & [Hbl3 _] & Hmap3). fold s3 in Hsp3, Hm3, Hmap3, Hbl3.
  pose proof (lookup_lt_Some _ _ _ L2). assert (bufs s3 !! bh = Some (changed b (with_bit 0 true (b_data b)))) as Hb3 by (by apply list_lookup_insert_eq).
  destruct (mh_map _ _ Hm3 0) as (bh' & b' & Es & Hb' & Hmb3); [cbn; lia|]. injection Es as <-. rewrite Hb3 in Hb'. injection Hb' as <-.
  destruct (held_changed (D := ramdisk idle_fuel) idle_fuel ltac:(lia) s3 M 0 bh _ 1 true Hsp3 Hm3 ltac:(cbn; lia) eq_refl Hb3 Hmb3 ltac:(lia))
    as (Hsp4 & _ & Hm4 & [Hbl4 _] & Hmap4). set (s4' := s3 <| bufs ::= _ |>) in Hsp4, Hm4, Hmap4, Hbl4.
  assert (same_cache s4' s4) as Hsc by done. destruct (same_cache_spare (D := ramdisk idle_fuel) s4' s4 Hsc Hsp4) as [Hsp [Hbls Hv]].
  split; [done|]. split.
  { apply (insert_room s3 s4 bh _ (changed (changed b (with_bit 0 true (b_data b))) (with_bit 1 true (with_bit 0 true (b_data b)))) m Hb3); [cbn; lia|done|].
    apply (insert_room s2 s3 bh b (changed b (with_bit 0 true (b_data b))) m L2); [lia|done|done]. }
  split; [split; [done|done|done|unfold NR_SUPER; lia|intros j Hj; lia]|]. split.
  - apply (maps_held_frame (D := ramdisk idle_fuel) s4'); [done|done|]. intros i x c _ Hx Hmx. by exists c.
  - intros k Hk. assert (k / 8192 = 0) as Ek by dlia. unfold mapped. rewrite Ek. rewrite Hv by (rewrite Hbl4, Hbl3, Hbl; unfold zmap_block; change (s_imap_blocks M) with 0; lia).
    rewrite <- Ek. change (mapped (D := ramdisk idle_fuel) s4' M k = (k <=? 1)).
    rewrite Hmap4, Hmap3 by (cbn; lia). unfold mapped. rewrite Ek. rewrite (map_buffer_view (D := ramdisk idle_fuel) idle_fuel ltac:(lia) s2 M 0 bh b L1 L2 Hmb), Hd.
    assert (k = 0 \/ k = 1 \/ k = 2) as [->|[->| ->]] by lia; reflexivity.
Qed.
Lemma mounted5_facts : spare (D := ramdisk idle_fuel) mounted5 /\ room mounted5 8 /\ mounted (dev := 257) mounted5 0 (map_super 0) /\
  maps_held (D := ramdisk idle_fuel) mounted5 (map_super 0) /\
  (forall k, 0 <= k < 3 -> mapped (D := ramdisk idle_fuel) mounted5 (map_super 0) k = (k <=? 1)) /\
  (forall i b, bufs mounted5 !! i = Some b -> data_zone (map_super 0) (b_blocknr b) -> b_count b = 0) /\
  forall i b, bufs mounted5 !! i = Some b -> b_count b < 254.
Proof.
  assert (super_blocks mounted5 = [map_super 0]) as Hsb by (vm_compute; reflexivity).
  assert (forallb (fun b => b_count b <? 254) (bufs mounted5) = true) as Hcount by (vm_compute; reflexivity).
  assert (forallb (fun b => (b_blocknr b <? 3) || (b_count b =? 0)) (bufs mounted5) = true) as Hfree by (vm_compute; reflexivity).
  destruct cache5_facts as (H1 & H2 & H3 & H4 & H5). destruct (mount_map_run cache5 8 H1 H2 H3 (all_room _ 9 H4 H5)) as (bh & b & s2 & Hl & Hd & Hdev & Hnr & Hu & Hbl & Htwo & E).
  remember mounted5 as m5 eqn:Em. clear Em H1 H2 H3 H4 H5. cbv zeta in E.
  assert (bh = 0%nat) as -> by (rewrite E in Hsb; change ([map_super bh] = [map_super 0]) in Hsb; by injection Hsb).
  assert (b_count b < 254) as Hc.
  { pose proof (lookup_lt_Some _ _ _ (le_buf _ _ _ Hl)). apply Z.ltb_lt.
    apply (bufs_all _ _ Hcount 0%nat (changed (changed b (with_bit 0 true (b_data b))) (with_bit 1 true (with_bit 0 true (b_data b))))).
    rewrite E. apply list_lookup_insert_eq. cbn. by rewrite length_insert. }
  destruct (map_mounted s2 0 b 8 ltac:(lia) Hl Hd Hdev Hnr Hu ltac:(lia) Hbl Htwo) as (R1 & R2 & R3 & R4 & R5).
  rewrite E in *. split; [exact R1|]. split; [exact R2|]. split; [exact R3|]. split; [exact R4|]. split; [exact R5|]. split; [|intros i c Hi; apply Z.ltb_lt; exact (bufs_all _ _ Hcount i c Hi)].
  intros i c Hi [Hz _]. pose proof (bufs_all _ _ Hfree i c Hi) as Hf. cbv beta in Hf. change (s_firstdatazone (map_super 0)) with 3 in Hz.
  apply orb_true_iff in Hf as [Hf|Hf]; [apply Z.ltb_lt in Hf; lia|by apply Z.eqb_eq].
Qed.

Lemma new_block_ok_witness : wp (new_block 257) (fun r s' => spare (D := ramdisk idle_fuel) s' /\
  maps_held (D := ramdisk idle_fuel) s' (map_super 0) /\ rest_same mounted5 s' /\
  (r = 0 /\ (forall n, data_zone (map_super 0) n -> used (D := ramdisk idle_fuel) mounted5 (map_super 0) n = true /\
      used (D := ramdisk idle_fuel) s' (map_super 0) n = true) \/
   data_zone (map_super 0) r /\ used (D := ramdisk idle_fuel) mounted5 (map_super 0) r = false /\
   (forall n, s_firstdatazone (map_super 0) <= n < r -> used (D := ramdisk idle_fuel) mounted5 (map_super 0) n = true) /\
   view (D := ramdisk idle_fuel) s' r = zeros /\
   (forall n, data_zone (map_super 0) n -> used (D := ramdisk idle_fuel) s' (map_super 0) n =
      if decide (n = r) then true else used (D := ramdisk idle_fuel) mounted5 (map_super 0) n)) /\
  forall n, 0 <= n < blocks (SyncDevice := ramdisk idle_fuel) mounted5 ->
    (forall m, 0 <= m < s_zmap_blocks (map_super 0) -> n <> zmap_block (map_super 0) m) -> r = 0 \/ n <> r ->
    view (D := ramdisk idle_fuel) s' n = view (D := ramdisk idle_fuel) mounted5 n) mounted5.
Proof.
  destruct mounted5_facts as (H1 & Hr & H2 & H3 & H4 & H5 & _).
  apply (new_block_ok (D := ramdisk idle_fuel) idle_fuel ltac:(lia) mounted5 0 (map_super 0) (room_roomy (D := ramdisk idle_fuel) idle_fuel mounted5 8 H1 Hr ltac:(lia)) H2 H3 (H4 0 ltac:(lia))).
  intros i b Hb _ Hz _. exact (H5 i b Hb Hz).
Defined.
(** Block 3 is used and can be freed. *)
Lemma free_block_ok_witness : used (D := ramdisk idle_fuel) mounted5 (map_super 0) 3 = true /\
  if used (D := ramdisk idle_fuel) mounted5 (map_super 0) 3 then exists s', free_block 257 3 mounted5 = Done tt s' /\
      spare (D := ramdisk idle_fuel) s' /\ maps_held (D := ramdisk idle_fuel) s' (map_super 0) /\ rest_same mounted5 s' /\
      (forall n, data_zone (map_super 0) n -> used (D := ramdisk idle_fuel) s' (map_super 0) n =
        if decide (n = 3) then false else used (D := ramdisk idle_fuel) mounted5 (map_super 0) n) /\
      forall n, 0 <= n < blocks (SyncDevice := ramdisk idle_fuel) mounted5 -> n <> 3 ->
        n <> zmap_block (map_super 0) (zone_bit (map_super 0) 3 / 8192) ->
        view (D := ramdisk idle_fuel) s' n = view (D := ramdisk idle_fuel) mounted5 n
  else free_block 257 3 mounted5 = Panic "free_block: bit already cleared".
Proof.
  destruct mounted5_facts as (H1 & Hr & H2 & H3 & H4 & H5 & _). assert (data_zone (map_super 0) 3) as Hz by (split; [exact (Z.le_refl 3)|reflexivity]).
  split; [exact (H4 1 ltac:(lia))|].
  apply (proj1 (free_block_ok (D := ramdisk idle_fuel) idle_fuel ltac:(lia) mounted5 0 (map_super 0) 3 H1 H2 H3 Hz)).
  intros i b Hb _ En. apply (H5 i b Hb). rewrite En. exact Hz.
Defined.
End Alloc.
