(* ===== verification/Volume.v ===== *)
(** * Volume: a mounted file system and the blocks of one file

    The invariant of a mounted device between two operations, and the blocks of an inode as a
    tree: the direct zones, the two indirect blocks, and the blocks they point to. *)
From S2P Require Import Prelude Console Task Sched Fs Blk Buffer Bitmap Inode FileDev View Stored Hold Alloc.
Import Blk Buffer Bitmap Inode FileDev View Stored Hold Alloc.

Module Volume.

(** ** Entries of an indirect block *)
Lemma byte_set_byte i v l j : 0 <= i < Z.of_nat (length l) -> 0 <= j -> byte (set_byte i v l) j = if decide (j = i) then u8 v else byte l j.
Proof.
  intros Hi Hj. unfold byte, set_byte. destruct (decide (j = i)) as [->|Hne]; [by rewrite list_lookup_insert_eq by lia|].
  by rewrite list_lookup_insert_ne by lia.
Qed.
Lemma length_set_half i v l : length (set_half i v l) = length l.
Proof. unfold set_half, set_byte. by rewrite !length_insert. Qed.
Lemma half_set_half x z l y : length l = 1024%nat -> 0 <= x < 512 -> 0 <= y < 512 -> 0 <= z < 65536 ->
  half (set_half (2 * x) z l) (2 * y) = if decide (y = x) then z else half l (2 * y).
Proof.
  intros Hl Hx Hy Hz. unfold half, set_half. assert (length (set_byte (2 * x) z l) = 1024%nat) as Hl2 by (unfold set_byte; by rewrite length_insert).
  rewrite !byte_set_byte by lia. destruct (decide (y = x)) as [->|Hne].
  - rewrite decide_False, decide_True, decide_True by lia. unfold u8. rewrite Z.shiftr_div_pow2 by lia. change (2 ^ 8) with 256. dlia.
  - by rewrite !decide_False by lia.
Qed.
Lemma byte_zeros k : byte zeros k = 0.
Proof.
  unfold byte, zeros. destruct (decide (Z.to_nat k < 1024)%nat); [by rewrite lookup_replicate_2|].
  by rewrite (proj2 (lookup_ge_None _ _)) by (rewrite length_replicate; lia).
Qed.
Lemma half_zeros k : half zeros k = 0.
Proof. unfold half. by rewrite !byte_zeros. Qed.

(** ** The tree of blocks *)
Inductive node : Type := Data (k : Z) | Single | Double | Second (j : Z).
#[export] Instance node_eq_dec : EqDecision node.
Proof. solve_decision. Defined.
Definition valid (p : node) : Prop :=
  match p with Data k => 0 <= k < max_blocks | Second j => 0 <= j < 512 | _ => True end.
(** The number of the block at a node, 0 for none. *)
Definition loc (v : Z -> list Z) (n : m_inode) (p : node) : Z :=
  match p with Data k => zones v n k | Single => zone n 7 | Double => zone n 8 | Second j => entry v (zone n 8) j end.
(** Where that number is kept: in the inode, or in the block at a node. *)
Definition slot (p : node) : nat + node * Z :=
  match p with
  | Data k => if k <? 7 then inl (Z.to_nat k) else if k - 7 <? 512 then inr (Single, k - 7)
              else inr (Second (Z.shiftr (k - 7 - 512) 9), Z.land (k - 7 - 512) 511)
  | Single => inl 7%nat
  | Double => inl 8%nat
  | Second j => inr (Double, j)
  end.
Lemma loc_slot v n p : loc v n p = match slot p with inl i => zone n i | inr (q, x) => entry v (loc v n q) x end.
Proof. destruct p as [k| | |j]; cbn; [|done..]. unfold zones. destruct (k <? 7); [done|]. by destruct (k - 7 <? 512). Qed.
Lemma far_block k : 0 <= k < max_blocks -> 519 <= k ->
  Z.shiftr (k - 7 - 512) 9 = (k - 519) / 512 /\ Z.land (k - 7 - 512) 511 = (k - 519) mod 512 /\ 0 <= (k - 519) / 512 < 512.
Proof.
  unfold max_blocks. intros H1 H2. replace (k - 7 - 512) with (k - 519) by lia. rewrite Z.shiftr_div_pow2 by lia. change 511 with (Z.ones 9).
  rewrite Z.land_ones by lia. change (2 ^ 9) with 512. split; [done|]. split; [done|]. dlia.
Qed.
Lemma slot_inode p i : valid p -> slot p = inl i -> (i < 9)%nat.
Proof.
  destruct p as [k| | |j]; cbn; [|intros _ [= <-]; lia..|done]. intros Hk. destruct (Z.ltb_spec k 7); [intros [= <-]; lia|]. by destruct (k - 7 <? 512).
Qed.
Lemma slot_block p q x : valid p -> slot p = inr (q, x) -> valid q /\ 0 <= x < 512 /\ slot q <> inr (p, x).
Proof.
  destruct p as [k| | |j]; cbn; [|done..|by intros Hj [= <- <-]]. intros Hk. destruct (Z.ltb_spec k 7); [done|]. destruct (Z.ltb_spec (k - 7) 512).
  - intros [= <- <-]. split; [done|]. split; [lia|done].
  - destruct (far_block k Hk ltac:(lia)) as (E1 & E2 & E3). rewrite E1, E2. intros [= <- <-]. split; [done|]. split; [dlia|done].
Qed.
Lemma slot_inj : forall p q, valid p -> valid q -> slot p = slot q -> p = q.
Proof.
  assert (forall k, valid (Data k) -> forall q, valid q -> slot (Data k) = slot q -> Data k = q) as H.
  { intros k Hk q Hq. destruct q as [l| | |j]; cbn in *.
    - destruct (Z.ltb_spec k 7), (Z.ltb_spec l 7); try done; [intros [= E]; f_equal; lia|by destruct (l - 7 <? 512)|by destruct (k - 7 <? 512)|].
      destruct (Z.ltb_spec (k - 7) 512), (Z.ltb_spec (l - 7) 512); try done; [intros [= E]; f_equal; lia|].
      destruct (far_block k Hk ltac:(lia)) as (-> & -> & _). destruct (far_block l Hq ltac:(lia)) as (-> & -> & _). intros [= E1 E2]. f_equal. dlia.
    - destruct (Z.ltb_spec k 7); [intros [= E]; lia|]. by destruct (k - 7 <? 512).
    - destruct (Z.ltb_spec k 7); [intros [= E]; lia|]. by destruct (k - 7 <? 512).
    - destruct (Z.ltb_spec k 7); [done|]. by destruct (k - 7 <? 512). }
  intros p q Hp Hq E. destruct p as [k| | |j]; [by apply H|..]; (destruct q as [l| | |m]; [symmetry; by apply H|..]); cbn in E; try done. by injection E as ->.
Qed.
(** A property of the nodes that holds of a node when it holds of the node it is kept in. *)
Lemma tree_ind (P : node -> Prop) : (forall p, valid p -> (forall q x, slot p = inr (q, x) -> P q) -> P p) -> forall p, valid p -> P p.
Proof.
  intros H. assert (P Single) as H1 by (apply H; done). assert (P Double) as H2 by (apply H; done).
  assert (forall j, 0 <= j < 512 -> P (Second j)) as H3 by (intros j Hj; apply H; [done|]; cbn; intros q x [= <- _]; done).
  intros p Hp. destruct p as [k| | |j]; [|done|done|by apply H3]. apply H; [done|]. cbn. intros q x. destruct (Z.ltb_spec k 7); [done|].
  destruct (Z.ltb_spec (k - 7) 512); intros [= <- _]; [done|]. apply H3. cbn in Hp. destruct (far_block k Hp ltac:(lia)) as (-> & _ & ?). done.
Qed.

(** Filling in one node: what the tree is afterwards. *)
Section Fill.
Context (v v' : Z -> list Z) (n n' : m_inode) (p : node) (z : Z).
Hypothesis (Hp : valid p) (Hz : 0 < z < 65536) (Hempty : loc v n p = 0) (Hzero : v' z = zeros).
Hypothesis (Hkept : forall q, valid q -> loc v n q <> 0 -> (forall x, slot p <> inr (q, x)) -> v' (loc v n q) = v (loc v n q)).
Hypothesis (Hslot : match slot p with
  | inl i => forall j, (j < 9)%nat -> zone n' j = if decide (j = i) then z else zone n j
  | inr (q, x) => (forall j, zone n' j = zone n j) /\ loc v n q <> 0 /\ length (v (loc v n q)) = 1024%nat /\
      v' (loc v n q) = set_half (2 * x) z (v (loc v n q))
  end).
Lemma fill_loc : forall q, valid q -> loc v' n' q = if decide (q = p) then z else loc v n q.
Proof.
  apply (tree_ind (fun q => loc v' n' q = if decide (q = p) then z else loc v n q)). intros q Hq IH. rewrite loc_slot. rewrite (loc_slot v n q).
  destruct (slot q) as [i|[r x]] eqn:Eq.
  - destruct (decide (q = p)) as [->|Hne].
    + rewrite Eq in Hslot. rewrite Hslot by (by apply (slot_inode p)). by rewrite decide_True.
    + destruct (slot p) as [j|[u y]] eqn:Ep; [|apply Hslot]. rewrite Hslot by (by apply (slot_inode q)). rewrite decide_False; [done|].
      intros ->. apply Hne, slot_inj; [done|done|congruence].
  - destruct (slot_block q r x Hq Eq) as (Hr & Hx & _). rewrite (IH r x eq_refl). unfold entry. destruct (decide (r = p)) as [->|Hrp].
    + rewrite (proj2 (Z.eqb_neq z 0)) by lia. rewrite Hzero, half_zeros, Hempty. cbn. rewrite decide_False; [done|].
      intros ->. by destruct (slot_block p p x Hp Eq) as (_ & _ & []).
    + destruct (Z.eqb_spec (loc v n r) 0) as [E0|E0].
      * rewrite decide_False; [done|]. intros ->. rewrite Eq in Hslot. by destruct Hslot as (_ & [] & _).
      * destruct (decide (q = p)) as [->|Hne].
        -- rewrite Eq in Hslot. destruct Hslot as (_ & _ & Hl & ->). rewrite half_set_half by (done || lia). by rewrite decide_True.
        -- destruct (slot p) as [i|[u y]] eqn:Ep; [by rewrite Hkept by (try done; intros; congruence)|].
           destruct (decide (u = r)) as [->|Hur]; [|rewrite Hkept by (try done; intros y' [= ]; congruence); done].
           destruct Hslot as (_ & _ & Hl & ->). destruct (slot_block p r y Hp Ep) as (_ & Hy & _). rewrite half_set_half by (done || lia).
           rewrite decide_False; [done|]. intros ->. apply Hne, slot_inj; [done|done|congruence].
Qed.
End Fill.

(** Only the cache and the inode table differ. *)
Definition besides (s s' : fs) : Prop :=
  kern s' = kern s /\ last_inode s' = last_inode s /\ super_blocks s' = super_blocks s /\
  file_table s' = file_table s /\ ROOT_DEV s' = ROOT_DEV s /\ pages s' = pages s.
Definition same_file (n n' : m_inode) : Prop := n' = n <| i_zone := i_zone n' |> <| i_dirt := i_dirt n' |> <| i_ctime := i_ctime n' |>.
#[export] Instance besides_preorder : PreOrder besides.
Proof. split; [done|]. intros s1 s2 s3 H1 H2. unfold besides in *. intuition congruence. Qed.
#[export] Instance same_file_preorder : PreOrder same_file.
Proof. split; [by intros []|]. unfold same_file. intros n1 n2 n3 H1 ->. cbn. rewrite H1. by destruct n1. Qed.
Lemma rest_besides s s' : rest_same s s' -> besides s s'.
Proof. unfold rest_same, besides. tauto. Qed.

Section Volume.
Context {E : Env} {dev : Z} {D : SyncDevice dev}.
Hypothesis (Hfuel : (0 < fuel)%nat) (Hdev : 0 < dev < 65536).
Context (sb : nat) (S : super_block).
Hypothesis (Hsize : s_nzones S < 65536) (Hmaps : 0 < s_zmap_blocks S).

(** ** The mounted device between two operations *)
Definition on_map (z : Z) : Prop := exists i, 0 <= i < s_zmap_blocks S /\ z = zmap_block S i.
(** Nobody uses a buffer of a free block. *)
Definition tidy (s : fs) : Prop := forall i z c, holders s i = Some (dev, z, c) -> data_zone S z -> used s S z = true.
(** [m] buffers are unused and clean. *)
Record volume (s : fs) (m : nat) : Prop := {
  vo_spare : spare s;
  vo_room : room s m;
  vo_mounted : mounted (dev := dev) s sb S;
  vo_maps : maps_held s S;
  vo_first : mapped s S 0 = true;
  vo_tidy : tidy s
}.
Definition few (s : fs) : Prop := forall i b, bufs s !! i = Some b -> b_count b < 254.
Lemma few_held s s' : same_held s s' -> few s -> few s'.
Proof.
  intros [Hh _] Hf i b Hb. destruct (decide (0 < b_count b)) as [Hc|]; [|lia].
  assert (holders s i = Some (b_dev b, b_blocknr b, b_count b)) as H by (rewrite <- Hh; apply holders_some; by exists b).
  apply holders_some in H as (c & Hc' & _ & _ & _ & <-). by apply (Hf i).
Qed.
Lemma volume_le s m k : volume s m -> (k <= m)%nat -> volume s k.
Proof. intros [V1 V2 V3 V4 V5 V6] Hk. split; try done. by apply (room_le s m). Qed.
Lemma on_map_block s z : serving s -> maps_held s S -> on_map z -> 0 <= z < blocks s /\ ~ data_zone S z.
Proof.
  intros Hs Hm (i & Hi & ->). pose proof (mh_first _ _ Hm). pose proof (mh_count _ _ Hm).
  destruct (mh_map _ _ Hm i Hi) as (bh & b & _ & Hb & M1 & M2 & _). split; [rewrite <- M2; by apply (proj2 (proj2 Hs) bh b)|].
  unfold data_zone, zmap_block. lia.
Qed.
Lemma in_zone s z : maps_held s S -> data_zone S z -> 0 < z < 65536 /\ z < blocks s /\ ~ on_map z.
Proof.
  intros Hm [H1 H2]. pose proof (mh_first _ _ Hm). pose proof (mh_count _ _ Hm). pose proof (mh_size _ _ Hm). split; [lia|]. split; [lia|].
  intros (i & Hi & ->). unfold zmap_block in *. lia.
Qed.
(** The marks of the bitmap are those of its blocks. *)
Lemma same_maps_used s s' z : maps_held s S -> (forall z, on_map z -> view s' z = view s z) -> data_zone S z -> used s' S z = used s S z.
Proof.
  intros Hm Hv Hz. unfold used, mapped. rewrite Hv; [done|]. pose proof (zone_bit_range Hfuel s S z Hm Hz). exists (zone_bit S z / 8192). split; [dlia|done].
Qed.
(** The invariant goes with the users of the buffers and the blocks of the bitmap. *)
Lemma volume_frame s s' m m' : volume s m -> spare s' -> room s' m' -> super_blocks s' = super_blocks s -> blocks s' = blocks s ->
  (forall i z b, on_map z -> held (dev := dev) s i z b -> exists b', held (dev := dev) s' i z b') ->
  (forall z, on_map z -> view s' z = view s z) ->
  (forall i z c, holders s' i = Some (dev, z, c) -> data_zone S z -> used s S z = true) -> volume s' m'.
Proof.
  intros [V1 V2 V3 V4 V5 V6] Hs' Hroom Esb Hbl Hheld Hview Htidy. split; [done|done| | | |].
  - destruct V3 as [M1 M2 M3 M4 M5]. split; rewrite ?Esb; done.
  - apply (maps_held_frame s); [done|done|]. intros i bh b Hi Hb (M1 & M2 & M3 & M4 & M5).
    destruct (Hheld bh (zmap_block S i) b) as (b' & Hb'); [by exists i|by split|]. exists b'. split; [apply Hb'|].
    destruct (held_view Hfuel Hdev s' bh _ b' (sp_serving s' Hs') Hb') as (Ed & _). destruct Hb' as [H1 H2 H3 H4 H5]. split; [done|]. split; [done|]. split; [done|].
    split; [done|]. rewrite Ed, Hview by (by exists i). rewrite <- M2. by rewrite (view_buffer Hfuel Hdev s bh b) by (try done; apply V1).
  - unfold mapped in *. rewrite Hview; [done|]. by exists 0.
  - intros i z c Hi Hz. rewrite (same_maps_used s s') by done. by apply (Htidy i z c).
Qed.
Lemma volume_same s s' m m' : volume s m -> spare s' -> room s' m' -> super_blocks s' = super_blocks s -> blocks s' = blocks s ->
  same_held s s' -> (forall z, on_map z -> view s' z = view s z) -> volume s' m'.
Proof.
  intros V Hs' Hroom Esb Hbl Hh Hv. apply (volume_frame s s' m); try done.
  - intros i z b _ Hb. destruct (held_kept Hfuel s s' i z b Hb Hh) as (b' & Hb' & _). by exists b'.
  - intros i z c Hi. rewrite (proj1 Hh) in Hi. by apply (vo_tidy s m V i z c).
Qed.
Lemma volume_used s s' m z : volume s m -> same_view s s' -> data_zone S z -> used s' S z = used s S z.
Proof.
  intros V Hv Hz. apply same_maps_used; [apply (vo_maps s m V)| |done]. intros w Hw. apply Hv.
  by apply (on_map_block s w (sp_serving s (vo_spare s m V)) (vo_maps s m V)).
Qed.
Lemma volume_cache s s' m : volume s m -> same_cache s s' -> super_blocks s' = super_blocks s ->
  volume s' m /\ same_held s s' /\ same_view s s' /\ forall z, data_zone S z -> used s' S z = used s S z.
Proof.
  intros V Hc Esb. destruct (same_cache_spare s s' Hc (vo_spare s m V)) as [Hs Hv]. destruct (same_cache_held s s' Hc) as [Hh Hr].
  assert (forall z, on_map z -> view s' z = view s z) as Hmap.
  { intros z Hz. apply Hv. by apply (on_map_block s z (sp_serving s (vo_spare s m V)) (vo_maps s m V)). }
  split; [|split; [done|split; [done|intros z Hz; apply same_maps_used; [apply (vo_maps s m V)|done|done]]]].
  apply (volume_same s s' m); try done; [by apply Hr, (vo_room s m V)|apply Hv].
Qed.
Lemma volume_borrowed s s' m m' bh z b : volume s m -> borrowed (dev := dev) s s' bh z b -> spare s' -> room s' m' -> same_view s s' -> rest_same s s' ->
  data_zone S z -> used s S z = true -> volume s' m'.
Proof.
  intros V [B1 B2 B3 B4 B5] Hs' Hroom Hv (_ & _ & _ & Esb & _) Hz Hu. apply (volume_frame s s' m); try done; [apply Hv|..].
  - intros i w c _ [H1 H2 H3 H4 H5]. destruct (decide (i = bh)) as [->|Hne].
    + destruct (B3 c H1 H2) as [_ Ew]. exists b. assert (w = z) as -> by congruence. done.
    + assert (holders s' i = Some (dev, w, b_count c)) as Hi by (rewrite B2 by done; apply holders_some; by exists c).
      apply holders_some in Hi as (c' & Hc' & E1 & E2 & E3 & E4). exists c'. split; try done. by apply (B5 i c c').
  - intros w Hw. apply Hv. by apply (on_map_block s w (sp_serving s (vo_spare s m V)) (vo_maps s m V)).
  - intros i w c Hi Hwz. destruct (decide (i = bh)) as [->|Hne]; [|rewrite B2 in Hi by done; by apply (vo_tidy s m V i w c)].
    apply holders_some in Hi as (c' & Hc' & _ & _ & E2 & _). assert (w = z) as ->; [|done].
    pose proof (hd_buf _ _ _ _ B1). pose proof (hd_block _ _ _ _ B1). congruence.
Qed.

(** ** A new block *)
Lemma new_block_vol s m : volume s (Datatypes.S (Datatypes.S m)) ->
  wp (new_block dev) (fun r s' => volume s' (Datatypes.S m) /\ rest_same s s' /\ same_held s s' /\ blocks s' = blocks s /\
    (forall z, data_zone S z -> used s S z = true -> used s' S z = true) /\
    (forall z, 0 <= z < blocks s -> ~ on_map z -> r = 0 \/ z <> r -> view s' z = view s z) /\
    (r = 0 /\ (forall z, data_zone S z -> used s S z = true) \/
     data_zone S r /\ used s S r = false /\ used s' S r = true /\ view s' r = zeros)) s.
Proof.
  intros V. pose proof V as [V1 V2 V3 V4 V5 V6]. eapply wp_mono; [apply (new_block_run Hfuel Hdev s sb S)|]; try done.
  - apply (room_roomy Hfuel s _ V1 V2). lia.
  - intros i b Hb Hd Hz Hu. destruct (decide (b_count b = 0)) as [|Hc]; [done|]. exfalso.
    destruct (quiet_in_range s i b (proj1 (sp_serving s V1)) Hb) as [Hr _]. unfold in_range in Hr.
    rewrite (V6 i (b_blocknr b) (b_count b)) in Hu; [done|apply holders_some; exists b; split_and!; try done; lia|done].
  - cbv beta. intros r s' (H1 & H2 & H3 & H4 & H5 & Hbl & Hr). specialize (H5 _ V2).
    assert ((forall k, 0 <= k < 8192 * s_zmap_blocks S -> mapped s S k = true -> mapped s' S k = true) /\ 
      (forall z, 0 <= z < blocks s -> ~ on_map z -> r = 0 \/ z <> r -> view s' z = view s z) /\
      (r = 0 /\ (forall z, data_zone S z -> used s S z = true) \/
       data_zone S r /\ used s S r = false /\ used s' S r = true /\ view s' r = zeros)) as (Hmap & Hview & Hres).
    { destruct Hr as [(-> & -> & Hall)|(k & Hk & Hun & Hlow & Hmap & Hres & Hview)].
      - split; [done|]. split; [done|]. left. split; [done|]. intros z Hz. apply Hall. by apply (zone_bit_range Hfuel s).
      - split; [intros i Hi E1; rewrite Hmap by done; by destruct (decide (i = k))|]. split.
        + intros z Hz Hno. apply Hview; [done|]. intros ->. apply Hno. exists (k / 8192). split; [dlia|done].
        + destruct Hres as [[-> Hout]|(Er & Hz & Hv)]; [left|right].
          * split; [done|]. intros z Hz. pose proof (zone_bit_range Hfuel s S z V4 Hz). apply Hlow. destruct Hz. unfold zone_bit in *. lia.
          * split; [done|]. assert (zone_bit S r = k) as Ek by (unfold zone_bit; lia). unfold used. rewrite Ek, Hmap by done. by rewrite decide_True. }
    assert (forall z, data_zone S z -> used s S z = true -> used s' S z = true) as Hmono.
    { intros z Hz. apply Hmap. by apply (zone_bit_range Hfuel s). }
    split; [|done]. split; try done.
    + destruct V3 as [M1 M2 M3 M4 M5]. destruct H3 as (_ & _ & _ & Esb & _). split; rewrite ?Esb; done.
    + apply Hmap; [lia|done].
    + intros i z c Hi Hz. rewrite (proj1 H4) in Hi. by apply Hmono, (V6 i z c).
Qed.

(** ** The blocks of a file *)
Definition loc_at (s : fs) (n : m_inode) (p : node) : Z := loc (view s) n p.
(** They are used blocks of the data zone, and no two nodes share one. *)
Record tree (s : fs) (n : m_inode) : Prop := {
  tr_dev : i_dev n = dev;
  tr_zones : length (i_zone n) = 9%nat;
  tr_used p : valid p -> loc_at s n p <> 0 -> data_zone S (loc_at s n p) /\ used s S (loc_at s n p) = true;
  tr_apart p q : valid p -> valid q -> loc_at s n p <> 0 -> loc_at s n p = loc_at s n q -> p = q
}.
(** Block [k] of the file, nulls for a hole. *)
Definition block_of (s : fs) (n : m_inode) (k : Z) : list Z :=
  let z := loc_at s n (Data k) in if z =? 0 then zeros else view s z.
Definition same_data (s : fs) (n : m_inode) (s' : fs) (n' : m_inode) : Prop :=
  forall k, 0 <= k < max_blocks -> block_of s' n' k = block_of s n k.
(** Blocks are added to the tree that were free; outside of the tree no used block changes. *)
Record grows (s : fs) (n : m_inode) (s' : fs) (n' : m_inode) : Prop := {
  gr_loc p : valid p -> loc_at s n p <> 0 -> loc_at s' n' p = loc_at s n p;
  gr_new p : valid p -> loc_at s n p = 0 -> loc_at s' n' p <> 0 -> data_zone S (loc_at s' n' p) /\ used s S (loc_at s' n' p) = false;
  gr_used z : data_zone S z -> used s S z = true -> used s' S z = true;
  gr_frame z : 0 <= z < blocks s -> ~ on_map z -> (data_zone S z -> used s S z = true) ->
    (forall p, valid p -> loc_at s n p <> 0 -> loc_at s n p <> z) -> view s' z = view s z;
  gr_blocks : blocks s' = blocks s;
  gr_held : same_held s s'
}.
Lemma grows_refl s n : grows s n s n.
Proof. by split. Qed.
Lemma grows_trans s n s1 n1 s2 n2 : grows s n s1 n1 -> grows s1 n1 s2 n2 -> grows s n s2 n2.
Proof.
  intros [A1 A2 A3 A4 A5 A6] [B1 B2 B3 B4 B5 B6]. split.
  - intros p Hp H0. rewrite B1; [by apply A1|done|]. by rewrite A1.
  - intros p Hp H0 H2. destruct (decide (loc_at s1 n1 p = 0)) as [E1|E1].
    + destruct (B2 p Hp E1 H2) as [Hz Hu]. split; [done|]. destruct (used s S _) eqn:Eu; [|done]. by rewrite (A3 _ Hz Eu) in Hu.
    + rewrite B1 by done. by apply A2.
  - intros z Hz Hu. by apply B3, A3.
  - intros z Hz Hm Hu Ht. rewrite B4; [by apply A4|by rewrite A5|done|intros H; by apply A3, Hu|].
    intros p Hp H1 <-. destruct (decide (loc_at s n p = 0)) as [E0|E0].
    + destruct (A2 p Hp E0 H1) as [Hz1 Hu1]. by rewrite (Hu Hz1) in Hu1.
    + apply (Ht p Hp E0). symmetry. by apply A1.
  - congruence.
  - by transitivity s1.
Qed.
Lemma slot_not_data p k x : slot p <> inr (Data k, x).
Proof. destruct p as [l| | |j]; cbn; try done. destruct (l <? 7); [done|]. by destruct (l - 7 <? 512). Qed.

(** Filling in node [p] with the new block [z]. *)
Lemma fill_tree s n s' n' p z : tree s n -> maps_held s S -> valid p -> loc_at s n p = 0 ->
  data_zone S z -> used s S z = false -> used s' S z = true -> view s' z = zeros ->
  (forall w, data_zone S w -> used s S w = true -> used s' S w = true) ->
  (forall w, 0 <= w < blocks s -> ~ on_map w -> w <> z -> (forall q x, slot p = inr (q, x) -> w <> loc_at s n q) -> view s' w = view s w) ->
  match slot p with
  | inl i => forall j, (j < 9)%nat -> zone n' j = if decide (j = i) then z else zone n j
  | inr (q, x) => (forall j, zone n' j = zone n j) /\ loc_at s n q <> 0 /\ length (view s (loc_at s n q)) = 1024%nat /\
      view s' (loc_at s n q) = set_half (2 * x) z (view s (loc_at s n q))
  end -> i_dev n' = dev -> length (i_zone n') = 9%nat -> blocks s' = blocks s -> same_held s s' ->
  tree s' n' /\ grows s n s' n' /\ same_data s n s' n' /\ loc_at s' n' p = z.
Proof.
  intros [T1 T2 T3 T4] Hm Hp H0 Hz Hun Hus Hzero Hmono Hframe Hslot Hd Hlen Hbl Hh. pose proof (in_zone s z Hm Hz) as (Hzr & _).
  assert (forall q, valid q -> loc_at s n q <> 0 -> (forall x, slot p <> inr (q, x)) -> view s' (loc_at s n q) = view s (loc_at s n q)) as Hkept.
  { intros q Hq Hq0 Hno. destruct (T3 q Hq Hq0) as [Hqz Hqu]. destruct (in_zone s _ Hm Hqz) as (R1 & R2 & R3). apply Hframe; [lia|done|intros E1; rewrite E1 in Hqu; congruence|].
    intros r x Er E1. apply (Hno x). rewrite Er. do 2 f_equal. symmetry. destruct (slot_block p r x Hp Er) as (Hr & _). by apply T4. }
  assert (forall q, valid q -> loc_at s' n' q = if decide (q = p) then z else loc_at s n q) as Hloc by (by apply (fill_loc (view s) (view s') n n' p z)).
  assert (forall q, valid q -> loc_at s n q <> z) as Hnz.
  { intros q Hq E1. destruct (T3 q Hq) as [_ Hu]; [rewrite E1; lia|]. rewrite E1 in Hu. congruence. }
  split; [|split; [|split; [|rewrite Hloc by done; by rewrite decide_True]]].
  - split; [done|done| |].
    + intros q Hq. rewrite Hloc by done. destruct (decide (q = p)); [done|]. intros Hq0. destruct (T3 q Hq Hq0) as [Hqz Hqu]. split; [done|by apply Hmono].
    + intros q r Hq Hr. rewrite !Hloc by done. destruct (decide (q = p)) as [->|], (decide (r = p)) as [->|]; [done| | |by apply T4].
      * intros _ E1. by destruct (Hnz r Hr).
      * intros _ E1. by destruct (Hnz q Hq).
  - split; try done.
    + intros q Hq Hq0. rewrite Hloc by done. by rewrite decide_False by congruence.
    + intros q Hq Hq0. rewrite Hloc by done. by destruct (decide (q = p)).
    + intros w Hw Hno Hu Ht. apply Hframe; [done|done|intros ->; rewrite Hu in Hun; done|].
      intros q x Eq ->. destruct (slot_block p q x Hp Eq) as (Hq & _). rewrite Eq in Hslot. by apply (Ht q Hq); [apply Hslot|].
  - intros k Hk. unfold block_of. rewrite Hloc by done. destruct (decide (Data k = p)) as [<-|Hne].
    + rewrite H0, (proj2 (Z.eqb_neq z 0)) by lia. exact Hzero.
    + destruct (Z.eqb_spec (loc_at s n (Data k)) 0); [done|]. apply Hkept; [done|done|]. intros x. apply slot_not_data.
Qed.

(** ** Filling in what is missing *)
Definition full (s : fs) : Prop := forall z, data_zone S z -> used s S z = true.
(** Inode [i], [n] in [s] and [n'] in [s'], has more blocks and the same contents. *)
Record created (i : nat) (m : nat) (s : fs) (n : m_inode) (s' : fs) (n' : m_inode) : Prop := {
  cr_volume : volume s' m;
  cr_tree : tree s' n';
  cr_grows : grows s n s' n';
  cr_data : same_data s n s' n';
  cr_file : same_file n n';
  cr_table : inode_table s' = <[i := n']> (inode_table s);
  cr_rest : besides s s'
}.
Lemma created_refl i m s n : volume s m -> tree s n -> inode_table s !! i = Some n -> created i m s n s n.
Proof. intros V T Hi. split; try done. by rewrite list_insert_id. Qed.
Lemma created_trans i m1 m2 s n s1 n1 s2 n2 : created i m1 s n s1 n1 -> created i m2 s1 n1 s2 n2 -> created i m2 s n s2 n2.
Proof.
  intros [A1 A2 A3 A4 A5 A6 A7] [B1 B2 B3 B4 B5 B6 B7]. split; [done|done|by apply (grows_trans s n s1 n1)| |by transitivity n1| |by transitivity s1].
  - intros k Hk. by rewrite B4, A4.
  - rewrite B6, A6. by rewrite list_insert_insert_eq.
Qed.
Lemma created_inode i m s n s' n' : inode_table s !! i = Some n -> created i m s n s' n' -> inode_table s' !! i = Some n'.
Proof. intros Hi H. rewrite (cr_table _ _ _ _ _ _ H). apply list_lookup_insert_eq. by eapply lookup_lt_Some. Qed.
Lemma created_full i m s n s' n' : created i m s n s' n' -> full s -> full s'.
Proof. intros H Hf z Hz. by apply (gr_used _ _ _ _ (cr_grows _ _ _ _ _ _ H)), Hf. Qed.
Lemma created_le i m k s n s' n' : created i m s n s' n' -> (k <= m)%nat -> created i k s n s' n'.
Proof. intros [H1 H2 H3 H4 H5 H6 H7] Hk. split; try done. by apply (volume_le s' m). Qed.

Lemma zone_set j k z n : length (i_zone n) = 9%nat -> (j < 9)%nat -> zone (set_zone k z n) j = if decide (j = k) then u16 z else zone n j.
Proof.
  intros Hl Hj. unfold zone, set_zone. cbn. destruct (decide (j = k)) as [->|Hne]; [by rewrite list_lookup_insert_eq by lia|].
  by rewrite list_lookup_insert_ne.
Qed.
Lemma zone_set_0 k n : length (i_zone n) = 9%nat -> (k < 9)%nat -> zone n k = 0 -> set_zone k 0 n = n.
Proof.
  intros Hl Hk Hz. unfold set_zone. change (u16 0) with 0. destruct (lookup_lt_is_Some_2 (i_zone n) k) as [z Hz']; [lia|].
  unfold zone in Hz. rewrite Hz' in Hz. cbn in Hz. subst z. destruct n. unfold upd, upd_i_zone. cbn in *. by rewrite list_insert_id.
Qed.
(** The blocks of the tree are left alone. *)
Lemma kept_tree s n s' n' : tree s n -> maps_held s S -> blocks s' = blocks s -> same_held s s' ->
  (forall z, data_zone S z -> used s S z = true -> used s' S z = true) ->
  (forall z, 0 <= z < blocks s -> ~ on_map z -> view s' z = view s z) -> i_zone n' = i_zone n -> i_dev n' = i_dev n ->
  tree s' n' /\ grows s n s' n' /\ same_data s n s' n'.
Proof.
  intros [T1 T2 T3 T4] Hm Hbl Hh Hmono Hview Hzn Hdn.
  assert (forall p, valid p -> loc_at s n p <> 0 -> view s' (loc_at s n p) = view s (loc_at s n p)) as Hv.
  { intros p Hp H0. destruct (T3 p Hp H0) as [Hz _]. destruct (in_zone s _ Hm Hz) as (H1 & H2 & H3). apply Hview; [lia|done]. }
  assert (forall p, valid p -> loc_at s' n' p = loc_at s n p) as Hloc.
  { apply (tree_ind (fun p => loc_at s' n' p = loc_at s n p)). intros p Hp IH. unfold loc_at in *. rewrite loc_slot, (loc_slot (view s)).
    destruct (slot p) as [j|[q x]] eqn:Ep; [unfold zone; by rewrite Hzn|]. rewrite (IH q x eq_refl). unfold entry. destruct (Z.eqb_spec (loc (view s) n q) 0); [done|].
    destruct (slot_block p q x Hp Ep) as (Hq & _). by rewrite Hv. }
  split; [|split].
  - split; [congruence|congruence|intros p Hp; rewrite Hloc by done; intros H0; destruct (T3 p Hp H0) as [Hz Hu]; split; [done|by apply Hmono]|].
    intros p q Hp Hq. rewrite !Hloc by done. by apply T4.
  - split; try done; [intros p Hp _; by apply Hloc|intros p Hp H0 H1; by rewrite Hloc in H1|intros z Hz Hno _ _; by apply Hview].
  - intros k Hk. unfold block_of. rewrite Hloc by done. destruct (Z.eqb_spec (loc_at s n (Data k)) 0); [done|]. by apply Hv.
Qed.
Lemma touched_tree s n s' n' m : tree s n -> volume s m -> same_cache s s' -> super_blocks s' = super_blocks s -> i_zone n' = i_zone n -> i_dev n' = i_dev n ->
  volume s' m /\ tree s' n' /\ grows s n s' n' /\ same_data s n s' n'.
Proof.
  intros T V Hc Esb Hz Hd. destruct (volume_cache s s' m V Hc Esb) as (V' & Hh & Hv & Hu). split; [done|].
  apply kept_tree; [done|apply (vo_maps s m V)|apply Hv|done|intros z Hzz; by rewrite Hu|intros z Hzr _; by apply Hv|done|done].
Qed.
(** Nothing was missing, or the device is full. *)
Lemma created_same i m s n s' : tree s n -> maps_held s S -> volume s' m -> blocks s' = blocks s -> same_held s s' ->
  (forall z, data_zone S z -> used s S z = true -> used s' S z = true) ->
  (forall z, 0 <= z < blocks s -> ~ on_map z -> view s' z = view s z) -> inode_table s' = <[i := n]> (inode_table s) -> besides s s' ->
  created i m s n s' n.
Proof. intros T Hm V Hbl Hh Hmono Hview Hi Hb. by destruct (kept_tree s n s' n T Hm Hbl Hh Hmono Hview) as (H1 & H2 & H3). Qed.
Lemma created_fill i m s n s' n' p z : tree s n -> maps_held s S -> valid p -> loc_at s n p = 0 ->
  data_zone S z -> used s S z = false -> used s' S z = true -> view s' z = zeros ->
  (forall w, data_zone S w -> used s S w = true -> used s' S w = true) ->
  (forall w, 0 <= w < blocks s -> ~ on_map w -> w <> z -> (forall q x, slot p = inr (q, x) -> w <> loc_at s n q) -> view s' w = view s w) ->
  match slot p with
  | inl i => forall j, (j < 9)%nat -> zone n' j = if decide (j = i) then z else zone n j
  | inr (q, x) => (forall j, zone n' j = zone n j) /\ loc_at s n q <> 0 /\ length (view s (loc_at s n q)) = 1024%nat /\
      view s' (loc_at s n q) = set_half (2 * x) z (view s (loc_at s n q))
  end -> same_file n n' -> length (i_zone n') = 9%nat -> blocks s' = blocks s -> same_held s s' -> volume s' m ->
  inode_table s' = <[i := n']> (inode_table s) -> besides s s' ->
  created i m s n s' n' /\ loc_at s' n' p = z.
Proof.
  intros T Hm Hp H0 Hz Hun Hus Hzero Hmono Hview Hslot Hfile Hlen Hbl Hh V Hi Hb.
  destruct (fill_tree s n s' n' p z) as (H1 & H2 & H3 & H4); try done.
  rewrite Hfile. apply (tr_dev s n T).
Qed.
Lemma zone_of_create s n i m p k : volume s (Datatypes.S (Datatypes.S m)) -> tree s n -> inode_table s !! i = Some n -> valid p -> slot p = inl k ->
  wp (zone_of i k true) (fun r s' => exists n', created i (Datatypes.S m) s n s' n' /\ r = loc_at s' n' p /\ (r = 0 -> full s')) s.
Proof.
  intros V T Hi Hp Hk. pose proof (slot_inode p k Hp Hk) as Hk9. assert (loc_at s n p = zone n k) as Hloc by (unfold loc_at; by rewrite loc_slot, Hk).
  pose proof (lookup_lt_Some _ _ _ Hi) as Hlt. unfold zone_of. apply wp_bind. unfold wp at 1. rewrite (get_inode_run s i n Hi). cbn [andb]. unfold truth at 1.
  destruct (Z.eqb_spec (zone n k) 0) as [Hz|Hz]; cbn [negb when].
  2: { rewrite wp_bind. unfold wp at 1, ret at 1. apply wp_bind. unfold wp at 1. rewrite (get_inode_run s i n Hi). apply wp_ret.
    exists n. split; [apply created_refl; [by apply (volume_le s _ _ V); lia|done|done]|]. split; [done|]. intros ?. congruence. }
  apply wp_bind. rewrite (tr_dev s n T). apply wp_bind. eapply wp_mono; [by apply (new_block_vol s m)|]. cbv beta.
  intros r s1 (V1 & Hrest & Hheld & Hbl & Hmono & Hview & Hr). pose proof Hrest as (_ & Ei & _). rewrite <- Ei in Hi. pose proof (rest_besides _ _ Hrest) as Hb.
  destruct Hr as [[-> Hfull]|(Hrz & Hun & Hus & Hzero)].
  - apply wp_bind. unfold wp at 1. rewrite (mod_inode_run s1 i n _ Hi), zone_set_0 by (try done; apply (tr_zones s n T)). cbn [truth u16 Z.modulo Z.eqb negb when].
    change (truth (u16 0)) with false. cbn [when]. set (s2 := s1 <| inode_table ::= _ |>).
    assert (inode_table s2 !! i = Some n) as Hi2 by (apply list_lookup_insert_eq; by rewrite Ei).
    apply wp_ret. apply wp_bind. unfold wp at 1. rewrite (get_inode_run s2 i n Hi2). apply wp_ret.
    destruct (volume_cache s1 s2 _ V1 ltac:(done) ltac:(done)) as (V2 & Hh2 & Hv2 & Hu2). exists n.
    assert (created i (Datatypes.S m) s n s2 n) as Hc.
    { apply created_same; [done|apply V|done|by rewrite (proj1 Hv2)|by transitivity s1|intros z Hz1 Hu; rewrite Hu2 by done; by apply Hmono| |cbn; by rewrite Ei|done].
      intros z Hz' Hno. rewrite (proj2 Hv2) by (by rewrite Hbl). apply Hview; [done|done|by left]. }
    split; [done|]. split; [|intros _; by apply (created_full i _ s n s2 n Hc)].
    unfold loc_at. by rewrite loc_slot, Hk, Hz.
  - destruct (in_zone s r (vo_maps s _ V) Hrz) as (Hr0 & _). assert (u16 r = r) as Er by (apply u16_id; lia).
    apply wp_bind. unfold wp at 1. rewrite (mod_inode_run s1 i n _ Hi). set (n2 := set_zone k r n). set (s2 := s1 <| inode_table ::= _ |>).
    assert (inode_table s2 !! i = Some n2) as Hi2 by (apply list_lookup_insert_eq; by rewrite Ei).
    rewrite Er. unfold truth. rewrite (proj2 (Z.eqb_neq r 0)) by lia. cbn [negb when].
    apply wp_bind. unfold wp at 1, current_time, gets. unfold wp at 1. rewrite (mod_inode_run s2 i n2 _ Hi2). set (n3 := upd i_ctime _ _). set (s3 := s2 <| inode_table ::= _ |>).
    assert (inode_table s3 !! i = Some n3) as Hi3 by (apply list_lookup_insert_eq; cbn; by rewrite length_insert, Ei).
    apply wp_bind. unfold wp at 1. rewrite (get_inode_run s3 i n3 Hi3). apply wp_ret.
    destruct (volume_cache s1 s3 _ V1 ltac:(done) ltac:(done)) as (V3 & Hh3 & Hv3 & Hu3). exists n3.
    assert (forall j, (j < 9)%nat -> zone n3 j = if decide (j = k) then r else zone n j) as Hzn.
    { intros j Hj. change (zone n3 j) with (zone n2 j). unfold n2. rewrite zone_set by (try done; apply (tr_zones s n T)). by rewrite Er. }
    destruct (created_fill i (Datatypes.S m) s n s3 n3 p r T (vo_maps s _ V) Hp ltac:(by rewrite Hloc) Hrz Hun) as [Hc Hl].
    + by rewrite Hu3.
    + rewrite (proj2 Hv3); [done|]. rewrite Hbl. pose proof (in_zone s r (vo_maps s _ V) Hrz). lia.
    + intros w Hw Hu. rewrite Hu3 by done. by apply Hmono.
    + intros w Hw Hno Hne _. rewrite (proj2 Hv3) by (by rewrite Hbl). apply Hview; [done|done|by right].
    + by rewrite Hk.
    + done.
    + change (length (<[k := u16 r]> (i_zone n)) = 9%nat). rewrite length_insert. apply (tr_zones s n T).
    + by rewrite (proj1 Hv3).
    + by transitivity s1.
    + done.
    + cbn. rewrite Ei. by rewrite list_insert_insert_eq.
    + done.
    + rewrite Hzn, decide_True, Hl by done. split; [done|]. split; [done|]. intros E0. lia.
Qed.

(** A buffer of another block than the bitmap is given back. *)
Lemma volume_release s m bh z b (s' := s <| bufs ::= <[bh := released b]> |>) : volume s m -> held (dev := dev) s bh z b -> ~ on_map z ->
  brelse (Some bh) s = Done tt s' /\ volume s' m /\ same_view s s'.
Proof.
  intros V Hb Hz. destruct (brelse_held Hfuel Hdev s bh z b (vo_spare s m V) Hb) as (Hrun & Hs' & Hv & Hroom). fold s' in Hrun, Hs', Hv, Hroom.
  split; [done|]. split; [|done]. pose proof (lookup_lt_Some _ _ _ (hd_buf _ _ _ _ Hb)) as Hlt.
  assert (forall i, i <> bh -> bufs s' !! i = bufs s !! i) as Ho by (intros; by apply list_lookup_insert_ne).
  apply (volume_frame s s' m); try done; [by apply Hroom, (vo_room s m V)|apply Hv| | |].
  - intros i w c Hw [H1 H2 H3 H4 H5]. assert (i <> bh) as Hne.
    { intros ->. apply Hz. pose proof (hd_buf _ _ _ _ Hb). pose proof (hd_block _ _ _ _ Hb). assert (w = z) as <- by congruence. done. }
    exists c. split; try done. by rewrite Ho.
  - intros w Hw. apply Hv. by apply (on_map_block s w (sp_serving s (vo_spare s m V)) (vo_maps s m V)).
  - intros i w c Hi. destruct (decide (i = bh)) as [->|Hne]; [|unfold holders in Hi; rewrite Ho in Hi by done; by apply (vo_tidy s m V i w c)].
    apply holders_some in Hi as (c' & Hc' & E1 & E2 & E3 & _). cbn in Hc'. rewrite list_lookup_insert_eq in Hc' by done. injection Hc' as <-.
    apply (vo_tidy s m V bh w (b_count b)). apply holders_some. exists b. pose proof Hb as [H1 H2 H3 H4 H5]. split_and!; try done; cbn in *; congruence.
Qed.
Lemma volume_alters s m bh z b b' (s' := s <| bufs ::= <[bh := b']> |>) : volume s m -> held (dev := dev) s bh z b -> alters b b' -> ~ on_map z ->
  volume s' m /\ same_held s s' /\ stores s z (b_data b') s' /\ held (dev := dev) s' bh z b' /\ forall w, data_zone S w -> used s' S w = used s S w.
Proof.
  intros V Hb Ha Hz. destruct (alters_held Hfuel Hdev s bh z b b' (vo_spare s m V) Hb Ha) as (Hs' & Hh & Hst & Hroom & Hb' & _). fold s' in Hs', Hh, Hst, Hroom, Hb'.
  assert (forall w, on_map w -> view s' w = view s w) as Hmap.
  { intros w Hw. destruct Hst as [_ Hv]. destruct (on_map_block s w (sp_serving s (vo_spare s m V)) (vo_maps s m V) Hw). rewrite Hv by done.
    rewrite decide_False; [done|]. by intros ->. }
  split; [|split; [done|split; [done|split; [done|intros w Hw; apply same_maps_used; [apply (vo_maps s m V)|done|done]]]]].
  apply (volume_same s s' m); try done; [by apply Hroom, (vo_room s m V)|apply Hst].
Qed.
Section Entry.
Context {A : Type} (s : fs) (n : m_inode) (i m : nat) (p q : node) (x z : Z).
Hypothesis (V : volume s (3 + m)) (Hfew : few s) (T : tree s n) (Hi : inode_table s !! i = Some n).
Hypothesis (Hp : valid p) (Hslot : slot p = inr (q, x)) (Hz : loc_at s n q = z) (Hz0 : z <> 0).

Section Borrowed.
Context (s1 : fs) (bh : nat) (b : buffer_head).
Hypothesis (Hbo : borrowed (dev := dev) s s1 bh z b) (V1 : volume s1 (2 + m)) (Hv1 : same_view s s1) (Hrest1 : rest_same s s1).
Lemma borrowed_used w : data_zone S w -> used s1 S w = used s S w.
Proof. intros Hw. by apply (volume_used s s1 _ w V). Qed.
(** The end without a change of the entry: the buffer of the indirect block is given back. *)
Lemma entry_kept s2 b2 : volume s2 (1 + m) -> same_held s1 s2 -> held (dev := dev) s2 bh z b2 -> blocks s2 = blocks s1 -> rest_same s1 s2 ->
  (forall w, data_zone S w -> used s1 S w = true -> used s2 S w = true) -> (forall w, 0 <= w < blocks s1 -> ~ on_map w -> view s2 w = view s1 w) ->
  (loc_at s n p = 0 -> full s1) ->
  wp (brelse (Some bh) ;;; ret (loc_at s n p)) (fun r s' => created i (1 + m) s n s' n /\ r = loc_at s' n p /\ (r = 0 -> full s')) s2.
Proof.
  intros V2 Hh2 H2 Hbl2 Hrest2 Hm2 Hv2 Hf. destruct (slot_block p q x Hp Hslot) as (Hq & _).
  destruct (tr_used s n T q Hq) as [Hzz _]; [by rewrite Hz|]. rewrite Hz in Hzz. destruct (in_zone s z (vo_maps s _ V) Hzz) as (_ & _ & Hzm).
  destruct (volume_release s2 _ bh z b2 V2 H2 Hzm) as (Hrun & V3 & Hv3).
  pose proof (borrowed_released (dev := dev) Hfuel s s1 s2 bh z b b2 Hbo Hh2 H2) as Hback. set (s3 := s2 <| bufs ::= _ |>) in *.
  apply wp_bind. unfold wp at 1. rewrite Hrun. apply wp_ret. assert (forall w, data_zone S w -> used s3 S w = used s2 S w) as Hu3.
  { intros w Hw. by apply (volume_used s2 s3 _ w V2). }
  assert (rest_same s s2) as Hrest by (by transitivity s1). assert (created i (1 + m) s n s3 n) as Hc.
  { apply created_same; [done|apply V|done|rewrite (proj1 Hv3), Hbl2; apply Hv1|done| | | |by apply rest_besides].
    - intros w Hw Hu. rewrite Hu3 by done. apply Hm2; [done|]. by rewrite borrowed_used.
    - intros w Hw Hno. pose proof (proj1 Hv1) as Hbl1. rewrite (proj2 Hv3) by lia. rewrite Hv2 by (done || lia). by apply Hv1.
    - change (inode_table s3) with (inode_table s2). destruct Hrest as (_ & -> & _). by rewrite list_insert_id. }
  assert (loc_at s3 n p = loc_at s n p) as El.
  { destruct (decide (loc_at s n p = 0)) as [E0|E0]; [|by apply (gr_loc _ _ _ _ (cr_grows _ _ _ _ _ _ Hc))].
    destruct (decide (loc_at s3 n p = 0)) as [E3|E3]; [congruence|]. destruct (gr_new _ _ _ _ (cr_grows _ _ _ _ _ _ Hc) p Hp E0 E3) as [Hw Hw'].
    specialize (Hf E0 _ Hw). rewrite borrowed_used in Hf by done. congruence. }
  split; [done|]. split; [done|]. intros E0 w Hw. rewrite Hu3 by done. by apply Hm2, Hf.
Qed.

Lemma entry_of_create : b_data b = view s z ->
  wp (r <- entry_of dev bh x true ;; brelse (Some bh) ;;; ret r)
    (fun r s' => created i (1 + m) s n s' n /\ r = loc_at s' n p /\ (r = 0 -> full s')) s1.
Proof.
  intros Hdata. pose proof (bo_held _ _ _ _ _ Hbo) as Hb. destruct (slot_block p q x Hp Hslot) as (Hq & Hx & _).
  destruct (tr_used s n T q Hq) as [Hzz Hzu]; [by rewrite Hz|]. rewrite Hz in Hzz, Hzu. destruct (in_zone s z (vo_maps s _ V) Hzz) as (Hzr & Hzb & Hzm).
  pose proof borrowed_used as Hu1.
  assert (half (b_data b) (2 * x) = loc_at s n p) as Hhalf.
  { unfold loc_at. rewrite loc_slot, Hslot. fold (loc_at s n q). rewrite Hz. unfold entry. rewrite (proj2 (Z.eqb_neq z 0)) by done. by rewrite Hdata. }
  unfold entry_of. rewrite wp_bind. apply wp_bind. unfold wp at 1. rewrite (get_buf_run s1 bh b (hd_buf _ _ _ _ Hb)). cbv zeta. rewrite Hhalf. unfold truth. cbn [andb].
  assert (forall s2 b2, same_held s1 s2 -> held (dev := dev) s2 bh z b2 -> same_held s (s2 <| bufs ::= <[bh := released b2]> |>)) as Hback.
  { intros s2 b2 Hh H2. by apply (borrowed_released (dev := dev) Hfuel s s1 s2 bh z b b2). }
  pose proof entry_kept as Hend.
  destruct (Z.eqb_spec (loc_at s n p) 0) as [E0|E0]; cbn [negb].
  2: { apply wp_ret. apply (Hend s1 b); try done. by apply (volume_le s1 _ _ V1); lia. }
  apply wp_bind. eapply wp_mono; [by apply (new_block_vol s1 m)|]. cbv beta. intros r s2 (V2 & Hrest2 & Hh2 & Hbl2 & Hm2 & Hv2 & Hr).
  destruct (held_kept (dev := dev) Hfuel s1 s2 bh z b Hb Hh2) as (b2 & Hb2 & _).
  destruct Hr as [[-> Hfull]|(Hrz & Hun & Hus & Hzero)].
  { cbn [Z.eqb negb when]. apply wp_bind. unfold wp at 1, ret at 1. apply wp_ret. rewrite E0 in Hend. apply (Hend s2 b2); try done.
    intros w Hw Hno. apply Hv2; [done|done|by left]. }
  destruct (in_zone s r (vo_maps s _ V) Hrz) as (Hr0 & Hrb & Hrm). rewrite Hu1 in Hun by done. assert (z <> r) as Hzr' by (intros ->; congruence).
  pose proof (proj1 Hv1) as Hbl1. assert (b_data b2 = view s z /\ length (b_data b2) = 1024%nat) as [Hd2 Hlen2].
  { destruct (held_view Hfuel Hdev s2 bh z b2 (sp_serving s2 (vo_spare s2 _ V2)) Hb2) as (-> & H1 & _). split; [|done]. rewrite Hv2 by first [done | lia | by right]. apply Hv1. lia. }
  rewrite (proj2 (Z.eqb_neq r 0)) by lia. cbn [negb when]. apply wp_bind. unfold wp at 1. rewrite (mod_buf_run s2 bh b2 _ (hd_buf _ _ _ _ Hb2)).
  set (d := set_half (2 * x) r (b_data b2)). change (upd b_dirt _ _) with (changed b2 d). apply wp_ret.
  destruct (volume_alters s2 _ bh z b2 (changed b2 d) V2 Hb2) as (V3 & Hh3 & [Hbl3 Hst3] & Hb3 & Hu3); [apply (changed_alters Hfuel); [apply (hd_uptodate _ _ _ _ Hb2)|unfold d; by rewrite length_set_half]|done|].
  change (b_data (changed b2 d)) with d in Hst3. set (s3 := s2 <| bufs ::= _ |>) in *.
  destruct (volume_release s3 _ bh z _ V3 Hb3 Hzm) as (Hrun & V4 & Hv4). specialize (Hback s3 _ ltac:(by transitivity s2) Hb3). set (s4 := s3 <| bufs ::= _ |>) in *.
  apply wp_bind. unfold wp at 1. rewrite Hrun. apply wp_ret. assert (rest_same s s2) as Hrest by (by transitivity s1). pose proof (proj1 Hv4) as Hbl4.
  assert (forall w, data_zone S w -> used s4 S w = used s2 S w) as Hu4.
  { intros w Hw. rewrite <- Hu3 by done. by apply (volume_used s3 s4 _ w V3). }
  assert (forall w, 0 <= w < blocks s -> w <> z -> view s4 w = view s2 w) as Hw4 by (intros w Hw Hne; rewrite (proj2 Hv4), Hst3, decide_False by (done || lia); done).
  destruct (created_fill i (1 + m) s n s4 n p r T (vo_maps s _ V) Hp E0 Hrz Hun) as [Hc Hl].
  - by rewrite Hu4.
  - by rewrite Hw4 by (done || lia).
  - intros w Hw Hu. rewrite Hu4 by done. apply Hm2; [done|]. by rewrite Hu1.
  - intros w Hw Hno Hne Hnq. specialize (Hnq q x Hslot). rewrite Hz in Hnq. rewrite Hw4, Hv2 by first [done | lia | by right]. by apply Hv1.
  - rewrite Hslot, Hz. split; [done|]. split; [done|]. split; [by rewrite <- Hd2|].
    rewrite (proj2 Hv4), Hst3 by lia. rewrite decide_True by done. unfold d. by rewrite Hd2.
  - done.
  - apply (tr_zones s n T).
  - lia.
  - done.
  - done.
  - change (inode_table s4) with (inode_table s2). destruct Hrest as (_ & -> & _). by rewrite list_insert_id.
  - by apply rest_besides.
  - split; [done|]. split; [done|]. intros ->. lia.
Qed.
End Borrowed.
End Entry.
Lemma wp_entry_create {A} s n i m p q x z (none : M fs A) (next : Z -> M fs A) (Q : A -> fs -> Prop) :
  volume s (3 + m) -> few s -> tree s n -> inode_table s !! i = Some n -> valid p -> slot p = inr (q, x) -> loc_at s n q = z -> z <> 0 ->
  (forall s', created i (1 + m) s n s' n -> (loc_at s' n p = 0 -> full s') -> wp (next (loc_at s' n p)) Q s') ->
  wp (o <- bread (i_dev n) z ;;
      match o with
      | None => none
      | Some bh => n <- get_inode i ;; r <- entry_of (i_dev n) bh x true ;; brelse (Some bh) ;;; next r
      end) Q s.
Proof.
  intros V Hf T Hi Hp Hslot Hz Hz0 Hnext. destruct (slot_block p q x Hp Hslot) as (Hq & _).
  destruct (tr_used s n T q Hq) as [Hzz Hzu]; [by rewrite Hz|]. rewrite Hz in Hzz, Hzu. destruct (in_zone s z (vo_maps s _ V) Hzz) as (Hzr & Hzb & _).
  rewrite (tr_dev s n T). apply wp_bind. eapply wp_mono; [apply (bread_borrowed Hfuel Hdev s z (1 + m)); [apply V|apply V|lia|exact Hf]|].
  cbv beta. intros o s1 (bh & b & -> & Hbo & Hdata & Hs1 & Hr1 & Hv1 & Hrest1). cbv iota.
  pose proof (volume_borrowed s s1 _ (2 + m) bh z b V Hbo Hs1 Hr1 Hv1 Hrest1 Hzz Hzu) as V1.
  apply wp_bind. unfold wp at 1. rewrite (get_inode_run s1 i n) by (destruct Hrest1 as (_ & -> & _); done). rewrite (tr_dev s n T).
  pose proof (entry_of_create s n i m p q x z V T Hi Hp Hslot Hz Hz0 s1 bh b Hbo V1 Hv1 Hrest1 Hdata) as H.
  apply wp_bind in H. apply wp_bind. eapply wp_mono; [exact H|]. cbv beta. intros r s2 H2. apply wp_bind in H2. apply wp_bind.
  eapply wp_mono; [exact H2|]. cbv beta. intros [] s3 H3. rewrite wp_ret in H3. destruct H3 as (Hc & -> & Hfull). by apply Hnext.
Qed.

(** ** [create_block]: the block of the file, added when it is missing, unless the device is full *)
Lemma create_block_ok s n i m k : volume s (6 + m) -> few s -> tree s n -> inode_table s !! i = Some n -> 0 <= k < max_blocks ->
  wp (create_block i k) (fun r s' => exists n', created i (1 + m) s n s' n' /\ r = loc_at s' n' (Data k) /\ (r = 0 -> full s')) s.
Proof.
  intros V Hf T Hi Hk. pose proof Hk as [Hk1 Hk2]. unfold max_blocks in Hk2. unfold create_block, _bmap.
  destruct (Z.ltb_spec k 0); [lia|]. destruct (Z.leb_spec (7 + 512 + 512 * 512) k); [lia|].
  assert (slot (Data k) = if k <? 7 then inl (Z.to_nat k) else if k - 7 <? 512 then inr (Single, k - 7)
    else inr (Second (Z.shiftr (k - 7 - 512) 9), Z.land (k - 7 - 512) 511)) as Es by done.
  destruct (Z.ltb_spec k 7).
  { eapply wp_mono; [apply (zone_of_create s n i (4 + m) (Data k)); done|]. cbv beta. intros r s' (n' & Hc & Hr).
    exists n'. split; [|done]. apply (created_le i _ _ _ _ _ _ Hc). lia. }
  assert (forall p j, valid p -> slot p = inl j -> wp (zone_of i j true) (fun r s' => exists n', created i (5 + m) s n s' n' /\ few s' /\ inode_table s' !! i = Some n' /\
    r = loc_at s' n' p /\ (r = 0 -> full s')) s) as Hzone.
  { intros p j Hp Hj. eapply wp_mono; [by apply (zone_of_create s n i (4 + m) p)|]. cbv beta. intros r s' (n' & Hc & Hr). exists n'. split; [done|].
    split; [by apply (few_held s s'); [apply (cr_grows _ _ _ _ _ _ Hc)|]|]. split; [by eapply created_inode|done]. }
  assert (forall s1 n1, created i (5 + m) s n s1 n1 -> full s1 -> loc_at s1 n1 (Data k) = 0 ->
    exists n', created i (1 + m) s n s1 n' /\ 0 = loc_at s1 n' (Data k) /\ (0 = 0 -> full s1)) as Hnone.
  { intros s1 n1 Hc Hfull E0. exists n1. split; [|done]. apply (created_le i _ _ _ _ _ _ Hc). lia. }
  assert (forall q x s1 n1, slot (Data k) = inr (q, x) -> loc_at s1 n1 q = 0 -> loc_at s1 n1 (Data k) = 0) as Hhole.
  { intros q x s1 n1 Eq E0. unfold loc_at in *. rewrite loc_slot, Eq, E0. done. }
  cbv zeta. destruct (Z.ltb_spec (k - 7) 512).
  - apply wp_bind. eapply wp_mono; [by apply (Hzone Single 7%nat)|]. cbv beta. intros r s1 (n1 & Hc1 & Hf1 & Hi1 & -> & Hr). unfold truth.
    destruct (Z.eqb_spec (loc_at s1 n1 Single) 0) as [E0|E0]; cbn [negb].
    { apply wp_ret. apply (Hnone s1 n1); [done|by apply Hr|by apply (Hhole Single (k - 7))]. }
    apply wp_bind. unfold wp at 1. rewrite (get_inode_run s1 i n1 Hi1).
    apply (wp_entry_create s1 n1 i m (Data k) Single (k - 7) _ (ret 0) ret); try done; [apply (volume_le s1 _ _ (cr_volume _ _ _ _ _ _ Hc1)); lia|apply Hc1|].
    intros s2 Hc2 Hr2. apply wp_ret. exists n1. split; [|done]. by apply (created_trans i _ _ _ _ _ _ _ _ Hc1).
  - destruct (far_block k Hk ltac:(lia)) as (_ & _ & Hj). set (j := Z.shiftr (k - 7 - 512) 9) in *. set (x := Z.land (k - 7 - 512) 511) in *.
    assert (valid (Second j)) as Hvj by (cbn; unfold j; destruct (far_block k Hk ltac:(lia)) as (-> & _ & ?); done).
    apply wp_bind. eapply wp_mono; [by apply (Hzone Double 8%nat)|]. cbv beta. intros r s1 (n1 & Hc1 & Hf1 & Hi1 & -> & Hr). unfold truth.
    assert (loc_at s1 n1 Double = 0 -> loc_at s1 n1 (Second j) = 0) as Hsec by (unfold loc_at; intros E0; rewrite (loc_slot _ _ (Second j)); cbn [slot]; by rewrite E0).
    destruct (Z.eqb_spec (loc_at s1 n1 Double) 0) as [E0|E0]; cbn [negb].
    { apply wp_ret. apply (Hnone s1 n1); [done|by apply Hr|by apply (Hhole (Second j) x), Hsec]. }
    apply wp_bind. unfold wp at 1. rewrite (get_inode_run s1 i n1 Hi1).
    apply (wp_entry_create s1 n1 i (2 + m) (Second j) Double j _ (ret 0) (fun r => if negb (negb (r =? 0)) then ret 0 else
        n <- get_inode i ;; o <- bread (i_dev n) r ;;
        match o with None => ret 0 | Some bh => n <- get_inode i ;; r <- entry_of (i_dev n) bh x true ;; brelse (Some bh) ;;; ret r end));
      try done; [apply (volume_le s1 _ _ (cr_volume _ _ _ _ _ _ Hc1)); lia|apply Hc1|].
    intros s2 Hc2 Hr2. pose proof (created_trans i _ _ _ _ _ _ _ _ Hc1 Hc2) as Hc. pose proof (created_inode i _ s n s2 n1 Hi Hc) as Hi2.
    destruct (Z.eqb_spec (loc_at s2 n1 (Second j)) 0) as [E2|E2]; cbn [negb].
    { apply wp_ret. exists n1. split; [by apply (created_le i _ _ _ _ _ _ Hc); lia|]. split; [symmetry; by apply (Hhole (Second j) x)|by intros _; apply Hr2]. }
    apply wp_bind. unfold wp at 1. rewrite (get_inode_run s2 i n1 Hi2).
    apply (wp_entry_create s2 n1 i m (Data k) (Second j) x _ (ret 0) ret); try done; [apply Hc|by apply (few_held s s2); [apply (cr_grows _ _ _ _ _ _ Hc)|]|apply Hc|].
    intros s3 Hc3 Hr3. apply wp_ret. exists n1. split; [|done]. by apply (created_trans i _ _ _ _ _ _ _ _ Hc).
Qed.

(** ** Other contents in a block of the file *)
Lemma store_data s n s' n' k z d : tree s n -> maps_held s S -> 0 <= k < max_blocks -> loc_at s n (Data k) = z -> z <> 0 ->
  view s' z = d -> (forall w, 0 <= w < blocks s -> ~ on_map w -> w <> z -> view s' w = view s w) ->
  (forall w, data_zone S w -> used s' S w = used s S w) -> i_zone n' = i_zone n -> i_dev n' = i_dev n -> blocks s' = blocks s -> same_held s s' ->
  tree s' n' /\ grows s n s' n' /\ forall l, 0 <= l < max_blocks -> block_of s' n' l = if decide (l = k) then d else block_of s n l.
Proof.
  intros [T1 T2 T3 T4] Hm Hk Hz Hz0 Hd Hview Hused Hzn Hdn Hbl Hh.
  assert (forall p, valid p -> loc_at s n p <> 0 -> p <> Data k -> view s' (loc_at s n p) = view s (loc_at s n p)) as Hv.
  { intros p Hp H0 Hne. destruct (T3 p Hp H0) as [Hpz _]. destruct (in_zone s _ Hm Hpz) as (H1 & H2 & H3). apply Hview; [lia|done|].
    intros E1. apply Hne. apply T4; [done|done|done|congruence]. }
  assert (forall j, zone n' j = zone n j) as Hzone by (intros j; unfold zone; by rewrite Hzn).
  assert (forall p, valid p -> loc_at s' n' p = loc_at s n p) as Hloc.
  { apply (tree_ind (fun p => loc_at s' n' p = loc_at s n p)). intros p Hp IH. unfold loc_at in *. rewrite loc_slot, (loc_slot (view s)).
    destruct (slot p) as [j|[q x]] eqn:Ep; [by rewrite Hzone|]. rewrite (IH q x eq_refl). unfold entry. destruct (Z.eqb_spec (loc (view s) n q) 0); [done|].
    destruct (slot_block p q x Hp Ep) as (Hq & _). rewrite Hv; [done|done|done|]. intros ->. by apply (slot_not_data p k x). }
  split; [split; [congruence|congruence| |]|split; [split; try done|]].
  - intros p Hp. rewrite Hloc by done. intros H0. destruct (T3 p Hp H0) as [Hpz Hu]. split; [done|by rewrite Hused].
  - intros p q Hp Hq. rewrite !Hloc by done. by apply T4.
  - intros p Hp _. by apply Hloc.
  - intros p Hp H0 H1. by rewrite Hloc in H1.
  - intros w Hw Hu. by rewrite Hused.
  - intros w Hw Hno _ Ht. apply Hview; [done|done|]. intros ->. apply (Ht (Data k) Hk); congruence.
  - intros l Hl. unfold block_of. rewrite Hloc by done. destruct (decide (l = k)) as [->|Hne].
    + rewrite Hz, (proj2 (Z.eqb_neq z 0)) by done. done.
    + destruct (Z.eqb_spec (loc_at s n (Data l)) 0); [done|]. apply Hv; [done|done|congruence].
Qed.
Lemma file_byte_block s n p : file_byte (view s) n p = byte (block_of s n (p / 1024)) (p mod 1024).
Proof. unfold file_byte, block_of, loc_at. cbn [loc]. cbv zeta. destruct (Z.eqb_spec (zones (view s) n (p / 1024)) 0); [by rewrite byte_zeros|done]. Qed.
Lemma same_data_bytes s n s' n' p : same_data s n s' n' -> 0 <= p < 1024 * max_blocks -> file_byte (view s') n' p = file_byte (view s) n p.
Proof. intros H Hp. rewrite !file_byte_block, H; [done|]. dlia. Qed.
End Volume.
End Volume.
