(* ===== verification/FileWrite.v ===== *)
(** * FileWrite: writing a file

    [file_write] of fs/file_dev.c on a mounted device: the bytes of the file afterwards, with
    blocks added where they were missing, and a write followed by a read. *)
From S2P Require Import Prelude Console Task Sched Fs Blk Buffer Bitmap Inode FileDev View Stored Hold Alloc Volume.
Import Blk Buffer Bitmap Inode FileDev View Stored Hold Alloc Volume.

Module FileWrite.

(** The byte that [get_fs_byte] delivers. *)
Definition user_byte (k : kernel) (a : Z) : Z := u8 (default 0 (umem k !! u32 a)).
Lemma byte_splice k buf p c l j : 0 <= p -> 0 <= c -> p + c <= Z.of_nat (length l) -> 0 <= j ->
  byte (splice (Z.to_nat p) (user_bytes k buf c) l) j = if decide (p <= j < p + c) then user_byte k (buf + (j - p)) else byte l j.
Proof.
  intros Hp Hc Hl Hj. unfold byte. rewrite lookup_splice by (rewrite length_user_bytes; lia). rewrite length_user_bytes.
  destruct (decide (p <= j < p + c)).
  - rewrite decide_True by lia. unfold user_bytes. change (map ?g ?l) with (g <$> l). rewrite list_lookup_fmap, lookup_seqZ_lt by lia. cbn.
    unfold user_byte. do 4 f_equal. lia.
  - rewrite decide_False by lia. done.
Qed.
(** How many blocks [a], ..., [a + c - 1] touch. *)
Definition spans (a c : Z) : Z := if c <=? 0 then 0 else (a + c - 1) / 1024 - a / 1024 + 1.
Lemma spans_step a c : 0 <= a -> 0 < c -> let m := Z.min (1024 - a mod 1024) c in spans a c = 1 + spans (a + m) (c - m).
Proof.
  intros Ha Hc. cbv zeta. unfold spans. destruct (Z.leb_spec c 0); [lia|]. destruct (Z.leb_spec (c - Z.min (1024 - a mod 1024) c) 0).
  - assert (Z.min (1024 - a mod 1024) c = c) as E1 by lia. assert ((a + c - 1) / 1024 = a / 1024); [|lia].
    dlia.
  - assert (Z.min (1024 - a mod 1024) c = 1024 - a mod 1024) as -> by lia. replace (a + (1024 - a mod 1024) + (c - (1024 - a mod 1024)) - 1) with (a + c - 1) by lia.
    assert ((a + (1024 - a mod 1024)) / 1024 = a / 1024 + 1); [|lia]. dlia.
Qed.
Lemma spans_nonneg a c : 0 <= spans a c.
Proof. unfold spans. destruct (Z.leb_spec c 0); [lia|]. assert (a / 1024 <= (a + c - 1) / 1024) by (apply Z.div_le_mono; lia). lia. Qed.

Section Write.
Context {E : Env} {dev : Z} {D : SyncDevice dev}.
Hypothesis (Hfuel : (0 < fuel)%nat) (Hdev : 0 < dev < 65536).
Context (sb : nat) (S : super_block).
Hypothesis (Hsize : s_nzones S < 65536) (Hmaps : 0 < s_zmap_blocks S).

(** [d] bytes are written at [pos], from [buf]. *)
Record wrote (i : nat) (pos buf : Z) (s : fs) (n : m_inode) (d : Z) (m : nat) (s' : fs) (n' : m_inode) : Prop := {
  wr_volume : volume sb S s' m;
  wr_tree : tree S s' n';
  wr_grows : grows S s n s' n';
  wr_bytes p : 0 <= p < 1024 * max_blocks ->
    file_byte (view s') n' p = if decide (pos <= p < pos + d) then user_byte (kern s) (buf + (p - pos)) else file_byte (view s) n p;
  wr_size : i_size n' = if d =? 0 then i_size n else Z.max (i_size n) (pos + d);
  wr_file : n' = n <| i_zone := i_zone n' |> <| i_dirt := i_dirt n' |> <| i_ctime := i_ctime n' |> <| i_size := i_size n' |>;
  wr_table : inode_table s' = <[i := n']> (inode_table s);
  wr_rest : besides s s'
}.
Lemma wrote_created i pos buf s n d m s' n' m2 s2 n2 : wrote i pos buf s n d m s' n' -> created sb S i m2 s' n' s2 n2 -> wrote i pos buf s n d m2 s2 n2.
Proof.
  intros [W1 W2 W3 W4 W5 W6 W7 W8] [C1 C2 C3 C4 C5 C6 C7]. split; [done|done|by apply (grows_trans S s n s' n')| | | | |by transitivity s'].
  - intros p Hp. rewrite (same_data_bytes Hfuel s' n' s2 n2 p C4 Hp). by apply W4.
  - rewrite C5. exact W5.
  - rewrite C5. cbn. rewrite W6. by destruct n.
  - rewrite C6, W7. by rewrite list_insert_insert_eq.
Qed.

Section Step.
Context (i : nat) (s : fs) (n : m_inode) (pos buf count : Z) (m : nat).
Hypothesis (Hfew : few s) (Hi : inode_table s !! i = Some n) (Hpos : 0 <= pos) (Hmax : pos + count <= 1024 * max_blocks).
Notation wrote_so_far := (wrote i pos buf s n).

(** The code between [bread] and [brelse]. *)
Definition sized (n : m_inode) (e : Z) : m_inode := if i_size n <? e then n <| i_size := e |> <| i_dirt := 1 |> else n.
Lemma store_code {R} (rest : M fs R) Q s2 bh b p from c e n1 : bufs s2 !! bh = Some b -> inode_table s2 !! i = Some n1 ->
  0 <= p -> 0 <= c -> p + c <= Z.of_nat (length (b_data b)) -> u32 e = e ->
  wp rest Q (s2 <| inode_table ::= <[i := sized n1 e]> |> <| bufs ::= <[bh := changed b (splice (Z.to_nat p) (user_bytes (kern s2) from c) (b_data b))]> |>) ->
  wp (mod_buf bh (fun b => b <| b_dirt := 1 |>) ;;; n <- get_inode i ;;
      when (i_size n <? u32 e) (mod_inode i (fun n => n <| i_size := u32 e |> <| i_dirt := 1 |>)) ;;;
      from_user bh p from c ;;; rest) Q s2.
Proof.
  intros Hb Hi2 Hp Hc Hl Eu Hrest. rewrite Eu. pose proof (lookup_lt_Some _ _ _ Hb) as Hlt.
  apply wp_bind. unfold wp at 1. rewrite (mod_buf_run s2 bh b _ Hb). set (b3 := b <| b_dirt := 1 |>). set (s3 := s2 <| bufs ::= _ |>).
  apply wp_bind. unfold wp at 1. rewrite (get_inode_run s3 i n1 Hi2). apply wp_bind. unfold wp at 1.
  assert ((when (i_size n1 <? e) (mod_inode i (fun n => n <| i_size := e |> <| i_dirt := 1 |>))) s3 = Done tt (s3 <| inode_table ::= <[i := sized n1 e]> |>)) as ->.
  { unfold sized. destruct (i_size n1 <? e); cbn [when]; [by apply (mod_inode_run s3 i n1)|].
    unfold ret. f_equal. unfold s3, upd, upd_inode_table, upd_bufs. cbn. by rewrite (list_insert_id (inode_table s2) i n1 Hi2). }
  set (s4 := s3 <| inode_table ::= _ |>). assert (bufs s4 !! bh = Some b3) as Hb4 by (by apply list_lookup_insert_eq).
  apply wp_bind. eapply wp_mono; [apply (from_user_ok s4 bh b3 p from c Hb4); [lia|lia|exact Hl]|].
  cbv beta. intros [] s5 ->. replace (s4 <| bufs ::= _ |>) with
    (s2 <| inode_table ::= <[i := sized n1 e]> |> <| bufs ::= <[bh := changed b (splice (Z.to_nat p) (user_bytes (kern s2) from c) (b_data b))]> |>); [done|].
  unfold s4, s3, filled, upd, upd_bufs, upd_inode_table. cbn. by rewrite list_insert_insert_eq.
Qed.
(** The bytes of the file when block [k] has got [c] bytes more. *)
Lemma stored_bytes d c s1 n1 s6 n2 b : 0 <= d -> 0 < c -> pos + d + c <= 1024 * max_blocks -> (pos + d) mod 1024 + c <= 1024 -> length b = 1024%nat ->
  (forall p, 0 <= p < 1024 * max_blocks ->
    file_byte (view s1) n1 p = if decide (pos <= p < pos + d) then user_byte (kern s) (buf + (p - pos)) else file_byte (view s) n p) ->
  block_of s1 n1 ((pos + d) / 1024) = b ->
  (forall j, 0 <= j < max_blocks -> block_of s6 n2 j = if decide (j = (pos + d) / 1024)
     then splice (Z.to_nat ((pos + d) mod 1024)) (user_bytes (kern s) (buf + d) c) b else block_of s1 n1 j) ->
  forall y, 0 <= y < 1024 * max_blocks ->
    file_byte (view s6) n2 y = if decide (pos <= y < pos + (d + c)) then user_byte (kern s) (buf + (y - pos)) else file_byte (view s) n y.
Proof.
  intros Hd Hc Hend Hfit Hl B1 Eb Hbk y Hy. rewrite file_byte_block, Hbk by dlia. specialize (B1 y Hy). rewrite file_byte_block in B1.
  set (k := (pos + d) / 1024) in *. set (p := (pos + d) mod 1024) in *. assert (0 <= p) as Hp by (apply Z.mod_pos_bound; lia).
  assert (pos + d = 1024 * k + p) as Epd by (unfold p, k; dlia). destruct (decide (y / 1024 = k)) as [Ey|Ey].
  - rewrite Ey, Eb in B1. rewrite byte_splice by (lia || dlia). assert (y = 1024 * k + y mod 1024) as Ey2 by dlia. destruct (decide (p <= y mod 1024 < p + c)).
    + rewrite decide_True by lia. f_equal. lia.
    + rewrite B1. destruct (decide (pos <= y < pos + d)); [by rewrite decide_True by lia|]. by rewrite decide_False by lia.
  - rewrite B1. destruct (decide (pos <= y < pos + d)); [by rewrite decide_True by lia|]. rewrite decide_False; [done|].
    intros [Hy1 Hy2]. apply Ey. dlia.
Qed.

(** One block, once it is in a buffer. *)
Lemma store_step d k m1 s1 n1 z c : wrote_so_far d (2 + m1) s1 n1 -> 0 <= d -> 0 < c -> d + c <= count -> k = (pos + d) / 1024 ->
  (pos + d) mod 1024 + c <= 1024 -> loc_at s1 n1 (Data k) = z -> z <> 0 ->
  wp (o <- bread (i_dev n1) z ;;
      match o with
      | None => ret (inr (pos + d, d))
      | Some bh =>
          mod_buf bh (fun b => b <| b_dirt := 1 |>) ;;;
          n <- get_inode i ;;
          when (i_size n <? u32 (pos + d + c)) (mod_inode i (fun n => n <| i_size := u32 (pos + d + c) |> <| i_dirt := 1 |>)) ;;;
          from_user bh ((pos + d) mod 1024) (buf + d) c ;;;
          brelse (Some bh) ;;;
          ret (inl (buf + d + c, pos + d + c, d + c))
      end) (fun r s' => exists n', r = inl (buf + (d + c), pos + (d + c), d + c) /\ wrote_so_far (d + c) (1 + m1) s' n') s1.
Proof.
  intros W Hd Hc Hdc Hk Hfit Hz Hz0. pose proof W as [V1 T1 G1 B1 S1 F1 I1 R1]. set (p := (pos + d) mod 1024) in *.
  assert (0 <= p < 1024) as Hp by (apply Z.mod_pos_bound; lia). assert (0 <= k < max_blocks) as Hkm by (unfold max_blocks in *; subst k; dlia).
  destruct (tr_used S s1 n1 T1 (Data k) Hkm) as [Hzz Hzu]; [by rewrite Hz|]. rewrite Hz in Hzz, Hzu.
  destruct (in_zone Hfuel S Hsize Hmaps s1 z (vo_maps sb S s1 _ V1) Hzz) as (Hzr & Hzb & Hzm).
  assert (inode_table s1 !! i = Some n1) as Hi1 by (rewrite I1; apply list_lookup_insert_eq; by eapply lookup_lt_Some).
  rewrite (tr_dev S s1 n1 T1). apply wp_bind.
  eapply wp_mono; [apply (bread_borrowed Hfuel Hdev s1 z m1); [apply V1|apply V1|lia|by apply (few_held Hfuel s s1); [apply G1|]]|].
  cbv beta. intros o s2 (bh & b & -> & Hbo & Hdata & Hs2 & Hr2 & Hv2 & Hrest2). cbv iota.
  pose proof (volume_borrowed Hfuel Hdev sb S Hmaps s1 s2 _ (1 + m1) bh z b V1 Hbo Hs2 Hr2 Hv2 Hrest2 Hzz Hzu) as V2. pose proof (bo_held _ _ _ _ _ Hbo) as Hb.
  destruct (held_view Hfuel Hdev s2 bh z b Hs2.(sp_serving _) Hb) as (_ & Hlen & _). pose proof Hrest2 as (Ek2 & Ei2 & _).
  set (n2 := sized n1 (pos + d + c)). set (t := s2 <| inode_table ::= <[i := n2]> |>). set (data := splice (Z.to_nat p) (user_bytes (kern s) (buf + d) c) (b_data b)). set (b' := changed b data).
  apply (store_code _ _ s2 bh b p (buf + d) c (pos + d + c) n1); [apply Hb|by rewrite Ei2|lia|lia|lia|apply u32_id; unfold max_blocks in Hmax; lia|].
  assert (kern s2 = kern s) as -> by (rewrite Ek2; apply R1). fold n2 data b'. fold t.
  assert (length data = 1024%nat) as Hld by (unfold data; rewrite length_splice by (rewrite length_user_bytes; lia); done).
  destruct (volume_cache Hfuel Hdev sb S Hmaps s2 t _ V2) as (Vt & Hht & Hvt & Hut); [done|done|].
  assert (held (dev := dev) t bh z b) as Hbt by (by destruct Hb).
  destruct (volume_alters Hfuel Hdev sb S Hmaps t _ bh z b b' Vt Hbt) as (V5 & Hh5 & [Hbl5 Hst5] & Hb5 & Hu5); [by apply (changed_alters Hfuel); [apply Hb|]|done|].
  change (b_data b') with data in Hst5. set (s5' := t <| bufs ::= _ |>) in *.
  destruct (volume_release Hfuel Hdev sb S Hmaps s5' _ bh z b' V5 Hb5 Hzm) as (Hrun & V6 & Hbl6 & Hv6). set (s6 := s5' <| bufs ::= _ |>) in *.
  pose proof (borrowed_released Hfuel s1 s2 s5' bh z b b' Hbo ltac:(by transitivity t) Hb5) as Hh6. fold s6 in Hh6.
  apply wp_bind. unfold wp at 1. rewrite Hrun. apply wp_ret. exists n2. split; [do 3 f_equal; lia|].
  destruct Hv2 as [Hbl2 Hv2], Hvt as [Hblt Hvt].
  assert (forall w, 0 <= w < blocks s1 -> view s6 w = if decide (w = z) then data else view s1 w) as Hview.
  { intros w Hw. rewrite Hv6, Hst5 by lia. destruct (decide (w = z)); [done|]. rewrite Hvt, Hv2 by lia. done. }
  destruct (store_data Hfuel S Hsize Hmaps s1 n1 s6 n2 k z data T1 (vo_maps sb S s1 _ V1) Hkm Hz Hz0) as (T6 & G6 & Hbk); try done.
  { rewrite Hview by lia. by rewrite decide_True. }
  { intros w Hw _ Hne. rewrite Hview by done. by rewrite decide_False. }
  { intros w Hw. rewrite (volume_used Hfuel sb S s5' s6 _ w V5), Hu5, Hut by done. by apply (volume_used Hfuel sb S s1 s2 _ w V1). }
  1-2: unfold n2, sized; by destruct (_ <? _).
  { lia. }
  assert (block_of s1 n1 k = b_data b) as Ebd by (unfold block_of; rewrite Hz, (proj2 (Z.eqb_neq z 0)) by done; done). subst k.
  split; [done|done|by apply (grows_trans S s n s1 n1)|apply (stored_bytes d c s1 n1 s6 n2 (b_data b)); [lia|lia|lia|exact Hfit|done|exact B1|exact Ebd|exact Hbk]| | | |].
  - rewrite (proj2 (Z.eqb_neq (d + c) 0)) by lia. unfold n2, sized. destruct (Z.ltb_spec (i_size n1) (pos + d + c)), (Z.eqb_spec d 0); cbn; lia.
  - unfold n2, sized. destruct (i_size n1 <? pos + d + c); [|done]. rewrite F1 at 1. by destruct n.
  - change (<[i := n2]> (inode_table s2) = <[i := n2]> (inode_table s)). rewrite Ei2, I1. by rewrite list_insert_insert_eq.
  - transitivity s1; [done|]. transitivity s2; [by apply rest_besides|done].
Qed.

Definition writing (st : Z * Z * Z) (s1 : fs) : Prop :=
  exists d n1, 0 <= d <= count /\ st = (buf + d, pos + d, d) /\ wrote_so_far d (1 + 6 * Z.to_nat (spans (pos + d) (count - d))) s1 n1.
Lemma write_step_ok st s1 : writing st s1 ->
  wp (write_step i count st) (fun r s' => match r with
    | inl st' => writing st' s' /\ (Z.to_nat (count - snd st') < Z.to_nat (count - snd st))%nat
    | inr (pos', d) => exists n', 0 <= d <= count /\ pos' = pos + d /\ wrote_so_far d 1 s' n' /\ (d < count -> full S s') end) s1.
Proof.
  intros (d & n1 & Hd & -> & W). unfold write_step. destruct (Z.ltb_spec d count) as [Hlt|Hge]; cbn [negb].
  2: { apply wp_ret. exists n1. split; [done|]. split; [done|]. split; [|lia]. destruct W as [W1 W2 W3 W4 W5 W6 W7 W8]. split; try done.
    apply (volume_le sb S s1 _ _ W1). lia. }
  set (c := Z.min (1024 - (pos + d) mod 1024) (count - d)). assert (0 <= (pos + d) mod 1024 < 1024) as Hmod by (apply Z.mod_pos_bound; lia).
  pose proof (spans_step (pos + d) (count - d) ltac:(lia) ltac:(lia)) as Hsp. cbv zeta in Hsp. fold c in Hsp. pose proof (spans_nonneg (pos + d + c) (count - d - c)) as Hnn.
  rewrite Hsp in W. set (m1 := (6 * Z.to_nat (spans (pos + d + c) (count - d - c)))%nat).
  assert (wrote_so_far d (6 + (1 + m1)) s1 n1) as W' by (replace (6 + (1 + m1))%nat with (1 + 6 * Z.to_nat (1 + spans (pos + d + c) (count - d - c)))%nat by (unfold m1; lia); done).
  pose proof W' as [V1 T1 G1 _ _ _ I1 _]. rewrite Z.quot_div_nonneg by (unfold BLOCK_SIZE; lia). change BLOCK_SIZE with 1024.
  assert (inode_table s1 !! i = Some n1) as Hi1 by (rewrite I1; apply list_lookup_insert_eq; by eapply lookup_lt_Some).
  assert (0 <= (pos + d) / 1024 < max_blocks) as Hk by (unfold max_blocks in *; dlia).
  apply wp_bind. eapply wp_mono; [apply (create_block_ok Hfuel Hdev sb S Hsize Hmaps s1 n1 i (1 + m1)); [done|by apply (few_held Hfuel s s1); [apply G1|]|done|done|done]|].
  cbv beta. intros r s2 (n2 & Hc & -> & Hfull). pose proof (wrote_created i pos buf s n d _ s1 n1 _ s2 n2 W' Hc) as W2. unfold truth.
  destruct (Z.eqb_spec (loc_at s2 n2 (Data ((pos + d) / 1024))) 0) as [E0|E0]; cbn [negb].
  { apply wp_ret. exists n2. split; [done|]. split; [done|]. split; [|intros _; by apply Hfull]. destruct W2 as [A1 A2 A3 A4 A5 A6 A7 A8]. split; try done.
    apply (volume_le sb S s2 _ _ A1). lia. }
  apply wp_bind. unfold wp at 1. rewrite (get_inode_run s2 i n2) by (destruct W2 as [_ _ _ _ _ _ -> _]; apply list_lookup_insert_eq; by eapply lookup_lt_Some).
  cbv zeta. rewrite Z.rem_mod_nonneg by lia. fold c. rewrite i32_id by (unfold max_blocks in Hmax; lia).
  eapply wp_mono; [apply (store_step d ((pos + d) / 1024) m1 s2 n2 _ c W2); [lia|lia|lia|done|lia|done|done]|].
  cbv beta. intros r s3 (n3 & -> & W3). cbn [snd]. split; [|lia]. exists (d + c), n3. split; [lia|]. split; [done|].
  unfold m1 in W3. replace (pos + (d + c)) with (pos + d + c) by lia. replace (count - (d + c)) with (count - d - c) by lia. done.
Qed.
End Step.

(** What [file_write] does after the loop. *)
Definition stamp (append : bool) (now : Z) (n : m_inode) : m_inode :=
  let n := n <| i_mtime := now |> in if append then n else n <| i_ctime := now |>.
Definition moved (append : bool) (pos : Z) (x : file) : file := if append then x else x <| f_pos := pos |>.
Lemma finish_run i f n x pos d s (append := truth (Z.land (f_flags x) O_APPEND)) : inode_table s !! i = Some n -> file_table s !! f = Some x ->
  (t <- current_time ;; mod_inode i (fun n => n <| i_mtime := t |>) ;;; f' <- get_file f ;;
   when (negb (truth (Z.land (f_flags f') O_APPEND)))
     (mod_file f (fun f => f <| f_pos := pos |>) ;;; t <- current_time ;; mod_inode i (fun n => n <| i_ctime := t |>)) ;;;
   ret (if truth d then d else -1)) s =
  Done (if d =? 0 then -1 else d)
    (s <| inode_table ::= <[i := stamp append (startup_time (kern s) + jiffies (kern s) / HZ) n]> |> <| file_table ::= <[f := moved append pos x]> |>).
Proof.
  intros Hi Hf. unfold current_time, gets. set (now := startup_time (kern s) + jiffies (kern s) / HZ). run (eq_refl : (fun s => Done (startup_time (kern s) + jiffies (kern s) / HZ) s) s = Done now s).
  run (mod_inode_run s i n (fun n => n <| i_mtime := now |>) Hi). set (s1 := s <| inode_table ::= _ |>). assert (file_table s1 !! f = Some x) as Hf1 by done.
  run (get_file_run s1 f x Hf1). unfold stamp, moved, append, truth. destruct (Z.land (f_flags x) O_APPEND =? 0); cbn [negb when].
  - rewrite (bind_run _ _ s1 tt (s <| inode_table ::= <[i := n <| i_mtime := now |> <| i_ctime := now |>]> |> <| file_table ::= <[f := x <| f_pos := pos |>]> |>)).
    + unfold ret. by destruct (d =? 0).
    + run (mod_file_run s1 f x (fun f => f <| f_pos := pos |>) Hf1). set (s2 := s1 <| file_table ::= _ |>).
      run (eq_refl : (fun s => Done (startup_time (kern s) + jiffies (kern s) / HZ) s) s2 = Done now s2).
      assert (inode_table s2 !! i = Some (n <| i_mtime := now |>)) as Hi2 by (apply list_lookup_insert_eq; by eapply lookup_lt_Some).
      rewrite (mod_inode_run s2 i _ _ Hi2). f_equal. unfold s2, s1, upd, upd_inode_table, upd_file_table. cbn. by rewrite list_insert_insert_eq.
  - run (eq_refl : ret tt s1 = Done tt s1). unfold ret, s1, upd, upd_inode_table, upd_file_table. cbn. rewrite (list_insert_id (file_table s) f x Hf). by destruct (d =? 0).
Qed.

Lemma file_write_run i f n x buf count s : few s -> inode_table s !! i = Some n -> file_table s !! f = Some x -> tree S s n ->
  let append := truth (Z.land (f_flags x) O_APPEND) in
  let pos := if append then i32 (i_size n) else f_pos x in
  let now := startup_time (kern s) + jiffies (kern s) / HZ in
  0 <= pos -> 0 <= count -> pos + count <= 1024 * max_blocks -> volume sb S s (1 + 6 * Z.to_nat (spans pos count)) ->
  wp (file_write i f buf count) (fun r s' => exists d n', 0 <= d <= count /\ r = (if d =? 0 then -1 else d) /\ (d < count -> full S s') /\
    (forall p, 0 <= p < 1024 * max_blocks ->
      file_byte (view s') n' p = if decide (pos <= p < pos + d) then user_byte (kern s) (buf + (p - pos)) else file_byte (view s) n p) /\
    i_size n' = (if d =? 0 then i_size n else Z.max (i_size n) (pos + d)) /\
    inode_table s' = <[i := n']> (inode_table s) /\
    file_table s' = <[f := if append then x else x <| f_pos := pos + d |>]> (file_table s) /\
    n' = n <| i_zone := i_zone n' |> <| i_dirt := i_dirt n' |> <| i_size := i_size n' |> <| i_mtime := now |> <| i_ctime := i_ctime n' |> /\
    (append = false -> i_ctime n' = now) /\ kern s' = kern s /\
    volume sb S s' 1 /\ tree S s' n' /\ grows S s n s' n') s.
Proof.
  intros Hfew Hi Hf T append pos now Hpos Hcount Hmax V. unfold file_write. apply wp_bind. unfold wp at 1. rewrite (get_file_run s f x Hf).
  apply wp_bind. unfold wp at 1. rewrite (get_inode_run s i n Hi). cbv zeta. fold append. fold pos. apply wp_bind.
  eapply wp_mono; [apply (wp_loop _ (writing i s n pos buf count) (fun st _ => Z.to_nat (count - snd st)) _ (write_step_ok i s n pos buf count Hfew Hi Hpos Hmax))|].
  - exists 0, n. split; [lia|]. split; [do 2 f_equal; lia|]. rewrite Z.add_0_r, Z.sub_0_r. split; [done|done|apply grows_refl| |done|by destruct n|by rewrite list_insert_id|done].
    intros p _. by rewrite decide_False by lia.
  - cbn [snd]. lia.
  - cbv beta. intros [pos' d] s1 (n1 & Hd & -> & [V1 T1 G1 B1 S1 F1 I1 R1] & Hfull). pose proof R1 as (Ek & _ & _ & Ef & _).
    assert (inode_table s1 !! i = Some n1) as Hi1 by (rewrite I1; apply list_lookup_insert_eq; by eapply lookup_lt_Some).
    assert (file_table s1 !! f = Some x) as Hf1 by (by rewrite Ef). cbv iota beta. unfold wp. rewrite (finish_run i f n1 x (pos + d) d s1 Hi1 Hf1). rewrite Ek.
    fold now append. set (n2 := stamp append now n1). set (s2 := s1 <| inode_table ::= _ |> <| file_table ::= _ |>). exists d, n2.
    destruct (touched_tree Hfuel Hdev sb S Hsize Hmaps s1 n1 s2 n2 1 T1 V1) as (V2 & T2 & G2 & D2); [done|done|by unfold n2, stamp; destruct append..|].
    assert (n2 = n <| i_zone := i_zone n2 |> <| i_dirt := i_dirt n2 |> <| i_size := i_size n2 |> <| i_mtime := now |> <| i_ctime := i_ctime n2 |>) as En2.
    { unfold n2, stamp. destruct append; cbn; rewrite F1; by destruct n. }
    do 2 (split; [done|]). split; [intros Hlt z Hz; destruct G2 as [_ _ Gu]; by apply Gu, Hfull|]. split; [intros p Hp; rewrite (same_data_bytes Hfuel s1 n1 s2 n2 p D2 Hp); by apply B1|].
    split; [by unfold n2, stamp; destruct append|]. split; [change (<[i := n2]> (inode_table s1) = <[i := n2]> (inode_table s)); by rewrite I1, list_insert_insert_eq|].
    split; [change (<[f := moved append (pos + d) x]> (file_table s1) = <[f := moved append (pos + d) x]> (file_table s)); by rewrite Ef|].
    split; [exact En2|]. split; [by unfold n2, stamp; intros ->|]. split; [exact Ek|]. split; [done|]. split; [done|]. by apply (grows_trans S s n s1 n1).
Qed.

(** The blocks of the tree can be read. *)
Lemma tree_placed s n m : volume sb S s m -> tree S s n ->
  spare s /\ placed (dev := dev) s n /\ forall k, 0 <= k < max_blocks -> block_exists (dev := dev) s (zones (view s) n k).
Proof.
  intros V T. assert (forall p, valid p -> block_exists (dev := dev) s (loc_at s n p)) as H.
  { intros p Hp H0. destruct (tr_used S s n T p Hp H0) as [Hz _]. pose proof (in_zone Hfuel S Hsize Hmaps s _ (vo_maps sb S s m V) Hz). lia. }
  split; [apply V|]. split; [|intros k Hk; by apply (H (Data k))].
  split; [apply T|by apply (H Single)|by apply (H Double)|intros k Hk; by apply (H (Second k))].
Qed.
Lemma read_written s i f n x n' buf buf2 d pos s1 : volume sb S s1 1 -> tree S s1 n' -> inode_table s1 !! i = Some n' -> file_table s1 !! f = Some x ->
  0 <= pos -> 0 < d -> pos + d <= 1024 * max_blocks ->
  (forall p, 0 <= p < 1024 * max_blocks ->
      file_byte (view s1) n' p = if decide (pos <= p < pos + d) then user_byte (kern s) (buf + (p - pos)) else file_byte (view s) n p) ->
  wp (mod_file f (fun f => f <| f_pos := pos |>) ;;; file_read i f buf2 d) (fun r s' => r = d /\
    user_bytes (kern s') buf2 d = user_bytes (kern s) buf d) s1.
Proof.
  intros V1 T1 Hi1 Hf1 Hpos Hd Hmax Hbytes. apply wp_bind. unfold wp at 1. rewrite (mod_file_run s1 f x _ Hf1). set (x2 := x <| f_pos := pos |>). set (s2 := s1 <| file_table ::= _ |>).
  destruct (touched_tree Hfuel Hdev sb S Hsize Hmaps s1 n' s2 n' 1 T1 V1) as (V2 & T2 & _ & D2); try done.
  destruct (tree_placed s2 n' 1 V2 T2) as (Hsp & Hpl & Hbl). assert (file_table s2 !! f = Some x2) as Hf2 by (apply list_lookup_insert_eq; by eapply lookup_lt_Some).
  eapply wp_mono; [by apply (file_read_run (dev := dev) Hfuel Hdev s2 i f n' x2 buf2 d)|]. cbv beta. intros r s' (-> & _ & _ & s3 & (Ek & _) & _ & ->). split; [done|].
  set (l := file_bytes (view s2) n' pos d) in *. assert (Z.of_nat (length l) = d) as Hl by (unfold l, file_bytes; rewrite length_map, length_seqZ; lia).
  transitivity (user_bytes (kern (with_umem s2 (put_list (umem (kern s2)) buf2 l))) buf2 (Z.of_nat (length l))); [rewrite Hl; f_equal; exact Ek|].
  rewrite put_list_user by (unfold max_blocks in Hmax; lia). unfold l, file_bytes, user_bytes. apply list_eq. intros j. change (map ?f ?x) with (f <$> x).
  rewrite !list_lookup_fmap. destruct (decide (Z.of_nat j < d)).
  - rewrite !lookup_seqZ_lt by lia. cbn [fmap option_fmap option_map]. rewrite (same_data_bytes Hfuel s1 n' s2 n' _ D2), Hbytes by lia.
    rewrite decide_True by lia. unfold user_byte. rewrite (u8_id (u8 _)) by apply u8_range. do 5 f_equal. lia.
  - by rewrite !lookup_seqZ_ge by lia.
Qed.
(** C1: writing a file.  On a mounted device that transfers at once, [file_write] of [count] bytes at the position of the open
    file, or at its end for O_APPEND, stores [d] bytes: all of them unless the device has no free
    block left.  It answers [d], or -1 when that is 0.  Wherever the bytes lie, in direct or indirect
    blocks, in holes or behind the end, the file afterwards has the user's bytes at [pos] to
    [pos + d] and its old bytes, or nulls, elsewhere; its size grows to [pos + d]; the position moves
    unless O_APPEND; the times are set; no other inode, open file or memory changes.  The blocks
    added were free and are marked, no block belongs to two places of the file, blocks in use
    outside of the file keep their contents, and the device is mounted as before. *)
Theorem file_write_ok i f n x buf count s : few s -> inode_table s !! i = Some n -> file_table s !! f = Some x -> tree S s n ->
  let append := truth (Z.land (f_flags x) O_APPEND) in
  let pos := if append then i32 (i_size n) else f_pos x in
  let now := startup_time (kern s) + jiffies (kern s) / HZ in
  0 <= pos -> 0 <= count -> pos + count <= 1024 * max_blocks -> volume sb S s (1 + 6 * Z.to_nat (spans pos count)) ->
  wp (file_write i f buf count) (fun r s' => exists d n', 0 <= d <= count /\ r = (if d =? 0 then -1 else d) /\ (d < count -> full S s') /\
    (forall p, 0 <= p < 1024 * max_blocks ->
      file_byte (view s') n' p = if decide (pos <= p < pos + d) then user_byte (kern s) (buf + (p - pos)) else file_byte (view s) n p) /\
    i_size n' = (if d =? 0 then i_size n else Z.max (i_size n) (pos + d)) /\
    inode_table s' = <[i := n']> (inode_table s) /\
    file_table s' = <[f := if append then x else x <| f_pos := pos + d |>]> (file_table s) /\
    n' = n <| i_zone := i_zone n' |> <| i_dirt := i_dirt n' |> <| i_size := i_size n' |> <| i_mtime := now |> <| i_ctime := i_ctime n' |> /\
    (append = false -> i_ctime n' = now) /\ kern s' = kern s /\
    volume sb S s' 1 /\ tree S s' n' /\ grows S s n s' n') s.
Proof. apply file_write_run. Qed.

(** C2: what is written is read back, on a mounted device that transfers at once.  After a [file_write] that answered [r > 0], moving back to where
    it began and a [file_read] of [r] bytes answers [r] and puts the bytes that were written at
    [buf2] in the memory of the task. *)
Theorem write_read_back i f n x buf buf2 count s : few s -> inode_table s !! i = Some n -> file_table s !! f = Some x -> tree S s n ->
  let pos := if truth (Z.land (f_flags x) O_APPEND) then i32 (i_size n) else f_pos x in
  0 <= pos -> 0 <= count -> pos + count <= 1024 * max_blocks -> volume sb S s (1 + 6 * Z.to_nat (spans pos count)) ->
  wp (r <- file_write i f buf count ;; mod_file f (fun f => f <| f_pos := pos |>) ;;; k <- file_read i f buf2 r ;; ret (r, k))
    (fun '(r, k) s' => r = -1 /\ k = 0 \/ 0 < r <= count /\ k = r /\ user_bytes (kern s') buf2 r = user_bytes (kern s) buf r) s.
Proof.
  intros Hfew Hi Hf T pos Hpos Hcount Hmax V. apply wp_bind. eapply wp_mono; [by apply (file_write_run i f n x buf count s)|]. cbv beta zeta. fold pos.
  intros r s1 (d & n' & Hd & -> & _ & Hbytes & _ & Ei & Ef & _ & _ & _ & V1 & T1 & _).
  assert (exists x', file_table s1 !! f = Some x') as [x' Hf1] by (rewrite Ef; eexists; apply list_lookup_insert_eq; by eapply lookup_lt_Some).
  assert (inode_table s1 !! i = Some n') as Hi1 by (rewrite Ei; apply list_lookup_insert_eq; by eapply lookup_lt_Some).
  destruct (Z.eqb_spec d 0) as [E0|Hd0].
  - apply wp_bind. unfold wp at 1. rewrite (mod_file_run s1 f x' _ Hf1). left. done.
  - assert (wp (mod_file f (fun f => f <| f_pos := pos |>) ;;; file_read i f buf2 d) (fun r s' => r = d /\ user_bytes (kern s') buf2 d = user_bytes (kern s) buf d) s1) as H.
    { apply (read_written s i f n x' n' buf buf2 d pos s1); try done; lia. }
    apply wp_bind in H. apply wp_bind. eapply wp_mono; [exact H|]. cbv beta. intros [] s2 H2. apply wp_bind. eapply wp_mono; [exact H2|].
    cbv beta. intros k s3 [-> Eu]. apply wp_ret. right. split; [lia|done].
Qed.
End Write.

(** ** An empty file on the mounted RAM disk *)
#[local] Existing Instance idle_env.
#[local] Notation cache5 := (after (buffer_init 0 (fun _ => no_buffer) (fun _ => replicate 1024 0) 10240) five_blocks).
#[local] Notation mounted5 := (after mount_map cache5).
Definition empty_inode : m_inode := no_inode <| i_dev := 257 |> <| i_zone := replicate 9 0 |>.
Definition with_file (s : fs) : fs := s <| inode_table := [empty_inode] |> <| file_table := [no_file] |>.
Lemma with_file_ok s m : spare (D := ramdisk idle_fuel) s -> room s m -> mounted (dev := 257) s 0 (map_super 0) ->
  maps_held (D := ramdisk idle_fuel) s (map_super 0) -> (forall k, 0 <= k < 3 -> mapped (D := ramdisk idle_fuel) s (map_super 0) k = (k <=? 1)) ->
  (forall i b, bufs s !! i = Some b -> data_zone (map_super 0) (b_blocknr b) -> b_count b = 0) ->
  volume (D := ramdisk idle_fuel) 0 (map_super 0) (with_file s) m.
Proof.
  intros H1 Hr H2 H3 H4 H5.
  apply (volume_cache (D := ramdisk idle_fuel) idle_fuel ltac:(lia) 0 (map_super 0) ltac:(cbn; lia) s (with_file s) m); [|done|done].
  split; [done|done|done|done|by apply (H4 0); lia|]. intros i z c Hi Hz. apply holders_some in Hi as (b & Hb & Hc & _ & <- & _).
  rewrite (H5 i b Hb Hz) in Hc. lia.
Qed.
Lemma with_file_volume : volume (D := ramdisk idle_fuel) 0 (map_super 0) (with_file mounted5) 7.
Proof. destruct mounted5_facts as (H1 & Hr & H2 & H3 & H4 & H5 & _). exact (with_file_ok mounted5 7 H1 (room_le _ 8 7 Hr ltac:(lia)) H2 H3 H4 H5). Qed.
Lemma few_with_file s : (forall i b, bufs s !! i = Some b -> b_count b < 254) -> few (with_file s).
Proof. intros H i b Hb. exact (H i b Hb). Qed.
Lemma with_file_few : few (with_file mounted5).
Proof. destruct mounted5_facts as (_ & _ & _ & _ & _ & _ & H6). exact (few_with_file mounted5 H6). Qed.
Lemma empty_tree s : tree (D := ramdisk idle_fuel) (map_super 0) s empty_inode.
Proof.
  assert (forall j, zone empty_inode j = 0) as H0 by (intros j; unfold zone; do 9 (destruct j; [done|]); done).
  assert (forall p, loc (view (D := ramdisk idle_fuel) s) empty_inode p = 0) as H.
  { intros p. destruct p; cbn [loc]; unfold zones, entry; rewrite ?H0; [|done..]. by repeat case_match. }
  split; [done|done|intros p _ E1; unfold loc_at in E1; by rewrite H in E1|intros p q _ _ E1; unfold loc_at in E1; by rewrite H in E1].
Qed.

(** 1000 bytes are written at the start of an empty file. *)
Lemma file_write_ok_witness (s := with_file mounted5) :
  wp (file_write 0 0 5000 1000) (fun r s' => exists d n', 0 <= d <= 1000 /\ r = (if d =? 0 then -1 else d) /\ (d < 1000 -> full (D := ramdisk idle_fuel) (map_super 0) s') /\
    (forall p, 0 <= p < 1024 * max_blocks ->
      file_byte (view (D := ramdisk idle_fuel) s') n' p = if decide (0 <= p < 0 + d) then user_byte (kern s) (5000 + (p - 0))
        else file_byte (view (D := ramdisk idle_fuel) s) empty_inode p) /\
    i_size n' = (if d =? 0 then i_size empty_inode else Z.max (i_size empty_inode) (0 + d)) /\
    inode_table s' = <[0%nat := n']> (inode_table s) /\
    file_table s' = <[0%nat := no_file <| f_pos := 0 + d |>]> (file_table s) /\
    n' = empty_inode <| i_zone := i_zone n' |> <| i_dirt := i_dirt n' |> <| i_size := i_size n' |>
      <| i_mtime := startup_time (kern s) + jiffies (kern s) / HZ |> <| i_ctime := i_ctime n' |> /\
    (false = false -> i_ctime n' = startup_time (kern s) + jiffies (kern s) / HZ) /\ kern s' = kern s /\
    volume (D := ramdisk idle_fuel) 0 (map_super 0) s' 1 /\ tree (D := ramdisk idle_fuel) (map_super 0) s' n' /\
    grows (D := ramdisk idle_fuel) (map_super 0) s empty_inode s' n') s.
Proof.
  apply (file_write_ok (D := ramdisk idle_fuel) idle_fuel ltac:(lia) 0 (map_super 0) ltac:(cbn; lia) ltac:(cbn; lia) 0 0 empty_inode no_file 5000 1000 s
    with_file_few eq_refl eq_refl (empty_tree s)); [apply Z.leb_le; reflexivity..|exact with_file_volume].
Defined.
Lemma write_read_back_witness (s := with_file mounted5) :
  wp (r <- file_write 0 0 5000 1000 ;; mod_file 0 (fun f => f <| f_pos := 0 |>) ;;; k <- file_read 0 0 9000 r ;; ret (r, k))
    (fun '(r, k) s' => r = -1 /\ k = 0 \/ 0 < r <= 1000 /\ k = r /\ user_bytes (kern s') 9000 r = user_bytes (kern s) 5000 r) s.
Proof.
  apply (write_read_back (D := ramdisk idle_fuel) idle_fuel ltac:(lia) 0 (map_super 0) ltac:(cbn; lia) ltac:(cbn; lia) 0 0 empty_inode no_file 5000 9000 1000 s
    with_file_few eq_refl eq_refl (empty_tree s)); [apply Z.leb_le; reflexivity..|exact with_file_volume].
Defined.
End FileWrite.
