(* ===== verification/Pipe.v ===== *)
(** * Pipe: pipes are first-in first-out

    The ring of [write_pipe] and [read_pipe] ([FileDev], fs/pipe.c) holds a list of bytes:
    writing appends to it, reading takes from its front. *)
From S2P Require Import Prelude Console Task Sched WaitQueue Fs Blk Buffer Bitmap Inode FileDev View.
Import Blk Buffer Bitmap Inode FileDev View.

Module Pipe.

Lemma splice_nil off l : splice off [] l = l.
Proof. unfold splice. cbn [length app]. by rewrite Nat.add_0_r, take_drop. Qed.

(** Pipe [i] holds the bytes [q], the oldest first. *)
Definition pipe_at (n : m_inode) (P : list Z) (q : list Z) : Prop :=
  length P = 4096%nat /\ length (i_zone n) = 9%nat /\ 0 <= PIPE_TAIL n < 4096 /\ Z.of_nat (length q) <= 4095 /\
  PIPE_HEAD n = (PIPE_TAIL n + Z.of_nat (length q)) mod 4096 /\
  Forall (fun v => 0 <= v < 256) q /\
  forall k v, q !! k = Some v -> P !! Z.to_nat ((PIPE_TAIL n + Z.of_nat k) mod 4096) = Some v.
Definition pipe (s : fs) (i : nat) (q : list Z) : Prop :=
  exists n P, inode_table s !! i = Some n /\ pages s !! i_size n = Some P /\ pipe_at n P q.
(** The tasks that wait on the pipe exist. *)
Definition wakeable (s : fs) (i : nat) : Prop :=
  forall h, wchan (kern s) !! i_wait i = Some h -> is_Some (slot (kern s) h).

Lemma mask_4095 z : Z.land z (PAGE_SIZE - 1) = z mod 4096.
Proof. change (PAGE_SIZE - 1) with (Z.ones 12). by rewrite Z.land_ones. Qed.
Lemma pipe_size n P q : pipe_at n P q -> PIPE_SIZE n = Z.of_nat (length q).
Proof. intros (_ & _ & Ht & Hq & Hh & _). unfold PIPE_SIZE. rewrite mask_4095, Hh. dlia. Qed.
Lemma zones_set k v n j : length (i_zone n) = 9%nat -> (k < 9)%nat -> 0 <= v < 65536 ->
  zone (set_zone k v n) j = if decide (j = k) then v else zone n j.
Proof.
  intros Hl Hk Hv. unfold zone, set_zone, upd, upd_i_zone. cbn. case_decide as E.
  - subst j. rewrite list_lookup_insert_eq by lia. cbn. by apply u16_id.
  - by rewrite list_lookup_insert_ne.
Qed.

Section Wake.
Context {E : Env}.
Lemma wake_pipe s i : wakeable s i ->
  exists k, fs_wake_up (i_wait i) s = Done tt (s <| kern := k |>) /\ umem k = umem (kern s) /\ wchan k !! i_wait i = None.
Proof.
  intros Hw. assert (exists k, Sched.wake_up (i_wait i) (kern s) = Done tt k /\ umem k = umem (kern s) /\ wchan k !! i_wait i = None) as (k & Hk & H).
  { unfold Sched.wake_up, bind, wq_get, gets. destruct (wchan (kern s) !! i_wait i) as [h|] eqn:Eh; [|by exists (kern s)].
    destruct (Hw h Eh) as [t Ht]. unfold make_runnable, mod_task, put_task, bind, get_task, get, bind. rewrite Ht.
    unfold deref, ret, modify, wq_set, modify. eexists. split; [reflexivity|]. split; [reflexivity|]. cbn. apply lookup_delete_eq. }
  exists k. split; [|done]. unfold fs_wake_up, in_kernel, zoom. by rewrite Hk.
Qed.
(** No waiting is needed. *)
Lemma pipe_wait_run s i n room : (0 < fuel)%nat -> inode_table s !! i = Some n -> room n <> 0 ->
  pipe_wait i room s = Done (Some (room n)) s.
Proof.
  intros Hf Hi Hr. unfold pipe_wait. destruct fuel as [|f]; [lia|]. cbn [loop]. rewrite bind_assoc. run (get_inode_run s i n Hi).
  cbv zeta. unfold truth. destruct (Z.eqb_spec (room n) 0); [done|]. done.
Qed.
End Wake.

(** ** Writing *)
Section Write.
Context (s : fs) (n : m_inode) (P q : list Z) (buf chars : Z).
Hypothesis (HP : pages s !! i_size n = Some P) (Hpipe : pipe_at n P q).
Hypothesis (Hchars : 0 <= chars) (Hroom : chars <= 4095 - Z.of_nat (length q)) (Hend : PIPE_HEAD n + chars <= 4096).

Notation new := (user_bytes (kern s) buf chars).
Definition filled_page (k : Z) : fs :=
  s <| pages ::= <[i_size n := splice (Z.to_nat (PIPE_HEAD n)) (user_bytes (kern s) buf k) P]> |>.
Lemma head_range : 0 <= PIPE_HEAD n < 4096.
Proof. destruct Hpipe as (_ & _ & Ht & _ & -> & _). apply Z.mod_pos_bound. lia. Qed.
Lemma fill_page : for_each (seqZ 0 chars) (fun k => v <- fs_get_byte (buf + k) ;; set_page_byte (i_size n) (PIPE_HEAD n + k) v) s =
  Done tt (filled_page chars).
Proof.
  pose proof head_range as Hh. destruct Hpipe as (Hl & _).
  assert (wp (for_each (seqZ 0 chars) (fun k => v <- fs_get_byte (buf + k) ;; set_page_byte (i_size n) (PIPE_HEAD n + k) v))
    (fun _ s' => s' = filled_page chars) s) as H.
  { apply (wp_for_seq chars _ (fun k s' => s' = filled_page k) 0); [done| |].
    - intros k s' Hk ->. set (v := default 0 (umem (kern s) !! u32 (buf + k))).
      assert (fs_get_byte (buf + k) (filled_page k) = Done v (filled_page k)) as Hget.
      { unfold fs_get_byte, in_kernel, zoom, get_fs_byte, gets. by rewrite kern_same. }
      apply wp_bind. unfold wp at 1. rewrite Hget. set (Pk := splice (Z.to_nat (PIPE_HEAD n)) (user_bytes (kern s) buf k) P).
      assert (length Pk = 4096%nat) as HlP by (unfold Pk; rewrite length_splice; rewrite ?length_user_bytes; lia).
      assert (pages (filled_page k) !! i_size n = Some Pk) as HPk by (cbn; by rewrite lookup_insert_eq).
      unfold set_page_byte, page_byte. destruct (lookup_lt_is_Some_2 Pk (Z.to_nat (PIPE_HEAD n + k))) as [x Hx]; [lia|].
      unfold wp, bind, get, modify. rewrite HPk. cbn [deref ret]. rewrite Hx. cbn [deref ret].
      unfold filled_page, upd, upd_pages. cbn. f_equal. rewrite alter_insert_eq. f_equal. unfold set_byte, Pk.
      rewrite user_bytes_snoc by lia. fold v. rewrite <- splice_snoc by (rewrite length_user_bytes; lia).
      rewrite length_user_bytes. f_equal. lia.
    - unfold filled_page, upd, upd_pages. change (user_bytes (kern s) buf 0) with (@nil Z). rewrite splice_nil.
      rewrite insert_id by done. by destruct s. }
  unfold wp in H. destruct (for_each _ _ s) as [[] s'| | |]; try done. by subst.
Qed.
Lemma write_at : pipe_at (set_zone 0 (Z.land (u16 (PIPE_HEAD n + chars)) (PAGE_SIZE - 1)) n)
  (splice (Z.to_nat (PIPE_HEAD n)) new P) (q ++ new).
Proof.
  pose proof head_range as Hh. destruct Hpipe as (Hl & Hz & Ht & Hq & Hhead & Hbytes & Hring).
  rewrite mask_4095, u16_id by (change (2 ^ 16) with 65536; lia). set (n' := set_zone 0 _ n).
  assert (0 <= (PIPE_HEAD n + chars) mod 4096 < 65536) as Hr by dlia.
  assert (PIPE_HEAD n' = (PIPE_HEAD n + chars) mod 4096 /\ PIPE_TAIL n' = PIPE_TAIL n) as [Hh' Ht'].
  { unfold PIPE_HEAD, PIPE_TAIL. unfold n'. rewrite !zones_set by (done || lia). done. }
  assert (Z.of_nat (length new) = chars) as Hln by (rewrite length_user_bytes; lia).
  split; [rewrite length_splice; rewrite ?length_user_bytes; lia|]. split; [unfold n', set_zone, upd, upd_i_zone; cbn; by rewrite length_insert|].
  rewrite Hh', Ht', length_app, Nat2Z.inj_add, Hln. split; [done|]. split; [lia|]. split; [rewrite Hhead; dlia|]. split.
  - apply Forall_app. split; [done|]. unfold user_bytes. apply Forall_map, Forall_true. intros. apply u8_range.
  - intros k v Hk. rewrite lookup_splice by (rewrite length_user_bytes; lia).
    apply lookup_app_Some in Hk as [Hk|[Hge Hk]].
    + pose proof (lookup_lt_Some _ _ _ Hk) as Hlt. rewrite decide_False; [by apply Hring|]. rewrite length_user_bytes.
      set (j := (PIPE_TAIL n + Z.of_nat k) mod 4096). assert (0 <= j < 4096) by (apply Z.mod_pos_bound; lia).
      assert (j < PIPE_HEAD n \/ PIPE_HEAD n + chars <= j) as [H1|H1] by (unfold j; rewrite Hhead in *; dlia); lia.
    + pose proof (lookup_lt_Some _ _ _ Hk) as Hlt. rewrite length_user_bytes in Hlt |- *.
      assert ((PIPE_TAIL n + Z.of_nat k) mod 4096 = PIPE_HEAD n + (Z.of_nat k - Z.of_nat (length q))) as -> by (rewrite Hhead in *; dlia).
      rewrite decide_True by lia. rewrite <- Hk. f_equal. lia.
Qed.
End Write.

Lemma user_bytes_app k a m n : 0 <= m -> 0 <= n -> user_bytes k a (m + n) = user_bytes k a m ++ user_bytes k (a + m) n.
Proof.
  intros Hm Hn. unfold user_bytes. rewrite seqZ_app, map_app by lia. f_equal. rewrite Z.add_0_l.
  apply list_eq. intros j. change (map ?g ?l) with (g <$> l). rewrite !list_lookup_fmap. destruct (decide (Z.of_nat j < n)).
  - rewrite !lookup_seqZ_lt by lia. cbn [fmap option_fmap option_map]. by replace (a + (m + Z.of_nat j)) with (a + m + (0 + Z.of_nat j)) by lia.
  - by rewrite !lookup_seqZ_ge by lia.
Qed.

Section Transfer.
Context {E : Env} (Hfuel : (0 < fuel)%nat) (s : fs) (i : nat) (q : list Z) (buf count : Z).
Hypothesis (Hcount : 0 <= count).

Lemma write_pipe_run : pipe s i q -> wakeable s i -> Z.of_nat (length q) + count <= 4095 ->
  wp (write_pipe i buf count) (fun r s' => r = count /\ pipe s' i (q ++ user_bytes (kern s) buf count) /\
    umem (kern s') = umem (kern s) /\ wakeable s' i) s.
Proof.
  intros Hp Hw Hroom. unfold write_pipe.
  apply (wp_loop _ (fun st s1 => exists w, 0 <= w <= count /\ st = (buf + w, count - w, w) /\ kern s1 = kern s /\
    pipe s1 i (q ++ user_bytes (kern s) buf w)) (fun st _ => Z.to_nat (count - snd st))).
  - intros st s1 (w & Hwr & -> & Hk & n & P & Hi & HP & Hat). unfold write_pipe_step.
    assert (Z.of_nat (length (q ++ user_bytes (kern s) buf w)) = Z.of_nat (length q) + w) as Hlen.
    { rewrite length_app, length_user_bytes. lia. }
    destruct (Z.ltb_spec 0 (count - w)) as [Hlt|Hge]; cbn [negb].
    + pose proof (pipe_size _ _ _ Hat) as Hsize. rewrite Hlen in Hsize.
      apply wp_bind. unfold wp at 1. rewrite (pipe_wait_run s1 i n _ Hfuel Hi) by (rewrite Hsize; change PAGE_SIZE with 4096; lia).
      rewrite Hsize. change PAGE_SIZE with 4096. apply wp_bind. unfold wp at 1. rewrite (get_inode_run s1 i n Hi). cbv zeta.
      pose proof (head_range n P _ Hat) as Hh.
      set (c := Z.min (Z.min (4096 - PIPE_HEAD n) (count - w)) (4096 - 1 - (Z.of_nat (length q) + w))). assert (0 < c <= count - w) as Hc by lia.
      apply wp_bind. unfold wp at 1. rewrite (mod_inode_run s1 i n _ Hi). set (n' := set_zone 0 _ n). set (s2 := s1 <| inode_table ::= _ |>).
      assert (user_bytes (kern s2) (buf + w) c = user_bytes (kern s) (buf + w) c) as Eu by (change (kern s2) with (kern s1); by rewrite Hk).
      apply wp_bind. unfold wp at 1.
      rewrite (fill_page s2 n P _ (buf + w) c) by (exact HP || exact Hat || lia). unfold wp, ret.
      split; [|cbn [snd]; lia]. exists (w + c). split; [lia|]. split; [do 2 f_equal; lia|]. split; [exact Hk|].
      exists n', (splice (Z.to_nat (PIPE_HEAD n)) (user_bytes (kern s) (buf + w) c) P). split; [|split].
      * cbn. apply list_lookup_insert_eq. by eapply lookup_lt_Some.
      * unfold filled_page. rewrite Eu. change (i_size n') with (i_size n). cbn. apply lookup_insert_eq.
      * rewrite user_bytes_app, app_assoc by lia. rewrite <- Hk. apply (write_at s1 n P _ (buf + w) c); rewrite ?Hk; try done; lia.
    + replace w with count in * by lia. destruct (wake_pipe s1 i) as (k & Hrun & Hum & Hno); [unfold wakeable; by rewrite Hk|].
      apply wp_bind. unfold wp at 1. rewrite Hrun. unfold wp, ret. split; [done|]. split; [by exists n, P|].
      cbn. rewrite Hum, Hk. split; [done|]. intros h Hh. cbn in Hh. congruence.
  - exists 0. split; [lia|]. split; [by rewrite Z.add_0_r, Z.sub_0_r|]. split; [done|].
    change (user_bytes (kern s) buf 0) with (@nil Z). by rewrite app_nil_r.
  - cbn [snd]. lia.
Qed.
End Transfer.

(** ** Reading *)
Section Read.
Context (s : fs) (n : m_inode) (P q : list Z) (buf : Z) (chars : nat).
Hypothesis (HP : pages s !! i_size n = Some P) (Hpipe : pipe_at n P q).
Hypothesis (Hchars : (chars <= length q)%nat) (Hend : PIPE_TAIL n + Z.of_nat chars <= 4096).

Lemma read_page : for_each (seqZ 0 (Z.of_nat chars)) (fun k => v <- page_byte (i_size n) (PIPE_TAIL n + k) ;; fs_put_byte v (buf + k)) s =
  Done tt (with_umem s (put_list (umem (kern s)) buf (take chars q))).
Proof.
  destruct Hpipe as (_ & _ & Ht & _ & _ & _ & Hring).
  assert (take chars q = map (fun k => default 0 (q !! Z.to_nat k)) (seqZ 0 (Z.of_nat chars))) as ->.
  { apply list_eq. intros j. change (map ?g ?l) with (g <$> l). rewrite list_lookup_fmap. destruct (decide (j < chars)%nat) as [Hj|Hj].
    - rewrite lookup_take_lt, lookup_seqZ_lt by lia. cbn [fmap option_fmap option_map].
      destruct (lookup_lt_is_Some_2 q j) as [x Hx]; [lia|]. rewrite Z.add_0_l, Nat2Z.id, Hx. done.
    - rewrite lookup_take_ge, lookup_seqZ_ge by lia. done. }
  apply put_loop; [lia|]. intros k m Hk. destruct (lookup_lt_is_Some_2 q (Z.to_nat k)) as [x Hx]; [lia|].
  pose proof (Hring _ _ Hx) as Hr. rewrite Z2Nat.id, Z.mod_small in Hr by lia. rewrite Hx. change (default 0 (Some x)) with x.
  assert (page_byte (i_size n) (PIPE_TAIL n + k) (with_umem s m) = Done x (with_umem s m)) as Hpb.
  { unfold page_byte, bind, get. change (pages (with_umem s m)) with (pages s). rewrite HP. cbn [deref ret]. by rewrite Hr. }
  run Hpb. apply put_byte_at.
Qed.
Lemma read_at : pipe_at (set_zone 1 (Z.land (u16 (PIPE_TAIL n + Z.of_nat chars)) (PAGE_SIZE - 1)) n) P (drop chars q).
Proof.
  destruct Hpipe as (Hl & Hz & Ht & Hq & Hhead & Hbytes & Hring).
  rewrite mask_4095, u16_id by (change (2 ^ 16) with 65536; lia). set (n' := set_zone 1 _ n).
  assert (0 <= (PIPE_TAIL n + Z.of_nat chars) mod 4096 < 4096) as Hr by (apply Z.mod_pos_bound; lia).
  assert (PIPE_TAIL n' = (PIPE_TAIL n + Z.of_nat chars) mod 4096 /\ PIPE_HEAD n' = PIPE_HEAD n) as [Ht' Hh'].
  { unfold PIPE_HEAD, PIPE_TAIL. unfold n'. rewrite !zones_set by (done || lia). done. }
  split; [done|]. split; [unfold n', set_zone, upd, upd_i_zone; cbn; by rewrite length_insert|].
  rewrite Hh', Ht', length_drop. split; [done|]. split; [lia|]. split; [rewrite Hhead; dlia|]. split; [by apply Forall_drop|].
  intros k v Hk. rewrite lookup_drop in Hk. rewrite <- (Hring _ _ Hk). f_equal. f_equal. rewrite Nat2Z.inj_add. dlia.
Qed.
End Read.

Lemma read_pipe_run {E : Env} (Hfuel : (0 < fuel)%nat) s i q buf m : pipe s i q -> wakeable s i -> (m <= length q)%nat ->
  wp (read_pipe i buf (Z.of_nat m)) (fun r s' => r = Z.of_nat m /\ pipe s' i (drop m q) /\
    umem (kern s') = put_list (umem (kern s)) buf (take m q)) s.
Proof.
  intros Hp Hw Hm. unfold read_pipe.
  apply (wp_loop _ (fun st s1 => exists d, (d <= m)%nat /\ st = (buf + Z.of_nat d, Z.of_nat (m - d), Z.of_nat d) /\
    kern s1 = (kern s) <| umem := put_list (umem (kern s)) buf (take d q) |> /\ pipe s1 i (drop d q)) (fun st _ => Z.to_nat (Z.of_nat m - snd st))).
  - intros st s1 (d & Hd & -> & Hk & n & P & Hi & HP & Hat). unfold read_pipe_step.
    destruct (Z.ltb_spec 0 (Z.of_nat (m - d))) as [Hlt|Hge]; cbn [negb].
    + pose proof (pipe_size _ _ _ Hat) as Hsize. rewrite length_drop in Hsize. pose proof Hat as (_ & _ & Ht & _).
      apply wp_bind. unfold wp at 1. rewrite (pipe_wait_run s1 i n _ Hfuel Hi) by (rewrite Hsize; lia).
      rewrite Hsize. change PAGE_SIZE with 4096. apply wp_bind. unfold wp at 1. rewrite (get_inode_run s1 i n Hi). cbv zeta.
      set (c := Z.to_nat (Z.min (Z.min (4096 - PIPE_TAIL n) (Z.of_nat (m - d))) (Z.of_nat (length q - d)))).
      assert (Z.min (Z.min (4096 - PIPE_TAIL n) (Z.of_nat (m - d))) (Z.of_nat (length q - d)) = Z.of_nat c) as -> by (unfold c; lia).
      assert (0 < c <= m - d)%nat as Hc by lia.
      apply wp_bind. unfold wp at 1. rewrite (mod_inode_run s1 i n _ Hi). set (n' := set_zone 1 _ n). set (s2 := s1 <| inode_table ::= _ |>).
      apply wp_bind. unfold wp at 1. rewrite (read_page s2 n P (drop d q) (buf + Z.of_nat d) c) by (exact HP || exact Hat || (rewrite ?length_drop; lia)).
      unfold wp, ret. split; [|cbn [snd]; lia]. exists (d + c)%nat. split; [lia|]. split; [f_equal; [f_equal|]; lia|]. split; [|exists n', P; split; [|split]].
      * change (kern (with_umem s2 ?x)) with ((kern s1) <| umem := x |>). change (kern s2) with (kern s1). rewrite Hk.
        change (umem (upd umem ?g ?k)) with (g (umem k)). cbv beta.
        rewrite <- take_take_drop, put_list_app, length_take, Nat.min_l by lia. done.
      * cbn. apply list_lookup_insert_eq. by eapply lookup_lt_Some.
      * exact HP.
      * rewrite <- drop_drop. apply (read_at n P (drop d q) c); rewrite ?length_drop; try done; lia.
    + replace d with m in * by lia. assert (wakeable s1 i) as Hw1 by (unfold wakeable; rewrite Hk; exact Hw).
      destruct (wake_pipe s1 i Hw1) as (k & Hrun & Hum & _).
      apply wp_bind. unfold wp at 1. rewrite Hrun. unfold wp, ret. split; [done|]. split; [by exists n, P|].
      cbn. by rewrite Hum, Hk.
  - exists O. split; [lia|]. split; [by rewrite Z.add_0_r, Nat.sub_0_r|]. split; [|done]. by destruct (kern s).
  - cbn [snd]. lia.
Qed.

(** C10: pipes are first-in first-out and lose nothing.  Into a pipe that holds the bytes [q] and has
    room for [count] more, [write_pipe] writes them all, from the writer's memory; [read_pipe] of any
    number [m] of the bytes then in the pipe stores the oldest [m] of them, in order, in the
    reader's memory and nothing else anywhere there; the others stay in the pipe. *)
Theorem pipe_fifo {E : Env} s i q buf count buf2 m : (0 < fuel)%nat -> pipe s i q -> wakeable s i -> 0 <= count ->
  Z.of_nat (length q) + count <= 4095 -> Z.of_nat m <= Z.of_nat (length q) + count ->
  let all := q ++ user_bytes (kern s) buf count in
  wp (w <- write_pipe i buf count ;; r <- read_pipe i buf2 (Z.of_nat m) ;; ret (w, r)) (fun a s' =>
    a = (count, Z.of_nat m) /\ user_bytes (kern s') buf2 (Z.of_nat m) = take m all /\
    (forall b, (forall k, 0 <= k < Z.of_nat m -> b <> u32 (buf2 + k)) -> umem (kern s') !! b = umem (kern s) !! b) /\
    pipe s' i (drop m all)) s.
Proof.
  intros Hfuel Hp Hw Hc Hroom Hm all. apply wp_bind. eapply wp_mono; [by apply write_pipe_run|]. cbv beta.
  intros w s1 (-> & Hp1 & Hu1 & Hw1). fold all in Hp1.
  assert (Z.of_nat (length all) = Z.of_nat (length q) + count) as Hl by (unfold all; rewrite length_app, length_user_bytes; lia).
  apply wp_bind. eapply wp_mono; [apply (read_pipe_run Hfuel s1 i all buf2 m Hp1 Hw1); lia|]. cbv beta.
  intros r s2 (-> & Hp2 & Hu2). unfold wp, ret. split; [done|].
  assert (Z.of_nat (length (take m all)) = Z.of_nat m) as Ht by (rewrite length_take; lia).
  assert (map u8 (take m all) = take m all) as Hu8.
  { destruct Hp1 as (n & P & _ & _ & (_ & _ & _ & _ & _ & Hb & _)). apply (Forall_take _ m) in Hb.
    rewrite <- (map_id (take m all)) at 2. apply map_ext_Forall. eapply Forall_impl; [exact Hb|]. intros v Hv. by apply u8_id. }
  split; [|split; [|done]].
  - pose proof (put_list_user s2 buf2 (take m all) ltac:(lia)) as H. rewrite Ht, Hu8 in H. rewrite <- H.
    unfold user_bytes. change (umem (kern (with_umem s2 ?x))) with x.
    apply map_ext_in. intros k Hk. apply list_elem_of_In, elem_of_seqZ in Hk. rewrite Hu2.
    destruct (lookup_lt_is_Some_2 (take m all) (Z.to_nat k)) as [v Hv]; [lia|].
    rewrite <- (Z2Nat.id k) by lia. by rewrite !(put_list_lookup _ _ _ _ v) by (lia || done).
  - intros b Hb. rewrite Hu2, put_list_other by (by rewrite Ht). by rewrite Hu1.
Qed.

Definition pipe_inode : m_inode := no_inode <| i_pipe := 1 |> <| i_count := 2 |> <| i_size := 1048576 |>.
Definition one_pipe : fs := boot_fs <| inode_table := [pipe_inode] |> <| pages := {[1048576 := replicate 4096 0]} |>.
Lemma pipe_fifo_witness :
  wp (w <- write_pipe (E := idle_env) 0 5000 100 ;; r <- read_pipe (E := idle_env) 0 6000 (Z.of_nat 60) ;; ret (w, r)) (fun a s' =>
    a = (100, Z.of_nat 60) /\ user_bytes (kern s') 6000 (Z.of_nat 60) = take 60 ([] ++ user_bytes (kern one_pipe) 5000 100) /\
    (forall b, (forall k, 0 <= k < Z.of_nat 60 -> b <> u32 (6000 + k)) -> umem (kern s') !! b = umem (kern one_pipe) !! b) /\
    pipe s' 0 (drop 60 ([] ++ user_bytes (kern one_pipe) 5000 100))) one_pipe.
Proof.
  apply (pipe_fifo (E := idle_env) one_pipe 0 [] 5000 100 6000 60).
  - cbn. lia.
  - exists pipe_inode, (replicate 4096 0). split; [reflexivity|]. split; [reflexivity|]. split; [apply length_replicate|].
    split; [reflexivity|]. split; [cbn; lia|]. split; [cbn; lia|]. split; [reflexivity|]. split; [constructor|]. intros k v Hk. discriminate Hk.
  - intros h Hh. discriminate Hh.
  - lia.
  - cbn. lia.
  - cbn. lia.
Defined.
End Pipe.
