(* ===== verification/Namei.v ===== *)
(** * Namei: names of files (fs/namei.c)

    Inodes are numbers of slots of the inode table, [None] is the null pointer.  A
    directory entry is a buffer and the offset of the entry's 16 bytes in it.  Path names
    are addresses in the memory of the current task. *)
From S2P Require Import Prelude Console Task Sched Fs Blk Buffer Bitmap Inode FileDev.
Import Blk Buffer Bitmap Inode FileDev.

Module Namei.

(** ** Constants (include/fcntl.h, const.h, errno.h, in octal in the first two) *)
Definition O_ACCMODE : Z := 3.
Definition O_WRONLY : Z := 1.
Definition O_CREAT : Z := 64.
Definition O_EXCL : Z := 128.
Definition O_TRUNC : Z := 512.
Definition I_DIRECTORY : Z := 16384.
Definition I_REGULAR : Z := 32768.
Definition S_ISVTX : Z := 512.
Definition EXDEV : Z := 18.
Definition ACC_MODE (x : Z) : Z := default 0 ([4; 2; 6; -1] !! Z.to_nat (Z.land x O_ACCMODE)).
Definition MAY_EXEC : Z := 1.
Definition MAY_WRITE : Z := 2.
Definition MAY_READ : Z := 4.

(** Characters. *)
Definition SLASH : Z := 47.
Definition DOT : Z := 46.

(** ** [struct dir_entry]: an inode number and a name of 14 characters *)
Definition dir_entry : Type := (nat * Z)%type.
Definition DIR_ENTRY_SIZE : Z := 16.
Definition de_inode (de : dir_entry) : M fs Z := b <- get_buf (fst de) ;; ret (half (b_data b) (snd de)).
Definition de_name (de : dir_entry) (i : Z) : M fs Z := b <- get_buf (fst de) ;; ret (byte (b_data b) (snd de + 2 + i)).
Definition set_de_inode (de : dir_entry) (nr : Z) : M fs unit :=
  mod_buf (fst de) (fun b => b <| b_data ::= set_half (snd de) nr |>).
Definition set_de_name (de : dir_entry) (i c : Z) : M fs unit :=
  mod_buf (fst de) (fun b => b <| b_data ::= set_byte (snd de + 2 + i) c |>).
(** [strcpy(de->name, s)] and [strcmp(s, de->name)], with the null at the end of [s]. *)
Definition strcpy (de : dir_entry) (s : list Z) : M fs unit :=
  for_each (zip (seqZ 0 (Z.of_nat (length s))) s) (fun '(i, c) => set_de_name de i c).
Fixpoint differs (s : list Z) (de : dir_entry) (i : Z) : M fs bool :=
  match s with
  | [] => ret false
  | c :: s => x <- de_name de i ;; if x =? c then differs s de (i + 1) else ret true
  end.

Definition mark_dirty (bh : nat) : M fs unit := mod_buf bh (fun b => b <| b_dirt := 1 |>).

Section Namei.
Context {E : Env}.

(** ** Permissions *)
Definition permission (inode : nat) (mask : Z) : M fs bool :=
  n <- get_inode inode ;;
  let mode := i_mode n in
  if truth (i_dev n) && negb (truth (i_nlinks n)) then ret false else
  p <- in_kernel cur ;;
  let mode := if euid p =? i_uid n then Z.shiftr mode 6
              else if egid p =? i_gid n then Z.shiftr mode 3 else mode in
  if Z.land (Z.land mode mask) 7 =? mask then ret true else in_kernel suser.

(** ** Directories *)

(** [repe ; cmpsb] on [len] bytes; the callers have [len] at least one. *)
Fixpoint same_bytes (n : nat) (name : Z) (de : dir_entry) (i : Z) : M fs bool :=
  match n with
  | O => ret true
  | S n => c <- fs_get_byte (name + i) ;; x <- de_name de i ;;
           if c =? x then same_bytes n name de (i + 1) else ret false
  end.
Definition match_ (len : Z) (name : Z) (de : dir_entry) : M fs bool :=
  nr <- de_inode de ;;
  if negb (truth nr) || (Z.of_nat NAME_LEN <? len) then ret false else
  c <- (if len <? Z.of_nat NAME_LEN then de_name de len else ret 0) ;;
  if truth c then ret false else same_bytes (Z.to_nat len) name de 0.

(** '..': the directory to search and the length of the name. *)
Definition dot_dot (dir : nat) (name namelen : Z) : M fs (nat * Z) :=
  if negb (namelen =? 2) then ret (dir, namelen) else
  c0 <- fs_get_byte name ;;
  c1 <- (if c0 =? DOT then fs_get_byte (name + 1) else ret 0) ;;
  if negb ((c0 =? DOT) && (c1 =? DOT)) then ret (dir, namelen) else
  p <- in_kernel cur ;;
  if bool_decide (root p = Some (Z.of_nat dir)) then ret (dir, 1) else
  n <- get_inode dir ;;
  if negb (i_num n =? ROOT_INO) then ret (dir, namelen) else
  o <- get_super (i_dev n) ;;
  sb <- deref o ;;
  s <- get_sb sb ;;
  match s_imount s with
  | None => ret (dir, namelen)
  | Some _ =>
      iput (Some dir) ;;;
      s <- get_sb sb ;;
      dir <- deref (s_imount s) ;;
      mod_inode dir (set_i_count (fun c => c + 1)) ;;;
      ret (dir, namelen)
  end.

(** The first zone of a directory in a buffer. *)
Definition first_block (dir : nat) : M fs (option nat) :=
  n <- get_inode dir ;;
  if negb (truth (zone n 0)) then ret None else bread (i_dev n) (zone n 0).

(** One turn: the entry's index, the buffer (null after a hole of the directory) and the
    offset of the entry in it. *)
Definition find_step (dir : nat) (name namelen entries : Z) (st : Z * option nat * Z) :
    M fs ((Z * option nat * Z) + option dir_entry) :=
  let '(i, bh, de) := st in
  if negb (i <? entries) then brelse bh ;;; ret (inr None) else
  bh <- deref bh ;;
  next <- (if BLOCK_SIZE <=? de then
             brelse (Some bh) ;;;
             block <- bmap dir (i / DIR_ENTRIES_PER_BLOCK) ;;
             if negb (truth block) then ret None else
             n <- get_inode dir ;;
             o <- bread (i_dev n) block ;;
             ret ((fun bh => (bh, 0)) <$> o)
           else ret (Some (bh, de))) ;;
  match next with
  | None => ret (inl (i + DIR_ENTRIES_PER_BLOCK, None, de))
  | Some (bh, de) =>
      m <- match_ namelen name (bh, de) ;;
      ret (if m : bool then inr (Some (bh, de)) else inl (i + 1, Some bh, de + DIR_ENTRY_SIZE))
  end.

(** The entry [name] of directory [dir], in a buffer that is held; and the
    directory, which '..' may have exchanged. *)
Definition find_entry (dir : nat) (name namelen : Z) : M fs (nat * option dir_entry) :=
  let namelen := Z.min namelen (Z.of_nat NAME_LEN) in
  n <- get_inode dir ;;
  let entries := i_size n / DIR_ENTRY_SIZE in
  if negb (truth namelen) then ret (dir, None) else
  d <- dot_dot dir name namelen ;;
  let '(dir, namelen) := d in
  o <- first_block dir ;;
  match o with
  | None => ret (dir, None)
  | Some bh =>
      e <- loop (S (Z.to_nat entries)) (find_step dir name namelen entries) (0, Some bh, 0) ;;
      ret (dir, e)
  end.

(** The name of a new entry, padded with nulls. *)
Definition write_name (de : dir_entry) (name namelen : Z) : M fs unit :=
  for_each (seqZ 0 (Z.of_nat NAME_LEN)) (fun i =>
    c <- (if i <? namelen then fs_get_byte (name + i) else ret 0) ;; set_de_name de i c).
Definition add_step (dir : nat) (name namelen : Z) (st : Z * option nat * Z) :
    M fs ((Z * option nat * Z) + option dir_entry) :=
  let '(i, bh, de) := st in
  bh <- deref bh ;;
  next <- (if BLOCK_SIZE <=? de then
             brelse (Some bh) ;;;
             block <- create_block dir (i / DIR_ENTRIES_PER_BLOCK) ;;
             if negb (truth block) then ret (inr tt) else
             n <- get_inode dir ;;
             o <- bread (i_dev n) block ;;
             ret (inl ((fun bh => (bh, 0)) <$> o))
           else ret (inl (Some (bh, de)))) ;;
  match next with
  | inr tt => ret (inr None)
  | inl None => ret (inl (i + DIR_ENTRIES_PER_BLOCK, None, de))
  | inl (Some (bh, de)) =>
      n <- get_inode dir ;;
      when (i_size n <=? u32 (i * DIR_ENTRY_SIZE))
        (set_de_inode (bh, de) 0 ;;;
         mod_inode dir (fun n => n <| i_size := u32 ((i + 1) * DIR_ENTRY_SIZE) |> <| i_dirt := 1 |>) ;;;
         t <- current_time ;; mod_inode dir (fun n => n <| i_ctime := t |>)) ;;;
      nr <- de_inode (bh, de) ;;
      if truth nr then ret (inl (i + 1, Some bh, de + DIR_ENTRY_SIZE)) else
      t <- current_time ;; mod_inode dir (fun n => n <| i_mtime := t |>) ;;;
      write_name (bh, de) name namelen ;;;
      mark_dirty bh ;;;
      ret (inr (Some (bh, de)))
  end.
(** The search ends at the end of the directory, which other tasks may extend
    while the block is read. *)
Definition add_entry (dir : nat) (name namelen : Z) : M fs (option dir_entry) :=
  let namelen := Z.min namelen (Z.of_nat NAME_LEN) in
  if negb (truth namelen) then ret None else
  o <- first_block dir ;;
  match o with
  | None => ret None
  | Some bh =>
      n <- get_inode dir ;;
      loop (fuel + S (Z.to_nat (i_size n / DIR_ENTRY_SIZE))) (add_step dir name namelen) (0, Some bh, 0)
  end.

(** ** Paths *)

(** A string ends at the first address the task's memory does not hold, if not before. *)
Definition string_fuel : M fs nat := gets (fun s => S (S (size (umem (kern s))))).

(** [for(namelen=0;(c=get_fs_byte(pathname++))&&(c!='/');namelen++)]: the length,
    the last character and the address after it. *)
Definition scan_name (pathname : Z) : M fs (Z * Z * Z) :=
  f <- string_fuel ;;
  loop f (fun st : Z * Z =>
    let '(p, namelen) := st in
    c <- fs_get_byte p ;;
    ret (if truth c && negb (c =? SLASH) then inl (p + 1, namelen + 1) else inr (namelen, c, p + 1)))
    (pathname, 0).

Definition walk_step (st : nat * Z) : M fs ((nat * Z) + option nat) :=
  let '(inode, pathname) := st in
  n <- get_inode inode ;;
  may <- (if S_ISDIR (i_mode n) then permission inode MAY_EXEC else ret false) ;;
  if negb may then iput (Some inode) ;;; ret (inr None) else
  r <- scan_name pathname ;;
  let '(namelen, c, next) := r in
  if negb (truth c) then ret (inr (Some inode)) else
  e <- find_entry inode pathname namelen ;;
  match e with
  | (inode, None) => iput (Some inode) ;;; ret (inr None)
  | (inode, Some de) =>
      inr' <- de_inode de ;;
      n <- get_inode inode ;;
      brelse (Some (fst de)) ;;;
      iput (Some inode) ;;;
      inode <- iget (i_dev n) inr' ;;
      ret (inl (inode, next))
  end.
(** [!current->root || !current->root->i_count] *)
Definition unused (o : option Z) : M fs bool :=
  match o with
  | None => ret true
  | Some i => n <- get_inode (Z.to_nat i) ;; ret (negb (truth (i_count n)))
  end.
Definition get_dir (pathname : Z) : M fs (option nat) :=
  p <- in_kernel cur ;;
  no_root <- unused (root p) ;;
  if no_root : bool then panic "No root inode" else
  no_pwd <- unused (pwd p) ;;
  if no_pwd : bool then panic "No cwd inode" else
  c <- fs_get_byte pathname ;;
  if negb (truth c) then ret None else
  i <- deref (if c =? SLASH then root p else pwd p) ;;
  let inode := Z.to_nat i in
  mod_inode inode (set_i_count (fun c => c + 1)) ;;;
  loop fuel walk_step (inode, if c =? SLASH then pathname + 1 else pathname).

(** The last component: its directory, its length and its address. *)
Definition dir_namei (pathname : Z) : M fs (option (nat * Z * Z)) :=
  o <- get_dir pathname ;;
  match o with
  | None => ret None
  | Some dir =>
      f <- string_fuel ;;
      r <- loop f (fun st : Z * Z =>
             let '(p, basename) := st in
             c <- fs_get_byte p ;;
             ret (if truth c then inl (p + 1, if c =? SLASH then p + 1 else basename)
                  else inr (p + 1, basename))) (pathname, pathname) ;;
      let '(p, basename) := r in
      ret (Some (dir, p - basename - 1, basename))
  end.

Definition namei (pathname : Z) : M fs (option nat) :=
  o <- dir_namei pathname ;;
  match o with
  | None => ret None
  | Some (dir, namelen, basename) =>
      if negb (truth namelen) then ret (Some dir) else
      e <- find_entry dir basename namelen ;;
      match e with
      | (dir, None) => iput (Some dir) ;;; ret None
      | (dir, Some de) =>
          inr' <- de_inode de ;;
          n <- get_inode dir ;;
          brelse (Some (fst de)) ;;;
          iput (Some dir) ;;;
          dir <- iget (i_dev n) inr' ;;
          t <- current_time ;;
          mod_inode dir (fun n => n <| i_atime := t |> <| i_dirt := 1 |>) ;;;
          ret (Some dir)
      end
  end.

(** ** Opening: an error number or the inode *)
Definition put_fail {A} (inode : nat) (e : Z) : M fs (Z + A) := iput (Some inode) ;;; ret (inl (- e)).

Definition open_new (dir : nat) (basename namelen flag mode : Z) : M fs (Z + nat) :=
  if negb (truth (Z.land flag O_CREAT)) then put_fail dir ENOENT else
  may <- permission dir MAY_WRITE ;;
  if negb may then put_fail dir EACCES else
  n <- get_inode dir ;;
  o <- new_inode (i_dev n) ;;
  match o with
  | None => put_fail dir ENOSPC
  | Some inode =>
      p <- in_kernel cur ;;
      mod_inode inode (fun n => n <| i_uid := euid p |> <| i_mode := u16 mode |> <| i_dirt := 1 |>) ;;;
      e <- add_entry dir basename namelen ;;
      match e with
      | None =>
          mod_inode inode (fun n => n <| i_nlinks ::= fun l => u8 (l - 1) |>) ;;;
          iput (Some inode) ;;;
          put_fail dir ENOSPC
      | Some de =>
          n <- get_inode inode ;;
          set_de_inode de (i_num n) ;;;
          mark_dirty (fst de) ;;;
          brelse (Some (fst de)) ;;;
          iput (Some dir) ;;;
          ret (inr inode)
      end
  end.
Definition open_old (dir : nat) (de : dir_entry) (flag : Z) : M fs (Z + nat) :=
  inr' <- de_inode de ;;
  n <- get_inode dir ;;
  brelse (Some (fst de)) ;;;
  iput (Some dir) ;;;
  if truth (Z.land flag O_EXCL) then ret (inl (- EEXIST)) else
  inode <- iget (i_dev n) inr' ;;
  n <- get_inode inode ;;
  may <- (if S_ISDIR (i_mode n) && truth (Z.land flag O_ACCMODE) then ret false
          else permission inode (ACC_MODE flag)) ;;
  if negb may then put_fail inode EPERM else
  t <- current_time ;;
  mod_inode inode (fun n => n <| i_atime := t |>) ;;;
  when (truth (Z.land flag O_TRUNC)) (truncate inode) ;;;
  ret (inr inode).
Definition open_namei (pathname flag mode : Z) : M fs (Z + nat) :=
  let flag := if truth (Z.land flag O_TRUNC) && negb (truth (Z.land flag O_ACCMODE))
              then Z.lor flag O_WRONLY else flag in
  p <- in_kernel cur ;;
  let mode := Z.lor (Z.land mode (Z.land 511 (Z.lnot (umask p)))) I_REGULAR in
  o <- dir_namei pathname ;;
  match o with
  | None => ret (inl (- ENOENT))
  | Some (dir, namelen, basename) =>
      if negb (truth namelen) then
        if negb (truth (Z.land flag (Z.lor O_ACCMODE (Z.lor O_CREAT O_TRUNC)))) then ret (inr dir)
        else put_fail dir EISDIR
      else
      e <- find_entry dir basename namelen ;;
      match e with
      | (dir, None) => open_new dir basename namelen flag mode
      | (dir, Some de) => open_old dir de flag
      end
  end.

(** ** The system calls on names *)
Definition iputs (l : list nat) : M fs unit := for_each l (fun i => iput (Some i)).
(** The common way out: the inodes are put in this order, then the buffer is released. *)
Definition leave (l : list nat) (bh : option nat) (e : Z) : M fs Z :=
  iputs l ;;; brelse bh ;;; ret (- e).

(** [dir_namei] with its failures, for a call that holds the inodes [held]. *)
Definition last_dir (pathname no_dir no_name : Z) (held : list nat) (k : nat -> Z -> Z -> M fs Z) : M fs Z :=
  o <- dir_namei pathname ;;
  match o with
  | None => leave held None no_dir
  | Some (dir, namelen, basename) =>
      if negb (truth namelen) then leave (held ++ [dir]) None no_name else k dir namelen basename
  end.
(** The search of a directory that must be writable. *)
Definition find_to_change (dir : nat) (namelen basename no_write : Z) (held : list nat)
    (k : nat -> option dir_entry -> M fs Z) : M fs Z :=
  may <- permission dir MAY_WRITE ;;
  if negb may then leave (dir :: held) None no_write else
  e <- find_entry dir basename namelen ;;
  k (fst e) (snd e).
(** Both, as all the calls but [sys_link] have it. *)
Definition in_directory (pathname : Z) (k : nat -> Z -> Z -> option dir_entry -> M fs Z) : M fs Z :=
  last_dir pathname ENOENT ENOENT [] (fun dir namelen basename =>
    find_to_change dir namelen basename EPERM [] (fun dir e => k dir namelen basename e)).
Definition only_root (m : M fs Z) : M fs Z :=
  su <- in_kernel suser ;; if negb su then ret (- EPERM) else m.

Definition sys_mknod (filename mode dev : Z) : M fs Z :=
  only_root (in_directory filename (fun dir namelen basename e =>
    match e with
    | Some de => brelse (Some (fst de)) ;;; leave [dir] None EEXIST
    | None =>
        n <- get_inode dir ;;
        o <- new_inode (i_dev n) ;;
        match o with
        | None => leave [dir] None ENOSPC
        | Some inode =>
            mod_inode inode (fun n => n <| i_mode := u16 mode |>) ;;;
            when (S_ISBLK mode || S_ISCHR mode) (mod_inode inode (set_zone 0 dev)) ;;;
            t <- current_time ;;
            mod_inode inode (fun n => n <| i_mtime := t |> <| i_atime := t |> <| i_dirt := 1 |>) ;;;
            e <- add_entry dir basename namelen ;;
            match e with
            | None =>
                iput (Some dir) ;;;
                mod_inode inode (fun n => n <| i_nlinks := 0 |>) ;;;
                leave [inode] None ENOSPC
            | Some de =>
                n <- get_inode inode ;;
                set_de_inode de (i_num n) ;;;
                mark_dirty (fst de) ;;;
                leave [dir; inode] (Some (fst de)) 0
            end
        end
    end)).

(** The first block of a new directory: the entries "." and "..". *)
Definition fill_dir (dir inode bh : nat) : M fs unit :=
  n <- get_inode inode ;;
  set_de_inode (bh, 0) (i_num n) ;;;
  strcpy (bh, 0) [DOT; 0] ;;;
  d <- get_inode dir ;;
  set_de_inode (bh, DIR_ENTRY_SIZE) (i_num d) ;;;
  strcpy (bh, DIR_ENTRY_SIZE) [DOT; DOT; 0] ;;;
  mod_inode inode (fun n => n <| i_nlinks := 2 |>) ;;;
  mark_dirty bh ;;;
  brelse (Some bh).
Definition enter_dir (dir inode : nat) (basename namelen : Z) : M fs Z :=
  e <- add_entry dir basename namelen ;;
  match e with
  | None =>
      iput (Some dir) ;;;
      n <- get_inode inode ;;
      free_block (i_dev n) (zone n 0) ;;;
      mod_inode inode (fun n => n <| i_nlinks := 0 |>) ;;;
      leave [inode] None ENOSPC
  | Some de =>
      n <- get_inode inode ;;
      set_de_inode de (i_num n) ;;;
      mark_dirty (fst de) ;;;
      mod_inode dir (fun d => d <| i_nlinks ::= fun l => u8 (l + 1) |> <| i_dirt := 1 |>) ;;;
      leave [dir; inode] (Some (fst de)) 0
  end.
Definition sys_mkdir (pathname mode : Z) : M fs Z :=
  only_root (in_directory pathname (fun dir namelen basename e =>
    match e with
    | Some de => brelse (Some (fst de)) ;;; leave [dir] None EEXIST
    | None =>
        n <- get_inode dir ;;
        o <- new_inode (i_dev n) ;;
        match o with
        | None => leave [dir] None ENOSPC
        | Some inode =>
            t <- current_time ;;
            mod_inode inode (fun n => n <| i_size := 32 |> <| i_dirt := 1 |> <| i_mtime := t |> <| i_atime := t |>) ;;;
            n <- get_inode inode ;;
            b <- new_block (i_dev n) ;;
            mod_inode inode (set_zone 0 b) ;;;
            if negb (truth (u16 b)) then
              iput (Some dir) ;;;
              mod_inode inode (fun n => n <| i_nlinks ::= fun l => u8 (l - 1) |>) ;;;
              leave [inode] None ENOSPC
            else
            mod_inode inode (fun n => n <| i_dirt := 1 |>) ;;;
            n <- get_inode inode ;;
            o <- bread (i_dev n) (zone n 0) ;;
            match o with
            | None =>
                iput (Some dir) ;;;
                n <- get_inode inode ;;
                free_block (i_dev n) (zone n 0) ;;;
                mod_inode inode (fun n => n <| i_nlinks ::= fun l => u8 (l - 1) |>) ;;;
                leave [inode] None ERROR
            | Some dir_block =>
                fill_dir dir inode dir_block ;;;
                p <- in_kernel cur ;;
                mod_inode inode (fun n => n <| i_mode := u16 (Z.lor I_DIRECTORY (Z.land mode (Z.land 511 (Z.lnot (umask p))))) |>
                                            <| i_dirt := 1 |>) ;;;
                enter_dir dir inode basename namelen
            end
        end
    end)).

(** After a hole [bh] is the buffer that was released. *)
Definition empty_step (inode : nat) (len : Z) (st : Z * nat * Z) : M fs ((Z * nat * Z) + bool) :=
  let '(nr, bh, de) := st in
  if negb (nr <? len) then brelse (Some bh) ;;; ret (inr true) else
  next <- (if BLOCK_SIZE <=? de then
             brelse (Some bh) ;;;
             block <- bmap inode (nr / DIR_ENTRIES_PER_BLOCK) ;;
             if negb (truth block) then ret (inl (nr + DIR_ENTRIES_PER_BLOCK, bh, de)) else
             n <- get_inode inode ;;
             o <- bread (i_dev n) block ;;
             ret (inr ((fun bh => (bh, 0)) <$> o))
           else ret (inr (Some (bh, de)))) ;;
  match next with
  | inl st => ret (inl st)
  | inr None => ret (inr false)
  | inr (Some (bh, de)) =>
      i <- de_inode (bh, de) ;;
      if truth i then brelse (Some bh) ;;; ret (inr false)
      else ret (inl (nr + 1, bh, de + DIR_ENTRY_SIZE))
  end.
Definition bad_directory (inode : nat) : M fs bool :=
  n <- get_inode inode ;; printk "warning - bad directory on dev %04x" [i_dev n] ;;; ret false.
Definition empty_dir (inode : nat) : M fs bool :=
  n <- get_inode inode ;;
  let len := i_size n / DIR_ENTRY_SIZE in
  o <- (if len <? 2 then ret None else first_block inode) ;;
  match o with
  | None => bad_directory inode
  | Some bh =>
      n <- get_inode inode ;;
      i0 <- de_inode (bh, 0) ;;
      i1 <- de_inode (bh, DIR_ENTRY_SIZE) ;;
      d0 <- differs [DOT; 0] (bh, 0) 0 ;;
      d1 <- differs [DOT; DOT; 0] (bh, DIR_ENTRY_SIZE) 0 ;;
      if negb (i0 =? i_num n) || negb (truth i1) || d0 || d1 then bad_directory inode else
      loop (S (Z.to_nat len)) (empty_step inode len) (2, bh, 2 * DIR_ENTRY_SIZE)
  end.

Definition sys_rmdir (name : Z) : M fs Z :=
  only_root (in_directory name (fun dir namelen basename e =>
    match e with
    | None => leave [dir] None ENOENT
    | Some de =>
        d <- get_inode dir ;;
        nr <- de_inode de ;;
        inode <- iget (i_dev d) nr ;;
        d <- get_inode dir ;;
        n <- get_inode inode ;;
        p <- in_kernel cur ;;
        let bh := Some (fst de) in
        if truth (Z.land (i_mode d) S_ISVTX) && truth (euid p) && negb (i_uid n =? euid p)
        then leave [dir; inode] bh EPERM else
        if negb (i_dev n =? i_dev d) || (1 <? i_count n) then leave [dir; inode] bh EPERM else
        if Nat.eqb inode dir then leave [inode; dir] bh EPERM else
        if negb (S_ISDIR (i_mode n)) then leave [inode; dir] bh ENOTDIR else
        empty <- empty_dir inode ;;
        if negb empty then leave [inode; dir] bh ENOTEMPTY else
        n <- get_inode inode ;;
        when (negb (i_nlinks n =? 2)) (printk "empty directory has nlink!=2 (%d)" [i_nlinks n]) ;;;
        set_de_inode de 0 ;;;
        mark_dirty (fst de) ;;;
        brelse bh ;;;
        mod_inode inode (fun n => n <| i_nlinks := 0 |> <| i_dirt := 1 |>) ;;;
        t <- current_time ;;
        mod_inode dir (fun d => d <| i_nlinks ::= fun l => u8 (l - 1) |> <| i_ctime := t |> <| i_mtime := t |>
                                  <| i_dirt := 1 |>) ;;;
        leave [dir; inode] None 0
    end)).

Definition sys_unlink (name : Z) : M fs Z :=
  in_directory name (fun dir namelen basename e =>
    match e with
    | None => leave [dir] None ENOENT
    | Some de =>
        d <- get_inode dir ;;
        nr <- de_inode de ;;
        inode <- iget (i_dev d) nr ;;
        d <- get_inode dir ;;
        n <- get_inode inode ;;
        p <- in_kernel cur ;;
        let bh := Some (fst de) in
        if truth (Z.land (i_mode d) S_ISVTX) && negb (euid p =? 0) && negb (euid p =? i_uid n) &&
           negb (euid p =? i_uid d)
        then leave [dir; inode] bh EPERM else
        if S_ISDIR (i_mode n) then leave [inode; dir] bh EPERM else
        when (negb (truth (i_nlinks n)))
          (printk "Deleting nonexistent file (%04x:%d), %d" [i_dev n; i_num n; i_nlinks n] ;;;
           mod_inode inode (fun n => n <| i_nlinks := 1 |>)) ;;;
        set_de_inode de 0 ;;;
        mark_dirty (fst de) ;;;
        brelse bh ;;;
        t <- current_time ;;
        mod_inode inode (fun n => n <| i_nlinks ::= fun l => u8 (l - 1) |> <| i_dirt := 1 |> <| i_ctime := t |>) ;;;
        leave [inode; dir] None 0
    end).

Definition sys_link (oldname newname : Z) : M fs Z :=
  o <- namei oldname ;;
  match o with
  | None => ret (- ENOENT)
  | Some oldinode =>
      n <- get_inode oldinode ;;
      if S_ISDIR (i_mode n) then leave [oldinode] None EPERM else
      last_dir newname EACCES EPERM [oldinode] (fun dir namelen basename =>
        d <- get_inode dir ;;
        n <- get_inode oldinode ;;
        if negb (i_dev d =? i_dev n) then leave [dir; oldinode] None EXDEV else
        find_to_change dir namelen basename EACCES [oldinode] (fun dir e =>
          match e with
          | Some de => brelse (Some (fst de)) ;;; leave [dir; oldinode] None EEXIST
          | None =>
              e <- add_entry dir basename namelen ;;
              match e with
              | None => leave [dir; oldinode] None ENOSPC
              | Some de =>
                  n <- get_inode oldinode ;;
                  set_de_inode de (i_num n) ;;;
                  mark_dirty (fst de) ;;;
                  brelse (Some (fst de)) ;;;
                  iput (Some dir) ;;;
                  t <- current_time ;;
                  mod_inode oldinode (fun n => n <| i_nlinks ::= fun l => u8 (l + 1) |> <| i_ctime := t |> <| i_dirt := 1 |>) ;;;
                  leave [oldinode] None 0
              end
          end))
  end.
End Namei.
End Namei.
