(* ===== verification/Lookup.v ===== *)
(** * Lookup: what the search of a directory finds

    [find_entry] of [Namei] against the directory as the list of its entries, over the
    view of the blocks that [View] gives. *)
From S2P Require Import Prelude Console Task Sched Fs Blk Buffer Bitmap Inode FileDev View Namei.
Import Blk Buffer Bitmap Inode FileDev View Namei.

Module Lookup.

(** The name at [name] in user memory. *)
Definition user_byte (k : kernel) (a : Z) : Z := default 0 (umem k !! u32 a).
Definition user_name (k : kernel) (name len : Z) : list Z := map (fun i => user_byte k (name + i)) (seqZ 0 len).

(** The entry [i] of a directory: its inode number and its name, without the padding. *)
Definition slot_bytes (v : Z -> list Z) (n : m_inode) (i : Z) : Z -> Z :=
  fun k => byte (v (zones v n (i / 64))) (16 * (i mod 64) + k).
Definition slot_inode (v : Z -> list Z) (n : m_inode) (i : Z) : Z := half (v (zones v n (i / 64))) (16 * (i mod 64)).
(** The entry is in use and has this name, of 1 to 14 characters. *)
Definition names (v : Z -> list Z) (n : m_inode) (nm : list Z) (i : Z) : bool :=
  negb (slot_inode v n i =? 0) &&
  (if Z.of_nat (length nm) <? 14 then slot_bytes v n i (2 + Z.of_nat (length nm)) =? 0 else true) &&
  bool_decide (nm = map (fun k => slot_bytes v n i (2 + k)) (seqZ 0 (Z.of_nat (length nm)))).
(** The first such entry from [i] on. *)
Fixpoint first_named (v : Z -> list Z) (n : m_inode) (nm : list Z) (count : nat) (i : Z) : option Z :=
  match count with
  | O => None
  | S count => if names v n nm i then Some i else first_named v n nm count (i + 1)
  end.

Section Match.
Context (s : fs) (bh : nat) (b : buffer_head) (o : Z).
Hypothesis (Hb : bufs s !! bh = Some b).

Lemma de_inode_run : de_inode (bh, o) s = Done (half (b_data b) o) s.
Proof. unfold de_inode. cbn [fst snd]. by run (get_buf_run s bh b Hb). Qed.
Lemma de_name_run k : de_name (bh, o) k s = Done (byte (b_data b) (o + 2 + k)) s.
Proof. unfold de_name. cbn [fst snd]. by run (get_buf_run s bh b Hb). Qed.
Lemma fs_get_byte_run a : fs_get_byte a s = Done (user_byte (kern s) a) s.
Proof. unfold fs_get_byte, in_kernel, zoom, get_fs_byte, gets. by rewrite kern_same. Qed.
Lemma same_bytes_run m name i :
  same_bytes m name (bh, o) i s =
  Done (bool_decide (map (fun k => user_byte (kern s) (name + k)) (seqZ i (Z.of_nat m)) =
                     map (fun k => byte (b_data b) (o + 2 + k)) (seqZ i (Z.of_nat m)))) s.
Proof.
  revert i. induction m as [|m IH]; intros i; [done|].
  cbn [same_bytes]. run (fs_get_byte_run (name + i)). run (de_name_run i).
  rewrite seqZ_cons by lia. cbn [map]. replace (Z.pred (Z.of_nat (S m))) with (Z.of_nat m) by lia.
  destruct (Z.eqb_spec (user_byte (kern s) (name + i)) (byte (b_data b) (o + 2 + i))) as [E|E].
  - rewrite E, IH. rewrite <- Z.add_1_r. f_equal. apply bool_decide_ext. split; [by intros ->|]. by intros [= ->].
  - unfold ret. f_equal. symmetry. apply bool_decide_eq_false. by intros [= ? _].
Qed.
Lemma match_run name len : 0 < len <= 14 ->
  match_ len name (bh, o) s =
  Done (negb (half (b_data b) o =? 0) && (if len <? 14 then byte (b_data b) (o + (2 + len)) =? 0 else true) &&
        bool_decide (user_name (kern s) name len = map (fun k => byte (b_data b) (o + (2 + k))) (seqZ 0 len))) s.
Proof.
  intros Hlen. unfold match_. run de_inode_run. unfold truth. rewrite negb_involutive.
  destruct (Z.eqb_spec (half (b_data b) o) 0); cbn [orb negb andb]; [done|]. change (Z.of_nat NAME_LEN) with 14.
  destruct (Z.ltb_spec 14 len); [lia|].
  assert (same_bytes (Z.to_nat len) name (bh, o) 0 s =
    Done (bool_decide (user_name (kern s) name len = map (fun k => byte (b_data b) (o + (2 + k))) (seqZ 0 len))) s) as Hsame.
  { rewrite same_bytes_run, Z2Nat.id by lia. unfold user_name.
    assert (map (fun k => byte (b_data b) (o + 2 + k)) (seqZ 0 len) = map (fun k => byte (b_data b) (o + (2 + k))) (seqZ 0 len)) as ->; [|done].
    apply map_ext. intros k. f_equal. lia. }
  destruct (Z.ltb_spec len 14).
  - run (de_name_run len). replace (o + 2 + len) with (o + (2 + len)) by lia.
    destruct (Z.eqb_spec (byte (b_data b) (o + (2 + len))) 0); cbn [negb andb]; [exact Hsame|done].
  - rewrite bind_ret. change (negb (0 =? 0)) with false. cbn [andb]. exact Hsame.
Qed.
End Match.

Section Find.
Context {E : Env} {dev : Z} {D : SyncDevice dev}.
Hypothesis (Hfuel : (0 < fuel)%nat) (Hdev : 0 < dev < 65536).
Context (s : fs) (dir : nat) (n : m_inode) (name len entries : Z).
Hypothesis (Hdir : inode_table s !! dir = Some n) (Hplaced : placed s n) (Hlen : 0 < len <= 14).
Hypothesis (Hentries : 0 <= entries <= 64 * max_blocks).
Hypothesis (Hblocks : forall k, 0 <= k -> 64 * k < Z.max entries 1 -> 0 < zones (view s) n k < blocks s).

Notation nm := (user_name (kern s) name len).
Lemma length_nm : Z.of_nat (length nm) = len.
Proof. unfold user_name. rewrite length_map, length_seqZ. lia. Qed.

(** What the answer means: the first entry of the name, in a buffer that is held. *)
Definition found (e : option dir_entry) (s' : fs) : Prop :=
  same_view s s' /\ rest_same s s' /\
  match first_named (view s) n nm (Z.to_nat entries) 0 with
  | None => e = None /\ spare s'
  | Some i => exists bh b, e = Some (bh, 16 * (i mod 64)) /\ lent s' bh b /\ b_data b = view s (zones (view s) n (i / 64)) /\
      b_dev b = dev /\ b_blocknr b = zones (view s) n (i / 64)
  end.
(** Before the entry [i]: none before it has the name. *)
Definition searching (st : Z * option nat * Z) (s1 : fs) : Prop :=
  exists i bh b k, st = (i, Some bh, 16 * (i - 64 * k)) /\ 0 <= k /\ 64 * k <= i <= 64 * k + 64 /\ i <= entries /\
    64 * k < Z.max entries 1 /\
    lent s1 bh b /\ b_data b = view s (zones (view s) n k) /\ b_dev b = dev /\ b_blocknr b = zones (view s) n k /\
    same_view s s1 /\ rest_same s s1 /\
    first_named (view s) n nm (Z.to_nat entries) 0 = first_named (view s) n nm (Z.to_nat (entries - i)) i.

Lemma found_none s1 : same_view s s1 -> rest_same s s1 -> spare s1 ->
  first_named (view s) n nm (Z.to_nat entries) 0 = None -> found None s1.
Proof. intros Hv Hr Hs E1. split; [done|]. split; [done|]. by rewrite E1. Qed.

(** One entry, in the buffer of its block. *)
Lemma examine s1 i bh b : lent s1 bh b -> b_data b = view s (zones (view s) n (i / 64)) -> b_dev b = dev ->
  b_blocknr b = zones (view s) n (i / 64) -> 0 <= i < entries ->
  same_view s s1 -> rest_same s s1 ->
  first_named (view s) n nm (Z.to_nat entries) 0 = first_named (view s) n nm (Z.to_nat (entries - i)) i ->
  wp (m <- match_ len name (bh, 16 * (i mod 64)) ;;
      ret (if m : bool then inr (Some (bh, 16 * (i mod 64))) else inl (i + 1, Some bh, 16 * (i mod 64) + DIR_ENTRY_SIZE)))
    (fun r s' => match r with
     | inl st' => searching st' s' /\ st' = (i + 1, Some bh, 16 * (i mod 64) + DIR_ENTRY_SIZE)
     | inr e => found e s' end) s1.
Proof.
  intros Hl Hd Ed En Hi Hv Hr Hfirst. pose proof (le_buf _ _ _ Hl) as Hb.
  assert (match_ len name (bh, 16 * (i mod 64)) s1 = Done (names (view s) n nm i) s1) as Hm.
  { rewrite (match_run s1 bh b _ Hb) by done. unfold names, slot_inode, slot_bytes. rewrite length_nm, Hd. by destruct Hr as (-> & _). }
  apply wp_bind. unfold wp at 1. rewrite Hm. unfold wp, ret.
  assert (first_named (view s) n nm (Z.to_nat (entries - i)) i =
    if names (view s) n nm i then Some i else first_named (view s) n nm (Z.to_nat (entries - (i + 1))) (i + 1)) as Hstep.
  { replace (Z.to_nat (entries - i)) with (S (Z.to_nat (entries - (i + 1)))) by lia. done. }
  rewrite Hstep in Hfirst. destruct (names (view s) n nm i).
  - split; [done|]. split; [done|]. rewrite Hfirst. by exists bh, b.
  - split; [|done]. exists (i + 1), bh, b, (i / 64). unfold DIR_ENTRY_SIZE. split; [f_equal; dlia|].
    split; [dlia|]. split; [dlia|]. split; [lia|]. split; [dlia|]. by repeat (split; [done|]).
Qed.

Lemma find_step_ok st s1 : searching st s1 ->
  wp (find_step dir name len entries st) (fun r s' => match r with
    | inl st' => searching st' s' /\ (Z.to_nat (entries - fst (fst st')) < Z.to_nat (entries - fst (fst st)))%nat
    | inr e => found e s' end) s1.
Proof.
  intros (i & bh & b & k & -> & Hk & Hik & Hie & Hke & Hl & Hd & Ed & En & Hv & Hr & Hfirst). unfold find_step.
  destruct (Z.ltb_spec i entries) as [Hlt|Hge]; cbn [negb].
  2: { apply wp_bind. eapply wp_mono; [by apply (brelse_lent Hfuel Hdev s1 bh b)|]. cbv beta. intros [] s2 (Hs2 & Hv2 & Hr2).
    unfold wp, ret. apply found_none; [by apply (same_view_trans s s1)|by transitivity s1|done|].
    rewrite Hfirst. by replace (Z.to_nat (entries - i)) with O by lia. }
  rewrite wp_bind. unfold wp at 1, deref, ret at 1. change BLOCK_SIZE with 1024.
  assert (forall s2 bh b, lent s2 bh b -> b_data b = view s (zones (view s) n (i / 64)) -> b_dev b = dev ->
    b_blocknr b = zones (view s) n (i / 64) -> same_view s s2 -> rest_same s s2 ->
    wp (m <- match_ len name (bh, 16 * (i mod 64)) ;;
        ret (if m : bool then inr (Some (bh, 16 * (i mod 64))) else inl (i + 1, Some bh, 16 * (i mod 64) + DIR_ENTRY_SIZE)))
      (fun r s' => match r with
       | inl st' => searching st' s' /\ (Z.to_nat (entries - fst (fst st')) < Z.to_nat (entries - i))%nat
       | inr e => found e s' end) s2) as Hex.
  { intros s2 bh2 b2 Hl2 Hd2 Ed2 En2 Hv2 Hr2. eapply wp_mono; [apply (examine s2 i bh2 b2); try done; lia|]. cbv beta.
    intros [st'|e] s3; [|done]. intros [H ->]. split; [done|]. cbn [fst]. lia. }
  destruct (Z.leb_spec 1024 (16 * (i - 64 * k))) as [Hend|Hin].
  - assert (i = 64 * (k + 1)) as Ei by lia. assert (i / 64 = k + 1 /\ i mod 64 = 0) as [Eq Em] by (split; dlia).
    change DIR_ENTRIES_PER_BLOCK with 64. rewrite wp_bind, wp_bind.
    eapply wp_mono; [by apply (brelse_lent Hfuel Hdev s1 bh b)|]. cbv beta. intros [] s2 (Hs2 & Hv2 & Hr2).
    assert (same_view s s2) as Hvs by (by apply (same_view_trans s s1)). assert (rest_same s s2) as Hrs by (by transitivity s1).
    assert (inode_table s2 !! dir = Some n) as Hdir2 by (destruct Hrs as (_ & -> & _); done).
    assert (0 <= i / 64 < max_blocks) as Hkr by (unfold max_blocks in *; dlia).
    assert (placed s2 n) as Hp2.
    { destruct Hplaced as [P1 P2 P3 P4]. split; [done|..]; unfold block_exists; rewrite (proj1 Hvs); [done|done|].
      intros j Hj. rewrite (same_view_entry s s2) by done. by apply P4. }
    rewrite wp_bind. eapply wp_mono; [by apply (bmap_zones Hfuel Hdev s2 dir n)|]. cbv beta. intros z s3 (-> & Hs3 & Hv3 & Hr3).
    rewrite (zones_same_view s s2) by done. set (z := zones (view s) n (i / 64)).
    assert (0 < z < blocks s) as Hz by (apply Hblocks; dlia).
    unfold truth. destruct (Z.eqb_spec z 0); [lia|]. cbn [negb].
    assert (same_view s s3) as Hvs3 by (by apply (same_view_trans s s2)). assert (rest_same s s3) as Hrs3 by (by transitivity s2).
    rewrite wp_bind. unfold wp at 1. rewrite (get_inode_run s3 dir n) by (destruct Hrs3 as (_ & -> & _); done).
    rewrite (pl_dev s n Hplaced), wp_bind. eapply wp_mono; [apply (bread_lent Hfuel Hdev s3 z); [done|rewrite (proj1 Hvs3); lia]|].
    cbv beta. intros o s4 (bh2 & b2 & -> & Hl2 & Hd2 & Ed2 & En2 & _ & Hv4 & Hr4).
    unfold wp at 1, ret at 1. cbn [fmap option_fmap option_map]. replace 0 with (16 * (i mod 64)) by lia.
    apply (Hex s4 bh2 b2); [done| |done|done|by apply (same_view_trans s s3)|by transitivity s3].
    rewrite Hd2. apply Hvs3. lia.
  - assert (i / 64 = k /\ i mod 64 = i - 64 * k) as [Eq Em] by (split; dlia).
    rewrite wp_bind. unfold wp at 1, ret at 1. rewrite <- Em. apply (Hex s1 bh b); [done|by rewrite Eq|done|by rewrite Eq|done|done].
Qed.

Lemma find_loop : spare s ->
  wp (o <- first_block dir ;;
      match o with
      | None => ret (dir, None)
      | Some bh => e <- loop (S (Z.to_nat entries)) (find_step dir name len entries) (0, Some bh, 0) ;; ret (dir, e)
      end) (fun r s' => fst r = dir /\ found (snd r) s') s.
Proof.
  intros Hs. assert (0 < zones (view s) n 0 < blocks s) as Hz by (apply Hblocks; lia).
  assert (zones (view s) n 0 = zone n 0) as Ez by done. apply wp_bind. unfold first_block.
  apply wp_bind. unfold wp at 1. rewrite (get_inode_run s dir n Hdir). unfold truth.
  destruct (Z.eqb_spec (zone n 0) 0); [lia|]. cbn [negb]. rewrite (pl_dev s n Hplaced).
  eapply wp_mono; [apply (bread_lent Hfuel Hdev s (zone n 0)); [done|lia]|]. cbv beta.
  intros o s1 (bh & b & -> & Hl & Hd & Ed & En & _ & Hv & Hr). apply wp_bind.
  eapply wp_mono; [apply (wp_loop _ searching (fun st _ => Z.to_nat (entries - fst (fst st))) _ find_step_ok)|].
  - exists 0, bh, b, 0. split; [done|]. do 4 (split; [lia|]). do 6 (split; [done|]). by rewrite Z.sub_0_r.
  - cbn [fst]. lia.
  - intros e s2 H. unfold wp, ret. done.
Qed.
End Find.

(** The '..' of the search: in the root of the task it is '.'. *)
Definition dots (k : kernel) (name len : Z) : bool :=
  (len =? 2) && (user_byte k name =? DOT) && (user_byte k (name + 1) =? DOT).
Definition search_len (k : kernel) (p : task_struct) (dir : nat) (name namelen : Z) : Z :=
  let len := Z.min namelen 14 in
  if dots k name len && bool_decide (root p = Some (Z.of_nat dir)) then 1 else len.
Lemma dot_dot_run s dir n p name len : inode_table s !! dir = Some n -> slot (kern s) (current (kern s)) = Some p ->
  (dots (kern s) name len = true -> root p = Some (Z.of_nat dir) \/ i_num n <> ROOT_INO) ->
  forall {E : Env}, dot_dot dir name len s =
    Done (dir, if dots (kern s) name len && bool_decide (root p = Some (Z.of_nat dir)) then 1 else len) s.
Proof.
  intros Hn Hp Hd E. unfold dot_dot, dots in *. destruct (len =? 2); cbn [negb andb] in *; [|done].
  run (fs_get_byte_run s name).
  destruct (user_byte (kern s) name =? DOT); cbn [andb] in *; [|by rewrite bind_ret].
  run (fs_get_byte_run s (name + 1)). destruct (user_byte (kern s) (name + 1) =? DOT); cbn [negb] in *; [|done].
  assert (in_kernel cur s = Done p s) as Hcur by (unfold in_kernel, zoom; by rewrite (cur_run _ p Hp), kern_same).
  run Hcur. case_bool_decide as Hroot; [done|]. run (get_inode_run s dir n Hn).
  destruct (Hd eq_refl) as [?|Hnum]; [done|]. destruct (Z.eqb_spec (i_num n) ROOT_INO); [done|]. done.
Qed.

Section FindEntry.
Context {E : Env} {dev : Z} {D : SyncDevice dev}.
Hypothesis (Hfuel : (0 < fuel)%nat) (Hdev : 0 < dev < 65536).

(** C3: the search of a directory.  In a directory without holes, on a device that transfers at once, for any name that does not lead
    across a mount point, [find_entry] looks for the name cut to 14 characters ('..' in the root of the
    task is '.'): when some entry in use has exactly this name, the answer is the first of
    them, as a buffer of its block, held, and the offset in it; when none has it the answer is null and
    no buffer is held.  Blocks, inodes, files and the task's memory are what they were. *)
Theorem find_entry_ok s dir n p name namelen : spare s -> inode_table s !! dir = Some n ->
  slot (kern s) (current (kern s)) = Some p -> placed s n -> 0 < namelen -> 0 <= i_size n <= 1024 * max_blocks ->
  (forall k, 0 <= k -> 1024 * k < Z.max (i_size n) 1 -> 0 < zones (view s) n k < blocks s) ->
  (dots (kern s) name (Z.min namelen 14) = true -> root p = Some (Z.of_nat dir) \/ i_num n <> ROOT_INO) ->
  wp (find_entry dir name namelen) (fun r s' => fst r = dir /\ same_view s s' /\ rest_same s s' /\
    match first_named (view s) n (user_name (kern s) name (search_len (kern s) p dir name namelen))
            (Z.to_nat (i_size n / 16)) 0 with
    | None => snd r = None /\ spare s'
    | Some i => exists bh b, snd r = Some (bh, 16 * (i mod 64)) /\ lent s' bh b /\
        b_data b = view s (zones (view s) n (i / 64)) /\ b_dev b = dev /\ b_blocknr b = zones (view s) n (i / 64)
    end) s.
Proof.
  intros Hs Hn Hp Hpl Hlen Hsize Hblocks Hdots. unfold find_entry. change (Z.of_nat NAME_LEN) with 14.
  apply wp_bind. unfold wp at 1. rewrite (get_inode_run s dir n Hn). change DIR_ENTRY_SIZE with 16. unfold truth.
  destruct (Z.eqb_spec (Z.min namelen 14) 0); [lia|]. cbn [negb].
  apply wp_bind. unfold wp at 1. rewrite (dot_dot_run s dir n p name (Z.min namelen 14) Hn Hp Hdots).
  fold (search_len (kern s) p dir name namelen). set (len := search_len (kern s) p dir name namelen).
  assert (0 < len <= 14) as Hl by (unfold len, search_len; destruct (_ && _); lia).
  eapply wp_mono; [apply (find_loop Hfuel Hdev s dir n name len (i_size n / 16) Hn Hpl Hl)|].
  - dlia.
  - intros k Hk H. apply Hblocks; [done|]. dlia.
  - exact Hs.
  - cbv beta. intros r s' (Hf & Hv & Hr & H). done.
Qed.
End FindEntry.

(** ** A directory of two entries on the RAM disk *)
#[local] Notation two_buffers := (after (buffer_init 0 (fun _ => no_buffer) (fun _ => replicate 1024 0) 3072) two_blocks).
Definition one_dir_inode : m_inode := one_block_inode <| i_mode := S_IFDIR |> <| i_size := 32 |>.
Definition one_dir : fs := two_buffers <| inode_table := [one_dir_inode] |> <| kern := boot_kernel |>.
Lemma kern_same_cache s t k : wchan k = wchan (kern s) -> same_cache s (s <| inode_table := t |> <| kern := k |>).
Proof. by intros. Qed.
Lemma one_dir_cache : same_cache two_buffers one_dir.
Proof.
  apply (kern_same_cache two_buffers [one_dir_inode] boot_kernel).
  destruct two_buffers_serving as (_ & _ & (_ & _ & _ & _ & _ & ->) & _). vm_compute. reflexivity.
Qed.
Lemma one_dir_zones v k : 0 <= k -> 1024 * k < Z.max 32 1 -> zones v one_dir_inode k = 1.
Proof. intros H1 H2. by replace k with 0 by lia. Qed.
Lemma find_entry_ok_witness : wp (find_entry (E := idle_env) 0 5000 3) (fun r s' => fst r = 0%nat /\
  same_view (D := ramdisk idle_fuel) one_dir s' /\ rest_same one_dir s' /\
  match first_named (view (D := ramdisk idle_fuel) one_dir) one_dir_inode [0; 0; 0] 2 0 with
  | None => snd r = None /\ spare (D := ramdisk idle_fuel) s'
  | Some i => exists bh b, snd r = Some (bh, 16 * (i mod 64)) /\ lent (D := ramdisk idle_fuel) s' bh b /\
      b_data b = view (D := ramdisk idle_fuel) one_dir (zones (view (D := ramdisk idle_fuel) one_dir) one_dir_inode (i / 64)) /\
      b_dev b = 257 /\ b_blocknr b = zones (view (D := ramdisk idle_fuel) one_dir) one_dir_inode (i / 64)
  end) one_dir.
Proof.
  destruct (same_cache_spare (D := ramdisk idle_fuel) two_buffers one_dir one_dir_cache two_buffers_spare) as [Hs [Hbl _]].
  apply (find_entry_ok (D := ramdisk idle_fuel) idle_fuel ltac:(lia) one_dir 0 one_dir_inode INIT_TASK 5000 3).
  - exact Hs.
  - reflexivity.
  - reflexivity.
  - split; [done|..]; unfold block_exists, entry; done.
  - lia.
  - unfold max_blocks. cbn. lia.
  - intros k H1 H2. rewrite (one_dir_zones _ k H1 H2), Hbl, two_buffers_blocks. lia.
  - intros H. discriminate H.
Defined.
End Lookup.
