(* ===== verification/Super.v ===== *)
(** * Super: mounting (the rest of fs/super.c, and check_disk_change of fs/buffer.c)

    The table of super blocks and its locks are in [Bitmap].  The bitmaps of a mounted
    device stay in buffers that are held. *)
From S2P Require Import Prelude Console Task Sched Services Tty Fs Blk Buffer Bitmap Inode FileDev Namei.
Import Blk Buffer Bitmap Inode FileDev Namei.

Module Super.

Definition ENOTBLK : Z := 15.

(** [struct d_super_block], the first fields of [struct super_block] *)
Definition d_super_read (l : list Z) (s : super_block) : super_block :=
  s <| s_ninodes := half l 0 |> <| s_nzones := half l 2 |> <| s_imap_blocks := half l 4 |>
    <| s_zmap_blocks := half l 6 |> <| s_firstdatazone := half l 8 |> <| s_log_zone_size := half l 10 |>
    <| s_max_size := word l 12 |> <| s_magic := half l 16 |>.

Section Super.
Context {E : Env}.

Definition release_maps (sb : nat) : M fs unit :=
  for_each (seq 0 I_MAP_SLOTS) (fun i => s <- get_sb sb ;; o <- deref (s_imap s !! i) ;; brelse o) ;;;
  for_each (seq 0 Z_MAP_SLOTS) (fun i => s <- get_sb sb ;; o <- deref (s_zmap s !! i) ;; brelse o).

Definition put_super (dev : Z) : M fs unit :=
  s <- get ;;
  if dev =? ROOT_DEV s then printk "root diskette changed: prepare for armageddon" [] else
  o <- get_super dev ;;
  match o with
  | None => ret tt
  | Some sb =>
      s <- get_sb sb ;;
      if bool_decide (is_Some (s_imount s)) then printk "Mounted disk changed - tssk, tssk" [] else
      lock_super sb ;;;
      mod_sb sb (fun s => s <| s_dev := 0 |>) ;;;
      release_maps sb ;;;
      free_super sb
  end.

Definition check_disk_change (dev : Z) : M fs unit :=
  if negb (MAJOR dev =? 2) then ret tt else
  changed <- floppy_change (Z.land dev 3) ;;
  if negb changed then ret tt else
  for_each (seq 0 NR_SUPER) (fun i => s <- get_sb i ;; when (s_dev s =? dev) (put_super (s_dev s))) ;;;
  invalidate_inodes dev ;;;
  invalidate_buffers dev.

(** ** Reading a super block *)

(** The first free entry of the table. *)
Definition free_slot : M fs (option nat) :=
  s <- get ;; ret (fst <$> list_find (fun b => s_dev b = 0) (super_blocks s)).

(** [for (i=0 ; i < blocks ; i++) if (map[i]=bread(dev,block)) block++; else break;]:
    the next block.  Past the end of the array the access is outside of it. *)
Definition read_maps (dev : Z) (blocks : M fs Z) (store : nat -> option nat -> M fs unit) (block : Z) : M fs Z :=
  loop (S (S I_MAP_SLOTS)) (fun st : nat * Z =>
    let '(i, block) := st in
    n <- blocks ;;
    if negb (Z.of_nat i <? n) then ret (inr block) else
    if Nat.leb I_MAP_SLOTS i then fault else
    o <- bread dev block ;;
    store i o ;;;
    ret (match o with Some _ => inl (S i, block + 1) | None => inr block end)) (O, block).
(** [map[0]->b_data[0] |= 1] *)
Definition reserve_first (o : option (option nat)) : M fs unit :=
  o <- deref o ;; bh <- deref o ;;
  mod_buf bh (fun b => b <| b_data ::= fun l => set_byte 0 (Z.lor (byte l 0) 1) l |>).
Definition abandon_super (sb : nat) : M fs (option nat) :=
  mod_sb sb (fun s => s <| s_dev := 0 |>) ;;; free_super sb ;;; ret None.
Definition load_super (sb : nat) (dev : Z) : M fs (option nat) :=
  o <- bread dev 1 ;;
  match o with
  | None => abandon_super sb
  | Some bh =>
      b <- get_buf bh ;;
      mod_sb sb (d_super_read (b_data b)) ;;;
      brelse (Some bh) ;;;
      s <- get_sb sb ;;
      if negb (s_magic s =? SUPER_MAGIC) then abandon_super sb else
      mod_sb sb (fun s => s <| s_imap := replicate I_MAP_SLOTS None |> <| s_zmap := replicate Z_MAP_SLOTS None |>) ;;;
      block <- read_maps dev (s <- get_sb sb ;; ret (s_imap_blocks s))
                 (fun i o => mod_sb sb (fun s => s <| s_imap ::= <[i := o]> |>)) 2 ;;
      block <- read_maps dev (s <- get_sb sb ;; ret (s_zmap_blocks s))
                 (fun i o => mod_sb sb (fun s => s <| s_zmap ::= <[i := o]> |>)) block ;;
      s <- get_sb sb ;;
      if negb (block =? 2 + s_imap_blocks s + s_zmap_blocks s) then release_maps sb ;;; abandon_super sb else
      reserve_first (s_imap s !! O) ;;;
      s <- get_sb sb ;;
      reserve_first (s_zmap s !! O) ;;;
      free_super sb ;;;
      ret (Some sb)
  end.
Definition read_super (dev : Z) : M fs (option nat) :=
  if dev =? 0 then ret None else
  check_disk_change dev ;;;
  o <- get_super dev ;;
  match o with
  | Some sb => ret (Some sb)
  | None =>
      o <- free_slot ;;
      match o with
      | None => ret None
      | Some sb =>
          mod_sb sb (fun s => s <| s_dev := u16 dev |> <| s_isup := None |> <| s_imount := None |> <| s_time := 0 |>
                                <| s_rd_only := 0 |> <| s_dirt := 0 |>) ;;;
          lock_super sb ;;;
          load_super sb dev
      end
  end.

(** ** The system calls *)
Definition sys_umount (dev_name : Z) : M fs Z :=
  o <- namei dev_name ;;
  match o with
  | None => ret (- ENOENT)
  | Some inode =>
      n <- get_inode inode ;;
      let dev := zone n 0 in
      if negb (S_ISBLK (i_mode n)) then leave [inode] None ENOTBLK else
      iput (Some inode) ;;;
      s <- get ;;
      if dev =? ROOT_DEV s then ret (- EBUSY) else
      o <- get_super dev ;;
      match o with
      | None => ret (- ENOENT)
      | Some sb =>
          b <- get_sb sb ;;
          match s_imount b with
          | None => ret (- ENOENT)
          | Some mounted =>
              m <- get_inode mounted ;;
              when (negb (truth (i_mount m))) (printk "Mounted inode has i_mount=0" []) ;;;
              s <- get ;;
              if existsb (fun n => (i_dev n =? dev) && truth (i_count n)) (inode_table s) then ret (- EBUSY) else
              mod_inode mounted (fun n => n <| i_mount := 0 |>) ;;;
              iput (Some mounted) ;;;
              mod_sb sb (fun b => b <| s_imount := None |>) ;;;
              b <- get_sb sb ;; iput (s_isup b) ;;;
              mod_sb sb (fun b => b <| s_isup := None |>) ;;;
              put_super dev ;;;
              sync_dev dev ;;;
              ret 0
          end
      end
  end.

Definition sys_mount (dev_name dir_name rw_flag : Z) : M fs Z :=
  o <- namei dev_name ;;
  match o with
  | None => ret (- ENOENT)
  | Some dev_i =>
      n <- get_inode dev_i ;;
      let dev := zone n 0 in
      if negb (S_ISBLK (i_mode n)) then leave [dev_i] None EPERM else
      iput (Some dev_i) ;;;
      o <- namei dir_name ;;
      match o with
      | None => ret (- ENOENT)
      | Some dir_i =>
          d <- get_inode dir_i ;;
          if negb (i_count d =? 1) || (i_num d =? ROOT_INO) then leave [dir_i] None EBUSY else
          if negb (S_ISDIR (i_mode d)) then leave [dir_i] None EPERM else
          o <- read_super dev ;;
          match o with
          | None => leave [dir_i] None EBUSY
          | Some sb =>
              b <- get_sb sb ;;
              if bool_decide (is_Some (s_imount b)) then leave [dir_i] None EBUSY else
              d <- get_inode dir_i ;;
              if truth (i_mount d) then leave [dir_i] None EPERM else
              mod_sb sb (fun b => b <| s_imount := Some dir_i |>) ;;;
              mod_inode dir_i (fun d => d <| i_mount := 1 |> <| i_dirt := 1 |>) ;;;
              ret 0
          end
      end
  end.

(** ** The root *)

(** The clear bits among the first [n] of the maps; [set_bit] of super.c only tests. *)
Definition count_free (maps : list (option nat)) (n : Z) : M fs Z :=
  loop (S (Z.to_nat n)) (fun st : Z * Z =>
    let '(i, free) := st in
    let i := i - 1 in
    if i <? 0 then ret (inr free) else
    o <- deref (maps !! Z.to_nat (Z.shiftr i 13)) ;;
    bh <- deref o ;;
    b <- get_buf bh ;;
    ret (inl (i, if test_bit (Z.land i 8191) (b_data b) then free else free + 1))) (n, 0).

Section Root.
Context {S : Services}.
(** The size of [struct d_inode] is 32 here: the first check of the code passes. *)
Definition mount_root : M fs unit :=
  for_each (seq 0 NR_FILE) (fun i => mod_file i (fun f => f <| f_count := 0 |>)) ;;;
  s <- get ;;
  when (MAJOR (ROOT_DEV s) =? 2)
    (printk "Insert root floppy and press ENTER" [] ;;; in_kernel (Tty.wait_for_keypress fuel)) ;;;
  for_each (seq 0 NR_SUPER) (fun p =>
    mod_sb p (fun b => b <| s_dev := 0 |> <| s_lock := 0 |>) ;;; in_kernel (wq_set (s_wait p) None)) ;;;
  s <- get ;;
  o <- read_super (ROOT_DEV s) ;;
  match o with
  | None => panic "Unable to mount root"
  | Some p =>
      mi <- iget (ROOT_DEV s) ROOT_INO ;;
      mod_inode mi (set_i_count (fun c => c + 3)) ;;;
      mod_sb p (fun b => b <| s_imount := Some mi |> <| s_isup := Some mi |>) ;;;
      in_kernel (mod_cur (fun t => t <| pwd := Some (Z.of_nat mi) |> <| root := Some (Z.of_nat mi) |>)) ;;;
      b <- get_sb p ;;
      free <- count_free (s_zmap b) (s_nzones b) ;;
      printk "%d/%d free blocks" [free; s_nzones b] ;;;
      free <- count_free (s_imap b) (s_ninodes b + 1) ;;
      printk "%d/%d free inodes" [free; s_ninodes b]
  end.
End Root.
End Super.
End Super.
