(* ===== verification/Open.v ===== *)
(** * Open: open files (fs/open.c, fs/fcntl.c, sys_pipe of fs/pipe.c)

    A file descriptor of the current task names an entry of [file_table]. *)
From S2P Require Import Prelude Console Task Sched Tty Fs Blk Buffer Bitmap Inode FileDev Namei Super.
Import Blk Buffer Bitmap Inode FileDev Namei Super.

Module Open.

Definition O_NONBLOCK : Z := 2048.
Definition F_DUPFD : Z := 0.
Definition F_GETFD : Z := 1.
Definition F_SETFD : Z := 2.
Definition F_GETFL : Z := 3.
Definition F_SETFL : Z := 4.
Definition EMFILE : Z := 24.

(** ** Descriptors of the current task *)
Definition filp_at (fd : nat) : M fs (option nat) :=
  p <- in_kernel cur ;; o <- deref (filp p !! fd) ;; ret (Z.to_nat <$> o).
Definition set_filp (fd : nat) (o : option nat) : M fs unit :=
  in_kernel (mod_cur (fun t => t <| filp ::= <[fd := Z.of_nat <$> o]> |>)).
(** [fd >= NR_OPEN || !(filp = current->filp[fd])] is [None]; [fd] is unsigned. *)
Definition open_file (fd : Z) : M fs (option nat) :=
  if Z.of_nat NR_OPEN <=? fd then ret None else filp_at (Z.to_nat fd).
(** The first free descriptor from [from] on. *)
Definition free_fd (from : nat) : M fs (option nat) :=
  p <- in_kernel cur ;;
  ret (List.find (fun fd => bool_decide (filp p !! fd = Some None)) (seq from (NR_OPEN - from))).
Definition keep_on_exec (fd : nat) : M fs unit :=
  in_kernel (mod_cur (fun t => t <| close_on_exec ::= fun x => Z.land x (Z.lnot (Z.shiftl 1 (Z.of_nat fd))) |>)).

(** The entries of [file_table] that are free. *)
Definition free_files : M fs (list nat) :=
  s <- get ;;
  ret (List.filter (fun i => match file_table s !! i with Some f => f_count f =? 0 | None => false end) (seq 0 NR_FILE)).
Definition set_f_count (c : Z) (f : nat) : M fs unit := mod_file f (fun f => f <| f_count := c |>).
Definition inc_f_count (f : nat) : M fs unit := mod_file f (fun f => f <| f_count ::= fun c => u16 (c + 1) |>).

Section Open.
Context {E : Env}.

(** ** Attributes of named files *)
Definition sys_ustat (dev ubuf : Z) : M fs Z := ret (- ENOSYS).

(** The inode [filename], or the answer of a call that does not find it. *)
Definition with_inode (filename no_file : Z) (k : nat -> M fs Z) : M fs Z :=
  o <- namei filename ;;
  match o with None => ret (- no_file) | Some inode => k inode end.

Definition sys_utime (filename times : Z) : M fs Z :=
  with_inode filename ENOENT (fun inode =>
    r <- (if truth times then
            a <- in_kernel (get_fs_long times) ;; m <- in_kernel (get_fs_long (times + 4)) ;; ret (a, m)
          else t <- current_time ;; ret (t, t)) ;;
    mod_inode inode (fun n => n <| i_atime := fst r |> <| i_mtime := snd r |> <| i_dirt := 1 |>) ;;;
    leave [inode] None 0).

(** The owner and the group are read after the inode is put. *)
Definition sys_access (filename mode : Z) : M fs Z :=
  let mode := Z.land mode 7 in
  with_inode filename EACCES (fun inode =>
    n <- get_inode inode ;;
    let i_mode := Z.land (i_mode n) 511 in
    iput (Some inode) ;;;
    n <- get_inode inode ;;
    p <- in_kernel cur ;;
    let res := if uid p =? i_uid n then Z.shiftr i_mode 6
               else if gid p =? i_gid n then Z.shiftr i_mode 6 else i_mode in
    if Z.land (Z.land res 7) mode =? mode then ret 0 else
    if (uid p =? 0) && (negb (truth (Z.land mode 1)) || truth (Z.land i_mode 73)) then ret 0 else
    ret (- EACCES)).

Definition sys_chdir (filename : Z) : M fs Z :=
  with_inode filename ENOENT (fun inode =>
    n <- get_inode inode ;;
    if negb (S_ISDIR (i_mode n)) then leave [inode] None ENOTDIR else
    p <- in_kernel cur ;;
    iput (Z.to_nat <$> pwd p) ;;;
    in_kernel (mod_cur (fun t => t <| pwd := Some (Z.of_nat inode) |>)) ;;;
    ret 0).
Definition sys_chroot (filename : Z) : M fs Z :=
  with_inode filename ENOENT (fun inode =>
    n <- get_inode inode ;;
    if negb (S_ISDIR (i_mode n)) then leave [inode] None ENOTDIR else
    p <- in_kernel cur ;;
    iput (Z.to_nat <$> root p) ;;;
    in_kernel (mod_cur (fun t => t <| root := Some (Z.of_nat inode) |>)) ;;;
    ret 0).
Definition sys_chmod (filename mode : Z) : M fs Z :=
  with_inode filename ENOENT (fun inode =>
    n <- get_inode inode ;;
    p <- in_kernel cur ;;
    if negb (euid p =? i_uid n) && negb (euid p =? 0) then leave [inode] None EACCES else
    mod_inode inode (fun n => n <| i_mode := u16 (Z.lor (Z.land mode 4095) (Z.land (i_mode n) (Z.lnot 4095))) |>
                                <| i_dirt := 1 |>) ;;;
    leave [inode] None 0).
Definition sys_chown (filename uid gid : Z) : M fs Z :=
  with_inode filename ENOENT (fun inode =>
    su <- in_kernel suser ;;
    if negb su then leave [inode] None EACCES else
    mod_inode inode (fun n => n <| i_uid := u16 uid |> <| i_gid := u8 gid |> <| i_dirt := 1 |>) ;;;
    leave [inode] None 0).

(** ** Opening and closing *)

(** The opening of a terminal: [false] when the task has no terminal to open. *)
Definition open_tty (inode : nat) : M fs bool :=
  n <- get_inode inode ;;
  if negb (S_ISCHR (i_mode n)) then ret true else
  p <- in_kernel cur ;;
  if MAJOR (zone n 0) =? 4 then
    when (truth (leader p) && (tty p <? 0))
      (in_kernel (mod_cur (fun t => t <| tty := MINOR (zone n 0) |>)) ;;;
       in_kernel (Tty.mod_tty (Z.to_nat (MINOR (zone n 0))) (fun t => t <| tty_pgrp := pgrp p |>))) ;;;
    ret true
  else ret (negb ((MAJOR (zone n 0) =? 5) && (tty p <? 0))).

Definition sys_open (filename flag mode : Z) : M fs Z :=
  p <- in_kernel cur ;;
  let mode := Z.land mode (Z.land 511 (Z.lnot (umask p))) in
  o <- free_fd 0 ;;
  match o with
  | None => ret (- EINVAL)
  | Some fd =>
      keep_on_exec fd ;;;
      l <- free_files ;;
      match l with
      | [] => ret (- EINVAL)
      | f :: _ =>
          set_filp fd (Some f) ;;; inc_f_count f ;;;
          r <- open_namei filename flag mode ;;
          match r with
          | inl e => set_filp fd None ;;; set_f_count 0 f ;;; ret e
          | inr inode =>
              ok <- open_tty inode ;;
              if negb ok then
                iput (Some inode) ;;; set_filp fd None ;;; set_f_count 0 f ;;; ret (- EPERM)
              else
              n <- get_inode inode ;;
              when (S_ISBLK (i_mode n)) (check_disk_change (zone n 0)) ;;;
              n <- get_inode inode ;;
              mod_file f (fun f => f <| f_mode := i_mode n |> <| f_flags := u16 flag |> <| f_count := 1 |>
                                     <| f_inode := Some inode |> <| f_pos := 0 |>) ;;;
              ret (Z.of_nat fd)
          end
      end
  end.
Definition sys_creat (pathname mode : Z) : M fs Z := sys_open pathname (Z.lor O_CREAT O_TRUNC) mode.

Definition sys_close (fd : Z) : M fs Z :=
  if Z.of_nat NR_OPEN <=? fd then ret (- EINVAL) else
  keep_on_exec (Z.to_nat fd) ;;;
  o <- filp_at (Z.to_nat fd) ;;
  match o with
  | None => ret (- EINVAL)
  | Some filp =>
      set_filp (Z.to_nat fd) None ;;;
      f <- get_file filp ;;
      if f_count f =? 0 then panic "Close: file count is 0" else
      set_f_count (f_count f - 1) filp ;;;
      if truth (f_count f - 1) then ret 0 else
      iput (f_inode f) ;;; ret 0
  end.

(** ** Duplicating descriptors (fs/fcntl.c) *)
Definition dupfd (fd arg : Z) : M fs Z :=
  o <- open_file fd ;;
  match o with
  | None => ret (- EBADF)
  | Some f =>
      if Z.of_nat NR_OPEN <=? arg then ret (- EINVAL) else
      o <- free_fd (Z.to_nat arg) ;;
      match o with
      | None => ret (- EMFILE)
      | Some new =>
          keep_on_exec new ;;;
          set_filp new (Some f) ;;;
          inc_f_count f ;;;
          ret (Z.of_nat new)
      end
  end.
Definition sys_dup2 (oldfd newfd : Z) : M fs Z := sys_close newfd ;;; dupfd oldfd newfd.
Definition sys_dup (fildes : Z) : M fs Z := dupfd fildes 0.

Definition sys_fcntl (fd cmd arg : Z) : M fs Z :=
  o <- open_file fd ;;
  match o with
  | None => ret (- EBADF)
  | Some f =>
      let bit := Z.shiftl 1 fd in
      if cmd =? F_DUPFD then dupfd fd arg
      else if cmd =? F_GETFD then p <- in_kernel cur ;; ret (Z.land (Z.shiftr (close_on_exec p) fd) 1)
      else if cmd =? F_SETFD then
        if truth (Z.land arg 1) then in_kernel (mod_cur (fun t => t <| close_on_exec ::= Z.lor bit |>)) ;;; ret 0
        else keep_on_exec (Z.to_nat fd) ;;; ret 0
      else if cmd =? F_GETFL then x <- get_file f ;; ret (f_flags x)
      else if cmd =? F_SETFL then
        mod_file f (fun x => x <| f_flags ::= fun l => Z.land l (Z.lnot (Z.lor O_APPEND O_NONBLOCK)) |>) ;;;
        mod_file f (fun x => x <| f_flags ::= Z.lor (Z.land arg (Z.lor O_APPEND O_NONBLOCK)) |>) ;;;
        ret 0
      else ret (-1)
  end.

(** ** Pipes *)

(** [fildes] is where the two descriptors are stored. *)
Definition sys_pipe (fildes : Z) : M fs Z :=
  l <- free_files ;;
  for_each (take 2 l) inc_f_count ;;;
  match l with
  | f0 :: f1 :: _ =>
      let drop_files := set_f_count 0 f1 ;;; set_f_count 0 f0 in
      a <- free_fd 0 ;;
      match a with
      | None => drop_files ;;; ret (-1)
      | Some fd0 =>
          set_filp fd0 (Some f0) ;;;
          b <- free_fd (S fd0) ;;
          match b with
          | None => set_filp fd0 None ;;; drop_files ;;; ret (-1)
          | Some fd1 =>
              set_filp fd1 (Some f1) ;;;
              o <- get_pipe_inode ;;
              match o with
              | None => set_filp fd1 None ;;; set_filp fd0 None ;;; drop_files ;;; ret (-1)
              | Some inode =>
                  mod_file f0 (fun f => f <| f_inode := Some inode |> <| f_pos := 0 |> <| f_mode := 1 |>) ;;;
                  mod_file f1 (fun f => f <| f_inode := Some inode |> <| f_pos := 0 |> <| f_mode := 2 |>) ;;;
                  in_kernel (put_fs_long (Z.of_nat fd0) fildes) ;;;
                  in_kernel (put_fs_long (Z.of_nat fd1) (fildes + 4)) ;;;
                  ret 0
              end
          end
      end
  | [f0] => set_f_count 0 f0 ;;; ret (-1)
  | [] => ret (-1)
  end.
End Open.
End Open.
