(* ===== verification/ReadWrite.v ===== *)
(** * ReadWrite: reading and writing open files (fs/read_write.c, fs/stat.c, fs/ioctl.c)

    A descriptor leads to a pipe, a terminal, a block device or a file, each with its own
    routine.  The terminals sleep on the kernel variables alone: what the other tasks
    do then is the [others] of [Services]. *)
From S2P Require Import Prelude Console Task Sched Services Fork Tty Ioctl Fs Blk Buffer Bitmap Inode FileDev Namei Super Open.
Import Blk Buffer Bitmap Inode FileDev Namei Super Open.

Module ReadWrite.

Definition ESPIPE : Z := 29.
Definition ENOTTY : Z := 25.
Definition IS_SEEKABLE (x : Z) : bool := (1 <=? x) && (x <=? 3).

(** The open file [fd] with its inode. *)
Definition file_inode (fd : Z) : M fs (option (nat * nat)) :=
  o <- open_file fd ;;
  match o with
  | None => ret None
  | Some f => x <- get_file f ;; ret ((fun i => (f, i)) <$> f_inode x)
  end.

(** The new position, when it is not negative. *)
Definition seek_to (f : nat) (pos : Z) : M fs Z :=
  if pos <? 0 then ret (- EINVAL) else mod_file f (fun f => f <| f_pos := pos |>) ;;; ret pos.
Definition sys_lseek (fd offset origin : Z) : M fs Z :=
  o <- file_inode fd ;;
  match o with
  | None => ret (- EBADF)
  | Some (f, i) =>
      n <- get_inode i ;;
      x <- get_file f ;;
      if negb (IS_SEEKABLE (MAJOR (i_dev n))) then ret (- EBADF) else
      if truth (i_pipe n) then ret (- ESPIPE) else
      if origin =? 0 then seek_to f offset
      else if origin =? 1 then seek_to f (i32 (f_pos x + offset))
      else if origin =? 2 then seek_to f (i32 (i_size n + offset))
      else ret (- EINVAL)
  end.

(** ** [struct stat]: 32 bytes, of which [pad] holds the four that are never set *)
Definition stat_bytes (pad : list Z) (n : m_inode) : list Z :=
  let p i := default 0 (pad !! i) in
  le2 (i_dev n) ++ le2 (i_num n) ++ le2 (i_mode n) ++ [u8 (i_nlinks n); p 0%nat] ++
  le2 (i_uid n) ++ [u8 (i_gid n); p 1%nat] ++ le2 (zone n 0) ++ [p 2%nat; p 3%nat] ++
  le4 (i_size n) ++ le4 (i_atime n) ++ le4 (i_mtime n) ++ le4 (i_ctime n).

Section Calls.
Context {E : Env} {S : Services} (inb : Z -> Z) (rounds depth : nat).

Definition cp_stat (pad : list Z) (inode : nat) (statbuf : Z) : M fs unit :=
  in_kernel (Fork.verify_area statbuf 32) ;;;
  n <- get_inode inode ;;
  for_each (zip (seqZ 0 32) (stat_bytes pad n)) (fun '(i, b) => fs_put_byte b (statbuf + i)).
Definition sys_stat (pad : list Z) (filename statbuf : Z) : M fs Z :=
  with_inode filename ENOENT (fun inode => cp_stat pad inode statbuf ;;; leave [inode] None 0).
Definition sys_fstat (pad : list Z) (fd statbuf : Z) : M fs Z :=
  o <- file_inode fd ;;
  match o with
  | None => ret (- EBADF)
  | Some (_, inode) => cp_stat pad inode statbuf ;;; ret 0
  end.

(** ** Reading and writing *)

(** A routine that is given the position and returns the new one. *)
Definition at_pos (f : nat) (m : Z -> M fs (Z * Z)) : M fs Z :=
  x <- get_file f ;;
  r <- m (f_pos x) ;;
  mod_file f (fun f => f <| f_pos := i32 (snd r) |>) ;;;
  ret (fst r).
Definition rw_char (d : Ioctl.rw) (dev buf count pos : Z) : M fs (Z * Z) :=
  in_kernel (Ioctl.rw_char inb fuel rounds depth d dev buf count pos).

Definition sys_read (fd buf count : Z) : M fs Z :=
  o <- open_file fd ;;
  match o with
  | None => ret (- EINVAL)
  | Some f =>
      if count <? 0 then ret (- EINVAL) else
      if count =? 0 then ret 0 else
      in_kernel (Fork.verify_area buf count) ;;;
      x <- get_file f ;;
      inode <- deref (f_inode x) ;;
      n <- get_inode inode ;;
      if truth (i_pipe n) then
        if truth (Z.land (f_mode x) 1) then read_pipe inode buf count else ret (- EIO)
      else if S_ISCHR (i_mode n) then at_pos f (rw_char Ioctl.READ (zone n 0) buf count)
      else if S_ISBLK (i_mode n) then at_pos f (fun pos => block_read (zone n 0) (u32 pos) buf count)
      else if S_ISDIR (i_mode n) || S_ISREG (i_mode n) then
        let count := if i_size n <? u32 (count + f_pos x) then i32 (i_size n - f_pos x) else count in
        if count <=? 0 then ret 0 else file_read inode f buf count
      else printk "(Read)inode->i_mode=%06o" [i_mode n] ;;; ret (- EINVAL)
  end.
Definition sys_write (fd buf count : Z) : M fs Z :=
  o <- open_file fd ;;
  match o with
  | None => ret (- EINVAL)
  | Some f =>
      if count <? 0 then ret (- EINVAL) else
      if count =? 0 then ret 0 else
      x <- get_file f ;;
      inode <- deref (f_inode x) ;;
      n <- get_inode inode ;;
      if truth (i_pipe n) then
        if truth (Z.land (f_mode x) 2) then write_pipe inode buf count else ret (- EIO)
      else if S_ISCHR (i_mode n) then at_pos f (rw_char Ioctl.WRITE (zone n 0) buf count)
      else if S_ISBLK (i_mode n) then at_pos f (fun pos => block_write (zone n 0) pos buf count)
      else if S_ISREG (i_mode n) then file_write inode f buf count
      else printk "(Write)inode->i_mode=%06o" [i_mode n] ;;; ret (- EINVAL)
  end.

(** ** Device control *)

(** [ioctl_table], by major number. *)
Definition ioctl_table : list (option (Z -> Z -> Z -> Z -> M kernel Z)) :=
  [None; None; None; None; Some Ioctl.tty_ioctl; Some Ioctl.tty_ioctl; None; None].
Definition sys_ioctl (pad fd cmd arg : Z) : M fs Z :=
  o <- open_file fd ;;
  match o with
  | None => ret (- EBADF)
  | Some f =>
      x <- get_file f ;;
      inode <- deref (f_inode x) ;;
      n <- get_inode inode ;;
      if negb (S_ISCHR (i_mode n)) && negb (S_ISBLK (i_mode n)) then ret (- EINVAL) else
      let dev := zone n 0 in
      match ioctl_table !! Z.to_nat (MAJOR dev) with
      | None => ret (- ENODEV)
      | Some None => ret (- ENOTTY)
      | Some (Some call) => in_kernel (call pad dev cmd arg)
      end
  end.
End Calls.
End ReadWrite.
