(* ===== verification/Calls.v ===== *)
(** * Calls: positions and descriptors of open files

    What the calls of [ReadWrite] and [Open] keep: the position of an open file, the
    table of descriptors and the counts of the open files. *)
From S2P Require Import Prelude Console Task Sched Fs Blk Buffer Bitmap Inode FileDev View Namei Super Open ReadWrite.
Import Blk Buffer Bitmap Inode FileDev View Namei Super Open ReadWrite.

Module Calls.

(** Descriptor [fd] of the current task [p] is open file [f], on inode [i]. *)
Record opened (s : fs) (p : task_struct) (fd : Z) (f : nat) (x : file) (i : nat) (n : m_inode) : Prop := {
  op_task : slot (kern s) (current (kern s)) = Some p;
  op_fd : 0 <= fd < Z.of_nat NR_OPEN;
  op_filp : filp p !! Z.to_nat fd = Some (Some (Z.of_nat f));
  op_file : file_table s !! f = Some x;
  op_ino : f_inode x = Some i;
  op_inode : inode_table s !! i = Some n
}.
Lemma cur_in_fs s p : slot (kern s) (current (kern s)) = Some p -> in_kernel cur s = Done p s.
Proof. intros H. unfold in_kernel, zoom. by rewrite (cur_run _ p H), kern_same. Qed.
Lemma filp_at_run s p fd o : slot (kern s) (current (kern s)) = Some p -> filp p !! fd = Some o ->
  filp_at fd s = Done (Z.to_nat <$> o) s.
Proof. intros Hp Hf. unfold filp_at. run (cur_in_fs s p Hp). by rewrite Hf. Qed.

Section Opened.
Context (s : fs) (p : task_struct) (fd : Z) (f : nat) (x : file) (i : nat) (n : m_inode).
Hypothesis (H : opened s p fd f x i n).
Lemma open_file_run : open_file fd s = Done (Some f) s.
Proof.
  destruct H as [H1 H2 H3 _ _ _]. unfold open_file. destruct (Z.leb_spec (Z.of_nat NR_OPEN) fd); [lia|].
  rewrite (filp_at_run s p _ _ H1 H3). cbn. by rewrite Nat2Z.id.
Qed.
Lemma file_inode_run : file_inode fd s = Done (Some (f, i)) s.
Proof.
  unfold file_inode. run open_file_run. cbv beta iota. run (get_file_run s f x (op_file _ _ _ _ _ _ _ H)). by rewrite (op_ino _ _ _ _ _ _ _ H).
Qed.
Lemma seek_to_run pos : seek_to f pos s =
  if pos <? 0 then Done (- EINVAL) s else Done pos (s <| file_table ::= <[f := x <| f_pos := pos |>]> |>).
Proof.
  unfold seek_to. destruct (pos <? 0); [done|].
  by run (mod_file_run s f x (fun f => f <| f_pos := pos |>) (op_file _ _ _ _ _ _ _ H)).
Qed.

(** Where the call asks for, in the arithmetic of C. *)
Definition target (offset origin : Z) : option Z :=
  if origin =? 0 then Some offset
  else if origin =? 1 then Some (i32 (f_pos x + offset))
  else if origin =? 2 then Some (i32 (i_size n + offset))
  else None.
Lemma sys_lseek_run offset origin : IS_SEEKABLE (MAJOR (i_dev n)) = true -> i_pipe n = 0 ->
  sys_lseek fd offset origin s =
  match target offset origin with
  | Some pos => if pos <? 0 then Done (- EINVAL) s else Done pos (s <| file_table ::= <[f := x <| f_pos := pos |>]> |>)
  | None => Done (- EINVAL) s
  end.
Proof.
  intros Hs Hp. unfold sys_lseek, target. run file_inode_run. cbv iota beta. run (get_inode_run s i n (op_inode _ _ _ _ _ _ _ H)).
  run (get_file_run s f x (op_file _ _ _ _ _ _ _ H)). rewrite Hs, Hp. cbn [negb]. change (truth 0) with false. cbv iota.
  destruct (origin =? 0); [apply seek_to_run|]. destruct (origin =? 1); [apply seek_to_run|].
  destruct (origin =? 2); [apply seek_to_run|done].
Qed.
End Opened.

(** C17: a position is never negative and never leaves 31 bits.  [sys_lseek] on a seekable
    file either answers [EINVAL] and changes nothing, or moves to the place that was asked
    for, between 0 and 2^31 - 1, answers it and changes nothing else; it refuses exactly
    when the origin is unknown or that place, as a 32-bit integer, is negative. *)
Theorem sys_lseek_bounds s p fd f x i n offset origin : opened s p fd f x i n ->
  IS_SEEKABLE (MAJOR (i_dev n)) = true -> i_pipe n = 0 -> - 2 ^ 31 <= offset < 2 ^ 31 ->
  wp (sys_lseek fd offset origin) (fun r s' => match target x n offset origin with
    | Some pos => if 0 <=? pos then r = pos /\ 0 <= r < 2 ^ 31 /\ s' = s <| file_table ::= <[f := x <| f_pos := pos |>]> |>
                  else r = - EINVAL /\ s' = s
    | None => r = - EINVAL /\ s' = s
    end) s.
Proof.
  intros H Hs Hp Hoff. unfold wp. rewrite (sys_lseek_run s p fd f x i n H offset origin Hs Hp).
  assert (forall pos, target x n offset origin = Some pos -> pos < 2 ^ 31) as Hmax.
  { unfold target, i32. intros pos E. repeat case_match; simplify_eq; dlia. }
  destruct (target x n offset origin) as [pos|]; [|done]. specialize (Hmax pos eq_refl).
  destruct (Z.ltb_spec pos 0), (Z.leb_spec 0 pos); try lia; done.
Qed.

(** ** One open file of a RAM disk *)
Definition seeking_task : task_struct := INIT_TASK <| filp := Some 0 :: replicate 19 None |>.
Definition seek_inode : m_inode := no_inode <| i_dev := 257 |> <| i_size := 1000 |>.
Definition seek_file : file := no_file <| f_inode := Some 0%nat |> <| f_pos := 10 |>.
Definition seek_fs : fs :=
  boot_fs <| kern := boot_kernel <| task := <[0%nat := Some seeking_task]> (task boot_kernel) |> |>
          <| file_table := [seek_file] |> <| inode_table := [seek_inode] |>.
Lemma sys_lseek_bounds_witness : wp (sys_lseek 0 (- 1001) 2) (fun r s' => r = - EINVAL /\ s' = seek_fs) seek_fs.
Proof.
  apply (sys_lseek_bounds seek_fs seeking_task 0 0 seek_file 0 seek_inode (- 1001) 2).
  - split; [by vm_compute|by vm_compute|done..].
  - done.
  - done.
  - lia.
Defined.
End Calls.
