(* ===== verification/Exec.v ===== *)
(** * Exec: the start of a program (fs/exec.c)

    The arguments and the environment are copied, last byte first, to pages of the
    kernel that become the top of the new user memory; [create_tables] then builds the
    pointers to them.  Page tables are reached through the interface [Paging]. *)
From S2P Require Import Prelude Console Task Sched Fork Fs Blk Buffer Bitmap Inode FileDev Namei Super Open.
Import Blk Buffer Bitmap Inode FileDev Namei Super Open.

Module Exec.

(** ** [struct exec] (include/a.out.h) *)
Record exec : Type := mk_exec {
  a_magic : Z; a_text : Z; a_data : Z; a_bss : Z; a_syms : Z; a_entry : Z; a_trsize : Z; a_drsize : Z
}.
Definition exec_read (l : list Z) : exec :=
  mk_exec (word l 0) (word l 4) (word l 8) (word l 12) (word l 16) (word l 20) (word l 24) (word l 28).
Definition ZMAGIC : Z := 267.
Definition SEGMENT_SIZE : Z := 1024.
Definition N_TXTOFF (x : exec) : Z := if a_magic x =? ZMAGIC then SEGMENT_SIZE - 32 + 32 else 32.

Definition MAX_ARG_PAGES : Z := 32.
Definition ENOEXEC : Z := 8.
Definition S_ISUID : Z := 2048.
Definition S_ISGID : Z := 1024.

(** What [do_execve] calls of the memory manager, in its own state. *)
Class Paging : Type := {
  put_page : Z -> Z -> M fs Z;
  free_page_tables : Z -> Z -> M fs Z
}.

Section Strings.
Context {E : Env}.

(** ** The tables of pointers *)

(** [while (get_fs_byte(p++))]: the address after the null. *)
Definition skip_string (p : Z) : M fs Z :=
  f <- string_fuel ;;
  loop f (fun p => c <- fs_get_byte p ;; ret (if truth c then inl (p + 1) else inr (p + 1))) p.
(** [n] pointers to successive strings from [p] on, and the null after them: where the
    strings end. *)
Fixpoint put_pointers (n : nat) (p table : Z) : M fs Z :=
  match n with
  | O => in_kernel (put_fs_long 0 table) ;;; ret p
  | S n => in_kernel (put_fs_long p table) ;;; p <- skip_string p ;; put_pointers n p (table + 4)
  end.
Definition create_tables (p argc envc : Z) : M fs Z :=
  let sp := Z.land 4294967292 p in
  let envp := u32 (sp - 4 * (envc + 1)) in
  let argv := u32 (envp - 4 * (argc + 1)) in
  in_kernel (put_fs_long envp (argv - 4)) ;;;
  in_kernel (put_fs_long argv (argv - 8)) ;;;
  in_kernel (put_fs_long argc (argv - 12)) ;;;
  p <- put_pointers (Z.to_nat argc) p argv ;;
  put_pointers (Z.to_nat envc) p envp ;;;
  ret (u32 (argv - 12)).

Definition count (argv : Z) : M fs Z :=
  if argv =? 0 then ret 0 else
  f <- string_fuel ;;
  loop f (fun i : Z => v <- in_kernel (get_fs_long (argv + 4 * i)) ;; ret (if truth v then inl (i + 1) else inr i)) 0.

(** ** The strings

    Where they are read from: the pointer to the string [i], and the bytes. *)
Record source : Type := mk_source { pointer : nat -> M fs (option Z); bytes : Z -> M fs Z }.
Definition user_source (argv : Z) : source :=
  mk_source (fun i => a <- in_kernel (get_fs_long (argv + 4 * Z.of_nat i)) ;; ret (if a =? 0 then None else Some a))
    fs_get_byte.
(** One string, in user memory or in an array of the kernel. *)
Definition user_string (a : Z) : source :=
  mk_source (fun _ => ret (if a =? 0 then None else Some a)) fs_get_byte.
Definition kernel_string (buf : list Z) (a : Z) : source :=
  mk_source (fun _ => ret (Some a)) (fun i => deref (buf !! Z.to_nat i)).

(** [do len++; while (get_fs_byte(tmp++))]; strings of the kernel are below 1024 bytes. *)
Definition string_length (src : source) (tmp : Z) : M fs Z :=
  f <- string_fuel ;;
  loop (f + 1024) (fun len => c <- bytes src (tmp + len) ;; ret (if truth c then inl (len + 1) else inr (len + 1))) 0.

(** The page of [p], from [get_free_page] when there is none yet. *)
Definition page_for (page : list Z) (p : Z) : M fs (option (Z * list Z)) :=
  pag <- deref (page !! Z.to_nat (p / PAGE_SIZE)) ;;
  if truth pag then ret (Some (pag, page)) else
  pag <- get_free_page ;;
  ret (if truth pag then Some (pag, <[Z.to_nat (p / PAGE_SIZE) := pag]> page) else None).

(** One byte: [pag] is the page and [offset] the place of the last byte in it. *)
Definition put_step (src : source) (st : Z * Z * Z * Z * Z * list Z) :
    M fs ((Z * Z * Z * Z * Z * list Z) + (list Z + Z * Z * Z * list Z)) :=
  let '(p, tmp, len, offset, pag, page) := st in
  if negb (truth len) then ret (inr (inr (p, offset, pag, page))) else
  let p := u32 (p - 1) in let tmp := tmp - 1 in let len := len - 1 in let offset := offset - 1 in
  r <- (if offset <? 0 then
          o <- page_for page p ;;
          ret ((fun '(pag, page) => (p mod PAGE_SIZE, pag, page)) <$> o)
        else ret (Some (offset, pag, page))) ;;
  match r with
  | None => ret (inr (inl page))
  | Some (offset, pag, page) =>
      c <- bytes src tmp ;;
      set_page_byte pag offset c ;;;
      ret (inl (p, tmp, len, offset, pag, page))
  end.
(** The answer is 0 when there is no page; [p-len < 0] compares unsigned numbers. *)
Fixpoint copy_each (src : source) (argc : nat) (p offset pag : Z) (page : list Z) : M fs (Z * list Z) :=
  match argc with
  | O => ret (p, page)
  | S argc =>
      o <- pointer src argc ;;
      match o with
      | None => panic "argc is wrong"
      | Some tmp =>
          len <- string_length src tmp ;;
          if u32 (p - len) <? 0 then ret (0, page) else
          r <- loop (S (Z.to_nat len)) (put_step src) (p, tmp + len, len, offset, pag, page) ;;
          match r with
          | inl page => ret (0, page)
          | inr (p, offset, pag, page) => copy_each src argc p offset pag page
          end
      end
  end.
Definition copy_strings (argc : Z) (src : source) (page : list Z) (p : Z) : M fs (Z * list Z) :=
  if p =? 0 then ret (0, page) else copy_each src (Z.to_nat argc) p 0 0 page.
End Strings.

(** ** The first line of a script *)
Definition BLANK (c : Z) : bool := (c =? 32) || (c =? 9).
(** [strncpy] of at most [n] characters, padded with nulls. *)
Fixpoint strncpy (n : nat) (l : list Z) : list Z :=
  match n, l with
  | S n, c :: l => if c =? 0 then replicate (S n) 0 else c :: strncpy n l
  | n, _ => replicate n 0
  end.
Definition char_at (buf : list Z) (i : nat) : Z := default 0 (buf !! i).
(** The first index from [i] on, among [n], whose character satisfies [f]. *)
Fixpoint scan (n : nat) (f : Z -> bool) (buf : list Z) (i : nat) : option nat :=
  match n with
  | O => None
  | S n => if f (char_at buf i) then Some i else scan n f buf (S i)
  end.
(** The last index after a slash in [i .. j-1], [i] without one. *)
Definition base_name (buf : list Z) (i j : nat) : nat :=
  fold_left (fun a k => if char_at buf k =? SLASH then S k else a) (seq i (j - i)) i.
(** The line with its words ended by nulls, and the offsets of the interpreter, of its
    name and of the argument. *)
Definition parse_interp (buf : list Z) : option (list Z * nat * nat * option nat) :=
  let n := length buf in
  match scan n (fun c => (c =? 10) || (c =? 0)) buf 0 with
  | Some nl =>
      if negb (char_at buf nl =? 10) then None else
      let buf := <[nl := 0]> buf in
      match scan n (fun c => negb (BLANK c)) buf 0 with
      | Some cp =>
          if char_at buf cp =? 0 then None else
          match scan n (fun c => (c =? 0) || BLANK c) buf cp with
          | Some e =>
              let name := base_name buf cp e in
              if char_at buf e =? 0 then Some (buf, cp, name, None) else Some (<[e := 0]> buf, cp, name, Some (S e))
          | None => None
          end
      | None => None
      end
  | None => None
  end.

Section Execve.
Context {E : Env} {P : Paging}.

(** ** The segments of the new program *)
Definition change_ldt (text_size : Z) (page : list Z) : M fs Z :=
  let code_limit := Z.land (u32 (text_size + PAGE_SIZE - 1)) 4294963200 in
  let data_limit := 67108864 in
  p <- in_kernel cur ;;
  let code_base := get_base (Fork.nth_ldt p 1) in
  in_kernel (mod_cur (fun t => t <| ldt ::= alter (fun d => set_limit (set_base d code_base) code_limit) 1%nat |>
                                 <| ldt ::= alter (fun d => set_limit (set_base d code_base) data_limit) 2%nat |>)) ;;;
  for_each (rev (seqZ 0 MAX_ARG_PAGES)) (fun i =>
    let a := default 0 (page !! Z.to_nat i) in
    when (truth a) (put_page a (u32 (code_base + data_limit - (MAX_ARG_PAGES - i) * PAGE_SIZE)) ;;; ret tt)) ;;;
  ret data_limit.

(** ** [do_execve] *)

(** [set_fs(get_ds())] around [m]: what the segment register reaches is [mem]. *)
Definition with_ds {A} (mem : gmap Z Z) (m : M fs A) : M fs A :=
  s <- get ;;
  in_kernel (modify (fun k => k <| umem := mem |>)) ;;;
  a <- m ;;
  in_kernel (modify (fun k => k <| umem := umem (kern s) |>)) ;;;
  ret a.
Definition free_pages (page : list Z) : M fs unit := for_each page free_page.
(** The two ways out: without the inode, and with it. *)
Definition exec_error1 (page : list Z) (e : Z) : M fs (Z + Z * Z) := free_pages page ;;; ret (inl (- e)).
Definition exec_error2 (page : list Z) (inode : nat) (e : Z) : M fs (Z + Z * Z) :=
  iput (Some inode) ;;; exec_error1 page e.

Definition may_execute (p : task_struct) (n : m_inode) : bool :=
  let i := if euid p =? i_uid n then Z.shiftr (i_mode n) 6
           else if egid p =? i_gid n then Z.shiftr (i_mode n) 3 else i_mode n in
  truth (Z.land i 1) || (truth (Z.land (i_mode n) 73) && (euid p =? 0)).
Definition good_header (ex : exec) (n : m_inode) : bool :=
  negb (negb (a_magic ex =? ZMAGIC) || truth (a_trsize ex) || truth (a_drsize ex) ||
        (50331648 <? u32 (a_text ex + a_data ex + a_bss ex)) ||
        (i_size n <? u32 (a_text ex + a_data ex + a_syms ex + N_TXTOFF ex))).

(** After the point of no return: the entry point and the stack pointer. *)
Definition start_program (ex : exec) (inode : nat) (e_uid e_gid p argc envc : Z) (page : list Z) : M fs (Z * Z) :=
  c <- in_kernel cur ;;
  iput (Z.to_nat <$> executable c) ;;;
  in_kernel (mod_cur (fun t => t <| executable := Some (Z.of_nat inode) |>
                                 <| sigactions ::= map (fun a => a <| sa_handler := 0 |>) |>)) ;;;
  for_each (seqZ 0 (Z.of_nat NR_OPEN)) (fun i =>
    c <- in_kernel cur ;; when (truth (Z.land (Z.shiftr (close_on_exec c) i) 1)) (sys_close i ;;; ret tt)) ;;;
  in_kernel (mod_cur (fun t => t <| close_on_exec := 0 |>)) ;;;
  c <- in_kernel cur ;;
  free_page_tables (get_base (Fork.nth_ldt c 1)) (get_limit (Fork.nth_ldt c 1)) ;;;
  free_page_tables (get_base (Fork.nth_ldt c 2)) (get_limit (Fork.nth_ldt c 2)) ;;;
  in_kernel (modify (fun k => if bool_decide (last_task_used_math k = Some (current k))
                              then k <| last_task_used_math := None |> else k)) ;;;
  in_kernel (mod_cur (fun t => t <| used_math := 0 |>)) ;;;
  limit <- change_ldt (a_text ex) page ;;
  p <- create_tables (u32 (p + limit - MAX_ARG_PAGES * PAGE_SIZE)) argc envc ;;
  in_kernel (mod_cur (fun t => t <| end_code := a_text ex |> <| end_data := u32 (a_data ex + a_text ex) |>
                                 <| brk := u32 (a_bss ex + u32 (a_data ex + a_text ex)) |>
                                 <| start_stack := Z.land p 4294963200 |>
                                 <| euid := u16 e_uid |> <| egid := u16 e_gid |>)) ;;;
  let i := i32 (a_text ex + a_data ex) in
  for_each (seqZ i ((- i) mod 4096)) (fs_put_byte 0) ;;;
  ret (a_entry ex, p).

(** From [restart_interp] on; [sh_bang] says that the inode is an interpreter's. *)
Fixpoint run_file (restarts : nat) (filename argv envp : Z) (sh_bang : bool) (argc envc p : Z) (page : list Z)
    (inode : nat) : M fs (Z + Z * Z) :=
  n <- get_inode inode ;;
  if negb (S_ISREG (i_mode n)) then exec_error2 page inode EACCES else
  c <- in_kernel cur ;;
  let e_uid := if truth (Z.land (i_mode n) S_ISUID) then i_uid n else euid c in
  let e_gid := if truth (Z.land (i_mode n) S_ISGID) then i_gid n else egid c in
  if negb (may_execute c n) then exec_error2 page inode ENOEXEC else
  o <- bread (i_dev n) (zone n 0) ;;
  match o with
  | None => exec_error2 page inode EACCES
  | Some bh =>
      b <- get_buf bh ;;
      let ex := exec_read (b_data b) in
      if (byte (b_data b) 0 =? 35) && (byte (b_data b) 1 =? 33) && negb sh_bang then
        let buf := strncpy 1022 (drop 2 (b_data b)) ++ [0] in
        brelse (Some bh) ;;; iput (Some inode) ;;;
        match parse_interp buf, restarts with
        | None, _ => exec_error1 page ENOEXEC
        | Some _, O => nofuel
        | Some (buf, interp, i_name, i_arg), S restarts =>
            r <- copy_strings envc (user_source envp) page p ;; let '(p, page) := r in
            let argc := argc - 1 in
            r <- copy_strings argc (user_source (argv + 4)) page p ;; let '(p, page) := r in
            r <- copy_strings 1 (user_string filename) page p ;; let '(p, page) := r in
            r <- match i_arg with
                 | Some a => copy_strings 1 (kernel_string buf (Z.of_nat a)) page p
                 | None => ret (p, page)
                 end ;; let '(p, page) := r in
            let argc := argc + 1 + (match i_arg with Some _ => 1 | None => 0 end) in
            r <- copy_strings 1 (kernel_string buf (Z.of_nat i_name)) page p ;; let '(p, page) := r in
            if p =? 0 then exec_error1 page ENOMEM else
            o <- with_ds (map_seqZ 0 buf) (namei (Z.of_nat interp)) ;;
            match o with
            | None => exec_error1 page ENOENT
            | Some inode => run_file restarts filename argv envp true (argc + 1) envc p page inode
            end
        end
      else
      brelse (Some bh) ;;;
      n <- get_inode inode ;;
      if negb (good_header ex n) then exec_error2 page inode ENOEXEC else
      if negb (N_TXTOFF ex =? BLOCK_SIZE) then
        printk "%s: N_TXTOFF != BLOCK_SIZE. See a.out.h." [filename] ;;; exec_error2 page inode ENOEXEC
      else
      r <- (if sh_bang then ret (p, page) else
            r <- copy_strings envc (user_source envp) page p ;;
            copy_strings argc (user_source argv) (snd r) (fst r)) ;;
      let '(p, page) := r in
      if negb sh_bang && (p =? 0) then exec_error2 page inode ENOMEM else
      x <- start_program ex inode e_uid e_gid p argc envc page ;;
      ret (inr x)
  end.
(** [cs] is the caller's code segment, [eip[1]]; the answer is an error, or the new
    [eip[0]] and [eip[3]]. *)
Definition do_execve (cs filename argv envp : Z) : M fs (Z + Z * Z) :=
  if negb (Z.land 65535 cs =? 15) then panic "execve called from supervisor mode" else
  o <- namei filename ;;
  match o with
  | None => ret (inl (- ENOENT))
  | Some inode =>
      argc <- count argv ;;
      envc <- count envp ;;
      run_file 1 filename argv envp false argc envc (PAGE_SIZE * MAX_ARG_PAGES - 4)
        (replicate (Z.to_nat MAX_ARG_PAGES) 0) inode
  end.
End Execve.
End Exec.
