(* ===== verification/Args.v ===== *)
(** * Args: the arguments of a new program

    What [copy_strings] of [Exec] leaves in the pages of the new stack, and what becomes of
    arguments that do not fit. *)
From S2P Require Import Prelude Console Task Sched Fs Blk Buffer Bitmap Inode FileDev View Pipe Namei Lookup Super Open Exec.
Import Blk Buffer Bitmap Inode FileDev View Pipe Namei Lookup Super Open Exec.

Module Args.

(** ** Pages for the asking: what is used of [get_free_page] *)
Class PageSupply {E : Env} : Type := {
  room : fs -> nat -> Prop;
  room_frame s s' n : dom (pages s') = dom (pages s) -> room s n -> room s' n;
  get_page s n : room s (S n) -> exists a,
    get_free_page s = Done a (s <| pages ::= <[a := replicate 4096 0]> |>) /\ a <> 0 /\ pages s !! a = None /\
    room (s <| pages ::= <[a := replicate 4096 0]> |>) n
}.

(** ** The strings in the old memory *)
Definition c_string (k : kernel) (a : Z) (l : list Z) : Prop :=
  user_name k a (Z.of_nat (length l)) = l /\ user_byte k (a + Z.of_nat (length l)) = 0 /\ Forall (fun c => 0 < c < 256) l.
(** The array at [argv] points to the strings [strs]. *)
Definition strings_at (k : kernel) (argv : Z) (strs : list (list Z)) : Prop :=
  forall i l, strs !! i = Some l -> read_long (umem k) (argv + 4 * Z.of_nat i) <> 0 /\
    c_string k (read_long (umem k) (argv + 4 * Z.of_nat i)) l.
(** A string with its null, and all of them. *)
Definition layout (strs : list (list Z)) : list Z := concat (map (fun l => l ++ [0]) strs).

(** ** The pages of the new stack *)
Definition arg_byte (s : fs) (page : list Z) (j : Z) : option Z :=
  match page !! Z.to_nat (j / 4096) with
  | Some a => match pages s !! a with Some P => P !! Z.to_nat (j mod 4096) | None => None end
  | None => None
  end.
Definition holds (s : fs) (page : list Z) (p : Z) (l : list Z) : Prop :=
  forall k v, l !! k = Some v -> arg_byte s page (p + Z.of_nat k) = Some v.
Record pages_ok (s : fs) (page : list Z) : Prop := {
  po_length : length page = 32%nat;
  po_null : pages s !! 0 = None;
  po_page i a : page !! i = Some a -> a <> 0 -> exists P, pages s !! a = Some P /\ length P = 4096%nat;
  po_inj i j a : page !! i = Some a -> page !! j = Some a -> a <> 0 -> i = j
}.
Definition nulls (page : list Z) : nat := length (filter (fun a => a = 0) page).

Lemma nulls_insert page i a : page !! i = Some 0 -> a <> 0 -> nulls page = S (nulls (<[i := a]> page)).
Proof.
  intros Hi Ha. pose proof (lookup_lt_Some _ _ _ Hi). unfold nulls. rewrite <- (take_drop_middle page i 0 Hi) at 1.
  rewrite insert_take_drop by done. rewrite !filter_app, !filter_cons, !length_app.
  rewrite decide_True by done. rewrite decide_False by done. cbn [length]. lia.
Qed.

Section Copy.
Context {E : Env} {G : PageSupply}.

(** The page of a position, once it is there. *)
Lemma page_for_ok s page p : pages_ok s page -> room s (nulls page) -> 0 <= p < 131072 ->
  exists a page' s', page_for page p s = Done (Some (a, page')) s' /\ pages_ok s' page' /\ room s' (nulls page') /\
    page' !! Z.to_nat (p / 4096) = Some a /\ a <> 0 /\ kern s' = kern s /\
    (forall j v, 0 <= j -> arg_byte s page j = Some v -> arg_byte s' page' j = Some v).
Proof.
  intros [H1 H2 H3 H4] Hroom Hp. assert (0 <= p / 4096 < 32) as Hi by dlia.
  destruct (lookup_lt_is_Some_2 page (Z.to_nat (p / 4096))) as [a Ha]; [lia|].
  unfold page_for. change PAGE_SIZE with 4096. rewrite Ha. cbn [deref]. rewrite bind_ret. unfold truth.
  destruct (Z.eqb_spec a 0) as [->|Hne]; cbn [negb]; [|by exists a, page, s].
  destruct (nulls page) as [|m] eqn:Em.
  { exfalso. assert (0 ∈ filter (fun a => a = 0) page) as Hin by (apply list_elem_of_filter; split; [done|by eapply list_elem_of_lookup_2]).
    unfold nulls in Em. apply nil_length_inv in Em. rewrite Em in Hin. inversion Hin. }
  destruct (get_page s m Hroom) as (b & Hget & Hb0 & Hfresh & Hroom'). run Hget. unfold truth.
  destruct (Z.eqb_spec b 0); [done|]. cbn [negb]. set (s' := s <| pages ::= _ |>) in *.
  set (page' := <[Z.to_nat (p / 4096) := b]> page).
  assert (forall j c, page' !! j = Some c -> c <> b -> page !! j = Some c) as Hold.
  { intros j c Hj Hc. unfold page' in Hj. apply list_lookup_insert_Some in Hj as [(_ & -> & _)|[_ Hj]]; done. }
  assert (forall j, page' !! j = Some b -> j = Z.to_nat (p / 4096)) as Hnew.
  { intros j Hj. unfold page' in Hj. apply list_lookup_insert_Some in Hj as [(-> & _)|[_ Hj]]; [done|].
    destruct (H3 j b Hj Hb0) as (P & HP & _). congruence. }
  exists b, page', s'. split; [done|]. split; [|split; [|split; [|split; [done|split; [done|]]]]].
  - split.
    + unfold page'. by rewrite length_insert.
    + cbn. by rewrite lookup_insert_ne.
    + intros j c Hj Hc. destruct (decide (c = b)) as [->|Hcb].
      * exists (replicate 4096 0). split; [cbn; apply lookup_insert_eq|apply length_replicate].
      * destruct (H3 j c) as (P & HP & HlP); [by apply Hold|done|]. exists P. split; [|done]. cbn. by rewrite lookup_insert_ne.
    + intros i j c Hci Hcj Hc. destruct (decide (c = b)) as [->|Hcb]; [by rewrite (Hnew i Hci), (Hnew j Hcj)|].
      apply (H4 i j c); [by apply Hold|by apply Hold|done].
  - rewrite (nulls_insert page (Z.to_nat (p / 4096)) b Ha Hb0) in Em. injection Em as Em. fold page' in Em. rewrite Em. exact Hroom'.
  - unfold page'. apply list_lookup_insert_eq. lia.
  - intros j v Hj Hv. unfold arg_byte in *. destruct (page !! Z.to_nat (j / 4096)) as [c|] eqn:Ec; [|done].
    destruct (decide (c = 0)) as [->|Hc0]; [by rewrite H2 in Hv|].
    destruct (decide (Z.to_nat (j / 4096) = Z.to_nat (p / 4096))) as [Ej|Ej]; [rewrite Ej, Ha in Ec; congruence|].
    unfold page'. rewrite list_lookup_insert_ne, Ec by done. cbn. rewrite lookup_insert_ne; [done|].
    intros <-. destruct (H3 _ _ Ec Hc0) as (P & HP & _). congruence.
Qed.
(** One byte more, below the others: where the next one goes. *)
Definition cursor (page : list Z) (p offset pag : Z) : Prop :=
  offset = 0 \/ (offset = p mod 4096 /\ page !! Z.to_nat (p / 4096) = Some pag /\ pag <> 0).
(** What one byte, or several, must keep. *)
Record grown (s : fs) (page : list Z) (p : Z) (s' : fs) (page' : list Z) : Prop := {
  gr_pages : pages_ok s' page';
  gr_room : room s' (nulls page');
  gr_kern : kern s' = kern s;
  gr_old j v : p <= j -> arg_byte s page j = Some v -> arg_byte s' page' j = Some v
}.
Lemma set_arg_byte s page p a c : pages_ok s page -> room s (nulls page) -> 0 <= p -> page !! Z.to_nat (p / 4096) = Some a -> a <> 0 ->
  exists s', set_page_byte a (p mod 4096) c s = Done tt s' /\ grown s page (p + 1) s' page /\
    arg_byte s' page p = Some (u8 c).
Proof.
  intros Hok Hroom Hp Ha Hne. destruct (po_page s page Hok _ a Ha Hne) as (P & HP & Hl).
  assert (0 <= p mod 4096 < 4096) as Hm by dlia.
  destruct (lookup_lt_is_Some_2 P (Z.to_nat (p mod 4096))) as [x Hx]; [lia|].
  exists (s <| pages ::= alter (set_byte (p mod 4096) c) a |>). split.
  { unfold set_page_byte, page_byte, bind, get, modify. rewrite HP. cbn [deref ret]. rewrite Hx. done. }
  assert (alter (set_byte (p mod 4096) c) a (pages s) !! a = Some (set_byte (p mod 4096) c P)) as Ha' by (rewrite lookup_alter_eq, HP; done).
  split; [split|].
  - destruct Hok as [H1 H2 H3 H4]. split; [done| | |done].
    + cbn. by rewrite lookup_alter_ne.
    + intros i b Hi Hb. destruct (decide (b = a)) as [->|Hba].
      * eexists. split; [exact Ha'|]. unfold set_byte. by rewrite length_insert.
      * destruct (H3 i b Hi Hb) as (Q & HQ & HlQ). exists Q. split; [|done]. cbn. by rewrite lookup_alter_ne.
  - apply (room_frame s); [|done]. cbn. apply dom_alter_L.
  - done.
  - intros j v Hj Hv. unfold arg_byte in *. destruct (page !! Z.to_nat (j / 4096)) as [b|] eqn:Eb; [|done].
    cbn [pages upd upd_pages]. destruct (decide (b = a)) as [->|Hba].
    + cbn. rewrite Ha'. rewrite HP in Hv. unfold set_byte.
      pose proof (po_inj s page Hok _ _ a Eb Ha Hne) as Hpg. rewrite list_lookup_insert_ne; [done|]. intros Heq.
      assert (0 <= j / 4096) by dlia. dlia.
    + cbn. rewrite lookup_alter_ne by done. done.
  - unfold arg_byte. rewrite Ha. cbn. rewrite Ha'. unfold set_byte. apply list_lookup_insert_eq. lia.
Qed.

(** The bytes of one string, the last first. *)
Section OneString.
Context (argv base : Z).
Lemma put_run (r : Z) (f : nat) m : 0 <= r -> forall s p offset pag page l, pages_ok s page -> room s (nulls page) -> cursor page p offset pag ->
  Z.of_nat m <= p <= 131072 -> length l = m ->
  (forall i c, l !! i = Some c -> user_byte (kern s) (base + Z.of_nat i) = c /\ 0 <= c < 256) ->
  exists s' offset' pag' page',
    loop (m + f) (put_step (user_source argv)) (p, base + Z.of_nat m, r + Z.of_nat m, offset, pag, page) s =
      loop f (put_step (user_source argv)) (p - Z.of_nat m, base, r, offset', pag', page') s' /\
    cursor page' (p - Z.of_nat m) offset' pag' /\ grown s page p s' page' /\ holds s' page' (p - Z.of_nat m) l.
Proof.
  intros Hr. induction m as [|m IH]; intros s p offset pag page l Hok Hroom Hcur Hp Hl Hbytes.
  - exists s, offset, pag, page. split; [|split; [|split]].
    + by rewrite Z.sub_0_r, !Z.add_0_r.
    + by rewrite Z.sub_0_r.
    + by split.
    + intros k v Hk. by destruct l.
  - destruct l as [|c l _] using rev_ind; [done|]. rewrite length_app in Hl. cbn in Hl.
    assert (length l = m) as Hlm by lia.
    destruct (Hbytes m c) as [Hc Hcr]; [rewrite <- Hlm, lookup_app_r, Nat.sub_diag by lia; done|].
    assert (exists a page1 s1, page1 !! Z.to_nat ((p - 1) / 4096) = Some a /\ a <> 0 /\ grown s page p s1 page1 /\
      (if offset - 1 <? 0 then o <- page_for page (p - 1) ;;
         ret ((fun '(pag, page) => ((p - 1) mod PAGE_SIZE, pag, page)) <$> o) else ret (Some (offset - 1, pag, page))) s =
        Done (Some ((p - 1) mod 4096, a, page1)) s1) as (a & page1 & s1 & Ha & Hne & Hgr & Hrun).
    { destruct Hcur as [->|(-> & Hpag & Hne)].
      - destruct (page_for_ok s page (p - 1) Hok Hroom) as (a & page1 & s1 & Hrun & Hok1 & Hroom1 & Ha & Hne & Hk & Hold); [lia|].
        exists a, page1, s1. split; [done|]. split; [done|]. split; [split; [done..|]; intros; apply Hold; [lia|done]|].
        change (0 - 1 <? 0) with true. cbv iota. run Hrun. done.
      - destruct (Z.ltb_spec (p mod 4096 - 1) 0).
        + destruct (page_for_ok s page (p - 1) Hok Hroom) as (a & page1 & s1 & Hrun & Hok1 & Hroom1 & Ha & Hne1 & Hk & Hold); [lia|].
          exists a, page1, s1. split; [done|]. split; [done|]. split; [split; [done..|]; intros; apply Hold; [lia|done]|].
          run Hrun. done.
        + exists pag, page, s. replace ((p - 1) / 4096) with (p / 4096) by dlia. split; [done|]. split; [done|]. split; [by split|].
          unfold ret. repeat f_equal. dlia. }
    destruct Hgr as [Hok1 Hroom1 Hk1 Hold1].
    destruct (set_arg_byte s1 page1 (p - 1) a c Hok1 Hroom1) as (s2 & Hset & [Hok2 Hroom2 Hk2 Hold2] & Hlast); [lia|done..|].
    replace (p - 1 + 1) with p in Hold2 by lia.
    destruct (IH s2 (p - 1) ((p - 1) mod 4096) a page1 l) as (s' & o' & a' & page' & Hloop & Hcur' & [Hok3 Hroom3 Hk3 Hold3] & Hh);
      [done|done|by right|lia|done|..].
    { intros i d Hi. rewrite Hk2, Hk1. apply Hbytes. by apply lookup_app_l_Some. }
    exists s', o', a', page'. replace (p - Z.of_nat (S m)) with (p - 1 - Z.of_nat m) by lia. split; [|split; [done|split]].
    + cbn [loop Nat.add]. rewrite <- Hloop. unfold put_step at 1. unfold truth. destruct (Z.eqb_spec (r + Z.of_nat (S m)) 0); [lia|]. cbv beta iota zeta. cbn [negb].
      rewrite (u32_id (p - 1)) by (change (2 ^ 32) with 4294967296; lia). rewrite bind_assoc. run Hrun. cbv beta iota.
      rewrite bind_assoc. change (bytes (user_source argv)) with fs_get_byte.
      replace (base + Z.of_nat (S m) - 1) with (base + Z.of_nat m) by lia. replace (r + Z.of_nat (S m) - 1) with (r + Z.of_nat m) by lia.
      run (fs_get_byte_run s1 (base + Z.of_nat m)). rewrite Hk1, Hc. cbv beta. rewrite bind_assoc. run Hset. done.
    + split; [done|done|congruence|]. intros j v Hj Hv. apply Hold3; [lia|]. apply Hold2; [done|]. by apply Hold1.
    + intros k v Hk. apply lookup_app_Some in Hk as [Hk|[Hge Hk]]; [by apply Hh|].
      assert (k = m /\ v = c) as [-> ->] by (apply list_lookup_singleton_Some in Hk; lia).
      apply Hold3; [lia|]. replace (p - 1 - Z.of_nat m + Z.of_nat m) with (p - 1) by lia. rewrite Hlast. f_equal. apply u8_id. done.
Qed.
End OneString.

(** ** The length of a string *)
Lemma c_string_byte k a l i c : c_string k a l -> l !! i = Some c -> user_byte k (a + Z.of_nat i) = c /\ 0 < c < 256.
Proof.
  intros (Hn & _ & Hl) Hi. split; [|by apply (Forall_lookup_1 _ _ _ _ Hl Hi)]. pose proof (lookup_lt_Some _ _ _ Hi).
  rewrite <- Hn in Hi. unfold user_name in Hi. change (map ?g ?l) with (g <$> l) in Hi.
  rewrite list_lookup_fmap, lookup_seqZ_lt in Hi by lia. by injection Hi.
Qed.
(** A string that ends is not longer than the memory. *)
Lemma c_string_bounded k a l : c_string k a l -> (length l <= size (umem k))%nat.
Proof.
  intros Hc. assert (Z.of_nat (length l) <= 2 ^ 32) as Hlen.
  { apply Z.nlt_ge. intros Hgt. pose proof Hc as (Hn & H0 & Hl).
    destruct (lookup_lt_is_Some_2 l (Z.to_nat (Z.of_nat (length l) - 2 ^ 32))) as [c Hi]; [lia|].
    destruct (c_string_byte k a l _ c Hc Hi) as [Hb Hr]. unfold user_byte in *.
    replace (u32 (a + Z.of_nat (Z.to_nat (Z.of_nat (length l) - 2 ^ 32)))) with (u32 (a + Z.of_nat (length l))) in Hb; [lia|].
    unfold u32. rewrite Z2Nat.id by lia. change (2 ^ 32) with 4294967296. dlia. }
  set (keys := (fun i => u32 (a + i)) <$> seqZ 0 (Z.of_nat (length l))).
  assert (NoDup keys) as Hnd.
  { apply NoDup_fmap_2_strong; [|apply NoDup_seqZ]. intros i j Hi Hj. apply elem_of_seqZ in Hi, Hj.
    unfold u32. change (2 ^ 32) with 4294967296 in *. intros. dlia. }
  assert (length keys = length l) as <- by (unfold keys; rewrite length_fmap, length_seqZ; lia).
  rewrite <- (size_list_to_set (C := gset Z) keys) by done. rewrite <- size_dom. apply subseteq_size.
  intros x Hx. apply elem_of_list_to_set in Hx. unfold keys in Hx. apply list_elem_of_fmap in Hx as (i & -> & Hi).
  apply elem_of_seqZ in Hi. destruct (lookup_lt_is_Some_2 l (Z.to_nat i)) as [c Hc']; [lia|].
  destruct (c_string_byte k a l _ c Hc Hc') as [Hb Hr]. rewrite Z2Nat.id in Hb by lia. unfold user_byte in Hb.
  apply elem_of_dom. destruct (umem k !! u32 (a + i)); [by eexists|]. cbn in Hb. lia.
Qed.
Lemma string_length_run argv s a l : c_string (kern s) a l ->
  string_length (user_source argv) a s = Done (Z.of_nat (length l) + 1) s.
Proof.
  intros Hc. pose proof (c_string_bounded _ _ _ Hc) as Hsize. unfold string_length, string_fuel. unfold bind at 1, gets.
  assert (forall m i f, (i + m = length l)%nat -> (m < f)%nat ->
    loop f (fun len => c <- bytes (user_source argv) (a + len) ;; ret (if truth c then inl (len + 1) else inr (len + 1))) (Z.of_nat i) s =
    Done (Z.of_nat (length l) + 1) s) as H.
  { induction m as [|m IH]; intros i f Hi Hf; (destruct f as [|f]; [lia|]); cbn [loop];
      change (bytes (user_source argv)) with fs_get_byte; rewrite bind_assoc; run (fs_get_byte_run s (a + Z.of_nat i)); unfold truth.
    - rewrite Nat.add_0_r in Hi. subst i. destruct Hc as (_ & -> & _). done.
    - destruct (lookup_lt_is_Some_2 l i) as [c Hl]; [lia|]. destruct (c_string_byte _ _ _ _ _ Hc Hl) as [-> Hr].
      destruct (Z.eqb_spec c 0); [lia|]. cbn [negb]. rewrite bind_ret. replace (Z.of_nat i + 1) with (Z.of_nat (S i)) by lia.
      apply IH; lia. }
  apply (H (length l) 0%nat); lia.
Qed.
Lemma c_string_with_null k a l i c : c_string k a l -> (l ++ [0]) !! i = Some c -> user_byte k (a + Z.of_nat i) = c /\ 0 <= c < 256.
Proof.
  intros Hc Hi. apply lookup_app_Some in Hi as [Hi|[Hge Hi]].
  - destruct (c_string_byte k a l i c Hc Hi). lia.
  - apply list_lookup_singleton_Some in Hi as [Hi <-]. destruct Hc as (_ & H0 & _). replace i with (length l) by lia. lia.
Qed.

(** ** All the strings *)
Lemma pointer_run argv s strs i l : strings_at (kern s) argv strs -> strs !! i = Some l -> exists a,
  pointer (user_source argv) i s = Done (Some a) s /\ c_string (kern s) a l.
Proof.
  intros Hs Hi. destruct (Hs i l Hi) as [Hne Hc]. eexists. split; [|exact Hc]. cbn [pointer user_source].
  unfold in_kernel, zoom, bind at 1. rewrite get_fs_long_eq, kern_same. by destruct (Z.eqb_spec (read_long (umem (kern s)) (argv + 4 * Z.of_nat i)) 0).
Qed.
Lemma layout_snoc strs l : layout (strs ++ [l]) = layout strs ++ l ++ [0].
Proof. unfold layout. rewrite map_app, concat_app. cbn. by rewrite app_nil_r. Qed.
Lemma copy_each_run argv strs : forall s p offset pag page, strings_at (kern s) argv strs -> pages_ok s page ->
  room s (nulls page) -> cursor page p offset pag -> Z.of_nat (length (layout strs)) <= p <= 131072 ->
  exists s' page', copy_each (user_source argv) (length strs) p offset pag page s = Done (p - Z.of_nat (length (layout strs)), page') s' /\
    grown s page p s' page' /\ holds s' page' (p - Z.of_nat (length (layout strs))) (layout strs).
Proof.
  induction strs as [|l strs IH] using rev_ind; intros s p offset pag page Hstr Hok Hroom Hcur Hp.
  - exists s, page. cbn. rewrite Z.sub_0_r. split; [done|]. split; [by split|]. intros k v Hk. done.
  - rewrite layout_snoc, !length_app in *. cbn [length] in *. rewrite Nat.add_1_r. cbn [copy_each].
    destruct (pointer_run argv s (strs ++ [l]) (length strs) l Hstr) as (a & Hptr & Hc); [by rewrite lookup_app_r, Nat.sub_diag by lia|].
    run Hptr. cbv beta iota. run (string_length_run argv s a l Hc). cbv beta. unfold u32. destruct (Z.ltb_spec ((p - (Z.of_nat (length l) + 1)) mod 2 ^ 32) 0) as [H|_].
    { pose proof (Z.mod_pos_bound (p - (Z.of_nat (length l) + 1)) (2 ^ 32)). lia. }
    destruct (put_run argv a 0 1 (S (length l)) ltac:(lia) s p offset pag page (l ++ [0]) Hok Hroom Hcur) as
      (s1 & o1 & a1 & page1 & Hloop & Hcur1 & [Hok1 Hroom1 Hk1 Hold1] & Hh1); [lia|rewrite length_app; cbn; lia|intros; by apply (c_string_with_null _ _ l)|].
    assert (loop (S (Z.to_nat (Z.of_nat (length l) + 1))) (put_step (user_source argv))
      (p, a + (Z.of_nat (length l) + 1), Z.of_nat (length l) + 1, offset, pag, page) s =
      Done (inr (p - Z.of_nat (S (length l)), o1, a1, page1)) s1) as Hrun.
    { replace (Z.of_nat (length l) + 1) with (0 + Z.of_nat (S (length l))) by lia. rewrite Z.add_0_l at 2.
      replace (S (Z.to_nat (0 + Z.of_nat (S (length l))))) with (S (length l) + 1)%nat by lia. exact Hloop. }
    run Hrun. cbv beta iota. destruct (IH s1 (p - Z.of_nat (S (length l))) o1 a1 page1) as (s' & page' & Hrest & [Hok2 Hroom2 Hk2 Hold2] & Hh2);
      [|done|done|done|lia|].
    { rewrite Hk1. intros i d Hi. apply Hstr. by apply lookup_app_l_Some. }
    exists s', page'. rewrite Hrest. replace (p - Z.of_nat (length (layout strs) + (length l + 1))) with
      (p - Z.of_nat (S (length l)) - Z.of_nat (length (layout strs))) by lia. split; [done|]. split.
    + split; [done|done|congruence|]. intros j v Hj Hv. apply Hold2; [lia|]. by apply Hold1.
    + intros k v Hk. apply lookup_app_Some in Hk as [Hk|[Hge Hk]]; [by apply Hh2|]. apply Hold2; [lia|].
      replace (p - Z.of_nat (S (length l)) - Z.of_nat (length (layout strs)) + Z.of_nat k) with
        (p - Z.of_nat (S (length l)) + Z.of_nat (k - length (layout strs))) by lia. by apply Hh1.
Qed.
(** C7: the arguments of a new program.  [copy_strings] copies the strings, each with
    its null and the first at the lowest address, to the pages of the new stack: the bytes
    end where [p] was and the answer is where they begin, what was above is kept, and
    nothing changes in the tasks, their memory and the other variables of the kernel proper.  They fit below [p], and memory has a page for
    every null pointer of the page list. *)
Theorem copy_strings_ok argv strs s p page : strings_at (kern s) argv strs -> pages_ok s page -> room s (nulls page) ->
  Z.of_nat (length (layout strs)) < p <= 131072 ->
  wp (copy_strings (Z.of_nat (length strs)) (user_source argv) page p) (fun r s' =>
    fst r = p - Z.of_nat (length (layout strs)) /\ holds s' (snd r) (fst r) (layout strs) /\
    (forall j v, p <= j -> arg_byte s page j = Some v -> arg_byte s' (snd r) j = Some v) /\
    pages_ok s' (snd r) /\ room s' (nulls (snd r)) /\ kern s' = kern s) s.
Proof.
  intros Hstr Hok Hroom Hp. unfold copy_strings. destruct (Z.eqb_spec p 0); [lia|]. rewrite Nat2Z.id.
  destruct (copy_each_run argv strs s p 0 0 page Hstr Hok Hroom) as (s' & page' & Hrun & [H1 H2 H3 H4] & Hh); [by left|lia|].
  unfold wp. rewrite Hrun. done.
Qed.

(** The test [p-len < 0] compares unsigned numbers and never fails: a string that does
    not fit below [p] is copied until [p] wraps round, and then [page[p/PAGE_SIZE]] is
    read far outside the array.  The intended answer is 0, "no memory". *)
Theorem copy_strings_overrun argv strs l s p page : strings_at (kern s) argv (strs ++ [l]) -> pages_ok s page ->
  room s (nulls page) -> 0 < p <= 131072 -> p <= Z.of_nat (length l) ->
  copy_strings (Z.of_nat (length (strs ++ [l]))) (user_source argv) page p s = Fault.
Proof.
  intros Hstr Hok Hroom Hp Hl. unfold copy_strings. destruct (Z.eqb_spec p 0); [lia|].
  rewrite Nat2Z.id, length_app. cbn [length]. rewrite Nat.add_1_r. cbn [copy_each].
  destruct (pointer_run argv s (strs ++ [l]) (length strs) l Hstr) as (a & Hptr & Hc); [by rewrite lookup_app_r, Nat.sub_diag by lia|].
  run Hptr. cbv beta iota. run (string_length_run argv s a l Hc). cbv beta.
  destruct (Z.ltb_spec (u32 (p - (Z.of_nat (length l) + 1))) 0) as [H|_].
  { unfold u32 in H. pose proof (Z.mod_pos_bound (p - (Z.of_nat (length l) + 1)) (2 ^ 32)). lia. }
  set (r := Z.of_nat (length l) + 1 - p). assert (0 < r) by (unfold r; lia).
  destruct (put_run argv (a + r) r (S (Z.to_nat r)) (Z.to_nat p) ltac:(lia) s p 0 0 page (drop (Z.to_nat r) (l ++ [0])) Hok Hroom) as
    (s1 & o1 & a1 & page1 & Hloop & Hcur1 & [Hok1 Hroom1 Hk1 Hold1] & Hh1);
    [by left|lia|rewrite length_drop, length_app; cbn; unfold r; lia| |].
  { intros i c Hi. rewrite lookup_drop in Hi. destruct (c_string_with_null _ a l _ _ Hc Hi) as [Hb Hr].
    replace (a + r + Z.of_nat i) with (a + Z.of_nat (Z.to_nat r + i)) by lia. done. }
  assert (loop (S (Z.to_nat (Z.of_nat (length l) + 1))) (put_step (user_source argv))
    (p, a + (Z.of_nat (length l) + 1), Z.of_nat (length l) + 1, 0, 0, page) s = Fault) as Hrun; [|unfold bind; by rewrite Hrun].
  replace (a + (Z.of_nat (length l) + 1)) with (a + r + Z.of_nat (Z.to_nat p)) by (unfold r; lia).
  replace (Z.of_nat (length l) + 1) with (r + Z.of_nat (Z.to_nat p)) at 2 by (unfold r; lia).
  replace (S (Z.to_nat (Z.of_nat (length l) + 1))) with (Z.to_nat p + S (Z.to_nat r))%nat by (unfold r; lia). rewrite Hloop.
  replace (p - Z.of_nat (Z.to_nat p)) with 0 in * by lia. cbn [loop]. unfold put_step at 1, truth.
  destruct (Z.eqb_spec r 0); [lia|]. cbv beta iota zeta. cbn [negb].
  assert (o1 = 0) as -> by (destruct Hcur1 as [|[? _]]; done). change (0 - 1 <? 0) with true. cbv iota.
  unfold page_for. rewrite (lookup_ge_None_2 page1); [done|]. rewrite (po_length _ _ Hok1).
  change (u32 (0 - 1) / PAGE_SIZE) with 1048575. lia.
Qed.
End Copy.

(** ** Two arguments, in a memory of 3840 pages *)
#[local] Instance page_env : Env :=
  {| others _ := ret tt; do_fd_request := ret tt; do_hd_request := ret tt; floppy_change _ := ret false;
     get_free_page := s <- get ;;
       (if (size (pages s) <? 3840)%nat then
          let a : Z := base.fresh ({[0]} ∪ dom (pages s)) in
          modify (fun s => s <| pages ::= <[a := replicate 4096 0]> |>) ;;; ret a
        else ret 0);
     free_page a := modify (fun s => s <| pages ::= delete a |>); fuel := 100 |}.
#[local] Program Instance page_supply : PageSupply :=
  {| room s n := (size (pages s) + n <= 3840)%nat |}.
Next Obligation. intros s s' n Hd H. unfold room in *. rewrite <- !size_dom in *. by rewrite Hd. Qed.
Next Obligation.
  intros s n H. cbv beta in *. pose proof (is_fresh (C := gset Z) ({[0]} ∪ dom (pages s))) as Hf. set (a := base.fresh _) in *.
  apply not_elem_of_union in Hf as [H0 Hd]. rewrite not_elem_of_singleton in H0. rewrite not_elem_of_dom in Hd.
  exists a. split; [|split; [done|split; [done|]]].
  - unfold get_free_page, page_env, bind at 1, get. destruct (Nat.ltb_spec (size (pages s)) 3840); [done|lia].
  - cbn. rewrite map_size_insert_None by done. lia.
Qed.
(** "sh" and "-c" at 8192, and the array that points to them at 4096. *)
Definition two_args : list (list Z) := [[115; 104]; [45; 99]].
Definition args_fs : fs :=
  boot_fs <| kern := boot_kernel <| umem := map_seqZ 4096 [0; 32; 0; 0; 3; 32; 0; 0] ∪ map_seqZ 8192 [115; 104; 0; 45; 99; 0] |> |>.
Lemma two_args_at : strings_at (kern args_fs) 4096 two_args.
Proof.
  intros [|[|i]] l Hi; [| |done]; injection Hi as <-; (split; [by vm_compute|]); (split; [by vm_compute|]); (split; [by vm_compute|]);
    repeat constructor; lia.
Qed.
Lemma no_pages_ok s : pages s = ∅ -> pages_ok s (replicate 32 0).
Proof.
  intros H. split; [done|by rewrite H| |]; [intros i a Hi Ha|intros i j a Hi _ Ha]; apply lookup_replicate in Hi as [-> _]; done.
Qed.
Lemma no_pages_room s : pages s = ∅ -> room s (nulls (replicate 32 0)).
Proof.
  intros H. unfold room, page_supply. rewrite H, map_size_empty. change (nulls (replicate 32 0)) with 32%nat. lia.
Qed.
Lemma copy_strings_ok_witness : wp (copy_strings 2 (user_source 4096) (replicate 32 0) 131068) (fun r s' =>
  fst r = 131062 /\ holds s' (snd r) (fst r) [115; 104; 0; 45; 99; 0] /\
  (forall j v, 131068 <= j -> arg_byte args_fs (replicate 32 0) j = Some v -> arg_byte s' (snd r) j = Some v) /\
  pages_ok s' (snd r) /\ room s' (nulls (snd r)) /\ kern s' = kern args_fs) args_fs.
Proof.
  apply (copy_strings_ok 4096 two_args args_fs 131068 (replicate 32 0)).
  - exact two_args_at.
  - by apply no_pages_ok.
  - by apply no_pages_room.
  - change (length (layout two_args)) with 6%nat. lia.
Defined.
Lemma copy_strings_overrun_witness : copy_strings 2 (user_source 4096) (replicate 32 0) 2 args_fs = Fault.
Proof.
  apply (copy_strings_overrun 4096 [[115; 104]] [45; 99] args_fs 2 (replicate 32 0)).
  - exact two_args_at.
  - by apply no_pages_ok.
  - by apply no_pages_room.
  - lia.
  - cbn. lia.
Defined.
End Args.
