(* ===== verification/Malloc.v ===== *)
(** * Malloc: the kernel's allocator (lib/malloc.c)

    The bucket descriptors and the links between free objects lie in the pages the
    allocator takes from [Memory], as words of physical memory.  The second half
    relates this memory to the set of objects that are in use. *)
From S2P Require Import Prelude Console Task Memory.
Import Memory.

Module Malloc.

(** ** State *)

(** Physical memory, the bucket directory (a size and the first descriptor) and the free descriptors. *)
Record heap : Type := mk_heap {
  hmm : mm;
  bucket_dir : list (Z * Z);
  free_bucket_desc : Z
}.
#[global] Instance upd_hmm : Setter hmm := fun g r => mk_heap (g (hmm r)) (bucket_dir r) (free_bucket_desc r).
#[global] Instance upd_bucket_dir : Setter bucket_dir := fun g r => mk_heap (hmm r) (g (bucket_dir r)) (free_bucket_desc r).
#[global] Instance upd_free_bucket_desc : Setter free_bucket_desc := fun g r => mk_heap (hmm r) (bucket_dir r) (g (free_bucket_desc r)).

Definition sizes : list Z := [16; 32; 64; 128; 256; 512; 1024; 2048; 4096].
(** The table as it is compiled, with its end mark. *)
Definition init_bucket_dir : list (Z * Z) := map (fun size => (size, 0)) (sizes ++ [0]).

Definition in_mm {A} (m : M mm A) : M heap A := zoom hmm (fun k s => s <| hmm := k |>) m.
Definition hrd (a : Z) : M heap Z := in_mm (rd a).
Definition hwr (a v : Z) : M heap unit := in_mm (wr a v).

(** ** [struct bucket_desc] at the address [d]: page, next, freeptr, and two halves *)
Definition d_page (d : Z) : Z := d.
Definition d_next (d : Z) : Z := d + 4.
Definition d_freeptr (d : Z) : Z := d + 8.
Definition d_counts (d : Z) : Z := d + 12.
Definition get_refcnt (d : Z) : M heap Z := w <- hrd (d_counts d) ;; ret (w mod 65536).
Definition set_refcnt (d v : Z) : M heap unit :=
  w <- hrd (d_counts d) ;; hwr (d_counts d) (w - w mod 65536 + u16 v).
Definition set_bucket_size (d v : Z) : M heap unit :=
  w <- hrd (d_counts d) ;; hwr (d_counts d) (w mod 65536 + 65536 * u16 v).

Definition get_dir (k : nat) : M heap (Z * Z) := s <- get ;; deref (bucket_dir s !! k).
Definition set_chain (k : nat) (d : Z) : M heap unit :=
  e <- get_dir k ;; modify (fun s => s <| bucket_dir ::= <[k := (fst e, d)]> |>).

(** A page of free descriptors; each is linked to the one that follows it. *)
Definition init_bucket_desc : M heap unit :=
  first <- in_mm get_free_page ;;
  if negb (truth first) then panic "Out of memory in init_bucket_desc()" else
  for_each (seqZ 0 255) (fun i => hwr (d_next (first + 16 * i)) (first + 16 * (i + 1))) ;;;
  s <- get ;;
  hwr (d_next (first + 16 * 255)) (free_bucket_desc s) ;;;
  modify (fun s => s <| free_bucket_desc := first |>).

(** ** Allocation *)

(** The first bucket that is large enough, from number [k] on; the table ends with size 0. *)
Fixpoint find_dir (dirs : list (Z * Z)) (k : nat) (len : Z) : option nat :=
  match dirs with
  | [] => None
  | (size, _) :: dirs =>
      if negb (truth size) then None else
      if len <=? size then Some k else find_dir dirs (S k) len
  end.

(** A chain has a descriptor for every page it owns: there are less than [PAGING_PAGES]. *)
Definition chain_fuel : nat := S (Z.to_nat PAGING_PAGES).
(** The first descriptor with a free object, or 0. *)
Definition find_desc (chain : Z) : M heap Z :=
  loop chain_fuel (fun bdesc =>
    if negb (truth bdesc) then ret (inr 0) else
    freeptr <- hrd (d_freeptr bdesc) ;;
    if truth freeptr then ret (inr bdesc) else
    next <- hrd (d_next bdesc) ;; ret (inl next)) chain.

(** The chain of free objects of a new page [cp]. *)
Definition chain_objects (cp size : Z) : M heap unit :=
  let n := 4096 / size in
  for_each (seqZ 0 (n - 1)) (fun i => hwr (cp + size * i) (cp + size * i + size)) ;;;
  hwr (cp + size * (n - 1)) 0.

(** The free descriptor [bdesc] becomes a bucket of the entry [k], with a new page. *)
Definition fill_bucket (k : nat) (bdesc : Z) : M heap unit :=
  set_refcnt bdesc 0 ;;;
  e <- get_dir k ;;
  set_bucket_size bdesc (fst e) ;;;
  cp <- in_mm get_free_page ;;
  hwr (d_freeptr bdesc) cp ;;;
  hwr (d_page bdesc) cp ;;;
  if negb (truth cp) then panic "Out of memory in kernel malloc()" else
  chain_objects cp (fst e) ;;;
  e <- get_dir k ;;
  hwr (d_next bdesc) (snd e) ;;;
  set_chain k bdesc.
(** A new bucket for the entry [k] of the directory. *)
Definition new_bucket (k : nat) : M heap Z :=
  s <- get ;;
  when (negb (truth (free_bucket_desc s))) init_bucket_desc ;;;
  s <- get ;;
  let bdesc := free_bucket_desc s in
  next <- hrd (d_next bdesc) ;;
  modify (fun s => s <| free_bucket_desc := next |>) ;;;
  fill_bucket k bdesc ;;;
  ret bdesc.

(** The first free object of a bucket. *)
Definition take_object (bdesc : Z) : M heap Z :=
  retval <- hrd (d_freeptr bdesc) ;;
  next <- hrd retval ;;
  hwr (d_freeptr bdesc) next ;;;
  n <- get_refcnt bdesc ;;
  set_refcnt bdesc (n + 1) ;;;
  ret retval.

(** The message of the first panic is left out: nothing follows it. *)
Definition malloc (len : Z) : M heap Z :=
  s <- get ;;
  match find_dir (bucket_dir s) 0 len with
  | None => panic "malloc: bad arg"
  | Some k =>
      e <- get_dir k ;;
      bdesc <- find_desc (snd e) ;;
      bdesc <- (if negb (truth bdesc) then new_bucket k else ret bdesc) ;;
      take_object bdesc
  end.

(** ** Release *)

(** The descriptor of [page] in a chain, and the one before it. *)
Definition find_page (page chain : Z) : M heap (option (Z * Z)) :=
  loop chain_fuel (fun st : Z * Z =>
    let '(bdesc, prev) := st in
    if negb (truth bdesc) then ret (inr None) else
    p <- hrd (d_page bdesc) ;;
    if p =? page then ret (inr (Some (bdesc, prev))) else
    next <- hrd (d_next bdesc) ;; ret (inl (next, bdesc))) (chain, 0).
Fixpoint find_bucket (dirs : list (Z * Z)) (k : nat) (page size : Z) : M heap (option (nat * Z * Z)) :=
  match dirs with
  | [] => ret None
  | (bsize, chain) :: dirs =>
      if negb (truth bsize) then ret None else
      if bsize <? size then find_bucket dirs (S k) page size else
      o <- find_page page chain ;;
      match o with
      | Some (bdesc, prev) => ret (Some (k, bdesc, prev))
      | None => find_bucket dirs (S k) page size
      end
  end.
(** [prev] again, when it is no longer the one before [bdesc]. *)
Definition check_prev (k : nat) (bdesc prev : Z) : M heap Z :=
  e <- get_dir k ;;
  stale <- (if truth prev then next <- hrd (d_next prev) ;; ret (negb (next =? bdesc))
            else ret (negb (snd e =? bdesc))) ;;
  if stale : bool then
    loop chain_fuel (fun prev =>
      if negb (truth prev) then ret (inr 0) else
      next <- hrd (d_next prev) ;;
      ret (if next =? bdesc then inr prev else inl next)) (snd e)
  else ret prev.
(** [bdesc] is taken out of its chain. *)
Definition unlink (k : nat) (bdesc prev : Z) : M heap unit :=
  prev <- check_prev k bdesc prev ;;
  next <- hrd (d_next bdesc) ;;
  if truth prev then hwr (d_next prev) next else
  e <- get_dir k ;;
  if negb (snd e =? bdesc) then panic "malloc bucket chains corrupted" else set_chain k next.
(** The page of a bucket without objects in use is given back. *)
Definition release_bucket (k : nat) (bdesc prev : Z) : M heap unit :=
  unlink k bdesc prev ;;;
  page <- hrd (d_page bdesc) ;;
  in_mm (free_page page) ;;;
  s <- get ;;
  hwr (d_next bdesc) (free_bucket_desc s) ;;;
  modify (fun s => s <| free_bucket_desc := bdesc |>).

(** The object is put at the head of the free objects of its bucket; the answer is the count. *)
Definition put_object (bdesc obj : Z) : M heap Z :=
  f <- hrd (d_freeptr bdesc) ;;
  hwr obj f ;;;
  hwr (d_freeptr bdesc) obj ;;;
  n <- get_refcnt bdesc ;;
  set_refcnt bdesc (n - 1) ;;;
  get_refcnt bdesc.

Definition free_s (obj size : Z) : M heap unit :=
  let page := Z.land obj 4294963200 in
  s <- get ;;
  o <- find_bucket (bucket_dir s) 0 page size ;;
  match o with
  | None => panic "Bad address passed to kernel free_s()"
  | Some (k, bdesc, prev) =>
      n <- put_object bdesc obj ;;
      when (n =? 0) (release_bucket k bdesc prev)
  end.

(** ** Pages of the allocator *)

(** The page [p] is referred to once, by the allocator. *)
Definition mine (owned : Z -> Z) (s : mm) (p : Z) : Prop :=
  256 <= p < 4096 /\ p < HIGH_MEMORY s / 4096 /\ mem_map s !! Z.to_nat (p - 256) = Some 1 /\ owned (p - 256) = 1.
Lemma mine_no_table owned s p d : mm_ok owned s -> mine owned s p ->
  16 <= d < 1024 -> Z.odd (ram s d) = true -> ram s d / 4096 <> 256 + (p - 256).
Proof.
  intros H (Hp & _ & Hc & Ho). apply unused_not_table.
  rewrite (refs_count owned s (p - 256) 1); [lia|done|lia|done].
Qed.
Lemma write_mine owned s p (r : Z -> Z) : mm_ok owned s -> mine owned s p ->
  (forall w, w / 1024 <> p -> r w = ram s w) -> (forall w, 0 <= r w < 4294967296) ->
  mm_ok owned (s <| ram := r |>).
Proof.
  intros H Hm Hr Hw. destruct Hm as (Hp & Hm).
  apply (mm_ok_page owned s _ (p - 256)); try done; [lia| |].
  - intros d Hd Ho. by apply (mine_no_table owned s p d).
  - intros w Hne. apply Hr. lia.
Qed.
Lemma word_mine owned s a v : mm_ok owned s -> mine owned s (a / 4096) -> 0 <= v < 4294967296 ->
  mm_ok owned (s <| ram ::= fun r w => if w =? a / 4 then v else r w |>).
Proof.
  intros H Hm Hv. apply (write_mine owned s (a / 4096)); [done..| |].
  - intros w Hne. destruct (Z.eqb_spec w (a / 4)) as [->|]; [|done]. exfalso. apply Hne. dlia.
  - intros w. destruct (w =? _); [done|]. apply (ok_words _ _ H).
Qed.

Definition spare (s : mm) (f : Z) : Prop := 0 <= f < 3840 /\ mem_map s !! Z.to_nat f = Some 0.
Lemma take_page owned s f0 : mm_ok owned s -> spare s f0 ->
  wp get_free_page (fun page s' => exists p, page = 4096 * p /\ spare s (p - 256) /\ owned (p - 256) = 0 /\
    mm_ok (own (p - 256) owned) s' /\ mine (own (p - 256) owned) s' p /\
    (forall q, mine owned s q -> q <> p /\ mine (own (p - 256) owned) s' q) /\
    (forall f, spare s f -> f <> p - 256 -> spare s' f) /\
    forall w, w / 1024 <> p -> ram s' w = ram s w) s.
Proof.
  intros H [Hf0 Hz0]. eapply wp_mono; [by apply (get_free_page_run owned)|]. cbv beta. intros page s' G.
  destruct G as [(_ & _ & G)|(f & -> & Hf & Hh & Hz & _ & Ho & _ & Hh' & _ & Hm & Hr & H')]; [by destruct (G f0)|].
  exists (256 + f). replace (256 + f - 256) with f by lia. pose proof (ok_len _ _ H) as Hlen.
  split; [done|]. split; [done|]. split; [done|]. split; [done|]. split; [|split; [|split]].
  - split; [lia|]. rewrite Hh'. split; [done|]. replace (256 + f - 256) with f by lia. unfold own. rewrite Hm, Z.eqb_refl.
    split; [apply list_lookup_insert_eq; lia|lia].
  - intros q (Hq & Hqh & Hqc & Hqo). destruct (decide (q = 256 + f)) as [->|Hne].
    { replace (256 + f - 256) with f in Hqc by lia. congruence. }
    split; [done|]. split; [done|]. rewrite Hh'. split; [done|]. rewrite Hm. unfold own.
    rewrite list_lookup_insert_ne by lia. split; [done|]. destruct (Z.eqb_spec (q - 256) f); lia.
  - intros g [Hg Hgz] Hne. split; [done|]. rewrite Hm. by rewrite list_lookup_insert_ne by lia.
  - intros w Hne. rewrite Hr. by rewrite (proj2 (Z.eqb_neq _ _)) by done.
Qed.
Lemma disown_ok owned s f : mm_ok owned s -> mine owned s (256 + f) ->
  mm_ok (disown f owned) (s <| mem_map ::= <[Z.to_nat f := 0]> |>).
Proof.
  intros H (Hp & Hh & Hc & Ho). replace (256 + f - 256) with f in * by lia.
  pose proof (ok_len _ _ H) as Hlen. pose proof (refs_count owned s f 1 H ltac:(lia) Hc) as Hz. split; cbn.
  - apply (ok_words _ _ H).
  - apply (ok_high _ _ H).
  - intros g. pose proof (ok_owned _ _ H g). unfold disown. destruct (Z.eqb_spec g f) as [->|]; lia.
  - by rewrite length_insert.
  - intros g Hg. destruct (ok_count _ _ H g Hg) as [Hcg Hle]. unfold disown. destruct (Z.eqb_spec g f) as [->|Hne].
    + rewrite list_lookup_insert_eq by lia. split; [f_equal|]; lia.
    + rewrite list_lookup_insert_ne by lia. rewrite Hcg. split; [f_equal|]; lia.
  - intros g Hg Htop. pose proof (ok_top _ _ H g Hg Htop). unfold disown. destruct (Z.eqb_spec g f) as [->|]; [|lia]. dlia.
  - intros d Hd Hodd. destruct (ok_dirs _ _ H d Hd Hodd) as [H1 H2]. split; [done|].
    pose proof (unused_not_table s f d ltac:(lia) Hd Hodd).
    by rewrite list_lookup_insert_ne by lia.
  - apply (ok_ptes _ _ H).
Qed.
Lemma give_page owned s p : mm_ok owned s -> mine owned s p ->
  wp (free_page (4096 * p)) (fun _ s' => ram s' = ram s /\ mm_ok (disown (p - 256) owned) s' /\ spare s' (p - 256) /\
    forall q, q <> p -> mine owned s q -> mine (disown (p - 256) owned) s' q) s.
Proof.
  intros H Hm. pose proof Hm as (Hp & Hh & Hc & Ho). destruct (ok_high _ _ H). pose proof (ok_len _ _ H) as Hlen.
  replace p with (256 + (p - 256)) at 1 by lia.
  eapply wp_run_done; [apply (free_page_run s (p - 256) 1); [lia| |done|lia]|].
  { split; [dlia|lia]. }
  cbn [Z.sub]. split; [done|]. split; [apply disown_ok; [done|by replace (256 + (p - 256)) with p by lia]|]. split.
  - split; [lia|]. cbn. apply list_lookup_insert_eq. lia.
  - intros q Hne (Hq & Hqh & Hqc & Hqo). split; [done|]. split; [done|]. cbn. rewrite list_lookup_insert_ne by lia.
    split; [done|]. unfold disown. destruct (Z.eqb_spec (q - 256) (p - 256)); lia.
Qed.

(** ** Linked lists in memory: [off] is the place of the link *)
Fixpoint lseg (r : Z -> Z) (off head : Z) (l : list Z) (tail : Z) : Prop :=
  match l with
  | [] => head = tail
  | d :: l => head = d /\ d <> 0 /\ lseg r off (r ((d + off) / 4)) l tail
  end.
Lemma lseg_app r off l1 l2 head tail :
  lseg r off head (l1 ++ l2) tail <-> exists mid, lseg r off head l1 mid /\ lseg r off mid l2 tail.
Proof.
  revert head. induction l1 as [|d l1 IH]; intros head; cbn.
  - split; [by exists head|by intros (? & -> & ?)].
  - rewrite IH. split; [intros (-> & ? & mid & ? & ?); by exists mid|by intros (mid & (-> & ? & ?) & ?); split_and!; [..|exists mid]].
Qed.
Lemma lseg_ext r r' off l head tail : (forall d, d ∈ l -> r' ((d + off) / 4) = r ((d + off) / 4)) ->
  lseg r off head l tail -> lseg r' off head l tail.
Proof.
  revert head. induction l as [|d l IH]; intros head Hr; cbn; [done|]. intros (-> & ? & Hl).
  rewrite Hr by set_solver. split; [done|]. split; [done|]. apply IH; [set_solver|done].
Qed.

(** ** What the memory stands for

    A bucket is its descriptor, its page and its free objects, in the order of their
    chain; the heap has the free descriptors, the pages of descriptors and the chain of
    every entry of the directory. *)
Record bucket : Type := mk_bucket { b_desc : Z; b_pg : Z; b_frees : list Z }.
Record ghost : Type := mk_ghost { g_free : list Z; g_pages : list Z; g_chain : nat -> list bucket }.

(** [x] is an object of the page [p]. *)
Definition object (sz p x : Z) : Prop := exists i, 0 <= i < 4096 / sz /\ x = 4096 * p + sz * i.

Record bucket_ok (r : Z -> Z) (sz : Z) (b : bucket) : Prop := {
  bk_page : r (d_page (b_desc b) / 4) = 4096 * b_pg b;
  bk_counts : r (d_counts (b_desc b) / 4) = 65536 * sz + (4096 / sz - Z.of_nat (length (b_frees b)));
  bk_frees : lseg r 0 (r (d_freeptr (b_desc b) / 4)) (b_frees b) 0;
  bk_nodup : NoDup (b_frees b);
  bk_objects x : x ∈ b_frees b -> object sz (b_pg b) x
}.
Definition desc_of (G : ghost) (d : Z) : Prop := d ∈ g_free G \/ exists k b, b ∈ g_chain G k /\ d = b_desc b.
Definition page_of (G : ghost) (p : Z) : Prop := p ∈ g_pages G \/ exists k b, b ∈ g_chain G k /\ p = b_pg b.

Record heap_ok (G : ghost) (owned : Z -> Z) (s : heap) : Prop := {
  h_mm : mm_ok owned (hmm s);
  h_pages p : page_of G p -> mine owned (hmm s) p;
  h_len : length (bucket_dir s) = 10%nat;
  h_end : bucket_dir s !! 9%nat = Some (0, 0);
  h_dirs k sz : sizes !! k = Some sz -> exists head, bucket_dir s !! k = Some (sz, head) /\
    lseg (ram (hmm s)) 4 head (map b_desc (g_chain G k)) 0;
  h_chains k b : b ∈ g_chain G k -> exists sz, sizes !! k = Some sz /\ bucket_ok (ram (hmm s)) sz b;
  h_free : lseg (ram (hmm s)) 4 (free_bucket_desc s) (g_free G) 0;
  h_free_nodup : NoDup (g_free G);
  h_desc d : desc_of G d -> d mod 16 = 0 /\ d / 4096 ∈ g_pages G;
  h_distinct k b k' b' : b ∈ g_chain G k -> b' ∈ g_chain G k' -> b_desc b = b_desc b' \/ b_pg b = b_pg b' -> k = k' /\ b = b';
  h_nodup k : NoDup (map b_desc (g_chain G k));
  h_used k b : b ∈ g_chain G k -> b_desc b ∉ g_free G /\ b_pg b ∉ g_pages G
}.

(** The object [x] of size [sz] is in use. *)
Definition live (G : ghost) (sz x : Z) : Prop :=
  exists k b, sizes !! k = Some sz /\ b ∈ g_chain G k /\ object sz (b_pg b) x /\ x ∉ b_frees b.

(** ** Sizes, objects and descriptors *)
Lemma size_facts k sz : sizes !! k = Some sz -> 16 <= sz <= 4096 /\ sz mod 16 = 0 /\ sz * (4096 / sz) = 4096 /\ 1 <= 4096 / sz <= 256.
Proof.
  intros H. do 9 (destruct k as [|k]; [injection H as <-; vm_compute; intuition congruence|]). done.
Qed.
Lemma object_facts k sz p x : sizes !! k = Some sz -> object sz p x ->
  x / 4096 = p /\ x mod 4 = 0 /\ 4096 * p <= x /\ x + sz <= 4096 * (p + 1).
Proof.
  intros Hk (i & Hi & ->). destruct (size_facts k sz Hk) as (H1 & H2 & H3 & H4).
  assert (sz * i + sz <= 4096) by nia. assert (0 <= sz * i) by nia. assert (exists q, sz = 16 * q) as [q Eq] by (exists (sz / 16); dlia).
  assert (sz * i = 4 * (4 * (q * i))) as E by (rewrite Eq; ring). split; [dlia|]. split; [dlia|]. lia.
Qed.
Lemma objects_apart sz p x y : 0 < sz -> object sz p x -> object sz p y -> x <> y -> x + sz <= y \/ y + sz <= x.
Proof.
  intros Hsz (i & Hi & ->) (j & Hj & ->) Hne. destruct (Z.lt_total i j) as [H|[->|H]]; [left; nia|done|right; nia].
Qed.
Lemma word_of_object x y : x mod 4 = 0 -> y mod 4 = 0 -> x / 4 = y / 4 -> x = y.
Proof. dlia. Qed.
Lemma desc_words d d' i j : d mod 16 = 0 -> d' mod 16 = 0 -> 0 <= i < 16 -> 0 <= j < 16 -> (d + i) / 4 = (d' + j) / 4 -> d = d'.
Proof. dlia. Qed.
Lemma desc_page d i : d mod 16 = 0 -> 0 <= i < 16 -> (d + i) / 4 / 1024 = d / 4096.
Proof. dlia. Qed.
Lemma object_page k sz p x : sizes !! k = Some sz -> object sz p x -> x / 4 / 1024 = p.
Proof. intros Hk Hx. destruct (object_facts k sz p x Hk Hx) as (<- & _). dlia. Qed.

(** ** What a change elsewhere leaves *)

(** The words that [heap_ok] reads. *)
Definition desc_word (d w : Z) : Prop := d / 4 <= w < d / 4 + 4.
Definition free_word (b : bucket) (w : Z) : Prop := exists x, x ∈ b_frees b /\ w = x / 4.

Lemma bucket_ok_ext r r' sz b :
  (forall w, (desc_word (b_desc b) w /\ w <> d_next (b_desc b) / 4) \/ free_word b w -> r' w = r w) ->
  bucket_ok r sz b -> bucket_ok r' sz b.
Proof.
  intros Hr [H1 H2 H3 H4 H5].
  assert (forall i, i = 0 \/ i = 8 \/ i = 12 -> r' ((b_desc b + i) / 4) = r ((b_desc b + i) / 4)) as Hd.
  { intros i Hi. apply Hr. left. unfold desc_word, d_next. split; dlia. }
  unfold d_page, d_counts, d_freeptr in *. split; unfold d_page, d_counts, d_freeptr; try done.
  - pose proof (Hd 0 ltac:(lia)) as E. rewrite Z.add_0_r in E. by rewrite E.
  - by rewrite Hd by lia.
  - rewrite Hd by lia. apply (lseg_ext r); [|done]. intros x Hx. rewrite Z.add_0_r. apply Hr. right. by exists x.
Qed.
Lemma heap_frame G owned owned' s s' : heap_ok G owned s -> mm_ok owned' (hmm s') ->
  (forall p, page_of G p -> mine owned' (hmm s') p) ->
  bucket_dir s' = bucket_dir s -> free_bucket_desc s' = free_bucket_desc s ->
  (forall w d, desc_of G d -> desc_word d w -> ram (hmm s') w = ram (hmm s) w) ->
  (forall w k b, b ∈ g_chain G k -> free_word b w -> ram (hmm s') w = ram (hmm s) w) -> heap_ok G owned' s'.
Proof.
  intros H Hmm Hp Hdir Hfd Hd Hf.
  assert (forall d, desc_of G d -> ram (hmm s') ((d + 4) / 4) = ram (hmm s) ((d + 4) / 4)) as Hnext.
  { intros d Hin. apply (Hd _ d Hin). unfold desc_word. dlia. }
  constructor; try apply H; rewrite ?Hdir, ?Hfd; try apply H; try done.
  - intros k sz Hk. destruct (h_dirs _ _ _ H k sz Hk) as (head & E & Hl). exists head. split; [done|].
    apply (lseg_ext (ram (hmm s))); [|done]. intros d Hin. apply Hnext. right. apply list_elem_of_fmap in Hin as (b & -> & Hb). by exists k, b.
  - intros k b Hb. destruct (h_chains _ _ _ H k b Hb) as (sz & Hk & Hok). exists sz. split; [done|].
    apply (bucket_ok_ext (ram (hmm s))); [|done]. intros w [[Hw _]|Hw].
    + apply (Hd w (b_desc b)); [|done]. right. by exists k, b.
    + by apply (Hf w k b).
  - apply (lseg_ext (ram (hmm s))); [|apply H]. intros d Hin. apply Hnext. by left.
Qed.

(** ** Reading and writing words *)
Definition poke (a v : Z) (s : heap) : heap :=
  s <| hmm := (hmm s) <| ram ::= fun r w => if w =? a / 4 then v else r w |> |>.
Lemma hrd_run a s : hrd a s = Done (ram (hmm s) (a / 4)) s.
Proof. by destruct s. Qed.
Lemma hwr_run a v s : hwr a v s = Done tt (poke a v s).
Proof. done. Qed.
Lemma poke_eq a v s w : ram (hmm (poke a v s)) w = if w =? a / 4 then v else ram (hmm s) w.
Proof. done. Qed.
Lemma poke_at a v s : ram (hmm (poke a v s)) (a / 4) = v.
Proof. by rewrite poke_eq, Z.eqb_refl. Qed.
Lemma poke_ne a v s w : w <> a / 4 -> ram (hmm (poke a v s)) w = ram (hmm s) w.
Proof. intros H. by rewrite poke_eq, (proj2 (Z.eqb_neq _ _)). Qed.
Lemma wp_hrd a (Q : Z -> heap -> Prop) s : Q (ram (hmm s) (a / 4)) s -> wp (hrd a) Q s.
Proof. intros H. unfold wp. by rewrite hrd_run. Qed.
Lemma wp_hwr a v (Q : unit -> heap -> Prop) s : Q tt (poke a v s) -> wp (hwr a v) Q s.
Proof. done. Qed.
Lemma wp_in_mm {A} (m : M mm A) (Q : A -> heap -> Prop) s :
  wp m (fun a k => Q a (s <| hmm := k |>)) (hmm s) -> wp (in_mm m) Q s.
Proof. unfold wp, in_mm, zoom. by destruct (m (hmm s)). Qed.
Ltac hstep := apply wp_bind; first [apply wp_hrd | apply wp_hwr].

(** Words of one page of the allocator are written. *)
Lemma poke_ok owned a v s : mm_ok owned (hmm s) -> mine owned (hmm s) (a / 4096) -> 0 <= v < 4294967296 ->
  mm_ok owned (hmm (poke a v s)) /\ forall p, mine owned (hmm s) p -> mine owned (hmm (poke a v s)) p.
Proof. intros H Hm Hv. split; [by apply word_mine|done]. Qed.

(** ** The free objects of one bucket change *)
Definition refree (d : Z) (fs : list Z) (c : bucket) : bucket :=
  if b_desc c =? d then mk_bucket (b_desc c) (b_pg c) fs else c.
Definition refreed (d : Z) (fs : list Z) (G : ghost) : ghost :=
  mk_ghost (g_free G) (g_pages G) (fun j => map (refree d fs) (g_chain G j)).
Lemma refree_desc d fs c : b_desc (refree d fs c) = b_desc c.
Proof. unfold refree. by destruct (_ =? _). Qed.
Lemma refree_pg d fs c : b_pg (refree d fs c) = b_pg c.
Proof. unfold refree. by destruct (_ =? _). Qed.
Lemma refreed_in d fs G j c : c ∈ g_chain (refreed d fs G) j <-> exists c0, c0 ∈ g_chain G j /\ c = refree d fs c0.
Proof. cbn. rewrite list_elem_of_fmap. firstorder. Qed.
Lemma refreed_desc d fs G j : map b_desc (g_chain (refreed d fs G) j) = map b_desc (g_chain G j).
Proof. cbn. rewrite map_map. apply map_ext. intros c. apply refree_desc. Qed.
Lemma refreed_desc_of d fs G x : desc_of (refreed d fs G) x <-> desc_of G x.
Proof.
  unfold desc_of. apply or_iff_compat_l. split; intros (j & c & Hc & ->).
  - apply refreed_in in Hc as (c0 & Hc0 & ->). exists j, c0. by rewrite refree_desc.
  - exists j, (refree d fs c). rewrite refree_desc. split; [apply refreed_in; by exists c|done].
Qed.
Lemma refreed_page_of d fs G x : page_of (refreed d fs G) x <-> page_of G x.
Proof.
  unfold page_of. apply or_iff_compat_l. split; intros (j & c & Hc & ->).
  - apply refreed_in in Hc as (c0 & Hc0 & ->). exists j, c0. by rewrite refree_pg.
  - exists j, (refree d fs c). rewrite refree_pg. split; [apply refreed_in; by exists c|done].
Qed.
Lemma in_desc_of G k b : b ∈ g_chain G k -> desc_of G (b_desc b).
Proof. intros H. right. by exists k, b. Qed.
Lemma in_page_of G k b : b ∈ g_chain G k -> page_of G (b_pg b).
Proof. intros H. right. by exists k, b. Qed.
Lemma chain_size G owned s k b sz : heap_ok G owned s -> b ∈ g_chain G k -> sizes !! k = Some sz -> bucket_ok (ram (hmm s)) sz b.
Proof. intros H Hb Hk. destruct (h_chains _ _ _ H k b Hb) as (z & Hz & Hok). rewrite Hk in Hz. by injection Hz as <-. Qed.
(** Where the words of another bucket lie. *)
Lemma other_words G owned s k b j c w : heap_ok G owned s -> b ∈ g_chain G k -> c ∈ g_chain G j -> b_desc c <> b_desc b ->
  desc_word (b_desc c) w \/ free_word c w -> ~ desc_word (b_desc b) w /\ w / 1024 <> b_pg b.
Proof.
  intros H Hb Hc Hne Hw. destruct (h_desc _ _ _ H (b_desc b)) as [Hb1 Hb2]; [by apply (in_desc_of G k)|].
  destruct (h_desc _ _ _ H (b_desc c)) as [Hc1 Hc2]; [by apply (in_desc_of G j)|].
  destruct (h_used _ _ _ H k b Hb) as [_ Hb3]. destruct (h_used _ _ _ H j c Hc) as [_ Hc3].
  destruct Hw as [Hw|(x & Hx & ->)]; unfold desc_word in *.
  - split; [dlia|]. assert (w / 1024 = b_desc c / 4096) as -> by dlia. intros E. rewrite E in Hc2. done.
  - destruct (h_chains _ _ _ H j c Hc) as (sz & Hk & Hok). pose proof (object_page j sz (b_pg c) x Hk (bk_objects _ _ _ Hok x Hx)) as E.
    split.
    + intros Hd. apply Hc3. assert (b_pg c = b_desc b / 4096) as -> by dlia. done.
    + rewrite E. intros E'. destruct (h_distinct _ _ _ H j c k b Hc Hb) as [_ ->]; [by right|done].
Qed.
Lemma refreed_ok G owned s s' k sz b fs : heap_ok G owned s -> sizes !! k = Some sz -> b ∈ g_chain G k ->
  bucket_ok (ram (hmm s')) sz (mk_bucket (b_desc b) (b_pg b) fs) ->
  mm_ok owned (hmm s') -> (forall p, mine owned (hmm s) p -> mine owned (hmm s') p) ->
  bucket_dir s' = bucket_dir s -> free_bucket_desc s' = free_bucket_desc s ->
  ram (hmm s') (d_next (b_desc b) / 4) = ram (hmm s) (d_next (b_desc b) / 4) ->
  (forall w, ~ desc_word (b_desc b) w -> w / 1024 <> b_pg b -> ram (hmm s') w = ram (hmm s) w) ->
  heap_ok (refreed (b_desc b) fs G) owned s'.
Proof.
  intros H Hk Hb Hok Hmm Hmine Hdir Hfd Hnext Hr.
  destruct (h_desc _ _ _ H (b_desc b)) as [Hb1 Hb2]; [by apply (in_desc_of G k)|]. destruct (h_used _ _ _ H k b Hb) as [Hb4 Hb3].
  assert (forall d, desc_of G d -> ram (hmm s') (d_next d / 4) = ram (hmm s) (d_next d / 4)) as Hnexts.
  { intros d Hd. destruct (decide (d = b_desc b)) as [->|Hne]; [done|].
    destruct (h_desc _ _ _ H d Hd) as [Hd1 Hd2]. apply Hr; unfold desc_word, d_next; [dlia|].
    rewrite desc_page by lia. intros E. by rewrite E in Hd2. }
  constructor; rewrite ?Hdir, ?Hfd; try apply H; try done.
  - intros p Hp. apply Hmine, (h_pages _ _ _ H). by apply (refreed_page_of (b_desc b) fs).
  - intros j z Hj. destruct (h_dirs _ _ _ H j z Hj) as (head & E & Hl). exists head. split; [done|]. rewrite refreed_desc.
    apply (lseg_ext (ram (hmm s))); [|done]. intros d Hd. apply Hnexts. apply list_elem_of_fmap in Hd as (c & -> & Hc). by apply (in_desc_of G j).
  - intros j c Hc. apply refreed_in in Hc as (c0 & Hc0 & ->). destruct (h_chains _ _ _ H j c0 Hc0) as (z & Hz & Hokc). unfold refree.
    destruct (Z.eqb_spec (b_desc c0) (b_desc b)) as [E|Hne].
    + destruct (h_distinct _ _ _ H j c0 k b Hc0 Hb) as [-> ->]; [by left|]. by exists sz.
    + exists z. split; [done|]. apply (bucket_ok_ext (ram (hmm s))); [|done].
      intros w Hw. destruct (other_words G owned s k b j c0 w H Hb Hc0 Hne) as [W1 W2]; [by destruct Hw as [[? _]|?]; [left|right]|]. by apply Hr.
  - apply (lseg_ext (ram (hmm s))); [|apply H]. intros d Hd. apply Hnexts. by left.
  - intros d Hd. apply (h_desc _ _ _ H). by apply (refreed_desc_of (b_desc b) fs).
  - intros j c j' c' Hc Hc' E. apply refreed_in in Hc as (c0 & Hc0 & ->). apply refreed_in in Hc' as (c0' & Hc0' & ->).
    rewrite !refree_desc, !refree_pg in E. by destruct (h_distinct _ _ _ H j c0 j' c0' Hc0 Hc0' E) as [-> ->].
  - intros j. rewrite refreed_desc. apply (h_nodup _ _ _ H).
  - intros j c Hc. apply refreed_in in Hc as (c0 & Hc0 & ->). rewrite refree_desc, refree_pg. by apply (h_used _ _ _ H j).
Qed.
(** The objects in use are then those of before in the other buckets. *)
Lemma refreed_live G owned s k sz b fs z x : heap_ok G owned s -> sizes !! k = Some sz -> b ∈ g_chain G k ->
  live (refreed (b_desc b) fs G) z x <->
  (live G z x /\ ~ (z = sz /\ object sz (b_pg b) x)) \/ (z = sz /\ object sz (b_pg b) x /\ x ∉ fs).
Proof.
  intros H Hk Hb. split.
  - intros (j & c & Hz & Hc & Ho & Hx). apply refreed_in in Hc as (c0 & Hc0 & ->). rewrite refree_pg in Ho. unfold refree in Hx.
    destruct (Z.eqb_spec (b_desc c0) (b_desc b)) as [E|Hne].
    + destruct (h_distinct _ _ _ H j c0 k b Hc0 Hb) as [-> ->]; [by left|]. right. split; [congruence|].
      assert (z = sz) as -> by congruence. done.
    + left. split; [by exists j, c0|]. intros [-> Ho']. apply Hne.
      pose proof (object_page j sz _ x Hz Ho) as E1. pose proof (object_page k sz _ x Hk Ho') as E2.
      destruct (h_distinct _ _ _ H j c0 k b Hc0 Hb) as [_ ->]; [right; congruence|done].
  - intros [[(j & c & Hz & Hc & Ho & Hx) Hnot]|(-> & Ho & Hx)].
    + exists j, (refree (b_desc b) fs c). split; [done|]. split; [apply refreed_in; by exists c|]. rewrite refree_pg. split; [done|].
      unfold refree. destruct (Z.eqb_spec (b_desc c) (b_desc b)) as [E|Hne]; [|done]. exfalso. apply Hnot.
      destruct (h_distinct _ _ _ H j c k b Hc Hb) as [-> ->]; [by left|]. assert (z = sz) as -> by congruence. done.
    + exists k, (refree (b_desc b) fs b). split; [done|]. split; [apply refreed_in; by exists b|]. rewrite refree_pg. split; [done|].
      unfold refree. by rewrite Z.eqb_refl.
Qed.

(** ** The count of a descriptor *)
Lemma desc_mine G owned s d i : heap_ok G owned s -> desc_of G d -> 0 <= i < 16 -> mine owned (hmm s) ((d + i) / 4096).
Proof.
  intros H Hd Hi. destruct (h_desc _ _ _ H d Hd) as [Hd1 Hd2]. replace ((d + i) / 4096) with (d / 4096) by dlia.
  apply (h_pages _ _ _ H). by left.
Qed.
Lemma refcnt_mod sz n : 0 <= n < 65536 -> (65536 * sz + n) mod 65536 = n.
Proof. intros H. rewrite Z.add_comm, Z.mul_comm, Z.mod_add by lia. by apply Z.mod_small. Qed.
Lemma set_refcnt_run d v s sz n : ram (hmm s) (d_counts d / 4) = 65536 * sz + n -> 0 <= n < 65536 -> 0 <= v < 65536 ->
  set_refcnt d v s = Done tt (poke (d_counts d) (65536 * sz + v) s).
Proof.
  intros Hw Hn Hv. unfold set_refcnt. run (hrd_run (d_counts d) s). rewrite hwr_run, Hw, refcnt_mod by done.
  unfold u16. rewrite Z.mod_small by lia. do 2 f_equal. lia.
Qed.
Lemma get_refcnt_run d s sz n : ram (hmm s) (d_counts d / 4) = 65536 * sz + n -> 0 <= n < 65536 -> get_refcnt d s = Done n s.
Proof. intros Hw Hn. unfold get_refcnt. run (hrd_run (d_counts d) s). by rewrite Hw, refcnt_mod. Qed.

(** The pointer to the free objects and the count are set: what [take_object] and [free_s] end with. *)
Lemma set_frees_ok G owned s0 s1 k sz b fs head : heap_ok G owned s0 -> sizes !! k = Some sz -> b ∈ g_chain G k ->
  mm_ok owned (hmm s1) -> (forall p, mine owned (hmm s0) p -> mine owned (hmm s1) p) -> bucket_dir s1 = bucket_dir s0 -> free_bucket_desc s1 = free_bucket_desc s0 ->
  (forall w, w / 1024 <> b_pg b -> ram (hmm s1) w = ram (hmm s0) w) ->
  lseg (ram (hmm s1)) 0 head fs 0 -> NoDup fs -> (forall x, x ∈ fs -> object sz (b_pg b) x) -> (length fs <= Z.to_nat (4096 / sz))%nat ->
  0 <= head < 4294967296 ->
  let s2 := poke (d_counts (b_desc b)) (65536 * sz + (4096 / sz - Z.of_nat (length fs))) (poke (d_freeptr (b_desc b)) head s1) in
  heap_ok (refreed (b_desc b) fs G) owned s2 /\ mem_map (hmm s2) = mem_map (hmm s1) /\
  forall w, ~ desc_word (b_desc b) w -> ram (hmm s2) w = ram (hmm s1) w.
Proof.
  intros H Hk Hb Hmm1 Hmine Hdir Hfd Hr Hl Hnd Hobj Hlen Hhead s2. set (d := b_desc b) in *.
  pose proof (in_desc_of G k b Hb) as Hd. destruct (h_desc _ _ _ H d Hd) as [Hd1 Hd2].
  destruct (h_used _ _ _ H k b Hb) as [_ Hpg]. destruct (size_facts k sz Hk) as (Z1 & Z2 & Z3 & Z4).
  assert (forall w, ~ desc_word d w -> ram (hmm s2) w = ram (hmm s1) w) as Hs2.
  { intros w Hw. unfold s2. unfold desc_word, d_counts, d_freeptr in *. rewrite !poke_ne; [done|dlia|dlia]. }
  assert (forall i, 0 <= i < 16 -> mine owned (hmm s1) ((d + i) / 4096)) as Hdm by (intros i Hi; by apply Hmine, (desc_mine G)).
  assert (mm_ok owned (hmm s2) /\ forall p, mine owned (hmm s0) p -> mine owned (hmm s2) p) as [Hmm2 Hm2].
  { destruct (poke_ok owned (d_freeptr d) head s1) as [A1 A2]; [done|apply Hdm; lia|lia|].
    destruct (poke_ok owned (d_counts d) (65536 * sz + (4096 / sz - Z.of_nat (length fs))) _ A1) as [B1 B2]; [by apply A2, Hdm|nia|].
    split; [done|]. intros p Hp. by apply B2, A2, Hmine. }
  split; [|done]. apply (refreed_ok G owned s0 s2 k sz b fs); try done.
  - split; cbn [b_desc b_pg b_frees]; fold d; try done.
    + unfold s2. rewrite !poke_ne by (unfold d_page, d_counts, d_freeptr; dlia).
      rewrite Hr by (unfold d_page; intros E; apply Hpg; rewrite <- E; replace (d / 4 / 1024) with (d / 4096) by dlia; done).
      apply (bk_page _ _ _ (chain_size G owned s0 k b sz H Hb Hk)).
    + unfold s2. by rewrite poke_at.
    + assert (ram (hmm s2) (d_freeptr d / 4) = head) as ->.
      { unfold s2. rewrite poke_ne by (unfold d_counts, d_freeptr; dlia). apply poke_at. }
      apply (lseg_ext (ram (hmm s1))); [|done]. intros x Hx. apply Hs2. rewrite Z.add_0_r. unfold desc_word. intros Hw.
      apply Hpg. rewrite <- (object_page k sz (b_pg b) x Hk (Hobj x Hx)).
      replace (x / 4 / 1024) with (d / 4096) by dlia. done.
  - unfold s2. rewrite !poke_ne by (unfold d_counts, d_freeptr, d_next; dlia). apply Hr. fold d. unfold d_next.
    rewrite desc_page by lia. intros E. apply Hpg. by rewrite <- E.
  - intros w Hw1 Hw2. rewrite Hs2 by done. by apply Hr.
Qed.

(** The objects of a page, in order. *)
Definition page_objects (sz p : Z) : list Z := map (fun i => 4096 * p + sz * i) (seqZ 0 (4096 / sz)).
Lemma page_objects_spec sz p x : x ∈ page_objects sz p <-> object sz p x.
Proof. unfold page_objects, object. rewrite list_elem_of_fmap. setoid_rewrite elem_of_seqZ. split; intros (i & H1 & H2); exists i; (split; [|done]) || split; lia. Qed.
Lemma length_page_objects sz p : length (page_objects sz p) = Z.to_nat (4096 / sz).
Proof. unfold page_objects. by rewrite length_map, length_seqZ. Qed.
Lemma objects_bound sz p l : NoDup l -> (forall x, x ∈ l -> object sz p x) -> (length l <= Z.to_nat (4096 / sz))%nat.
Proof.
  intros Hnd Hl. rewrite <- (length_page_objects sz p). apply submseteq_length, NoDup_submseteq; [done|].
  intros x Hx. by apply page_objects_spec, Hl.
Qed.
Lemma take_object_ok G owned s k sz b x rest : heap_ok G owned s -> sizes !! k = Some sz -> b ∈ g_chain G k -> b_frees b = x :: rest ->
  wp (take_object (b_desc b)) (fun p s' => p = x /\ heap_ok (refreed (b_desc b) rest G) owned s' /\ mem_map (hmm s') = mem_map (hmm s) /\
    forall w, ~ desc_word (b_desc b) w -> ram (hmm s') w = ram (hmm s) w) s.
Proof.
  intros H Hk Hb Hf. pose proof (chain_size G owned s k b sz H Hb Hk) as Hok. destruct (size_facts k sz Hk) as (Z1 & Z2 & Z3 & Z4).
  pose proof (bk_frees _ _ _ Hok) as Hl. rewrite Hf in Hl. destruct Hl as (Ehead & Hx0 & Hl).
  pose proof (bk_counts _ _ _ Hok) as Hc. pose proof (bk_nodup _ _ _ Hok) as Hnd. rewrite Hf in Hc, Hnd. cbn [length] in Hc.
  pose proof (bk_objects _ _ _ Hok) as Hobj. rewrite Hf in Hobj.
  unfold take_object. hstep. rewrite Ehead. hstep. hstep. rewrite Z.add_0_r in Hl.
  destruct (h_desc _ _ _ H (b_desc b)) as [Hd1 _]; [by apply (in_desc_of G k)|].
  set (s1 := poke (d_freeptr (b_desc b)) _ s).
  assert (length (x :: rest) <= Z.to_nat (4096 / sz))%nat as Hlen.
  { apply (objects_bound sz (b_pg b)); done || lia. }
  assert (ram (hmm s1) (d_counts (b_desc b) / 4) = 65536 * sz + (4096 / sz - Z.of_nat (S (length rest)))) as Hc1.
  { unfold s1. rewrite poke_ne by (unfold d_counts, d_freeptr; dlia). exact Hc. }
  apply wp_bind. unfold wp at 1. rewrite (get_refcnt_run _ _ _ _ Hc1) by (cbn in Hlen; lia).
  apply wp_bind. unfold wp at 1. rewrite (set_refcnt_run _ _ _ _ _ Hc1) by (cbn in Hlen; lia).
  apply wp_ret. split; [done|].
  replace (4096 / sz - Z.of_nat (S (length rest)) + 1) with (4096 / sz - Z.of_nat (length rest)) by lia.
  apply (set_frees_ok G owned s s k sz b rest); try done; try apply H.
  - by apply NoDup_cons in Hnd as [_ ?].
  - intros y Hy. apply Hobj. by right.
  - cbn in Hlen. lia.
Qed.

(** ** Searching the chains *)
Lemma chain_pages G owned s k : heap_ok G owned s -> NoDup (map b_pg (g_chain G k)).
Proof.
  intros H. pose proof (h_nodup _ _ _ H k) as Hnd. apply NoDup_fmap_1 in Hnd. apply NoDup_fmap_2_strong; [|done].
  intros b c Hb Hc E. destruct (h_distinct _ _ _ H k b k c Hb Hc) as [_ ?]; [by right|done].
Qed.
Lemma chain_length G owned s k : heap_ok G owned s -> (length (g_chain G k) < chain_fuel)%nat.
Proof.
  intros H. apply Nat.lt_succ_r. rewrite <- (length_map b_pg), <- (length_seqZ 256 PAGING_PAGES).
  apply submseteq_length, NoDup_submseteq; [by apply (chain_pages G owned s)|].
  intros p Hp. apply list_elem_of_fmap in Hp as (b & -> & Hb). destruct (h_pages _ _ _ H (b_pg b)) as [Hp _]; [by apply (in_page_of G k)|].
  apply elem_of_seqZ. unfold PAGING_PAGES. lia.
Qed.
Lemma truth_ne z : z <> 0 -> truth z = true.
Proof. intros H. unfold truth. by rewrite (proj2 (Z.eqb_neq _ _)). Qed.

Section Search.
Context (s : heap) (sz : Z).
Notation r := (ram (hmm s)).

Lemma find_desc_ok bs head : (forall b, b ∈ bs -> bucket_ok r sz b) -> lseg r 4 head (map b_desc bs) 0 -> (length bs < chain_fuel)%nat ->
  exists d, find_desc head s = Done d s /\
    ((d = 0 /\ forall b, b ∈ bs -> b_frees b = []) \/ exists b, b ∈ bs /\ d = b_desc b /\ d <> 0 /\ b_frees b <> []).
Proof.
  intros Hbs Hl. unfold find_desc. generalize chain_fuel as n. intros n. revert head bs Hbs Hl.
  induction n as [|n IH]; intros head bs Hbs Hl Hn; [lia|]. cbn [loop].
  destruct bs as [|b bs]; cbn in Hl.
  - subst head. exists 0. split; [done|]. left. split; [done|]. intros b Hb. by apply elem_of_nil in Hb.
  - destruct Hl as (-> & Hd & Hl). rewrite truth_ne by done. cbn [negb]. unfold bind. rewrite hrd_run.
    pose proof (bk_frees _ _ _ (Hbs b ltac:(by left))) as Hf. destruct (b_frees b) as [|x fs] eqn:Ef; cbn [lseg] in Hf.
    + rewrite Hf. cbn [truth Z.eqb negb]. rewrite hrd_run. unfold ret.
      destruct (IH _ bs (fun b Hb => Hbs b ltac:(by right)) Hl) as (d & Hrun & Hd'); [cbn in Hn; lia|].
      exists d. split; [done|]. destruct Hd' as [[-> Hall]|(c & Hc & ?)]; [left|right].
      * split; [done|]. intros c Hc. apply elem_of_cons in Hc as [->|Hc]; [done|by apply Hall].
      * exists c. split; [by right|done].
    + destruct Hf as (-> & Hx & _). rewrite truth_ne by done. exists (b_desc b). split; [done|]. right. exists b.
      split; [by left|]. by rewrite Ef.
Qed.

(** The answer of [find_page] is the place in the chain. *)
Lemma find_page_run p bs head prev0 n : (forall b, b ∈ bs -> bucket_ok r sz b) -> lseg r 4 head (map b_desc bs) 0 -> (length bs < n)%nat ->
  loop n (fun st : Z * Z => let '(bdesc, prev) := st in
    if negb (truth bdesc) then ret (inr None) else
    pg <- hrd (d_page bdesc) ;;
    if pg =? 4096 * p then ret (inr (Some (bdesc, prev))) else
    next <- hrd (d_next bdesc) ;; ret (inl (next, bdesc))) (head, prev0) s =
  Done (match list_find (fun b => b_pg b = p) bs with
        | Some (i, b) => Some (b_desc b, match i with O => prev0 | S j => default 0 (map b_desc bs !! j) end)
        | None => None
        end) s.
Proof.
  revert head prev0 bs. induction n as [|n IH]; intros head prev0 bs Hbs Hl Hn; [lia|]. cbn [loop].
  destruct bs as [|b bs]; cbn [map lseg] in Hl.
  - by subst head.
  - destruct Hl as (-> & Hd & Hl). rewrite truth_ne by done. cbn [negb]. rewrite bind_assoc. run (hrd_run (d_page (b_desc b)) s).
    rewrite (bk_page _ _ _ (Hbs b ltac:(by left))). cbn [list_find].
    destruct (Z.eqb_spec (4096 * b_pg b) (4096 * p)) as [E|E].
    + rewrite decide_True by lia. done.
    + change (b_desc b + 4) with (d_next (b_desc b)) in Hl.
      rewrite decide_False by lia. rewrite bind_assoc. run (hrd_run (d_next (b_desc b)) s). rewrite bind_ret.
      rewrite (IH _ (b_desc b) bs (fun b Hb => Hbs b ltac:(by right)) Hl) by (cbn in Hn; lia).
      destruct (list_find _ bs) as [[[|i] c]|]; done.
Qed.
End Search.

(** ** Finding the bucket of an object *)
Lemma list_find_unique {A} (P : A -> Prop) `{!forall x, Decision (P x)} l i x :
  l !! i = Some x -> P x -> (forall j y, l !! j = Some y -> P y -> j = i) -> list_find P l = Some (i, x).
Proof.
  intros Hi HP Hu. apply list_find_Some. split; [done|]. split; [done|]. intros j y Hj Hlt HPy. specialize (Hu j y Hj HPy). lia.
Qed.
Definition before (G : ghost) (k i : nat) : Z := match i with O => 0 | S j => default 0 (map b_desc (g_chain G k) !! j) end.
Lemma find_page_ok G owned s j sz head p : heap_ok G owned s -> bucket_dir s !! j = Some (sz, head) -> sizes !! j = Some sz ->
  find_page (4096 * p) head s =
  Done (match list_find (fun b => b_pg b = p) (g_chain G j) with Some (i, b) => Some (b_desc b, before G j i) | None => None end) s.
Proof.
  intros H Hj Hz. destruct (h_dirs _ _ _ H j sz Hz) as (head' & Hj' & Hl). rewrite Hj in Hj'. injection Hj' as <-.
  unfold find_page. rewrite (find_page_run s sz p (g_chain G j)); [|intros b Hb; by apply (chain_size G owned s j)|done|by apply (chain_length G owned s)].
  unfold before. by destruct (list_find _ _) as [[[|i] b]|].
Qed.
Lemma find_bucket_ok G owned s k sz b i size : heap_ok G owned s -> sizes !! k = Some sz -> g_chain G k !! i = Some b -> size <= sz ->
  find_bucket (bucket_dir s) 0 (4096 * b_pg b) size s = Done (Some (k, b_desc b, before G k i)) s.
Proof.
  intros H Hk Hb Hsize. pose proof (list_elem_of_lookup_2 _ _ _ Hb) as Hin.
  assert (forall n j, (n + j = k)%nat -> find_bucket (drop j (bucket_dir s)) j (4096 * b_pg b) size s = Done (Some (k, b_desc b, before G k i)) s) as G0.
  2: { apply (G0 k 0%nat). lia. }
  assert (k < 9)%nat as Hk9 by (apply lookup_lt_Some in Hk; exact Hk).
  induction n as [|n IH]; intros j Hj.
  - cbn in Hj. subst j. destruct (h_dirs _ _ _ H k sz Hk) as (head & E & _). rewrite (drop_S _ _ _ E). cbn [find_bucket].
    destruct (size_facts k sz Hk) as (Z1 & _). rewrite truth_ne, (proj2 (Z.ltb_ge sz size)) by lia. cbn [negb].
    run (find_page_ok G owned s k sz head (b_pg b) H E Hk). rewrite (list_find_unique _ _ i b); [done|done|done|].
    intros j c Hj Epg. destruct (h_distinct _ _ _ H k c k b) as [_ ->]; [by eapply list_elem_of_lookup_2|done|by right|].
    apply (NoDup_lookup (map b_desc (g_chain G k)) j i (b_desc b)); [apply (h_nodup _ _ _ H)|by rewrite list_lookup_fmap, Hj|by rewrite list_lookup_fmap, Hb].
  - destruct (sizes !! j) as [z|] eqn:Hz; [|apply lookup_ge_None in Hz; cbn in Hz; lia].
    destruct (h_dirs _ _ _ H j z Hz) as (head & E & _). rewrite (drop_S _ _ _ E). cbn [find_bucket].
    destruct (size_facts j z Hz) as (Z1 & _). rewrite truth_ne by lia. cbn [negb]. destruct (z <? size); [apply IH; lia|].
    run (find_page_ok G owned s j z head (b_pg b) H E Hz). destruct (list_find _ _) as [[m c]|] eqn:Ef; [|apply IH; lia].
    exfalso. apply list_find_Some in Ef as (Hc & Epg & _).
    destruct (h_distinct _ _ _ H j c k b) as [-> _]; [by eapply list_elem_of_lookup_2|done|by right|]. lia.
Qed.

(** ** A bucket is given back *)
Definition other (d : Z) (c : bucket) : Prop := b_desc c <> d.
#[local] Instance other_dec d c : Decision (other d c) := _.
Definition removed (d : Z) (G : ghost) : ghost :=
  mk_ghost (d :: g_free G) (g_pages G) (fun j => filter (other d) (g_chain G j)).
Lemma removed_in d G j c : c ∈ g_chain (removed d G) j <-> b_desc c <> d /\ c ∈ g_chain G j.
Proof. unfold removed. cbn [g_chain]. by rewrite list_elem_of_filter. Qed.

Lemma filter_all {A} (P : A -> Prop) `{!forall x, Decision (P x)} (l : list A) : (forall x, x ∈ l -> P x) -> filter P l = l.
Proof.
  induction l as [|x l IH]; intros Hl; [done|]. rewrite filter_cons_True by (apply Hl; by left). f_equal. apply IH. intros y Hy. apply Hl. by right.
Qed.
Lemma removed_ok G owned owned' s s' k b sz : heap_ok G owned s -> b ∈ g_chain G k -> sizes !! k = Some sz -> b_desc b <> 0 ->
  mm_ok owned' (hmm s') -> (forall p, p <> b_pg b -> mine owned (hmm s) p -> mine owned' (hmm s') p) ->
  length (bucket_dir s') = 10%nat -> (forall j, j <> k -> bucket_dir s' !! j = bucket_dir s !! j) ->
  (exists head, bucket_dir s' !! k = Some (sz, head) /\ lseg (ram (hmm s')) 4 head (map b_desc (filter (other (b_desc b)) (g_chain G k))) 0) ->
  free_bucket_desc s' = b_desc b -> ram (hmm s') (d_next (b_desc b) / 4) = free_bucket_desc s ->
  (forall w, ram (hmm s') w = ram (hmm s) w \/ exists c, c ∈ g_chain G k /\ w = d_next (b_desc c) / 4) ->
  heap_ok (removed (b_desc b) G) owned' s'.
Proof.
  intros H Hb Hk Hd0 Hmm Hmine Hlen Hdirs Hdirk Hfd Hnext Hr. destruct (h_used _ _ _ H k b Hb) as [Hbf Hbp].
  pose proof (fun j c Hc => h_desc _ _ _ H (b_desc c) (in_desc_of G j c Hc)) as Hdesc.
  assert (forall d, desc_of G d -> (forall c, c ∈ g_chain G k -> d <> b_desc c) -> ram (hmm s') ((d + 4) / 4) = ram (hmm s) ((d + 4) / 4)) as Hnexts.
  { intros d Hd Hne. destruct (Hr ((d + 4) / 4)) as [|(c & Hc & E)]; [done|]. exfalso. apply (Hne c Hc).
    destruct (h_desc _ _ _ H d Hd) as [A1 _]. destruct (Hdesc k c Hc) as [A2 _]. by apply (desc_words d (b_desc c) 4 4). }
  assert (forall j z, j <> k -> sizes !! j = Some z -> filter (other (b_desc b)) (g_chain G j) = g_chain G j) as Hsame.
  { intros j z Hj Hz. apply filter_all. intros c Hc E. apply Hj. by apply (h_distinct _ _ _ H j c k b Hc Hb); left. }
  assert (forall d, desc_of (removed (b_desc b) G) d -> desc_of G d) as Hdo.
  { intros d [Hd|(j & c & Hc & ->)].
    - apply elem_of_cons in Hd as [->|Hd]; [by apply (in_desc_of G k)|by left].
    - apply removed_in in Hc as [_ Hc]. by apply (in_desc_of G j). }
  constructor; try done.
  - intros p [Hp|(j & c & Hc & ->)].
    + apply Hmine; [intros ->; done|]. apply (h_pages _ _ _ H). by left.
    + apply removed_in in Hc as [Hne Hc]. apply Hmine; [|by apply (h_pages _ _ _ H), (in_page_of G j)].
      intros E. apply Hne. by destruct (h_distinct _ _ _ H j c k b Hc Hb) as [_ ->]; [right|].
  - rewrite Hdirs; [apply (h_end _ _ _ H)|]. apply lookup_lt_Some in Hk. cbn in Hk. lia.
  - intros j z Hz. destruct (decide (j = k)) as [->|Hj].
    + assert (z = sz) as -> by congruence. destruct Hdirk as (head & E & Hl). by exists head.
    + destruct (h_dirs _ _ _ H j z Hz) as (head & E & Hl). exists head. rewrite Hdirs by done. split; [done|].
      cbn [removed g_chain]. rewrite (Hsame j z) by done. apply (lseg_ext (ram (hmm s))); [|done].
      intros d Hd. apply list_elem_of_fmap in Hd as (c & -> & Hc). apply Hnexts; [by apply (in_desc_of G j)|].
      intros c' Hc' E1. apply Hj. by apply (h_distinct _ _ _ H j c k c' Hc Hc'); left.
  - intros j c Hc. apply removed_in in Hc as [Hne Hc]. destruct (h_chains _ _ _ H j c Hc) as (z & Hz & Hok). exists z. split; [done|].
    apply (bucket_ok_ext (ram (hmm s))); [|done]. intros w Hw. destruct (Hr w) as [|(c' & Hc' & ->)]; [done|]. exfalso.
    destruct (decide (b_desc c' = b_desc c)) as [E|Hne'].
    + rewrite E in Hw. destruct Hw as [[_ Hw]|(x & Hx & Hw)]; [done|].
      destruct (h_used _ _ _ H j c Hc) as [_ Hu]. apply Hu. destruct (Hdesc j c Hc) as [A1 A2].
      rewrite <- (object_page j z (b_pg c) x Hz (bk_objects _ _ _ Hok x Hx)), <- Hw. unfold d_next. rewrite desc_page by lia. done.
    + destruct (other_words G owned s k c' j c (d_next (b_desc c') / 4) H Hc' Hc (not_eq_sym Hne')) as [W _];
        [by destruct Hw as [[? _]|?]; [left|right]|]. apply W. unfold desc_word, d_next. dlia.
  - cbn [g_free removed lseg]. rewrite Hfd. split; [done|]. split; [done|]. change (b_desc b + 4) with (d_next (b_desc b)). rewrite Hnext.
    apply (lseg_ext (ram (hmm s))); [|apply H]. intros d Hd. apply Hnexts; [by left|].
    intros c Hc ->. by destruct (h_used _ _ _ H k c Hc).
  - cbn [g_free removed]. apply NoDup_cons. split; [done|apply H].
  - intros d Hd. apply (h_desc _ _ _ H). by apply Hdo.
  - intros j c j' c' Hc Hc'. apply removed_in in Hc as [_ Hc]. apply removed_in in Hc' as [_ Hc']. by apply (h_distinct _ _ _ H).
  - intros j. cbn. eapply sublist_NoDup; [apply (h_nodup _ _ _ H j)|]. apply fmap_sublist, sublist_filter.
  - intros j c Hc. apply removed_in in Hc as [Hne Hc]. destruct (h_used _ _ _ H j c Hc) as [A1 A2]. split; [|done].
    cbn [g_free removed]. apply not_elem_of_cons. done.
Qed.
Lemma removed_live G owned s k b sz z x : heap_ok G owned s -> b ∈ g_chain G k -> sizes !! k = Some sz ->
  (forall y, object sz (b_pg b) y -> y ∈ b_frees b) -> live (removed (b_desc b) G) z x <-> live G z x.
Proof.
  intros H Hb Hk Hall. split; intros (j & c & Hz & Hc & Ho & Hx).
  - apply removed_in in Hc as [_ Hc]. by exists j, c.
  - exists j, c. split; [done|]. split; [|done]. apply removed_in. split; [|done]. intros E.
    destruct (h_distinct _ _ _ H j c k b Hc Hb) as [-> ->]; [by left|]. assert (z = sz) as -> by congruence. by apply Hx, Hall.
Qed.

(** The bucket at place [i] is taken out of its chain. *)
Definition unlinked (G : ghost) (owned : Z -> Z) (s : heap) (k : nat) (sz : Z) (b : bucket) (s' : heap) : Prop :=
  mm_ok owned (hmm s') /\ (forall p, mine owned (hmm s) p -> mine owned (hmm s') p) /\
  length (bucket_dir s') = 10%nat /\ (forall j, j <> k -> bucket_dir s' !! j = bucket_dir s !! j) /\
  free_bucket_desc s' = free_bucket_desc s /\
  (exists head, bucket_dir s' !! k = Some (sz, head) /\ lseg (ram (hmm s')) 4 head (map b_desc (filter (other (b_desc b)) (g_chain G k))) 0) /\
  forall w, ram (hmm s') w = ram (hmm s) w \/ exists c, c ∈ g_chain G k /\ b_desc c <> b_desc b /\ w = d_next (b_desc c) / 4.
Lemma get_dir_run k s e : bucket_dir s !! k = Some e -> get_dir k s = Done e s.
Proof. intros H. unfold get_dir, bind, get. by rewrite H. Qed.
Lemma set_chain_run k s sz h d : bucket_dir s !! k = Some (sz, h) -> set_chain k d s = Done tt (s <| bucket_dir ::= <[k := (sz, d)]> |>).
Proof. intros H. unfold set_chain. by run (get_dir_run k s _ H). Qed.
Lemma chain_without G owned s k l1 b l2 : heap_ok G owned s -> g_chain G k = l1 ++ b :: l2 -> filter (other (b_desc b)) (g_chain G k) = l1 ++ l2.
Proof.
  intros H E. pose proof (h_nodup _ _ _ H k) as Hnd. rewrite E, map_app in Hnd. cbn [map] in Hnd.
  apply NoDup_app in Hnd as (_ & Hd & Hnd). apply NoDup_cons in Hnd as [Hd2 _].
  rewrite E, filter_app, filter_cons_False by (unfold other; tauto). f_equal; apply filter_all; intros c Hc Ec.
  - apply (Hd (b_desc b)); [|by left]. rewrite <- Ec. by apply list_elem_of_fmap_2.
  - apply Hd2. rewrite <- Ec. by apply list_elem_of_fmap_2.
Qed.
Lemma desc_next_ne d d' : d mod 16 = 0 -> d' mod 16 = 0 -> d <> d' -> d_next d / 4 <> d_next d' / 4.
Proof. unfold d_next. dlia. Qed.

Section Unlink.
Context (G : ghost) (owned : Z -> Z) (s : heap) (k : nat) (sz : Z) (b : bucket) (l1 l2 : list bucket).
Hypothesis (H : heap_ok G owned s) (Hk : sizes !! k = Some sz) (Hch : g_chain G k = l1 ++ b :: l2).
Notation r := (ram (hmm s)).

Lemma chain_parts : exists head, bucket_dir s !! k = Some (sz, head) /\ lseg r 4 head (map b_desc l1) (b_desc b) /\ b_desc b <> 0 /\
  lseg r 4 (r (d_next (b_desc b) / 4)) (map b_desc l2) 0.
Proof.
  destruct (h_dirs _ _ _ H k sz Hk) as (head & E & Hl). exists head. rewrite Hch, map_app in Hl.
  apply lseg_app in Hl as (mid & Hl1 & -> & Hd & Hl2). done.
Qed.
Lemma unlink_first : l1 = [] -> wp (set_chain k (r (d_next (b_desc b) / 4))) (fun _ s' => unlinked G owned s k sz b s') s.
Proof.
  intros E1. destruct chain_parts as (head & E & _ & _ & Hl2). unfold wp. rewrite (set_chain_run k s sz head _ E).
  pose proof (lookup_lt_Some _ _ _ E) as Hlt. split; [apply H|]. split; [done|]. split; [cbn; rewrite length_insert; apply H|].
  split; [intros j Hj; cbn; by rewrite list_lookup_insert_ne|]. split; [done|]. split; [|by left].
  exists (r (d_next (b_desc b) / 4)). split; [cbn; by rewrite list_lookup_insert_eq|].
  rewrite (chain_without G owned s k l1 b l2) by done. by rewrite E1.
Qed.
Lemma unlink_later l c : l1 = l ++ [c] ->
  r (d_next (b_desc c) / 4) = b_desc b /\ b_desc c <> 0 /\
  wp (hwr (d_next (b_desc c)) (r (d_next (b_desc b) / 4))) (fun _ s' => unlinked G owned s k sz b s') s.
Proof.
  intros E1. destruct chain_parts as (head & E & Hl1 & _ & Hl2). rewrite E1, map_app in Hl1.
  apply lseg_app in Hl1 as (mid & Hl & -> & Hc0 & Hcb). split; [done|]. split; [done|].
  pose proof (h_nodup _ _ _ H k) as Hnd.
  assert (c ∈ g_chain G k) as Hc by (rewrite Hch, E1; set_solver).
  assert (forall x, x ∈ l \/ x ∈ l2 -> x ∈ g_chain G k /\ b_desc x <> b_desc c) as Hne.
  { intros x Hx. split; [rewrite Hch, E1; set_solver|]. intros Ex. rewrite Hch, E1, !map_app in Hnd. cbn [map] in Hnd.
    rewrite <- app_assoc in Hnd. cbn [app] in Hnd. apply NoDup_app in Hnd as (_ & Hd & Hnd). apply NoDup_cons in Hnd as [Hd2 _].
    destruct Hx as [Hx|Hx]; [apply (Hd (b_desc x)); [by apply list_elem_of_fmap_2|rewrite Ex; by left]|].
    apply Hd2. rewrite <- Ex. right. by apply list_elem_of_fmap_2. }
  assert (b_desc c <> b_desc b) as Hcb'.
  { intros Ex. rewrite Hch, E1, !map_app in Hnd. cbn [map] in Hnd. apply NoDup_app in Hnd as (_ & Hd & _).
    apply (Hd (b_desc c)); [set_solver|]. rewrite Ex. by left. }
  pose proof (fun x Hx => proj1 (h_desc _ _ _ H (b_desc x) (in_desc_of G k x Hx))) as Hal.
  set (s' := poke (d_next (b_desc c)) (r (d_next (b_desc b) / 4)) s).
  assert (forall x, x ∈ l \/ x ∈ l2 -> ram (hmm s') (d_next (b_desc x) / 4) = r (d_next (b_desc x) / 4)) as Hsame.
  { intros x Hx. destruct (Hne x Hx) as [A1 A2]. apply poke_ne, desc_next_ne; [by apply Hal..|done]. }
  apply wp_hwr. fold s'. destruct (poke_ok owned (d_next (b_desc c)) (r (d_next (b_desc b) / 4)) s) as [Hmm Hm].
  { apply H. } { apply (desc_mine G); [done|by apply (in_desc_of G k)|lia]. } { apply (ok_words _ _ (h_mm _ _ _ H)). }
  split; [done|]. split; [done|]. split; [apply H|]. split; [done|]. split; [done|]. split.
  - exists head. split; [done|]. rewrite (chain_without G owned s k l1 b l2), E1, !map_app by done. apply lseg_app.
    exists (r (d_next (b_desc b) / 4)). split.
    + apply lseg_app. exists (b_desc c). split.
      * apply (lseg_ext r); [|done]. intros d Hd. apply list_elem_of_fmap in Hd as (x & -> & Hx). apply Hsame. by left.
      * cbn [map lseg]. split; [done|]. split; [done|]. apply poke_at.
    + apply (lseg_ext r); [|done]. intros d Hd. apply list_elem_of_fmap in Hd as (x & -> & Hx). apply Hsame. by right.
  - intros w. destruct (decide (w = d_next (b_desc c) / 4)) as [->|Hw]; [right; by exists c|left; by apply poke_ne].
Qed.
End Unlink.

Lemma unlink_ok G owned s k sz i b : heap_ok G owned s -> sizes !! k = Some sz -> g_chain G k !! i = Some b ->
  wp (unlink k (b_desc b) (before G k i)) (fun _ s' => unlinked G owned s k sz b s') s.
Proof.
  intros H Hk Hi. pose proof (lookup_lt_Some _ _ _ Hi) as Hlt. pose proof (take_drop_middle _ _ _ Hi) as Hch. symmetry in Hch.
  set (l1 := take i (g_chain G k)) in *. set (l2 := drop (S i) (g_chain G k)) in *.
  assert (length l1 = i) as Hlen by (apply length_take_le; lia).
  destruct (chain_parts G owned s k sz b l1 l2 H Hk Hch) as (head & E & Hl1 & _). unfold unlink, check_prev.
  destruct i as [|i].
  - assert (l1 = []) as E1 by (by apply length_zero_iff_nil). rewrite E1 in Hl1. cbn [map lseg] in Hl1. cbn [before truth Z.eqb negb].
    unfold wp. rewrite bind_assoc. run (get_dir_run k s _ E). rewrite bind_assoc. cbn [snd]. rewrite Hl1, Z.eqb_refl, bind_ret. cbn [negb].
    rewrite bind_ret. run (hrd_run (d_next (b_desc b)) s). cbn [truth Z.eqb negb]. run (get_dir_run k s _ E). cbn [snd].
    rewrite Hl1, Z.eqb_refl. cbn [negb]. by apply (unlink_first G owned s k sz b l1 l2).
  - destruct (decide (l1 = [])) as [E1|Hnil]; [by rewrite E1 in Hlen|].
    destruct (exists_last Hnil) as (l & c & E1).
    destruct (unlink_later G owned s k sz b l1 l2 H Hk Hch l c E1) as (Hcb & Hc0 & Hwp).
    assert (before G k (S i) = b_desc c) as ->.
    { cbn [before]. rewrite list_lookup_fmap, Hch, E1. rewrite E1, length_app in Hlen. cbn in Hlen.
      rewrite <- app_assoc. cbn [app]. rewrite lookup_app_r by lia. by replace (i - length l)%nat with 0%nat by lia. }
    unfold wp. rewrite bind_assoc. run (get_dir_run k s _ E). rewrite truth_ne by done. rewrite bind_assoc, bind_assoc.
    run (hrd_run (d_next (b_desc c)) s). rewrite Hcb, Z.eqb_refl, bind_ret. cbn [negb]. rewrite bind_ret.
    run (hrd_run (d_next (b_desc b)) s). rewrite truth_ne by done. exact Hwp.
Qed.

Lemma release_ok G owned s k sz i b : heap_ok G owned s -> sizes !! k = Some sz -> g_chain G k !! i = Some b ->
  wp (release_bucket k (b_desc b) (before G k i)) (fun _ s' =>
    heap_ok (removed (b_desc b) G) (disown (b_pg b - 256) owned) s' /\ spare (hmm s') (b_pg b - 256) /\
    forall w, (forall d, desc_of G d -> ~ desc_word d w) -> ram (hmm s') w = ram (hmm s) w) s.
Proof.
  intros H Hk Hi. pose proof (list_elem_of_lookup_2 _ _ _ Hi) as Hb. unfold release_bucket. apply wp_bind.
  eapply wp_mono; [by apply unlink_ok|]. cbv beta. intros [] s1 (Hmm1 & Hm1 & Hlen & Hdirs & Hfd & (head & E & Hl) & Hr).
  pose proof (fun c Hc => proj1 (h_desc _ _ _ H (b_desc c) (in_desc_of G k c Hc))) as Hal.
  set (d := b_desc b) in *. assert (d <> 0) as Hd0.
  { pose proof (take_drop_middle _ _ _ Hi) as Hch. symmetry in Hch. by destruct (chain_parts G owned s k sz b _ _ H Hk Hch) as (_ & _ & _ & ? & _). }
  assert (forall w, (forall c, c ∈ g_chain G k -> b_desc c <> d -> ~ desc_word (b_desc c) w) -> ram (hmm s1) w = ram (hmm s) w) as Hr1.
  { intros w Hw. destruct (Hr w) as [|(c & Hc & Hne & ->)]; [done|]. exfalso. apply (Hw c Hc Hne). unfold desc_word, d_next. dlia. }
  hstep. rewrite Hr1.
  2: { intros c Hc Hne Hw. apply Hne. specialize (Hal b Hb) as A1. fold d in A1. specialize (Hal c Hc). unfold desc_word, d_page in Hw. dlia. }
  pose proof (bk_page _ _ _ (chain_size G owned s k b sz H Hb Hk)) as Hpage. fold d in Hpage. rewrite Hpage.
  apply wp_bind, wp_in_mm. eapply wp_mono; [apply (give_page owned (hmm s1) (b_pg b)); [done|by apply Hm1, (h_pages _ _ _ H), (in_page_of G k)]|].
  cbv beta. intros [] m2 (Hram2 & Hmm2 & Hspare & Hm2). set (s2 := s1 <| hmm := m2 |>).
  apply wp_bind, wp_get. cbv beta. apply wp_bind, wp_hwr. change (free_bucket_desc s2) with (free_bucket_desc s1). rewrite Hfd.
  set (s3 := poke (d_next d) (free_bucket_desc s) s2). apply wp_modify. set (s4 := s3 <| free_bucket_desc := d |>).
  assert (forall w, w <> d_next d / 4 -> ram (hmm s4) w = ram (hmm s1) w) as Hr4.
  { intros w Hw. change (ram (hmm s4) w) with (ram (hmm s3) w). unfold s3. rewrite poke_ne by done. change (hmm s2) with m2. by rewrite Hram2. }
  destruct (h_used _ _ _ H k b Hb) as [_ Hpg]. pose proof (h_desc _ _ _ H d (in_desc_of G k b Hb)) as [Hd1 Hd2].
  destruct (poke_ok (disown (b_pg b - 256) owned) (d_next d) (free_bucket_desc s) s2) as [Hmm3 Hm3]; [done| | |].
  { apply Hm2; [unfold d_next; intros Ep; apply Hpg; rewrite <- Ep; by replace ((d + 4) / 4096) with (d / 4096) by dlia|].
    apply Hm1, (desc_mine G owned s d 4 H); [by apply (in_desc_of G k)|lia]. }
  { pose proof (h_free _ _ _ H) as Hfree. destruct (g_free G) as [|f fl] eqn:Eg; [cbn in Hfree; lia|]. destruct Hfree as (-> & _).
    destruct (h_desc _ _ _ H f) as [F1 F2]; [left; rewrite Eg; by left|]. destruct (h_pages _ _ _ H (f / 4096)) as [F3 _]; [by left|]. dlia. }
  split; [|split; [done|]].
  - apply (removed_ok G owned _ s s4 k b sz); try done.
    + intros p Hp Hmp. by apply Hm3, Hm2, Hm1.
    + exists head. split; [done|]. apply (lseg_ext (ram (hmm s1))); [|done]. intros x Hx. apply Hr4.
      apply list_elem_of_fmap in Hx as (c & -> & Hc). apply list_elem_of_filter in Hc as [Hne Hc].
      apply desc_next_ne; [by apply Hal|done|done].
    + apply poke_at.
    + intros w. destruct (decide (w = d_next d / 4)) as [->|Hw]; [right; by exists b|]. rewrite Hr4 by done.
      destruct (Hr w) as [|(c & Hc & _ & ->)]; [by left|right; by exists c].
  - intros w Hw. rewrite Hr4; [apply Hr1; intros c Hc _; apply Hw, (in_desc_of G k c Hc)|].
    intros ->. apply (Hw d); [by apply (in_desc_of G k)|]. unfold desc_word, d_next. dlia.
Qed.

(** ** [free_s] *)
Lemma all_free sz p l : NoDup l -> (forall x, x ∈ l -> object sz p x) -> length l = Z.to_nat (4096 / sz) -> forall y, object sz p y -> y ∈ l.
Proof.
  intros Hnd Hl Hlen y Hy. assert (page_objects sz p ≡ₚ l) as <-; [|by apply page_objects_spec].
  symmetry. apply submseteq_length_Permutation; [|rewrite length_page_objects; lia].
  apply NoDup_submseteq; [done|]. intros x Hx. by apply page_objects_spec, Hl.
Qed.

Lemma put_object_ok G owned s k sz b x : heap_ok G owned s -> sizes !! k = Some sz -> b ∈ g_chain G k ->
  object sz (b_pg b) x -> x ∉ b_frees b ->
  wp (put_object (b_desc b) x) (fun n s' => n = 4096 / sz - Z.of_nat (S (length (b_frees b))) /\
    heap_ok (refreed (b_desc b) (x :: b_frees b) G) owned s' /\ mem_map (hmm s') = mem_map (hmm s) /\
    forall w, ~ desc_word (b_desc b) w -> w <> x / 4 -> ram (hmm s') w = ram (hmm s) w) s.
Proof.
  intros H Hk Hb Hx Hfree. pose proof (chain_size G owned s k b sz H Hb Hk) as Hok. destruct (size_facts k sz Hk) as (Z1 & Z2 & Z3 & Z4).
  pose proof (bk_counts _ _ _ Hok) as Hc. pose proof (bk_nodup _ _ _ Hok) as Hnd. pose proof (bk_frees _ _ _ Hok) as Hl. pose proof (bk_objects _ _ _ Hok) as Hobj.
  assert (NoDup (x :: b_frees b)) as Hnd' by (by apply NoDup_cons).
  assert (forall y, y ∈ x :: b_frees b -> object sz (b_pg b) y) as Hobj' by (intros y Hy; apply elem_of_cons in Hy as [->|Hy]; [done|by apply Hobj]).
  pose proof (objects_bound sz (b_pg b) _ Hnd' Hobj') as Hlen. cbn [length] in Hlen.
  destruct (object_facts k sz _ x Hk Hx) as (Hxp & Hx4 & Hx1 & Hx2). destruct (h_used _ _ _ H k b Hb) as [_ Hpg].
  destruct (h_pages _ _ _ H (b_pg b)) as [Hpr _]; [by apply (in_page_of G k)|].
  destruct (h_desc _ _ _ H (b_desc b) (in_desc_of G k b Hb)) as [Hd1 Hd2].
  assert (forall i, 0 <= i < 16 -> (b_desc b + i) / 4 <> x / 4) as Hdx.
  { intros i Hi E. apply Hpg. rewrite <- Hxp. replace (x / 4096) with (b_desc b / 4096) by dlia. done. }
  unfold put_object. hstep. set (f := ram (hmm s) (d_freeptr (b_desc b) / 4)) in *. hstep. set (s1 := poke x f s). hstep.
  assert (0 <= f < 4294967296) as Hf by apply (ok_words _ _ (h_mm _ _ _ H)).
  destruct (poke_ok owned x f s) as [Hmm1 Hm1]; [apply H|rewrite Hxp; by apply (h_pages _ _ _ H), (in_page_of G k)|done|].
  set (s2 := poke (d_freeptr (b_desc b)) x s1).
  assert (ram (hmm s2) (d_counts (b_desc b) / 4) = 65536 * sz + (4096 / sz - Z.of_nat (length (b_frees b)))) as Hc2.
  { unfold s2, s1. rewrite !poke_ne; [done|by apply Hdx|unfold d_counts, d_freeptr; dlia]. }
  apply wp_bind. unfold wp at 1. rewrite (get_refcnt_run _ _ _ _ Hc2) by lia.
  apply wp_bind. unfold wp at 1. rewrite (set_refcnt_run _ _ _ _ _ Hc2) by lia.
  destruct (set_frees_ok G owned s s1 k sz b (x :: b_frees b) x) as (G1 & G2 & G3); try done; try lia.
  - intros w Hw. apply poke_ne. intros ->. apply Hw. rewrite <- Hxp. dlia.
  - cbn [lseg]. split; [done|]. split; [lia|]. rewrite Z.add_0_r. assert (ram (hmm s1) (x / 4) = f) as -> by apply poke_at.
    apply (lseg_ext (ram (hmm s))); [|exact Hl]. intros y Hy. apply poke_ne. rewrite Z.add_0_r. intros E. apply Hfree.
    assert (y = x) as <-; [|done]. apply word_of_object; [|done|done]. by apply (object_facts k sz (b_pg b)), Hobj.
  - cbn [length] in *. fold s2 in G1, G2, G3.
    replace (4096 / sz - Z.of_nat (length (b_frees b)) - 1) with (4096 / sz - Z.of_nat (S (length (b_frees b)))) by lia.
    unfold wp. rewrite (get_refcnt_run _ _ sz (4096 / sz - Z.of_nat (S (length (b_frees b))))); [|apply poke_at|lia].
    split; [done|]. split; [done|]. split; [done|]. intros w Hw1 Hw2. rewrite G3 by done. by apply poke_ne.
Qed.

(** ** Objects in use *)
Lemma live_in G owned s k sz b x : heap_ok G owned s -> sizes !! k = Some sz -> b ∈ g_chain G k -> object sz (b_pg b) x ->
  forall z, live G z x <-> z = sz /\ x ∉ b_frees b.
Proof.
  intros H Hk Hb Hx z. split; [|intros [-> ?]; by exists k, b].
  intros (j & c & Hz & Hc & Ho & Hf). destruct (h_distinct _ _ _ H j c k b Hc Hb) as [-> ->]; [|split; [congruence|done]].
  right. by rewrite <- (object_page j z _ x Hz Ho), <- (object_page k sz _ x Hk Hx).
Qed.
Lemma live_apart G owned s z y sz x : heap_ok G owned s -> live G z y -> live G sz x ->
  (z = sz /\ y = x) \/ y + z <= x \/ x + sz <= y.
Proof.
  intros H (j & c & Hz & Hc & Ho & _) (k & b & Hk & Hb & Hx & _).
  destruct (object_facts j z _ y Hz Ho) as (P1 & _ & P2 & P3). destruct (object_facts k sz _ x Hk Hx) as (Q1 & _ & Q2 & Q3).
  destruct (decide (b_pg c = b_pg b)) as [E|E]; [|right; lia].
  destruct (h_distinct _ _ _ H j c k b Hc Hb) as [-> ->]; [by right|]. assert (z = sz) as -> by congruence.
  destruct (decide (y = x)) as [->|Hne]; [by left|right]. destruct (size_facts k sz Hk). apply (objects_apart sz (b_pg b)); done || lia.
Qed.
Lemma live_words G owned s z y w : heap_ok G owned s -> live G z y -> y / 4 <= w < (y + z) / 4 ->
  (forall d, desc_of G d -> ~ desc_word d w) /\ page_of G (w / 1024) /\
  forall sz x, live G sz x -> y <> x -> w <> x / 4.
Proof.
  intros H Hl Hw. pose proof Hl as (j & c & Hz & Hc & Ho & _). destruct (object_facts j z _ y Hz Ho) as (P1 & P4 & P2 & P3).
  assert (w / 1024 = b_pg c) as E by dlia. split; [|split].
  - intros d Hd Hdw. destruct (h_desc _ _ _ H d Hd) as [D1 D2]. destruct (h_used _ _ _ H j c Hc) as [_ Hu]. apply Hu.
    rewrite <- E. replace (w / 1024) with (d / 4096); [done|]. unfold desc_word in Hdw. dlia.
  - rewrite E. by apply (in_page_of G j).
  - intros sz x Hx Hne ->. destruct (live_apart G owned s z y sz x H Hl Hx) as [[_ ?]|Ha]; [done|].
    destruct Hx as (k & b & Hk & Hb & Hox & _). destruct (object_facts k sz _ x Hk Hox) as (_ & Q4 & _). destruct (size_facts k sz Hk).
    destruct Ha; dlia.
Qed.
Lemma page_objects_nodup sz p : 0 < sz -> NoDup (page_objects sz p).
Proof.
  intros Hsz. apply NoDup_fmap_2; [|apply NoDup_seqZ]. intros i j E. nia.
Qed.

(** The objects in use once [x] is put back. *)
Lemma put_live G owned s k sz b x z y : heap_ok G owned s -> sizes !! k = Some sz -> b ∈ g_chain G k -> object sz (b_pg b) x -> x ∉ b_frees b ->
  live (refreed (b_desc b) (x :: b_frees b) G) z y <-> live G z y /\ y <> x.
Proof.
  intros H Hk Hb Hx Hf. rewrite (refreed_live G owned s k sz b), not_elem_of_cons by done. split.
  - intros [[Hy Hn]|(-> & Ho & Hyx & Hyf)]; (split; [|done || intros ->]); [done| |by exists k, b].
    apply Hn. split; [|done]. by apply (live_in G owned s k sz b x H Hk Hb Hx z).
  - intros [Hy Hyx]. destruct (decide (z = sz)) as [->|Hz]; [|left; split; [done|tauto]].
    destruct (decide (y ∈ page_objects sz (b_pg b))) as [Ho|Ho]; rewrite page_objects_spec in Ho; [|left; split; [done|tauto]].
    right. split; [done|]. split; [done|]. split; [done|]. by apply (live_in G owned s k sz b y H Hk Hb Ho sz).
Qed.
(** Whether [x] is the last object in use of its page. *)
Lemma last_object G k sz b x : sizes !! k = Some sz -> b ∈ g_chain G k -> object sz (b_pg b) x ->
  (forall z y, live G z y -> y / 4096 = x / 4096 -> y = x) -> 4096 / sz <= Z.of_nat (S (length (b_frees b))).
Proof.
  intros Hk Hb Hx Hlast. destruct (size_facts k sz Hk).
  assert (length (page_objects sz (b_pg b)) <= length (x :: b_frees b))%nat as Hle; [|rewrite length_page_objects in Hle; cbn in Hle; lia].
  apply submseteq_length, NoDup_submseteq; [apply page_objects_nodup; lia|]. intros y Hy. apply page_objects_spec in Hy.
  destruct (decide (y ∈ b_frees b)) as [|Hyf]; [by right|]. rewrite (Hlast sz y); [by left|by exists k, b|].
  destruct (object_facts k sz _ y Hk Hy) as (-> & _). by destruct (object_facts k sz _ x Hk Hx) as (-> & _).
Qed.

(** C15: what [free_s] does.  For an object in use and a size that is not larger than the
    object's (0 says nothing), [free_s] returns; the objects in use are then those of before without this one, none of
    their words has changed, the heap is in order; and when it was the last object of its page the page is
    back with the memory manager. *)
Theorem free_s_ok G owned s sz x size : heap_ok G owned s -> live G sz x -> size <= sz ->
  wp (free_s x size) (fun _ s' => exists G' owned', heap_ok G' owned' s' /\
    (forall z y, live G' z y <-> live G z y /\ y <> x) /\
    (forall z y w, live G z y -> y <> x -> y / 4 <= w < (y + z) / 4 -> ram (hmm s') w = ram (hmm s) w) /\
    ((forall z y, live G z y -> y / 4096 = x / 4096 -> y = x) -> spare (hmm s') (x / 4096 - 256))) s.
Proof.
  intros H Hlive Hsize. pose proof Hlive as (k & b & Hk & Hb & Hx & Hf).
  destruct (object_facts k sz _ x Hk Hx) as (Hxp & Hx4 & Hx1 & Hx2). destruct (size_facts k sz Hk) as (Z1 & Z2 & Z3 & Z4).
  destruct (h_pages _ _ _ H (b_pg b)) as [Hpr _]; [by apply (in_page_of G k)|].
  pose proof Hb as Hb'. apply list_elem_of_lookup in Hb' as [i Hi].
  unfold free_s. rewrite mask_page_r, Hxp by lia. apply wp_bind, wp_get. cbv beta.
  apply wp_bind. unfold wp at 1. rewrite (find_bucket_ok G owned s k sz b i size H Hk Hi Hsize).
  apply wp_bind. eapply wp_mono; [by apply (put_object_ok G owned s k sz b x)|]. cbv beta.
  intros n s1 (-> & H1 & Hmap & Hr). set (G1 := refreed (b_desc b) (x :: b_frees b) G) in *.
  pose proof (fun z y => put_live G owned s k sz b x z y H Hk Hb Hx Hf) as Hlive1. fold G1 in Hlive1.
  assert (forall z y w, live G z y -> y <> x -> y / 4 <= w < (y + z) / 4 -> ram (hmm s1) w = ram (hmm s) w) as Hkept.
  { intros z y w Hy Hyx Hw. destruct (live_words G owned s z y w H Hy Hw) as (W1 & _ & W2).
    apply Hr; [by apply W1, (in_desc_of G k)|by apply (W2 sz)]. }
  pose proof (chain_size _ _ _ k (refree (b_desc b) (x :: b_frees b) b) sz H1) as Hok.
  assert (refree (b_desc b) (x :: b_frees b) b = mk_bucket (b_desc b) (b_pg b) (x :: b_frees b)) as Eb by (unfold refree; by rewrite Z.eqb_refl).
  specialize (Hok ltac:(apply refreed_in; by exists b) Hk). rewrite Eb in Hok.
  pose proof (bk_nodup _ _ _ Hok) as Hnd. pose proof (bk_objects _ _ _ Hok) as Hobj. cbn [b_frees b_pg] in Hnd, Hobj.
  pose proof (objects_bound sz (b_pg b) _ Hnd Hobj) as Hbound. cbn [length] in Hbound.
  destruct (Z.eqb_spec (4096 / sz - Z.of_nat (S (length (b_frees b)))) 0) as [E0|E0]; cbn [when].
  - assert (g_chain G1 k !! i = Some (mk_bucket (b_desc b) (b_pg b) (x :: b_frees b))) as Hi1.
    { unfold G1. cbn [refreed g_chain]. rewrite list_lookup_fmap, Hi. cbn. by rewrite Eb. }
    assert (before G k i = before G1 k i) as -> by (unfold before, G1; destruct i; [done|by rewrite refreed_desc]).
    eapply wp_mono; [apply (release_ok G1 owned s1 k sz i _ H1 Hk Hi1)|]. cbv beta. intros [] s2 (H2 & Hspare & Hr2).
    cbn [b_desc b_pg] in *. exists (removed (b_desc b) G1), (disown (b_pg b - 256) owned). split; [done|]. split.
    + intros z y. rewrite <- Hlive1. apply (removed_live G1 owned s1 k _ sz z y H1 (list_elem_of_lookup_2 _ _ _ Hi1) Hk).
      cbn [b_frees b_pg]. apply all_free; [done|done|]. cbn [length]. lia.
    + split; [|done]. intros z y w Hy Hyx Hw. rewrite Hr2; [by apply (Hkept z y)|].
      intros d Hd. apply (live_words G1 owned s1 z y w H1); [by apply Hlive1|done|done].
  - exists G1, owned. split; [done|]. split; [done|]. split; [done|]. intros Hlast. rewrite <- Hxp in Hlast.
    pose proof (last_object G k sz b x Hk Hb Hx Hlast). lia.
Qed.

(** ** A new page of descriptors *)

(** The word [w] is none of those the invariant reads. *)
Definition foreign (G : ghost) (w : Z) : Prop :=
  (forall d, desc_of G d -> ~ desc_word d w) /\ forall k b, b ∈ g_chain G k -> ~ free_word b w.
Lemma foreign_page G owned s w : heap_ok G owned s -> ~ page_of G (w / 1024) -> foreign G w.
Proof.
  intros H Hp. split.
  - intros d Hd Hw. apply Hp. left. destruct (h_desc _ _ _ H d Hd) as [D1 D2].
    replace (w / 1024) with (d / 4096); [done|]. unfold desc_word in Hw. dlia.
  - intros k b Hb (x & Hx & ->). apply Hp. right. exists k, b. split; [done|].
    destruct (h_chains _ _ _ H k b Hb) as (z & Hz & Hok). apply (object_page k z); [done|]. by apply (bk_objects _ _ _ Hok).
Qed.
Lemma foreign_desc G owned s d i : heap_ok G owned s -> ~ desc_of G d -> d mod 16 = 0 -> d / 4096 ∈ g_pages G -> 0 <= i < 16 ->
  foreign G ((d + i) / 4).
Proof.
  intros H Hd Hd1 Hd2 Hi. split.
  - intros d' Hd' Hw. apply Hd. destruct (h_desc _ _ _ H d' Hd') as [D1 _].
    assert (d' = d) as <-; [|done]. unfold desc_word in Hw. dlia.
  - intros k b Hb (x & Hx & E). destruct (h_used _ _ _ H k b Hb) as [_ Hu]. apply Hu.
    destruct (h_chains _ _ _ H k b Hb) as (z & Hz & Hok).
    rewrite <- (object_page k z (b_pg b) x Hz (bk_objects _ _ _ Hok x Hx)), <- E, desc_page by lia. done.
Qed.
Lemma poke_foreign G owned s a v : heap_ok G owned s -> mine owned (hmm s) (a / 4096) -> 0 <= v < 4294967296 -> foreign G (a / 4) ->
  heap_ok G owned (poke a v s).
Proof.
  intros H Hm Hv [F1 F2]. destruct (poke_ok owned a v s (h_mm _ _ _ H) Hm Hv) as [P1 P2].
  apply (heap_frame G owned owned s); try done.
  - intros p Hp. by apply P2, (h_pages _ _ _ H).
  - intros w d Hd Hw. apply poke_ne. intros ->. by apply (F1 d).
  - intros w k b Hb Hw. apply poke_ne. intros ->. by apply (F2 k b).
Qed.

(** A list of equidistant addresses, linked one by one. *)
Lemma lseg_seqZ r off f n a : (0 < n)%nat -> (forall i, a <= i < a + Z.of_nat n -> f i <> 0) ->
  (forall i, a <= i < a + Z.of_nat n - 1 -> r ((f i + off) / 4) = f (i + 1)) -> r ((f (a + Z.of_nat n - 1) + off) / 4) = 0 ->
  lseg r off (f a) (map f (seqZ a (Z.of_nat n))) 0.
Proof.
  revert a. induction n as [|n IH]; intros a Hn Hf Hr Hlast; [lia|].
  rewrite seqZ_cons by lia. cbn [map lseg]. split; [done|]. split; [apply Hf; lia|].
  replace (Z.pred (Z.of_nat (S n))) with (Z.of_nat n) by lia. destruct n as [|n].
  - cbn. replace (a + Z.of_nat 1 - 1) with a in Hlast by lia. done.
  - rewrite Hr by lia. replace (Z.succ a) with (a + 1) by lia. apply IH; [lia| | |].
    + intros i Hi. apply Hf. lia.
    + intros i Hi. apply Hr. lia.
    + replace (a + 1 + Z.of_nat (S n) - 1) with (a + Z.of_nat (S (S n)) - 1) by lia. done.
Qed.

(** A loop that writes one word a turn, each at its own place. *)
Lemma poke_loop (place value : Z -> Z) n (I : heap -> Prop) s : 0 <= n -> I s ->
  (forall i s', 0 <= i < n -> I s' -> I (poke (place i) (value i) s')) ->
  (forall i j, 0 <= i < n -> 0 <= j < n -> place i / 4 = place j / 4 -> i = j) ->
  wp (for_each (seqZ 0 n) (fun i => hwr (place i) (value i))) (fun _ s' => I s' /\
    (forall i, 0 <= i < n -> ram (hmm s') (place i / 4) = value i) /\
    (forall w, (forall i, 0 <= i < n -> w <> place i / 4) -> ram (hmm s') w = ram (hmm s) w) /\
    mem_map (hmm s') = mem_map (hmm s) /\ bucket_dir s' = bucket_dir s /\ free_bucket_desc s' = free_bucket_desc s) s.
Proof.
  intros Hn HI Hstep Hinj.
  eapply wp_mono; [apply (wp_for_seq n _ (fun m s' => I s' /\ (forall i, 0 <= i < m -> ram (hmm s') (place i / 4) = value i) /\
    (forall w, (forall i, 0 <= i < m -> w <> place i / 4) -> ram (hmm s') w = ram (hmm s) w) /\
    mem_map (hmm s') = mem_map (hmm s) /\ bucket_dir s' = bucket_dir s /\ free_bucket_desc s' = free_bucket_desc s) 0 Hn)|].
  - intros m s' Hm (H1 & H2 & H3 & H4). apply wp_hwr. split; [by apply Hstep; [lia|]|]. split; [|split; [|done]].
    + intros i Hi. destruct (decide (i = m)) as [->|Hne]; [apply poke_at|].
      rewrite poke_ne; [apply H2; lia|]. intros E. apply Hne. apply Hinj; lia || done.
    + intros w Hw. rewrite poke_ne by (apply Hw; lia). apply H3. intros i Hi. apply Hw. lia.
  - split; [done|]. split; [lia|]. split; [by intros|done].
  - cbv beta. intros [] s' G. by rewrite Z.add_0_l in G.
Qed.

Definition page_descs (p : Z) : list Z := map (fun i => 4096 * p + 16 * i) (seqZ 0 256).
Lemma page_descs_spec p d : d ∈ page_descs p -> d mod 16 = 0 /\ d / 4096 = p.
Proof. intros H. apply list_elem_of_fmap in H as (i & -> & Hi). apply elem_of_seqZ in Hi. split; dlia. Qed.
Lemma page_descs_nodup p : NoDup (page_descs p).
Proof. apply NoDup_fmap_2; [|apply NoDup_seqZ]. intros i j E. lia. Qed.
Definition more_descs (p : Z) (G : ghost) : ghost := mk_ghost (page_descs p) (p :: g_pages G) (g_chain G).

Lemma more_descs_ok G owned s p : heap_ok G owned s -> g_free G = [] -> mine owned (hmm s) p -> ~ page_of G p ->
  lseg (ram (hmm s)) 4 (4096 * p) (page_descs p) 0 -> heap_ok (more_descs p G) owned (s <| free_bucket_desc := 4096 * p |>).
Proof.
  intros H Hg Hm Hp Hl. constructor; try apply H; try done.
  - intros q [Hq|Hq]; [|by apply (h_pages _ _ _ H); right]. apply elem_of_cons in Hq as [->|Hq]; [done|by apply (h_pages _ _ _ H); left].
  - apply page_descs_nodup.
  - intros d [Hd|Hd].
    + apply page_descs_spec in Hd as [H1 H2]. split; [done|]. cbn. rewrite H2. by left.
    + destruct (h_desc _ _ _ H d) as [H1 H2]; [by right|]. split; [done|]. by right.
  - intros k b Hb. destruct (h_used _ _ _ H k b Hb) as [_ Hu]. destruct (h_desc _ _ _ H (b_desc b) (in_desc_of G k b Hb)) as [_ Hd2]. split.
    + intros Hd. apply page_descs_spec in Hd as [_ E]. apply Hp. left. by rewrite <- E.
    + cbn. apply not_elem_of_cons. split; [|done]. intros E. apply Hp. rewrite <- E. by apply (in_page_of G k).
Qed.

(** What is kept while the heap grows: the pages of the buckets, the references of the
    rest of the kernel, the spare pages but [p]. *)
Definition grown (G : ghost) (owned : Z -> Z) (s : heap) (owned' : Z -> Z) (s' : heap) : Prop :=
  (forall w k b, b ∈ g_chain G k -> w / 1024 = b_pg b -> ram (hmm s') w = ram (hmm s) w) /\
  (forall f, 0 < owned f -> owned' f = owned f).

(** A page is taken; the heap is as it was. *)
Lemma page_taken G owned s f0 : heap_ok G owned s -> spare (hmm s) f0 ->
  wp (in_mm get_free_page) (fun a s' => exists p, a = 4096 * p /\ spare (hmm s) (p - 256) /\ owned (p - 256) = 0 /\
    heap_ok G (own (p - 256) owned) s' /\ mine (own (p - 256) owned) (hmm s') p /\ ~ page_of G p /\
    bucket_dir s' = bucket_dir s /\ free_bucket_desc s' = free_bucket_desc s /\
    (forall f, spare (hmm s) f -> f <> p - 256 -> spare (hmm s') f) /\
    forall w, w / 1024 <> p -> ram (hmm s') w = ram (hmm s) w) s.
Proof.
  intros H Hf. apply wp_in_mm. eapply wp_mono; [apply (take_page owned (hmm s) f0); [apply H|done]|]. cbv beta.
  intros a m (p & -> & Hz & Ho & Hmm & Hm & Hold & Hsp & Hr). exists p.
  assert (~ page_of G p) as Hp by (intros Hp; by destruct (Hold p (h_pages _ _ _ H p Hp))).
  do 3 (split; [done|]). split; [|split_and!; done].
  apply (heap_frame G owned _ s); try done.
  - intros q Hq. by apply Hold, (h_pages _ _ _ H).
  - intros w d Hd Hw. apply Hr. intros <-. by apply (proj1 (foreign_page G owned s w H Hp) d).
  - intros w k b Hb Hw. apply Hr. intros <-. by apply (proj2 (foreign_page G owned s w H Hp) k b).
Qed.

Lemma own_grown G owned s s' p : owned (p - 256) = 0 -> ~ page_of G p ->
  (forall w, w / 1024 <> p -> ram (hmm s') w = ram (hmm s) w) -> grown G owned s (own (p - 256) owned) s'.
Proof.
  intros Ho Hp Hr. split.
  - intros w k b Hb E. apply Hr. intros Ew. apply Hp. rewrite <- Ew, E. by apply (in_page_of G k).
  - intros f Hf. unfold own. destruct (Z.eqb_spec f (p - 256)) as [->|]; lia.
Qed.

Lemma init_bucket_desc_ok G owned s f0 : heap_ok G owned s -> g_free G = [] -> free_bucket_desc s = 0 -> spare (hmm s) f0 ->
  wp init_bucket_desc (fun _ s' => exists p, heap_ok (more_descs p G) (own (p - 256) owned) s' /\
    grown G owned s (own (p - 256) owned) s' /\ bucket_dir s' = bucket_dir s /\
    (forall f, spare (hmm s) f -> f <> p - 256 -> spare (hmm s') f)) s.
Proof.
  intros H Hg Hfd Hf. unfold init_bucket_desc. apply wp_bind. eapply wp_mono; [by apply (page_taken G owned s f0)|]. cbv beta.
  intros a s1 (p & -> & Hz & Ho & H1 & Hm1 & Hp & Hd1 & Hfd1 & Hsp & Hr1). pose proof Hm1 as (Hpr & _).
  rewrite truth_ne by lia. cbn [negb]. rewrite wp_bind.
  assert (forall i, 0 <= i < 256 -> d_next (4096 * p + 16 * i) / 4 / 1024 = p) as Hpage by (intros i Hi; unfold d_next; dlia).
  eapply wp_mono; [apply (poke_loop (fun i => d_next (4096 * p + 16 * i)) (fun i => 4096 * p + 16 * (i + 1)) 255
    (fun s' => heap_ok G (own (p - 256) owned) s' /\ mine (own (p - 256) owned) (hmm s') p /\ (forall w, w / 1024 <> p -> ram (hmm s') w = ram (hmm s) w)))|].
  - lia.
  - done.
  - intros i s' Hi (I1 & I2 & I3). split; [|split; [done|]].
    + apply poke_foreign; [done|..]; [unfold d_next; replace ((4096 * p + 16 * i + 4) / 4096) with p by dlia; done|lia|].
      apply (foreign_page G _ s' _ I1). by rewrite Hpage by lia.
    + intros w Hw. rewrite poke_ne; [by apply I3|]. intros ->. by rewrite Hpage in Hw by lia.
  - intros i j Hi Hj. unfold d_next. dlia.
  - cbv beta. intros [] s2 ((H2 & Hm2 & Hr2) & Hlinks & _ & Hmap & Hd2 & Hfd2).
    apply wp_bind, wp_get. cbv beta. rewrite Hfd2, Hfd1, Hfd. apply wp_bind, wp_hwr. apply wp_modify.
    set (s3 := poke (d_next (4096 * p + 16 * 255)) 0 s2).
    assert (heap_ok G (own (p - 256) owned) s3) as H3.
    { apply poke_foreign; [done|..]; [unfold d_next; replace ((4096 * p + 16 * 255 + 4) / 4096) with p by dlia; done|lia|].
      apply (foreign_page G _ s2 _ H2). by rewrite Hpage by lia. }
    assert (forall w, w / 1024 <> p -> ram (hmm s3) w = ram (hmm s) w) as Hr3.
    { intros w Hw. unfold s3. rewrite poke_ne; [by apply Hr2|]. intros ->. by rewrite Hpage in Hw by lia. }
    exists p. split; [|split; [by apply own_grown|split]].
    + apply more_descs_ok; try done. unfold page_descs.
      change (lseg (ram (hmm s3)) 4 (4096 * p) (map (fun i => 4096 * p + 16 * i) (seqZ 0 (Z.of_nat 256))) 0).
      replace (4096 * p) with (4096 * p + 16 * 0) at 1 by lia.
      apply (lseg_seqZ _ 4 (fun i => 4096 * p + 16 * i) 256 0); [lia|intros i Hi; cbv beta; lia| |].
      * intros i Hi. cbv beta. change (4096 * p + 16 * i + 4) with (d_next (4096 * p + 16 * i)). unfold s3. rewrite poke_ne by (unfold d_next; dlia).
        apply Hlinks. lia.
      * apply (poke_at (d_next (4096 * p + 16 * 255))).
    + cbn. congruence.
    + intros f Hf' Hne. destruct (Hsp f Hf' Hne) as [S1 S2]. split; [done|]. cbn. by rewrite Hmap.
Qed.

(** ** A new bucket *)

(** Only the page [p] has changed. *)
Definition only_page (G : ghost) (owned : Z -> Z) (p : Z) (s s' : heap) : Prop :=
  heap_ok G owned s' /\ (forall w, w / 1024 <> p -> ram (hmm s') w = ram (hmm s) w) /\
  forall q, mine owned (hmm s) q -> mine owned (hmm s') q.
Lemma only_page_poke G owned p s s' a v : mine owned (hmm s) p -> ~ page_of G p -> only_page G owned p s s' ->
  a / 4096 = p -> 0 <= v < 4294967296 -> only_page G owned p s (poke a v s').
Proof.
  intros Hm Hp (I1 & I2 & I3) Ha Hv. assert (a / 4 / 1024 = p) as Ha4 by dlia. split; [|split; [|exact I3]].
  - apply poke_foreign; [done|rewrite Ha; by apply I3|done|]. apply (foreign_page G owned s' _ I1). by rewrite Ha4.
  - intros w Hw. rewrite poke_ne; [by apply I2|]. intros ->. done.
Qed.
Lemma chain_objects_ok G owned s k sz p : heap_ok G owned s -> sizes !! k = Some sz -> mine owned (hmm s) p -> ~ page_of G p ->
  wp (chain_objects (4096 * p) sz) (fun _ s' => only_page G owned p s s' /\ lseg (ram (hmm s')) 0 (4096 * p) (page_objects sz p) 0 /\
    mem_map (hmm s') = mem_map (hmm s) /\ bucket_dir s' = bucket_dir s /\ free_bucket_desc s' = free_bucket_desc s) s.
Proof.
  intros H Hk Hm Hp. destruct (size_facts k sz Hk) as (Z1 & Z2 & Z3 & Z4). pose proof Hm as (Hpr & _).
  set (n := 4096 / sz) in *. set (place := fun i => 4096 * p + sz * i).
  assert (forall i, 0 <= i < n -> place i / 4096 = p /\ place i mod 4 = 0 /\ 4096 * p <= place i /\ place i + sz <= 4096 * (p + 1)) as Hplace.
  { intros i Hi. apply (object_facts k sz p); [done|]. by exists i. }
  assert (forall i j, 0 <= i < n -> 0 <= j < n -> place i / 4 = place j / 4 -> i = j) as Hinj.
  { intros i j Hi Hj E. destruct (Hplace i Hi) as (_ & Ei & _). destruct (Hplace j Hj) as (_ & Ej & _).
    apply word_of_object in E; [|done..]. unfold place in E. nia. }
  unfold chain_objects. fold n. rewrite wp_bind.
  eapply wp_mono; [apply (poke_loop place (fun i => place i + sz) (n - 1) (only_page G owned p s))|].
  - lia.
  - split; [done|]. by split.
  - intros i s' Hi HI. destruct (Hplace i ltac:(lia)) as (P1 & _ & P2 & P3). apply only_page_poke; done || lia.
  - intros i j Hi Hj. apply Hinj; lia.
  - cbv beta. intros [] s1 (H1 & Hlinks & _ & Hrest). apply wp_hwr. change (4096 * p + sz * (n - 1)) with (place (n - 1)).
    destruct (Hplace (n - 1) ltac:(lia)) as (P1 & _). split; [by apply only_page_poke|]. split; [|exact Hrest].
    set (s2 := poke (place (n - 1)) 0 s1).
    unfold page_objects. fold n. fold place. replace n with (Z.of_nat (Z.to_nat n)) by lia. replace (4096 * p) with (place 0) by (unfold place; lia).
    apply (lseg_seqZ _ 0 place); [lia| | |].
    + intros i Hi. destruct (Hplace i ltac:(lia)). lia.
    + intros i Hi. rewrite Z.add_0_r. unfold s2. rewrite poke_ne; [rewrite Hlinks by lia; unfold place; lia|].
      intros E. apply Hinj in E; lia.
    + rewrite Z.add_0_r. replace (0 + Z.of_nat (Z.to_nat n) - 1) with (n - 1) by lia. apply poke_at.
Qed.

(** A descriptor that is taken from the free ones and not yet in a chain. *)
Definition idle_desc (G : ghost) (d : Z) : Prop := ~ desc_of G d /\ d mod 16 = 0 /\ d / 4096 ∈ g_pages G /\ 256 <= d / 4096 < 4096.
Lemma poke_desc G owned s d i v : heap_ok G owned s -> idle_desc G d -> 0 <= i < 16 -> 0 <= v < 4294967296 ->
  heap_ok G owned (poke (d + i) v s).
Proof.
  intros H (D1 & D2 & D3 & _) Hi Hv. apply poke_foreign; [done| |done|by apply (foreign_desc G owned s)].
  replace ((d + i) / 4096) with (d / 4096) by dlia. apply (h_pages _ _ _ H). by left.
Qed.
Definition popped (fl : list Z) (G : ghost) : ghost := mk_ghost fl (g_pages G) (g_chain G).
Lemma popped_ok G owned s d fl : heap_ok G owned s -> g_free G = d :: fl ->
  free_bucket_desc s = d /\ idle_desc (popped fl G) d /\ heap_ok (popped fl G) owned (s <| free_bucket_desc := ram (hmm s) (d_next d / 4) |>).
Proof.
  intros H Hg. pose proof (h_free _ _ _ H) as Hl. pose proof (h_free_nodup _ _ _ H) as Hnd. rewrite Hg in Hl, Hnd.
  cbn [lseg] in Hl. destruct Hl as (Hd & Hd0 & Hl). apply NoDup_cons in Hnd as [Hnin Hnd].
  assert (desc_of G d) as Hdo by (left; rewrite Hg; by left). destruct (h_desc _ _ _ H d Hdo) as [D1 D2].
  destruct (h_pages _ _ _ H (d / 4096)) as [D3 _]; [by left|]. split; [done|]. split.
  - split; [|done]. intros [Hin|(k & b & Hb & ->)]; [done|]. destruct (h_used _ _ _ H k b Hb) as [Hu _]. apply Hu. rewrite Hg. by left.
  - constructor; try apply H; try done.
    + intros x [Hx|Hx]; apply (h_desc _ _ _ H); [left; rewrite Hg; by right|by right].
    + intros k b Hb. destruct (h_used _ _ _ H k b Hb) as [Hu1 Hu2]. rewrite Hg in Hu1. split; [|done]. cbn. set_solver.
Qed.

(** The bucket is linked into its chain. *)
Definition added (k : nat) (b : bucket) (G : ghost) : ghost :=
  mk_ghost (g_free G) (g_pages G) (fun j => if Nat.eqb j k then b :: g_chain G j else g_chain G j).
Lemma added_in k b G j c : c ∈ g_chain (added k b G) j <-> (j = k /\ c = b) \/ c ∈ g_chain G j.
Proof.
  cbn. destruct (Nat.eqb_spec j k) as [->|Hne]; [rewrite elem_of_cons; naive_solver|naive_solver].
Qed.
Lemma added_ok G owned s k sz b head : heap_ok G owned s -> sizes !! k = Some sz -> bucket_dir s !! k = Some (sz, head) ->
  bucket_ok (ram (hmm s)) sz b -> idle_desc G (b_desc b) -> mine owned (hmm s) (b_pg b) -> ~ page_of G (b_pg b) ->
  ram (hmm s) (d_next (b_desc b) / 4) = head ->
  heap_ok (added k b G) owned (s <| bucket_dir ::= <[k := (sz, b_desc b)]> |>).
Proof.
  intros H Hk Hdir Hok (D1 & D2 & D3 & D4) Hm Hp Hnext. pose proof (lookup_lt_Some _ _ _ Hdir) as Hlt. constructor; try apply H.
  - intros p [Hq|(j & c & Hc & ->)]; [apply (h_pages _ _ _ H); by left|].
    apply added_in in Hc as [[-> ->]|Hc]; [done|by apply (h_pages _ _ _ H), (in_page_of G j)].
  - cbn. rewrite length_insert. apply H.
  - cbn. apply lookup_lt_Some in Hk. cbn in Hk. rewrite list_lookup_insert_ne by lia. apply H.
  - intros j z Hz. cbn [added g_chain]. destruct (Nat.eqb_spec j k) as [->|Hne].
    + assert (z = sz) as -> by congruence. exists (b_desc b). split; [cbn; by rewrite list_lookup_insert_eq|].
      cbn [map lseg]. split; [done|]. split; [intros E; clear -D4 E; dlia|]. change (b_desc b + 4) with (d_next (b_desc b)).
      change (lseg (ram (hmm s)) 4 (ram (hmm s) (d_next (b_desc b) / 4)) (map b_desc (g_chain G k)) 0). rewrite Hnext.
      destruct (h_dirs _ _ _ H k sz Hk) as (h & E & Hl). assert (h = head) as <- by congruence. done.
    + destruct (h_dirs _ _ _ H j z Hz) as (h & E & Hl). exists h. split; [cbn; by rewrite list_lookup_insert_ne|done].
  - intros j c Hc. apply added_in in Hc as [[-> ->]|Hc]; [by exists sz|by apply (h_chains _ _ _ H)].
  - intros d [Hd|(j & c & Hc & ->)]; [apply (h_desc _ _ _ H); by left|].
    apply added_in in Hc as [[-> ->]|Hc]; [done|by apply (h_desc _ _ _ H), (in_desc_of G j)].
  - assert (forall j c, c ∈ g_chain G j -> b_desc b = b_desc c \/ b_pg b = b_pg c -> False) as Hnew.
    { intros j c Hc [E|E]; [apply D1; rewrite E; by apply (in_desc_of G j)|apply Hp; rewrite E; by apply (in_page_of G j)]. }
    intros j c j' c' Hc Hc' E. apply added_in in Hc as [[-> ->]|Hc]; apply added_in in Hc' as [[-> ->]|Hc'];
      [done|by destruct (Hnew j' c')|destruct (Hnew j c Hc); naive_solver|by apply (h_distinct _ _ _ H)].
  - intros j. cbn [added g_chain]. destruct (Nat.eqb_spec j k) as [->|]; [|apply (h_nodup _ _ _ H)]. cbn [map]. apply NoDup_cons.
    split; [|apply (h_nodup _ _ _ H)]. intros Hin. apply list_elem_of_fmap in Hin as (c & E & Hc). apply D1. rewrite E. by apply (in_desc_of G k).
  - intros j c Hc. apply added_in in Hc as [[-> ->]|Hc]; [|by apply (h_used _ _ _ H j)].
    split; [intros Hin; apply D1; by left|intros Hin; apply Hp; by left].
Qed.
Lemma added_live k b sz G z x : sizes !! k = Some sz -> (forall y, object sz (b_pg b) y -> y ∈ b_frees b) ->
  live (added k b G) z x <-> live G z x.
Proof.
  intros Hk Hall. split; intros (j & c & Hz & Hc & Ho & Hx).
  - apply added_in in Hc as [[-> ->]|Hc]; [|by exists j, c]. assert (z = sz) as -> by congruence. by destruct Hx; apply Hall.
  - exists j, c. split; [done|]. split; [|done]. apply added_in. by right.
Qed.

Lemma grown_refl G owned s : grown G owned s owned s.
Proof. done. Qed.
Lemma grown_trans G G1 o1 s1 o2 s2 o3 s3 : grown G o1 s1 o2 s2 -> grown G1 o2 s2 o3 s3 -> (forall j, g_chain G1 j = g_chain G j) ->
  grown G o1 s1 o3 s3.
Proof.
  intros [A1 A2] [B1 B2] E. split.
  - intros w k b Hb Hw. rewrite (B1 w k b), (A1 w k b); [done|done|done|by rewrite E|done].
  - intros f Hf. rewrite B2 by (by rewrite A2). by apply A2.
Qed.
Lemma some_desc G owned s f0 f1 : heap_ok G owned s -> spare (hmm s) f0 -> spare (hmm s) f1 -> f0 <> f1 ->
  wp (when (negb (truth (free_bucket_desc s))) init_bucket_desc) (fun _ s' => exists G' owned' d fl f, heap_ok G' owned' s' /\
    g_free G' = d :: fl /\ g_chain G' = g_chain G /\ grown G owned s owned' s' /\ bucket_dir s' = bucket_dir s /\ spare (hmm s') f) s.
Proof.
  intros H Hf0 Hf1 Hne. pose proof (h_free _ _ _ H) as Hl. destruct (g_free G) as [|d fl] eqn:Eg; cbn [lseg] in Hl.
  - rewrite Hl. cbn [truth Z.eqb negb when]. eapply wp_mono; [by apply (init_bucket_desc_ok G owned s f0)|]. cbv beta.
    intros [] s' (p & H' & Hgrown & Hdir & Hsp). exists (more_descs p G), (own (p - 256) owned), (4096 * p + 16 * 0), (map (fun i => 4096 * p + 16 * i) (seqZ 1 255)).
    destruct (decide (f0 = p - 256)) as [E|E]; [exists f1|exists f0]; (do 5 (split; [done|]); apply Hsp; [done|congruence]).
  - destruct Hl as (E & Hd & _). rewrite E, truth_ne by done. cbn [negb when]. apply wp_ret.
    exists G, owned, d, fl, f0. do 5 (split; [done|]). done.
Qed.
Lemma counts_run d sz s : 0 <= sz < 65536 -> 0 <= ram (hmm s) (d_counts d / 4) < 4294967296 ->
  exists v, 0 <= v < 4294967296 /\ set_refcnt d 0 s = Done tt (poke (d_counts d) v s) /\
  set_bucket_size d sz (poke (d_counts d) v s) = Done tt (poke (d_counts d) (65536 * sz) (poke (d_counts d) v s)).
Proof.
  intros Hsz Hw. set (w := ram (hmm s) (d_counts d / 4)) in *. exists (w - w mod 65536 + u16 0). unfold u16. cbn [Z.modulo].
  change (0 mod 2 ^ 16) with 0. split; [dlia|]. split; [unfold set_refcnt; run (hrd_run (d_counts d) s); done|].
  unfold set_bucket_size. set (s1 := poke _ _ s). run (hrd_run (d_counts d) s1). rewrite hwr_run.
  assert (ram (hmm s1) (d_counts d / 4) mod 65536 = 0) as ->.
  { assert (ram (hmm s1) (d_counts d / 4) = w - w mod 65536 + 0) as -> by apply poke_at. dlia. }
  unfold u16. rewrite Z.mod_small by lia. done.
Qed.
Lemma chain_head_range G owned s k sz head : heap_ok G owned s -> sizes !! k = Some sz -> bucket_dir s !! k = Some (sz, head) -> 0 <= head < 4294967296.
Proof.
  intros H Hk E. destruct (h_dirs _ _ _ H k sz Hk) as (h & E' & Hl). assert (h = head) as -> by congruence.
  destruct (g_chain G k) as [|b l] eqn:Eb; cbn in Hl; [lia|]. destruct Hl as (-> & _).
  assert (b ∈ g_chain G k) as Hb by (rewrite Eb; by left). destruct (h_desc _ _ _ H (b_desc b) (in_desc_of G k b Hb)) as [_ D2].
  destruct (h_pages _ _ _ H (b_desc b / 4096)) as [Hp _]; [by left|]. dlia.
Qed.
Lemma idle_words G owned s d i w k b : heap_ok G owned s -> idle_desc G d -> 0 <= i < 16 -> b ∈ g_chain G k -> w / 1024 = b_pg b -> w <> (d + i) / 4.
Proof.
  intros H (_ & D2 & D3 & _) Hi Hb Hw ->. rewrite desc_page in Hw by lia. destruct (h_used _ _ _ H k b Hb) as [_ Hu]. by rewrite <- Hw in Hu.
Qed.

Lemma fill_bucket_ok G owned s k sz head d f : heap_ok G owned s -> idle_desc G d -> sizes !! k = Some sz -> bucket_dir s !! k = Some (sz, head) ->
  spare (hmm s) f ->
  wp (fill_bucket k d) (fun _ s' => exists p, heap_ok (added k (mk_bucket d p (page_objects sz p)) G) (own (p - 256) owned) s' /\
    grown G owned s (own (p - 256) owned) s') s.
Proof.
  intros H Hd Hk Hdir Hf. destruct (size_facts k sz Hk) as (Z1 & Z2 & Z3 & Z4). pose proof Hd as (D1 & D2 & D3 & D4).
  destruct (counts_run d sz s ltac:(lia) (ok_words _ _ (h_mm _ _ _ H) _)) as (v & Hv & Hrun1 & Hrun2).
  unfold fill_bucket. apply wp_bind. unfold wp at 1. rewrite Hrun1. set (s1 := poke (d_counts d) v s) in *.
  apply wp_bind. unfold wp at 1. rewrite (get_dir_run k s1 (sz, head)) by done. cbn [fst snd].
  apply wp_bind. unfold wp at 1. rewrite Hrun2. set (s2 := poke (d_counts d) (65536 * sz) s1).
  assert (heap_ok G owned s2) as H2 by (apply poke_desc; [apply poke_desc; done || lia|done|lia|lia]).
  apply wp_bind. eapply wp_mono; [by apply (page_taken G owned s2 f)|]. cbv beta.
  intros a s3 (p & -> & _ & Hop & H3 & Hm3 & Hp & Hd3 & _ & _ & Hr3). pose proof Hm3 as (Hpr & _).
  hstep. hstep. rewrite truth_ne by lia. cbn [negb]. set (s5 := poke (d_page d) _ _).
  assert (heap_ok G (own (p - 256) owned) s5) as H5.
  { unfold s5, d_page, d_freeptr. replace d with (d + 0) at 1 by lia. apply poke_desc; [apply poke_desc; done || lia|done|lia|lia]. }
  assert (d / 4096 <> p) as Hdp by (intros E; apply Hp; left; by rewrite <- E).
  rewrite wp_bind. eapply wp_mono; [apply (chain_objects_ok G (own (p - 256) owned) s5 k sz p); done|]. cbv beta.
  intros [] s6 ((H6 & Hr6 & Hm6) & Hl6 & _ & Hd6 & _).
  assert (bucket_dir s6 = bucket_dir s) as Hd6' by (rewrite Hd6; exact Hd3).
  apply wp_bind. unfold wp at 1. rewrite (get_dir_run k s6 (sz, head)) by (by rewrite Hd6'). cbn [snd].
  hstep. set (s7 := poke (d_next d) head s6).
  assert (heap_ok G (own (p - 256) owned) s7) as H7 by (apply poke_desc; [done|done|lia|by apply (chain_head_range G owned s k sz)]).
  assert (bucket_dir s7 !! k = Some (sz, head)) as Hdir7 by (change (bucket_dir s7) with (bucket_dir s6); by rewrite Hd6').
  unfold wp. rewrite (set_chain_run k s7 sz head d Hdir7). exists p.
  assert (forall i, 0 <= i < 16 -> (d + i) / 4 <> (d + 4) / 4 -> ram (hmm s7) ((d + i) / 4) = ram (hmm s5) ((d + i) / 4)) as Hr7.
  { intros i Hi Hne. unfold s7, d_next. rewrite poke_ne by done. apply Hr6. by rewrite desc_page. }
  split.
  - apply (added_ok G (own (p - 256) owned) s7 k sz (mk_bucket d p (page_objects sz p)) head); try done; [|by apply Hm6|apply poke_at].
    split; cbn [b_desc b_pg b_frees]; unfold d_page, d_counts, d_freeptr.
    + replace (d / 4) with ((d + 0) / 4) by (f_equal; lia). rewrite Hr7 by dlia. unfold s5, d_page. rewrite Z.add_0_r. apply poke_at.
    + rewrite Hr7 by dlia. unfold s5, d_page, d_freeptr. rewrite !poke_ne by dlia. rewrite Hr3 by (rewrite desc_page by lia; done).
      unfold s2, d_counts. rewrite poke_at, length_page_objects. lia.
    + rewrite Hr7 by dlia. assert (ram (hmm s5) ((d + 8) / 4) = 4096 * p) as ->.
      { unfold s5, d_page, d_freeptr. rewrite poke_ne by dlia. apply poke_at. }
      apply (lseg_ext (ram (hmm s6))); [|done]. intros x Hx. apply page_objects_spec in Hx. apply poke_ne. rewrite Z.add_0_r. intros E.
      apply Hdp. rewrite <- (object_page k sz p x Hk Hx), E. unfold d_next. by rewrite desc_page.
    + apply page_objects_nodup. lia.
    + intros x. apply page_objects_spec.
  - split; [|intros g Hg; unfold own; destruct (Z.eqb_spec g (p - 256)) as [->|]; lia].
    intros w j b Hb Hw. assert (w / 1024 <> p) as Hwp by (intros E; apply Hp; rewrite <- E, Hw; by apply (in_page_of G j)).
    pose proof (fun i Hi => idle_words G owned s d i w j b H Hd Hi Hb Hw) as Hwd.
    assert (w <> d / 4) as Hwd0 by (intros E; apply (Hwd 0); [lia|by rewrite Z.add_0_r]).
    change (hmm (s7 <| bucket_dir ::= _ |>)) with (hmm s7). unfold s7. rewrite poke_ne by (by apply Hwd). rewrite Hr6 by done. unfold s5, d_page, d_freeptr. rewrite !poke_ne by (done || by apply Hwd).
    rewrite Hr3 by done. unfold s2, s1, d_counts. by rewrite !poke_ne by (by apply Hwd).
Qed.

Lemma new_bucket_ok G owned s k sz f0 f1 : heap_ok G owned s -> sizes !! k = Some sz -> spare (hmm s) f0 -> spare (hmm s) f1 -> f0 <> f1 ->
  wp (new_bucket k) (fun d s' => exists G' owned' b, heap_ok G' owned' s' /\ b ∈ g_chain G' k /\ d = b_desc b /\
    b_frees b = page_objects sz (b_pg b) /\ (forall z x, live G' z x <-> live G z x) /\
    (forall j c, c ∈ g_chain G j -> c ∈ g_chain G' j) /\ grown G owned s owned' s') s.
Proof.
  intros H Hk Hf0 Hf1 Hne. unfold new_bucket. apply wp_bind, wp_get. cbv beta. apply wp_bind.
  eapply wp_mono; [by apply (some_desc G owned s f0 f1)|]. cbv beta.
  intros [] s1 (G1 & owned1 & d & fl & f & H1 & Hg1 & Hch1 & Hgr1 & Hd1 & Hsp1).
  destruct (popped_ok G1 owned1 s1 d fl H1 Hg1) as (Hfd & Hidle & H2). apply wp_bind, wp_get. cbv beta. rewrite Hfd. hstep.
  apply wp_bind, wp_modify. set (s2 := s1 <| free_bucket_desc := _ |>) in *.
  destruct (h_dirs _ _ _ H k sz Hk) as (head & E & _). rewrite <- Hd1 in E. apply wp_bind.
  eapply wp_mono; [by apply (fill_bucket_ok (popped fl G1) owned1 s2 k sz head d f)|]. cbv beta. intros [] s3 (p & H3 & Hgr3).
  apply wp_ret. set (b := mk_bucket d p (page_objects sz p)) in *. exists (added k b (popped fl G1)), (own (p - 256) owned1), b.
  split; [done|]. split; [apply added_in; by left|]. split; [done|]. split; [done|]. split; [|split].
  - intros z x. rewrite (added_live k b sz); [|done|intros y; apply page_objects_spec]. unfold live. cbn [popped g_chain]. by rewrite Hch1.
  - intros j c Hc. apply added_in. right. cbn. by rewrite Hch1.
  - apply (grown_trans G (popped fl G1) owned s owned1 s1); [done| |intros j; cbn; by rewrite Hch1].
    exact Hgr3.
Qed.

(** The bucket of a size. *)
Lemma find_dir_spec szs dirs i len : map fst dirs = szs ++ [0] -> (forall z, z ∈ szs -> 0 < z) -> (exists z, z ∈ szs /\ len <= z) ->
  exists j z, find_dir dirs i len = Some (i + j)%nat /\ szs !! j = Some z /\ len <= z /\ forall j' z', (j' < j)%nat -> szs !! j' = Some z' -> z' < len.
Proof.
  revert dirs i. induction szs as [|y szs IH]; intros dirs i Hd Hpos (z & Hz & Hlen); [by apply elem_of_nil in Hz|].
  destruct dirs as [|[y' c] dirs]; [done|]. cbn in Hd. injection Hd as -> Hd. cbn [find_dir].
  rewrite truth_ne by (specialize (Hpos y ltac:(by left)); lia). cbn [negb]. destruct (Z.leb_spec len y) as [Hy|Hy].
  - exists 0%nat, y. split; [f_equal; lia|]. split; [done|]. split; [done|]. intros; lia.
  - destruct (IH dirs (S i) Hd) as (j & x & E & Ej & Hx & Hmin); [intros x Hx; apply Hpos; by right| |].
    { exists z. split; [|done]. apply elem_of_cons in Hz as [->|]; [lia|done]. }
    exists (S j), x. split; [rewrite E; f_equal; lia|]. split; [done|]. split; [done|]. intros [|j'] z' Hj Hz'; [injection Hz' as <-; lia|].
    apply (Hmin j'); [lia|done].
Qed.
Lemma sizes_sorted i j y z : sizes !! i = Some y -> sizes !! j = Some z -> y < z -> (i < j)%nat.
Proof.
  intros Hi Hj. do 9 (destruct i as [|i]; [injection Hi as <-; do 9 (destruct j as [|j]; [injection Hj as <-; lia|]); done|]). done.
Qed.
Lemma find_dir_ok G owned s len : heap_ok G owned s -> len <= 4096 ->
  exists k sz, find_dir (bucket_dir s) 0 len = Some k /\ sizes !! k = Some sz /\ len <= sz /\ forall z, z ∈ sizes -> len <= z -> sz <= z.
Proof.
  intros H Hlen. assert (map fst (bucket_dir s) = sizes ++ [0]) as E.
  { apply list_eq. intros i. rewrite list_lookup_fmap. destruct (sizes !! i) as [z|] eqn:Ei.
    - rewrite (lookup_app_l_Some _ _ _ _ Ei). destruct (h_dirs _ _ _ H i z Ei) as (h & -> & _). done.
    - apply lookup_ge_None in Ei. rewrite lookup_app_r by done. change (length sizes) with 9%nat in *.
      destruct (decide (i = 9)%nat) as [->|Hi]; [by rewrite (h_end _ _ _ H)|]. rewrite !lookup_ge_None_2; [done|cbn; lia|].
      rewrite (h_len _ _ _ H). lia. }
  destruct (find_dir_spec sizes (bucket_dir s) 0 len E) as (k & sz & Hf & Hk & Hle & Hmin).
  - intros z Hz. apply list_elem_of_lookup in Hz as [i Hi]. destruct (size_facts i z Hi). lia.
  - exists 4096. split; [|done]. apply list_elem_of_lookup. by exists 8%nat.
  - exists k, sz. split; [done|]. split; [done|]. split; [done|]. intros z Hz Hz'. apply list_elem_of_lookup in Hz as [i Hi].
    destruct (Z.le_gt_cases sz z) as [|Hlt]; [done|]. specialize (Hmin i z (sizes_sorted i k z sz Hi Hk ltac:(lia)) Hi). lia.
Qed.

(** The bucket the object is taken from. *)
Lemma some_bucket_ok G owned s k sz head f0 f1 : heap_ok G owned s -> sizes !! k = Some sz -> bucket_dir s !! k = Some (sz, head) ->
  spare (hmm s) f0 -> spare (hmm s) f1 -> f0 <> f1 ->
  wp (d <- find_desc head ;; if negb (truth d) then new_bucket k else ret d) (fun d s' => exists G' owned' b x rest, heap_ok G' owned' s' /\
    b ∈ g_chain G' k /\ d = b_desc b /\ b_frees b = x :: rest /\ (forall z x, live G' z x <-> live G z x) /\ grown G owned s owned' s') s.
Proof.
  intros H Hk E Hf0 Hf1 Hne. destruct (h_dirs _ _ _ H k sz Hk) as (h & E' & Hl). assert (h = head) as -> by congruence.
  destruct (find_desc_ok s sz (g_chain G k) head) as (d & Hrun & Hd); [intros b Hb; by apply (chain_size G owned s k)|done|by apply (chain_length G owned s)|].
  apply wp_bind. unfold wp at 1. rewrite Hrun. destruct Hd as [[-> _]|(b & Hb & -> & Hd0 & Hfr)].
  - cbn [truth Z.eqb negb]. eapply wp_mono; [by apply (new_bucket_ok G owned s k sz f0 f1)|]. cbv beta.
    intros d s' (G' & owned' & b & H1 & H2 & H3 & H4 & H5 & _ & H6). destruct (b_frees b) as [|x rest] eqn:Ef.
    + exfalso. apply (f_equal length) in H4. rewrite length_page_objects in H4. destruct (size_facts k sz Hk) as (_ & _ & _ & ?). cbn in H4. lia.
    + by exists G', owned', b, x, rest.
  - rewrite truth_ne by done. cbn [negb]. apply wp_ret. destruct (b_frees b) as [|x rest] eqn:Ef; [done|]. by exists G, owned, b, x, rest.
Qed.
(** The objects in use once [x] is taken. *)
Lemma taken_live G owned s k sz b x rest z y : heap_ok G owned s -> sizes !! k = Some sz -> b ∈ g_chain G k -> b_frees b = x :: rest ->
  live (refreed (b_desc b) rest G) z y <-> live G z y \/ (z = sz /\ y = x).
Proof.
  intros H Hk Hb Efr. pose proof (chain_size G owned s k b sz H Hb Hk) as Hok. pose proof (bk_nodup _ _ _ Hok) as Hnd.
  pose proof (bk_objects _ _ _ Hok x) as Hx. rewrite Efr in Hnd, Hx. specialize (Hx ltac:(by left)). apply NoDup_cons in Hnd as [Hnin _].
  rewrite (refreed_live G owned s k sz b) by done.
  destruct (decide (y ∈ page_objects sz (b_pg b))) as [Hy|Hy]; rewrite page_objects_spec in Hy.
  - rewrite (live_in G owned s k sz b y H Hk Hb Hy), Efr, not_elem_of_cons. split.
    + intros [[[-> [? ?]] ?]|(-> & _ & ?)]; [tauto|]. destruct (decide (y = x)); [by right|by left].
    + intros [(-> & ? & ?)|[-> ->]]; by right.
  - split.
    + intros [[? _]|(_ & ? & _)]; [by left|done].
    + intros [?|[-> ->]]; [|done]. left. split; [done|tauto].
Qed.
Lemma malloc_run G owned s len f0 f1 : heap_ok G owned s -> len <= 4096 -> spare (hmm s) f0 -> spare (hmm s) f1 -> f0 <> f1 ->
  wp (malloc len) (fun x s' => exists G' owned' sz, heap_ok G' owned' s' /\
    sz ∈ sizes /\ len <= sz /\ (forall z, z ∈ sizes -> len <= z -> sz <= z) /\ ~ live G sz x /\
    (forall z y, live G' z y <-> live G z y \/ (z = sz /\ y = x)) /\
    (forall z y w, live G z y -> y / 4 <= w < (y + z) / 4 -> ram (hmm s') w = ram (hmm s) w) /\
    (forall f, 0 < owned f -> owned' f = owned f)) s.
Proof.
  intros H Hlen Hf0 Hf1 Hne. unfold malloc. apply wp_bind, wp_get. cbv beta.
  destruct (find_dir_ok G owned s len H Hlen) as (k & sz & -> & Hk & Hle & Hmin).
  destruct (h_dirs _ _ _ H k sz Hk) as (head & E & _). apply wp_bind. unfold wp at 1. rewrite (get_dir_run k s _ E). cbn [snd].
  unfold wp. rewrite <- bind_assoc. apply wp_bind. eapply wp_mono; [by apply (some_bucket_ok G owned s k sz head f0 f1)|]. cbv beta.
  intros d s1 (G1 & owned1 & b & x & rest & H1 & Hb & -> & Efr & Hlive1 & [Hgr1 Hgr2]).
  assert (object sz (b_pg b) x) as Hx by (apply (bk_objects _ _ _ (chain_size G1 owned1 s1 k b sz H1 Hb Hk)); rewrite Efr; by left).
  eapply wp_mono; [by apply (take_object_ok G1 owned1 s1 k sz b x rest)|]. cbv beta. intros x' s2 (-> & H2 & _ & Hr2).
  exists (refreed (b_desc b) rest G1), owned1, sz. split; [done|]. split; [by eapply list_elem_of_lookup_2|]. split; [done|]. split; [done|]. split; [|split; [|split; [|done]]].
  - rewrite <- Hlive1. intros Hy. apply (live_in G1 owned1 s1 k sz b x H1 Hk Hb Hx) in Hy as [_ Hy]. apply Hy. rewrite Efr. by left.
  - intros z y. rewrite <- Hlive1. by apply (taken_live G1 owned1 s1 k).
  - intros z y w Hy Hw. rewrite Hr2.
    + destruct Hy as (j & c & Hz & Hc & Ho & _). apply (Hgr1 w j c); [done|]. destruct (object_facts j z _ y Hz Ho). dlia.
    + apply (live_words G1 owned1 s1 z y w H1); [by apply Hlive1|done|by apply (in_desc_of G1 k)].
Qed.

(** C14: what [malloc] does.  For a length up to a page, while the memory manager has two
    pages to spare, [malloc] returns an object of the smallest size that is large enough; it
    overlaps no object in use; the objects in use are then those of before and this one,
    none of their words has changed, no reference of the rest of the kernel to a page is lost, and the heap is in order. *)
Theorem malloc_ok G owned s len f0 f1 : heap_ok G owned s -> len <= 4096 ->
  spare (hmm s) f0 -> spare (hmm s) f1 -> f0 <> f1 ->
  wp (malloc len) (fun x s' => exists G' owned' sz, heap_ok G' owned' s' /\
    sz ∈ sizes /\ len <= sz /\ (forall z, z ∈ sizes -> len <= z -> sz <= z) /\
    (forall z y, live G z y -> y + z <= x \/ x + sz <= y) /\
    (forall z y, live G' z y <-> live G z y \/ (z = sz /\ y = x)) /\
    (forall z y w, live G z y -> y / 4 <= w < (y + z) / 4 -> ram (hmm s') w = ram (hmm s) w) /\
    (forall f, 0 < owned f -> owned' f = owned f)) s.
Proof.
  intros H Hlen Hf0 Hf1 Hne. eapply wp_mono; [by apply (malloc_run G owned s len f0 f1)|]. cbv beta.
  intros x s' (G' & owned' & sz & H' & H1 & H2 & H3 & Hnew & Hlive & Hrest). exists G', owned', sz. do 4 (split; [done|]). split; [|done].
  intros z y Hy. destruct (live_apart G' owned' s' z y sz x H') as [[-> ->]|]; [apply Hlive; by left|apply Hlive; by right|done|done].
Qed.

(** ** The heap at boot *)
Definition boot_heap : heap := mk_heap boot_mm init_bucket_dir 0.
Definition boot_ghost : ghost := mk_ghost [] [] (fun _ => []).
Lemma boot_heap_ok : heap_ok boot_ghost boot_owned boot_heap.
Proof.
  constructor; try done.
  - apply boot_mm_ok.
  - intros p [Hp|(k & b & Hb & _)]; [by apply elem_of_nil in Hp|by apply elem_of_nil in Hb].
  - intros k sz Hk. exists 0. split; [|done]. do 9 (destruct k as [|k]; [injection Hk as <-; reflexivity|]). done.
  - intros k b Hb. by apply elem_of_nil in Hb.
  - apply NoDup_nil_2.
  - intros d [Hd|(k & b & Hb & _)]; [by apply elem_of_nil in Hd|by apply elem_of_nil in Hb].
  - intros k b k' b' Hb. by apply elem_of_nil in Hb.
  - intros k. apply NoDup_nil_2.
  - intros k b Hb. by apply elem_of_nil in Hb.
Qed.
Lemma boot_spare f : 4 <= f < 3840 -> spare (hmm boot_heap) f.
Proof.
  intros Hf. split; [lia|]. change (mem_map (hmm boot_heap)) with (replicate 4 100 ++ replicate 3836 0).
  rewrite lookup_app_r by (rewrite length_replicate; lia). rewrite length_replicate. apply lookup_replicate_2. lia.
Qed.
Lemma malloc_ok_witness : wp (malloc 100) (fun x s' => exists G' owned' sz, heap_ok G' owned' s' /\
    sz ∈ sizes /\ 100 <= sz /\ (forall z, z ∈ sizes -> 100 <= z -> sz <= z) /\
    (forall z y, live boot_ghost z y -> y + z <= x \/ x + sz <= y) /\
    (forall z y, live G' z y <-> live boot_ghost z y \/ (z = sz /\ y = x)) /\
    (forall z y w, live boot_ghost z y -> y / 4 <= w < (y + z) / 4 -> ram (hmm s') w = ram (hmm boot_heap) w) /\
    (forall f, 0 < boot_owned f -> owned' f = boot_owned f)) boot_heap.
Proof.
  refine (malloc_ok boot_ghost boot_owned boot_heap 100 4 5 boot_heap_ok _ (boot_spare 4 _) (boot_spare 5 _) _); lia.
Defined.
Lemma wp_inv {S A} (m : M S A) Q s : wp m Q s -> exists a s', Q a s'.
Proof. unfold wp. destruct (m s) as [a s'| | |]; [by exists a, s'|done..]. Qed.
Lemma free_s_ok_witness : exists (G : ghost) (owned : Z -> Z) (s : heap) (sz x : Z), live G sz x /\
  wp (free_s x 0) (fun _ s' => exists G' owned', heap_ok G' owned' s' /\
    (forall z y, live G' z y <-> live G z y /\ y <> x) /\
    (forall z y w, live G z y -> y <> x -> y / 4 <= w < (y + z) / 4 -> ram (hmm s') w = ram (hmm s) w) /\
    ((forall z y, live G z y -> y / 4096 = x / 4096 -> y = x) -> spare (hmm s') (x / 4096 - 256))) s.
Proof.
  pose proof (malloc_run boot_ghost boot_owned boot_heap 100 4 5 boot_heap_ok ltac:(lia) (boot_spare 4 ltac:(lia)) (boot_spare 5 ltac:(lia)) ltac:(lia)) as H.
  apply wp_inv in H as (x & s & G & owned & sz & H & Hsz & Hlen & _ & _ & Hlive & _).
  assert (live G sz x) as Hx by (apply Hlive; right; split; reflexivity).
  exists G, owned, s, sz, x. split; [exact Hx|]. apply (free_s_ok G owned s sz x 0 H Hx). lia.
Defined.
End Malloc.
