(* ===== verification/Hd.v ===== *)
(** * Hd: the hard disk driver (kernel/blk_drv/hd.c, include/linux/hdreg.h)

    A command is written to the ports of the controller; every interrupt calls the routine
    in [do_hd], which moves one sector, ends the request or tries it again. *)
From S2P Require Import Prelude Console Task Sched Services Fs Blk Progress Buffer Bitmap Inode Super.
Import Blk Progress Buffer Bitmap Inode Super.

Module Hd.

Definition hd_name : string := "harddisk".
Definition MAX_ERRORS : Z := 7.
Definition HD_DATA : Z := 496.
Definition HD_ERROR : Z := 497.
Definition HD_STATUS : Z := 503.
Definition HD_CMD : Z := 1014.
Definition ERR_STAT : Z := 1.
Definition DRQ_STAT : Z := 8.
Definition SEEK_STAT : Z := 16.
Definition WRERR_STAT : Z := 32.
Definition READY_STAT : Z := 64.
Definition BUSY_STAT : Z := 128.
Definition WIN_RESTORE : Z := 16.
Definition WIN_READ : Z := 32.
Definition WIN_WRITE : Z := 48.
Definition WIN_SPECIFY : Z := 145.

(** [CURRENT] and [CURRENT_DEV] *)
Definition hd_current : M fs nat := d <- get_dev 3 ;; deref (current_request d).
Definition hd_info_at (drive : Z) : M fs hd_i_struct := d <- drvs ;; deref (hd_info d !! Z.to_nat drive).
Definition set_do_hd (h : hd_handler) : M fs unit := mod_drv (fun d => d <| do_hd := Some h |>).

Section Driver.
Context {I : Ports}.

Definition CMOS_READ (addr : Z) : M fs Z := fs_outb (Z.lor 128 addr) 112 ;;; inb 113.

(** ** The controller *)
Definition controller_ready : M fs Z :=
  loop (Z.to_nat 10000) (fun retries =>
    let retries := retries - 1 in
    if negb (truth retries) then ret (inr 0) else
    i <- inb HD_STATUS ;;
    ret (if Z.land i 192 =? 64 then inr retries else inl retries)) 10000.
(** 0 is a success. *)
Definition win_result : M fs Z :=
  i <- inb HD_STATUS ;;
  if Z.land i (BUSY_STAT + READY_STAT + WRERR_STAT + SEEK_STAT + ERR_STAT) =? READY_STAT + SEEK_STAT then ret 0 else
  when (truth (Z.land i 1)) (inb HD_ERROR ;;; ret tt) ;;;
  ret 1.
Definition hd_out (drive nsect sect head cyl cmd : Z) (intr_addr : hd_handler) : M fs unit :=
  if (1 <? drive) || (15 <? head) then panic "Trying to write bad sector" else
  r <- controller_ready ;;
  if negb (truth r) then panic "HD controller not ready" else
  set_do_hd intr_addr ;;;
  h <- hd_info_at drive ;;
  fs_outb (hi_ctl h) HD_CMD ;;;
  fs_outb (Z.shiftr (hi_wpcom h) 2) (HD_DATA + 1) ;;;
  fs_outb nsect (HD_DATA + 2) ;;;
  fs_outb sect (HD_DATA + 3) ;;;
  fs_outb cyl (HD_DATA + 4) ;;;
  fs_outb (Z.shiftr cyl 8) (HD_DATA + 5) ;;;
  fs_outb (Z.lor (Z.lor 160 (Z.shiftl drive 4)) head) (HD_DATA + 6) ;;;
  fs_outb cmd (HD_DATA + 7).
(** [i == READY_STAT | SEEK_STAT] is [(i == READY_STAT) | SEEK_STAT]. *)
Definition drive_busy : M fs Z :=
  loop (S (Z.to_nat 10000)) (fun i =>
    if negb (i <? 10000) then ret (inr tt) else
    v <- inb HD_STATUS ;;
    ret (if READY_STAT =? Z.land v (BUSY_STAT + READY_STAT) then inr tt else inl (i + 1))) 0 ;;;
  i <- inb HD_STATUS ;;
  let i := Z.land i (BUSY_STAT + READY_STAT + SEEK_STAT) in
  if truth (Z.lor (if i =? READY_STAT then 1 else 0) SEEK_STAT) then ret 0 else
  printk "HD controller times out" [] ;;; ret 1.
Definition reset_controller : M fs unit :=
  fs_outb 4 HD_CMD ;;;
  h <- hd_info_at 0 ;;
  fs_outb (Z.land (hi_ctl h) 15) HD_CMD ;;;
  b <- drive_busy ;;
  when (truth b) (printk "HD-controller still busy" []) ;;;
  i <- inb HD_ERROR ;;
  when (negb (i =? 1)) (printk "HD-controller reset failed: %02x" [i]).
Definition reset_hd (nr : Z) : M fs unit :=
  reset_controller ;;;
  h <- hd_info_at nr ;;
  hd_out nr (hi_sect h) (hi_sect h) (u32 (hi_head h - 1)) (hi_cyl h) WIN_SPECIFY recal_intr_fn.
Definition unexpected_hd_interrupt : M fs unit := printk "Unexpected HD interrupt" [].

(** ** Moving a sector *)
(** [port_read(HD_DATA,CURRENT->buffer,256)]; what is outside the buffer is not in the model. *)
Definition sector_of (b : buffer_head) (off : Z) : M fs (list Z) :=
  if (0 <=? off) && (off + 512 <=? Z.of_nat (length (b_data b))) then ret (take 512 (drop (Z.to_nat off) (b_data b))) else fault.
Definition read_sector (r : request_t) : M fs unit :=
  b <- get_buf (r_buffer r) ;;
  sector_of b (r_off r) ;;;
  l <- insw 256 HD_DATA ;;
  mod_buf (r_buffer r) (fun b => b <| b_data ::= splice (Z.to_nat (r_off r)) l |>).
Definition write_sector (r : request_t) : M fs unit :=
  b <- get_buf (r_buffer r) ;; l <- sector_of b (r_off r) ;; outsw l HD_DATA.

(** [end_request] moves [CURRENT] on before its errors are looked at. *)
Definition bad_rw_intr : M fs unit :=
  cur <- hd_current ;;
  mod_req cur (fun r => r <| r_errors ::= fun e => i32 (e + 1) |>) ;;;
  r <- get_req cur ;;
  when (MAX_ERRORS <=? r_errors r) (end_request hd_name 3 0) ;;;
  cur <- hd_current ;;
  r <- get_req cur ;;
  when (MAX_ERRORS ÷ 2 <? r_errors r) (mod_drv (fun d => d <| hd_reset := 1 |>)).

(** ** The requests *)

(** The place of sector [block] of the disk: [sec], [head] and [cyl]; a division by 0 traps. *)
Definition place (h : hd_i_struct) (block : Z) : M fs (Z * Z * Z) :=
  if (hi_sect h =? 0) || (hi_head h =? 0) then fault else
  let t := block / hi_sect h in
  ret (block mod hi_sect h + 1, t mod hi_head h, t / hi_head h).
Definition request_step (_ : unit) : M fs (unit + unit) :=
  o <- init_request hd_name 3 ;;
  match o with
  | None => ret (inr tt)
  | Some (cur, r) =>
      let dev := MINOR (r_dev r) in
      let block := u32 (r_sector r) in
      d <- drvs ;;
      let p := default (0, 0) (hd d !! Z.to_nat dev) in
      if (5 * NR_HD d <=? dev) || (u32 (snd p) <? u32 (block + 2)) then end_request hd_name 3 0 ;;; ret (inl tt) else
      let block := u32 (block + fst p) in
      let dev := dev / 5 in
      h <- hd_info_at dev ;;
      x <- place h block ;; let '(sec, head, cyl) := x in
      if truth (hd_reset d) then
        mod_drv (fun d => d <| hd_reset := 0 |> <| hd_recalibrate := 1 |>) ;;;
        reset_hd dev ;;; ret (inr tt)
      else if truth (hd_recalibrate d) then
        mod_drv (fun d => d <| hd_recalibrate := 0 |>) ;;;
        hd_out dev (hi_sect h) 0 0 0 WIN_RESTORE recal_intr_fn ;;; ret (inr tt)
      else if r_cmd r =? WRITE then
        hd_out dev (r_nr_sectors r) sec head cyl WIN_WRITE write_intr_fn ;;;
        ok <- loop (S (Z.to_nat 3000)) (fun i =>
          if negb (i <? 3000) then ret (inr false) else
          v <- inb HD_STATUS ;; ret (if truth (Z.land v DRQ_STAT) then inr true else inl (i + 1))) 0 ;;
        if negb ok then bad_rw_intr ;;; ret (inl tt) else
        write_sector r ;;; ret (inr tt)
      else if r_cmd r =? READ then
        hd_out dev (r_nr_sectors r) sec head cyl WIN_READ read_intr_fn ;;; ret (inr tt)
      else panic "unknown hd-command"
  end.
(** Every turn ends a request or adds an error to one, and the fourth error asks for a reset. *)
Definition do_hd_request : M fs unit := loop (Z.to_nat MAX_ERRORS * S NR_REQUEST) request_step tt.

(** ** The interrupts *)
Definition next_sector (r : request_t) : request_t :=
  r <| r_off ::= Z.add 512 |> <| r_sector ::= fun s => u32 (s + 1) |>.
Definition one_less (r : request_t) : request_t := r <| r_nr_sectors ::= fun n => u32 (n - 1) |>.
Definition read_intr : M fs unit :=
  w <- win_result ;;
  if truth w then bad_rw_intr ;;; do_hd_request else
  cur <- hd_current ;;
  r <- get_req cur ;;
  read_sector r ;;;
  mod_req cur (fun r => one_less (next_sector (r <| r_errors := 0 |>))) ;;;
  r <- get_req cur ;;
  if truth (r_nr_sectors r) then set_do_hd read_intr_fn else
  end_request hd_name 3 1 ;;; do_hd_request.
Definition write_intr : M fs unit :=
  w <- win_result ;;
  if truth w then bad_rw_intr ;;; do_hd_request else
  cur <- hd_current ;;
  mod_req cur one_less ;;;
  r <- get_req cur ;;
  if truth (r_nr_sectors r) then
    mod_req cur next_sector ;;;
    set_do_hd write_intr_fn ;;;
    r <- get_req cur ;; write_sector r
  else end_request hd_name 3 1 ;;; do_hd_request.
Definition recal_intr : M fs unit :=
  w <- win_result ;;
  when (truth w) bad_rw_intr ;;;
  do_hd_request.
Definition call_hd (h : hd_handler) : M fs unit :=
  match h with read_intr_fn => read_intr | write_intr_fn => write_intr | recal_intr_fn => recal_intr end.
(** [_hd_interrupt]: the routine is taken out of [do_hd] before it is called. *)
Definition hd_interrupt : M fs unit :=
  fs_outb 32 160 ;;;
  d <- drvs ;;
  mod_drv (fun d => d <| do_hd := None |>) ;;;
  fs_outb 32 32 ;;;
  match do_hd d with Some h => call_hd h | None => unexpected_hd_interrupt end.

Definition hd_init : M fs unit :=
  mod_dev 3 (fun d => d <| request_fn := Some do_hd_request_fn |>) ;;;
  v <- inb 33 ;; fs_outb (Z.land v 251) 33 ;;;
  v <- inb 161 ;; fs_outb (Z.land v 191) 161.

(** ** [sys_setup]: the partitions of the disks *)
Definition bios_info (BIOS : Z -> Z) (o : Z) : hd_i_struct :=
  let b i := u8 (BIOS (o + i)) in let w i := b i + 256 * b (i + 1) in
  mk_hd_info (b 2) (b 14) (w 0) (w 5) (w 12) (b 8).
Definition set_hd (i : Z) (p : Z * Z) : M fs unit := mod_drv (fun d => d <| hd ::= <[Z.to_nat i := p]> |>).
End Driver.

Section Setup.
Context {E : Env} {I : Ports} {S : Services}.
Definition read_partitions (drive : Z) : M fs unit :=
  o <- bread (768 + drive * 5) 0 ;;
  match o with
  | None => printk "Unable to read partition table of drive %d" [drive] ;;; panic ""
  | Some bh =>
      b <- get_buf bh ;;
      if negb (byte (b_data b) 510 =? 85) || negb (byte (b_data b) 511 =? 170)
      then printk "Bad partition table on drive %d" [drive] ;;; panic "" else
      for_each (seqZ 1 4) (fun i =>
        let p := 446 + 16 * (i - 1) in
        set_hd (i + 5 * drive) (word (b_data b) (p + 8), word (b_data b) (p + 12))) ;;;
      brelse (Some bh)
  end.
(** [BIOS] reads the memory at the argument of the call. *)
Definition sys_setup (BIOS : Z -> Z) : M fs Z :=
  d <- drvs ;;
  if negb (truth (hd_callable d)) then ret (-1) else
  mod_drv (fun d => d <| hd_callable := 0 |> <| hd_info := [bios_info BIOS 0; bios_info BIOS 16] |>) ;;;
  d <- drvs ;;
  let n := if truth (hi_cyl (bios_info BIOS 16)) then 2 else 1 in
  mod_drv (fun d => d <| NR_HD := n |>) ;;;
  for_each (seqZ 0 n) (fun i => h <- hd_info_at i ;; set_hd (i * 5) (0, i32 (hi_head h * hi_sect h * hi_cyl h))) ;;;
  cmos_disks <- CMOS_READ 18 ;;
  let n := if truth (Z.land cmos_disks 240) then if truth (Z.land cmos_disks 15) then 2 else 1 else 0 in
  mod_drv (fun d => d <| NR_HD := n |>) ;;;
  for_each (seqZ n (2 - n)) (fun i => set_hd (i * 5) (0, 0)) ;;;
  for_each (seqZ 0 n) read_partitions ;;;
  when (truth n) (printk "Partition table%s ok." []) ;;;
  rd_load ;;;
  mount_root ;;;
  ret 0.
End Setup.

(** ** The driver never runs for ever *)
Section Live.
Context {I : Ports}.

(** The routines of the controller. *)
Lemma tame_set_do_hd h : tame (set_do_hd h).
Proof. unfold set_do_hd. tame. Qed.
Lemma tame_hd_info_at drive : tame (hd_info_at drive).
Proof. unfold hd_info_at. tame. Qed.
Lemma tame_hd_current : tame hd_current.
Proof. unfold hd_current. tame. Qed.
#[local] Hint Resolve tame_set_do_hd tame_hd_info_at tame_hd_current : tame.
Lemma tame_controller_ready : tame controller_ready.
Proof.
  apply (tame_loop_inv _ (fun n => 0 < n) (fun n => Z.to_nat (n - 1))); [lia|lia|]. intros n s Hn. cbv zeta. unfold truth.
  destruct (Z.eqb_spec (n - 1) 0); [done|]. apply live_bind, live_tame; [tame|]. intros v s1 H1. unfold live, ret.
  destruct (_ =? 64); (split; [done|]); [done|lia].
Qed.
Lemma tame_drive_busy : tame drive_busy.
Proof.
  apply tame_bind; [|intros _; tame]. apply (tame_loop _ (fun c => Z.to_nat (10000 - c))); [lia|]. intros c s.
  destruct (Z.ltb_spec c 10000); cbn [negb]; [|done]. apply live_bind, live_tame; [tame|]. intros v s1 H1. unfold live, ret.
  destruct (_ =? _); (split; [done|]); [done|lia].
Qed.
#[local] Hint Resolve tame_controller_ready tame_drive_busy : tame.
Lemma tame_hd_out drive nsect sect head cyl cmd f : tame (hd_out drive nsect sect head cyl cmd f).
Proof. unfold hd_out. tame. Qed.
#[local] Hint Resolve tame_hd_out : tame.
Lemma tame_reset_hd nr : tame (reset_hd nr).
Proof. unfold reset_hd, reset_controller. tame. Qed.
Lemma tame_read_sector r : tame (read_sector r).
Proof. unfold read_sector, sector_of. tame. Qed.
Lemma tame_write_sector r : tame (write_sector r).
Proof. unfold write_sector, sector_of. tame. Qed.
Lemma tame_win_result : tame win_result.
Proof. unfold win_result. tame. Qed.
Lemma tame_place h block : tame (place h block).
Proof. unfold place. tame. Qed.
Lemma tame_wait_drq : tame (loop (S (Z.to_nat 3000)) (fun i =>
  if negb (i <? 3000) then ret (inr false) else
  v <- inb HD_STATUS ;; ret (if truth (Z.land v DRQ_STAT) then inr true else inl (i + 1))) 0).
Proof.
  apply (tame_loop _ (fun c => Z.to_nat (3000 - c))); [lia|]. intros c s.
  destruct (Z.ltb_spec c 3000); cbn [negb]; [|done]. apply live_bind, live_tame; [tame|]. intros v s1 H1. unfold live, ret.
  destruct (truth _); (split; [done|]); [done|lia].
Qed.
#[local] Hint Resolve tame_reset_hd tame_read_sector tame_write_sector tame_win_result tame_place tame_wait_drq : tame.

(** The errors that the queue still allows: every turn takes at least one away. *)
Definition errors_left (T : list request_t) (i : nat) : nat :=
  match T !! i with Some r => Z.to_nat (MAX_ERRORS - r_errors r) | None => O end.
Definition credit (T : list request_t) (l : list nat) : nat := sum_list (map (errors_left T) l).
Definition errors_fine (T : list request_t) (l : list nat) : Prop :=
  forall i r, i ∈ l -> T !! i = Some r -> 0 <= r_errors r < MAX_ERRORS.
Definition hd_queue (s : fs) (l : list nat) : Prop := queued 3 s l /\ errors_fine (request s) l.

Lemma credit_other T i r l : i ∉ l -> credit (<[i := r]> T) l = credit T l.
Proof.
  intros Hi. unfold credit. f_equal. apply map_ext_in. intros j Hj%list_elem_of_In. unfold errors_left.
  rewrite list_lookup_insert_ne; [done|]. by intros ->.
Qed.
Lemma credit_cons T i l r : T !! i = Some r -> credit T (i :: l) = (Z.to_nat (MAX_ERRORS - r_errors r) + credit T l)%nat.
Proof. intros Hr. unfold credit. cbn [map sum_list]. unfold errors_left at 1. by rewrite Hr. Qed.
Lemma credit_bound T l : errors_fine T l -> (length l <= NR_REQUEST)%nat -> (credit T l <= 7 * NR_REQUEST)%nat.
Proof.
  intros He Hl. enough (credit T l <= 7 * length l)%nat by lia. clear Hl. induction l as [|i l IH]; [done|].
  assert (errors_left T i <= 7)%nat.
  { unfold errors_left. destruct (T !! i) as [r|] eqn:Hr; [|lia]. pose proof (He i r ltac:(left) Hr). unfold MAX_ERRORS in *. lia. }
  assert (credit T l <= 7 * length l)%nat by (apply IH; intros j r Hj; apply He; by right).
  change (credit T (i :: l)) with (errors_left T i + credit T l)%nat. cbn [length]. lia.
Qed.
Lemma hd_queue_same s s' l : same_queues s s' -> hd_queue s l -> hd_queue s' l /\ request s' = request s.
Proof. intros H [Hq He]. pose proof H as (_ & E & _). split; [|done]. split; [by apply (queued_same _ s)|]. by rewrite E. Qed.
Lemma end_credit up s l : hd_queue s l ->
  live (end_request hd_name 3 up) (fun _ s' => exists l', hd_queue s' l' /\ (credit (request s') l' < credit (request s) l)%nat) s.
Proof.
  intros [Hq He]. eapply live_mono; [by apply (end_request_live _ _ _ _ l)|]. intros _ s' (i & l' & r & -> & Hq' & Hr & Er & _).
  destruct Hq as (_ & Hd & _). apply NoDup_cons in Hd as [Hi _]. exists l'. rewrite (credit_cons _ _ _ r Hr), Er, credit_other by done.
  pose proof (He i r ltac:(left) Hr). split; [|lia]. split; [done|]. rewrite Er. intros j u Hj.
  rewrite list_lookup_insert_ne by (by intros ->). apply He. by right.
Qed.
Lemma bad_rw_live s l : hd_queue s l ->
  live bad_rw_intr (fun _ s' => exists l', hd_queue s' l' /\ (credit (request s') l' < credit (request s) l)%nat) s.
Proof.
  intros Hq. pose proof Hq as [(_ & Hd & d & Hdev & Hl) He]. unfold bad_rw_intr, hd_current at 1, live. rewrite bind_assoc.
  run (get_dev_run s 3 d Hdev). destruct l as [|i l]; cbn in Hl; [by rewrite Hl|]. destruct Hl as (Hc & r & Hr & _). rewrite Hc.
  cbn [deref]. rewrite bind_ret. apply NoDup_cons in Hd as [Hi _]. pose proof (He i r ltac:(left) Hr) as Her.
  run (mod_req_run s i r (fun r => r <| r_errors ::= fun e => i32 (e + 1) |>) Hr).
  assert (r <| r_errors ::= fun e => i32 (e + 1) |> = r <| r_errors := r_errors r + 1 |>) as ->
    by (unfold upd, upd_r_errors; unfold MAX_ERRORS in *; by rewrite i32_id by lia).
  set (r1 := r <| r_errors := r_errors r + 1 |>). set (s1 := s <| request ::= _ |>).
  assert (request s1 !! i = Some r1) as Hr1 by (apply list_lookup_insert_eq; by eapply lookup_lt_Some).
  assert (queued 3 s1 (i :: l)) as Hq1.
  { destruct Hq as [(Hn & Hd & d' & Hdev' & Hl) _]. split; [cbn; by rewrite length_insert|]. split; [done|]. exists d'. split; [done|].
    by apply (linked_mod _ _ _ _ r). }
  assert (errors_fine (request s1) l) as He1.
  { intros j u Hj. cbn. rewrite list_lookup_insert_ne by (by intros ->). apply He. by right. }
  assert (credit (request s1) l = credit (request s) l) as Ec by (by apply credit_other).
  rewrite (credit_cons _ _ _ r Hr), <- Ec. run (get_req_run s1 i r1 Hr1). change (r_errors r1) with (r_errors r + 1).
  match goal with |- match ?m s1 with _ => _ end => change (live m (fun _ s' => exists l', hd_queue s' l' /\
    (credit (request s') l' < Z.to_nat (MAX_ERRORS - r_errors r) + credit (request s1) l)%nat) s1) end.
  apply live_bind. apply (live_mono _ (fun _ s' => exists l', hd_queue s' l' /\
    (credit (request s') l' < Z.to_nat (MAX_ERRORS - r_errors r) + credit (request s1) l)%nat)).
  - destruct (Z.leb_spec MAX_ERRORS (r_errors r + 1)); cbn [when].
    + eapply live_mono; [by apply (end_request_live _ _ _ _ (i :: l))|]. intros _ s2 (? & ? & r2 & [= <- <-] & Hq2 & Hr2 & E2 & _).
      exists l. rewrite E2, credit_other by done. split; [|lia]. split; [done|]. rewrite E2. intros j u Hj.
      rewrite list_lookup_insert_ne by (by intros ->). by apply He1.
    + exists (i :: l). rewrite (credit_cons _ _ _ r1 Hr1). change (r_errors r1) with (r_errors r + 1). split; [|lia]. split; [done|].
      intros j u [->|Hj]%elem_of_cons Hu; [|by apply (He1 j u)]. rewrite Hr1 in Hu. injection Hu as <-. cbn. lia.
  - intros _ s2 (l' & Hq2 & Hc2). apply live_bind, live_tame; [tame|]. intros c s3 H3. apply live_bind, live_tame; [tame|]. intros r3 s4 H4.
    apply live_tame; [tame|]. intros _ s5 H5. destruct (hd_queue_same s2 s5 l') as [Hq5 E5]; [|done|].
    { transitivity s3; [done|]. by transitivity s4. }
    exists l'. by rewrite E5.
Qed.

(** One turn. *)
Lemma request_step_live s l : hd_queue s l -> live (request_step tt) (fun x s' => match x with
  | inl _ => exists l', hd_queue s' l' /\ (credit (request s') l' < credit (request s) l)%nat | inr _ => True end) s.
Proof.
  intros Hq. unfold request_step. apply live_bind, live_tame; [tame|]. intros [[cur r]|] s1 H1; [|done]. cbv zeta.
  destruct (hd_queue_same s s1 l H1 Hq) as [Hq1 E1]. rewrite <- E1. clear s H1 Hq E1. apply live_bind, live_tame; [tame|]. intros d s2 H2.
  destruct (hd_queue_same s1 s2 l H2 Hq1) as [Hq2 E2]. rewrite <- E2. clear s1 H2 Hq1 E2.
  destruct (_ || _).
  { apply live_bind. eapply live_mono; [by apply end_credit|]. done. }
  apply live_bind, live_tame; [tame|]. intros h s3 H3. apply live_bind, live_tame; [tame|]. intros [[sec head] cyl] s4 H4.
  assert (same_queues s2 s4) as H24 by (by transitivity s3). destruct (hd_queue_same s2 s4 l H24 Hq2) as [Hq4 E4]. rewrite <- E4.
  clear s2 s3 H3 H4 H24 Hq2 E4. destruct (truth _).
  { do 2 (apply live_bind, live_tame; [tame|]; intros ? ? ?). done. }
  destruct (truth _).
  { do 2 (apply live_bind, live_tame; [tame|]; intros ? ? ?). done. }
  destruct (_ =? WRITE).
  - apply live_bind, live_tame; [tame|]. intros _ s5 H5. apply live_bind, live_tame; [tame|]. intros ok s6 H6.
    assert (same_queues s4 s6) as H46 by (by transitivity s5). destruct (hd_queue_same s4 s6 l H46 Hq4) as [Hq6 E6]. rewrite <- E6.
    destruct (negb ok).
    + apply live_bind. eapply live_mono; [by apply bad_rw_live|]. done.
    + by apply live_bind, live_tame; [tame|].
  - destruct (_ =? READ); [|done]. by apply live_bind, live_tame; [tame|].
Qed.
Lemma hd_loop_live fuel : forall s l, hd_queue s l -> (credit (request s) l < fuel)%nat ->
  live (loop fuel request_step tt) (fun _ _ => True) s.
Proof.
  induction fuel as [|fuel IH]; intros s l Hq Hc; [lia|]. cbn [loop]. apply live_bind.
  eapply live_mono; [by apply (request_step_live s l)|]. intros [[]|[]] s'; [|done]. intros (l' & Hq' & Hc'). apply (IH s' l'); [done|lia].
Qed.
Lemma hd_fuel s l n : hd_queue s l -> (7 * NR_REQUEST < n)%nat -> loop n request_step tt s <> NoFuel.
Proof.
  intros Hq Hn. eapply live_not, (hd_loop_live n s l Hq). pose proof (credit_bound _ _ (proj2 Hq) (queued_length _ _ _ (proj1 Hq))). lia.
Qed.
(** Every call of [do_hd_request] comes to an end, whatever the controller answers, when the requests are in
    a queue and none of them has had seven errors. *)
Theorem do_hd_request_terminates s l : hd_queue s l -> do_hd_request s <> NoFuel.
Proof. intros Hq. apply (hd_fuel s l); [done|]. apply Nat.ltb_lt. reflexivity. Qed.
End Live.
End Hd.
