(* ===== verification/Floppy.v ===== *)
(** * Floppy: the floppy disk driver (kernel/blk_drv/floppy.c, include/linux/fdreg.h)

    A request waits for the motor, selects the drive, seeks and transfers; every step is
    started by a timer or an interrupt and leaves the next routine in [do_floppy].  The bytes
    themselves are moved by the DMA controller, from or to the buffer or [tmp_floppy_area]. *)
From S2P Require Import Prelude Console Task Sched Fs Blk Progress.
Import Blk Progress.

Module Floppy.

Definition fd_name : string := "floppy".
Definition MAX_ERRORS : Z := 8.
Definition MAX_REPLIES : Z := 7.
Definition FD_STATUS : Z := 1012.
Definition FD_DATA : Z := 1013.
Definition FD_DOR : Z := 1010.
Definition FD_DIR : Z := 1015.
Definition FD_DCR : Z := 1015.
Definition STATUS_BUSY : Z := 16.
Definition STATUS_DIR : Z := 64.
Definition STATUS_READY : Z := 128.
Definition FD_RECALIBRATE : Z := 7.
Definition FD_SEEK : Z := 15.
Definition FD_READ : Z := 230.
Definition FD_WRITE : Z := 197.
Definition FD_SENSEI : Z := 8.
Definition FD_SPECIFY : Z := 3.
Definition DMA_READ : Z := 70.
Definition DMA_WRITE : Z := 74.

(** [struct floppy_struct] *)
Record floppy_struct : Type := mk_floppy {
  fl_size : Z; fl_sect : Z; fl_head : Z; fl_track : Z; fl_stretch : Z; fl_gap : Z; fl_rate : Z; fl_spec1 : Z
}.
Definition floppy_type : list floppy_struct :=
  [ mk_floppy 0 0 0 0 0 0 0 0;
    mk_floppy 720 9 2 40 0 42 2 223;
    mk_floppy 2400 15 2 80 0 27 0 223;
    mk_floppy 720 9 2 40 1 42 2 223;
    mk_floppy 1440 9 2 80 0 42 2 223;
    mk_floppy 720 9 2 40 1 35 1 223;
    mk_floppy 1440 9 2 80 0 35 1 223;
    mk_floppy 2880 18 2 80 0 27 0 207 ].

(** The address of [wait_on_floppy_select], and the routines that timers call. *)
Definition wait_on_floppy_select : Z := 42000.
Definition floppy_on_interrupt_fn : Z := 1.
Definition transfer_fn : Z := 2.

Definition fd_current : M fs nat := d <- get_dev 2 ;; deref (current_request d).
Definition fd_current_dev : M fs Z := cur <- fd_current ;; r <- get_req cur ;; ret (Z.land (r_dev r) 3).
Definition floppy_info : M fs floppy_struct := d <- drvs ;; deref (floppy_type !! floppy d).
Definition set_do_floppy (h : floppy_handler) : M fs unit := mod_drv (fun d => d <| do_floppy := Some h |>).
Definition set_reset : M fs unit := mod_drv (fun d => d <| fd_reset := 1 |>).
Definition reply (i : nat) (d : drivers) : Z := default 0 (reply_buffer d !! i).

Definition floppy_deselect (nr : Z) : M fs unit :=
  k <- in_kernel get ;;
  when (negb (nr =? Z.land (current_DOR k) 3)) (printk "floppy_deselect: drive not selected" []) ;;;
  in_kernel (modify (fun k => k <| selected := 0 |>)) ;;;
  fs_wake_up wait_on_floppy_select.
(** [end_request] of blk.h, with [DEVICE_OFF]. *)
Definition fd_end_request (uptodate : Z) : M fs unit :=
  dev <- fd_current_dev ;;
  in_kernel (Sched.floppy_off dev) ;;;
  end_request fd_name 2 uptodate.

(** Where the data of a buffer, and [tmp_floppy_area], are in memory. *)
Class Dma : Type := { data_addr : nat -> Z; tmp_addr : Z }.

Section Driver.
Context {I : Ports} {A : Dma}.

(** ** The controller *)
Definition output_byte (byte : Z) : M fs unit :=
  d <- drvs ;;
  if truth (fd_reset d) then ret tt else
  ok <- loop (S (Z.to_nat 10000)) (fun counter =>
    if negb (counter <? 10000) then ret (inr false) else
    v <- inb FD_STATUS ;;
    if Z.land v (STATUS_READY + STATUS_DIR) =? STATUS_READY
    then fs_outb byte FD_DATA ;;; ret (inr true) else ret (inl (counter + 1))) 0 ;;
  if ok : bool then ret tt else
  set_reset ;;; printk "Unable to send byte to FDC" [].
(** The number of bytes of the answer, -1 when there is none. *)
Definition result : M fs Z :=
  d <- drvs ;;
  if truth (fd_reset d) then ret (-1) else
  o <- loop (S (Z.to_nat 10000)) (fun st : Z * Z =>
    let '(counter, i) := st in
    if negb (counter <? 10000) then ret (inr None) else
    v <- inb FD_STATUS ;;
    let status := Z.land v (STATUS_DIR + STATUS_READY + STATUS_BUSY) in
    if status =? STATUS_READY then ret (inr (Some i)) else
    if status =? STATUS_DIR + STATUS_READY + STATUS_BUSY then
      if MAX_REPLIES <=? i then ret (inr None) else
      v <- inb FD_DATA ;;
      mod_drv (fun d => d <| reply_buffer ::= <[Z.to_nat i := v]> |>) ;;;
      ret (inl (counter + 1, i + 1))
    else ret (inl (counter + 1, i))) (0, 0) ;;
  match o with
  | Some i => ret i
  | None => set_reset ;;; printk "Getstatus times out" [] ;;; ret (-1)
  end.
Definition output_bytes (l : list Z) : M fs unit := for_each l output_byte.

(** ** DMA *)
Definition buffer_addr (r : request_t) : Z := data_addr (r_buffer r) + r_off r.
(** [copy_buffer]: 1024 bytes; what is outside the buffer is not in the model. *)
Definition copy_to_tmp (r : request_t) : M fs unit :=
  b <- get_buf (r_buffer r) ;;
  if r_off r =? 0 then mod_drv (fun d => d <| tmp_floppy_area := b_data b |>) else fault.
Definition copy_from_tmp (r : request_t) : M fs unit :=
  d <- drvs ;;
  if r_off r =? 0 then mod_buf (r_buffer r) (fun b => b <| b_data := tmp_floppy_area d |>) else fault.
Definition setup_DMA : M fs unit :=
  cur <- fd_current ;; r <- get_req cur ;;
  d <- drvs ;;
  let high := 1048576 <=? buffer_addr r in
  when (high && (command d =? FD_WRITE)) (copy_to_tmp r) ;;;
  let addr := if high then tmp_addr else buffer_addr r in
  let mode := if command d =? FD_READ then DMA_READ else DMA_WRITE in
  fs_outb 6 10 ;;;
  fs_outb mode 12 ;;; fs_outb mode 11 ;;;
  fs_outb addr 4 ;;; fs_outb (Z.shiftr addr 8) 4 ;;; fs_outb (Z.shiftr addr 16) 129 ;;;
  fs_outb 255 5 ;;; fs_outb 3 5 ;;;
  fs_outb 2 10.

(** ** The steps of a request

    [again] is [do_fd_request]: it is called again when the controller did not take a command. *)
Definition if_reset (again : M fs unit) : M fs unit := d <- drvs ;; when (truth (fd_reset d)) again.
Definition setup_rw_floppy (again : M fs unit) : M fs unit :=
  setup_DMA ;;;
  set_do_floppy rw_interrupt_fn ;;;
  d <- drvs ;; f <- floppy_info ;;
  output_bytes [command d; Z.lor (Z.shiftl (head d) 2) (current_drive d); track d; head d; sector d; 2; fl_sect f; fl_gap f; 255] ;;;
  if_reset again.
Definition transfer (again : M fs unit) : M fs unit :=
  d <- drvs ;; f <- floppy_info ;;
  when (negb (cur_spec1 d =? fl_spec1 f))
    (mod_drv (fun d => d <| cur_spec1 := fl_spec1 f |>) ;;; output_bytes [FD_SPECIFY; fl_spec1 f; 6]) ;;;
  when (negb (cur_rate d =? fl_rate f))
    (mod_drv (fun d => d <| cur_rate := fl_rate f |>) ;;; fs_outb (fl_rate f) FD_DCR) ;;;
  d <- drvs ;;
  if truth (fd_reset d) then again else
  if negb (truth (seek d)) then setup_rw_floppy again else
  set_do_floppy seek_interrupt_fn ;;;
  let unit := Z.lor (Z.shiftl (head d) 2) (current_drive d) in
  (if truth (seek_track d) then output_bytes [FD_SEEK; unit; seek_track d] else output_bytes [FD_RECALIBRATE; unit]) ;;;
  if_reset again.
(** [add_timer]: without a delay the function is called at once. *)
Definition fd_add_timer (ticks fn : Z) (now : M fs unit) : M fs unit :=
  if ticks <=? 0 then now else in_kernel (Sched.add_timer (fun _ => ret tt) ticks (Some fn)).
Definition floppy_on_interrupt (again : M fs unit) : M fs unit :=
  in_kernel (modify (fun k => k <| selected := 1 |>)) ;;;
  d <- drvs ;; k <- in_kernel get ;;
  if negb (current_drive d =? Z.land (current_DOR k) 3) then
    let dor := Z.lor (Z.land (current_DOR k) 252) (current_drive d) in
    in_kernel (modify (fun k => k <| current_DOR := dor |>)) ;;;
    fs_outb dor FD_DOR ;;;
    fd_add_timer 2 transfer_fn (transfer again)
  else transfer again.
Definition recalibrate_floppy (again : M fs unit) : M fs unit :=
  mod_drv (fun d => d <| fd_recalibrate := 0 |> <| current_track := 0 |>) ;;;
  set_do_floppy recal_interrupt_fn ;;;
  d <- drvs ;;
  output_bytes [FD_RECALIBRATE; Z.lor (Z.shiftl (head d) 2) (current_drive d)] ;;;
  if_reset again.
Definition reset_floppy : M fs unit :=
  mod_drv (fun d => d <| fd_reset := 0 |> <| cur_spec1 := -1 |> <| cur_rate := -1 |> <| fd_recalibrate := 1 |>) ;;;
  printk "Reset-floppy called" [] ;;;
  set_do_floppy reset_interrupt_fn ;;;
  k <- in_kernel get ;;
  fs_outb (Z.land (current_DOR k) (Z.lnot 4)) FD_DOR ;;;
  fs_outb (current_DOR k) FD_DOR.

(** From [repeat] on. *)
Definition fd_request_step (again : M fs unit) (_ : unit) : M fs (unit + unit) :=
  o <- init_request fd_name 2 ;;
  match o with
  | None => ret (inr tt)
  | Some (cur, r) =>
      let dev := Z.land (r_dev r) 3 in
      mod_drv (fun d => d <| floppy := Z.to_nat (Z.shiftr (MINOR (r_dev r)) 2) |>) ;;;
      d <- drvs ;;
      when (negb (current_drive d =? dev)) (mod_drv (fun d => d <| seek := 1 |>)) ;;;
      mod_drv (fun d => d <| current_drive := dev |>) ;;;
      let block := u32 (r_sector r) in
      f <- floppy_info ;;
      if fl_size f <? u32 (block + 2) then fd_end_request 0 ;;; ret (inl tt) else
      if (fl_sect f =? 0) || (fl_head f =? 0) then fault else
      let t := block / fl_sect f in
      let track_of := u8 (t / fl_head f) in
      let seek_to := u8 (Z.shiftl track_of (fl_stretch f)) in
      mod_drv (fun d => d <| sector := u8 (block mod fl_sect f) |> <| head := u8 (t mod fl_head f) |>
                          <| track := track_of |> <| seek_track := seek_to |>) ;;;
      d <- drvs ;;
      when (negb (seek_to =? current_track d)) (mod_drv (fun d => d <| seek := 1 |>)) ;;;
      mod_drv (fun d => d <| sector ::= fun s => u8 (s + 1) |>) ;;;
      (if r_cmd r =? READ then mod_drv (fun d => d <| command := FD_READ |>)
       else if r_cmd r =? WRITE then mod_drv (fun d => d <| command := FD_WRITE |>)
       else panic "do_fd_request: unknown command") ;;;
      d <- drvs ;;
      ticks <- in_kernel (Sched.ticks_to_floppy_on (current_drive d)) ;;
      fd_add_timer ticks floppy_on_interrupt_fn (floppy_on_interrupt again) ;;;
      ret (inr tt)
  end.
(** [n] bounds the depth of the calls of [do_fd_request] in each other. *)
Fixpoint fd_request (n : nat) : M fs unit :=
  match n with
  | O => nofuel
  | S n =>
      mod_drv (fun d => d <| seek := 0 |>) ;;;
      d <- drvs ;;
      if truth (fd_reset d) then reset_floppy else
      if truth (fd_recalibrate d) then recalibrate_floppy (fd_request n) else
      loop (S NR_REQUEST) (fd_request_step (fd_request n)) tt
  end.
(** The second call finds [reset] set and comes back. *)
Definition do_fd_request : M fs unit := fd_request 2.

(** ** The interrupts *)
Definition bad_flp_intr : M fs unit :=
  cur <- fd_current ;;
  mod_req cur (fun r => r <| r_errors ::= fun e => i32 (e + 1) |>) ;;;
  r <- get_req cur ;;
  d <- drvs ;;
  when (MAX_ERRORS <? r_errors r) (floppy_deselect (current_drive d) ;;; fd_end_request 0) ;;;
  cur <- fd_current ;;
  r <- get_req cur ;;
  if MAX_ERRORS ÷ 2 <? r_errors r then set_reset else mod_drv (fun d => d <| fd_recalibrate := 1 |>).
(** [result() != 7 || (ST0 & 0xf8) || (ST1 & 0xbf) || (ST2 & 0x73)] *)
Definition rw_failed (n : Z) (d : drivers) : bool :=
  negb (n =? 7) || truth (Z.land (reply 0 d) 248) || truth (Z.land (reply 1 d) 191) || truth (Z.land (reply 2 d) 115).
Definition rw_interrupt : M fs unit :=
  n <- result ;;
  d <- drvs ;;
  if rw_failed n d then
    (if truth (Z.land (reply 1 d) 2) then
       printk "Drive %d is write protected" [current_drive d] ;;;
       floppy_deselect (current_drive d) ;;;
       fd_end_request 0
     else bad_flp_intr) ;;;
    do_fd_request
  else
    cur <- fd_current ;; r <- get_req cur ;;
    when ((command d =? FD_READ) && (1048576 <=? u32 (buffer_addr r))) (copy_from_tmp r) ;;;
    floppy_deselect (current_drive d) ;;;
    fd_end_request 1 ;;;
    do_fd_request.
Definition seek_interrupt : M fs unit :=
  output_byte FD_SENSEI ;;;
  n <- result ;;
  d <- drvs ;;
  if negb (n =? 2) || negb (Z.land (reply 0 d) 248 =? 32) || negb (reply 1 d =? seek_track d)
  then bad_flp_intr ;;; do_fd_request
  else
    mod_drv (fun d => d <| current_track := reply 1 d |>) ;;;
    setup_rw_floppy do_fd_request.
(** [result()!=2 || (ST0 & 0xE0) == 0x60] *)
Definition recal_failed (n : Z) (d : drivers) : bool := negb (n =? 2) || (Z.land (reply 0 d) 224 =? 96).
Definition recal_interrupt : M fs unit :=
  output_byte FD_SENSEI ;;;
  n <- result ;;
  d <- drvs ;;
  (if recal_failed n d then set_reset else mod_drv (fun d => d <| fd_recalibrate := 0 |>)) ;;;
  do_fd_request.
Definition unexpected_floppy_interrupt : M fs unit :=
  output_byte FD_SENSEI ;;;
  n <- result ;;
  d <- drvs ;;
  if recal_failed n d then set_reset else mod_drv (fun d => d <| fd_recalibrate := 1 |>).
Definition reset_interrupt : M fs unit :=
  output_byte FD_SENSEI ;;;
  result ;;;
  output_byte FD_SPECIFY ;;;
  d <- drvs ;;
  output_byte (cur_spec1 d) ;;;
  output_byte 6 ;;;
  do_fd_request.
Definition call_floppy (h : floppy_handler) : M fs unit :=
  match h with
  | rw_interrupt_fn => rw_interrupt
  | seek_interrupt_fn => seek_interrupt
  | recal_interrupt_fn => recal_interrupt
  | reset_interrupt_fn => reset_interrupt
  end.
(** [_floppy_interrupt]: the routine is taken out of [do_floppy] before it is called. *)
Definition floppy_interrupt : M fs unit :=
  fs_outb 32 32 ;;;
  d <- drvs ;;
  mod_drv (fun d => d <| do_floppy := None |>) ;;;
  match do_floppy d with Some h => call_floppy h | None => unexpected_floppy_interrupt end.
(** What a timer of the driver calls. *)
Definition floppy_timer (fn : Z) : M fs unit :=
  if fn =? floppy_on_interrupt_fn then floppy_on_interrupt do_fd_request
  else if fn =? transfer_fn then transfer do_fd_request
  else ret tt.

Definition floppy_init : M fs unit :=
  mod_dev 2 (fun d => d <| request_fn := Some do_fd_request_fn |>) ;;;
  v <- inb 33 ;; fs_outb (Z.land v (Z.lnot 64)) 33.

(** ** Disk changes: called by tasks, which may sleep *)
Section Change.
Context {E : Env}.
(** [floppy_on] of sched.c, and [interruptible_sleep_on]. *)
Definition fs_floppy_on (nr : Z) : M fs unit :=
  loop fuel (fun _ : unit =>
    ticks <- in_kernel (Sched.ticks_to_floppy_on nr) ;;
    if truth ticks then fs_sleep_on (Sched.wait_motor nr) ;;; ret (inl tt) else ret (inr tt)) tt.
Definition fs_interruptible_sleep_on (p : Z) : M fs unit :=
  tmp <- in_kernel (Sched.sleep_enter TASK_INTERRUPTIBLE p) ;;
  loop fuel (fun _ : unit =>
    fs_schedule ;;;
    b <- in_kernel (Sched.sleep_again p tmp) ;;
    ret (if b : bool then inr tt else inl tt)) tt.
Definition drive_selected (nr : Z) : M fs bool := k <- in_kernel get ;; ret (Z.land (current_DOR k) 3 =? nr).
Definition floppy_change (nr : Z) : M fs bool :=
  loop fuel (fun _ : unit =>
    fs_floppy_on nr ;;;
    loop fuel (fun _ : unit =>
      k <- in_kernel get ;;
      if negb (Z.land (current_DOR k) 3 =? nr) && truth (selected k)
      then fs_interruptible_sleep_on wait_on_floppy_select ;;; ret (inl tt) else ret (inr tt)) tt ;;;
    b <- drive_selected nr ;;
    if negb b then ret (inl tt) else
    v <- inb FD_DIR ;;
    in_kernel (Sched.floppy_off nr) ;;;
    ret (inr (truth (Z.land v 128)))) tt.
End Change.

(** ** The driver never runs for ever *)

(** The routines of the controller. *)
Lemma tame_set_reset : tame set_reset.
Proof. unfold set_reset. tame. Qed.
#[local] Hint Resolve tame_set_reset : tame.
Lemma tame_output_byte b : tame (output_byte b).
Proof.
  unfold output_byte. tame. apply (tame_loop _ (fun c => Z.to_nat (10000 - c))); [lia|]. intros c s.
  destruct (Z.ltb_spec c 10000); cbn [negb]; [|done]. apply live_bind, live_tame; [tame|]. intros v s1 H1.
  destruct (_ =? _).
  - apply live_bind, live_tame; [tame|]. intros _ s2 H2. split; [by transitivity s1|done].
  - split; [done|lia].
Qed.
#[local] Hint Resolve tame_output_byte : tame.
Lemma tame_result : tame result.
Proof.
  unfold result. tame. apply (tame_loop _ (fun c : Z * Z => Z.to_nat (10000 - fst c))); [cbn; lia|]. intros [c i] s. cbn [fst].
  destruct (Z.ltb_spec c 10000); cbn [negb]; [|done]. apply live_bind, live_tame; [tame|]. intros v s1 H1. cbv zeta.
  destruct (_ =? STATUS_READY); [done|]. destruct (_ =? _); [|split; [done|cbn; lia]].
  destruct (MAX_REPLIES <=? i); [done|]. apply live_bind, live_tame; [tame|]. intros w s2 H2.
  apply live_bind, live_tame; [tame|]. intros _ s3 H3. split; [transitivity s1; [done|by transitivity s2]|cbn; lia].
Qed.
Lemma tame_output_bytes l : tame (output_bytes l).
Proof. unfold output_bytes. tame. Qed.
Lemma tame_fd_current : tame fd_current.
Proof. unfold fd_current. tame. Qed.
#[local] Hint Resolve tame_result tame_output_bytes tame_fd_current : tame.
Lemma tame_fd_current_dev : tame fd_current_dev.
Proof. unfold fd_current_dev. tame. Qed.
Lemma tame_floppy_info : tame floppy_info.
Proof. unfold floppy_info. tame. Qed.
Lemma tame_setup_DMA : tame setup_DMA.
Proof. unfold setup_DMA, copy_to_tmp. tame. Qed.
Lemma tame_copy_from_tmp r : tame (copy_from_tmp r).
Proof. unfold copy_from_tmp. tame. Qed.
Lemma tame_set_do_floppy h : tame (set_do_floppy h).
Proof. unfold set_do_floppy. tame. Qed.
Lemma tame_deselect nr : tame (floppy_deselect nr).
Proof. unfold floppy_deselect. tame. Qed.
#[local] Hint Resolve tame_fd_current_dev tame_floppy_info tame_setup_DMA tame_copy_from_tmp tame_set_do_floppy tame_deselect : tame.
Lemma tame_reset_floppy : tame reset_floppy.
Proof. unfold reset_floppy. tame. Qed.
#[local] Hint Resolve tame_reset_floppy : tame.

(** What [do_fd_request] does when it is called again: with [reset] set it is tame. *)
Definition tame_in_reset (again : M fs unit) : Prop :=
  forall s, fd_reset (drv s) <> 0 -> live again (fun _ s' => same_queues s s') s.
Lemma live_drvs {B} (k : drivers -> M fs B) Q s : live (k (drv s)) Q s -> live (bind drvs k) Q s.
Proof. done. Qed.
Section Again.
Context (again : M fs unit) (Hagain : tame_in_reset again).
Lemma tame_if_reset : tame (if_reset again).
Proof.
  intros s. unfold if_reset. apply live_drvs. unfold truth. destruct (Z.eqb_spec (fd_reset (drv s)) 0); [done|by apply Hagain].
Qed.
Hint Resolve tame_if_reset : tame.
Lemma tame_setup_rw : tame (setup_rw_floppy again).
Proof. unfold setup_rw_floppy. tame. Qed.
Hint Resolve tame_setup_rw : tame.
Lemma tame_transfer : tame (transfer again).
Proof.
  unfold transfer. do 4 (apply tame_bind; [tame|intros ?]). intros s. apply live_drvs.
  destruct (truth (fd_reset (drv s))) eqn:E.
  { apply Hagain. unfold truth in E. by apply negb_true_iff, Z.eqb_neq in E. }
  revert s E. match goal with |- forall s, _ -> live ?m _ _ => idtac end. intros s _. revert s.
  intros s. match goal with |- live ?m _ s => enough (tame m) as H by apply H end. tame.
Qed.
Lemma tame_recalibrate : tame (recalibrate_floppy again).
Proof. unfold recalibrate_floppy. tame. Qed.

(** A timer can be added when the list of timers is in order: the function runs at once or later. *)
Definition timers_fine (k : kernel) : Prop := exists xs, Sched.timers_ok k xs /\ Forall (fun x => 0 <= fst x) xs.
Lemma add_timer_live j f k : timers_fine k -> Sched.add_timer (fun _ => ret tt) j (Some f) k <> NoFuel.
Proof.
  intros (xs & Hxs & Hpos). destruct (Z.leb_spec j 0) as [Hj|Hj].
  { unfold Sched.add_timer. by rewrite (proj2 (Z.leb_le _ _) Hj). }
  destruct (Sched.free_entry (take Sched.TIME_REQUESTS (timer_list k)) 0) as [p|] eqn:E.
  - pose proof Hxs as (l & _ & _ & Hlen). rewrite take_ge in E by lia. apply Sched.free_entry_spec in E as [_ (t & Ht & Hn)].
    pose proof (Sched.add_timer_due (fun _ => ret tt) j f xs k Hj Hpos Hxs (ex_intro _ _ (ex_intro _ t (conj Ht Hn)))) as H.
    unfold wp in H. by destruct (Sched.add_timer _ j (Some f) k).
  - unfold Sched.add_timer, bind, get. rewrite (proj2 (Z.leb_gt _ _) Hj), E. done.
Qed.
Lemma fd_add_timer_live ticks fn now s : timers_fine (kern s) -> live now (fun _ _ => True) s ->
  live (fd_add_timer ticks fn now) (fun _ _ => True) s.
Proof.
  intros Ht Hnow. unfold fd_add_timer. destruct (ticks <=? 0); [done|]. pose proof (add_timer_live ticks fn (kern s) Ht).
  unfold live, in_kernel, zoom. by destruct (Sched.add_timer _ _ _ _).
Qed.
Lemma timers_fine_same s s' : same_queues s s' -> timers_fine (kern s) -> timers_fine (kern s').
Proof. intros (_ & _ & E3 & E4) (xs & (l & H) & Hp). exists xs. split; [|done]. exists l. by rewrite E3, E4. Qed.
Lemma floppy_on_live s : timers_fine (kern s) -> live (floppy_on_interrupt again) (fun _ _ => True) s.
Proof.
  intros Ht. unfold floppy_on_interrupt. apply live_bind, live_tame; [tame|]. intros _ s1 H1.
  apply live_drvs. apply live_bind, live_tame; [tame|]. intros k s2 H2.
  destruct (negb _); [|by apply live_tame; [apply tame_transfer|]]. cbv zeta.
  apply live_bind, live_tame; [tame|]. intros _ s3 H3. apply live_bind, live_tame; [tame|]. intros _ s4 H4.
  apply fd_add_timer_live; [|by apply live_tame; [apply tame_transfer|]].
  apply (timers_fine_same s); [|done]. transitivity s1; [done|]. transitivity s2; [done|]. by transitivity s3.
Qed.

(** One turn of the loop of [do_fd_request]: a request is thrown out, or the loop ends. *)
Lemma fd_end_request_live up s l : queued 2 s l -> timers_fine (kern s) ->
  live (fd_end_request up) (fun _ s' => timers_fine (kern s') /\ exists i l', l = i :: l' /\ queued 2 s' l') s.
Proof.
  intros Hq Ht. unfold fd_end_request. apply live_bind, live_tame; [tame|]. intros dev s1 H1.
  apply live_bind, live_tame; [tame|]. intros _ s2 H2. assert (same_queues s s2) as H02 by (by transitivity s1).
  eapply live_mono; [apply (end_request_live _ _ _ _ l); by apply (queued_same _ s)|].
  intros _ s3 (i & l' & r & -> & Hq' & _ & _ & E3 & E4). split; [|by exists i, l'].
  destruct (timers_fine_same s s2 H02 Ht) as (xs & (L & HL) & Hp). exists xs. split; [|done]. exists L. by rewrite E3, E4.
Qed.
Lemma fd_step_live s l : queued 2 s l -> timers_fine (kern s) ->
  live (fd_request_step again tt) (fun x s' => match x with
    | inl _ => timers_fine (kern s') /\ exists i l', l = i :: l' /\ queued 2 s' l' | inr _ => True end) s.
Proof.
  intros Hq Ht. unfold fd_request_step. apply live_bind, live_tame; [tame|]. intros [[cur r]|] s1 H1; [|done]. cbv zeta.
  apply live_bind, live_tame; [tame|]. intros _ s2 H2. apply live_drvs. apply live_bind, live_tame; [tame|]. intros _ s3 H3.
  apply live_bind, live_tame; [tame|]. intros _ s4 H4. apply live_bind, live_tame; [tame|]. intros f s5 H5.
  assert (same_queues s s5) as H05 by (transitivity s1; [done|]; transitivity s2; [done|]; transitivity s3; [done|]; by transitivity s4).
  destruct (_ <? _).
  { apply live_bind. eapply live_mono; [apply (fd_end_request_live 0 s5 l); [by apply (queued_same _ s)|by apply (timers_fine_same s)]|done]. }
  destruct (_ || _); [done|]. clear H1 H2 H3 H4.
  apply live_bind, live_tame; [tame|]. intros _ s6 H6. apply live_drvs. apply live_bind, live_tame; [tame|]. intros _ s7 H7.
  apply live_bind, live_tame; [tame|]. intros _ s8 H8. apply live_bind, live_tame; [tame|]. intros _ s9 H9. apply live_drvs.
  apply live_bind, live_tame; [tame|]. intros ticks s10 H10.
  assert (timers_fine (kern s10)) as Ht10.
  { apply (timers_fine_same s); [|done]. transitivity s5; [done|]. transitivity s6; [done|]. transitivity s7; [done|]. transitivity s8; [done|]. by transitivity s9. }
  apply live_bind. eapply live_mono; [apply fd_add_timer_live; [done|by apply floppy_on_live]|done].
Qed.
End Again.

Lemma fd_request_in_reset n : tame_in_reset (fd_request (S n)).
Proof.
  intros s Hr. cbn [fd_request]. apply live_bind. unfold mod_drv at 1, modify, live at 1. apply live_drvs.
  change (fd_reset (drv (s <| drv ::= ?f |>))) with (fd_reset (drv s)).
  assert (truth (fd_reset (drv s)) = true) as E by (unfold truth; by apply negb_true_iff, Z.eqb_neq).
  cbn. change (live (if truth (fd_reset (drv s)) then reset_floppy else if truth (fd_recalibrate (drv s)) then recalibrate_floppy (fd_request n) else
    loop (S NR_REQUEST) (fd_request_step (fd_request n)) tt) (fun _ s' => same_queues s s') (s <| drv ::= fun d => d <| seek := 0 |> |>)).
  rewrite E. apply live_tame; [tame|]. intros _ s' H. by transitivity (s <| drv ::= fun d => d <| seek := 0 |> |>).
Qed.

(** The queue of the driver and the timers are in order: the requests are linked from the
    current one on, each once, and the timers that wait have not expired. *)
Definition fd_ready (s : fs) : Prop := timers_fine (kern s) /\ exists l, queued 2 s l.
Lemma fd_ready_same s s' : same_queues s s' -> fd_ready s -> fd_ready s'.
Proof. intros H [Ht (l & Hq)]. split; [by apply (timers_fine_same s)|]. exists l. by apply (queued_same _ s). Qed.
Lemma fd_loop_live fuel : forall s l, (length l < fuel)%nat -> timers_fine (kern s) -> queued 2 s l ->
  live (loop fuel (fd_request_step (fd_request 1)) tt) (fun _ _ => True) s.
Proof.
  induction fuel as [|fuel IH]; intros s l Hlen Ht Hq; [lia|].
  cbn [loop]. apply live_bind. eapply live_mono; [apply (fd_step_live _ (fd_request_in_reset 0) s l Hq Ht)|].
  intros [[]|[]] s2; [|done]. intros (Ht2 & i & l' & -> & Hq'). apply (IH s2 l'); [cbn in Hlen; lia|done|done].
Qed.
Lemma do_fd_request_live s : fd_ready s -> live do_fd_request (fun _ _ => True) s.
Proof.
  intros Hr. unfold do_fd_request. change (fd_request 2) with (mod_drv (fun d => d <| seek := 0 |>) ;;; d <- drvs ;;
    if truth (fd_reset d) then reset_floppy else if truth (fd_recalibrate d) then recalibrate_floppy (fd_request 1) else
    loop (S NR_REQUEST) (fd_request_step (fd_request 1)) tt).
  apply live_bind, live_tame; [tame|]. intros _ s1 H1. destruct (fd_ready_same s s1 H1 Hr) as [Ht (l & Hq)]. apply live_drvs.
  destruct (truth _); [apply live_tame; [tame|done]|].
  destruct (truth _); [apply live_tame; [apply tame_recalibrate, fd_request_in_reset|done]|].
  apply (fd_loop_live _ s1 l); [apply Nat.lt_succ_r; by eapply queued_length|done|done].
Qed.
(** An error ends the request or leaves it. *)
Lemma end_ready up s : fd_ready s -> live (fd_end_request up) (fun _ s' => fd_ready s') s.
Proof.
  intros [Ht (l & Hq)]. eapply live_mono; [by apply (fd_end_request_live up s l)|]. intros _ s' (Ht' & i & l' & _ & Hq'). split; [done|by exists l'].
Qed.
Lemma tame_ready {B C} (m : M fs B) (k : B -> M fs C) Q s : tame m -> fd_ready s ->
  (forall a s', fd_ready s' -> live (k a) Q s') -> live (bind m k) Q s.
Proof. intros Hm Hr Hk. apply live_bind, live_tame; [done|]. intros a s' H. apply Hk. by apply (fd_ready_same s). Qed.
Ltac ready := apply tame_ready; [tame|eassumption|intros ? ? ?].
Lemma bad_flp_live s : fd_ready s -> live bad_flp_intr (fun _ s' => fd_ready s') s.
Proof.
  intros Hr. unfold bad_flp_intr. apply tame_ready; [tame|done|]. clear s Hr. intros cur s [Ht (l & Hq)].
  apply live_bind. eapply live_mono; [apply (mod_req_live 2 cur _ s l); [done|done]|]. intros _ s1 (Hq1 & r & _ & _ & _ & Ek).
  assert (fd_ready s1) as Hr1 by (split; [by rewrite Ek|by exists l]). clear Ek Hq1.
  apply tame_ready; [tame|done|]. clear s1 Hr1. intros r1 s1 Hr1. apply live_drvs, live_bind.
  apply (live_mono _ (fun _ s' => fd_ready s')).
  { destruct (_ <? _); [|done]. cbn [when]. apply tame_ready; [tame|done|]. intros _ s2 H2. by apply end_ready. }
  intros _ s2 H2. apply tame_ready; [tame|done|]. intros c s3 H3. apply tame_ready; [tame|done|]. intros r3 s4 H4.
  apply live_tame; [tame|]. intros _ s5 H5. by apply (fd_ready_same s4).
Qed.

Lemma do_fd_in_reset : tame_in_reset do_fd_request.
Proof. apply (fd_request_in_reset 1). Qed.
Lemma call_floppy_live h s : fd_ready s -> live (call_floppy h) (fun _ _ => True) s.
Proof.
  intros Hr. destruct h; cbn [call_floppy].
  - unfold rw_interrupt. apply tame_ready; [tame|done|]. clear s Hr. intros n s Hr. apply live_drvs. destruct (rw_failed _ _).
    + apply live_bind. apply (live_mono _ (fun _ s' => fd_ready s')); [|intros; by apply do_fd_request_live].
      destruct (truth _); [|by apply bad_flp_live]. do 2 ready. by apply end_ready.
    + do 4 ready. apply live_bind.
      eapply live_mono; [by apply end_ready|]. intros; by apply do_fd_request_live.
  - unfold seek_interrupt. do 2 ready. apply live_drvs. destruct (_ || _).
    + apply live_bind. eapply live_mono; [by apply bad_flp_live|]. intros; by apply do_fd_request_live.
    + apply tame_ready; [tame|done|]. intros. apply live_tame; [apply tame_setup_rw, do_fd_in_reset|done].
  - unfold recal_interrupt. do 2 ready. apply live_drvs.
    apply tame_ready; [tame|done|]. intros. by apply do_fd_request_live.
  - unfold reset_interrupt. do 3 ready. apply live_drvs.
    do 2 ready. by apply do_fd_request_live.
Qed.

(** C19: the floppy driver never runs for ever: whatever the controller answers, every call of
    [do_fd_request], every interrupt and every timer of the driver comes to an end (it returns, or stops
    the kernel by a panic or a bad access).  The routines that send a command call [do_fd_request] again when
    the controller does not take it; [reset] is then set, so that this call resets the controller
    and does not come back to them.  Every turn of the loop over the requests takes one off the queue.
    (The queue is that of a device, of requests linked one after another, and the timers are in order.) *)
Theorem floppy_terminates s : fd_ready s ->
  do_fd_request s <> NoFuel /\ floppy_interrupt s <> NoFuel /\ forall fn, floppy_timer fn s <> NoFuel.
Proof.
  intros Hr. split; [by eapply live_not, do_fd_request_live|]. split.
  - eapply live_not. unfold floppy_interrupt. apply tame_ready; [tame|done|]. clear s Hr. intros _ s Hr. apply live_drvs.
    apply tame_ready; [tame|done|]. intros _ s1 H1. destruct (do_floppy (drv s)) as [h|]; [by apply call_floppy_live|].
    apply live_tame with (Q := fun _ _ => True); [|done]. unfold unexpected_floppy_interrupt. tame.
  - intros fn. apply live_not with (Q := fun _ _ => True). unfold floppy_timer. destruct (fn =? _); [apply floppy_on_live; [apply do_fd_in_reset|apply Hr]|].
    destruct (fn =? _); [apply live_tame; [apply tame_transfer, do_fd_in_reset|done]|done].
Qed.
End Driver.

(** ** Witness: a queue of two requests *)
#[local] Instance dead_ports : Ports := fun _ _ => 0.
#[local] Instance low_dma : Dma := {| data_addr := fun i => 1024 * Z.of_nat i; tmp_addr := 65536 |}.
Definition floppy_request (next : option nat) : request_t := mk_request 540 READ 0 10 2 0 0 None next.
Definition two_requests : fs :=
  boot_fs <| request := floppy_request (Some 1%nat) :: floppy_request None :: replicate 30 no_request |>
          <| blk_dev ::= <[2%nat := mk_blk_dev (Some do_fd_request_fn) (Some 0%nat)]> |>.
Lemma floppy_terminates_witness : do_fd_request two_requests <> NoFuel /\ floppy_interrupt two_requests <> NoFuel.
Proof.
  destruct (floppy_terminates two_requests) as (H1 & H2 & _); [|by split]. split.
  - exists []. split; [|by constructor]. exists []. split; [reflexivity|]. split; [constructor|reflexivity].
  - exists [0%nat; 1%nat]. split; [reflexivity|]. split.
    + do 2 (constructor; [set_solver|]). constructor.
    + eexists. split; [reflexivity|]. split; [reflexivity|]. eexists. split; [reflexivity|]. split; [reflexivity|]. eexists. split; reflexivity.
Defined.
End Floppy.
