(* ===== verification/Disk.v ===== *)
(** * Disk: a read request through the hard disk driver

    The theorems on [Hd]: the command that is sent for a request, what every interrupt does
    to it, and the error that runs past the end of the queue. *)
From S2P Require Import Prelude Console Task Sched Fs Blk Progress Buffer Bitmap Inode Super Hd Floppy.
Import Blk Progress Buffer Bitmap Inode Super Hd.

Module Disk.

(** The environment of the file system with these drivers: the parameters
    [do_hd_request], [do_fd_request] and [floppy_change] of [Env] are the routines of [Hd] and [Floppy]. *)
Definition with_drivers {I : Ports} {A : Floppy.Dma} (E : Env) : Env :=
  {| others := @others E; Fs.do_fd_request := Floppy.do_fd_request; Fs.do_hd_request := Hd.do_hd_request;
     Fs.floppy_change := Floppy.floppy_change; get_free_page := @get_free_page E; free_page := @free_page E; fuel := @fuel E |}.

(** ** Port accesses *)

(** [s] after port accesses: [n] reads in all, and the writes [l], the last first. *)
Definition io_to (s : fs) (n : nat) (l : list (Z * Z)) : fs :=
  s <| drv ::= fun d => d <| port_reads := n |> |>
    <| kern ::= fun k => k <| con ::= fun c => c <| Console.ports ::= app l |> |> |>.
Lemma io_to_io_to s n l n' l' : io_to (io_to s n l) n' l' = io_to s n' (l' ++ l).
Proof. unfold io_to, upd, upd_drv, upd_kern, upd_con, upd_port_reads, Console.upd_ports. cbn. by rewrite app_assoc. Qed.
Lemma io_to_self s : io_to s (port_reads (drv s)) [] = s.
Proof. destruct s as [[] ? ? ? ? ? ? ? ? ? ? ? ? ? ? ? ? []]. unfold io_to, upd, upd_drv, upd_kern, upd_con, Console.upd_ports. cbn. by destruct con. Qed.
Lemma fs_outb_run v p s : fs_outb v p s = Done tt (io_to s (port_reads (drv s)) [(u8 v, p)]).
Proof. destruct s as [? ? ? ? ? ? ? ? ? ? ? ? ? ? ? ? ? []]. reflexivity. Qed.

Lemma io_to_do_hd s n l f :
  io_to (s <| drv ::= fun d => d <| do_hd := f |> |>) n l = (io_to s n l) <| drv ::= fun d => d <| do_hd := f |> |>.
Proof. done. Qed.

(** ** Waking up *)

(** Every task that waits exists. *)
Definition waiters_exist (k : kernel) : Prop := forall p h, wchan k !! p = Some h -> is_Some (slot k h).
(** Some tasks were made runnable and some queues emptied. *)
Definition woke (k k' : kernel) : Prop :=
  (forall j t, slot k j = Some t -> exists t', slot k' j = Some t' /\ (t' = t \/ t_state t' = TASK_RUNNING)) /\
  (forall p, wchan k' !! p = wchan k !! p \/ wchan k' !! p = None) /\ con k' = con k.
#[export] Instance woke_preorder : PreOrder woke.
Proof.
  split; [intros k; split; [intros j t H; exists t; by split; [|left]|by split; [left|]]|].
  intros k1 k2 k3 (A1 & A2 & A3) (B1 & B2 & B3). split; [|split; [|congruence]].
  - intros j t H. destruct (A1 j t H) as (t2 & H2 & E2). destruct (B1 j t2 H2) as (t3 & H3 & E3). exists t3. split; [done|].
    destruct E3 as [->|]; [done|by right].
  - intros p. destruct (B2 p) as [->|]; [done|by right].
Qed.
Lemma woke_waiters k k' : woke k k' -> waiters_exist k -> waiters_exist k'.
Proof.
  intros (H1 & H2 & _) Hw p h Hp. destruct (H2 p) as [E|E]; rewrite E in Hp; [|done].
  destruct (Hw p h Hp) as [t Ht]. destruct (H1 h t Ht) as (t' & Ht' & _). by exists t'.
Qed.
Definition running (k : kernel) (h : nat) : Prop := exists t, slot k h = Some t /\ t_state t = TASK_RUNNING.
Lemma woke_running k k' h : woke k k' -> running k h -> running k' h.
Proof. intros (H & _) (t & Ht & E). destruct (H h t Ht) as (t' & Ht' & [->|E']); by eexists. Qed.
Lemma fs_wake_up_run p s : waiters_exist (kern s) -> exists k,
  fs_wake_up p s = Done tt (s <| kern := k |>) /\ woke (kern s) k /\ forall h, wchan (kern s) !! p = Some h -> running k h.
Proof.
  intros Hw. destruct (wchan (kern s) !! p) as [h|] eqn:Eh.
  - destruct (Hw p h Eh) as [t Ht]. pose proof (slot_length _ _ _ Ht) as Hl. set (t' := t <| t_state := TASK_RUNNING |>).
    exists ((kern s) <| task ::= <[h := Some t']> |> <| wchan ::= delete p |>). split; [|split; [split; [|split; [|done]]|]].
    + unfold fs_wake_up, in_kernel, zoom, Sched.wake_up. unfold bind at 1, wq_get, gets. rewrite Eh.
      unfold make_runnable, mod_task, put_task, get_task, bind, get. rewrite Ht. done.
    + intros j u Hj. change (slot (?k <| wchan ::= ?f |>) j) with (slot k j). rewrite slot_upd by done.
      destruct (decide (h = j)) as [->|]; [|by exists u; split; [|left]]. exists t'. by split; [|right].
    + intros q. cbn. destruct (decide (q = p)) as [->|]; [right; apply lookup_delete_eq|left; by apply lookup_delete_ne].
    + intros h' [= <-]. exists t'. change (slot (?k <| wchan ::= ?f |>) h) with (slot k h). rewrite slot_upd by done. by rewrite decide_True.
  - exists (kern s). rewrite kern_same. split; [by apply wake_up_none|]. by split.
Qed.
Lemma end_request_wakes name major u s cur r bh b fn : blk_dev s !! major = Some (mk_blk_dev fn (Some cur)) -> request s !! cur = Some r ->
  r_bh r = Some bh -> bufs s !! bh = Some b -> b_lock b <> 0 -> waiters_exist (kern s) ->
  exists k l, end_request name major u s = Done tt (s <| kern := k |> <| klog := l |> <| bufs ::= <[bh := b <| b_uptodate := u |> <| b_lock := 0 |>]> |>
      <| request ::= <[cur := r <| r_dev := -1 |>]> |> <| blk_dev ::= <[major := mk_blk_dev fn (r_next r)]> |>) /\
    woke (kern s) k /\ forall h, wchan (kern s) !! b_wait bh = Some h -> running k h.
Proof.
  intros Hd Hr Hbh Hb Hl Hw. pose proof (lookup_lt_Some _ _ _ Hb). pose proof (lookup_lt_Some _ _ _ Hr).
  set (b1 := b <| b_uptodate := u |>). set (b2 := b1 <| b_lock := 0 |>).
  set (s1 := s <| bufs ::= <[bh := b1]> |>). assert (bufs s1 !! bh = Some b1) as Hb1 by (by apply list_lookup_insert_eq).
  set (s2 := s <| bufs ::= <[bh := b2]> |>). destruct (fs_wake_up_run (b_wait bh) s2 Hw) as (k2 & Hrun2 & Hwoke2 & Hrunning). set (s3 := s2 <| kern := k2 |>) in *.
  set (s3' := if negb (truth u) then s3 <| klog := (klog s3 ++ [((name ++ " I/O error")%string, [])]) ++ [("dev %04x, block %d", [r_dev r; b_blocknr b2])] |> else s3).
  assert (kern s3' = k2) as Hk3 by (unfold s3'; by destruct (negb (truth u))).
  destruct (fs_wake_up_run (r_waiting cur) s3' ltac:(rewrite Hk3; exact (woke_waiters _ _ Hwoke2 Hw))) as (k3 & Hrun3 & Hwoke3 & _). set (s4 := s3' <| kern := k3 |>) in *. rewrite Hk3 in Hwoke3.
  destruct (fs_wake_up_run wait_for_request s4 (woke_waiters _ _ Hwoke3 (woke_waiters _ _ Hwoke2 Hw))) as (k4 & Hrun4 & Hwoke4 & _).
  exists k4, (klog s3'). split; [|split; [by transitivity k2; [|transitivity k3]|intros h Hh; apply (woke_running k3 k4), (woke_running k2 k3); [done|done|by apply Hrunning]]].
  unfold end_request. run (get_dev_run s major _ Hd). cbn [current_request deref]. rewrite bind_ret. run (get_req_run s cur r Hr). rewrite Hbh.
  assert ((mod_buf bh (fun b => b <| b_uptodate := u |>) ;;; unlock_request_buffer name bh) s = Done tt s3) as Hu.
  { run (mod_buf_run s bh b (fun b => b <| b_uptodate := u |>) Hb). fold b1 s1. unfold unlock_request_buffer. run (get_buf_run s1 bh b1 Hb1).
    change (b_lock b1) with (b_lock b). unfold truth. destruct (Z.eqb_spec (b_lock b) 0); [done|]. cbn [negb when]. rewrite bind_ret.
    run (mod_buf_run s1 bh b1 (fun b => b <| b_lock := 0 |>) Hb1). replace (s1 <| bufs ::= _ |>) with s2; [exact Hrun2|].
    unfold s1, s2, upd, upd_bufs. cbn. by rewrite list_insert_insert_eq. }
  assert (bufs s3 !! bh = Some b2) as Hb3 by (by apply list_lookup_insert_eq).
  assert (when (negb (truth u)) (printk (name ++ " I/O error") [] ;;; bh <- deref (r_bh r) ;; b <- get_buf bh ;;
    printk "dev %04x, block %d" [r_dev r; b_blocknr b]) s3 = Done tt s3') as Hp.
  { unfold s3'. destruct (negb (truth u)); [|done]. cbn [when]. rewrite Hbh. unfold printk at 1, modify at 1. unfold bind at 1. cbn [deref]. rewrite bind_ret.
    set (s3a := s3 <| klog ::= _ |>). run (get_buf_run s3a bh b2 Hb3). done. }
  rewrite Hbh in Hp. run Hu. run Hp. run Hrun3. run Hrun4. set (s5 := s4 <| kern := k4 |>).
  assert (request s5 !! cur = Some r) as Hr5 by (unfold s5, s4, s3'; destruct (negb (truth u)); exact Hr). run (mod_req_run s5 cur r (fun r => r <| r_dev := -1 |>) Hr5). set (s6 := s5 <| request ::= _ |>).
  assert (request s6 !! cur = Some (r <| r_dev := -1 |>)) as Hr6 by (apply list_lookup_insert_eq; exact (lookup_lt_Some _ _ _ Hr5)). run (get_req_run s6 cur _ Hr6).
  rewrite (mod_dev_run s6 major (mk_blk_dev fn (Some cur))) by (unfold s6, s5, s4, s3'; destruct (negb (truth u)); exact Hd).
  unfold s6, s5, s4, s3'. by destruct (negb (truth u)).
Qed.

Section Input.
Context {I : Ports}.
Lemma inb_run p s : inb p s = Done (u8 (port_in (port_reads (drv s)) p)) (io_to s (S (port_reads (drv s))) []).
Proof. destruct s as [[] ? ? ? ? ? ? ? ? ? ? ? ? ? ? ? ? []]. cbn. unfold io_to, upd, upd_drv, upd_kern, upd_con, Console.upd_ports. cbn. by destruct con. Qed.
(** The bytes of [m] words from read [n] on. *)
Definition words (n m : nat) : list Z :=
  flat_map (fun k => [u8 (port_in k HD_DATA); u8 (Z.shiftr (port_in k HD_DATA) 8)]) (seq n m).
Lemma length_words n m : length (words n m) = (2 * m)%nat.
Proof. unfold words. revert n. induction m as [|m IH]; intros n; [done|]. cbn [seq flat_map length app]. rewrite IH. lia. Qed.
Lemma insw_run m : forall s, insw m HD_DATA s = Done (words (port_reads (drv s)) m) (io_to s (port_reads (drv s) + m) []).
Proof.
  induction m as [|m IH]; intros s; cbn [insw].
  - rewrite Nat.add_0_r, io_to_self. done.
  - assert (read_port HD_DATA s = Done (port_in (port_reads (drv s)) HD_DATA) (io_to s (S (port_reads (drv s))) [])) as Hr.
    { destruct s as [[] ? ? ? ? ? ? ? ? ? ? ? ? ? ? ? ? []]. cbn. unfold io_to, upd, upd_drv, upd_kern, upd_con, Console.upd_ports. cbn. by destruct con. }
    run Hr. run (IH (io_to s (S (port_reads (drv s))) [])). unfold ret. rewrite io_to_io_to. f_equal.
    change (port_reads (drv (io_to s ?n ?l))) with n. f_equal. lia.
Qed.

(** ** A command *)

(** The controller becomes ready before the driver gives up. *)
Definition controller_answers : Prop :=
  forall n, exists j, Z.of_nat j < 9999 /\ Z.land (u8 (port_in (n + j) HD_STATUS)) 192 = 64.
Hypothesis (Hready : controller_answers).
Lemma controller_ready_run s : exists r n, controller_ready s = Done r (io_to s n []) /\ r <> 0.
Proof.
  destruct (Hready (port_reads (drv s))) as (j & Hj & Hst). unfold controller_ready.
  assert (forall j (f : nat) (retries : Z) (s : fs), (j < f)%nat -> Z.of_nat j + 1 < retries ->
    Z.land (u8 (port_in (port_reads (drv s) + j) HD_STATUS)) 192 = 64 -> exists r n, loop f (fun retries =>
      let retries := retries - 1 in if negb (truth retries) then ret (inr 0) else
      i <- inb HD_STATUS ;; ret (if Z.land i 192 =? 64 then inr retries else inl retries)) retries s = Done r (io_to s n []) /\ r <> 0) as H.
  { clear. induction j as [|j IH]; intros f retries s Hf Hr Hst; (destruct f as [|f]; [lia|]); cbn [loop]; cbv zeta; unfold truth;
      (destruct (Z.eqb_spec (retries - 1) 0); [lia|]); cbn [negb]; rewrite bind_assoc; run (inb_run HD_STATUS s).
    - rewrite Nat.add_0_r in Hst. rewrite Hst, bind_ret. cbv iota. exists (retries - 1), (S (port_reads (drv s))). split; [done|lia].
    - rewrite bind_ret. destruct (Z.eqb_spec (Z.land (u8 (port_in (port_reads (drv s)) HD_STATUS)) 192) 64) as [E|E].
      + exists (retries - 1), (S (port_reads (drv s))). split; [done|lia].
      + destruct (IH f (retries - 1) (io_to s (S (port_reads (drv s))) [])) as (r & m & Hrun & Hne); [lia|lia| |].
        * rewrite <- plus_n_Sm in Hst. exact Hst.
        * exists r, m. rewrite io_to_io_to in Hrun. split; [exact Hrun|done]. }
  apply (H j); [lia|lia|done].
Qed.
(** The registers in the order they are written. *)
Definition command_out (h : hd_i_struct) (drive nsect sect head cyl cmd : Z) : list (Z * Z) :=
  [(u8 (hi_ctl h), HD_CMD); (u8 (Z.shiftr (hi_wpcom h) 2), 497); (u8 nsect, 498); (u8 sect, 499); (u8 cyl, 500);
   (u8 (Z.shiftr cyl 8), 501); (u8 (Z.lor (Z.lor 160 (Z.shiftl drive 4)) head), 502); (u8 cmd, 503)].
Lemma hd_out_run s drive nsect sect head cyl cmd f h : drive <= 1 -> head <= 15 -> hd_info (drv s) !! Z.to_nat drive = Some h ->
  exists n, hd_out drive nsect sect head cyl cmd f s =
    Done tt ((io_to s n (rev (command_out h drive nsect sect head cyl cmd))) <| drv ::= fun d => d <| do_hd := Some f |> |>).
Proof.
  intros Hd Hh Hi. unfold hd_out. destruct (Z.ltb_spec 1 drive); [lia|]. destruct (Z.ltb_spec 15 head); [lia|]. cbn [orb].
  destruct (controller_ready_run s) as (r & n & Hr & Hne). run Hr. unfold truth. destruct (Z.eqb_spec r 0) as [|_]; [done|]. cbn [negb].
  run (eq_refl : set_do_hd f (io_to s n []) = Done tt ((io_to s n []) <| drv ::= fun d => d <| do_hd := Some f |> |>)).
  set (s1 := (io_to s n []) <| drv ::= _ |>).
  assert (forall m l, port_reads (drv (io_to s1 m l)) = m) as Hp by done. assert (port_reads (drv s1) = n) as Hp1 by done.
  assert (hd_info_at drive s1 = Done h s1) as Hh1.
  { unfold hd_info_at, drvs. unfold bind, gets. change (hd_info (drv s1)) with (hd_info (drv s)). by rewrite Hi. }
  run Hh1. repeat (run (fs_outb_run)). rewrite fs_outb_run, !io_to_io_to, !Hp, Hp1. by exists n.
Qed.

(** ** The current request *)

(** Request [cur] is the first of the queue, for buffer [bh] and a partition of [size]
    sectors from [start] on of a disk of geometry [h]. *)
Record at_disk (s : fs) (cur : nat) (r : request_t) (bh : nat) (b : buffer_head) (start size : Z) (h : hd_i_struct) : Prop := {
  ad_dev : blk_dev s !! 3%nat = Some (mk_blk_dev (Some do_hd_request_fn) (Some cur));
  ad_req : request s !! cur = Some r;
  ad_major : MAJOR (r_dev r) = 3;
  ad_bh : r_bh r = Some bh;
  ad_buffer : r_buffer r = bh;
  ad_buf : bufs s !! bh = Some b;
  ad_lock : b_lock b <> 0;
  ad_minor : MINOR (r_dev r) < 5 * NR_HD (drv s);
  ad_disks : NR_HD (drv s) <= 2;
  ad_part : hd (drv s) !! Z.to_nat (MINOR (r_dev r)) = Some (start, size);
  ad_info : hd_info (drv s) !! Z.to_nat (MINOR (r_dev r) / 5) = Some h;
  ad_sect : 0 < hi_sect h;
  ad_head : 0 < hi_head h <= 16;
  ad_fits : 0 <= start /\ 0 <= size /\ start + size < 2 ^ 32;
  ad_sector : 0 <= r_sector r;
  ad_reset : hd_reset (drv s) = 0;
  ad_recal : hd_recalibrate (drv s) = 0
}.
(** The sector on the disk, and the command to read from there. *)
Definition read_command (h : hd_i_struct) (r : request_t) (start : Z) : list (Z * Z) :=
  let block := start + r_sector r in
  command_out h (MINOR (r_dev r) / 5) (r_nr_sectors r) (block mod hi_sect h + 1) (block / hi_sect h mod hi_head h)
    (block / hi_sect h / hi_head h) WIN_READ.
Lemma init_request_run s cur r bh b start size h : at_disk s cur r bh b start size h ->
  init_request hd_name 3 s = Done (Some (cur, r)) s.
Proof.
  intros [H1 H2 H3 H4 H5 H6 H7 _ _ _ _ _ _ _ _ _ _]. unfold init_request. run (get_dev_run s 3 _ H1). cbn [current_request].
  run (get_req_run s cur r H2). rewrite H3. change (negb (3 =? Z.of_nat 3)) with false. rewrite H4. run (get_buf_run s bh b H6).
  unfold truth. destruct (Z.eqb_spec (b_lock b) 0); done.
Qed.
Lemma do_hd_request_read s cur r bh b start size h : at_disk s cur r bh b start size h -> r_cmd r = READ -> r_sector r + 2 <= size ->
  exists n, do_hd_request s =
    Done tt ((io_to s n (rev (read_command h r start))) <| drv ::= fun d => d <| do_hd := Some read_intr_fn |> |>).
Proof.
  intros Ha Hcmd Hsize. pose proof Ha as [_ _ _ _ _ _ _ Hmin Hn Hpart Hinfo Hsect Hhead (Hst & Hsz & Hfit) Hsec Hreset Hrecal].
  assert (0 <= MINOR (r_dev r) < 10) as Hmr by (unfold MINOR in *; pose proof (Z.land_nonneg (r_dev r) 255); lia).
  set (block := start + r_sector r). assert (0 <= block / hi_sect h mod hi_head h <= 15) as Hh15 by (pose proof (Z.mod_pos_bound (block / hi_sect h) (hi_head h)); lia).
  destruct (hd_out_run s (MINOR (r_dev r) / 5) (r_nr_sectors r) (block mod hi_sect h + 1) (block / hi_sect h mod hi_head h)
    (block / hi_sect h / hi_head h) WIN_READ read_intr_fn h) as (n & Hrun); [dlia|lia|done|].
  exists n. unfold do_hd_request. change (Z.to_nat MAX_ERRORS * S NR_REQUEST)%nat with (S 230). cbn [loop].
  assert (request_step tt s = Done (inr tt) ((io_to s n (rev (read_command h r start))) <| drv ::= fun d => d <| do_hd := Some read_intr_fn |> |>)) as Hstep;
    [|by run Hstep].
  unfold request_step. run (init_request_run s cur r bh b start size h Ha). cbv beta iota zeta.
  run (eq_refl : drvs s = Done (drv s) s). rewrite Hpart. change (default (0, 0) (Some (start, size))) with (start, size). cbn [fst snd].
  rewrite (u32_id (r_sector r)), (u32_id (r_sector r + 2)), (u32_id size), (u32_id (r_sector r + start)) by lia.
  destruct (Z.leb_spec (5 * NR_HD (drv s)) (MINOR (r_dev r))); [lia|]. destruct (Z.ltb_spec size (r_sector r + 2)); [lia|]. cbn [orb].
  assert (hd_info_at (MINOR (r_dev r) / 5) s = Done h s) as Hi by (unfold hd_info_at, drvs, bind, gets; by rewrite Hinfo).
  run Hi. unfold place. destruct (Z.eqb_spec (hi_sect h) 0); [lia|]. destruct (Z.eqb_spec (hi_head h) 0); [lia|]. cbn [orb].
  rewrite bind_ret. cbv beta iota zeta. rewrite Hreset, Hrecal, Hcmd. change (truth 0) with false. change (READ =? WRITE) with false. change (READ =? READ) with true.
  cbv iota. replace (r_sector r + start) with block by (unfold block; lia). run Hrun. done.
Qed.

Lemma hd_current_run s cur fn : blk_dev s !! 3%nat = Some (mk_blk_dev fn (Some cur)) -> hd_current s = Done cur s.
Proof. intros H. unfold hd_current. by run (get_dev_run s 3 _ H). Qed.

(** The command for a read.  [do_hd_request] writes to the controller, in the order of its
    registers, the number of sectors and the cylinder, head and sector that together are the
    first sector of the request, each in the range of the disk's geometry; the next interrupt goes to
    [read_intr] and nothing else changes. *)
Theorem hd_read_start s cur r bh b start size h : at_disk s cur r bh b start size h -> r_cmd r = READ -> r_sector r + 2 <= size ->
  wp do_hd_request (fun _ s' => at_disk s' cur r bh b start size h /\ do_hd (drv s') = Some read_intr_fn /\
    exists sec head cyl, 1 <= sec <= hi_sect h /\ 0 <= head < hi_head h /\ 0 <= cyl /\
      (cyl * hi_head h + head) * hi_sect h + (sec - 1) = start + r_sector r /\
      Console.ports (con (kern s')) =
        rev (command_out h (MINOR (r_dev r) / 5) (r_nr_sectors r) sec head cyl WIN_READ) ++ Console.ports (con (kern s))) s.
Proof.
  intros Ha Hcmd Hsize. destruct (do_hd_request_read s cur r bh b start size h Ha Hcmd Hsize) as (n & Hrun). unfold wp. rewrite Hrun.
  pose proof Ha as [_ _ _ _ _ _ _ _ _ _ _ Hsect Hhead (Hst & _) Hsec _ _]. split; [|split; [done|]].
  - destruct Ha as [H1 H2 H3 H4 H5 H6 H7 H8 H9 H10 H11 H12 H13 H14 H15 H16 H17]. by split.
  - set (block := start + r_sector r). exists (block mod hi_sect h + 1), (block / hi_sect h mod hi_head h), (block / hi_sect h / hi_head h).
    pose proof (Z.mod_pos_bound block (hi_sect h)). pose proof (Z.mod_pos_bound (block / hi_sect h) (hi_head h)).
    pose proof (Z.div_pos block (hi_sect h)). pose proof (Z.div_pos (block / hi_sect h) (hi_head h)).
    split; [lia|]. split; [lia|]. split; [unfold block in *; lia|]. split; [|done].
    rewrite (Z.mul_comm _ (hi_head h)), <- Z.div_mod by lia. rewrite (Z.mul_comm _ (hi_sect h)).
    rewrite (Z.div_mod block (hi_sect h)) at 3 by lia. lia.
Qed.

(** The last error of the last request.  The seventh error ends the request, and
    [bad_rw_intr] then looks at the errors of [CURRENT] again: when the queue is empty
    this is a read through a null pointer. *)
Theorem hd_last_error_null s cur r bh b start size h : at_disk s cur r bh b start size h -> r_next r = None -> r_errors r = 6 ->
  waiters_exist (kern s) -> bad_rw_intr s = Fault.
Proof.
  intros Ha Hnext He Hw. pose proof (ad_req _ _ _ _ _ _ _ _ Ha) as Hr. pose proof (ad_dev _ _ _ _ _ _ _ _ Ha) as Hd. pose proof (lookup_lt_Some _ _ _ Hr).
  unfold bad_rw_intr. run (hd_current_run s cur _ Hd). run (mod_req_run s cur r (fun r => r <| r_errors ::= fun e => i32 (e + 1) |>) Hr).
  set (r1 := r <| r_errors ::= _ |>). set (s1 := s <| request ::= <[cur := r1]> |>).
  assert (r_errors r1 = 7) as He1 by (unfold r1, upd, upd_r_errors; cbn; by rewrite He).
  assert (request s1 !! cur = Some r1) as Hr1 by (by apply list_lookup_insert_eq). run (get_req_run s1 cur r1 Hr1). rewrite He1.
  change (MAX_ERRORS <=? 7) with true. cbn [when].
  destruct (end_request_wakes hd_name 3 0 s1 cur r1 bh b (Some do_hd_request_fn) Hd Hr1 (ad_bh _ _ _ _ _ _ _ _ Ha)
    (ad_buf _ _ _ _ _ _ _ _ Ha) (ad_lock _ _ _ _ _ _ _ _ Ha) Hw) as (k & l & Hend & _).
  run Hend. change (r_next r1) with (r_next r). rewrite Hnext. set (s2 := s1 <| kern := k |> <| klog := l |> <| bufs ::= _ |> <| request ::= _ |> <| blk_dev ::= _ |>).
  assert (blk_dev s2 !! 3%nat = Some (mk_blk_dev (Some do_hd_request_fn) None)) as Hd2 by (apply list_lookup_insert_eq; exact (lookup_lt_Some _ _ _ Hd)).
  assert (hd_current s2 = Fault) as Hf by (unfold hd_current; by run (get_dev_run s2 3 _ Hd2)).
  unfold bind at 1. by rewrite Hf.
Qed.

(** ** The interrupt of a read *)
Definition good_status (v : Z) : bool := Z.land v 241 =? 80.
Lemma win_result_run s (v := u8 (port_in (port_reads (drv s)) HD_STATUS)) :
  if good_status v then win_result s = Done 0 (io_to s (S (port_reads (drv s))) [])
  else exists n, win_result s = Done 1 (io_to s n []).
Proof.
  unfold win_result, good_status.
  change (BUSY_STAT + READY_STAT + WRERR_STAT + SEEK_STAT + ERR_STAT) with 241. change (READY_STAT + SEEK_STAT) with 80.
  pose proof (inb_run HD_STATUS s) as Hin. fold v in Hin.
  destruct (Z.land v 241 =? 80) eqn:E.
  - run Hin. by rewrite E.
  - destruct (truth (Z.land v 1)) eqn:E1; eexists.
    + run Hin. rewrite E, E1. cbn [when]. rewrite bind_assoc. run (inb_run HD_ERROR (io_to s (S (port_reads (drv s))) [])). rewrite bind_ret.
      unfold ret. by rewrite io_to_io_to.
    + run Hin. rewrite E, E1. cbn [when]. by rewrite bind_ret.
Qed.
(** The state in which [read_intr] is called, and what port accesses leave. *)
Definition at_intr (s : fs) : fs :=
  (io_to s (port_reads (drv s)) [(32, 32); (32, 160)]) <| drv ::= fun d => d <| do_hd := None |> |>.
Lemma hd_interrupt_run s f : do_hd (drv s) = Some f -> hd_interrupt s = call_hd f (at_intr s).
Proof.
  intros H. unfold hd_interrupt. run (fs_outb_run 32 160 s). run (eq_refl : drvs ?[x] = Done (drv ?x) ?x).
  change (do_hd (drv (io_to ?x ?n ?l))) with (do_hd (drv x)).
  set (s1 := io_to s _ _). run (eq_refl : mod_drv (fun d => d <| do_hd := None |>) s1 = Done tt (s1 <| drv ::= fun d => d <| do_hd := None |> |>)).
  set (s2 := s1 <| drv ::= _ |>). run (fs_outb_run 32 32 s2). rewrite H. f_equal.
Qed.
Definition same_disk (s s' : fs) : Prop :=
  blk_dev s' = blk_dev s /\ request s' = request s /\ bufs s' = bufs s /\ NR_HD (drv s') = NR_HD (drv s) /\ hd (drv s') = hd (drv s) /\
  hd_info (drv s') = hd_info (drv s) /\ hd_reset (drv s') = hd_reset (drv s) /\ hd_recalibrate (drv s') = hd_recalibrate (drv s).
Lemma at_disk_same s s' cur r bh b start size h : same_disk s s' -> at_disk s cur r bh b start size h -> at_disk s' cur r bh b start size h.
Proof.
  intros (E1 & E2 & E3 & E4 & E5 & E6 & E7 & E8) [H1 H2 H3 H4 H5 H6 H7 H8 H9 H10 H11 H12 H13 H14 H15 H16 H17].
  split; rewrite ?E1, ?E2, ?E3, ?E4, ?E5, ?E6, ?E7, ?E8; done.
Qed.
(** The request after one more sector. *)
Definition sector_done (r : request_t) : request_t := one_less (next_sector (r <| r_errors := 0 |>)).
Lemma bad_rw_intr_run s cur r bh b start size h : at_disk s cur r bh b start size h -> 0 <= r_errors r < 3 ->
  bad_rw_intr s = Done tt (s <| request ::= <[cur := r <| r_errors := r_errors r + 1 |>]> |>).
Proof.
  intros Ha He. pose proof (ad_req _ _ _ _ _ _ _ _ Ha) as Hr. pose proof (ad_dev _ _ _ _ _ _ _ _ Ha) as Hd. pose proof (lookup_lt_Some _ _ _ Hr).
  unfold bad_rw_intr. run (hd_current_run s cur _ Hd). run (mod_req_run s cur r (fun r => r <| r_errors ::= fun e => i32 (e + 1) |>) Hr).
  assert (r <| r_errors ::= fun e => i32 (e + 1) |> = r <| r_errors := r_errors r + 1 |>) as -> by (unfold upd, upd_r_errors; by rewrite i32_id by lia).
  set (r1 := r <| r_errors := r_errors r + 1 |>). set (s1 := s <| request ::= <[cur := r1]> |>).
  assert (request s1 !! cur = Some r1) as Hr1 by (by apply list_lookup_insert_eq). run (get_req_run s1 cur r1 Hr1).
  change (r_errors r1) with (r_errors r + 1). change (MAX_ERRORS ÷ 2) with 3. unfold MAX_ERRORS. destruct (Z.leb_spec 7 (r_errors r + 1)); [lia|]. cbn [when]. rewrite bind_ret.
  run (hd_current_run s1 cur _ Hd). run (get_req_run s1 cur r1 Hr1). change (r_errors r1) with (r_errors r + 1).
  destruct (Z.ltb_spec 3 (r_errors r + 1)); [lia|]. done.
Qed.
(** A sector arrives: up to the end of the request. *)
Definition arrived (s : fs) (n : nat) (cur bh : nat) (r : request_t) (b : buffer_head) : fs :=
  (io_to s n []) <| bufs ::= <[bh := b]> |> <| request ::= <[cur := r]> |>.
Lemma read_sector_run {A} (k : request_t -> M fs A) s cur r bh b start size h (n := port_reads (drv s)) : at_disk s cur r bh b start size h ->
  length (b_data b) = 1024%nat -> 0 <= r_off r <= 512 ->
  (read_sector r ;;; mod_req cur sector_done ;;; r' <- get_req cur ;; k r') s =
  k (sector_done r) (arrived s (n + 256) cur bh (sector_done r) (b <| b_data ::= splice (Z.to_nat (r_off r)) (words n 256) |>)).
Proof.
  intros Ha Hlen Hoff. pose proof (ad_req _ _ _ _ _ _ _ _ Ha) as Hr. pose proof (ad_buf _ _ _ _ _ _ _ _ Ha) as Hb. pose proof (lookup_lt_Some _ _ _ Hr).
  unfold read_sector. rewrite (ad_buffer _ _ _ _ _ _ _ _ Ha), bind_assoc. run (get_buf_run s bh b Hb). rewrite bind_assoc. unfold sector_of.
  rewrite Hlen. destruct (Z.leb_spec 0 (r_off r)); [|lia]. destruct (Z.leb_spec (r_off r + 512) (Z.of_nat 1024)); [|lia]. cbn [andb]. rewrite bind_ret.
  rewrite bind_assoc. run (insw_run 256 s). fold n. set (s1 := io_to s (n + 256) []). assert (bufs s1 !! bh = Some b) as Hb1 by exact Hb.
  run (mod_buf_run s1 bh b (fun b => b <| b_data ::= splice (Z.to_nat (r_off r)) (words n 256) |>) Hb1). set (s2 := s1 <| bufs ::= _ |>).
  assert (request s2 !! cur = Some r) as Hr2 by exact Hr. run (mod_req_run s2 cur r sector_done Hr2). set (s3 := s2 <| request ::= _ |>).
  assert (request s3 !! cur = Some (sector_done r)) as Hr3 by (by apply list_lookup_insert_eq). by run (get_req_run s3 cur _ Hr3).
Qed.

(** The request is over: the buffer is unlocked and up to date, or not; the tasks that wait for it run; the next
    request of the queue is the current one.  Other buffers and requests and the disks are as they were. *)
Definition ended (s s' : fs) (cur : nat) (r : request_t) (bh : nat) (b : buffer_head) (up : Z) : Prop :=
  bufs s' = <[bh := b <| b_uptodate := up |> <| b_lock := 0 |>]> (bufs s) /\
  (exists r', request s' = <[cur := r']> (request s) /\ r_dev r' = -1) /\
  blk_dev s' = <[3%nat := mk_blk_dev (Some do_hd_request_fn) (r_next r)]> (blk_dev s) /\
  (forall t, wchan (kern s) !! b_wait bh = Some t -> running (kern s') t) /\
  NR_HD (drv s') = NR_HD (drv s) /\ hd (drv s') = hd (drv s) /\ hd_info (drv s') = hd_info (drv s) /\
  hd_reset (drv s') = hd_reset (drv s) /\ hd_recalibrate (drv s') = hd_recalibrate (drv s).
(** [end_request] after the request has been changed to [r1] and the buffer to [b1]. *)
Lemma end_request_ended u s s1 cur r r1 bh b b1 start size h : at_disk s cur r bh b start size h -> at_disk s1 cur r1 bh b1 start size h ->
  r_next r1 = r_next r -> bufs s1 = <[bh := b1]> (bufs s) -> request s1 = <[cur := r1]> (request s) -> blk_dev s1 = blk_dev s ->
  hd (drv s1) = hd (drv s) /\ NR_HD (drv s1) = NR_HD (drv s) /\ hd_info (drv s1) = hd_info (drv s) ->
  wchan (kern s1) = wchan (kern s) -> waiters_exist (kern s1) ->
  exists s2, end_request hd_name 3 u s1 = Done tt s2 /\ ended s s2 cur r bh b1 u.
Proof.
  intros Ha Ha1 Hn Eb Er Ed (E1 & E2 & E3) Ew Hw.
  destruct (end_request_wakes hd_name 3 u s1 cur r1 bh b1 (Some do_hd_request_fn) (ad_dev _ _ _ _ _ _ _ _ Ha1)
    (ad_req _ _ _ _ _ _ _ _ Ha1) (ad_bh _ _ _ _ _ _ _ _ Ha1) (ad_buf _ _ _ _ _ _ _ _ Ha1) (ad_lock _ _ _ _ _ _ _ _ Ha1) Hw)
    as (k & l & Hend & _ & Hrun).
  eexists. split; [exact Hend|]. split; [cbn; by rewrite Eb, list_insert_insert_eq|].
  split; [exists (r1 <| r_dev := -1 |>); split; [cbn; by rewrite Er, list_insert_insert_eq|done]|].
  split; [cbn; by rewrite Ed, Hn|]. split; [by rewrite <- Ew|]. split; [done|]. split; [done|]. split; [done|]. cbn.
  by rewrite (ad_reset _ _ _ _ _ _ _ _ Ha), (ad_recal _ _ _ _ _ _ _ _ Ha), (ad_reset _ _ _ _ _ _ _ _ Ha1), (ad_recal _ _ _ _ _ _ _ _ Ha1).
Qed.
(** A request whose first two sectors would not be in the partition is thrown out; the loop goes on. *)
Lemma do_hd_request_skip s cur r bh b start size h s2 l : at_disk s cur r bh b start size h -> r_sector r + 2 < 2 ^ 32 -> size < r_sector r + 2 ->
  hd_queue s l -> end_request hd_name 3 0 s = Done tt s2 -> do_hd_request s = do_hd_request s2.
Proof.
  intros Ha Hsec Hsize Hq Hend. pose proof Ha as [_ _ _ _ _ _ _ Hmin Hn Hpart Hinfo Hsect Hhead (Hst & Hsz & Hfit) Hs0 Hreset Hrecal].
  assert (exists l', hd_queue s2 l') as [l' Hq2].
  { pose proof (end_credit 0 s l Hq) as H. unfold live in H. rewrite Hend in H. destruct H as (l' & H & _). by exists l'. }
  assert (request_step tt s = Done (inl tt) s2) as Hstep.
  { unfold request_step. run (init_request_run s cur r bh b start size h Ha). cbv beta iota zeta.
    run (eq_refl : drvs s = Done (drv s) s). rewrite Hpart. change (default (0, 0) (Some (start, size))) with (start, size). cbn [fst snd].
    rewrite (u32_id (r_sector r)), (u32_id (r_sector r + 2)), (u32_id size) by lia.
    destruct (Z.ltb_spec size (r_sector r + 2)); [|lia]. rewrite orb_true_r. by run Hend. }
  unfold do_hd_request. change (Z.to_nat MAX_ERRORS * S NR_REQUEST)%nat with (S 230). cbn [loop]. run Hstep.
  change (loop 230 request_step tt s2 = loop (S 230) request_step tt s2). symmetry. apply loop_fuel; [|lia].
  apply (hd_fuel s2 l'); [done|]. apply Nat.ltb_lt. reflexivity.
Qed.

Lemma ended_empty s s' cur r bh b b1 u start size h : at_disk s cur r bh b start size h ->
  ended s s' cur r bh b1 u -> r_next r = None -> do_hd_request s' = Done tt s'.
Proof.
  intros Ha (_ & _ & Hd & _) Hn. rewrite Hn in Hd. assert (blk_dev s' !! 3%nat = Some (mk_blk_dev (Some do_hd_request_fn) None)) as Hd3.
  { rewrite Hd. apply list_lookup_insert_eq. exact (lookup_lt_Some _ _ _ (ad_dev _ _ _ _ _ _ _ _ Ha)). }
  unfold do_hd_request. change (Z.to_nat MAX_ERRORS * S NR_REQUEST)%nat with (S 230). cbn [loop].
  assert (request_step tt s' = Done (inr tt) s') as Hstep; [|by run Hstep].
  unfold request_step, init_request. rewrite bind_assoc. run (get_dev_run s' 3 _ Hd3). done.
Qed.
(** A sector arrives, [n] port accesses after the interrupt. *)
Lemma read_good_step s n cur r bh b start size h (s1 := io_to (at_intr s) n [])
    (b' := b <| b_data ::= splice (Z.to_nat (r_off r)) (words n 256) |>) : at_disk s cur r bh b start size h ->
  length (b_data b) = 1024%nat -> 0 <= r_off r <= 512 -> r_sector r + 2 < 2 ^ 32 -> 0 < r_nr_sectors r < 2 ^ 32 -> waiters_exist (kern s) ->
  let m := (cur <- hd_current ;; r <- get_req cur ;; read_sector r ;;;
    mod_req cur (fun r => one_less (next_sector (r <| r_errors := 0 |>))) ;;; r <- get_req cur ;;
    if truth (r_nr_sectors r) then set_do_hd read_intr_fn else end_request hd_name 3 1 ;;; do_hd_request) in
  if r_nr_sectors r =? 1 then
    exists s', m s1 = do_hd_request s' /\ ended s s' cur r bh b' 1 /\ (r_next r = None -> do_hd_request s' = Done tt s')
  else exists s' r', m s1 = Done tt s' /\ at_disk s' cur r' bh b' start size h /\ do_hd (drv s') = Some read_intr_fn /\
    r_off r' = r_off r + 512 /\ r_sector r' = r_sector r + 1 /\ r_nr_sectors r' = r_nr_sectors r - 1 /\
    r_errors r' = 0 /\ r_cmd r' = r_cmd r /\ r_next r' = r_next r.
Proof.
  intros Ha Hlen Hoff Hsec Hnr Hw m. assert (at_disk s1 cur r bh b start size h) as Ha1 by (apply (at_disk_same s); [by repeat split|done]).
  pose proof (ad_sector _ _ _ _ _ _ _ _ Ha) as Hs0.
  assert (r_sector (sector_done r) = r_sector r + 1) as Es.
  { change (r_sector (sector_done r)) with (u32 (r_sector r + 1)). apply u32_id. lia. }
  assert (r_nr_sectors (sector_done r) = r_nr_sectors r - 1) as En.
  { change (r_nr_sectors (sector_done r)) with (u32 (r_nr_sectors r - 1)). apply u32_id. lia. }
  set (s2 := arrived s1 (n + 256) cur bh (sector_done r) b').
  pose proof (lookup_lt_Some _ _ _ (ad_req _ _ _ _ _ _ _ _ Ha)) as Hlt. pose proof (lookup_lt_Some _ _ _ (ad_buf _ _ _ _ _ _ _ _ Ha)) as Hltb.
  assert (at_disk s2 cur (sector_done r) bh b' start size h) as Ha2.
  { destruct Ha as [H1 H2 H3 H4 H5 H6 H7 H8 H9 H10 H11 H12 H13 H14 H15 H16 H17].
    split; try done; [by apply list_lookup_insert_eq|by apply list_lookup_insert_eq|rewrite Es; lia]. }
  assert (m s1 = (if truth (r_nr_sectors r - 1) then set_do_hd read_intr_fn else end_request hd_name 3 1 ;;; do_hd_request) s2) as ->.
  { unfold m. run (hd_current_run s1 cur _ (ad_dev _ _ _ _ _ _ _ _ Ha1)). run (get_req_run s1 cur r (ad_req _ _ _ _ _ _ _ _ Ha1)).
    change (fun r => one_less (next_sector (r <| r_errors := 0 |>))) with sector_done.
    rewrite (read_sector_run _ s1 cur r bh b start size h Ha1 Hlen Hoff), En. reflexivity. }
  unfold truth. destruct (Z.eqb_spec (r_nr_sectors r) 1) as [E1|E1].
  - rewrite E1. change (negb (1 - 1 =? 0)) with false. cbv iota.
    destruct (end_request_ended 1 s s2 cur r (sector_done r) bh b b' start size h Ha Ha2) as (s3 & Hend & He); try done.
    exists s3. split; [by run Hend|]. split; [done|]. by apply (ended_empty s s3 cur r bh b b' 1 start size h).
  - destruct (Z.eqb_spec (r_nr_sectors r - 1) 0); [lia|]. cbn [negb]. eexists _, (sector_done r). split; [reflexivity|].
    split; [by apply (at_disk_same s2); [by repeat split|]|]. split; [done|]. split; [exact (Z.add_comm 512 (r_off r))|]. split; [exact Es|].
    split; [exact En|]. done.
Qed.
(** An error, [n] port accesses after the interrupt. *)
Lemma read_bad_step s n cur r bh b start size h l (s1 := io_to (at_intr s) n []) : at_disk s cur r bh b start size h ->
  hd_queue s (cur :: l) -> r_cmd r = READ -> r_sector r + 2 < 2 ^ 32 -> waiters_exist (kern s) -> 0 <= r_errors r < 3 ->
  let m := bad_rw_intr ;;; do_hd_request in
  if r_sector r + 2 <=? size then exists s', m s1 = Done tt s' /\
    at_disk s' cur (r <| r_errors := r_errors r + 1 |>) bh b start size h /\ do_hd (drv s') = Some read_intr_fn /\
    Console.ports (con (kern s')) = rev (read_command h r start) ++ [(32, 32); (32, 160)] ++ Console.ports (con (kern s))
  else exists s', m s1 = do_hd_request s' /\ ended s s' cur r bh b 0 /\ (r_next r = None -> do_hd_request s' = Done tt s').
Proof.
  intros Ha Hq Hcmd Hsec Hw He m. assert (at_disk s1 cur r bh b start size h) as Ha1 by (apply (at_disk_same s); [by repeat split|done]).
  pose proof (bad_rw_intr_run s1 cur r bh b start size h Ha1 He) as Hbad.
  destruct (hd_queue_same s s1 (cur :: l) ltac:(done) Hq) as [Hq1 _]. pose proof (bad_rw_live s1 _ Hq1) as Hlive. unfold live in Hlive.
  rewrite Hbad in Hlive. destruct Hlive as (l2 & Hq2 & _). set (r1 := r <| r_errors := r_errors r + 1 |>) in *. set (s2 := s1 <| request ::= <[cur := r1]> |>) in *.
  assert (at_disk s2 cur r1 bh b start size h) as Ha2.
  { destruct Ha1 as [H1 H2 H3 H4 H5 H6 H7 H8 H9 H10 H11 H12 H13 H14 H15 H16 H17]. split; try done. apply list_lookup_insert_eq. by apply (lookup_lt_Some _ _ _ H2). }
  assert (m s1 = do_hd_request s2) as -> by (unfold m; by run Hbad). destruct (Z.leb_spec (r_sector r + 2) size) as [Hsize|Hsize].
  - destruct (do_hd_request_read s2 cur r1 bh b start size h Ha2 Hcmd Hsize) as (p & Hrun). eexists. split; [exact Hrun|]. split; [|split; [done|]].
    + apply (at_disk_same s2); [by repeat split|done].
    + change (read_command h r1 start) with (read_command h r start). done.
  - destruct (end_request_ended 0 s s2 cur r r1 bh b b start size h Ha Ha2) as (s3 & Hend & Hen); try done.
    { cbn. by rewrite list_insert_id by exact (ad_buf _ _ _ _ _ _ _ _ Ha). }
    exists s3. split; [apply (do_hd_request_skip s2 cur r1 bh b start size h s3 l2); first [done|cbn; lia]|]. split; [done|].
    by apply (ended_empty s s3 cur r bh b b 0 start size h).
Qed.

(** C18: an interrupt of a read.  With a good status, the sector that the controller hands
    over is put where the request points to; when it is the last, the buffer is up to
    date and unlocked, the tasks that wait for it run and [do_hd_request] goes on with the rest of the queue, and
    else the next interrupt goes on with the next sector.  With a bad status, before the fourth error in a
    row, the command is sent again for the sectors that are left, when the sector and the one after
    it are in the partition.  When they are not, which is so of the second sector of the
    last block, the read is given up: the buffer is unlocked, not up to date,
    and [do_hd_request] goes on with the rest of the queue.  (The controller takes commands; else the kernel
    panics.  The requests of the queue are linked, none of them has had seven errors, and the first is for a locked buffer.) *)
Theorem hd_read_step s cur r bh b start size h l (v := u8 (port_in (port_reads (drv s)) HD_STATUS))
    (b' := b <| b_data ::= splice (Z.to_nat (r_off r)) (words (S (port_reads (drv s))) 256) |>) :
  at_disk s cur r bh b start size h -> hd_queue s (cur :: l) -> do_hd (drv s) = Some read_intr_fn -> r_cmd r = READ ->
  length (b_data b) = 1024%nat -> 0 <= r_off r <= 512 -> r_sector r + 2 < 2 ^ 32 ->
  0 < r_nr_sectors r < 2 ^ 32 -> waiters_exist (kern s) -> (good_status v = false -> r_errors r < 3) ->
  if good_status v then
    if r_nr_sectors r =? 1 then
      exists s', hd_interrupt s = do_hd_request s' /\ ended s s' cur r bh b' 1 /\ (r_next r = None -> do_hd_request s' = Done tt s')
    else wp hd_interrupt (fun _ s' =>
      exists r', at_disk s' cur r' bh b' start size h /\ do_hd (drv s') = Some read_intr_fn /\
        r_off r' = r_off r + 512 /\ r_sector r' = r_sector r + 1 /\ r_nr_sectors r' = r_nr_sectors r - 1 /\
        r_errors r' = 0 /\ r_cmd r' = r_cmd r /\ r_next r' = r_next r) s
  else if r_sector r + 2 <=? size then wp hd_interrupt (fun _ s' =>
    at_disk s' cur (r <| r_errors := r_errors r + 1 |>) bh b start size h /\ do_hd (drv s') = Some read_intr_fn /\
      Console.ports (con (kern s')) = rev (read_command h r start) ++ [(32, 32); (32, 160)] ++ Console.ports (con (kern s))) s
  else exists s', hd_interrupt s = do_hd_request s' /\ ended s s' cur r bh b 0 /\ (r_next r = None -> do_hd_request s' = Done tt s').
Proof.
  intros Ha Hq Hf Hcmd Hlen Hoff Hsec Hnr Hw Hbad. pose proof (hd_interrupt_run s _ Hf) as Hint. cbn [call_hd] in Hint.
  unfold read_intr in Hint. pose proof (win_result_run (at_intr s)) as Hwin.
  change (port_reads (drv (at_intr s))) with (port_reads (drv s)) in Hwin. cbv zeta in Hwin. fold v in Hwin.
  destruct (good_status v) eqn:Eg.
  - erewrite bind_run in Hint by exact Hwin. change (truth 0) with false in Hint. cbv iota in Hint.
    pose proof (read_good_step s (S (port_reads (drv s))) cur r bh b start size h Ha Hlen Hoff Hsec Hnr Hw) as H. cbv zeta in H.
    unfold wp. rewrite Hint. destruct (r_nr_sectors r =? 1); [exact H|]. destruct H as (s' & r' & -> & H). by exists r'.
  - destruct Hwin as (n & Hwin). erewrite bind_run in Hint by exact Hwin. change (truth 1) with true in Hint. cbv iota in Hint.
    assert (0 <= r_errors r < 3) as He.
    { split; [|by apply Hbad]. destruct Hq as [_ He]. apply (He cur r); [left|exact (ad_req _ _ _ _ _ _ _ _ Ha)]. }
    pose proof (read_bad_step s n cur r bh b start size h l Ha Hq Hcmd Hsec Hw He) as H. cbv zeta in H.
    unfold wp. rewrite Hint. destruct (r_sector r + 2 <=? size); [|exact H]. by destruct H as (s' & -> & H).
Qed.
End Input.

(** ** A disk of 615 cylinders, 4 heads and 17 sectors, and a request for sectors 10 and 11 of its first partition *)
#[local] Instance steady_ports : Ports := fun n p => if p =? HD_STATUS then 80 else Z.of_nat n.
Lemma steady_answers : controller_answers.
Proof. intros n. exists 0%nat. split; [lia|reflexivity]. Qed.
Definition type_2 : hd_i_struct := mk_hd_info 4 17 615 300 615 8.
Definition block_5 : request_t := mk_request 769 READ 0 10 2 0 0 (Some 0%nat) None.
Definition locked_buffer : buffer_head := no_buffer <| b_dev := 769 |> <| b_blocknr := 5 |> <| b_lock := 1 |> <| b_count := 1 |>.
Definition disk_fs (r : request_t) (f : option hd_handler) : fs :=
  boot_fs <| bufs := [locked_buffer] |> <| request := r :: replicate 31 no_request |>
          <| blk_dev ::= <[3%nat := mk_blk_dev (Some do_hd_request_fn) (Some 0%nat)]> |>
          <| drv ::= fun d => d <| hd_reset := 0 |> <| hd_recalibrate := 0 |> <| NR_HD := 1 |> <| hd_info := [type_2; no_hd_info] |>
                                <| hd ::= <[1%nat := (17, 20000)]> |> <| do_hd := f |> |>.
Lemma disk_fs_at r f : MAJOR (r_dev r) = 3 -> MINOR (r_dev r) = 1 -> r_bh r = Some 0%nat -> r_buffer r = 0%nat -> 0 <= r_sector r ->
  at_disk (disk_fs r f) 0 r 0 locked_buffer 17 20000 type_2.
Proof. intros H1 H2 H3 H4 H5. split; rewrite ?H2; try done; cbn; lia. Qed.
Lemma boot_waiters : waiters_exist boot_kernel.
Proof. intros p h H. assert (wchan boot_kernel = ∅) as E by (vm_compute; reflexivity). by rewrite E in H. Qed.
Lemma hd_read_start_witness :
  wp do_hd_request (fun _ s' => at_disk s' 0 block_5 0 locked_buffer 17 20000 type_2 /\ do_hd (drv s') = Some read_intr_fn /\
    exists sec head cyl, 1 <= sec <= 17 /\ 0 <= head < 4 /\ 0 <= cyl /\ (cyl * 4 + head) * 17 + (sec - 1) = 17 + 10 /\
      Console.ports (con (kern s')) =
        rev (command_out type_2 (MINOR 769 / 5) 2 sec head cyl WIN_READ) ++ Console.ports (con (kern (disk_fs block_5 None)))) (disk_fs block_5 None).
Proof.
  apply (hd_read_start steady_answers (disk_fs block_5 None) 0 block_5 0 locked_buffer 17 20000 type_2).
  - by apply disk_fs_at.
  - reflexivity.
  - cbn. lia.
Defined.
Lemma disk_fs_queue r f : r_next r = None -> 0 <= r_errors r < 7 -> hd_queue (disk_fs r f) [0%nat].
Proof.
  intros Hn He. split.
  - split; [reflexivity|]. split; [constructor; [set_solver|constructor]|]. eexists. split; [reflexivity|].
    split; [reflexivity|]. exists r. split; [reflexivity|exact Hn].
  - intros i u Hi Hu. apply list_elem_of_singleton in Hi as ->. cbn in Hu. injection Hu as <-. exact He.
Qed.
Definition reading_fs : fs := disk_fs block_5 (Some read_intr_fn).
Lemma hd_read_step_witness :
  good_status (u8 (port_in (port_reads (drv reading_fs)) HD_STATUS)) = true /\
  wp hd_interrupt (fun _ s' => exists r',
    at_disk s' 0 r' 0 (locked_buffer <| b_data ::= splice (Z.to_nat (r_off block_5)) (words (S (port_reads (drv reading_fs))) 256) |>)
      17 20000 type_2 /\
    do_hd (drv s') = Some read_intr_fn /\ r_off r' = r_off block_5 + 512 /\ r_sector r' = r_sector block_5 + 1 /\
    r_nr_sectors r' = r_nr_sectors block_5 - 1 /\ r_errors r' = 0 /\ r_cmd r' = r_cmd block_5 /\ r_next r' = r_next block_5) reading_fs.
Proof.
  assert (good_status (u8 (port_in (port_reads (drv reading_fs)) HD_STATUS)) = true) as Eg by (vm_compute; reflexivity). split; [exact Eg|].
  pose proof (hd_read_step steady_answers reading_fs 0 block_5 0 locked_buffer 17 20000 type_2 []
    ltac:(by apply disk_fs_at) ltac:(apply disk_fs_queue; [reflexivity|cbn; lia]) ltac:(reflexivity) ltac:(reflexivity) ltac:(reflexivity)
    ltac:(cbn; lia) ltac:(cbn; lia) ltac:(cbn; lia) boot_waiters) as H. cbv zeta in H.
  rewrite Eg in H. assert ((r_nr_sectors block_5 =? 1) = false) as En by reflexivity. rewrite En in H.
  specialize (H ltac:(discriminate)). cbv iota in H. exact H.
Defined.
Lemma hd_last_error_null_witness : bad_rw_intr (disk_fs (block_5 <| r_errors := 6 |>) (Some read_intr_fn)) = Fault.
Proof.
  apply (hd_last_error_null _ 0 (block_5 <| r_errors := 6 |>) 0 locked_buffer 17 20000 type_2).
  - by apply disk_fs_at.
  - reflexivity.
  - reflexivity.
  - exact boot_waiters.
Defined.
End Disk.
