(* ===== verification/Start.v ===== *)
(** * Start: traps of kernel/traps.c and the start of init/main.c

    The gates of the interrupt descriptor table, what the handlers of kernel/traps.c and
    kernel/math print before they end or signal the task, the reading of the CMOS clock, and
    [main] of init/main.c, which calls the initialisation of all components in turn.

    The state is a [machine]: the memory manager, everything else, and the descriptor table.
    The components leave out the gates that their initialisation sets; here [rs_init], [con_init],
    [sched_init], [hd_init] and [floppy_init] have them.  The addresses of the entry points, which
    are assembly, are the parameter [handler]; [main] ends before interrupts are enabled.  The copy
    of the drive table, which only [sys_setup] reads, and the task register are not in the state. *)
From S2P Require Import Prelude Mktime Console Task Memory Sched Services Fork Exit Tty Ioctl Fs Blk Buffer Hd Floppy.
Import Mktime Fork Exit Blk Buffer.

Module Start.

(** ** Gates

    [_set_gate] of include/asm/system.h: the two words of a gate in the kernel's code segment. *)
Definition gate : Type := Z * Z.
Definition _set_gate (type dpl addr : Z) : gate :=
  (Z.lor 524288 (Z.land addr 65535), Z.lor (Z.land addr 4294901760) (32768 + Z.shiftl dpl 13 + Z.shiftl type 8)).
(** The memory manager, everything else, and the interrupt descriptor table. *)
Record machine : Type := mk_machine {
  m_mm : Memory.mm;
  m_fs : fs;
  idt : gmap Z gate
}.

#[global] Instance upd_m_mm : Setter m_mm := fun g r => mk_machine (g (m_mm r)) (m_fs r) (idt r).
#[global] Instance upd_m_fs : Setter m_fs := fun g r => mk_machine (m_mm r) (g (m_fs r)) (idt r).
#[global] Instance upd_idt : Setter idt := fun g r => mk_machine (m_mm r) (m_fs r) (g (idt r)).

Definition in_mm {A} (m : M Memory.mm A) : M machine A := zoom m_mm (fun x s => s <| m_mm := x |>) m.
Definition in_fs {A} (m : M fs A) : M machine A := zoom m_fs (fun x s => s <| m_fs := x |>) m.

(** The entry points, which are in kernel/asm.s, kernel/system_call.s and mm/page.s. *)
Inductive trap : Type :=
  | divide_error | debug | nmi | int3 | overflow | bounds | invalid_op | device_not_available | double_fault
  | coprocessor_segment_overrun | invalid_TSS | segment_not_present | stack_segment | general_protection | page_fault
  | reserved | coprocessor_error | irq13 | parallel_interrupt
  | rs1_interrupt | rs2_interrupt | keyboard_interrupt | timer_interrupt | hd_interrupt | floppy_interrupt | system_call.

Section Traps.
Context {I : Ports} (handler : trap -> Z).
Definition set_gate (n : Z) (g : gate) : M machine unit := modify (fun s => s <| idt ::= <[n := g]> |>).
Definition set_intr_gate (n : Z) (t : trap) : M machine unit := set_gate n (_set_gate 14 0 (handler t)).
Definition set_trap_gate (n : Z) (t : trap) : M machine unit := set_gate n (_set_gate 15 0 (handler t)).
Definition set_system_gate (n : Z) (t : trap) : M machine unit := set_gate n (_set_gate 15 3 (handler t)).
Definition trap_init : M machine unit :=
  set_trap_gate 0 divide_error ;;;
  set_trap_gate 1 debug ;;;
  set_trap_gate 2 nmi ;;;
  set_system_gate 3 int3 ;;;
  set_system_gate 4 overflow ;;;
  set_system_gate 5 bounds ;;;
  set_trap_gate 6 invalid_op ;;;
  set_trap_gate 7 device_not_available ;;;
  set_trap_gate 8 double_fault ;;;
  set_trap_gate 9 coprocessor_segment_overrun ;;;
  set_trap_gate 10 invalid_TSS ;;;
  set_trap_gate 11 segment_not_present ;;;
  set_trap_gate 12 stack_segment ;;;
  set_trap_gate 13 general_protection ;;;
  set_trap_gate 14 page_fault ;;;
  set_trap_gate 15 reserved ;;;
  set_trap_gate 16 coprocessor_error ;;;
  for_each (seqZ 17 31) (fun i => set_trap_gate i reserved) ;;;
  set_trap_gate 45 irq13 ;;;
  in_fs (v <- inb 33 ;; fs_outb (Z.land v 251) 33 ;;;
         v <- inb 161 ;; fs_outb (Z.land v 223) 161) ;;;
  set_trap_gate 39 parallel_interrupt.
End Traps.

(** ** What a trap does

    [esp] is the stack frame: instruction pointer, code segment, flags, stack pointer, stack segment.
    [kernel_byte] is the memory of the kernel, [fs_reg] the segment register. *)
Section Handlers.
Context {S : Services} (kernel_byte : Z -> Z) (fs_reg : Z).
Definition esp_at (esp : list Z) (i : nat) : M fs Z := deref (esp !! i).
Definition get_seg_byte (seg a : Z) : M fs Z :=
  if Z.testbit seg 2 then in_kernel (get_fs_byte a) else ret (kernel_byte a).
Definition die (str : string) (esp : list Z) (nr : Z) : M fs unit :=
  printk (str +:+ ": %04x") [Z.land nr 65535] ;;;
  e0 <- esp_at esp 0 ;; e1 <- esp_at esp 1 ;; e2 <- esp_at esp 2 ;; e3 <- esp_at esp 3 ;; e4 <- esp_at esp 4 ;;
  printk "EIP: %04x:%p EFLAGS: %p ESP: %04x:%p" [e1; e0; e2; e4; e3] ;;;
  printk "fs: %04x" [fs_reg] ;;;
  c <- in_kernel cur ;;
  printk "base: %p, limit: %p" [get_base (nth_ldt c 1); get_limit (nth_ldt c 2)] ;;;
  when (e4 =? 23) (
    printk "Stack: " [] ;;;
    for_each (seqZ 0 4) (fun i => v <- in_kernel (get_fs_long (e3 + 4 * i)) ;; printk "%p " [v]) ;;;
    printk "" []) ;;;
  s <- get ;;
  printk "Pid: %d, process nr: %d" [pid c; Z.land 65535 (Z.of_nat (current (kern s)))] ;;;
  for_each (seqZ 0 10) (fun i => v <- get_seg_byte e1 (e0 + i) ;; printk "%02x " [Z.land 255 v]) ;;;
  printk "" [] ;;;
  in_kernel (do_exit 11) ;;; ret tt.

Definition do_double_fault (esp : list Z) (error_code : Z) : M fs unit := die "double fault" esp error_code.
Definition do_general_protection (esp : list Z) (error_code : Z) : M fs unit := die "general protection" esp error_code.
Definition do_divide_error (esp : list Z) (error_code : Z) : M fs unit := die "divide error" esp error_code.
(** [regs]: fs, es, ds, ebp, esi, edi, edx, ecx, ebx, eax; [tr] the task register, [sp] the address of the frame. *)
Definition do_int3 (esp : list Z) (sp tr fs es ds ebp esi edi edx ecx ebx eax : Z) : M Fs.fs unit :=
  printk "eax ebx ecx edx %8x %8x %8x %8x" [eax; ebx; ecx; edx] ;;;
  printk "esi edi ebp esp %8x %8x %8x %8x" [esi; edi; ebp; sp] ;;;
  printk "ds es fs tr %4x %4x %4x %4x" [ds; es; fs; tr] ;;;
  e0 <- esp_at esp 0 ;; e1 <- esp_at esp 1 ;; e2 <- esp_at esp 2 ;;
  printk "EIP: %8x   CS: %4x  EFLAGS: %8x" [e0; e1; e2].
Definition do_nmi (esp : list Z) (error_code : Z) : M fs unit := die "nmi" esp error_code.
Definition do_debug (esp : list Z) (error_code : Z) : M fs unit := die "debug" esp error_code.
Definition do_overflow (esp : list Z) (error_code : Z) : M fs unit := die "overflow" esp error_code.
Definition do_bounds (esp : list Z) (error_code : Z) : M fs unit := die "bounds" esp error_code.
Definition do_invalid_op (esp : list Z) (error_code : Z) : M fs unit := die "invalid operand" esp error_code.
Definition do_device_not_available (esp : list Z) (error_code : Z) : M fs unit := die "device not available" esp error_code.
Definition do_coprocessor_segment_overrun (esp : list Z) (error_code : Z) : M fs unit := die "coprocessor segment overrun" esp error_code.
Definition do_invalid_TSS (esp : list Z) (error_code : Z) : M fs unit := die "invalid TSS" esp error_code.
Definition do_segment_not_present (esp : list Z) (error_code : Z) : M fs unit := die "segment not present" esp error_code.
Definition do_stack_segment (esp : list Z) (error_code : Z) : M fs unit := die "stack segment" esp error_code.
Definition do_coprocessor_error (esp : list Z) (error_code : Z) : M fs unit :=
  s <- get ;;
  if bool_decide (last_task_used_math (kern s) = Some (current (kern s))) then die "coprocessor error" esp error_code else ret tt.
Definition do_reserved (esp : list Z) (error_code : Z) : M fs unit := die "reserved (15,17-47) error" esp error_code.

(** kernel/math/math_emulate.c: no emulation, only a signal. *)
Definition SIGFPE : Z := 8.
Definition math_emulate (eip cs : Z) : M fs unit :=
  when (negb (cs =? 15)) (
    printk "math_emulate: %04x:%08x" [cs; eip] ;;;
    panic "Math emulation needed in kernel") ;;;
  first <- in_kernel (get_fs_byte eip) ;;
  second <- in_kernel (get_fs_byte (eip + 1)) ;;
  printk "%04x:%08x %02x %02x" [cs; u32 (u32 (eip + 2) - 2); first; second] ;;;
  in_kernel (mod_cur (fun t => t <| signal ::= fun x => Z.lor x (sigbit SIGFPE) |>)).
Definition math_error : M fs unit :=
  s <- get ;;
  match last_task_used_math (kern s) with
  | Some l => in_kernel (mod_task l (fun t => t <| signal ::= fun x => Z.lor x (sigbit SIGFPE) |>))
  | None => ret tt
  end.
End Handlers.

(** ** The clock *)
Section Clock.
Context {I : Ports} (rounds : nat).
Definition CMOS_READ (addr : Z) : M fs Z := fs_outb (Z.lor 128 addr) 112 ;;; inb 113.
Definition BCD_TO_BIN (val : Z) : Z := Z.land val 15 + Z.shiftr val 4 * 10.
Definition read_clock : M fs tm :=
  loop rounds (fun _ : unit =>
    sec <- CMOS_READ 0 ;; min <- CMOS_READ 2 ;; hour <- CMOS_READ 4 ;;
    mday <- CMOS_READ 7 ;; mon <- CMOS_READ 8 ;; year <- CMOS_READ 9 ;;
    again <- CMOS_READ 0 ;;
    ret (if sec =? again then inr (mk_tm sec min hour mday mon year) else inl tt)) tt.
Definition time_init : M fs unit :=
  t <- read_clock ;;
  let t := mk_tm (BCD_TO_BIN (tm_sec t)) (BCD_TO_BIN (tm_min t)) (BCD_TO_BIN (tm_hour t)) (BCD_TO_BIN (tm_mday t))
    (BCD_TO_BIN (tm_mon t) - 1) (BCD_TO_BIN (tm_year t)) in
  v <- deref (kernel_mktime t) ;;
  in_kernel (modify (fun k => k <| startup_time := v |>)).
End Clock.

(** ** [main] *)

(** The sizes, from the kilobytes of extended memory. *)
Definition memory_end (ext_mem_k : Z) : Z :=
  let m := Z.land (Z.shiftl 1 20 + Z.shiftl ext_mem_k 10) 4294963200 in
  if 16 * 1024 * 1024 <? m then 16 * 1024 * 1024 else m.
Definition buffer_memory_end (m : Z) : Z :=
  if 12 * 1024 * 1024 <? m then 4 * 1024 * 1024 else if 6 * 1024 * 1024 <? m then 2 * 1024 * 1024 else 1 * 1024 * 1024.

(** What setup.s left for the kernel. *)
Record params : Type := mk_params {
  EXT_MEM_K : Z; ORIG_ROOT_DEV : Z;
  ORIG_VIDEO_COLS : Z; ORIG_VIDEO_MODE : Z; ORIG_VIDEO_EGA_BX : Z; ORIG_VIDEO_PAGE : Z; ORIG_X : Z; ORIG_Y : Z
}.
Section Main.
Context {I : Ports} (handler : trap -> Z) (rounds : nat) (port : Z -> Z) (p : params).
(** The end of the kernel and what memory holds before, as in [buffer_init]; the size of the RAM disk, if there is one. *)
Context (end_ : Z) (raw : nat -> buffer_head) (mem : Z -> list Z) (ramdisk : option Z).

Definition chr_dev_init : M fs unit := ret tt.
(** The initialisations of the components, here with the gates they set. *)
Definition rs_init : M machine unit :=
  set_intr_gate handler 36 rs1_interrupt ;;; set_intr_gate handler 35 rs2_interrupt ;;; in_fs (in_kernel (Ioctl.rs_init port)).
Definition con_init : M machine unit :=
  in_fs (in_kernel (Tty.in_console
    (Console.con_init (ORIG_VIDEO_COLS p) (ORIG_VIDEO_MODE p) (ORIG_VIDEO_EGA_BX p) (ORIG_VIDEO_PAGE p) (ORIG_X p) (ORIG_Y p) port))) ;;;
  set_trap_gate handler 33 keyboard_interrupt.
Definition tty_init : M machine unit := rs_init ;;; con_init.
Definition sched_init : M machine unit :=
  in_fs (in_kernel (Sched.sched_init port)) ;;; set_intr_gate handler 32 timer_interrupt ;;; set_system_gate handler 128 system_call.
Definition hd_init : M machine unit := in_fs Hd.hd_init ;;; set_intr_gate handler 46 hd_interrupt.
Definition floppy_init : M machine unit := in_fs Floppy.floppy_init ;;; set_trap_gate handler 38 floppy_interrupt.
(** Up to [sti] and [move_to_user_mode]; what follows runs as a process. *)
Definition main : M machine unit :=
  in_fs (modify (fun s => s <| ROOT_DEV := ORIG_ROOT_DEV p |>)) ;;;
  let memory_end := memory_end (EXT_MEM_K p) in
  let buffer_memory_end := buffer_memory_end memory_end in
  main_memory_start <- match ramdisk with
                       | Some k => v <- in_fs (rd_init buffer_memory_end (k * 1024)) ;; ret (buffer_memory_end + v)
                       | None => ret buffer_memory_end
                       end ;;
  in_mm (Memory.mem_init main_memory_start memory_end) ;;;
  trap_init handler ;;;
  in_fs blk_dev_init ;;;
  in_fs chr_dev_init ;;;
  tty_init ;;;
  in_fs (time_init rounds) ;;;
  sched_init ;;;
  in_fs (buffer_init end_ raw mem buffer_memory_end) ;;;
  hd_init ;;;
  floppy_init.
End Main.

(** ** Gates *)
Definition gate_offset (g : gate) : Z := Z.lor (Z.land (fst g) 65535) (Z.land (snd g) 4294901760).
Definition gate_dpl (g : gate) : Z := Z.land (Z.shiftr (snd g) 13) 3.
Definition gate_type (g : gate) : Z := Z.land (Z.shiftr (snd g) 8) 31.
(** Which entry point a vector has. *)
Definition vector (n : Z) : trap :=
  if n =? 39 then parallel_interrupt else if n =? 45 then irq13 else
  default reserved ([divide_error; debug; nmi; int3; overflow; bounds; invalid_op; device_not_available; double_fault;
    coprocessor_segment_overrun; invalid_TSS; segment_not_present; stack_segment; general_protection; page_fault;
    reserved; coprocessor_error] !! Z.to_nat n).
Definition vector_dpl (n : Z) : Z := if (3 <=? n) && (n <=? 5) then 3 else 0.
Definition vector_gate (handler : trap -> Z) (n : Z) : gate := _set_gate 15 (vector_dpl n) (handler (vector n)).
(** The gates of the devices and of system calls. *)
Definition device_gate (handler : trap -> Z) (n : Z) : option gate :=
  if n =? 32 then Some (_set_gate 14 0 (handler timer_interrupt)) else
  if n =? 33 then Some (_set_gate 15 0 (handler keyboard_interrupt)) else
  if n =? 35 then Some (_set_gate 14 0 (handler rs2_interrupt)) else
  if n =? 36 then Some (_set_gate 14 0 (handler rs1_interrupt)) else
  if n =? 38 then Some (_set_gate 15 0 (handler floppy_interrupt)) else
  if n =? 46 then Some (_set_gate 14 0 (handler hd_interrupt)) else
  if n =? 128 then Some (_set_gate 15 3 (handler system_call)) else None.
(** The table with [n] set, all other entries kept. *)
Definition with_gates (gates : list (Z * gate)) (t : gmap Z gate) : gmap Z gate := foldl (fun t '(n, g) => <[n := g]> t) t gates.

(** ** Input and output *)
Definition reading (n : nat) (s : fs) : fs := s <| drv ::= fun d => d <| port_reads ::= Nat.add n |> |>.
(** [n] ports were read, and ports written. *)
Definition ports_only (n : nat) (s s' : fs) : Prop := s' = reading n (s <| kern ::= fun k => k <| con := con (kern s') |> |>).
Section Lemmas.
Context {I : Ports}.
Definition answer (n : nat) (port : Z) : Z := u8 (port_in n port).
Lemma ports_only_refl s : ports_only 0 s s.
Proof. unfold ports_only, reading. destruct s as [k]; destruct k. by destruct drv. Qed.
Lemma con_twice (k : kernel) a b : (k <| con := a |>) <| con := b |> = k <| con := b |>.
Proof. by destruct k. Qed.
Lemma port_reads_twice d n m : (d <| port_reads ::= Nat.add n |>) <| port_reads ::= Nat.add m |> = d <| port_reads ::= Nat.add (n + m) |>.
Proof. destruct d. unfold upd, upd_port_reads. cbn. f_equal. lia. Qed.
Lemma kern_drv_twice s (f g : kernel -> kernel) (f' g' : drivers -> drivers) :
  ((s <| kern ::= f |>) <| drv ::= f' |>) <| kern ::= g |> <| drv ::= g' |> = (s <| kern ::= fun k => g (f k) |>) <| drv ::= fun d => g' (f' d) |>.
Proof. by destruct s. Qed.
Lemma kern_drv_ext s (f g : kernel -> kernel) (f' g' : drivers -> drivers) : f (kern s) = g (kern s) -> f' (drv s) = g' (drv s) ->
  (s <| kern ::= f |>) <| drv ::= f' |> = (s <| kern ::= g |>) <| drv ::= g' |>.
Proof. intros H1 H2. unfold upd, upd_kern, upd_drv. cbn. by rewrite H1, H2. Qed.
Lemma ports_only_trans n m s1 s2 s3 : ports_only n s1 s2 -> ports_only m s2 s3 -> ports_only (n + m) s1 s3.
Proof.
  unfold ports_only, reading. intros E2 E3. rewrite E3 at 1. rewrite E2 at 1. rewrite kern_drv_twice. apply kern_drv_ext; [apply con_twice|apply port_reads_twice].
Qed.
Lemma inb_wp port s Q : Q (answer (port_reads (drv s)) port) (reading 1 s) -> wp (inb port) Q s.
Proof. done. Qed.
Lemma outb_wp v port s (Q : unit -> fs -> Prop) : (forall s', ports_only 0 s s' -> Q tt s') -> wp (fs_outb v port) Q s.
Proof.
  intros H. unfold fs_outb, in_kernel, zoom, Sched.outb, modify, wp. apply H. unfold ports_only, reading. by destruct s as [k]; destruct k; destruct drv.
Qed.
Lemma reading_ports n s : ports_only n s (reading n s).
Proof. unfold ports_only, reading. destruct s as [k]; destruct k. by destruct drv. Qed.
Lemma port_reads_only n s s' : ports_only n s s' -> port_reads (drv s') = (n + port_reads (drv s))%nat.
Proof. intros ->. done. Qed.

(** ** The clock *)
Lemma CMOS_READ_wp addr s Q : (forall s', ports_only 1 s s' -> Q (answer (port_reads (drv s)) 113) s') -> wp (CMOS_READ addr) Q s.
Proof.
  intros H. unfold CMOS_READ. apply wp_bind, outb_wp. intros s1 H1. apply inb_wp. rewrite (port_reads_only 0 s s1 H1). apply H.
  apply (ports_only_trans 0 1 s s1); [done|apply reading_ports].
Qed.
(** One round of [read_clock] from read number [n] on: what the clock answers. *)
Definition clock_at (n : nat) : tm :=
  mk_tm (answer n 113) (answer (1 + n) 113) (answer (2 + n) 113) (answer (3 + n) 113) (answer (4 + n) 113) (answer (5 + n) 113).
Definition steady (n : nat) : Prop := answer n 113 = answer (6 + n) 113.
Lemma read_clock_run k : forall rounds s (n := port_reads (drv s)), (k < rounds)%nat ->
  (forall j, (j < k)%nat -> ~ steady (7 * j + n)) -> steady (7 * k + n) ->
  wp (read_clock rounds) (fun t s' => t = clock_at (7 * k + n) /\ ports_only (7 * k + 7) s s') s.
Proof.
  induction k as [|k IH]; intros rounds s n Hk Hno Hyes; (destruct rounds as [|m]; [lia|]); unfold read_clock; cbn [loop];
    apply wp_bind;
    (apply wp_bind, CMOS_READ_wp; intros s1 H1; apply wp_bind, CMOS_READ_wp; intros s2 H2; apply wp_bind, CMOS_READ_wp; intros s3 H3; apply wp_bind, CMOS_READ_wp; intros s4 H4;
     apply wp_bind, CMOS_READ_wp; intros s5 H5; apply wp_bind, CMOS_READ_wp; intros s6 H6; apply wp_bind, CMOS_READ_wp; intros s7 H7);
    rewrite (port_reads_only 1 s5 s6 H6), (port_reads_only 1 s4 s5 H5), (port_reads_only 1 s3 s4 H4), (port_reads_only 1 s2 s3 H3), (port_reads_only 1 s1 s2 H2), (port_reads_only 1 s s1 H1);
    assert (ports_only 7 s s7) as H by (do 6 (eapply (ports_only_trans 1); [eassumption|]); done);
    change (port_reads (drv s)) with n; apply wp_ret.
  - change (answer (1 + (1 + (1 + (1 + (1 + (1 + n)))))) 113) with (answer (6 + n) 113). rewrite (proj2 (Z.eqb_eq (answer n 113) (answer (6 + n) 113))) by done.
    by apply wp_ret.
  - change (answer (1 + (1 + (1 + (1 + (1 + (1 + n)))))) 113) with (answer (6 + n) 113).
    rewrite (proj2 (Z.eqb_neq (answer n 113) (answer (6 + n) 113))) by (apply (Hno 0%nat); lia).
    pose proof (port_reads_only 7 s s7 H) as E7. change (port_reads (drv s)) with n in E7.
    eapply wp_mono; [apply (IH m s7); [lia|..]|].
    + intros j Hj. rewrite E7. replace (7 * j + (7 + n))%nat with (7 * S j + n)%nat by lia. apply Hno. lia.
    + rewrite E7. by replace (7 * k + (7 + n))%nat with (7 * S k + n)%nat by lia.
    + cbv beta. intros t s' [-> Hs']. rewrite E7. split; [f_equal; lia|]. replace (7 * S k + 7)%nat with (7 + (7 * k + 7))%nat by lia. by apply (ports_only_trans _ _ s s7).
Qed.
(** A number below 100 in two decimal digits. *)
Definition bcd (v : Z) : Z := 16 * (v / 10) + v mod 10.
Lemma BCD_TO_BIN_bcd v : 0 <= v < 100 -> BCD_TO_BIN (bcd v) = v.
Proof.
  intros H. unfold BCD_TO_BIN, bcd. change 15 with (Z.ones 4). rewrite Z.land_ones, Z.shiftr_div_pow2 by lia. change (2 ^ 4) with 16. dlia.
Qed.
(** The clock shows the date [d] from read number [n] on. *)
Definition shows (n : nat) (d : tm) : Prop :=
  clock_at n = mk_tm (bcd (tm_sec d)) (bcd (tm_min d)) (bcd (tm_hour d)) (bcd (tm_mday d)) (bcd (tm_mon d + 1)) (bcd (tm_year d)) /\ steady n.
Lemma days_in_month_le y m : days_in_month y m <= 31.
Proof. unfold days_in_month. destruct (m =? 1); [by destruct (is_leap y)|]. by destruct (_ || _). Qed.
Lemma time_init_run k rounds s d (n := port_reads (drv s)) : (k < rounds)%nat -> (forall j, (j < k)%nat -> ~ steady (7 * j + n)) ->
  shows (7 * k + n) d -> 70 <= tm_year d <= 99 -> valid_tm d ->
  wp (time_init rounds) (fun _ s' => exists s1, ports_only (7 * k + 7) s s1 /\ s' = s1 <| kern ::= fun x => x <| startup_time := i32 (epoch_seconds d) |> |>) s.
Proof.
  intros Hk Hno [Hat Hyes] Hy Hv. pose proof Hv as (Hmon & Hday & Hh & Hmi & Hs). unfold time_init. apply wp_bind.
  eapply wp_mono; [by apply (read_clock_run k)|]. cbv beta. intros t s1 [-> H1]. fold n. rewrite Hat. cbn [tm_sec tm_min tm_hour tm_mday tm_mon tm_year].
  pose proof (days_in_month_le (1900 + tm_year d) (tm_mon d)). rewrite !BCD_TO_BIN_bcd, Z.add_simpl_r by lia.
  assert (mk_tm (tm_sec d) (tm_min d) (tm_hour d) (tm_mday d) (tm_mon d) (tm_year d) = d) as -> by (by destruct d).
  cbv zeta. rewrite (kernel_mktime_epoch d) by (done || lia). exists s1. split; [done|]. reflexivity.
Qed.

(** ** The steps of [main] *)
Lemma in_fs_wp {A} (m : M fs A) (Q : A -> machine -> Prop) s : wp m (fun a x => Q a (s <| m_fs := x |>)) (m_fs s) -> wp (in_fs m) Q s.
Proof. unfold wp, in_fs, zoom. by destruct (m (m_fs s)). Qed.
Lemma in_mm_wp {A} (m : M Memory.mm A) (Q : A -> machine -> Prop) s : wp m (fun a x => Q a (s <| m_mm := x |>)) (m_mm s) -> wp (in_mm m) Q s.
Proof. unfold wp, in_mm, zoom. by destruct (m (m_mm s)). Qed.
Lemma in_kernel_wp {A} (m : M kernel A) (Q : A -> fs -> Prop) s : wp m (fun a x => Q a (s <| kern := x |>)) (kern s) -> wp (in_kernel m) Q s.
Proof. unfold wp, in_kernel, zoom. by destruct (m (kern s)). Qed.
Lemma reserved_gates handler s : wp (for_each (seqZ 17 31) (fun i => set_trap_gate handler i reserved)) (fun _ s' =>
  (forall n, idt s' !! n = if decide (17 <= n < 48) then Some (_set_gate 15 0 (handler reserved)) else idt s !! n) /\
  m_mm s' = m_mm s /\ m_fs s' = m_fs s) s.
Proof.
  eapply wp_mono; [apply (wp_for_seq 31 _ (fun i s' =>
    (forall n, idt s' !! n = if decide (17 <= n < i) then Some (_set_gate 15 0 (handler reserved)) else idt s !! n) /\
    m_mm s' = m_mm s /\ m_fs s' = m_fs s) 17); [lia| |]|by cbv beta].
  - intros i s1 Hi (H1 & H2 & H3). apply wp_modify. split; [|done]. intros n. change (<[i := _set_gate 15 0 (handler reserved)]> (idt s1) !! n = if decide (17 <= n < i + 1) then Some (_set_gate 15 0 (handler reserved)) else idt s !! n).
    rewrite lookup_insert, H1. repeat case_decide; try done; lia.
  - split; [|done]. intros n. by rewrite decide_False by lia.
Qed.
Lemma trap_init_run handler s : wp (trap_init handler) (fun _ s' =>
  (forall n, idt s' !! n = if decide (0 <= n < 48) then Some (vector_gate handler n) else idt s !! n) /\
  m_mm s' = m_mm s /\ ports_only 2 (m_fs s) (m_fs s')) s.
Proof.
  unfold trap_init. do 17 apply wp_bind, wp_modify. set (s1 := upd idt _ _). apply wp_bind. eapply wp_mono; [apply reserved_gates|].
  cbv beta. intros [] s2 (H1 & H2 & H3). apply wp_bind, wp_modify. set (s3 := upd idt _ _). apply wp_bind.
  apply in_fs_wp. apply wp_bind, inb_wp, wp_bind, outb_wp. intros u1 U1. apply wp_bind, inb_wp, outb_wp. intros u2 U2.
  assert (ports_only 2 (m_fs s3) u2) as Hio.
  { apply (ports_only_trans 1 1 _ (reading 1 (m_fs s3))); [apply reading_ports|]. apply (ports_only_trans 0 1 _ u1); [done|].
    apply (ports_only_trans 1 0 _ (reading 1 u1)); [apply reading_ports|done]. }
  apply wp_modify. set (s4 := upd idt _ _). change (m_fs s3) with (m_fs s2) in Hio. rewrite H3 in Hio.
  split; [|split; [exact H2|exact Hio]].
  intros n. change (idt s4) with (<[39 := _set_gate 15 0 (handler parallel_interrupt)]> (<[45 := _set_gate 15 0 (handler irq13)]> (idt s2))).
  rewrite !lookup_insert, H1. unfold vector_gate, vector, vector_dpl.
  destruct (decide (39 = n)) as [<-|N1]; [done|]. destruct (decide (45 = n)) as [<-|N2]; [done|].
  rewrite (proj2 (Z.eqb_neq n 39)), (proj2 (Z.eqb_neq n 45)) by lia.
  destruct (decide (17 <= n < 48)) as [Hn|Hn].
  - rewrite decide_True by lia. rewrite (proj2 (lookup_ge_None _ _)) by (cbn; lia). cbn [default]. rewrite (proj2 (Z.leb_gt n 5)) by lia. by rewrite andb_false_r.
  - unfold s1. cbn [upd upd_idt idt]. rewrite !lookup_insert. destruct (decide (0 <= n < 48)) as [Hn2|Hn2].
    + assert (exists k, n = Z.of_nat k /\ (k < 17)%nat) as (k & -> & Hk) by (exists (Z.to_nat n); lia). rewrite Nat2Z.id. do 17 (destruct k as [|k]; [reflexivity|]). lia.
    + repeat (rewrite decide_False by lia). done.
Qed.
(** The console is started without leaving the video memory. *)
Lemma con_init_run cols mode ega_bx page x y port c : 4 <= cols <= 132 -> wp (Console.con_init cols mode ega_bx page x y port) (fun _ _ => True) c.
Proof.
  intros Hc. unfold Console.con_init. apply wp_bind, wp_modify, wp_bind, wp_get, wp_bind. set (c1 := Console.detect cols mode ega_bx page c).
  assert (forall l p c, Console.video_mem_start c <= p -> p + 2 * Z.of_nat (length l) <= Console.video_mem_end c ->
    wp (Console.show_desc l p) (fun _ _ => True) c) as Hshow.
  { clear. induction l as [|ch l IH]; intros p c H1 H2; [done|]. cbn [length] in H2. cbn [Console.show_desc].
    assert (Console.in_video c p = true) as Hin by (unfold Console.in_video; apply andb_true_iff; split; apply Z.leb_le; lia).
    apply wp_bind. unfold wp at 1, Console.peek_word. rewrite Hin. apply wp_bind. unfold wp at 1, Console.poke_word. rewrite Hin. apply IH; cbn; lia. }
  eapply wp_mono.
  - apply Hshow.
    + unfold c1, Console.detect; cbn. lia.
    + unfold c1, Console.detect; cbn. unfold Console.display_desc. destruct (mode =? 7), (negb (Z.land ega_bx 255 =? 16)); cbn; lia.
  - cbv beta. intros [] c2 _. apply wp_bind, wp_modify, wp_bind. eapply (wp_mono _ (fun _ _ => True)); [|cbv beta; intros [] c3 _; exact Logic.I].
    unfold Console.gotoxy. apply wp_bind, wp_get. cbv zeta. destruct (_ || _); exact Logic.I.
Qed.

(** The kernel with another console. *)
Definition console_only (k k' : kernel) : Prop := k' = k <| con := con k' |>.
Lemma console_only_trans k1 k2 k3 : console_only k1 k2 -> console_only k2 k3 -> console_only k1 k3.
Proof. unfold console_only. intros E2 E3. rewrite E3 at 1. rewrite E2 at 1. apply con_twice. Qed.
Lemma Sched_outb_wp v port k (Q : unit -> kernel -> Prop) : (forall k', console_only k k' -> Q tt k') -> wp (Sched.outb v port) Q k.
Proof. intros H. apply wp_modify, H. unfold console_only. by destruct k. Qed.
Lemma serial_init_wp port k (Q : unit -> kernel -> Prop) : (forall k', console_only k k' -> Q tt k') -> wp (Ioctl.init port) Q k.
Proof.
  intros H. unfold Ioctl.init. apply wp_bind, Sched_outb_wp. intros k1 H1. apply wp_bind, Sched_outb_wp. intros k2 H2. apply wp_bind, Sched_outb_wp. intros k3 H3.
  apply wp_bind, Sched_outb_wp. intros k4 H4. apply wp_bind, Sched_outb_wp. intros k5 H5. apply Sched_outb_wp. intros k6 H6. apply H.
  do 5 (eapply console_only_trans; [eassumption|]). done.
Qed.
Lemma rs_init_run port k : length (tty_table k) = 3%nat -> wp (Ioctl.rs_init port) (fun _ k' => console_only k k') k.
Proof.
  intros Ht. destruct (lookup_lt_is_Some_2 (tty_table k) 1) as [t1 H1]; [lia|]. destruct (lookup_lt_is_Some_2 (tty_table k) 2) as [t2 H2]; [lia|].
  unfold Ioctl.rs_init, Tty.get_tty. apply wp_bind, wp_bind, wp_get, (wp_deref _ _ _ t1 H1), wp_bind, serial_init_wp. intros k1 E1.
  apply wp_bind, wp_bind, wp_get. assert (tty_table k1 = tty_table k) as -> by (by rewrite E1). apply (wp_deref _ _ _ t2 H2), wp_bind, serial_init_wp. intros k2 E2.
  apply Sched_outb_wp. intros k3 E3. do 2 (eapply console_only_trans; [eassumption|]). done.
Qed.
Lemma in_console_run {A} (m : M Console.console A) k : wp m (fun _ _ => True) (con k) -> wp (Tty.in_console m) (fun _ k' => console_only k k') k.
Proof. unfold Tty.in_console, zoom, wp. by destruct (m (con k)). Qed.
Lemma tty_init_run handler port p s : length (tty_table (kern (m_fs s))) = 3%nat -> 4 <= ORIG_VIDEO_COLS p <= 132 ->
  wp (tty_init handler port p) (fun _ s' => exists k', console_only (kern (m_fs s)) k' /\
    s' = s <| m_fs ::= fun f => f <| kern := k' |> |> <| idt ::= with_gates
      [(36, _set_gate 14 0 (handler rs1_interrupt)); (35, _set_gate 14 0 (handler rs2_interrupt)); (33, _set_gate 15 0 (handler keyboard_interrupt))] |>) s.
Proof.
  intros Ht Hc. unfold tty_init, rs_init, con_init. apply wp_bind, wp_bind, wp_modify, wp_bind, wp_modify, in_fs_wp, in_kernel_wp.
  eapply wp_mono; [by apply rs_init_run|]. cbv beta. intros [] k1 E1. apply wp_bind, in_fs_wp, in_kernel_wp. eapply wp_mono; [by apply in_console_run, con_init_run|].
  cbv beta. intros [] k2 E2. apply wp_modify. exists k2. split; [by apply (console_only_trans _ k1)|]. destruct s as [mm f g]. by destruct f.
Qed.
(** The first [i] requests are free. *)
Lemma blk_dev_init_run s : length (request s) = NR_REQUEST -> wp blk_dev_init (fun _ s' =>
  length (request s') = NR_REQUEST /\ (forall j r, request s' !! j = Some r -> r_dev r = -1 /\ r_next r = None) /\ s' = s <| request := request s' |>) s.
Proof.
  intros Hl. unfold blk_dev_init. set (Inv := fun l s' => exists i, l = seq i (NR_REQUEST - i) /\ (i <= NR_REQUEST)%nat /\ length (request s') = NR_REQUEST /\
    (forall j r, (j < i)%nat -> request s' !! j = Some r -> r_dev r = -1 /\ r_next r = None) /\ s' = s <| request := request s' |>).
  eapply wp_mono; [apply (wp_for_each _ _ Inv)|].
  - intros i l s1 (a & E & Ha & H1 & H2 & H3). destruct (NR_REQUEST - a)%nat as [|m] eqn:Em; [done|]. injection E as <- ->.
    destruct (lookup_lt_is_Some_2 (request s1) i) as [r Hr]; [lia|]. unfold wp. rewrite (mod_req_run s1 i r _ Hr). exists (S i).
    split; [f_equal; lia|]. split; [lia|]. split; [cbn; by rewrite length_insert|]. split.
    + intros j x Hj Hx. cbn in Hx. destruct (decide (j = i)) as [->|Hne]; [rewrite list_lookup_insert_eq in Hx by lia; by injection Hx as <-|].
      rewrite list_lookup_insert_ne in Hx by done. apply (H2 j); [lia|done].
    + rewrite H3 at 1. by destruct s.
  - exists 0%nat. split; [done|]. split; [lia|]. split; [done|]. split; [lia|]. by destruct s.
  - cbv beta. intros [] s' (a & E & Ha & H1 & H2 & H3). split; [done|]. split; [|done]. intros j r Hj. apply (H2 j); [|done].
    destruct (NR_REQUEST - a)%nat eqn:En; [|done]. apply lookup_lt_Some in Hj. lia.
Qed.
(** Only task 0 is left. *)
Lemma sched_init_kernel port k : wp (Sched.sched_init port) (fun _ k' => (forall i, (1 <= i < NR_TASKS)%nat -> slot k' i = None) /\
  slot k' 0 = slot k 0 /\ startup_time k' = startup_time k /\ wchan k' = wchan k) k.
Proof.
  unfold Sched.sched_init. apply wp_bind. set (Inv := fun l k' => exists i, l = seq i (NR_TASKS - i) /\ (1 <= i <= NR_TASKS)%nat /\
    (forall j, (1 <= j < i)%nat -> slot k' j = None) /\ slot k' 0 = slot k 0 /\ startup_time k' = startup_time k /\ wchan k' = wchan k).
  eapply wp_mono; [apply (wp_for_each _ _ Inv)|].
  - intros i l k1 (a & E & Ha & H1 & H2 & H3). destruct (NR_TASKS - a)%nat as [|m] eqn:Em; [done|]. injection E as <- ->. apply wp_modify. exists (S i).
    split; [f_equal; lia|]. split; [lia|]. unfold slot in *. cbn. split; [|split; [rewrite list_lookup_insert_ne by lia; done|done]].
    intros j Hj. destruct (decide (j = i)) as [->|Hne]; [|rewrite list_lookup_insert_ne by done; apply H1; lia].
    destruct (decide (i < length (task k1))%nat); [by rewrite list_lookup_insert_eq|]. by rewrite (proj2 (lookup_ge_None _ _)) by (rewrite length_insert; lia).
  - exists 1%nat. split; [done|]. split; [unfold NR_TASKS; lia|]. split; [lia|done].
  - cbv beta. intros [] k1 (a & E & Ha & H1 & H2 & H3 & H4). assert (a = NR_TASKS) as -> by (destruct (NR_TASKS - a)%nat eqn:En; [lia|done]).
    apply wp_bind, Sched_outb_wp. intros k2 E2. apply wp_bind, Sched_outb_wp. intros k3 E3. apply wp_bind, Sched_outb_wp. intros k4 E4. apply Sched_outb_wp. intros k5 E5.
    assert (console_only k1 k5) as -> by (do 3 (eapply console_only_trans; [eassumption|]); done). done.
Qed.

Lemma sched_init_run handler port s : wp (sched_init handler port) (fun _ s' => exists k',
  ((forall i, (1 <= i < NR_TASKS)%nat -> slot k' i = None) /\ slot k' 0 = slot (kern (m_fs s)) 0 /\
   startup_time k' = startup_time (kern (m_fs s)) /\ wchan k' = wchan (kern (m_fs s))) /\
  s' = s <| m_fs ::= fun f => f <| kern := k' |> |> <| idt ::= with_gates
    [(32, _set_gate 14 0 (handler timer_interrupt)); (128, _set_gate 15 3 (handler system_call))] |>) s.
Proof.
  unfold sched_init. apply wp_bind, in_fs_wp, in_kernel_wp. eapply wp_mono; [apply sched_init_kernel|]. cbv beta. intros [] k1 H1.
  apply wp_bind, wp_modify, wp_modify. exists k1. split; [exact H1|]. destruct s as [mm f g]. by destruct f.
Qed.

(** ** Coprocessor *)
Lemma math_emulate_run eip cs s t : slot (kern s) (current (kern s)) = Some t ->
  math_emulate eip cs s = if cs =? 15 then
    let code a := default 0 (umem (kern s) !! u32 a) in
    Done tt (s <| klog ::= fun l => l ++ [("%04x:%08x %02x %02x", [cs; u32 (u32 (eip + 2) - 2); code eip; code (eip + 1)])] |>
               <| kern ::= fun k => k <| task ::= <[current k := Some (t <| signal := Z.lor (signal t) 128 |>)]> |> |>)
  else Panic "Math emulation needed in kernel".
Proof.
  intros Ht. unfold math_emulate. destruct (cs =? 15); [|done]. unfold when, negb, bind, ret, in_kernel, zoom, get_fs_byte, gets, printk, modify. cbn [kern].
  by rewrite (mod_cur_run _ _ t) by exact Ht.
Qed.

(** ** Sizes *)
Lemma memory_end_ok k : 0 <= k < 65536 -> 1048576 <= memory_end k <= 16777216 /\ memory_end k mod 4096 = 0.
Proof.
  intros Hk. unfold memory_end. rewrite !Z.shiftl_mul_pow2 by lia. rewrite Memory.mask_page_r by lia. cbv zeta.
  destruct (Z.ltb_spec (16 * 1024 * 1024) (4096 * ((1 * 2 ^ 20 + k * 2 ^ 10) / 4096))); [done|]. split; [dlia|]. rewrite Z.mul_comm, Z.mod_mul; lia.
Qed.
Lemma buffer_memory_end_ok m : 1048576 <= m -> 1048576 <= buffer_memory_end m <= m /\ buffer_memory_end m mod 4096 = 0.
Proof. intros Hm. unfold buffer_memory_end. destruct (Z.ltb_spec (12 * 1024 * 1024) m); [done || (split; [lia|done])|]. destruct (Z.ltb_spec (6 * 1024 * 1024) m); split; try done; lia. Qed.
Lemma quiet_frame s s' : bufs s' = bufs s -> hash_table s' = hash_table s -> free_list s' = free_list s -> quiet s -> quiet s'.
Proof.
  intros Eb Eh Ef [(fl & ch & Hok) Hcalm]. split; [|unfold calm; by rewrite Eb].
  exists fl, ch. apply (cache_ok_keyed s); [done| | |by split]; rewrite Eb; [done|apply (ok_range _ _ _ Hok)].
Qed.

(** ** The machine before and after [main] *)
Record loaded (s : machine) : Prop := {
  ld_map : length (Memory.mem_map (m_mm s)) = 3840%nat;
  ld_ram w : 0 <= Memory.ram (m_mm s) w < 4294967296;
  ld_dirs d : 16 <= d < 1024 -> Z.odd (Memory.ram (m_mm s) d) = false;
  ld_request : length (request (m_fs s)) = NR_REQUEST;
  ld_blk : length (blk_dev (m_fs s)) = 7%nat;
  ld_tty : length (tty_table (kern (m_fs s))) = 3%nat;
  ld_wait : no_waiters (m_fs s)
}.
Definition main_memory_start (p : params) (ramdisk : option Z) : Z :=
  buffer_memory_end (memory_end (EXT_MEM_K p)) + match ramdisk with Some k => k * 1024 | None => 0 end.
Definition ram_disk (s s' : fs) : Prop := blk_dev s' !! 1%nat = blk_dev s !! 1%nat /\ rd_start s' = rd_start s /\ rd_length s' = rd_length s /\ rd_data s' = rd_data s.
(** The devices: all but the request functions, the console and the number of reads stays. *)
Definition devices_only (s s' : fs) : Prop :=
  bufs s' = bufs s /\ hash_table s' = hash_table s /\ free_list s' = free_list s /\ request s' = request s /\ ROOT_DEV s' = ROOT_DEV s /\
  rd_start s' = rd_start s /\ rd_length s' = rd_length s /\ rd_data s' = rd_data s /\ console_only (kern s) (kern s').
Lemma ports_devices n s s' : ports_only n s s' -> devices_only s s' /\ blk_dev s' = blk_dev s.
Proof.
  intros E. split; [|by rewrite E]. assert (console_only (kern s) (kern s')) as Hk by (rewrite E; unfold console_only; by destruct s as [k]; destruct k).
  do 8 (split; [rewrite E; done|]). exact Hk.
Qed.
Lemma hd_init_fs s d : blk_dev s !! 3%nat = Some d -> wp Hd.hd_init (fun _ s' => devices_only s s' /\
  blk_dev s' = <[3%nat := d <| request_fn := Some do_hd_request_fn |>]> (blk_dev s)) s.
Proof.
  intros H3. unfold Hd.hd_init. apply wp_bind. unfold wp at 1. rewrite (mod_dev_run s 3 d _ H3). set (s1 := s <| blk_dev ::= _ |>).
  apply wp_bind, inb_wp, wp_bind, outb_wp. intros s2 E2. apply wp_bind, inb_wp, outb_wp. intros s3 E3.
  assert (ports_only 2 s1 s3) as E.
  { apply (ports_only_trans 1 1 _ (reading 1 s1)); [apply reading_ports|]. apply (ports_only_trans 0 1 _ s2); [done|].
    apply (ports_only_trans 1 0 _ (reading 1 s2)); [apply reading_ports|done]. }
  exact (ports_devices 2 s1 s3 E).
Qed.
Lemma floppy_init_fs s d : blk_dev s !! 2%nat = Some d -> wp Floppy.floppy_init (fun _ s' => devices_only s s' /\
  blk_dev s' = <[2%nat := d <| request_fn := Some do_fd_request_fn |>]> (blk_dev s)) s.
Proof.
  intros H2. unfold Floppy.floppy_init. apply wp_bind. unfold wp at 1. rewrite (mod_dev_run s 2 d _ H2). set (s1 := s <| blk_dev ::= _ |>).
  apply wp_bind, inb_wp, outb_wp. intros s2 E2. refine (ports_devices 1 s1 s2 _). by apply (ports_only_trans 1 0 _ (reading 1 s1)); [apply reading_ports|].
Qed.
Lemma devices_only_trans s1 s2 s3 : devices_only s1 s2 -> devices_only s2 s3 -> devices_only s1 s3.
Proof.
  intros (A1 & A2 & A3 & A4 & A5 & A6 & A7 & A8 & A9) (B1 & B2 & B3 & B4 & B5 & B6 & B7 & B8 & B9).
  do 8 (split; [congruence|]). by apply (console_only_trans _ (kern s2)).
Qed.
Lemma init_devices_run handler s : length (blk_dev (m_fs s)) = 7%nat -> wp (hd_init handler ;;; floppy_init handler) (fun _ s' => exists f,
  (devices_only (m_fs s) f /\ ram_disk (m_fs s) f /\
   request_fn <$> blk_dev f !! 3%nat = Some (Some do_hd_request_fn) /\ request_fn <$> blk_dev f !! 2%nat = Some (Some do_fd_request_fn)) /\
  s' = s <| m_fs := f |> <| idt ::= with_gates
    [(46, _set_gate 14 0 (handler hd_interrupt)); (38, _set_gate 15 0 (handler floppy_interrupt))] |>) s.
Proof.
  intros Hl. destruct (lookup_lt_is_Some_2 (blk_dev (m_fs s)) 3) as [d3 H3]; [lia|]. destruct (lookup_lt_is_Some_2 (blk_dev (m_fs s)) 2) as [d2 H2]; [lia|].
  unfold hd_init, floppy_init. apply wp_bind, wp_bind, in_fs_wp. eapply wp_mono; [by apply hd_init_fs|]. cbv beta. intros [] f1 [D1 E1]. apply wp_modify, wp_bind, in_fs_wp.
  eapply wp_mono; [apply (floppy_init_fs _ d2); cbn [upd upd_m_fs upd_idt m_fs]; by rewrite E1, list_lookup_insert_ne|]. cbv beta. intros [] f2 [D2 E2]. apply wp_modify.
  cbn [upd upd_m_fs upd_idt m_fs] in E2, D2. pose proof (devices_only_trans _ _ _ D1 D2) as D. exists f2. split; [|done]. split; [done|].
  destruct D as (_ & _ & _ & _ & _ & C1 & C2 & C3 & _). rewrite E1 in E2. unfold ram_disk. rewrite E2. split; [split; [by rewrite !list_lookup_insert_ne|done]|]. split.
  - rewrite list_lookup_insert_ne by done. by rewrite list_lookup_insert_eq by lia.
  - by rewrite list_lookup_insert_eq by (rewrite length_insert; lia).
Qed.

(** [buffer_init] touches nothing of the kernel. *)
Definition keeps {A} (m : M fs A) : Prop := forall s a s', m s = Done a s' -> no_waiters s -> kern s' = kern s /\ ROOT_DEV s' = ROOT_DEV s.
Lemma keeps_bind {A B} (m : M fs A) (f : A -> M fs B) : keeps m -> (forall a, keeps (f a)) -> keeps (a <- m ;; f a).
Proof.
  intros Hm Hf s b s' E Hw. unfold bind in E. destruct (m s) as [a s1| | |] eqn:Em; try done. destruct (Hm s a s1 Em Hw) as [K1 R1].
  destruct (Hf a s1 b s' E) as [K2 R2]; [unfold no_waiters in *; by rewrite K1|]. split; congruence.
Qed.
Lemma keeps_loop {A R} (body : A -> M fs (A + R)) : (forall a, keeps (body a)) -> forall n a, keeps (loop n body a).
Proof.
  intros Hb n. induction n as [|n IH]; intros a; [by intros s b s' E|]. cbn [loop]. apply keeps_bind; [apply Hb|].
  intros [a'|r]; [apply IH|]. by intros s b s' [= <- <-].
Qed.
Lemma keeps_modify (f : fs -> fs) : (forall s, kern (f s) = kern s /\ ROOT_DEV (f s) = ROOT_DEV s) -> keeps (modify f).
Proof. intros H s a s' [= <- <-] _. apply H. Qed.
Lemma keeps_mod_buf i f : keeps (mod_buf i f).
Proof. intros s a s' E _. unfold mod_buf, get_buf, get, bind, deref, modify in E. destruct (bufs s !! i); [|done]. by injection E as <- <-. Qed.
Lemma buffer_init_keeps end_ raw mem buffer_end : keeps (buffer_init end_ raw mem buffer_end).
Proof.
  unfold buffer_init. cbv zeta. apply keeps_bind; [by apply keeps_modify|]. intros _. apply keeps_bind.
  - apply keeps_loop. intros b. unfold init_step. cbv zeta. intros s a s' E Hw. unfold bind at 1, get in E. destruct (_ <=? _); [|injection E as <- <-; by split].
    unfold bind at 1, modify in E. set (s1 := upd bufs _ s) in E. unfold bind at 1 in E. rewrite (wq_clear_waiters s1) in E; [injection E as <- <-; by split|exact Hw|unfold b_wait; lia].
  - intros _. apply keeps_bind; [by intros s a s' [= <- <-]|]. intros s. apply keeps_bind; [by apply keeps_modify|]. intros _.
    apply keeps_bind; [apply keeps_mod_buf|]. intros _. apply keeps_bind; [apply keeps_mod_buf|]. intros _. by apply keeps_modify.
Qed.
Lemma wp_keeps {A} (m : M fs A) Q s : wp m Q s -> keeps m -> no_waiters s -> wp m (fun a s' => Q a s' /\ kern s' = kern s /\ ROOT_DEV s' = ROOT_DEV s) s.
Proof. intros Hm Hk Hw. unfold wp in *. destruct (m s) as [a s'| | |] eqn:E; try done. split; [done|]. by apply (Hk s a s'). Qed.
(** What the initialisation of the devices, the clock and the cache leaves. *)
Record fs_started (d : tm) (s s' : fs) : Prop := {
  st_cache : quiet s';
  st_idle i b : bufs s' !! i = Some b -> idle b /\ b_dev b = 0;
  st_requests i r : request s' !! i = Some r -> r_dev r = -1;
  st_hd : request_fn <$> blk_dev s' !! 3%nat = Some (Some do_hd_request_fn);
  st_fd : request_fn <$> blk_dev s' !! 2%nat = Some (Some do_fd_request_fn);
  st_rd : ram_disk s s';
  st_root : ROOT_DEV s' = ROOT_DEV s;
  st_time : startup_time (kern s') = i32 (epoch_seconds d);
  st_tasks i : (1 <= i < NR_TASKS)%nat -> slot (kern s') i = None;
  st_init : slot (kern s') 0 = slot (kern s) 0;
  st_wait : no_waiters s'
}.
Section Boot.
Context (rounds k : nat) (d : tm) (port : Z -> Z) (p : params) (end_ : Z) (raw : nat -> buffer_head) (mem : Z -> list Z).
Context (Hk : (k < rounds)%nat) (Hy : 70 <= tm_year d <= 99) (Hd : valid_tm d) (Hcols : 4 <= ORIG_VIDEO_COLS p <= 132).
Context (Hend : 0 <= end_ /\ end_ + 72 <= 655360 - 2048) (Hraw : forall i, 0 <= b_blocknr (raw i) < 4294967296) (Hmem : forall b, length (mem b) = 1024%nat).
(** The clock is at an update when read [k] times from read number [n] on, and then shows [d]. *)
Definition clock (n : nat) : Prop := (forall j, (j < k)%nat -> ~ steady (7 * j + n)) /\ shows (7 * k + n) d.
Lemma init_run handler be s (f := m_fs s) : length (request f) = NR_REQUEST -> length (blk_dev f) = 7%nat -> length (tty_table (kern f)) = 3%nat ->
  no_waiters f -> clock (port_reads (drv f)) -> end_ + 72 <= be - 2048 ->
  wp (in_fs blk_dev_init ;;; in_fs chr_dev_init ;;; tty_init handler port p ;;; in_fs (time_init rounds) ;;; sched_init handler port ;;;
      in_fs (buffer_init end_ raw mem be) ;;; hd_init handler ;;; floppy_init handler) (fun _ s' =>
    fs_started d f (m_fs s') /\ m_mm s' = m_mm s /\ forall n, idt s' !! n = match device_gate handler n with Some g => Some g | None => idt s !! n end) s.
Proof.
  intros Hr Hb Ht Hw [Hno Hsh] Hbe. apply wp_bind, in_fs_wp. eapply wp_mono; [by apply blk_dev_init_run|]. cbv beta. intros [] f1 (R1 & R2 & E1).
  apply wp_bind, in_fs_wp, wp_ret, wp_bind. eapply wp_mono; [apply tty_init_run; [change (length (tty_table (kern f1)) = 3%nat); by rewrite E1|done]|]. cbv beta. intros [] s2 (k2 & E2 & Es2).
  set (f2 := f1 <| kern := k2 |>). assert (m_fs s2 = f2) as Ef2 by (by rewrite Es2).
  assert (port_reads (drv f2) = port_reads (drv f)) as En by (change (port_reads (drv f1) = port_reads (drv f)); by rewrite E1).
  apply wp_bind, in_fs_wp. rewrite Ef2. eapply wp_mono; [apply (time_init_run k); [done|rewrite En; exact Hno|rewrite En; exact Hsh|done|done]|]. cbv beta. intros [] f4 (f3 & E3 & E4).
  apply wp_bind. eapply wp_mono; [apply sched_init_run|]. cbv beta. change (m_fs (s2 <| m_fs := f4 |>)) with f4. intros [] s5 (k5 & (T1 & T2 & T3 & T4) & Es5).
  set (f5 := f4 <| kern := k5 |>). assert (m_fs s5 = f5) as Ef5 by (by rewrite Es5).
  assert (no_waiters f5) as Hw5.
  { intros q Hq. change (wchan k5 !! q = None). rewrite T4, E4, E3. change (wchan k2 !! q = None). rewrite E2. change (wchan (kern f1) !! q = None). rewrite E1. by apply Hw. }
  assert (request f5 = request f1 /\ blk_dev f5 = blk_dev f /\ ROOT_DEV f5 = ROOT_DEV f /\ ram_disk f f5 /\ slot (kern f5) 0 = slot (kern f) 0 /\ startup_time (kern f5) = i32 (epoch_seconds d)) as (F1 & F2 & F3 & F4 & F5 & F6).
  { change (slot (kern f5) 0) with (slot k5 0). change (startup_time (kern f5)) with (startup_time k5). rewrite T2, T3. unfold f5. rewrite E4, E3. unfold f2. rewrite E1.
    split; [done|]. split; [done|]. split; [done|]. split; [done|]. split; [change (slot k2 0 = slot (kern f) 0); rewrite E2; change (slot (kern f1) 0 = slot (kern f) 0); by rewrite E1|done]. }
  apply wp_bind, in_fs_wp. rewrite Ef5. eapply wp_mono; [apply wp_keeps; [apply (buffer_init_run end_ raw mem); done|apply buffer_init_keeps|done]|].
  cbv beta. intros [] f6 ((Q1 & Q2 & (D1 & D2 & D3 & D4 & D5 & _) & Q3) & K1 & K2).
  eapply wp_mono; [apply init_devices_run; change (length (blk_dev f6) = 7%nat); by rewrite D2, F2|]. cbv beta. change (m_fs (s5 <| m_fs := f6 |>)) with f6.
  intros [] s7 (f7 & ((G1 & G2 & G3 & G4 & G5 & _ & _ & _ & G6) & (G7 & G8 & G9 & G10) & G11 & G12) & Es7).
  destruct F4 as (F41 & F42 & F43 & F44). split; [|split].
  - rewrite Es7. cbn [upd upd_m_fs upd_idt m_fs]. split; try done.
    + by apply (quiet_frame f6).
    + rewrite G1. apply Q3.
    + intros i r Hi. rewrite G4, D1, F1 in Hi. by apply (R2 i).
    + split; [congruence|]. split; [congruence|]. split; congruence.
    + congruence.
    + rewrite G6, K1. exact F6.
    + intros Hi. rewrite G6, K1. by apply T1.
    + rewrite G6, K1. exact F5.
    + intros q Hq. rewrite G6, K1. by apply Hw5.
  - rewrite Es7, Es5, Es2. done.
  - intros n. rewrite Es7, Es5, Es2. cbn [upd upd_m_fs upd_idt idt with_gates foldl]. rewrite !lookup_insert. unfold device_gate.
    repeat (case_decide; [by subst|]). by repeat (rewrite (proj2 (Z.eqb_neq n _)) by congruence).
Qed.

(** The machine when [main] goes to user mode, [start] being the end of the kernel's memory. *)
Record booted (handler : trap -> Z) (ramdisk : option Z) (s s' : machine) (start := main_memory_start p ramdisk) (stop := memory_end (EXT_MEM_K p)) : Prop := {
  bt_mm : Memory.mm_ok (Memory.reserved start stop) (m_mm s');
  bt_free f : 0 <= f < 3840 -> Memory.mem_map (m_mm s') !! Z.to_nat f = Some 0 <-> start <= 4096 * (256 + f) < stop;
  bt_gates n : idt s' !! n = match device_gate handler n with Some g => Some g | None =>
    if decide (0 <= n < 48) then Some (vector_gate handler n) else idt s !! n end;
  bt_root : ROOT_DEV (m_fs s') = ORIG_ROOT_DEV p;
  bt_ramdisk l : ramdisk = Some l -> request_fn <$> blk_dev (m_fs s') !! 1%nat = Some (Some do_rd_request_fn) /\
    rd_start (m_fs s') = start - l * 1024 /\ rd_data (m_fs s') = replicate (Z.to_nat (l * 1024)) 0;
  bt_fs : exists s0, slot (kern s0) 0 = slot (kern (m_fs s)) 0 /\ fs_started d s0 (m_fs s')
}.
Lemma ramdisk_run ramdisk be s : length (blk_dev (m_fs s)) = 7%nat ->
  wp (match ramdisk with Some k => v <- in_fs (rd_init be (k * 1024)) ;; ret (be + v) | None => ret be end) (fun v s' =>
    v = be + match ramdisk with Some k => k * 1024 | None => 0 end /\ m_mm s' = m_mm s /\ idt s' = idt s /\
    request (m_fs s') = request (m_fs s) /\ kern (m_fs s') = kern (m_fs s) /\ drv (m_fs s') = drv (m_fs s) /\ ROOT_DEV (m_fs s') = ROOT_DEV (m_fs s) /\
    length (blk_dev (m_fs s')) = 7%nat /\ forall l, ramdisk = Some l -> request_fn <$> blk_dev (m_fs s') !! 1%nat = Some (Some do_rd_request_fn) /\
      rd_start (m_fs s') = be /\ rd_data (m_fs s') = replicate (Z.to_nat (l * 1024)) 0) s.
Proof.
  intros Hl. destruct ramdisk as [l|]; [|apply wp_ret; split; [lia|done]]. destruct (lookup_lt_is_Some_2 (blk_dev (m_fs s)) 1) as [x Hx]; [lia|].
  apply wp_bind, in_fs_wp. unfold rd_init. apply wp_bind. unfold wp at 1. rewrite (mod_dev_run (m_fs s) 1 x _ Hx). apply wp_bind, wp_modify, wp_ret, wp_ret.
  do 7 (split; [done|]). split; [change (length (<[1%nat := x <| request_fn := Some do_rd_request_fn |>]> (blk_dev (m_fs s))) = 7%nat); by rewrite length_insert|].
  intros l' [= <-]. split; [|done]. change (request_fn <$> <[1%nat := x <| request_fn := Some do_rd_request_fn |>]> (blk_dev (m_fs s)) !! 1%nat = Some (Some do_rd_request_fn)).
  by rewrite list_lookup_insert_eq by lia.
Qed.
(** C5: [main] of a machine whose memory holds no page tables, with a RAM disk of whole pages that fits or none, leaves every component in the state its own theorems start from:
    the pages between the end of the kernel's memory (buffers and RAM disk) and the end of memory are free and all others reserved,
    with the counts of the memory manager right; the descriptor table has the gates of traps.c, and over them those of the clock,
    keyboard, serial lines, disks and system calls, and no others; the root device is the one set at boot; the RAM disk is empty and
    has its routine, as the two disk drivers have theirs; no request is queued; the buffer cache is well formed, all its buffers unused;
    no task but the first exists; and the time of the start is the number of seconds that the date in the CMOS clock is after 1970,
    however often the clock changed while it was read. *)
Theorem main_ok handler ramdisk s (start := main_memory_start p ramdisk) : loaded s -> 0 <= EXT_MEM_K p < 65536 ->
  default 0 ramdisk mod 4 = 0 -> 0 <= default 0 ramdisk -> start <= memory_end (EXT_MEM_K p) -> clock (2 + port_reads (drv (m_fs s))) ->
  wp (main handler rounds port p end_ raw mem ramdisk) (fun _ s' => booted handler ramdisk s s') s.
Proof.
  intros [L1 L2 L3 L4 L5 L6 L7] Hx Hr4 Hr0 Hstart Hclock. destruct (memory_end_ok (EXT_MEM_K p) Hx) as [M1 M2].
  destruct (buffer_memory_end_ok (memory_end (EXT_MEM_K p))) as [B1 B2]; [lia|].
  assert (1048576 <= start /\ start mod 4096 = 0) as [S1 S2].
  { unfold start, main_memory_start. clear - B1 B2 Hr4 Hr0. set (be := buffer_memory_end _) in *. clearbody be. destruct ramdisk as [l|]; cbn [default] in *; unfold id in *; dlia. }
  unfold main. apply wp_bind, in_fs_wp, wp_modify. set (s1 := upd m_fs _ s). cbv zeta. apply wp_bind. eapply wp_mono; [by apply ramdisk_run|].
  cbv beta. intros v s2 (-> & E1 & E7 & E2 & E3 & E4 & E5 & E6 & Hrd). fold (main_memory_start p ramdisk). fold start.
  apply wp_bind, in_mm_wp. eapply wp_mono; [apply Memory.mem_init_ok; rewrite ?E1; (done || lia)|]. cbv beta. intros [] mm3 (Y1 & _ & Y2). set (s3 := upd m_mm _ s2).
  apply wp_bind. eapply wp_mono; [apply trap_init_run|]. cbv beta. intros [] s4 (T1 & T2 & T3). change (m_fs s3) with (m_fs s2) in T3.
  eapply wp_mono; [apply init_run|].
  - rewrite T3. exact (eq_trans (f_equal _ E2) L4).
  - by rewrite T3.
  - rewrite T3. change (length (tty_table (kern (m_fs s2))) = 3%nat). by rewrite E3.
  - rewrite T3. intros q Hq. change (wchan (kern (m_fs s2)) !! q = None). rewrite E3. by apply L7.
  - rewrite (port_reads_only 2 _ _ T3), E4. exact Hclock.
  - lia.
  - cbv beta. intros [] s5 (Hf & Hm & Hi). pose proof (st_rd _ _ _ Hf) as (D1 & D2 & D3 & D4). split; rewrite ?Hm, ?T2; try done.
    + intros n. rewrite Hi, T1. change (idt s3) with (idt s2). by rewrite E7.
    + rewrite (st_root _ _ _ Hf), T3. change (ROOT_DEV (m_fs s2) = ORIG_ROOT_DEV p). by rewrite E5.
    + intros l ->. destruct (Hrd l eq_refl) as (H1 & H2 & H3). rewrite D1, D2, D4, T3. split; [exact H1|]. split; [|exact H3].
      change (rd_start (m_fs s2) = main_memory_start p (Some l) - l * 1024). rewrite H2. unfold main_memory_start. lia.
    + exists (m_fs s4). split; [|exact Hf]. rewrite T3. change (slot (kern (m_fs s2)) 0 = slot (kern (m_fs s)) 0). by rewrite E3.
Qed.
End Boot.
End Lemmas.

(** ** A machine with 16 megabytes and a RAM disk of 512 blocks, on the last day of 1991 *)
Definition new_years_eve : tm := mk_tm 30 59 23 31 11 91.
(** The clock changes between the first and the last reading of the first round: 58 seconds, then 30. *)
Definition boot_clock : Ports := fun n port =>
  if port =? 113 then nth (n - 2) [41; 89; 35; 49; 18; 145; 48; 48; 89; 35; 49; 18; 145; 48] 0 else 0.
Definition boot_machine : machine := mk_machine Memory.boot_mm boot_fs ∅.
Definition boot_params : params := mk_params 15360 774 80 3 16 0 0 0.
Definition boot_handler (t : trap) : Z := match t with page_fault => 58688 | _ => 30464 end.
Lemma boot_machine_loaded : loaded boot_machine.
Proof.
  split; try (vm_compute; reflexivity); done.
Qed.
Lemma boot_clock_shows : clock (I := boot_clock) 1 new_years_eve (2 + port_reads (drv (m_fs boot_machine))).
Proof. split; [intros j Hj; assert (j = 0%nat) as -> by lia; vm_compute; discriminate|split; vm_compute; reflexivity]. Qed.
Lemma main_ok_witness :
  wp (main (I := boot_clock) boot_handler 2 (fun _ => 0) boot_params 120000 (fun _ => no_buffer) (fun _ => replicate 1024 0) (Some 512) )
    (fun _ s' => booted new_years_eve boot_params boot_handler (Some 512) boot_machine s') boot_machine.
Proof.
  apply (main_ok (I := boot_clock) 2 1 new_years_eve (fun _ => 0) boot_params 120000 (fun _ => no_buffer) (fun _ => replicate 1024 0)
    ltac:(lia) ltac:(split; vm_compute; discriminate) ltac:(repeat split; vm_compute; discriminate) ltac:(split; vm_compute; discriminate)
    ltac:(lia) blank_raw blank_mem boot_handler (Some 512) boot_machine boot_machine_loaded ltac:(split; vm_compute; done) eq_refl
    ltac:(done) ltac:(vm_compute; discriminate) boot_clock_shows).
Defined.

End Start.
